(* ===== verification/_CoqProject ===== *)
-Q . S2P
Prelude.v
Models.v
World.v
Numbers.v
Regex.v
Compat.v
Discounts.v
Referrals.v
OrderStore.v
ReferralRewards.v
Inbounds.v
Scope.v
OrderActions.v
Provisioning.v
ProvisioningSpec.v
ModernSpec.v
Submission.v
Checkout.v
CheckoutSpec.v
ApprovalFrame.v
GrantSpec.v
Inventory.v
ClientManagement.v
Cups.v
FeedFilter.v
Feeds.v
CupsSpec.v
FeedsSpec.v
FeedFill.v
PlanDelivery.v
CupRecipes.v
DeliveryConfig.v
Assignment.v
DeliveryFrame.v
ManagementSpec.v
Automation.v
AutomationSpec.v
ReconcileSpec.v
Payments.v
PaymentsSpec.v
SmsParser.v
SmsSpec.v
Reminders.v
RemindersSpec.v
Attribution.v
Consumption.v
ConsumptionSpec.v
Outreach.v
OutreachSpec.v
RemoteCheck.v
RemoteCheckSpec.v
CupEditing.v
InventoryPicks.v
InventoryLedger.v
CupEditingSpec.v
Lifecycle.v
DeliverySpec.v
Revenue.v
CustomerAnalytics.v
CustomerAnalyticsSpec.v
FreeTrials.v
FreeTrialsSpec.v
InventorySpec.v
