(* ===== verification/Prelude.v ===== *)
(** * A VPN shop's order life cycle

    This library models the services of a Django application that sells VPN
    subscriptions (Python code under src/store/, src/payments/ and
    src/customer_activity/): how an order is priced, placed, paid for, approved,
    provisioned on a panel, renewed, rejected, cancelled and rewarded; what the
    shop delivers and edits afterwards; how it reminds, measures and writes to
    its customers.  The kernel checks that these services do what the shop
    relies on.

    ** Files

    - [Prelude] (this file): outcomes and exceptions of Python code, the
      state-and-exception monad every handler is written in, JSON metadata,
      tables keyed by primary key with Django's filter, order_by and first,
      record update, shared lemmas.
    - [Models]: the rows of src/store/models.py, one Module per model, with
      the methods that only compute on the row ([Order.prepare_save] is the
      part of [Order.save] before the write); the readiness predicates of
      src/store/setup_readiness.py.
    - [World]: the state handlers share - the database (one table per model),
      the keys held in the Django cache, the calls made to the outside - and
      [Env], the environment that answers those calls.  Also the proof
      layer: frames ([respects]) with the tactic [walk], and triples.
    - [Numbers]: Python's Decimal on text, quantities, custom volumes, prices.
    - [Regex]: the regular expressions, line splitting and UTF-8 the text
      services use.  [Compat]: src/store/xui_compat - panel versions, their
      capabilities, and the keys of remote clients.
    - [Discounts]: discount codes and the reservation of their usage.
    - [Referrals]: src/store/referrals.py, what a completed purchase of an
      invited customer earns.  [ReferralRewards]: src/store/referral_services.py,
      the ledger of packages and its redemption.
    - [OrderStore]: [Order.save] with its post_save signal
      (src/store/signals.py) and what every save guarantees.
    - [Inbounds]: choosing a server (src/store/order_services.py).
    - [Scope]: the frozen provisioning scope and the identities of panel
      clients (src/store/provisioning_services.py).
    - [OrderActions]: src/store/order_actions.py - missing clients, renewal,
      rejection, cancellation.
    - [Provisioning]: approval and activation (src/store/provisioning_services.py)
      and the recovery actions of src/store/order_recovery.py, with the class
      [Delivery] for the engines approval may hand an order to.
      [ProvisioningSpec] and [ModernSpec] prove what approval guarantees.
    - [Submission]: what a customer submits as proof of payment.
    - [Checkout]: manual payments with the guard against double submission,
      custom-volume plans, renewal orders and free grants.  [CheckoutSpec]
      and [GrantSpec] prove what placing and granting guarantee.
      [ApprovalFrame] carries any frame of the order table through approval.
    - [ClientManagement]: src/store/vpn_client_management_services.py - what
      customers and administrators do to single clients, with the audit log.
      [ManagementSpec] proves its theorems.
    - [Automation]: src/store/order_automation.py - reminders, automatic
      approval, its confirmation and cancellation, and the periodic job.
      [AutomationSpec] treats the job, [ReconcileSpec] what people do after.
    - [Payments]: src/payments/payment_matching.py - deposits matched to
      orders, confirmed and dismissed.  [PaymentsSpec] proves its theorems.
      [SmsParser]: src/payments/sms_parser.py with the webhook of
      src/payments/views.py that takes bank messages in; [SmsSpec].
    - [Reminders]: src/store/renewal_reminder_services.py - whom to remind of
      the end of a service or of its volume, and how often; [RemindersSpec].
    - [Attribution] and [Consumption]: src/customer_activity/mapping.py and
      services.py - which panel account belongs to which purchase, what was
      used, and the lease of the collector; [ConsumptionSpec].  [Outreach]:
      src/customer_activity/outreach.py, the worker that writes to customers;
      [OutreachSpec].
    - [RemoteCheck]: src/store/vpn_client_reconciliation_services.py - local
      clients compared with a panel's list, and the deletion of those it no
      longer knows; [RemoteCheckSpec].
    - [Cups]: src/store/subscription_cups.py - the subscription cup of a
      customer, its links, and the text it serves.  [FeedFilter] and [Feeds]:
      src/store/external_subscription_sources.py - links taken over from
      another panel's subscription: parsing, policy, lease, refresh,
      reconciliation.  [CupsSpec], [FeedsSpec] and [FeedFill] prove their
      theorems.  [CupEditing]: what an administrator does to a cup by hand
      (src/store/admin_cup_center/services.py); [CupEditingSpec].
    - [DeliveryConfig]: src/store/plan_delivery_services.py with the readiness
      of its sources - which engine delivers a plan.  [PlanDelivery]:
      src/store/plan_delivery_execution.py.  [CupRecipes]:
      src/store/cup_fulfillment_services.py.  [Assignment]:
      src/store/customer_assignment.py.  [DeliveryFrame] carries frames through
      the three engines; [DeliverySpec] makes them an instance of
      [Provisioning.Delivery] and proves its laws.
    - [Lifecycle]: the order book, an abstract specification of who may move
      which order where, and its refinement by every handler above.
    - [Revenue]: src/store/order_revenue.py - what an order counts for.
      [CustomerAnalytics]: src/store/customer_analytics.py - the figures of each
      customer and the groups they are sorted into; [CustomerAnalyticsSpec].
    - [FreeTrials]: src/store/free_trial_services.py; [FreeTrialsSpec].
    - [Inventory]: src/store/config_inventory_services.py - ready-made
      configurations in pools, allocated, picked up again, given back (the last
      two from src/store/plan_delivery_execution.py,
      src/store/cup_fulfillment_services.py and
      src/store/admin_cup_center/services.py).  [InventoryPicks] has the lemmas
      about selections, [InventoryLedger] those about runs and invariants,
      [InventorySpec] the theorems.

    ** How the parts interact

    [Checkout] validates a request ([Numbers], [Submission], [Inbounds]),
    reserves a discount ([Discounts]), freezes where the order belongs
    ([Scope]) and records it ([OrderStore]).  An administrator then approves
    it ([Provisioning]), rejects or cancels it ([OrderActions]); approval
    makes panel clients, settles the order and pays rewards ([Referrals]
    through the signal, [ReferralRewards] explicitly).  [Automation] does the
    same for receipts nobody reviewed in time, [Payments] accepts orders a
    bank deposit matches; both call [Provisioning].  [Automation] revokes what
    it cancels, and [FreeTrials] cleans up, through [ClientManagement] and
    [OrderActions].  Approval hands the order of a plan with sources of its own
    to [PlanDelivery] or [CupRecipes], which call [Provisioning], [Inventory]
    and [Cups], and an order for a piece of stock to [Assignment]; cups are
    refilled by [Feeds] between orders and edited by [CupEditing], which gives
    stock back to [Inventory].  [Reminders], [RemoteCheck] and [Consumption] look
    at the clients approval made; [Outreach] acts on the verdicts of
    [Consumption].  [Lifecycle] composes what touches the order book.

    ** What the theorems show

    - Specification: whatever request is served, the order book moves only by
      the events that request is permitted; closed orders stay closed.
    - Placing: a successful checkout leaves exactly one new order, priced
      right and waiting for review; a failed one leaves the database as it
      was, the usage of its code given back; the lock is always returned; a
      repeated submission is recognised - and the window in which it is not,
      between the look at the orders and the lock, is exhibited.
    - Approval: success means a settled order and, on the panels modelled,
      one active client per unit ordered - a client of its own for each, as far
      as the panel's answers can be told apart; failure leaves the order to retry;
      a retry on a modern panel that knows the clients changes nothing there;
      refused or completed orders are left alone; an interrupted renewal is
      not repeated; no order is ever added, removed or reassigned.
    - A confirmed grant is made once, however confirmations interleave.
    - Rejection and cancellation happen completely, remote clients first, or
      not at all.
    - Automation: a receipt is approved automatically once and only when its
      window is over; one run of the job reaches every due receipt; confirming
      and cancelling afterwards is complete or on record as incomplete.
    - Deposits: one deposit pays one order - as long as nobody dismisses a
      confirmed message, and the run in which somebody does is exhibited.  The
      message read is the one the bank wrote, and the webhook stores it before
      it matches it.
    - Reminders and outreach: no client is reminded more often than its limits
      say; an event's message is sent at most once and messages to one customer
      are spaced, however runs are interleaved; a run of the worker is nothing
      but the worker's steps.
    - Activity: a verdict of use rests on a measured difference, no panel
      account counts for two purchases, and a collector that lost its lease
      writes nothing.
    - Reconciliation: a client is deleted only when a second look at the panel
      confirmed that it is gone.
    - Delivery: the engines keep every law the other theorems ask of a delivery;
      a plan delivery settles or records what it owes; stock is assigned
      completely or the order says so.
    - Cups and feeds: what a cup serves, plain or in base64, reads back as its
      links; what is taken over from a panel is exactly what the policy lets
      through; a refresh that fails changes no cup, one that is overtaken
      writes nothing, one that succeeds makes the feed's part of the cup the
      list it selected; next refreshes and drop protection keep to their bounds.
      However an administrator edits a cup, its items keep distinct places, and
      where places are distinct moving one exchanges it with its neighbour.
    - Free trials: one per person and cooldown; a failed one leaves nothing
      behind, locally or on the panel.
    - Administration: the four management actions do nothing on a panel without
      an audit entry.
    - Inventory: the loops that choose assets stop, the stock summary is exact,
      counters agree with active allocations, a delivery picked up again
      allocates nothing twice, and what is given back is as it was.
    - Customers: the groups tell buyers from the rest, and what customers paid
      adds up to the revenue reported.
    - Money: amounts of an order always balance, codes are never used more
      often than allowed, previews equal charges, each referral package is
      paid once.
    - Servers: whatever checkout selects can serve the whole order, respects
      the plan's routes and is the least loaded choice; an order is
      provisioned where it was promised.
    - Text: quantities, volumes and payment times accepted are exactly the
      ones intended.

    ** Modelling choices

    - Handlers run on [World] one after the other; an exception inside
      [transaction.atomic] restores the tables and nothing else.  Where the
      code guards against concurrent requests, what the others do in between
      is an argument ([others]); two attempts under one row lock are two
      consecutive runs.
    - A handler reads the clock once: [now], in microseconds since the epoch.
      The outreach run is the exception: it reads the clock for every event and
      again when it checks, asks and records ([clock] in [Outreach.dispatch]), and
      what other workers do in between is an argument too.
    - Volumes are thousandths of a gigabyte; amounts, like the columns, are whole
      numbers.
    - Panels, Telegram, hashing, naming, image storage and time zones are
      functions of [Env].  A panel's answer may depend on every call before
      it, so theorems cover panels that fail, recover or change their mind.
    - Two rows with the same [-created_at] are ordered by primary key.
    - Approval is written against the class [Provisioning.Delivery], since the
      engines call back into provisioning.  Four classes state what theorems
      rely on; [DeliverySpec.shop_delivery] is the instance made of the
      modelled engines and discharges them all (readiness is judged at its
      argument [clock]; approval itself passes its own [now]): [LawfulDelivery]
      (an engine that reports success has settled the order, but that an
      assignment also reports an order it finds completed), [TidyDelivery] (orders are not added, removed or
      reassigned), [DiscreetDelivery] (other orders and every automation are left
      alone), [SteadyDelivery] (an engine moves no order but its own and closes
      none; an assignment leaves a closed one alone).  [FreeTrials.TrialLinks]
      are the modules that register a trial's links.
    - Text operations other than the digits the code translates are the ASCII
      ones; a database error inside a transaction rolls it back like any other
      exception.
    - Loops are structural (over the clients of an order, the indices still
      missing, the routes of a plan, the candidates of a pool) but for the two
      [while] loops that choose assets of a pool: their fuel is the quantity
      asked for, every turn picks one asset, and
      [InventorySpec.selection_terminates] proves that this is always enough.

    ** Not modelled

    HTTP clients of the panels, Telegram conversations, web views and
    administration, reports, imports, deployment: input and output around the
    services above.  Rebuilding a cup from its order, the quick builder and the
    JSON view of a cup, previews and simulations of recipes for the admin pages,
    the naming of panel clients (a function of [Env]) and the revenue engine are
    the parts of the core a further extension would add. *)

From stdpp Require Export base option list list_numbers sorting gmap strings pretty.
From coqutil Require Export Datatypes.RecordSetters.
From Stdlib Require Export ZArith Lia Ascii.
Export DoubleBraceUpdate.

#[global] Open Scope Z_scope.
#[global] Set Default Goal Selector "!".

(** ** Record update

    [r {{ field := v; other ::= f }}] is coqutil's notation.  A record declares
    its eta expansion once; setters are built from it, so that a projection
    of an updated record computes to a projection of the original. *)

Class Eta (R : Type) := eta_expand : R -> R.

Ltac build_setter R E getter :=
  exact (fun (upd : E -> E) (r : R) => ltac:(
    let e := constr:(@eta_expand R _ r) in
    lazymatch e with
    | @eta_expand _ ?inst _ =>
        let b := eval cbv beta delta [inst] in (inst r) in
        let g := constr:(getter r) in
        match b with
        | context C [?f] => constr_eq f g; let b' := context C [upd f] in exact b'
        end
    end)).

#[global] Hint Extern 0 (@Setter ?R ?E ?getter) => build_setter R E getter : typeclass_instances.

#[global] Arguments constant {E} newValue _ /.

(** ** Exceptions and outcomes *)

(** The exceptions the modelled code raises or catches.  [ValidationError]
    carries [exc.messages[0]]; [OtherError] stands for any exception the
    code does not name; three are those of
    src/store/vpn_client_management_services.py, two those of
    src/store/config_inventory_services.py, one each those of
    src/store/admin_cup_center/services.py,
    src/store/external_subscription_sources.py and src/store/panels/errors.py. *)
Inductive exn :=
| ValidationError (message : string)
| XUIError (code : string)
| ValueError (message : string)
| OSError
| DoesNotExist
| VPNClientManagementError (message : string)
| VPNClientPermissionError (message : string)
| VPNClientPendingRenewalError (message : string)
| ConfigInventoryError (message code : string)
| InsufficientInventoryStock (pool : string) (requested available : Z)
| CupCenterError (message : string)
| ExternalSubscriptionRefreshError (message code : string)
| PanelIntegrationError (message code : string)
| OtherError (what : string).

(** What running a piece of Python code yields: a returned value or a raised
    exception. *)
Inductive result (A : Type) :=
| Ret (a : A)
| Raise (e : exn).
Arguments Ret {A} a.
Arguments Raise {A} e.

Lemma Ret_inj {A} (a b : A) : Ret a = Ret b -> a = b.
Proof. congruence. Qed.

(** Take apart a run that ended, without computing what it returned. *)
Lemma run_Ret_inj {A S} (a b : A) (s s' : S) : (Ret a, s) = (Ret b, s') -> b = a /\ s' = s.
Proof. intros H. split; congruence. Qed.

#[global] Instance exn_eq_dec : EqDecision exn.
Proof. solve_decision. Defined.

#[global] Instance result_ret : MRet result := fun A a => Ret a.
#[global] Instance result_bind : MBind result := fun A B f m =>
  match m with Ret a => f a | Raise e => Raise e end.

Definition is_ret {A} (r : result A) : bool :=
  match r with Ret _ => true | Raise _ => false end.

(** [if cond: raise exc] *)
Definition raise_if (b : bool) (e : exn) : result unit :=
  if b then Raise e else Ret tt.

Lemma raise_if_Ret b e u : raise_if b e = Ret u <-> b = false.
Proof. destruct b, u; simpl; split; congruence. Qed.

Lemma result_bind_Ret {A B} (m : result A) (f : A -> result B) b :
  (m ≫= f) = Ret b <-> exists a, m = Ret a /\ f a = Ret b.
Proof.
  destruct m as [a|e]; simpl; split.
  - intros H; exists a; auto.
  - intros (a' & [= <-] & H); exact H.
  - intros [=].
  - intros (a' & [=] & _).
Qed.

(** ** The state-and-exception monad

    A handler reads and writes a state [S] and either returns or raises.  The
    state reached before a raise is kept: a Python exception does not undo
    assignments.  Undoing is what [atomic] does, for the part of the state
    the database owns. *)

Definition M (S A : Type) : Type := S -> result A * S.

#[global] Instance M_ret {S} : MRet (M S) := fun A a s => (Ret a, s).
#[global] Instance M_bind {S} : MBind (M S) := fun A B f m s =>
  match m s with
  | (Ret a, s') => f a s'
  | (Raise e, s') => (Raise e, s')
  end.

Section Monad.
Context {S : Type}.

Definition raise {A} (e : exn) : M S A := fun s => (Raise e, s).
Definition gets {A} (f : S -> A) : M S A := fun s => (Ret (f s), s).
Definition modify (f : S -> S) : M S unit := fun s => (Ret tt, f s).

(** Lift a computation that only returns or raises. *)
Definition liftR {A} (r : result A) : M S A := fun s => (r, s).

(** [try: m except exc: h exc] *)
Definition catch {A} (m : M S A) (h : exn -> M S A) : M S A := fun s =>
  match m s with
  | (Ret a, s') => (Ret a, s')
  | (Raise e, s') => h e s'
  end.

(** [try: a = m except ValidationError as exc: h exc.messages[0] else: k a] *)
Definition on_validation {A B} (m : M S A) (h : string -> M S B) (k : A -> M S B) : M S B := fun s =>
  match m s with
  | (Ret a, s') => k a s'
  | (Raise (ValidationError text), s') => h text s'
  | (Raise e, s') => (Raise e, s')
  end.

(** [try: m finally: k] with a [k] that does not raise. *)
Definition finally {A} (m : M S A) (k : S -> S) : M S A := fun s =>
  let '(r, s') := m s in (r, k s').

(** [Model.objects.get(pk=...)] *)
Definition get_or_raise {A} (f : S -> option A) : M S A := fun s =>
  match f s with Some a => (Ret a, s) | None => (Raise DoesNotExist, s) end.

(** [for x in xs: body], left to right. *)
Fixpoint for_each {A} (body : A -> M S unit) (xs : list A) : M S unit :=
  match xs with
  | [] => mret tt
  | x :: xs' => body x ≫= fun _ => for_each body xs'
  end.
End Monad.

(** A sequence that returned ran both its parts. *)
Lemma M_bind_Ret {S A B} (m : M S A) (f : A -> M S B) s b s' :
  (m ≫= f) s = (Ret b, s') -> exists a s1, m s = (Ret a, s1) /\ f a s1 = (Ret b, s').
Proof. unfold mbind, M_bind. destruct (m s) as [[a|e] s1]; [|done]. intros H. by exists a, s1. Qed.

Lemma get_or_raise_Ret {S A} (f : S -> option A) s a s' :
  get_or_raise f s = (Ret a, s') -> f s = Some a /\ s' = s.
Proof. unfold get_or_raise. destruct (f s); [|done]. by intros [= <- <-]. Qed.

Lemma liftR_Ret {S A} (x : result A) (s : S) a s' :
  liftR x s = (Ret a, s') -> x = Ret a /\ s' = s.
Proof. by intros [= -> ->]. Qed.

(** [bool(l)], and [sep.join(parts)]. *)
Definition nonempty {A} (l : list A) : bool := match l with [] => false | _ => true end.

(** ["|".join(parts)] *)
Fixpoint join (sep : string) (parts : list string) : string :=
  match parts with
  | [] => ""
  | [x] => x
  | x :: rest => x +:+ sep +:+ join sep rest
  end.

(** ** JSON values *)

Inductive json :=
| JNull
| JBool (b : bool)
| JNum (z : Z)
| JStr (s : string)
| JList (l : list json)
| JObj (kv : list (string * json)).

(** The metadata column: a JSON object read as a dict. *)
Abbreviation metadata := (gmap string json).

(** [while cond: body], for at most [fuel] turns; [None] when they do not
    suffice. *)
Fixpoint while {S} (fuel : nat) (cond : S -> bool) (body : S -> S) (s : S) : option S :=
  if cond s then match fuel with O => None | S n => while n cond body (body s) end else Some s.

(** A loop whose body lowers a measure stops, where its condition fails, with
    whatever its body preserves. *)
Lemma while_stops {S} (cond : S -> bool) (body : S -> S) (m : S -> nat) (P : S -> Prop) :
  (forall s, cond s = true -> (m (body s) < m s)%nat) ->
  (forall s, cond s = true -> P s -> P (body s)) ->
  forall fuel s, (m s <= fuel)%nat -> P s ->
  exists s', while fuel cond body s = Some s' /\ P s' /\ cond s' = false.
Proof.
  intros Hm HP fuel. induction fuel as [|n IH]; intros s Hle Hs; simpl;
    (destruct (cond s) eqn:E; [|by exists s]); specialize (Hm _ E).
  - lia.
  - apply IH; [lia|auto].
Qed.

(** Python's truth value of a JSON value. *)
Definition truthy (j : json) : bool :=
  match j with
  | JNull => false
  | JBool b => b
  | JNum z => negb (z =? 0)
  | JStr s => negb (bool_decide (s = ""))
  | JList l => negb (bool_decide (length l = 0%nat))
  | JObj kv => negb (bool_decide (length kv = 0%nat))
  end.

(** [bool(d.get(key))] *)
Definition md_truthy (key : string) (m : metadata) : bool :=
  match m !! key with Some j => truthy j | None => false end.

Fixpoint assoc (key : string) (kv : list (string * json)) : option json :=
  match kv with
  | [] => None
  | (k, v) :: kv' => if bool_decide (k = key) then Some v else assoc key kv'
  end.

(** [(d.get(key) or {}).get(sub)] *)
Definition md_get2 (key sub : string) (m : metadata) : option json :=
  match m !! key with Some (JObj kv) => assoc sub kv | _ => None end.

Definition json_is_str (s : string) (j : option json) : bool :=
  match j with Some (JStr t) => bool_decide (t = s) | _ => false end.

(** [d.setdefault(key, v)] *)
Definition setdefault {V} (key : string) (v : V) (m : gmap string V) : gmap string V :=
  match m !! key with Some _ => m | None => <[key := v]> m end.

(** ** Python's [or] on text, and optional values *)

(** [a or b] on strings. *)
Definition or_str (a b : string) : string := if bool_decide (a = "") then b else a.

(** A nullable text column is falsy when null or empty. *)
Definition text_truthy (o : option string) : bool :=
  match o with Some s => negb (bool_decide (s = "")) | None => false end.

(** [a or b] on nullable text. *)
Definition or_text (a b : option string) : option string := if text_truthy a then a else b.

(** [bool(fk_id)] *)
Definition is_set {A} (o : option A) : bool := match o with Some _ => true | None => false end.

(** [a or b] on nullable values with no falsy inhabitant (timestamps, keys). *)
Definition or_opt {A} (a b : option A) : option A := match a with Some _ => a | None => b end.

(** [max(min(int(p), 100), 0)] *)
Definition clamp100 (p : Z) : Z := Z.max (Z.min p 100) 0.

(** ** Tables and queries *)

Section Tables.
Context {V : Type}.
Implicit Types (t : gmap Z V) (k : Z) (v : V).

(** [Model.objects.filter(p)], as (pk, row) pairs. *)
Definition rows_where (p : Z -> V -> bool) t : list (Z * V) :=
  filter (fun kv => Is_true (p kv.1 kv.2)) (map_to_list t).

Definition exists_where (p : Z -> V -> bool) t : bool :=
  existsb (fun kv => p kv.1 kv.2) (map_to_list t).

Definition count_where (p : Z -> V -> bool) t : Z :=
  Z.of_nat (length (rows_where p t)).

(** [Model.objects.filter(p).update(f)]: every matching row is rewritten. *)
Definition update_where (p : Z -> V -> bool) (f : V -> V) t : gmap Z V :=
  map_imap (fun k v => Some (if p k v then f v else v)) t.

(** A primary key no row uses: one past the largest. *)
Definition next_pk t : Z := Z.succ (map_fold (fun k _ m => Z.max k m) 0 t).

Lemma elem_of_rows_where p t k v :
  (k, v) ∈ rows_where p t <-> t !! k = Some v /\ p k v = true.
Proof.
  unfold rows_where. rewrite list_elem_of_filter, elem_of_map_to_list. simpl.
  rewrite Is_true_true. tauto.
Qed.

Lemma exists_where_true p t :
  exists_where p t = true <-> exists k v, t !! k = Some v /\ p k v = true.
Proof.
  unfold exists_where. rewrite existsb_exists. split.
  - intros ([k v] & Hin & Hp). exists k, v. split; [|exact Hp].
    by apply elem_of_map_to_list, list_elem_of_In.
  - intros (k & v & Hk & Hp). exists (k, v). split; [|exact Hp].
    by apply list_elem_of_In, elem_of_map_to_list.
Qed.

Lemma exists_where_false p t :
  exists_where p t = false <-> forall k v, t !! k = Some v -> p k v = false.
Proof.
  rewrite <- not_true_iff_false, exists_where_true. split.
  - intros H k v Hk. destruct (p k v) eqn:E; [|done]. exfalso. eauto.
  - intros H (k & v & Hk & Hp). rewrite (H _ _ Hk) in Hp. done.
Qed.

Lemma lookup_update_where p f t k :
  update_where p f t !! k = (fun v => if p k v then f v else v) <$> t !! k.
Proof.
  unfold update_where. rewrite map_lookup_imap. destruct (t !! k); reflexivity.
Qed.

Lemma update_where_id p f t :
  (forall k v, t !! k = Some v -> p k v = true -> f v = v) -> update_where p f t = t.
Proof.
  intros H. apply map_eq. intros k. rewrite lookup_update_where.
  destruct (t !! k) as [v|] eqn:E; simpl; [|done].
  destruct (p k v) eqn:Ep; [|done]. by rewrite (H k v).
Qed.

Lemma next_pk_bound t k v : t !! k = Some v -> k < next_pk t.
Proof.
  unfold next_pk. revert k v.
  induction t as [|i x m Hi Hf IH] using map_first_key_ind; intros k v Hk.
  - by rewrite lookup_empty in Hk.
  - rewrite map_fold_insert_first_key by done.
    destruct (decide (i = k)) as [->|Hne]; [lia|].
    rewrite lookup_insert_ne in Hk by done. specialize (IH _ _ Hk). lia.
Qed.

Lemma next_pk_fresh t : t !! next_pk t = None.
Proof.
  destruct (t !! next_pk t) as [v|] eqn:E; [|done].
  apply next_pk_bound in E. lia.
Qed.
End Tables.

(** ** Ordering: [order_by] on a tuple of integer keys *)

Fixpoint lex_le (a b : list Z) : bool :=
  match a, b with
  | [], _ => true
  | _ :: _, [] => false
  | x :: a', y :: b' => if x <? y then true else if x =? y then lex_le a' b' else false
  end.

Lemma lex_le_total a b : lex_le a b = true \/ lex_le b a = true.
Proof.
  revert b. induction a as [|x a IH]; intros [|y b]; simpl; auto.
  destruct (Z.ltb_spec x y), (Z.eqb_spec x y), (Z.ltb_spec y x), (Z.eqb_spec y x);
    subst; auto; lia.
Qed.

Lemma lex_le_trans a b c : lex_le a b = true -> lex_le b c = true -> lex_le a c = true.
Proof.
  revert b c. induction a as [|x a IH]; intros [|y b] [|z c]; simpl; auto; try done.
  destruct (Z.ltb_spec x y), (Z.eqb_spec x y), (Z.ltb_spec y z), (Z.eqb_spec y z),
    (Z.ltb_spec x z), (Z.eqb_spec x z); subst; try done; try lia.
  apply IH.
Qed.

Section OrderBy.
Context {A : Type} (key : A -> list Z).

Definition key_le (x y : A) : Prop := Is_true (lex_le (key x) (key y)).

#[global] Instance key_le_dec : RelDecision key_le.
Proof. intros x y. unfold key_le. apply _. Defined.

#[global] Instance key_le_total : Total key_le.
Proof. intros x y. unfold key_le. rewrite !Is_true_true. apply lex_le_total. Qed.

#[global] Instance key_le_trans : Transitive key_le.
Proof. intros x y z. unfold key_le. rewrite !Is_true_true. apply lex_le_trans. Qed.

#[global] Instance key_le_refl : Reflexive key_le.
Proof. intros x. unfold key_le. apply Is_true_true. by destruct (lex_le_total (key x) (key x)). Qed.

Definition order_by (l : list A) : list A := merge_sort key_le l.

Lemma elem_of_order_by x l : x ∈ order_by l <-> x ∈ l.
Proof. unfold order_by. by rewrite (merge_sort_Permutation key_le l). Qed.

Lemma order_by_sorted l : StronglySorted key_le (order_by l).
Proof. apply (StronglySorted_merge_sort key_le). Qed.

Lemma order_by_length l : length (order_by l) = length l.
Proof. unfold order_by. by rewrite (merge_sort_Permutation key_le l). Qed.
End OrderBy.

Lemma StronglySorted_head {A} (R : A -> A -> Prop) `{!Reflexive R} x y (l : list A) :
  StronglySorted R (x :: l) -> y ∈ x :: l -> R x y.
Proof.
  intros [_ Hall]%StronglySorted_inv [->|Hin]%elem_of_cons; [done|].
  by apply (proj1 (Forall_forall _ _) Hall).
Qed.

Lemma head_elem {A} (l : list A) x : head l = Some x -> x ∈ l.
Proof. destruct l; [done|]. intros [= ->]. apply list_elem_of_here. Qed.

(** The first row of a sorted query that passes a test is the least such row. *)
Lemma head_filter_order_by {A} (key : A -> list Z) (P : A -> Prop) {dec : forall x, Decision (P x)} l x :
  head (filter P (order_by key l)) = Some x ->
  x ∈ l /\ P x /\ forall y, y ∈ l -> P y -> key_le key x y.
Proof.
  intros H. assert (Hx := head_elem _ _ H). apply list_elem_of_filter in Hx as [HP Hx].
  split; [by eapply elem_of_order_by|]. split; [done|]. intros y Hy HPy.
  apply (elem_of_order_by key) in Hy.
  pose proof (order_by_sorted key l) as Hs. clear Hx. revert H Hy Hs.
  generalize (order_by key l). intros s. induction s as [|z l' IH]; [done|]. intros H Hy Hs.
  rewrite filter_cons in H. destruct (decide (P z)).
  - injection H as ->. exact (StronglySorted_head (key_le key) x y l' Hs Hy).
  - apply elem_of_cons in Hy as [->|Hy]; [done|].
    apply IH; [done..|]. by apply StronglySorted_inv in Hs as [? _].
Qed.

(** [Model.objects.filter(p).first()]: the matching row of least primary key. *)
Definition first_where {V} (p : Z -> V -> bool) (t : gmap Z V) : option (Z * V) :=
  head (order_by (fun kv => [kv.1]) (rows_where p t)).

Section First.
Context {V : Type}.
Implicit Types (t : gmap Z V) (p : Z -> V -> bool).

Lemma first_where_None p t :
  first_where p t = None <-> forall k v, t !! k = Some v -> p k v = false.
Proof.
  unfold first_where. set (l := order_by _ _). split.
  - intros H k v Hk. destruct (p k v) eqn:E; [|done].
    assert (Hin : (k, v) ∈ l) by (by apply elem_of_order_by, elem_of_rows_where).
    destruct l; [by apply not_elem_of_nil in Hin|done].
  - intros H. destruct l as [|[k v] l'] eqn:E; [done|].
    assert (Hin : (k, v) ∈ l) by (rewrite E; apply list_elem_of_here).
    apply elem_of_order_by, elem_of_rows_where in Hin as [Hk Hp].
    by rewrite (H _ _ Hk) in Hp.
Qed.

Lemma first_where_Some p t k v :
  first_where p t = Some (k, v) <->
  t !! k = Some v /\ p k v = true /\
  forall k' v', t !! k' = Some v' -> p k' v' = true -> k <= k'.
Proof.
  unfold first_where. set (l := order_by _ _).
  assert (Hl : forall a b, (a, b) ∈ l <-> t !! a = Some b /\ p a b = true)
    by (intros; by rewrite <- elem_of_rows_where; apply elem_of_order_by).
  assert (Hs : StronglySorted (key_le (fun kv : Z * V => [kv.1])) l) by apply order_by_sorted.
  assert (Hmin : forall a b l', l = (a, b) :: l' ->
            forall k' v', t !! k' = Some v' -> p k' v' = true -> a <= k').
  { intros a b l' E k' v' Hk' Hp'. rewrite E in Hs.
    apply (StronglySorted_head _ _ (k', v')) in Hs.
    - unfold key_le in Hs. simpl in Hs. destruct (Z.ltb_spec a k'), (Z.eqb_spec a k'); lia || done.
    - rewrite <- E. by apply Hl. }
  split.
  - destruct l as [|[a b] l'] eqn:E; [done|]. intros [= <- <-].
    assert (Hab : (a, b) ∈ l) by (rewrite E; apply list_elem_of_here).
    rewrite E in Hab. apply Hl in Hab as [? ?]. eauto.
  - intros (Hk & Hp & Hle). destruct l as [|[a b] l'] eqn:E.
    + exfalso. by apply (not_elem_of_nil (k, v)), Hl.
    + assert (Hab : t !! a = Some b /\ p a b = true) by (apply Hl; apply list_elem_of_here).
      destruct Hab as [Ha Hpa].
      assert (a = k) as -> by (apply Z.le_antisymm; eauto). simpl. congruence.
Qed.

Lemma first_where_insert_fresh p t k v :
  first_where p t = None -> p k v = true -> first_where p (<[k := v]> t) = Some (k, v).
Proof.
  rewrite first_where_None, first_where_Some. intros Hn Hp.
  split; [apply lookup_insert_eq|]. split; [done|]. intros k' v' Hk' Hp'.
  destruct (decide (k = k')) as [->|Hne]; [lia|].
  rewrite lookup_insert_ne in Hk' by done. by rewrite (Hn _ _ Hk') in Hp'.
Qed.

Lemma first_where_insert_same p t k v v' :
  first_where p t = Some (k, v) -> p k v' = true -> first_where p (<[k := v']> t) = Some (k, v').
Proof.
  rewrite !first_where_Some. intros (Hk & Hp & Hle) Hp'.
  split; [apply lookup_insert_eq|]. split; [done|]. intros k2 v2 Hk2 Hp2.
  destruct (decide (k = k2)) as [->|Hne]; [lia|].
  rewrite lookup_insert_ne in Hk2 by done. eauto.
Qed.
End First.

(** ** Counting rows *)

Section CountRows.
Context {V : Type}.
Implicit Types (t : gmap Z V) (p : Z -> V -> bool).

Lemma count_where_insert_fresh p t k v :
  t !! k = None -> count_where p (<[k := v]> t) = count_where p t + Z.b2z (p k v).
Proof.
  intros Hk. unfold count_where, rows_where.
  rewrite (map_to_list_insert t k v Hk), filter_cons. simpl.
  case_decide as E; rewrite Is_true_true in E.
  - rewrite E. simpl. lia.
  - apply not_true_is_false in E. rewrite E. simpl. lia.
Qed.

Lemma count_where_insert p t k v v' :
  t !! k = Some v -> count_where p (<[k := v']> t) = count_where p t - Z.b2z (p k v) + Z.b2z (p k v').
Proof.
  intros Hk. pose proof (lookup_delete_eq t k) as Hd.
  rewrite <- (insert_delete_eq t k v'), count_where_insert_fresh by done.
  pose proof (count_where_insert_fresh p (delete k t) k v Hd) as E.
  rewrite (insert_delete_id t k v Hk) in E. lia.
Qed.

Lemma count_where_pos p t : 0 < count_where p t <-> exists_where p t = true.
Proof.
  rewrite exists_where_true. unfold count_where. split.
  - destruct (rows_where p t) as [|[k v] l] eqn:E; [simpl; lia|]. intros _. exists k, v.
    apply elem_of_rows_where. rewrite E. apply list_elem_of_here.
  - intros (k & v & H). apply elem_of_rows_where in H.
    destruct (rows_where p t); [by apply not_elem_of_nil in H|simpl; lia].
Qed.

Lemma exists_where_count p t : exists_where p t = (0 <? count_where p t).
Proof. apply eq_true_iff_eq. by rewrite <- count_where_pos, Z.ltb_lt. Qed.

Lemma count_where_nonneg p t : 0 <= count_where p t.
Proof. unfold count_where. lia. Qed.
End CountRows.

Lemma alter_as_insert {V} (f : V -> V) (t : gmap Z V) k v : t !! k = Some v -> alter f k t = <[k := f v]> t.
Proof.
  intros Hk. apply map_eq. intros i. destruct (decide (k = i)) as [->|Hne].
  - by rewrite lookup_alter_eq, lookup_insert_eq, Hk.
  - by rewrite lookup_alter_ne, lookup_insert_ne.
Qed.

(** A query yields every row once. *)
Lemma rows_where_NoDup {V} (p : Z -> V -> bool) t : NoDup (rows_where p t).*1.
Proof.
  apply (sublist_NoDup _ (map_to_list t).*1); [apply NoDup_fst_map_to_list|].
  apply fmap_sublist, sublist_filter.
Qed.

Lemma order_by_NoDup {V} key (l : list (Z * V)) : NoDup l.*1 -> NoDup (order_by key l).*1.
Proof. unfold order_by. by rewrite (merge_sort_Permutation (key_le key) l). Qed.

(** ** Automation *)

(** Split every conjunction among the hypotheses and substitute equations. *)
Ltac crush_hyps :=
  repeat match goal with
  | H : _ /\ _ |- _ => destruct H
  | H : exists _, _ |- _ => destruct H
  | H : Ret _ = Ret _ |- _ => injection H as H
  | H : Some _ = Some _ |- _ => injection H as H
  | H : (_, _) = (_, _) |- _ => injection H; clear H; intros
  | H : Raise _ = Ret _ |- _ => discriminate H
  | H : Ret _ = Raise _ |- _ => discriminate H
  | H : None = Some _ |- _ => discriminate H
  | H : Some _ = None |- _ => discriminate H
  | H : true = false |- _ => discriminate H
  | H : false = true |- _ => discriminate H
  end; subst.

(** Case analysis on the innermost test of a handler's body. *)
Ltac split_body H :=
  repeat match type of H with
  | context [match ?x with _ => _ end] =>
      lazymatch x with context [match _ with _ => _ end] => fail | _ => idtac end;
      destruct x eqn:?; simpl in H; crush_hyps; try done
  end.

Create HintDb qasedak.
#[global] Create Rewrite HintDb qasedak.
#[export] Hint Rewrite @lookup_update_where : qasedak.
#[export] Hint Resolve next_pk_fresh elem_of_order_by : qasedak.
