(* ===== verification/Models.v ===== *)
(** The rows of the shop's database: one Module per Django model with its
    choices as an enumeration, its columns as a record and its pure methods
    (src/store/models.py).  Timestamps are integers (microseconds), text is
    [string], GB amounts with three decimals are integers in thousandths,
    foreign keys are primary keys.  Columns no modelled operation reads or
    writes are left out. *)

From S2P Require Import Prelude.

(** ** Store *)

Module Store.
Inductive setup_status_t :=
| PROVISIONED | SETUP_REQUIRED | TELEGRAM_CONFIGURED | PAYMENT_CONFIGURED
| XUI_CONFIGURED | PLANS_CONFIGURED | READY | SUSPENDED | ERROR.

Inductive sales_mode_t := TUNNEL | OPERATOR_BASED.

#[global] Instance setup_status_eq_dec : EqDecision setup_status_t.
Proof. solve_decision. Defined.
#[global] Instance sales_mode_eq_dec : EqDecision sales_mode_t.
Proof. solve_decision. Defined.

(** Destination card and order automation switches. *)
Record payment_settings := mk_payment {
  card_number : string;
  card_owner : string;
  receipt_image_only_payment : bool;
  order_review_reminders_enabled : bool;
  order_auto_approve_enabled : bool;
  order_auto_approve_enabled_at : option Z;
  order_automation_last_run_at : option Z;
}.
#[global] Instance eta_payment_settings : Eta payment_settings := fun r => mk_payment
  (card_number r) (card_owner r) (receipt_image_only_payment r)
  (order_review_reminders_enabled r) (order_auto_approve_enabled r)
  (order_auto_approve_enabled_at r) (order_automation_last_run_at r).

(** Referral programme; the reward is in thousandths of a GB. *)
Record referral_settings := mk_referral {
  referral_system_enabled : bool;
  referral_reward_gb : Z;
  referral_reward_duration_days : Z;
  referral_min_order_required : bool;
}.
#[global] Instance eta_referral_settings : Eta referral_settings := fun r => mk_referral
  (referral_system_enabled r) (referral_reward_gb r) (referral_reward_duration_days r)
  (referral_min_order_required r).

(** Free trials; the volume is in thousandths of a GB. *)
Record trial_settings := mk_trial {
  free_trial_enabled : bool;
  free_trial_panel : option Z;
  free_trial_inbound : option Z;
  free_trial_traffic_gb : Z;
  free_trial_duration_hours : Z;
  free_trial_cooldown_days : Z;
}.
#[global] Instance eta_trial_settings : Eta trial_settings := fun r => mk_trial
  (free_trial_enabled r) (free_trial_panel r) (free_trial_inbound r) (free_trial_traffic_gb r)
  (free_trial_duration_hours r) (free_trial_cooldown_days r).

(** Bank messages: the hash of the webhook's token and the time zone of their
    clock. *)
Record bank_settings := mk_bank {
  smsforwarder_webhook_token_hash : string;
  payment_sms_time_zone : string;
}.
#[global] Instance eta_bank_settings : Eta bank_settings := fun r => mk_bank
  (smsforwarder_webhook_token_hash r) (payment_sms_time_zone r).

(** Renewal reminders; the two lists of days are JSON columns, the volume is in
    thousandths of a GB. *)
Record reminder_columns := mk_reminder_columns {
  renewal_reminders_enabled : bool;
  renewal_reminders_start_at : option Z;
  reminder_days_before_expiry : json;
  reminder_days_after_expiry : json;
  low_traffic_reminders_enabled : bool;
  low_traffic_percent_threshold : Z;
  low_traffic_gb_threshold : Z;
  reminder_cooldown_hours : Z;
  reminder_max_per_client_per_day : Z;
}.
#[global] Instance eta_reminder_columns : Eta reminder_columns := fun r => mk_reminder_columns
  (renewal_reminders_enabled r) (renewal_reminders_start_at r) (reminder_days_before_expiry r)
  (reminder_days_after_expiry r) (low_traffic_reminders_enabled r) (low_traffic_percent_threshold r)
  (low_traffic_gb_threshold r) (reminder_cooldown_hours r) (reminder_max_per_client_per_day r).

(** The bounds customers are sorted into groups by. *)
Record campaign_columns := mk_campaign_columns {
  good_customer_min_total_amount : Z;
  loyal_customer_min_orders_30d : Z;
  top_customers_limit : Z;
  inactive_customer_days : Z;
}.
#[global] Instance eta_campaign_columns : Eta campaign_columns := fun r =>
  mk_campaign_columns (good_customer_min_total_amount r) (loyal_customer_min_orders_30d r)
    (top_customers_limit r) (inactive_customer_days r).

Record store := mk_store {
  name : string;
  is_active : bool;
  setup_status : setup_status_t;
  sales_mode : sales_mode_t;
  plan_inbound_routing_enabled : bool;
  allow_global_inbound_fallback : bool;
  bank_name : option string;
  domain : option string;
  custom_volume_price_per_gb : Z;
  payment : payment_settings;
  referral : referral_settings;
  trial : trial_settings;
  bank : bank_settings;
  reminders : reminder_columns;
  campaigns : campaign_columns;
}.
#[global] Instance eta_store : Eta store := fun r => mk_store (name r) (is_active r) (setup_status r)
  (sales_mode r) (plan_inbound_routing_enabled r) (allow_global_inbound_fallback r)
  (bank_name r) (domain r) (custom_volume_price_per_gb r) (payment r) (referral r) (trial r) (bank r)
  (reminders r) (campaigns r).

(** [store_is_setup_blocked] and [store_is_sellable] of setup_readiness.py. *)
Definition store_is_setup_blocked (st : option store) : bool :=
  match st with
  | None => true
  | Some s =>
      match setup_status s with
      | PROVISIONED | SETUP_REQUIRED | TELEGRAM_CONFIGURED | PAYMENT_CONFIGURED
      | XUI_CONFIGURED | PLANS_CONFIGURED | SUSPENDED | ERROR => true
      | READY => false
      end
  end.

Definition store_is_sellable (st : option store) : bool :=
  match st with
  | None => false
  | Some s => is_active s && bool_decide (setup_status s = READY)
  end.
End Store.

(** ** Operator *)

Module Operator.
Record operator := mk_operator {
  store : option Z;
  is_active : bool;
  sort_order : Z;
}.
#[global] Instance eta_operator : Eta operator := fun r => mk_operator (store r)
  (is_active r) (sort_order r).
End Operator.

(** ** Plan *)

Module Plan.
Inductive currency_t := TOMAN | IRR | USD.
#[global] Instance currency_eq_dec : EqDecision currency_t.
Proof. solve_decision. Defined.

Record plan := mk_plan {
  store : option Z;
  operators : gset Z;
  slug : string;
  volume_gb : Z;
  duration_days : Z;
  price : Z;
  currency : currency_t;
  device_limit : Z;
  is_active : bool;
  sort_order : Z;
  is_public : bool;
  is_custom_volume : bool;
  multi_inbound_bundle : bool;
}.
#[global] Instance eta_plan : Eta plan := fun r => mk_plan (store r) (operators r) (slug r)
  (volume_gb r) (duration_days r) (price r) (currency r) (device_limit r) (is_active r)
  (sort_order r) (is_public r) (is_custom_volume r) (multi_inbound_bundle r).

(** [int((self.volume_gb or Decimal("0")) * Decimal(1024 ** 3))], the
    volume being in thousandths of a GB. *)
Definition traffic_limit_bytes (p : plan) : Z := Z.quot (volume_gb p * 1024 ^ 3) 1000.
End Plan.

(** ** DiscountCode *)

Module DiscountCode.
Inductive discount_type_t := PERCENTAGE | FIXED.
#[global] Instance discount_type_eq_dec : EqDecision discount_type_t.
Proof. solve_decision. Defined.

Record discount_code := mk_discount {
  code : string;
  discount_type : discount_type_t;
  value : Z;
  max_usage : option Z;
  used_count : Z;
  valid_from : option Z;
  valid_until : option Z;
  is_active : bool;
  applicable_plans : gset Z;
  updated_at : Z;
}.
#[global] Instance eta_discount_code : Eta discount_code := fun r => mk_discount (code r)
  (discount_type r) (value r) (max_usage r) (used_count r) (valid_from r) (valid_until r)
  (is_active r) (applicable_plans r) (updated_at r).
End DiscountCode.

(** ** Customer *)

Module Customer.
Record customer := mk_customer {
  is_wholesale : bool;
  default_discount_percent : option Z;
  referral_code : string;
  referred_by : option Z;
  referral_code_used : string;
  referred_at : option Z;
  is_active : bool;
  display_name : string;
  created_at : Z;
}.
#[global] Instance eta_customer : Eta customer := fun r => mk_customer (is_wholesale r)
  (default_discount_percent r) (referral_code r) (referred_by r) (referral_code_used r)
  (referred_at r) (is_active r) (display_name r) (created_at r).

(** The [wholesale_discount_percent] property. *)
Definition wholesale_discount_percent (c : customer) : Z :=
  match default_discount_percent c with
  | Some p => if negb (is_wholesale c) || (p =? 0) then 0 else clamp100 p
  | None => 0
  end.
End Customer.

(** ** Referral, CustomerReward, ReferralRewardLedger *)

Module Referral.
Inductive status_t := REGISTERED | PURCHASED | CANCELLED.
#[global] Instance status_eq_dec : EqDecision status_t.
Proof. solve_decision. Defined.

Record referral := mk_referral {
  referrer : Z;
  referred_customer : Z;
  referral_code : string;
  status : status_t;
  first_order : option Z;
  purchased_at : option Z;
}.
#[global] Instance eta_referral : Eta referral := fun r => mk_referral (referrer r)
  (referred_customer r) (referral_code r) (status r) (first_order r) (purchased_at r).
End Referral.

Module CustomerReward.
Inductive reward_type_t := DISCOUNT_20 | FREE_1GB_PLAN.
Inductive status_t := AVAILABLE | USED | CANCELLED.
#[global] Instance reward_type_eq_dec : EqDecision reward_type_t.
Proof. solve_decision. Defined.
#[global] Instance status_eq_dec : EqDecision status_t.
Proof. solve_decision. Defined.

Record customer_reward := mk_reward {
  customer : Z;
  referral : option Z;
  reward_type : reward_type_t;
  status : status_t;
  discount_code : option Z;
  plan : option Z;
  milestone : option Z;
  earned_at : option Z;
  used_at : option Z;
}.
#[global] Instance eta_customer_reward : Eta customer_reward := fun r => mk_reward
  (customer r) (referral r) (reward_type r) (status r) (discount_code r) (plan r)
  (milestone r) (earned_at r) (used_at r).
End CustomerReward.

Module Ledger.
Inductive status_t := PENDING | AVAILABLE | REDEEMED | CANCELLED.
#[global] Instance status_eq_dec : EqDecision status_t.
Proof. solve_decision. Defined.

Record referral_reward_ledger := mk_ledger {
  inviter : Z;
  invited : Z;
  order : Z;
  reward_gb : Z;
  reward_duration_days : Z;
  status : status_t;
  redeemed_config : option Z;
  available_at : option Z;
  redeemed_at : option Z;
  applied_traffic_gb : Z;
  applied_duration_days : Z;
  created_at : Z;
}.
#[global] Instance eta_referral_reward_ledger : Eta referral_reward_ledger := fun r => mk_ledger
  (inviter r) (invited r) (order r) (reward_gb r) (reward_duration_days r) (status r)
  (redeemed_config r) (available_at r) (redeemed_at r) (applied_traffic_gb r)
  (applied_duration_days r) (created_at r).
End Ledger.

(** ** Panel, Inbound, PlanInboundRoute *)

Module Panel.
Inductive family_t := XUI | MARZBAN | PASARGUARD | UNKNOWN.
(** [NO_PROFILE] is the blank column value. *)
Inductive capability_profile_t :=
| NO_PROFILE | LEGACY_SINGLE_NODE | MODERN_SINGLE_NODE | MODERN_MULTI_NODE
| PASARGUARD_GROUPS | UNKNOWN_SAFE.
#[global] Instance family_eq_dec : EqDecision family_t.
Proof. solve_decision. Defined.
#[global] Instance capability_profile_eq_dec : EqDecision capability_profile_t.
Proof. solve_decision. Defined.

Record panel := mk_panel {
  store : option Z;
  family : family_t;
  url : string;
  username : string;
  password : string;
  is_active : bool;
  detected_xui_version : string;
  capability_profile : capability_profile_t;
}.
#[global] Instance eta_panel : Eta panel := fun r => mk_panel (store r) (family r) (url r)
  (username r) (password r) (is_active r) (detected_xui_version r) (capability_profile r).

(** [str(panel.family or "").lower() == Panel.Family.PASARGUARD] *)
Definition is_pasarguard (p : panel) : bool := bool_decide (family p = PASARGUARD).
End Panel.

Module Inbound.
Inductive xui_source_t := LOCAL | SYNCHRONIZED_NODE | PASARGUARD_GROUP.
Inductive verification_status_t := UNVERIFIED | VERIFIED_SELLABLE | VERIFICATION_FAILED.
Inductive security_t := NO_SECURITY | TLS | REALITY.
#[global] Instance security_eq_dec : EqDecision security_t.
Proof. solve_decision. Defined.
#[global] Instance xui_source_eq_dec : EqDecision xui_source_t.
Proof. solve_decision. Defined.
#[global] Instance verification_status_eq_dec : EqDecision verification_status_t.
Proof. solve_decision. Defined.

Record inbound := mk_inbound {
  panel : option Z;
  inbound_id : Z;
  is_active : bool;
  available_for_new_orders : bool;
  health_monitor_enabled : bool;
  legacy_note : string;
  current_users : Z;
  max_clients : option Z;
  security : security_t;
  pbk : option string;
  xui_node_id : string;
  xui_node_name : string;
  xui_source : xui_source_t;
  xui_remote_key : string;
  verification_status : verification_status_t;
  verified_at : option Z;
  metadata : Prelude.metadata;
  updated_at : Z;
}.
#[global] Instance eta_inbound : Eta inbound := fun r => mk_inbound (panel r) (inbound_id r)
  (is_active r) (available_for_new_orders r) (health_monitor_enabled r) (legacy_note r) (current_users r) (max_clients r)
  (security r) (pbk r) (xui_node_id r) (xui_node_name r) (xui_source r) (xui_remote_key r) (verification_status r)
  (verified_at r) (metadata r) (updated_at r).

Definition available_capacity (i : inbound) : option Z :=
  (fun m => Z.max (m - current_users i) 0) <$> max_clients i.

Definition has_capacity (i : inbound) : bool :=
  match max_clients i with None => true | Some m => current_users i <? m end.
End Inbound.

Module PlanInboundRoute.
Record plan_inbound_route := mk_route {
  store : option Z;
  plan : Z;
  operator : option Z;
  inbound : Z;
  is_active : bool;
  priority : Z;
  weight : Z;
  note : string;
}.
#[global] Instance eta_plan_inbound_route : Eta plan_inbound_route := fun r => mk_route
  (store r) (plan r) (operator r) (inbound r) (is_active r) (priority r) (weight r) (note r).
End PlanInboundRoute.

(** ** VPNClient *)

Module VPNClient.
Inductive status_t := CREATED | INACTIVE | ACTIVE | SUSPENDED | EXPIRED | DELETED | ERROR.
#[global] Instance status_eq_dec : EqDecision status_t.
Proof. solve_decision. Defined.

(** What the last comparison with the panel said. *)
Inductive remote_status_t :=
| NOT_CHECKED | REMOTE_ACTIVE | REMOTE_DISABLED | REMOTE_MISSING | PANEL_UNREACHABLE
| INBOUND_MISSING | AMBIGUOUS | REMOTE_UNKNOWN.
#[global] Instance remote_status_eq_dec : EqDecision remote_status_t.
Proof. solve_decision. Defined.

(** Where it was looked for: the dictionary of [safe_remote_scope]. *)
Record remote_scope := mk_scope {
  scope_panel_id : Z;
  scope_inbound_pk : Z;
  scope_inbound_id : Z;
  scope_node_id : string;
  remote_scope_key : string;
}.
#[global] Instance remote_scope_eq_dec : EqDecision remote_scope.
Proof. solve_decision. Defined.

(** An empty scope is the empty dictionary. *)
Record remote_check_t := mk_remote_check {
  last_remote_check_status : remote_status_t;
  last_remote_check_at : option Z;
  last_remote_check_error : string;
  last_remote_check_scope : option remote_scope;
  last_remote_check_batch_id : string;
}.
#[global] Instance eta_remote_check_t : Eta remote_check_t := fun r => mk_remote_check
  (last_remote_check_status r) (last_remote_check_at r) (last_remote_check_error r)
  (last_remote_check_scope r) (last_remote_check_batch_id r).

Definition never_checked : remote_check_t := mk_remote_check NOT_CHECKED None "" None "".

Record vpn_client := mk_client {
  store : option Z;
  order : option Z;
  plan : option Z;
  inbound : option Z;
  username : string;
  xui_email : string;
  uuid : option string;
  sub_id : string;
  sub_link : option string;
  direct_link : option string;
  status : status_t;
  traffic_limit_bytes : Z;
  used_upload_bytes : Z;
  used_download_bytes : Z;
  used_traffic_bytes : Z;
  duration_days : Z;
  device_limit : Z;
  activated_at : option Z;
  expires_at : option Z;
  disabled_at : option Z;
  deleted_at : option Z;
  deleted_by_customer : option Z;
  deleted_by_admin_telegram_id : string;
  delete_reason : string;
  remote_deleted_at : option Z;
  last_synced_at : option Z;
  xui_node_id : string;
  remote_client_key : string;
  xui_raw : metadata;
  remote_check : remote_check_t;
  created_at : Z;
}.
#[global] Instance eta_vpn_client : Eta vpn_client := fun r => mk_client (store r) (order r)
  (plan r) (inbound r) (username r) (xui_email r) (uuid r) (sub_id r) (sub_link r)
  (direct_link r) (status r) (traffic_limit_bytes r) (used_upload_bytes r)
  (used_download_bytes r) (used_traffic_bytes r) (duration_days r) (device_limit r)
  (activated_at r) (expires_at r) (disabled_at r) (deleted_at r) (deleted_by_customer r)
  (deleted_by_admin_telegram_id r) (delete_reason r) (remote_deleted_at r) (last_synced_at r)
  (xui_node_id r) (remote_client_key r) (xui_raw r) (remote_check r) (created_at r).

(** One day in microseconds: [timedelta(days=1)]. *)
Definition day : Z := 86400 * 1000000.

(** [duration_days or self.duration_days] with the parameter defaulting to
    [None]. *)
Definition mark_active (now : Z) (duration : Z) (c : vpn_client) : vpn_client :=
  let d := if duration =? 0 then duration_days c else duration in
  c {{ status := ACTIVE;
       activated_at := or_opt (activated_at c) (Some now);
       expires_at := if d =? 0 then expires_at c else Some (now + d * day);
       disabled_at := None }}.

Definition mark_suspended (now : Z) (c : vpn_client) : vpn_client :=
  c {{ status := SUSPENDED; disabled_at := Some now }}.

Definition mark_deleted (now : Z) (customer : option Z) (admin_telegram_id reason : string)
    (remote : option Z) (c : vpn_client) : vpn_client :=
  c {{ status := DELETED;
       deleted_at := or_opt (deleted_at c) (Some now);
       disabled_at := or_opt (disabled_at c) (Some now);
       remote_deleted_at := or_opt remote (or_opt (remote_deleted_at c) (Some now));
       deleted_by_customer := or_opt customer (deleted_by_customer c);
       deleted_by_admin_telegram_id := or_str admin_telegram_id (deleted_by_admin_telegram_id c);
       delete_reason := or_str reason (delete_reason c);
       sub_link := Some "";
       direct_link := Some "" }}.

Definition is_deleted (c : vpn_client) : bool :=
  bool_decide (status c = DELETED) || is_set (deleted_at c).

Definition is_expired (now : Z) (c : vpn_client) : bool :=
  match expires_at c with Some e => e <=? now | None => false end.

Definition remaining_traffic_bytes (c : vpn_client) : Z :=
  if traffic_limit_bytes c =? 0 then 0
  else Z.max (traffic_limit_bytes c - used_traffic_bytes c) 0.
End VPNClient.

(** ** Order *)

Module Order.
(** [LEGACY_PENDING] is the raw value "pending" that [save] rewrites. *)
Inductive status_t :=
| LEGACY_PENDING | PENDING_PAYMENT | PENDING_VERIFICATION | CONFIRMED | COMPLETED
| REJECTED | CANCELLED.
Inductive verification_status_t := V_PENDING | V_VERIFIED | V_REJECTED.
Inductive provisioning_status_t :=
| NOT_REQUIRED | P_PENDING | PROVISIONING | PROVISIONED | FAILED.
Inductive payment_method_t := MANUAL_CARD | GATEWAY | ADMIN_FREE.
Inductive discount_source_t := NONE | MANUAL | WHOLESALE.
#[global] Instance status_eq_dec : EqDecision status_t.
Proof. solve_decision. Defined.
#[global] Instance verification_status_eq_dec : EqDecision verification_status_t.
Proof. solve_decision. Defined.
#[global] Instance provisioning_status_eq_dec : EqDecision provisioning_status_t.
Proof. solve_decision. Defined.
#[global] Instance payment_method_eq_dec : EqDecision payment_method_t.
Proof. solve_decision. Defined.
#[global] Instance discount_source_eq_dec : EqDecision discount_source_t.
Proof. solve_decision. Defined.

Record order := mk_order {
  public_id : string;
  store : option Z;
  customer : option Z;
  plan : Z;
  operator : option Z;
  quantity : Z;
  order_tracking_code : string;
  status : status_t;
  original_amount : Z;
  discount_code : option Z;
  discount_code_text : string;
  discount_amount : Z;
  discount_source : discount_source_t;
  amount : Z;
  revenue_included : option bool;
  revenue_amount : option Z;
  currency : option Plan.currency_t;
  payment_method : payment_method_t;
  is_paid : bool;
  payment_submitted_at : option Z;
  sender_card_name : string;
  sender_card_last4 : string;
  payment_date : option Z;
  payment_time : option Z;
  payment_receipt_image : option string;
  verification_status : verification_status_t;
  verified_by : option Z;
  verified_at : option Z;
  rejection_reason : string;
  provisioning_status : provisioning_status_t;
  provisioning_attempts : Z;
  last_provisioning_error : string;
  provisioned_at : option Z;
  provisioning_idempotency_key : string;
  bank_tracking_code : option string;
  card_last_four : option string;
  inbound : option Z;
  username : string;
  uuid : option string;
  sub_link : option string;
  direct_link : option string;
  metadata : Prelude.metadata;
  created_at : Z;
  updated_at : Z;
}.
#[global] Instance eta_order : Eta order := fun r => mk_order (public_id r) (store r)
  (customer r) (plan r) (operator r) (quantity r) (order_tracking_code r) (status r)
  (original_amount r) (discount_code r) (discount_code_text r) (discount_amount r)
  (discount_source r) (amount r) (revenue_included r) (revenue_amount r) (currency r)
  (payment_method r) (is_paid r) (payment_submitted_at r) (sender_card_name r)
  (sender_card_last4 r) (payment_date r) (payment_time r) (payment_receipt_image r)
  (verification_status r) (verified_by r) (verified_at r) (rejection_reason r)
  (provisioning_status r) (provisioning_attempts r) (last_provisioning_error r)
  (provisioned_at r) (provisioning_idempotency_key r) (bank_tracking_code r)
  (card_last_four r) (inbound r) (username r) (uuid r) (sub_link r) (direct_link r)
  (metadata r) (created_at r) (updated_at r).

(** A row as the constructor [Order(...)] makes it: every column at its
    default. *)
Definition blank_order (public_id tracking : string) (plan : Z) (now : Z) : order := {|
  public_id := public_id; store := None; customer := None; plan := plan; operator := None;
  quantity := 1; order_tracking_code := tracking; status := PENDING_PAYMENT;
  original_amount := 0; discount_code := None; discount_code_text := "";
  discount_amount := 0; discount_source := NONE; amount := 0;
  revenue_included := None; revenue_amount := None; currency := Some Plan.TOMAN;
  payment_method := MANUAL_CARD; is_paid := false; payment_submitted_at := None;
  sender_card_name := ""; sender_card_last4 := ""; payment_date := None;
  payment_time := None; payment_receipt_image := None;
  verification_status := V_PENDING; verified_by := None; verified_at := None;
  rejection_reason := ""; provisioning_status := NOT_REQUIRED;
  provisioning_attempts := 0; last_provisioning_error := ""; provisioned_at := None;
  provisioning_idempotency_key := ""; bank_tracking_code := None;
  card_last_four := None; inbound := None; username := "admin"; uuid := None;
  sub_link := None; direct_link := None; metadata := ∅;
  created_at := now; updated_at := now |}.

Definition is_manual_payment (o : order) : bool :=
  bool_decide (payment_method o = MANUAL_CARD).

Definition can_be_activated (o : order) : bool :=
  is_set (inbound o) && text_truthy (uuid o).

(** [unit_price * (self.quantity or 1)] *)
Definition subtotal_amount (p : Plan.plan) (o : order) : Z :=
  Plan.price p * (if quantity o =? 0 then 1 else quantity o).

Definition or_amount (a b : Z) : Z := if a =? 0 then b else a.

(** Columns, as named in [update_fields]. *)
Inductive field :=
| F_store | F_status | F_original_amount | F_amount | F_currency | F_is_paid
| F_payment_submitted_at | F_payment_date | F_verification_status | F_verified_by
| F_verified_at | F_rejection_reason | F_provisioning_status | F_provisioning_attempts
| F_last_provisioning_error | F_provisioned_at | F_provisioning_idempotency_key
| F_inbound | F_username | F_uuid | F_sub_link | F_direct_link | F_metadata.

(** Write one column of [src] into [row]. *)
Definition copy_field (src : order) (f : field) (row : order) : order :=
  match f with
  | F_store => row {{ store := store src }}
  | F_status => row {{ status := status src }}
  | F_original_amount => row {{ original_amount := original_amount src }}
  | F_amount => row {{ amount := amount src }}
  | F_currency => row {{ currency := currency src }}
  | F_is_paid => row {{ is_paid := is_paid src }}
  | F_payment_submitted_at => row {{ payment_submitted_at := payment_submitted_at src }}
  | F_payment_date => row {{ payment_date := payment_date src }}
  | F_verification_status => row {{ verification_status := verification_status src }}
  | F_verified_by => row {{ verified_by := verified_by src }}
  | F_verified_at => row {{ verified_at := verified_at src }}
  | F_rejection_reason => row {{ rejection_reason := rejection_reason src }}
  | F_provisioning_status => row {{ provisioning_status := provisioning_status src }}
  | F_provisioning_attempts => row {{ provisioning_attempts := provisioning_attempts src }}
  | F_last_provisioning_error => row {{ last_provisioning_error := last_provisioning_error src }}
  | F_provisioned_at => row {{ provisioned_at := provisioned_at src }}
  | F_provisioning_idempotency_key =>
      row {{ provisioning_idempotency_key := provisioning_idempotency_key src }}
  | F_inbound => row {{ inbound := inbound src }}
  | F_username => row {{ username := username src }}
  | F_uuid => row {{ uuid := uuid src }}
  | F_sub_link => row {{ sub_link := sub_link src }}
  | F_direct_link => row {{ direct_link := direct_link src }}
  | F_metadata => row {{ metadata := metadata src }}
  end.

(** [super().save(update_fields=fields)]: those columns and [updated_at]. *)
Definition write_fields (fields : list field) (now : Z) (src row : order) : order :=
  foldr (copy_field src) (row {{ updated_at := now }}) fields.

(** An assignment of [save], with the columns it adds to [changed_fields]. *)
Definition assign (cond : bool) (fs : list field) (f : order -> order)
    (s : order * list field) : order * list field :=
  if cond then (f s.1, s.2 ++ fs)%list else s.

(** The part of [Order.save] that runs before the row is written: the
    instance it leaves and [changed_fields]. *)
Definition prepare_save (p : Plan.plan) (now today : Z) (o : order) : order * list field :=
  let s := assign (bool_decide (status o = LEGACY_PENDING)) [F_status]
             (fun o => o {{ status := PENDING_VERIFICATION }}) (o, []) in
  let s := assign (negb (is_set (store s.1)) && is_set (Plan.store p)) [F_store]
             (fun o => o {{ store := Plan.store p }}) s in
  let s := assign (original_amount s.1 =? 0) [F_original_amount]
             (fun o => o {{ original_amount := subtotal_amount p o }}) s in
  let s := assign ((amount s.1 =? 0) && (discount_amount s.1 =? 0)) [F_amount]
             (fun o => o {{ amount := or_amount (original_amount o) (subtotal_amount p o) }}) s in
  let s := assign (negb (is_set (currency s.1))) [F_currency]
             (fun o => o {{ currency := Some (Plan.currency p) }}) s in
  let submitted := is_manual_payment s.1
     && (is_paid s.1 || bool_decide (status s.1 = PENDING_VERIFICATION)
         || is_set (payment_submitted_at s.1)) in
  let s := assign (submitted && negb (is_set (payment_submitted_at s.1))) [F_payment_submitted_at]
             (fun o => o {{ payment_submitted_at := Some now }}) s in
  assign (submitted && negb (is_set (payment_date s.1))) [F_payment_date]
    (fun o => o {{ payment_date := Some today }}) s.

(** [apply_discount]; [label or code text]. *)
Definition apply_discount (p : Plan.plan) (code : option (Z * string)) (d : Z)
    (source : discount_source_t) (label : string) (o : order) : order :=
  let orig := or_amount (original_amount o) (subtotal_amount p o) in
  let disc := Z.min d orig in
  o {{ original_amount := orig;
       discount_code := fst <$> code;
       discount_code_text := or_str label (match code with Some (_, t) => t | None => "" end);
       discount_amount := disc;
       amount := Z.max (orig - disc) 0;
       discount_source := source }}.

Definition wholesale_label (percent : Z) : string := "WHOLESALE " +:+ pretty percent +:+ "%".

Definition apply_wholesale_discount (p : Plan.plan) (percent : Z) (o : order) : order :=
  let orig := or_amount (original_amount o) (subtotal_amount p o) in
  let o := o {{ original_amount := orig }} in
  let pc := clamp100 percent in
  if pc =? 0 then o
  else apply_discount p None (Z.min ((orig * pc) / 100) orig) WHOLESALE (wholesale_label pc) o.

Definition mark_payment_verified (user : option Z) (now : Z) (o : order) : order :=
  o {{ is_paid := true; verification_status := V_VERIFIED; verified_by := user;
       verified_at := Some now; status := COMPLETED }}.

Definition mark_payment_rejected (reason : string) (user : option Z) (now : Z) (o : order) : order :=
  o {{ verification_status := V_REJECTED; verified_by := user; verified_at := Some now;
       rejection_reason := reason; status := REJECTED }}.
End Order.

(** ** OrderAutomation *)

Module OrderAutomation.
Inductive review_status_t :=
| R_NONE | R_PENDING | R_VERIFIED | R_CANCELLING | R_CANCELLED | R_CANCEL_FAILED.
#[global] Instance review_status_eq_dec : EqDecision review_status_t.
Proof. solve_decision. Defined.

Record order_automation := mk_automation {
  reminder_stage : nat;
  last_reminded_at : option Z;
  auto_approved_at : option Z;
  review_status : review_status_t;
  reviewed_at : option Z;
  reviewed_by : option Z;
  review_note : string;
  last_error : string;
  revoked_client_ids : list Z;
  cancellation_notified_at : option Z;
  cancellation_notification_attempted_at : option Z;
  cancellation_notification_status : string;
}.
#[global] Instance eta_order_automation : Eta order_automation := fun r => mk_automation
  (reminder_stage r) (last_reminded_at r) (auto_approved_at r) (review_status r)
  (reviewed_at r) (reviewed_by r) (review_note r) (last_error r) (revoked_client_ids r)
  (cancellation_notified_at r) (cancellation_notification_attempted_at r)
  (cancellation_notification_status r).

(** [OrderAutomation.objects.get_or_create(order=order)] creates this row. *)
Definition fresh_automation : order_automation := {|
  reminder_stage := 0; last_reminded_at := None; auto_approved_at := None;
  review_status := R_NONE; reviewed_at := None; reviewed_by := None; review_note := "";
  last_error := ""; revoked_client_ids := []; cancellation_notified_at := None;
  cancellation_notification_attempted_at := None;
  cancellation_notification_status := "" |}.
End OrderAutomation.

(** Actions on clients, recorded before and after the panel is called.
    [ADMIN_ENABLE] and [ADMIN_DISABLE] are values the services write beside
    the declared choices. *)
Module ActionLog.
Inductive actor_type_t := USER | ADMIN | SYSTEM.
Inductive action_t :=
| USER_DELETE | ADMIN_DELETE | ADMIN_UPDATE_TRAFFIC | ADMIN_UPDATE_EXPIRY
| ADMIN_UPDATE_TRAFFIC_AND_EXPIRY | ADMIN_REFRESH_LINK | ADMIN_RECONCILE_CHECK
| ADMIN_SOFT_DELETE_REMOTE_MISSING
| ADMIN_ENABLE | ADMIN_DISABLE.
Inductive status_t := PENDING | SUCCESS | FAILED | SKIPPED.
#[global] Instance actor_type_eq_dec : EqDecision actor_type_t.
Proof. solve_decision. Defined.
#[global] Instance action_eq_dec : EqDecision action_t.
Proof. solve_decision. Defined.
#[global] Instance status_eq_dec : EqDecision status_t.
Proof. solve_decision. Defined.

Record action_log := mk_log {
  vpn_client : option Z;
  customer : option Z;
  actor_type : actor_type_t;
  actor_telegram_id : string;
  action : action_t;
  panel : option Z;
  inbound : option Z;
  xui_identifier_masked : string;
  old_total_bytes : option Z;
  new_total_bytes : option Z;
  old_expiry_time : option Z;
  new_expiry_time : option Z;
  status : status_t;
  error_message : string;
  log_metadata : metadata;
  completed_at : option Z;
}.
#[global] Instance eta_action_log : Eta action_log := fun r => mk_log (vpn_client r) (customer r)
  (actor_type r) (actor_telegram_id r) (action r) (panel r) (inbound r) (xui_identifier_masked r) (old_total_bytes r)
  (new_total_bytes r) (old_expiry_time r) (new_expiry_time r) (status r) (error_message r)
  (log_metadata r) (completed_at r).
End ActionLog.

Module FreeTrial.
Inductive status_t := CREATED | DELIVERED | FAILED | CANCELLED.
#[global] Instance status_eq_dec : EqDecision status_t.
Proof. solve_decision. Defined.

Record free_trial_request := mk_trial_request {
  customer : option Z;
  panel : option Z;
  inbound : option Z;
  vpn_client : option Z;
  telegram_user_id : string;
  status : status_t;
  traffic_gb : Z;
  duration_hours : Z;
  config_link : string;
  error_message : string;
  delivered_at : option Z;
  expires_at : option Z;
  created_at : Z;
}.
#[global] Instance eta_free_trial_request : Eta free_trial_request := fun r => mk_trial_request
  (customer r) (panel r) (inbound r) (vpn_client r) (telegram_user_id r) (status r) (traffic_gb r)
  (duration_hours r) (config_link r) (error_message r) (delivered_at r) (expires_at r) (created_at r).
End FreeTrial.

(** A subscription address of the shop's own. *)
Module SubscriptionCup.
Inductive status_t := ACTIVE | DISABLED | EXPIRED.
#[global] Instance status_eq_dec : EqDecision status_t.
Proof. solve_decision. Defined.

Record subscription_cup := mk_cup {
  customer : option Z;
  order : option Z;
  plan : option Z;
  vpn_client : option Z;
  token : string;
  status : status_t;
  expires_at : option Z;
  traffic_limit_bytes : Z;
  device_limit : option Z;
  cup_metadata : metadata;
  created_at : Z;
}.
#[global] Instance eta_subscription_cup : Eta subscription_cup := fun r => mk_cup (customer r) (order r)
  (plan r) (vpn_client r) (token r) (status r) (expires_at r) (traffic_limit_bytes r) (device_limit r)
  (cup_metadata r) (created_at r).

Definition is_expired (now : Z) (c : subscription_cup) : bool :=
  match expires_at c with Some t => t <=? now | None => false end.

Definition is_accessible (now : Z) (c : subscription_cup) : bool :=
  bool_decide (status c = ACTIVE) && negb (is_expired now c).
End SubscriptionCup.

(** One configuration a customer's application can connect with. *)
Module ConfigLink.
Inductive source_type_t :=
| PANEL_GENERATED | MANUAL | IMPORTED_SUBSCRIPTION | EXTERNAL_SUBSCRIPTION | UNKNOWN_SOURCE.
#[global] Instance source_type_eq_dec : EqDecision source_type_t.
Proof. solve_decision. Defined.

Record config_link := mk_config_link {
  raw_link : string;
  normalized_link : string;
  normalized_hash : string;
  protocol : string;
  remark : string;
  host : string;
  port : option Z;
  source_type : source_type_t;
  source_panel : option Z;
  source_inbound : option Z;
  vpn_client : option Z;
  external_feed : option Z;
  is_active : bool;
  link_metadata : metadata;
}.
#[global] Instance eta_config_link : Eta config_link := fun r => mk_config_link (raw_link r)
  (normalized_link r) (normalized_hash r) (protocol r) (remark r) (host r) (port r) (source_type r)
  (source_panel r) (source_inbound r) (vpn_client r) (external_feed r) (is_active r) (link_metadata r).
End ConfigLink.

(** Its place in a cup. *)
Module CupItem.
Record cup_item := mk_cup_item {
  cup : Z;
  config_link : Z;
  position : Z;
  is_active : bool;
  added_reason : string;
  item_metadata : metadata;
}.
#[global] Instance eta_cup_item : Eta cup_item := fun r => mk_cup_item (cup r) (config_link r)
  (position r) (is_active r) (added_reason r) (item_metadata r).
End CupItem.

(** ** How a plan is delivered *)

Module PlanDelivery.
Inductive failure_policy_t := STRICT | PARTIAL_ALLOWED.
#[global] Instance failure_policy_eq_dec : EqDecision failure_policy_t.
Proof. solve_decision. Defined.

(** The mode is its text: the code refuses one it does not know. *)
Record plan_delivery_config := mk_delivery_config {
  plan : Z;
  delivery_mode : string;
  failure_policy : failure_policy_t;
  active : bool;
}.
#[global] Instance eta_plan_delivery_config : Eta plan_delivery_config := fun r => mk_delivery_config
  (plan r) (delivery_mode r) (failure_policy r) (active r).

(** [OTHER_TYPE] is a text that is not one of the choices. *)
Inductive source_type_t := PANEL_INBOUND | INVENTORY_POOL | OTHER_TYPE.
#[global] Instance source_type_eq_dec : EqDecision source_type_t.
Proof. solve_decision. Defined.

Record plan_delivery_source := mk_delivery_source {
  delivery_config : Z;
  source_type : source_type_t;
  panel : option Z;
  inbound : option Z;
  inventory_pool : option Z;
  quantity : Z;
  required : bool;
  priority : Z;
  is_fallback : bool;
  source_active : bool;
  source_metadata : metadata;
}.
#[global] Instance eta_plan_delivery_source : Eta plan_delivery_source := fun r => mk_delivery_source
  (delivery_config r) (source_type r) (panel r) (inbound r) (inventory_pool r) (quantity r)
  (required r) (priority r) (is_fallback r) (source_active r) (source_metadata r).
End PlanDelivery.

(** A panel's subscription a cup follows. *)
Module ExternalFeed.
Inductive status_t := HEALTHY | DEGRADED | ERROR | DISABLED.
#[global] Instance status_eq_dec : EqDecision status_t.
Proof. solve_decision. Defined.

Record external_subscription_feed := mk_feed {
  provider : string;
  active : bool;
  cup : Z;
  delivery_source : option Z;
  panel : option Z;
  vpn_client : option Z;
  remote_identity_ref : string;
  protected_subscription_url : string;
  resolved_filter_policy : metadata;
  refresh_interval_hours : Z;
  next_refresh_at : option Z;
  last_attempt_at : option Z;
  refresh_token : string;
  refresh_lease_until : option Z;
  last_success_at : option Z;
  consecutive_failures : Z;
  status : status_t;
  last_good_config_count : Z;
  last_seen_upstream_count : Z;
  last_filtered_count : Z;
  last_error_code : string;
  feed_metadata : metadata;
}.
#[global] Instance eta_external_subscription_feed : Eta external_subscription_feed := fun r => mk_feed
  (provider r) (active r) (cup r) (delivery_source r) (panel r) (vpn_client r) (remote_identity_ref r)
  (protected_subscription_url r) (resolved_filter_policy r) (refresh_interval_hours r) (next_refresh_at r)
  (last_attempt_at r) (refresh_token r) (refresh_lease_until r) (last_success_at r)
  (consecutive_failures r) (status r) (last_good_config_count r) (last_seen_upstream_count r)
  (last_filtered_count r) (last_error_code r) (feed_metadata r).
End ExternalFeed.

(** What fills a plan's cup. *)
Module CupRecipe.
Inductive failure_policy_t := STRICT | PARTIAL_ALLOWED.
#[global] Instance failure_policy_eq_dec : EqDecision failure_policy_t.
Proof. solve_decision. Defined.

Record cup_fulfillment_recipe := mk_recipe {
  plan : Z;
  title : string;
  is_active : bool;
  priority : Z;
  failure_policy : failure_policy_t;
}.
#[global] Instance eta_cup_fulfillment_recipe : Eta cup_fulfillment_recipe := fun r => mk_recipe
  (plan r) (title r) (is_active r) (priority r) (failure_policy r).

(** [OTHER_TYPE] is a text that is not one of the choices. *)
Inductive source_type_t := PANEL_INBOUNDS | INVENTORY_POOL | OTHER_TYPE.
#[global] Instance source_type_eq_dec : EqDecision source_type_t.
Proof. solve_decision. Defined.

Record cup_filler_rule := mk_rule {
  recipe : Z;
  position : Z;
  source_type : source_type_t;
  quantity : Z;
  required : bool;
  panel : option Z;
  inbounds : gset Z;
  inventory_pool : option Z;
  allocation_mode : string;
  rule_active : bool;
}.
#[global] Instance eta_cup_filler_rule : Eta cup_filler_rule := fun r => mk_rule (recipe r) (position r)
  (source_type r) (quantity r) (required r) (panel r) (inbounds r) (inventory_pool r)
  (allocation_mode r) (rule_active r).
End CupRecipe.

Module BotConfiguration.
Inductive provider_t := BALE | TELEGRAM.
#[global] Instance provider_eq_dec : EqDecision provider_t.
Proof. solve_decision. Defined.

Record bot_configuration := mk_bot {
  store : option Z;
  provider : provider_t;
  bot_token : string;
  admin_user_id : string;
  is_active : bool;
  notify_new_orders : bool;
}.
#[global] Instance eta_bot_configuration : Eta bot_configuration := fun r => mk_bot (store r)
  (provider r) (bot_token r) (admin_user_id r) (is_active r) (notify_new_orders r).
End BotConfiguration.

Module BotUser.
Record bot_user := mk_bot_user {
  bot_config : Z;
  customer : option Z;
  provider_user_id : string;
  chat_id : string;
  is_active : bool;
  last_seen_at : Z;
  updated_at : Z;
}.
#[global] Instance eta_bot_user : Eta bot_user := fun r => mk_bot_user (bot_config r) (customer r)
  (provider_user_id r) (chat_id r) (is_active r) (last_seen_at r) (updated_at r).
End BotUser.

(** One reminder, for one client, of one kind, on one day. *)
Module ReminderLog.
Inductive reminder_type_t := EXPIRY_BEFORE | EXPIRY_TODAY | EXPIRY_AFTER | LOW_TRAFFIC.
#[global] Instance reminder_type_eq_dec : EqDecision reminder_type_t.
Proof. solve_decision. Defined.
Inductive status_t := SENT | SKIPPED | FAILED.
#[global] Instance status_eq_dec : EqDecision status_t.
Proof. solve_decision. Defined.

Record reminder_log := mk_reminder_log {
  customer : option Z;
  vpn_client : Z;
  reminder_type : reminder_type_t;
  trigger_key : string;
  trigger_date : Z;
  sent_to_telegram_id : string;
  status : status_t;
  message_text : string;
  error_message : string;
  sent_at : option Z;
  created_at : Z;
  updated_at : Z;
}.
#[global] Instance eta_reminder_log : Eta reminder_log := fun r => mk_reminder_log (customer r) (vpn_client r)
  (reminder_type r) (trigger_key r) (trigger_date r) (sent_to_telegram_id r) (status r) (message_text r)
  (error_message r) (sent_at r) (created_at r) (updated_at r).
End ReminderLog.

(** A deposit message of the bank (src/payments/models.py). *)
Module PaymentSMS.
Inductive status_t := NEW | MATCHED | CONFIRMED | DISMISSED | NO_MATCH.
#[global] Instance status_eq_dec : EqDecision status_t.
Proof. solve_decision. Defined.

Record incoming_payment_sms := mk_sms {
  raw_text : string;
  amount : Z;
  balance : Z;
  sms_datetime : Z;
  received_at : Z;
  status : status_t;
  matched_orders : gset Z;
}.
#[global] Instance eta_incoming_payment_sms : Eta incoming_payment_sms := fun r => mk_sms (raw_text r)
  (amount r) (balance r) (sms_datetime r) (received_at r) (status r) (matched_orders r).
End PaymentSMS.

(** ** Ready-made configurations, sold from pools *)

Module InventoryPool.
Inductive allocation_mode_t := EXCLUSIVE | SHARED_LIMITED | SHARED_UNLIMITED.
#[global] Instance allocation_mode_eq_dec : EqDecision allocation_mode_t.
Proof. solve_decision. Defined.

Record config_inventory_pool := mk_pool {
  title : string;
  connected_plan : option Z;
  duration_days : option Z;
  allocation_mode : allocation_mode_t;
  max_allocations_per_asset : option Z;
  is_active : bool;
}.
#[global] Instance eta_config_inventory_pool : Eta config_inventory_pool := fun r => mk_pool (title r)
  (connected_plan r) (duration_days r) (allocation_mode r) (max_allocations_per_asset r) (is_active r).
End InventoryPool.

Module InventoryAsset.
Inductive status_t := AVAILABLE | RESERVED | ASSIGNED | DISABLED | EXPIRED | BURNED.
#[global] Instance status_eq_dec : EqDecision status_t.
Proof. solve_decision. Defined.

Record config_inventory_asset := mk_asset {
  pool : Z;
  raw_link : string;
  normalized_hash : string;
  status : status_t;
  expires_at : option Z;
  max_allocations : option Z;
  current_allocations : Z;
  created_at : Z;
}.
#[global] Instance eta_config_inventory_asset : Eta config_inventory_asset := fun r => mk_asset (pool r)
  (raw_link r) (normalized_hash r) (status r) (expires_at r) (max_allocations r)
  (current_allocations r) (created_at r).
End InventoryAsset.

(** One use of a configuration, by a cup or an order. *)
Module Allocation.
Inductive status_t := ACTIVE | RELEASED | CANCELLED.
#[global] Instance status_eq_dec : EqDecision status_t.
Proof. solve_decision. Defined.

Record config_allocation := mk_allocation {
  asset : Z;
  cup : option Z;
  order : option Z;
  allocation_mode : InventoryPool.allocation_mode_t;
  status : status_t;
  allocated_at : Z;
  released_at : option Z;
  allocation_metadata : metadata;
}.
#[global] Instance eta_config_allocation : Eta config_allocation := fun r => mk_allocation (asset r)
  (cup r) (order r) (allocation_mode r) (status r) (allocated_at r) (released_at r)
  (allocation_metadata r).
End Allocation.

(** ** Customer activity (src/customer_activity/models.py) *)

(** What is known of the use of one purchase; one row per order. *)
Module Activity.
Inductive entitlement_t :=
| UNKNOWN | VALID | EXPIRED | EXHAUSTED | DISABLED | ENDED | CONFLICT | CLOSED | SUPERSEDED.
#[global] Instance entitlement_eq_dec : EqDecision entitlement_t.
Proof. solve_decision. Defined.

(** One entry of [counters]: bytes so far, when they were read, and the limits
    of the service at that time. *)
Record counter := mk_counter {
  used : Z;
  up : Z;
  down : Z;
  sampled_at : Z;
  quota : option Z;
  expiry : option Z;
}.
#[global] Instance counter_eq_dec : EqDecision counter.
Proof. solve_decision. Defined.

Record purchase_activity := mk_activity {
  observed_at : option Z;
  entitlement : entitlement_t;
  reason : string;
  counters : gmap string counter;
  continuous_since : option Z;
  last_activity_start : option Z;
  last_activity_at : option Z;
  source_count : Z;
  cycle : Z;
  ended_at : option Z;
}.
#[global] Instance eta_purchase_activity : Eta purchase_activity := fun r => mk_activity (observed_at r)
  (entitlement r) (reason r) (counters r) (continuous_since r) (last_activity_start r) (last_activity_at r)
  (source_count r) (cycle r) (ended_at r).

Record activity_observation := mk_observation {
  purchase : Z;
  sample_at : Z;
  interval_start : option Z;
  delta_bytes : option Z;
  quality : string;
}.

(** The one row that holds the lease of the collector. *)
Record activity_collector := mk_collector {
  token : string;
  lease_until : option Z;
  heartbeat_at : option Z;
  completed_at : option Z;
  collector_error : option string;
}.
#[global] Instance eta_activity_collector : Eta activity_collector := fun r => mk_collector (token r) (lease_until r)
  (heartbeat_at r) (completed_at r) (collector_error r).
End Activity.

(** Messages about a purchase. *)
Module Outreach.
Inductive mode_t := OFF | PREVIEW_MODE | LIVE.
#[global] Instance mode_eq_dec : EqDecision mode_t.
Proof. solve_decision. Defined.

Record outreach_settings := mk_outreach_settings {
  mode : mode_t;
  inactivity_enabled : bool;
  renewal_enabled : bool;
  daily_limit : Z;
  start_hour : Z;
  end_hour : Z;
  last_run_at : option Z;
}.
#[global] Instance eta_outreach_settings : Eta outreach_settings := fun r => mk_outreach_settings (mode r)
  (inactivity_enabled r) (renewal_enabled r) (daily_limit r) (start_hour r) (end_hour r) (last_run_at r).

Record outreach_preference := mk_preference {
  pref_store : Z;
  pref_customer : Z;
  muted : bool;
}.

Inductive status_t := PREVIEW | READY | SENDING | SENT | UNCERTAIN | FAILED | CANCELLED.
#[global] Instance status_eq_dec : EqDecision status_t.
Proof. solve_decision. Defined.

Record outreach_event := mk_event {
  order : Z;
  cycle : Z;
  kind : string;
  status : status_t;
  reason : string;
  bot_user : option Z;
  created_at : Z;
  updated_at : Z;
  claimed_at : option Z;
  sent_at : option Z;
  message_id : string;
  converted_order : option Z;
}.
#[global] Instance eta_outreach_event : Eta outreach_event := fun r => mk_event (order r) (cycle r) (kind r)
  (status r) (reason r) (bot_user r) (created_at r) (updated_at r) (claimed_at r) (sent_at r) (message_id r)
  (converted_order r).
End Outreach.

(** What the older campaigns of the shop sent. *)
Module OfferLog.
Inductive status_t := DRY_RUN | SENT | SKIPPED | SUPPRESSED | FAILED | CONVERTED.
#[global] Instance status_eq_dec : EqDecision status_t.
Proof. solve_decision. Defined.

Record revenue_offer_log := mk_offer_log {
  store : option Z;
  customer : option Z;
  bot_user : option Z;
  engine_type : string;
  event_type : string;
  offer_type : string;
  status : status_t;
  sent_at : option Z;
  offer_metadata : metadata;
  created_at : Z;
}.
End OfferLog.

Module Support.
Inductive status_t := OPEN | WAITING_ADMIN | ANSWERED | CLOSED.
#[global] Instance status_eq_dec : EqDecision status_t.
Proof. solve_decision. Defined.

Record support_conversation := mk_conversation {
  store : option Z;
  customer : option Z;
  status : status_t;
}.
End Support.
