(* ===== verification/World.v ===== *)
(** The state the handlers share: the database (one table per model), the
    checkout cache, and the history of calls to the outside (panel APIs,
    Telegram), with the environment that answers those calls.

    The HTTP clients (src/store/xui_api.py, src/store/panels/), hashing and
    the Telegram sender are not modelled: each is a function of the
    environment.  An answer may depend on everything called before it, so a
    theorem for every environment covers a panel that fails, recovers or
    changes its mind between two calls. *)

From S2P Require Import Prelude Models.

(** ** Results and requests of panel calls *)

(** What a panel returns for a created or found client. *)
Record client_result := mk_client_result {
  cr_uuid : string;
  cr_email : string;
  cr_sub_id : string;
  cr_sub_link : option string;
  cr_direct_link : option string;
  cr_expires_at : option Z;
  cr_xui_node_id : string;
  cr_remote_client_key : string;
  cr_raw : metadata;
}.
#[global] Instance eta_client_result : Eta client_result := fun r => mk_client_result
  (cr_uuid r) (cr_email r) (cr_sub_id r) (cr_sub_link r) (cr_direct_link r) (cr_expires_at r)
  (cr_xui_node_id r) (cr_remote_client_key r) (cr_raw r).

(** The identity an order derives for its panel clients. *)
Record identity := mk_identity {
  id_uuid : string;
  id_sub_id : string;
  id_email : string;
  id_email_prefix : string;
  id_idempotency_key : string;
}.
#[global] Instance eta_identity : Eta identity := fun r => mk_identity (id_uuid r)
  (id_sub_id r) (id_email r) (id_email_prefix r) (id_idempotency_key r).

Record renewal_result := mk_renewal { rn_expiry_at : option Z; rn_raw : option metadata }.
#[global] Instance eta_renewal_result : Eta renewal_result := fun r => mk_renewal
  (rn_expiry_at r) (rn_raw r).

Record traffic_result := mk_traffic {
  tr_total_traffic_bytes : Z;
  tr_expiry_unlimited : bool;
  tr_expiry_at : option Z;
  tr_raw : metadata;
}.
#[global] Instance eta_traffic_result : Eta traffic_result := fun r => mk_traffic
  (tr_total_traffic_bytes r) (tr_expiry_unlimited r) (tr_expiry_at r) (tr_raw r).

(** What the panel says of a client after changing its limits or its state. *)
Record limits_result := mk_limits {
  lr_new_total_bytes : option Z;
  lr_new_expiry_time : option Z;
  lr_enabled : option bool;
  lr_raw : option metadata;
}.
#[global] Instance eta_limits_result : Eta limits_result := fun r => mk_limits
  (lr_new_total_bytes r) (lr_new_expiry_time r) (lr_enabled r) (lr_raw r).

(** ... after removing it... *)
Record remove_result := mk_remove {
  rm_stats_deleted : bool;
  rm_stats_remaining : bool;
  rm_matched_field : string;
}.

(** ... and the links it has for it. *)
Record link_result := mk_link {
  lk_updated_config_link : string;
  lk_direct_link : string;
  lk_email : string;
}.

(** A client as an administrator looks it up: the dictionary the lookup
    screens pass around. *)
Record lookup_result := mk_lookup {
  panel_id : option Z;
  lookup_inbound_id : option Z;
  node_id : string;
  lookup_xui_node_id : string;
  identifier : string;
  vpn_client_id : option Z;
  lookup_email : string;
  remark : string;
  lookup_client : metadata;
  client_stats : metadata;
  total_bytes : option Z;
  total_traffic_bytes : option Z;
  expiry_time : option Z;
  expiry_at : option Z;
}.
#[global] Instance eta_lookup_result : Eta lookup_result := fun r => mk_lookup (panel_id r)
  (lookup_inbound_id r) (node_id r) (lookup_xui_node_id r) (identifier r) (vpn_client_id r)
  (lookup_email r) (remark r) (lookup_client r) (client_stats r) (total_bytes r)
  (total_traffic_bytes r) (expiry_time r) (expiry_at r).

(** What a panel says it can do. *)
Record capability_report := mk_report {
  supports_create_client : bool;
  supports_multi_inbound_create : bool;
}.

(** The dictionary a panel adapter answers a creation with. *)
Record adapter_result := mk_adapter_result {
  ar_client : client_result;
  ar_raw_links : list string;
  ar_bundle_results : list client_result;
}.

(** A link as urllib takes it apart: [urlsplit], [parse_qs] with blank values
    kept, [unquote] of the fragment. *)
Record url_parts := mk_url {
  u_scheme : string;
  u_netloc : string;
  u_hostname : string;
  u_port : option Z;
  u_fragment : string;
  u_query : list (string * list string);
}.

(** What [XUIService.get_client_stats] says of a client; [us_known] is
    [has_usage_stats] of the raw answer. *)
Record usage_stats := mk_usage_stats {
  us_panel_available : bool;
  us_known : bool;
  us_total : option Z;
  us_used_upload : Z;
  us_used_download : Z;
  us_used : option Z;
  us_remaining : option Z;
  us_expiry_at : option Z;
  us_is_enabled : option bool;
  us_is_expired : bool;
  us_raw : metadata;
  us_error : string;
}.

(** What a panel answers about an inbound: the object of
    [XUIService.get_inbound] (an empty one for an answer without), or an
    exception with its text. *)
Inductive scope_fault := AmbiguousScope | UnknownSafeMode | NetworkFault | OtherFault.
Inductive inbound_answer :=
| InboundData (obj : json)
| InboundRaised (fault : scope_fault) (text : string).

(** The counters of one account as a panel lists them (one row of
    [read_panel] of src/customer_activity/panels.py); the identifiers are
    hashes. *)
Record usage_row := mk_usage_row {
  ur_panel : Z;
  ur_inbound : option Z;
  ur_remote_inbound : string;
  ur_node : string;
  ur_hash : string;
  ur_aliases : list string;
  ur_used : option Z;
  ur_upload : option Z;
  ur_download : option Z;
  ur_total : option Z;
  ur_expiry : option Z;
  ur_status : string;
  ur_enabled : option bool;
  ur_available : bool;
  ur_captured_at : Z;
}.

(** What becomes of a message to a chat: the number it got, or the error code of
    the exception, where it has one. *)
Inductive journey_answer :=
| JourneySent (message_id : option string)
| JourneyFailed (error_code : option Z).

(** What a panel deletion addresses: a client row, or the order itself when it
    has no client row. *)
Inductive target :=
| TargetClient (pk : Z) (c : VPNClient.vpn_client)
| TargetOrder (pk : Z) (o : Order.order).

Definition target_inbound (t : target) : option Z :=
  match t with
  | TargetClient _ c => VPNClient.inbound c
  | TargetOrder _ o => Order.inbound o
  end.

(** One call to the outside, as recorded in the history. *)
Inductive call :=
| CallDelete (inbound : option Z) (identifier : string)
| CallEnable (client : Z)
| CallRenew (client order : Z)
| CallCreateInactive (order index : Z) (inbound : Z)
| CallPrecreate (inbound : Z)
| CallLookup (inbound : Z) (uuid : string)
| CallCreateEnabled (inbound : Z) (uuid : string)
| CallCreateBundle (inbounds : list Z) (uuid : string)
| CallAddTraffic (client : Z) (gb days : Z)
| CallSetEnabled (client : Z) (enabled : bool)
| CallNotify (order : Z) (event : string)
| CallDeliver (order : Z)
| CallSetLimits (inbound : Z) (identifier : string) (total expiry : option Z) (enable : bool)
| CallRemove (inbound : Z) (identifier : string)
| CallFind (panel : Z) (identifier : string)
| CallLink (inbound : Z) (identifier : string)
| CallSend (config : Z) (text : string)
| CallCreateTrial (request inbound : Z) (name : string)
| CallCapabilities (panel : Z)
| CallAdapterCreate (panel : Z) (inbounds : list Z) (uuid : string)
| CallFetchFeed (panel : Z) (url : string)
| CallSyncStats (client : Z)
| CallRemind (client config : Z) (chat : string)
| CallGetInbound (inbound : Z)
| CallReadPanel (panel : Z)
| CallJourney (event config : Z) (chat : string).

(** A call that can change something on a panel. *)
Definition is_panel_write (c : call) : bool :=
  match c with
  | CallDelete _ _ | CallEnable _ | CallRenew _ _ | CallCreateInactive _ _ _ | CallPrecreate _
  | CallCreateEnabled _ _ | CallCreateBundle _ _ | CallAddTraffic _ _ _
  | CallSetEnabled _ _ | CallDeliver _ | CallSetLimits _ _ _ _ _ | CallRemove _ _
  | CallCreateTrial _ _ _ | CallAdapterCreate _ _ _ => true
  | CallLookup _ _ | CallNotify _ _ | CallFind _ _ | CallLink _ _ | CallSend _ _
  | CallCapabilities _ | CallFetchFeed _ _ | CallSyncStats _ | CallRemind _ _ _ | CallGetInbound _
  | CallReadPanel _ | CallJourney _ _ _ => false
  end.

(** ** The database *)

(** [updated_at] of the rows outreach looks at the time of; the handlers of the
    other files do not keep these columns. *)
Record touched_columns := mk_touched {
  client_updated_at : gmap Z Z;
  cup_updated_at : gmap Z Z;
  cup_item_updated_at : gmap Z Z;
  config_link_updated_at : gmap Z Z;
}.

Record DB := mk_db {
  stores : gmap Z Store.store;
  operators : gmap Z Operator.operator;
  plans : gmap Z Plan.plan;
  discounts : gmap Z DiscountCode.discount_code;
  customers : gmap Z Customer.customer;
  rewards : gmap Z CustomerReward.customer_reward;
  referrals : gmap Z Referral.referral;
  ledgers : gmap Z Ledger.referral_reward_ledger;
  panels : gmap Z Panel.panel;
  inbounds : gmap Z Inbound.inbound;
  routes : gmap Z PlanInboundRoute.plan_inbound_route;
  orders : gmap Z Order.order;
  clients : gmap Z VPNClient.vpn_client;
  (** one-to-one with orders: keyed by the order's primary key *)
  automations : gmap Z OrderAutomation.order_automation;
  action_logs : gmap Z ActionLog.action_log;
  free_trials : gmap Z FreeTrial.free_trial_request;
  cups : gmap Z SubscriptionCup.subscription_cup;
  bot_configs : gmap Z BotConfiguration.bot_configuration;
  bot_users : gmap Z BotUser.bot_user;
  payment_sms : gmap Z PaymentSMS.incoming_payment_sms;
  inventory_pools : gmap Z InventoryPool.config_inventory_pool;
  inventory_assets : gmap Z InventoryAsset.config_inventory_asset;
  config_allocations : gmap Z Allocation.config_allocation;
  config_links : gmap Z ConfigLink.config_link;
  cup_items : gmap Z CupItem.cup_item;
  delivery_configs : gmap Z PlanDelivery.plan_delivery_config;
  delivery_sources : gmap Z PlanDelivery.plan_delivery_source;
  external_feeds : gmap Z ExternalFeed.external_subscription_feed;
  recipes : gmap Z CupRecipe.cup_fulfillment_recipe;
  filler_rules : gmap Z CupRecipe.cup_filler_rule;
  reminder_logs : gmap Z ReminderLog.reminder_log;
  touched : touched_columns;
  (** one-to-one with orders: keyed by the order's primary key *)
  activities : gmap Z Activity.purchase_activity;
  observations : gmap Z Activity.activity_observation;
  collector : option Activity.activity_collector;
  (** one-to-one with shops: keyed by the shop's primary key *)
  outreach_settings : gmap Z Outreach.outreach_settings;
  outreach_preferences : gmap Z Outreach.outreach_preference;
  outreach_events : gmap Z Outreach.outreach_event;
  offer_logs : gmap Z OfferLog.revenue_offer_log;
  support_conversations : gmap Z Support.support_conversation;
}.
#[global] Instance eta_DB : Eta DB := fun r => mk_db (stores r) (operators r) (plans r)
  (discounts r) (customers r) (rewards r) (referrals r) (ledgers r) (panels r) (inbounds r)
  (routes r) (orders r) (clients r) (automations r) (action_logs r) (free_trials r) (cups r)
  (bot_configs r) (bot_users r) (payment_sms r) (inventory_pools r) (inventory_assets r)
  (config_allocations r) (config_links r) (cup_items r) (delivery_configs r) (delivery_sources r)
  (external_feeds r) (recipes r) (filler_rules r) (reminder_logs r) (touched r) (activities r)
  (observations r) (collector r) (outreach_settings r) (outreach_preferences r) (outreach_events r)
  (offer_logs r) (support_conversations r).

Definition empty_db : DB := {|
  stores := ∅; operators := ∅; plans := ∅; discounts := ∅; customers := ∅; rewards := ∅;
  referrals := ∅; ledgers := ∅; panels := ∅; inbounds := ∅; routes := ∅; orders := ∅;
  clients := ∅; automations := ∅; action_logs := ∅; free_trials := ∅; cups := ∅;
  bot_configs := ∅; bot_users := ∅; payment_sms := ∅; inventory_pools := ∅;
  inventory_assets := ∅; config_allocations := ∅; config_links := ∅; cup_items := ∅;
  delivery_configs := ∅; delivery_sources := ∅; external_feeds := ∅; recipes := ∅; filler_rules := ∅;
  reminder_logs := ∅; touched := mk_touched ∅ ∅ ∅ ∅; activities := ∅; observations := ∅; collector := None;
  outreach_settings := ∅; outreach_preferences := ∅; outreach_events := ∅; offer_logs := ∅;
  support_conversations := ∅ |}.

Record World := mk_world {
  db : DB;
  (** keys held in the Django cache *)
  locks : gset string;
  (** calls made so far, most recent first *)
  calls : list call;
}.
#[global] Instance eta_World : Eta World := fun r => mk_world (db r) (locks r) (calls r).

Notation IO := (M World).

(** [with transaction.atomic(): m]: an exception restores the database as it
    was on entry; what was done outside (cache, panel) stays done. *)
Definition atomic {A} (m : IO A) : IO A := fun w =>
  match m w with
  | (Ret a, w') => (Ret a, w')
  | (Raise e, w') => (Raise e, w' {{ db := db w }})
  end.

Definition get_db : IO DB := fun w => (Ret (db w), w).
Definition put_db (f : DB -> DB) : IO unit := modify (fun w => w {{ db ::= f }}).

(** Record a call and obtain its answer from the history before it. *)
Definition ask {A} (c : call) (answer : list call -> A) : IO A := fun w =>
  (Ret (answer (calls w)), w {{ calls ::= cons c }}).

(** The same for a call that may raise. *)
Definition askR {A} (c : call) (answer : list call -> result A) : IO A := fun w =>
  (answer (calls w), w {{ calls ::= cons c }}).

(** ** The environment *)

Class Env := {
  (** calendar date in Asia/Tehran of an instant *)
  localdate_tehran : Z -> Z;
  (** [timezone.now().isoformat()] *)
  isoformat : Z -> string;
  (** position of a name in the database's collation (Store.Meta.ordering) *)
  collation_rank : string -> Z;
  (** successive random draws: [generate_short_code("", 8)], and the uuid fallback *)
  short_code : nat -> string;
  uuid_hex10 : string;
  (** hashing of identities (uuid5, sha256) *)
  uuid5 : string -> string;
  sha256 : string -> string;
  (** src/store/naming.py *)
  build_client_display_name : Order.order -> string;
  build_xui_client_email : string -> string -> string;
  (** panel clients *)
  xui_delete_client : list call -> target -> bool;
  adapter_delete_client : list call -> target -> result bool;
  enable_client : list call -> Z -> VPNClient.vpn_client -> bool;
  renew_client : list call -> Z -> VPNClient.vpn_client -> Plan.plan -> option renewal_result;
  renewal_error : list call -> string;
  create_inactive_client : list call -> Z -> Inbound.inbound -> Plan.plan -> option identity ->
                           string -> option client_result;
  lookup_remote_client : list call -> Z -> Inbound.inbound -> identity -> bool ->
                         result (option client_result);
  create_enabled_client : list call -> Z -> Inbound.inbound -> Plan.plan -> identity ->
                          option client_result;
  create_enabled_bundle : list call -> list Z -> Plan.plan -> identity ->
                          option (list client_result);
  add_client_traffic : list call -> Z -> VPNClient.vpn_client -> Z -> Z -> option traffic_result;
  pasarguard_create : list call -> list Z -> Plan.plan -> identity ->
                      result (client_result * list string);
  (** text for people and for JSON: [_safe_error], [_json_safe_value] *)
  safe_error_text : exn -> string;
  json_safe : client_result -> json;
  (** the receipt's text against the amount due (src/store/receipt_analysis.py) *)
  analyze_receipt_text : string -> Z -> option Plan.currency_t -> json;
  (** writing the receipt file of an order *)
  store_receipt_image : string -> result unit;
  (** Telegram *)
  notify_order_event : list call -> Z -> Order.order -> string -> result Z;
  send_to_config : list call -> Z -> string -> result Z;
  (** [format_payment_match_message]; src/store/admin_notifications.py *)
  payment_match_text : Z -> PaymentSMS.incoming_payment_sms -> list (Z * Order.order) -> string;
  notify_needs_review : list call -> Z -> result unit;
  (** jdatetime and zoneinfo: the instant of a Jalali date and time of day in a
      time zone, and which names are time zones *)
  jalali_instant : string -> Z -> Z -> Z -> Z -> Z -> option Z;
  zone_known : string -> bool;
  (** [check_password]; a setting of the deployment as text, stripped *)
  check_password : string -> string -> bool;
  legacy_setting : string -> string;
  (** administration of single clients *)
  update_client_traffic_and_expiry :
    list call -> Z -> string -> option Z -> option Z -> bool -> result limits_result;
  delete_client_from_inbound : list call -> Z -> string -> result remove_result;
  find_client_by_identifier : list call -> Z -> string -> result (option lookup_result);
  build_config_link_for_identifier : list call -> Z -> string -> result link_result;
  (** [_mask_string_value], [str] of a JSON value *)
  mask_string_value : string -> string;
  json_text : json -> string;
  (** free trials: the client on the panel, its name, the wording of a date *)
  create_trial_client_details : list call -> Z -> Z -> string -> result (option (client_result * list string));
  build_trial_client_name : option Z -> string -> string;
  format_jalali_datetime : Z -> string;
  sanitize_free_trial_log_value : string -> string;
  (** panel adapters of src/store/panels/ and the subscription a panel serves *)
  get_capability_report : list call -> Z -> result capability_report;
  adapter_create : list call -> Z -> list Z -> Plan.plan -> identity -> string -> result adapter_result;
  fetch_native_links : list call -> Z -> string -> result (list string);
  (** urllib, where [None] is [ValueError]; the JSON object in the payload of a
      vmess link, decoded with the error handler named *)
  split_url : string -> option url_parts;
  vmess_data : string -> string -> list (string * json);
  (** [secrets.token_urlsafe], one draw per cup; eight digits of sha256 *)
  generate_subscription_cup_token : Z -> string;
  sha256_prefix_int : string -> Z;
  (** [settings.DEBUG]; [safe_external_subscription_text] *)
  debug_setting : bool;
  safe_external_subscription_text : string -> string;
  (** traffic and expiry of a client as its panel counts them, and a message to
      its customer *)
  get_client_stats : list call -> Z -> VPNClient.vpn_client -> result usage_stats;
  send_reminder : list call -> Z -> Z -> string -> string -> result unit;
  (** an inbound as its panel shows it, read past the cache; [json.loads], blank
      for [ValueError]; [sanitize_xui_operational_text] of an exception, for a
      panel *)
  get_inbound : list call -> Z -> Inbound.inbound -> inbound_answer;
  json_loads : string -> option json;
  sanitize_operational : Z -> string -> string;
  (** [str.lower()] of an identity *)
  lower_text : string -> string;
  (** customer activity: the counters a panel lists, with the status of the read;
      the digest of an identity; the credential in a link, blank when it has
      none; [CUSTOMER_ACTIVITY_MIN_BYTES] *)
  read_panel : list call -> Z -> list usage_row * string;
  identifier_digest : string -> string;
  credential_from_link : string -> string;
  activity_min_bytes : Z;
  (** the hour in Asia/Tehran of an instant; the answer to a message *)
  hour_tehran : Z -> Z;
  send_journey : list call -> Z -> Z -> string -> journey_answer;
}.

(** What a panel of the examples answers for a client. *)
Definition sample_result (key : string) : client_result := {|
  cr_uuid := "u-" +:+ key; cr_email := key; cr_sub_id := "s-" +:+ key;
  cr_sub_link := Some ("sub:" +:+ key); cr_direct_link := Some ("vless:" +:+ key); cr_expires_at := None;
  cr_xui_node_id := ""; cr_remote_client_key := "k-" +:+ key; cr_raw := ∅ |}.

(** An environment in which every panel call succeeds, given what the panel
    knows and how messages go. *)
Definition make_env (lookup : list call -> identity -> option client_result) (notify : result Z) : Env := {|
  localdate_tehran := fun t => t / VPNClient.day; isoformat := pretty;
  collation_rank := fun _ => 0; short_code := pretty; uuid_hex10 := "ABCDEF0123";
  uuid5 := fun s => "uuid:" +:+ s; sha256 := fun s => s;
  build_client_display_name := Order.order_tracking_code;
  build_xui_client_email := fun prefix _ => prefix;
  xui_delete_client := fun _ _ => true; adapter_delete_client := fun _ _ => Ret true;
  enable_client := fun _ _ _ => true;
  renew_client := fun _ _ _ _ => Some {| rn_expiry_at := Some 1000; rn_raw := None |};
  renewal_error := fun _ => "";
  create_inactive_client := fun _ _ _ _ ident name => Some (sample_result
    (match ident with Some i => id_uuid i | None => name end));
  lookup_remote_client := fun h _ _ ident _ => Ret (lookup h ident);
  create_enabled_client := fun _ _ _ _ ident => Some (sample_result (id_uuid ident));
  create_enabled_bundle := fun _ ins _ ident => Some (map (fun _ => sample_result (id_uuid ident)) ins);
  add_client_traffic := fun _ _ _ _ _ => Some {| tr_total_traffic_bytes := 0;
    tr_expiry_unlimited := false; tr_expiry_at := None; tr_raw := ∅ |};
  pasarguard_create := fun _ _ _ ident => Ret (sample_result (id_uuid ident), ["sub:1"]);
  safe_error_text := fun e => match e with XUIError c => c | _ => "error" end;
  json_safe := fun cr => JObj [("uuid", JStr (cr_uuid cr))];
  analyze_receipt_text := fun t a _ => JObj [("text", JStr t); ("expected_amount", JNum a)];
  store_receipt_image := fun name => if bool_decide (name = "full-disk.png") then Raise OSError else Ret tt;
  notify_order_event := fun _ _ _ _ => notify;
  send_to_config := fun _ _ _ => notify;
  payment_match_text := fun pk _ _ => pretty pk; notify_needs_review := fun _ _ => Ret tt;
  zone_known := fun z => bool_decide (z = "Asia/Tehran") || bool_decide (z = "UTC");
  check_password := fun raw hash => bool_decide (hash = "hash:" +:+ raw); legacy_setting := fun _ => "";
  jalali_instant := fun zone y m d hh mm =>
    if (1 <=? m) && (m <=? 12) && (1 <=? d) && (d <=? 31) && (hh <? 24) && (mm <? 60)
    then Some (((((y - 1405) * 365 + (m - 1) * 31 + d) * 24 + hh) * 60 + mm) * 60000000) else None;
  update_client_traffic_and_expiry := fun _ _ _ total expiry enable => Ret (mk_limits total expiry (Some enable) None);
  delete_client_from_inbound := fun _ _ _ => Ret (mk_remove true false "id");
  find_client_by_identifier := fun _ _ _ => Ret None;
  build_config_link_for_identifier := fun _ _ ident => Ret (mk_link ("vless:" +:+ ident) "" "");
  mask_string_value := fun s => s; json_text := fun j => match j with JStr s => s | JNum z => pretty z | _ => "" end;
  create_trial_client_details := fun _ _ _ name => Ret (Some (sample_result name, []));
  build_trial_client_name := fun c t => "trial" +:+ t; format_jalali_datetime := pretty;
  sanitize_free_trial_log_value := fun s => s;
  get_capability_report := fun _ _ => Ret (mk_report true true);
  adapter_create := fun _ _ ins _ ident _ => Ret {| ar_client := sample_result (id_uuid ident);
    ar_raw_links := []; ar_bundle_results := map (fun i => sample_result (id_uuid ident +:+ pretty i)) ins |};
  fetch_native_links := fun _ _ url => if bool_decide (url = "down") then Raise (PanelIntegrationError "panel down" "timeout")
    else Ret (map (fun n => "vless://" +:+ pretty n +:+ "." +:+ url) (seqZ 1 6));
  split_url := fun s => Some (mk_url "https" s s (Some 443) "" []); vmess_data := fun _ _ => [];
  generate_subscription_cup_token := fun pk => "tok" +:+ pretty pk;
  sha256_prefix_int := fun s => Z.of_nat (String.length s); debug_setting := false;
  safe_external_subscription_text := fun s => s;
  get_client_stats := fun _ _ c => Ret {| us_panel_available := true; us_known := true;
    us_total := Some (VPNClient.traffic_limit_bytes c); us_used_upload := 0;
    us_used_download := VPNClient.used_traffic_bytes c; us_used := Some (VPNClient.used_traffic_bytes c);
    us_remaining := Some (VPNClient.traffic_limit_bytes c - VPNClient.used_traffic_bytes c); us_expiry_at := None;
    us_is_enabled := Some true; us_is_expired := false; us_raw := ∅; us_error := "" |};
  send_reminder := fun _ _ _ chat _ => if bool_decide (chat = "blocked") then Raise (OtherError "BotDeliveryError") else Ret tt;
  get_inbound := fun _ _ _ => InboundData (JObj []); json_loads := fun _ => None; sanitize_operational := fun _ s => s; lower_text := fun s => s;
  read_panel := fun _ _ => ([], "ok"); identifier_digest := fun s => s; credential_from_link := fun s => s;
  activity_min_bytes := 1; hour_tehran := fun t => t / 3600000000 mod 24;
  send_journey := fun _ _ _ chat => if bool_decide (chat = "9") then JourneyFailed (Some 403) else JourneySent (Some "1") |}.

(** The panel knows a client once it was created. *)
Definition sample_lookup (h : list call) (ident : identity) : option client_result :=
  if existsb (fun c => match c with CallCreateEnabled _ u => bool_decide (u = id_uuid ident)
                       | _ => false end) h
  then Some (sample_result (id_uuid ident)) else None.

Definition sample_env : Env := make_env sample_lookup (Ret 1).

(** ** Table access *)

Definition get_order (pk : Z) : IO Order.order := get_or_raise (fun w => orders (db w) !! pk).
Definition get_plan (pk : Z) : IO Plan.plan := get_or_raise (fun w => plans (db w) !! pk).
Definition get_store (pk : Z) : IO Store.store := get_or_raise (fun w => stores (db w) !! pk).
Definition get_client (pk : Z) : IO VPNClient.vpn_client :=
  get_or_raise (fun w => clients (db w) !! pk).

(** [order.vpn_clients.order_by("created_at", "pk")] *)
Definition order_clients (pk : Z) (d : DB) : list (Z * VPNClient.vpn_client) :=
  order_by (fun kv => [VPNClient.created_at kv.2; kv.1])
    (rows_where (fun _ c => bool_decide (VPNClient.order c = Some pk)) (clients d)).

(** [Store.objects.filter(is_active=True).first() or Store.objects.first()] *)
Definition stores_by_name `{Env} (p : Z -> Store.store -> bool) (d : DB) : list (Z * Store.store) :=
  order_by (fun kv => [collation_rank (Store.name kv.2); kv.1]) (rows_where p (stores d)).

Definition get_current_store `{Env} (d : DB) : option Z :=
  match stores_by_name (fun _ s => Store.is_active s) d with
  | (pk, _) :: _ => Some pk
  | [] => fst <$> head (stores_by_name (fun _ _ => true) d)
  end.

Definition set_client (pk : Z) (c : VPNClient.vpn_client) (d : DB) : DB :=
  d {{ clients ::= insert pk c }}.

Definition inbound_panel (d : DB) (i : Inbound.inbound) : option Panel.panel :=
  Inbound.panel i ≫= fun p => panels d !! p.

(** [Inbound.objects.filter(pk=pk).update(current_users=F("current_users") + 1)] *)
Definition bump_current_users (pk : Z) (d : DB) : DB :=
  d {{ inbounds ::= alter (fun i => i {{ Inbound.current_users ::= Z.succ }}) pk }}.

(** Run the monad's plumbing in the goal, leaving the handler's own calls and
    record updates as they are. *)
Ltac run_io :=
  cbv beta iota zeta delta
    [atomic catch finally mbind M_bind result_bind mret M_ret result_ret gets modify liftR raise
     get_db put_db ask askR get_or_raise]; cbn [fst snd].
Ltac run_io_in H :=
  cbv beta iota zeta delta
    [atomic catch finally mbind M_bind result_bind mret M_ret result_ret gets modify liftR raise
     get_db put_db ask askR get_or_raise] in H; cbn [fst snd] in H.

(** ** Laws of the monad's effects *)

Lemma restore_db (w : World) : w {{ db := db w }} = w.
Proof. by destruct w. Qed.

Lemma DB_eta (d : DB) : eta_DB d = d.
Proof. by destruct d. Qed.

Lemma World_ext (w w' : World) :
  db w = db w' -> locks w = locks w' -> calls w = calls w' -> w = w'.
Proof. destruct w, w'; simpl; congruence. Qed.

Lemma atomic_Ret {A} (m : IO A) w a w' :
  atomic m w = (Ret a, w') <-> m w = (Ret a, w').
Proof.
  unfold atomic. destruct (m w) as [[b|e] w1]; split; intros [=]; congruence.
Qed.

Lemma atomic_Raise_db {A} (m : IO A) w e w' :
  atomic m w = (Raise e, w') -> db w' = db w.
Proof.
  unfold atomic. destruct (m w) as [[b|e'] w1]; intros [= <- <-]. reflexivity.
Qed.

Lemma order_clients_spec pk d k c :
  (k, c) ∈ order_clients pk d <->
  clients d !! k = Some c /\ VPNClient.order c = Some pk.
Proof.
  unfold order_clients. rewrite elem_of_order_by, elem_of_rows_where.
  by rewrite bool_decide_eq_true.
Qed.

(** ** Frames

    [respects R m]: however [m] ends, the world it leaves is [R]-related to the
    one it started in.  For a preorder [R] the rules below follow the shape of
    a handler, so that what a handler leaves alone is proved by walking it. *)

Definition respects (R : relation World) {A} (m : IO A) : Prop :=
  forall w r w', m w = (r, w') -> R w w'.

(** Undoing the database does not leave [R]. *)
Class Undoable (R : relation World) : Prop :=
  undo : forall w w', R w w' -> R w (w' {{ db := db w }}).

Section Frames.
Context (R : relation World) `{!PreOrder R}.

Lemma respects_ret {A} (a : A) : respects R (mret a).
Proof. intros w r w' [= <- <-]. reflexivity. Qed.

Lemma respects_raise {A} e : respects R (@raise World A e).
Proof. intros w r w' [= <- <-]. reflexivity. Qed.

Lemma respects_liftR {A} (x : result A) : respects R (liftR x).
Proof. intros w r w' [= <- <-]. reflexivity. Qed.

Lemma respects_gets {A} (f : World -> A) : respects R (gets f).
Proof. intros w r w' [= <- <-]. reflexivity. Qed.

Lemma respects_get_db : respects R get_db.
Proof. intros w r w' [= <- <-]. reflexivity. Qed.

Lemma respects_get_or_raise {A} (f : World -> option A) : respects R (get_or_raise f).
Proof. intros w r w'. unfold get_or_raise. destruct (f w); intros [= <- <-]; reflexivity. Qed.

Lemma respects_bind {A B} (m : IO A) (f : A -> IO B) :
  respects R m -> (forall a, respects R (f a)) -> respects R (m ≫= f).
Proof.
  intros Hm Hf w r w'. unfold mbind, M_bind. destruct (m w) as [[a|e] w1] eqn:E.
  - intros H. transitivity w1; [by eapply Hm|by eapply Hf].
  - intros [= <- <-]. by eapply Hm.
Qed.

Lemma respects_catch {A} (m : IO A) h :
  respects R m -> (forall e, respects R (h e)) -> respects R (catch m h).
Proof.
  intros Hm Hh w r w'. unfold catch. destruct (m w) as [[a|e] w1] eqn:E.
  - intros [= <- <-]. by eapply Hm.
  - intros H. transitivity w1; [by eapply Hm|by eapply Hh].
Qed.

Lemma respects_on_validation {A B} (m : IO A) h (k : A -> IO B) :
  respects R m -> (forall text, respects R (h text)) -> (forall a, respects R (k a)) ->
  respects R (on_validation m h k).
Proof.
  intros Hm Hh Hk w r w'. unfold on_validation. destruct (m w) as [[a|e] w1] eqn:E.
  - intros H. transitivity w1; [by eapply Hm|by eapply Hk].
  - destruct e; try (intros [= <- <-]; by eapply Hm).
    intros H. transitivity w1; [by eapply Hm|by eapply Hh].
Qed.

Lemma respects_finally {A} (m : IO A) k :
  respects R m -> (forall w, R w (k w)) -> respects R (finally m k).
Proof.
  intros Hm Hk w r w'. unfold finally. destruct (m w) as [x w1] eqn:E. intros [= <- <-].
  transitivity w1; [by eapply Hm|apply Hk].
Qed.

Lemma respects_for_each {A} (body : A -> IO unit) l :
  (forall x, respects R (body x)) -> respects R (for_each body l).
Proof.
  intros Hb. induction l as [|x l IH]; cbn; [apply respects_ret|].
  apply respects_bind; auto.
Qed.

Lemma respects_atomic {A} (m : IO A) `{!Undoable R} : respects R m -> respects R (atomic m).
Proof.
  intros Hm w r w'. unfold atomic. destruct (m w) as [[a|e] w1] eqn:E; intros [= <- <-].
  - by eapply Hm.
  - by eapply undo, Hm.
Qed.

Lemma respects_put_db f : (forall w, R w (w {{ db ::= f }})) -> respects R (put_db f).
Proof. intros Hf w r w' [= <- <-]. apply Hf. Qed.

Lemma respects_modify f : (forall w, R w (f w)) -> respects R (modify f).
Proof. intros Hf w r w' [= <- <-]. apply Hf. Qed.

Lemma respects_ask {A} c (answer : list call -> A) :
  (forall w, R w (w {{ calls ::= cons c }})) -> respects R (ask c answer).
Proof. intros Hf w r w' [= <- <-]. apply Hf. Qed.

Lemma respects_askR {A} c (answer : list call -> result A) :
  (forall w, R w (w {{ calls ::= cons c }})) -> respects R (askR c answer).
Proof. intros Hf w r w' [= <- <-]. apply Hf. Qed.
End Frames.

Create HintDb frames.

(** Walk a handler; calls of other handlers are left to their own lemmas. *)
Ltac walk_step :=
  first
    [ progress intros
    | assumption
    | solve [eauto with frames nocore]
    | apply respects_ret; apply _
    | apply respects_raise; apply _
    | apply respects_liftR; apply _
    | apply respects_gets; apply _
    | apply respects_get_db; apply _
    | apply respects_get_or_raise; apply _
    | apply respects_bind; [apply _|..]
    | apply respects_catch; [apply _|..]
    | apply respects_on_validation; [apply _|..]
    | apply respects_finally; [apply _|..]
    | apply respects_for_each; [apply _|..]
    | apply respects_atomic; [apply _|]
    | apply respects_put_db
    | apply respects_modify
    | apply respects_ask
    | apply respects_askR
    | match goal with
      | |- respects _ (match ?x with _ => _ end) => destruct x
      | |- respects _ (let '(_, _) := ?x in _) => destruct x
      end ].
Ltac walk := repeat walk_step.

(** A family of frames: some observations of the world do not change. *)
Definition keeps {A} (f : World -> A) : relation World := fun w w' => f w' = f w.

#[global] Instance keeps_preorder {A} (f : World -> A) : PreOrder (keeps f).
Proof. split; [done|]. intros x y z. unfold keeps. congruence. Qed.

(** The panel calls made that can change a panel. *)
Definition panel_writes (w : World) : list call := filter (fun c => Is_true (is_panel_write c)) (calls w).

(** The tables orders are followed up with. *)
Definition side_tables (d : DB) :=
  (action_logs d, free_trials d, cups d, bot_configs d, bot_users d, payment_sms d).

(** What the reward programme never touches: everything that says who may
    connect where, and the outside world. *)
Definition service_view (w : World) :=
  (orders (db w), clients (db w), inbounds (db w), panels (db w), stores (db w), automations (db w),
   (routes (db w), operators (db w), ledgers (db w), side_tables (db w)), locks w, calls w).

#[global] Instance keeps_service_undoable : Undoable (keeps service_view).
Proof. intros w w'. unfold keeps, service_view. cbn. congruence. Qed.
#[global] Instance keeps_writes_undoable : Undoable (keeps panel_writes).
Proof. intros w w' H. exact H. Qed.

(** The orders table. *)
Definition orders_of (w : World) := orders (db w).
Definition clients_of (w : World) := clients (db w).

#[global] Instance keeps_orders_undoable : Undoable (keeps orders_of).
Proof. by intros w w' Hw. Qed.
#[global] Instance keeps_clients_undoable : Undoable (keeps clients_of).
Proof. by intros w w' Hw. Qed.

Lemma order_clients_NoDup pk d : NoDup (order_clients pk d).*1.
Proof. apply order_by_NoDup, rows_where_NoDup. Qed.

Lemma order_clients_count pk d :
  Z.of_nat (length (order_clients pk d)) =
  count_where (fun _ c => bool_decide (VPNClient.order c = Some pk)) (clients d).
Proof. unfold order_clients, count_where. by rewrite order_by_length. Qed.

Lemma service_view_inv w w' :
  service_view w = service_view w' ->
  orders (db w) = orders (db w') /\ clients (db w) = clients (db w') /\
  inbounds (db w) = inbounds (db w') /\ panels (db w) = panels (db w') /\
  stores (db w) = stores (db w') /\ automations (db w) = automations (db w') /\
  routes (db w) = routes (db w') /\ operators (db w) = operators (db w') /\
  ledgers (db w) = ledgers (db w') /\ locks w = locks w' /\ calls w = calls w'.
Proof. unfold service_view. intros [=]. repeat split; assumption. Qed.

Lemma service_view_side w w' :
  service_view w = service_view w' -> side_tables (db w) = side_tables (db w').
Proof. unfold service_view. intros [=]. unfold side_tables. congruence. Qed.

(** ** Triples

    [triple P m Q X]: started where [P] holds, [m] ends where [Q] holds of what
    it returns, or where [X] holds if it raises. *)

Definition triple {A} (P : World -> Prop) (m : IO A) (Q : A -> World -> Prop) (X : World -> Prop) : Prop :=
  forall w r w', P w -> m w = (r, w') -> match r with Ret a => Q a w' | Raise _ => X w' end.

Section Triples.
Implicit Types (P X : World -> Prop).

Lemma triple_conseq {A} P P' (m : IO A) Q Q' X X' :
  triple P' m Q' X' -> (forall w, P w -> P' w) -> (forall a w, Q' a w -> Q a w) ->
  (forall w, X' w -> X w) -> triple P m Q X.
Proof.
  intros H HP HQ HX w r w' Hw E. specialize (H w r w' (HP w Hw) E). destruct r; auto.
Qed.

Lemma triple_true {A} P (m : IO A) : triple P m (fun _ _ => True) (fun _ => True).
Proof. intros w r w' _ _. by destruct r. Qed.

Lemma triple_pre {A} P P' (m : IO A) Q X : (forall w, P w -> P' w) -> triple P' m Q X -> triple P m Q X.
Proof. intros HP H w r w' Hw. apply H, HP, Hw. Qed.

Lemma triple_post {A} P (m : IO A) Q Q' X :
  triple P m Q' X -> (forall a w, Q' a w -> Q a w) -> triple P m Q X.
Proof. intros H HQ w r w' Hw E. specialize (H _ _ _ Hw E). destruct r; auto. Qed.

Lemma triple_any {A} P (m : IO A) Q X : triple P m Q X -> triple P m Q (fun _ => True).
Proof. intros H w r w' Hw E. specialize (H _ _ _ Hw E). by destruct r. Qed.

(** A fact about values is kept while the world moves on. *)
Lemma triple_pure {A} (F : Prop) P (m : IO A) Q X :
  (F -> triple P m Q X) -> triple (fun w => F /\ P w) m Q X.
Proof. intros H w r w' [HF Hw]. by apply H. Qed.

Lemma triple_ret {A} P (a : A) Q X : (forall w, P w -> Q a w) -> triple P (mret a) Q X.
Proof. intros H w r w' Hw [= <- <-]. auto. Qed.

Lemma triple_raise {A} P e (Q : A -> World -> Prop) X : (forall w, P w -> X w) -> triple P (raise e) Q X.
Proof. intros H w r w' Hw [= <- <-]. auto. Qed.

Lemma triple_bind {A B} P (m : IO A) (f : A -> IO B) R Q X :
  triple P m R X -> (forall a, triple (R a) (f a) Q X) -> triple P (m ≫= f) Q X.
Proof.
  intros Hm Hf w r w' Hw. unfold mbind, M_bind. destruct (m w) as [[a|e] w1] eqn:E.
  - specialize (Hm _ _ _ Hw E). intros E2. exact (Hf a _ _ _ Hm E2).
  - specialize (Hm _ _ _ Hw E). intros [= <- <-]. exact Hm.
Qed.

Lemma triple_catch {A} P (m : IO A) h Q X Y :
  triple P m Q Y -> (forall e, triple Y (h e) Q X) -> triple P (catch m h) Q X.
Proof.
  intros Hm Hh w r w' Hw. unfold catch. destruct (m w) as [[a|e] w1] eqn:E.
  - specialize (Hm _ _ _ Hw E). by intros [= <- <-].
  - specialize (Hm _ _ _ Hw E). intros E2. exact (Hh e _ _ _ Hm E2).
Qed.

Lemma triple_on_validation {A B} P (m : IO A) h (k : A -> IO B) R Q X Y :
  triple P m R Y -> (forall text, triple Y (h text) Q X) -> (forall a, triple (R a) (k a) Q X) ->
  (forall w, Y w -> X w) -> triple P (on_validation m h k) Q X.
Proof.
  intros Hm Hh Hk HX w r w' Hw. unfold on_validation. destruct (m w) as [[a|e] w1] eqn:E.
  - specialize (Hm _ _ _ Hw E). intros E2. exact (Hk a _ _ _ Hm E2).
  - specialize (Hm _ _ _ Hw E). destruct e; try (intros [= <- <-]; by apply HX).
    intros E2. exact (Hh _ _ _ _ Hm E2).
Qed.

Lemma triple_liftR {A} P (x : result A) X :
  (forall w, P w -> X w) -> triple P (liftR x) (fun a w => x = Ret a /\ P w) X.
Proof. intros HX w r w' Hw [= <- <-]. destruct x; auto. Qed.

Lemma triple_atomic {A} P (m : IO A) Q X :
  triple P m Q (fun _ => True) -> (forall w w', P w -> db w' = db w -> X w') -> triple P (atomic m) Q X.
Proof.
  intros Hm HX w r w' Hw. unfold atomic. destruct (m w) as [[a|e] w1] eqn:E; intros [= <- <-].
  - exact (Hm _ _ _ Hw E).
  - eapply HX; [exact Hw|done].
Qed.

Lemma triple_get_db P X : triple P get_db (fun d w => d = db w /\ P w) X.
Proof. by intros w r w' Hw [= <- <-]. Qed.

Lemma triple_get_or_raise {A} P (f : World -> option A) X :
  (forall w, P w -> X w) -> triple P (get_or_raise f) (fun a w => f w = Some a /\ P w) X.
Proof. intros HX w r w' Hw. unfold get_or_raise. destruct (f w) eqn:E; intros [= <- <-]; auto. Qed.

Lemma triple_put_db P f Q X : (forall w, P w -> Q (w {{ db ::= f }})) -> triple P (put_db f) (fun _ => Q) X.
Proof. intros H w r w' Hw [= <- <-]. exact (H w Hw). Qed.

Lemma triple_ask {A} P c (answer : list call -> A) X :
  (forall w, P w -> P (w {{ calls ::= cons c }})) -> triple P (ask c answer) (fun _ => P) X.
Proof. intros H w r w' Hw [= <- <-]. exact (H w Hw). Qed.

Lemma triple_askR {A} P c (answer : list call -> result A) X :
  (forall w, P w -> P (w {{ calls ::= cons c }})) -> (forall w, P w -> X w) ->
  triple P (askR c answer) (fun _ => P) X.
Proof.
  intros H HX w r w' Hw [= <- <-]. destruct (answer (calls w)); [exact (H w Hw)|].
  exact (HX _ (H w Hw)).
Qed.

(** What a frame keeps, a triple may assume. *)
Lemma triple_frame {A} (R : relation World) P (m : IO A) :
  respects R m -> (forall w w', P w -> R w w' -> P w') -> triple P m (fun _ => P) P.
Proof. intros Hm HP w r w' Hw E. pose proof (HP _ _ Hw (Hm _ _ _ E)). by destruct r. Qed.

(** An observation the run keeps is carried along. *)
Lemma triple_keeps {A B} (f : World -> B) v P (m : IO A) Q X :
  respects (keeps f) m -> triple P m Q X ->
  triple (fun w => P w /\ f w = v) m (fun a w => Q a w /\ f w = v) X.
Proof.
  intros Hf Hm w r w' [Hw Hv] E. specialize (Hm _ _ _ Hw E). specialize (Hf _ _ _ E).
  unfold keeps in Hf. destruct r; [split; [done|congruence]|done].
Qed.
End Triples.

(** ** A small shop, for examples *)

Definition sample_plan : Plan.plan := {|
  Plan.store := Some 1; Plan.operators := ∅; Plan.slug := "m1"; Plan.volume_gb := 30000;
  Plan.duration_days := 30; Plan.price := 100000; Plan.currency := Plan.TOMAN;
  Plan.device_limit := 2; Plan.is_active := true; Plan.sort_order := 0; Plan.is_public := true;
  Plan.is_custom_volume := false; Plan.multi_inbound_bundle := false |}.

Definition sample_store : Store.store := {|
  Store.name := "shop"; Store.is_active := true; Store.setup_status := Store.READY;
  Store.sales_mode := Store.TUNNEL; Store.plan_inbound_routing_enabled := false;
  Store.allow_global_inbound_fallback := true; Store.bank_name := None; Store.domain := Some "shop.example";
  Store.custom_volume_price_per_gb := 5000;
  Store.payment := {| Store.card_number := "6037991234567890"; Store.card_owner := "Owner";
    Store.receipt_image_only_payment := false; Store.order_review_reminders_enabled := true;
    Store.order_auto_approve_enabled := true; Store.order_auto_approve_enabled_at := Some 0;
    Store.order_automation_last_run_at := None |};
  Store.referral := {| Store.referral_system_enabled := true; Store.referral_reward_gb := 1000;
    Store.referral_reward_duration_days := 30; Store.referral_min_order_required := true |};
  Store.trial := {| Store.free_trial_enabled := true; Store.free_trial_panel := Some 1;
    Store.free_trial_inbound := Some 10; Store.free_trial_traffic_gb := 500;
    Store.free_trial_duration_hours := 24; Store.free_trial_cooldown_days := 30 |};
  Store.bank := {| Store.smsforwarder_webhook_token_hash := "hash:token"; Store.payment_sms_time_zone := "" |};
  Store.reminders := {| Store.renewal_reminders_enabled := true; Store.renewal_reminders_start_at := None;
    Store.reminder_days_before_expiry := JList [JNum 3; JNum 1; JNum 0];
    Store.reminder_days_after_expiry := JList [JNum 1; JNum 3]; Store.low_traffic_reminders_enabled := true;
    Store.low_traffic_percent_threshold := 20; Store.low_traffic_gb_threshold := 2000;
    Store.reminder_cooldown_hours := 24; Store.reminder_max_per_client_per_day := 1 |};
  Store.campaigns := {| Store.good_customer_min_total_amount := 500000; Store.loyal_customer_min_orders_30d := 2;
    Store.top_customers_limit := 10; Store.inactive_customer_days := 30 |} |}.

Definition sample_panel (profile : Panel.capability_profile_t) : Panel.panel := {|
  Panel.store := Some 1; Panel.family := Panel.XUI; Panel.url := "https://panel.example";
  Panel.username := "admin"; Panel.password := "secret"; Panel.is_active := true;
  Panel.detected_xui_version := ""; Panel.capability_profile := profile |}.

Definition sample_inbound (panel remote users : Z) : Inbound.inbound := {|
  Inbound.panel := Some panel; Inbound.inbound_id := remote; Inbound.is_active := true;
  Inbound.available_for_new_orders := true; Inbound.health_monitor_enabled := true;
  Inbound.legacy_note := ""; Inbound.current_users := users;
  Inbound.max_clients := Some 50; Inbound.security := Inbound.NO_SECURITY; Inbound.pbk := None; Inbound.xui_node_id := ""; Inbound.xui_node_name := "";
  Inbound.xui_source := Inbound.LOCAL; Inbound.xui_remote_key := "";
  Inbound.verification_status := Inbound.VERIFIED_SELLABLE; Inbound.verified_at := None;
  Inbound.metadata := ∅; Inbound.updated_at := 0 |}.

Definition sample_customer (code : string) (referrer : option Z) : Customer.customer := {|
  Customer.is_wholesale := false; Customer.default_discount_percent := None;
  Customer.referral_code := code; Customer.referred_by := referrer;
  Customer.referral_code_used := ""; Customer.referred_at := None; Customer.is_active := true;
  Customer.display_name := code; Customer.created_at := 0 |}.

(** A paid order of two clients waiting for review, on the given inbound. *)
Definition sample_order (inbound : Z) : Order.order :=
  (Order.blank_order "pub-1" "T1" 1 0) {{
    Order.store := Some 1; Order.customer := Some 101; Order.quantity := 2;
    Order.status := Order.PENDING_VERIFICATION; Order.original_amount := 200000;
    Order.amount := 200000; Order.is_paid := true; Order.payment_submitted_at := Some 0;
    Order.payment_date := Some 0; Order.payment_receipt_image := Some "receipt.jpg";
    Order.provisioning_status := Order.P_PENDING; Order.inbound := Some inbound;
    Order.username := "user" }}.

(** Inbound 10 is on a legacy panel, inbound 20 on a modern one; order 1000 is
    on the former and order 1001 on the latter; customer 101 was invited by
    customer 100. *)
Definition sample_shop : World := {|
  db := empty_db {{
    stores := {[ 1 := sample_store ]};
    plans := {[ 1 := sample_plan ]};
    panels := {[ 1 := sample_panel Panel.LEGACY_SINGLE_NODE; 2 := sample_panel Panel.MODERN_SINGLE_NODE ]};
    inbounds := {[ 10 := sample_inbound 1 3 5; 20 := sample_inbound 2 4 7 ]};
    customers := {[ 100 := sample_customer "INV" None; 101 := sample_customer "CUS" (Some 100) ]};
    orders := {[ 1000 := sample_order 10; 1001 := sample_order 20 ]} }};
  locks := ∅; calls := [] |}.
