(* ===== verification/Numbers.v ===== *)
(** Numbers typed by customers: Python's [Decimal] constructor on text, the
    quantity check of checkout, and the volume and price of custom-volume
    plans (src/store/order_services.py, src/store/models.py).

    Text is a byte string in UTF-8.  Whitespace, letters and the digits
    [Decimal] accepts are the ASCII ones; Persian and Arabic digits and
    separators are translated first, as the code does.  Exponents stay within
    the range of Python's decimal library. *)

From S2P Require Import Prelude.

#[local] Open Scope string_scope.
#[local] Open Scope Z_scope.

(** ** Text *)

Definition code_of (c : ascii) : Z := Z.of_nat (nat_of_ascii c).

Definition is_space (c : ascii) : bool :=
  let n := code_of c in ((9 <=? n) && (n <=? 13)) || ((28 <=? n) && (n <=? 32)).

Fixpoint lstrip (s : string) : string :=
  match s with
  | EmptyString => ""
  | String c s' => if is_space c then lstrip s' else s
  end.

Definition rev_string (s : string) : string := String.rev s.

(** [str.strip()] *)
Definition strip (s : string) : string := rev_string (lstrip (rev_string (lstrip s))).

Definition upper_char (c : ascii) : ascii :=
  let n := code_of c in
  if (97 <=? n) && (n <=? 122) then ascii_of_nat (Z.to_nat (n - 32)) else c.

(** [str.upper()] *)
Fixpoint upper (s : string) : string :=
  match s with EmptyString => "" | String c s' => String (upper_char c) (upper s') end.

Fixpoint remove_char (d : ascii) (s : string) : string :=
  match s with
  | EmptyString => ""
  | String c s' => if bool_decide (c = d) then remove_char d s' else String c (remove_char d s')
  end.

Fixpoint replace_char (d e : ascii) (s : string) : string :=
  match s with
  | EmptyString => ""
  | String c s' => String (if bool_decide (c = d) then e else c) (replace_char d e s')
  end.

Fixpoint has_char (d : ascii) (s : string) : bool :=
  match s with
  | EmptyString => false
  | String c s' => bool_decide (c = d) || has_char d s'
  end.

(** ** Decimal *)

Inductive decimal :=
| Finite (negative : bool) (coeff exponent : Z)
| Infinite
| NaN.

Definition digit_of (c : ascii) : option Z :=
  let n := code_of c in if (48 <=? n) && (n <=? 57) then Some (n - 48) else None.

(** Read digits onto [acc]; also how many were read and the rest. *)
Fixpoint take_digits (s : string) (acc : Z) (count : Z) : Z * Z * string :=
  match s with
  | EmptyString => (acc, count, "")
  | String c s' =>
      match digit_of c with
      | Some d => take_digits s' (10 * acc + d) (Z.succ count)
      | None => (acc, count, s)
      end
  end.

Definition take_sign (s : string) : bool * string :=
  match s with
  | String "-" s' => (true, s')
  | String "+" s' => (false, s')
  | _ => (false, s)
  end.

Definition parse_exponent (s : string) : option Z :=
  match s with
  | EmptyString => Some 0
  | String c s' =>
      if bool_decide (upper_char c = "E"%char) then
        let '(neg, r) := take_sign s' in
        let '(v, n, rest) := take_digits r 0 0 in
        if (n =? 0) || negb (bool_decide (rest = "")) then None
        else Some (if neg then - v else v)
      else None
  end.

(** [Decimal(s)]; [None] is [InvalidOperation]. *)
Definition parse_decimal (s : string) : option decimal :=
  let '(neg, r) := take_sign (remove_char "_" (strip s)) in
  let u := upper r in
  if bool_decide (u = "INF") || bool_decide (u = "INFINITY") then Some Infinite
  else if bool_decide (u = "NAN") || bool_decide (u = "SNAN") then Some NaN
  else
    let '(v1, n1, r1) := take_digits r 0 0 in
    let '(v, n2, r2) :=
      match r1 with
      | String "." r1' => take_digits r1' v1 0
      | _ => (v1, 0, r1)
      end in
    if n1 + n2 =? 0 then None
    else e ← parse_exponent r2; Some (Finite neg v (e - n2)).

(** The value of a finite decimal is an integer. *)
Definition integral (coeff exponent : Z) : bool :=
  (0 <=? exponent) || (coeff mod 10 ^ (- exponent) =? 0).

(** [int(d)] of an integral decimal. *)
Definition to_int (negative : bool) (coeff exponent : Z) : Z :=
  let v := if 0 <=? exponent then coeff * 10 ^ exponent else coeff / 10 ^ (- exponent) in
  if negative then - v else v.

(** ** Order quantity *)

Definition MAX_ORDER_QUANTITY : Z := 50.

(** What the views and the bot pass as [quantity]. *)
Inductive quantity_input := QuantityNone | QuantityInt (z : Z) | QuantityText (s : string).

Definition quantity_text (q : quantity_input) : string :=
  match q with QuantityNone => "" | QuantityInt z => pretty z | QuantityText s => s end.

Definition whole_number_error : exn := ValidationError "Quantity must be a whole number.".
Definition quantity_range_error : exn := ValidationError "Quantity must be between 1 and 50.".

Definition check_quantity (d : option decimal) : result Z :=
  match d with
  | Some (Finite neg c e) =>
      if integral c e then
        let q := to_int neg c e in
        if (q <=? 0) || (MAX_ORDER_QUANTITY <? q) then Raise quantity_range_error else Ret q
      else Raise whole_number_error
  | _ => Raise whole_number_error
  end.

Definition validate_order_quantity (q : quantity_input) : result Z :=
  match q with
  | QuantityNone | QuantityText "" => Ret 1
  | _ => check_quantity (parse_decimal (strip (quantity_text q)))
  end.

(** ** Persian and Arabic digits *)

(** UTF-8 of the translated characters: U+06F0.. is DB B0.., U+0660.. is D9 A0... *)
Definition digit_translation (c1 c2 : ascii) : option ascii :=
  let a := code_of c1 in let b := code_of c2 in
  if (a =? 219) && (176 <=? b) && (b <=? 185) then Some (ascii_of_nat (Z.to_nat (b - 176 + 48)))
  else if (a =? 217) && (160 <=? b) && (b <=? 169) then Some (ascii_of_nat (Z.to_nat (b - 160 + 48)))
  else None.

Fixpoint normalize_payment_digits (s : string) : string :=
  match s with
  | String c1 ((String c2 s2) as s1) =>
      match digit_translation c1 c2 with
      | Some d => String d (normalize_payment_digits s2)
      | None => String c1 (normalize_payment_digits s1)
      end
  | _ => s
  end.

(** [.replace("٫", ".").replace("٬", "")]: U+066B is D9 AB, U+066C is D9 AC. *)
Fixpoint replace_separators (s : string) : string :=
  match s with
  | String c1 ((String c2 s2) as s1) =>
      if (code_of c1 =? 217) && (code_of c2 =? 171) then String "." (replace_separators s2)
      else if (code_of c1 =? 217) && (code_of c2 =? 172) then replace_separators s2
      else String c1 (replace_separators s1)
  | _ => s
  end.

(** ** Custom volume, in thousandths of a GB *)

Definition CUSTOM_VOLUME_MIN_GB : Z := 1.
Definition CUSTOM_VOLUME_MAX_GB : Z := 1000.
Definition CUSTOM_VOLUME_DURATION_DAYS : Z := 30.

Definition volume_format_error : exn :=
  ValidationError "حجم دلخواه را به گیگابایت و به صورت عدد وارد کن.".
Definition volume_range_error : exn :=
  ValidationError "حجم دلخواه باید بین ۱ تا ۱۰۰۰ گیگابایت باشد.".
Definition volume_precision_error : exn :=
  ValidationError "حجم دلخواه حداکثر تا سه رقم اعشار قابل ثبت است.".

(** [bound <= coeff * 10^exponent], compared exactly. *)
Definition decimal_ge (neg : bool) (coeff exponent bound : Z) : bool :=
  let c := if neg then - coeff else coeff in
  if 0 <=? exponent then bound <=? c * 10 ^ exponent else bound * 10 ^ (- exponent) <=? c.
Definition decimal_le (neg : bool) (coeff exponent bound : Z) : bool :=
  let c := if neg then - coeff else coeff in
  if 0 <=? exponent then c * 10 ^ exponent <=? bound else c <=? bound * 10 ^ (- exponent).

Definition custom_volume_text (value : string) : string :=
  let raw := replace_separators (strip (normalize_payment_digits value)) in
  if has_char "," raw && negb (has_char "." raw) then replace_char "," "." raw
  else remove_char "," raw.

(** The checked volume, [quantize]d to thousandths. *)
Definition normalize_custom_volume_gb (value : string) : result Z :=
  match parse_decimal (custom_volume_text value) with
  | Some (Finite neg c e) =>
      if negb (decimal_ge neg c e CUSTOM_VOLUME_MIN_GB) || negb (decimal_le neg c e CUSTOM_VOLUME_MAX_GB)
      then Raise volume_range_error
      else if e <? -3 then Raise volume_precision_error
      else Ret ((if neg then - c else c) * 10 ^ (e + 3))
  | _ => Raise volume_format_error
  end.

(** Half away from zero of [n / d], [d > 0]: [quantize(1, ROUND_HALF_UP)]. *)
Definition round_half_up (n d : Z) : Z := Z.sgn n * ((2 * Z.abs n + d) / (2 * d)).

(** Volume and price per GB are both in thousandths. *)
Definition calculate_custom_volume_price (volume price_per_gb : Z) : Z :=
  round_half_up (volume * price_per_gb) (1000 * 1000).

(** ** What the numeric checks guarantee *)

(** The integer [n] is the exact value of the decimal. *)
Definition denotes (negative : bool) (coeff exponent n : Z) : Prop :=
  (if negative then - coeff else coeff) * 10 ^ Z.max exponent 0 = n * 10 ^ Z.max (- exponent) 0.

Lemma pow10_pos n : 0 <= n -> 0 < 10 ^ n.
Proof. intros; apply Z.pow_pos_nonneg; lia. Qed.

Lemma to_int_denotes neg c e :
  integral c e = true -> denotes neg c e (to_int neg c e).
Proof.
  unfold integral, denotes, to_int. intros H.
  destruct (Z.leb_spec 0 e) as [He|He]; simpl in H.
  - rewrite Z.max_l, Z.max_r by lia. destruct neg; simpl; lia.
  - rewrite Z.max_r, Z.max_l by lia. apply Z.eqb_eq in H.
    pose proof (pow10_pos (- e) ltac:(lia)).
    pose proof (Z.div_mod c (10 ^ (- e)) ltac:(lia)).
    destruct neg; lia.
Qed.

Lemma check_quantity_Ret d n :
  check_quantity d = Ret n ->
  1 <= n <= 50 /\ exists neg c e, d = Some (Finite neg c e) /\ denotes neg c e n.
Proof.
  destruct d as [[neg c e| |]|]; simpl; try discriminate.
  destruct (integral c e) eqn:Hi; [|discriminate].
  destruct (_ || _) eqn:Hb; [discriminate|]. intros [= <-].
  apply orb_false_iff in Hb as [H1 H2].
  apply Z.leb_gt in H1. apply Z.ltb_ge in H2. unfold MAX_ORDER_QUANTITY in H2.
  split; [lia|]. exists neg, c, e. split; [done|]. by apply to_int_denotes.
Qed.

(** An accepted quantity is a whole number between 1 and 50, and when the
    customer typed something it is exactly the number typed: nothing is
    rounded or clamped on the way to the order. *)
Theorem validate_order_quantity_sound q n :
  validate_order_quantity q = Ret n ->
  1 <= n <= 50 /\
  (q = QuantityNone \/ q = QuantityText "" \/
   exists neg c e, parse_decimal (strip (quantity_text q)) = Some (Finite neg c e)
                   /\ denotes neg c e n).
Proof.
  assert (Hcheck : forall s, check_quantity (parse_decimal (strip s)) = Ret n ->
    1 <= n <= 50 /\ exists neg c e, parse_decimal (strip s) = Some (Finite neg c e)
                                    /\ denotes neg c e n)
    by (intros s; apply check_quantity_Ret).
  destruct q as [|z|[|c s]]; unfold validate_order_quantity; intros H.
  - injection H as <-. split; [lia | auto].
  - apply Hcheck in H as [? ?]. split; [done|auto].
  - injection H as <-. split; [lia | auto].
  - apply Hcheck in H as [? ?]. split; [done|auto].
Qed.

Lemma validate_order_quantity_sound_witness :
  validate_order_quantity (QuantityText " 2.50e1 ") = Ret 25 /\ 1 <= 25 <= 50.
Proof.
  split; [reflexivity|].
  apply (validate_order_quantity_sound (QuantityText " 2.50e1 ") 25). reflexivity.
Defined.

Lemma decimal_ge_spec neg c e b :
  decimal_ge neg c e b = true <->
  b * 10 ^ Z.max (- e) 0 <= (if neg then - c else c) * 10 ^ Z.max e 0.
Proof.
  unfold decimal_ge. destruct (Z.leb_spec 0 e).
  - rewrite Z.leb_le, (Z.max_l e), (Z.max_r (- e)) by lia. destruct neg; lia.
  - rewrite Z.leb_le, (Z.max_r e), (Z.max_l (- e)) by lia. destruct neg; lia.
Qed.

Lemma decimal_le_spec neg c e b :
  decimal_le neg c e b = true <->
  (if neg then - c else c) * 10 ^ Z.max e 0 <= b * 10 ^ Z.max (- e) 0.
Proof.
  unfold decimal_le. destruct (Z.leb_spec 0 e).
  - rewrite Z.leb_le, (Z.max_l e), (Z.max_r (- e)) by lia. destruct neg; lia.
  - rewrite Z.leb_le, (Z.max_r e), (Z.max_l (- e)) by lia. destruct neg; lia.
Qed.

(** An accepted custom volume is between 1 and 1000 GB and is the typed
    number to the last digit: quantizing to three decimals loses nothing. *)
Theorem normalize_custom_volume_exact s v :
  normalize_custom_volume_gb s = Ret v ->
  1000 <= v <= 1000000 /\
  exists neg c e, parse_decimal (custom_volume_text s) = Some (Finite neg c e) /\
                  -3 <= e /\ denotes neg c (e + 3) v.
Proof.
  unfold normalize_custom_volume_gb.
  destruct (parse_decimal _) as [[neg c e| |]|]; try discriminate.
  destruct (_ || _) eqn:Hb; [discriminate|].
  destruct (Z.ltb_spec e (-3)) as [|He]; [discriminate|]. intros [= <-].
  apply orb_false_iff in Hb as [H1%negb_false_iff H2%negb_false_iff].
  apply decimal_ge_spec in H1. apply decimal_le_spec in H2.
  unfold CUSTOM_VOLUME_MIN_GB, CUSTOM_VOLUME_MAX_GB in *.
  set (x := if neg then - c else c) in *.
  assert (Hscale : x * 10 ^ Z.max e 0 * 1000 = x * 10 ^ (e + 3) * 10 ^ Z.max (- e) 0).
  { destruct (Z.le_ge_cases 0 e).
    - rewrite (Z.max_l e), (Z.max_r (- e)) by lia.
      rewrite Z.pow_add_r by lia. change (10 ^ 3) with 1000. lia.
    - rewrite (Z.max_r e), (Z.max_l (- e)) by lia.
      rewrite <- (Z.mul_assoc x (10 ^ (e + 3))), <- Z.pow_add_r by lia.
      replace (e + 3 + - e) with 3 by lia. change (10 ^ 3) with 1000. lia. }
  pose proof (pow10_pos (Z.max (- e) 0) ltac:(lia)).
  split; [nia|]. exists neg, c, e. split; [done|]. split; [done|].
  unfold denotes. rewrite Z.max_l, Z.max_r by lia. fold x. lia.
Qed.

Lemma normalize_custom_volume_exact_witness :
  normalize_custom_volume_gb "۱۲٫۵" = Ret 12500 /\ 1000 <= 12500 <= 1000000.
Proof.
  split; [reflexivity|]. apply (normalize_custom_volume_exact "۱۲٫۵" 12500). reflexivity.
Defined.

Lemma round_half_up_nonneg n d :
  0 <= n -> 0 < d -> round_half_up n d = (2 * n + d) / (2 * d).
Proof.
  intros Hn Hd. unfold round_half_up. rewrite Z.abs_eq by done.
  destruct (Z.eq_dec n 0) as [->|]; [|rewrite Z.sgn_pos; lia].
  simpl. symmetry. apply Z.div_small. lia.
Qed.

(** The price of a custom volume is the nearest whole price: it is within
    half a unit of volume times unit price, the half rounding up, and buying
    more never costs less. *)
Theorem custom_volume_price_nearest v v' p :
  0 <= v <= v' -> 0 <= p ->
  -1000000 <= 2 * (v * p - 1000000 * calculate_custom_volume_price v p) < 1000000 /\
  calculate_custom_volume_price v p <= calculate_custom_volume_price v' p.
Proof.
  intros Hv Hp. unfold calculate_custom_volume_price.
  assert (0 <= v * p <= v' * p) by nia.
  rewrite !round_half_up_nonneg by lia. split.
  - pose proof (Z.div_mod (2 * (v * p) + 1000 * 1000) (2 * (1000 * 1000)) ltac:(lia)).
    pose proof (Z.mod_pos_bound (2 * (v * p) + 1000 * 1000) (2 * (1000 * 1000)) ltac:(lia)).
    lia.
  - apply Z.div_le_mono; lia.
Qed.

Lemma custom_volume_price_nearest_witness :
  calculate_custom_volume_price 12500 3333 = 42 /\
  calculate_custom_volume_price 12500 3333 <= calculate_custom_volume_price 13000 3333.
Proof.
  split; [reflexivity|].
  apply (custom_volume_price_nearest 12500 13000 3333); lia.
Defined.
