(* ===== verification/Regex.v ===== *)
(** Text as Python sees it - a sequence of code points - and the regular
    expressions src/payments/sms_parser.py searches it with: runs of a class of
    characters, greedy and with backtracking, lookarounds of one character, and
    named groups.  [Matches] is the declarative reading of an expression;
    [match_here_sound] says that the matcher only answers with such a reading. *)

From S2P Require Import Prelude.

#[local] Open Scope Z_scope.

Abbreviation text := (list Z).

(** ** Characters *)

(** The first of each ten decimal digits of Unicode ([str.isdecimal]). *)
Definition digit_zeros : list Z :=
  [48; 1632; 1776; 1984; 2406; 2534; 2662; 2790; 2918; 3046; 3174; 3302; 3430; 3558; 3664; 3792; 3872;
   4160; 4240; 6112; 6160; 6470; 6608; 6784; 6800; 6992; 7088; 7232; 7248; 42528; 43216; 43264; 43472;
   43504; 43600; 44016; 65296; 66720; 68912; 69734; 69872; 69942; 70096; 70384; 70736; 70864; 71248;
   71360; 71472; 71904; 72016; 72784; 73040; 73120; 92768; 92864; 93008; 120782; 120792; 120802; 120812;
   120822; 123200; 123632; 125264; 130032].

(** The value of a decimal digit, as [int] reads it. *)
Definition digit_value (c : Z) : option Z :=
  head (omap (fun z => if (z <=? c) && (c <=? z + 9) then Some (c - z) else None) digit_zeros).

(** [\d] *)
Definition is_digit (c : Z) : bool := is_set (digit_value c).

(** [[0-9]] *)
Definition ascii_digit (c : Z) : bool := (48 <=? c) && (c <=? 57).

(** [\s] *)
Definition is_space (c : Z) : bool :=
  ((9 <=? c) && (c <=? 13)) || ((28 <=? c) && (c <=? 32)) || (c =? 133) || (c =? 160) || (c =? 5760)
  || ((8192 <=? c) && (c <=? 8202)) || (c =? 8232) || (c =? 8233) || (c =? 8239) || (c =? 8287) || (c =? 12288).

(** Where [str.splitlines] ends a line; a carriage return takes a line feed
    that follows it along. *)
Definition is_line_break (c : Z) : bool :=
  ((10 <=? c) && (c <=? 13)) || ((28 <=? c) && (c <=? 30)) || (c =? 133) || (c =? 8232) || (c =? 8233).

Fixpoint splitlines_onto (line : text) (s : text) : list text :=
  match s with
  | [] => match line with [] => [] | _ => [line] end
  | c :: s' =>
      if is_line_break c then
        line :: match s' with
                | 10 :: s'' => if c =? 13 then splitlines_onto [] s'' else splitlines_onto [] s'
                | _ => splitlines_onto [] s'
                end
      else splitlines_onto (line ++ [c]) s'
  end.

Definition splitlines (s : text) : list text := splitlines_onto [] s.

(** [sub in s] *)
Fixpoint starts_with (sub s : text) : bool :=
  match sub, s with
  | [], _ => true
  | _ :: _, [] => false
  | a :: sub', b :: s' => (a =? b) && starts_with sub' s'
  end.

Fixpoint contains (sub s : text) : bool :=
  starts_with sub s || match s with [] => false | _ :: s' => contains sub s' end.

(** ** UTF-8 *)

Definition byte_of (c : ascii) : Z := Z.of_nat (nat_of_ascii c).
Definition char_of (n : Z) : ascii := ascii_of_nat (Z.to_nat n).

(** The code points of a text; it is well formed. *)
Fixpoint decode_utf8 (s : string) : text :=
  match s with
  | EmptyString => []
  | String a s1 =>
      let x := byte_of a in
      if x <? 128 then x :: decode_utf8 s1
      else match s1 with
      | EmptyString => []
      | String b s2 =>
          let y := byte_of b mod 64 in
          if x <? 224 then ((x - 192) * 64 + y) :: decode_utf8 s2
          else match s2 with
          | EmptyString => []
          | String c s3 =>
              let z := byte_of c mod 64 in
              if x <? 240 then (((x - 224) * 64 + y) * 64 + z) :: decode_utf8 s3
              else match s3 with
              | EmptyString => []
              | String d s4 => ((((x - 240) * 64 + y) * 64 + z) * 64 + byte_of d mod 64) :: decode_utf8 s4
              end
          end
      end
  end.

Definition encode_char (c : Z) (rest : string) : string :=
  if c <? 128 then String (char_of c) rest
  else if c <? 2048 then String (char_of (192 + c / 64)) (String (char_of (128 + c mod 64)) rest)
  else if c <? 65536
  then String (char_of (224 + c / 4096)) (String (char_of (128 + c / 64 mod 64)) (String (char_of (128 + c mod 64)) rest))
  else String (char_of (240 + c / 262144)) (String (char_of (128 + c / 4096 mod 64))
         (String (char_of (128 + c / 64 mod 64)) (String (char_of (128 + c mod 64)) rest))).

Fixpoint encode_utf8 (s : text) : string :=
  match s with [] => EmptyString | c :: s' => encode_char c (encode_utf8 s') end.

Definition code_point (c : Z) : Prop := 0 <= c < 1114112.

Lemma byte_of_char_of n : 0 <= n < 256 -> byte_of (char_of n) = n.
Proof. intros H. unfold byte_of, char_of. rewrite nat_ascii_embedding; lia. Qed.

Ltac eucl := Z.to_euclidean_division_equations; lia.
Lemma tail_byte n : byte_of (char_of (128 + n mod 64)) mod 64 = n mod 64.
Proof.
  pose proof (Z.mod_pos_bound n 64 ltac:(lia)). rewrite byte_of_char_of by lia.
  rewrite <- (Z.add_mod_idemp_l 128) by lia. apply Z.mod_small. cbn. lia.
Qed.

Lemma decode_encode s : Forall code_point s -> decode_utf8 (encode_utf8 s) = s.
Proof.
  induction 1 as [|c s Hc _ IH]; [done|]. unfold code_point in Hc. cbn [encode_utf8]. unfold encode_char.
  destruct (Z.ltb_spec c 128); [|destruct (Z.ltb_spec c 2048); [|destruct (Z.ltb_spec c 65536)]].
  - cbn [decode_utf8]. rewrite byte_of_char_of by lia. rewrite (proj2 (Z.ltb_lt c 128)) by lia. by rewrite IH.
  - cbn [decode_utf8]. rewrite tail_byte, IH, byte_of_char_of by eucl.
    rewrite (proj2 (Z.ltb_ge _ 128)), (proj2 (Z.ltb_lt _ 224)) by eucl. f_equal. eucl.
  - cbn [decode_utf8]. rewrite !tail_byte, IH, byte_of_char_of by eucl.
    rewrite (proj2 (Z.ltb_ge _ 128)), (proj2 (Z.ltb_ge _ 224)), (proj2 (Z.ltb_lt _ 240)) by eucl. f_equal. eucl.
  - cbn [decode_utf8]. rewrite !tail_byte, IH, byte_of_char_of by eucl.
    rewrite (proj2 (Z.ltb_ge _ 128)), (proj2 (Z.ltb_ge _ 224)), (proj2 (Z.ltb_ge _ 240)) by eucl. f_equal. eucl.
Qed.

(** ** Regular expressions *)

(** One element: a run of characters of a class, at least and at most so many,
    belonging to a group; a lookbehind or a lookahead that fails on a character
    of a class. *)
Inductive item :=
| Run (group : option string) (test : Z -> bool) (least : nat) (most : option nat)
| NotAfter (test : Z -> bool)
| NotBefore (test : Z -> bool).

Abbreviation regex := (list item).

(** The texts of the groups; the runs of one group follow each other. *)
Abbreviation captures := (gmap string text).

Definition capture (group : option string) (s : text) (caps : captures) : captures :=
  match group with
  | None => caps
  | Some g => <[g := s ++ default [] (caps !! g)]> caps
  end.

(** How many characters of the class lie ahead, up to the most wanted. *)
Fixpoint run_length (test : Z -> bool) (most : option nat) (s : text) : nat :=
  match most, s with
  | Some O, _ | _, [] => O
  | _, c :: s' => if test c then S (run_length test (pred <$> most) s') else O
  end.

Definition last_of (prev : option Z) (s : text) : option Z := or_opt (last s) prev.

(** The longest of [n], [n - 1], ..., [least] that [k] accepts. *)
Fixpoint longest {A} (k : nat -> option A) (least n : nat) : option A :=
  if (n <? least)%nat then None
  else match k n with
       | Some a => Some a
       | None => match n with O => None | S n' => longest k least n' end
       end.

(** A match that starts here: every run takes as much as it can and gives
    characters back when the rest does not match. *)
Fixpoint match_here (items : regex) (prev : option Z) (s : text) {struct items} : option captures :=
  match items with
  | [] => Some ∅
  | NotAfter t :: rest =>
      if match prev with Some c => t c | None => false end then None else match_here rest prev s
  | NotBefore t :: rest =>
      if match s with c :: _ => t c | [] => false end then None else match_here rest prev s
  | Run g t least most :: rest =>
      longest (fun n => caps ← match_here rest (last_of prev (take n s)) (drop n s); Some (capture g (take n s) caps))
        least (run_length t most s)
  end.

(** [pattern.search(s)]: the leftmost match. *)
Fixpoint search_from (items : regex) (prev : option Z) (s : text) : option captures :=
  match match_here items prev s with
  | Some caps => Some caps
  | None => match s with [] => None | c :: s' => search_from items (Some c) s' end
  end.

Definition search (items : regex) (s : text) : option captures := search_from items None s.

(** A text to be matched character by character, and a class repeated at will. *)
Definition literal (s : text) : regex := map (fun c => Run None (Z.eqb c) 1 (Some 1%nat)) s.
Definition any_number (test : Z -> bool) : item := Run None test 0 None.

(** ** What a match is *)

Definition within (least : nat) (most : option nat) (n : nat) : Prop :=
  (least <= n)%nat /\ match most with Some m => (n <= m)%nat | None => True end.

Definition sat (test : Z -> bool) (c : Z) : Prop := test c = true.

(** [Matches items prev s caps]: after [prev], some beginning of [s] reads as
    [items], the groups taking [caps]. *)
Inductive Matches : regex -> option Z -> text -> captures -> Prop :=
| Match_end prev s : Matches [] prev s ∅
| Match_not_after t rest prev s caps :
    match prev with Some c => t c | None => false end = false ->
    Matches rest prev s caps -> Matches (NotAfter t :: rest) prev s caps
| Match_not_before t rest prev s caps :
    match s with c :: _ => t c | [] => false end = false ->
    Matches rest prev s caps -> Matches (NotBefore t :: rest) prev s caps
| Match_run g t least most rest prev r s caps :
    Forall (sat t) r -> within least most (length r) ->
    Matches rest (last_of prev r) s caps -> Matches (Run g t least most :: rest) prev (r ++ s) (capture g r caps).

Lemma run_length_sat t most s : Forall (sat t) (take (run_length t most s) s).
Proof.
  revert most. induction s as [|c s IH]; intros most; [by destruct most as [[]|]|].
  destruct most as [[|m]|]; cbn; [done| |]; (destruct (t c) eqn:E; cbn; [|done]); constructor; auto.
Qed.

Lemma run_length_le t most s : (run_length t most s <= length s)%nat.
Proof.
  revert most. induction s as [|c s IH]; intros most; [by destruct most as [[]|]|].
  destruct most as [[|m]|]; cbn; [lia| |];
    (destruct (t c); cbn; [|lia]); [specialize (IH (Some m))|specialize (IH None)]; cbn in IH; lia.
Qed.

Lemma run_length_most t m s : (run_length t (Some m) s <= m)%nat.
Proof.
  revert m. induction s as [|c s IH]; intros [|m]; cbn; try lia.
  destruct (t c); cbn; [|lia]. specialize (IH m). lia.
Qed.

(** A run that is not shorter than it has to be is found. *)
Lemma run_length_ge t most r s :
  Forall (sat t) r -> match most with Some m => (length r <= m)%nat | None => True end ->
  (length r <= run_length t most (r ++ s))%nat.
Proof.
  intros Hr. revert most. induction Hr as [|c r Hc _ IH]; intros most Hm; cbn in *; [lia|]. unfold sat in Hc.
  destruct most as [[|m]|]; cbn in *; [lia| |]; rewrite Hc.
  - specialize (IH (Some m)). cbn in IH. lia.
  - specialize (IH None I). cbn in IH. lia.
Qed.

(** A run that stops where the class stops, or where its bound is reached. *)
Lemma run_length_exact t most r s :
  Forall (sat t) r -> match most with Some m => (length r <= m)%nat | None => True end ->
  most = Some (length r) \/ match s with c :: _ => t c | [] => false end = false ->
  run_length t most (r ++ s) = length r.
Proof.
  intros Hr. revert most. induction Hr as [|c r Hc _ IH]; intros most Hm He; cbn in *.
  - destruct He as [->|He]; [by destruct s|]. destruct s as [|c s]; [by destruct most as [[]|]|].
    destruct most as [[]|]; cbn; [done| |]; by rewrite He.
  - unfold sat in Hc. destruct most as [[|m]|]; cbn in *; [lia| |]; rewrite Hc; f_equal.
    + apply (IH (Some m)); [lia|]. destruct He as [[= ->]|He]; [by left|by right].
    + apply (IH None); [done|]. destruct He as [?|He]; [done|by right].
Qed.

Lemma longest_Some {A} (k : nat -> option A) least n a :
  longest k least n = Some a -> exists m, (least <= m <= n)%nat /\ k m = Some a.
Proof.
  induction n as [|n IH]; cbn [longest]; (destruct (_ <? least)%nat eqn:Hb; [done|]); apply Nat.ltb_ge in Hb;
    destruct (k _) as [b|] eqn:E; intros H; try done.
  - exists 0%nat. split; [lia|]. congruence.
  - exists (S n). split; [lia|]. congruence.
  - destruct (IH H) as (m & ? & ?). exists m. split; [lia|done].
Qed.

Lemma longest_found {A} (k : nat -> option A) least n m a :
  (least <= m <= n)%nat -> k m = Some a -> longest k least n <> None.
Proof.
  intros [Hl Hn] Hm. induction Hn as [|n Hn IH].
  - destruct m; cbn [longest]; rewrite (proj2 (Nat.ltb_ge _ least)) by lia; by rewrite Hm.
  - cbn [longest]. rewrite (proj2 (Nat.ltb_ge _ least)) by lia. cbn beta iota.
    destruct (k (S n)); [discriminate|exact IH].
Qed.

Lemma longest_top {A} (k : nat -> option A) least n a : (least <= n)%nat -> k n = Some a -> longest k least n = Some a.
Proof. intros Hl Hk. destruct n; cbn [longest]; rewrite (proj2 (Nat.ltb_ge _ least)) by lia; by rewrite Hk. Qed.

Lemma match_here_sound items prev s caps : match_here items prev s = Some caps -> Matches items prev s caps.
Proof.
  revert prev s caps. induction items as [|[g t least most|t|t] rest IH]; intros prev s caps; cbn.
  - intros [= <-]. constructor.
  - intros (n & [Hl Hn] & H)%longest_Some. pose proof (run_length_le t most s) as Hle.
    destruct (match_here rest _ _) as [c|] eqn:E; [|done]. injection H as <-.
    rewrite <- (take_drop n s) at 1. constructor; [| |by apply IH].
    + replace (take n s) with (take n (take (run_length t most s) s)) by (rewrite take_take; f_equal; lia).
      apply Forall_take, run_length_sat.
    + rewrite length_take. split; [lia|]. destruct most as [m|]; [|done]. pose proof (run_length_most t m s). lia.
  - destruct (match prev with Some c => t c | None => false end) eqn:E; [done|]. intros H.
    constructor; [done|by apply IH].
  - destruct (match s with c :: _ => t c | [] => false end) eqn:E; [done|]. intros H.
    constructor; [done|by apply IH].
Qed.

(** No match is overlooked. *)
Lemma match_here_complete items prev s caps : Matches items prev s caps -> match_here items prev s <> None.
Proof.
  induction 1 as [| t rest prev s caps E _ IH | t rest prev s caps E _ IH
                 | g t least most rest prev r s caps Hr [Hl Hm] _ IH]; cbn; [done|by rewrite E|by rewrite E|].
  destruct (match_here rest (last_of prev r) s) as [c|] eqn:E; [|done].
  apply (longest_found _ _ _ (length r) (capture g r c)).
  - split; [done|by apply run_length_ge].
  - by rewrite take_app_length, drop_app_length, E.
Qed.

Lemma no_match items prev s : (forall caps, ~ Matches items prev s caps) -> match_here items prev s = None.
Proof. intros H. destruct (match_here items prev s) eqn:E; [|done]. by apply match_here_sound, H in E. Qed.

(** The longest run is taken when the rest then matches. *)
Lemma match_run_longest g t least most rest prev r s caps :
  Forall (sat t) r -> within least most (length r) ->
  most = Some (length r) \/ match s with c :: _ => t c | [] => false end = false ->
  match_here rest (last_of prev r) s = Some caps ->
  match_here (Run g t least most :: rest) prev (r ++ s) = Some (capture g r caps).
Proof.
  intros Hr [Hl Hm] He E. cbn. rewrite (run_length_exact _ _ _ _ Hr Hm He).
  apply longest_top; [done|]. by rewrite take_app_length, drop_app_length, E.
Qed.

(** ** Searching past a text in which nothing matches *)

Fixpoint suffixes (s : text) : list text := match s with [] => [] | _ :: s' => s :: suffixes s' end.

(** Nothing matches from within [s] when [rest] follows. *)
Definition skips (items : regex) (s rest : text) : Prop :=
  forall r, r ∈ suffixes s -> forall prev, match_here items prev (r ++ rest) = None.

Lemma search_skips items s rest prev :
  skips items s rest -> search_from items prev (s ++ rest) = search_from items (last_of prev s) rest.
Proof.
  revert prev. induction s as [|c s IH]; intros prev Hs; [done|].
  cbn [app search_from]. rewrite (Hs (c :: s)) by (cbn; by left). rewrite IH.
  - unfold last_of. destruct s as [|z s]; [done|]. change (last (c :: z :: s)) with (last (z :: s)).
    destruct (last (z :: s)) eqn:E; [done|]. by apply last_None in E.
  - intros r Hr. apply Hs. cbn. by right.
Qed.

Lemma search_here items prev s caps : match_here items prev s = Some caps -> search_from items prev s = Some caps.
Proof. intros E. destruct s; cbn [search_from]; by rewrite E. Qed.

Lemma suffixes_app s1 s2 r :
  r ∈ suffixes (s1 ++ s2) <-> (exists r1, r1 ∈ suffixes s1 /\ r = r1 ++ s2) \/ r ∈ suffixes s2.
Proof.
  induction s1 as [|c s1 IH]; cbn [app suffixes].
  - split; [by right|]. intros [(r1 & H & _)|H]; [by apply not_elem_of_nil in H|done].
  - split.
    + intros [->|[(r1 & Hr & ->)|H]%IH]%elem_of_cons; [left; exists (c :: s1)|left; exists r1|by right];
        (split; [|done]); by (left || right).
    + intros [(r1 & [->|H]%elem_of_cons & ->)|H]; [by left|right; apply IH; left; by exists r1|].
      right. apply IH. by right.
Qed.

Lemma skips_app items s1 s2 rest : skips items s1 (s2 ++ rest) -> skips items s2 rest -> skips items (s1 ++ s2) rest.
Proof.
  intros H1 H2 r [(r1 & Hr & ->)|Hr]%suffixes_app prev; [|by apply H2]. rewrite <- app_assoc. by apply H1.
Qed.

Lemma suffixes_head s r : r ∈ suffixes s -> exists c r', r = c :: r' /\ c ∈ s /\ (forall x, x ∈ r' -> x ∈ s).
Proof.
  induction s as [|c s IH]; cbn; [by intros ?%not_elem_of_nil|]. intros [->|Hr]%elem_of_cons.
  - exists c, s. split; [done|]. split; [by left|]. intros x Hx. by right.
  - destruct (IH Hr) as (c' & r' & -> & Hc & Hx). exists c', r'. split; [done|]. split; [by right|]. intros x H. right. by apply Hx.
Qed.

(** An expression that begins with a class skips what is outside of it. *)
Lemma skips_outside items t s rest :
  (forall prev c s', t c = false -> match_here items prev (c :: s') = None) ->
  Forall (fun c => t c = false) s -> skips items s rest.
Proof.
  intros Hi Hs r (c & r' & -> & Hc & _)%suffixes_head prev. apply Hi.
  rewrite Forall_forall in Hs. by apply Hs.
Qed.
