(* ===== verification/Compat.v ===== *)
(** What a panel can be trusted with (src/store/xui_compat): the names of an
    inbound and of its clients on the panel, the profile of the panel's version
    with its capabilities, and the guard that refuses an operation whose scope is
    not exact.

    The profile is the one kept in the panel's row or in the cache; asking the
    panel for it ([discover_xui_capabilities] with [live]) is not modelled. *)

From S2P Require Import Prelude Models World Numbers Regex.

(** ** Names *)

(** [field__iexact=value], ASCII. *)
Definition iexact (value column : string) : bool := bool_decide (upper column = upper value).

(** [str(n or "")] *)
Definition num_text (o : option Z) : string := match o with Some z => if z =? 0 then "" else pretty z | None => "" end.

Definition inbound_node_id (i : Inbound.inbound) : string := strip (Inbound.xui_node_id i).

Definition inbound_remote_key (i : Inbound.inbound) : string :=
  or_str (strip (Inbound.xui_remote_key i))
    (join ":" [num_text (Inbound.panel i); or_str (inbound_node_id i) "local"; num_text (Some (Inbound.inbound_id i))]).

Definition build_remote_client_key (i : Inbound.inbound) (remote_client_identity : string) : string :=
  join ":" [num_text (Inbound.panel i); or_str (inbound_node_id i) "local"; num_text (Some (Inbound.inbound_id i));
            strip remote_client_identity].

(** ** Profiles *)

Record capabilities := mk_capabilities {
  supports_nodes : bool;
  supports_node_filter : bool;
  supports_node_metrics : bool;
  supports_global_client_usage : bool;
  supports_managed_hosts : bool;
  supports_share_address_strategy : bool;
  supports_client_used_traffic : bool;
  supports_online_stats : bool;
  supports_api_token_auth : bool;
  supports_precise_client_scope : bool;
  supports_live_config_apply : bool;
}.

Record compatibility_profile := mk_profile {
  profile : Panel.capability_profile_t;
  version : string;
  profile_capabilities : capabilities;
}.

(** The pattern [(\d+)\.(\d+)(?:\.(\d+))?]; a third number that is missing
    counts as zero. *)
Definition version_pattern : regex :=
  [Run (Some "major") Regex.is_digit 1 None; Run None (Z.eqb 46) 1 (Some 1%nat); Run (Some "minor") Regex.is_digit 1 None;
   Run None (Z.eqb 46) 0 (Some 1%nat); Run (Some "patch") Regex.is_digit 0 None].

Definition number_of (caps : captures) (group : string) : Z :=
  fold_left (fun acc c => 10 * acc + default 0 (digit_value c)) (default [] (caps !! group)) 0.

Definition version_tuple (v : string) : option (Z * Z * Z) :=
  (fun caps => (number_of caps "major", number_of caps "minor", number_of caps "patch"))
    <$> search version_pattern (decode_utf8 v).

(** Python's order of tuples. *)
Definition at_least (v : Z * Z * Z) (major minor : Z) : bool :=
  let '(a, b, c) := v in (major <? a) || ((a =? major) && ((minor <? b) || ((b =? minor) && (0 <=? c)))).

Definition is_at_least (v : string) (major minor : Z) : bool :=
  match version_tuple v with Some t => at_least t major minor | None => false end.

Definition no_capabilities : capabilities :=
  mk_capabilities false false false false false false false false false false false.

Definition capabilities_for_profile (p : Panel.capability_profile_t) (v : string) : capabilities :=
  let is_33_plus := is_at_least v 3 3 in
  let is_34_plus := is_at_least v 3 4 in
  match p with
  | Panel.LEGACY_SINGLE_NODE => mk_capabilities false false false false false false true true false false false
  | Panel.MODERN_SINGLE_NODE => mk_capabilities false false false is_33_plus false false true true is_33_plus true is_33_plus
  | Panel.MODERN_MULTI_NODE => mk_capabilities true true true true is_34_plus true true true true true is_33_plus
  | _ => no_capabilities
  end.

(** An inbound of a listing that tells of nodes. *)
Definition tells_of_nodes (inbound : json) : bool :=
  match inbound with
  | JObj kv =>
      match assoc "nodeId" kv with
      | None | Some JNull => false
      | Some (JList _ | JObj _) => true
      | Some j => truthy j
      end
      || match assoc "originNodeGuid" kv with Some j => truthy j | None => false end
      || match assoc "shareAddrStrategy" kv with Some j => truthy j | None => false end
  | _ => false
  end.

Definition profile_from_observations (v : string) (nodes inbounds hosts : list json) (live_failed : bool)
    : Panel.capability_profile_t :=
  if live_failed then Panel.UNKNOWN_SAFE
  else if nonempty nodes || existsb tells_of_nodes inbounds then Panel.MODERN_MULTI_NODE
  else match version_tuple v with
  | Some (major, _, _) =>
      if 3 <=? major then (if nonempty hosts then Panel.MODERN_MULTI_NODE else Panel.MODERN_SINGLE_NODE)
      else Panel.LEGACY_SINGLE_NODE
  | None => if nonempty inbounds then Panel.LEGACY_SINGLE_NODE else Panel.UNKNOWN_SAFE
  end.

(** [discover_xui_capabilities(panel, live=False)], with what the cache holds for
    the panel; what it returns is what the cache then holds. *)
Definition discover_xui_capabilities (cached : option compatibility_profile) (p : Panel.panel) : compatibility_profile :=
  let from_row :=
    let v := Panel.detected_xui_version p in
    let pr := match Panel.capability_profile p with
              | Panel.NO_PROFILE => profile_from_observations v [] [JObj [("id", JNum 1)]] [] false
              | pr => pr end in
    mk_profile pr v (capabilities_for_profile pr v) in
  match cached with
  | Some c => if bool_decide (profile c = Panel.UNKNOWN_SAFE) then from_row else c
  | None => from_row
  end.

(** ** The guard *)

Inductive operation := READ | CREATE | UPDATE | DELETE | ENABLE | DISABLE | RESET_TRAFFIC | RENEW.

Definition destructive (op : operation) : bool := match op with READ => false | _ => true end.

Definition UNKNOWN_SAFE_REFUSAL : string := "X-UI compatibility is unknown; destructive operation refused.".

(** A refusal: the exception's class, and its text. *)
Definition assert_operation_allowed (c : compatibility_profile) (op : operation) : option (scope_fault * string) :=
  if bool_decide (profile c = Panel.UNKNOWN_SAFE) && destructive op then Some (UnknownSafeMode, UNKNOWN_SAFE_REFUSAL) else None.

(** Other inbounds of the panel with the same number. *)
Definition local_scope_conflicts (d : DB) (ipk : Z) (i : Inbound.inbound) : bool :=
  exists_where (fun k j => negb (k =? ipk) && bool_decide (Inbound.panel j = Inbound.panel i)
                           && (Inbound.inbound_id j =? Inbound.inbound_id i)) (inbounds d).

(** Live clients of the inbound known by the identifier; twenty at most. *)
Definition local_client_matches (d : DB) (ipk : Z) (i : Inbound.inbound) (identifier : string) : Z :=
  let ident := strip identifier in
  if bool_decide (ident = "") then 0
  else Z.min 20 (count_where (fun _ c => bool_decide (VPNClient.inbound c = Some ipk) && negb (VPNClient.is_deleted c)
         && (match VPNClient.uuid c with Some u => iexact ident u | None => false end
             || iexact ident (VPNClient.xui_email c) || iexact ident (VPNClient.username c)
             || iexact ident (VPNClient.sub_id c)
             || iexact (build_remote_client_key i ident) (VPNClient.remote_client_key c))) (clients d)).

(** [assert_precise_client_scope] for the panel [p] with primary key [ppk]. *)
Definition assert_precise_client_scope (cached : Z -> option compatibility_profile) (d : DB) (ppk : Z) (p : Panel.panel)
    (ipk : Z) (i : Inbound.inbound) (identifier : string) (op : operation) (allow_multi_scope : bool)
    : option (scope_fault * string) :=
  let c := discover_xui_capabilities (cached ppk) p in
  let node := bool_decide (inbound_node_id i = "") in
  match assert_operation_allowed c op with
  | Some refusal => Some refusal
  | None =>
      if negb (bool_decide (Inbound.panel i = Some ppk))
      then Some (AmbiguousScope, "Operation scope must include a panel-owned inbound.")
      else if bool_decide (Inbound.xui_source i = Inbound.SYNCHRONIZED_NODE) && node
      then Some (AmbiguousScope, "Synchronized node inbound is missing node identity.")
      else if local_scope_conflicts d ipk i && negb allow_multi_scope
              && (negb (supports_precise_client_scope (profile_capabilities c)) || node)
      then Some (AmbiguousScope, "Inbound ID is ambiguous across node scopes.")
      else if (1 <? local_client_matches d ipk i identifier) && negb allow_multi_scope
      then Some (AmbiguousScope, "Client identifier matches multiple local records in this scope.")
      else None
  end.
