(* ===== verification/Discounts.v ===== *)
(** Discounts: validation and value of a discount code
    (DiscountCode in src/store/models.py), and the preview, reservation and
    release of its usage at checkout (src/store/order_services.py).  Codes
    are ASCII text. *)

From S2P Require Import Prelude Models World Numbers.
Import DiscountCode.

(** ** The code itself *)

(** [(code or "").strip().upper()] *)
Definition normalize_code (code : string) : string := upper (strip code).

Definition is_within_valid_window (now : Z) (dc : discount_code) : bool :=
  match valid_from dc with
  | Some f => if now <? f then false else
      match valid_until dc with Some u => negb (u <? now) | None => true end
  | None => match valid_until dc with Some u => negb (u <? now) | None => true end
  end.

Definition has_usage_available (dc : discount_code) : bool :=
  match max_usage dc with None => true | Some m => used_count dc <? m end.

Definition is_applicable_to_plan (plan : Z) (dc : discount_code) : bool :=
  bool_decide (applicable_plans dc = ∅) || bool_decide (plan ∈ applicable_plans dc).

Definition validate_basic (now : Z) (dc : discount_code) : result unit :=
  raise_if (bool_decide (discount_type dc = PERCENTAGE) && (100 <? value dc))
    (ValidationError "Percentage discounts cannot exceed 100.") ≫= fun _ =>
  raise_if (negb (is_active dc)) (ValidationError "Discount code is not active.") ≫= fun _ =>
  raise_if (negb (is_within_valid_window now dc))
    (ValidationError "Discount code is not valid right now.") ≫= fun _ =>
  raise_if (negb (has_usage_available dc))
    (ValidationError "Discount code usage limit has been reached.").

Definition validate_for_plan (plan now : Z) (dc : discount_code) : result unit :=
  validate_basic now dc ≫= fun _ =>
  raise_if (negb (is_applicable_to_plan plan dc))
    (ValidationError "Discount code is not available for this plan.").

Definition calculate_discount (amount : Z) (dc : discount_code) : Z :=
  if amount <=? 0 then 0
  else match discount_type dc with
       | PERCENTAGE => Z.min ((amount * value dc) / 100) amount
       | FIXED => Z.min (value dc) amount
       end.

(** ** Wholesale percentage *)

Definition calculate_percentage_discount (amount percent : Z) : Z :=
  if (amount <=? 0) || (percent =? 0) then 0
  else Z.min ((amount * clamp100 percent) / 100) amount.

Definition get_customer_wholesale_discount_percent (c : option Customer.customer) : Z :=
  match c with None => 0 | Some c => Customer.wholesale_discount_percent c end.

(** ** Usage *)

(** [DiscountCode.objects.filter(code=code).first()] *)
Definition find_discount (code : string) (d : DB) : option (Z * discount_code) :=
  first_where (fun _ dc => bool_decide (DiscountCode.code dc = code)) (discounts d).

Definition reward_of_discount (pk : Z) (r : CustomerReward.customer_reward) : bool :=
  bool_decide (CustomerReward.discount_code r = Some pk).

Definition reward_available_to (customer pk : Z) (r : CustomerReward.customer_reward) : bool :=
  reward_of_discount pk r && bool_decide (CustomerReward.customer r = customer)
  && bool_decide (CustomerReward.status r = CustomerReward.AVAILABLE).

(** A code won as a reward is only for the customer who won it. *)
Definition validate_reward_discount_owner (pk : Z) (customer : option Z) (d : DB) : result unit :=
  if negb (exists_where (fun _ => reward_of_discount pk) (rewards d)) then Ret tt
  else
    let owned := match customer with
                 | None => false
                 | Some c => exists_where (fun _ => reward_available_to c pk) (rewards d)
                 end in
    raise_if (negb owned) (ValidationError "This reward code is not available for this account.").

(** The reward behind a used code becomes used. *)
Definition mark_customer_reward_used (customer discount : option Z) (now : Z) (d : DB) : DB :=
  match customer, discount with
  | Some c, Some pk =>
      d {{ rewards ::= update_where (fun _ => reward_available_to c pk)
             (fun r => r {{ CustomerReward.status := CustomerReward.USED;
                            CustomerReward.used_at := Some now }}) }}
  | _, _ => d
  end.

Definition use_discount (now : Z) (dc : discount_code) : discount_code :=
  dc {{ used_count ::= Z.succ; updated_at := now }}.

(** The checks shared by preview and reservation, on the current tables. *)
Definition check_discount (plan : Z) (code : string) (customer : option Z) (now : Z) (d : DB)
    : result (Z * discount_code) :=
  match find_discount code d with
  | None => Raise (ValidationError "Discount code is invalid.")
  | Some (pk, dc) =>
      validate_reward_discount_owner pk customer d ≫= fun _ =>
      validate_for_plan plan now dc ≫= fun _ => Ret (pk, dc)
  end.

(** Reserve one usage; [None] when no code was given. *)
Definition reserve_discount_usage (plan : Z) (p : Plan.plan) (code : string)
    (customer : option Z) (quantity now : Z) : IO (option (Z * discount_code) * Z) :=
  let subtotal := Plan.price p * quantity in
  let normalized := normalize_code code in
  if bool_decide (normalized = "") then mret (None, 0)
  else atomic (
    d ← get_db;
    '(pk, dc) ← liftR (check_discount plan normalized customer now d);
    let amount := calculate_discount subtotal dc in
    _ ← put_db (fun d => d {{ discounts ::= alter (use_discount now) pk }});
    mret (Some (pk, dc {{ used_count ::= Z.succ }}), amount)).

Definition unuse_discount (now : Z) (dc : discount_code) : discount_code :=
  if 0 <? used_count dc then dc {{ used_count ::= Z.pred; updated_at := now }} else dc.

(** [filter(pk=pk, used_count__gt=0).update(used_count=F("used_count") - 1)] *)
Definition release_discount_usage (discount : option (Z * discount_code)) (now : Z) : IO unit :=
  match discount with
  | None => mret tt
  | Some (pk, _) => put_db (fun d => d {{ discounts ::= alter (unuse_discount now) pk }})
  end.

Definition preview_discount (plan : Z) (p : Plan.plan) (code : string) (customer : option Z)
    (quantity now : Z) (d : DB) : result (option (Z * discount_code) * Z * Z) :=
  let subtotal := Plan.price p * quantity in
  let normalized := normalize_code code in
  if bool_decide (normalized = "") then Ret (None, 0, subtotal)
  else
    '(pk, dc) ← check_discount plan normalized customer now d;
    let amount := calculate_discount subtotal dc in
    Ret (Some (pk, dc), amount, Z.max (subtotal - amount) 0).

(** ** Value of a discount *)

Lemma percent_share_bounds amount p :
  0 <= amount -> 0 <= p -> 0 <= Z.min ((amount * p) / 100) amount <= amount.
Proof.
  intros. assert (0 <= (amount * p) / 100) by (apply Z.div_pos; nia). lia.
Qed.

Lemma calculate_discount_bounds amount dc :
  0 <= value dc -> 0 <= amount -> 0 <= calculate_discount amount dc <= amount.
Proof.
  intros Hv Ha. unfold calculate_discount.
  destruct (Z.leb_spec amount 0); [lia|].
  destruct (discount_type dc); [|lia]. by apply percent_share_bounds.
Qed.

Lemma calculate_percentage_discount_bounds amount percent :
  0 <= amount -> 0 <= calculate_percentage_discount amount percent <= amount.
Proof.
  intros Ha. unfold calculate_percentage_discount.
  destruct (_ || _); [lia|]. apply percent_share_bounds; [done|]. unfold clamp100. lia.
Qed.

(** A valid code takes off exactly its share: a percentage code the floor
    of that percentage, a fixed code its value but never more than the order
    costs; so what remains to pay is between zero and the subtotal. *)
Theorem calculate_discount_value plan now amount dc :
  validate_for_plan plan now dc = Ret tt -> 1 <= value dc -> 0 <= amount ->
  0 <= calculate_discount amount dc <= amount /\
  calculate_discount amount dc =
    match discount_type dc with
    | PERCENTAGE => amount * value dc / 100
    | FIXED => Z.min (value dc) amount
    end.
Proof.
  intros Hval Hv Ha. split; [apply calculate_discount_bounds; lia|].
  unfold validate_for_plan, validate_basic in Hval.
  apply result_bind_Ret in Hval as ([] & Hval & _).
  apply result_bind_Ret in Hval as ([] & Hpct & _). apply raise_if_Ret in Hpct.
  unfold calculate_discount. destruct (Z.leb_spec amount 0).
  { assert (amount = 0) as -> by lia. destruct (discount_type dc); [by rewrite Z.mul_0_l|lia]. }
  destruct (discount_type dc); simpl in *; [|done].
  apply Z.ltb_ge in Hpct. apply Z.min_l.
  apply Z.div_le_upper_bound; nia.
Qed.

(** A code worth 20%, usable twice. *)
Definition sample_code : discount_code := {|
  DiscountCode.code := "REF20"; discount_type := PERCENTAGE; value := 20; max_usage := Some 2;
  used_count := 1; valid_from := Some 0; valid_until := None; is_active := true;
  applicable_plans := ∅; updated_at := 0 |}.

Lemma calculate_discount_value_witness :
  validate_for_plan 1 10 sample_code = Ret tt /\ calculate_discount 99999 sample_code = 19999.
Proof.
  split; [reflexivity|].
  destruct (calculate_discount_value 1 10 99999 sample_code) as [_ ->];
    [reflexivity|simpl; lia|lia|reflexivity].
Defined.

(** ** Usage *)

Lemma find_discount_Some code d pk dc :
  find_discount code d = Some (pk, dc) -> discounts d !! pk = Some dc /\ DiscountCode.code dc = code.
Proof.
  intros (H1 & H2 & _)%first_where_Some.
  by apply bool_decide_eq_true in H2.
Qed.

Lemma check_discount_Ret plan code customer now d pk dc :
  check_discount plan code customer now d = Ret (pk, dc) ->
  discounts d !! pk = Some dc /\ validate_for_plan plan now dc = Ret tt.
Proof.
  unfold check_discount. destruct (find_discount code d) as [[pk' dc']|] eqn:Hf; [|done].
  intros ([] & _ & ([] & Hv & [= <- <-])%result_bind_Ret)%result_bind_Ret.
  by apply find_discount_Some in Hf as [? _].
Qed.

Lemma validate_for_plan_usage plan now dc :
  validate_for_plan plan now dc = Ret tt -> has_usage_available dc = true.
Proof.
  intros ([] & Hv & _)%result_bind_Ret. unfold validate_basic in Hv.
  apply result_bind_Ret in Hv as ([] & _ & Hv).
  apply result_bind_Ret in Hv as ([] & _ & Hv).
  apply result_bind_Ret in Hv as ([] & _ & Hv).
  apply raise_if_Ret in Hv. by apply negb_false_iff in Hv.
Qed.

(** The three ways a reservation ends. *)
Lemma reserve_cases plan p code customer q now w :
  let normalized := normalize_code code in
  let r := reserve_discount_usage plan p code customer q now w in
  (normalized = "" /\ r = (Ret (None, 0), w)) \/
  (normalized <> "" /\ exists e,
     check_discount plan normalized customer now (db w) = Raise e /\ r = (Raise e, w)) \/
  (normalized <> "" /\ exists pk dc,
     check_discount plan normalized customer now (db w) = Ret (pk, dc) /\
     r = (Ret (Some (pk, dc {{ used_count ::= Z.succ }}), calculate_discount (Plan.price p * q) dc),
          w {{ db -> discounts ::= alter (use_discount now) pk }})).
Proof.
  intros normalized r. subst r normalized. unfold reserve_discount_usage.
  case_bool_decide as Hn; [by left|right].
  destruct (check_discount plan (normalize_code code) customer now (db w)) as [[pk dc]|e] eqn:Hc.
  - right. split; [done|]. exists pk, dc. split; [done|].
    run_io. rewrite Hc. reflexivity.
  - left. split; [done|]. exists e. split; [done|].
    run_io. rewrite Hc, restore_db. reflexivity.
Qed.

Lemma release_eq disc now w :
  release_discount_usage disc now w =
  (Ret tt, match disc with
           | None => w
           | Some (pk, _) => w {{ db -> discounts ::= alter (unuse_discount now) pk }}
           end).
Proof. by destruct disc as [[pk dc]|]. Qed.

(** No code has been used more often than its limit allows. *)
Definition usage_within_limit (dc : discount_code) : Prop :=
  0 <= used_count dc /\ forall m, max_usage dc = Some m -> used_count dc <= m.

Definition usage_ok (d : DB) : Prop := map_Forall (fun _ => usage_within_limit) (discounts d).

(** Any number of checkouts reserving and releasing usages, in any order. *)
Inductive usage_step : World -> World -> Prop :=
| step_reserve plan p code customer q now w :
    usage_step w (reserve_discount_usage plan p code customer q now w).2
| step_release disc now w :
    usage_step w (release_discount_usage disc now w).2.

Lemma usage_step_ok w w' : usage_step w w' -> usage_ok (db w) -> usage_ok (db w').
Proof.
  destruct 1 as [plan p code customer q now w|disc now w]; intros Hok.
  - destruct (reserve_cases plan p code customer q now w) as
      [[_ ->]|[(_ & e & _ & ->)|(_ & pk & dc & Hc & ->)]]; [done..|].
    apply check_discount_Ret in Hc as [Hdc Hv]. apply validate_for_plan_usage in Hv.
    unfold usage_ok. cbn. intros k v Hk.
    destruct (decide (k = pk)) as [->|Hne].
    + rewrite lookup_alter_eq in Hk. rewrite Hdc in Hk. injection Hk as <-.
      destruct (Hok _ _ Hdc) as [H0 Hm]. unfold has_usage_available in Hv.
      split; cbn; [lia|]. intros m Em. rewrite Em in Hv. apply Z.ltb_lt in Hv. lia.
    + rewrite lookup_alter_ne in Hk by done. by apply (Hok k).
  - rewrite release_eq. destruct disc as [[pk dc]|]; [|done].
    unfold usage_ok. cbn. intros k v Hk.
    destruct (decide (k = pk)) as [->|Hne].
    + rewrite lookup_alter_eq in Hk. destruct (discounts (db w) !! pk) as [dc0|] eqn:E; [|done].
      injection Hk as <-. destruct (Hok _ _ E) as [H0 Hm]. unfold unuse_discount.
      destruct (Z.ltb_spec 0 (used_count dc0)); [|done]. split; cbn; [lia|].
      intros m Em. specialize (Hm m Em). lia.
    + rewrite lookup_alter_ne in Hk by done. by apply (Hok k).
Qed.

(** However checkouts interleave reservations and releases, no discount
    code is ever used more often than its limit, and no count goes negative. *)
Theorem discount_usage_never_exceeds_limit w w' :
  rtc usage_step w w' -> usage_ok (db w) -> usage_ok (db w').
Proof. induction 1; eauto using usage_step_ok. Qed.

Definition sample_world : World := {|
  db := empty_db {{ discounts := {[ 7 := sample_code ]} }}; locks := ∅; calls := [] |}.

Lemma sample_world_usage_ok : usage_ok (db sample_world).
Proof.
  apply map_Forall_singleton. split; [easy|]. intros m [= <-]. easy.
Qed.

Lemma discount_usage_never_exceeds_limit_witness :
  exists w', usage_ok (db w') /\ used_count <$> discounts (db w') !! 7 = Some 2.
Proof.
  exists (reserve_discount_usage 1 sample_plan " ref20 " None 1 5 sample_world).2. split.
  - apply (discount_usage_never_exceeds_limit sample_world).
    + apply rtc_once, step_reserve.
    + apply sample_world_usage_ok.
  - vm_compute. reflexivity.
Defined.

(** A discount table without the bookkeeping timestamp. *)
Definition untimed (t : gmap Z discount_code) : gmap Z discount_code :=
  (fun dc => dc {{ updated_at := 0 }}) <$> t.

(** Using a code once and giving the usage back restores its row. *)
Lemma unuse_use pk dc now now' t :
  t !! pk = Some dc -> 0 <= used_count dc ->
  untimed (alter (unuse_discount now') pk (alter (use_discount now) pk t)) = untimed t.
Proof.
  intros Hdc H0. apply map_eq. intros k. unfold untimed. rewrite !lookup_fmap.
  destruct (decide (k = pk)) as [->|Hne].
  - rewrite !lookup_alter_eq, Hdc. cbn. unfold unuse_discount, use_discount. cbn.
    destruct (Z.ltb_spec 0 (Z.succ (used_count dc))); [|lia].
    cbn. by rewrite Z.pred_succ.
  - by rewrite !lookup_alter_ne.
Qed.

(** Releasing a reserved usage gives back exactly what the reservation
    took: the discount table is as before (timestamps aside) and nothing else
    in the database moved. *)
Theorem reserve_release_roundtrip plan p code customer q now now' w disc amount w1 :
  usage_ok (db w) ->
  reserve_discount_usage plan p code customer q now w = (Ret (disc, amount), w1) ->
  let w2 := (release_discount_usage disc now' w1).2 in
  untimed (discounts (db w2)) = untimed (discounts (db w)) /\
  w2 {{ db -> discounts := discounts (db w) }} = w.
Proof.
  intros Hok Hr w2. subst w2. rewrite release_eq.
  destruct (reserve_cases plan p code customer q now w) as
    [[_ Hw]|[(_ & e & _ & Hw)|(_ & pk & dc & Hc & Hw)]]; rewrite Hw in Hr.
  - injection Hr as <- <- <-. split; [done|by destruct w as [[]]].
  - discriminate.
  - injection Hr as <- <- <-. cbn. split; [|by destruct w as [[]]].
    apply check_discount_Ret in Hc as [Hdc _]. destruct (Hok _ _ Hdc) as [H0 _].
    by apply (unuse_use pk dc).
Qed.

Lemma reserve_release_roundtrip_witness :
  let r := reserve_discount_usage 1 sample_plan "REF20" None 1 5 sample_world in
  (used_count <$> discounts (db r.2) !! 7 = Some 2) /\
  (forall disc amount, r.1 = Ret (disc, amount) ->
   untimed (discounts (db (release_discount_usage disc 6 r.2).2)) = untimed (discounts (db sample_world))).
Proof.
  split; [vm_compute; reflexivity|]. intros disc amount Hr.
  apply (reserve_release_roundtrip 1 sample_plan "REF20" None 1 5 6 sample_world disc amount).
  - apply sample_world_usage_ok.
  - rewrite <- Hr. symmetry. apply surjective_pairing.
Defined.

(** The price shown before checkout is the price charged: preview and
    reservation accept the same codes, raise the same errors and take off the
    same amount, and the total previewed is the subtotal less that amount. *)
Theorem preview_agrees_with_reserve plan p code customer q now w :
  match preview_discount plan p code customer q now (db w) with
  | Ret (disc, amount, total) =>
      total = (if decide (disc = None) then Plan.price p * q
               else Z.max (Plan.price p * q - amount) 0) /\
      (reserve_discount_usage plan p code customer q now w).1 =
        Ret (match disc with
             | Some (pk, dc) => Some (pk, dc {{ used_count ::= Z.succ }}) | None => None end, amount)
  | Raise e => (reserve_discount_usage plan p code customer q now w).1 = Raise e
  end.
Proof.
  unfold preview_discount.
  destruct (reserve_cases plan p code customer q now w) as
    [[Hn ->]|[(Hn & e & Hc & ->)|(Hn & pk & dc & Hc & ->)]].
  - rewrite bool_decide_true by done. done.
  - rewrite bool_decide_false, Hc by done. done.
  - rewrite bool_decide_false, Hc by done. done.
Qed.
