(* ===== verification/Referrals.v ===== *)
(** The referral programme, first half (src/store/referrals.py): who invited
    whom, the 20% code an inviter wins on an invited customer's first
    purchase, and the free plan won every fifth purchase.
    [process_referral_purchase] is the post_save signal of Order. *)

From S2P Require Import Prelude Models World Numbers Discounts.

Definition REFERRAL_REWARD_PERCENTAGE : Z := 20.
Definition FREE_PLAN_REFERRAL_MILESTONE : Z := 5.

Definition integrity_error : exn := OtherError "IntegrityError".

(** [(code or "").strip().upper()] *)
Definition normalize_referral_code (code : string) : string := upper (strip code).

Section Referrals.
Context `{Env}.

(** ** Assigning a referrer *)

Definition referral_of_customer (customer : Z) (d : DB) : option (Z * Referral.referral) :=
  first_where (fun _ r => bool_decide (Referral.referred_customer r = customer)) (referrals d).

(** [Referral.objects.get_or_create(referrer=, referred_customer=)]; the
    one-to-one column refuses a second referral of the same customer. *)
Definition get_or_create_referral (referrer customer : Z) (code : string) : IO Z :=
  d ← get_db;
  match first_where (fun _ r => bool_decide (Referral.referrer r = referrer)
                                && bool_decide (Referral.referred_customer r = customer)) (referrals d) with
  | Some (pk, _) => mret pk
  | None =>
      if is_set (referral_of_customer customer d) then raise integrity_error
      else
        let pk := next_pk (referrals d) in
        _ ← put_db (fun d => d {{ referrals ::= insert pk {|
              Referral.referrer := referrer; Referral.referred_customer := customer;
              Referral.referral_code := code; Referral.status := Referral.REGISTERED;
              Referral.first_order := None; Referral.purchased_at := None |} }});
        mret pk
  end.

Definition assign_referrer (customer : option (Z * Customer.customer)) (code : string) (now : Z)
    : IO (option Z) :=
  let code := normalize_referral_code code in
  match customer with
  | None => mret None
  | Some (cpk, c) =>
      if bool_decide (code = "") || is_set (Customer.referred_by c) then mret None
      else
        d ← get_db;
        match first_where (fun _ r => bool_decide (Customer.referral_code r = code)
                                      && Customer.is_active r) (customers d) with
        | None => mret None
        | Some (rpk, _) =>
            if bool_decide (rpk = cpk) then mret None
            else atomic (
              locked ← get_or_raise (fun w => customers (db w) !! cpk);
              if is_set (Customer.referred_by locked)
              then d ← get_db; mret (fst <$> referral_of_customer cpk d)
              else
                _ ← put_db (fun d => d {{ customers ::= insert cpk (locked {{
                      Customer.referred_by := Some rpk;
                      Customer.referral_code_used := code;
                      Customer.referred_at := Some now }}) }});
                pk ← get_or_create_referral rpk cpk code; mret (Some pk))
        end
  end.

(** ** Reward codes *)

Definition code_exists (code : string) (d : DB) : bool :=
  exists_where (fun _ dc => bool_decide (DiscountCode.code dc = code)) (discounts d).

Fixpoint first_free_code (tries draw : nat) (prefix : string) (d : DB) : option string :=
  match tries with
  | O => None
  | S tries' =>
      let code := prefix +:+ short_code draw in
      if code_exists code d then first_free_code tries' (S draw) prefix d else Some code
  end.

Definition generate_unique_discount_code (prefix : string) (d : DB) : string :=
  let prefix := normalize_referral_code prefix in
  match first_free_code 20 0 prefix d with
  | Some code => code
  | None => prefix +:+ upper uuid_hex10
  end.

(** [DiscountCode.objects.create(...)]: [save] normalizes the code, which is
    unique. *)
Definition create_discount_code (code : string) (value : Z) (plans : gset Z) (now : Z) : IO Z :=
  d ← get_db;
  let code := normalize_code code in
  if code_exists code d then raise integrity_error
  else
    let pk := next_pk (discounts d) in
    _ ← put_db (fun d => d {{ discounts ::= insert pk {|
          DiscountCode.code := code; DiscountCode.discount_type := DiscountCode.PERCENTAGE;
          DiscountCode.value := value; DiscountCode.max_usage := Some 1;
          DiscountCode.used_count := 0; DiscountCode.valid_from := Some now;
          DiscountCode.valid_until := None; DiscountCode.is_active := true;
          DiscountCode.applicable_plans := plans; DiscountCode.updated_at := now |} }});
    mret pk.

Definition new_reward (customer : Z) (referral : option Z) (ty : CustomerReward.reward_type_t)
    (milestone : option Z) (now : Z) : CustomerReward.customer_reward := {|
  CustomerReward.customer := customer; CustomerReward.referral := referral;
  CustomerReward.reward_type := ty; CustomerReward.status := CustomerReward.AVAILABLE;
  CustomerReward.discount_code := None; CustomerReward.plan := None;
  CustomerReward.milestone := milestone; CustomerReward.earned_at := Some now;
  CustomerReward.used_at := None |}.

Definition discount_reward_of (customer referral : Z) (_ : Z) (r : CustomerReward.customer_reward) : bool :=
  bool_decide (CustomerReward.customer r = customer)
  && bool_decide (CustomerReward.referral r = Some referral)
  && bool_decide (CustomerReward.reward_type r = CustomerReward.DISCOUNT_20).

Definition save_reward (pk : Z) (r : CustomerReward.customer_reward) : IO unit :=
  put_db (fun d => d {{ rewards ::= insert pk r }}).

(** [CustomerReward.objects.get_or_create(...)] with these lookups. *)
Definition get_or_create_reward (p : Z -> CustomerReward.customer_reward -> bool)
    (fresh : CustomerReward.customer_reward) : IO (Z * CustomerReward.customer_reward * bool) :=
  d ← get_db;
  match first_where p (rewards d) with
  | Some (pk, r) => mret (pk, r, false)
  | None =>
      let pk := next_pk (rewards d) in
      _ ← save_reward pk fresh; mret (pk, fresh, true)
  end.

Definition create_referral_discount_reward (rpk : Z) (rf : Referral.referral) (now : Z) : IO Z :=
  '(pk, r, created) ← get_or_create_reward (discount_reward_of (Referral.referrer rf) rpk)
      (new_reward (Referral.referrer rf) (Some rpk) CustomerReward.DISCOUNT_20 None now);
  if negb created && is_set (CustomerReward.discount_code r) then mret pk
  else
    d ← get_db;
    dpk ← create_discount_code (generate_unique_discount_code "REF20" d)
            REFERRAL_REWARD_PERCENTAGE ∅ now;
    _ ← save_reward pk (r {{ CustomerReward.discount_code := Some dpk;
                             CustomerReward.status := CustomerReward.AVAILABLE;
                             CustomerReward.earned_at := or_opt (CustomerReward.earned_at r) (Some now) }});
    mret pk.

(** ** The free plan *)

Definition free_plan_slug : string := "referral-free-1gb".

Definition get_or_create_free_referral_plan (store : option Z) : IO Z :=
  d ← get_db;
  let store := or_opt store (get_current_store d) in
  match first_where (fun _ p => bool_decide (Plan.store p = store)
                                && bool_decide (Plan.slug p = free_plan_slug)) (plans d) with
  | Some (pk, p) =>
      _ ← put_db (fun d => d {{ plans ::= insert pk (p {{
            Plan.volume_gb := 1000; Plan.price := 0;
            Plan.is_public := false; Plan.is_active := true }}) }});
      mret pk
  | None =>
      let pk := next_pk (plans d) in
      _ ← put_db (fun d => d {{ plans ::= insert pk {|
            Plan.store := store; Plan.operators := ∅; Plan.slug := free_plan_slug;
            Plan.volume_gb := 1000; Plan.duration_days := 30; Plan.price := 0;
            Plan.currency := Plan.TOMAN; Plan.device_limit := 1; Plan.is_active := true;
            Plan.sort_order := 9999; Plan.is_public := false; Plan.is_custom_volume := false;
            Plan.multi_inbound_bundle := false |} }});
      mret pk
  end.

Definition free_plan_reward_of (customer milestone : Z) (_ : Z) (r : CustomerReward.customer_reward) : bool :=
  bool_decide (CustomerReward.customer r = customer)
  && bool_decide (CustomerReward.reward_type r = CustomerReward.FREE_1GB_PLAN)
  && bool_decide (CustomerReward.milestone r = Some milestone).

Definition create_free_plan_reward (referrer milestone : Z) (store : option Z) (now : Z) : IO Z :=
  '(pk, r, created) ← get_or_create_reward (free_plan_reward_of referrer milestone)
      (new_reward referrer None CustomerReward.FREE_1GB_PLAN (Some milestone) now);
  if negb created && is_set (CustomerReward.plan r) then mret pk
  else
    plan ← get_or_create_free_referral_plan store;
    disc ← match CustomerReward.discount_code r with
           | Some dpk => mret dpk
           | None => d ← get_db;
                     create_discount_code (generate_unique_discount_code "FREE1GB" d) 100 {[ plan ]} now
           end;
    _ ← save_reward pk (r {{ CustomerReward.plan := Some plan;
                             CustomerReward.discount_code := Some disc;
                             CustomerReward.status := CustomerReward.AVAILABLE;
                             CustomerReward.earned_at := or_opt (CustomerReward.earned_at r) (Some now) }});
    mret pk.

(** ** A purchase *)

Definition is_successful (o : Order.order) : bool :=
  bool_decide (Order.status o = Order.COMPLETED)
  && bool_decide (Order.verification_status o = Order.V_VERIFIED).

(** The referral of an invited customer, created when missing. *)
Definition ensure_referral (cpk : Z) (c : Customer.customer) (referrer : Z) (code : string)
    : IO (Z * Referral.referral) :=
  d ← get_db;
  match referral_of_customer cpk d with
  | Some (pk, r) => mret (pk, r)
  | None =>
      let pk := next_pk (referrals d) in
      let r := {| Referral.referrer := referrer; Referral.referred_customer := cpk;
                  Referral.referral_code := code; Referral.status := Referral.REGISTERED;
                  Referral.first_order := None; Referral.purchased_at := None |} in
      _ ← put_db (fun d => d {{ referrals ::= insert pk r }}); mret (pk, r)
  end.

Definition mark_purchased (rpk order now : Z) (r : Referral.referral) : IO Referral.referral :=
  let r' := r {{ Referral.status := Referral.PURCHASED;
                 Referral.first_order := Some order; Referral.purchased_at := Some now }} in
  _ ← put_db (fun d => d {{ referrals ::= insert rpk r' }}); mret r'.

Definition reward_first_purchase (rpk : Z) (r : Referral.referral) (opk now : Z) : IO (list Z) :=
  if bool_decide (Referral.status r = Referral.PURCHASED) then mret []
  else
    r' ← mark_purchased rpk opk now r;
    pk ← create_referral_discount_reward rpk r' now;
    mret [pk].

Definition successful_count (referrer : Z) (d : DB) : Z :=
  count_where (fun _ r => bool_decide (Referral.referrer r = referrer)
                          && bool_decide (Referral.status r = Referral.PURCHASED)) (referrals d).

Definition process_referral_purchase (opk : Z) (o : Order.order) (now : Z) : IO (list Z) :=
  if negb (is_set (Order.customer o)) || negb (is_successful o) then mret []
  else
    d ← get_db;
    match Order.customer o ≫= fun cpk => (fun c => (cpk, c)) <$> customers d !! cpk with
    | None => mret []
    | Some (cpk, c) =>
        match Customer.referred_by c with
        | None => mret []
        | Some referrer => atomic (
            '(rpk, r) ← ensure_referral cpk c referrer (Customer.referral_code_used c);
            first ← reward_first_purchase rpk r opk now;
            d ← get_db;
            let n := successful_count (Referral.referrer r) d in
            if (0 <? n) && (n mod FREE_PLAN_REFERRAL_MILESTONE =? 0)
            then pk ← create_free_plan_reward (Referral.referrer r) n (Order.store o) now;
                 mret (first ++ [pk])%list
            else mret first)
        end
    end.
End Referrals.

(** ** What the programme guarantees *)

Section Theorems.
Context `{Env}.

(** Tables a reward does not touch. *)
Definition reward_frame (w w' : World) : Prop :=
  referrals (db w') = referrals (db w) /\ customers (db w') = customers (db w).

Lemma get_or_create_reward_inv p fresh w pk r created w' :
  (forall k, p k fresh = true) ->
  get_or_create_reward p fresh w = (Ret (pk, r, created), w') ->
  first_where p (rewards (db w')) = Some (pk, r) /\
  (created = false -> w' = w) /\ reward_frame w w'.
Proof.
  unfold get_or_create_reward, save_reward, reward_frame. run_io. intros Hp Hw.
  destruct (first_where p (rewards (db w))) as [[k v]|] eqn:E.
  - injection Hw as <- <- <- <-. done.
  - injection Hw as <- <- <- <-. cbn. split; [|done].
    by apply first_where_insert_fresh.
Qed.

Lemma create_discount_code_frame code v ps now w r w' :
  create_discount_code code v ps now w = (r, w') ->
  reward_frame w w' /\ rewards (db w') = rewards (db w).
Proof.
  unfold create_discount_code. run_io. destruct (code_exists _ _); intros [= <- <-]; done.
Qed.

Lemma free_plan_frame store w r w' :
  get_or_create_free_referral_plan store w = (r, w') ->
  reward_frame w w' /\ rewards (db w') = rewards (db w).
Proof.
  unfold get_or_create_free_referral_plan. run_io.
  destruct (first_where _ _) as [[pk p]|]; intros [= <- <-]; done.
Qed.

Lemma frame_trans w1 w2 w3 : reward_frame w1 w2 -> reward_frame w2 w3 -> reward_frame w1 w3.
Proof. unfold reward_frame. intros [] []; split; congruence. Qed.

Lemma create_referral_discount_reward_frame rpk rf now w pk w' :
  create_referral_discount_reward rpk rf now w = (Ret pk, w') -> reward_frame w w'.
Proof.
  unfold create_referral_discount_reward. run_io.
  destruct (get_or_create_reward _ _ w) as [[[[k r] cr]|] w1] eqn:E; [|done].
  apply get_or_create_reward_inv in E as (_ & _ & Hf).
  2: { intros. unfold discount_reward_of, new_reward. cbn. by rewrite !bool_decide_true. }
  destruct (_ && _); [intros [= <- <-]; done|].
  destruct (create_discount_code _ _ _ _ _) as [[dpk|] w2] eqn:E2; [|done].
  apply create_discount_code_frame in E2 as [Hf2 _].
  unfold save_reward. run_io. intros [= <- <-].
  by apply (frame_trans _ _ _ Hf), (frame_trans _ _ _ Hf2).
Qed.

(** After a free plan reward has been created, its row is complete. *)
Lemma create_free_plan_reward_inv referrer n store now w pk w' :
  create_free_plan_reward referrer n store now w = (Ret pk, w') ->
  reward_frame w w' /\
  exists r, first_where (free_plan_reward_of referrer n) (rewards (db w')) = Some (pk, r)
            /\ is_set (CustomerReward.plan r) = true.
Proof.
  unfold create_free_plan_reward. run_io.
  destruct (get_or_create_reward _ _ w) as [[[[k r] cr]|] w1] eqn:E; [|done].
  apply get_or_create_reward_inv in E as (Hfirst & Hnew & Hf).
  2: { intros. unfold free_plan_reward_of, new_reward. cbn. by rewrite !bool_decide_true. }
  destruct (_ && _) eqn:Hdone.
  { apply andb_true_iff in Hdone as [_ Hplan]. intros [= <- <-]. eauto. }
  destruct (get_or_create_free_referral_plan store w1) as [[plan|] w2] eqn:E2; [|done].
  apply free_plan_frame in E2 as [Hf2 Hr2].
  assert (Hsame : forall v, rewards (db v) = rewards (db w2) ->
    first_where (free_plan_reward_of referrer n) (rewards (db v)) = Some (k, r)) by (intros; congruence).
  assert (Hp : forall k2 plan disc, free_plan_reward_of referrer n k2
     (r {{ CustomerReward.plan := plan; CustomerReward.discount_code := disc;
           CustomerReward.status := CustomerReward.AVAILABLE;
           CustomerReward.earned_at := or_opt (CustomerReward.earned_at r) (Some now) }}) = true).
  { intros. apply first_where_Some in Hfirst as (_ & Hp & _). exact Hp. }
  destruct (CustomerReward.discount_code r) as [dpk|].
  - unfold save_reward. run_io. intros [= <- <-].
    split; [by apply (frame_trans _ _ _ Hf), (frame_trans _ _ _ Hf2)|].
    eexists. split; [eapply first_where_insert_same; [by apply Hsame|apply Hp]|done].
  - destruct (create_discount_code _ _ _ _ _) as [[dpk|] w3] eqn:E3; [|done].
    apply create_discount_code_frame in E3 as [Hf3 Hr3].
    unfold save_reward. run_io. intros [= <- <-].
    split; [by apply (frame_trans _ _ _ Hf), (frame_trans _ _ _ Hf2), (frame_trans _ _ _ Hf3)|].
    eexists. split; [eapply first_where_insert_same; [by apply Hsame|apply Hp]|done].
Qed.

Lemma create_free_plan_reward_again referrer n store now w pk r :
  first_where (free_plan_reward_of referrer n) (rewards (db w)) = Some (pk, r) ->
  is_set (CustomerReward.plan r) = true ->
  create_free_plan_reward referrer n store now w = (Ret pk, w).
Proof.
  intros Hf Hp. unfold create_free_plan_reward, get_or_create_reward. run_io.
  rewrite Hf. cbn. by rewrite Hp.
Qed.

Lemma ensure_referral_inv cpk c rf code w rpk r w' :
  ensure_referral cpk c rf code w = (Ret (rpk, r), w') ->
  referral_of_customer cpk (db w') = Some (rpk, r) /\ customers (db w') = customers (db w).
Proof.
  unfold ensure_referral. run_io.
  destruct (referral_of_customer cpk (db w)) as [[k v]|] eqn:E; intros [= <- <- <-]; [done|].
  cbn. split; [|done]. apply first_where_insert_fresh; [done|].
  cbn. by apply bool_decide_true.
Qed.

Lemma ensure_referral_again cpk c rf code w rpk r :
  referral_of_customer cpk (db w) = Some (rpk, r) ->
  ensure_referral cpk c rf code w = (Ret (rpk, r), w).
Proof. intros E. unfold ensure_referral. run_io. by rewrite E. Qed.

Lemma mark_purchased_inv cpk rpk opk now r w r' w' :
  referral_of_customer cpk (db w) = Some (rpk, r) ->
  mark_purchased rpk opk now r w = (Ret r', w') ->
  referral_of_customer cpk (db w') = Some (rpk, r') /\ customers (db w') = customers (db w)
  /\ Referral.status r' = Referral.PURCHASED /\ Referral.referrer r' = Referral.referrer r.
Proof.
  intros E. unfold mark_purchased. run_io. intros [= <- <-].
  split; [|done]. eapply first_where_insert_same; [exact E|].
  by apply first_where_Some in E as (_ & Hp & _).
Qed.

Lemma reward_first_purchase_inv cpk rpk r opk now w first w' :
  referral_of_customer cpk (db w) = Some (rpk, r) ->
  reward_first_purchase rpk r opk now w = (Ret first, w') ->
  exists r', referral_of_customer cpk (db w') = Some (rpk, r') /\
    customers (db w') = customers (db w) /\
    Referral.status r' = Referral.PURCHASED /\ Referral.referrer r' = Referral.referrer r.
Proof.
  intros E. unfold reward_first_purchase. case_bool_decide as Hst.
  { intros [= <- <-]. exists r. done. }
  run_io. destruct (mark_purchased rpk opk now r w) as [[r'|] v] eqn:E2; [|done].
  apply (mark_purchased_inv cpk) in E2 as (? & ? & ? & ?); [|done].
  destruct (create_referral_discount_reward rpk r' now v) as [[pk|] v2] eqn:E3; [|done].
  apply create_referral_discount_reward_frame in E3 as [Hr3 Hc3].
  intros [= <- <-]. exists r'. unfold referral_of_customer in *. repeat split; congruence.
Qed.

Lemma reward_first_purchase_again rpk r opk now w :
  Referral.status r = Referral.PURCHASED -> reward_first_purchase rpk r opk now w = (Ret [], w).
Proof. intros Hst. unfold reward_first_purchase. by rewrite bool_decide_true. Qed.

(** Rewards change customers, referrals, rewards, codes and the free plan,
    and nothing else. *)
Lemma process_referral_purchase_frame opk o now :
  respects (keeps service_view) (process_referral_purchase opk o now).
Proof.
  unfold process_referral_purchase, ensure_referral, reward_first_purchase, mark_purchased,
    create_referral_discount_reward, create_free_plan_reward, get_or_create_reward,
    get_or_create_free_referral_plan, create_discount_code, save_reward.
  walk; done.
Qed.

(** Saving a completed order any number of times rewards its purchase
    once: when the signal has run, running it again (at any later time)
    changes nothing - no second 20% code, no second free plan. *)
Theorem process_referral_purchase_idempotent opk o now now' w l w1 :
  process_referral_purchase opk o now w = (Ret l, w1) ->
  exists l', process_referral_purchase opk o now' w1 = (Ret l', w1).
Proof.
  unfold process_referral_purchase.
  destruct (_ || _); [intros [= <- <-]; by eexists|].
  destruct (Order.customer o) as [cpk|]; [|intros [= <- <-]; by eexists].
  run_io. cbn [option_bind mbind]. intros Hrun.
  destruct (customers (db w) !! cpk) as [c|] eqn:Ec; cbn in Hrun |- *.
  2: { injection Hrun as <- <-. rewrite Ec. by eexists. }
  destruct (Customer.referred_by c) as [rf|] eqn:Erf.
  2: { injection Hrun as <- <-. rewrite Ec. cbn. rewrite Erf. by eexists. }
  run_io_in Hrun.
  destruct (ensure_referral cpk c rf _ w) as [[[rpk r]|] v1] eqn:E1; [|done].
  apply ensure_referral_inv in E1 as [Href1 Hc1].
  destruct (reward_first_purchase rpk r opk now v1) as [[first|] v2] eqn:E2; [|done].
  apply (reward_first_purchase_inv cpk) in E2 as (r' & Href2 & Hc2 & Hst & Hrf); [|done].
  rewrite Hc1 in Hc2.
  assert (Hrerun : forall v, referral_of_customer cpk (db v) = Some (rpk, r') ->
    ensure_referral cpk c rf (Customer.referral_code_used c) v = (Ret (rpk, r'), v))
    by (intros; by apply ensure_referral_again).
  destruct (_ && _) eqn:Hmile.
  - destruct (create_free_plan_reward _ _ _ _ v2) as [[pk|] v3] eqn:E4; [|done].
    injection Hrun as <- <-.
    apply create_free_plan_reward_inv in E4 as ([Hr4 Hc4] & rw & Hrw & Hplan).
    rewrite Hc4, Hc2, Ec. cbn. rewrite Erf.
    assert (Href4 : referral_of_customer cpk (db v3) = Some (rpk, r'))
      by (unfold referral_of_customer in *; congruence).
    rewrite (Hrerun _ Href4). rewrite (reward_first_purchase_again _ _ _ _ _ Hst).
    unfold successful_count in *. rewrite Hr4, Hrf, Hmile.
    rewrite (create_free_plan_reward_again _ _ _ _ _ _ _ Hrw Hplan). by eexists.
  - injection Hrun as <- <-. rewrite Hc2, Ec. cbn. rewrite Erf.
    rewrite (Hrerun _ Href2), (reward_first_purchase_again _ _ _ _ _ Hst), Hrf, Hmile. by eexists.
Qed.
End Theorems.

(** Customer 101's order is completed: the inviter earns one reward, and
    processing the purchase again earns nothing more. *)
Lemma process_referral_purchase_idempotent_witness :
  let o := (sample_order 10) {{ Order.status := Order.COMPLETED; Order.verification_status := Order.V_VERIFIED }} in
  let w1 := (@process_referral_purchase sample_env 1000 o 5 sample_shop).2 in
  size (rewards (db w1)) = 1%nat /\
  exists l', @process_referral_purchase sample_env 1000 o 9 w1 = (Ret l', w1).
Proof.
  intros o w1. split; [vm_compute; reflexivity|].
  apply (@process_referral_purchase_idempotent sample_env 1000 o 5 9 sample_shop [1] w1).
  vm_compute. reflexivity.
Defined.

#[export] Hint Resolve process_referral_purchase_frame : frames.
