(* ===== verification/OrderStore.v ===== *)
(** Writing orders: [Order.save] (src/store/models.py) with its post_save
    signal (src/store/signals.py), and what every save guarantees about the
    amounts of an order. *)

From S2P Require Import Prelude Models World Referrals.
Import Order.

Section OrderStore.
Context `{Env}.

(** [order.save(update_fields=fields)]; returns the instance as [save] left
    it.  The signal runs on that instance, inside the caller's transaction. *)
Definition save_order (pk : Z) (o : order) (fields : list field) (now : Z) : IO order :=
  p ← get_plan (plan o);
  let '(o', changed) := prepare_save p now (localdate_tehran now) o in
  row ← get_order pk;
  _ ← put_db (fun d => d {{ orders ::= insert pk (write_fields (fields ++ changed) now o' row) }});
  _ ← process_referral_purchase pk o' now;
  mret (o' {{ updated_at := now }}).

(** [order.save()] of an existing row: every column. *)
Definition save_order_full (pk : Z) (o : order) (now : Z) : IO order :=
  p ← get_plan (plan o);
  let o' := (prepare_save p now (localdate_tehran now) o).1 {{ updated_at := now }} in
  _ ← put_db (fun d => d {{ orders ::= insert pk o' }});
  _ ← process_referral_purchase pk o' now;
  mret o'.

(** [Order(...).save()] of a new row; returns its key and the instance. *)
Definition create_order (o : order) (now : Z) : IO (Z * order) :=
  d ← get_db;
  let pk := next_pk (orders d) in
  o' ← save_order_full pk o now;
  mret (pk, o').
End OrderStore.

(** ** Amounts *)

(** What the order costs, what was taken off and what is due agree. *)
Definition amounts_balance (o : order) : Prop :=
  0 <= discount_amount o <= original_amount o /\
  amount o = original_amount o - discount_amount o.

(** Before a save the amount due may still be unset. *)
Definition amounts_coherent (o : order) : Prop :=
  0 <= discount_amount o <= original_amount o /\
  (amount o = original_amount o - discount_amount o \/ (amount o = 0 /\ discount_amount o = 0)).

Definition priced (p : Plan.plan) (o : order) : Prop := 0 <= Plan.price p /\ 0 <= quantity o.

Lemma subtotal_nonneg p o : priced p o -> 0 <= subtotal_amount p o.
Proof. intros [? ?]. unfold subtotal_amount. destruct (Z.eqb_spec (quantity o) 0); nia. Qed.

(** The operations that move an order's amounts. *)
Inductive amount_step (p : Plan.plan) : order -> order -> Prop :=
| step_discount o code d source label :
    0 <= d -> amount_step p o (apply_discount p code d source label o)
| step_wholesale o percent :
    amount_step p o (apply_wholesale_discount p percent o)
| step_save o now today :
    amount_step p o (prepare_save p now today o).1.

Lemma apply_discount_balance p code d source label o :
  0 <= d -> 0 <= original_amount o -> priced p o ->
  amounts_balance (apply_discount p code d source label o).
Proof.
  intros Hd Ho Hp%subtotal_nonneg. unfold amounts_balance, apply_discount, or_amount.
  cbn -[subtotal_amount].
  destruct (original_amount o =? 0); lia.
Qed.

Lemma assign_keep {A} (g : order -> A) c fs f s :
  (forall o, g (f o) = g o) -> g (assign c fs f s).1 = g s.1.
Proof. unfold assign. destruct c; cbn; auto. Qed.

Lemma assign_fst c fs f s : (assign c fs f s).1 = if c then f s.1 else s.1.
Proof. by destruct c. Qed.

(** A column that none of [save]'s assignments touches. *)
Ltac keep := repeat (rewrite assign_keep; [|done]).

Lemma prepare_save_amounts p now today o :
  let o' := (prepare_save p now today o).1 in
  quantity o' = quantity o /\ discount_amount o' = discount_amount o /\
  original_amount o' = or_amount (original_amount o) (subtotal_amount p o) /\
  amount o' = (if (amount o =? 0) && (discount_amount o =? 0)
               then or_amount (original_amount o') (subtotal_amount p o) else amount o).
Proof.
  unfold prepare_save.
  set (s1 := assign _ [F_status] _ _). set (s2 := assign _ [F_store] _ _).
  set (s3 := assign _ [F_original_amount] _ _). set (s4 := assign _ [F_amount] _ _).
  assert (Hq : quantity s2.1 = quantity o) by (subst s1 s2; by keep).
  assert (Hd : discount_amount s3.1 = discount_amount o) by (subst s1 s2 s3; by keep).
  assert (Ha : amount s3.1 = amount o) by (subst s1 s2 s3; by keep).
  assert (Ho2 : original_amount s2.1 = original_amount o) by (subst s1 s2; by keep).
  assert (Hs2 : subtotal_amount p s2.1 = subtotal_amount p o)
    by (unfold subtotal_amount; by rewrite Hq).
  assert (Ho3 : original_amount s3.1 = or_amount (original_amount o) (subtotal_amount p o)).
  { subst s3. rewrite assign_fst, Ho2. unfold or_amount.
    destruct (original_amount o =? 0); cbn -[subtotal_amount]; congruence. }
  assert (Hs3 : subtotal_amount p s3.1 = subtotal_amount p o).
  { rewrite <- Hs2. subst s3. unfold subtotal_amount. by keep. }
  clearbody s1 s2. cbv zeta. repeat split.
  - keep. subst s4. keep. subst s3. by keep.
  - keep. subst s4. by keep.
  - keep. subst s4. by keep.
  - keep. subst s4. keep. rewrite assign_fst, Ha, Hd.
    destruct (_ && _); [|done]. cbn -[subtotal_amount]. by rewrite Ho3, Hs3.
Qed.

Lemma balance_coherent o : amounts_balance o -> amounts_coherent o.
Proof. unfold amounts_balance, amounts_coherent. tauto. Qed.

Lemma prepare_save_balance p now today o :
  priced p o -> amounts_coherent o -> amounts_balance (prepare_save p now today o).1.
Proof.
  intros Hs%subtotal_nonneg Hb.
  destruct (prepare_save_amounts p now today o) as (_ & Hd & Ho & Ha).
  unfold amounts_balance, amounts_coherent in *. rewrite Ha, Hd, Ho. unfold or_amount.
  destruct (Z.eqb_spec (original_amount o) 0), (Z.eqb_spec (amount o) 0),
    (Z.eqb_spec (discount_amount o) 0); cbn [andb]; try lia.
  all: destruct (Z.eqb_spec (subtotal_amount p o) 0), (Z.eqb_spec (original_amount o) 0); lia.
Qed.

Lemma apply_wholesale_coherent p percent o :
  priced p o -> amounts_coherent o -> amounts_coherent (apply_wholesale_discount p percent o).
Proof.
  intros Hp Hb. assert (Hs := subtotal_nonneg _ _ Hp).
  unfold apply_wholesale_discount. set (orig := or_amount _ _).
  assert (0 <= orig /\ (original_amount o <> 0 -> orig = original_amount o)) as [Ho Hsame].
  { unfold orig, or_amount, amounts_coherent in *.
    destruct (Z.eqb_spec (original_amount o) 0); split; lia. }
  destruct (clamp100 percent =? 0).
  - unfold amounts_coherent in *. cbn.
    destruct (Z.eq_dec (original_amount o) 0) as [E|E]; [|specialize (Hsame E)]; lia.
  - apply balance_coherent, apply_discount_balance; [|exact Ho|exact Hp].
    apply Discounts.percent_share_bounds; [done|]. unfold clamp100. lia.
Qed.

Lemma amount_step_coherent p o o' :
  amount_step p o o' -> priced p o -> amounts_coherent o -> priced p o' /\ amounts_coherent o'.
Proof.
  destruct 1 as [o code d source label Hd|o percent|o now today]; intros Hp Hb.
  - split; [exact Hp|]. apply balance_coherent, apply_discount_balance; [done| |done].
    unfold amounts_coherent in Hb. lia.
  - split; [|by apply apply_wholesale_coherent].
    unfold apply_wholesale_discount. by destruct (_ =? 0).
  - split; [|by apply balance_coherent, prepare_save_balance].
    destruct (prepare_save_amounts p now today o) as (Hq & _). unfold priced in *. by rewrite Hq.
Qed.

(** C38: Whatever discounts and saves an order goes through, each save leaves
    its amounts in agreement: the discount is between zero and the price, and
    the amount due is exactly price minus discount. *)
Theorem saved_order_amounts_balance p o o' now today :
  rtc (amount_step p) o o' -> priced p o -> amounts_coherent o ->
  amounts_balance (prepare_save p now today o').1.
Proof.
  induction 1 as [o|o1 o2 o3 Hstep _ IH]; intros Hp Hc.
  - by apply prepare_save_balance.
  - destruct (amount_step_coherent _ _ _ Hstep Hp Hc). auto.
Qed.

Lemma saved_order_amounts_balance_witness :
  let o := (blank_order "id" "t1" 1 0) {{ quantity := 3 }} in
  let o' := (prepare_save sample_plan 5 0
               (apply_wholesale_discount sample_plan 10 o)).1 in
  amounts_balance o' /\ amount o' = 270000 /\ discount_code_text o' = "WHOLESALE 10%".
Proof.
  split; [|split; reflexivity].
  apply (saved_order_amounts_balance _ ((blank_order "id" "t1" 1 0) {{ quantity := 3 }})).
  - apply rtc_once, step_wholesale.
  - split; easy.
  - split; [easy|]. right. easy.
Defined.

(** ** What a save writes *)

#[global] Instance field_eq_dec : EqDecision field.
Proof. solve_decision. Defined.

(** A column named in [update_fields] is taken from the instance, another one
    keeps the row's value. *)
Ltac written fs :=
  induction fs as [|f fs IH]; [done|]; cbn [write_fields foldr] in *; unfold write_fields in *;
  destruct f; cbn [copy_field];
  first [ rewrite bool_decide_true by apply list_elem_of_here; reflexivity
        | cbn in *; rewrite IH; apply f_equal3; [|done..];
          apply bool_decide_ext; rewrite elem_of_cons; intuition discriminate ].

Definition pick {A} (b : bool) (x y : A) : A := if b then x else y.

Lemma write_status fs now src row :
  status (write_fields fs now src row) = pick (bool_decide (F_status ∈ fs)) (status src) (status row).
Proof. written fs. Qed.

Lemma write_verification_status fs now src row :
  verification_status (write_fields fs now src row) =
  pick (bool_decide (F_verification_status ∈ fs)) (verification_status src) (verification_status row).
Proof. written fs. Qed.

Lemma write_provisioning_status fs now src row :
  provisioning_status (write_fields fs now src row) =
  pick (bool_decide (F_provisioning_status ∈ fs)) (provisioning_status src) (provisioning_status row).
Proof. written fs. Qed.

Lemma write_last_error fs now src row :
  last_provisioning_error (write_fields fs now src row) =
  pick (bool_decide (F_last_provisioning_error ∈ fs)) (last_provisioning_error src) (last_provisioning_error row).
Proof. written fs. Qed.

Lemma write_is_paid fs now src row :
  is_paid (write_fields fs now src row) = pick (bool_decide (F_is_paid ∈ fs)) (is_paid src) (is_paid row).
Proof. written fs. Qed.

Lemma write_metadata fs now src row :
  metadata (write_fields fs now src row) =
  pick (bool_decide (F_metadata ∈ fs)) (metadata src) (metadata row).
Proof. written fs. Qed.

Lemma write_quantity fs now src row : quantity (write_fields fs now src row) = quantity row.
Proof. unfold write_fields. induction fs as [|[] fs IH]; [done|exact IH..]. Qed.

Lemma write_plan fs now src row : plan (write_fields fs now src row) = plan row.
Proof. unfold write_fields. induction fs as [|[] fs IH]; [done|exact IH..]. Qed.

(** Writing all the columns an instance has no unsaved change in is harmless. *)
Lemma prepare_save_status p now today o :
  status (prepare_save p now today o).1 =
  if bool_decide (status o = LEGACY_PENDING) then PENDING_VERIFICATION else status o.
Proof. unfold prepare_save. cbv zeta. keep. rewrite assign_fst. by case_bool_decide. Qed.

(** Columns that [save] itself never computes. *)
Lemma prepare_save_keeps {A} (g : order -> A) p now today o :
  (forall o v, g (o {{ status := v }}) = g o) -> (forall o v, g (o {{ store := v }}) = g o) ->
  (forall o v, g (o {{ original_amount := v }}) = g o) -> (forall o v, g (o {{ amount := v }}) = g o) ->
  (forall o v, g (o {{ currency := v }}) = g o) ->
  (forall o v, g (o {{ payment_submitted_at := v }}) = g o) ->
  (forall o v, g (o {{ payment_date := v }}) = g o) ->
  g (prepare_save p now today o).1 = g o.
Proof. intros H1 H2 H3 H4 H5 H6 H7. unfold prepare_save. cbv zeta. by keep. Qed.

Section Saving.
Context `{Env}.

Lemma process_referral_orders opk o now w r w' :
  process_referral_purchase opk o now w = (r, w') -> service_view w' = service_view w.
Proof. apply process_referral_purchase_frame. Qed.

(** The row a save leaves. *)
Definition saved_row (o : order) (fs : list field) (p : Plan.plan) (now : Z) (row : order) : order :=
  let s := prepare_save p now (localdate_tehran now) o in write_fields (fs ++ s.2) now s.1 row.

(** The instance it leaves. *)
Definition saved_instance (o : order) (p : Plan.plan) (now : Z) : order :=
  (prepare_save p now (localdate_tehran now) o).1 {{ updated_at := now }}.

#[global] Arguments saved_row : simpl never.
#[global] Arguments saved_instance : simpl never.

(** The columns [save] may add, and when it adds the status. *)
Lemma assign_changed c fs g (s : order * list field) (f : field) :
  f ∈ (assign c fs g s).2 -> f ∈ s.2 \/ (c = true /\ f ∈ fs).
Proof. destruct c; cbn; [|auto]. intros [?|?]%elem_of_app; auto. Qed.

Lemma prepare_changed p now today o f :
  f ∈ (prepare_save p now today o).2 ->
  (f = F_status /\ status o = LEGACY_PENDING) \/
  f ∈ [F_store; F_original_amount; F_amount; F_currency; F_payment_submitted_at; F_payment_date].
Proof.
  unfold prepare_save. cbv zeta. intros Hf.
  repeat (apply assign_changed in Hf as [Hf|[Hc Hf%list_elem_of_singleton]];
    [|try (right; subst f; repeat constructor; fail)]).
  - cbn in Hf. by apply not_elem_of_nil in Hf.
  - left. by apply bool_decide_eq_true in Hc.
Qed.

(** A column named in the save has the instance's value... *)
Lemma saved_metadata o fs p now row :
  F_metadata ∈ fs -> metadata (saved_row o fs p now row) = metadata o.
Proof.
  intros Hf. unfold saved_row. rewrite write_metadata, bool_decide_true by (apply elem_of_app; auto).
  by apply prepare_save_keeps.
Qed.

Lemma saved_is_paid o fs p now row :
  F_is_paid ∈ fs -> is_paid (saved_row o fs p now row) = is_paid o.
Proof.
  intros Hf. unfold saved_row. rewrite write_is_paid, bool_decide_true by (apply elem_of_app; auto).
  by apply prepare_save_keeps.
Qed.

Lemma saved_verification_status o fs p now row :
  F_verification_status ∈ fs -> verification_status (saved_row o fs p now row) = verification_status o.
Proof.
  intros Hf. unfold saved_row.
  rewrite write_verification_status, bool_decide_true by (apply elem_of_app; auto).
  by apply prepare_save_keeps.
Qed.

Lemma saved_provisioning_status o fs p now row :
  F_provisioning_status ∈ fs -> provisioning_status (saved_row o fs p now row) = provisioning_status o.
Proof.
  intros Hf. unfold saved_row.
  rewrite write_provisioning_status, bool_decide_true by (apply elem_of_app; auto).
  by apply prepare_save_keeps.
Qed.

Lemma saved_status o fs p now row :
  F_status ∈ fs -> status o <> LEGACY_PENDING -> status (saved_row o fs p now row) = status o.
Proof.
  intros Hf Hl. unfold saved_row. rewrite write_status, bool_decide_true by (apply elem_of_app; auto).
  cbn [pick]. rewrite prepare_save_status. by rewrite bool_decide_false.
Qed.

(** ... and another keeps the row's. *)
Lemma saved_status_kept o fs p now row :
  F_status ∉ fs -> status o <> LEGACY_PENDING -> status (saved_row o fs p now row) = status row.
Proof.
  intros Hf Hl. unfold saved_row. rewrite write_status, bool_decide_false; [done|].
  rewrite elem_of_app. intros [?|[[_ ?]|Hc]%prepare_changed]; [done..|].
  repeat (apply elem_of_cons in Hc as [?|Hc]; [done|]). by apply not_elem_of_nil in Hc.
Qed.

Lemma saved_verification_status_kept o fs p now row :
  F_verification_status ∉ fs -> verification_status (saved_row o fs p now row) = verification_status row.
Proof.
  intros Hf. unfold saved_row. rewrite write_verification_status, bool_decide_false; [done|].
  rewrite elem_of_app. intros [?|[[? _]|Hc]%prepare_changed]; [done..|].
  repeat (apply elem_of_cons in Hc as [?|Hc]; [done|]). by apply not_elem_of_nil in Hc.
Qed.

Lemma saved_is_paid_kept o fs p now row :
  F_is_paid ∉ fs -> is_paid (saved_row o fs p now row) = is_paid row.
Proof.
  intros Hf. unfold saved_row. rewrite write_is_paid, bool_decide_false; [done|].
  rewrite elem_of_app. intros [?|[[? _]|Hc]%prepare_changed]; [done..|].
  repeat (apply elem_of_cons in Hc as [?|Hc]; [done|]). by apply not_elem_of_nil in Hc.
Qed.

Lemma saved_quantity o fs p now row : quantity (saved_row o fs p now row) = quantity row.
Proof. apply write_quantity. Qed.

Lemma saved_instance_quantity o p now : quantity (saved_instance o p now) = quantity o.
Proof. unfold saved_instance. by apply prepare_save_keeps. Qed.

Lemma touch_status o now : status (o {{ updated_at := now }}) = status o.
Proof. reflexivity. Qed.
Lemma saved_instance_status o p now :
  status (saved_instance o p now) = if bool_decide (status o = LEGACY_PENDING) then PENDING_VERIFICATION else status o.
Proof. unfold saved_instance. by rewrite touch_status, prepare_save_status. Qed.

Lemma saved_instance_verification o p now : verification_status (saved_instance o p now) = verification_status o.
Proof. unfold saved_instance. rewrite <- (prepare_save_keeps verification_status p now (localdate_tehran now) o) by done. by destruct (prepare_save p now (localdate_tehran now) o).1. Qed.
Lemma saved_instance_provisioning o p now : provisioning_status (saved_instance o p now) = provisioning_status o.
Proof. unfold saved_instance. rewrite <- (prepare_save_keeps provisioning_status p now (localdate_tehran now) o) by done. by destruct (prepare_save p now (localdate_tehran now) o).1. Qed.
Lemma saved_instance_sub_link o p now : sub_link (saved_instance o p now) = sub_link o.
Proof. unfold saved_instance. rewrite <- (prepare_save_keeps sub_link p now (localdate_tehran now) o) by done. by destruct (prepare_save p now (localdate_tehran now) o).1. Qed.
Lemma saved_instance_public_id o p now : public_id (saved_instance o p now) = public_id o.
Proof. unfold saved_instance. rewrite <- (prepare_save_keeps public_id p now (localdate_tehran now) o) by done. by destruct (prepare_save p now (localdate_tehran now) o).1. Qed.
Lemma saved_instance_tracking o p now : order_tracking_code (saved_instance o p now) = order_tracking_code o.
Proof. unfold saved_instance. rewrite <- (prepare_save_keeps order_tracking_code p now (localdate_tehran now) o) by done. by destruct (prepare_save p now (localdate_tehran now) o).1. Qed.

(** However a save ends, either nothing happened or the row is written; apart
    from the reward programme nothing else changed. *)
Lemma save_order_any opk o fs now w r w' :
  save_order opk o fs now w = (r, w') ->
  (w' = w /\ is_ret r = false) \/
  exists p row, plans (db w) !! plan o = Some p /\ orders (db w) !! opk = Some row /\
    service_view w' = service_view (w {{ db -> orders ::= insert opk (saved_row o fs p now row) }}) /\
    match r with Ret o' => o' = saved_instance o p now | Raise _ => True end.
Proof.
  unfold save_order. run_io. unfold get_plan, get_order. run_io.
  destruct (plans (db w) !! plan o) as [p|]; [|intros [= <- <-]; by left].
  destruct (prepare_save p now _ o) as [o1 changed] eqn:Ep. cbn [fst snd].
  destruct (orders (db w) !! opk) as [row|]; [|intros [= <- <-]; by left].
  destruct (process_referral_purchase _ _ _ _) as [[l|e] w2] eqn:E; intros [= <- <-]; right;
    apply process_referral_orders in E; exists p, row; unfold saved_row, saved_instance; by rewrite Ep.
Qed.

(** A save that returns has written the row and touched nothing else that
    serves customers. *)
Lemma save_order_inv opk o fs now w o' w' :
  save_order opk o fs now w = (Ret o', w') ->
  exists p row, plans (db w) !! plan o = Some p /\ orders (db w) !! opk = Some row /\
    o' = saved_instance o p now /\
    service_view w' = service_view (w {{ db -> orders ::= insert opk (saved_row o fs p now row) }}).
Proof.
  intros [[_ Hf]|(p & row & Hp & Hrow & Hv & ->)]%save_order_any; [done|]. by exists p, row.
Qed.

Lemma save_order_full_inv pk o now w o' w' :
  save_order_full pk o now w = (Ret o', w') ->
  exists p, plans (db w) !! plan o = Some p /\
    o' = ((prepare_save p now (localdate_tehran now) o).1 {{ updated_at := now }}) /\
    service_view w' = service_view (w {{ db -> orders ::= insert pk o' }}).
Proof.
  unfold save_order_full. run_io. unfold get_plan. run_io.
  destruct (plans (db w) !! plan o) as [p|]; [|done].
  destruct (process_referral_purchase _ _ _ _) as [[l|e] w2] eqn:E; [|done].
  intros [-> ->]%run_Ret_inj. apply process_referral_orders in E. by exists p.
Qed.

(** Whatever happens in a save, only the orders table may change. *)
Definition all_but_orders (w : World) :=
  (clients (db w), inbounds (db w), panels (db w), stores (db w), automations (db w),
   routes (db w), operators (db w), (ledgers (db w), side_tables (db w)), locks w, calls w).

#[global] Instance keeps_but_orders_undoable : Undoable (keeps all_but_orders).
Proof. intros w w'. unfold keeps, all_but_orders. cbn. congruence. Qed.

Lemma signal_but_orders opk o now : respects (keeps all_but_orders) (process_referral_purchase opk o now).
Proof.
  intros w r w' E%process_referral_orders. unfold keeps, all_but_orders, service_view in *. congruence.
Qed.

Lemma save_order_frame pk o fs now : respects (keeps all_but_orders) (save_order pk o fs now).
Proof.
  unfold save_order, get_plan, get_order.
  apply respects_bind; [apply _|apply respects_get_or_raise; apply _|intros p].
  destruct (prepare_save _ _ _ _).
  walk; auto using signal_but_orders; done.
Qed.

Lemma save_order_full_frame pk o now : respects (keeps all_but_orders) (save_order_full pk o now).
Proof. unfold save_order_full, get_plan. walk; auto using signal_but_orders; done. Qed.

Lemma create_order_frame o now : respects (keeps all_but_orders) (create_order o now).
Proof.
  unfold create_order. apply respects_bind; [apply _|apply respects_get_db; apply _|]. intros d.
  apply respects_bind; [apply _|apply save_order_full_frame|]. intros o'. walk.
Qed.
End Saving.

#[export] Hint Resolve save_order_frame save_order_full_frame create_order_frame signal_but_orders : frames.
