(* ===== verification/ReferralRewards.v ===== *)
(** The referral programme, second half (src/store/referral_services.py): the
    gift package of traffic and days an inviter earns per invited customer,
    its ledger, and its redemption onto one of the inviter's VPN clients. *)

From S2P Require Import Prelude Models World Numbers Referrals.
Import Ledger.

Section ReferralRewards.
Context `{Env}.

(** ** Granting *)

(** [store or active store or any store] *)
Definition get_referral_store (store : option Z) (d : DB) : option Store.store :=
  or_opt store (get_current_store d) ≫= fun pk => stores d !! pk.

Definition store_referral_reward_traffic_gb (st : Store.store) : Z :=
  Store.referral_reward_gb (Store.referral st).

Definition store_referral_reward_duration_days (st : Store.store) : Z :=
  Z.max (Store.referral_reward_duration_days (Store.referral st)) 0.

(** An automatic approval that no human has confirmed earns nothing. *)
Definition unconfirmed_auto_approval (opk : Z) (d : DB) : bool :=
  match automations d !! opk with
  | Some a => is_set (OrderAutomation.auto_approved_at a)
              && negb (bool_decide (OrderAutomation.review_status a = OrderAutomation.R_VERIFIED))
  | None => false
  end.

Definition has_previous_successful_order (customer opk : Z) (d : DB) : bool :=
  exists_where (fun k o => bool_decide (Order.customer o = Some customer) && is_successful o
                           && negb (bool_decide (k = opk))) (orders d).

Definition ledger_of_invited (invited : Z) (d : DB) : option (Z * referral_reward_ledger) :=
  first_where (fun _ l => bool_decide (Ledger.invited l = invited)) (ledgers d).

(** Inviter, invited customer and package when the order earns one. *)
Definition reward_due (opk : Z) (d : DB) : option (Z * Z * Customer.customer * Store.store) :=
  match orders d !! opk with
  | None => None
  | Some o =>
      match Order.customer o with
      | None => None
      | Some cpk =>
          if negb (is_successful o) || unconfirmed_auto_approval opk d then None
          else
            match customers d !! cpk, get_referral_store (Order.store o) d with
            | Some c, Some st =>
                match Customer.referred_by c with
                | None => None
                | Some inviter =>
                    if bool_decide (inviter = cpk)
                       || negb (Store.referral_system_enabled (Store.referral st))
                       || (store_referral_reward_traffic_gb st <=? 0)
                       || (store_referral_reward_duration_days st <=? 0)
                       || (Store.referral_min_order_required (Store.referral st)
                           && has_previous_successful_order cpk opk d)
                    then None
                    else Some (inviter, cpk, c, st)
                end
            | _, _ => None
            end
      end
  end.

(** The referral is created or marked purchased alongside the package. *)
Definition settle_referral (inviter invited : Z) (c : Customer.customer) (opk now : Z) : IO unit :=
  d ← get_db;
  let inviter_code := match customers d !! inviter with
                      | Some i => Customer.referral_code i | None => "" end in
  '(rpk, r) ← ensure_referral invited c inviter
                (or_str (Customer.referral_code_used c) inviter_code);
  if bool_decide (Referral.status r = Referral.PURCHASED) then mret tt
  else _ ← mark_purchased rpk opk now r; mret tt.

Definition create_referral_reward_for_order (opk now : Z) : IO (option Z) := atomic (
  _ ← get_order opk;
  d ← get_db;
  match reward_due opk d with
  | None => mret None
  | Some (inviter, invited, c, st) =>
      match ledger_of_invited invited d with
      | Some (lpk, _) => mret (Some lpk)
      | None =>
          _ ← settle_referral inviter invited c opk now;
          d ← get_db;
          let lpk := next_pk (ledgers d) in
          _ ← put_db (fun d => d {{ ledgers ::= insert lpk {|
                Ledger.inviter := inviter; Ledger.invited := invited; Ledger.order := opk;
                Ledger.reward_gb := store_referral_reward_traffic_gb st;
                Ledger.reward_duration_days := store_referral_reward_duration_days st;
                Ledger.status := AVAILABLE; Ledger.redeemed_config := None;
                Ledger.available_at := Some now; Ledger.redeemed_at := None;
                Ledger.applied_traffic_gb := 0; Ledger.applied_duration_days := 0;
                Ledger.created_at := now |} }});
          mret (Some lpk)
      end
  end).

(** ** Redeeming *)

Definition is_available_to (customer : Z) (_ : Z) (l : referral_reward_ledger) : bool :=
  bool_decide (inviter l = customer) && bool_decide (status l = AVAILABLE).

Definition available_rewards (customer : Z) (d : DB) : list (Z * referral_reward_ledger) :=
  order_by (fun kv => [Ledger.created_at kv.2; kv.1]) (rows_where (is_available_to customer) (ledgers d)).

Definition sumZ {A} (f : A -> Z) (l : list A) : Z := foldr (fun x acc => f x + acc) 0 l.

(** [max(int(ledger.reward_duration_days or 0), 0)] *)
Definition reward_days (l : referral_reward_ledger) : Z := Z.max (reward_duration_days l) 0.

(** [int(gb * Decimal(1024 ** 3))], in thousandths of a GB. *)
Definition bytes_from_gb (gb : Z) : Z := Z.quot (gb * 1024 ^ 3) 1000.

Definition get_available_referral_gb (customer : Z) (d : DB) : Z :=
  sumZ (fun kv => reward_gb kv.2) (available_rewards customer d).

Definition calculate_referral_expiry (c : VPNClient.vpn_client) (total_days now : Z)
    (r : traffic_result) : option Z :=
  if tr_expiry_unlimited r then None
  else match tr_expiry_at r with
       | Some e => Some e
       | None =>
           if total_days =? 0 then VPNClient.expires_at c
           else
             let base := match VPNClient.expires_at c with
                         | Some e => if now <? e then e else now | None => now end in
             Some (base + total_days * VPNClient.day)
       end.

Definition apply_package (gb days now : Z) (r : traffic_result) (c : VPNClient.vpn_client)
    : VPNClient.vpn_client :=
  let limit := if tr_total_traffic_bytes r =? 0
               then VPNClient.traffic_limit_bytes c + bytes_from_gb gb
               else tr_total_traffic_bytes r in
  let expiry := calculate_referral_expiry c days now r in
  let c := c {{ VPNClient.traffic_limit_bytes := limit }} in
  let c := if tr_expiry_unlimited r then c
           else c {{ VPNClient.expires_at := expiry; VPNClient.duration_days ::= Z.add days }} in
  if bool_decide (tr_raw r = ∅) then c else c {{ VPNClient.xui_raw := tr_raw r }}.

Definition redeem_ledger (client now : Z) (l : referral_reward_ledger) : referral_reward_ledger :=
  l {{ status := REDEEMED; redeemed_config := Some client; redeemed_at := Some now;
       applied_traffic_gb := reward_gb l; applied_duration_days := reward_duration_days l }}.

Inductive redeem_outcome :=
| ConfigNotActive | NothingToRedeem | PanelFailed
| Redeemed (gb days : Z) (count : nat).

(** The client must be the customer's own and active. *)
Definition redeemable_client (customer cpk : Z) (d : DB) : option VPNClient.vpn_client :=
  match clients d !! cpk with
  | Some c =>
      let owner := VPNClient.order c ≫= fun o => orders d !! o ≫= Order.customer in
      if bool_decide (owner = Some customer) && bool_decide (VPNClient.status c = VPNClient.ACTIVE)
      then Some c else None
  | None => None
  end.

Definition redeem_referral_rewards (customer cpk now : Z) : IO redeem_outcome := atomic (
  d ← get_db;
  match redeemable_client customer cpk d with
  | None => mret ConfigNotActive
  | Some c =>
      let rs := available_rewards customer d in
      let gb := sumZ (fun kv => reward_gb kv.2) rs in
      let days := sumZ (fun kv => reward_days kv.2) rs in
      if gb <=? 0 then mret NothingToRedeem
      else
        answer ← ask (CallAddTraffic cpk gb days) (fun h => add_client_traffic h cpk c gb days);
        match answer with
        | None => mret PanelFailed
        | Some r =>
            _ ← put_db (set_client cpk (apply_package gb days now r c));
            _ ← put_db (fun d => d {{ ledgers ::= update_where
                    (fun k _ => bool_decide (k ∈ rs.*1)) (redeem_ledger cpk now) }});
            mret (Redeemed gb days (length rs))
        end
  end).
End ReferralRewards.

(** ** What the programme guarantees *)

Section Theorems.
Context `{Env}.

(** Every invited customer earns at most one package, never for themselves. *)
Definition ledger_ok (d : DB) : Prop :=
  (forall k1 k2 l1 l2, ledgers d !! k1 = Some l1 -> ledgers d !! k2 = Some l2 ->
     invited l1 = invited l2 -> k1 = k2) /\
  map_Forall (fun _ l => inviter l <> invited l) (ledgers d).

Lemma settle_referral_ledgers inviter invited c opk now w r w' :
  settle_referral inviter invited c opk now w = (r, w') -> ledgers (db w') = ledgers (db w).
Proof.
  unfold settle_referral, ensure_referral, mark_purchased. run_io.
  destruct (referral_of_customer _ _) as [[rpk rf]|]; [destruct (bool_decide _)|];
    intros [= <- <-]; reflexivity.
Qed.

Lemma reward_due_Some opk d inviter invited c st :
  reward_due opk d = Some (inviter, invited, c, st) ->
  inviter <> invited /\ 0 < store_referral_reward_traffic_gb st /\
  exists o, orders d !! opk = Some o /\ Order.customer o = Some invited /\
            is_successful o = true /\ unconfirmed_auto_approval opk d = false.
Proof.
  unfold reward_due. destruct (orders d !! opk) as [o|]; [|done].
  destruct (Order.customer o) as [cpk|] eqn:Ec; [|done].
  destruct (negb (is_successful o) || _) eqn:Hs; [done|].
  apply orb_false_iff in Hs as [Hs%negb_false_iff Hu].
  destruct (customers d !! cpk) as [c'|]; [|done].
  destruct (get_referral_store _ d) as [st'|]; [|done].
  destruct (Customer.referred_by c') as [inv|]; [|done].
  destruct (_ || _) eqn:Hg; [done|]. intros [= <- <- <- <-].
  repeat (apply orb_false_iff in Hg as [Hg ?]).
  apply bool_decide_eq_false in Hg. split; [done|]. split; [lia|]. eauto.
Qed.

Lemma create_reward_cases opk now w r w' :
  create_referral_reward_for_order opk now w = (r, w') ->
  ledgers (db w') = ledgers (db w) \/
  exists l, ledger_of_invited (invited l) (db w) = None /\ inviter l <> invited l /\
            ledgers (db w') = <[next_pk (ledgers (db w)) := l]> (ledgers (db w)).
Proof.
  unfold create_referral_reward_for_order. run_io. unfold get_order. run_io.
  destruct (orders (db w) !! opk); [|intros [= <- <-]; by left].
  destruct (reward_due opk (db w)) as [[[[inv ivd] c] st]|] eqn:Hdue;
    [|intros [= <- <-]; by left].
  apply reward_due_Some in Hdue as (Hne & _).
  destruct (ledger_of_invited ivd (db w)) as [[k l]|] eqn:Hl; [intros [= <- <-]; by left|].
  destruct (settle_referral inv ivd c opk now w) as [[[]|e] w1] eqn:Hs;
    pose proof (settle_referral_ledgers _ _ _ _ _ _ _ _ Hs) as Hled.
  - intros [= <- <-]. right. eexists. split; [|split; [|cbn; rewrite Hled; reflexivity]]; done.
  - intros [= <- <-]. by left.
Qed.

Lemma available_keys_spec customer d k l :
  ledgers d !! k = Some l ->
  bool_decide (k ∈ (available_rewards customer d).*1) = is_available_to customer k l.
Proof.
  intros Hk. destruct (is_available_to customer k l) eqn:E.
  - apply bool_decide_eq_true, list_elem_of_fmap. exists (k, l). split; [done|].
    by apply elem_of_order_by, elem_of_rows_where.
  - apply bool_decide_eq_false. intros Hin. apply list_elem_of_fmap in Hin as ([k' l'] & Ek & Hin).
    cbn in Ek. subst k'. apply elem_of_order_by, elem_of_rows_where in Hin as [Hl' Hp]. congruence.
Qed.

Lemma no_available_rewards customer d :
  (forall k l, ledgers d !! k = Some l -> is_available_to customer k l = false) ->
  get_available_referral_gb customer d = 0.
Proof.
  intros Hno. unfold get_available_referral_gb.
  destruct (available_rewards customer d) as [|[k l] rest] eqn:E; [done|]. exfalso.
  assert (Hin : (k, l) ∈ available_rewards customer d) by (rewrite E; apply list_elem_of_here).
  apply elem_of_order_by, elem_of_rows_where in Hin as [Hl Hp]. by rewrite (Hno _ _ Hl) in Hp.
Qed.

(** A committed redemption pays out exactly what was available: the
    packages of this inviter that were available become redeemed onto the
    chosen client with their full traffic and days, the panel is asked once
    for exactly their total, no other package moves, and afterwards nothing
    is left to redeem; any other outcome leaves the database as it was. *)
Theorem redeem_pays_each_package_once customer cpk now w r w' :
  redeem_referral_rewards customer cpk now w = (Ret r, w') ->
  match r with
  | Redeemed gb days n =>
      gb = get_available_referral_gb customer (db w) /\ 0 < gb /\
      calls w' = CallAddTraffic cpk gb days :: calls w /\
      (forall k l, ledgers (db w) !! k = Some l ->
         ledgers (db w') !! k =
           Some (if is_available_to customer k l then redeem_ledger cpk now l else l)) /\
      get_available_referral_gb customer (db w') = 0
  | _ => db w' = db w
  end.
Proof.
  unfold redeem_referral_rewards. run_io.
  destruct (redeemable_client customer cpk (db w)) as [c|]; [|by intros [= <- <-]].
  destruct (Z.leb_spec (sumZ (fun kv => reward_gb kv.2) (available_rewards customer (db w))) 0);
    [by intros [= <- <-]|].
  destruct (add_client_traffic _ _ _ _ _) as [tr|]; [|by intros [= <- <-]].
  intros [= <- <-]. split; [done|]. split; [done|]. split; [done|].
  assert (Hk : forall k l, ledgers (db w) !! k = Some l ->
    bool_decide (k ∈ (available_rewards customer (db w)).*1) = is_available_to customer k l).
  { intros k l Hk. apply available_keys_spec, Hk. }
  assert (Hnew : forall k l, ledgers (db w) !! k = Some l ->
    update_where (fun k _ => bool_decide (k ∈ (available_rewards customer (db w)).*1))
      (redeem_ledger cpk now) (ledgers (db w)) !! k =
      Some (if is_available_to customer k l then redeem_ledger cpk now l else l)).
  { intros k l Hl. rewrite lookup_update_where, Hl. cbn. by rewrite (Hk _ _ Hl). }
  split; [exact Hnew|].
  apply no_available_rewards. intros k l Hl. cbn -[update_where] in Hl.
  destruct (ledgers (db w) !! k) as [l0|] eqn:E0.
  - rewrite (Hnew _ _ E0) in Hl. injection Hl as <-.
    destruct (is_available_to customer k l0) eqn:Ea; [|exact Ea].
    unfold is_available_to. cbn. by rewrite andb_false_r.
  - by rewrite lookup_update_where, E0 in Hl.
Qed.

(** The operations of the programme. *)
Inductive ledger_step : World -> World -> Prop :=
| step_create opk now w : ledger_step w (create_referral_reward_for_order opk now w).2
| step_redeem customer cpk now w : ledger_step w (redeem_referral_rewards customer cpk now w).2.

Lemma redeem_ledgers customer cpk now w :
  exists f, ledgers (db (redeem_referral_rewards customer cpk now w).2) =
            update_where f (redeem_ledger cpk now) (ledgers (db w)).
Proof.
  assert (Hid : update_where (fun _ _ => false) (redeem_ledger cpk now) (ledgers (db w)) = ledgers (db w))
    by (by apply update_where_id).
  unfold redeem_referral_rewards. run_io.
  destruct (redeemable_client customer cpk (db w)) as [c|]; [|by exists (fun _ _ => false)].
  destruct (_ <=? 0); [by exists (fun _ _ => false)|].
  destruct (add_client_traffic _ _ _ _ _) as [tr|]; [|by exists (fun _ _ => false)].
  by eexists.
Qed.

Lemma ledger_step_ok w w' : ledger_step w w' -> ledger_ok (db w) -> ledger_ok (db w').
Proof.
  destruct 1 as [opk now w|customer cpk now w]; intros [Huniq Hself].
  - destruct (create_referral_reward_for_order opk now w) as [r w'] eqn:E. cbn [snd].
    apply create_reward_cases in E as [Eq|(l & Hnone & Hne & Eq)]; unfold ledger_ok;
      rewrite Eq; [done|]. unfold ledger_of_invited in Hnone.
    rewrite first_where_None in Hnone.
    assert (Hother : forall k v, ledgers (db w) !! k = Some v -> invited v <> invited l).
    { intros k v Hk. apply Hnone in Hk. by apply bool_decide_eq_false in Hk. }
    split; [|by apply map_Forall_insert_2].
    intros k1 k2 l1 l2 H1 H2 Hi.
    apply lookup_insert_Some in H1 as [[<- <-]|[? H1]], H2 as [[<- <-]|[? H2]]; eauto;
      exfalso; by eapply Hother.
  - destruct (redeem_ledgers customer cpk now w) as [f Eq]. unfold ledger_ok. rewrite Eq. split.
    + intros k1 k2 l1 l2. rewrite !lookup_update_where.
      destruct (ledgers (db w) !! k1) as [a1|] eqn:E1, (ledgers (db w) !! k2) as [a2|] eqn:E2;
        cbn; try done.
      intros [= <-] [= <-] Hi. eapply Huniq; [done..|].
      by destruct (f k1 a1), (f k2 a2).
    + intros k l. rewrite lookup_update_where.
      destruct (ledgers (db w) !! k) as [a|] eqn:E1; cbn; [|done].
      intros [= <-]. specialize (Hself _ _ E1). by destruct (f k a).
Qed.

(** However orders complete and packages are redeemed, every invited
    customer brings their inviter at most one gift package, and nobody earns
    a package by inviting themselves. *)
Theorem one_package_per_invited_customer w w' :
  rtc ledger_step w w' -> ledger_ok (db w) -> ledger_ok (db w').
Proof. induction 1; eauto using ledger_step_ok. Qed.
End Theorems.

(** Customer 100 has an active client and two packages waiting, one of 1 GB
    and one of 2 GB. *)
Definition sample_package (invited gb : Z) : referral_reward_ledger := {|
  inviter := 100; Ledger.invited := invited; Ledger.order := 1000; reward_gb := gb;
  reward_duration_days := 30; status := AVAILABLE; redeemed_config := None;
  available_at := Some 0; redeemed_at := None; applied_traffic_gb := 0;
  applied_duration_days := 0; created_at := invited |}.

Definition sample_vpn_client (order inbound : Z) (status : VPNClient.status_t) : VPNClient.vpn_client := {|
  VPNClient.store := Some 1; VPNClient.order := Some order; VPNClient.plan := Some 1;
  VPNClient.inbound := Some inbound; VPNClient.username := "c"; VPNClient.xui_email := "c@x";
  VPNClient.uuid := Some "u1"; VPNClient.sub_id := "s1"; VPNClient.sub_link := None;
  VPNClient.direct_link := None; VPNClient.status := status; VPNClient.traffic_limit_bytes := 0;
  VPNClient.used_upload_bytes := 0; VPNClient.used_download_bytes := 0;
  VPNClient.used_traffic_bytes := 0; VPNClient.duration_days := 30; VPNClient.device_limit := 2;
  VPNClient.activated_at := None; VPNClient.expires_at := None; VPNClient.disabled_at := None;
  VPNClient.deleted_at := None; VPNClient.deleted_by_customer := None;
  VPNClient.deleted_by_admin_telegram_id := ""; VPNClient.delete_reason := "";
  VPNClient.remote_deleted_at := None; VPNClient.last_synced_at := None; VPNClient.xui_node_id := "";
  VPNClient.remote_client_key := ""; VPNClient.xui_raw := ∅; VPNClient.remote_check := VPNClient.never_checked; VPNClient.created_at := 0 |}.

Definition sample_rewards : World := sample_shop {{ db ::= fun d => d {{
  ledgers := {[ 1 := sample_package 101 1000; 2 := sample_package 102 2000 ]};
  orders ::= insert 1002 ((sample_order 10) {{ Order.customer := Some 100 }});
  clients := {[ 1 := sample_vpn_client 1002 10 VPNClient.ACTIVE ]} }} }}.

Lemma redeem_pays_each_package_once_witness :
  exists w', @redeem_referral_rewards sample_env 100 1 50 sample_rewards = (Ret (Redeemed 3000 60 2), w') /\
    get_available_referral_gb 100 (db w') = 0.
Proof.
  eexists (@redeem_referral_rewards sample_env 100 1 50 sample_rewards).2.
  assert (H : @redeem_referral_rewards sample_env 100 1 50 sample_rewards =
    (Ret (Redeemed 3000 60 2), (@redeem_referral_rewards sample_env 100 1 50 sample_rewards).2))
    by (vm_compute; reflexivity).
  split; [exact H|].
  exact (proj2 (proj2 (proj2 (proj2 (@redeem_pays_each_package_once sample_env _ _ _ _ _ _ H))))).
Defined.

Lemma one_package_per_invited_customer_witness :
  let w := sample_shop {{ db -> orders ::= alter (fun o => o {{ Order.status := Order.COMPLETED;
             Order.verification_status := Order.V_VERIFIED }}) 1000 }} in
  exists w', ledger_ok (db w') /\ size (ledgers (db w')) = 1%nat.
Proof.
  intros w. exists (@create_referral_reward_for_order sample_env 1000 9 w).2. split.
  - apply (@one_package_per_invited_customer sample_env w).
    + apply rtc_once, step_create.
    + split; [intros k1 k2 l1 l2 H; discriminate H|]. apply map_Forall_empty.
  - vm_compute. reflexivity.
Defined.
