(* ===== verification/Inbounds.v ===== *)
(** Choosing the server of an order (src/store/order_services.py): the checks
    an inbound must pass before an order may use it, the least loaded inbound
    of a shop, the plan's explicit routes, and bundles of inbounds. *)

From S2P Require Import Prelude Models World Numbers.
Import Inbound.

Notation keyed_inbound := (Z * inbound)%type.

(** ** Checking one inbound *)

Definition INBOUND_NONE_MESSAGE : string := "سرور فعالی برای ساخت کانفیگ پیدا نشد.".
Definition INBOUND_MISSING_PANEL_MESSAGE : string :=
  "اینباند انتخاب‌شده به هیچ پنل معتبری وصل نیست. لطفاً تنظیمات سرور را بررسی کن.".
Definition INBOUND_INACTIVE_MESSAGE : string :=
  "اینباند انتخاب‌شده غیرفعال است و نمی‌تواند برای سفارش جدید استفاده شود.".
Definition INBOUND_NOT_FOR_NEW_ORDERS_MESSAGE : string :=
  "اینباند انتخاب‌شده برای فروش یا ساخت کانفیگ جدید مجاز نیست.".
Definition INBOUND_PANEL_INACTIVE_MESSAGE : string :=
  "پنل متصل به اینباند غیرفعال است و نمی‌تواند برای سفارش جدید استفاده شود.".
Definition INBOUND_STORE_MISMATCH_MESSAGE : string := "اینباند انتخاب‌شده به فروشگاه دیگری وصل است.".
Definition INBOUND_CAPACITY_MESSAGE : string :=
  "ظرفیت اینباند انتخاب‌شده برای تعداد کانفیگ درخواستی کافی نیست.".
Definition INBOUND_NODE_SCOPE_MISSING_MESSAGE : string :=
  "اینباند sync شده از node هویت node ندارد و برای ساخت کانفیگ جدید امن نیست.".
Definition PANEL_UNKNOWN_COMPATIBILITY_MESSAGE : string :=
  "سازگاری پنل X-UI نامشخص است. ابتدا audit سازگاری پنل را اجرا کن.".
Definition PANEL_MODERN_INACTIVE_CREATE_MESSAGE : string :=
  "API جدید 3X-UI ساخت کلاینت غیرفعال را به‌صورت امن پشتیبانی نمی‌کند؛ این مسیر فقط با deferred/direct create-enabled provisioning مجاز است.".
Definition PLAN_INBOUND_ROUTE_MISSING_MESSAGE : string :=
  "برای این پلن مسیر سرور/اینباند تعریف نشده است. لطفاً با پشتیبانی تماس بگیرید.".

Definition modern_profile (p : Panel.capability_profile_t) : bool :=
  bool_decide (p = Panel.MODERN_SINGLE_NODE) || bool_decide (p = Panel.MODERN_MULTI_NODE).

Definition store_mismatch (store : option Z) (p : Panel.panel) : bool :=
  match store, Panel.store p with
  | Some s, Some s' => negb (bool_decide (s' = s))
  | _, _ => false
  end.

(** [inbound.max_clients is not None and inbound.available_capacity < slots] *)
Definition over_capacity (slots : Z) (i : inbound) : bool :=
  match available_capacity i with Some a => a <? slots | None => false end.

Definition fail_if (b : bool) (message : string) : result unit :=
  raise_if b (ValidationError message).

(** [max(int(required_slots or 1), 1)] *)
Definition slots_of (required : Z) : Z := Z.max (if required =? 0 then 1 else required) 1.

Definition check_inbound (d : DB) (store : option Z) (slots : Z) (allow_modern_deferred : bool)
    (i : inbound) : result unit :=
  fail_if (negb (is_active i)) INBOUND_INACTIVE_MESSAGE ≫= fun _ =>
  fail_if (negb (available_for_new_orders i)) INBOUND_NOT_FOR_NEW_ORDERS_MESSAGE ≫= fun _ =>
  match inbound_panel d i with
  | None => Raise (ValidationError INBOUND_MISSING_PANEL_MESSAGE)
  | Some p =>
      let pg := Panel.is_pasarguard p in
      let profile := Panel.capability_profile p in
      fail_if (negb (Panel.is_active p)) INBOUND_PANEL_INACTIVE_MESSAGE ≫= fun _ =>
      fail_if (store_mismatch store p) INBOUND_STORE_MISMATCH_MESSAGE ≫= fun _ =>
      fail_if (negb pg && bool_decide (xui_source i = SYNCHRONIZED_NODE)
               && bool_decide (strip (xui_node_id i) = "")) INBOUND_NODE_SCOPE_MISSING_MESSAGE ≫= fun _ =>
      fail_if (pg && negb allow_modern_deferred) PANEL_MODERN_INACTIVE_CREATE_MESSAGE ≫= fun _ =>
      fail_if (bool_decide (profile = Panel.UNKNOWN_SAFE)) PANEL_UNKNOWN_COMPATIBILITY_MESSAGE ≫= fun _ =>
      fail_if (modern_profile profile && negb allow_modern_deferred)
        PANEL_MODERN_INACTIVE_CREATE_MESSAGE ≫= fun _ =>
      fail_if (over_capacity slots i) INBOUND_CAPACITY_MESSAGE
  end.

Definition validate_inbound_for_order (d : DB) (store : option Z) (required_slots : Z)
    (allow_modern_deferred : bool) (i : option keyed_inbound) : result keyed_inbound :=
  match i with
  | None => Raise (ValidationError INBOUND_NONE_MESSAGE)
  | Some (pk, row) =>
      check_inbound d store (slots_of required_slots) allow_modern_deferred row ≫= fun _ => Ret (pk, row)
  end.

Definition inbound_ok (d : DB) (store : option Z) (slots : Z) (allow : bool) (i : keyed_inbound) : bool :=
  is_ret (validate_inbound_for_order d store slots allow (Some i)).

(** ** The least loaded inbound of a shop *)

Definition store_row (d : DB) (store : option Z) : option Store.store := store ≫= fun pk => stores d !! pk.

Definition panel_open_to (d : DB) (store : option Z) (i : inbound) : bool :=
  match inbound_panel d i with
  | None => false
  | Some p =>
      Panel.is_active p &&
      match store with
      | None => true
      | Some s => bool_decide (Panel.store p = Some s) || bool_decide (Panel.store p = None)
      end
  end.

Definition global_candidates (d : DB) (store : option Z) : list keyed_inbound :=
  order_by (fun kv => [current_users kv.2; kv.1])
    (rows_where (fun _ i => is_active i && available_for_new_orders i && panel_open_to d store i) (inbounds d)).

Definition get_available_inbound (d : DB) (store : option Z) (required_slots : Z) (allow : bool)
    : option keyed_inbound :=
  if is_set store && negb (Store.store_is_sellable (store_row d store)) then None
  else
    head (filter (fun i => Is_true (inbound_ok d store required_slots allow i
                                    && negb (over_capacity (slots_of required_slots) i.2)))
            (global_candidates d store)).

(** ** Routes of a plan *)

Definition store_allows_plan_inbound_routing (st : option Store.store) : bool :=
  match st with Some s => Store.plan_inbound_routing_enabled s | None => false end.

Definition store_allows_global_inbound_fallback (st : option Store.store) : bool :=
  match st with Some s => Store.allow_global_inbound_fallback s | None => true end.

(** A route with its inbound, as the queryset joins them. *)
Notation joined_route := (Z * PlanInboundRoute.plan_inbound_route * inbound)%type.

Definition join_route (d : DB) (kv : Z * PlanInboundRoute.plan_inbound_route) : option joined_route :=
  (fun i => (kv.1, kv.2, i)) <$> inbounds d !! PlanInboundRoute.inbound kv.2.

Definition store_route_priority (store : option Z) (r : PlanInboundRoute.plan_inbound_route) : Z :=
  if is_set store && bool_decide (PlanInboundRoute.store r = store) then 0 else 1.

(** [base_routes] narrowed by [_route_queryset_for_store]. *)
Definition route_matches (d : DB) (plan : Z) (store : option Z) (jr : joined_route) : bool :=
  let '(_, r, i) := jr in
  bool_decide (PlanInboundRoute.plan r = plan) && PlanInboundRoute.is_active r
  && is_active i && available_for_new_orders i && panel_open_to d store i
  && match store with
     | None => true
     | Some s => bool_decide (PlanInboundRoute.store r = Some s)
                 || bool_decide (PlanInboundRoute.store r = None)
     end.

Definition routes_for (d : DB) (plan : Z) (store operator : option Z) : list joined_route :=
  order_by (fun jr : joined_route => let '(pk, r, i) := jr in
              [store_route_priority store r; PlanInboundRoute.priority r; current_users i; pk])
    (filter (fun jr => Is_true (route_matches d plan store jr
                                && bool_decide (PlanInboundRoute.operator jr.1.2 = operator)))
       (omap (join_route d) (map_to_list (routes d)))).

Definition route_inbound (jr : joined_route) : keyed_inbound :=
  (PlanInboundRoute.inbound jr.1.2, jr.2).

(** The inbounds of valid routes, in route order. *)
Definition valid_route_inbounds (d : DB) (store : option Z) (slots : Z) (allow : bool)
    (rs : list joined_route) : list keyed_inbound :=
  filter (fun i => Is_true (inbound_ok d store slots allow i)) (map route_inbound rs).

Definition first_valid_route_inbound (d : DB) (store : option Z) (slots : Z) (allow : bool)
    (rs : list joined_route) : option keyed_inbound :=
  head (valid_route_inbounds d store slots allow rs).

(** [if inbound.pk in seen: continue] *)
Fixpoint dedupe (seen : list Z) (l : list keyed_inbound) : list keyed_inbound :=
  match l with
  | [] => []
  | i :: l' => if bool_decide (i.1 ∈ seen) then dedupe seen l' else i :: dedupe (i.1 :: seen) l'
  end.

(** Routes of the customer's operator first, general routes second. *)
Definition candidate_sets (d : DB) (plan : Z) (store operator : option Z) : list (list joined_route) :=
  match operator with
  | Some _ => [routes_for d plan store operator; routes_for d plan store None]
  | None => [routes_for d plan store None]
  end.

Fixpoint first_some {A B} (f : A -> option B) (l : list A) : option B :=
  match l with
  | [] => None
  | x :: l' => match f x with Some b => Some b | None => first_some f l' end
  end.

Definition effective_store (plan : Plan.plan) (store : option Z) : option Z := or_opt store (Plan.store plan).

Definition select_inbound_for_plan (d : DB) (plan : Z) (p : Plan.plan) (store operator : option Z)
    (quantity : Z) (allow : bool) : result (option keyed_inbound) :=
  let slots := slots_of quantity in
  let store := effective_store p store in
  let st := store_row d store in
  if negb (store_allows_plan_inbound_routing st) then Ret (get_available_inbound d store slots allow)
  else
    match first_some (first_valid_route_inbound d store slots allow) (candidate_sets d plan store operator) with
    | Some i => Ret (Some i)
    | None =>
        if store_allows_global_inbound_fallback st then Ret (get_available_inbound d store slots allow)
        else Raise (ValidationError PLAN_INBOUND_ROUTE_MISSING_MESSAGE)
    end.

Definition BUNDLE_CROSS_PANEL_MESSAGE : string := "همه اینباندهای bundle باید روی یک پنل باشند.".
Definition BUNDLE_NOT_MULTI_NODE_MESSAGE : string :=
  "bundle چند اینباند فقط برای پنل modern multi-node مجاز است.".

Definition check_bundle (d : DB) (l : list keyed_inbound) : result (list keyed_inbound) :=
  match l with
  | [] => Ret []
  | i :: _ =>
      if existsb (fun j : keyed_inbound => negb (bool_decide (panel j.2 = panel i.2))) l
      then Raise (ValidationError BUNDLE_CROSS_PANEL_MESSAGE)
      else match inbound_panel d i.2 with
           | Some p => if negb (Panel.is_pasarguard p)
                          && negb (bool_decide (Panel.capability_profile p = Panel.MODERN_MULTI_NODE))
                       then Raise (ValidationError BUNDLE_NOT_MULTI_NODE_MESSAGE) else Ret l
           | None => Raise (ValidationError BUNDLE_NOT_MULTI_NODE_MESSAGE)
           end
  end.

Definition bundle_of (d : DB) (store : option Z) (slots : Z) (rs : list joined_route)
    : option (list keyed_inbound) :=
  match dedupe [] (valid_route_inbounds d store slots true rs) with [] => None | l => Some l end.

Definition select_inbounds_for_plan (d : DB) (plan : Z) (p : Plan.plan) (store operator : option Z)
    (quantity : Z) (allow : bool) : result (list (option keyed_inbound)) :=
  if negb (Plan.multi_inbound_bundle p) then
    i ← select_inbound_for_plan d plan p store operator quantity allow; Ret [i]
  else
    let slots := slots_of quantity in
    let store := effective_store p store in
    let st := store_row d store in
    let fallback := match get_available_inbound d store slots true with
                    | Some i => [Some i] | None => [] end in
    if negb (store_allows_plan_inbound_routing st) then Ret fallback
    else
      match first_some (bundle_of d store slots) (candidate_sets d plan store operator) with
      | Some l => l ← check_bundle d l; Ret (map Some l)
      | None =>
          if store_allows_global_inbound_fallback st then Ret fallback
          else Raise (ValidationError PLAN_INBOUND_ROUTE_MISSING_MESSAGE)
      end.

(** ** Choosing a server only ever declines

    The errors of this file are all [ValidationError]s, which checkout turns
    into an answer for the customer. *)

Definition only_declines {A} (x : result A) : Prop := forall e, x = Raise e -> exists text, e = ValidationError text.

Lemma declines_Ret {A} (a : A) : only_declines (Ret a).
Proof. by intros e. Qed.

Lemma declines_Raise {A} text : only_declines (Raise (A:=A) (ValidationError text)).
Proof. intros e [= <-]. by exists text. Qed.

Lemma declines_fail_if b text : only_declines (fail_if b text).
Proof. unfold fail_if. destruct b; [apply declines_Raise|apply declines_Ret]. Qed.

Lemma declines_bind {A B} (x : result A) (f : A -> result B) :
  only_declines x -> (forall a, only_declines (f a)) -> only_declines (x ≫= f).
Proof.
  intros Hx Hf e. destruct x as [a|e']; cbn; [apply Hf|]. intros [= <-]. by apply Hx.
Qed.

Create HintDb declines.
#[export] Hint Resolve declines_Ret declines_Raise declines_fail_if declines_bind : declines.

Lemma check_inbound_declines d store slots allow i : only_declines (check_inbound d store slots allow i).
Proof.
  unfold check_inbound. apply declines_bind; [auto with declines|intros _].
  apply declines_bind; [auto with declines|intros _].
  destruct (inbound_panel d i); auto 20 with declines.
Qed.

Lemma validate_inbound_declines d store q allow i : only_declines (validate_inbound_for_order d store q allow i).
Proof.
  unfold validate_inbound_for_order. destruct i as [[pk row]|]; [|apply declines_Raise].
  apply declines_bind; [apply check_inbound_declines|auto with declines].
Qed.

Lemma select_inbound_declines d plan p store operator q allow :
  only_declines (select_inbound_for_plan d plan p store operator q allow).
Proof. unfold select_inbound_for_plan. cbv zeta. repeat case_match; auto with declines. Qed.

Lemma check_bundle_declines d l : only_declines (check_bundle d l).
Proof. unfold check_bundle. repeat case_match; auto with declines. Qed.

Lemma select_inbounds_declines d plan p store operator q allow :
  only_declines (select_inbounds_for_plan d plan p store operator q allow).
Proof.
  unfold select_inbounds_for_plan. destruct (negb _).
  - apply declines_bind; [apply select_inbound_declines|auto with declines].
  - cbv zeta. destruct (negb _); [auto with declines|].
    destruct (first_some _ _); [|case_match; auto with declines].
    apply declines_bind; [apply check_bundle_declines|auto with declines].
Qed.

(** ** What the checks guarantee *)

(** What it takes for an order to run on an inbound, stated without the order
    of the code's tests. *)
Record usable (d : DB) (store : option Z) (slots : Z) (allow : bool) (i : inbound) : Prop := {
  us_active : is_active i = true;
  us_for_sale : available_for_new_orders i = true;
  us_panel : exists p, inbound_panel d i = Some p /\ Panel.is_active p = true /\
    (* the panel is the shop's own, or shared *)
    (forall s s', store = Some s -> Panel.store p = Some s' -> s = s') /\
    (* a node inbound names its node *)
    (Panel.family p <> Panel.PASARGUARD -> xui_source i = SYNCHRONIZED_NODE ->
       strip (xui_node_id i) <> "") /\
    Panel.capability_profile p <> Panel.UNKNOWN_SAFE /\
    (* a panel that cannot create disabled clients needs deferred creation *)
    (allow = false -> Panel.family p <> Panel.PASARGUARD /\
       modern_profile (Panel.capability_profile p) = false);
  us_room : forall m, max_clients i = Some m -> current_users i + slots <= m;
}.

Lemma fail_if_Ret b m u : fail_if b m = Ret u <-> b = false.
Proof. apply raise_if_Ret. Qed.

Lemma over_capacity_false slots i :
  1 <= slots ->
  over_capacity slots i = false <-> forall m, max_clients i = Some m -> current_users i + slots <= m.
Proof.
  intros Hs. unfold over_capacity, available_capacity.
  destruct (max_clients i) as [m|]; cbn; [|done]. rewrite Z.ltb_ge. split.
  - intros Hle m' [= <-]. lia.
  - intros Hle. specialize (Hle m eq_refl). lia.
Qed.

Lemma store_mismatch_false store p :
  store_mismatch store p = false <->
  forall s s', store = Some s -> Panel.store p = Some s' -> s = s'.
Proof.
  unfold store_mismatch. destruct store as [s|], (Panel.store p) as [s'|]; try (split; [done|done]).
  rewrite negb_false_iff, bool_decide_eq_true. split.
  - intros -> ? ? [= <-] [= <-]. done.
  - intros Heq. symmetry. auto.
Qed.

Lemma check_inbound_iff d store slots allow i :
  1 <= slots -> check_inbound d store slots allow i = Ret tt <-> usable d store slots allow i.
Proof.
  intros Hone. unfold check_inbound. split.
  - intros ([] & H1 & H)%result_bind_Ret. apply result_bind_Ret in H as ([] & H2 & H).
    apply fail_if_Ret, negb_false_iff in H1, H2.
    destruct (inbound_panel d i) as [p|] eqn:Hp; [|done].
    repeat (apply result_bind_Ret in H as ([] & ?Hg & H)).
    apply fail_if_Ret in H. pose proof (proj1 (over_capacity_false _ i Hone) H) as Hroom.
    apply fail_if_Ret in Hg, Hg0, Hg1, Hg2, Hg3, Hg4.
    apply negb_false_iff in Hg. rewrite store_mismatch_false in Hg0.
    apply bool_decide_eq_false in Hg3.
    unfold Panel.is_pasarguard in *.
    constructor; [done..| |done]. exists p. repeat (split; [done|]). split; [|split; [done|]].
    + intros Hf Hx. rewrite bool_decide_false in Hg1 by done. cbn in Hg1.
      rewrite bool_decide_true in Hg1 by done. by apply bool_decide_eq_false in Hg1.
    + intros ->. cbn in Hg2, Hg4. rewrite !andb_true_r in *.
      by apply bool_decide_eq_false in Hg2.
  - intros [H1 H2 (p & Hp & Ha & Hst & Hn & Hu & Hm) Hroom].
    pose proof (proj2 (over_capacity_false _ i Hone) Hroom) as Hcap.
    rewrite <- store_mismatch_false in Hst.
    rewrite H1, H2, Hp, Ha, Hst, Hcap. cbn. rewrite (bool_decide_false _ Hu). unfold Panel.is_pasarguard.
    assert (Hnode : negb (bool_decide (Panel.family p = Panel.PASARGUARD))
             && bool_decide (xui_source i = SYNCHRONIZED_NODE)
             && bool_decide (strip (xui_node_id i) = "") = false).
    { repeat case_bool_decide; cbn; auto. exfalso. by apply Hn. }
    rewrite Hnode. cbn. destruct allow; cbn.
    { by rewrite !andb_false_r. }
    destruct (Hm eq_refl) as [Hf ->]. by rewrite bool_decide_false.
Qed.

Lemma slots_of_pos q : 1 <= slots_of q.
Proof. unfold slots_of. lia. Qed.

(** An inbound passes the order check exactly when it can serve the
    order: it is active and for sale, its panel exists, is active, belongs to
    the shop or to everyone and is of a known kind that the requested way of
    creating clients supports, and there is room for every client of the
    order. *)
Theorem validate_inbound_iff d store slots allow pk i :
  validate_inbound_for_order d store slots allow (Some (pk, i)) = Ret (pk, i) <->
  usable d store (slots_of slots) allow i.
Proof.
  rewrite <- check_inbound_iff by apply slots_of_pos. unfold validate_inbound_for_order.
  destruct (check_inbound _ _ _ _ _) as [[]|]; cbn; split; congruence.
Qed.

Lemma inbound_ok_usable d store slots allow i :
  inbound_ok d store slots allow i = true -> usable d store (slots_of slots) allow i.2.
Proof.
  destruct i as [pk i]. unfold inbound_ok. intros H.
  apply check_inbound_iff; [apply slots_of_pos|]. unfold validate_inbound_for_order in H.
  by destruct (check_inbound _ _ _ _ _) as [[]|].
Qed.

(** A real row that can serve the order. *)
Definition serves (d : DB) (store : option Z) (slots : Z) (allow : bool) (i : keyed_inbound) : Prop :=
  inbounds d !! i.1 = Some i.2 /\ usable d store (slots_of slots) allow i.2.

Lemma get_available_inbound_serves d store slots allow i :
  get_available_inbound d store slots allow = Some i -> serves d store slots allow i.
Proof.
  unfold get_available_inbound. destruct (_ && _); [done|].
  intros (Hin & HP & _)%head_filter_order_by. destruct i as [pk i].
  apply elem_of_rows_where in Hin as [Hpk _]. split; [done|].
  apply Is_true_true, andb_true_iff in HP as [HP _]. by apply inbound_ok_usable in HP.
Qed.

Lemma routes_for_inbound d plan store operator jr :
  jr ∈ routes_for d plan store operator ->
  inbounds d !! (route_inbound jr).1 = Some (route_inbound jr).2 /\
  PlanInboundRoute.plan jr.1.2 = plan /\ PlanInboundRoute.operator jr.1.2 = operator /\
  PlanInboundRoute.is_active jr.1.2 = true /\ routes d !! jr.1.1 = Some jr.1.2.
Proof.
  unfold routes_for. intros (Hm & Hin)%elem_of_order_by%list_elem_of_filter.
  apply list_elem_of_omap in Hin as ([k r] & Hr & Hj). apply elem_of_map_to_list in Hr.
  unfold join_route in Hj. destruct (inbounds d !! _) as [i|] eqn:Hi; [|done].
  injection Hj as <-. cbn in *. apply Is_true_true in Hm.
  repeat (apply andb_true_iff in Hm as [Hm ?]).
  repeat match goal with Hb : bool_decide _ = true |- _ => apply bool_decide_eq_true in Hb end.
  auto.
Qed.

Lemma candidate_sets_inbound d plan store operator rs i slots allow :
  rs ∈ candidate_sets d plan store operator ->
  i ∈ valid_route_inbounds d store slots allow rs -> serves d store slots allow i.
Proof.
  intros Hrs (Hok & Hin)%list_elem_of_filter. apply Is_true_true, inbound_ok_usable in Hok.
  apply list_elem_of_fmap in Hin as (jr & -> & Hjr). split; [|done].
  unfold candidate_sets in Hrs.
  assert (exists op, rs = routes_for d plan store op) as [op ->].
  { destruct operator; set_solver. }
  by apply routes_for_inbound in Hjr as [? _].
Qed.

Lemma first_some_inv {A B} (f : A -> option B) l b :
  first_some f l = Some b -> exists x, x ∈ l /\ f x = Some b.
Proof.
  induction l as [|x l IH]; [done|]. cbn. destruct (f x) eqn:E.
  - intros [= <-]. exists x. split; [apply list_elem_of_here|done].
  - intros (y & ? & ?)%IH. exists y. split; [by apply list_elem_of_further|done].
Qed.

Lemma dedupe_spec seen l :
  (forall i, i ∈ dedupe seen l -> i ∈ l /\ i.1 ∉ seen) /\ NoDup (dedupe seen l).*1.
Proof.
  revert seen. induction l as [|i l IH]; intros seen; cbn.
  { split; [intros i Hi; by apply not_elem_of_nil in Hi|constructor]. }
  case_bool_decide as Hseen.
  - destruct (IH seen) as [H1 H2]. split; [|done]. intros j (? & ?)%H1. set_solver.
  - destruct (IH (i.1 :: seen)) as [H1 H2]. split.
    + intros j [->|Hj]%elem_of_cons; [set_solver|]. apply H1 in Hj. set_solver.
    + cbn. constructor; [|done]. intros (j & Hj & Hin)%list_elem_of_fmap.
      apply H1 in Hin as [_ Hns]. set_solver.
Qed.

Lemma check_bundle_Ret d l l' :
  check_bundle d l = Ret l' ->
  l' = l /\ forall i j, i ∈ l -> j ∈ l -> panel i.2 = panel j.2.
Proof.
  unfold check_bundle. destruct l as [|i l]; [intros [= <-]; split; [done|set_solver]|].
  destruct (existsb _ _) eqn:E; [done|].
  assert (Hall : forall j, j ∈ i :: l -> panel j.2 = panel i.2).
  { intros j Hj. apply not_true_iff_false in E. destruct (decide (panel j.2 = panel i.2)); [done|].
    exfalso. apply E, existsb_exists. exists j. split; [by apply list_elem_of_In|].
    by rewrite bool_decide_false. }
  destruct (inbound_panel d i.2); [|done]. destruct (_ && _); [done|]. intros [= <-].
  split; [done|]. intros j k Hj Hk. rewrite (Hall _ Hj), (Hall _ Hk). done.
Qed.

Lemma select_inbound_for_plan_serves d plan p store operator q allow i :
  select_inbound_for_plan d plan p store operator q allow = Ret (Some i) ->
  serves d (effective_store p store) (slots_of q) allow i.
Proof.
  unfold select_inbound_for_plan. destruct (negb _).
  { intros [= Hi]. by apply get_available_inbound_serves. }
  destruct (first_some _ _) as [j|] eqn:E.
  - intros [= <-]. apply first_some_inv in E as (rs & Hrs & Hh).
    apply head_elem in Hh. by eapply candidate_sets_inbound.
  - destruct (store_allows_global_inbound_fallback _); [|done].
    intros [= Hi]. by apply get_available_inbound_serves.
Qed.

(** A selection an order can be provisioned on. *)
Definition good_selection (d : DB) (store : option Z) (slots : Z) (allow : bool)
    (l : list (option keyed_inbound)) : Prop :=
  (forall i, Some i ∈ l -> serves d store slots allow i) /\
  (forall i j : keyed_inbound, Some i ∈ l -> Some j ∈ l -> panel i.2 = panel j.2) /\
  NoDup (omap id l).*1.

Lemma good_nil d store slots allow : good_selection d store slots allow [].
Proof.
  split; [|split]; [intros i Hi|intros i j Hi|constructor]; by apply not_elem_of_nil in Hi.
Qed.

Lemma good_one d store slots allow o :
  (forall i, o = Some i -> serves d store slots allow i) -> good_selection d store slots allow [o].
Proof.
  intros Ho. split; [|split].
  - intros i Hi%list_elem_of_singleton. by apply Ho.
  - intros i j Hi%list_elem_of_singleton Hj%list_elem_of_singleton. congruence.
  - destruct o; cbn; [|constructor]. apply NoDup_singleton.
Qed.

Lemma good_fallback d store slots allow :
  good_selection d store slots allow
    match get_available_inbound d store slots allow with Some i => [Some i] | None => [] end.
Proof.
  destruct (get_available_inbound _ _ _ _) as [i|] eqn:E; [|apply good_nil].
  apply good_one. intros j [= <-]. by apply get_available_inbound_serves.
Qed.

Lemma omap_id_Some {A} (l : list A) : omap id (map Some l) = l.
Proof. induction l as [|x l IH]; [done|]. cbn. f_equal. exact IH. Qed.

Lemma good_bundle d plan store operator slots rs b b' :
  rs ∈ candidate_sets d plan store operator -> bundle_of d store slots rs = Some b ->
  check_bundle d b = Ret b' -> good_selection d store slots true (map Some b').
Proof.
  intros Hrs Hb [-> Hpanel]%check_bundle_Ret. unfold bundle_of in Hb.
  destruct (dedupe_spec [] (valid_route_inbounds d store slots true rs)) as [Hin Hnd].
  assert (Hb' : b = dedupe [] (valid_route_inbounds d store slots true rs))
    by (destruct (dedupe [] _); [done|congruence]).
  subst b. split; [|split].
  - intros i (j & [= <-] & Hj)%list_elem_of_fmap. apply Hin in Hj as [Hj _].
    by eapply candidate_sets_inbound.
  - intros i j (i' & [= <-] & Hi)%list_elem_of_fmap (j' & [= <-] & Hj)%list_elem_of_fmap. auto.
  - by rewrite omap_id_Some.
Qed.

(** Every server checkout selects for a plan can serve the whole order,
    and a bundle consists of distinct inbounds of one panel. *)
Theorem selected_inbounds_serve_order d plan p store operator q allow l :
  select_inbounds_for_plan d plan p store operator q allow = Ret l ->
  good_selection d (effective_store p store) (slots_of q) (allow || Plan.multi_inbound_bundle p) l.
Proof.
  unfold select_inbounds_for_plan. destruct (Plan.multi_inbound_bundle p); cbn [negb].
  2: { intros (o & Ho & [= <-])%result_bind_Ret. rewrite orb_false_r. apply good_one.
       intros i ->. by eapply select_inbound_for_plan_serves. }
  rewrite orb_true_r. cbv zeta. destruct (negb _); [intros [= <-]; apply good_fallback|].
  destruct (first_some _ _) as [b|] eqn:E.
  - intros (b' & Hb & [= <-])%result_bind_Ret.
    apply first_some_inv in E as (rs & Hrs & Hbundle). by eapply good_bundle.
  - destruct (store_allows_global_inbound_fallback _); [|done].
    intros [= <-]. apply good_fallback.
Qed.

(** When a shop routes its plans and allows no fallback, checkout only
    ever picks an inbound that an active route of this very plan names, and
    the route is the operator's own or a general one. *)
Theorem no_fallback_follows_routes d plan p store operator q allow i st :
  store_row d (effective_store p store) = Some st ->
  Store.plan_inbound_routing_enabled st = true ->
  Store.allow_global_inbound_fallback st = false ->
  select_inbound_for_plan d plan p store operator q allow = Ret (Some i) ->
  exists k r, routes d !! k = Some r /\ PlanInboundRoute.plan r = plan /\
    PlanInboundRoute.is_active r = true /\ PlanInboundRoute.inbound r = i.1 /\
    (PlanInboundRoute.operator r = operator \/ PlanInboundRoute.operator r = None).
Proof.
  intros Hst Hr Hf. unfold select_inbound_for_plan. rewrite Hst. cbn. rewrite Hr, Hf. cbn.
  destruct (first_some _ _) as [j|] eqn:E; [|done]. intros [= ->].
  apply first_some_inv in E as (rs & Hrs & Hh). apply head_elem in Hh.
  apply list_elem_of_filter in Hh as [_ (jr & -> & Hjr)%list_elem_of_fmap].
  assert (exists op, rs = routes_for d plan (effective_store p store) op /\ (op = operator \/ op = None))
    as (op & -> & Hop) by (unfold candidate_sets in Hrs; destruct operator; set_solver).
  apply routes_for_inbound in Hjr as (_ & Hplan & Hopr & Hact & Hk).
  exists jr.1.1, jr.1.2. split; [done|]. split; [done|]. split; [done|]. split; [done|].
  rewrite Hopr. exact Hop.
Qed.

(** The global choice balances load: no inbound that this shop could use
    for the order has fewer users than the one chosen. *)
Theorem available_inbound_least_loaded d store slots allow i :
  get_available_inbound d store slots allow = Some i ->
  forall k j, inbounds d !! k = Some j -> usable d store (slots_of slots) allow j ->
    current_users i.2 < current_users j \/ (current_users i.2 = current_users j /\ i.1 <= k).
Proof.
  unfold get_available_inbound. destruct (_ && _); [done|].
  intros (_ & _ & Hmin)%head_filter_order_by k j Hj Hus.
  assert (Hone : 1 <= slots_of slots) by (unfold slots_of; lia).
  assert (Hle : key_le (fun kv : keyed_inbound => [current_users kv.2; kv.1]) i (k, j)).
  { apply Hmin.
    - apply elem_of_rows_where. split; [done|].
      destruct Hus as [H1 H2 (p & Hp & Ha & Hst & _) _]. rewrite H1, H2. cbn.
      unfold panel_open_to. rewrite Hp, Ha. cbn. destruct store as [s|]; [|done].
      destruct (Panel.store p) as [s'|] eqn:Es; [|by rewrite (bool_decide_true (None = None)), orb_true_r].
      rewrite (Hst s s' eq_refl eq_refl). by rewrite bool_decide_true.
    - apply Is_true_true, andb_true_iff. split.
      + unfold inbound_ok, validate_inbound_for_order.
        by rewrite (proj2 (check_inbound_iff d store (slots_of slots) allow j Hone) Hus).
      + cbn. apply negb_true_iff, (over_capacity_false _ _ Hone). apply Hus. }
  unfold key_le in Hle. cbn in Hle.
  destruct (Z.ltb_spec (current_users i.2) (current_users j)); [by left|].
  destruct (Z.eqb_spec (current_users i.2) (current_users j)); [right|done].
  destruct (Z.ltb_spec i.1 k), (Z.eqb_spec i.1 k); lia || done.
Qed.

(** ** The sample shop *)

Lemma selected_inbounds_serve_order_witness :
  exists l, select_inbounds_for_plan (db sample_shop) 1 sample_plan (Some 1) None 2 true = Ret l /\
    good_selection (db sample_shop) (effective_store sample_plan (Some 1)) (slots_of 2)
      true l /\ length l = 1%nat.
Proof.
  eexists. split; [vm_compute; reflexivity|]. split; [|reflexivity].
  apply (selected_inbounds_serve_order (db sample_shop) 1 sample_plan (Some 1) None 2 true).
  vm_compute. reflexivity.
Defined.

(** With routing switched on and the fallback off, the one route decides. *)
Definition routed_shop : DB := (db sample_shop) {{
  stores ::= alter (fun s => s {{ Store.plan_inbound_routing_enabled := true;
                                 Store.allow_global_inbound_fallback := false }}) 1;
  routes := {[ 5 := {| PlanInboundRoute.store := Some 1; PlanInboundRoute.plan := 1;
    PlanInboundRoute.operator := None; PlanInboundRoute.inbound := 20;
    PlanInboundRoute.is_active := true; PlanInboundRoute.priority := 1; PlanInboundRoute.weight := 1;
    PlanInboundRoute.note := "" |} ]} }}.

Lemma no_fallback_follows_routes_witness :
  exists i : keyed_inbound, i.1 = 20 /\
    exists k r, routes routed_shop !! k = Some r /\ PlanInboundRoute.plan r = 1 /\
    PlanInboundRoute.is_active r = true /\ PlanInboundRoute.inbound r = i.1 /\
    (PlanInboundRoute.operator r = None \/ PlanInboundRoute.operator r = None).
Proof.
  exists (20, sample_inbound 2 4 7). split; [reflexivity|].
  eapply (no_fallback_follows_routes routed_shop 1 sample_plan (Some 1) None 2 true);
    vm_compute; reflexivity.
Defined.

Lemma available_inbound_least_loaded_witness :
  exists i : keyed_inbound, get_available_inbound (db sample_shop) (Some 1) 2 true = Some i /\ i.1 = 10 /\
    (current_users i.2 < 7 \/ (current_users i.2 = 7 /\ i.1 <= 20)).
Proof.
  assert (H : get_available_inbound (db sample_shop) (Some 1) 2 true = Some (10, sample_inbound 1 3 5))
    by (vm_compute; reflexivity).
  eexists. split; [exact H|]. split; [reflexivity|].
  apply (available_inbound_least_loaded _ _ _ _ _ H 20 (sample_inbound 2 4 7)); [vm_compute; reflexivity|].
  apply check_inbound_iff; [easy|]. vm_compute. reflexivity.
Defined.
