(* ===== verification/Scope.v ===== *)
(** Where and how an order is provisioned (first half of
    src/store/provisioning_services.py): the strategy a panel calls for, the
    scope an order freezes at checkout and its resolution at activation, and
    the identities derived for the order's panel clients. *)

From S2P Require Import Prelude Models World Numbers Compat Inbounds.

(** ** Strategies *)

Definition STRATEGY_LEGACY_PRECREATE_INACTIVE : string := "legacy_precreate_inactive".
Definition STRATEGY_DEFERRED_CREATE_ENABLED : string := "deferred_create_enabled".
Definition STRATEGY_DIRECT_CREATE_ENABLED : string := "direct_create_enabled".
Definition STRATEGY_RENEW_EXISTING_CLIENT : string := "renew_existing_client".

(** [panel.capability_profile or LEGACY_SINGLE_NODE] *)
Definition panel_profile (p : Panel.panel) : Panel.capability_profile_t :=
  match Panel.capability_profile p with
  | Panel.NO_PROFILE => Panel.LEGACY_SINGLE_NODE
  | c => c
  end.

Definition is_modern_panel (p : Panel.panel) : bool :=
  match panel_profile p with
  | Panel.MODERN_SINGLE_NODE | Panel.MODERN_MULTI_NODE | Panel.PASARGUARD_GROUPS => true
  | _ => false
  end.

Definition profile_name (c : Panel.capability_profile_t) : string :=
  match c with
  | Panel.NO_PROFILE => ""
  | Panel.LEGACY_SINGLE_NODE => "legacy_single_node"
  | Panel.MODERN_SINGLE_NODE => "modern_single_node"
  | Panel.MODERN_MULTI_NODE => "modern_multi_node"
  | Panel.PASARGUARD_GROUPS => "pasarguard_groups"
  | Panel.UNKNOWN_SAFE => "unknown_safe"
  end.

Definition order_is_renewal (o : Order.order) : bool := md_truthy "renewal_client_pk" (Order.metadata o).

Definition order_is_admin_direct (o : Order.order) : bool :=
  md_truthy "admin_direct_purchase" (Order.metadata o) || md_truthy "free_grant" (Order.metadata o)
  || bool_decide (Order.payment_method o = Order.ADMIN_FREE).

Definition resolve_provisioning_strategy (p : Panel.panel) (order_type : string) : string :=
  if bool_decide (order_type = "renewal") then STRATEGY_RENEW_EXISTING_CLIENT
  else if bool_decide (order_type ∈ ["free_trial"; "admin_direct_paid_grant"; "admin_direct_purchase"]) then
    if is_modern_panel p then STRATEGY_DIRECT_CREATE_ENABLED else STRATEGY_LEGACY_PRECREATE_INACTIVE
  else if is_modern_panel p then STRATEGY_DEFERRED_CREATE_ENABLED
  else STRATEGY_LEGACY_PRECREATE_INACTIVE.

(** The panel of an order's inbound. *)
Definition order_panel (d : DB) (o : Order.order) : option Panel.panel :=
  Order.inbound o ≫= fun i => inbounds d !! i ≫= inbound_panel d.

Definition resolve_order_provisioning_strategy (d : DB) (o : Order.order) : string :=
  if order_is_renewal o then STRATEGY_RENEW_EXISTING_CLIENT
  else match order_panel d o with
       | None => STRATEGY_LEGACY_PRECREATE_INACTIVE
       | Some p => resolve_provisioning_strategy p
                     (if order_is_admin_direct o then "admin_direct_purchase" else "paid_purchase")
       end.

(** ** The frozen scope *)

Section Scope.
Context `{Env}.

Definition json_opt (o : option Z) : json := match o with Some z => JNum z | None => JNull end.

Definition provisioning_scope (d : DB) (i : keyed_inbound) : list (string * json) :=
  let panel := inbound_panel d i.2 in
  [ ("panel_id", json_opt (if is_set panel then Inbound.panel i.2 else None));
    ("panel_profile", JStr (match panel with Some p => profile_name (panel_profile p) | None => "" end));
    ("inbound_pk", JNum i.1);
    ("xui_inbound_id", JNum (Inbound.inbound_id i.2));
    ("node_id", JStr (Inbound.xui_node_id i.2));
    ("node_name", JStr (Inbound.xui_node_name i.2));
    ("remote_key", JStr (match panel with Some _ => inbound_remote_key i.2 | None => "" end)) ].

(** [_scope_value]: "" for a missing or null value, else [str(v).strip()]. *)
Definition scope_value (scope : list (string * json)) (key : string) : string :=
  match assoc key scope with
  | Some (JNum z) => strip (pretty z)
  | Some (JStr s) => strip s
  | _ => ""
  end.

(** [str(current or "").strip()] of an integer column. *)
Definition column_text (o : option Z) : string :=
  match o with Some z => if z =? 0 then "" else strip (pretty z) | None => "" end.

Definition scope_agrees (scope : list (string * json)) (key current : string) : bool :=
  bool_decide (scope_value scope key = "") || bool_decide (scope_value scope key = current).

Definition scope_matches_inbound (scope : list (string * json)) (i : option keyed_inbound) : bool :=
  match scope, i with
  | [], _ | _, None => false
  | _, Some (pk, row) =>
      scope_agrees scope "panel_id" (column_text (Inbound.panel row))
      && scope_agrees scope "inbound_pk" (column_text (Some pk))
      && scope_agrees scope "xui_inbound_id" (column_text (Some (Inbound.inbound_id row)))
      && scope_agrees scope "node_id" (strip (Inbound.xui_node_id row))
  end.

Definition metadata_scope (m : metadata) : list (string * json) :=
  match m !! "provisioning_scope" with Some (JObj kv) => kv | _ => [] end.

Definition keyed (d : DB) (pk : Z) : option keyed_inbound := (fun i => (pk, i)) <$> inbounds d !! pk.

(** [Inbound.objects.filter(pk=text).first()] *)
Definition inbound_by_pk_text (d : DB) (text : string) : option keyed_inbound :=
  first_where (fun k _ => bool_decide (strip (pretty k) = text)) (inbounds d).

(** Inbounds at the scope's panel, remote id and node, in key order. *)
Definition inbounds_at (d : DB) (scope : list (string * json)) : list keyed_inbound :=
  order_by (fun kv => [kv.1])
    (rows_where (fun _ i =>
       bool_decide (Inbound.panel i ≠ None)
       && bool_decide (strip (pretty (default 0 (Inbound.panel i))) = scope_value scope "panel_id")
       && bool_decide (strip (pretty (Inbound.inbound_id i)) = scope_value scope "xui_inbound_id")
       && bool_decide (Inbound.xui_node_id i = scope_value scope "node_id")) (inbounds d)).

Definition resolve_frozen_order_inbound (d : DB) (o : Order.order) : result (option keyed_inbound) :=
  let scope := metadata_scope (Order.metadata o) in
  let current := Order.inbound o ≫= keyed d in
  if bool_decide (length scope = 0%nat) then Ret current
  else if scope_matches_inbound scope current then Ret current
  else
    let by_pk := if bool_decide (scope_value scope "inbound_pk" = "") then None
                 else inbound_by_pk_text d (scope_value scope "inbound_pk") in
    if scope_matches_inbound scope by_pk then Ret by_pk
    else if bool_decide (scope_value scope "panel_id" = "")
            || bool_decide (scope_value scope "xui_inbound_id" = "")
    then Raise (XUIError "frozen_provisioning_scope_mismatch")
    else match inbounds_at d scope with
         | [i] => Ret (Some i)
         | [] => Raise (XUIError "frozen_provisioning_scope_mismatch")
         | _ => Raise (XUIError "frozen_provisioning_scope_ambiguous")
         end.

(** ** Bundles *)

Definition metadata_scopes (m : metadata) : list (list (string * json)) :=
  match m !! "provisioning_scopes" with
  | Some (JList l) => map (fun j => match j with JObj kv => kv | _ => [] end) l
  | _ => []
  end.

Definition resolve_bundle_member (d : DB) (scope : list (string * json)) : result keyed_inbound :=
  let by_pk := if bool_decide (scope_value scope "inbound_pk" = "") then None
               else inbound_by_pk_text d (scope_value scope "inbound_pk") in
  let found := if scope_matches_inbound scope by_pk then by_pk
               else match inbounds_at d scope with [i] => Some i | _ => None end in
  match found with
  | Some i => if scope_matches_inbound scope found then Ret i
              else Raise (XUIError "frozen_multi_provisioning_scope_mismatch")
  | None => Raise (XUIError "frozen_multi_provisioning_scope_mismatch")
  end.

Fixpoint resolve_bundle_members (d : DB) (scopes : list (list (string * json))) : result (list keyed_inbound) :=
  match scopes with
  | [] => Ret []
  | s :: rest => i ← resolve_bundle_member d s; l ← resolve_bundle_members d rest; Ret (i :: l)
  end.

Definition resolve_frozen_order_inbounds (d : DB) (o : Order.order) : result (list keyed_inbound) :=
  let scopes := metadata_scopes (Order.metadata o) in
  if negb (md_truthy "multi_inbound_bundle" (Order.metadata o)) || bool_decide (length scopes = 0%nat)
  then i ← resolve_frozen_order_inbound d o; Ret (match i with Some i => [i] | None => [] end)
  else
    members ← resolve_bundle_members d scopes;
    match dedupe [] members with
    | [] => Raise (XUIError "frozen_multi_provisioning_scope_empty")
    | (i :: _) as l =>
        if existsb (fun j : keyed_inbound => negb (bool_decide (Inbound.panel j.2 = Inbound.panel i.2))) l
        then Raise (XUIError "frozen_multi_provisioning_scope_cross_panel")
        else match inbound_panel d i.2 with
             | Some p => if Panel.is_pasarguard p || bool_decide (panel_profile p = Panel.MODERN_MULTI_NODE)
                         then Ret l
                         else Raise (XUIError "frozen_multi_provisioning_requires_modern_multi_node")
             | None => Raise (XUIError "frozen_multi_provisioning_requires_modern_multi_node")
             end
    end.

Definition freeze_order_provisioning_metadata (d : DB) (o : Order.order) (i : keyed_inbound)
    (strategy : string) : metadata :=
  setdefault "provisioning_scope" (JObj (provisioning_scope d i))
    (<["provisioning_strategy" := JStr strategy]> (Order.metadata o)).

(** ** Identities *)

Definition identity_base (d : DB) (o : Order.order) (i : keyed_inbound) (index : Z) : string :=
  join "|" [ "qasedak"; "paid-provisioning"; Order.public_id o; Order.order_tracking_code o;
             num_text (if is_set (inbound_panel d i.2) then Inbound.panel i.2 else None);
             or_str (Inbound.xui_node_id i.2) "local";
             num_text (Some (Inbound.inbound_id i.2)); pretty index ].

Definition bundle_identity_base (o : Order.order) (l : list keyed_inbound) (index : Z) : string :=
  let keys := map (fun i : keyed_inbound => inbound_remote_key i.2) l in
  join "|" [ "qasedak"; "paid-multi-inbound-provisioning"; Order.public_id o;
             Order.order_tracking_code o;
             num_text (head l ≫= fun i => Inbound.panel i.2);
             join "," (merge_sort String.le keys); pretty index ].

Definition identity_email_prefix (o : Order.order) : string :=
  let prefix := match Order.metadata o !! "provisioning_email_prefix" with
                | Some (JStr s) => s | _ => "" end in
  or_str prefix (or_str (Order.username o) (build_client_display_name o)).

Definition identity_of_base (o : Order.order) (base : string) : identity :=
  let uuid := uuid5 base in
  {| id_uuid := uuid;
     id_sub_id := String.substring 0 16 (sha256 ("sub:" +:+ base));
     id_email := build_xui_client_email (identity_email_prefix o) uuid;
     id_email_prefix := identity_email_prefix o;
     id_idempotency_key := sha256 base |}.

Definition order_identity (d : DB) (o : Order.order) (i : keyed_inbound) (index : Z) : identity :=
  identity_of_base o (identity_base d o i index).

Definition multi_inbound_order_identity (o : Order.order) (l : list keyed_inbound) (index : Z) : identity :=
  identity_of_base o (bundle_identity_base o l index).
End Scope.

(** ** Provisioning state *)

Definition mark_provisioning_state (status : Order.provisioning_status_t) (error : string)
    (provisioned_at : option Z) (key : string) (increment : bool) (o : Order.order) : Order.order :=
  let o := o {{ Order.provisioning_status := status }} in
  let o := if increment then o {{ Order.provisioning_attempts ::= Z.succ }} else o in
  let o := if negb (bool_decide (error = "")) || negb (bool_decide (status = Order.FAILED))
           then o {{ Order.last_provisioning_error := error }} else o in
  let o := match provisioned_at with
           | Some t => o {{ Order.provisioned_at := Some t }} | None => o end in
  if bool_decide (key = "") then o else o {{ Order.provisioning_idempotency_key := key }}.

Definition provisioning_block_reason (o : Order.order) : string :=
  match Order.status o with
  | Order.REJECTED | Order.CANCELLED => "order_status_not_provisionable"
  | st =>
      if bool_decide (Order.verification_status o = Order.V_REJECTED) then "payment_rejected"
      else if bool_decide (st = Order.COMPLETED) then "completed_order_not_verified" else ""
  end.

(** ** What freezing a scope guarantees *)

Section Theorems.
Context `{Env}.

(** A scope that names a number names this one. *)
Definition names (scope : list (string * json)) (key : string) (z : Z) : Prop :=
  scope_value scope key = "" \/ scope_value scope key = strip (pretty z).

Lemma agrees_names scope key o z :
  scope_agrees scope key (column_text o) = true -> o = Some z -> names scope key z.
Proof.
  unfold scope_agrees, names, column_text. intros [Hb|Hb]%orb_true_iff ->;
    apply bool_decide_eq_true in Hb; [by left|].
  destruct (z =? 0); [by left|by right].
Qed.

(** The place a frozen scope describes: panel, remote inbound and node. *)
Definition same_place (scope : list (string * json)) (i : Inbound.inbound) : Prop :=
  (forall p, Inbound.panel i = Some p -> names scope "panel_id" p) /\
  names scope "xui_inbound_id" (Inbound.inbound_id i) /\
  (scope_value scope "node_id" = "" \/ scope_value scope "node_id" = strip (Inbound.xui_node_id i) \/
   scope_value scope "node_id" = Inbound.xui_node_id i).

Lemma scope_matches_place scope i :
  scope_matches_inbound scope (Some i) = true -> same_place scope i.2.
Proof.
  unfold scope_matches_inbound. destruct scope as [|e scope]; [done|]. destruct i as [pk row]. cbn [snd].
  intros [[[Hp _]%andb_true_iff Hx]%andb_true_iff Hn]%andb_true_iff. split; [|split].
  - intros p. by apply agrees_names.
  - by eapply agrees_names.
  - unfold scope_agrees in Hn. apply orb_true_iff in Hn as [Hn|Hn]; apply bool_decide_eq_true in Hn; auto.
Qed.

Lemma inbounds_at_place d scope i : i ∈ inbounds_at d scope -> same_place scope i.2.
Proof.
  destruct i as [pk row]. unfold inbounds_at.
  intros [_ [[[Hset Hp]%andb_true_iff Hx]%andb_true_iff Hn]%andb_true_iff]%elem_of_order_by%elem_of_rows_where.
  apply bool_decide_eq_true in Hset, Hp, Hx, Hn. cbn [snd]. split; [|split; [by right|]].
  - intros p Hpp. rewrite Hpp in Hp. by right.
  - rewrite <- Hn. auto.
Qed.

(** An order that froze its place at checkout is only ever provisioned
    there: whatever happened to the inbound rows since, resolution either
    fails or yields an inbound of the frozen panel, remote inbound and node. *)
Theorem frozen_scope_respected d o i :
  metadata_scope (Order.metadata o) <> [] ->
  resolve_frozen_order_inbound d o = Ret (Some i) ->
  same_place (metadata_scope (Order.metadata o)) i.2.
Proof.
  unfold resolve_frozen_order_inbound. set (scope := metadata_scope _). intros Hne.
  rewrite bool_decide_false by (destruct scope; [done|done]).
  destruct (scope_matches_inbound scope (Order.inbound o ≫= keyed d)) eqn:E1.
  { intros [= Hi]. rewrite Hi in E1. by apply scope_matches_place. }
  set (by_pk := if bool_decide _ then None else _).
  destruct (scope_matches_inbound scope by_pk) eqn:E2.
  { intros [= Hi]. rewrite Hi in E2. by apply scope_matches_place. }
  destruct (_ || _); [done|]. destruct (inbounds_at d scope) as [|j [|]] eqn:E3; [done| |done].
  intros [= <-]. apply (inbounds_at_place d). rewrite E3. apply list_elem_of_here.
Qed.

Lemma column_text_scope o z : o = Some z -> z <> 0 -> column_text o = strip (pretty z).
Proof. intros -> Hz. unfold column_text. by rewrite (proj2 (Z.eqb_neq z 0)). Qed.

Lemma scope_agrees_value scope key v : scope_value scope key = v -> scope_agrees scope key v = true.
Proof. unfold scope_agrees. intros ->. by rewrite (bool_decide_true (v = v)), orb_true_r. Qed.

Lemma frozen_scope_matches d i p :
  inbound_panel d i.2 <> None -> Inbound.panel i.2 = Some p ->
  i.1 <> 0 -> p <> 0 -> Inbound.inbound_id i.2 <> 0 ->
  scope_matches_inbound (provisioning_scope d i) (Some i) = true.
Proof.
  intros Hpan Hp Hi Hp0 Hx. unfold scope_matches_inbound, provisioning_scope.
  destruct (inbound_panel d i.2) as [pan|]; [|done]. destruct i as [pk row]. cbn [fst snd] in *.
  rewrite (column_text_scope (Inbound.panel row) p), (column_text_scope (Some pk) pk),
    (column_text_scope (Some (Inbound.inbound_id row)) (Inbound.inbound_id row)) by done.
  rewrite Hp. cbn [provisioning_scope]. by rewrite !scope_agrees_value.
Qed.

(** Freezing and resolving agree: the scope an order freezes for an
    inbound resolves to that very inbound while its row still describes the
    same place. *)
Theorem freeze_resolve_roundtrip d o i strategy p :
  keyed d i.1 = Some i -> inbound_panel d i.2 <> None -> Inbound.panel i.2 = Some p ->
  i.1 <> 0 -> p <> 0 -> Inbound.inbound_id i.2 <> 0 ->
  Order.metadata o !! "provisioning_scope" = None ->
  let o' := o {{ Order.inbound := Some i.1;
                 Order.metadata := freeze_order_provisioning_metadata d o i strategy }} in
  resolve_frozen_order_inbound d o' = Ret (Some i).
Proof.
  intros Hk Hpan Hp Hi Hp0 Hx Hm o'. unfold resolve_frozen_order_inbound.
  assert (Hs : metadata_scope (Order.metadata o') = provisioning_scope d i).
  { unfold o', metadata_scope, freeze_order_provisioning_metadata, setdefault. cbn -[provisioning_scope].
    by rewrite lookup_insert_ne, Hm, lookup_insert_eq. }
  rewrite Hs. cbn [Order.inbound o']. change (Order.inbound o' ≫= keyed d) with (keyed d i.1).
  rewrite Hk. by rewrite (frozen_scope_matches d i p).
Qed.
End Theorems.

(** ** The sample shop *)

Lemma frozen_scope_respected_witness :
  let o := (sample_order 10) {{ Order.metadata := {[ "provisioning_scope" :=
             JObj [("panel_id", JNum 1); ("inbound_pk", JNum 99); ("xui_inbound_id", JNum 3)] ]} }} in
  exists i, @resolve_frozen_order_inbound (db sample_shop) o = Ret (Some i) /\
    same_place (metadata_scope (Order.metadata o)) i.2.
Proof.
  intros o. exists (10, sample_inbound 1 3 5).
  assert (Hr : @resolve_frozen_order_inbound (db sample_shop) o = Ret (Some (10, sample_inbound 1 3 5)))
    by (vm_compute; reflexivity).
  split; [exact Hr|]. apply (@frozen_scope_respected (db sample_shop) o _); [|exact Hr].
  vm_compute. discriminate.
Defined.

Lemma freeze_resolve_roundtrip_witness :
  let i := (20, sample_inbound 2 4 7) in
  let o := (sample_order 20) {{ Order.metadata :=
             @freeze_order_provisioning_metadata (db sample_shop) (sample_order 20) i "deferred" }} in
  resolve_frozen_order_inbound (db sample_shop) o = Ret (Some i).
Proof.
  intros i o.
  apply (@freeze_resolve_roundtrip (db sample_shop) (sample_order 20) i "deferred" 2);
    try (vm_compute; reflexivity); vm_compute; discriminate.
Defined.
