(* ===== verification/OrderActions.v ===== *)
(** Rejecting, cancelling and filling in orders (src/store/order_actions.py):
    the client rows of an order, missing clients created disabled on the panel
    before activation, renewals, and the removal of an order's clients. *)

From S2P Require Import Prelude Models World Numbers Referrals OrderStore Inbounds Scope.
Import Order.

Record action_result := mk_action { success : bool; message : string }.

Definition PANEL_LINK_ADMIN_MESSAGE : string :=
  "این کانفیگ به اینباند و پنل معتبر وصل نیست. لطفاً تنظیمات اینباند و پنل را در ادمین بررسی کن.".

Definition required_client_count (o : order) : Z := slots_of (quantity o).

Definition count_clients (pk : Z) (d : DB) : Z :=
  count_where (fun _ c => bool_decide (VPNClient.order c = Some pk)) (clients d).

Definition client_display_username (base : string) (cr : client_result) (o : order) (index : Z) : string :=
  if 1 <? required_client_count o then or_str (cr_email cr) (base +:+ "_" +:+ pretty index) else base.

Section Clients.
Context `{Env}.

Definition uuid_taken (uuid : option string) (d : DB) : bool :=
  is_set uuid && exists_where (fun _ c => bool_decide (VPNClient.uuid c = uuid)) (clients d).

(** [VPNClient.objects.create(...)]; the uuid column is unique. *)
Definition create_order_vpn_client (opk : Z) (o : order) (inbound : option keyed_inbound)
    (username : string) (uuid : option string) (cr : client_result) (status : VPNClient.status_t)
    (now : Z) : IO (Z * VPNClient.vpn_client) :=
  p ← get_plan (plan o);
  d ← get_db;
  if uuid_taken uuid d then raise integrity_error
  else
    let pk := next_pk (clients d) in
    let c := {|
      VPNClient.store := store o; VPNClient.order := Some opk; VPNClient.plan := Some (plan o);
      VPNClient.inbound := fst <$> inbound; VPNClient.username := username;
      VPNClient.xui_email := cr_email cr; VPNClient.uuid := uuid;
      VPNClient.sub_id := cr_sub_id cr; VPNClient.sub_link := cr_sub_link cr;
      VPNClient.direct_link := cr_direct_link cr; VPNClient.status := status;
      VPNClient.traffic_limit_bytes := Plan.traffic_limit_bytes p;
      VPNClient.used_upload_bytes := 0; VPNClient.used_download_bytes := 0;
      VPNClient.used_traffic_bytes := 0; VPNClient.duration_days := Plan.duration_days p;
      VPNClient.device_limit := Plan.device_limit p; VPNClient.activated_at := None;
      VPNClient.expires_at := None; VPNClient.disabled_at := None; VPNClient.deleted_at := None;
      VPNClient.deleted_by_customer := None; VPNClient.deleted_by_admin_telegram_id := "";
      VPNClient.delete_reason := ""; VPNClient.remote_deleted_at := None;
      VPNClient.last_synced_at := None;
      VPNClient.xui_node_id := or_str (cr_xui_node_id cr)
        (match inbound with Some i => Inbound.xui_node_id i.2 | None => "" end);
      VPNClient.remote_client_key := cr_remote_client_key cr; VPNClient.xui_raw := cr_raw cr; VPNClient.remote_check := VPNClient.never_checked;
      VPNClient.created_at := now |} in
    _ ← put_db (set_client pk c); mret (pk, c).

(** Why a client cannot be reached on its panel; empty when it can. *)
Definition vpn_client_panel_error (d : DB) (c : VPNClient.vpn_client) : string :=
  if negb (text_truthy (VPNClient.uuid c)) then "UUID کانفیگ ثبت نشده است."
  else match VPNClient.inbound c with
  | None => "کانفیگ به هیچ inboundی وصل نیست."
  | Some ipk =>
      match inbounds d !! ipk with
      | None => "Inbound کانفیگ در دیتابیس پیدا نشد."
      | Some i =>
          match Inbound.panel i with
          | None => "Inbound کانفیگ به هیچ پنلی وصل نیست."
          | Some ppk =>
              if negb (Inbound.is_active i) then "Inbound کانفیگ غیرفعال است."
              else match panels d !! ppk with
                   | None => "پنل متصل به inbound در دیتابیس پیدا نشد."
                   | Some p => if negb (Panel.is_active p) then "پنل متصل به inbound غیرفعال است." else ""
                   end
          end
      end
  end.

(** Orders from before client rows existed carry one client themselves. *)
Definition ensure_legacy_order_client (opk : Z) (o : order) (now : Z) : IO unit :=
  d ← get_db;
  if (0 <? count_clients opk d) || negb (can_be_activated o) then mret tt
  else
    let text := default "" (uuid o) in
    let cr := {| cr_uuid := text; cr_email := username o; cr_sub_id := "";
                 cr_sub_link := sub_link o; cr_direct_link := direct_link o; cr_expires_at := None;
                 cr_xui_node_id := ""; cr_remote_client_key := "";
                 cr_raw := <["id" := JStr text]> (<["email" := JStr (username o)]> ∅) |} in
    _ ← create_order_vpn_client opk o (inbound o ≫= keyed d) (username o) (uuid o) cr
          VPNClient.INACTIVE now;
    mret tt.

(** Fill the order's own columns from its first client; also the columns
    that changed. *)
Definition sync_order_primary_client_fields (o : order) (c : option VPNClient.vpn_client)
    : order * list field :=
  match c with
  | None => (o, [])
  | Some c =>
      let s := assign (negb (is_set (inbound o)) && is_set (VPNClient.inbound c)) [F_inbound]
                 (fun o => o {{ inbound := VPNClient.inbound c }}) (o, []) in
      let s := assign (bool_decide (username s.1 = "")) [F_username]
                 (fun o => o {{ username := VPNClient.username c }}) s in
      let s := assign (negb (text_truthy (uuid s.1)) && text_truthy (VPNClient.uuid c)) [F_uuid]
                 (fun o => o {{ uuid := VPNClient.uuid c }}) s in
      let s := assign (negb (text_truthy (sub_link s.1)) && text_truthy (VPNClient.sub_link c)) [F_sub_link]
                 (fun o => o {{ sub_link := VPNClient.sub_link c }}) s in
      assign (negb (text_truthy (direct_link s.1)) && text_truthy (VPNClient.direct_link c)) [F_direct_link]
        (fun o => o {{ direct_link := VPNClient.direct_link c }}) s
  end.

(** ** Missing clients *)

Definition LOOKUP_UNCERTAIN_MESSAGE : string :=
  "وضعیت کانفیگ روی پنل نامشخص است؛ بدون بررسی موفق، ساخت دوباره انجام نمی‌شود.".
Definition PANEL_CREATE_FAILED_MESSAGE : string :=
  "ساخت کلاینت در پنل X-UI ناموفق بود. بعد از بررسی دسترسی پنل دوباره تلاش کن.".
Definition NO_SERVER_MESSAGE : string := "فعلاً سرور VPN فعالی برای ساخت کانفیگ در دسترس نیست.".

Definition panel_username (o : order) : string :=
  match metadata o !! "deferred_panel_username" with
  | Some (JStr s) => or_str s (build_client_display_name o)
  | _ => build_client_display_name o
  end.

(** [try: m except Exception: None] *)
Definition attempt {A} (m : IO A) : IO (option A) :=
  catch (a ← m; mret (Some a)) (fun _ => mret None).

(** The client an identity names on the panel, or one created there disabled. *)
Definition find_or_create_inactive (opk : Z) (p : Plan.plan) (i : keyed_inbound) (ident : identity)
    (name : string) (index : Z) : IO (option (option client_result)) :=
  found ← attempt (askR (CallLookup i.1 (id_uuid ident))
            (fun h => lookup_remote_client h i.1 i.2 ident false));
  match found with
  | None => mret None
  | Some (Some cr) => mret (Some (Some cr))
  | Some None =>
      cr ← ask (CallCreateInactive opk index i.1)
             (fun h => create_inactive_client h i.1 i.2 p (Some ident) name);
      mret (Some cr)
  end.

Definition record_missing_failure (opk : Z) (o : order) (now : Z) : IO order :=
  d ← get_db;
  let m := <["panel_provisioning_missing_clients" := JNum (required_client_count o - count_clients opk d)]>
           (<["panel_provisioning_reason" := JStr "panel_unavailable_on_activation"]>
           (<["panel_provisioning_last_failed_at" := JStr (isoformat now)]>
           (<["panel_provisioning_deferred" := JBool true]> (metadata o)))) in
  save_order opk (o {{ metadata := m }}) [F_metadata] now.

(** The loop over missing indices; a message when it stopped early. *)
Fixpoint create_missing_clients (opk : Z) (p : Plan.plan) (i : keyed_inbound) (name : string)
    (now : Z) (indices : list Z) (o : order) : IO (order * option string) :=
  match indices with
  | [] => mret (o, None)
  | index :: rest =>
      d ← get_db;
      r ← find_or_create_inactive opk p i (order_identity d o i index) name index;
      match r with
      | None => mret (o, Some LOOKUP_UNCERTAIN_MESSAGE)
      | Some None =>
          o ← record_missing_failure opk o now;
          mret (o, Some PANEL_CREATE_FAILED_MESSAGE)
      | Some (Some cr) =>
          _ ← create_order_vpn_client opk o (Some i) (client_display_username name cr o index)
                (Some (cr_uuid cr)) cr VPNClient.INACTIVE now;
          _ ← put_db (bump_current_users i.1);
          create_missing_clients opk p i name now rest o
      end
  end.

Definition choose_order_inbound (d : DB) (o : order) (p : Plan.plan) (slots : Z)
    : result (option keyed_inbound) :=
  match inbound o with
  | Some ipk => i ← validate_inbound_for_order d (store o) slots false (keyed d ipk); Ret (Some i)
  | None => select_inbound_for_plan d (plan o) p (store o) (operator o) slots false
  end.

Definition finish_missing_clients (opk : Z) (o : order) (now : Z) : IO order :=
  d ← get_db;
  let '(o, changed) := sync_order_primary_client_fields o (snd <$> head (order_clients opk d)) in
  let m := <["panel_provisioning_missing_clients" := JNum 0]>
           (<["panel_provisioning_reason" := JStr ""]>
           (<["panel_provisioned_at" := JStr (isoformat now)]>
           (<["panel_provisioning_deferred" := JBool false]> (metadata o)))) in
  save_order opk (o {{ metadata := m }}) (changed ++ [F_metadata])%list now.

Definition provision_on_inbound (opk : Z) (o : order) (p : Plan.plan) (i : keyed_inbound)
    (missing now : Z) : IO (order * action_result) :=
  d ← get_db;
  let o := o {{ inbound := Some i.1 }} in
  let o := o {{ metadata := freeze_order_provisioning_metadata d o i STRATEGY_LEGACY_PRECREATE_INACTIVE }} in
  o ← save_order opk o [F_inbound; F_metadata] now;
  d ← get_db;
  let existing := count_clients opk d in
  '(o, failed) ← create_missing_clients opk p i (panel_username o) now (seqZ (existing + 1) missing) o;
  match failed with
  | Some m => mret (o, mk_action false m)
  | None => o ← finish_missing_clients opk o now;
            mret (o, mk_action true "کلاینت‌های پنل ساخته شدند.")
  end.

Definition provision_missing_panel_client (opk : Z) (o : order) (now : Z)
    : IO (order * action_result) :=
  _ ← ensure_legacy_order_client opk o now;
  d ← get_db;
  let missing := required_client_count o - count_clients opk d in
  if missing <=? 0 then mret (o, mk_action true "کلاینت‌های پنل از قبل آماده هستند.")
  else
    p ← get_plan (plan o);
    match choose_order_inbound d o p missing with
    | Raise (ValidationError m) => mret (o, mk_action false m)
    | Raise e => raise e
    | Ret None => mret (o, mk_action false NO_SERVER_MESSAGE)
    | Ret (Some i) => provision_on_inbound opk o p i missing now
    end.

(** ** Renewal *)

(** [VPNClient.objects.filter(pk=value).first()] *)
Definition client_by_json (d : DB) (j : json) : option (Z * VPNClient.vpn_client) :=
  match j with
  | JNum pk => (fun c => (pk, c)) <$> clients d !! pk
  | JStr s => first_where (fun k _ => bool_decide (pretty k = strip s)) (clients d)
  | _ => None
  end.

Definition client_of_other_customer (d : DB) (o : order) (c : VPNClient.vpn_client) : bool :=
  match customer o, VPNClient.order c with
  | Some cpk, Some k =>
      negb (bool_decide ((orders d !! k ≫= fun co => customer co) = Some cpk))
  | _, _ => false
  end.

Definition renewed_client (o : order) (p : Plan.plan) (r : renewal_result)
    (c : VPNClient.vpn_client) : VPNClient.vpn_client :=
  c {{ VPNClient.plan := Some (plan o);
       VPNClient.status := VPNClient.ACTIVE;
       VPNClient.traffic_limit_bytes := Plan.traffic_limit_bytes p;
       VPNClient.used_upload_bytes := 0;
       VPNClient.used_download_bytes := 0;
       VPNClient.used_traffic_bytes := 0;
       VPNClient.duration_days := Plan.duration_days p;
       VPNClient.device_limit := Plan.device_limit p;
       VPNClient.expires_at := or_opt (rn_expiry_at r) (VPNClient.expires_at c);
       VPNClient.disabled_at := None;
       VPNClient.xui_raw := default (VPNClient.xui_raw c) (rn_raw r) }}.

Definition RENEWAL_FAILED_MESSAGE : string := "تمدید روی پنل X-UI ناموفق بود.".

Definition VERIFIED_FIELDS : list field :=
  [F_is_paid; F_verification_status; F_verified_by; F_verified_at; F_status].

Definition activate_renewal_order (opk : Z) (o : order) (user : option Z) (now : Z)
    : IO action_result :=
  d ← get_db;
  match metadata o !! "renewal_client_pk" with
  | Some j =>
      if negb (truthy j) then mret (mk_action false "سفارش تمدید به کانفیگ مقصد وصل نیست.")
      else match client_by_json d j with
      | None => mret (mk_action false "کانفیگ مقصد برای تمدید پیدا نشد.")
      | Some (cpk, c) =>
          if client_of_other_customer d o c
          then mret (mk_action false "کانفیگ مقصد متعلق به این مشتری نیست.")
          else if negb (bool_decide (vpn_client_panel_error d c = ""))
          then mret (mk_action false PANEL_LINK_ADMIN_MESSAGE)
          else
            p ← get_plan (plan o);
            renewed ← ask (CallRenew cpk opk) (fun h => (renew_client h cpk c p, renewal_error h));
            match renewed with
            | (None, err) => mret (mk_action false (or_str err RENEWAL_FAILED_MESSAGE))
            | (Some r, _) =>
                let o := mark_payment_verified user now o in
                let o := o {{ metadata ::= insert "renewed_at" (JStr (isoformat now)) }} in
                _ ← save_order opk o (VERIFIED_FIELDS ++ [F_metadata])%list now;
                _ ← put_db (set_client cpk (renewed_client o p r c));
                mret (mk_action true "سفارش تایید شد و اشتراک VPN تمدید شد.")
            end
      end
  | None => mret (mk_action false "سفارش تمدید به کانفیگ مقصد وصل نیست.")
  end.
End Clients.

(** ** Removing the clients of an order *)

Section Removal.
Context `{Env}.

(** The order's client rows, newest first (the default ordering), or the
    order itself. *)
Definition deletion_targets_for_order (opk : Z) (o : order) (d : DB) : list target :=
  match order_by (fun kc => [- VPNClient.created_at kc.2; - kc.1])
          (rows_where (fun _ c => bool_decide (VPNClient.order c = Some opk)) (clients d)) with
  | [] => if is_set (inbound o) && text_truthy (uuid o) then [TargetOrder opk o] else []
  | l => map (fun kc => TargetClient kc.1 kc.2) l
  end.

(** [target.xui_email or target.username]; an order has no email. *)
Definition target_identifier (t : target) : string :=
  match t with
  | TargetClient _ c => strip (or_str (VPNClient.xui_email c) (VPNClient.username c))
  | TargetOrder _ o => strip (username o)
  end.

Definition target_uuid (t : target) : string :=
  match t with
  | TargetClient _ c => default "" (VPNClient.uuid c)
  | TargetOrder _ o => default "" (uuid o)
  end.

Definition target_panel (d : DB) (t : target) : option Panel.panel :=
  target_inbound t ≫= fun ipk => inbounds d !! ipk ≫= inbound_panel d.

Definition delete_panel_client (t : target) : IO bool :=
  d ← get_db;
  if match target_panel d t with Some p => Panel.is_pasarguard p | None => false end then
    if bool_decide (target_identifier t = "") then mret false
    else catch (askR (CallDelete (target_inbound t) (target_identifier t))
                  (fun h => adapter_delete_client h t))
           (fun _ => mret false)
  else ask (CallDelete (target_inbound t) (target_uuid t)) (fun h => xui_delete_client h t).

(** Delete target after target; stop at the first that fails. *)
Fixpoint delete_targets (l : list target) : IO bool :=
  match l with
  | [] => mret true
  | t :: rest => ok ← delete_panel_client t; if ok : bool then delete_targets rest else mret false
  end.

Definition target_count (l : list target) (ipk : Z) : Z :=
  Z.of_nat (length (filter (fun t => target_inbound t = Some ipk) l)).

(** One update per inbound, never below zero. *)
Definition decrement_inbound (l : list target) (now ipk : Z) (i : Inbound.inbound) : Inbound.inbound :=
  let n := target_count l ipk in
  if (0 <? n) && negb (ipk =? 0) && (0 <? Inbound.current_users i) then
    i {{ Inbound.current_users := if Inbound.current_users i <? n then 0 else Inbound.current_users i - n;
         Inbound.updated_at := now }}
  else i.

Definition decrement_inbound_users_for_targets (l : list target) (now : Z) (d : DB) : DB :=
  d {{ inbounds ::= map_imap (fun ipk i => Some (decrement_inbound l now ipk i)) }}.

(** [for vpn_client in order.vpn_clients.all(): ...] *)
Definition suspend_clients (opk now : Z) (key : string) (value : bool) (d : DB) : DB :=
  d {{ clients ::= update_where (fun _ c => bool_decide (VPNClient.order c = Some opk))
         (fun c => (VPNClient.mark_suspended now c)
            {{ VPNClient.xui_raw ::= insert key (JBool value) }}) }}.

(** The writes that follow a successful removal, shared by [reject_order]
    and [cancel_order]. *)
Definition commit_removal (opk : Z) (o : order) (fields : list field) (targets : list target)
    (key : string) (value : bool) (now : Z) : IO order :=
  o ← save_order opk o fields now;
  _ ← put_db (suspend_clients opk now key value);
  _ ← put_db (decrement_inbound_users_for_targets targets now);
  mret o.

Definition COMPLETED_NOT_REJECTED : string := "Completed orders cannot be rejected.".
Definition PANEL_DELETION_FAILED : string := "Panel client deletion failed.".

Definition rejected_order (targets : list target) (reason : string) (user : option Z) (now : Z)
    (o : order) : order :=
  (mark_payment_rejected reason user now o) {{
    provisioning_status := NOT_REQUIRED;
    last_provisioning_error := "";
    metadata ::= fun m =>
      <["panel_clients_deleted_on_reject" := JNum (Z.of_nat (length targets))]>
      (<["panel_client_deleted_on_reject" := JBool (negb (bool_decide (length targets = 0%nat)))]> m) }}.

Definition reject_order (opk : Z) (reason : string) (user : option Z) (notify : bool) (now : Z)
    : IO action_result :=
  outcome ← atomic (
    o ← get_order opk;
    if bool_decide (status o = COMPLETED) then mret (inl COMPLETED_NOT_REJECTED)
    else
      d ← get_db;
      let targets := deletion_targets_for_order opk o d in
      ok ← delete_targets targets;
      if negb ok then mret (inl PANEL_DELETION_FAILED)
      else
        o ← commit_removal opk (rejected_order targets reason user now o)
              [F_verification_status; F_verified_by; F_verified_at; F_rejection_reason; F_status;
               F_provisioning_status; F_last_provisioning_error; F_metadata]
              targets "deleted_on_reject" true now;
        mret (inr o));
  match outcome with
  | inl m => mret (mk_action false m)
  | inr o =>
      _ ← (if notify : bool then
             _ ← askR (CallNotify opk "rejected") (fun h => notify_order_event h opk o "rejected");
             mret tt
           else mret tt);
      mret (mk_action true "Order rejected.")
  end.

Definition cancelled_order (targets : list target) (hide : bool) (o : order) : order :=
  o {{ status := CANCELLED;
       provisioning_status := NOT_REQUIRED;
       last_provisioning_error := "";
       metadata ::= fun m =>
         <["panel_clients_deleted_on_cancel" := JNum (Z.of_nat (length targets))]>
         (<["panel_client_deleted_on_cancel" := JBool (negb (bool_decide (length targets = 0%nat)))]>
         (<["cancelled_by_customer" := JBool true]>
         (<["customer_hidden" := JBool hide]> m))) }}.

Definition cancel_order (opk : Z) (hide : bool) (now : Z) : IO action_result := atomic (
  o ← get_order opk;
  d ← get_db;
  let targets := deletion_targets_for_order opk o d in
  ok ← delete_targets targets;
  if negb ok then mret (mk_action false PANEL_DELETION_FAILED)
  else
    _ ← commit_removal opk (cancelled_order targets hide o)
          [F_status; F_provisioning_status; F_last_provisioning_error; F_metadata]
          targets "deleted_on_cancel" (negb (bool_decide (length targets = 0%nat))) now;
    mret (mk_action true "Order deleted from dashboard.")).
End Removal.

(** ** What a removal guarantees *)

Section Theorems.
Context `{Env}.

(** The panel's answer to the deletion of a target, after history [h]. *)
Definition panel_accepts (d : DB) (h : list call) (t : target) : Prop :=
  match target_panel d t with
  | Some p => if Panel.is_pasarguard p
              then target_identifier t <> "" /\ adapter_delete_client h t = Ret true
              else xui_delete_client h t = true
  | None => xui_delete_client h t = true
  end.

Definition delete_call (d : DB) (t : target) : call :=
  CallDelete (target_inbound t)
    (if match target_panel d t with Some p => Panel.is_pasarguard p | None => false end
     then target_identifier t else target_uuid t).

(** Every target was asked to be deleted, in order, and every panel agreed. *)
Inductive all_deleted (d : DB) : list call -> list target -> list call -> Prop :=
| no_target h : all_deleted d h [] h
| one_target h t l h' :
    panel_accepts d h t -> all_deleted d (delete_call d t :: h) l h' -> all_deleted d h (t :: l) h'.

Lemma delete_panel_client_inv t w :
  exists b w', delete_panel_client t w = (Ret b, w') /\ db w' = db w /\ locks w' = locks w /\
    (b = true -> panel_accepts (db w) (calls w) t /\ calls w' = delete_call (db w) t :: calls w).
Proof.
  unfold delete_panel_client, panel_accepts, delete_call. run_io.
  destruct (target_panel (db w) t) as [p|]; cbn [andb].
  2: { eexists _, _. split; [reflexivity|]. by destruct w. }
  destruct (Panel.is_pasarguard p).
  2: { eexists _, _. split; [reflexivity|]. by destruct w. }
  case_bool_decide; cbn. { by eexists _, _. }
  destruct (adapter_delete_client _ t) as [b|e]; cbn; eexists _, _; (split; [reflexivity|]).
  - do 2 (split; [done|]). by intros ->.
  - by cbn.
Qed.

Lemma delete_targets_inv l w :
  exists b w', delete_targets l w = (Ret b, w') /\ db w' = db w /\ locks w' = locks w /\
    (b = true -> all_deleted (db w) (calls w) l (calls w')).
Proof.
  revert w. induction l as [|t l IH]; intros w; cbn [delete_targets].
  - exists true, w. repeat split. intros _. constructor.
  - destruct (delete_panel_client_inv t w) as (b & w1 & E & Hd & Hl & Hb). run_io. rewrite E.
    destruct b.
    + destruct (IH w1) as (b & w2 & E2 & Hd2 & Hl2 & Hb2). rewrite E2.
      exists b, w2. repeat split; [congruence..|]. intros ->.
      destruct (Hb eq_refl) as [Ha Hc]. constructor; [done|]. rewrite <- Hc, <- Hd. auto.
    + exists false, w1. by repeat split.
Qed.

(** The order's row after a removal. *)
Definition removed_row (o' row : order) (s : status_t) : Prop :=
  status o' = s /\ provisioning_status o' = NOT_REQUIRED /\
  quantity o' = quantity row /\ plan o' = plan row.

(** What [commit_removal] leaves: the row written, the clients suspended, the
    counters lowered, everything else as it was. *)
Lemma commit_removal_inv opk o fs targets key v now w o' w' :
  commit_removal opk o fs targets key v now w = (Ret o', w') ->
  exists p row, plans (db w) !! plan o = Some p /\ orders (db w) !! opk = Some row /\
    orders (db w') = <[opk := saved_row o fs p now row]> (orders (db w)) /\
    clients (db w') = clients (suspend_clients opk now key v (db w)) /\
    inbounds (db w') = inbounds (decrement_inbound_users_for_targets targets now (db w)) /\
    automations (db w') = automations (db w) /\ calls w' = calls w /\ locks w' = locks w.
Proof.
  unfold commit_removal. run_io.
  destruct (save_order opk o fs now w) as [[o1|e] w1] eqn:E; [|done].
  apply save_order_inv in E as (p & row & Hp & Hrow & _ & Hv).
  intros [-> ->]%run_Ret_inj. exists p, row. do 2 (split; [done|]).
  apply service_view_inv in Hv as (Ho & Hc & Hi & _ & _ & Ha & _ & _ & _ & Hl & Hcl).
  split; [exact Ho|]. split; [cbn; by rewrite Hc|]. split; [cbn; by rewrite Hi|]. auto.
Qed.

Lemma suspended_after opk now key v d k c :
  clients (suspend_clients opk now key v d) !! k = Some c ->
  VPNClient.order c = Some opk -> VPNClient.status c = VPNClient.SUSPENDED.
Proof.
  cbn. rewrite lookup_update_where. destruct (clients d !! k) as [c0|]; [|done]. cbn.
  case_bool_decide; intros [= <-] Ho; [done|congruence].
Qed.

Lemma prepare_keeps_removed (p : Plan.plan) now today o s :
  s <> LEGACY_PENDING -> status o = s -> status (prepare_save p now today o).1 = s.
Proof. intros Hs Ho. rewrite prepare_save_status, Ho. by rewrite bool_decide_false. Qed.

(** An order taken out of service: its row says so, nobody else's changed,
    and none of its clients is in use any more. *)
Record taken_out (w w' : World) (opk : Z) (st : status_t) : Prop := {
  to_row : exists o o', orders (db w) !! opk = Some o /\ orders (db w') !! opk = Some o' /\
             removed_row o' o st;
  to_others : forall k, k <> opk -> orders (db w') !! k = orders (db w) !! k;
  to_clients : forall k c, clients (db w') !! k = Some c -> VPNClient.order c = Some opk ->
                 VPNClient.status c = VPNClient.SUSPENDED;
  to_other_clients : forall k c, clients (db w) !! k = Some c -> VPNClient.order c <> Some opk ->
                       clients (db w') !! k = Some c;
  to_automations : automations (db w') = automations (db w);
}.

Lemma commit_removal_taken_out opk o fs targets key v now w o' w' st :
  st <> LEGACY_PENDING -> status o = st -> provisioning_status o = NOT_REQUIRED ->
  F_status ∈ fs -> F_provisioning_status ∈ fs ->
  commit_removal opk o fs targets key v now w = (Ret o', w') ->
  taken_out w w' opk st /\ calls w' = calls w /\
  (F_verification_status ∈ fs -> exists row, orders (db w') !! opk = Some row /\
     verification_status row = verification_status o).
Proof.
  intros Hst Ho Hps Hf1 Hf2 (p & row & Hp & Hrow & Hos & Hcs & His & Ha & Hc & Hl)%commit_removal_inv.
  unfold saved_row in Hos. set (s := prepare_save _ _ _ o) in Hos.
  assert (Hs1 : status s.1 = st) by (by apply prepare_keeps_removed).
  assert (Hs2 : provisioning_status s.1 = NOT_REQUIRED) by (rewrite <- Hps; by apply prepare_save_keeps).
  assert (Hs3 : verification_status s.1 = verification_status o) by (by apply prepare_save_keeps).
  clearbody s. split; [|split; [done|]].
  - constructor.
    + exists row. eexists. split; [done|]. rewrite Hos. split; [apply lookup_insert_eq|].
      unfold removed_row. rewrite write_status, write_provisioning_status, write_quantity, write_plan.
      rewrite !bool_decide_true by set_solver. done.
    + intros k Hk. rewrite Hos. by apply lookup_insert_ne.
    + intros k c. rewrite Hcs. apply suspended_after.
    + intros k c Hk Hne. rewrite Hcs. cbn. rewrite lookup_update_where, Hk. cbn.
      by rewrite bool_decide_false.
    + done.
  - intros Hf3. eexists. rewrite Hos. split; [apply lookup_insert_eq|].
    by rewrite write_verification_status, bool_decide_true by set_solver.
Qed.

(** Rejecting an order is all or nothing: when it reports failure the
    database is untouched; when it reports success the order was not
    completed, every one of its panel clients has been deleted on its panel,
    the order is rejected with its payment refused and nothing left to
    provision, its clients are suspended and no other order changed. *)
Theorem reject_order_all_or_nothing opk reason user notify now w r w' :
  reject_order opk reason user notify now w = (Ret r, w') ->
  (success r = false /\ db w' = db w) \/
  (success r = true /\ taken_out w w' opk REJECTED /\
   exists o o' h, orders (db w) !! opk = Some o /\ status o <> COMPLETED /\
     orders (db w') !! opk = Some o' /\ verification_status o' = V_REJECTED /\
     all_deleted (db w) (calls w) (deletion_targets_for_order opk o (db w)) h /\
     calls w' = (if notify then [CallNotify opk "rejected"] else []) ++ h).
Proof.
  unfold reject_order. run_io. unfold get_order. run_io.
  destruct (orders (db w) !! opk) as [o|] eqn:Ho; [|done].
  case_bool_decide as Hc. { intros [= <- <-]. by left. }
  set (ts := deletion_targets_for_order _ _ _).
  destruct (delete_targets_inv ts w) as (b & w1 & E & Hd & Hl & Hb). rewrite E.
  destruct b; cbn [negb]. 2: { intros [= <- <-]. by left. }
  specialize (Hb eq_refl).
  destruct (commit_removal _ _ _ _ _ _ _ w1) as [[o1|e] w2] eqn:E2; [|done].
  apply (commit_removal_taken_out _ _ _ _ _ _ _ _ _ _ REJECTED) in E2 as (Ht & Hcalls & Hv);
    [|done..|set_solver|set_solver].
  destruct (Hv ltac:(set_solver)) as (row & Hrow & Hvs).
  assert (Ht' : taken_out w w2 opk REJECTED) by (destruct Ht; rewrite Hd in *; by constructor).
  rewrite <- Hcalls in Hb. clear Ht Hv E.
  destruct notify.
  - destruct (notify_order_event _ _ _ _); [|done]. intros [= <- <-]. right. split; [done|].
    split; [by destruct Ht'; constructor|]. by exists o, row, (calls w2).
  - intros [= <- <-]. right. split; [done|]. split; [done|]. by exists o, row, (calls w2).
Qed.

(** Cancelling an order is all or nothing as well: either nothing in
    the database changed, or every panel client of the order has been
    deleted, the order is cancelled, its clients are suspended and no other
    order changed. *)
Theorem cancel_order_all_or_nothing opk hide now w r w' :
  cancel_order opk hide now w = (Ret r, w') ->
  (success r = false /\ db w' = db w) \/
  (success r = true /\ taken_out w w' opk CANCELLED /\
   exists o, orders (db w) !! opk = Some o /\
     all_deleted (db w) (calls w) (deletion_targets_for_order opk o (db w)) (calls w')).
Proof.
  unfold cancel_order. run_io. unfold get_order. run_io.
  destruct (orders (db w) !! opk) as [o|] eqn:Ho; [|done].
  set (ts := deletion_targets_for_order _ _ _).
  destruct (delete_targets_inv ts w) as (b & w1 & E & Hd & Hl & Hb). rewrite E.
  destruct b; cbn [negb]. 2: { intros [= <- <-]. by left. }
  specialize (Hb eq_refl).
  destruct (commit_removal _ _ _ _ _ _ _ w1) as [[o1|e] w2] eqn:E2; [|done].
  apply (commit_removal_taken_out _ _ _ _ _ _ _ _ _ _ CANCELLED) in E2 as (Ht & Hcalls & _);
    [|done..|set_solver|set_solver].
  intros [= <- <-]. right. split; [done|]. split.
  - destruct Ht; rewrite Hd in *; by constructor.
  - exists o. split; [done|]. by rewrite Hcalls.
Qed.

(** The user counter of an inbound goes down by exactly the number of
    clients removed from it, and never below zero. *)
Theorem decrement_inbound_users_exact targets now d ipk i :
  inbounds d !! ipk = Some i -> ipk <> 0 -> 0 <= Inbound.current_users i ->
  exists i', inbounds (decrement_inbound_users_for_targets targets now d) !! ipk = Some i' /\
    Inbound.current_users i' = Z.max 0 (Inbound.current_users i - target_count targets ipk) /\
    Inbound.max_clients i' = Inbound.max_clients i.
Proof.
  intros Hi Hk Hn. cbn. rewrite map_lookup_imap, Hi. cbn. eexists. split; [reflexivity|].
  unfold decrement_inbound. rewrite (proj2 (Z.eqb_neq ipk 0)) by done. rewrite andb_true_r.
  assert (0 <= target_count targets ipk) by (unfold target_count; lia).
  destruct (Z.ltb_spec 0 (target_count targets ipk)), (Z.ltb_spec 0 (Inbound.current_users i));
    cbn; split; try reflexivity; try lia.
  destruct (Z.ltb_spec (Inbound.current_users i) (target_count targets ipk)); lia.
Qed.
End Theorems.

(** ** The sample shop *)

Lemma reject_order_all_or_nothing_witness :
  let run := @reject_order sample_env 1000 "no receipt" None true 5 sample_shop in
  taken_out sample_shop run.2 1000 REJECTED.
Proof.
  intros run. assert (Hr : run.1 = Ret (mk_action true "Order rejected.")) by (vm_compute; reflexivity).
  destruct (@reject_order_all_or_nothing sample_env 1000 "no receipt" None true 5 sample_shop
              (mk_action true "Order rejected.") run.2) as [[H _]|(_ & Ht & _)].
  - rewrite <- Hr. apply surjective_pairing.
  - discriminate H.
  - exact Ht.
Defined.

Lemma cancel_order_all_or_nothing_witness :
  let run := @cancel_order sample_env 1000 true 5 sample_shop in
  taken_out sample_shop run.2 1000 CANCELLED.
Proof.
  intros run.
  assert (Hr : run.1 = Ret (mk_action true "Order deleted from dashboard.")) by (vm_compute; reflexivity).
  destruct (@cancel_order_all_or_nothing sample_env 1000 true 5 sample_shop
              (mk_action true "Order deleted from dashboard.") run.2) as [[H _]|(_ & Ht & _)].
  - rewrite <- Hr. apply surjective_pairing.
  - discriminate H.
  - exact Ht.
Defined.

Lemma decrement_inbound_users_exact_witness :
  let t := TargetOrder 1000 (sample_order 10) in
  exists i', inbounds (decrement_inbound_users_for_targets [t; t] 9 (db sample_shop)) !! 10 = Some i' /\
    Inbound.current_users i' = 3.
Proof.
  intros t. destruct (decrement_inbound_users_exact [t; t] 9 (db sample_shop) 10 (sample_inbound 1 3 5))
    as (i' & Hi & Hu & _); [reflexivity|easy|easy|].
  exists i'. split; [exact Hi|]. rewrite Hu. reflexivity.
Defined.
