(* ===== verification/Provisioning.v ===== *)
(** Turning a paid order into working clients (second half of
    src/store/provisioning_services.py): activation on modern, PasarGuard and
    legacy panels, renewals, and the approval that chooses between them; with
    the bookkeeping of src/store/order_recovery.py it relies on.

    A handler works on the order's row read under [select_for_update]; the
    instance it keeps in memory is threaded explicitly, since what reaches the
    database are the columns each save names.  Rebuilding the subscription cup
    of an order after approval is not modelled; the plan-delivery engine, cup
    recipes and the admin inventory are the operations of the class [Delivery],
    since they call back into this file (their models follow it). *)

From S2P Require Import Prelude Models World Numbers Referrals OrderStore ReferralRewards Compat Inbounds Scope OrderActions.
Import Order.

(** [ProvisioningResult] *)
Record provisioning_result := mk_provisioned {
  ok : bool;
  pr_message : string;
  already_provisioned : bool;
  order_status : option status_t;
  pr_provisioning_status : option provisioning_status_t;
  safe_error : string;
  client : option (Z * VPNClient.vpn_client);
  delivery_attempted : bool;
}.
#[global] Instance eta_provisioning_result : Eta provisioning_result := fun r => mk_provisioned
  (ok r) (pr_message r) (already_provisioned r) (order_status r) (pr_provisioning_status r)
  (safe_error r) (client r) (delivery_attempted r).

(** [ProvisioningResult(False, message)] *)
Definition refused (message : string) : provisioning_result :=
  mk_provisioned false message false None None "" None false.

(** The same with the order's two states and an error code. *)
Definition failed_with (o : order) (message error : string) : provisioning_result :=
  mk_provisioned false message false (Some (status o)) (Some (provisioning_status o)) error None false.

Definition succeeded (o : order) (message : string) (c : option (Z * VPNClient.vpn_client))
    : provisioning_result :=
  mk_provisioned true message false (Some (status o)) (Some (provisioning_status o)) "" c false.

(** ** Recovery bookkeeping *)

Definition order_has_partial_delivery (o : order) : bool :=
  if md_truthy "renewal_client_pk" (metadata o) then false
  else json_is_str "partial" (md_get2 "cup_fulfillment_recipe" "status" (metadata o))
       || match md_get2 "plan_delivery_v2" "failed_source_result_count" (metadata o) with
          | Some j => truthy j | None => false end.

Definition can_resend_order (o : order) : bool :=
  bool_decide (status o = COMPLETED) && bool_decide (verification_status o = V_VERIFIED).

Section Recovery.
Context `{Env}.

(** Merge one key into the latest row's metadata. *)
Definition record_order_metadata (opk : Z) (key : string) (value : json) (now : Z) : IO unit := atomic (
  o ← get_order opk;
  _ ← save_order opk (o {{ metadata ::= insert key value }}) [F_metadata] now;
  mret tt).
End Recovery.

(** ** Local rows for panel clients *)

Definition result_identifiers (cr : client_result) : list string :=
  filter (fun s => s <> "") (map strip [cr_uuid cr; cr_email cr; cr_remote_client_key cr]).

Section Upsert.
Context `{Env}.

Definition local_client_matches (opk ipk : Z) (cr : client_result) (d : DB) : list (Z * VPNClient.vpn_client) :=
  order_by (fun kc => [VPNClient.created_at kc.2; kc.1])
    (rows_where (fun _ c =>
       bool_decide (VPNClient.order c = Some opk) && bool_decide (VPNClient.inbound c = Some ipk)
       && existsb (fun v => match VPNClient.uuid c with Some u => iexact v u | None => false end
                            || iexact v (VPNClient.xui_email c)
                            || iexact v (VPNClient.remote_client_key c)) (result_identifiers cr)
       && negb (bool_decide (VPNClient.status c = VPNClient.DELETED))) (clients d)).

(** [Inbound.objects.filter(pk__in=pks).update(current_users=F("current_users") + 1, updated_at=now)] *)
Definition bump_inbounds (pks : list Z) (now : Z) (d : DB) : DB :=
  d {{ inbounds ::= map_imap (fun ipk i => Some (if bool_decide (ipk ∈ pks)
         then i {{ Inbound.current_users ::= Z.succ; Inbound.updated_at := now }} else i)) }}.

(** The row a panel's answer leads to. *)
Definition upserted_client (o : order) (p : Plan.plan) (i : keyed_inbound) (cr : client_result)
    (now : Z) (c : VPNClient.vpn_client) : VPNClient.vpn_client :=
  let uuid := if bool_decide (cr_uuid cr = "") then VPNClient.uuid c else Some (cr_uuid cr) in
  let c := c {{
    VPNClient.store := store o;
    VPNClient.plan := Some (plan o);
    VPNClient.username := or_str (VPNClient.username c) (or_str (cr_email cr) (username o));
    VPNClient.xui_email := or_str (cr_email cr) (VPNClient.xui_email c);
    VPNClient.uuid := uuid;
    VPNClient.sub_id := or_str (cr_sub_id cr) (VPNClient.sub_id c);
    VPNClient.sub_link := or_text (cr_sub_link cr) (VPNClient.sub_link c);
    VPNClient.direct_link := or_text (cr_direct_link cr) (VPNClient.direct_link c);
    VPNClient.status := VPNClient.ACTIVE;
    VPNClient.traffic_limit_bytes := Plan.traffic_limit_bytes p;
    VPNClient.duration_days := Plan.duration_days p;
    VPNClient.device_limit := Plan.device_limit p;
    VPNClient.xui_node_id := or_str (cr_xui_node_id cr) (Inbound.xui_node_id i.2);
    VPNClient.remote_client_key :=
      or_str (cr_remote_client_key cr) (build_remote_client_key i.2 (default "" uuid));
    VPNClient.xui_raw := cr_raw cr }} in
  let c := VPNClient.mark_active now (Plan.duration_days p) c in
  match cr_expires_at cr with
  | Some e => c {{ VPNClient.expires_at := Some e }}
  | None => c
  end.

(** [vpn_client.save()]; the uuid column is unique. *)
Definition save_client (cpk : Z) (c : VPNClient.vpn_client) : IO unit :=
  d ← get_db;
  if is_set (VPNClient.uuid c)
     && exists_where (fun k c' => negb (k =? cpk) && bool_decide (VPNClient.uuid c' = VPNClient.uuid c)) (clients d)
  then raise integrity_error
  else put_db (set_client cpk c).

Definition upsert_local_client (opk : Z) (o : order) (p : Plan.plan) (i : keyed_inbound)
    (cr : client_result) (now : Z) : IO (Z * VPNClient.vpn_client * bool) :=
  d ← get_db;
  '(cpk, c, created) ←
    match local_client_matches opk i.1 cr d with
    | [] =>
        '(cpk, c) ← create_order_vpn_client opk o (Some i) (or_str (cr_email cr) (username o))
                      (Some (cr_uuid cr)) cr VPNClient.ACTIVE now;
        _ ← put_db (bump_inbounds [i.1] now);
        mret (cpk, c, true)
    | [(cpk, c)] => mret (cpk, c, false)
    | _ => raise (XUIError "ambiguous_local_client")
    end;
  let c' := upserted_client o p i cr now c in
  _ ← save_client cpk c';
  mret (cpk, c', created).
End Upsert.

(** ** Modern panels: clients created enabled *)

Section Modern.
Context `{Env}.

(** [_finish_failed_modern_order] *)
Definition finish_failed_modern_order (opk : Z) (o : order) (error key strategy : string) (now : Z)
    : IO order :=
  let m := <["panel_provisioning_reason" := JStr (or_str error "provisioning_failed")]>
           (<["panel_provisioning_last_failed_at" := JStr (isoformat now)]>
           (<["panel_provisioning_deferred" := JBool true]> (metadata o))) in
  let m := if bool_decide (strategy = "") then m else <["provisioning_strategy" := JStr strategy]> m in
  let o := o {{ metadata := m; is_paid := true; verification_status := V_VERIFIED }} in
  let o := if bool_decide (status o = COMPLETED) then o else o {{ status := CONFIRMED }} in
  let o := mark_provisioning_state FAILED error None key false o in
  save_order opk o [F_is_paid; F_verification_status; F_status; F_metadata; F_provisioning_status;
                    F_last_provisioning_error; F_provisioning_idempotency_key] now.

(** The identity of the order's [index]-th client; [first] is the identity
    computed before the order was touched. *)
Definition indexed_identity (d : DB) (o : order) (l : list keyed_inbound) (i : keyed_inbound)
    (multi : bool) (first : identity) (index : Z) : identity :=
  if index =? 1 then first
  else if multi then multi_inbound_order_identity o l index else order_identity d o i index.

Definition bundle_metadata (d : DB) (l : list keyed_inbound) (m : Prelude.metadata) : Prelude.metadata :=
  <["bundle_inbound_ids" := JList (map (fun i : keyed_inbound => JNum (Inbound.inbound_id i.2)) l)]>
  (<["bundle_inbound_pks" := JList (map (fun i : keyed_inbound => JNum i.1) l)]>
  (<["provisioning_scopes" := JList (map (fun i => JObj (provisioning_scope d i)) l)]>
  (<["multi_inbound_bundle" := JBool true]> m))).

(** Payment is taken as verified and the attempt recorded before any panel is
    called. *)
Definition begin_modern_order (opk : Z) (o : order) (l : list keyed_inbound) (i : keyed_inbound)
    (multi pasarguard : bool) (first : identity) (strategy : string) (now : Z) : IO order :=
  d ← get_db;
  let m := freeze_order_provisioning_metadata d o i strategy in
  let m := if pasarguard then <["pasarguard_native_delivery" := JBool true]> m else m in
  let m := if multi then bundle_metadata d l m else m in
  let o := o {{ inbound := Some i.1; metadata := m; is_paid := true;
                verification_status := V_VERIFIED; status := CONFIRMED }} in
  let o := mark_provisioning_state PROVISIONING "" None (id_idempotency_key first) true o in
  save_order opk o [F_is_paid; F_verification_status; F_status; F_inbound; F_metadata;
                    F_provisioning_status; F_provisioning_attempts; F_provisioning_idempotency_key] now.

Definition lookup_existing (i : keyed_inbound) (ident : identity) : IO (option client_result) :=
  askR (CallLookup i.1 (id_uuid ident)) (fun h => lookup_remote_client h i.1 i.2 ident true).

Definition create_enabled (i : keyed_inbound) (p : Plan.plan) (ident : identity) : IO (option client_result) :=
  ask (CallCreateEnabled i.1 (id_uuid ident)) (fun h => create_enabled_client h i.1 i.2 p ident).

Definition require {A} (code : string) (x : option A) : IO A :=
  match x with Some a => mret a | None => raise (XUIError code) end.

(** One inbound: reuse the remote client when there is one, else create it, and
    read it back before trusting it.  Also whether it was reused. *)
Definition provision_single (i : keyed_inbound) (p : Plan.plan) (ident : identity)
    : IO (client_result * bool) :=
  found ← lookup_existing i ident;
  _ ← match found with
      | Some cr => mret cr
      | None => r ← create_enabled i p ident; require "remote_create_failed" r
      end;
  v ← lookup_existing i ident;
  v ← require "remote_verify_failed" v;
  mret (v, is_set found).

(** [[f x for x in xs]] with a body that may raise. *)
Fixpoint collect {A B} (f : A -> IO B) (l : list A) : IO (list B) :=
  match l with
  | [] => mret []
  | x :: rest => y ← f x; ys ← collect f rest; mret (y :: ys)
  end.

(** A bundle, in which only what is missing is created. *)
Definition provision_bundle (l : list keyed_inbound) (p : Plan.plan) (ident : identity)
    : IO (client_result * bool) :=
  existing ← collect (fun i => lookup_existing i ident) l;
  let found := length (filter (fun x : option client_result => is_set x = true) existing) in
  let reused := bool_decide (found = length l) in
  created ←
    (if negb (bool_decide (found = 0%nat)) && negb reused then
       collect (fun '(i, x) => match x with
                               | Some cr => mret cr
                               | None => r ← create_enabled i p ident;
                                         require "remote_multi_inbound_create_failed" r
                               end) (zip l existing)
     else if reused then mret (omap id existing)
     else r ← ask (CallCreateBundle l.*1 (id_uuid ident)) (fun h => create_enabled_bundle h l.*1 p ident);
          require "remote_multi_inbound_create_failed" r);
  if negb (bool_decide (length created = length l)) then raise (XUIError "remote_multi_inbound_verify_failed")
  else
    verified ← collect (fun i => v ← lookup_existing i ident;
                                 require "remote_multi_inbound_verify_failed" v) l;
    first ← require "remote_multi_inbound_verify_failed" (head verified);
    mret (first {{ cr_raw ::= fun raw =>
            <["bundle_inbound_pks" := JList (map (fun i : keyed_inbound => JNum i.1) l)]>
            (<["bundle_inbound_results" := JList (map json_safe verified)]> raw) }}, reused).

(** The loop over the order's clients; the rows made so far, newest last. *)
Fixpoint provision_clients (opk : Z) (o : order) (p : Plan.plan) (l : list keyed_inbound)
    (i : keyed_inbound) (multi : bool) (first : identity) (now : Z) (indices : list Z)
    : IO (list (Z * VPNClient.vpn_client) * bool) :=
  match indices with
  | [] => mret ([], false)
  | index :: rest =>
      d ← get_db;
      let ident := indexed_identity d o l i multi first index in
      '(cr, reused) ← (if multi then provision_bundle l p ident else provision_single i p ident);
      '(cpk, c, _) ← upsert_local_client opk o p i cr now;
      '(cs, reused') ← provision_clients opk o p l i multi first now rest;
      mret ((cpk, c) :: cs, reused || reused')
  end.

Definition MODERN_FIELDS : list field :=
  [F_uuid; F_sub_link; F_direct_link; F_username; F_inbound; F_is_paid; F_verification_status;
   F_verified_by; F_verified_at; F_status; F_metadata; F_provisioning_status;
   F_last_provisioning_error; F_provisioned_at; F_provisioning_idempotency_key].

(** The order's own columns, its metadata and the final save. *)
Definition finish_modern_order (opk : Z) (o : order) (primary : option VPNClient.vpn_client)
    (direct : option string) (key : string) (extra : Prelude.metadata -> Prelude.metadata) (actor : option Z)
    (now : Z) : IO order :=
  let o := match primary with
           | Some c => o {{ uuid := VPNClient.uuid c; sub_link := VPNClient.sub_link c }}
           | None => o end in
  let o := o {{ direct_link := direct;
                username := or_str (username o)
                  (match primary with Some c => VPNClient.username c | None => "" end) }} in
  let o := mark_payment_verified actor now o in
  let o := o {{ metadata ::= fun m => extra (
                  <["panel_provisioned_at" := JStr (isoformat now)]>
                  (<["panel_provisioning_reason" := JStr ""]>
                  (<["panel_provisioning_deferred" := JBool false]> m))) }} in
  let o := mark_provisioning_state PROVISIONED "" (Some now) key false o in
  save_order opk o MODERN_FIELDS now.

Definition MODERN_FAILED_MESSAGE : string :=
  "ساخت و تایید کانفیگ روی پنل X-UI ناموفق بود. سفارش تکمیل نشد و قابل retry است.".
Definition MODERN_OK_MESSAGE : string := "سفارش تایید شد و کانفیگ VPN فعال شد.".

Definition activate_modern_xui (opk : Z) (o : order) (l : list keyed_inbound) (i : keyed_inbound)
    (actor : option Z) (strategy : string) (now : Z) : IO (order * provisioning_result) :=
  d ← get_db;
  p ← get_plan (plan o);
  let multi := md_truthy "multi_inbound_bundle" (metadata o) && (1 <? Z.of_nat (length l)) in
  let first := if multi then multi_inbound_order_identity o l 1 else order_identity d o i 1 in
  o ← begin_modern_order opk o l i multi false first strategy now;
  made ← catch
    (r ← provision_clients opk o p l i multi first now (seqZ 1 (required_client_count o)); mret (inl r))
    (fun e => mret (inr (safe_error_text e)));
  match made with
  | inr error =>
      o ← finish_failed_modern_order opk o error (id_idempotency_key first) strategy now;
      mret (o, failed_with o MODERN_FAILED_MESSAGE error)
  | inl (cs, reused) =>
      let direct := match head cs with Some (_, c) => VPNClient.direct_link c | None => direct_link o end in
      o ← finish_modern_order opk o (snd <$> head cs) direct (id_idempotency_key first)
            (insert "remote_reused_on_retry" (JBool reused)) actor now;
      mret (o, succeeded o MODERN_OK_MESSAGE (head cs))
  end.
End Modern.

(** ** PasarGuard panels *)

Section PasarGuard.
Context `{Env}.

(** The links of an answer: its raw links, or its direct link. *)
Definition answer_links (cr : client_result) (raw_links : list string) : list string :=
  match filter (fun s => s <> "") (map strip raw_links) with
  | [] => let d := strip (default "" (cr_direct_link cr)) in if bool_decide (d = "") then [] else [d]
  | l => l
  end.

Definition pasarguard_raw (l : list keyed_inbound) (raw : Prelude.metadata) : Prelude.metadata :=
  <["native_raw_delivery" := JBool true]>
  (<["pasarguard_group_ids" := JList (map (fun i : keyed_inbound => JNum (Inbound.inbound_id i.2)) l)]>
  (<["pasarguard_group_pks" := JList (map (fun i : keyed_inbound => JNum i.1) l)]> raw)).

Fixpoint provision_pasarguard_clients (opk : Z) (o : order) (p : Plan.plan) (l : list keyed_inbound)
    (i : keyed_inbound) (multi : bool) (first : identity) (now : Z) (indices : list Z)
    : IO (list (Z * VPNClient.vpn_client) * list string) :=
  match indices with
  | [] => mret ([], [])
  | index :: rest =>
      d ← get_db;
      let ident := indexed_identity d o l i multi first index in
      '(cr, raw_links) ← askR (CallCreateBundle l.*1 (id_uuid ident))
                           (fun h => pasarguard_create h l.*1 p ident);
      let links := answer_links cr raw_links in
      link ← require "pasarguard_raw_empty" (head links);
      let cr := cr {{ cr_direct_link := Some link; cr_raw ::= pasarguard_raw l }} in
      '(cpk, c, created) ← upsert_local_client opk o p i cr now;
      _ ← (if created && multi then put_db (bump_inbounds (tail l).*1 now) else mret tt);
      '(cs, ls) ← provision_pasarguard_clients opk o p l i multi first now rest;
      mret ((cpk, c) :: cs, links ++ ls)%list
  end.

Definition PASARGUARD_FAILED_MESSAGE : string :=
  "ساخت و تایید کاربر روی PasarGuard ناموفق بود. سفارش تکمیل نشد و قابل retry است.".
Definition PASARGUARD_OK_MESSAGE : string := "سفارش تایید شد و کاربر PasarGuard فعال شد.".

Definition pasarguard_metadata (links : list string) (m : Prelude.metadata) : Prelude.metadata :=
  let m := <["pasarguard_native_delivery" := JBool true]> m in
  if bool_decide (links = []) then m
  else <["direct_delivery_links" := JList (map JStr links)]> m.

(** [_activate_pasarguard_enabled_order_locked]; the caller has a first inbound. *)
Definition activate_pasarguard (opk : Z) (o : order) (l : list keyed_inbound) (i : keyed_inbound)
    (actor : option Z) (strategy : string) (now : Z) : IO (order * provisioning_result) :=
  d ← get_db;
  p ← get_plan (plan o);
  let multi := 1 <? Z.of_nat (length l) in
  let first := if multi then multi_inbound_order_identity o l 1 else order_identity d o i 1 in
  o ← begin_modern_order opk o l i multi true first strategy now;
  made ← catch
    (r ← provision_pasarguard_clients opk o p l i multi first now (seqZ 1 (required_client_count o));
     mret (inl r))
    (fun e => mret (inr (safe_error_text e)));
  match made with
  | inr error =>
      o ← finish_failed_modern_order opk o error (id_idempotency_key first) strategy now;
      mret (o, failed_with o PASARGUARD_FAILED_MESSAGE error)
  | inl (cs, links) =>
      o ← finish_modern_order opk o (snd <$> head cs) (or_opt (head links) (direct_link o))
            (id_idempotency_key first) (pasarguard_metadata links) actor now;
      mret (o, succeeded o PASARGUARD_OK_MESSAGE (head cs))
  end.

Definition SCOPE_MISMATCH_MESSAGE : string :=
  "scope ذخیره‌شده سفارش با route فعلی سازگار نیست. provisioning برای جلوگیری از ساخت اشتباه متوقف شد.".
Definition MISSING_SCOPE_MESSAGE : string := "سفارش route دقیق panel/inbound ندارد.".

(** [_activate_modern_enabled_order_locked] *)
Definition activate_modern_enabled_order (opk : Z) (o : order) (actor : option Z) (strategy : string)
    (now : Z) : IO (order * provisioning_result) :=
  d ← get_db;
  match resolve_frozen_order_inbounds d o with
  | Raise e =>
      let error := safe_error_text e in
      o ← finish_failed_modern_order opk o error "" strategy now;
      mret (o, failed_with o SCOPE_MISMATCH_MESSAGE error)
  | Ret [] => mret (o, (refused MISSING_SCOPE_MESSAGE) {{ safe_error := "missing_scope" }})
  | Ret ((i :: _) as l) =>
      match inbound_panel d i.2 with
      | None => mret (o, (refused MISSING_SCOPE_MESSAGE) {{ safe_error := "missing_scope" }})
      | Some panel =>
          if Panel.is_pasarguard panel then activate_pasarguard opk o l i actor strategy now
          else activate_modern_xui opk o l i actor strategy now
      end
  end.
End PasarGuard.

(** ** Legacy panels: clients created disabled, then enabled *)

Section Legacy.
Context `{Env}.

Definition ENABLE_FAILED_MESSAGE : string := "فعال‌سازی روی پنل X-UI ناموفق بود.".
Definition NOT_ALL_READY_MESSAGE : string :=
  "همه کانفیگ‌های VPN هنوز آماده نیستند. فعال‌سازی را دوباره امتحان کن.".

(** Enable client after client; a message when one cannot be. *)
Fixpoint enable_clients (p : Plan.plan) (now : Z) (l : list (Z * VPNClient.vpn_client))
    : IO (option string) :=
  match l with
  | [] => mret None
  | (cpk, c) :: rest =>
      if bool_decide (VPNClient.status c = VPNClient.ACTIVE) then enable_clients p now rest
      else
        d ← get_db;
        if negb (bool_decide (vpn_client_panel_error d c = "")) then mret (Some PANEL_LINK_ADMIN_MESSAGE)
        else
          enabled ← ask (CallEnable cpk) (fun h => enable_client h cpk c);
          if negb enabled then mret (Some ENABLE_FAILED_MESSAGE)
          else
            _ ← put_db (set_client cpk (VPNClient.mark_active now (Plan.duration_days p) c));
            enable_clients p now rest
  end.

Definition finish_legacy_order (opk : Z) (o : order) (first : option VPNClient.vpn_client)
    (actor : option Z) (now : Z) : IO order :=
  d ← get_db;
  let o := mark_payment_verified actor now o in
  let '(o, changed) := sync_order_primary_client_fields o first in
  let o := match inbound o ≫= keyed d with
           | Some i => o {{ metadata :=
               freeze_order_provisioning_metadata d o i STRATEGY_LEGACY_PRECREATE_INACTIVE }}
           | None => o end in
  let o := mark_provisioning_state PROVISIONED "" (Some now) "" false o in
  save_order opk o (VERIFIED_FIELDS ++ changed
    ++ [F_metadata; F_provisioning_status; F_last_provisioning_error; F_provisioned_at])%list now.

(** [_activate_legacy_order_locked] *)
Definition activate_legacy_order (opk : Z) (o : order) (actor : option Z) (now : Z)
    : IO (order * provisioning_result) :=
  o ← save_order opk (mark_provisioning_state PROVISIONING "" None "" true o)
        [F_provisioning_status; F_provisioning_attempts] now;
  _ ← ensure_legacy_order_client opk o now;
  d ← get_db;
  '(o, problem) ←
    (if 0 <? required_client_count o - count_clients opk d then
       '(o, r) ← provision_missing_panel_client opk o now;
       mret (o, if success r then None else Some (message r))
     else mret (o, None));
  match problem with
  | Some m => mret (o, refused m)
  | None =>
      d ← get_db;
      let cs := order_clients opk d in
      if Z.of_nat (length cs) <? required_client_count o then mret (o, refused NOT_ALL_READY_MESSAGE)
      else
        p ← get_plan (plan o);
        stopped ← enable_clients p now cs;
        match stopped with
        | Some m => mret (o, refused m)
        | None =>
            o ← finish_legacy_order opk o (snd <$> head cs) actor now;
            mret (o, (refused MODERN_OK_MESSAGE) {{ ok := true; client := head cs }})
        end
  end.

(** ** Renewals *)

(** [_activate_renewal_order_locked] *)
Definition activate_renewal_order_locked (opk : Z) (o : order) (actor : option Z) (now : Z)
    : IO (order * provisioning_result) :=
  o ← save_order opk (mark_provisioning_state PROVISIONING "" None "" true o)
        [F_provisioning_status; F_provisioning_attempts] now;
  r ← activate_renewal_order opk o actor now;
  o ← get_order opk;
  o ← (if success r then
         let o := mark_provisioning_state PROVISIONED "" (Some now) "" false o in
         let o := o {{ metadata ::= insert "provisioning_strategy" (JStr STRATEGY_RENEW_EXISTING_CLIENT) }} in
         save_order opk o [F_metadata; F_provisioning_status; F_last_provisioning_error; F_provisioned_at] now
       else mret o);
  mret (o, mk_provisioned (success r) (message r) false (Some (status o)) (Some (provisioning_status o))
             "" None false).
End Legacy.

(** ** Approval *)

(** What [resolve_plan_delivery_configuration] finds out about a plan. *)
Record delivery_configuration := mk_delivery_configuration {
  effective_mode : string;
  source_of_truth : string;
  delivery_config_id : option Z;
  source_count : Z;
  expected_output_count : Z;
  readiness_status : string;
}.

Definition MODE_GLOBAL_FALLBACK : string := "GLOBAL_FALLBACK".
Definition SOURCE_V2_CONFIG : string := "plan_delivery_config".
Definition READINESS_INCOMPLETE : string := "incomplete".
Definition READINESS_CONFLICT : string := "conflict".

(** The delivery engines approval hands an order to: plan delivery v2
    (src/store/plan_delivery_execution.py), cup recipes
    (src/store/cup_fulfillment_services.py) and the admin inventory
    (src/store/customer_assignment.py).  An engine answers [None] when it does
    not take the order, and otherwise whether it succeeded, its errors and the
    first client it made. *)
Class Delivery := {
  resolve_plan_delivery_configuration : DB -> Z -> option Z -> delivery_configuration;
  execute_plan_delivery : Z -> Z -> option Z -> Z ->
    IO (bool * list string * option (Z * VPNClient.vpn_client));
  fulfill_order_with_recipe : Z -> option Z -> Z -> IO (option (bool * list string));
  complete_inventory_assignment : Z -> option Z -> bool -> Z -> IO provisioning_result;
}.

(** A shop without any of these engines. *)
Definition no_delivery : Delivery := {|
  resolve_plan_delivery_configuration := fun _ _ _ =>
    mk_delivery_configuration "GLOBAL_FALLBACK" "store_global_fallback" None 0 0 "ready";
  execute_plan_delivery := fun _ _ _ _ => mret (false, [], None);
  fulfill_order_with_recipe := fun _ _ _ => mret None;
  complete_inventory_assignment := fun _ _ _ _ => mret (refused "") |}.

Section Approval.
Context `{Env} `{Delivery}.

Definition cancellation_recorded (opk : Z) (d : DB) : bool :=
  match automations d !! opk with
  | Some a => match OrderAutomation.review_status a with
              | OrderAutomation.R_CANCELLING | OrderAutomation.R_CANCEL_FAILED
              | OrderAutomation.R_CANCELLED => true
              | _ => false
              end
  | None => false
  end.

Definition CANCELLATION_RECORDED_MESSAGE : string :=
  "لغو این سفارش ثبت شده است؛ فعال‌سازی دوباره مجاز نیست.".
Definition ALREADY_COMPLETED_MESSAGE : string := "سفارش قبلاً تکمیل شده است.".
Definition NOT_PROVISIONABLE_MESSAGE : string := "این سفارش در وضعیت قابل تایید یا فعال‌سازی نیست.".
Definition V2_OK_MESSAGE : string := "سفارش تایید شد و تحویل canonical پلن تکمیل شد.".
Definition V2_FAILED_MESSAGE : string := "تحویل canonical پلن ناموفق بود. سفارش قابل retry است.".
Definition RECIPE_OK_MESSAGE : string :=
  "سفارش تایید شد و Subscription Cup از recipe پلن تکمیل شد.".
Definition RECIPE_FAILED_MESSAGE : string :=
  "تکمیل Subscription Cup برای این پلن ناموفق بود. سفارش قابل retry است.".

(** Modern panels when the strategy and the order's panel agree on it. *)
Definition activate_by_strategy (opk : Z) (o : order) (strategy : string) (actor : option Z) (now : Z)
    : IO (order * provisioning_result) :=
  d ← get_db;
  if bool_decide (strategy ∈ [STRATEGY_DEFERRED_CREATE_ENABLED; STRATEGY_DIRECT_CREATE_ENABLED])
     && match order_panel d o with Some p => is_modern_panel p | None => false end
  then activate_modern_enabled_order opk o actor strategy now
  else activate_legacy_order opk o actor now.

(** The outcome of an engine, with the order read again. *)
Definition engine_result (opk : Z) (good_run : bool) (errors : list string) (c : option (Z * VPNClient.vpn_client))
    (good bad : string) : IO (order * provisioning_result) :=
  o ← get_order opk;
  mret (o, if good_run then succeeded o good c
           else failed_with o bad (join "; " (take 3 errors))).

Definition deliver_order (opk : Z) (o : order) (actor : option Z) (now : Z)
    : IO (order * provisioning_result) :=
  d ← get_db;
  let strategy := resolve_order_provisioning_strategy d o in
  if bool_decide (strategy = STRATEGY_RENEW_EXISTING_CLIENT)
  then activate_renewal_order_locked opk o actor now
  else
    let config := resolve_plan_delivery_configuration d (plan o) (store o) in
    if bool_decide (source_of_truth config = SOURCE_V2_CONFIG) then
      if bool_decide (effective_mode config = MODE_GLOBAL_FALLBACK)
      then activate_by_strategy opk o strategy actor now
      else match delivery_config_id config with
           | None => raise DoesNotExist
           | Some id =>
               '(good, errors, c) ← execute_plan_delivery opk id actor now;
               engine_result opk good errors c V2_OK_MESSAGE V2_FAILED_MESSAGE
           end
    else
      taken ← fulfill_order_with_recipe opk actor now;
      match taken with
      | Some (good, errors) => engine_result opk good errors None RECIPE_OK_MESSAGE RECIPE_FAILED_MESSAGE
      | None => activate_by_strategy opk o strategy actor now
      end.

(** Why approval stops before touching the order, or nothing. *)
Definition approval_refusal (opk : Z) (o : order) (source : string) (d : DB)
    : option provisioning_result :=
  if cancellation_recorded opk d then Some (refused CANCELLATION_RECORDED_MESSAGE)
  else
    let partial_retry := bool_decide (source = "manual_retry") && bool_decide (status o = COMPLETED)
                         && order_has_partial_delivery o in
    let verified := bool_decide (verification_status o = V_VERIFIED) in
    if bool_decide (status o = COMPLETED) && verified && negb partial_retry
    then Some (mk_provisioned true ALREADY_COMPLETED_MESSAGE true (Some (status o))
                 (Some (provisioning_status o)) "" None false)
    else
      let reason := if partial_retry && verified then "" else provisioning_block_reason o in
      if bool_decide (reason = "") then None
      else Some (failed_with o NOT_PROVISIONABLE_MESSAGE reason).

(** The transaction: refuse, or record the attempt and deliver. *)
Definition approve_locked (opk : Z) (source : string) (actor : option Z) (now : Z)
    : IO (provisioning_result + order * provisioning_result) := atomic (
  o ← get_order opk;
  d ← get_db;
  match approval_refusal opk o source d with
  | Some r => mret (inl r)
  | None =>
      let m := <["provisioning_last_attempt_at" := JStr (isoformat now)]> (metadata o) in
      let m := setdefault "provisioning_email_prefix"
                 (JStr (or_str (username o) (build_client_display_name (o {{ metadata := m }})))) m in
      o ← save_order opk (o {{ metadata := m }}) [F_metadata] now;
      r ← deliver_order opk o actor now;
      mret (inr r)
  end).

Definition NOT_SENT_SUFFIX : string := " پیام مشتری ارسال نشد؛ وضعیت ارسال را بررسی کنید.".

(** After a success: the referral reward, whose failure is only logged, and
    the customer's message. *)
Definition after_success (opk : Z) (o : order) (r : provisioning_result) (notify : bool) (now : Z)
    : IO provisioning_result :=
  _ ← attempt (create_referral_reward_for_order opk now);
  if notify && negb (already_provisioned r) then
    sent ← askR (CallNotify opk "approved") (fun h => notify_order_event h opk o "approved");
    let r := r {{ delivery_attempted := true }} in
    mret (if sent =? 0 then r {{ pr_message ::= fun m => m +:+ NOT_SENT_SUFFIX }} else r)
  else mret r.

(** After a failure: the reason is kept on the order. *)
Definition after_failure (opk : Z) (r : provisioning_result) (now : Z) : IO unit :=
  o ← get_order opk;
  _ ← save_order opk (o {{ provisioning_status := FAILED;
                           last_provisioning_error := or_str (safe_error r) (pr_message r) }})
        [F_provisioning_status; F_last_provisioning_error] now;
  mret tt.

(** [_approve_and_provision_order] *)
Definition approve_and_provision_locked (opk : Z) (actor : option Z) (source : string) (notify : bool)
    (now : Z) : IO provisioning_result :=
  outcome ← approve_locked opk source actor now;
  match outcome with
  | inl r => mret r
  | inr (o, r) =>
      if ok r then after_success opk o r notify now
      else _ ← after_failure opk r now; mret r
  end.

Definition RENEWAL_RUNNING_MESSAGE : string :=
  "عملیات قبلی تمدید در جریان است یا نتیجه آن نامشخص است؛ قبل از تکرار، پنل را بررسی کنید.".

Definition renewal_running (m : Prelude.metadata) : bool :=
  json_is_str "running" (md_get2 "renewal_recovery_attempt" "status" m).

(** A claim on the renewal, committed before any panel is called: [None] when
    another attempt holds it, else whether this one took it. *)
Definition claim_renewal (opk now : Z) : IO (option bool) := atomic (
  o ← get_order opk;
  if negb (can_resend_order o) && negb (bool_decide (status o = REJECTED))
     && negb (bool_decide (status o = CANCELLED)) then
    if renewal_running (metadata o) then mret None
    else
      let claim := JObj [("status", JStr "running"); ("started_at", JStr (isoformat now))] in
      _ ← save_order opk (o {{ metadata ::= insert "renewal_recovery_attempt" claim }}) [F_metadata] now;
      mret (Some true)
  else mret (Some false)).

(** The caller's instance decides which way the order goes. *)
Definition approve_and_provision_order (opk : Z) (instance : order) (actor : option Z)
    (source : string) (notify : bool) (now : Z) : IO provisioning_result :=
  if md_truthy "admin_inventory_asset_id" (metadata instance)
  then complete_inventory_assignment opk actor notify now
  else if negb (order_is_renewal instance)
  then approve_and_provision_locked opk actor source notify now
  else
    claimed ← claim_renewal opk now;
    match claimed with
    | None => mret (refused RENEWAL_RUNNING_MESSAGE)
    | Some claimed =>
        r ← approve_and_provision_locked opk actor source notify now;
        _ ← (if claimed : bool then
               record_order_metadata opk "renewal_recovery_attempt"
                 (JObj [("status", JStr "finished"); ("finished_at", JStr (isoformat now))]) now
             else mret tt);
        mret r
    end.

(** [activate_order] of src/store/order_actions.py *)
Definition activate_order (opk : Z) (instance : order) (user : option Z) (notify : bool) (now : Z)
    : IO action_result :=
  r ← approve_and_provision_order opk instance user "activate_order" notify now;
  mret (mk_action (ok r) (pr_message r)).

(** ** Recovery (src/store/order_recovery.py) *)

Definition can_retry_order (opk : Z) (o : order) (d : DB) : bool :=
  negb (cancellation_recorded opk d)
  && negb (bool_decide (status o = REJECTED)) && negb (bool_decide (status o = CANCELLED))
  && (negb (bool_decide (status o = COMPLETED)) || order_has_partial_delivery o)
  && negb (bool_decide (verification_status o = V_REJECTED))
  && (is_paid o || is_set (payment_submitted_at o)
      || bool_decide (provisioning_status o = FAILED) || bool_decide (provisioning_status o = PROVISIONING)
      || md_truthy "panel_provisioning_deferred" (metadata o)).

Definition retry_order_completion (opk : Z) (actor : option Z) (now : Z) : IO provisioning_result :=
  o ← get_order opk;
  d ← get_db;
  if negb (can_retry_order opk o d) then mret (refused "تلاش مجدد برای این سفارش در دسترس نیست.")
  else approve_and_provision_order opk o actor "manual_retry" true now.

(** The label of [customer_notification_summary]. *)
Definition notification_label (st : option json) : string :=
  match st with
  | Some (JStr "sent") => "ارسال شد"
  | Some (JStr "partial") => "ارسال ناقص؛ تلاش مجدد لازم است"
  | Some (JStr "failed") => "ارسال ناموفق"
  | Some (JStr "sending") => "نتیجه ارسال نامشخص"
  | Some (JStr "no_target") => "مقصد فعال برای مشتری پیدا نشد"
  | Some (JStr "skipped") => "اطلاع‌رسانی این سفارش غیرفعال است"
  | _ => "هنوز نتیجه ارسال ثبت نشده"
  end.

Definition resend_order_result (opk now : Z) : IO action_result :=
  o ← get_order opk;
  if negb (can_resend_order o)
  then mret (mk_action false "ارسال مجدد فقط برای سفارش تکمیل‌شده در دسترس است.")
  else
    _ ← askR (CallNotify opk "approved") (fun h => notify_order_event h opk o "approved");
    o ← get_order opk;
    let st := md_get2 "customer_notification" "status" (metadata o) in
    mret (mk_action (json_is_str "sent" st) (notification_label st)).
End Approval.
