(* ===== verification/ProvisioningSpec.v ===== *)
(** What approving and activating an order guarantees: nothing happens to an
    order that may not be provisioned, nothing is done twice, and a success
    means a paid, completed order whose clients are active. *)

From S2P Require Import Prelude Models World Numbers Referrals OrderStore ReferralRewards Inbounds Scope OrderActions Provisioning.
Import Order.

(** ** Refusals and repetitions *)

Section Refusals.
Context `{Env} `{Delivery}.

Lemma approve_refused opk actor source notify now w o r :
  orders (db w) !! opk = Some o -> approval_refusal opk o source (db w) = Some r ->
  approve_and_provision_locked opk actor source notify now w = (Ret r, w).
Proof.
  intros Ho Hr. unfold approve_and_provision_locked, approve_locked. run_io. unfold get_order. run_io.
  by rewrite Ho, Hr.
Qed.

(** An order that is out of service. *)
Definition out_of_service (o : order) : Prop := status o = REJECTED \/ status o = CANCELLED.

Lemma out_of_service_refusal opk o source d :
  out_of_service o -> exists r, approval_refusal opk o source d = Some r /\ ok r = false.
Proof.
  intros Ho. unfold approval_refusal. destruct (cancellation_recorded opk d); [by eexists|].
  assert (bool_decide (status o = COMPLETED) = false) as ->
    by (apply bool_decide_eq_false; destruct Ho as [-> | ->]; done).
  rewrite andb_false_r. cbn. unfold provisioning_block_reason.
  destruct Ho as [-> | ->]; by eexists.
Qed.

Lemma completed_refusal opk o source d :
  can_resend_order o = true -> order_has_partial_delivery o = false ->
  exists r, approval_refusal opk o source d = Some r /\
    (cancellation_recorded opk d = false -> ok r = true /\ already_provisioned r = true).
Proof.
  intros [Hs Hv]%andb_true_iff Hp. unfold approval_refusal.
  destruct (cancellation_recorded opk d); [by eexists|].
  rewrite Hs, Hv, Hp, andb_false_r. by eexists.
Qed.

Lemma claim_not_needed opk now w o :
  orders (db w) !! opk = Some o -> out_of_service o \/ can_resend_order o = true ->
  claim_renewal opk now w = (Ret (Some false), w).
Proof.
  intros Ho Hc. unfold claim_renewal. run_io. unfold get_order. run_io. rewrite Ho.
  assert (negb (can_resend_order o) && negb (bool_decide (status o = REJECTED))
          && negb (bool_decide (status o = CANCELLED)) = false) as ->; [|done].
  destruct Hc as [[-> | ->] | ->]; [|by rewrite !andb_false_r|done].
  by rewrite (bool_decide_true (REJECTED = REJECTED)), andb_false_r.
Qed.

(** When approval would refuse and no claim is needed, a whole approval is a
    refusal that changes nothing. *)
Lemma approval_no_op opk instance actor source notify now w o r :
  md_truthy "admin_inventory_asset_id" (metadata instance) = false ->
  orders (db w) !! opk = Some o -> out_of_service o \/ can_resend_order o = true ->
  approval_refusal opk o source (db w) = Some r ->
  approve_and_provision_order opk instance actor source notify now w = (Ret r, w).
Proof.
  intros Hi Ho Hc Hr. unfold approve_and_provision_order. rewrite Hi.
  destruct (order_is_renewal instance); cbn [negb]; [|by eapply approve_refused].
  run_io. rewrite (claim_not_needed _ _ _ _ Ho Hc).
  by rewrite (approve_refused _ _ _ _ _ _ _ _ Ho Hr).
Qed.

(** An order that was rejected or cancelled is never provisioned: an
    approval of it, from wherever it comes, reports failure and leaves the
    database, the cache and every panel untouched. *)
Theorem refused_orders_untouched opk instance actor source notify now w o :
  md_truthy "admin_inventory_asset_id" (metadata instance) = false ->
  orders (db w) !! opk = Some o -> out_of_service o ->
  exists r, approve_and_provision_order opk instance actor source notify now w = (Ret r, w) /\
    ok r = false.
Proof.
  intros Hi Ho Hs. destruct (out_of_service_refusal opk o source (db w) Hs) as (r & Hr & Hok).
  exists r. split; [|done]. eapply approval_no_op; eauto.
Qed.

(** C15: Approving an order that is already completed and verified is a
    successful no-op: it reports the order as already provisioned and neither
    writes the database nor calls a panel nor messages the customer again.  This
    is when the instance approved is not one to be given a piece of stock, when
    no partial delivery is recorded on the order, which approval would resume,
    and no cancellation, which it would refuse. *)
Theorem completed_approval_idempotent opk instance actor source notify now w o :
  md_truthy "admin_inventory_asset_id" (metadata instance) = false ->
  orders (db w) !! opk = Some o -> status o = COMPLETED -> verification_status o = V_VERIFIED ->
  order_has_partial_delivery o = false -> cancellation_recorded opk (db w) = false ->
  exists r, approve_and_provision_order opk instance actor source notify now w = (Ret r, w) /\
    ok r = true /\ already_provisioned r = true.
Proof.
  intros Hi Ho Hs Hv Hp Hc.
  assert (Hcan : can_resend_order o = true) by (unfold can_resend_order; by rewrite Hs, Hv).
  destruct (completed_refusal opk o source (db w) Hcan Hp) as (r & Hr & Hok).
  exists r. split; [|auto]. eapply approval_no_op; eauto.
Qed.
End Refusals.

(** ** An interrupted renewal *)

Section Renewal.
Context `{Env} `{Delivery}.

(** The metadata of a renewal whose attempt is under way. *)
Definition holds_claim (m : Prelude.metadata) : Prop :=
  renewal_running m = true /\ md_truthy "renewal_client_pk" m = true.

Definition claimed (opk : Z) (w : World) : Prop :=
  exists row, orders (db w) !! opk = Some row /\ holds_claim (metadata row).

Lemma holds_claim_insert k v m :
  k <> "renewal_recovery_attempt" -> k <> "renewal_client_pk" -> holds_claim m ->
  holds_claim (<[k := v]> m).
Proof.
  intros H1 H2 [Hr Hk]. unfold holds_claim, renewal_running, md_get2, md_truthy in *.
  rewrite !lookup_insert_ne by congruence. done.
Qed.

Lemma holds_claim_setdefault k v m :
  k <> "renewal_recovery_attempt" -> k <> "renewal_client_pk" -> holds_claim m ->
  holds_claim (setdefault k v m).
Proof. intros H1 H2 Hm. unfold setdefault. destruct (m !! k); [done|]. by apply holds_claim_insert. Qed.

Lemma saved_row_metadata o fs p now row :
  metadata (saved_row o fs p now row) = metadata o \/ metadata (saved_row o fs p now row) = metadata row.
Proof.
  unfold saved_row. rewrite write_metadata.
  assert (metadata (prepare_save p now (localdate_tehran now) o).1 = metadata o) as ->
    by (by apply prepare_save_keeps).
  destruct (bool_decide _); [by left|by right].
Qed.

Lemma saved_instance_metadata o p now : metadata (saved_instance o p now) = metadata o.
Proof. unfold saved_instance. by apply prepare_save_keeps. Qed.

Lemma save_order_claimed opk o fs now :
  holds_claim (metadata o) ->
  triple (claimed opk) (save_order opk o fs now)
    (fun o' w => holds_claim (metadata o') /\ claimed opk w) (claimed opk).
Proof.
  intros Ho w r w' (row & Hrow & Hm) Hrun.
  apply save_order_any in Hrun as [[-> Hf]|(p & row' & _ & Hrow' & Hv & Hr)].
  { destruct r; [done|]. by exists row. }
  apply service_view_inv in Hv as (Hos & _). cbn in Hos.
  assert (Hc : claimed opk w').
  { eexists. rewrite Hos. split; [apply lookup_insert_eq|].
    destruct (saved_row_metadata o fs p now row') as [-> | ->]; congruence. }
  destruct r as [o'|e]; [|done]. subst o'. by rewrite saved_instance_metadata.
Qed.

Lemma orders_kept_claimed opk w w' : orders (db w') = orders (db w) -> claimed opk w -> claimed opk w'.
Proof. unfold claimed. by intros ->. Qed.

Lemma get_order_claimed opk :
  triple (claimed opk) (get_order opk) (fun o w => holds_claim (metadata o) /\ claimed opk w) (claimed opk).
Proof.
  intros w r w' (row & Hrow & Hm). unfold get_order, get_or_raise. rewrite Hrow. intros [= <- <-].
  split; [done|]. by exists row.
Qed.

Lemma activate_renewal_order_claimed opk o user now :
  holds_claim (metadata o) ->
  triple (claimed opk) (activate_renewal_order opk o user now) (fun _ => claimed opk) (claimed opk).
Proof.
  intros Ho. unfold activate_renewal_order.
  eapply triple_bind; [apply triple_get_db|]. intros d.
  apply (triple_pre _ (claimed opk)); [tauto|].
  destruct (metadata o !! "renewal_client_pk") as [j|]; [|by apply triple_ret].
  destruct (negb (truthy j)); [by apply triple_ret|].
  destruct (client_by_json d j) as [[cpk c]|]; [|by apply triple_ret].
  destruct (client_of_other_customer d o c); [by apply triple_ret|].
  destruct (negb _); [by apply triple_ret|].
  eapply triple_bind; [by apply triple_get_or_raise|]. intros p. apply (triple_pre _ (claimed opk)); [tauto|].
  eapply triple_bind; [by apply triple_ask|]. intros [[r|] err]; [|by apply triple_ret].
  eapply triple_bind; [apply save_order_claimed, holds_claim_insert; [discriminate..|exact Ho]|]. intros o'.
  cbv beta. apply triple_pure. intros _.
  eapply triple_bind; [apply (triple_put_db _ _ (claimed opk)); intros w Hw; exact Hw|]. intros [].
  by apply triple_ret.
Qed.

Lemma activate_renewal_locked_claimed opk o actor now :
  holds_claim (metadata o) ->
  triple (claimed opk) (activate_renewal_order_locked opk o actor now) (fun _ => claimed opk) (claimed opk).
Proof.
  intros Ho. unfold activate_renewal_order_locked.
  eapply triple_bind; [by apply save_order_claimed|]. intros o1. cbv beta. apply triple_pure. intros Ho1.
  eapply triple_bind; [by apply activate_renewal_order_claimed|]. intros r.
  eapply triple_bind; [apply get_order_claimed|]. intros o2. cbv beta. apply triple_pure. intros Ho2.
  eapply (triple_bind _ _ _ (fun _ => claimed opk)); [|intros o3; by apply triple_ret].
  destruct (success r); [|by apply triple_ret].
  eapply triple_post; [apply save_order_claimed, holds_claim_insert; [discriminate..|exact Ho2]|by intros ? ? []].
Qed.

Lemma renewal_strategy d o :
  order_is_renewal o = true -> resolve_order_provisioning_strategy d o = STRATEGY_RENEW_EXISTING_CLIENT.
Proof. intros Ho. unfold resolve_order_provisioning_strategy. by rewrite Ho. Qed.

(** However the transaction ends, the claim it started under is kept. *)
Lemma approve_locked_claimed opk source actor now :
  triple (claimed opk) (approve_locked opk source actor now) (fun _ => claimed opk) (claimed opk).
Proof.
  unfold approve_locked. apply triple_atomic; [|intros w w' Hw Hd; by apply (orders_kept_claimed _ w); rewrite ?Hd].
  eapply triple_any.
  eapply triple_bind; [apply get_order_claimed|]. intros o. cbv beta. apply triple_pure. intros Ho.
  eapply triple_bind; [apply triple_get_db|]. intros d. apply (triple_pre _ (claimed opk)); [tauto|].
  destruct (approval_refusal opk o source d); [by apply triple_ret|].
  eapply triple_bind.
  { apply save_order_claimed, holds_claim_setdefault; [discriminate..|].
    by apply holds_claim_insert; [discriminate..|]. }
  intros o1. cbv beta. apply triple_pure. intros [Hr1 Hk1].
  eapply (triple_bind _ _ _ (fun _ => claimed opk)); [|intros r; by apply triple_ret].
  unfold deliver_order. eapply triple_bind; [apply triple_get_db|]. intros d'.
  apply (triple_pre _ (claimed opk)); [tauto|]. rewrite renewal_strategy by exact Hk1.
  rewrite bool_decide_true by done. by apply activate_renewal_locked_claimed.
Qed.

Lemma create_reward_orders opk now :
  respects (keeps (fun w => orders (db w))) (create_referral_reward_for_order opk now).
Proof.
  assert (Undoable (keeps (fun w => orders (db w)))) by (by intros w w' Hw).
  unfold create_referral_reward_for_order, settle_referral, ensure_referral, mark_purchased, get_order.
  walk; done.
Qed.

Lemma approve_and_provision_locked_claimed opk actor source notify now :
  triple (claimed opk) (approve_and_provision_locked opk actor source notify now)
    (fun _ => claimed opk) (claimed opk).
Proof.
  unfold approve_and_provision_locked.
  eapply triple_bind; [apply approve_locked_claimed|]. intros [r|[o r]]; cbv beta; [by apply triple_ret|].
  destruct (ok r).
  - unfold after_success, attempt.
    eapply (triple_bind _ _ _ (fun _ => claimed opk)).
    { apply (triple_frame (keeps (fun w => orders (db w)))).
      - apply respects_catch; [apply _| |intros e; apply respects_ret; apply _].
        apply respects_bind; [apply _|apply create_reward_orders|intros a; apply respects_ret; apply _].
      - intros w w' Hw Hk. by apply (orders_kept_claimed _ w). }
    intros _. destruct (notify && _); [|by apply triple_ret].
    eapply triple_bind; [by apply triple_askR|]. intros sent. by apply triple_ret.
  - eapply (triple_bind _ _ _ (fun _ => claimed opk)); [|intros _; by apply triple_ret].
    unfold after_failure. eapply triple_bind; [apply get_order_claimed|]. intros o'. cbv beta.
    apply triple_pure. intros Ho'.
    eapply triple_bind; [by apply save_order_claimed|]. intros o2. apply triple_ret. by intros w [].
Qed.

(** Under a claim, another approval of the renewal does nothing. *)
Lemma claimed_approval_no_op opk instance actor source notify now w :
  md_truthy "admin_inventory_asset_id" (metadata instance) = false ->
  order_is_renewal instance = true -> claimed opk w ->
  exists r, approve_and_provision_order opk instance actor source notify now w = (Ret r, w).
Proof.
  intros Hi Hren (row & Hrow & Hrun & Hkey).
  destruct (can_resend_order row) eqn:Hcan.
  - destruct (completed_refusal opk row source (db w) Hcan) as (r & Hr & _).
    { unfold order_has_partial_delivery. by rewrite Hkey. }
    exists r. eapply approval_no_op; eauto.
  - destruct (decide (status row = REJECTED \/ status row = CANCELLED)) as [Hs|Hs].
    + destruct (out_of_service_refusal opk row source (db w) Hs) as (r & Hr & _).
      exists r. eapply approval_no_op; eauto.
    + exists (refused RENEWAL_RUNNING_MESSAGE). unfold approve_and_provision_order.
      rewrite Hi, Hren. cbn [negb]. run_io. unfold claim_renewal, get_order. run_io. rewrite Hrow.
      rewrite Hcan, !bool_decide_false by tauto. cbn [negb andb]. by rewrite Hrun.
Qed.

Lemma claim_renewal_raise opk now w e w' :
  claim_renewal opk now w = (Raise e, w') -> db w' = db w /\ calls w' = calls w.
Proof.
  intros Hr. split; [by eapply atomic_Raise_db|].
  assert (Hk : respects (keeps all_but_orders) (claim_renewal opk now)).
  { unfold claim_renewal, get_order. walk. }
  apply Hk in Hr. unfold keeps, all_but_orders in Hr. congruence.
Qed.

Lemma claim_renewal_claimed opk now w c w' o :
  orders (db w) !! opk = Some o -> order_is_renewal o = true ->
  ~ (out_of_service o \/ can_resend_order o = true) ->
  claim_renewal opk now w = (Ret (Some c), w') -> c = true /\ claimed opk w'.
Proof.
  intros Ho Hor Hn. unfold claim_renewal. run_io. unfold get_order. run_io. rewrite Ho.
  destruct (can_resend_order o); [tauto|].
  rewrite !bool_decide_false by (unfold out_of_service in Hn; tauto). cbn [negb andb].
  destruct (renewal_running (metadata o)) eqn:Hrun; [done|].
  match goal with |- context [save_order opk ?x _ _] => set (o1 := x) end.
  assert (Hm : holds_claim (metadata o1)).
  { unfold o1, holds_claim, renewal_running, md_get2, md_truthy. cbn.
    rewrite lookup_insert_eq, lookup_insert_ne by discriminate. by split. }
  clearbody o1.
  destruct (save_order opk o1 _ now w) as [[o'|e] w1] eqn:E; [|done].
  intros [= <- <-]. split; [done|].
  apply save_order_inv in E as (p & row & _ & Hrow & _ & Hv).
  apply service_view_inv in Hv as (Hos & _). cbn in Hos.
  exists (saved_row o1 [F_metadata] p now row). rewrite Hos. split; [apply lookup_insert_eq|].
  assert (metadata (saved_row o1 [F_metadata] p now row) = metadata o1) as ->.
  { apply saved_metadata, list_elem_of_here. }
  exact Hm.
Qed.

#[global] Instance out_of_service_dec o : Decision (out_of_service o).
Proof. unfold out_of_service. apply _. Defined.

(** C16: An interrupted renewal is never repeated blindly: when an approval of
    a renewal order crashes, either it had not yet done anything, or its claim
    stays on the order and every later approval of the renewal returns without
    calling a panel, messaging anyone or writing anything. *)
Theorem interrupted_renewal_not_repeated opk instance actor source notify now w e w1 o :
  md_truthy "admin_inventory_asset_id" (metadata instance) = false -> order_is_renewal instance = true ->
  orders (db w) !! opk = Some o -> order_is_renewal o = true ->
  approve_and_provision_order opk instance actor source notify now w = (Raise e, w1) ->
  (db w1 = db w /\ calls w1 = calls w) \/
  forall instance' actor' source' notify' now',
    md_truthy "admin_inventory_asset_id" (metadata instance') = false -> order_is_renewal instance' = true ->
    exists r, approve_and_provision_order opk instance' actor' source' notify' now' w1 = (Ret r, w1).
Proof.
  intros Hi Hren Ho Hor. unfold approve_and_provision_order at 1. rewrite Hi, Hren. cbn [negb].
  run_io. destruct (claim_renewal opk now w) as [[c|e'] wc] eqn:Ec.
  2: { intros [= <- <-]. left. by eapply claim_renewal_raise. }
  destruct c as [c|]; [|done].
  destruct (decide (out_of_service o \/ can_resend_order o = true)) as [Hno|Hyes].
  { pose proof (claim_not_needed opk now w o Ho Hno) as Hc. rewrite Ec in Hc. injection Hc as -> ->.
    assert (exists r, approval_refusal opk o source (db w) = Some r) as [r Hr].
    { destruct Hno as [Hs|Hs].
      - destruct (out_of_service_refusal opk o source (db w) Hs) as (r & Hr & _). by exists r.
      - destruct (completed_refusal opk o source (db w) Hs) as (r & Hr & _); [|by exists r].
        unfold order_has_partial_delivery. by unfold order_is_renewal in Hor; rewrite Hor. }
    by rewrite (approve_refused _ _ _ _ _ _ _ _ Ho Hr). }
  pose proof (claim_renewal_claimed _ _ _ _ _ _ Ho Hor Hyes Ec) as [-> Hc]. clear Ec.
  intros Hrun. right. intros. apply claimed_approval_no_op; [done..|]. revert Hrun.
  destruct (approve_and_provision_locked _ _ _ _ _ wc) as [[r|e2] w2] eqn:E2;
    apply approve_and_provision_locked_claimed in E2; [|done| |done]; [|by intros [= <- <-]].
  destruct (record_order_metadata _ _ _ _ w2) as [[u|e3] w3] eqn:E3; [done|]. intros [= <- <-].
  unfold record_order_metadata in E3. apply atomic_Raise_db in E3.
  by apply (orders_kept_claimed _ w2); rewrite ?E3.
Qed.
End Renewal.

(** ** Activation on a legacy panel *)

Section Legacy.
Context `{Env}.

(** Nothing but a save touches the orders table. *)
Lemma create_order_vpn_client_orders opk o i name u cr st now :
  respects (keeps orders_of) (create_order_vpn_client opk o i name u cr st now).
Proof. unfold create_order_vpn_client, get_plan. walk; done. Qed.

Lemma ensure_legacy_orders opk o now : respects (keeps orders_of) (ensure_legacy_order_client opk o now).
Proof. unfold ensure_legacy_order_client. walk; done. Qed.

Lemma find_or_create_orders opk p i ident name index :
  respects (keeps orders_of) (find_or_create_inactive opk p i ident name index).
Proof. unfold find_or_create_inactive, attempt. walk; done. Qed.

(** The order's quantity, in the row and in memory. *)
Definition ordered (opk q : Z) (w : World) : Prop :=
  exists row, orders (db w) !! opk = Some row /\ quantity row = q.

Lemma keeps_ordered {A} opk q (m : IO A) :
  respects (keeps orders_of) m -> triple (ordered opk q) m (fun _ => ordered opk q) (ordered opk q).
Proof.
  intros Hm. apply (triple_frame (keeps orders_of)); [done|]. intros w w' Hw Hk.
  unfold ordered, keeps, orders_of in *. by rewrite Hk.
Qed.

Lemma save_order_ordered opk o fs now q :
  triple (ordered opk q) (save_order opk o fs now)
    (fun o' w => quantity o' = quantity o /\ ordered opk q w) (ordered opk q).
Proof.
  intros w r w' (row & Hrow & Hq) Hrun.
  apply save_order_any in Hrun as [[-> Hf]|(p & row' & _ & Hrow' & Hv & Hr)].
  { destruct r; [done|]. by exists row. }
  apply service_view_inv in Hv as (Hos & _). cbn in Hos.
  assert (Hc : ordered opk q w').
  { exists (saved_row o fs p now row'). rewrite Hos. split; [apply lookup_insert_eq|].
    rewrite saved_quantity. congruence. }
  destruct r as [o'|e]; [|done]. subst o'. by rewrite saved_instance_quantity.
Qed.

Lemma sync_quantity o c : quantity (sync_order_primary_client_fields o c).1 = quantity o.
Proof. unfold sync_order_primary_client_fields. destruct c as [c|]; [|done]. cbv zeta. by keep. Qed.

(** A handler that returns the instance it was given, quantity unchanged. *)
Definition same_quantity {A} (opk q : Z) (o : order) (m : IO (order * A)) : Prop :=
  triple (ordered opk q) m (fun x w => quantity x.1 = quantity o /\ ordered opk q w) (ordered opk q).

Lemma create_missing_ordered opk q p i name now l o :
  same_quantity opk q o (create_missing_clients opk p i name now l o).
Proof.
  unfold same_quantity. revert o. induction l as [|index l IH]; intros o; cbn [create_missing_clients].
  { by apply triple_ret. }
  eapply triple_bind; [apply triple_get_db|]. intros d. apply (triple_pre _ (ordered opk q)); [tauto|].
  eapply triple_bind; [apply keeps_ordered, find_or_create_orders|]. intros [[cr|]|].
  - eapply triple_bind; [apply keeps_ordered, create_order_vpn_client_orders|]. intros ?.
    eapply triple_bind; [apply (triple_put_db _ _ (ordered opk q)); intros w Hw; exact Hw|]. intros ?.
    apply IH.
  - eapply (triple_bind _ _ _ (fun o' w => quantity o' = quantity o /\ ordered opk q w));
      [|intros o'; apply (triple_ret _ (o', Some PANEL_CREATE_FAILED_MESSAGE)); intros w Hw; exact Hw].
    unfold record_missing_failure. eapply triple_bind; [apply triple_get_db|]. intros d'.
    apply (triple_pre _ (ordered opk q)); [tauto|].
    eapply triple_post; [apply save_order_ordered|]. intros o' w Hw. exact Hw.
  - by apply triple_ret.
Qed.

Lemma provision_missing_ordered opk q o now :
  same_quantity opk q o (provision_missing_panel_client opk o now).
Proof.
  unfold same_quantity, provision_missing_panel_client.
  eapply triple_bind; [apply keeps_ordered, ensure_legacy_orders|]. intros ?.
  eapply triple_bind; [apply triple_get_db|]. intros d. apply (triple_pre _ (ordered opk q)); [tauto|].
  destruct (_ <=? 0); [by apply triple_ret|].
  eapply triple_bind; [by apply triple_get_or_raise|]. intros p. apply (triple_pre _ (ordered opk q)); [tauto|].
  destruct (choose_order_inbound _ _ _ _) as [[i|]|[]]; try (by apply triple_ret); try (by apply triple_raise).
  unfold provision_on_inbound. eapply triple_bind; [apply triple_get_db|]. intros d'.
  apply (triple_pre _ (ordered opk q)); [tauto|].
  eapply triple_bind; [apply save_order_ordered|]. intros o1. cbv beta. apply triple_pure. intros Hq1.
  change (quantity o1 = quantity o) in Hq1. eapply triple_bind; [apply triple_get_db|]. intros d2. apply (triple_pre _ (ordered opk q)); [tauto|].
  eapply triple_bind; [apply create_missing_ordered|]. intros [o2 failed]. cbv beta. apply triple_pure.
  cbn [fst]. intros Hq2. destruct failed as [m|].
  { apply triple_ret. intros w Hw. split; [|exact Hw]. cbn. by rewrite Hq2, Hq1. }
  unfold finish_missing_clients. eapply (triple_bind _ _ _ (fun o' w => quantity o' = quantity o /\ ordered opk q w)).
  2: { intros o3. apply triple_ret. intros w Hw. exact Hw. }
  eapply triple_bind; [apply triple_get_db|]. intros d3. apply (triple_pre _ (ordered opk q)); [tauto|].
  pose proof (sync_quantity o2 (snd <$> head (order_clients opk d3))) as Hsq.
  destruct (sync_order_primary_client_fields _ _) as [o3 changed]. cbn [fst] in Hsq.
  eapply triple_post; [apply save_order_ordered|]. cbv beta. intros o4 w [-> Hw]. split; [|done].
  change (quantity o3 = quantity o). by rewrite Hsq, Hq2, Hq1.
Qed.
(** Enabling clients one by one activates each of them and no other. *)
Lemma enable_clients_spec p now l w w' :
  NoDup l.*1 -> (forall k c, (k, c) ∈ l -> clients (db w) !! k = Some c) ->
  enable_clients p now l w = (Ret None, w') ->
  orders (db w') = orders (db w) /\
  (forall k c, (k, c) ∈ l -> exists c', clients (db w') !! k = Some c' /\
     VPNClient.status c' = VPNClient.ACTIVE /\ VPNClient.order c' = VPNClient.order c) /\
  (forall k, k ∉ l.*1 -> clients (db w') !! k = clients (db w) !! k).
Proof.
  revert w. induction l as [|[k c] l IH]; intros w Hnd Hl; cbn [enable_clients].
  { intros [= <-]. repeat split. intros k c Hin. by apply not_elem_of_nil in Hin. }
  rewrite fmap_cons in Hnd. apply NoDup_cons in Hnd as [Hk Hnd]. cbn [fst] in Hk.
  assert (Hc : clients (db w) !! k = Some c) by (apply Hl, list_elem_of_here).
  case_bool_decide as Hact.
  - intros Hrun. destruct (IH w Hnd) as (Ho & Ha & Hother); [intros; apply Hl; by right|done|].
    split; [done|]. split.
    + intros k' c' [[= -> ->]|Hin]%elem_of_cons; [|auto]. exists c. rewrite Hother by done. auto.
    + intros k' [Hne Hni]%not_elem_of_cons. auto.
  - run_io. destruct (negb _); [done|]. destruct (enable_client _ k c); [|done]. cbn [negb].
    set (c1 := VPNClient.mark_active now (Plan.duration_days p) c).
    match goal with |- enable_clients _ _ _ ?x = _ -> _ => set (w1 := x) end. intros Hrun.
    assert (Hw1 : clients (db w1) = <[k := c1]> (clients (db w))) by done.
    destruct (IH w1 Hnd) as (Ho & Ha & Hother); [|done|].
    { intros k' c' Hin. rewrite Hw1, lookup_insert_ne; [apply Hl; by right|].
      intros ->. apply Hk. apply list_elem_of_fmap. by exists (k', c'). }
    split; [done|]. split.
    + intros k' c' [[= -> ->]|Hin]%elem_of_cons; [|auto]. exists c1.
      rewrite Hother, Hw1 by done. split; [apply lookup_insert_eq|]. by split.
    + intros k' [Hne Hni]%not_elem_of_cons. rewrite Hother, Hw1 by done. apply lookup_insert_ne. auto.
Qed.

(** A paid, verified and completed order. *)
Definition fulfilled (o : order) : Prop :=
  status o = COMPLETED /\ verification_status o = V_VERIFIED /\ is_paid o = true /\
  provisioning_status o = PROVISIONED.

Definition all_active (opk : Z) (d : DB) : Prop :=
  forall k c, clients d !! k = Some c -> VPNClient.order c = Some opk ->
    VPNClient.status c = VPNClient.ACTIVE.

Lemma finish_legacy_fulfilled opk o c actor now w o' w' :
  finish_legacy_order opk o c actor now w = (Ret o', w') ->
  exists row, orders (db w') !! opk = Some row /\ fulfilled row /\
    clients (db w') = clients (db w) /\ exists row0, orders (db w) !! opk = Some row0 /\ quantity row = quantity row0.
Proof.
  unfold finish_legacy_order. run_io.
  destruct (sync_order_primary_client_fields _ c) as [o1 changed] eqn:Es.
  assert (Hst : status o1 = COMPLETED /\ verification_status o1 = V_VERIFIED /\ is_paid o1 = true).
  { unfold sync_order_primary_client_fields in Es. destruct c as [c|].
    - replace o1 with (o1, changed).1 by done. rewrite <- Es. cbv zeta. by keep.
    - by injection Es as <- <-. }
  match goal with |- context [mark_provisioning_state _ _ _ _ _ ?x] => set (o2 := x) end.
  set (o3 := mark_provisioning_state _ _ _ _ _ o2).
  assert (Hst3 : status o3 = COMPLETED /\ verification_status o3 = V_VERIFIED /\ is_paid o3 = true
                 /\ provisioning_status o3 = PROVISIONED).
  { subst o3 o2. case_match; exact (conj (proj1 Hst) (conj (proj1 (proj2 Hst)) (conj (proj2 (proj2 Hst)) eq_refl))). }
  clearbody o3. clear o2 Hst Es. destruct Hst3 as (H1 & H2 & H3 & H4).
  intros (p & row & _ & Hrow & _ & Hv)%save_order_inv.
  apply service_view_inv in Hv as (Hos & Hcs & _). cbn in Hos, Hcs.
  exists (saved_row o3 (VERIFIED_FIELDS ++ changed ++
    [F_metadata; F_provisioning_status; F_last_provisioning_error; F_provisioned_at]) p now row).
  rewrite Hos. split; [apply lookup_insert_eq|]. split; [|split; [done|]].
  - unfold fulfilled. rewrite saved_status, saved_verification_status, saved_is_paid,
      saved_provisioning_status by (unfold VERIFIED_FIELDS; set_solver || congruence). done.
  - exists row. by rewrite saved_quantity.
Qed.
(** What a customer gets for an order: the order is fulfilled, it has at least
    the clients it asked for and all of them are active. *)
Definition delivered (opk q : Z) (w : World) : Prop :=
  exists row, orders (db w) !! opk = Some row /\ fulfilled row /\ quantity row = q /\
    required_client_count row <= count_clients opk (db w) /\ all_active opk (db w).

Lemma count_clients_mono opk d d' :
  (forall k c, clients d !! k = Some c -> VPNClient.order c = Some opk ->
     exists c', clients d' !! k = Some c' /\ VPNClient.order c' = Some opk) ->
  count_clients opk d <= count_clients opk d'.
Proof.
  intros Hsub. unfold count_clients, count_where. apply Nat2Z.inj_le.
  rewrite <- (length_fmap fst (rows_where _ (clients d))), <- (length_fmap fst (rows_where _ (clients d'))).
  apply submseteq_length, NoDup_submseteq; [apply rows_where_NoDup|].
  intros k ([k' c] & -> & Hin)%list_elem_of_fmap. cbn [fst].
  apply elem_of_rows_where in Hin as [Hk Hc%bool_decide_eq_true].
  destruct (Hsub _ _ Hk Hc) as (c' & Hk' & Hc'). apply list_elem_of_fmap. exists (k', c').
  split; [done|]. apply elem_of_rows_where. split; [done|]. by apply bool_decide_eq_true.
Qed.

(** The last part of a legacy activation, on a client list just read. *)
Lemma enable_and_finish opk q o actor now :
  quantity o = q ->
  triple (ordered opk q)
    (d ← get_db;
     let cs := order_clients opk d in
     if Z.of_nat (length cs) <? required_client_count o then mret (o, refused NOT_ALL_READY_MESSAGE)
     else
       p ← get_plan (plan o);
       stopped ← enable_clients p now cs;
       match stopped with
       | Some m => mret (o, refused m)
       | None =>
           o ← finish_legacy_order opk o (snd <$> head cs) actor now;
           mret (o, (refused MODERN_OK_MESSAGE) {{ ok := true; client := head cs }})
       end)
    (fun x w => ok x.2 = true -> delivered opk q w) (fun _ => True).
Proof.
  intros Hq w r w' (row & Hrow & Hrq). run_io. set (cs := order_clients opk (db w)).
  destruct (Z.ltb_spec (Z.of_nat (length cs)) (required_client_count o)) as [|Hlen].
  { by intros [= <- <-]. }
  unfold get_plan. run_io. destruct (plans (db w) !! plan o) as [p|]; [|by intros [= <- <-]].
  destruct (enable_clients p now cs w) as [[[m|]|e] w1] eqn:E1; try (by intros [= <- <-]).
  apply enable_clients_spec in E1 as (Ho1 & Ha1 & Hother).
  2: { apply order_clients_NoDup. }
  2: { by intros k c [Hc _]%order_clients_spec. }
  destruct (finish_legacy_order _ _ _ _ _ w1) as [[o2|e] w2] eqn:E2; [|by intros [= <- <-]].
  apply finish_legacy_fulfilled in E2 as (row2 & Hrow2 & Hful & Hcs & row1 & Hrow1 & Hq2).
  intros [= <- <-] _. assert (row1 = row) as -> by congruence.
  exists row2. split; [done|]. split; [done|]. split; [congruence|].
  assert (Hkeys : forall k c, clients (db w2) !! k = Some c -> VPNClient.order c = Some opk ->
            k ∈ cs.*1 /\ VPNClient.status c = VPNClient.ACTIVE).
  { intros k c Hk Hc. rewrite Hcs in Hk. destruct (decide (k ∈ cs.*1)) as [Hin|Hni].
    - split; [done|]. apply list_elem_of_fmap in Hin as ([k0 c0] & -> & Hin).
      destruct (Ha1 _ _ Hin) as (c' & Hk' & Hact & _). cbn [fst] in Hk. congruence.
    - exfalso. rewrite Hother in Hk by done. apply Hni, list_elem_of_fmap. exists (k, c).
      split; [done|]. by apply order_clients_spec. }
  split; [|intros k c Hk Hc; exact (proj2 (Hkeys k c Hk Hc))].
  unfold required_client_count in *. rewrite Hq2, Hrq, <- Hq. etransitivity; [exact Hlen|].
  unfold cs. rewrite order_clients_count. fold (count_clients opk (db w)).
  apply count_clients_mono. intros k c Hk Hc.
  assert (Hin : (k, c) ∈ cs) by (by apply order_clients_spec).
  destruct (Ha1 _ _ Hin) as (c' & Hk' & _ & Hoc). exists c'. rewrite Hcs, Hoc. auto.
Qed.
(** When a legacy activation reports success, the customer has what was
    paid for: the order is completed, verified, paid and provisioned, it has at
    least as many clients as its quantity asks for, and every one of its
    clients is active. *)
Theorem legacy_activation_complete opk o actor now w o' r w' :
  orders (db w) !! opk = Some o ->
  activate_legacy_order opk o actor now w = (Ret (o', r), w') -> ok r = true ->
  delivered opk (quantity o) w'.
Proof.
  intros Ho Hrun Hok.
  assert (Ht : triple (ordered opk (quantity o)) (activate_legacy_order opk o actor now)
            (fun x w => ok x.2 = true -> delivered opk (quantity o) w) (fun _ => True)).
  2: { apply (Ht w _ w') in Hrun; [auto|]. by exists o. }
  unfold activate_legacy_order.
  eapply triple_bind; [eapply triple_any, save_order_ordered|]. intros o1. cbv beta.
  apply triple_pure. intros Hq1. change (quantity o1 = quantity o) in Hq1.
  eapply triple_bind; [eapply triple_any, keeps_ordered, ensure_legacy_orders|]. intros ?. cbv beta.
  eapply triple_bind; [apply triple_get_db|]. intros d. apply (triple_pre _ (ordered opk (quantity o))); [tauto|].
  eapply (triple_bind _ _ _ (fun x w => quantity x.1 = quantity o /\ ordered opk (quantity o) w)).
  { destruct (0 <? _); [|by apply triple_ret].
    eapply triple_bind; [eapply triple_any, provision_missing_ordered|]. intros [o2 ar].
    apply triple_ret. intros w1 [Hq2 Hw1]. cbn in *. split; [congruence|done]. }
  intros [o3 [m|]]; cbv beta; cbn [fst]; apply triple_pure; intros Hq3; [by apply triple_ret|].
  by apply enable_and_finish.
Qed.
End Legacy.

(** ** The sample shop *)

Definition with_order (opk : Z) (o : order) : World := sample_shop {{ db -> orders ::= insert opk o }}.

Lemma refused_orders_untouched_witness :
  let w := with_order 1000 ((sample_order 10) {{ status := CANCELLED }}) in
  exists r, @approve_and_provision_order sample_env no_delivery 1000 (sample_order 10) None "admin" true 5 w
      = (Ret r, w) /\ ok r = false.
Proof.
  intros w. apply (@refused_orders_untouched sample_env no_delivery 1000 (sample_order 10) None "admin"
    true 5 w ((sample_order 10) {{ status := CANCELLED }})); [reflexivity|reflexivity|by right].
Defined.

Lemma completed_approval_idempotent_witness :
  let o := (sample_order 10) {{ status := COMPLETED; verification_status := V_VERIFIED }} in
  exists r, @approve_and_provision_order sample_env no_delivery 1000 o None "manual_retry" true 5
      (with_order 1000 o) = (Ret r, with_order 1000 o) /\ ok r = true /\ already_provisioned r = true.
Proof.
  intros o. apply (@completed_approval_idempotent sample_env no_delivery 1000 o None "manual_retry" true 5
    (with_order 1000 o) o); reflexivity.
Defined.

(** A renewal of client 1, in an environment whose messages fail. *)
Definition renewal_order : order := (sample_order 10) {{ quantity := 1;
  metadata := {[ "renewal_client_pk" := JNum 1 ]} }}.
Definition renewal_shop : World := (with_order 1002 renewal_order) {{ db -> clients :=
  {[ 1 := sample_vpn_client 1000 10 VPNClient.EXPIRED ]} }}.
Definition silent_env : Env := make_env sample_lookup (Raise (OtherError "Telegram")).

Lemma interrupted_renewal_not_repeated_witness :
  let run := @approve_and_provision_order silent_env no_delivery 1002 renewal_order None "bot" true 5
               renewal_shop in
  calls run.2 = [CallNotify 1002 "approved"; CallRenew 1 1002] /\
  exists r, @approve_and_provision_order silent_env no_delivery 1002 renewal_order None "bot" true 6 run.2
    = (Ret r, run.2).
Proof.
  intros run. assert (Hc : calls run.2 = [CallNotify 1002 "approved"; CallRenew 1 1002])
    by (vm_compute; reflexivity).
  assert (Hr : run.1 = Raise (OtherError "Telegram")) by (vm_compute; reflexivity).
  split; [exact Hc|].
  destruct (@interrupted_renewal_not_repeated silent_env no_delivery 1002 renewal_order None "bot" true 5
    renewal_shop (OtherError "Telegram") run.2 renewal_order) as [[_ H]|H].
  - reflexivity.
  - reflexivity.
  - reflexivity.
  - reflexivity.
  - rewrite <- Hr. apply surjective_pairing.
  - rewrite Hc in H. discriminate H.
  - apply H; reflexivity.
Defined.

Lemma legacy_activation_complete_witness :
  let run := @activate_legacy_order sample_env 1000 (sample_order 10) (Some 1) 5 sample_shop in
  delivered 1000 2 run.2.
Proof.
  intros run.
  assert (Hr : match run.1 with Ret x => ok x.2 | Raise _ => false end = true) by (vm_compute; reflexivity).
  destruct run as [[[o r]|e] w'] eqn:E; [|discriminate Hr].
  exact (@legacy_activation_complete sample_env 1000 (sample_order 10) (Some 1) 5 sample_shop o r w'
    eq_refl E Hr).
Defined.
