(* ===== verification/ModernSpec.v ===== *)
(** Activations that create enabled clients (modern and PasarGuard panels): how
    they may end, why a retry does not create a client twice, and what the
    success of a whole approval means. *)

From S2P Require Import Prelude Models World Numbers Referrals OrderStore ReferralRewards Inbounds Compat Scope OrderActions Provisioning ProvisioningSpec.
Import Order.

(** ** Activation on a modern panel *)

Section Modern.
Context `{Env}.

(** The row of [cr], the panel's answer for a client of the order on [i]. *)
Definition row_key (i : keyed_inbound) (cr : client_result) : string :=
  or_str (cr_remote_client_key cr) (build_remote_client_key i.2 (cr_uuid cr)).

Record row_for (opk : Z) (i : keyed_inbound) (cr : client_result) (c : VPNClient.vpn_client) : Prop := {
  rf_order : VPNClient.order c = Some opk;
  rf_active : VPNClient.status c = VPNClient.ACTIVE;
  rf_uuid : cr_uuid cr <> "" -> VPNClient.uuid c = Some (cr_uuid cr);
  rf_email : cr_email cr <> "" -> VPNClient.xui_email c = cr_email cr;
  rf_key : cr_uuid cr <> "" -> VPNClient.remote_client_key c = row_key i cr;
}.

(** One of the later answer's identifiers is on the row of the earlier. *)
Definition shares (i : keyed_inbound) (earlier later : client_result) : bool :=
  existsb (fun v => iexact v (cr_uuid earlier) || iexact v (cr_email earlier) || iexact v (row_key i earlier))
    (result_identifiers later).

(** Answers of a panel that gives every client its own uuid, email and key. *)
Record told_apart (i : keyed_inbound) (crs : list client_result) : Prop := {
  ta_named : Forall (fun cr => cr_uuid cr <> "" /\ cr_email cr <> "") crs;
  ta_apart : forall m n earlier later, (m < n)%nat -> crs !! m = Some earlier -> crs !! n = Some later ->
    shares i earlier later = false;
}.

Definition has_row (opk : Z) (w : World) (P : VPNClient.vpn_client -> Prop) (k : Z) : Prop :=
  exists c, clients (db w) !! k = Some c /\ VPNClient.order c = Some opk /\ VPNClient.status c = VPNClient.ACTIVE /\ P c.

(** The rows [ks] were made for the answers [crs], one for each: active rows of
    the order, and different ones when the answers can be told apart. *)
Record units (opk : Z) (i : keyed_inbound) (ks : list Z) (crs : list client_result) (w : World) : Prop := {
  un_active : Forall (has_row opk w (fun _ => True)) ks;
  un_length : length ks = length crs;
  un_rows : told_apart i crs ->
    NoDup ks /\ Forall2 (fun k cr => has_row opk w (row_for opk i cr) k) ks crs;
}.

Lemma told_apart_prefix i crs more : told_apart i (crs ++ more) -> told_apart i crs.
Proof.
  intros [Hn Ha]. split; [by apply Forall_app in Hn as [? _]|]. intros m n cr cr' Hmn Hm Hn'.
  apply (Ha m n); [done|by apply lookup_app_l_Some..].
Qed.

Lemma has_row_keep opk w w' P k :
  (forall c, clients (db w) !! k = Some c -> clients (db w') !! k = Some c) -> has_row opk w P k -> has_row opk w' P k.
Proof. intros Hk (c & Hc & Hrest). exists c. auto. Qed.

Lemma units_keep opk i ks crs w w' : clients (db w') = clients (db w) -> units opk i ks crs w -> units opk i ks crs w'.
Proof.
  intros Hc [Ha Hl Hr]. assert (Hk : forall P k, has_row opk w P k -> has_row opk w' P k)
    by (intros P k; apply has_row_keep; by rewrite Hc).
  split; [eapply Forall_impl; [exact Ha|auto]|done|]. intros Ht. destruct (Hr Ht) as [Hnd Hf]. split; [done|].
  eapply Forall2_impl; [exact Hf|]. auto.
Qed.

Lemma keeps_units {A} opk i ks crs (m : IO A) :
  respects (keeps clients_of) m ->
  triple (units opk i ks crs) m (fun _ => units opk i ks crs) (fun _ => True).
Proof.
  intros Hm. eapply triple_any, (triple_frame (keeps clients_of)); [done|].
  intros w w' Hw Hk. by eapply units_keep.
Qed.

(** The same identifiers. *)
Definition same_names (cr cr0 : client_result) : Prop :=
  cr_uuid cr = cr_uuid cr0 /\ cr_email cr = cr_email cr0 /\ cr_remote_client_key cr = cr_remote_client_key cr0.

Lemma same_names_identifiers cr cr0 : same_names cr cr0 -> result_identifiers cr = result_identifiers cr0.
Proof. unfold result_identifiers. by intros (-> & -> & ->). Qed.

(** A row saved for one more answer. *)
Lemma units_more opk i ks crs w w' k c cr0 :
  units opk i ks crs w -> row_for opk i cr0 c ->
  (forall j, j <> k -> clients (db w') !! j = clients (db w) !! j) -> clients (db w') !! k = Some c ->
  (told_apart i (crs ++ [cr0]) -> k ∉ ks) ->
  units opk i (ks ++ [k]) (crs ++ [cr0]) w'.
Proof.
  intros [Ha Hl Hr] Hrow Hother Hk Hnew. pose proof (rf_order _ _ _ _ Hrow) as Ho. pose proof (rf_active _ _ _ _ Hrow) as Hs.
  split.
  - apply Forall_app. split; [|apply Forall_singleton; by exists c]. eapply Forall_impl; [exact Ha|].
    intros j (cj & Hj & Hrest). destruct (decide (j = k)) as [->|Hne]; [by exists c|]. exists cj. by rewrite Hother.
  - rewrite !length_app. cbn. lia.
  - intros Ht. destruct (Hr (told_apart_prefix _ _ _ Ht)) as [Hnd Hf]. specialize (Hnew Ht). split.
    + apply NoDup_app. split; [done|]. split; [by intros x Hx ->%list_elem_of_singleton|apply NoDup_singleton].
    + apply Forall2_app; [|apply Forall2_cons; split; [by exists c|constructor]].
      apply Forall2_same_length_lookup_2; [done|]. intros n j cr Hj Hcr.
      apply (has_row_keep opk w); [|exact (Forall2_lookup_lr _ _ _ _ _ _ Hf Hj Hcr)].
      intros cj Hcj. rewrite Hother; [done|]. intros ->. apply Hnew. by eapply list_elem_of_lookup_2.
Qed.

(** A row found for a later answer is none of the earlier. *)
Lemma matched_new opk i ks crs w cr cr0 k c :
  units opk i ks crs w -> same_names cr cr0 -> (k, c) ∈ local_client_matches opk i.1 cr (db w) ->
  told_apart i (crs ++ [cr0]) -> k ∉ ks.
Proof.
  intros [_ _ Hr] Hsame Hin Ht Hk. destruct (Hr (told_apart_prefix _ _ _ Ht)) as [_ Hf].
  apply list_elem_of_lookup in Hk as [n Hn]. destruct (Forall2_lookup_l _ _ _ _ _ Hf Hn) as (e & He & c' & Hc' & _ & _ & [_ _ Hu Hem Hke]).
  unfold local_client_matches in Hin.
  apply elem_of_order_by, elem_of_rows_where in Hin as [Hc [[_ Hm]%andb_true_iff _]%andb_true_iff].
  rewrite Hc' in Hc. injection Hc as ->. destruct Ht as [Hnamed Hapart].
  assert (Hlt : (n < length crs)%nat) by by eapply lookup_lt_Some.
  assert (Hlast : (crs ++ [cr0]) !! length crs = Some cr0) by (by rewrite lookup_app_r, Nat.sub_diag).
  specialize (Hapart n (length crs) e cr0 Hlt (lookup_app_l_Some _ _ _ _ He) Hlast).
  rewrite Forall_forall in Hnamed. destruct (Hnamed e) as [Hun Hen].
  { apply elem_of_app. left. by eapply list_elem_of_lookup_2. }
  rewrite (Hu Hun), (Hem Hen), (Hke Hun), (same_names_identifiers _ _ Hsame) in Hm. unfold shares in Hapart. congruence.
Qed.

Lemma upserted_row opk o p i cr cr0 now c :
  same_names cr cr0 -> VPNClient.order c = Some opk -> row_for opk i cr0 (upserted_client o p i cr now c).
Proof.
  intros (Hu & He & Hk) Ho. unfold upserted_client. rewrite Hu, He, Hk.
  destruct (cr_expires_at cr); (split; cbn; [done|done|intros H0; by rewrite bool_decide_false|
    intros H0; unfold or_str; by rewrite bool_decide_false|intros H0; rewrite bool_decide_false by done; reflexivity]).
Qed.

Lemma create_order_vpn_client_inv opk o i name u cr st now w k c w' :
  create_order_vpn_client opk o i name u cr st now w = (Ret (k, c), w') ->
  VPNClient.order c = Some opk /\ clients (db w) !! k = None /\
  clients (db w') = <[k := c]> (clients (db w)).
Proof.
  unfold create_order_vpn_client, get_plan. run_io.
  destruct (plans (db w) !! plan o) as [p|]; [|done]. destruct (uuid_taken u (db w)); [done|].
  intros [= <- <- <-]. split; [done|]. split; [apply next_pk_fresh|done].
Qed.

Lemma upsert_units opk o p i cr cr0 now ks crs :
  same_names cr cr0 ->
  triple (units opk i ks crs) (upsert_local_client opk o p i cr now)
    (fun x w => units opk i (ks ++ [x.1.1]) (crs ++ [cr0]) w) (fun _ => True).
Proof.
  intros Hsame w r w' Hun. unfold upsert_local_client. run_io.
  destruct (local_client_matches opk i.1 cr (db w)) as [|[k c] [|]] eqn:E.
  3: { by intros [= <- <-]. }
  - destruct (create_order_vpn_client _ _ _ _ _ _ _ _ w) as [[[k c]|e] w1] eqn:E1; [|by intros [= <- <-]].
    apply create_order_vpn_client_inv in E1 as (Ho & Hfresh & Hc1).
    unfold save_client. run_io. destruct (_ && _); [by intros [= <- <-]|]. intros [= <- <-]. cbn [fst].
    eapply (units_more _ _ _ _ w); [done|by apply upserted_row| |cbn; by rewrite lookup_insert_eq|].
    { intros j Hj. cbn. rewrite Hc1, !lookup_insert_ne by done. done. }
    intros _ Hk. destruct Hun as [Ha _ _]. rewrite Forall_forall in Ha. destruct (Ha k Hk) as (? & ? & _). congruence.
  - assert (Hin : (k, c) ∈ local_client_matches opk i.1 cr (db w)) by (rewrite E; apply list_elem_of_here).
    pose proof (matched_new _ _ _ _ _ _ _ _ _ Hun Hsame Hin) as Hnew. unfold local_client_matches in Hin.
    apply elem_of_order_by, elem_of_rows_where in Hin as [_ [[[Ho%bool_decide_eq_true _]%andb_true_iff _]%andb_true_iff _]%andb_true_iff].
    unfold save_client. run_io. destruct (_ && _); [by intros [= <- <-]|]. intros [= <- <-]. cbn [fst].
    eapply (units_more _ _ _ _ w); [done|by apply upserted_row| |cbn; by rewrite lookup_insert_eq|done].
    intros j Hj. cbn. by rewrite lookup_insert_ne.
Qed.

Lemma collect_respects {A B} R `{!PreOrder R} (f : A -> IO B) l :
  (forall x, respects R (f x)) -> respects R (collect f l).
Proof.
  intros Hf. induction l as [|x l IH]; cbn [collect]; [apply respects_ret; apply _|].
  apply respects_bind; [apply _|auto|]. intros y. apply respects_bind; [apply _|auto|].
  intros ys. apply respects_ret; apply _.
Qed.

Lemma provision_single_clients i p ident : respects (keeps clients_of) (provision_single i p ident).
Proof. unfold provision_single, lookup_existing, create_enabled, require. walk; done. Qed.

Lemma provision_bundle_clients l p ident : respects (keeps clients_of) (provision_bundle l p ident).
Proof.
  unfold provision_bundle, lookup_existing, create_enabled, require.
  walk; try done; apply collect_respects; try apply _; walk; done.
Qed.

(** [cr] is what the panel answered for the client of [ident]. *)
Definition answered (ident : identity) (cr : client_result) : Prop :=
  (exists h k i flag, lookup_remote_client h k i ident flag = Ret (Some cr)) \/
  (exists h pks p links, pasarguard_create h pks p ident = Ret (cr, links)).

(** The identity the order has for its [index]-th client. *)
Definition unit_identity (o : order) (l : list keyed_inbound) (i : keyed_inbound) (index : Z) (ident : identity) : Prop :=
  exists d o', public_id o' = public_id o /\ order_tracking_code o' = order_tracking_code o /\
    (ident = order_identity d o' i index \/ ident = multi_inbound_order_identity o' l index).

Definition unit_answer (o : order) (l : list keyed_inbound) (i : keyed_inbound) (index : Z) (cr : client_result) : Prop :=
  exists ident, unit_identity o l i index ident /\ answered ident cr.

Lemma lookup_answered i ident w cr w' : lookup_existing i ident w = (Ret (Some cr), w') -> answered ident cr.
Proof. unfold lookup_existing, askR. intros [= Hc _]. left. eauto. Qed.

Lemma require_Ret {A} code (x : option A) w a w' : require code x w = (Ret a, w') -> x = Some a.
Proof. unfold require. destruct x; [|done]. by intros [= <- <-]. Qed.

Lemma provision_single_answered i p ident w x w' :
  provision_single i p ident w = (Ret x, w') -> answered ident x.1.
Proof.
  unfold provision_single. intros (found & w1 & _ & (? & w2 & _ & (v & w3 & Hv & (cr & w4 & ->%require_Ret & [= <- _])%M_bind_Ret)%M_bind_Ret)%M_bind_Ret)%M_bind_Ret.
  by eapply lookup_answered.
Qed.

Lemma collect_head {A B} (f : A -> IO B) l w ys w' y :
  collect f l w = (Ret ys, w') -> head ys = Some y -> exists x w1 w2, f x w1 = (Ret y, w2).
Proof.
  destruct l as [|x l]; cbn [collect]; [by intros [= <- _]|].
  intros (y' & w1 & Hy & (ys' & w2 & _ & [= <- _])%M_bind_Ret)%M_bind_Ret [= ->]. eauto.
Qed.

Lemma provision_bundle_answered l p ident w x w' :
  provision_bundle l p ident w = (Ret x, w') -> exists cr0, answered ident cr0 /\ same_names x.1 cr0.
Proof.
  unfold provision_bundle. intros (existing & w1 & _ & E)%M_bind_Ret. cbv zeta in E.
  apply M_bind_Ret in E as (created & w2 & _ & E). destruct (negb _); [done|].
  apply M_bind_Ret in E as (verified & w3 & Hv & (v & w4 & Hh%require_Ret & [= <- _])%M_bind_Ret).
  exists v. split; [|done]. destruct (collect_head _ _ _ _ _ _ Hv Hh) as (i & wa & wb & (u & wc & Hu & ->%require_Ret)%M_bind_Ret).
  by eapply lookup_answered.
Qed.

Lemma indexed_unit d o o' l i multi first index :
  public_id o' = public_id o -> order_tracking_code o' = order_tracking_code o ->
  unit_identity o l i 1 first -> unit_identity o l i index (indexed_identity d o' l i multi first index).
Proof.
  intros Hp Ht Hf. unfold indexed_identity. destruct (index =? 1) eqn:E; [by apply Z.eqb_eq in E as ->|].
  exists d, o'. destruct multi; auto.
Qed.

(** What the loops over an order's clients make. *)
Definition made (opk : Z) (o : order) (l : list keyed_inbound) (i : keyed_inbound) (ks : list Z) (crs : list client_result)
    (indices : list Z) (new : list Z) (w : World) : Prop :=
  exists more, units opk i (ks ++ new) (crs ++ more) w /\ Forall2 (unit_answer o l i) indices more.

Lemma made_step opk o l i ks crs index rest k cr new w :
  unit_answer o l i index cr -> made opk o l i (ks ++ [k]) (crs ++ [cr]) rest new w ->
  made opk o l i ks crs (index :: rest) (k :: new) w.
Proof.
  intros Ha (more & Hu & Hf). exists (cr :: more). rewrite <- !app_assoc in Hu. split; [exact Hu|by constructor].
Qed.

Lemma made_nothing opk o l i ks crs w : units opk i ks crs w -> made opk o l i ks crs [] [] w.
Proof. intros Hu. exists []. by rewrite !app_nil_r. Qed.

Lemma triple_kept_result {A} P (m : IO A) (F : A -> Prop) Q X :
  (forall w a w', m w = (Ret a, w') -> F a) -> triple P m (fun _ => Q) X -> triple P m (fun a w => F a /\ Q w) X.
Proof.
  intros HF Hm w r w' Hw Hrun. pose proof (Hm w r w' Hw Hrun) as Hx. destruct r as [a|e]; [split; [by eapply HF|done]|done].
Qed.

Section Loops.
Context (opk : Z) (o o' : order) (p : Plan.plan) (l : list keyed_inbound) (i : keyed_inbound) (multi : bool) (first : identity) (now : Z).
Context (Hpub : public_id o' = public_id o) (Htrack : order_tracking_code o' = order_tracking_code o).
Context (Hfirst : unit_identity o l i 1 first).

Lemma provision_clients_made indices : forall ks crs,
  triple (units opk i ks crs) (provision_clients opk o' p l i multi first now indices)
    (fun x => made opk o l i ks crs indices x.1.*1) (fun _ => True).
Proof.
  induction indices as [|index rest IH]; intros ks crs; cbn [provision_clients].
  { apply triple_ret. apply made_nothing. }
  eapply triple_bind; [apply triple_get_db|]. intros d. apply (triple_pre _ (units opk i ks crs)); [tauto|]. cbv zeta.
  set (ident := indexed_identity _ _ _ _ _ _ _). assert (Hid : unit_identity o l i index ident) by by apply indexed_unit.
  eapply (triple_bind _ _ _ (fun x w => (exists cr0, answered ident cr0 /\ same_names x.1 cr0) /\ units opk i ks crs w)).
  { destruct multi; (apply triple_kept_result; [|apply keeps_units]).
    - apply provision_bundle_answered.
    - apply provision_bundle_clients.
    - intros w x w' Ha%provision_single_answered. by exists x.1.
    - apply provision_single_clients. }
  intros [cr reused]. apply triple_pure. intros (cr0 & Ha & Hsame).
  eapply triple_bind; [by apply upsert_units|]. intros [[k c] created]. cbn [fst].
  eapply triple_bind; [apply IH|]. intros [cs reused']. cbn [fst]. apply triple_ret.
  intros w Hm. apply (made_step _ _ _ _ _ _ _ _ _ cr0); [by exists ident|exact Hm].
Qed.

Lemma provision_pasarguard_made indices : forall ks crs,
  triple (units opk i ks crs) (provision_pasarguard_clients opk o' p l i multi first now indices)
    (fun x => made opk o l i ks crs indices x.1.*1) (fun _ => True).
Proof.
  induction indices as [|index rest IH]; intros ks crs; cbn [provision_pasarguard_clients].
  { apply triple_ret. apply made_nothing. }
  eapply triple_bind; [apply triple_get_db|]. intros d. apply (triple_pre _ (units opk i ks crs)); [tauto|]. cbv zeta.
  set (ident := indexed_identity _ _ _ _ _ _ _). assert (Hid : unit_identity o l i index ident) by by apply indexed_unit.
  eapply (triple_bind _ _ _ (fun x w => answered ident x.1 /\ units opk i ks crs w)).
  { apply triple_kept_result; [|by apply keeps_units; walk]. intros w x w'. unfold askR. intros [= Hc _]. right.
    destruct x as [cr links]. eauto 10. }
  intros [cr raw]. apply triple_pure. intros Ha. eapply (triple_bind _ _ _ (fun _ => units opk i ks crs)).
  { apply keeps_units. unfold require. walk. }
  intros link. eapply triple_bind; [by apply (upsert_units _ _ _ _ _ cr)|]. intros [[k c] created]. cbn [fst].
  eapply (triple_bind _ _ _ (fun _ => units opk i (ks ++ [k]) (crs ++ [cr]))).
  { apply keeps_units. walk. done. }
  intros ?. eapply triple_bind; [apply IH|]. intros [cs ls]. cbn [fst]. apply triple_ret.
  intros w Hm. apply (made_step _ _ _ _ _ _ _ _ _ cr); [by exists ident|exact Hm].
Qed.
End Loops.

(** An order whose payment stands but whose clients could not be made: kept
    for another attempt, never shown as completed. *)
Definition awaiting_retry (o : order) : Prop :=
  status o = CONFIRMED /\ verification_status o = V_VERIFIED /\ is_paid o = true /\
  provisioning_status o = FAILED.

(** A save of the four states writes them. *)
Lemma save_states opk o fs now w o' w' :
  F_status ∈ fs -> F_verification_status ∈ fs -> F_is_paid ∈ fs -> F_provisioning_status ∈ fs ->
  status o <> LEGACY_PENDING -> save_order opk o fs now w = (Ret o', w') ->
  clients (db w') = clients (db w) /\
  exists row, orders (db w') !! opk = Some row /\ status row = status o /\
    verification_status row = verification_status o /\ is_paid row = is_paid o /\
    provisioning_status row = provisioning_status o.
Proof.
  intros H1 H2 H3 H4 Hl (p & row & _ & _ & _ & Hv)%save_order_inv.
  apply service_view_inv in Hv as (Hos & Hcs & _). cbn in Hos, Hcs. split; [done|].
  exists (saved_row o fs p now row). rewrite Hos. split; [apply lookup_insert_eq|].
  by rewrite saved_status, saved_verification_status, saved_is_paid, saved_provisioning_status.
Qed.

Lemma finish_failed_awaiting opk o error key strategy now w o' w' :
  status o <> COMPLETED -> finish_failed_modern_order opk o error key strategy now w = (Ret o', w') ->
  exists row, orders (db w') !! opk = Some row /\ awaiting_retry row.
Proof.
  intros Hs. unfold finish_failed_modern_order.
  match goal with |- save_order opk ?x _ _ _ = _ -> _ => set (o1 := x) end.
  assert (Ho1 : awaiting_retry o1).
  { unfold o1, awaiting_retry. cbn [status]. rewrite (bool_decide_false _ Hs).
    unfold mark_provisioning_state. by destruct (bool_decide (key = "")), (_ || _). }
  clearbody o1. destruct Ho1 as (E1 & E2 & E3 & E4). intros Hrun.
  apply save_states in Hrun as [_ (row & Hrow & R1 & R2 & R3 & R4)]; [|set_solver..|congruence].
  exists row. split; [done|]. unfold awaiting_retry. by rewrite R1, R2, R3, R4.
Qed.

Lemma finish_modern_fulfilled opk o c direct key extra actor now w o' w' :
  finish_modern_order opk o c direct key extra actor now w = (Ret o', w') ->
  clients (db w') = clients (db w) /\ exists row, orders (db w') !! opk = Some row /\ fulfilled row.
Proof.
  unfold finish_modern_order.
  match goal with |- save_order opk ?x _ _ _ = _ -> _ => set (o1 := x) end.
  assert (Ho1 : fulfilled o1).
  { unfold o1, fulfilled, mark_provisioning_state. by destruct c, (bool_decide (key = "")). }
  clearbody o1. destruct Ho1 as (E1 & E2 & E3 & E4). intros Hrun.
  apply save_states in Hrun as [Hc (row & Hrow & R1 & R2 & R3 & R4)];
    [|unfold MODERN_FIELDS; set_solver..|congruence].
  split; [done|]. exists row. split; [done|]. unfold fulfilled. by rewrite R1, R2, R3, R4.
Qed.
Lemma begin_modern_confirmed opk o l i multi pg first strategy now :
  triple (fun _ => True) (begin_modern_order opk o l i multi pg first strategy now)
    (fun o' w => status o' = CONFIRMED /\ quantity o' = quantity o /\ public_id o' = public_id o /\
       order_tracking_code o' = order_tracking_code o) (fun _ => True).
Proof.
  intros w r w' _. unfold begin_modern_order. run_io.
  match goal with |- save_order opk ?x _ _ _ = _ -> _ => set (o1 := x) end.
  assert (status o1 = CONFIRMED /\ quantity o1 = quantity o /\ public_id o1 = public_id o /\
    order_tracking_code o1 = order_tracking_code o) as (Hs & Hq & Hp & Ht)
    by (unfold o1, mark_provisioning_state; by destruct (bool_decide (id_idempotency_key first = ""))).
  clearbody o1. destruct r as [o'|e]; [|done]. intros (p & row & _ & _ & -> & _)%save_order_inv.
  by rewrite saved_instance_quantity, saved_instance_public_id, saved_instance_tracking, saved_instance_status, Hs.
Qed.

(** How an activation on a modern panel may end. *)
Definition clients_made (opk : Z) (o : order) (l : list keyed_inbound) (i : keyed_inbound) (ks : list Z) (w : World) : Prop :=
  exists crs, units opk i ks crs w /\ Forall2 (unit_answer o l i) (seqZ 1 (required_client_count o)) crs.

Definition modern_outcome (opk : Z) (o : order) (l : list keyed_inbound) (i : keyed_inbound)
    (x : order * provisioning_result) (w : World) : Prop :=
  exists row, orders (db w) !! opk = Some row /\
    if ok x.2 then fulfilled row /\ exists ks, clients_made opk o l i ks w else awaiting_retry row.

(** The end of an activation, once the clients are made or not. *)
Lemma modern_end {A} opk o o0 l i (making : IO (list (Z * VPNClient.vpn_client) * A)) (bad : string)
    key strategy now direct extra actor good :
  status o = CONFIRMED ->
  triple (fun _ => True) making (fun x => clients_made opk o0 l i x.1.*1) (fun _ => True) ->
  triple (fun _ => True)
    (r ← catch (x ← making; mret (inl x)) (fun e => mret (inr (safe_error_text e)));
     match r with
     | inr error =>
         o' ← finish_failed_modern_order opk o error key strategy now;
         mret (o', failed_with o' bad error)
     | inl (cs, x) =>
         o' ← finish_modern_order opk o (snd <$> head cs) (direct cs x) key (extra x) actor now;
         mret (o', succeeded o' good (head cs))
     end)
    (modern_outcome opk o0 l i) (fun _ => True).
Proof.
  intros Hs Hmade.
  eapply (triple_bind _ _ _ (fun r w => match r with inl x => clients_made opk o0 l i x.1.*1 w | inr _ => True end)).
  { eapply triple_catch.
    - eapply triple_bind; [exact Hmade|]. intros x. apply triple_ret. intros w Hw. exact Hw.
    - intros e. by apply triple_ret. }
  intros [[cs x]|error] w r w' Hw; cbn [fst] in *; run_io.
  - destruct (finish_modern_order _ _ _ _ _ _ _ _ w) as [[o'|e] w1] eqn:E; [|by intros [= <- <-]].
    intros [= <- <-]. apply finish_modern_fulfilled in E as [Hc (row & Hrow & Hf)].
    exists row. split; [done|]. cbn. split; [done|]. destruct Hw as (crs & Hu & Hall). exists cs.*1, crs.
    split; [by eapply units_keep|done].
  - destruct (finish_failed_modern_order _ _ _ _ _ _ w) as [[o'|e] w1] eqn:E; [|by intros [= <- <-]].
    intros [= <- <-]. apply finish_failed_awaiting in E as (row & Hrow & Hf); [|congruence].
    by exists row.
Qed.

Lemma units_none opk i w : units opk i [] [] w.
Proof. split; [constructor|done|]. intros _. split; constructor. Qed.

Lemma activate_modern_xui_outcome opk o l i actor strategy now :
  triple (fun _ => True) (activate_modern_xui opk o l i actor strategy now)
    (modern_outcome opk o l i) (fun _ => True).
Proof.
  unfold activate_modern_xui. eapply triple_bind; [apply triple_get_db|]. intros d.
  apply (triple_pre _ (fun _ => True)); [done|].
  eapply triple_bind; [by apply triple_get_or_raise|]. intros p. apply (triple_pre _ (fun _ => True)); [done|].
  cbv zeta. eapply triple_bind; [apply begin_modern_confirmed|]. intros o1.
  intros w r w' (Hs & Hq & Hp & Ht). revert w r w' => w r w'.
  apply (modern_end opk o1 o l i _ _ _ _ _
    (fun cs (_ : bool) => match head cs with Some (_, c) => VPNClient.direct_link c | None => direct_link o1 end)
    (fun reused => insert "remote_reused_on_retry" (JBool reused))); [done| |done].
  assert (required_client_count o1 = required_client_count o) as -> by (unfold required_client_count; congruence).
  eapply triple_pre; [intros w0 _; apply (units_none opk i)|]. eapply triple_conseq; [|done| |done].
  - apply (provision_clients_made opk o o1); [done|done|]. destruct (_ && _); exists d, o; auto.
  - intros x w0 (crs & Hu & Hf). by exists crs.
Qed.

Lemma activate_pasarguard_outcome opk o l i actor strategy now :
  triple (fun _ => True) (activate_pasarguard opk o l i actor strategy now)
    (modern_outcome opk o l i) (fun _ => True).
Proof.
  unfold activate_pasarguard. eapply triple_bind; [apply triple_get_db|]. intros d.
  apply (triple_pre _ (fun _ => True)); [done|].
  eapply triple_bind; [by apply triple_get_or_raise|]. intros p. apply (triple_pre _ (fun _ => True)); [done|].
  cbv zeta. eapply triple_bind; [apply begin_modern_confirmed|]. intros o1.
  intros w r w' (Hs & Hq & Hp & Ht). revert w r w' => w r w'.
  apply (modern_end opk o1 o l i _ _ _ _ _
    (fun _ links => or_opt (head links) (direct_link o1)) pasarguard_metadata); [done| |done].
  assert (required_client_count o1 = required_client_count o) as -> by (unfold required_client_count; congruence).
  eapply triple_pre; [intros w0 _; apply (units_none opk i)|]. eapply triple_conseq; [|done| |done].
  - apply (provision_pasarguard_made opk o o1); [done|done|]. destruct (_ <? _); exists d, o; auto.
  - intros x w0 (crs & Hu & Hf). by exists crs.
Qed.

End Modern.

(** ** Retries *)

Section Retries.
Context `{Env}.

(** A save calls nobody. *)
Lemma save_order_writes opk o fs now : respects (keeps panel_writes) (save_order opk o fs now).
Proof.
  intros w r w' Hrun%save_order_frame. unfold keeps, all_but_orders, panel_writes in *. congruence.
Qed.

Lemma create_client_writes opk o i name u cr st now :
  respects (keeps panel_writes) (create_order_vpn_client opk o i name u cr st now).
Proof. unfold create_order_vpn_client, get_plan. walk; done. Qed.

Lemma upsert_writes opk o p i cr now : respects (keeps panel_writes) (upsert_local_client opk o p i cr now).
Proof. unfold upsert_local_client, save_client. walk; try done; apply create_client_writes. Qed.

(** The history of panel writes so far. *)
Definition wrote (h : list call) (w : World) : Prop := panel_writes w = h.

Lemma keeps_wrote {A} h (m : IO A) :
  respects (keeps panel_writes) m -> triple (wrote h) m (fun _ => wrote h) (wrote h).
Proof.
  intros Hm. apply (triple_frame (keeps panel_writes)); [done|]. unfold wrote, keeps. congruence.
Qed.

Section Found.
(** The panel knows the client of every identity it is asked for. *)
Context (found : forall h ipk i ident enabled,
  exists cr, lookup_remote_client h ipk i ident enabled = Ret (Some cr)).

Lemma lookup_found h i ident :
  triple (wrote h) (lookup_existing i ident) (fun x w => is_set x = true /\ wrote h w) (wrote h).
Proof.
  intros w r w' Hw. unfold lookup_existing, askR.
  destruct (found (calls w) i.1 i.2 ident true) as [cr ->]. intros [= <- <-]. by split.
Qed.

Lemma require_wrote {A} h code (x : option A) : triple (wrote h) (require code x) (fun _ => wrote h) (wrote h).
Proof. apply keeps_wrote. unfold require. walk. Qed.

Lemma provision_single_found h i p ident :
  triple (wrote h) (provision_single i p ident) (fun x w => x.2 = true /\ wrote h w) (wrote h).
Proof.
  unfold provision_single. eapply triple_bind; [apply lookup_found|]. intros [cr|]; cbv beta;
    apply triple_pure; intros Hf; [|done].
  eapply triple_bind; [apply (triple_ret _ cr (fun _ => wrote h)); done|]. intros ?.
  eapply triple_bind; [apply lookup_found|]. intros v. cbv beta. apply triple_pure. intros Hv.
  eapply triple_bind; [apply require_wrote|]. intros v'. by apply triple_ret.
Qed.

Lemma collect_wrote {A B} h (F : B -> Prop) (f : A -> IO B) l :
  (forall x, triple (wrote h) (f x) (fun y w => F y /\ wrote h w) (wrote h)) ->
  triple (wrote h) (collect f l) (fun ys w => (length ys = length l /\ Forall F ys) /\ wrote h w) (wrote h).
Proof.
  intros Hf. induction l as [|x l IH]; cbn [collect]; [by apply triple_ret|].
  eapply triple_bind; [apply Hf|]. intros y. cbv beta. apply triple_pure. intros Hy.
  eapply triple_bind; [apply IH|]. intros ys. cbv beta. apply triple_pure. intros [Hlen Hys].
  apply triple_ret. intros w Hw. split; [|done]. split; [cbn; lia|by constructor].
Qed.

Lemma provision_bundle_found h l p ident :
  triple (wrote h) (provision_bundle l p ident) (fun x w => x.2 = true /\ wrote h w) (wrote h).
Proof.
  unfold provision_bundle.
  eapply triple_bind; [apply (collect_wrote h (fun x : option client_result => is_set x = true)); intros i; apply lookup_found|].
  intros existing. cbv beta. apply triple_pure. intros [Hlen Hall]. cbv zeta.
  assert (Hfil : filter (fun x : option client_result => is_set x = true) existing = existing).
  { clear Hlen. induction Hall as [|x xs Hx _ IH]; [done|]. by rewrite filter_cons_True, IH. }
  rewrite Hfil, Hlen, (bool_decide_true (length l = length l)), andb_false_r by done. cbn [negb].
  eapply triple_bind; [apply (triple_ret _ _ (fun _ => wrote h)); done|]. intros created.
  destruct (negb _); [by apply triple_raise|].
  eapply triple_bind; [apply (collect_wrote h (fun _ => True)); intros i|].
  { eapply triple_bind; [apply lookup_found|]. intros v. cbv beta. apply triple_pure. intros Hv.
    eapply triple_post; [apply require_wrote|]. done. }
  intros verified. cbv beta. apply triple_pure. intros _.
  eapply triple_bind; [apply require_wrote|]. intros cr. by apply triple_ret.
Qed.

Lemma provision_clients_found h opk o p l i multi first now indices :
  triple (wrote h) (provision_clients opk o p l i multi first now indices) (fun _ => wrote h) (wrote h).
Proof.
  induction indices as [|index rest IH]; cbn [provision_clients]; [by apply triple_ret|].
  eapply triple_bind; [apply triple_get_db|]. intros d. apply (triple_pre _ (wrote h)); [tauto|].
  eapply (triple_bind _ _ _ (fun _ => wrote h)).
  { destruct multi; eapply triple_post.
    - apply provision_bundle_found.
    - tauto.
    - apply provision_single_found.
    - tauto. }
  intros [cr reused]. eapply triple_bind; [apply keeps_wrote, upsert_writes|]. intros [[k c] created].
  eapply triple_bind; [apply IH|]. intros [cs reused']. by apply triple_ret.
Qed.

(** Retrying an order whose clients already exist on the panel creates
    nothing there: whatever became of the earlier attempt, when the panel knows
    every identity the order derives, the activation makes no call that could
    change a panel. *)
Theorem modern_retry_writes_nothing opk o l i actor strategy now w r w' :
  activate_modern_xui opk o l i actor strategy now w = (r, w') -> panel_writes w' = panel_writes w.
Proof.
  intros Hrun. assert (Ht : triple (wrote (panel_writes w)) (activate_modern_xui opk o l i actor strategy now)
    (fun _ => wrote (panel_writes w)) (wrote (panel_writes w))).
  2: { apply (Ht w r w' eq_refl) in Hrun. by destruct r. }
  generalize (panel_writes w). clear Hrun w w' r. intros h. unfold activate_modern_xui.
  eapply triple_bind; [apply triple_get_db|]. intros d. apply (triple_pre _ (wrote h)); [tauto|].
  eapply triple_bind; [by apply triple_get_or_raise|]. intros p. apply (triple_pre _ (wrote h)); [tauto|].
  cbv zeta. eapply triple_bind.
  { apply keeps_wrote. apply respects_bind; [apply _|apply respects_get_db; apply _|]. intros d'.
    apply save_order_writes. }
  intros o1. eapply (triple_bind _ _ _ (fun _ => wrote h)).
  { eapply triple_catch; [eapply triple_bind; [apply provision_clients_found|]|]; intros ?; by apply triple_ret. }
  intros [[cs reused]|error]; (eapply triple_bind; [apply keeps_wrote, save_order_writes|]);
    intros ?; by apply triple_ret.
Qed.
End Found.
End Retries.

(** ** The success of an approval *)

Section Success.
Context `{Env} `{Delivery}.

(** The order is settled: completed, with its payment verified. *)
Definition settled (opk : Z) (w : World) : Prop :=
  exists row, orders (db w) !! opk = Some row /\ status row = COMPLETED /\
    verification_status row = V_VERIFIED.

(** The order was completed already and no order was changed. *)
Definition found_completed (opk : Z) (w w' : World) : Prop :=
  exists row, orders (db w) !! opk = Some row /\ status row = COMPLETED /\ orders (db w') = orders (db w).

(** What approval relies on from the delivery engines: a success they report
    is a settled order - an assignment also reports one for an order it finds
    completed, which it leaves. *)
Class LawfulDelivery : Prop := {
  execute_settles opk config actor now :
    triple (fun _ => True) (execute_plan_delivery opk config actor now)
      (fun x w => x.1.1 = true -> settled opk w) (fun _ => True);
  fulfill_settles opk actor now :
    triple (fun _ => True) (fulfill_order_with_recipe opk actor now)
      (fun x w => match x with Some (true, _) => settled opk w | _ => True end) (fun _ => True);
  assignment_settles opk actor notify now w x w' :
    complete_inventory_assignment opk actor notify now w = (Ret x, w') -> ok x = true ->
    settled opk w' \/ found_completed opk w w';
}.

Lemma fulfilled_settled opk w row : orders (db w) !! opk = Some row -> fulfilled row -> settled opk w.
Proof. intros Hrow (Hs & Hv & _). by exists row. Qed.

Lemma keeps_settled opk w w' : orders (db w') = orders (db w) -> settled opk w -> settled opk w'.
Proof. unfold settled. by intros ->. Qed.

(** A save of other columns, from the row just read, keeps an order settled. *)
Lemma save_keeps_settled opk o fs now :
  F_status ∉ fs -> F_verification_status ∉ fs -> status o <> LEGACY_PENDING ->
  triple (settled opk) (save_order opk o fs now) (fun _ => settled opk) (settled opk).
Proof.
  intros H1 H2 Hl w r w' (row & Hrow & Hs & Hv) Hrun.
  apply save_order_any in Hrun as [[-> Hf]|(p & row' & _ & Hrow' & Hview & _)].
  { destruct r; [done|]. by exists row. }
  apply service_view_inv in Hview as (Hos & _). cbn in Hos.
  assert (Hset : settled opk w').
  { exists (saved_row o fs p now row'). rewrite Hos. split; [apply lookup_insert_eq|].
    rewrite saved_status_kept, saved_verification_status_kept by done.
    assert (row' = row) as -> by congruence. done. }
  by destruct r.
Qed.

Lemma get_order_settled opk :
  triple (settled opk) (get_order opk) (fun o w => status o = COMPLETED /\ settled opk w) (settled opk).
Proof.
  intros w r w' (row & Hrow & Hs & Hv). unfold get_order, get_or_raise. rewrite Hrow. intros [= <- <-].
  split; [done|]. by exists row.
Qed.

(** A save of the settled instance settles the order. *)
Lemma save_settles opk o fs now :
  F_status ∈ fs -> F_verification_status ∈ fs -> status o = COMPLETED -> verification_status o = V_VERIFIED ->
  triple (fun _ => True) (save_order opk o fs now) (fun _ => settled opk) (fun _ => True).
Proof.
  intros H1 H2 Hs Hv w r w' _. destruct r as [o'|e]; [|done].
  intros (p' & row & _ & _ & _ & Hview)%save_order_inv.
  apply service_view_inv in Hview as (Hos & _). cbn in Hos.
  exists (saved_row o fs p' now row). rewrite Hos. split; [apply lookup_insert_eq|].
  by rewrite saved_status, saved_verification_status by congruence.
Qed.

Lemma activate_renewal_settles opk o user now :
  triple (fun _ => True) (activate_renewal_order opk o user now)
    (fun r w => success r = true -> settled opk w) (fun _ => True).
Proof.
  unfold activate_renewal_order. eapply triple_bind; [apply triple_true|]. intros d. cbv beta.
  destruct (metadata o !! "renewal_client_pk") as [j|]; [|by apply triple_ret].
  destruct (negb (truthy j)); [by apply triple_ret|].
  destruct (client_by_json d j) as [[cpk c]|]; [|by apply triple_ret].
  destruct (client_of_other_customer d o c); [by apply triple_ret|].
  destruct (negb _); [by apply triple_ret|].
  eapply triple_bind; [apply triple_true|]. intros p. cbv beta.
  eapply triple_bind; [apply triple_true|]. intros [[rn|] err]; [|by apply triple_ret]. cbv beta.
  match goal with |- context [save_order opk ?x _ _] => set (o1 := x) end.
  assert (Hs : status o1 = COMPLETED /\ verification_status o1 = V_VERIFIED) by done.
  clearbody o1. destruct Hs as [Hs Hv]. eapply (triple_bind _ _ _ (fun _ => settled opk)).
  - apply save_settles; [unfold VERIFIED_FIELDS; set_solver..|done|done].
  - intros o'. eapply triple_bind; [apply (triple_put_db _ _ (settled opk)); intros w Hw; exact Hw|].
    intros ?. by apply triple_ret.
Qed.

Lemma renewal_locked_settles opk o actor now :
  triple (fun _ => True) (activate_renewal_order_locked opk o actor now)
    (fun x w => ok x.2 = true -> settled opk w) (fun _ => True).
Proof.
  unfold activate_renewal_order_locked. eapply triple_bind; [apply triple_true|]. intros o1. cbv beta.
  eapply triple_bind; [apply activate_renewal_settles|]. intros r. cbv beta.
  destruct (success r).
  - apply (triple_pre _ (settled opk)); [auto|].
    eapply triple_bind; [eapply triple_any, get_order_settled|]. intros o2. cbv beta.
    apply triple_pure. intros Ho2.
    eapply triple_bind; [eapply triple_any, save_keeps_settled; [set_solver..|];
      change (status o2 <> LEGACY_PENDING); congruence|].
    intros o3. by apply triple_ret.
  - eapply triple_bind; [apply triple_true|]. intros o2. cbv beta.
    eapply triple_bind; [apply triple_true|]. intros o3. by apply triple_ret.
Qed.

Lemma legacy_settles opk o actor now :
  triple (fun _ => True) (activate_legacy_order opk o actor now)
    (fun x w => ok x.2 = true -> settled opk w) (fun _ => True).
Proof.
  unfold activate_legacy_order.
  do 3 (eapply triple_bind; [apply triple_true|]; intros ?; cbv beta).
  eapply triple_bind; [apply triple_true|]. intros [o2 [m|]]; cbv beta; [by apply triple_ret|].
  eapply triple_bind; [apply triple_true|]. intros d. cbv beta zeta.
  destruct (_ <? _); [by apply triple_ret|].
  do 2 (eapply triple_bind; [apply triple_true|]; intros ?; cbv beta).
  case_match; [by apply triple_ret|].
  intros w r w' _. run_io.
  destruct (finish_legacy_order _ _ _ _ _ w) as [[o3|e] w1] eqn:E; intros [= <- <-]; [|done].
  apply finish_legacy_fulfilled in E as (row & Hrow & Hf & _). intros _. by eapply fulfilled_settled.
Qed.

Lemma modern_settles opk o actor strategy now :
  triple (fun _ => True) (activate_modern_enabled_order opk o actor strategy now)
    (fun x w => ok x.2 = true -> settled opk w) (fun _ => True).
Proof.
  assert (Hout : forall l i x w, modern_outcome opk o l i x w -> ok x.2 = true -> settled opk w).
  { intros l i x w (row & Hrow & Hx) Hok. rewrite Hok in Hx. destruct Hx as [Hf _].
    by eapply fulfilled_settled. }
  unfold activate_modern_enabled_order. eapply triple_bind; [apply triple_true|]. intros d. cbv beta.
  destruct (resolve_frozen_order_inbounds d o) as [[|i l]|e]; [by apply triple_ret| |].
  - destruct (inbound_panel d i.2) as [panel|]; [|by apply triple_ret].
    destruct (Panel.is_pasarguard panel).
    + eapply triple_post; [apply activate_pasarguard_outcome|apply Hout].
    + eapply triple_post; [apply activate_modern_xui_outcome|apply Hout].
  - eapply triple_bind; [apply triple_true|]. intros o1. by apply triple_ret.
Qed.
Context `{!LawfulDelivery}.

Lemma by_strategy_settles opk o strategy actor now :
  triple (fun _ => True) (activate_by_strategy opk o strategy actor now)
    (fun x w => ok x.2 = true -> settled opk w) (fun _ => True).
Proof.
  unfold activate_by_strategy. eapply triple_bind; [apply triple_true|]. intros d. cbv beta.
  destruct (_ && _); [apply modern_settles|apply legacy_settles].
Qed.

Lemma engine_result_settles opk (good : bool) errors c m1 m2 :
  triple (fun w => good = true -> settled opk w) (engine_result opk good errors c m1 m2)
    (fun x w => ok x.2 = true -> settled opk w) (fun _ => True).
Proof.
  unfold engine_result. eapply triple_bind; [by apply triple_get_or_raise|]. intros o.
  apply triple_ret. intros w [_ Hw]. by destruct good.
Qed.

Lemma deliver_settles opk o actor now :
  triple (fun _ => True) (deliver_order opk o actor now)
    (fun x w => ok x.2 = true -> settled opk w) (fun _ => True).
Proof.
  unfold deliver_order. eapply triple_bind; [apply triple_true|]. intros d. cbv beta zeta.
  case_bool_decide; [apply renewal_locked_settles|].
  case_bool_decide; [case_bool_decide; [apply by_strategy_settles|]|].
  - destruct (delivery_config_id _); [|by apply triple_raise].
    eapply triple_bind; [apply execute_settles|]. intros [[good errors] c]. apply engine_result_settles.
  - eapply triple_bind; [apply fulfill_settles|]. intros [[good errors]|]; cbv beta.
    + eapply triple_pre; [|apply engine_result_settles]. intros w Hw ->. exact Hw.
    + apply by_strategy_settles.
Qed.

Lemma approve_locked_settles opk source actor now :
  triple (fun _ => True) (approve_locked opk source actor now)
    (fun x w => match x with inl r => ok r = true -> settled opk w
                | inr (_, r) => ok r = true -> settled opk w end) (fun _ => True).
Proof.
  unfold approve_locked. apply triple_atomic; [|done].
  eapply triple_bind; [by apply triple_get_or_raise|]. intros o. cbv beta.
  eapply triple_bind; [apply triple_get_db|]. intros d. cbv beta.
  destruct (approval_refusal opk o source d) as [r|] eqn:Hr.
  - apply triple_ret. intros w (-> & Ho & _) Hok. exists o. split; [done|].
    unfold approval_refusal in Hr. destruct (cancellation_recorded _ _); [by injection Hr as <-|].
    destruct (_ && _) eqn:E.
    + apply andb_true_iff in E as [[?%bool_decide_eq_true ?%bool_decide_eq_true]%andb_true_iff _]. done.
    + destruct (bool_decide (_ = "")); [done|]. by injection Hr as <-.
  - eapply triple_bind; [apply triple_true|]. intros o1. cbv beta.
    eapply triple_bind; [apply deliver_settles|]. intros [o2 r]. by apply triple_ret.
Qed.

Lemma locked_settles opk actor source notify now :
  triple (fun _ => True) (approve_and_provision_locked opk actor source notify now)
    (fun r w => ok r = true -> settled opk w) (fun _ => True).
Proof.
  unfold approve_and_provision_locked.
  eapply triple_bind; [apply approve_locked_settles|]. intros [r|[o r]]; cbv beta; [by apply triple_ret|].
  destruct (ok r) eqn:Hok.
  - apply (triple_pre _ (settled opk)); [auto|]. unfold after_success, attempt.
    eapply (triple_bind _ _ _ (fun _ => settled opk)).
    { eapply triple_any, (triple_frame (keeps (fun w => orders (db w)))).
      - apply respects_catch; [apply _| |intros e; apply respects_ret; apply _].
        apply respects_bind; [apply _|apply create_reward_orders|intros a; apply respects_ret; apply _].
      - intros w w' Hw Hk. by apply (keeps_settled _ w). }
    intros ?. destruct (notify && _); [|by apply triple_ret].
    eapply triple_bind; [by apply triple_askR|]. intros sent. by apply triple_ret.
  - eapply triple_bind; [apply triple_true|]. intros ?. apply triple_ret. intros w _. congruence.
Qed.

(** C5: An approval that reports success leaves a settled order - completed, with
    its payment verified - whichever way it took: already done, renewal, modern,
    PasarGuard or legacy panel, plan delivery, recipe, or a configuration from
    stock.  Only an order that is to get a piece of stock and was completed
    before is reported done as it is found, whatever its payment's state. *)
Theorem approval_success_settles opk instance actor source notify now w r w' :
  approve_and_provision_order opk instance actor source notify now w = (Ret r, w') -> ok r = true ->
  settled opk w' \/ (md_truthy "admin_inventory_asset_id" (metadata instance) = true /\ found_completed opk w w').
Proof.
  intros Hrun Hok. destruct (md_truthy "admin_inventory_asset_id" (metadata instance)) eqn:Hi.
  { unfold approve_and_provision_order in Hrun. rewrite Hi in Hrun.
    apply (assignment_settles _ _ _ _ _ _ _ Hrun) in Hok as [?|?]; [by left|by right]. }
  left. assert (Ht : triple (fun _ => True)
    (approve_and_provision_order opk instance actor source notify now)
    (fun r w => ok r = true -> settled opk w) (fun _ => True)).
  2: { exact (Ht w _ w' I Hrun Hok). }
  unfold approve_and_provision_order. rewrite Hi.
  destruct (negb _); [apply locked_settles|].
  eapply triple_bind; [apply triple_true|]. intros [claim|]; cbv beta; [|by apply triple_ret].
  eapply triple_bind; [apply locked_settles|]. intros r0. cbv beta.
  destruct (ok r0) eqn:Hr0.
  - apply (triple_pre _ (settled opk)); [auto|]. eapply (triple_bind _ _ _ (fun _ => settled opk)).
    + destruct claim; [|by apply triple_ret]. unfold record_order_metadata.
      apply triple_atomic; [|done].
      eapply triple_bind; [eapply triple_any, get_order_settled|]. intros o2. cbv beta.
      apply triple_pure. intros Ho2.
      eapply triple_bind; [eapply triple_any, save_keeps_settled; [set_solver..|]|].
      { change (status o2 <> LEGACY_PENDING). congruence. }
      intros ?. by apply triple_ret.
    + intros ?. by apply triple_ret.
  - eapply triple_bind; [apply triple_true|]. intros ?. apply triple_ret. intros w0 _. congruence.
Qed.
End Success.

(** ** The sample shop *)

(** Two clients are ordered on inbound 20, and the panel answers to each
    identity with names of its own. *)
Definition modern_inbound : keyed_inbound := (20, sample_inbound 2 4 7).

Definition sample_answers : list client_result :=
  map (fun n => sample_result (id_uuid (@order_identity sample_env (db sample_shop) (sample_order 20) modern_inbound n))) [1; 2].

Example sample_answers_apart : told_apart modern_inbound sample_answers.
Proof.
  split; [repeat constructor; vm_compute; discriminate|].
  intros [|[|m]] [|[|n]] a b Hmn Ha Hb; try lia; try discriminate Ha; try discriminate Hb.
  injection Ha as <-. injection Hb as <-. vm_compute. reflexivity.
Qed.

Definition sample_activation :=
  @activate_modern_enabled_order sample_env 1001 (sample_order 20) (Some 1) STRATEGY_DEFERRED_CREATE_ENABLED 5 sample_shop.


Example two_clients_made :
  map (fun k => clients (db sample_activation.2) !! k ≫= VPNClient.uuid) [1; 2]
  = map (fun cr => Some (cr_uuid cr)) sample_answers.
Proof. vm_compute. reflexivity. Qed.

Definition knowing_env : Env := make_env (fun _ ident => Some (sample_result (id_uuid ident))) (Ret 1).

Lemma modern_retry_writes_nothing_witness :
  let i := (20, sample_inbound 2 4 7) in
  let run := @activate_modern_xui knowing_env 1001 (sample_order 20) [i] i None
               STRATEGY_DEFERRED_CREATE_ENABLED 5 sample_shop in
  (exists x, run.1 = Ret x /\ ok x.2 = true) /\ panel_writes run.2 = panel_writes sample_shop.
Proof.
  intros i run. split.
  - assert (Hr : match run.1 with Ret x => ok x.2 | Raise _ => false end = true) by (vm_compute; reflexivity).
    destruct run.1 as [x|e]; [by exists x|discriminate Hr].
  - apply (@modern_retry_writes_nothing knowing_env (fun _ _ _ _ _ => ex_intro _ _ eq_refl)
      1001 (sample_order 20) [i] i None STRATEGY_DEFERRED_CREATE_ENABLED 5 sample_shop run.1 run.2).
    apply surjective_pairing.
Defined.

Lemma no_delivery_lawful : @LawfulDelivery no_delivery.
Proof.
  split; [intros; by apply triple_ret..|].
  intros opk actor notify now w x w' [= <- <-]. discriminate.
Qed.

Lemma approval_success_settles_witness :
  let run := @approve_and_provision_order sample_env no_delivery 1001 (sample_order 20) (Some 1) "admin"
               true 5 sample_shop in
  settled 1001 run.2.
Proof.
  intros run.
  assert (Hr : match run.1 with Ret r => ok r | Raise _ => false end = true) by (vm_compute; reflexivity).
  destruct run as [[r|e] w'] eqn:E; [|discriminate Hr].
  destruct (@approval_success_settles sample_env no_delivery no_delivery_lawful 1001 (sample_order 20) (Some 1)
    "admin" true 5 sample_shop r w' E Hr) as [Hs|[Hf _]]; [exact Hs|discriminate Hf].
Defined.
