(* ===== verification/Submission.v ===== *)
(** What a customer submits as proof of a card-to-card payment
    (src/store/models.py): the cleaning of each field and
    [Order.submit_manual_payment].

    Texts are UTF-8; lengths count code points, letter case and digits other
    than the Persian and Arabic ones are the ASCII ones. *)

From S2P Require Import Prelude Models World Numbers.
Import Order.

(** [len(text)]: every byte that does not continue a character starts one. *)
Definition starts_char (c : ascii) : bool := (code_of c <? 128) || (192 <=? code_of c).

Fixpoint text_length (s : string) : Z :=
  match s with
  | EmptyString => 0
  | String c s' => (if starts_char c then 1 else 0) + text_length s'
  end.

Definition lower_char (c : ascii) : ascii :=
  if (65 <=? code_of c) && (code_of c <=? 90) then ascii_of_nat (Z.to_nat (code_of c + 32)) else c.

Fixpoint lower (s : string) : string :=
  match s with EmptyString => EmptyString | String c s' => String (lower_char c) (lower s') end.

Fixpoint only_digits (s : string) : string :=
  match s with
  | EmptyString => EmptyString
  | String c s' => if is_set (digit_of c) then String c (only_digits s') else only_digits s'
  end.

Definition clean_sender_card_name (value fallback : string) : result string :=
  let cleaned := or_str (strip value) (strip fallback) in
  if bool_decide (cleaned = "") then Raise (ValidationError "Payer card owner name is required.")
  else if 100 <? text_length cleaned
  then Raise (ValidationError "Payer card owner name must be 100 characters or fewer.")
  else Ret cleaned.

Definition clean_sender_card_last4 (value fallback : string) : result string :=
  let digits := only_digits (normalize_payment_digits (or_str value fallback)) in
  if bool_decide (digits = "") then Ret ""
  else if negb (text_length digits =? 4) then Raise (ValidationError "Enter exactly 4 digits.")
  else Ret digits.

Definition clean_payment_receipt_text (value : string) : result string :=
  let cleaned := strip value in
  if 1200 <? text_length cleaned
  then Raise (ValidationError "متن رسید باید حداکثر ۱۲۰۰ کاراکتر باشد.") else Ret cleaned.

Definition clean_bank_tracking_code (value : string) : result string :=
  let cleaned := strip value in
  if 50 <? text_length cleaned
  then Raise (ValidationError "Bank tracking code must be 50 characters or fewer.") else Ret cleaned.

(** ** Payment time, in minutes after midnight *)

(** A time of day in seconds, or text. *)
Inductive payment_time_input := PTime (seconds : Z) | PText (text : string).

(** [%H] and [%M]: one or two digits, within range. *)
Definition clock_field (s : string) (bound : Z) : option Z :=
  match s with
  | String a EmptyString => digit_of a
  | String a (String b EmptyString) =>
      match digit_of a, digit_of b with
      | Some x, Some y => if 10 * x + y <? bound then Some (10 * x + y) else None
      | _, _ => None
      end
  | _ => None
  end.

(** The text before and after the first colon. *)
Fixpoint split_colon (s : string) : option (string * string) :=
  match s with
  | EmptyString => None
  | String c s' =>
      if bool_decide (c = ":"%char) then Some ("", s')
      else match split_colon s' with Some (a, b) => Some (String c a, b) | None => None end
  end.

Definition payment_time_format_error : exn := ValidationError "Enter payment time in HH:MM format.".

Definition parse_payment_time (value : payment_time_input) : result Z :=
  match value with
  | PTime seconds => Ret (seconds / 60)
  | PText "" => Raise (ValidationError "Payment time is required.")
  | PText text =>
      match split_colon text with
      | None => Raise payment_time_format_error
      | Some (h, m) =>
          match clock_field h 24, clock_field m 60 with
          | Some h, Some m => Ret (60 * h + m)
          | _, _ => Raise payment_time_format_error
          end
      end
  end.

(** ** The receipt image *)

(** What opening an image with Pillow says. *)
Inductive image_check := ImageOk | NotAnImage | Unreadable.

Record receipt_image := mk_receipt_image {
  ri_name : string;
  ri_size : Z;
  ri_content_type : string;
  ri_extension : string;             (* lower-case suffix of the name *)
  ri_check : image_check;
}.

Definition PAYMENT_RECEIPT_MAX_SIZE : Z := 5 * 1024 * 1024.
Definition ALLOWED_EXTENSIONS : list string := [".jpg"; ".jpeg"; ".png"; ".webp"; ".gif"].
Definition ALLOWED_CONTENT_TYPES : list string := ["image/jpeg"; "image/png"; "image/webp"; "image/gif"].
Definition receipt_kind_error : exn := ValidationError "Receipt file must be a JPG, PNG, WEBP, or GIF image.".

Definition not_allowed (value : string) (allowed : list string) : bool :=
  negb (bool_decide (value = "")) && negb (bool_decide (value ∈ allowed)).

Definition validate_payment_receipt_image (image : option receipt_image) : result (option receipt_image) :=
  match image with
  | None => Ret None
  | Some i =>
      if bool_decide (ri_name i = "") then Ret None
      else if PAYMENT_RECEIPT_MAX_SIZE <? ri_size i
      then Raise (ValidationError "Receipt image must be smaller than 5 MB.")
      else if not_allowed (lower (ri_content_type i)) ALLOWED_CONTENT_TYPES then Raise receipt_kind_error
      else if not_allowed (ri_extension i) ALLOWED_EXTENSIONS then Raise receipt_kind_error
      else match ri_check i with
           | ImageOk => Ret (Some i)
           | NotAnImage => Raise (ValidationError "Receipt file is not a valid image.")
           | Unreadable => Raise (ValidationError
               "Receipt image could not be read. Please upload a clear JPG or PNG image.")
           end
  end.

(** ** The submission *)

Record submission := mk_submission {
  sub_card_name : string;
  sub_card_last4 : string;
  sub_payment_time : payment_time_input;
  sub_receipt_image : option receipt_image;
  sub_receipt_text : string;
  sub_require_receipt : bool;
  sub_require_receipt_image : bool;
}.

Record cleaned_payment := mk_cleaned {
  cp_card_name : string;
  cp_card_last4 : string;
  cp_payment_time : Z;
  cp_receipt_image : option receipt_image;
  cp_receipt_text : string;
}.

(** [existing_name], [existing_last4]: what the order already holds. *)
Definition clean_manual_payment_submission (s : submission) (existing_name existing_last4 : string)
    : result cleaned_payment :=
  text ← clean_payment_receipt_text (sub_receipt_text s);
  image ← validate_payment_receipt_image (sub_receipt_image s);
  _ ← raise_if (sub_require_receipt_image s && negb (is_set image))
        (ValidationError "عکس رسید را بارگذاری کن.");
  _ ← raise_if (sub_require_receipt s && negb (is_set image) && bool_decide (text = ""))
        (ValidationError "رسید را به صورت متن وارد کن یا عکس رسید را بفرست.");
  name ← clean_sender_card_name (sub_card_name s) existing_name;
  last4 ← clean_sender_card_last4 (sub_card_last4 s) existing_last4;
  time ← parse_payment_time (sub_payment_time s);
  Ret (mk_cleaned name last4 time image text).

Section Submission.
Context `{Env}.

Definition submit_manual_payment (s : submission) (now : Z) (o : order) : result order :=
  c ← clean_manual_payment_submission s (sender_card_name o) (sender_card_last4 o);
  let text := cp_receipt_text c in
  let o := o {{
    payment_method := MANUAL_CARD;
    sender_card_name := cp_card_name c;
    sender_card_last4 := cp_card_last4 c;
    payment_date := Some (localdate_tehran now);
    payment_time := Some (cp_payment_time c) }} in
  let o := match cp_receipt_image c with
           | Some i => o {{ payment_receipt_image := Some (ri_name i) }} | None => o end in
  let o := if bool_decide (text = "") then o
           else o {{ metadata ::= insert "receipt_text" (JStr text) }} in
  let o := if negb (bool_decide (text = "")) || sub_require_receipt s
           then o {{ metadata ::= insert "receipt_analysis"
                       (analyze_receipt_text text (amount o) (currency o)) }}
           else o in
  Ret (o {{ card_last_four := Some (cp_card_last4 c);
            is_paid := true;
            payment_submitted_at := Some now;
            status := PENDING_VERIFICATION;
            verification_status := V_PENDING }}).
End Submission.

(** ** What a submission guarantees *)

Section Theorems.
Context `{Env}.

Lemma digit_of_range c x : digit_of c = Some x -> 0 <= x <= 9.
Proof. unfold digit_of. case_match; [|done]. intros [= <-]. lia. Qed.

Lemma clock_field_range s b x : 10 <= b -> clock_field s b = Some x -> 0 <= x < b.
Proof.
  intros Hb. destruct s as [|a [|c [|]]]; cbn; try done.
  - intros Hd%digit_of_range. lia.
  - destruct (digit_of a) as [u|] eqn:Ea; [|done]. destruct (digit_of c) as [v|] eqn:Ec; [|done].
    apply digit_of_range in Ea, Ec. destruct (Z.ltb_spec (10 * u + v) b); [|done]. intros [= <-]. lia.
Qed.

Lemma parse_payment_time_range v t :
  (forall seconds, v = PTime seconds -> 0 <= seconds < 86400) -> parse_payment_time v = Ret t -> 0 <= t < 1440.
Proof.
  intros Hv. destruct v as [seconds|text]; cbn.
  - intros [= <-]. specialize (Hv seconds eq_refl). split; [apply Z.div_pos; lia|].
    apply Z.div_lt_upper_bound; lia.
  - destruct text as [|c text]; [done|].
    destruct (split_colon (String c text)) as [[h m]|]; [|done].
    destruct (clock_field h 24) as [x|] eqn:Eh; [|done].
    destruct (clock_field m 60) as [y|] eqn:Em; [|done]. intros [= <-].
    apply clock_field_range in Eh; [|lia]. apply clock_field_range in Em; [|lia]. lia.
Qed.
Lemma clean_name_Ret v f n :
  clean_sender_card_name v f = Ret n -> n <> "" /\ text_length n <= 100.
Proof.
  unfold clean_sender_card_name. case_bool_decide; [done|].
  destruct (Z.ltb_spec 100 (text_length (or_str (strip v) (strip f)))); [done|]. by intros [= <-].
Qed.

(** Four digits, or nothing. *)
Definition last4_ok (s : string) : Prop := s = "" \/ (only_digits s = s /\ text_length s = 4).

Lemma only_digits_idem s : only_digits (only_digits s) = only_digits s.
Proof.
  induction s as [|c s IH]; cbn; [done|]. destruct (is_set (digit_of c)) eqn:E; [|done].
  cbn. by rewrite E, IH.
Qed.

Lemma clean_last4_Ret v f n : clean_sender_card_last4 v f = Ret n -> last4_ok n.
Proof.
  unfold clean_sender_card_last4. case_bool_decide; [intros [= <-]; by left|].
  destruct (Z.eqb_spec (text_length (only_digits (normalize_payment_digits (or_str v f)))) 4); [|done].
  intros [= <-]. right. split; [apply only_digits_idem|done].
Qed.

Lemma validate_image_Ret i j : validate_payment_receipt_image i = Ret j -> j = i \/ j = None.
Proof.
  unfold validate_payment_receipt_image. destruct i as [i|]; [|intros [= <-]; auto].
  repeat (case_match; try done); intros [= <-]; auto.
Qed.

(** A payment an administrator can review. *)
Record reviewable (o : order) : Prop := {
  rv_name : sender_card_name o <> "" /\ text_length (sender_card_name o) <= 100;
  rv_last4 : last4_ok (sender_card_last4 o) /\ card_last_four o = Some (sender_card_last4 o);
  rv_time : exists t, payment_time o = Some t /\ 0 <= t < 1440;
  rv_date : payment_date o <> None /\ payment_submitted_at o <> None;
  rv_state : status o = PENDING_VERIFICATION /\ verification_status o = V_PENDING /\
             is_paid o = true /\ payment_method o = MANUAL_CARD;
}.

(** What a submission may not change: the price and what was bought. *)
Definition same_purchase (o o' : order) : Prop :=
  amount o' = amount o /\ original_amount o' = original_amount o /\
  discount_amount o' = discount_amount o /\ plan o' = plan o /\ quantity o' = quantity o /\
  customer o' = customer o /\ store o' = store o /\ operator o' = operator o /\
  created_at o' = created_at o.

Lemma submit_fields s now o o' :
  submit_manual_payment s now o = Ret o' ->
  exists c, clean_manual_payment_submission s (sender_card_name o) (sender_card_last4 o) = Ret c /\
    same_purchase o o' /\ sender_card_name o' = cp_card_name c /\ sender_card_last4 o' = cp_card_last4 c /\
    card_last_four o' = Some (cp_card_last4 c) /\ payment_time o' = Some (cp_payment_time c) /\
    payment_date o' = Some (localdate_tehran now) /\ payment_submitted_at o' = Some now /\
    (status o' = PENDING_VERIFICATION /\ verification_status o' = V_PENDING /\ is_paid o' = true /\
     payment_method o' = MANUAL_CARD) /\
    (is_set (cp_receipt_image c) = true -> is_set (payment_receipt_image o') = true) /\
    (cp_receipt_text c <> "" -> metadata o' !! "receipt_text" = Some (JStr (cp_receipt_text c))).
Proof.
  unfold submit_manual_payment. intros (c & Hc & Hr)%result_bind_Ret. apply Ret_inj in Hr. subst o'.
  exists c. split; [done|]. unfold same_purchase.
  destruct (cp_receipt_image c) as [i|]; case_bool_decide as Ht; cbn [negb orb];
    destruct (sub_require_receipt s); repeat split; try done; intros _; cbn;
    by rewrite ?lookup_insert_ne, ?lookup_insert_eq by discriminate.
Qed.

(** A submitted payment can be reviewed: the payer's name is there and
    fits its column, the card digits are four or none, the time is a time of
    day, the order waits for verification marked as paid; a receipt that was
    required is attached; and nothing about the purchase or its price
    changed. *)
Theorem submitted_payment_reviewable s now o o' :
  (forall seconds, sub_payment_time s = PTime seconds -> 0 <= seconds < 86400) ->
  submit_manual_payment s now o = Ret o' ->
  reviewable o' /\ same_purchase o o' /\
  (sub_require_receipt_image s = true -> is_set (payment_receipt_image o') = true) /\
  (sub_require_receipt s = true -> is_set (payment_receipt_image o') = true \/
     exists text, text <> "" /\ metadata o' !! "receipt_text" = Some (JStr text)).
Proof.
  intros Htime (c & Hc & Hsame & Hn & Hl & Hcl & Ht & Hd & Hs & Hst & Himg & Htext)%submit_fields.
  unfold clean_manual_payment_submission in Hc.
  apply result_bind_Ret in Hc as (text & _ & Hc). apply result_bind_Ret in Hc as (image & _ & Hc).
  apply result_bind_Ret in Hc as (u1 & Hr1 & Hc). apply result_bind_Ret in Hc as (u2 & Hr2 & Hc).
  apply result_bind_Ret in Hc as (name & Hname & Hc). apply result_bind_Ret in Hc as (last4 & Hlast & Hc).
  apply result_bind_Ret in Hc as (t & Hpt & [= <-]). cbn [cp_card_name cp_card_last4 cp_payment_time
    cp_receipt_image cp_receipt_text] in *.
  apply raise_if_Ret in Hr1, Hr2. split; [|split; [done|split]].
  - constructor.
    + rewrite Hn. by apply clean_name_Ret in Hname.
    + rewrite Hcl, Hl. split; [by apply clean_last4_Ret in Hlast|done].
    + exists t. split; [done|]. by apply (parse_payment_time_range (sub_payment_time s)).
    + by rewrite Hd, Hs.
    + done.
  - intros Hreq. apply Himg. rewrite Hreq in Hr1. by apply negb_false_iff in Hr1.
  - intros Hreq. rewrite Hreq in Hr2. destruct (is_set image); [by left; apply Himg|].
    right. exists text. apply bool_decide_eq_false in Hr2. auto.
Qed.
End Theorems.

(** A submission of the examples. *)
Definition sample_submission : submission := {|
  sub_card_name := " Sara "; sub_card_last4 := "1234"; sub_payment_time := PText "9:05";
  sub_receipt_image := None; sub_receipt_text := "paid 200000"; sub_require_receipt := true;
  sub_require_receipt_image := false |}.

Lemma submitted_payment_reviewable_witness :
  exists o', @submit_manual_payment sample_env sample_submission 7 (sample_order 10) = Ret o' /\
    reviewable o' /\ payment_time o' = Some 545.
Proof.
  assert (H : is_ret (@submit_manual_payment sample_env sample_submission 7 (sample_order 10)) = true)
    by (vm_compute; reflexivity).
  destruct (@submit_manual_payment sample_env sample_submission 7 (sample_order 10)) as [o'|e] eqn:E;
    [|discriminate H]. exists o'. split; [reflexivity|].
  split; [|assert (Ht : Ret o' = Ret o') by reflexivity; revert Ht; rewrite <- E at 1;
           intros Ht; apply (f_equal (fun r => match r with Ret o => payment_time o | Raise _ => None end)) in Ht;
           rewrite <- Ht; vm_compute; reflexivity].
  exact (proj1 (@submitted_payment_reviewable sample_env sample_submission 7 (sample_order 10) o'
    (fun s (Hs : PText "9:05" = PTime s) => match Hs with end) E)).
Defined.
