(* ===== verification/Checkout.v ===== *)
(** Placing orders (src/store/order_services.py): the operator and the plan of
    an order, custom-volume plans, the protection against double submission,
    and the three ways an order comes to be: a manual payment, a renewal and a
    free grant.

    Random draws ([generate_public_id], [generate_order_tracking]) are
    arguments.  Admin notifications scheduled on commit are not modelled. *)

From S2P Require Import Prelude Models World Numbers Discounts Referrals OrderStore Inbounds Scope OrderActions Provisioning Submission.
Import Order.

(** ** Operators and plans *)

Definition OPERATOR_REQUIRED_MESSAGE : string := "برای ثبت سفارش ابتدا اپراتور اینترنت را انتخاب کن.".
Definition OPERATOR_INVALID_MESSAGE : string := "اپراتور انتخاب‌شده معتبر یا فعال نیست.".
Definition PLAN_INVALID_MESSAGE : string := "پلن انتخابی معتبر نیست.".
Definition PLAN_OPERATOR_MISMATCH_MESSAGE : string := "این پلن برای اپراتور انتخاب‌شده فعال نیست.".
Definition SETUP_NOT_READY_MESSAGE : string := 
  "فروشگاه هنوز کامل راه‌اندازی نشده است. لطفاً بعد از تکمیل setup دوباره تلاش کنید.".

Definition sales_mode_requires_operator (st : option Store.store) : bool :=
  match st with Some s => bool_decide (Store.sales_mode s = Store.OPERATOR_BASED) | None => false end.

(** Membership in [get_active_operators(store)]. *)
Definition active_operator (d : DB) (store : option Z) (opr : Z) : bool :=
  match operators d !! opr with
  | Some o => Operator.is_active o
              && match store with
                 | None => true
                 | Some s => bool_decide (Operator.store o = Some s) || bool_decide (Operator.store o = None)
                 end
  | None => false
  end.

(** [plan.operators.filter(pk=operator.pk, is_active=True).exists()] *)
Definition is_available_for_operator (d : DB) (p : Plan.plan) (opr : Z) : bool :=
  bool_decide (opr ∈ Plan.operators p)
  && match operators d !! opr with Some o => Operator.is_active o | None => false end.

Definition validate_operator_for_order (d : DB) (store : option Z) (p : Plan.plan) (opr : option Z)
    : result (option Z) :=
  if negb (sales_mode_requires_operator (store_row d store)) then Ret None
  else match opr with
       | None => Raise (ValidationError OPERATOR_REQUIRED_MESSAGE)
       | Some k =>
           if negb (active_operator d store k) then Raise (ValidationError OPERATOR_INVALID_MESSAGE)
           else if negb (Plan.is_active p) then Raise (ValidationError PLAN_INVALID_MESSAGE)
           else if negb (is_available_for_operator d p k)
           then Raise (ValidationError PLAN_OPERATOR_MISMATCH_MESSAGE)
           else Ret (Some k)
       end.

(** [get_store_plans(store, public_only=True)]; [distinct] keeps each plan once. *)
Definition public_store_plans (d : DB) (store : option Z) : list (Z * Plan.plan) :=
  if is_set store && negb (Store.store_is_sellable (store_row d store)) then []
  else rows_where (fun _ p =>
    Plan.is_active p && Plan.is_public p && negb (Plan.is_custom_volume p)
    && match store with
       | None => true
       | Some s => bool_decide (Plan.store p = Some s) || bool_decide (Plan.store p = None)
       end) (plans d).

(** The plan whose currency and device limit a custom volume borrows. *)
Definition base_plan (d : DB) (store : option Z) : option Plan.plan :=
  snd <$> head (order_by (fun kp => [Plan.sort_order kp.2; Plan.price kp.2; kp.1]) (public_store_plans d store)).

Definition store_custom_volume_price_per_gb (st : option Store.store) : Z :=
  match st with Some s => Z.max (Store.custom_volume_price_per_gb s) 0 | None => 0 end.

(** Three decimals without trailing zeros, with a dash for the point. *)
Definition thousandths_slug (n : Z) : string :=
  let f := n mod 1000 in
  pretty (n / 1000) +:+
  (if f =? 0 then ""
   else if f mod 100 =? 0 then "-" +:+ pretty (f / 100)
   else if f mod 10 =? 0 then "-" +:+ (if f <? 100 then "0" else "") +:+ pretty (f / 10)
   else "-" +:+ (if f <? 10 then "00" else if f <? 100 then "0" else "") +:+ pretty f).

Definition custom_volume_slug (volume price_per_gb : Z) : string :=
  "custom-volume-30d-" +:+ thousandths_slug volume +:+ "gb-" +:+ thousandths_slug price_per_gb.

(** The columns [get_or_create_custom_volume_plan] enforces. *)
Definition custom_plan_columns (volume price : Z) (base : option Plan.plan) (p : Plan.plan) : Plan.plan :=
  p {{ Plan.volume_gb := volume;
       Plan.duration_days := CUSTOM_VOLUME_DURATION_DAYS;
       Plan.price := price;
       Plan.currency := match base with Some b => Plan.currency b | None => Plan.TOMAN end;
       Plan.device_limit := match base with Some b => Plan.device_limit b | None => 2 end;
       Plan.is_active := true;
       Plan.is_public := false;
       Plan.is_custom_volume := true;
       Plan.sort_order := 9999 }}.

Definition new_plan (store : Z) (slug : string) : Plan.plan := {|
  Plan.store := Some store; Plan.operators := ∅; Plan.slug := slug; Plan.volume_gb := 0;
  Plan.duration_days := 0; Plan.price := 0; Plan.currency := Plan.TOMAN; Plan.device_limit := 2;
  Plan.is_active := true; Plan.sort_order := 0; Plan.is_public := true;
  Plan.is_custom_volume := false; Plan.multi_inbound_bundle := false |}.

Definition get_or_create_custom_volume_plan (store : option Z) (text : string) (opr : option Z)
    : IO (Z * Plan.plan) :=
  d ← get_db;
  match store with
  | None => raise (ValidationError "فروشگاه فعال برای خرید حجم دلخواه پیدا نشد.")
  | Some s =>
      if negb (Store.store_is_sellable (store_row d store)) then raise (ValidationError SETUP_NOT_READY_MESSAGE)
      else
        volume ← liftR (normalize_custom_volume_gb text);
        let per_gb := store_custom_volume_price_per_gb (store_row d store) in
        if per_gb =? 0 then raise (ValidationError "خرید حجم دلخواه هنوز فعال نشده است.")
        else
          let price := calculate_custom_volume_price volume per_gb in
          let slug := custom_volume_slug volume per_gb in
          let '(pk, found) :=
            match first_where (fun _ p => bool_decide (Plan.store p = Some s)
                                          && bool_decide (Plan.slug p = slug)) (plans d) with
            | Some (pk, p) => (pk, p)
            | None => (next_pk (plans d), new_plan s slug)
            end in
          let p := custom_plan_columns volume price (base_plan d store) found in
          let p := match opr with
                   | Some k => p {{ Plan.operators ::= union {[ k ]} }}
                   | None => p end in
          _ ← put_db (fun d => d {{ plans ::= insert pk p }});
          mret (pk, p)
  end.

(** ** Double submission *)

Definition DUPLICATE_ORDER_WINDOW_SECONDS : Z := 10 * 60.

(** What identifies a submission. *)
Record duplicate_lookup := mk_lookup {
  dl_store : option Z;
  dl_customer : option Z;
  dl_plan : Z;
  dl_operator : option Z;
  dl_quantity : Z;
  dl_card_name : string;
  dl_card_last4 : string;
  dl_payment_time : Z;
  dl_bank_code : string;
}.

(** [payment_time.strftime("%H:%M")] *)
Definition clock_text (minutes : Z) : string :=
  let two n := (if n <? 10 then "0" else "") +:+ pretty n in
  two (minutes / 60) +:+ ":" +:+ two (minutes mod 60).

Definition fk_text (o : option Z) : string := match o with Some k => pretty k | None => "" end.

Section Duplicates.
Context `{Env}.

Definition build_duplicate_order_key (l : duplicate_lookup) : string :=
  "order:create:" +:+ sha256 (join "|" [
    fk_text (dl_store l); fk_text (dl_customer l); pretty (dl_plan l); fk_text (dl_operator l);
    pretty (dl_quantity l); lower (strip (dl_card_name l)); dl_card_last4 l;
    clock_text (dl_payment_time l); lower (strip (dl_bank_code l)) ]).

Definition similar_order (l : duplicate_lookup) (now : Z) (o : order) : bool :=
  bool_decide (plan o = dl_plan l) && bool_decide (quantity o = dl_quantity l)
  && (bool_decide (status o = PENDING_PAYMENT) || bool_decide (status o = PENDING_VERIFICATION))
  && (now - DUPLICATE_ORDER_WINDOW_SECONDS * 1000000 <=? created_at o)
  && match dl_store l with Some s => bool_decide (store o = Some s) | None => true end
  && bool_decide (operator o = dl_operator l)
  && match dl_customer l with
     | Some c => bool_decide (customer o = Some c)
     | None => bool_decide (sender_card_name o = dl_card_name l)
               && bool_decide (sender_card_last4 o = dl_card_last4 l)
     end
  && (if bool_decide (dl_bank_code l = "")
      then bool_decide (payment_date o = Some (localdate_tehran now))
           && bool_decide (payment_time o = Some (dl_payment_time l))
      else bool_decide (bank_tracking_code o = Some (dl_bank_code l))).

(** The newest similar order still waiting. *)
Definition find_similar_pending_order (l : duplicate_lookup) (now : Z) (d : DB) : option (Z * order) :=
  head (order_by (fun ko => [- created_at ko.2; - ko.1])
          (rows_where (fun _ o => similar_order l now o) (orders d))).

Fixpoint obj_set (key : string) (v : json) (kv : list (string * json)) : list (string * json) :=
  match kv with
  | [] => [(key, v)]
  | (k, w) :: rest => if bool_decide (k = key) then (key, v) :: rest else (k, w) :: obj_set key v rest
  end.

Definition warning_of (m : Prelude.metadata) : list (string * json) :=
  match m !! "duplicate_warning" with Some (JObj kv) => kv | _ => [] end.

Definition duplicate_warning (source reason : string) (now : Z) (m : Prelude.metadata) : json :=
  let kv := warning_of m in
  let previous := match assoc "source" kv with Some (JStr s) => s | _ => "" end in
  let count := match assoc "attempt_count" kv with Some (JNum n) => n | _ => 0 end in
  let kv := obj_set "detected" (JBool true) kv in
  let kv := obj_set "reason" (JStr reason) kv in
  let kv := obj_set "source" (JStr (or_str source previous)) kv in
  let kv := obj_set "attempt_count" (JNum (count + 1)) kv in
  let kv := obj_set "last_attempt_at" (JStr (isoformat now)) kv in
  JObj (obj_set "window_seconds" (JNum DUPLICATE_ORDER_WINDOW_SECONDS) kv).

Definition mark_duplicate_attempt (opk : Z) (o : order) (source reason : string) (now : Z) : IO order :=
  save_order opk (o {{ metadata ::= fun m =>
      <["duplicate_warning" := duplicate_warning source reason now m]> m }}) [F_metadata] now.
End Duplicates.

(** ** Results of placing an order *)

Record checkout_result := mk_checkout {
  co_success : bool;
  co_message : string;
  co_order : option (Z * order);
  co_client : option (Z * VPNClient.vpn_client);
  co_duplicate : bool;
}.

(** [ProvisionedOrderResult(False, message)] *)
Definition declined (message : string) : checkout_result := mk_checkout false message None None false.

Definition DUPLICATE_MESSAGE : string := "A similar order was already submitted recently.".
Definition IN_PROGRESS_MESSAGE : string :=
  "درخواست قبلی هنوز در حال ثبت است. چند لحظه صبر کن؛ دوباره زدن دکمه سفارش تکراری می‌سازد.".

(** [order.vpn_clients.first()]: newest first. *)
Definition first_client (opk : Z) (d : DB) : option (Z * VPNClient.vpn_client) :=
  head (order_by (fun kc => [- VPNClient.created_at kc.2; - kc.1])
          (rows_where (fun _ c => bool_decide (VPNClient.order c = Some opk)) (clients d))).

Section Answers.
Context `{Env}.

(** Point the customer at the order already there. *)
Definition answer_duplicate (opk : Z) (o : order) (source reason : string) (now : Z) : IO checkout_result :=
  o ← mark_duplicate_attempt opk o source reason now;
  d ← get_db;
  mret (mk_checkout true DUPLICATE_MESSAGE (Some (opk, o)) (first_client opk d) true).
End Answers.

(** ** A manual payment *)

Record checkout_request := mk_request {
  rq_store : option Z;
  rq_customer : option Z;
  rq_plan : option Z;
  rq_operator : option Z;
  rq_custom_volume_gb : string;
  rq_inbound : option Z;
  rq_payment : submission;
  rq_bank_tracking_code : string;
  rq_discount_code : string;
  rq_quantity : quantity_input;
  rq_metadata : Prelude.metadata;
}.

(** What the checks in front of a checkout establish. *)
Record prepared := mk_prepared {
  pr_quantity : Z;
  pr_metadata : Prelude.metadata;
  pr_payment : cleaned_payment;
  pr_bank_code : string;
  pr_plan : Z;
  pr_plan_row : Plan.plan;
  pr_operator : option Z;
  pr_canonical : option delivery_configuration;
  pr_inbound : option Z;
}.

(** Where the customer was told to pay. *)
Definition destination_metadata (st : option Store.store) (m : Prelude.metadata) : Prelude.metadata :=
  match st with
  | None => m
  | Some s =>
      let p := Store.payment s in
      <["payment_destination_receipt_image_only" := JBool (Store.receipt_image_only_payment p)]>
      (<["payment_destination_bank_name" := JStr (default "" (Store.bank_name s))]>
      (<["payment_destination_card_owner" := JStr (Store.card_owner p)]>
      (<["payment_destination_card_number" := JStr (Store.card_number p)]> m)))
  end.

Definition PLAN_DELIVERY_CONFIG_INCOMPLETE_MESSAGE : string :=
  "تنظیم تحویل این پلن کامل نیست. لطفاً با پشتیبانی تماس بگیرید.".
Definition PLAN_DELIVERY_V2_CHECKOUT_STRATEGY : string := "plan_delivery_v2".

Definition decimal_text (thousandths : Z) : string :=
  let f := thousandths mod 1000 in
  pretty (thousandths / 1000) +:+ "." +:+
  (if f <? 10 then "00" else if f <? 100 then "0" else "") +:+ pretty f.

Definition custom_volume_metadata (p : Plan.plan) (st : option Store.store) (m : Prelude.metadata)
    : Prelude.metadata :=
  if Plan.is_custom_volume p then
    <["custom_volume_price_per_gb" := JStr (decimal_text (store_custom_volume_price_per_gb st))]>
    (<["custom_volume_duration_days" := JNum (Plan.duration_days p)]>
    (<["custom_volume_gb" := JStr (decimal_text (Plan.volume_gb p))]>
    (<["custom_volume" := JBool true]> m)))
  else m.

Section Preparation.
Context `{Env} `{Delivery}.

(** The plan's own delivery configuration, when checkout may rely on it. *)
Definition canonical_delivery_for_checkout (d : DB) (plan : Z) (store : option Z)
    : result (option delivery_configuration) :=
  let c := resolve_plan_delivery_configuration d plan store in
  if negb (bool_decide (source_of_truth c = SOURCE_V2_CONFIG))
     || bool_decide (effective_mode c = MODE_GLOBAL_FALLBACK) then Ret None
  else if bool_decide (readiness_status c ∈ [READINESS_INCOMPLETE; READINESS_CONFLICT])
          || (source_count c <? 1) || (expected_output_count c <? 1)
  then Raise (ValidationError PLAN_DELIVERY_CONFIG_INCOMPLETE_MESSAGE)
  else Ret (Some c).

Definition awaiting_delivery (c : delivery_configuration) : json := JObj [
  ("status", JStr "awaiting_payment"); ("delivery_config_id", json_opt (delivery_config_id c));
  ("delivery_mode", JStr (effective_mode c)); ("source_of_truth", JStr (source_of_truth c));
  ("source_count", JNum (source_count c)); ("expected_output_count", JNum (expected_output_count c)) ].

Definition canonical_metadata (c : option delivery_configuration) (explicit : option Z)
    (m : Prelude.metadata) : Prelude.metadata :=
  match c with
  | None => m
  | Some c =>
      let m := match explicit with
               | Some k => <["canonical_delivery_ignored_inbound_pk" := JNum k]> m | None => m end in
      <["plan_delivery_v2" := awaiting_delivery c]>
      (<["provisioning_strategy" := JStr PLAN_DELIVERY_V2_CHECKOUT_STRATEGY]> m)
  end.

(** The operator an operator-based shop requires up front. *)
Definition requested_operator (d : DB) (store opr : option Z) : result (option Z) :=
  if sales_mode_requires_operator (store_row d store) then
    match opr with
    | None => Raise (ValidationError OPERATOR_REQUIRED_MESSAGE)
    | Some k => if active_operator d store k then Ret (Some k)
                else Raise (ValidationError OPERATOR_INVALID_MESSAGE)
    end
  else Ret opr.

(** The plan asked for: a custom volume, made on the way, or a row. *)
Definition requested_plan (rq : checkout_request) (opr : option Z) : IO (Z * Plan.plan) :=
  if bool_decide (rq_custom_volume_gb rq = "") then
    match rq_plan rq with
    | None => raise (ValidationError PLAN_INVALID_MESSAGE)
    | Some pk => p ← get_plan pk; mret (pk, p)
    end
  else get_or_create_custom_volume_plan (rq_store rq) (rq_custom_volume_gb rq) opr.

(** An explicit inbound must be usable. *)
Definition check_explicit_inbound (d : DB) (store : option Z) (quantity : Z) (inbound : option Z)
    : result unit :=
  match inbound with
  | None => Ret tt
  | Some k => _ ← validate_inbound_for_order d store quantity true (keyed d k); Ret tt
  end.

(** Every check in front of the checkout, in the code's order.  The
    [ValidationError]s it raises are answers to the customer. *)
Definition prepare_checkout (rq : checkout_request) (quantity : Z) : IO prepared :=
  d ← get_db;
  let store := rq_store rq in
  let st := store_row d store in
  payment ← liftR (clean_manual_payment_submission (rq_payment rq) "" "");
  bank_code ← liftR (clean_bank_tracking_code (rq_bank_tracking_code rq));
  opr ← liftR (requested_operator d store (rq_operator rq));
  '(ppk, p) ← requested_plan rq opr;
  d ← get_db;
  opr ← liftR (validate_operator_for_order d store p opr);
  canonical ← liftR (canonical_delivery_for_checkout d ppk store);
  let inbound := if is_set canonical then None else rq_inbound rq in
  _ ← liftR (check_explicit_inbound d store quantity inbound);
  let m := destination_metadata st (rq_metadata rq) in
  let m := custom_volume_metadata p st m in
  let m := canonical_metadata canonical (rq_inbound rq) m in
  mret (mk_prepared quantity m payment bank_code ppk p opr canonical inbound).

Definition lookup_of (rq : checkout_request) (pr : prepared) : duplicate_lookup := {|
  dl_store := rq_store rq; dl_customer := rq_customer rq; dl_plan := pr_plan pr;
  dl_operator := pr_operator pr; dl_quantity := pr_quantity pr;
  dl_card_name := cp_card_name (pr_payment pr); dl_card_last4 := cp_card_last4 (pr_payment pr);
  dl_payment_time := cp_payment_time (pr_payment pr); dl_bank_code := pr_bank_code pr |}.

(** [(order_metadata.get("source") or "manual_payment").strip()] *)
Definition duplicate_source (m : Prelude.metadata) : string :=
  strip (or_str (match m !! "source" with Some (JStr s) => s | _ => "" end) "manual_payment").
End Preparation.

(** ** The critical section of a checkout *)

(** What an order owes to a discount: the reserved code, the amount, the
    source, and a wholesale customer's percentage. *)
Record checkout_discount := mk_checkout_discount {
  cd_reserved : option (Z * DiscountCode.discount_code);
  cd_amount : Z;
  cd_source : discount_source_t;
  cd_percent : Z;
}.

(** Where the clients of the order will be made. *)
Record checkout_panel := mk_checkout_panel {
  ck_inbound : option keyed_inbound;
  ck_metadata : Prelude.metadata;
  ck_client : option client_result;
}.

Definition NO_SERVER_FOR_CHECKOUT_MESSAGE : string :=
  "فعلاً سرور VPN فعالی برای ساخت کانفیگ در دسترس نیست. کمی بعد دوباره تلاش کن.".
Definition RECEIPT_NOT_SAVED_MESSAGE : string :=
  "Could not save the receipt image. Please try a smaller JPG or PNG image, or contact support.".
Definition ORDER_PLACED_MESSAGE : string := "سفارش ثبت شد و منتظر بررسی پرداخت است.".

(** The submission as cleaned in front of the checkout. *)
Definition cleaned_submission (s : submission) (c : cleaned_payment) : submission := {|
  sub_card_name := cp_card_name c; sub_card_last4 := cp_card_last4 c;
  sub_payment_time := PTime (60 * cp_payment_time c); sub_receipt_image := cp_receipt_image c;
  sub_receipt_text := cp_receipt_text c; sub_require_receipt := sub_require_receipt s;
  sub_require_receipt_image := sub_require_receipt_image s |}.

(** [provisioning_scope(None)] *)
Definition empty_provisioning_scope : json := JObj [
  ("panel_id", JNull); ("panel_profile", JStr ""); ("inbound_pk", JNull); ("xui_inbound_id", JNull);
  ("node_id", JStr ""); ("node_name", JStr ""); ("remote_key", JStr "") ].

Section Placing.
Context `{Env} `{Delivery}.

(** Reserve the code's usage, or take the wholesale discount. *)
Definition reserve_for_checkout (plan : Z) (p : Plan.plan) (code : string) (customer : option Z)
    (quantity now : Z) : IO checkout_discount :=
  let normalized := normalize_code code in
  if negb (bool_decide (normalized = "")) then
    '(reserved, amount) ← reserve_discount_usage plan p normalized customer quantity now;
    mret (mk_checkout_discount reserved amount (if is_set reserved then MANUAL else NONE) 0)
  else
    d ← get_db;
    let percent := get_customer_wholesale_discount_percent (customer ≫= fun c => customers d !! c) in
    let amount := if percent =? 0 then 0
                  else calculate_percentage_discount (Plan.price p * quantity) percent in
    mret (mk_checkout_discount None amount (if amount =? 0 then NONE else WHOLESALE) percent).

(** The inbounds the order may use; none for a plan with its own delivery. *)
Definition checkout_inbounds (d : DB) (rq : checkout_request) (pr : prepared)
    : result (list (option keyed_inbound)) :=
  if is_set (pr_canonical pr) then Ret []
  else match pr_inbound pr with
       | Some k => Ret [keyed d k]
       | None => select_inbounds_for_plan d (pr_plan pr) (pr_plan_row pr) (rq_store rq) (pr_operator pr)
                   (pr_quantity pr) true
       end.

Definition deferred_panel (reason username : string) (now : Z) (m : Prelude.metadata) : Prelude.metadata :=
  <["deferred_panel_username" := JStr username]>
  (<["panel_provisioning_reason" := JStr reason]>
  (<["panel_provisioning_deferred_at" := JStr (isoformat now)]>
  (<["panel_provisioning_deferred" := JBool true]> m))).

(** Remember where the order belongs, and make its inactive client right away
    on a legacy panel. *)
Definition prepare_panel (d : DB) (pr : prepared) (i : keyed_inbound)
    (selected : list (option keyed_inbound)) (username : string) (now : Z) : IO checkout_panel :=
  let p := pr_plan_row pr in
  let m := pr_metadata pr in
  let order_type := if md_truthy "admin_direct_purchase" m then "admin_direct_purchase" else "paid_purchase" in
  let strategy := match inbound_panel d i.2 with
                  | Some panel => resolve_provisioning_strategy panel order_type
                  | None => STRATEGY_LEGACY_PRECREATE_INACTIVE end in
  let m := <["provisioning_scope" := JObj (provisioning_scope d i)]>
           (<["provisioning_strategy" := JStr strategy]> m) in
  let bundle := omap id selected in
  let m := if Plan.multi_inbound_bundle p && (1 <? Z.of_nat (length selected)) then
             <["bundle_inbound_pks" := JList (map (fun b : keyed_inbound => JNum b.1) bundle)]>
             (<["provisioning_scopes" := JList (map (fun b => JObj (provisioning_scope d b)) bundle)]>
             (<["multi_inbound_bundle" := JBool true]> m))
           else m in
  if bool_decide (strategy = STRATEGY_LEGACY_PRECREATE_INACTIVE) then
    cr ← ask (CallPrecreate i.1) (fun h => create_inactive_client h i.1 i.2 p None username);
    mret (mk_checkout_panel (Some i)
            (if is_set cr then m else deferred_panel "panel_unavailable_on_checkout" username now m) cr)
  else mret (mk_checkout_panel (Some i) (deferred_panel strategy username now m) None).

(** [Order(...)] of a checkout, before its payment is filled in. *)
Definition checkout_order (rq : checkout_request) (pr : prepared) (public_id tracking name : string)
    (k : checkout_panel) (now : Z) : order :=
  let p := pr_plan_row pr in
  let subtotal := Plan.price p * pr_quantity pr in
  let m := match ck_inbound k with
           | Some _ => ck_metadata k
           | None => setdefault "provisioning_scope" empty_provisioning_scope (ck_metadata k) end in
  let o := (blank_order public_id tracking (pr_plan pr) now) {{
    store := rq_store rq; customer := rq_customer rq; operator := pr_operator pr;
    quantity := pr_quantity pr; original_amount := subtotal; amount := subtotal;
    currency := Some (Plan.currency p); username := name;
    inbound := fst <$> ck_inbound k; metadata := m; status := PENDING_PAYMENT }} in
  match ck_client k with
  | Some cr => o {{ uuid := Some (cr_uuid cr); sub_link := cr_sub_link cr; direct_link := cr_direct_link cr;
                    provisioning_status := PROVISIONED; provisioned_at := Some now }}
  | None => o {{ provisioning_status := P_PENDING }}
  end.

(** The inactive client's row, on a legacy panel. *)
Definition record_inactive_client (rq : checkout_request) (opk : Z) (o : order) (k : checkout_panel)
    (now : Z) : IO (option (Z * VPNClient.vpn_client)) :=
  match ck_client k, ck_inbound k with
  | Some cr, Some i =>
      c ← create_order_vpn_client opk (o {{ store := rq_store rq }}) (Some i) (username o)
            (Some (cr_uuid cr)) cr VPNClient.INACTIVE now;
      _ ← put_db (bump_current_users i.1);
      mret (Some c)
  | _, _ => mret None
  end.

Definition discounted (p : Plan.plan) (cd : checkout_discount) (o : order) : order :=
  match cd_reserved cd with
  | Some (k, dc) => apply_discount p (Some (k, DiscountCode.code dc)) (cd_amount cd) (cd_source cd) "" o
  | None => if bool_decide (cd_source cd = WHOLESALE) then apply_wholesale_discount p (cd_percent cd) o else o
  end.

(** Writing the uploaded receipt, when there is one. *)
Definition save_receipt (image : option receipt_image) : result unit :=
  match image with Some i => store_receipt_image (ri_name i) | None => Ret tt end.

(** The transaction that records the order. *)
Definition record_checkout (rq : checkout_request) (pr : prepared) (o : order) (k : checkout_panel)
    (cd : checkout_discount) (now : Z) : IO ((Z * order) * option (Z * VPNClient.vpn_client)) := atomic (
  '(opk, o) ← create_order o now;
  c ← record_inactive_client rq opk o k now;
  let o := discounted (pr_plan_row pr) cd o in
  o ← liftR (submit_manual_payment (cleaned_submission (rq_payment rq) (pr_payment pr)) now o);
  let o := o {{ bank_tracking_code := Some (pr_bank_code pr) }} in
  _ ← liftR (save_receipt (cp_receipt_image (pr_payment pr)));
  o ← save_order_full opk o now;
  _ ← put_db (mark_customer_reward_used (customer o) (fst <$> cd_reserved cd) now);
  mret ((opk, o), c)).

(** Give the reserved usage back and answer. *)
Definition hand_back (cd : checkout_discount) (now : Z) (message : string) : IO checkout_result :=
  _ ← release_discount_usage (cd_reserved cd) now; mret (declined message).

(** Record the order; whatever goes wrong, the usage is given back first. *)
Definition record_or_release (rq : checkout_request) (pr : prepared) (o : order) (k : checkout_panel)
    (cd : checkout_discount) (now : Z) : IO checkout_result :=
  catch (x ← record_checkout rq pr o k cd now;
         mret (mk_checkout true ORDER_PLACED_MESSAGE (Some x.1) x.2 false))
    (fun e => match e with
              | ValidationError message => hand_back cd now message
              | OSError => hand_back cd now RECEIPT_NOT_SAVED_MESSAGE
              | _ => _ ← release_discount_usage (cd_reserved cd) now; raise e
              end).

(** What happens while the lock is held. *)
Definition place_order (rq : checkout_request) (pr : prepared) (public_id tracking : string) (now : Z)
    : IO checkout_result :=
  let p := pr_plan_row pr in
  let username := build_client_display_name ((blank_order public_id tracking (pr_plan pr) now) {{
    customer := rq_customer rq; sender_card_name := cp_card_name (pr_payment pr);
    metadata := pr_metadata pr }}) in
  on_validation
    (reserve_for_checkout (pr_plan pr) p (rq_discount_code rq) (rq_customer rq) (pr_quantity pr) now)
    (fun message => mret (declined message))
    (fun cd =>
       d ← get_db;
       on_validation (liftR (checkout_inbounds d rq pr)) (hand_back cd now)
         (fun selected =>
            match head selected with
            | Some (Some i) =>
                on_validation (liftR (validate_inbound_for_order d (rq_store rq) (pr_quantity pr) true (Some i)))
                  (hand_back cd now)
                  (fun i => k ← prepare_panel d pr i selected username now;
                            record_or_release rq pr (checkout_order rq pr public_id tracking username k now) k cd now)
            | _ =>
                if is_set (pr_canonical pr) then
                  let k := mk_checkout_panel None
                    (setdefault "deferred_panel_username" (JStr username) (pr_metadata pr)) None in
                  record_or_release rq pr (checkout_order rq pr public_id tracking username k now) k cd now
                else hand_back cd now NO_SERVER_FOR_CHECKOUT_MESSAGE
            end)).

(** ** The whole handler

    [others] is what other requests do between this one's look at the orders
    and its attempt to take the lock. *)
Definition create_manual_payment_order (others : IO unit) (rq : checkout_request)
    (public_id tracking : string) (now : Z) : IO checkout_result :=
  d ← get_db;
  if is_set (rq_store rq) && negb (Store.store_is_sellable (store_row d (rq_store rq)))
  then mret (declined SETUP_NOT_READY_MESSAGE)
  else
    quantity ← liftR (validate_order_quantity (rq_quantity rq));
    on_validation (prepare_checkout rq quantity) (fun message => mret (declined message)) (fun pr =>
      let l := lookup_of rq pr in
      let key := build_duplicate_order_key l in
      let source := duplicate_source (pr_metadata pr) in
      d ← get_db;
      match find_similar_pending_order l now d with
      | Some (opk, o) => answer_duplicate opk o source "similar_order" now
      | None =>
          _ ← others;
          held ← gets (fun w => bool_decide (key ∈ locks w));
          if held : bool then
            d ← get_db;
            match find_similar_pending_order l now d with
            | Some (opk, o) => answer_duplicate opk o source "concurrent_duplicate" now
            | None => mret (declined IN_PROGRESS_MESSAGE)
            end
          else
            _ ← modify (fun w => w {{ locks ::= union {[ key ]} }});
            finally (place_order rq pr public_id tracking now)
              (fun w => w {{ locks ::= fun held => held ∖ {[ key ]} }})
      end).
End Placing.

(** ** Renewals *)

Definition RENEWAL_DELETED_MESSAGE : string := "این کانفیگ حذف شده و قابل تمدید نیست.".
Definition RENEWAL_NO_PLAN_MESSAGE : string := "این کانفیگ پلن قابل تمدید ندارد.".
Definition RENEWAL_NO_ORDER_MESSAGE : string := "سفارش اصلی این کانفیگ پیدا نشد.".
Definition RENEWAL_FOREIGN_MESSAGE : string := "این کانفیگ برای این حساب نیست.".
Definition RENEWAL_CREATED_MESSAGE : string := "Renewal order created and is waiting for payment.".

(** [a.update(b)] *)
Definition update_metadata (a b : Prelude.metadata) : Prelude.metadata := b ∪ a.

Section Renewal.
Context `{Env}.

Definition renewal_metadata (cpk : Z) (client_public_id : string) (opk : Z) (st : option Store.store)
    (extra : Prelude.metadata) : Prelude.metadata :=
  let m := <["source" := JStr "web_dashboard_renewal"]>
           (<["renewal" := JBool true]>
           (<["renewal_client_pk" := JNum cpk]>
           (<["renewal_client_public_id" := JStr client_public_id]>
           (<["renewal_order_pk" := JNum opk]> ∅)))) in
  update_metadata (destination_metadata st m) extra.

(** [Order(...)] of a renewal. *)
Definition renewal_order (customer : option Z) (c : VPNClient.vpn_client) (ppk : Z) (p : Plan.plan)
    (source_order : order) (store : option Z) (cd : checkout_discount) (public_id tracking : string)
    (m : Prelude.metadata) (now : Z) : order :=
  let subtotal := Plan.price p in
  let o := (blank_order public_id tracking ppk now) {{
    Order.store := store; Order.customer := customer; operator := operator source_order; quantity := 1;
    original_amount := subtotal; discount_amount := cd_amount cd;
    amount := Z.max (subtotal - cd_amount cd) 0; currency := Some (Plan.currency p);
    username := VPNClient.username c; uuid := VPNClient.uuid c; inbound := VPNClient.inbound c;
    sub_link := VPNClient.sub_link c; direct_link := VPNClient.direct_link c; status := PENDING_PAYMENT;
    discount_source := cd_source cd; metadata := m }} in
  match cd_reserved cd with
  | Some (k, dc) => o {{ discount_code := Some k; discount_code_text := DiscountCode.code dc }}
  | None => if bool_decide (cd_source cd = WHOLESALE)
            then o {{ discount_code_text := wholesale_label (cd_percent cd) }} else o
  end.

(** The transaction; whatever goes wrong the usage is given back and the
    exception goes on. *)
Definition record_renewal (o : order) (cd : checkout_discount) (now : Z) : IO (Z * order) :=
  catch (atomic ('(opk, o) ← create_order o now;
                 _ ← put_db (mark_customer_reward_used (customer o) (fst <$> cd_reserved cd) now);
                 mret (opk, o)))
    (fun e => _ ← release_discount_usage (cd_reserved cd) now; raise e).

Definition create_renewal_payment_order (customer : option Z) (cpk : Z) (c : VPNClient.vpn_client)
    (client_public_id : string) (extra : Prelude.metadata) (code : string) (public_id tracking : string)
    (now : Z) : IO checkout_result :=
  if VPNClient.is_deleted c then mret (declined RENEWAL_DELETED_MESSAGE)
  else match VPNClient.plan c with
  | None => mret (declined RENEWAL_NO_PLAN_MESSAGE)
  | Some ppk =>
  match VPNClient.order c with
  | None => mret (declined RENEWAL_NO_ORDER_MESSAGE)
  | Some opk =>
      p ← get_plan ppk;
      source_order ← get_order opk;
      if is_set customer && negb (bool_decide (Order.customer source_order = customer))
      then mret (declined RENEWAL_FOREIGN_MESSAGE)
      else
        d ← get_db;
        let store := or_opt (VPNClient.store c) (or_opt (Order.store source_order)
                       (or_opt (Plan.store p) (get_current_store d))) in
        on_validation (reserve_for_checkout ppk p code customer 1 now) (fun message => mret (declined message))
          (fun cd =>
             let m := renewal_metadata cpk client_public_id opk (store_row d store) extra in
             x ← record_renewal (renewal_order customer c ppk p source_order store cd public_id tracking m now)
                   cd now;
             mret (mk_checkout true RENEWAL_CREATED_MESSAGE (Some x) (Some (cpk, c)) false))
  end end.
End Renewal.

(** ** Free grants *)

Record grant_request := mk_grant {
  gr_store : option Z;
  gr_customer : Z;
  gr_plan : Z;
  gr_inbound : option Z;
  gr_granted_by : option Z;
  gr_reason : string;
  gr_metadata : Prelude.metadata;
  gr_notify_customer : bool;
  gr_revenue_included : bool;
  gr_revenue_amount : option Z;
  gr_request_id : option string;
}.

Definition REVENUE_INVALID_MESSAGE : string := "مبلغ درآمد باید مثبت باشد.".
Definition CONFIRMATION_INVALID_MESSAGE : string := "تأیید عملیات معتبر نیست.".
Definition ALREADY_REQUESTED_MESSAGE : string := "این عملیات قبلاً ثبت شده؛ وضعیت سفارش را بررسی کن.".
Definition NO_SERVER_FOR_GRANT_MESSAGE : string := "فعلاً سرور VPN فعالی در دسترس نیست.".

(** The order a confirmation already made. *)
Definition order_by_public_id (public_id : string) (d : DB) : option (Z * order) :=
  first_where (fun _ o => bool_decide (Order.public_id o = public_id)) (orders d).

Definition requested_before (request : option string) (d : DB) : option (Z * order) :=
  request ≫= fun id => order_by_public_id id d.

Definition valid_revenue (included : bool) (amount : option Z) : bool :=
  negb included || match amount with Some a => (0 <? a) && (a <=? 2147483647) | None => false end.

Definition same_grant (rq : grant_request) (o : order) : bool :=
  bool_decide (customer o = Some (gr_customer rq)) && bool_decide (plan o = gr_plan rq).

Section Grants.
Context `{Env} `{Delivery}.

(** The inbound of a grant, checked. *)
Definition grant_inbound (d : DB) (rq : grant_request) (p : Plan.plan) : result keyed_inbound :=
  chosen ← match gr_inbound rq with
           | Some k => Ret (keyed d k)
           | None => select_inbound_for_plan d (gr_plan rq) p (gr_store rq) None 1 true
           end;
  match chosen with
  | None => Raise (ValidationError NO_SERVER_FOR_GRANT_MESSAGE)
  | Some i => validate_inbound_for_order d (gr_store rq) 1 true (Some i)
  end.

(** What stands in the way of the grant, if anything; its delivery, and its
    inbound. *)
Definition grant_preflight (d : DB) (rq : grant_request) (p : Plan.plan)
    : option string * option delivery_configuration * option keyed_inbound :=
  let inbound_of c err :=
    match c with
    | Some c => (err, Some c, gr_inbound rq ≫= keyed d)
    | None => match grant_inbound d rq p with
              | Ret i => (err, None, Some i)
              | Raise (ValidationError message) => (Some message, None, None)
              | Raise _ => (Some "", None, None)
              end
    end in
  match canonical_delivery_for_checkout d (gr_plan rq) (gr_store rq) with
  | Ret c => inbound_of c None
  | Raise (ValidationError message) =>
      inbound_of (Some (resolve_plan_delivery_configuration d (gr_plan rq) (gr_store rq))) (Some message)
  | Raise _ => inbound_of None (Some "")
  end.

Definition grant_metadata (d : DB) (rq : grant_request) (c : option delivery_configuration)
    (i : option keyed_inbound) : Prelude.metadata :=
  let m := <["suppress_customer_notification" := JBool (negb (gr_notify_customer rq))]>
           (<["suppress_admin_order_updates" := JBool true]>
           (<["suppress_new_order_notification" := JBool true]>
           (<["free_grant_reason" := JStr (gr_reason rq)]>
           (<["free_grant" := JBool true]>
           (<["source" := JStr "admin_free"]> (gr_metadata rq)))))) in
  match c with
  | Some c => canonical_metadata (Some c) None m
  | None =>
      match i with
      | None => m
      | Some i =>
          let strategy := match inbound_panel d i.2 with
                          | Some panel => resolve_provisioning_strategy panel "admin_direct_paid_grant"
                          | None => STRATEGY_LEGACY_PRECREATE_INACTIVE end in
          <["panel_provisioning_reason" := JStr strategy]>
          (<["panel_provisioning_deferred" := JBool true]>
          (<["provisioning_scope" := JObj (provisioning_scope d i)]>
          (<["provisioning_strategy" := JStr strategy]> m)))
      end
  end.

Definition grant_order (rq : grant_request) (p : Plan.plan) (public_id tracking : string)
    (i : option keyed_inbound) (m : Prelude.metadata) (now : Z) : order :=
  let o := (blank_order public_id tracking (gr_plan rq) now) {{
    customer := Some (gr_customer rq); metadata := m }} in
  let name := build_client_display_name o in
  o {{ store := gr_store rq; inbound := fst <$> i; username := name;
       original_amount := Plan.price p; discount_amount := Plan.price p; amount := 0;
       currency := Some (Plan.currency p); status := PENDING_PAYMENT; provisioning_status := P_PENDING;
       payment_method := ADMIN_FREE; is_paid := true; payment_submitted_at := Some now;
       payment_date := Some (localdate_tehran now);
       metadata := <["deferred_panel_username" := JStr name]> m;
       revenue_included := Some (gr_revenue_included rq);
       revenue_amount := if gr_revenue_included rq then gr_revenue_amount rq else None }}.

(** [order.vpn_clients.order_by("pk").first()] *)
Definition first_client_by_pk (opk : Z) (d : DB) : option (Z * VPNClient.vpn_client) :=
  head (order_by (fun kc => [kc.1]) (rows_where (fun _ c => bool_decide (VPNClient.order c = Some opk)) (clients d))).

(** Set up the order that was just recorded. *)
Definition fulfil_grant (rq : grant_request) (opk : Z) (o : order) (preflight_error : option string) (now : Z)
    : IO checkout_result :=
  match preflight_error with
  | Some message =>
      let o := o {{ provisioning_status := FAILED; last_provisioning_error := message }} in
      o ← save_order opk o [F_provisioning_status; F_last_provisioning_error] now;
      mret (mk_checkout false message (Some (opk, o)) None false)
  | None =>
      r ← activate_order opk o (gr_granted_by rq) true now;
      o ← get_order opk;
      d ← get_db;
      mret (mk_checkout (success r) (message r) (Some (opk, o)) (first_client_by_pk opk d) false)
  end.

(** [others] is what other requests do while the grant is being prepared,
    before [get_or_create(public_id=request_id)]. *)
Definition grant_free_subscription (others : IO unit) (rq : grant_request) (public_id tracking : string)
    (now : Z) : IO checkout_result :=
  if negb (valid_revenue (gr_revenue_included rq) (gr_revenue_amount rq))
  then mret (declined REVENUE_INVALID_MESSAGE)
  else
    d ← get_db;
    match requested_before (gr_request_id rq) d with
    | Some (opk, o) =>
        if same_grant rq o
        then mret (mk_checkout (bool_decide (status o = COMPLETED)) ALREADY_REQUESTED_MESSAGE
                     (Some (opk, o)) None true)
        else mret (declined CONFIRMATION_INVALID_MESSAGE)
    | None =>
        p ← get_plan (gr_plan rq);
        let '(preflight_error, c, i) := grant_preflight d rq p in
        match preflight_error, gr_request_id rq with
        | Some message, None => mret (declined message)
        | _, _ =>
            let public_id := default public_id (gr_request_id rq) in
            let o := grant_order rq p public_id tracking i (grant_metadata d rq c i) now in
            _ ← others;
            d ← get_db;
            match requested_before (gr_request_id rq) d with
            | Some (opk, o) =>
                mret (if same_grant rq o
                      then mk_checkout false ALREADY_REQUESTED_MESSAGE (Some (opk, o)) None true
                      else declined CONFIRMATION_INVALID_MESSAGE)
            | None => '(opk, o) ← create_order o now; fulfil_grant rq opk o preflight_error now
            end
        end
    end.
End Grants.
