(* ===== verification/CheckoutSpec.v ===== *)
(** What placing an order guarantees: the lock is always given back, a
    checkout that fails leaves no trace, one that succeeds leaves an order ready
    for review, and a repeated submission is recognised. *)

From S2P Require Import Prelude Models World Numbers Discounts OrderStore Inbounds Scope OrderActions Provisioning Submission Checkout.
Import Order.

Section Checkout.
Context `{Env} `{Delivery}.

(** ** The lock *)

#[local] Instance keeps_locks_undoable : Undoable (keeps locks).
Proof. by intros w w' Hw. Qed.

(** What keeps everything but the orders keeps the locks. *)
Lemma keeps_locks {A} (m : IO A) : respects (keeps all_but_orders) m -> respects (keeps locks) m.
Proof. intros Hm w r w' E. specialize (Hm _ _ _ E). unfold keeps, all_but_orders in *. congruence. Qed.

Lemma reserve_locks plan p code customer q now :
  respects (keeps locks) (reserve_for_checkout plan p code customer q now).
Proof. unfold reserve_for_checkout, reserve_discount_usage. walk; done. Qed.

Lemma release_locks disc now : respects (keeps locks) (release_discount_usage disc now).
Proof. unfold release_discount_usage. walk; done. Qed.

Lemma create_client_locks opk o i name u cr st now :
  respects (keeps locks) (create_order_vpn_client opk o i name u cr st now).
Proof. unfold create_order_vpn_client, get_plan. walk; done. Qed.

Lemma record_checkout_locks rq pr o k cd now : respects (keeps locks) (record_checkout rq pr o k cd now).
Proof.
  unfold record_checkout, record_inactive_client. apply respects_atomic; [apply _|].
  apply respects_bind; [apply _|apply keeps_locks, create_order_frame|]. intros [opk o1].
  apply respects_bind; [apply _|walk; auto using create_client_locks; done|]. intros c.
  apply respects_bind; [apply _|walk|]. intros o2. cbv zeta.
  apply respects_bind; [apply _|walk|]. intros _.
  apply respects_bind; [apply _|apply keeps_locks, save_order_full_frame|]. intros o3. walk.
  by unfold mark_customer_reward_used.
Qed.

#[local] Hint Resolve reserve_locks release_locks record_checkout_locks : frames.

Lemma record_or_release_locks rq pr o k cd now : respects (keeps locks) (record_or_release rq pr o k cd now).
Proof. unfold record_or_release, hand_back. walk. Qed.

Lemma prepare_panel_locks d pr i l name now : respects (keeps locks) (prepare_panel d pr i l name now).
Proof. unfold prepare_panel. walk. done. Qed.

#[local] Hint Resolve record_or_release_locks prepare_panel_locks : frames.

Lemma place_order_locks rq pr pid tracking now : respects (keeps locks) (place_order rq pr pid tracking now).
Proof. unfold place_order, hand_back. walk. Qed.

Lemma prepare_checkout_locks rq q : respects (keeps locks) (prepare_checkout rq q).
Proof. unfold prepare_checkout, requested_plan, get_or_create_custom_volume_plan, get_plan. walk; done. Qed.

Lemma answer_duplicate_locks opk o source reason now :
  respects (keeps locks) (answer_duplicate opk o source reason now).
Proof.
  unfold answer_duplicate, mark_duplicate_attempt.
  apply respects_bind; [apply _|apply keeps_locks, save_order_frame|]. intros o'. walk.
Qed.

(** The key taken is the key given back. *)
Lemma locked_section_locks {A} key (m : IO A) w r w' :
  respects (keeps locks) m -> key ∉ locks w ->
  (_ ← modify (fun w => w {{ locks ::= union {[ key ]} }});
   finally m (fun w => w {{ locks ::= fun held => held ∖ {[ key ]} }})) w = (r, w') ->
  locks w' = locks w.
Proof.
  intros Hm Hkey. unfold mbind, M_bind, modify, finally.
  destruct (m _) as [x w1] eqn:E. intros [= <- <-]. apply Hm in E. unfold keeps in E. cbn in *.
  rewrite E. set_solver.
Qed.

#[local] Hint Resolve prepare_checkout_locks answer_duplicate_locks place_order_locks : frames.

(** Checkout never leaves its lock behind: however it ends - an order, a
    refusal or an exception - the keys held in the cache are those held before,
    provided the requests served in between gave theirs back too. *)
Theorem checkout_returns_its_lock others rq pid tracking now w r w' :
  respects (keeps locks) others ->
  create_manual_payment_order others rq pid tracking now w = (r, w') -> locks w' = locks w.
Proof.
  intros Hothers. revert w r w'. change (respects (keeps locks) (create_manual_payment_order others rq pid tracking now)).
  unfold create_manual_payment_order.
  apply respects_bind; [apply _|walk|]. intros d. destruct (_ && _); [walk|].
  apply respects_bind; [apply _|walk|]. intros q.
  apply respects_on_validation; [apply _|walk|walk|]. intros pr. cbv zeta.
  apply respects_bind; [apply _|walk|]. intros d2.
  destruct (find_similar_pending_order _ _ _) as [[opk o]|]; [walk|].
  apply respects_bind; [apply _|done|]. intros _. intros w r w'.
  unfold mbind at 1, M_bind at 1, gets. case_bool_decide as Hkey; revert w r w' Hkey.
  - intros w r w' _. revert w r w'.
    change (respects (keeps locks) (d ← get_db;
      match find_similar_pending_order (lookup_of rq pr) now d with
      | Some (opk, o) => answer_duplicate opk o (duplicate_source (pr_metadata pr)) "concurrent_duplicate" now
      | None => mret (declined IN_PROGRESS_MESSAGE) end)). walk.
  - intros w r w' Hkey. by apply locked_section_locks; [apply place_order_locks|].
Qed.

(** ** Failure *)

(** The same tables, down to the timestamps of the discount codes. *)
Definition same_but_usage (d d' : DB) : Prop :=
  untimed (discounts d') = untimed (discounts d) /\ d' {{ discounts := discounts d }} = d.

Lemma same_but_usage_refl d : same_but_usage d d.
Proof. split; [done|by destruct d]. Qed.

(** What giving the usage back leaves of a database. *)
Definition given_back (cd : checkout_discount) (now : Z) (d : DB) : DB :=
  match cd_reserved cd with
  | Some (pk, _) => d {{ discounts ::= alter (unuse_discount now) pk }}
  | None => d
  end.

Definition backed (d0 : DB) (cd : checkout_discount) (now : Z) (w : World) : Prop :=
  same_but_usage d0 (given_back cd now (db w)).

Lemma backed_db d0 cd now w w' : db w' = db w -> backed d0 cd now w -> backed d0 cd now w'.
Proof. unfold backed. by intros ->. Qed.

Lemma release_given_back cd now w : db (release_discount_usage (cd_reserved cd) now w).2 = given_back cd now (db w).
Proof. unfold given_back. rewrite release_eq. by destruct (cd_reserved cd) as [[]|]. Qed.

Lemma reserve_backed d0 plan p code customer q now :
  usage_ok d0 ->
  triple (fun w => db w = d0) (reserve_for_checkout plan p code customer q now)
    (fun cd => backed d0 cd now) (fun w => db w = d0).
Proof.
  intros Hok w r w' Hw. unfold reserve_for_checkout. destruct (negb _).
  - unfold mbind at 1, M_bind at 1.
    destruct (reserve_cases plan p (normalize_code code) customer q now w) as
      [[_ ->]|[(_ & e & _ & ->)|(_ & pk & dc & Hc & ->)]]; intros [= <- <-]; [|done|].
    + unfold backed, given_back. cbn. rewrite Hw. apply same_but_usage_refl.
    + unfold backed, given_back. cbn. rewrite Hw in *. split; [|by destruct d0].
      apply check_discount_Ret in Hc as [Hdc _]. destruct (Hok _ _ Hdc) as [Hused _].
      by apply (unuse_use pk dc).
  - run_io. intros [= <- <-]. unfold backed, given_back. cbn. rewrite Hw. apply same_but_usage_refl.
Qed.

(** A checkout that did not succeed left the database it found. *)
Definition no_trace (d0 : DB) (r : checkout_result) (w : World) : Prop :=
  co_success r = false -> same_but_usage d0 (db w).

Lemma release_restores d0 cd now X :
  triple (backed d0 cd now) (release_discount_usage (cd_reserved cd) now)
    (fun _ w => same_but_usage d0 (db w)) X.
Proof.
  intros w r w' Hw E. pose proof (release_given_back cd now w) as Hg.
  rewrite release_eq in E, Hg. injection E as <- <-. unfold backed in Hw. by rewrite <- Hg in Hw.
Qed.

Lemma hand_back_no_trace d0 cd now message :
  triple (backed d0 cd now) (hand_back cd now message) (no_trace d0) (fun w => same_but_usage d0 (db w)).
Proof.
  unfold hand_back. eapply triple_bind; [apply release_restores|]. intros u. cbv beta. apply triple_ret. by intros w Hw _.
Qed.

Lemma record_or_release_no_trace d0 rq pr o k cd now :
  triple (backed d0 cd now) (record_or_release rq pr o k cd now) (no_trace d0)
    (fun w => same_but_usage d0 (db w)).
Proof.
  unfold record_or_release. apply (triple_catch _ _ _ _ _ (backed d0 cd now)).
  - eapply (triple_bind _ _ _ (fun _ _ => True)).
    + unfold record_checkout. apply triple_atomic.
      * intros w r w' _ _. by destruct r.
      * intros w w' Hw Hdb. by apply (backed_db _ _ _ w).
    + intros x. cbv beta. apply triple_ret. by intros w _ [=].
  - intros e. assert (Hre : triple (backed d0 cd now)
      (_ ← release_discount_usage (cd_reserved cd) now; raise e)
      (no_trace d0) (fun w => same_but_usage d0 (db w))).
    { eapply triple_bind; [apply release_restores|]. intros u. cbv beta. by apply triple_raise. }
    destruct e; first [apply hand_back_no_trace|exact Hre].
Qed.

Lemma prepare_panel_backed d0 cd now d pr i l name now' X :
  triple (backed d0 cd now) (prepare_panel d pr i l name now') (fun _ => backed d0 cd now) X.
Proof.
  unfold prepare_panel. cbv zeta. case_bool_decide; [|by apply triple_ret].
  eapply triple_bind; [by apply triple_ask|]. intros cr. by apply triple_ret.
Qed.

(** [try: a = x except ValidationError: h else: k a] when [x] raises nothing
    else. *)
Lemma triple_declines {A B} P (x : result A) h (k : A -> IO B) Q X :
  only_declines x -> (forall text, triple P (h text) Q X) -> (forall a, x = Ret a -> triple P (k a) Q X) ->
  triple P (on_validation (liftR x) h k) Q X.
Proof.
  intros Hx Hh Hk w r w' Hw. unfold on_validation, liftR. destruct x as [a|e].
  - by apply Hk.
  - destruct (Hx e eq_refl) as [text ->]. by apply Hh.
Qed.

Lemma checkout_inbounds_declines d rq pr : only_declines (checkout_inbounds d rq pr).
Proof.
  unfold checkout_inbounds. repeat case_match; auto using select_inbounds_declines with declines.
Qed.

(** C4: A checkout that fails once it holds the lock - the code is refused, no
    server is free, the receipt cannot be stored, the database raises - leaves
    every table as it was, the usage it had reserved given back; only the
    timestamp of the discount code may have moved. *)
Theorem failed_checkout_leaves_no_trace rq pr pid tracking now w r w' :
  usage_ok (db w) -> place_order rq pr pid tracking now w = (r, w') ->
  match r with Ret x => co_success x = false | Raise _ => True end -> same_but_usage (db w) (db w').
Proof.
  intros Hok Hrun Hr. cut (triple (fun w1 => db w1 = db w) (place_order rq pr pid tracking now)
    (no_trace (db w)) (fun w1 => same_but_usage (db w) (db w1))).
  { intros Ht. specialize (Ht w r w' eq_refl Hrun). destruct r; [by apply Ht|done]. }
  clear Hrun Hr w' r. set (d0 := db w) in *. clearbody d0. clear w.
  unfold place_order. cbv zeta.
  eapply triple_on_validation; [by apply reserve_backed| | |].
  - intros text. cbv beta. apply triple_ret. intros w Hw _. rewrite Hw. apply same_but_usage_refl.
  - intros cd. cbv beta. eapply triple_bind; [apply triple_get_db|]. intros d. cbv beta.
    apply (triple_pre _ (backed d0 cd now)); [by intros ? []|].
    apply triple_declines; [apply checkout_inbounds_declines|apply hand_back_no_trace|].
    intros selected _. destruct (head selected) as [[i|]|].
    2, 3: destruct (is_set _); [apply record_or_release_no_trace|apply hand_back_no_trace].
    apply triple_declines; [apply validate_inbound_declines|apply hand_back_no_trace|].
    intros i' _. eapply triple_bind; [apply prepare_panel_backed|].
    intros k. apply record_or_release_no_trace.
  - intros w Hw. rewrite Hw. apply same_but_usage_refl.
Qed.

(** ** Success *)

(** What was bought, by whom, and at which price. *)
Record bought (rq : checkout_request) (pr : prepared) (now : Z) (o : order) : Prop := {
  bought_plan : plan o = pr_plan pr;
  bought_quantity : quantity o = pr_quantity pr;
  bought_customer : customer o = rq_customer rq;
  bought_operator : operator o = pr_operator pr;
  bought_price : original_amount o = Plan.price (pr_plan_row pr) * pr_quantity pr;
  bought_at : created_at o = now;
  bought_store : forall s, rq_store rq = Some s -> store o = Some s;
}.

(** The payment a customer reported, waiting for a decision. *)
Record reported (rq : checkout_request) (pr : prepared) (now : Z) (o : order) : Prop := {
  reported_state : status o = PENDING_VERIFICATION /\ verification_status o = V_PENDING /\ is_paid o = true;
  reported_time : payment_time o = Some (cp_payment_time (pr_payment pr));
  reported_date : payment_date o = Some (localdate_tehran now);
  reported_bank_code : bank_tracking_code o = Some (pr_bank_code pr);
}.

Lemma checkout_order_bought rq pr pid tracking name k now :
  bought rq pr now (checkout_order rq pr pid tracking name k now) /\
  amounts_coherent (checkout_order rq pr pid tracking name k now) \/ pr_quantity pr * Plan.price (pr_plan_row pr) < 0.
Proof.
  destruct (Z.ltb_spec (pr_quantity pr * Plan.price (pr_plan_row pr)) 0); [by right|left].
  unfold checkout_order. split.
  - destruct (ck_client k), (ck_inbound k); by constructor.
  - unfold amounts_coherent. destruct (ck_client k), (ck_inbound k); cbn; lia.
Qed.

Lemma or_amount_subtotal p o n :
  original_amount o = Plan.price p * n -> quantity o = n -> 1 <= n ->
  or_amount (original_amount o) (subtotal_amount p o) = Plan.price p * n.
Proof.
  intros Ho Hq Hn. unfold or_amount, subtotal_amount. rewrite Ho, Hq.
  destruct (Z.eqb_spec (Plan.price p * n) 0), (Z.eqb_spec n 0); lia.
Qed.

Lemma prepare_store p now today o s : store o = Some s -> store (prepare_save p now today o).1 = Some s.
Proof.
  intros Hs. unfold prepare_save. cbv zeta. keep. rewrite assign_fst. rewrite assign_fst.
  case_bool_decide; cbn; by rewrite Hs.
Qed.

Lemma prepare_date p now today o t :
  payment_date o = Some t -> payment_date (prepare_save p now today o).1 = Some t.
Proof.
  intros Ht. unfold prepare_save. cbv zeta. rewrite assign_fst.
  set (s := assign _ [F_payment_submitted_at] _ _).
  assert (Hs : payment_date s.1 = Some t) by (subst s; by keep).
  rewrite Hs, andb_false_r. exact Hs.
Qed.

Lemma prepare_bought rq pr now now' today o :
  1 <= pr_quantity pr -> bought rq pr now o ->
  bought rq pr now (prepare_save (pr_plan_row pr) now' today o).1.
Proof.
  intros Hq [H1 H2 H3 H4 H5 H6 H7].
  destruct (prepare_save_amounts (pr_plan_row pr) now' today o) as (Hqu & _ & Ho & _).
  constructor; try (rewrite prepare_save_keeps by done; assumption).
  - rewrite Ho. by apply or_amount_subtotal.
  - intros s Hs. apply prepare_store. auto.
Qed.

Lemma prepare_reported rq pr now p now' today o :
  reported rq pr now o -> reported rq pr now (prepare_save p now' today o).1.
Proof.
  intros [(H1 & H2 & H3) H4 H5 H6]. constructor; try (rewrite prepare_save_keeps by done; assumption).
  - rewrite prepare_save_status, H1. rewrite !prepare_save_keeps by done. by rewrite bool_decide_false.
  - by apply prepare_date.
Qed.

Lemma discounted_bought rq pr now cd o :
  1 <= pr_quantity pr -> bought rq pr now o -> bought rq pr now (discounted (pr_plan_row pr) cd o).
Proof.
  intros Hq Hb. assert (Ho := or_amount_subtotal _ _ _ (bought_price _ _ _ _ Hb) (bought_quantity _ _ _ _ Hb) Hq).
  unfold discounted, apply_wholesale_discount. destruct Hb as [H1 H2 H3 H4 H5 H6 H7].
  destruct (cd_reserved cd) as [[k dc]|]; [|case_bool_decide; [destruct (_ =? 0)|]];
    constructor; try assumption; cbn -[subtotal_amount]; rewrite ?Ho; try done.
  unfold apply_discount. cbn -[subtotal_amount]. unfold or_amount at 1.
  destruct (Z.eqb_spec (Plan.price (pr_plan_row pr) * pr_quantity pr) 0) as [E|E]; [|done].
  unfold subtotal_amount. cbn. rewrite H2. destruct (Z.eqb_spec (pr_quantity pr) 0); lia.
Qed.

Lemma discounted_coherent p cd o :
  (forall k dc, cd_reserved cd = Some (k, dc) -> 0 <= cd_amount cd) ->
  priced p o -> amounts_coherent o -> amounts_coherent (discounted p cd o).
Proof.
  intros Hcd Hp Hc. unfold discounted. destruct (cd_reserved cd) as [[k dc]|].
  - apply balance_coherent, apply_discount_balance; [by eapply Hcd| |done]. unfold amounts_coherent in Hc. lia.
  - case_bool_decide; [|done]. by apply apply_wholesale_coherent.
Qed.

Lemma submit_terms rq pr now o o' :
  bought rq pr now o -> submit_manual_payment (cleaned_submission (rq_payment rq) (pr_payment pr)) now o = Ret o' ->
  amounts_coherent o ->
  bought rq pr now o' /\ amounts_coherent o' /\
  reported rq pr now (o' {{ bank_tracking_code := Some (pr_bank_code pr) }}).
Proof.
  intros Hb Hs Hc. apply submit_fields in Hs as (c & Hclean & Hsame & _ & _ & _ & Ht & Hd & _ & Hst & _).
  destruct Hsame as (A1 & A2 & A3 & A4 & A5 & A6 & A7 & A8 & A9). destruct Hb as [H1 H2 H3 H4 H5 H6 H7].
  split; [constructor; try congruence; intros s Hs; rewrite A7; auto|]. split; [unfold amounts_coherent in *; by rewrite A1, A2, A3|].
  assert (Hct : cp_payment_time c = cp_payment_time (pr_payment pr)).
  { unfold clean_manual_payment_submission in Hclean.
    do 6 apply result_bind_Ret in Hclean as (? & ? & Hclean).
    apply result_bind_Ret in Hclean as (t & Htime & Hclean). apply Ret_inj in Hclean, Htime.
    subst c. cbn [cp_payment_time]. subst t. cbn. rewrite Z.mul_comm. by apply Z.div_mul. }
  constructor; cbn; rewrite ?Ht, ?Hd, ?Hct; tauto.
Qed.

(** Saving an order that is not completed pays no rewards. *)
Lemma quiet_signal opk o now w :
  Referrals.is_successful o = false -> Referrals.process_referral_purchase opk o now w = (Ret [], w).
Proof. intros Hq. unfold Referrals.process_referral_purchase. by rewrite Hq, orb_true_r. Qed.

Lemma quiet_save pk o now w o' w' :
  status o = PENDING_PAYMENT \/ status o = PENDING_VERIFICATION ->
  save_order_full pk o now w = (Ret o', w') ->
  exists p, plans (db w) !! plan o = Some p /\
    o' = (prepare_save p now (localdate_tehran now) o).1 {{ updated_at := now }} /\
    w' = w {{ db -> orders ::= insert pk o' }}.
Proof.
  intros Hst. unfold save_order_full, get_plan. run_io.
  destruct (plans (db w) !! plan o) as [p|]; [|done]. rewrite quiet_signal.
  - intros [-> ->]%run_Ret_inj. by exists p.
  - pose proof (prepare_save_status p now (localdate_tehran now) o) as Hs.
    set (o1 := (prepare_save p now (localdate_tehran now) o).1) in *. clearbody o1.
    unfold Referrals.is_successful. cbn. rewrite Hs. by destruct Hst as [-> | ->].
Qed.

Definition orders_and_plans (w : World) := (orders (db w), plans (db w)).

Lemma record_client_quiet rq opk o k now : respects (keeps orders_and_plans) (record_inactive_client rq opk o k now).
Proof. unfold record_inactive_client, create_order_vpn_client, get_plan. walk; done. Qed.

Lemma checkout_order_status rq pr pid tracking name k now :
  status (checkout_order rq pr pid tracking name k now) = PENDING_PAYMENT.
Proof. unfold checkout_order. by destruct (ck_client k). Qed.

Lemma touched_bought rq pr now o t : bought rq pr now o -> bought rq pr now (o {{ updated_at := t }}).
Proof. intros []; by constructor. Qed.
Lemma touched_reported rq pr now o t : reported rq pr now o -> reported rq pr now (o {{ updated_at := t }}).
Proof. intros []; by constructor. Qed.
Lemma touched_balance o t : amounts_balance o -> amounts_balance (o {{ updated_at := t }}).
Proof. done. Qed.

Lemma saved_terms rq pr now o now' :
  1 <= pr_quantity pr -> 0 <= Plan.price (pr_plan_row pr) -> bought rq pr now o -> amounts_coherent o ->
  let o' := (prepare_save (pr_plan_row pr) now' (localdate_tehran now') o).1 {{ updated_at := now' }} in
  bought rq pr now o' /\ amounts_balance o'.
Proof.
  intros Hqty Hprice Hb Hc. split.
  - by apply touched_bought, prepare_bought.
  - apply touched_balance, prepare_save_balance; [|done]. split; [done|]. rewrite (bought_quantity _ _ _ _ Hb). lia.
Qed.

Lemma saved_reported rq pr now p o now' :
  reported rq pr now o ->
  reported rq pr now ((prepare_save p now' (localdate_tehran now') o).1 {{ updated_at := now' }}).
Proof. intros Hr. by apply touched_reported, prepare_reported. Qed.

(** The transaction, when it goes through. *)
Lemma record_checkout_Ret rq pr o k cd now w x w' :
  plans (db w) !! pr_plan pr = Some (pr_plan_row pr) -> 0 <= Plan.price (pr_plan_row pr) -> 1 <= pr_quantity pr ->
  (forall k dc, cd_reserved cd = Some (k, dc) -> 0 <= cd_amount cd) ->
  bought rq pr now o -> amounts_coherent o -> status o = PENDING_PAYMENT ->
  record_checkout rq pr o k cd now w = (Ret x, w') ->
  x.1.1 = next_pk (orders (db w)) /\ bought rq pr now x.1.2 /\ reported rq pr now x.1.2 /\
  amounts_balance x.1.2 /\ orders (db w') = <[x.1.1 := x.1.2]> (orders (db w)).
Proof.
  intros Hplan Hprice Hqty Hcd Hb Hc Hst. unfold record_checkout. rewrite atomic_Ret.
  set (ps := prepare_save (pr_plan_row pr) now (localdate_tehran now)).
  intros ([opk o1] & w1 & Hcreate & Hrun)%M_bind_Ret. cbn [fst snd] in Hrun.
  unfold create_order in Hcreate. apply M_bind_Ret in Hcreate as (d & w00 & [-> ->]%run_Ret_inj & Hcreate).
  apply M_bind_Ret in Hcreate as (o1' & w0 & Hsave & [Hpair ->]%run_Ret_inj).
  apply pair_equal_spec in Hpair as [-> ->]. apply quiet_save in Hsave as (p & Hp & -> & ->); [|auto].
  rewrite (bought_plan _ _ _ _ Hb), Hplan in Hp. injection Hp as <-.
  apply M_bind_Ret in Hrun as (c & w2 & Hclient & Hrun). apply record_client_quiet in Hclient.
  apply pair_equal_spec in Hclient as [Horders Hplans].
  change (plans (db w2) = plans (db w)) in Hplans. cbn [orders db] in Horders.
  apply M_bind_Ret in Hrun as (o2 & w3 & [Hsubmit ->]%liftR_Ret & Hrun).
  apply M_bind_Ret in Hrun as (u & w3 & [_ ->]%liftR_Ret & Hrun).
  apply M_bind_Ret in Hrun as (o3 & w3 & Hsave & Hrun).
  apply M_bind_Ret in Hrun as (u' & w4 & [_ ->]%run_Ret_inj & [-> ->]%run_Ret_inj).
  destruct (saved_terms rq pr now o now Hqty Hprice Hb Hc) as [Hb1 Hc1%balance_coherent].
  set (o1 := (prepare_save (pr_plan_row pr) now (localdate_tehran now) o).1 {{ updated_at := now }}) in *.
  apply (submit_terms rq pr now _ _ (discounted_bought _ _ _ cd _ Hqty Hb1)) in Hsubmit as (Hb2 & Hc2 & Hr2).
  2: { apply discounted_coherent; [done| |done]. split; [done|]. rewrite (bought_quantity _ _ _ _ Hb1). lia. }
  set (o2' := o2 {{ bank_tracking_code := Some (pr_bank_code pr) }}) in *.
  assert (Hb3 : bought rq pr now o2') by (destruct Hb2; by constructor).
  apply quiet_save in Hsave as (p & Hp & -> & ->); [|right; apply Hr2].
  rewrite (bought_plan _ _ _ _ Hb3), Hplans, Hplan in Hp. injection Hp as <-.
  destruct (saved_terms rq pr now o2' now Hqty Hprice Hb3 Hc2) as [Hb4 Hc4].
  cbn [fst snd]. split; [done|]. split; [done|]. split; [by apply saved_reported|].
  split; [done|].
  cbn. unfold mark_customer_reward_used. repeat case_match; cbn; rewrite Horders; apply insert_insert_eq.
Qed.

(** The order a successful checkout leaves in the tables it found. *)
Record placed (rq : checkout_request) (pr : prepared) (now : Z) (before : gmap Z order) (x : checkout_result)
    (after : gmap Z order) (opk : Z) (o : order) : Prop := {
  placed_answer : co_order x = Some (opk, o) /\ co_duplicate x = false;
  placed_new : before !! opk = None /\ after = <[opk := o]> before;
  placed_bought : bought rq pr now o;
  placed_reported : reported rq pr now o;
  placed_balance : amounts_balance o;
}.

Definition places (rq : checkout_request) (pr : prepared) (now : Z) (w0 : World) (x : checkout_result)
    (w' : World) : Prop :=
  co_success x = true -> exists opk o, placed rq pr now (orders (db w0)) x (orders (db w')) opk o.

Definition untouched (w0 w : World) : Prop := orders_and_plans w = orders_and_plans w0.

Section Success.
Context (rq : checkout_request) (pr : prepared) (now : Z) (w0 : World).
Context (Hplan : plans (db w0) !! pr_plan pr = Some (pr_plan_row pr)).
Context (Hprice : 0 <= Plan.price (pr_plan_row pr)) (Hqty : 1 <= pr_quantity pr).

Lemma hand_back_places cd t message P :
  triple P (hand_back cd t message) (places rq pr now w0) (fun _ => True).
Proof. unfold hand_back. intros w r w' _. run_io. rewrite release_eq. by intros [= <- <-] [=]. Qed.

Lemma record_or_release_places pid tracking name k cd :
  (forall k dc, cd_reserved cd = Some (k, dc) -> 0 <= cd_amount cd) ->
  triple (untouched w0) (record_or_release rq pr (checkout_order rq pr pid tracking name k now) k cd now)
    (places rq pr now w0) (fun _ => True).
Proof.
  intros Hcd. unfold record_or_release. apply (triple_catch _ _ _ _ _ (fun _ => True)).
  - intros w r w' Hw Hrun. destruct r as [x|e]; [|done].
    apply M_bind_Ret in Hrun as (y & w1 & Hrun & [-> ->]%run_Ret_inj). intros _.
    destruct (checkout_order_bought rq pr pid tracking name k now) as [[Hb Hc]|Hneg]; [|nia].
    apply pair_equal_spec in Hw as [Horders Hplans].
    apply record_checkout_Ret in Hrun as (Hk & Hb' & Hr & Ha & Ho);
      [|by rewrite Hplans|done|done|done|done|done|apply checkout_order_status].
    exists y.1.1, y.1.2. rewrite Horders in *. constructor; try done.
    + split; [by destruct y as [[]]|done].
    + split; [|done]. rewrite Hk. apply next_pk_fresh.
  - intros e. assert (Hre : triple (fun _ => True) (_ ← release_discount_usage (cd_reserved cd) now; raise e)
      (places rq pr now w0) (fun _ => True)).
    { intros w r w' _. run_io. rewrite release_eq. by intros [= <- <-]. }
    destruct e; first [apply hand_back_places|exact Hre].
Qed.

Lemma reserve_quiet plan p code customer q :
  map_Forall (fun _ dc => 0 <= DiscountCode.value dc) (discounts (db w0)) -> 0 <= Plan.price p * q ->
  triple (fun w => w = w0) (reserve_for_checkout plan p code customer q now)
    (fun cd w => (forall k dc, cd_reserved cd = Some (k, dc) -> 0 <= cd_amount cd) /\ untouched w0 w)
    (fun _ => True).
Proof.
  intros Hv Hsub w r w' -> Hrun. destruct r as [cd|e]; [|done]. revert Hrun.
  unfold reserve_for_checkout. destruct (negb _).
  - unfold mbind at 1, M_bind at 1.
    destruct (reserve_cases plan p (normalize_code code) customer q now w0) as
      [[_ ->]|[(_ & e & _ & ->)|(_ & pk & dc & Hc & ->)]]; [|done|]; intros [-> ->]%run_Ret_inj;
      (split; [intros k dc'; cbn|done]); [done|]. intros _.
    apply check_discount_Ret in Hc as [Hdc _]. apply calculate_discount_bounds; [|done]. by apply (Hv pk).
  - run_io. intros [-> ->]%run_Ret_inj. by split.
Qed.

Lemma prepare_panel_quiet d i l name X :
  triple (untouched w0) (prepare_panel d pr i l name now) (fun _ => untouched w0) X.
Proof.
  unfold prepare_panel. cbv zeta. case_bool_decide; [|by apply triple_ret].
  eapply triple_bind; [by apply triple_ask|]. intros cr. by apply triple_ret.
Qed.
End Success.

Lemma place_order_places rq pr pid tracking now w :
  plans (db w) !! pr_plan pr = Some (pr_plan_row pr) -> 0 <= Plan.price (pr_plan_row pr) -> 1 <= pr_quantity pr ->
  map_Forall (fun _ dc => 0 <= DiscountCode.value dc) (discounts (db w)) ->
  triple (fun w1 => w1 = w) (place_order rq pr pid tracking now) (places rq pr now w) (fun _ => True).
Proof.
  intros Hplan Hprice Hqty Hv. unfold place_order. cbv zeta.
  eapply triple_on_validation; [apply reserve_quiet; [done|nia]| | |done].
  - intros text. apply triple_ret. by intros w1 _ [=].
  - intros cd. eapply triple_bind; [apply triple_get_db|]. intros d. cbv beta.
    apply (triple_pre _ (fun w1 => (forall k dc, cd_reserved cd = Some (k, dc) -> 0 <= cd_amount cd) /\
      untouched w w1)); [tauto|]. apply triple_pure. intros Hcd.
    apply triple_declines; [apply checkout_inbounds_declines|intros; apply hand_back_places|].
    intros selected _. destruct (head selected) as [[i|]|].
    2, 3: destruct (is_set _); [by apply record_or_release_places|apply hand_back_places].
    apply triple_declines; [apply validate_inbound_declines|intros; apply hand_back_places|].
    intros i' _. eapply triple_bind; [apply prepare_panel_quiet|].
    intros k. by apply record_or_release_places.
Qed.

(** C3: A checkout that succeeds leaves exactly one new order, the one it
    answers with: for the plan, quantity, customer and operator asked for, at
    the plan's price, with discount and amount due in agreement, marked as paid
    and waiting for verification. *)
Theorem placed_order_waits_for_review rq pr pid tracking now w x w' :
  plans (db w) !! pr_plan pr = Some (pr_plan_row pr) -> 0 <= Plan.price (pr_plan_row pr) -> 1 <= pr_quantity pr ->
  map_Forall (fun _ dc => 0 <= DiscountCode.value dc) (discounts (db w)) ->
  place_order rq pr pid tracking now w = (Ret x, w') -> co_success x = true ->
  exists opk o, placed rq pr now (orders (db w)) x (orders (db w')) opk o.
Proof.
  intros Hplan Hprice Hqty Hv Hrun.
  exact (place_order_places rq pr pid tracking now w Hplan Hprice Hqty Hv w _ w' eq_refl Hrun).
Qed.

(** ** Submitting twice *)

Lemma placed_similar rq pr now now' before x after opk o :
  placed rq pr now before x after opk o -> is_set (rq_customer rq) = true ->
  now <= now' <= now + DUPLICATE_ORDER_WINDOW_SECONDS * 1000000 ->
  pr_bank_code pr <> "" \/ localdate_tehran now' = localdate_tehran now ->
  similar_order (lookup_of rq pr) now' o = true.
Proof.
  intros [_ _ [B1 B2 B3 B4 B5 B6 B7] [(R1 & _ & _) R2 R3 R4] _] Hc Hnow Hcode.
  unfold similar_order, lookup_of. cbn [dl_store dl_customer dl_plan dl_operator dl_quantity dl_payment_time dl_bank_code].
  rewrite B1, B2, B3, B4, B6, R1, R2, R3, R4, !bool_decide_true, orb_true_r by done. cbn [andb].
  destruct (rq_customer rq) as [c|]; [|done]. rewrite (bool_decide_true (Some c = Some c)) by done.
  destruct (Z.leb_spec (now' - DUPLICATE_ORDER_WINDOW_SECONDS * 1000000) now); [|lia].
  assert (Hs : match rq_store rq with Some s => bool_decide (store o = Some s) | None => true end = true).
  { destruct (rq_store rq) as [s|]; [|done]. apply bool_decide_true. auto. }
  rewrite Hs, !(bool_decide_true (_ = _)) by done. cbn [andb]. destruct Hcode as [Hb|Hd].
  - rewrite bool_decide_false by done. by apply bool_decide_true.
  - case_bool_decide; [|by apply bool_decide_true]. by rewrite Hd, !bool_decide_true.
Qed.

(** The order a repeated submission is pointed at: of those already there and
    similar to it, the newest. *)
Record pointed_at (l : duplicate_lookup) (now : Z) (before : gmap Z order) (opk : Z) : Prop := {
  pa_similar : exists o, before !! opk = Some o /\ similar_order l now o = true /\
    forall k row, before !! k = Some row -> similar_order l now row = true -> created_at row <= created_at o;
}.

Lemma find_similar_Some l now d opk o :
  orders d !! opk = Some o -> similar_order l now o = true ->
  exists opk' o', find_similar_pending_order l now d = Some (opk', o') /\ pointed_at l now (orders d) opk'.
Proof.
  intros Ho Hs. unfold find_similar_pending_order.
  set (key := fun ko : Z * order => [- created_at ko.2; - ko.1]).
  set (rows := rows_where (fun _ o => similar_order l now o) (orders d)).
  assert (Hel : forall k row, (k, row) ∈ order_by key rows <-> orders d !! k = Some row /\ similar_order l now row = true)
    by (intros; unfold rows; by rewrite elem_of_order_by, elem_of_rows_where).
  pose proof (order_by_sorted key rows) as Hsorted.
  assert (Hin : (opk, o) ∈ order_by key rows) by by apply Hel.
  destruct (order_by key rows) as [|[k v] rest] eqn:E; [by apply not_elem_of_nil in Hin|].
  exists k, v. split; [done|]. destruct (proj1 (Hel k v)) as [Hk Hv]; [constructor|].
  constructor. exists v. split; [done|]. split; [done|]. intros k' row Hk' Hrow.
  assert (Hle : key_le key (k, v) (k', row)) by (apply (StronglySorted_head _ _ _ _ Hsorted); by apply Hel).
  unfold key_le, key in Hle. simpl in Hle.
  destruct (Z.ltb_spec (- created_at v) (- created_at row)), (Z.eqb_spec (- created_at v) (- created_at row)); lia || done.
Qed.

Lemma prepare_checkout_orders rq q : respects (keeps orders_of) (prepare_checkout rq q).
Proof. unfold prepare_checkout, requested_plan, get_or_create_custom_volume_plan, get_plan. walk; done. Qed.

(** Pointing at an existing order adds none. *)
Lemma answer_duplicate_dom opk o source reason now w r w' :
  is_set (orders (db w) !! opk) = true -> answer_duplicate opk o source reason now w = (r, w') ->
  dom (orders (db w')) = dom (orders (db w)) /\
  match r with
  | Ret x => co_success x = true /\ co_duplicate x = true /\ fst <$> co_order x = Some opk
  | Raise _ => True
  end.
Proof.
  intros Hset. unfold answer_duplicate, mark_duplicate_attempt. unfold mbind at 1, M_bind at 1.
  destruct (save_order _ _ _ _ w) as [r1 w1] eqn:E.
  assert (Hd : dom (orders (db w1)) = dom (orders (db w))).
  { apply save_order_any in E as [[-> _]|(p & row & _ & Hrow & Hv & _)]; [done|].
    apply service_view_inv in Hv as (-> & _). cbn. apply dom_insert_lookup_L. by rewrite Hrow. }
  destruct r1 as [o'|e]; [run_io|]; intros [= <- <-]; done.
Qed.

(** C14: A submission repeated within ten minutes of one that succeeded is
    recognised.  Whatever has happened in between, as long as the order recorded
    then is still as it was, the repetition adds no order; and it either is
    declined, because the shop does not sell any more, or ends in an error, or
    reports a success marked as a duplicate that points at an order already
    there - the newest of those waiting that are similar to what is asked for.
    This is for a customer with an account, when the repetition is prepared to
    the same purchase and carries a bank code or falls on the same day in Tehran. *)
Theorem resubmission_adds_no_order others rq pr pid pid' tracking tracking' now now' w x w' opk o w1 q w2 r w3 :
  plans (db w) !! pr_plan pr = Some (pr_plan_row pr) -> 0 <= Plan.price (pr_plan_row pr) -> 1 <= pr_quantity pr ->
  map_Forall (fun _ dc => 0 <= DiscountCode.value dc) (discounts (db w)) ->
  place_order rq pr pid tracking now w = (Ret x, w') -> co_success x = true -> co_order x = Some (opk, o) ->
  orders (db w1) !! opk = Some o ->
  is_set (rq_customer rq) = true -> now <= now' <= now + DUPLICATE_ORDER_WINDOW_SECONDS * 1000000 ->
  pr_bank_code pr <> "" \/ localdate_tehran now' = localdate_tehran now ->
  validate_order_quantity (rq_quantity rq) = Ret q -> prepare_checkout rq q w1 = (Ret pr, w2) ->
  create_manual_payment_order others rq pid' tracking' now' w1 = (r, w3) ->
  dom (orders (db w3)) = dom (orders (db w1)) /\
  match r with
  | Ret y => y = declined SETUP_NOT_READY_MESSAGE \/
      co_success y = true /\ co_duplicate y = true /\
      exists opk', fst <$> co_order y = Some opk' /\ pointed_at (lookup_of rq pr) now' (orders (db w1)) opk'
  | Raise _ => True
  end.
Proof.
  intros Hplan Hprice Hqty Hv Hrun Hok Hx Hrow Hc Hnow Hcode Hq Hprep.
  destruct (place_order_places rq pr pid tracking now w Hplan Hprice Hqty Hv w _ w' eq_refl Hrun Hok)
    as (opk0 & o0 & Hplaced).
  assert (Hsim : similar_order (lookup_of rq pr) now' o = true).
  { destruct (Hplaced) as [[Ha _] _ _ _ _]. rewrite Hx in Ha. injection Ha as <- <-. by eapply placed_similar. }
  unfold create_manual_payment_order. unfold mbind at 1, M_bind at 1, get_db at 1.
  destruct (_ && _); [intros [= <- <-]; split; [done|by left]|].
  unfold mbind at 1, M_bind at 1, liftR. rewrite Hq. unfold on_validation. rewrite Hprep.
  apply prepare_checkout_orders in Hprep. unfold keeps, orders_of in Hprep.
  unfold mbind at 1, M_bind at 1, get_db at 1. rewrite <- Hprep in Hrow.
  destruct (find_similar_Some (lookup_of rq pr) now' (db w2) opk o Hrow Hsim) as (opk' & o' & -> & Hp).
  rewrite Hprep in Hp. intros [Hd Hr]%answer_duplicate_dom.
  - rewrite Hd, Hprep. split; [done|]. destruct r as [y|]; [|done]. right.
    destruct Hr as (? & ? & ?). repeat split; [done..|]. by exists opk'.
  - rewrite Hprep. by destruct Hp as [(? & -> & _)].
Qed.
End Checkout.

(** ** Examples *)

Definition sample_request (bank_code discount : string) : checkout_request := {|
  rq_store := Some 1; rq_customer := Some 101; rq_plan := Some 1; rq_operator := None;
  rq_custom_volume_gb := ""; rq_inbound := None; rq_payment := sample_submission;
  rq_bank_tracking_code := bank_code; rq_discount_code := discount; rq_quantity := QuantityInt 2;
  rq_metadata := ∅ |}.

Definition sample_prepared (bank_code : string) : prepared := {|
  pr_quantity := 2; pr_metadata := destination_metadata (Some sample_store) ∅;
  pr_payment := mk_cleaned "Sara" "1234" 545 None "paid 200000"; pr_bank_code := bank_code;
  pr_plan := 1; pr_plan_row := sample_plan; pr_operator := None; pr_canonical := None; pr_inbound := None |}.

(** The sample shop with a discount code, and the same with every server full. *)
Definition discount_shop : World := sample_shop {{ db -> discounts := {[ 7 := sample_code ]} }}.
Definition full_shop : World := discount_shop {{ db -> inbounds := {[ 10 := sample_inbound 1 3 50 ]} }}.

#[local] Existing Instance sample_env.
#[local] Existing Instance no_delivery.

Definition sample_place (w : World) : result checkout_result * World :=
  place_order (sample_request "B1" "ref20") (sample_prepared "B1") "p" "t" 7 w.

Lemma checkout_returns_its_lock_witness :
  let run := create_manual_payment_order (mret tt) (sample_request "" "") "p" "t" 7 sample_shop in
  locks run.2 = ∅ /\ length (map_to_list (orders (db run.2))) = 3%nat.
Proof.
  intros run. split; [|vm_compute; reflexivity].
  apply (checkout_returns_its_lock (mret tt) (sample_request "" "") "p" "t" 7 sample_shop run.1).
  - by intros w r w' [= <- <-].
  - apply surjective_pairing.
Defined.

Lemma full_shop_usage_ok : usage_ok (db full_shop).
Proof. apply map_Forall_singleton. split; [easy|]. intros m [= <-]. easy. Qed.

Lemma failed_checkout_leaves_no_trace_witness :
  let run := sample_place full_shop in
  run.1 = Ret (declined NO_SERVER_FOR_CHECKOUT_MESSAGE) /\ same_but_usage (db full_shop) (db run.2).
Proof.
  intros run. assert (Hr : run.1 = Ret (declined NO_SERVER_FOR_CHECKOUT_MESSAGE)) by (vm_compute; reflexivity).
  split; [exact Hr|].
  apply (failed_checkout_leaves_no_trace (sample_request "B1" "ref20") (sample_prepared "B1") "p" "t" 7
    full_shop run.1).
  - apply full_shop_usage_ok.
  - apply surjective_pairing.
  - rewrite Hr. reflexivity.
Defined.

Lemma discount_shop_values : map_Forall (fun _ dc => 0 <= DiscountCode.value dc) (discounts (db discount_shop)).
Proof. apply map_Forall_singleton. easy. Qed.

Definition succeeded (r : result checkout_result) : bool :=
  match r with Ret x => co_success x | Raise _ => false end.

Lemma placed_order_waits_for_review_witness :
  exists x opk o, placed (sample_request "B1" "ref20") (sample_prepared "B1") 7 (orders (db discount_shop)) x
                    (orders (db (sample_place discount_shop).2)) opk o /\ amount o = 160000.
Proof.
  assert (Hs : match (sample_place discount_shop).1 with
               | Ret x => co_success x && match co_order x with Some (_, o) => amount o =? 160000 | None => false end
               | Raise _ => false end = true) by (vm_compute; reflexivity).
  destruct (sample_place discount_shop) as [[x|e] w'] eqn:E; [|discriminate].
  cbn [fst snd] in *. apply andb_true_iff in Hs as [Hs Ha].
  destruct (placed_order_waits_for_review (sample_request "B1" "ref20") (sample_prepared "B1") "p" "t" 7
    discount_shop x w') as (opk & o & Hp); [reflexivity|apply Z.leb_le; reflexivity|apply Z.leb_le; reflexivity| |exact E|exact Hs|].
  { exact discount_shop_values. }
  exists x, opk, o. split; [exact Hp|]. destruct Hp as [[Ho _] _ _ _ _]. rewrite Ho in Ha. apply Z.eqb_eq, Ha.
Defined.

Definition sample_again (w : World) : result checkout_result * World :=
  create_manual_payment_order (mret tt) (sample_request "B1" "ref20") "p2" "t2" (7 + 60 * 1000000) w.

(** The same submission a minute later, after another customer's order came in. *)
Definition busy_meanwhile (w : World) : World :=
  w {{ db -> orders ::= insert 2000 (sample_order 10) }}.

Lemma resubmission_adds_no_order_witness :
  let w1 := busy_meanwhile (sample_place discount_shop).2 in
  succeeded (sample_again w1).1 = true /\ dom (orders (db (sample_again w1).2)) = dom (orders (db w1)).
Proof.
  assert (Hs : match (sample_place discount_shop).1 with
               | Ret x => co_success x = true /\ match co_order x with
                   | Some (k, o) => orders (db (busy_meanwhile (sample_place discount_shop).2)) !! k = Some o
                   | None => False end
               | Raise _ => False end) by (vm_compute; split; reflexivity).
  intros w1. assert (Hr : succeeded (sample_again w1).1 = true) by (vm_compute; reflexivity).
  assert (Hp : (prepare_checkout (sample_request "B1" "ref20") 2 w1).1 = Ret (sample_prepared "B1"))
    by (vm_compute; reflexivity).
  split; [exact Hr|]. clear Hr. subst w1. destruct (sample_place discount_shop) as [[x|e] w'] eqn:E; [|destruct Hs].
  cbn [fst snd] in *. destruct Hs as [Hs Ho]. destruct (co_order x) as [[k o]|] eqn:Ek; [|destruct Ho]. set (w1 := busy_meanwhile w') in *. clearbody w1.
  destruct (prepare_checkout (sample_request "B1" "ref20") 2 w1) as [y w2] eqn:Ep.
  cbn [fst] in Hp. subst y. destruct (sample_again w1) as [r w3] eqn:Er.
  refine (proj1 (resubmission_adds_no_order (mret tt) (sample_request "B1" "ref20") (sample_prepared "B1")
    "p" "p2" "t" "t2" 7 (7 + 60 * 1000000) discount_shop x w' k o w1 2 w2 r w3
    eq_refl _ _ discount_shop_values E Hs Ek Ho eq_refl _ _ eq_refl Ep Er)).
  - apply Z.leb_le; reflexivity.
  - apply Z.leb_le; reflexivity.
  - split; apply Z.leb_le; reflexivity.
  - left. clear. discriminate.
Defined.

(** The lock alone does not keep a submission single: the orders are looked
    at before the lock is taken and not again afterwards, so a request that
    looked just before the same submission was recorded, and took the lock just
    after it was released, records it a second time. *)
Theorem lookup_before_the_lock_races :
  let rq := sample_request "B1" "" in
  let twin := _ ← create_manual_payment_order (mret tt) rq "p1" "t1" 7; mret tt in
  let run := create_manual_payment_order twin rq "p2" "t2" 7 sample_shop in
  match run.1 with Ret x => co_success x && negb (co_duplicate x) | Raise _ => false end = true /\
  length (rows_where (fun _ o => bool_decide (bank_tracking_code o = Some "B1")) (orders (db run.2))) = 2%nat.
Proof. split; vm_compute; reflexivity. Qed.

(** A submission whose receipt image cannot be written. *)
Definition unstorable_receipt : prepared :=
  let image := mk_receipt_image "full-disk.png" 1000 "image/png" ".png" ImageOk in
  let pr := sample_prepared "B1" in
  mk_prepared (pr_quantity pr) (pr_metadata pr) (mk_cleaned "Sara" "1234" 545 (Some image) "paid 200000")
    (pr_bank_code pr) (pr_plan pr) (pr_plan_row pr) None None None.

(** What a failed checkout does leave behind is outside the database: when
    the receipt of an order on a legacy panel cannot be stored the order is not
    recorded, and yet the client made for it on the panel stays there, named by
    no row. *)
Theorem failed_checkout_leaves_panel_client :
  let run := place_order (sample_request "B1" "") unstorable_receipt "p" "t" 7 sample_shop in
  run.1 = Ret (declined RECEIPT_NOT_SAVED_MESSAGE) /\ calls run.2 = [CallPrecreate 10] /\
  clients (db run.2) = ∅ /\ dom (orders (db run.2)) = dom (orders (db sample_shop)).
Proof. split; [|split; [|split]]; vm_compute; reflexivity. Qed.
