(* ===== verification/ApprovalFrame.v ===== *)
(** The frame of approval: which parts of the world approving one order can
    reach.  The walk through every handler of [Provisioning] is done once, for
    any relation between worlds that a save of this order, the delivery
    engines and writes to the customer side - client rows, counters of
    inbounds, the reward programme, panel calls - respect. *)

From S2P Require Import Prelude Models World Numbers Discounts Referrals ReferralRewards OrderStore Inbounds Scope OrderActions Provisioning ProvisioningSpec ModernSpec.
Import Order.

(** The shop's own books: everything but clients, inbounds, plans, the reward
    programme and the calls made. *)
Definition back_office (w : World) :=
  (orders (db w), automations (db w), stores (db w), panels (db w), routes (db w), operators (db w),
   side_tables (db w), locks w).

(** A save that leaves the order's status alone, or accepts the order: the
    saves approval makes. *)
Definition accepts (o : order) (fs : list field) : Prop :=
  F_status ∈ fs -> status o = CONFIRMED \/ status o = COMPLETED.

Lemma accepts_others o fs : bool_decide (F_status ∈ fs) = false -> accepts o fs.
Proof. intros Hfs Hin. by apply bool_decide_eq_false in Hfs. Qed.

Lemma sync_keeps_status o c : status (sync_order_primary_client_fields o c).1 = status o.
Proof.
  destruct c as [c|]; [|done]. unfold sync_order_primary_client_fields, assign.
  repeat case_match; done.
Qed.

Lemma sync_accepts o c o' fs : F_status ∉ fs -> accepts o' ((sync_order_primary_client_fields o c).2 ++ fs).
Proof.
  intros Hfs [Hin|Hin]%elem_of_app; [|done]. exfalso. revert Hin.
  destruct c as [c|]; [|by intros ?%elem_of_nil]. unfold sync_order_primary_client_fields.
  unfold assign. repeat case_match; cbn; intros Hin; repeat (apply elem_of_cons in Hin as [?|Hin]; [done|]);
    by apply elem_of_nil in Hin.
Qed.

Lemma mark_keeps_status st e t key inc o :
  status (mark_provisioning_state st e t key inc o) = status o.
Proof. unfold mark_provisioning_state. repeat case_match; done. Qed.

Ltac solve_accepts := solve
  [ apply accepts_others; reflexivity
  | intros _; rewrite ?mark_keeps_status; left; reflexivity
  | intros _; rewrite ?mark_keeps_status; right; reflexivity ].

Section ApprovalFrame.
Context `{Env} `{Delivery}.
Context (R : relation World) `{!PreOrder R} `{!Undoable R} (opk : Z).
Context (Rview : forall w w', back_office w' = back_office w -> R w w').
Context (Rsave : forall o fs now, accepts o fs -> respects R (save_order opk o fs now)).
Context (Rexecute : forall config actor now, respects R (execute_plan_delivery opk config actor now)).
Context (Rfulfill : forall actor now, respects R (fulfill_order_with_recipe opk actor now)).
Context (Rassign : forall actor notify now, respects R (complete_inventory_assignment opk actor notify now)).

(** The customer side is out of [R]'s sight. *)
#[local] Hint Extern 1 (R _ _) => apply Rview; reflexivity : frames.
#[local] Hint Resolve Rsave Rexecute Rfulfill Rassign : frames.
#[local] Hint Extern 1 (accepts _ _) => solve_accepts : frames.

Lemma create_client_frame o i name u cr st now :
  respects R (create_order_vpn_client opk o i name u cr st now).
Proof. unfold create_order_vpn_client, get_plan. walk. Qed.
#[local] Hint Resolve create_client_frame : frames.

Lemma upsert_frame o p i cr now : respects R (upsert_local_client opk o p i cr now).
Proof. unfold upsert_local_client, save_client. walk. Qed.
#[local] Hint Resolve upsert_frame : frames.

Lemma finish_failed_modern_frame o error key strategy now :
  respects R (finish_failed_modern_order opk o error key strategy now).
Proof.
  unfold finish_failed_modern_order. cbv zeta. apply Rsave. intros _. rewrite mark_keeps_status.
  case_bool_decide as Hs; [by right|by left].
Qed.
#[local] Hint Resolve finish_failed_modern_frame : frames.

Lemma provision_single_frame i p ident : respects R (provision_single i p ident).
Proof. unfold provision_single, lookup_existing, create_enabled, require. walk. Qed.
#[local] Hint Resolve provision_single_frame : frames.

Lemma provision_bundle_frame l p ident : respects R (provision_bundle l p ident).
Proof. 
  unfold provision_bundle, lookup_existing, create_enabled, require.
  walk; apply collect_respects; try apply _; walk.
Qed.
#[local] Hint Resolve provision_bundle_frame : frames.

Lemma provision_clients_frame o p l i multi first now indices :
  respects R (provision_clients opk o p l i multi first now indices).
Proof. induction indices as [|x xs IH]; cbn; walk. Qed.
#[local] Hint Resolve provision_clients_frame : frames.

Lemma begin_modern_frame o l i multi all first strategy now :
  respects R (begin_modern_order opk o l i multi all first strategy now).
Proof. unfold begin_modern_order. walk. Qed.
#[local] Hint Resolve begin_modern_frame : frames.

Lemma finish_modern_frame o c direct key extra actor now :
  respects R (finish_modern_order opk o c direct key extra actor now).
Proof. unfold finish_modern_order. cbv zeta. apply Rsave. solve_accepts. Qed.
#[local] Hint Resolve finish_modern_frame : frames.

Lemma modern_xui_frame o l i actor strategy now :
  respects R (activate_modern_xui opk o l i actor strategy now).
Proof. unfold activate_modern_xui, get_plan. walk. Qed.
#[local] Hint Resolve modern_xui_frame : frames.

Lemma pasarguard_clients_frame o p l i multi first now indices :
  respects R (provision_pasarguard_clients opk o p l i multi first now indices).
Proof. induction indices as [|x xs IH]; cbn; unfold require; walk. Qed.
#[local] Hint Resolve pasarguard_clients_frame : frames.

Lemma pasarguard_frame o l i actor strategy now :
  respects R (activate_pasarguard opk o l i actor strategy now).
Proof. unfold activate_pasarguard, get_plan. walk. Qed.
#[local] Hint Resolve pasarguard_frame : frames.

Lemma modern_enabled_frame o actor strategy now :
  respects R (activate_modern_enabled_order opk o actor strategy now).
Proof. unfold activate_modern_enabled_order. walk. Qed.
#[local] Hint Resolve modern_enabled_frame : frames.

Lemma ensure_legacy_frame o now : respects R (ensure_legacy_order_client opk o now).
Proof. unfold ensure_legacy_order_client. walk. Qed.
Lemma find_or_create_frame p i ident name index :
  respects R (find_or_create_inactive opk p i ident name index).
Proof. unfold find_or_create_inactive, attempt. walk. Qed.
#[local] Hint Resolve ensure_legacy_frame find_or_create_frame : frames.

Lemma record_missing_frame o now : respects R (record_missing_failure opk o now).
Proof. unfold record_missing_failure. walk. Qed.
#[local] Hint Resolve record_missing_frame : frames.

Lemma create_missing_frame p i name now l o :
  respects R (create_missing_clients opk p i name now l o).
Proof. revert o. induction l as [|x xs IH]; intros o; cbn; walk. Qed.
#[local] Hint Resolve create_missing_frame : frames.

Lemma finish_missing_frame o now : respects R (finish_missing_clients opk o now).
Proof.
  unfold finish_missing_clients. apply respects_bind; [apply _|apply respects_get_db; apply _|]. intros d.
  rewrite (surjective_pairing (sync_order_primary_client_fields o _)).
  apply Rsave, sync_accepts. by rewrite list_elem_of_singleton.
Qed.
#[local] Hint Resolve finish_missing_frame : frames.

Lemma provision_missing_frame o now : respects R (provision_missing_panel_client opk o now).
Proof. unfold provision_missing_panel_client, provision_on_inbound, get_plan. walk. Qed.
#[local] Hint Resolve provision_missing_frame : frames.

Lemma enable_clients_frame p now l : respects R (enable_clients p now l).
Proof. induction l as [|[k c] l IH]; cbn; walk. Qed.
#[local] Hint Resolve enable_clients_frame : frames.

Lemma finish_legacy_frame o c actor now : respects R (finish_legacy_order opk o c actor now).
Proof.
  unfold finish_legacy_order. apply respects_bind; [apply _|apply respects_get_db; apply _|]. intros d. cbv zeta.
  rewrite (surjective_pairing (sync_order_primary_client_fields _ c)).
  apply Rsave. intros _. rewrite mark_keeps_status. right.
  destruct (_ ≫= _); exact (sync_keeps_status (mark_payment_verified actor now o) c).
Qed.
#[local] Hint Resolve finish_legacy_frame : frames.

Lemma legacy_frame o actor now : respects R (activate_legacy_order opk o actor now).
Proof. unfold activate_legacy_order, get_plan. walk. Qed.
#[local] Hint Resolve legacy_frame : frames.

Lemma renewal_frame o actor now : respects R (activate_renewal_order_locked opk o actor now).
Proof. unfold activate_renewal_order_locked, activate_renewal_order, get_plan, get_order. walk. Qed.
#[local] Hint Resolve renewal_frame : frames.
Lemma deliver_frame o actor now : respects R (deliver_order opk o actor now).
Proof. unfold deliver_order, activate_by_strategy, engine_result, get_order. walk. Qed.
#[local] Hint Resolve deliver_frame : frames.

Lemma approve_locked_frame source actor now : respects R (approve_locked opk source actor now).
Proof. unfold approve_locked, get_order. walk. Qed.

Lemma reward_frame now : respects R (create_referral_reward_for_order opk now).
Proof.
  unfold create_referral_reward_for_order, settle_referral, ensure_referral, mark_purchased, get_order.
  walk.
Qed.
#[local] Hint Resolve approve_locked_frame reward_frame : frames.

Lemma approve_and_provision_locked_frame actor source notify now :
  respects R (approve_and_provision_locked opk actor source notify now).
Proof. unfold approve_and_provision_locked, after_success, after_failure, attempt, get_order. walk. Qed.

Lemma claim_renewal_frame now : respects R (claim_renewal opk now).
Proof. unfold claim_renewal, get_order. walk. Qed.

Lemma record_metadata_frame key v now : respects R (record_order_metadata opk key v now).
Proof. unfold record_order_metadata, get_order. walk. Qed.
#[local] Hint Resolve approve_and_provision_locked_frame claim_renewal_frame record_metadata_frame : frames.

Lemma approve_frame instance actor source notify now :
  respects R (approve_and_provision_order opk instance actor source notify now).
Proof. unfold approve_and_provision_order. walk. Qed.

End ApprovalFrame.
