(* ===== verification/GrantSpec.v ===== *)
(** What activation never touches - what was bought, and by whom - and, with
    it, that a confirmed free grant is made once. *)

From S2P Require Import Prelude Models World Numbers Discounts Referrals ReferralRewards OrderStore Inbounds Scope OrderActions Provisioning ProvisioningSpec ModernSpec ApprovalFrame Submission Checkout.
Import Order.

(** ** Purchases *)

(** The columns of an order that say what it is. *)
Definition purchase_of (o : order) :=
  (public_id o, customer o, plan o, operator o, quantity o, order_tracking_code o, created_at o).

(** Every order there is, with those columns. *)
Definition purchases (w : World) := purchase_of <$> orders (db w).

#[global] Instance keeps_purchases_undoable : Undoable (keeps purchases).
Proof. by intros w w' Hw. Qed.

Lemma write_purchase fs now src row : purchase_of (write_fields fs now src row) = purchase_of row.
Proof. unfold write_fields. induction fs as [|[] fs IH]; [done|exact IH..]. Qed.

Section Purchases.
Context `{Env}.

Lemma keeps_purchases {A} (m : IO A) : respects (keeps orders_of) m -> respects (keeps purchases) m.
Proof. intros Hm w r w' E. specialize (Hm _ _ _ E). unfold keeps, purchases, orders_of in *. by rewrite Hm. Qed.

Lemma save_order_purchases pk o fs now : respects (keeps purchases) (save_order pk o fs now).
Proof.
  intros w r w' [[-> _]|(p & row & _ & Hrow & Hv & _)]%save_order_any; [done|].
  apply service_view_inv in Hv as (Hos & _). unfold keeps, purchases. rewrite Hos. cbn.
  rewrite fmap_insert. unfold saved_row. rewrite write_purchase. apply insert_id.
  by rewrite lookup_fmap, Hrow.
Qed.

Lemma signal_purchases opk o now : respects (keeps purchases) (process_referral_purchase opk o now).
Proof.
  apply keeps_purchases. intros w r w' E%process_referral_orders%service_view_inv. by destruct E.
Qed.
#[local] Hint Resolve save_order_purchases signal_purchases : frames.

End Purchases.

(** What approval relies on from the delivery engines here: they make clients,
    not orders. *)
Class TidyDelivery `{Delivery} : Prop := {
  execute_purchases opk config actor now :
    respects (keeps purchases) (execute_plan_delivery opk config actor now);
  fulfill_purchases opk actor now : respects (keeps purchases) (fulfill_order_with_recipe opk actor now);
  assignment_purchases opk actor notify now :
    respects (keeps purchases) (complete_inventory_assignment opk actor notify now);
}.

#[global] Instance no_delivery_tidy : @TidyDelivery no_delivery.
Proof. constructor; intros; apply respects_ret; apply _. Qed.

#[local] Hint Resolve save_order_purchases : frames.

Section Grants.
Context `{Env} `{TidyDelivery}.

Lemma approve_purchases opk instance actor source notify now :
  respects (keeps purchases) (approve_and_provision_order opk instance actor source notify now).
Proof.
  apply approve_frame; try apply _.
  - unfold back_office, keeps, purchases. intros w w' [=]. congruence.
  - intros. apply save_order_purchases.
  - apply execute_purchases.
  - apply fulfill_purchases.
  - apply assignment_purchases.
Qed.

(** Approval makes clients, never orders: whatever happens while an order
    is approved and delivered - retries, panel failures, exceptions, the reward
    it pays - there are afterwards the same orders, each for the same customer,
    plan, operator and quantity, under the same identifiers. *)
Theorem approval_never_changes_purchases opk instance actor source notify now w r w' :
  approve_and_provision_order opk instance actor source notify now w = (r, w') -> purchases w' = purchases w.
Proof. intros Hrun. exact (approve_purchases opk instance actor source notify now _ _ _ Hrun). Qed.

(** ** Confirmed grants *)

(** At most one order carries the identifier. *)
Definition unique_id (id : string) (w : World) : Prop :=
  forall k k' o o', orders (db w) !! k = Some o -> orders (db w) !! k' = Some o' ->
    public_id o = id -> public_id o' = id -> k = k'.

Lemma purchases_public_id w w' k o' :
  purchases w' = purchases w -> orders (db w') !! k = Some o' ->
  exists o, orders (db w) !! k = Some o /\ public_id o = public_id o'.
Proof.
  intros Hp Hk. assert (Hl : purchases w' !! k = Some (purchase_of o')) by (unfold purchases; by rewrite lookup_fmap, Hk).
  rewrite Hp in Hl. unfold purchases in Hl. rewrite lookup_fmap in Hl.
  destruct (orders (db w) !! k) as [o|]; [|done]. injection Hl as Hid _ _ _ _ _ _. by exists o.
Qed.

Lemma keeps_unique id w w' : purchases w' = purchases w -> unique_id id w -> unique_id id w'.
Proof.
  intros Hp Hu k k' o1 o2 Hk Hk' H1' H2'.
  apply (purchases_public_id w) in Hk as (o & Hk & E); [|done].
  apply (purchases_public_id w) in Hk' as (o' & Hk' & E'); [|done].
  eapply Hu; eauto; congruence.
Qed.

Lemma fulfil_grant_purchases rq opk o err now : respects (keeps purchases) (fulfil_grant rq opk o err now).
Proof.
  unfold fulfil_grant, activate_order, get_order. destruct err; walk; auto using approve_purchases.
Qed.

Lemma requested_before_None id d k o :
  requested_before (Some id) d = None -> orders d !! k = Some o -> public_id o <> id.
Proof.
  unfold requested_before, order_by_public_id. cbn. intros Hn Hk Hid.
  assert (Hp := proj1 (first_where_None _ _) Hn k o Hk). cbn in Hp.
  by apply bool_decide_eq_false in Hp.
Qed.

(** Recording an order adds at most one row. *)
Lemma create_order_ids o now w r w' :
  create_order o now w = (r, w') ->
  purchases w' = purchases w \/
  exists k o', orders (db w') = <[k := o']> (orders (db w)).
Proof.
  unfold create_order, save_order_full, get_plan. run_io.
  destruct (plans (db w) !! plan o) as [p|]; [|intros [= <- <-]; by left]. cbn [fst snd].
  set (o' := (prepare_save p now (localdate_tehran now) o).1 {{ updated_at := now }}). clearbody o'.
  destruct (process_referral_purchase _ _ _ _) as [x w1] eqn:E.
  apply process_referral_orders, service_view_inv in E as (Hos & _). cbn in Hos.
  intros Hrun. assert (w' = w1) as -> by (destruct x; congruence). right.
  by exists (next_pk (orders (db w))), o'.
Qed.

Lemma create_order_unique id o now w r w' :
  (forall k v, orders (db w) !! k = Some v -> public_id v <> id) ->
  create_order o now w = (r, w') -> unique_id id w'.
Proof.
  intros Hnew [Hp|(k & o' & Ho)]%create_order_ids.
  - eapply keeps_unique; [exact Hp|]. intros k k' v v' Hk _ Hid. by apply Hnew in Hk.
  - intros k1 k2 v1 v2. rewrite Ho. intros Hk1%lookup_insert_Some Hk2%lookup_insert_Some Hi1 Hi2.
    destruct Hk1 as [[? ?]|[_ Hk1]]; [|by apply Hnew in Hk1].
    destruct Hk2 as [[? ?]|[_ Hk2]]; [congruence|by apply Hnew in Hk2].
Qed.

(** What follows the preparations, whatever was prepared. *)
Lemma record_grant_unique (others : IO unit) rq id o err now w r w' :
  gr_request_id rq = Some id -> (forall u x u', others u = (x, u') -> unique_id id u -> unique_id id u') ->
  unique_id id w ->
  (_ ← others; d ← get_db; match requested_before (gr_request_id rq) d : option (Z * order) with
      | Some (opk, o) => mret (if same_grant rq o
          then mk_checkout false ALREADY_REQUESTED_MESSAGE (Some (opk, o)) None true
          else declined CONFIRMATION_INVALID_MESSAGE)
      | None => '(opk, o) ← create_order o now; fulfil_grant rq opk o err now end) w = (r, w') ->
  unique_id id w'.
Proof.
  intros -> Hothers Hu. unfold mbind at 1, M_bind at 1. destruct (others w) as [[u|e] w1] eqn:Eo.
  2: { intros [= <- <-]. eauto. }
  assert (Hu1 : unique_id id w1) by eauto. unfold mbind at 1, M_bind at 1, get_db at 1.
  destruct (requested_before (Some id) (db w1)) as [[opk o1]|] eqn:E1; [by intros [= <- <-]|].
  unfold mbind, M_bind. destruct (create_order o now w1) as [[[opk o1]|e] w3] eqn:E3.
  - intros E4%fulfil_grant_purchases. eapply keeps_unique; [exact E4|].
    eapply create_order_unique; [|exact E3]. intros k v Hk. by eapply requested_before_None.
  - intros [= <- <-]. eapply create_order_unique; [|exact E3]. intros k v Hk. by eapply requested_before_None.
Qed.

Lemma grant_unique others rq id pid tracking now w r w' :
  gr_request_id rq = Some id -> (forall u x u', others u = (x, u') -> unique_id id u -> unique_id id u') ->
  unique_id id w -> grant_free_subscription others rq pid tracking now w = (r, w') -> unique_id id w'.
Proof.
  intros Hid Hothers Hu. unfold grant_free_subscription.
  destruct (negb _); [by intros [= <- <-]|]. unfold mbind at 1, M_bind at 1, get_db at 1.
  destruct (requested_before _ (db w)) as [[opk o]|].
  { destruct (same_grant rq o); by intros [= <- <-]. }
  unfold get_plan. unfold mbind at 1, M_bind at 1, get_or_raise.
  destruct (plans (db w) !! gr_plan rq) as [p|]; [|by intros [= <- <-]].
  destruct (grant_preflight _ _ _) as [[[message|] c] i]; [|intros Hrun].
  2: { by eapply record_grant_unique in Hrun. }
  destruct (gr_request_id rq) as [id'|] eqn:E; [|done].
  rewrite <- E in Hid |- *. intros Hrun. by eapply record_grant_unique in Hrun.
Qed.

(** A confirmed grant is made at most once: with its request identifier,
    however requests interleave while it is being prepared, no second order
    ever carries that identifier; and a confirmation that arrives after the
    order exists changes nothing at all and calls no panel. *)
Theorem grant_confirmed_once others rq id pid tracking now w r w' :
  gr_request_id rq = Some id -> (forall u x u', others u = (x, u') -> unique_id id u -> unique_id id u') ->
  unique_id id w -> grant_free_subscription others rq pid tracking now w = (r, w') ->
  unique_id id w' /\ (is_set (requested_before (Some id) (db w)) = true -> w' = w).
Proof.
  intros Hid Hothers Hu Hrun. split; [by eapply grant_unique|].
  revert Hrun. unfold grant_free_subscription. rewrite Hid.
  destruct (negb _); [by intros [= <- <-]|]. unfold mbind at 1, M_bind at 1, get_db at 1.
  destruct (requested_before (Some id) (db w)) as [[opk o]|]; [|done].
  destruct (same_grant rq o); by intros [= <- <-].
Qed.
End Grants.

(** ** Examples *)

Definition sample_grant : grant_request := {|
  gr_store := Some 1; gr_customer := 100; gr_plan := 1; gr_inbound := Some 20; gr_granted_by := Some 1;
  gr_reason := "gift"; gr_metadata := ∅; gr_notify_customer := true; gr_revenue_included := false;
  gr_revenue_amount := None; gr_request_id := Some "req-1" |}.

#[local] Existing Instance sample_env.
#[local] Existing Instance no_delivery.

Lemma approval_never_changes_purchases_witness :
  let run := approve_and_provision_order 1001 (sample_order 20) None "dashboard" true 7 sample_shop in
  match run.1 with Ret r => ok r | Raise _ => false end = true /\ purchases run.2 = purchases sample_shop.
Proof.
  intros run. split; [vm_compute; reflexivity|].
  apply (approval_never_changes_purchases 1001 (sample_order 20) None "dashboard" true 7 sample_shop run.1 run.2).
  apply surjective_pairing.
Defined.

(** While one grant is being prepared, its twin is made. *)
Definition twin_grant : IO unit :=
  _ ← grant_free_subscription (mret tt) sample_grant "x" "t1" 7; mret tt.

Definition sample_grants : result checkout_result * World :=
  grant_free_subscription twin_grant sample_grant "y" "t2" 7 sample_shop.

Lemma twin_grant_unique u x u' : twin_grant u = (x, u') -> unique_id "req-1" u -> unique_id "req-1" u'.
Proof.
  unfold twin_grant. unfold mbind, M_bind.
  destruct (grant_free_subscription _ _ _ _ _ _) as [[y|e] u1] eqn:E; intros [= <- <-] Hu.
  all: apply (grant_unique (mret tt) sample_grant "req-1") in E; try done; by intros v z v' [= <- <-].
Qed.

Lemma sample_shop_unique : unique_id "req-1" sample_shop.
Proof.
  assert (Hnone : forall k v, orders (db sample_shop) !! k = Some v -> public_id v <> "req-1").
  { apply (map_Forall_insert_2 (fun _ v => public_id v <> "req-1")); [discriminate|].
    apply map_Forall_singleton. discriminate. }
  intros k k' v v' Hk _ Hid. by apply Hnone in Hk.
Qed.

Lemma grant_confirmed_once_witness :
  unique_id "req-1" sample_grants.2 /\
  length (rows_where (fun _ o => bool_decide (public_id o = "req-1")) (orders (db sample_grants.2))) = 1%nat.
Proof.
  split; [|vm_compute; reflexivity].
  apply (grant_confirmed_once twin_grant sample_grant "req-1" "y" "t2" 7 sample_shop sample_grants.1).
  - reflexivity.
  - exact twin_grant_unique.
  - exact sample_shop_unique.
  - apply surjective_pairing.
Defined.
