(* ===== verification/Inventory.v ===== *)
(** Ready-made configurations (src/store/config_inventory_services.py): what a
    pool can still give, how assets are chosen in each allocation mode, how
    they are assigned, and how a removed item gives its asset back
    (src/store/admin_cup_center/services.py).

    Rows are handed around with their primary keys; [updated_at] and the
    parsed parts of a link, which no decision reads, are left out. *)

From S2P Require Import Prelude Models World Numbers.

#[local] Open Scope string_scope.
#[local] Open Scope Z_scope.

Abbreviation pool_row := InventoryPool.config_inventory_pool.
Abbreviation asset_row := InventoryAsset.config_inventory_asset.
Abbreviation allocation_row := Allocation.config_allocation.
Abbreviation mode_t := InventoryPool.allocation_mode_t.

(** ** What an asset can still give *)

(** [_asset_allocation_limit]: [None] is no limit. *)
Definition asset_allocation_limit (a : asset_row) (p : pool_row) : option Z :=
  match or_opt (InventoryAsset.max_allocations a) (InventoryPool.max_allocations_per_asset p) with
  | Some n => Some n
  | None => if bool_decide (InventoryPool.allocation_mode p = InventoryPool.EXCLUSIVE) then Some 1 else None
  end.

(** [_not_expired_q] *)
Definition not_expired (now : Z) (a : asset_row) : bool :=
  match InventoryAsset.expires_at a with None => true | Some t => now <? t end.

Definition in_use_or_available (a : asset_row) : bool :=
  bool_decide (InventoryAsset.status a ∈ [InventoryAsset.AVAILABLE; InventoryAsset.ASSIGNED]).

Definition remaining_slots (limit : Z) (a : asset_row) : Z :=
  Z.max (limit - InventoryAsset.current_allocations a) 0.

(** [_shared_candidate_queryset] *)
Definition shared_candidates (d : DB) (ppk now : Z) : list (Z * asset_row) :=
  order_by (fun ka => [InventoryAsset.current_allocations ka.2; InventoryAsset.created_at ka.2; ka.1])
    (rows_where (fun _ a => bool_decide (InventoryAsset.pool a = ppk) && in_use_or_available a
                            && not_expired now a) (inventory_assets d)).

Definition exclusive_candidates (d : DB) (ppk now : Z) : list (Z * asset_row) :=
  order_by (fun ka => [InventoryAsset.created_at ka.2; ka.1])
    (rows_where (fun _ a => bool_decide (InventoryAsset.pool a = ppk)
                            && bool_decide (InventoryAsset.status a = InventoryAsset.AVAILABLE)
                            && not_expired now a) (inventory_assets d)).

(** ** Choosing assets

    Each selection is [None] only when the fuel given to its loops runs out. *)

Abbreviation picks := (list (Z * asset_row)).

Definition insufficient (p : pool_row) (requested available : Z) : result picks :=
  Raise (InsufficientInventoryStock (InventoryPool.title p) requested available).

Definition len {A} (l : list A) : Z := Z.of_nat (length l).

Definition select_exclusive_assets (d : DB) (ppk : Z) (p : pool_row) (quantity now : Z) : result picks :=
  let assets := take (Z.to_nat quantity) (exclusive_candidates d ppk now) in
  if len assets <? quantity then insufficient p quantity (len assets) else Ret assets.

(** [while len(selected) < quantity: selected.append(asset)] *)
Definition append_until (fuel : nat) (quantity : Z) (ka : Z * asset_row) (selected : picks) : option picks :=
  while fuel (fun l => len l <? quantity) (fun l => l ++ [ka])%list selected.

(** [while slots > 0 and len(selected) < quantity: ...] *)
Definition append_slots (fuel : nat) (quantity : Z) (ka : Z * asset_row) (slots : Z) (selected : picks)
    : option picks :=
  snd <$> while fuel (fun '(slots, l) => (0 <? slots) && (len l <? quantity))
            (fun '(slots, l) => (slots - 1, (l ++ [ka])%list)) (slots, selected).

(** The [for] loop of [_select_shared_limited_assets]. *)
Fixpoint limited_loop (fuel : nat) (p : pool_row) (quantity : Z) (candidates selected : picks)
    (available_slots : Z) : option (result picks) :=
  match candidates with
  | [] => Some (insufficient p quantity available_slots)
  | ka :: rest =>
      match asset_allocation_limit ka.2 p with
      | None => Ret <$> append_until fuel quantity ka selected
      | Some limit =>
          let slots := remaining_slots limit ka.2 in
          selected' ← append_slots fuel quantity ka slots selected;
          if quantity <=? len selected' then Some (Ret selected')
          else limited_loop fuel p quantity rest selected' (available_slots + slots)
      end
  end.

Definition select_shared_limited_assets (fuel : nat) (d : DB) (ppk : Z) (p : pool_row) (quantity now : Z)
    : option (result picks) :=
  limited_loop fuel p quantity (shared_candidates d ppk now) [] 0.

Definition select_shared_unlimited_assets (d : DB) (ppk : Z) (p : pool_row) (quantity now : Z) : result picks :=
  match head (shared_candidates d ppk now) with
  | None => insufficient p quantity 0
  | Some ka => Ret (replicate (Z.to_nat quantity) ka)
  end.

(** One turn of a loop per asset picked is always enough. *)
Definition selection_fuel (quantity : Z) : nat := Z.to_nat quantity.

Definition select_assets (fuel : nat) (d : DB) (ppk : Z) (p : pool_row) (mode : mode_t) (quantity now : Z)
    : option (result picks) :=
  match mode with
  | InventoryPool.EXCLUSIVE => Some (select_exclusive_assets d ppk p quantity now)
  | InventoryPool.SHARED_LIMITED => select_shared_limited_assets fuel d ppk p quantity now
  | InventoryPool.SHARED_UNLIMITED => Some (select_shared_unlimited_assets d ppk p quantity now)
  end.

(** ** Assigning them *)

(** [Counter(ids)], in order of first occurrence. *)
Fixpoint count_one (x : Z) (acc : list (Z * Z)) : list (Z * Z) :=
  match acc with
  | [] => [(x, 1)]
  | (y, n) :: acc' => if bool_decide (y = x) then (y, n + 1) :: acc' else (y, n) :: count_one x acc'
  end.

Definition counter (ids : list Z) : list (Z * Z) := fold_left (fun acc x => count_one x acc) ids [].

(** [.update(status=ASSIGNED, current_allocations=F("current_allocations") + count)] *)
Definition assigned (count : Z) (a : asset_row) : asset_row :=
  a {{ InventoryAsset.status := InventoryAsset.ASSIGNED;
       InventoryAsset.current_allocations ::= fun n => n + count }}.

Definition set_assets (f : gmap Z asset_row -> gmap Z asset_row) (d : DB) : DB :=
  d {{ inventory_assets ::= f }}.
Definition set_allocations (f : gmap Z allocation_row -> gmap Z allocation_row) (d : DB) : DB :=
  d {{ config_allocations ::= f }}.

Definition assign_counts (ids : list Z) : IO unit :=
  for_each (fun kn : Z * Z => put_db (set_assets (alter (assigned kn.2) kn.1))) (counter ids).

(** [(asset.normalized_hash or "")[-8:]] *)
Definition asset_hash_suffix (a : asset_row) : string :=
  let h := InventoryAsset.normalized_hash a in
  String.substring (String.length h - 8) 8 h.

Definition new_allocation (source : string) (ppk : Z) (mode : mode_t) (cup order : option Z) (now : Z)
    (ka : Z * asset_row) : allocation_row := {|
  Allocation.asset := ka.1; Allocation.cup := cup; Allocation.order := order;
  Allocation.allocation_mode := mode; Allocation.status := Allocation.ACTIVE;
  Allocation.allocated_at := now; Allocation.released_at := None;
  Allocation.allocation_metadata := <["source" := JStr source]> (<["pool_id" := JNum ppk]>
    (<["asset_hash_suffix" := JStr (asset_hash_suffix ka.2)]> ∅)) |}.

(** One [ConfigAllocation.objects.create] per asset picked. *)
Fixpoint create_allocations (row : Z * asset_row -> allocation_row) (assets : picks) : IO (list Z) :=
  match assets with
  | [] => mret []
  | ka :: rest =>
      d ← get_db;
      let pk := next_pk (config_allocations d) in
      _ ← put_db (set_allocations (insert pk (row ka)));
      pks ← create_allocations row rest;
      mret (pk :: pks)
  end.

Record allocation_result := mk_allocation_result {
  al_mode : mode_t;
  requested_quantity : Z;
  al_assets : list Z;
  al_allocations : list Z;
}.

Definition record_allocations (source : string) (ppk : Z) (mode : mode_t) (cup order : option Z)
    (assets : picks) (quantity now : Z) : IO allocation_result :=
  _ ← assign_counts assets.*1;
  pks ← create_allocations (new_allocation source ppk mode cup order now) assets;
  mret (mk_allocation_result mode quantity assets.*1 pks).

Definition mode_of_text (s : string) : option mode_t :=
  if bool_decide (s = "exclusive") then Some InventoryPool.EXCLUSIVE
  else if bool_decide (s = "shared_limited") then Some InventoryPool.SHARED_LIMITED
  else if bool_decide (s = "shared_unlimited") then Some InventoryPool.SHARED_UNLIMITED
  else None.

(** [allocation_mode or pool.allocation_mode]; the empty text is no request. *)
Definition requested_mode (p : pool_row) (allocation_mode : string) : result mode_t :=
  if bool_decide (allocation_mode = "") then Ret (InventoryPool.allocation_mode p)
  else match mode_of_text allocation_mode with
       | Some m => Ret m
       | None => Raise (ConfigInventoryError "Allocation mode is not valid." "invalid_allocation_mode")
       end.

Definition pool_inactive (p : pool_row) : exn :=
  ConfigInventoryError ("Pool '" +:+ InventoryPool.title p +:+ "' is not active.") "pool_inactive".

Definition out_of_fuel : exn := OtherError "fuel".

Definition get_pool (ppk : Z) : IO pool_row := get_or_raise (fun w => inventory_pools (db w) !! ppk).

(** [seen] is the caller's copy of the pool, read before its row is locked. *)
Definition allocate_assets_from_pool (ppk : Z) (seen : pool_row) (quantity : Z) (cup order : option Z)
    (allocation_mode : string) (now : Z) : IO allocation_result :=
  let quantity := Z.max quantity 0 in
  if quantity <? 1
  then raise (ConfigInventoryError "Allocation quantity must be at least 1." "invalid_quantity")
  else
    mode ← liftR (requested_mode seen allocation_mode);
    if negb (InventoryPool.is_active seen) then raise (pool_inactive seen)
    else atomic (
      p ← get_pool ppk;
      d ← get_db;
      assets ← liftR (default (Raise out_of_fuel)
                        (select_assets (selection_fuel quantity) d ppk p mode quantity now));
      record_allocations "inventory_pool" ppk mode cup order assets quantity now).

(** ** Assets chosen by hand *)

Inductive asset_id_input := IdNumber (z : Z) | IdText (s : string).

Fixpoint int_digits (after_digit : bool) (s : string) (acc : Z) : option Z :=
  match s with
  | EmptyString => if after_digit then Some acc else None
  | String c s' =>
      match digit_of c with
      | Some v => int_digits true s' (10 * acc + v)
      | None => if bool_decide (c = "_"%char) && after_digit then int_digits false s' acc else None
      end
  end.

(** [int(s)]; [None] is [ValueError]. *)
Definition int_of_text (s : string) : option Z :=
  let '(neg, r) := take_sign (strip s) in
  (fun v => if neg : bool then - v else v) <$> int_digits false r 0.

Definition invalid_asset_id : exn :=
  ConfigInventoryError "Selected inventory asset id is not valid." "invalid_asset_id".

Definition coerce_asset_id (v : asset_id_input) : result Z :=
  match match v with IdNumber z => Some z | IdText s => int_of_text s end with
  | Some k => if k <? 1 then Raise invalid_asset_id else Ret k
  | None => Raise invalid_asset_id
  end.

Fixpoint coerce_asset_ids (values : list asset_id_input) : result (list Z) :=
  match values with
  | [] => Ret []
  | v :: rest => k ← coerce_asset_id v; ks ← coerce_asset_ids rest; Ret (k :: ks)
  end.

Definition refuse (message code : string) : result unit := Raise (ConfigInventoryError message code).

Definition unusable_statuses : list InventoryAsset.status_t :=
  [InventoryAsset.DISABLED; InventoryAsset.EXPIRED; InventoryAsset.BURNED; InventoryAsset.RESERVED].

(** [_validate_selected_asset] *)
Definition validate_selected_asset (ppk : Z) (p : pool_row) (mode : mode_t) (requested_count now : Z)
    (a : asset_row) : result unit :=
  if negb (bool_decide (InventoryAsset.pool a = ppk))
  then refuse "Selected inventory asset does not belong to the selected pool." "asset_pool_mismatch"
  else if bool_decide (InventoryAsset.status a ∈ unusable_statuses)
  then refuse "Selected inventory asset is not usable." "asset_not_usable"
  else if negb (not_expired now a)
  then refuse "Selected inventory asset is expired." "asset_expired"
  else if bool_decide (mode = InventoryPool.EXCLUSIVE) then
    if negb (requested_count =? 1) || negb (bool_decide (InventoryAsset.status a = InventoryAsset.AVAILABLE))
       || (0 <? InventoryAsset.current_allocations a)
    then refuse "Selected exclusive inventory asset is already assigned." "exclusive_asset_assigned"
    else Ret tt
  else if negb (in_use_or_available a)
  then refuse "Selected inventory asset is not available for shared allocation." "asset_not_available"
  else if bool_decide (mode = InventoryPool.SHARED_LIMITED) then
    match asset_allocation_limit a p with
    | None => Ret tt
    | Some limit =>
        if remaining_slots limit a <? requested_count
        then refuse "Selected shared inventory asset has no remaining allocation capacity."
                    "asset_allocation_limit_reached"
        else Ret tt
    end
  else Ret tt.

(** The assets counted, with how often each was asked for. *)
Definition counted_assets (d : DB) (counts : list (Z * Z)) : list (asset_row * Z) :=
  omap (fun kn => (., kn.2) <$> inventory_assets d !! kn.1) counts.

Fixpoint validate_selected (ppk : Z) (p : pool_row) (mode : mode_t) (now : Z)
    (selected : list (asset_row * Z)) : result unit :=
  match selected with
  | [] => Ret tt
  | (a, n) :: rest =>
      _ ← validate_selected_asset ppk p mode n now a;
      validate_selected ppk p mode now rest
  end.

Definition all_found (d : DB) (counts : list (Z * Z)) : bool :=
  forallb (fun kn => is_set (inventory_assets d !! kn.1)) counts.

(** [[assets_by_id[asset_id] for asset_id in selected_ids]] *)
Definition rows_of (d : DB) (ids : list Z) : picks :=
  omap (fun k => (k,.) <$> inventory_assets d !! k) ids.

Definition allocate_selected_assets_from_pool (ppk : Z) (seen : pool_row) (asset_ids : list asset_id_input)
    (cup order : option Z) (allocation_mode : string) (now : Z) : IO allocation_result :=
  selected_ids ← liftR (coerce_asset_ids asset_ids);
  if bool_decide (selected_ids = [])
  then raise (ConfigInventoryError "Select at least one inventory asset." "asset_required")
  else
    mode ← liftR (requested_mode seen allocation_mode);
    if negb (InventoryPool.is_active seen) then raise (pool_inactive seen)
    else
      let selected_counts := counter selected_ids in
      atomic (
        p ← get_pool ppk;
        d ← get_db;
        if negb (all_found d selected_counts)
        then raise (ConfigInventoryError "Selected inventory asset was not found." "asset_not_found")
        else
          _ ← liftR (validate_selected ppk p mode now (counted_assets d selected_counts));
          let assets := rows_of d selected_ids in
          record_allocations "inventory_pool_manual_selection" ppk mode cup order assets (len assets) now).

(** ** Giving an asset back *)

(** [metadata.get(a) or metadata.get(b)] picks the first source that names one. *)
Fixpoint item_inventory_identity (sources : list metadata) : option json * option json :=
  match sources with
  | [] => (None, None)
  | m :: rest =>
      if md_truthy "allocation_id" m || md_truthy "asset_id" m
      then (m !! "allocation_id", m !! "asset_id")
      else item_inventory_identity rest
  end.

Definition json_truthy (j : option json) : bool := match j with Some v => truthy v | None => false end.

(** A primary key as Django reads it from a value of [filter]. *)
Definition key_of_json (j : option json) : result Z :=
  match j with
  | Some (JNum z) => Ret z
  | Some (JBool b) => Ret (Z.b2z b)
  | Some (JStr s) => match int_of_text s with Some z => Ret z | None => Raise (ValueError "expected a number") end
  | _ => Raise (OtherError "TypeError")
  end.

Definition released (now : Z) (al : allocation_row) : allocation_row :=
  al {{ Allocation.status := Allocation.RELEASED; Allocation.released_at := Some now }}.

Definition active_use (k : Z) (al : allocation_row) : bool :=
  bool_decide (Allocation.asset al = k) && bool_decide (Allocation.status al = Allocation.ACTIVE).

Definition given_back (still_used : bool) (a : asset_row) : asset_row :=
  a {{ InventoryAsset.current_allocations ::= fun n => Z.max (n - 1) 0;
       InventoryAsset.status := if negb still_used
          && bool_decide (InventoryAsset.status a = InventoryAsset.ASSIGNED)
        then InventoryAsset.AVAILABLE else InventoryAsset.status a }}.

Definition release_one (now : Z) (kal : Z * allocation_row) : IO unit :=
  _ ← put_db (set_allocations (alter (released now) kal.1));
  a ← get_or_raise (fun w => inventory_assets (db w) !! Allocation.asset kal.2);
  d ← get_db;
  let still_used := exists_where (fun _ => active_use (Allocation.asset kal.2)) (config_allocations d) in
  put_db (set_assets (insert (Allocation.asset kal.2) (given_back still_used a))).

(** [ConfigAllocation.Meta.ordering] *)
Definition allocations_where (test : Z -> allocation_row -> bool) (d : DB) : list (Z * allocation_row) :=
  order_by (fun kal => [- Allocation.allocated_at kal.2; - kal.1]) (rows_where test (config_allocations d)).

(** [cup] is the item's cup; the metadata are the item's and its link's. *)
Definition release_inventory_allocation_for_cup_item (cup : Z) (item_metadata : metadata)
    (link_metadata : option metadata) (now : Z) : IO Z :=
  let '(allocation_id, asset_id) :=
    item_inventory_identity (item_metadata :: match link_metadata with Some m => [m] | None => [] end) in
  if negb (json_truthy allocation_id) && negb (json_truthy asset_id) then mret 0
  else
    named ← liftR (if json_truthy allocation_id
                   then k ← key_of_json allocation_id; Ret (fun pk (_ : allocation_row) => bool_decide (pk = k))
                   else k ← key_of_json asset_id; Ret (fun _ al => bool_decide (Allocation.asset al = k)));
    atomic (
      d ← get_db;
      let rows := allocations_where (fun pk al => bool_decide (Allocation.cup al = Some cup)
        && bool_decide (Allocation.status al = Allocation.ACTIVE) && named pk al) d in
      _ ← for_each (release_one now) rows;
      mret (len rows)).

(** ** Delivery from a pool, picked up where it stopped

    The first part of [_execute_inventory_source]
    (src/store/plan_delivery_execution.py) and of
    [_create_inventory_links_for_rule] (src/store/cup_fulfillment_services.py):
    active allocations already made are counted, the rest is allocated and
    labelled. *)

Definition labelled (label : string) (number : Z) (al : allocation_row) : bool :=
  match Allocation.allocation_metadata al !! label with Some (JNum n) => n =? number | _ => false end.

Definition made_before (mine : allocation_row -> bool) (d : DB) : list Z :=
  (order_by (fun kal => [kal.1]) (rows_where (fun _ al => mine al
    && bool_decide (Allocation.status al = Allocation.ACTIVE)) (config_allocations d))).*1.

Definition add_label (label : string) (number : Z) (al : allocation_row) : allocation_row :=
  al {{ Allocation.allocation_metadata ::= <[label := JNum number]> }}.

Definition label_allocations (label : string) (number : Z) (pks : list Z) : IO unit :=
  for_each (fun k => put_db (set_allocations (alter (add_label label number) k))) pks.

Definition allocate_missing (mine : allocation_row -> bool) (label : string) (number : Z)
    (ppk : Z) (seen : pool_row) (quantity : Z) (cup order : option Z) (allocation_mode : string) (now : Z)
    : IO (list Z) :=
  d ← get_db;
  let before := made_before mine d in
  let missing := Z.max ((if quantity =? 0 then 1 else quantity) - len before) 0 in
  if missing =? 0 then mret before
  else
    r ← allocate_assets_from_pool ppk seen missing cup order allocation_mode now;
    _ ← label_allocations label number (al_allocations r);
    mret (before ++ al_allocations r)%list.

Definition source_allocations (order source ppk : Z) (seen : pool_row) (quantity now : Z) : IO (list Z) :=
  allocate_missing (fun al => bool_decide (Allocation.order al = Some order)
                              && labelled "plan_delivery_source_id" source al)
    "plan_delivery_source_id" source ppk seen quantity None (Some order) "" now.

Definition rule_allocations (order cup rule ppk : Z) (seen : pool_row) (quantity : Z)
    (allocation_mode : string) (now : Z) : IO (list Z) :=
  allocate_missing (fun al => bool_decide (Allocation.order al = Some order)
                              && bool_decide (Allocation.cup al = Some cup)
                              && labelled "recipe_rule_id" rule al)
    "recipe_rule_id" rule ppk seen quantity (Some cup) (Some order) allocation_mode now.

(** ** What a pool has left *)

(** [None] is no bound. *)
Definition limited_capacity (p : pool_row) (assets : list asset_row) : option Z :=
  fold_right (fun a acc =>
    n ← acc; limit ← asset_allocation_limit a p; Some (n + remaining_slots limit a)) (Some 0) assets.

Record stock_summary := mk_stock_summary {
  stock_is_active : bool;
  stock_allocation_mode : mode_t;
  asset_count : Z;
  status_counts : InventoryAsset.status_t -> Z;
  available_capacity : option Z;
  usable_asset_count : Z;
}.

Definition pool_assets (d : DB) (ppk : Z) : list asset_row :=
  (rows_where (fun _ a => bool_decide (InventoryAsset.pool a = ppk)) (inventory_assets d)).*2.

Definition available_of (p : pool_row) (usable : list asset_row) : option Z :=
  match InventoryPool.allocation_mode p with
  | InventoryPool.EXCLUSIVE =>
      Some (len (filter (fun a => InventoryAsset.status a = InventoryAsset.AVAILABLE) usable))
  | InventoryPool.SHARED_LIMITED => limited_capacity p usable
  | InventoryPool.SHARED_UNLIMITED => if bool_decide (usable = []) then Some 0 else None
  end.

Definition get_pool_stock_summary (d : DB) (ppk : Z) (p : pool_row) (now : Z) : stock_summary :=
  let assets := pool_assets d ppk in
  let usable := filter (fun a => Is_true (in_use_or_available a && not_expired now a)) assets in
  {| stock_is_active := InventoryPool.is_active p;
     stock_allocation_mode := InventoryPool.allocation_mode p;
     asset_count := len assets;
     status_counts := fun s => len (filter (fun a => InventoryAsset.status a = s) assets);
     available_capacity := available_of p usable;
     usable_asset_count := len usable |}.
