(* ===== verification/ClientManagement.v ===== *)
(** Managing single clients after delivery
    (src/store/vpn_client_management_services.py): deletion by their owner or
    by an administrator, switching on and off, new limits, a fresh link.  Each
    action on a panel is bracketed by an audit log: a pending entry before the
    call, completed after it. *)

From S2P Require Import Prelude Models World Numbers Compat OrderStore Inbounds Scope OrderActions Submission.
Import ActionLog.

#[local] Open Scope string_scope.
#[local] Open Scope Z_scope.

(** ** Text *)

(** [s[:n]] and [s[n:]], in characters. *)
Fixpoint take_chars (n : Z) (s : string) : string :=
  match s with
  | EmptyString => ""
  | String c s' =>
      let n := if starts_char c then n - 1 else n in
      if n <? 0 then "" else String c (take_chars n s')
  end.

Fixpoint drop_chars (n : Z) (s : string) : string :=
  match s with
  | EmptyString => ""
  | String c s' =>
      let n := if starts_char c then n - 1 else n in
      if n <? 0 then s else drop_chars n s'
  end.

(** [mask_identifier] of src/store/config_lookup.py *)
Definition mask_identifier (identifier : string) : string :=
  let value := strip identifier in
  if bool_decide (value = "") then ""
  else if text_length value <=? 8 then take_chars 2 value +:+ "***"
  else take_chars 6 value +:+ "..." +:+ drop_chars (text_length value - 4) value.

(** [str(exc)] *)
Definition exn_text (e : exn) : string :=
  match e with
  | ValidationError m | ValueError m | XUIError m | VPNClientManagementError m
  | VPNClientPermissionError m | VPNClientPendingRenewalError m | ConfigInventoryError m _
  | CupCenterError m | ExternalSubscriptionRefreshError m _ | PanelIntegrationError m _ | OtherError m => m
  | InsufficientInventoryStock pool requested available =>
      "Pool '" +:+ pool +:+ "' has insufficient stock: requested " +:+ pretty requested
      +:+ ", available " +:+ pretty available +:+ "."
  | OSError | DoesNotExist => ""
  end.

Definition NUMBER_INVALID : string := "عدد وارد شده معتبر نیست.".
Definition NUMBER_NOT_POSITIVE : string := "عدد وارد شده باید مثبت باشد.".

(** [gb_to_bytes]: exact for the amounts people type (up to 18 significant
    digits); a signalling comparison and the conversion of an infinity raise. *)
Definition gb_to_bytes (value : string) : result Z :=
  match parse_decimal value with
  | None => Raise (VPNClientManagementError NUMBER_INVALID)
  | Some NaN => Raise (OtherError "InvalidOperation")
  | Some Infinite =>
      if (take_sign (remove_char "_" (strip value))).1
      then Raise (VPNClientManagementError NUMBER_NOT_POSITIVE) else Raise (OtherError "OverflowError")
  | Some (Finite neg c e) =>
      if neg || (c =? 0) then Raise (VPNClientManagementError NUMBER_NOT_POSITIVE)
      else if 0 <=? e then Ret (c * 10 ^ e * 1024 ^ 3) else Ret (c * 1024 ^ 3 / 10 ^ (- e))
  end.

Definition safe_int (value : Z) : result Z :=
  if value <=? 0 then Raise (VPNClientManagementError NUMBER_NOT_POSITIVE) else Ret value.

(** Keys whose values never reach the audit log in the clear. *)
Definition sensitive_key (key : string) : bool :=
  existsb (fun part => is_set (String.index 0 part (lower key)))
    ["link"; "config"; "uuid"; "password"; "token"].

Section Management.
Context `{Env}.

(** [sanitize_audit_metadata] *)
Fixpoint sanitize_json (j : json) : json :=
  match j with
  | JStr s => JStr (mask_string_value s)
  | JList l => JList (map sanitize_json l)
  | JObj kv => JObj (map (fun '(k, v) =>
      (k, if sensitive_key k
          then JStr match v with JStr s => mask_string_value s | _ => "<redacted>" end
          else sanitize_json v)) kv)
  | JNull | JBool _ | JNum _ => j
  end.

Definition sanitize_audit_metadata (m : Prelude.metadata) : Prelude.metadata :=
  map_imap (fun k v => Some (if sensitive_key k
    then JStr match v with JStr s => mask_string_value s | _ => "<redacted>" end
    else sanitize_json v)) m.

(** ** The audit log *)

(** [_client_customer] *)
Definition client_customer (d : DB) (cpk : Z) (c : VPNClient.vpn_client) : option Z :=
  match VPNClient.order c ≫= fun k => orders d !! k ≫= Order.customer with
  | Some cust => Some cust
  | None =>
      head (order_by (fun kt => [- FreeTrial.created_at kt.2; - kt.1])
              (rows_where (fun _ t => bool_decide (FreeTrial.vpn_client t = Some cpk)
                                      && is_set (FreeTrial.customer t)) (free_trials d)))
        ≫= fun kt => FreeTrial.customer kt.2
  end.

(** [_client_identifier] *)
Definition client_identifier (c : VPNClient.vpn_client) : string :=
  strip (or_str (default "" (VPNClient.uuid c)) (or_str (VPNClient.xui_email c) (VPNClient.username c))).

(** [_create_action_log]: a pending entry. *)
Definition create_action_log (client customer : option Z) (actor : actor_type_t) (actor_id : string)
    (what : action_t) (i : keyed_inbound) (ident : string)
    (old_total new_total old_expiry new_expiry : option Z) (m : Prelude.metadata) : IO Z :=
  d ← get_db;
  let pk := next_pk (action_logs d) in
  let log := {|
    vpn_client := client; customer := customer; actor_type := actor; actor_telegram_id := actor_id;
    action := what; panel := Inbound.panel i.2; inbound := Some i.1;
    xui_identifier_masked := mask_identifier ident; old_total_bytes := old_total;
    new_total_bytes := new_total; old_expiry_time := old_expiry; new_expiry_time := new_expiry;
    status := PENDING; error_message := ""; log_metadata := sanitize_audit_metadata m;
    completed_at := None |} in
  _ ← put_db (fun d => d {{ action_logs ::= insert pk log }});
  mret pk.

(** [_complete_action_log]; [limits] are the columns passed as [**fields]. *)
Definition completed_log (st : status_t) (error : string) (m : Prelude.metadata)
    (limits : option limits_result) (now : Z) (l : action_log) : action_log :=
  let l := l {{ status := st; error_message := mask_string_value error; completed_at := Some now;
                log_metadata ::= fun old => sanitize_audit_metadata m ∪ old }} in
  match limits with
  | Some r => l {{ new_total_bytes := lr_new_total_bytes r; new_expiry_time := lr_new_expiry_time r }}
  | None => l
  end.

Definition complete_action_log (log : Z) (st : status_t) (error : string) (m : Prelude.metadata)
    (limits : option limits_result) (now : Z) : IO unit :=
  put_db (fun d => d {{ action_logs ::= alter (completed_log st error m limits now) log }}).

(** [try: r = m] with the exception kept as a value. *)
Definition tried {A} (m : IO A) : IO (result A) := fun w => let '(r, w') := m w in (Ret r, w').

(** The panel call between the two log entries: a failure is logged and
    raised as [message]. *)
Definition audited_call {A} (log : Z) (call_panel : IO A) (msg : string) (now : Z) : IO A :=
  r ← tried call_panel;
  match r with
  | Ret a => mret a
  | Raise e =>
      _ ← complete_action_log log FAILED (exn_text e) ∅ None now;
      raise (VPNClientManagementError msg)
  end.

(** ** Deleting the local row *)

(** [order] columns that still show the deleted client are emptied. *)
Definition forget_client (cpk : Z) (old_direct old_sub old_uuid : string) (o : Order.order)
    : Order.order * list Order.field :=
  let s := Order.assign (negb (bool_decide (old_uuid = "")) && bool_decide (Order.uuid o = Some old_uuid))
             [Order.F_uuid] (fun o => o {{ Order.uuid := Some "" }}) (o, []) in
  let s := Order.assign (negb (bool_decide (old_direct = "")) && bool_decide (Order.direct_link s.1 = Some old_direct))
             [Order.F_direct_link] (fun o => o {{ Order.direct_link := Some "" }}) s in
  let s := Order.assign (negb (bool_decide (old_sub = "")) && bool_decide (Order.sub_link s.1 = Some old_sub))
             [Order.F_sub_link] (fun o => o {{ Order.sub_link := Some "" }}) s in
  Order.assign (negb (bool_decide (s.2 = []))) [Order.F_metadata]
    (fun o => o {{ Order.metadata ::= fun m =>
       <["deleted_vpn_client_id" := JNum cpk]> (<["vpn_client_deleted" := JBool true]> m) }}) s.

Definition cleanup_vpn_client_related_records (cpk : Z) (c : VPNClient.vpn_client)
    (old_direct old_sub old_uuid : string) (now : Z) : IO unit :=
  _ ← put_db (fun d => d {{ free_trials ::= update_where
        (fun _ t => bool_decide (FreeTrial.vpn_client t = Some cpk)
                    && negb (bool_decide (FreeTrial.config_link t = "")))
        (fun t => t {{ FreeTrial.config_link := "" }}) }});
  match VPNClient.order c with
  | None => mret tt
  | Some opk =>
      o ← get_order opk;
      let '(o', changed) := forget_client cpk old_direct old_sub old_uuid o in
      if bool_decide (changed = []) then mret tt
      else _ ← save_order opk o' changed now; mret tt
  end.

(** The row after [mark_deleted] and the notes on it. *)
Definition deleted_client (customer : option Z) (admin reason : string) (remote : option Z)
    (r : remove_result) (now : Z) (c : VPNClient.vpn_client) : VPNClient.vpn_client :=
  let c := VPNClient.mark_deleted now customer admin reason remote c in
  let text o := JStr match o with Some t => isoformat t | None => "" end in
  c {{ VPNClient.xui_raw ::= fun raw =>
    <["delete_result" := JObj [("stats_deleted", JBool (rm_stats_deleted r));
                               ("stats_remaining", JBool (rm_stats_remaining r));
                               ("matched_field", JStr (rm_matched_field r))]]>
    (<["remote_deleted_at" := text (VPNClient.remote_deleted_at c)]>
    (<["deleted_at" := text (VPNClient.deleted_at c)]>
    (<["deleted" := JBool true]> raw))) }}.

Definition mark_local_vpn_client_deleted (cpk : Z) (customer : option Z) (admin reason : string)
    (remote : option Z) (r : remove_result) (now : Z) : IO unit := atomic (
  c ← get_client cpk;
  _ ← put_db (set_client cpk (deleted_client customer admin reason remote r now c));
  cleanup_vpn_client_related_records cpk c (default "" (VPNClient.direct_link c))
    (default "" (VPNClient.sub_link c)) (default "" (VPNClient.uuid c)) now).

(** ** Deletion by the owner *)

Definition PENDING_RENEWAL_STATUSES : list Order.status_t :=
  [Order.PENDING_PAYMENT; Order.PENDING_VERIFICATION; Order.CONFIRMED].

Definition json_is_num (n : Z) (j : option json) : bool :=
  match j with Some (JNum z) => z =? n | _ => false end.

(** [_pending_renewal_for_client] finds an order. *)
Definition pending_renewal_for_client (d : DB) (cust cpk : Z) : bool :=
  exists_where (fun _ o => bool_decide (Order.customer o = Some cust)
                           && json_is_num cpk (Order.metadata o !! "renewal_client_pk")
                           && bool_decide (Order.status o ∈ PENDING_RENEWAL_STATUSES)) (orders d).

Definition require_user_can_manage (d : DB) (cust cpk : Z) (c : VPNClient.vpn_client) : result unit :=
  if negb (bool_decide (client_customer d cpk c = Some cust))
  then Raise (VPNClientPermissionError "شما اجازه مدیریت این کانفیگ را ندارید.")
  else if VPNClient.is_deleted c
  then Raise (VPNClientManagementError "این کانفیگ قبلا حذف شده است.")
  else if pending_renewal_for_client d cust cpk
  then Raise (VPNClientPendingRenewalError
                "برای این کانفیگ یک تمدید در انتظار پرداخت یا تایید وجود دارد.")
  else Ret tt.

Definition removal_metadata (r : remove_result) : Prelude.metadata :=
  <["remote_deleted" := JBool true]>
  (<["stats_deleted" := JBool (rm_stats_deleted r)]>
  (<["stats_remaining" := JBool (rm_stats_remaining r)]> ∅)).

(** The local half of a deletion: a failure is logged and raised again. *)
Definition audited_local_delete (log cpk : Z) (local : IO unit) (now : Z) : IO unit :=
  r ← tried local;
  match r with
  | Ret _ => mret tt
  | Raise e =>
      _ ← complete_action_log log FAILED (exn_text e)
            (<["remote_deleted" := JBool true]> (<["local_sync_failed" := JBool true]> ∅)) None now;
      raise e
  end.

Definition delete_vpn_client_for_user (cust cpk : Z) (c : VPNClient.vpn_client) (reason actor_id : string)
    (now : Z) : IO Z :=
  d ← get_db;
  _ ← liftR (require_user_can_manage d cust cpk c);
  match VPNClient.inbound c ≫= keyed d with
  | None => raise (VPNClientManagementError "این کانفیگ به پنل معتبر وصل نیست.")
  | Some i =>
      if negb (is_set (Inbound.panel i.2))
      then raise (VPNClientManagementError "این کانفیگ به پنل معتبر وصل نیست.")
      else
        let ident := client_identifier c in
        if bool_decide (ident = "")
        then raise (VPNClientManagementError "شناسه قابل حذف برای این کانفیگ پیدا نشد.")
        else
          log ← create_action_log (Some cpk) (Some cust) USER actor_id USER_DELETE i ident
                  (Some (VPNClient.traffic_limit_bytes c)) None (VPNClient.expires_at c) None
                  (<["source" := JStr "bot_user_delete"]> (<["vpn_client_id" := JNum cpk]> ∅));
          r ← audited_call log (askR (CallRemove i.1 ident) (fun h => delete_client_from_inbound h i.1 ident))
                "حذف کانفیگ انجام نشد." now;
          _ ← audited_local_delete log cpk
                (mark_local_vpn_client_deleted cpk (Some cust) ""
                   (or_str reason "Deleted by user from bot") (Some now) r now) now;
          _ ← complete_action_log log SUCCESS "" (removal_metadata r) None now;
          mret log
  end.
End Management.

(** ** Lookups by an administrator *)

(** [str(value or "").strip()] *)
Definition json_value `{Env} (o : option json) : string :=
  match o with
  | Some j => if truthy j then strip (json_text j) else ""
  | None => ""
  end.

Inductive match_status := MATCHED | NOT_FOUND | MULTIPLE.

Definition match_label (m : match_status) : string :=
  match m with MATCHED => "matched" | NOT_FOUND => "not_found" | MULTIPLE => "multiple" end.

Definition match_count (m : match_status) : Z :=
  match m with MATCHED => 1 | NOT_FOUND => 0 | MULTIPLE => 2 end.

Section Lookup.
Context `{Env}.

Definition matching_inbounds (d : DB) (ppk : Z) (l : lookup_result) : list keyed_inbound :=
  let node := strip (or_str (node_id l) (lookup_xui_node_id l)) in
  order_by (fun i => [i.1]) (rows_where (fun _ i =>
    bool_decide (Inbound.panel i = Some ppk)
    && bool_decide (Some (Inbound.inbound_id i) = lookup_inbound_id l)
    && (bool_decide (node = "") || bool_decide (Inbound.xui_node_id i = node))) (inbounds d)).

(** [_lookup_panel_inbound]: the panel is that of the inbound. *)
Definition lookup_panel_inbound (d : DB) (l : lookup_result) : result (keyed_inbound * string) :=
  match panel_id l ≫= fun ppk => panels d !! ppk ≫= fun p => if Panel.is_active p then Some ppk else None with
  | None => Raise (VPNClientManagementError "پنل این کانفیگ در دسترس نیست.")
  | Some ppk =>
      match matching_inbounds d ppk l with
      | [] => Raise (VPNClientManagementError "Inbound این کانفیگ پیدا نشد.")
      | [i] =>
          let ident := strip (identifier l) in
          if bool_decide (ident = "") then Raise (VPNClientManagementError "شناسه کانفیگ پیدا نشد.")
          else Ret (i, ident)
      | _ => Raise (VPNClientManagementError "Inbound این کانفیگ بدون node scope دقیق مبهم است.")
      end
  end.

(** [_candidate_values], as a list. *)
Definition candidate_values (ident : string) (l : lookup_result) : list string :=
  let of_source (m : Prelude.metadata) := map (fun key => json_value (m !! key))
    ["id"; "email"; "password"; "subId"; "sub_id"; "remark"; "name"] in
  filter (fun v => v <> "")
    (strip ident :: strip (lookup_email l) :: strip (remark l)
     :: of_source (lookup_client l) ++ of_source (client_stats l)).

(** [find_local_vpn_client_for_lookup]; [vpn_client_id] is falsy when zero. *)
Definition find_local_vpn_client_for_lookup (d : DB) (i : keyed_inbound) (ident : string) (l : lookup_result)
    (client_id : option Z) : option (Z * VPNClient.vpn_client) * match_status :=
  let live (c : VPNClient.vpn_client) :=
    bool_decide (VPNClient.inbound c = Some i.1) && negb (VPNClient.is_deleted c) in
  match client_id with
  | Some (Zpos _ as cpk) | Some (Zneg _ as cpk) =>
      match clients d !! cpk with
      | Some c => if live c then (Some (cpk, c), MATCHED) else (None, NOT_FOUND)
      | None => (None, NOT_FOUND)
      end
  | _ =>
      let values := candidate_values ident l in
      match rows_where (fun _ c => live c && existsb (fun v =>
              match VPNClient.uuid c with Some u => iexact v u | None => false end
              || iexact v (VPNClient.xui_email c) || iexact v (VPNClient.username c)
              || iexact v (VPNClient.sub_id c)) values) (clients d) with
      | [] => (None, NOT_FOUND)
      | [kc] => (Some kc, MATCHED)
      | _ => (None, MULTIPLE)
      end
  end.

Definition match_owner (d : DB) (local : option (Z * VPNClient.vpn_client)) : option Z :=
  local ≫= fun kc => client_customer d kc.1 kc.2.

(** ** Deletion by an administrator *)

Definition delete_vpn_client_by_admin_lookup (admin : string) (l : lookup_result) (reason : string) (now : Z)
    : IO Z :=
  d ← get_db;
  '(i, ident) ← liftR (lookup_panel_inbound d l);
  let '(local, found) := find_local_vpn_client_for_lookup d i ident l (vpn_client_id l) in
  log ← create_action_log (fst <$> local) (match_owner d local) ADMIN admin ADMIN_DELETE i ident
          (total_bytes l) None (expiry_time l) None
          (<["source" := JStr "admin_lookup_delete"]>
          (<["local_match_status" := JStr (match_label found)]>
          (<["local_match_count" := JNum (match_count found)]> ∅)));
  r ← audited_call log (askR (CallRemove i.1 ident) (fun h => delete_client_from_inbound h i.1 ident))
        "حذف کانفیگ از پنل انجام نشد." now;
  _ ← match local with
      | Some (cpk, _) =>
          audited_local_delete log cpk
            (mark_local_vpn_client_deleted cpk None admin (or_str reason "Deleted by admin lookup")
               (Some now) r now) now
      | None => mret tt
      end;
  _ ← complete_action_log log SUCCESS ""
        (<["local_updated" := JBool (is_set local)]>
        (<["local_match_status" := JStr (match_label found)]> (removal_metadata r))) None now;
  mret log.

(** ** Switching a client on or off *)

Definition or_zero (a b : option Z) : option Z := match a with Some n => if n =? 0 then b else a | None => b end.

(** The limits the panel confirmed, as both synchronisations write them. *)
Definition with_remote_limits (r : limits_result) (now : Z) (c : VPNClient.vpn_client) : VPNClient.vpn_client :=
  c {{ VPNClient.traffic_limit_bytes :=
         default 0 (or_zero (lr_new_total_bytes r) (Some (VPNClient.traffic_limit_bytes c)));
       VPNClient.expires_at := or_opt (lr_new_expiry_time r) (VPNClient.expires_at c);
       VPNClient.last_synced_at := Some now;
       VPNClient.xui_raw := default (VPNClient.xui_raw c) (lr_raw r) }}.

Definition synced_enabled (enabled : bool) (r : limits_result) (now : Z) (c : VPNClient.vpn_client)
    : VPNClient.vpn_client :=
  let c := with_remote_limits r now c in
  if enabled then c {{ VPNClient.status := VPNClient.ACTIVE; VPNClient.disabled_at := None }}
  else c {{ VPNClient.status := VPNClient.INACTIVE;
            VPNClient.disabled_at := or_opt (VPNClient.disabled_at c) (Some now) }}.

(** [_sync_local_enabled_state] *)
Definition sync_local_enabled_state (cpk : Z) (r : limits_result) (enabled : bool) (now : Z) : IO unit :=
  atomic (
    c ← get_client cpk;
    if VPNClient.is_deleted c then mret tt
    else put_db (set_client cpk (synced_enabled enabled r now c))).

Definition set_vpn_client_enabled_by_admin (admin : string) (l : lookup_result) (enabled : bool) (now : Z)
    : IO limits_result :=
  d ← get_db;
  '(i, ident) ← liftR (lookup_panel_inbound d l);
  let '(local, found) := find_local_vpn_client_for_lookup d i ident l (vpn_client_id l) in
  let mode := <["local_match_status" := JStr (match_label found)]> (<["enabled" := JBool enabled]> ∅) in
  log ← create_action_log (fst <$> local) (match_owner d local) ADMIN admin
          (if enabled then ADMIN_ENABLE else ADMIN_DISABLE) i ident
          (VPNClient.traffic_limit_bytes ∘ snd <$> local) None (local ≫= fun kc => VPNClient.expires_at kc.2) None
          (<["source" := JStr "admin_service_review"]> mode);
  r ← audited_call log (askR (CallSetLimits i.1 ident None None enabled)
        (fun h => update_client_traffic_and_expiry h i.1 ident None None enabled))
        "تغییر وضعیت سرویس روی پنل انجام نشد." now;
  _ ← match local with Some (cpk, _) => sync_local_enabled_state cpk r enabled now | None => mret tt end;
  _ ← complete_action_log log SUCCESS ""
        (<["local_updated" := JBool (is_set local)]>
        (<["local_match_status" := JStr (match_label found)]>
        (<["enabled" := JBool (default enabled (lr_enabled r))]> ∅))) (Some r) now;
  mret r.

(** ** New limits *)

Inductive update_mode := ADD | SET.
#[global] Instance update_mode_eq_dec : EqDecision update_mode.
Proof. solve_decision. Defined.

(** The new total in bytes, from what the administrator typed. *)
Definition requested_total (traffic_gb set_total_gb : option string) (mode : update_mode) (current : Z)
    : result (option Z) :=
  match set_total_gb, traffic_gb with
  | Some g, _ => b ← gb_to_bytes g; Ret (Some b)
  | None, Some g =>
      match mode with
      | SET => b ← gb_to_bytes g; Ret (Some b)
      | ADD =>
          if current =? 0
          then Raise (VPNClientManagementError "این کانفیگ حجم نامحدود دارد. ابتدا حجم کل را تنظیم کنید.")
          else b ← gb_to_bytes g; Ret (Some (current + b))
      end
  | None, None => Ret None
  end.

(** The new expiry: days count from the current one when it lies ahead. *)
Definition requested_expiry (expiry_days set_expiry_at current : option Z) (now : Z) : result (option Z) :=
  match set_expiry_at, expiry_days with
  | Some t, _ => Ret (Some t)
  | None, Some n =>
      days ← safe_int n;
      Ret (Some (match current with Some t => if now <? t then t else now | None => now end
                 + days * VPNClient.day))
  | None, None => Ret None
  end.

(** [sync_local_vpn_client_after_remote_update] *)
Definition synced_limits (r : limits_result) (now : Z) (c : VPNClient.vpn_client) : VPNClient.vpn_client :=
  let c := with_remote_limits r now c in
  match lr_enabled r with
  | Some true => c {{ VPNClient.status := VPNClient.ACTIVE; VPNClient.disabled_at := None }}
  | Some false => if bool_decide (VPNClient.status c = VPNClient.ACTIVE)
                  then c {{ VPNClient.status := VPNClient.INACTIVE }} else c
  | None => c
  end.

Definition sync_local_vpn_client_after_remote_update (cpk : Z) (r : limits_result) (now : Z) : IO unit :=
  atomic (
    c ← get_client cpk;
    if VPNClient.is_deleted c then mret tt
    else put_db (set_client cpk (synced_limits r now c))).

Definition limits_action (total expiry : option Z) : result action_t :=
  match total, expiry with
  | Some _, Some _ => Ret ADMIN_UPDATE_TRAFFIC_AND_EXPIRY
  | Some _, None => Ret ADMIN_UPDATE_TRAFFIC
  | None, Some _ => Ret ADMIN_UPDATE_EXPIRY
  | None, None => Raise (VPNClientManagementError "هیچ تغییری برای اعمال انتخاب نشده است.")
  end.

Definition update_vpn_client_limits_by_admin (admin : string) (l : lookup_result)
    (traffic_gb : option string) (expiry_days set_expiry_at : option Z) (set_total_gb : option string)
    (mode : update_mode) (now : Z) : IO limits_result :=
  d ← get_db;
  '(i, ident) ← liftR (lookup_panel_inbound d l);
  live ← askR (CallFind (default 0 (panel_id l)) ident)
           (fun h => find_client_by_identifier h (default 0 (panel_id l)) ident);
  match live with
  | None => raise (VPNClientManagementError "این کانفیگ روی پنل پیدا نشد.")
  | Some live =>
      let '(local, found) := find_local_vpn_client_for_lookup d i ident live (vpn_client_id l) in
      let current := default 0 (or_zero (total_bytes live) (total_traffic_bytes live)) in
      let current_expiry := or_opt (expiry_time live) (expiry_at live) in
      total ← liftR (requested_total traffic_gb set_total_gb mode current);
      expiry ← liftR (requested_expiry expiry_days set_expiry_at current_expiry now);
      what ← liftR (limits_action total expiry);
      log ← create_action_log (fst <$> local) (match_owner d local) ADMIN admin what i ident
              (Some current) total current_expiry expiry
              (<["source" := JStr "admin_lookup_update"]>
              (<["local_match_status" := JStr (match_label found)]>
              (<["mode" := JStr (if bool_decide (mode = ADD) then "add" else "set")]> ∅)));
      r ← audited_call log (askR (CallSetLimits i.1 ident total expiry true)
            (fun h => update_client_traffic_and_expiry h i.1 ident total expiry true))
            "ویرایش کانفیگ روی پنل انجام نشد." now;
      _ ← match local with
          | Some (cpk, _) => sync_local_vpn_client_after_remote_update cpk r now
          | None => mret tt end;
      _ ← complete_action_log log SUCCESS ""
            (<["local_updated" := JBool (is_set local)]>
            (<["local_match_status" := JStr (match_label found)]> ∅)) (Some r) now;
      mret r
  end.

(** ** A fresh link *)

Definition refreshed_client (k : link_result) (c : VPNClient.vpn_client) : VPNClient.vpn_client :=
  c {{ VPNClient.direct_link := Some (or_str (lk_updated_config_link k) (lk_direct_link k));
       VPNClient.xui_email := or_str (lk_email k) (VPNClient.xui_email c) }}.

Definition refresh_vpn_client_link_by_admin (admin : string) (l : lookup_result) (now : Z) : IO link_result :=
  d ← get_db;
  '(i, ident) ← liftR (lookup_panel_inbound d l);
  let '(local, found) := find_local_vpn_client_for_lookup d i ident l (vpn_client_id l) in
  log ← create_action_log (fst <$> local) (match_owner d local) ADMIN admin ADMIN_REFRESH_LINK i ident
          None None None None
          (<["source" := JStr "admin_lookup_refresh_link"]>
          (<["local_match_status" := JStr (match_label found)]> ∅));
  k ← audited_call log (askR (CallLink i.1 ident) (fun h => build_config_link_for_identifier h i.1 ident))
        "دریافت لینک به‌روز انجام نشد." now;
  _ ← match local with
      | Some (cpk, c) =>
          if bool_decide (or_str (lk_updated_config_link k) (lk_direct_link k) = "") then mret tt
          else put_db (set_client cpk (refreshed_client k c))
      | None => mret tt
      end;
  _ ← complete_action_log log SUCCESS ""
        (<["local_updated" := JBool (is_set local)]>
        (<["link_returned" := JBool (negb (bool_decide (lk_updated_config_link k = "")))]> ∅)) None now;
  mret k.
End Lookup.
