(* ===== verification/Cups.v ===== *)
(** Subscription cups (src/store/subscription_cups.py): the configuration links
    a shop hands out, their places in a cup, and what a customer's application
    downloads from the cup's address.

    Titles of cups, which nothing decides on, and [updated_at] are left out.
    Taking a URL apart is the business of urllib ([Env.split_url]). *)

From S2P Require Import Prelude Models World Numbers Submission ClientManagement Inventory.

#[local] Open Scope string_scope.
#[local] Open Scope Z_scope.

Abbreviation cup_row := SubscriptionCup.subscription_cup.
Abbreviation link_row := ConfigLink.config_link.
Abbreviation item_row := CupItem.cup_item.

(** ** Text *)

Definition lower_char (c : ascii) : ascii :=
  let n := code_of c in if (65 <=? n) && (n <=? 90) then ascii_of_nat (Z.to_nat (n + 32)) else c.

(** [str.lower()] *)
Fixpoint lower (s : string) : string :=
  match s with EmptyString => "" | String c s' => String (lower_char c) (lower s') end.

(** [s.startswith(p)]; what follows it. *)
Fixpoint after_prefix (p s : string) : option string :=
  match p, s with
  | EmptyString, _ => Some s
  | String a p', String b s' => if bool_decide (a = b) then after_prefix p' s' else None
  | String _ _, EmptyString => None
  end.

(** [s.split(sep, 1)]: the parts around the first [sep]. *)
Fixpoint split_once (sep s : string) : option (string * string) :=
  match after_prefix sep s with
  | Some rest => Some ("", rest)
  | None =>
      match s with
      | EmptyString => None
      | String c s' => (fun ab => (String c ab.1, ab.2)) <$> split_once sep s'
      end
  end.

(** [s.rsplit(c, 1)]: the parts around the last [c]. *)
Definition rsplit_once (c : ascii) (s : string) : option (string * string) :=
  (fun ab => (rev_string ab.2, rev_string ab.1)) <$> split_once (String c "") (rev_string s).

Definition contains (sep s : string) : bool := is_set (split_once sep s).

(** [s.split(sep, 1)[0]] *)
Definition before (sep s : string) : string := match split_once sep s with Some (a, _) => a | None => s end.

Fixpoint lstrip_chars (chars : list ascii) (s : string) : string :=
  match s with
  | EmptyString => ""
  | String c s' => if bool_decide (c ∈ chars) then lstrip_chars chars s' else s
  end.
Definition rstrip_chars (chars : list ascii) (s : string) : string :=
  rev_string (lstrip_chars chars (rev_string s)).

(** ** Recognising a link *)

Definition SUPPORTED_PROTOCOLS : list string :=
  ["vless"; "vmess"; "trojan"; "ss"; "hysteria2"; "wireguard"; "ssr"; "hy2"; "tuic"].
Definition UNKNOWN : string := "unknown".

Record parsed_config_link := mk_parsed_link {
  p_raw_link : string;
  p_normalized_hash : string;
  p_protocol : string;
  p_remark : string;
  p_host : string;
  p_port : option Z;
}.

(** [int(value)] of a JSON value, [None] for [TypeError] and [ValueError]. *)
Definition int_of_json (j : json) : option Z :=
  match j with
  | JNum n => Some n
  | JBool b => Some (Z.b2z b)
  | JStr s => int_of_text s
  | JNull | JList _ | JObj _ => None
  end.

(** [_safe_int] *)
Definition safe_int (j : json) : option Z :=
  n ← int_of_json j; if 0 <? n then Some n else None.

Section Links.
Context `{Env}.

(** [str(d.get(key) or "").strip()] *)
Definition text_of (key : string) (d : list (string * json)) : string :=
  match assoc key d with Some j => if truthy j then strip (json_text j) else "" | None => "" end.

(** [_parse_standard_url]: host, port and remark. *)
Definition parse_standard_url (raw : string) : string * option Z * string :=
  match split_url raw with
  | None => ("", None, "")
  | Some u => (u_hostname u, u_port u, u_fragment u)
  end.

(** [raw_link.split("://", 1)[1].split("#", 1)[0].strip()] *)
Definition link_body (raw : string) : string :=
  match split_once "://" raw with Some (_, rest) => strip (before "#" rest) | None => "" end.

Definition parse_shadowsocks (raw : string) : string * option Z * string :=
  let '(host, port, remark) := parse_standard_url raw in
  if negb (bool_decide (host = "")) then (host, port, remark)
  else match rsplit_once "@" (link_body raw) with
       | None => (host, port, remark)
       | Some (_, server) =>
           match rsplit_once ":" server with
           | None => (host, port, remark)
           | Some (h, p) => (rstrip_chars ["["; "]"]%char (lstrip_chars ["["; "]"]%char h), safe_int (JStr p), remark)
           end
       end.

(** [_decode_vmess_payload] *)
Definition decode_vmess_payload (raw : string) : list (string * json) :=
  let payload := link_body raw in if bool_decide (payload = "") then [] else vmess_data "ignore" payload.

Definition parse_endpoint (protocol raw : string) : string * option Z * string :=
  if bool_decide (protocol = "vmess") then
    let d := decode_vmess_payload raw in
    (text_of "add" d, assoc "port" d ≫= safe_int, text_of "ps" d)
  else if bool_decide (protocol = "ss") then parse_shadowsocks raw
  else if bool_decide (protocol ∈ SUPPORTED_PROTOCOLS) then parse_standard_url raw
  else ("", None, "").

Definition link_protocol (raw : string) : string :=
  match split_once "://" raw with
  | Some (scheme, _) =>
      let prefix := lower (strip scheme) in
      if bool_decide (prefix ∈ SUPPORTED_PROTOCOLS) then prefix else UNKNOWN
  | None => UNKNOWN
  end.

Definition parse_config_link (text : string) : parsed_config_link :=
  let raw := strip text in
  let protocol := link_protocol raw in
  let '(host, port, remark) := parse_endpoint protocol raw in
  {| p_raw_link := raw;
     p_normalized_hash := if bool_decide (raw = "") then "" else sha256 raw;
     p_protocol := protocol;
     p_remark := take_chars 255 remark; p_host := take_chars 255 host; p_port := port |}.

(** [apply_config_link_parse]; [feed] and [md] are [None] when the caller leaves
    the column alone. *)
Definition apply_config_link_parse (text : string) (st : ConfigLink.source_type_t)
    (panel inbound client : option Z) (feed : option (option Z)) (md : option metadata) (c : link_row)
    : link_row :=
  let p := parse_config_link text in
  let c := c {{ ConfigLink.raw_link := p_raw_link p;
                ConfigLink.normalized_link := p_raw_link p;
                ConfigLink.normalized_hash := p_normalized_hash p;
                ConfigLink.protocol := p_protocol p;
                ConfigLink.remark := p_remark p;
                ConfigLink.host := p_host p;
                ConfigLink.port := p_port p;
                ConfigLink.source_type := st;
                ConfigLink.source_panel := panel;
                ConfigLink.source_inbound := inbound;
                ConfigLink.vpn_client := client }} in
  let c := match feed with Some f => c {{ ConfigLink.external_feed := f }} | None => c end in
  let c := c {{ ConfigLink.is_active := true }} in
  match md with Some m => c {{ ConfigLink.link_metadata := m }} | None => c end.

(** [ConfigLink()] *)
Definition blank_link : link_row := {|
  ConfigLink.raw_link := ""; ConfigLink.normalized_link := ""; ConfigLink.normalized_hash := "";
  ConfigLink.protocol := UNKNOWN; ConfigLink.remark := ""; ConfigLink.host := ""; ConfigLink.port := None;
  ConfigLink.source_type := ConfigLink.UNKNOWN_SOURCE; ConfigLink.source_panel := None;
  ConfigLink.source_inbound := None; ConfigLink.vpn_client := None; ConfigLink.external_feed := None;
  ConfigLink.is_active := true; ConfigLink.link_metadata := ∅ |}.

Definition set_link (pk : Z) (c : link_row) (d : DB) : DB := d {{ config_links ::= insert pk c }}.

(** The row's key. *)
Definition create_config_link_from_raw (text : string) (st : ConfigLink.source_type_t)
    (panel inbound client feed : option Z) (md : metadata) : IO Z :=
  d ← get_db;
  let pk := next_pk (config_links d) in
  _ ← put_db (set_link pk (apply_config_link_parse text st panel inbound client (Some feed) (Some md) blank_link));
  mret pk.
End Links.

(** ** Places in a cup *)

Definition set_item (pk : Z) (i : item_row) (d : DB) : DB := d {{ cup_items ::= insert pk i }}.

(** [CupItem.objects.create] *)
Definition create_cup_item (cup link position : Z) (reason : string) (md : metadata) : IO Z :=
  d ← get_db;
  let pk := next_pk (cup_items d) in
  _ ← put_db (set_item pk (CupItem.mk_cup_item cup link position true reason md));
  mret pk.

(** [order_by("position", "pk")] *)
Definition items_where (test : Z -> item_row -> bool) (d : DB) : list (Z * item_row) :=
  order_by (fun ki => [CupItem.position ki.2; ki.1]) (rows_where test (cup_items d)).

Definition cup_items_of (cup : Z) (d : DB) : list (Z * item_row) :=
  items_where (fun _ i => bool_decide (CupItem.cup i = cup)) d.

(** [_next_position] *)
Definition next_position (cup : Z) (d : DB) : Z :=
  foldr Z.max 0 (map (fun ki => CupItem.position ki.2) (cup_items_of cup d)) + 1.

Definition link_active (d : DB) (i : item_row) : bool :=
  match config_links d !! CupItem.config_link i with Some c => ConfigLink.is_active c | None => false end.

(** [CupItem.objects.filter(cup=cup, is_active=True, config_link__is_active=True)] *)
Definition active_cup_items (cup : Z) (d : DB) : list (Z * item_row) :=
  items_where (fun _ i => bool_decide (CupItem.cup i = cup) && CupItem.is_active i && link_active d i) d.

(** The links of a query of items, in its order. *)
Definition raw_links_of (d : DB) (items : list (Z * item_row)) : list string :=
  omap (fun ki => ConfigLink.raw_link <$> config_links d !! CupItem.config_link ki.2) items.

(** ** What the address serves *)

Definition active_cup_links (cup : Z) (d : DB) : list string :=
  filter (fun s => s <> "") (map strip (raw_links_of d (active_cup_items cup d))).

Definition newline : string := String "010" "".

(** [sep.join(parts)] *)
Fixpoint join_lines (parts : list string) : string :=
  match parts with
  | [] => ""
  | [x] => x
  | x :: rest => x +:+ newline +:+ join_lines rest
  end.

Definition render_subscription_cup_raw (trailing_newline : bool) (cup : Z) (d : DB) : string :=
  let raw_text := join_lines (active_cup_links cup d) in
  if negb (bool_decide (raw_text = "")) && trailing_newline then raw_text +:+ newline else raw_text.

(** [cup_protocols]: every protocol once, in order of first use. *)
Definition cup_protocols (cup : Z) (d : DB) : list string :=
  foldl (fun seen p => if bool_decide (p ∈ seen) then seen else seen ++ [p])%list []
    (omap (fun ki => ConfigLink.protocol <$> config_links d !! CupItem.config_link ki.2) (active_cup_items cup d)).

(** *** Base64 *)

Definition base64_alphabet : string := "ABCDEFGHIJKLMNOPQRSTUVWXYZabcdefghijklmnopqrstuvwxyz0123456789+/".

(** The character of a six-bit value, and the sextets of a group of bytes. *)
Definition base64_char (v : Z) : ascii := default "="%char (String.get (Z.to_nat v) base64_alphabet).

Definition sextet (n : Z) (k : Z) : ascii := base64_char (Z.land (Z.shiftr n (6 * k)) 63).

(** [base64.b64encode(text.encode("utf-8")).decode("ascii")] *)
Fixpoint b64encode (s : string) : string :=
  match s with
  | EmptyString => ""
  | String a EmptyString =>
      let n := Z.shiftl (code_of a) 16 in
      String (sextet n 3) (String (sextet n 2) "==")
  | String a (String b EmptyString) =>
      let n := Z.lor (Z.shiftl (code_of a) 16) (Z.shiftl (code_of b) 8) in
      String (sextet n 3) (String (sextet n 2) (String (sextet n 1) "="))
  | String a (String b (String c rest)) =>
      let n := Z.lor (Z.shiftl (code_of a) 16) (Z.lor (Z.shiftl (code_of b) 8) (code_of c)) in
      String (sextet n 3) (String (sextet n 2) (String (sextet n 1) (String (sextet n 0) (b64encode rest))))
  end.

Definition render_subscription_cup_base64 (cup : Z) (d : DB) : string :=
  b64encode (render_subscription_cup_raw true cup d).

(** *** The address itself *)

Section Address.
Context `{Env}.

(** The routes of src/store/urls.py. *)
Definition build_subscription_cup_path (c : cup_row) : string := "/sub/" +:+ SubscriptionCup.token c.

Definition public_base_url_for_store (s : option Store.store) : result string :=
  let domain := rstrip_chars ["/"%char] (strip (default "" (s ≫= Store.domain))) in
  if bool_decide (domain = "") then Ret ""
  else match split_url domain with
       | None => Raise (ValueError "Invalid URL")
       | Some u =>
           if negb (bool_decide (u_scheme u = "")) && negb (bool_decide (u_netloc u = "")) then Ret domain
           else Ret ((if debug_setting then "http" else "https") +:+ "://" +:+ domain)
       end.

(** [build_subscription_cup_url(cup, store=...)] outside a request: the given
    store, else that of the cup's order, client or plan. *)
Definition cup_store (d : DB) (c : cup_row) : option Z :=
  or_opt (SubscriptionCup.order c ≫= fun k => orders d !! k ≫= Order.store)
    (or_opt (SubscriptionCup.vpn_client c ≫= fun k => clients d !! k ≫= VPNClient.store)
       (SubscriptionCup.plan c ≫= fun k => plans d !! k ≫= Plan.store)).

Definition build_subscription_cup_url (d : DB) (c : cup_row) (st : option Z) : result string :=
  base ← public_base_url_for_store (or_opt st (cup_store d c) ≫= fun k => stores d !! k);
  Ret (base +:+ build_subscription_cup_path c).
End Address.
