(* ===== verification/FeedFilter.v ===== *)
(** What a cup takes over from a panel's subscription: recognising native
    links, the filter policy of a source, and the filter itself
    (src/store/external_subscription_sources.py).

    The fingerprint of a link, which only goes into metadata, is left out. *)

From S2P Require Import Prelude Models World Numbers Submission ClientManagement Inventory Cups.

#[local] Open Scope string_scope.
#[local] Open Scope Z_scope.

Definition ALL_DYNAMIC_PROTOCOLS : list string := ["vless"; "vmess"; "trojan"; "ss"; "hysteria2"; "wireguard"].
Definition ALL_DYNAMIC_SECURITY : list string := ["reality"; "tls"; "none"].
Definition ALL_DYNAMIC_TRANSPORTS : list string :=
  ["tcp"; "raw"; "grpc"; "ws"; "xhttp"; "splithttp"; "http"; "httpupgrade"; "kcp"; "quic"; "udp"; "wireguard"].
Definition DEFAULT_REFRESH_INTERVAL_HOURS : Z := 1.

(** ** Policies *)

Record filter_policy := mk_policy {
  protocols : list string;
  securities : list string;
  transports : list string;
  remark_include : string;
  remark_exclude : string;
  require_reality_pbk : bool;
  max_configs : option Z;
  deduplicate_exact : bool;
  policy_interval_hours : Z;
}.

(** [_as_positive_int] of a value [int] could read, or not. *)
Definition as_positive_int (number : option Z) (default : Z) (max_value : option Z) : Z :=
  match number with
  | Some n => if n <=? 0 then default else match max_value with Some m => Z.min n m | None => n end
  | None => default
  end.

(** The same with [default=None]. *)
Definition as_positive_int_or_none (number : option Z) (max_value : Z) : option Z :=
  match number with Some n => if n <=? 0 then None else Some (Z.min n max_value) | None => None end.

(** [s.split(c)] *)
Fixpoint split_all (c : ascii) (s : string) : list string :=
  match s with
  | EmptyString => [""]
  | String a s' =>
      if bool_decide (a = c) then "" :: split_all c s'
      else match split_all c s' with x :: rest => String a x :: rest | [] => [String a ""] end
  end.

(** [alias or item] of the table a caller gives. *)
Definition alias_of (aliases : list (string * string)) (item : string) : string :=
  match list_find (fun kv : string * string => kv.1 = item) aliases with Some (_, (_, v)) => v | None => item end.

(** The loop of [_normalize_values]. *)
Fixpoint normalize_items (aliases : list (string * string)) (defaults seen : list string) (items : list string)
    : list string :=
  match items with
  | [] => match seen with [] => defaults | _ => seen end
  | item :: rest =>
      let lowered := alias_of aliases (lower item) in
      if bool_decide (lowered ∈ ["*"; "all"]) then defaults
      else normalize_items aliases defaults
             (if bool_decide (lowered ∈ defaults) && negb (bool_decide (lowered ∈ seen))
              then seen ++ [lowered] else seen)%list rest
  end.

Section Policies.
Context `{Env}.

(** [str(value)]; text is its own. *)
Definition str_of (j : json) : string := match j with JStr s => s | _ => json_text j end.

(** [str(value or "")] *)
Definition str_or_empty (j : option json) : string :=
  match j with Some v => if truthy v then str_of v else "" | None => "" end.

(** [_as_bool] *)
Definition as_bool (j : option json) (default : bool) : bool :=
  match j with
  | None | Some JNull => default
  | Some (JBool b) => b
  | Some (JNum n) => negb (n =? 0)
  | Some v => bool_decide (lower (strip (str_of v)) ∈ ["1"; "true"; "yes"; "on"])
  end.

Definition normalize_values (value : option json) (defaults : list string) (aliases : list (string * string))
    : result (list string) :=
  match value with
  | None | Some JNull | Some (JStr "") | Some (JList []) => Ret defaults
  | Some (JStr s) => Ret (normalize_items aliases defaults [] (map strip (split_all "," s)))
  | Some (JList l) => Ret (normalize_items aliases defaults [] (map (fun j => strip (str_or_empty (Some j))) l))
  | Some (JObj kv) => Ret (normalize_items aliases defaults [] (map strip kv.*1))
  | Some (JNum _) | Some (JBool _) => Raise (OtherError "TypeError")
  end.

(** [a or b] of two values of a dictionary. *)
Definition or_json (a b : option json) : option json :=
  match a with Some v => if truthy v then a else b | None => b end.

Definition normalize_external_subscription_filter_policy (policy : metadata) : result filter_policy :=
  ps ← normalize_values (policy !! "protocols") ALL_DYNAMIC_PROTOCOLS [("hy2", "hysteria2")];
  ss ← normalize_values (policy !! "security") ALL_DYNAMIC_SECURITY [];
  ts ← normalize_values (or_json (policy !! "transport") (policy !! "transports")) ALL_DYNAMIC_TRANSPORTS [];
  Ret {| protocols := ps; securities := ss; transports := ts;
         remark_include := take_chars 200 (strip (str_or_empty (policy !! "remark_include")));
         remark_exclude := take_chars 200 (strip (str_or_empty (policy !! "remark_exclude")));
         require_reality_pbk := as_bool (policy !! "require_reality_pbk") true;
         max_configs := as_positive_int_or_none (policy !! "max_configs" ≫= int_of_json) 1000;
         deduplicate_exact := as_bool (policy !! "deduplicate_exact") true;
         policy_interval_hours := as_positive_int (policy !! "refresh_interval_hours" ≫= int_of_json)
                                    DEFAULT_REFRESH_INTERVAL_HOURS (Some (24 * 30)) |}.

(** The dictionary a policy is stored as. *)
Definition policy_json (p : filter_policy) : metadata :=
  <["protocols" := JList (map JStr (protocols p))]>
  (<["security" := JList (map JStr (securities p))]>
  (<["transport" := JList (map JStr (transports p))]>
  (<["remark_include" := JStr (remark_include p)]>
  (<["remark_exclude" := JStr (remark_exclude p)]>
  (<["require_reality_pbk" := JBool (require_reality_pbk p)]>
  (<["max_configs" := match max_configs p with Some n => JNum n | None => JNull end]>
  (<["deduplicate_exact" := JBool (deduplicate_exact p)]>
  (<["refresh_interval_hours" := JNum (policy_interval_hours p)]> ∅)))))))).

(** [dict(value or {})] *)
Definition dict_of (j : option json) : result metadata :=
  match j with
  | Some (JObj kv) => Ret (list_to_map kv)
  | Some v => if truthy v then Raise (ValueError "not a dictionary") else Ret ∅
  | None => Ret ∅
  end.

Definition resolved_filter_policy_for_source (source_metadata : metadata) : result filter_policy :=
  d ← dict_of (or_json (source_metadata !! "dynamic_subscription_policy") (source_metadata !! "filter_policy"));
  normalize_external_subscription_filter_policy d.

Definition policy_with_refresh_interval (policy : metadata) (hours : option Z) : metadata * Z :=
  let interval := as_positive_int hours DEFAULT_REFRESH_INTERVAL_HOURS (Some (24 * 30)) in
  (<["refresh_interval_hours" := JNum interval]> policy, interval).
End Policies.

(** ** Recognising a native link *)

Record native_config := mk_native {
  nc_raw_link : string;
  nc_protocol : string;
  nc_security : string;
  nc_transport : string;
  nc_remark : string;
  nc_host : string;
  nc_port : option Z;
  nc_has_pbk : bool;
  nc_valid : bool;
  nc_reason : string;
}.
#[global] Instance eta_native_config : Eta native_config := fun r => mk_native (nc_raw_link r)
  (nc_protocol r) (nc_security r) (nc_transport r) (nc_remark r) (nc_host r) (nc_port r) (nc_has_pbk r)
  (nc_valid r) (nc_reason r).

Definition canonical_protocol (value : string) : string :=
  let protocol := lower (strip value) in if bool_decide (protocol = "hy2") then "hysteria2" else protocol.

(** [_parsed] *)
Definition parsed (raw protocol security transport remark host : string) (port : option Z)
    (has_pbk valid : bool) (reason : string) : native_config := {|
  nc_raw_link := raw;
  nc_protocol := canonical_protocol protocol;
  nc_security := or_str (lower (strip (or_str security "none"))) "none";
  nc_transport := or_str (lower (strip (or_str transport "tcp"))) "tcp";
  nc_remark := take_chars 255 remark; nc_host := take_chars 255 host; nc_port := port;
  nc_has_pbk := has_pbk; nc_valid := valid; nc_reason := reason |}.

Definition rejected_config (raw protocol reason : string) : native_config :=
  parsed raw protocol "none" "tcp" "" "" None false false reason.

(** The values of a query key, keys in lower case; of two spellings the later. *)
Definition query_values (u : url_parts) (key : string) : list string :=
  match list_find (fun kv : string * list string => lower kv.1 = key) (rev (u_query u)) with
  | Some (_, (_, vs)) => vs | None => [] end.

(** [_query_first] *)
Fixpoint query_first (u : url_parts) (keys : list string) (default : string) : string :=
  match keys with
  | [] => default
  | k :: rest => match query_values u k with v :: _ => lower (strip v) | [] => query_first u rest default end
  end.

(** [_query_has] *)
Definition query_has (u : url_parts) (keys : list string) : bool :=
  existsb (fun k => existsb (fun v => negb (bool_decide (strip v = ""))) (query_values u k)) keys.

Section Parsing.
Context `{Env}.

(** [_parse_vmess]; [body] is what follows the scheme. *)
Definition parse_vmess (raw body : string) : native_config :=
  let payload := strip (before "#" body) in
  let data := if bool_decide (payload = "") then [] else vmess_data "replace" payload in
  let text k := strip (str_or_empty (assoc k data)) in
  let port := as_positive_int_or_none (assoc "port" data ≫= int_of_json) 65535 in
  let transport := or_str (lower (strip (or_str (str_or_empty (assoc "net" data)) "tcp"))) "tcp" in
  let tls_value := lower (text "tls") in
  let security := if bool_decide (tls_value ∈ ALL_DYNAMIC_SECURITY) then tls_value
                  else if bool_decide (tls_value = "") then "none" else "tls" in
  let valid := negb (bool_decide (length data = 0%nat)) in
  parsed raw "vmess" security transport (take_chars 255 (text "ps")) (take_chars 255 (text "add")) port false valid
    (if valid then "" else "invalid_vmess_payload").

(** [_parse_url_style] *)
Definition parse_url_style (raw protocol : string) : native_config :=
  match split_url (strip raw) with
  | None => rejected_config raw protocol "invalid_url"
  | Some u =>
      let remark := take_chars 255 (strip (u_fragment u)) in
      let host := take_chars 255 (strip (u_hostname u)) in
      let named := query_first u ["security"; "securitytype"] "" in
      let security := if negb (bool_decide (named = "")) then named
                      else if query_has u ["tls"] then "tls" else "none" in
      let security := if bool_decide (security ∈ ALL_DYNAMIC_SECURITY) then security else "none" in
      let fallback := if bool_decide (protocol = "wireguard") then "wireguard" else "tcp" in
      let transport := or_str (query_first u ["type"; "transport"; "network"; "net"] fallback) fallback in
      let has_pbk := query_has u ["pbk"; "publickey"; "public_key"] in
      let known := bool_decide (protocol ∈ ALL_DYNAMIC_PROTOCOLS) in
      let keyless := known && bool_decide (security = "reality") && negb has_pbk in
      parsed raw protocol security transport remark host (u_port u) has_pbk (known && negb keyless)
        (if negb known then "unsupported_protocol" else if keyless then "reality_missing_pbk" else "")
  end.

Definition parse_native_config (raw : string) : native_config :=
  match split_once "://" (strip raw) with
  | None => rejected_config raw UNKNOWN "unsupported_protocol"
  | Some (scheme, body) =>
      let protocol := canonical_protocol scheme in
      if negb (bool_decide (protocol ∈ ALL_DYNAMIC_PROTOCOLS))
      then rejected_config raw UNKNOWN "unsupported_protocol"
      else if bool_decide (protocol = "vmess") then parse_vmess raw body
      else parse_url_style raw protocol
  end.

(** [_link_has_reality_without_public_key] of src/store/admin_cup_center/services.py *)
Definition link_has_reality_without_public_key (text : string) : bool :=
  let raw := strip text in
  if negb (is_set (after_prefix "vless://" (lower raw))) then false
  else match split_url raw with
       | None => false
       | Some u =>
           let security := match filter (fun v => strip v <> "") (query_values u "security") with
                           | v :: _ => lower v | [] => "" end in
           bool_decide (security = "reality") && negb (query_has u ["pbk"])
       end.

(** ** The filter *)

Definition remark_matches (c : native_config) (p : filter_policy) : bool :=
  let remark := lower (nc_remark c) in
  let include := lower (strip (remark_include p)) in
  let exclude := lower (strip (remark_exclude p)) in
  (bool_decide (include = "") || contains include remark)
  && negb (negb (bool_decide (exclude = "")) && contains exclude remark).

(** The conditions of the filtering loop. *)
Definition admits (p : filter_policy) (c : native_config) : bool :=
  bool_decide (nc_protocol c ∈ protocols p) && bool_decide (nc_security c ∈ securities p)
  && bool_decide (nc_transport c ∈ transports p)
  && negb (require_reality_pbk p && bool_decide (nc_security c = "reality") && negb (nc_has_pbk c))
  && remark_matches c p.

(** Each link the first time it is seen. *)
Fixpoint dedupe_exact (seen : list string) (l : list native_config) : list native_config :=
  match l with
  | [] => []
  | c :: rest => if bool_decide (nc_raw_link c ∈ seen) then dedupe_exact seen rest
                 else c :: dedupe_exact (nc_raw_link c :: seen) rest
  end.

(** [Counter(texts)], in order of first occurrence. *)
Fixpoint count_text (x : string) (acc : list (string * Z)) : list (string * Z) :=
  match acc with
  | [] => [(x, 1)]
  | (y, n) :: acc' => if bool_decide (y = x) then (y, n + 1) :: acc' else (y, n) :: count_text x acc'
  end.
Definition text_counter (l : list string) : list (string * Z) := foldl (fun acc x => count_text x acc) [] l.

Record filter_result := mk_filter_result {
  fr_policy : filter_policy;
  upstream_count : Z;
  parsed_count : Z;
  invalid_count : Z;
  deduplicated_count : Z;
  filtered_count : Z;
  selected_count : Z;
  selected_configs : list native_config;
  protocol_counts : list (string * Z);
  security_counts : list (string * Z);
  transport_counts : list (string * Z);
  invalid_reasons : list (string * Z);
}.

Definition filter_native_configs (raw_configs : list string) (policy : metadata) : result filter_result :=
  p ← normalize_external_subscription_filter_policy policy;
  let raw_values := filter (fun s => s <> "") raw_configs in
  let all := map parse_native_config raw_values in
  let valid := filter (fun c => nc_valid c = true) all in
  let deduped := if deduplicate_exact p then dedupe_exact [] valid else valid in
  let filtered := filter (fun c => admits p c = true) deduped in
  let selected := match max_configs p with Some n => take (Z.to_nat n) filtered | None => filtered end in
  Ret {| fr_policy := p; upstream_count := len raw_values; parsed_count := len all;
         invalid_count := len all - len valid; deduplicated_count := len valid - len deduped;
         filtered_count := len filtered; selected_count := len selected; selected_configs := selected;
         protocol_counts := text_counter (map nc_protocol valid);
         security_counts := text_counter (map nc_security valid);
         transport_counts := text_counter (map nc_transport valid);
         invalid_reasons := text_counter (map (fun c => or_str (nc_reason c) "invalid")
                                            (filter (fun c => nc_valid c = false) all)) |}.

Definition json_counts (l : list (string * Z)) : json := JObj (map (fun kn => (kn.1, JNum kn.2)) l).

(** [NativeConfigFilterResult.to_safe_dict] *)
Definition filter_dict (r : filter_result) : list (string * json) :=
  [("upstream_count", JNum (upstream_count r)); ("parsed_count", JNum (parsed_count r));
   ("invalid_count", JNum (invalid_count r)); ("deduplicated_count", JNum (deduplicated_count r));
   ("filtered_count", JNum (filtered_count r)); ("selected_count", JNum (selected_count r));
   ("protocol_counts", json_counts (protocol_counts r)); ("security_counts", json_counts (security_counts r));
   ("transport_counts", json_counts (transport_counts r)); ("invalid_reasons", json_counts (invalid_reasons r))].

(** [preview_external_subscription_filter(raw_links, source=source)] *)
Definition preview_external_subscription_filter (raw_links : list string) (source_metadata : metadata)
    : result filter_result :=
  p ← resolved_filter_policy_for_source source_metadata;
  filter_native_configs raw_links (policy_json p).
End Parsing.
