(* ===== verification/Feeds.v ===== *)
(** Subscriptions of panels that cups follow
    (src/store/external_subscription_sources.py): the first snapshot, the lease
    a refresh takes before it asks the panel, and what a refresh does to the
    cup - take over the new list, or keep the last good one.

    [now] is when a refresh starts, [later] when the panel has answered;
    [others] is what happens in between. *)

From S2P Require Import Prelude Models World Numbers Submission ClientManagement Inventory Cups FeedFilter.
Import ExternalFeed.

#[local] Open Scope string_scope.
#[local] Open Scope Z_scope.

Abbreviation feed_row := ExternalFeed.external_subscription_feed.

Definition DROP_PROTECTION_MIN_PREVIOUS_COUNT : Z := 5.
Definition FEED_ERROR_THRESHOLD : Z := 2.
Definition second : Z := 1000000.

Definition set_feed (pk : Z) (f : feed_row) (d : DB) : DB := d {{ external_feeds ::= insert pk f }}.
Definition get_feed (pk : Z) : IO feed_row := get_or_raise (fun w => external_feeds (db w) !! pk).

(** The items of a cup that come from a feed. *)
Definition of_feed (fpk : Z) (d : DB) (i : item_row) : bool :=
  match config_links d !! CupItem.config_link i with
  | Some c => bool_decide (ConfigLink.external_feed c = Some fpk)
  | None => false
  end.

Definition feed_items (fpk cup : Z) (d : DB) : list (Z * item_row) :=
  items_where (fun _ i => bool_decide (CupItem.cup i = cup) && of_feed fpk d i) d.

(** [source_owned_cup_item_count] *)
Definition source_owned_cup_item_count (fpk : Z) (f : feed_row) (d : DB) : Z :=
  len (filter (fun ki => Is_true (of_feed fpk d ki.2)) (active_cup_items (cup f) d)).

Definition cup_accessible (d : DB) (f : feed_row) (now : Z) : bool :=
  match cups d !! cup f with Some c => SubscriptionCup.is_accessible now c | None => false end.

Definition disabled (f : feed_row) : bool := negb (active f) || bool_decide (status f = DISABLED).

(** ** When to ask again *)

Section Feeds.
Context `{Env}.

(** The share of an interval, and its bound, over which refreshes are spread. *)
Definition jitter_window (interval_seconds : Z) : Z := Z.min (30 * 60) (Z.max 60 (interval_seconds / 10)).

Definition feed_identity (fpk : Z) (f : feed_row) : string :=
  pretty fpk +:+ ":" +:+ provider f +:+ ":" +:+ remote_identity_ref f.

Definition next_refresh_at_for_feed (fpk : Z) (f : feed_row) (hours : option Z) (now : Z) : Z :=
  let own := refresh_interval_hours f in
  let interval := as_positive_int hours (if own =? 0 then DEFAULT_REFRESH_INTERVAL_HOURS else own) None in
  let seconds := interval * 60 * 60 in
  now + (seconds + sha256_prefix_int (feed_identity fpk f) mod jitter_window seconds) * second.

Definition update_external_feed_refresh_interval (fpk : Z) (hours : option Z) (now : Z) : IO feed_row := atomic (
  f ← get_feed fpk;
  let '(policy, interval) := policy_with_refresh_interval (resolved_filter_policy f) hours in
  let f := f {{ resolved_filter_policy := policy; refresh_interval_hours := interval }} in
  let f := f {{ next_refresh_at := Some (next_refresh_at_for_feed fpk f (Some interval) now) }} in
  _ ← put_db (set_feed fpk f);
  mret f).

(** [order_by("pk")] *)
Definition feeds_where (test : Z -> feed_row -> bool) (d : DB) : list (Z * feed_row) :=
  order_by (fun kf => [kf.1]) (rows_where test (external_feeds d)).

Definition update_existing_feed_intervals_for_source (source : Z) (hours : option Z) (now : Z) : IO Z :=
  d ← get_db;
  let feeds := feeds_where (fun _ f => bool_decide (delivery_source f = Some source)) d in
  _ ← for_each (fun kf => _ ← update_external_feed_refresh_interval kf.1 hours now; mret tt) feeds;
  mret (len feeds).

(** ** What a refresh reports *)

Record refresh_summary := mk_summary {
  sm_ok : bool;
  sm_status : status_t;
  sm_dry_run : bool;
  sm_skipped : bool;
  sm_kept_last_good : bool;
  sm_error_code : string;
  sm_selected_count : Z;
  sm_current_item_count : Z;
  sm_message : string;
}.

Definition selected_of (r : option filter_result) : Z := match r with Some r => selected_count r | None => 0 end.

Definition refused_summary (fpk : Z) (f : feed_row) (r : option filter_result) (code : string) (d : DB)
    : refresh_summary :=
  mk_summary false (status f) false true true code (selected_of r) (source_owned_cup_item_count fpk f d) "".

(** [refresh_token and (...)]: somebody else took the lease, or it ran out. *)
Definition superseded (token : string) (f : feed_row) (now : Z) : bool :=
  negb (bool_decide (token = ""))
  && (negb (bool_decide (refresh_token f = token))
      || match refresh_lease_until f with Some t => t <=? now | None => true end).

(** ** A refresh that failed keeps the last good list *)

Definition failure_metadata (code message : string) (r : option filter_result) (now : Z) (m : metadata) : metadata :=
  let m := <["last_refresh_error" := JObj [("code", JStr code);
             ("message", JStr (safe_external_subscription_text message)); ("at", JStr (isoformat now));
             ("kept_last_good", JBool true)]]> m in
  match r with Some r => <["last_filter_preview" := JObj (filter_dict r)]> m | None => m end.

Definition failed_feed (fpk : Z) (code message : string) (r : option filter_result) (now : Z) (f : feed_row)
    : feed_row :=
  let failures := consecutive_failures f + 1 in
  let f := f {{ last_attempt_at := Some now;
                consecutive_failures := failures;
                status := if FEED_ERROR_THRESHOLD <=? failures then ERROR else DEGRADED;
                last_error_code := take_chars 80 (or_str code "external_subscription_refresh_failed") }} in
  let f := match r with
           | Some r => f {{ last_seen_upstream_count := upstream_count r; last_filtered_count := filtered_count r }}
           | None => f end in
  let f := f {{ next_refresh_at := Some (next_refresh_at_for_feed fpk f None now) }} in
  f {{ feed_metadata ::= failure_metadata (last_error_code f) message r now }}.

(** [original] is the feed as read before the panel was asked. *)
Definition mark_feed_failure (fpk : Z) (original : feed_row) (code message : string) (r : option filter_result)
    (token : string) (now : Z) : IO refresh_summary := atomic (
  f ← get_feed fpk;
  d ← get_db;
  if superseded token f now then mret (refused_summary fpk f r "refresh_superseded" d)
  else if negb (cup_accessible d f now) || (negb (disabled original) && disabled f)
  then mret (refused_summary fpk f r "external_feed_disabled" d)
  else
    let f := failed_feed fpk code message r now f in
    _ ← put_db (set_feed fpk f);
    mret (mk_summary false (status f) false false true (last_error_code f) (selected_of r)
            (source_owned_cup_item_count fpk f d) message)).

(** ** A refresh that succeeded *)

Definition config_metadata (fpk : Z) (f : feed_row) (c : native_config) (position : Z) : metadata :=
  <["source" := JStr "external_subscription_feed"]> (<["external_feed_id" := JNum fpk]>
  (<["provider" := JStr (provider f)]> (<["position" := JNum position]>
  (<["protocol" := JStr (nc_protocol c)]> (<["security" := JStr (nc_security c)]>
  (<["transport" := JStr (nc_transport c)]> (<["host" := JStr (nc_host c)]>
  (<["port" := match nc_port c with Some p => JNum p | None => JNull end]>
  (<["remark" := JStr (nc_remark c)]> (<["has_pbk" := JBool (nc_has_pbk c)]> ∅)))))))))).

(** The columns a native link fills, whether its row is new or reused. *)
Definition feed_link (fpk : Z) (f : feed_row) (inbound : option Z) (c : native_config) (md : metadata)
    (row : link_row) : link_row :=
  (apply_config_link_parse (nc_raw_link c) ConfigLink.EXTERNAL_SUBSCRIPTION (panel f) inbound (vpn_client f)
     (Some (Some fpk)) (Some md) row)
    {{ ConfigLink.protocol := nc_protocol c; ConfigLink.remark := nc_remark c;
       ConfigLink.host := nc_host c; ConfigLink.port := nc_port c }}.

Definition FEED_REASON : string := "external_subscription_feed".

(** [candidates.pop(0)]: the first item left whose link is this one. *)
Fixpoint take_reusable (d : DB) (raw : string) (items : list (Z * item_row))
    : option (Z * item_row * list (Z * item_row)) :=
  match items with
  | [] => None
  | ki :: rest =>
      if bool_decide (ConfigLink.raw_link <$> config_links d !! CupItem.config_link ki.2 = Some raw)
      then Some (ki, rest)
      else '(found, rest') ← take_reusable d raw rest; Some (found, ki :: rest')
  end.

(** The loop over the selected links; the keys of the items it leaves active.
    [read] is the database the existing items were read from. *)
Fixpoint reconcile_items (read : DB) (fpk : Z) (f : feed_row) (position : Z) (reusable : list (Z * item_row))
    (selected : list native_config) : IO (list Z) :=
  match selected with
  | [] => mret []
  | c :: rest =>
      let md := config_metadata fpk f c position in
      '(ipk, reusable) ←
        match take_reusable read (nc_raw_link c) reusable with
        | Some (ipk, i, others) =>
            _ ← put_db (fun d => d {{ config_links ::= alter (feed_link fpk f None c md) (CupItem.config_link i) }});
            _ ← put_db (fun d => d {{ cup_items ::= alter (fun i => i {{ CupItem.position := position;
                   CupItem.is_active := true; CupItem.added_reason := FEED_REASON;
                   CupItem.item_metadata := md }}) ipk }});
            mret (ipk, others)
        | None =>
            d ← get_db;
            let lpk := next_pk (config_links d) in
            _ ← put_db (set_link lpk (feed_link fpk f None c md blank_link));
            ipk ← create_cup_item (cup f) lpk position FEED_REASON md;
            mret (ipk, reusable)
        end;
      ipks ← reconcile_items read fpk f (position + 1) reusable rest;
      mret (ipk :: ipks)
  end.

(** [.update(is_active=False)] of the items and of the feed's links named. *)
Definition retire (fpk : Z) (ipks lpks : list Z) (d : DB) : DB :=
  d {{ cup_items ::= update_where (fun k _ => bool_decide (k ∈ ipks)) (fun i => i {{ CupItem.is_active := false }});
       config_links ::= update_where (fun k c => bool_decide (k ∈ lpks)
           && bool_decide (ConfigLink.external_feed c = Some fpk)) (fun c => c {{ ConfigLink.is_active := false }}) }}.

Definition base_position (fpk : Z) (f : feed_row) (existing : list (Z * item_row)) (d : DB) : Z :=
  match map (fun ki => CupItem.position ki.2) existing with
  | p :: ps => foldr Z.min p ps
  | [] => foldr Z.max 0 (map (fun ki => CupItem.position ki.2)
            (items_where (fun _ i => bool_decide (CupItem.cup i = cup f) && CupItem.is_active i
                                     && negb (of_feed fpk d i)) d)) + 1
  end.

Definition success_metadata (r : filter_result) (now : Z) (m : metadata) : metadata :=
  delete "last_refresh_error"
    (<["last_successful_refresh" := JObj (("at", JStr (isoformat now)) :: filter_dict r)]> m).

Definition refreshed_feed (fpk : Z) (r : filter_result) (now : Z) (f : feed_row) : feed_row :=
  let f := f {{ status := HEALTHY; active := true; last_attempt_at := Some now; last_success_at := Some now;
                consecutive_failures := 0; last_error_code := "";
                last_good_config_count := selected_count r; last_seen_upstream_count := upstream_count r;
                last_filtered_count := filtered_count r;
                refresh_interval_hours := policy_interval_hours (fr_policy r) }} in
  let f := f {{ next_refresh_at := Some (next_refresh_at_for_feed fpk f (Some (refresh_interval_hours f)) now) }} in
  f {{ feed_metadata ::= success_metadata r now }}.

Definition same_source (f g : feed_row) : bool :=
  bool_decide (cup f = cup g) && bool_decide (panel f = panel g) && bool_decide (vpn_client f = vpn_client g)
  && bool_decide (protected_subscription_url f = protected_subscription_url g).

(** [same_policy]: equality of two JSON dictionaries, left to the caller. *)
Definition reconcile_success (same_policy : metadata -> metadata -> bool) (fpk : Z) (original : feed_row)
    (r : filter_result) (token : string) (allow_disabled : bool) (now : Z) : IO refresh_summary := atomic (
  _ ← get_or_raise (fun w => cups (db w) !! cup original);
  f ← get_feed fpk;
  d ← get_db;
  if superseded token f now then mret (refused_summary fpk f (Some r) "refresh_superseded" d)
  else if negb (same_source f original)
          || negb (same_policy (resolved_filter_policy f) (resolved_filter_policy original))
  then mret (refused_summary fpk f (Some r) "refresh_source_changed" d)
  else if negb (cup_accessible d f now) || (disabled f && negb allow_disabled)
  then mret (refused_summary fpk f (Some r) "external_feed_disabled" d)
  else
    let existing := feed_items fpk (cup f) d in
    active_ids ← reconcile_items d fpk f (base_position fpk f existing d) existing (selected_configs r);
    let stale := filter (fun ki => ki.1 ∉ active_ids) existing in
    _ ← put_db (retire fpk stale.*1 (map (fun ki => CupItem.config_link ki.2) stale));
    let f := refreshed_feed fpk r now f in
    _ ← put_db (set_feed fpk f);
    d ← get_db;
    mret (mk_summary true HEALTHY false false false "" (selected_count r)
            (source_owned_cup_item_count fpk f d) "")).

(** ** Refreshing *)

(** [previous * 0.70] in binary floating point, in units of 2^-53: the product
    with the nearest double, rounded to 53 significant bits, ties to even. *)
Definition double_07 : Z := 6305039478318694.

Definition round53 (p : Z) : Z :=
  let shift := Z.log2 p + 1 - 53 in
  if shift <=? 0 then p
  else
    let q := Z.shiftr p shift in
    let rest := p - Z.shiftl q shift in
    let half := Z.shiftl 1 (shift - 1) in
    Z.shiftl (if (half <? rest) || ((half =? rest) && Z.odd q) then q + 1 else q) shift.

Definition should_block_massive_drop (fpk : Z) (f : feed_row) (r : filter_result) (force : bool) (d : DB) : bool :=
  let previous := if last_good_config_count f =? 0 then source_owned_cup_item_count fpk f d
                  else last_good_config_count f in
  negb force && (DROP_PROTECTION_MIN_PREVIOUS_COUNT <=? previous)
  && (round53 (previous * double_07) <? Z.shiftl (previous - selected_count r) 53).

(** [PasarGuardSubscriptionFetcher.fetch_native_links] and
    [get_external_subscription_fetcher]. *)
Definition fetch_feed (f : feed_row) : IO (list string) :=
  if negb (bool_decide (lower (strip (provider f)) = "pasarguard"))
  then raise (ExternalSubscriptionRefreshError "Provider is not supported." "external_feed_provider_unsupported")
  else match panel f with
  | None => raise (ExternalSubscriptionRefreshError "Feed has no panel." "external_feed_panel_missing")
  | Some p =>
      let url := strip (protected_subscription_url f) in
      if bool_decide (url = "")
      then raise (ExternalSubscriptionRefreshError "Feed has no upstream subscription URL."
                    "external_feed_subscription_url_missing")
      else catch (askR (CallFetchFeed p url) (fun h => fetch_native_links h p url))
        (fun e => raise match e with
           | ExternalSubscriptionRefreshError _ _ => e
           | PanelIntegrationError m c => ExternalSubscriptionRefreshError (or_str m "Provider fetch failed.")
                                            (or_str c "provider_fetch_failed")
           | _ => ExternalSubscriptionRefreshError "Provider fetch failed." "provider_fetch_failed" end)
  end.

Context (same_policy : metadata -> metadata -> bool).

(** The links to filter, or the failure of the provider. *)
Definition candidate_links (candidates : option (list string)) (f : feed_row)
    : IO (list string + string * string) :=
  match candidates with
  | Some l => mret (inl l)
  | None => fun w =>
      match fetch_feed f w with
      | (Ret l, w') => (Ret (inl l), w')
      | (Raise (ExternalSubscriptionRefreshError m c), w') =>
          (Ret (inr (safe_external_subscription_text m,
                     take_chars 80 (or_str c "external_subscription_refresh_failed"))), w')
      | (Raise e, w') => (Raise e, w')
      end
  end.

Definition refresh_failure_code (fpk : Z) (f : feed_row) (r : filter_result) (force : bool) (d : DB) : string :=
  if selected_count r =? 0 then if upstream_count r =? 0 then "upstream_empty" else "filter_result_empty"
  else if should_block_massive_drop fpk f r force d then "suspicious_config_drop" else "".

(** [_refresh_claimed_feed] *)
Definition refresh_claimed_feed (others : IO unit) (fpk : Z) (force dry_run : bool)
    (candidates : option (list string)) (token : string) (later : Z) : IO refresh_summary :=
  f ← get_feed fpk;
  d ← get_db;
  if disabled f && negb force
  then mret (mk_summary false DISABLED false true false "external_feed_disabled" 0
               (source_owned_cup_item_count fpk f d) "Feed is disabled.")
  else
    links ← candidate_links candidates f;
    _ ← others;
    match links with
    | inr (m, c) =>
        d ← get_db;
        if dry_run then mret (mk_summary false (status f) true false true c 0
                                (source_owned_cup_item_count fpk f d) m)
        else mark_feed_failure fpk f c m None token later
    | inl raw_links =>
        r ← liftR (filter_native_configs raw_links (resolved_filter_policy f));
        d ← get_db;
        let code := refresh_failure_code fpk f r force d in
        let failed := negb (bool_decide (code = "")) in
        if dry_run then mret (mk_summary (negb failed) (status f) true false failed code (selected_count r)
                                (source_owned_cup_item_count fpk f d) (or_str code "Dry-run preview only."))
        else if failed then mark_feed_failure fpk f code code (Some r) token later
        else reconcile_success same_policy fpk f r token (force && disabled f) later
    end.

(** The lease: a short transaction before the panel is asked. *)
Definition claim_feed (fpk : Z) (force : bool) (min_interval_seconds : Z) (token : string) (now : Z)
    : IO (option refresh_summary) := atomic (
  f ← get_feed fpk;
  d ← get_db;
  let leased := match refresh_lease_until f with Some t => now <? t | None => false end in
  let recent := negb (min_interval_seconds =? 0)
                && match last_attempt_at f with Some t => now - min_interval_seconds * second <? t | None => false end in
  if negb (cup_accessible d f now) || (negb force && disabled f) || leased || recent
  then mret (Some (mk_summary false (status f) false true true "refresh_not_available" 0
                     (source_owned_cup_item_count fpk f d) ""))
  else
    _ ← put_db (set_feed fpk (f {{ refresh_token := token; refresh_lease_until := Some (now + 90 * second);
                                   last_attempt_at := Some now }}));
    mret None).

(** [finally]: the lease is given back if it is still this refresh's. *)
Definition release_lease (fpk : Z) (token : string) (w : World) : World :=
  w {{ db ::= fun d => d {{ external_feeds ::= update_where
         (fun k f => (k =? fpk) && bool_decide (refresh_token f = token))
         (fun f => f {{ refresh_token := ""; refresh_lease_until := None }}) }} }}.

Definition refresh_external_subscription_feed (others : IO unit) (fpk : Z) (force dry_run : bool)
    (candidates : option (list string)) (min_interval_seconds : Z) (token : string) (now later : Z)
    : IO refresh_summary :=
  if dry_run then refresh_claimed_feed others fpk force true candidates "" later
  else
    refused ← claim_feed fpk force min_interval_seconds token now;
    match refused with
    | Some s => mret s
    | None => finally (refresh_claimed_feed others fpk force false candidates token later)
                (release_lease fpk token)
    end.

(** The due feeds, in [order_by("next_refresh_at", "pk")]: nulls come first. *)
Definition feed_due (force : bool) (d : DB) (now : Z) (f : feed_row) : bool :=
  active f && negb (bool_decide (status f = DISABLED)) && cup_accessible d f now
  && (force || match next_refresh_at f with None => true | Some t => t <=? now end).

Definition due_feeds (force : bool) (limit : option Z) (d : DB) (now : Z) : list (Z * feed_row) :=
  let l := order_by (fun kf => match next_refresh_at kf.2 with
                               | None => [0; 0; kf.1] | Some t => [1; t; kf.1] end)
             (rows_where (fun _ => feed_due force d now) (external_feeds d)) in
  match limit with Some n => if n =? 0 then l else take (Z.to_nat (Z.max n 0)) l | None => l end.

Definition crashed_summary (fpk : Z) (f : feed_row) (message : string) (d : DB) : refresh_summary :=
  mk_summary false ERROR false false true "external_feed_refresh_crashed" 0
    (source_owned_cup_item_count fpk f d) (safe_external_subscription_text message).

(** One feed after the other, each with the token drawn for it; a crash is one
    feed's. *)
Fixpoint refresh_feeds (token : Z -> string) (force dry_run : bool) (now : Z) (feeds : list (Z * feed_row))
    : IO (list refresh_summary) :=
  match feeds with
  | [] => mret []
  | (fpk, f) :: rest =>
      s ← catch (refresh_external_subscription_feed (mret tt) fpk force dry_run None 0 (token fpk) now now)
            (fun e => d ← get_db; mret (crashed_summary fpk f (exn_text e) d));
      ss ← refresh_feeds token force dry_run now rest;
      mret (s :: ss)
  end.

Definition refresh_due_external_subscription_feeds (token : Z -> string) (force : bool) (limit : option Z)
    (dry_run : bool) (now : Z) : IO (list refresh_summary) :=
  d ← get_db;
  refresh_feeds token force dry_run now (due_feeds force limit d now).

(** ** The first snapshot *)

(** What a delivery collects for a feed. *)
Record dynamic_feed_snapshot := mk_snapshot {
  sn_provider : string;
  sn_panel : Z;
  sn_source : Z * PlanDelivery.plan_delivery_source;
  sn_client : option Z;
  sn_url : string;
  sn_identity : string;
  sn_raw_links : list string;
  sn_config_links : list Z;
  sn_filter_result : filter_result;
  sn_metadata : metadata;
}.

Definition blank_feed (cpk : Z) (s : dynamic_feed_snapshot) : feed_row := {|
  provider := lower (strip (sn_provider s)); active := true; cup := cpk;
  delivery_source := Some (sn_source s).1; panel := Some (sn_panel s); vpn_client := sn_client s;
  remote_identity_ref := ""; protected_subscription_url := ""; resolved_filter_policy := ∅;
  refresh_interval_hours := 1; next_refresh_at := None; last_attempt_at := None; refresh_token := "";
  refresh_lease_until := None; last_success_at := None; consecutive_failures := 0; status := HEALTHY;
  last_good_config_count := 0; last_seen_upstream_count := 0; last_filtered_count := 0;
  last_error_code := ""; feed_metadata := ∅ |}.

(** The feed of this cup, source, panel, client and provider. *)
Definition feed_of_snapshot (cpk : Z) (s : dynamic_feed_snapshot) (d : DB) : option (Z * feed_row) :=
  head (feeds_where (fun _ f => bool_decide (cup f = cpk) && bool_decide (delivery_source f = Some (sn_source s).1)
    && bool_decide (panel f = Some (sn_panel s)) && bool_decide (vpn_client f = sn_client s)
    && bool_decide (provider f = lower (strip (sn_provider s)))) d).

Definition registered_feed (fpk : Z) (s : dynamic_feed_snapshot) (now : Z) (f : feed_row) : feed_row :=
  let r := sn_filter_result s in
  let f := f {{ active := true; status := HEALTHY;
                remote_identity_ref := take_chars 160 (sn_identity s);
                protected_subscription_url := strip (sn_url s);
                resolved_filter_policy := policy_json (fr_policy r);
                refresh_interval_hours := policy_interval_hours (fr_policy r);
                last_attempt_at := Some now; last_success_at := Some now;
                consecutive_failures := 0; last_error_code := "";
                last_good_config_count := selected_count r; last_seen_upstream_count := upstream_count r;
                last_filtered_count := filtered_count r;
                feed_metadata ::= fun m =>
                  <["last_successful_refresh" := JObj (("at", JStr (isoformat now)) :: filter_dict r)]>
                  (<["initial_snapshot" := JBool true]>
                  (<["subscription_url_saved" := JBool true]> (sn_metadata s ∪ m))) }} in
  f {{ next_refresh_at := Some (next_refresh_at_for_feed fpk f (Some (refresh_interval_hours f)) now) }}.

(** The link's own parse among the selected ones, else a fresh one. *)
Definition parsed_link (r : filter_result) (raw : string) : native_config :=
  match list_find (fun c => nc_raw_link c = raw) (rev (selected_configs r)) with
  | Some (_, c) => c | None => parse_native_config raw end.

(** The links made for the snapshot become the feed's, in order. *)
Fixpoint adopt_links (fpk : Z) (f : feed_row) (s : dynamic_feed_snapshot) (position : Z) (links : list Z)
    : IO unit :=
  match links with
  | [] => mret tt
  | lpk :: rest =>
      row ← get_or_raise (fun w => config_links (db w) !! lpk);
      let c := parsed_link (sn_filter_result s) (ConfigLink.raw_link row) in
      let c := c {{ nc_raw_link := ConfigLink.raw_link row }} in
      let md := config_metadata fpk f c position ∪ ConfigLink.link_metadata row in
      _ ← put_db (set_link lpk (feed_link fpk f (PlanDelivery.inbound (sn_source s).2) c md row));
      adopt_links fpk f s (position + 1) rest
  end.

Definition adopt_items (cpk : Z) (links : list Z) (d : DB) : DB :=
  d {{ cup_items ::= update_where
         (fun _ i => bool_decide (CupItem.cup i = cpk) && bool_decide (CupItem.config_link i ∈ links))
         (fun i => i {{ CupItem.added_reason := FEED_REASON }}) }}.

Definition register_external_subscription_feed_snapshot (cpk : Z) (s : dynamic_feed_snapshot) (now : Z) : IO Z :=
  if bool_decide (strip (sn_url s) = "")
  then raise (ExternalSubscriptionRefreshError "Upstream subscription URL is required."
                "external_feed_subscription_url_missing")
  else
    _ ← liftR (resolved_filter_policy_for_source (PlanDelivery.source_metadata (sn_source s).2));
    if selected_count (sn_filter_result s) =? 0
    then raise (ExternalSubscriptionRefreshError "Initial filter result is empty." "filter_result_empty")
    else atomic (
      d ← get_db;
      let '(fpk, f) := default (next_pk (external_feeds d), blank_feed cpk s) (feed_of_snapshot cpk s d) in
      let f := registered_feed fpk s now f in
      _ ← put_db (set_feed fpk f);
      _ ← adopt_links fpk f s 1 (sn_config_links s);
      _ ← put_db (adopt_items cpk (sn_config_links s));
      d ← get_db;
      let stale := filter (fun ki => CupItem.config_link ki.2 ∉ sn_config_links s) (feed_items fpk cpk d) in
      _ ← put_db (retire fpk stale.*1 (map (fun ki => CupItem.config_link ki.2) stale));
      mret fpk).
End Feeds.
