(* ===== verification/CupsSpec.v ===== *)
(** What the address of a cup serves: the subscription text decodes to the
    cup's active links, in order. *)

From S2P Require Import Prelude Models World Numbers Submission ClientManagement Inventory Cups FeedFilter.

#[local] Open Scope string_scope.
#[local] Open Scope Z_scope.

(** ** Reading Base64 *)

(** The reference decoder, by arithmetic: the place of a character in the
    alphabet, four of them as one number, and its bytes. *)
Fixpoint place_of (c : ascii) (s : string) : option Z :=
  match s with
  | EmptyString => None
  | String a s' => if bool_decide (a = c) then Some 0 else Z.succ <$> place_of c s'
  end.
Definition base64_value (c : ascii) : option Z := place_of c base64_alphabet.

Definition byte_char (n k : Z) : ascii := ascii_of_nat (Z.to_nat (n / 256 ^ k mod 256)).

Definition quad (va vb vc vd : Z) : Z := va * 262144 + vb * 4096 + vc * 64 + vd.

Definition padding : ascii := "="%char.

Fixpoint b64decode (s : string) : option string :=
  match s with
  | EmptyString => Some ""
  | String a (String b (String c (String d rest))) =>
      va ← base64_value a; vb ← base64_value b;
      if bool_decide (c = padding) then Some (String (byte_char (quad va vb 0 0) 2) "")
      else
        vc ← base64_value c;
        if bool_decide (d = padding)
        then Some (String (byte_char (quad va vb vc 0) 2) (String (byte_char (quad va vb vc 0) 1) ""))
        else
          vd ← base64_value d; out ← b64decode rest;
          let n := quad va vb vc vd in
          Some (String (byte_char n 2) (String (byte_char n 1) (String (byte_char n 0) out)))
  | _ => None
  end.

#[local] Arguments base64_value : simpl never.
#[local] Arguments byte_char : simpl never.
#[local] Arguments sextet : simpl never.

Lemma lor_shiftl a b k : 0 <= k -> 0 <= b < 2 ^ k -> Z.lor (Z.shiftl a k) b = a * 2 ^ k + b.
Proof.
  intros Hk Hb. rewrite <- Z.shiftl_mul_pow2 by done. rewrite <- Z.add_lor_land.
  assert (Hl : Z.land (Z.shiftl a k) b = 0); [|lia].
  apply Z.bits_inj'. intros n Hn. rewrite Z.land_spec, Z.bits_0.
  destruct (decide (n < k)) as [Hlt|Hge].
  - by rewrite Z.shiftl_spec_low.
  - rewrite <- (Z.mod_small b (2 ^ k)) by done. rewrite Z.mod_pow2_bits_high by lia. apply andb_false_r.
Qed.

Lemma code_of_bound c : 0 <= code_of c < 256.
Proof. unfold code_of. pose proof (nat_ascii_bounded c). lia. Qed.

Lemma byte_char_code n k c : n / 256 ^ k mod 256 = code_of c -> byte_char n k = c.
Proof. unfold byte_char. intros ->. unfold code_of. rewrite Nat2Z.id. apply ascii_nat_embedding. Qed.

Lemma base64_value_char v : 0 <= v < 64 -> base64_value (base64_char v) = Some v /\ base64_char v <> padding.
Proof.
  intros Hv. assert (Ha : forallb (fun k => bool_decide (base64_value (base64_char k) = Some k)
    && negb (bool_decide (base64_char k = padding))) (seqZ 0 64) = true) by (vm_compute; reflexivity).
  rewrite forallb_forall in Ha. specialize (Ha v). rewrite <- list_elem_of_In in Ha.
  specialize (Ha ltac:(apply elem_of_seqZ; lia)). apply andb_true_iff in Ha as [H1 H2]. split.
  - by apply bool_decide_eq_true in H1.
  - apply negb_true_iff in H2. by apply bool_decide_eq_false in H2.
Qed.

(** A character written stands for six bits of the group, and is no padding. *)
Lemma sextet_value n k :
  (0 <=? k) = true -> base64_value (sextet n k) = Some (n / 2 ^ (6 * k) mod 64) /\ sextet n k <> padding.
Proof.
  intros Hk%Z.leb_le. unfold sextet. rewrite Z.shiftr_div_pow2 by lia.
  change 63 with (Z.ones 6). rewrite Z.land_ones by lia. apply base64_value_char. apply Z.mod_pos_bound. lia.
Qed.

(** The group of three bytes. *)
Lemma group_value a b c :
  0 <= a < 256 -> 0 <= b < 256 -> 0 <= c < 256 ->
  Z.lor (Z.shiftl a 16) (Z.lor (Z.shiftl b 8) c) = a * 65536 + b * 256 + c.
Proof. intros. rewrite (lor_shiftl b c 8) by lia. rewrite lor_shiftl by lia. lia. Qed.

(** Strings three characters at a time. *)
Lemma string_ind3 (P : string -> Prop) :
  P "" -> (forall a, P (String a "")) -> (forall a b, P (String a (String b ""))) ->
  (forall a b c s, P s -> P (String a (String b (String c s)))) -> forall s, P s.
Proof.
  intros H0 H1 H2 H3. fix go 1. intros [|a [|b [|c s]]]; [exact H0|exact (H1 a)|exact (H2 a b)|exact (H3 a b c s (go s))].
Qed.

Ltac read_sextets n :=
  rewrite ?(proj1 (sextet_value n 3 eq_refl)), ?(proj1 (sextet_value n 2 eq_refl)),
    ?(proj1 (sextet_value n 1 eq_refl)), ?(proj1 (sextet_value n 0 eq_refl));
  cbn [mbind option_bind];
  rewrite ?(bool_decide_false _ (proj2 (sextet_value n 1 eq_refl))),
    ?(bool_decide_false _ (proj2 (sextet_value n 0 eq_refl))), ?(bool_decide_true (padding = padding) eq_refl);
  cbn [mbind option_bind].

(** The bytes come back out of the sextets of the group. *)
Ltac rebuild := unfold quad; do 2 f_equal; repeat f_equal; apply byte_char_code; Z.to_euclidean_division_equations; lia.

Lemma base64_decodes s : b64decode (b64encode s) = Some s.
Proof.
  induction s as [|a|a b|a b c s IH] using string_ind3; [reflexivity|..]; cbn [b64encode b64decode];
    pose proof (code_of_bound a).
  - set (n := Z.shiftl (code_of a) 16). change "="%char with padding. read_sextets n.
    subst n. rewrite Z.shiftl_mul_pow2 by lia. rebuild.
  - pose proof (code_of_bound b). set (n := Z.lor _ _). change "="%char with padding. read_sextets n.
    assert (Hn : n = code_of a * 65536 + code_of b * 256).
    { unfold n. rewrite lor_shiftl by (rewrite ?Z.shiftl_mul_pow2 by lia; lia). rewrite Z.shiftl_mul_pow2; lia. }
    clearbody n. subst n. rebuild.
  - pose proof (code_of_bound b). pose proof (code_of_bound c). rewrite group_value by done.
    set (n := _ + _). read_sextets n. rewrite IH. cbn [mbind option_bind]. subst n. rebuild.
Qed.

(** ** The lines of a subscription *)

Definition newline_char : ascii := "010"%char.

(** What an application reads: the lines that are not blank. *)
Definition subscription_lines (text : string) : list string :=
  filter (fun s => s <> "") (split_all newline_char text).

Definition one_line (s : string) : Prop := split_all newline_char s = [s].

Lemma split_all_cons c s : exists x l, split_all c s = x :: l.
Proof.
  induction s as [|a s (x & l & E)]; cbn; [by exists "", []|].
  case_bool_decide; [by exists "", (split_all c s)|]. rewrite E. by exists (String a x), l.
Qed.

Lemma split_all_line x rest : one_line x ->
  split_all newline_char (x +:+ newline +:+ rest) = x :: split_all newline_char rest.
Proof.
  unfold one_line. induction x as [|a x IH]; [reflexivity|].
  - change (String a x +:+ newline +:+ rest) with (String a (x +:+ newline +:+ rest)). cbn [split_all].
    destruct (decide (a = newline_char)) as [Ha|Ha].
    { rewrite bool_decide_true by done. destruct (split_all_cons newline_char x) as (y & l & ->). intros [=]. }
    rewrite !bool_decide_false by done. destruct (split_all_cons newline_char x) as (y & l & E). rewrite E.
    intros [= -> ->]. by rewrite IH by done.
Qed.

Lemma join_lines_split l :
  l <> [] -> Forall one_line l -> split_all newline_char (join_lines l) = l.
Proof.
  induction l as [|x l IH]; [done|]. intros _ [Hx Hl]%Forall_cons.
  destruct l as [|y l]; [exact Hx|]. change (join_lines (x :: y :: l)) with (x +:+ newline +:+ join_lines (y :: l)).
  rewrite split_all_line by done. by rewrite IH.
Qed.

Lemma string_app_nil s : s +:+ "" = s.
Proof. induction s as [|a s IH]; [done|]. exact (f_equal (String a) IH). Qed.
Lemma string_app_assoc a b c : (a +:+ b) +:+ c = a +:+ (b +:+ c).
Proof. induction a as [|x a IH]; [done|]. exact (f_equal (String x) IH). Qed.

Lemma join_lines_split_end l :
  Forall one_line l -> split_all newline_char (join_lines l +:+ newline)
    = (match l with [] => [""] | _ => l end ++ [""])%list.
Proof.
  induction l as [|x l IH]; [done|]. intros [Hx Hl]%Forall_cons. destruct l as [|y l].
  - cbn [join_lines]. rewrite <- (string_app_nil newline), split_all_line by done. reflexivity.
  - change (join_lines (x :: y :: l)) with (x +:+ newline +:+ join_lines (y :: l)).
    rewrite !string_app_assoc, split_all_line by done. by rewrite IH.
Qed.

Lemma active_links_nonblank cup d : Forall (fun s => s <> "") (active_cup_links cup d).
Proof. apply Forall_forall. unfold active_cup_links. intros s [Hs _]%list_elem_of_filter. exact Hs. Qed.

Lemma filter_nonblank (l : list string) : Forall (fun s => s <> "") l -> filter (fun s => s <> "") l = l.
Proof. intros Hl. induction Hl; [done|]. by rewrite filter_cons_True, IHHl. Qed.

(** C12: What a customer's application downloads from a cup is the cup.  The
    body is Base64 that decodes to text whose lines are exactly the cup's
    active links, every one of them, in the order of their positions - as long
    as no link holds a line break - whether or not the text is closed by a line
    break. *)
Theorem subscription_roundtrip cup d trailing :
  Forall one_line (active_cup_links cup d) ->
  subscription_lines (render_subscription_cup_raw trailing cup d) = active_cup_links cup d /\
  exists text, b64decode (render_subscription_cup_base64 cup d) = Some text /\
    subscription_lines text = active_cup_links cup d.
Proof.
  intros Hl. assert (Hr : forall t, subscription_lines (render_subscription_cup_raw t cup d) = active_cup_links cup d).
  { intros t. unfold render_subscription_cup_raw, subscription_lines. pose proof (active_links_nonblank cup d) as Hn.
    destruct (active_cup_links cup d) as [|x l]; [by destruct t|].
    destruct (_ && t).
    - rewrite join_lines_split_end by done. rewrite filter_app, filter_nonblank by done.
      apply app_nil_r.
    - rewrite join_lines_split by done. by apply filter_nonblank. }
  split; [apply Hr|]. eexists. split; [apply base64_decodes|apply Hr].
Qed.

Lemma subscription_roundtrip_witness :
  let d := empty_db {{ config_links := {[ 1 := (@apply_config_link_parse sample_env "ss://b@h:1#two" ConfigLink.IMPORTED_SUBSCRIPTION None None None None None blank_link);
      2 := (@apply_config_link_parse sample_env "trojan://a@h:1#one" ConfigLink.IMPORTED_SUBSCRIPTION None None None None None blank_link) ]};
    cup_items := {[ 1 := CupItem.mk_cup_item 9 1 2 true "" ∅; 2 := CupItem.mk_cup_item 9 2 1 true "" ∅;
                    3 := CupItem.mk_cup_item 9 2 3 false "" ∅ ]} }} in
  active_cup_links 9 d = ["trojan://a@h:1#one"; "ss://b@h:1#two"] /\
  exists text, b64decode (render_subscription_cup_base64 9 d) = Some text /\
    subscription_lines text = ["trojan://a@h:1#one"; "ss://b@h:1#two"].
Proof.
  intros d. assert (E : active_cup_links 9 d = ["trojan://a@h:1#one"; "ss://b@h:1#two"]) by (vm_compute; reflexivity).
  split; [exact E|]. rewrite <- E. apply (subscription_roundtrip 9 d true). rewrite E.
  apply Forall_cons. split; [vm_compute; reflexivity|]. apply Forall_cons. split; [vm_compute; reflexivity|]. apply Forall_nil. done.
Defined.

(** ** What a feed takes over *)

Section Filter.
Context `{Env}.

Lemma parse_native_raw raw : nc_raw_link (parse_native_config raw) = raw.
Proof.
  unfold parse_native_config, rejected_config, parse_vmess, parse_url_style. cbv zeta.
  repeat case_match; reflexivity.
Qed.

Lemma dedupe_sublist seen l : dedupe_exact seen l `sublist_of` l.
Proof.
  revert seen. induction l as [|c l IH]; intros seen; cbn; [done|].
  case_bool_decide; [by apply sublist_cons|by apply sublist_skip].
Qed.

Lemma dedupe_NoDup seen l :
  NoDup (map nc_raw_link (dedupe_exact seen l)) /\ Forall (fun c => nc_raw_link c ∉ seen) (dedupe_exact seen l).
Proof.
  revert seen. induction l as [|c l IH]; intros seen; cbn; [split; [apply NoDup_nil_2|done]|].
  case_bool_decide as Hc; [apply IH|]. destruct (IH (nc_raw_link c :: seen)) as [Hn Hf]. split.
  - cbn. apply NoDup_cons. split; [|done]. intros (c' & Hc' & Hin)%list_elem_of_fmap.
    eapply Forall_forall in Hf; [|exact Hin]. apply Hf. rewrite <- Hc'. apply list_elem_of_here.
  - apply Forall_cons. split; [done|]. eapply Forall_impl; [exact Hf|]. cbn. set_solver.
Qed.

Lemma dedupe_complete seen l c :
  c ∈ l -> nc_raw_link c ∈ seen \/ nc_raw_link c ∈ map nc_raw_link (dedupe_exact seen l).
Proof.
  revert seen. induction l as [|x l IH]; intros seen Hc; [by apply not_elem_of_nil in Hc|]. cbn.
  case_bool_decide as Hx.
  - apply elem_of_cons in Hc as [->|Hc]; [by left|by apply IH].
  - apply elem_of_cons in Hc as [->|Hc]; [right; apply list_elem_of_here|].
    destruct (IH (nc_raw_link x :: seen) Hc) as [[->|?]%elem_of_cons|?]; [right; apply list_elem_of_here|by left|].
    right. by apply list_elem_of_further.
Qed.

(** The valid links of a list, and those of them a policy lets through. *)
Definition valid_configs (raws : list string) : list native_config :=
  filter (fun c => nc_valid c = true) (map parse_native_config (filter (fun s => s <> "") raws)).
Definition let_through (p : filter_policy) (raws : list string) : list native_config :=
  filter (fun c => admits p c = true)
    (if deduplicate_exact p then dedupe_exact [] (valid_configs raws) else valid_configs raws).

Lemma unique_sublist p raws :
  (if deduplicate_exact p then dedupe_exact [] (valid_configs raws) else valid_configs raws)
  `sublist_of` valid_configs raws.
Proof. destruct (deduplicate_exact p); [apply dedupe_sublist|done]. Qed.

Lemma valid_configs_raw raws : map nc_raw_link (valid_configs raws) `sublist_of` raws.
Proof.
  unfold valid_configs. transitivity (map nc_raw_link (map parse_native_config (filter (fun s => s <> "") raws))).
  { apply fmap_sublist, sublist_filter. }
  rewrite map_map, (map_ext _ id parse_native_raw), map_id. apply sublist_filter.
Qed.

Lemma valid_configs_parsed raws c :
  c ∈ valid_configs raws -> c = parse_native_config (nc_raw_link c) /\ nc_valid c = true.
Proof.
  intros [Hv (raw & -> & _)%list_elem_of_fmap]%list_elem_of_filter. by rewrite parse_native_raw.
Qed.

Lemma valid_configs_complete raws raw :
  raw ∈ raws -> raw <> "" -> nc_valid (parse_native_config raw) = true -> parse_native_config raw ∈ valid_configs raws.
Proof.
  intros Hin Hn Hv. apply list_elem_of_filter. split; [done|]. apply list_elem_of_fmap_2, list_elem_of_filter. by split.
Qed.

(** What the filter guarantees about the links it selects from [raws]. *)
Record selection (raws : list string) (r : filter_result) : Prop := {
  sel_admitted : forall c, c ∈ selected_configs r ->
    c = parse_native_config (nc_raw_link c) /\ nc_valid c = true /\ admits (fr_policy r) c = true;
  sel_upstream : map nc_raw_link (selected_configs r) `sublist_of` raws;
  sel_distinct : deduplicate_exact (fr_policy r) = true -> NoDup (map nc_raw_link (selected_configs r));
  sel_at_most : forall n, max_configs (fr_policy r) = Some n -> len (selected_configs r) <= n;
  sel_complete : selected_count r = filtered_count r -> forall raw, raw ∈ raws -> raw <> "" ->
    nc_valid (parse_native_config raw) = true -> admits (fr_policy r) (parse_native_config raw) = true ->
    raw ∈ map nc_raw_link (selected_configs r);
  sel_counts : selected_count r = len (selected_configs r) /\ 0 <= invalid_count r /\ 0 <= deduplicated_count r /\
    selected_count r <= filtered_count r <= upstream_count r - invalid_count r - deduplicated_count r;
}.

Lemma normalized_max policy p n :
  normalize_external_subscription_filter_policy policy = Ret p -> max_configs p = Some n -> 1 <= n <= 1000.
Proof.
  unfold normalize_external_subscription_filter_policy. intros (? & _ & E)%result_bind_Ret.
  apply result_bind_Ret in E as (? & _ & E). apply result_bind_Ret in E as (? & _ & E). injection E as <-.
  cbn [max_configs]. unfold as_positive_int_or_none. destruct (_ ≫= _) as [m|]; [|done].
  destruct (m <=? 0) eqn:Hm; [done|]. intros [= <-]. lia.
Qed.

Lemma filter_selected raws policy r :
  filter_native_configs raws policy = Ret r ->
  exists n, (forall m, max_configs (fr_policy r) = Some m -> 1 <= m <= 1000 /\ n = Z.to_nat m) /\
    selected_configs r = take n (let_through (fr_policy r) raws) /\
    selected_count r = len (selected_configs r) /\ filtered_count r = len (let_through (fr_policy r) raws).
Proof.
  unfold filter_native_configs. intros (p & Hp & E)%result_bind_Ret. injection E as <-.
  cbn [fr_policy selected_configs selected_count filtered_count].
  destruct (max_configs p) as [m|] eqn:Hm.
  - exists (Z.to_nat m). split; [|done]. intros m' [= <-]. split; [|done]. by eapply normalized_max.
  - exists (length (let_through p raws)). split; [done|]. by rewrite take_ge.
Qed.

Lemma filter_counts raws policy r :
  filter_native_configs raws policy = Ret r ->
  0 <= invalid_count r /\ 0 <= deduplicated_count r /\
  filtered_count r <= upstream_count r - invalid_count r - deduplicated_count r.
Proof.
  unfold filter_native_configs. intros (p & _ & E)%result_bind_Ret. injection E as <-.
  cbn [invalid_count deduplicated_count filtered_count upstream_count].
  pose proof (sublist_length _ _ (unique_sublist p raws)) as H1. unfold valid_configs in H1.
  pose proof (sublist_length _ _ (sublist_filter (fun c => nc_valid c = true)
    (map parse_native_config (filter (fun s => s <> "") raws)))) as H2.
  pose proof (sublist_length _ _ (sublist_filter (fun c => admits p c = true)
    (if deduplicate_exact p then dedupe_exact [] (valid_configs raws) else valid_configs raws))) as H3.
  unfold valid_configs, len in *. rewrite length_map in *. lia.
Qed.

(** What a cup takes over from a panel's subscription.  Every link selected is
    one the panel sent, recognised as valid and let through by the policy of
    the source; the links keep the panel's order; none comes twice when the
    policy says so; there are never more than the policy's maximum; when the
    maximum cut nothing off, no valid link the policy lets through is missing;
    and the counts of the report add up. *)
Theorem filter_outcome raws policy r : filter_native_configs raws policy = Ret r -> selection raws r.
Proof.
  intros E. destruct (filter_selected _ _ _ E) as (n & Hmax & Hsel & Hcount & Hf).
  destruct (filter_counts _ _ _ E) as (Hi & Hd & Hc). clear E.
  assert (Hsub : selected_configs r `sublist_of` let_through (fr_policy r) raws) by (rewrite Hsel; apply sublist_take).
  assert (Hvalid : let_through (fr_policy r) raws `sublist_of` valid_configs raws).
  { etrans; [apply sublist_filter|apply unique_sublist]. }
  constructor.
  - intros c Hc'. assert (Hl : c ∈ let_through (fr_policy r) raws) by (by eapply elem_of_sublist).
    destruct (valid_configs_parsed raws c) as [H1 H2]; [by eapply elem_of_sublist|].
    apply list_elem_of_filter in Hl as [Ha _]. by split; [|split].
  - etrans; [|apply valid_configs_raw]. apply fmap_sublist. by etrans.
  - intros Hu. eapply sublist_NoDup; [|by apply fmap_sublist, Hsub]. unfold let_through. rewrite Hu.
    eapply sublist_NoDup; [|apply fmap_sublist, sublist_filter]. apply dedupe_NoDup.
  - intros m Hm. destruct (Hmax m Hm) as [? ->]. rewrite Hsel. unfold len. rewrite length_take. lia.
  - intros Hall raw H1 H2 H3 H4. assert (selected_configs r = let_through (fr_policy r) raws) as ->.
    { rewrite Hsel in *. apply take_ge. unfold len in *. rewrite Hcount, Hf, length_take in Hall. lia. }
    unfold let_through. pose proof (valid_configs_complete raws raw H1 H2 H3) as Hv.
    destruct (deduplicate_exact (fr_policy r)).
    + destruct (dedupe_complete [] _ _ Hv) as [[]%not_elem_of_nil|(c & Hc1 & Hc2)%list_elem_of_fmap].
      rewrite parse_native_raw in Hc1. subst raw. apply list_elem_of_fmap_2, list_elem_of_filter. split; [|done].
      destruct (valid_configs_parsed raws c) as [Hp _]; [eapply elem_of_sublist; [done|apply dedupe_sublist]|]. by rewrite Hp.
    + apply list_elem_of_fmap. exists (parse_native_config raw). rewrite parse_native_raw. split; [done|].
      by apply list_elem_of_filter.
  - apply sublist_length in Hsub. unfold len in *. lia.
Qed.
End Filter.

Definition sample_upstream : list string :=
  ["vless://u@a:1#one"; "http://nothing"; "trojan://p@b:2#two"; "vless://u@a:1#one"; ""].

Lemma filter_outcome_witness :
  exists r, @filter_native_configs sample_env sample_upstream ∅ = Ret r /\ @selection sample_env sample_upstream r /\
    map nc_raw_link (selected_configs r) = ["vless://u@a:1#one"; "trojan://p@b:2#two"] /\
    upstream_count r = 4 /\ invalid_count r = 1 /\ deduplicated_count r = 1.
Proof.
  eexists. split; [vm_compute; reflexivity|]. split; [|split; [reflexivity|split; [reflexivity|split; reflexivity]]].
  apply (@filter_outcome sample_env sample_upstream ∅). vm_compute. reflexivity.
Defined.
