(* ===== verification/FeedsSpec.v ===== *)
(** What following a panel's subscription guarantees: refreshes keep their
    pace, a refresh that fails or lost its lease leaves every cup as it was, and
    one that succeeds makes the feed's part of the cup exactly the selected
    links. *)

From S2P Require Import Prelude Models World Numbers Submission ClientManagement Inventory Cups FeedFilter Feeds CupsSpec.
Import ExternalFeed.

#[local] Open Scope string_scope.
#[local] Open Scope Z_scope.

(** ** Pace *)

Section Pace.
Context `{Env}.

(** The interval a refresh is scheduled by, in hours. *)
Definition effective_interval (f : feed_row) (hours : option Z) : Z :=
  as_positive_int hours (if refresh_interval_hours f =? 0 then DEFAULT_REFRESH_INTERVAL_HOURS
                         else refresh_interval_hours f) None.

Definition hour : Z := 60 * 60 * second.

Lemma jitter_window_bounds s : 60 <= jitter_window s <= 1800.
Proof. unfold jitter_window. lia. Qed.

Lemma effective_interval_pos f hours : 0 <= refresh_interval_hours f -> 1 <= effective_interval f hours.
Proof.
  unfold effective_interval, as_positive_int, DEFAULT_REFRESH_INTERVAL_HOURS. intros Hf.
  destruct hours as [n|]; [destruct (n <=? 0) eqn:Hn|]; destruct (refresh_interval_hours f =? 0) eqn:Hz; lia.
Qed.

Lemma next_refresh_within fpk f hours now :
  0 <= refresh_interval_hours f ->
  let next := next_refresh_at_for_feed fpk f hours now in
  now + effective_interval f hours * hour <= next < now + effective_interval f hours * hour + 1800 * second.
Proof.
  intros Hf. unfold next_refresh_at_for_feed. cbv zeta. fold (effective_interval f hours).
  set (w := jitter_window _). assert (Hw : 60 <= w <= 1800) by apply jitter_window_bounds.
  pose proof (Z.mod_pos_bound (sha256_prefix_int (feed_identity fpk f)) w ltac:(lia)).
  unfold hour, second. lia.
Qed.

(** A feed's next refresh is scheduled within fixed bounds.  Whatever interval
    is asked for - none, zero, negative - the next attempt lies at least one
    hour and at most the feed's interval and half an hour ahead; the spread
    between feeds never exceeds half an hour; and after a successful refresh
    the interval is the policy's, between one hour and thirty days. *)
Theorem next_refresh_bounds fpk f hours r now :
  0 <= refresh_interval_hours f ->
  1 <= effective_interval f hours /\
  (let next := next_refresh_at_for_feed fpk f hours now in
   now + effective_interval f hours * hour <= next < now + effective_interval f hours * hour + 1800 * second) /\
  (1 <= policy_interval_hours (fr_policy r) <= 720 ->
   exists t, next_refresh_at (refreshed_feed fpk r now f) = Some t /\ now + hour <= t < now + 720 * hour + 1800 * second).
Proof.
  intros Hf. split; [by apply effective_interval_pos|]. split; [by apply next_refresh_within|].
  intros Hp. eexists. split; [reflexivity|].
  match goal with |- context [next_refresh_at_for_feed fpk ?x ?h now] => set (f1 := x) end.
  assert (Hi : refresh_interval_hours f1 = policy_interval_hours (fr_policy r)) by reflexivity. clearbody f1.
  pose proof (next_refresh_within fpk f1 (Some (refresh_interval_hours f1)) now ltac:(lia)) as Hn. cbv zeta in Hn.
  assert (He : effective_interval f1 (Some (refresh_interval_hours f1)) = policy_interval_hours (fr_policy r)).
  { unfold effective_interval, as_positive_int. destruct (_ <=? 0) eqn:Hz; lia. }
  rewrite He in Hn. unfold hour, second in *. lia.
Qed.

Lemma normalized_interval policy p :
  normalize_external_subscription_filter_policy policy = Ret p -> 1 <= policy_interval_hours p <= 720.
Proof.
  unfold normalize_external_subscription_filter_policy. intros (? & _ & E)%result_bind_Ret.
  apply result_bind_Ret in E as (? & _ & E). apply result_bind_Ret in E as (? & _ & E). injection E as <-.
  cbn [policy_interval_hours]. unfold as_positive_int, DEFAULT_REFRESH_INTERVAL_HOURS.
  destruct (_ ≫= _) as [m|]; [|lia]. destruct (m <=? 0) eqn:Hm; lia.
Qed.

(** ** Protection against a sudden loss *)

(** What the code compares with. *)
Definition previous_count (fpk : Z) (f : feed_row) (d : DB) : Z :=
  if last_good_config_count f =? 0 then source_owned_cup_item_count fpk f d else last_good_config_count f.

(** The sizes, up to two thousand, of which seventy percent is a whole number
    that the product in floating point falls short of. *)
Definition rounded_down : list Z :=
  [90; 170; 180; 330; 340; 350; 360; 650; 660; 670; 680; 690; 700; 710; 720; 730; 1290; 1300; 1310; 1320; 1330;
   1340; 1350; 1360; 1370; 1380; 1390; 1400; 1410; 1420; 1430; 1440; 1450; 1460].

Lemma round_table p : 0 <= p <= 2000 ->
  Z.shiftr (round53 (p * double_07)) 53 = 7 * p / 10 - Z.b2z (bool_decide (p ∈ rounded_down)) /\
  (p ∈ rounded_down -> 7 * p mod 10 = 0).
Proof.
  intros Hp. assert (Ha : forallb (fun p => (Z.shiftr (round53 (p * double_07)) 53
      =? 7 * p / 10 - Z.b2z (bool_decide (p ∈ rounded_down)))
    && (negb (bool_decide (p ∈ rounded_down)) || (7 * p mod 10 =? 0))) (seqZ 0 2001) = true) by (vm_compute; reflexivity).
  rewrite forallb_forall in Ha. specialize (Ha p). rewrite <- list_elem_of_In in Ha.
  specialize (Ha ltac:(apply elem_of_seqZ; lia)). apply andb_true_iff in Ha as [H1%Z.eqb_eq H2]. split; [done|].
  intros Hin. rewrite (bool_decide_true _ Hin) in H2. by apply Z.eqb_eq.
Qed.

(** C13: When a refresh is held back as suspicious, for a cup of up to two
    thousand links.  With at least five links before and no force, a refresh is
    refused exactly when it would lose more than seven tenths of them - except
    that at thirty-four of these sizes, where the product with 0.70 falls just
    short, losing exactly seven tenths is refused as well.  So an upstream that
    goes empty never empties a cup of five to two thousand links. *)
Theorem drop_protection_bounds fpk f r d :
  0 <= selected_count r -> 0 <= previous_count fpk f d <= 2000 ->
  let previous := previous_count fpk f d in
  let lost := previous - selected_count r in
  should_block_massive_drop fpk f r false d
  = (5 <=? previous) && ((7 * previous <? 10 * lost)
                         || (bool_decide (previous ∈ rounded_down) && (7 * previous =? 10 * lost))).
Proof.
  intros Hs Hp. cbv zeta. unfold should_block_massive_drop. fold (previous_count fpk f d). cbn [negb andb].
  unfold DROP_PROTECTION_MIN_PREVIOUS_COUNT. f_equal.
  destruct (round_table _ Hp) as [Ht Hm]. set (p := previous_count fpk f d) in *. clearbody p.
  set (t := round53 (p * double_07)) in *. clearbody t. set (lost := p - selected_count r). clearbody lost.
  rewrite Z.shiftr_div_pow2 in Ht by lia. rewrite Z.shiftl_mul_pow2 by lia.
  assert (Hl : (t <? lost * 2 ^ 53) = (t / 2 ^ 53 <? lost)).
  { destruct (t / 2 ^ 53 <? lost) eqn:E; apply Z.ltb_lt || apply Z.ltb_ge; Z.to_euclidean_division_equations; lia. }
  rewrite Hl, Ht. clear Hl Ht. case_bool_decide as Hin; cbn [Z.b2z andb].
  - specialize (Hm Hin). destruct (7 * p <? 10 * lost) eqn:E1, (7 * p =? 10 * lost) eqn:E2; cbn [orb];
      apply Z.ltb_lt || apply Z.ltb_ge; Z.to_euclidean_division_equations; lia.
  - rewrite orb_false_r. destruct (7 * p <? 10 * lost) eqn:E1; apply Z.ltb_lt || apply Z.ltb_ge;
      Z.to_euclidean_division_equations; lia.
Qed.
End Pace.

(** ** Refreshes that do not go through *)

(** What customers download depends on this alone. *)
Definition cup_contents (w : World) := (cup_items (db w), config_links (db w)).

#[global] Instance keeps_cup_contents_undoable : Undoable (keeps cup_contents).
Proof. by intros w w' Hw. Qed.

Lemma render_same trailing cup w w' :
  cup_contents w' = cup_contents w ->
  render_subscription_cup_raw trailing cup (db w') = render_subscription_cup_raw trailing cup (db w).
Proof.
  unfold cup_contents. intros [= Hi Hl].
  assert (Ha : active_cup_links cup (db w') = active_cup_links cup (db w)); [|by unfold render_subscription_cup_raw; rewrite Ha].
  unfold active_cup_links, active_cup_items, items_where, raw_links_of, link_active. by rewrite Hi, Hl.
Qed.

#[local] Hint Extern 1 (keeps cup_contents _ _) => reflexivity : frames.
#[local] Hint Extern 1 (keeps db _ _) => reflexivity : frames.

Section Refresh.
Context `{Env} (same_policy : metadata -> metadata -> bool).

Lemma fetch_feed_db f : respects (keeps db) (fetch_feed f).
Proof. unfold fetch_feed. walk. Qed.

Lemma candidate_links_db cands f : respects (keeps db) (candidate_links cands f).
Proof.
  unfold candidate_links. destruct cands as [l|]; [walk|]. intros w r w'.
  destruct (fetch_feed f w) as [x w1] eqn:E. apply fetch_feed_db in E.
  destruct x as [l|e]; [by intros [= _ <-]|]. destruct e; by intros [= _ <-].
Qed.

Lemma keeps_db {A B} (g : World -> B) (m : IO A) :
  (forall w w', db w' = db w -> g w' = g w) -> respects (keeps db) m -> respects (keeps g) m.
Proof. intros Hg Hm w r w' E. apply Hg. exact (Hm _ _ _ E). Qed.

(** A refresh in flight, and one that ended without success, shows the cups
    [v]; [ok] tells whether success may be reported without touching them. *)
Definition shows v (w : World) : Prop := cup_contents w = v.
Definition unless_done (dry_run : bool) v (s : refresh_summary) (w : World) : Prop :=
  sm_ok s = false \/ dry_run = true -> shows v w.

Lemma shows_keeps {A} v (m : IO A) : respects (keeps cup_contents) m -> triple (shows v) m (fun _ => shows v) (shows v).
Proof. intros Hm. apply (triple_frame (keeps cup_contents)); [done|]. unfold keeps, shows. congruence. Qed.

Ltac still := apply triple_ret; intros ? Hw _; exact Hw.

Lemma mark_failure_shows v fpk f code m r token now dry :
  triple (shows v) (mark_feed_failure fpk f code m r token now) (unless_done dry v) (shows v).
Proof.
  eapply triple_post; [apply shows_keeps|by intros s w Hw _].
  unfold mark_feed_failure, get_feed. walk.
Qed.

Lemma reconcile_shows v fpk f r token allow now :
  triple (shows v) (reconcile_success same_policy fpk f r token allow now) (unless_done false v) (shows v).
Proof.
  unfold reconcile_success, get_feed. apply triple_atomic.
  2: { unfold shows, cup_contents. by intros w w' Hw ->. }
  eapply triple_bind; [eapply triple_any; by apply triple_get_or_raise|]. intros c. cbv beta.
  apply (triple_pre _ (shows v)); [by intros ? []|].
  eapply triple_bind; [eapply triple_any; by apply triple_get_or_raise|]. intros g. cbv beta.
  apply (triple_pre _ (shows v)); [by intros ? []|].
  eapply triple_bind; [apply triple_get_db|]. intros d. cbv beta.
  apply (triple_pre _ (shows v)); [by intros ? []|].
  destruct (superseded _ _ _); [still|]. destruct (_ || _); [still|]. destruct (_ || _); [still|]. cbv zeta.
  do 4 (eapply triple_bind; [apply triple_true|]; intros ?; cbv beta zeta).
  apply triple_ret. intros w _ [Hf|Hf]; discriminate Hf.
Qed.

Lemma claimed_refresh_shows v others fpk force dry cands token later :
  respects (keeps cup_contents) others ->
  triple (shows v) (refresh_claimed_feed same_policy others fpk force dry cands token later) (unless_done dry v) (shows v).
Proof.
  intros Ho. unfold refresh_claimed_feed, get_feed.
  eapply triple_bind; [by apply triple_get_or_raise|]. intros f. apply (triple_pre _ (shows v)); [by intros ? []|].
  eapply triple_bind; [apply triple_get_db|]. intros d. apply (triple_pre _ (shows v)); [by intros ? []|].
  destruct (disabled f && negb force); [still|].
  eapply triple_bind.
  { apply shows_keeps. eapply keeps_db; [|apply candidate_links_db]. intros w w' E. unfold cup_contents. by rewrite E. }
  intros links. cbv beta. eapply triple_bind; [by apply shows_keeps|]. intros ?. cbv beta.
  destruct links as [l|[m c]].
  - eapply triple_bind; [by apply triple_liftR|]. intros r. apply (triple_pre _ (shows v)); [by intros ? []|].
    eapply triple_bind; [apply triple_get_db|]. intros d'. apply (triple_pre _ (shows v)); [by intros ? []|]. cbv zeta.
    destruct dry; [still|]. destruct (negb _); [apply mark_failure_shows|apply reconcile_shows].
  - eapply triple_bind; [apply triple_get_db|]. intros d'. apply (triple_pre _ (shows v)); [by intros ? []|]. cbv zeta.
    destruct dry; [still|apply mark_failure_shows].
Qed.

Lemma claim_shows v fpk force n token now :
  triple (shows v) (claim_feed fpk force n token now)
    (fun s w => shows v w /\ match s with Some s => sm_ok s = false | None => True end) (shows v).
Proof.
  intros w r w' Hw E. assert (Hk : shows v w').
  { assert (Hr : respects (keeps cup_contents) (claim_feed fpk force n token now)) by (unfold claim_feed, get_feed; walk).
    unfold shows in *. rewrite <- Hw. exact (Hr _ _ _ E). }
  destruct r as [s|e]; [|done]. split; [done|]. apply (proj1 (atomic_Ret _ _ _ _)) in E. unfold get_feed in E.
  apply M_bind_Ret in E as (f & w1 & [_ ->]%get_or_raise_Ret & E). apply M_bind_Ret in E as (d & w2 & [= <- <-] & E).
  cbv zeta in E. destruct (_ || _); [by injection E as <- _|].
  apply M_bind_Ret in E as (u & w3 & _ & E). by injection E as <- _.
Qed.

(** C10: A refresh that does not succeed never takes a link away from a customer.
    Whatever a refresh ends in - refused, the panel down, nothing left by the
    filter, a suspicious loss, a lease lost, an exception, or only a preview -
    every item of every cup and every link is as it was, so all cups serve the
    same text. *)
Theorem failed_refresh_keeps_cups others fpk force dry cands n token now later w r w' :
  respects (keeps cup_contents) others ->
  refresh_external_subscription_feed same_policy others fpk force dry cands n token now later w = (r, w') ->
  (forall s, r = Ret s -> sm_ok s = false \/ dry = true) ->
  cup_contents w' = cup_contents w /\
  forall trailing cup, render_subscription_cup_raw trailing cup (db w') = render_subscription_cup_raw trailing cup (db w).
Proof.
  intros Ho Hrun Hr. assert (Hk : cup_contents w' = cup_contents w); [|by split; [|intros; apply render_same]].
  assert (Ht : triple (shows (cup_contents w))
    (refresh_external_subscription_feed same_policy others fpk force dry cands n token now later)
    (unless_done dry (cup_contents w)) (shows (cup_contents w))).
  2: { specialize (Ht w r w' eq_refl Hrun). destruct r as [s|e]; [|exact Ht]. exact (Ht (Hr s eq_refl)). }
  generalize (cup_contents w). clear w w' r Hrun Hr. intros v. unfold refresh_external_subscription_feed.
  destruct dry; [by apply claimed_refresh_shows|].
  eapply triple_bind; [apply claim_shows|]. intros [s|]; cbv beta.
  - apply triple_ret. by intros w [Hw _] _.
  - apply (triple_pre _ (shows v)); [by intros ? []|]. intros w r w' Hw. unfold finally.
    destruct (refresh_claimed_feed _ _ _ _ _ _ _ _ w) as [x w1] eqn:E. intros [= <- <-].
    apply (claimed_refresh_shows v) in E; [|done..]. by destruct x.
Qed.

(** ** A lost lease *)

(** The world after the lease was taken. *)
Definition leased (fpk : Z) (token : string) (now : Z) (f : feed_row) (d : DB) : DB :=
  set_feed fpk (f {{ refresh_token := token; refresh_lease_until := Some (now + 90 * second);
                     last_attempt_at := Some now }}) d.

Lemma claim_feed_inv fpk force n token now w r w' :
  claim_feed fpk force n token now w = (r, w') ->
  (db w' = db w /\ (forall x, r = Ret x -> exists s, x = Some s /\ sm_ok s = false)) \/
  (exists f, r = Ret None /\ external_feeds (db w) !! fpk = Some f /\ db w' = leased fpk token now f (db w)).
Proof.
  intros E. destruct r as [x|e]; [|left; split; [by apply atomic_Raise_db in E|done]].
  apply (proj1 (atomic_Ret _ _ _ _)) in E. unfold get_feed in E.
  apply M_bind_Ret in E as (f & w1 & [Hf ->]%get_or_raise_Ret & E). apply M_bind_Ret in E as (d & w2 & [= <- <-] & E).
  cbv zeta in E. destruct (_ || _).
  - injection E as <- <-. left. split; [done|]. intros y [= <-]. by eexists.
  - apply M_bind_Ret in E as (u & w3 & [= _ <-] & E). injection E as <- <-. right. by exists f.
Qed.

(** Another worker holds the lease. *)
Definition taken_over (fpk : Z) (token : string) (w : World) : Prop :=
  exists f, external_feeds (db w) !! fpk = Some f /\ refresh_token f <> token.

Lemma release_taken_over fpk token w : taken_over fpk token w -> db (release_lease fpk token w) = db w.
Proof.
  intros (f & Hf & Ht). unfold release_lease. cbn. rewrite update_where_id; [by destruct (db w)|].
  intros k v Hk [Hk' Hv]%andb_true_iff. apply Z.eqb_eq in Hk' as ->. apply bool_decide_eq_true in Hv. congruence.
Qed.

Lemma superseded_taken_over token f now : token <> "" -> refresh_token f <> token -> superseded token f now = true.
Proof. intros H1 H2. unfold superseded. by rewrite !bool_decide_false. Qed.

Section TakenOver.
Context (fpk : Z) (token : string) (Htoken : token <> "") (D : DB) (Htaken : forall w, db w = D -> taken_over fpk token w).

#[local] Definition left_alone (s : refresh_summary) (w : World) : Prop := sm_ok s = false /\ db w = D.

Lemma failure_left_alone f c m r now :
  triple (fun w => db w = D) (mark_feed_failure fpk f c m r token now) left_alone (fun w => db w = D).
Proof.
  unfold mark_feed_failure, get_feed. apply triple_atomic; [|congruence].
  eapply triple_bind; [eapply triple_any; by apply triple_get_or_raise|]. intros g. cbv beta.
  eapply triple_bind; [apply triple_get_db|]. intros d. cbv beta.
  apply (triple_pre _ (fun w => refresh_token g <> token /\ db w = D)).
  { intros w (_ & Hg & Hw). split; [|done]. destruct (Htaken w Hw) as (g' & Hg' & Ht). congruence. }
  apply triple_pure. intros Ht. rewrite superseded_taken_over by done. by apply triple_ret.
Qed.

Lemma success_left_alone f r allow now :
  triple (fun w => db w = D) (reconcile_success same_policy fpk f r token allow now) left_alone (fun w => db w = D).
Proof.
  unfold reconcile_success, get_feed. apply triple_atomic; [|congruence].
  eapply triple_bind; [eapply triple_any; by apply triple_get_or_raise|]. intros c. cbv beta.
  apply (triple_pre _ (fun w => db w = D)); [by intros ? []|].
  eapply triple_bind; [eapply triple_any; by apply triple_get_or_raise|]. intros g. cbv beta.
  eapply triple_bind; [apply triple_get_db|]. intros d. cbv beta.
  apply (triple_pre _ (fun w => refresh_token g <> token /\ db w = D)).
  { intros w (_ & Hg & Hw). split; [|tauto]. destruct (Htaken w Hw) as (g' & Hg' & Ht). congruence. }
  apply triple_pure. intros Ht. rewrite superseded_taken_over by done. by apply triple_ret.
Qed.
End TakenOver.

(** A refresh holding the lease, whose lease was taken over meanwhile: it ends
    where it began or where [others] left things. *)
Definition overtaken (others : World -> World) (D : DB) (x : option refresh_summary) (w : World) : Prop :=
  (forall s, x = Some s -> sm_ok s = false) /\ (db w = D \/ exists w1, db w1 = D /\ db w = db (others w1)).

Lemma claimed_refresh_overtaken others fpk force cands token later D w r w' :
  token <> "" -> (forall w, taken_over fpk token (others w)) -> db w = D ->
  refresh_claimed_feed same_policy (fun w => (Ret tt, others w)) fpk force false cands token later w = (r, w') ->
  overtaken others D (match r with Ret s => Some s | Raise _ => None end) w'.
Proof.
  intros Htoken Ho Hw E.
  unfold refresh_claimed_feed, get_feed, mbind, M_bind, get_or_raise, get_db in E.
  destruct (external_feeds (db w) !! fpk) as [f|]; [|injection E as <- <-; split; [done|by left]].
  destruct (disabled f && negb force); [injection E as <- <-; split; [by intros s [= <-]|by left]|].
  destruct (candidate_links cands f w) as [[links|e] w1] eqn:Ec; apply candidate_links_db in Ec.
  2: { injection E as <- <-. split; [done|]. left. unfold keeps in Ec. congruence. }
  assert (Hafter : forall x, (forall s, x = Some s -> sm_ok s = false) /\ db w' = db (others w1) -> overtaken others D x w').
  { intros x [Hx Hd]. split; [done|]. right. exists w1. split; [unfold keeps in Ec; congruence|done]. }
  apply Hafter. assert (Ht : forall w2, db w2 = db (others w1) -> taken_over fpk token w2).
  { intros w2 Hd. unfold taken_over. rewrite Hd. apply Ho. }
  assert (Hl : forall m : IO refresh_summary, m (others w1) = (r, w') ->
    triple (fun w => db w = db (others w1)) m (left_alone (db (others w1))) (fun w => db w = db (others w1)) ->
    (forall s, match r with Ret s => Some s | Raise _ => None end = Some s -> sm_ok s = false) /\ db w' = db (others w1)).
  { intros m Em Hm. specialize (Hm _ _ _ eq_refl Em). destruct r as [s|e]; [|by split].
    destruct Hm as [Hs Hd]. split; [by intros s' [= <-]|done]. }
  destruct links as [l|[m c]].
  - destruct (filter_native_configs l (resolved_filter_policy f)) as [fr|e]; cbn in E; [|by injection E as <- <-].
    destruct (negb _) in E; (eapply Hl; [exact E|]); [by apply failure_left_alone|by apply success_left_alone].
  - eapply Hl; [exact E|]. by apply failure_left_alone.
Qed.

(** C11: Two workers never write the same feed's refresh.  If, while a refresh waits
    for the panel, another one takes over its lease, the first reports no
    success and writes nothing more: the database it ends with is exactly the one
    the others left - the new holder's lease included - or, when it never got to
    the panel's answer, one with the same cups as at the start. *)
Theorem superseded_refresh_writes_nothing others fpk force cands n token now later w r w' :
  token <> "" -> (forall w, taken_over fpk token (others w)) ->
  refresh_external_subscription_feed same_policy (fun w => (Ret tt, others w)) fpk force false cands n token now later w
    = (r, w') ->
  (forall s, r = Ret s -> sm_ok s = false) /\
  (cup_contents w' = cup_contents w \/
   exists f w1, external_feeds (db w) !! fpk = Some f /\ db w1 = leased fpk token now f (db w) /\ db w' = db (others w1)).
Proof.
  intros Htoken Ho. unfold refresh_external_subscription_feed, mbind, M_bind.
  destruct (claim_feed fpk force n token now w) as [x w0] eqn:Ec. apply claim_feed_inv in Ec as [[Hd Hx]|(f & -> & Hf & Hd)].
  - assert (Hk : cup_contents w0 = cup_contents w) by (unfold cup_contents; by rewrite Hd).
    destruct x as [y|e]; [|intros [= <- <-]; split; [done|by left]]. destruct (Hx y eq_refl) as (s & -> & Hs).
    intros [= <- <-]. split; [by intros s' [= <-]|by left].
  - unfold finally. destruct (refresh_claimed_feed _ _ _ _ _ _ _ _ w0) as [y w1] eqn:E.
    apply (claimed_refresh_overtaken _ _ _ _ _ _ _ _ _ _ Htoken Ho Hd) in E as [Hs Hd1].
    intros [= <- <-]. split; [intros s ->; by apply Hs|]. destruct Hd1 as [Hd1|(w2 & Hd2 & Hd1)].
    + left. unfold cup_contents, release_lease. cbn. by rewrite Hd1.
    + right. exists f, w2. split; [done|]. split; [done|]. rewrite release_taken_over; [done|].
      unfold taken_over. rewrite Hd1. apply Ho.
Qed.
End Refresh.

(** ** A cup that follows a feed, for examples *)

Definition sample_feed (url : string) (previous : Z) : feed_row := {|
  provider := "PasarGuard "; active := true; cup := 9; delivery_source := Some 70; panel := Some 1; vpn_client := None;
  remote_identity_ref := "user:7"; protected_subscription_url := url; resolved_filter_policy := ∅;
  refresh_interval_hours := 2; next_refresh_at := Some 0; last_attempt_at := None; refresh_token := "";
  refresh_lease_until := None; last_success_at := None; consecutive_failures := 0; status := HEALTHY;
  last_good_config_count := previous; last_seen_upstream_count := previous; last_filtered_count := previous;
  last_error_code := ""; feed_metadata := ∅ |}.

Definition sample_feed_link (raw : string) : link_row :=
  @apply_config_link_parse sample_env raw ConfigLink.EXTERNAL_SUBSCRIPTION (Some 1) None None (Some (Some 3)) None blank_link.

Definition sample_cup : cup_row := {|
  SubscriptionCup.customer := None; SubscriptionCup.order := None; SubscriptionCup.plan := None;
  SubscriptionCup.vpn_client := None; SubscriptionCup.token := "tok9"; SubscriptionCup.status := SubscriptionCup.ACTIVE;
  SubscriptionCup.expires_at := None; SubscriptionCup.traffic_limit_bytes := 0; SubscriptionCup.device_limit := None;
  SubscriptionCup.cup_metadata := ∅; SubscriptionCup.created_at := 0 |}.

(** The cup holds an old link, one the panel still sends and one of its own. *)
Definition feeding_shop (url : string) : World := sample_shop {{ db ::= fun d => d {{
  cups := {[ 9 := sample_cup ]}; external_feeds := {[ 3 := sample_feed url 2 ]};
  config_links := {[ 1 := sample_feed_link "vless://old"; 2 := sample_feed_link ("vless://2." +:+ url);
    4 := @apply_config_link_parse sample_env "ss://own@h:1" ConfigLink.IMPORTED_SUBSCRIPTION None None None None None blank_link ]};
  cup_items := {[ 11 := CupItem.mk_cup_item 9 1 1 true FEED_REASON ∅; 12 := CupItem.mk_cup_item 9 2 2 true FEED_REASON ∅;
    14 := CupItem.mk_cup_item 9 4 9 true "" ∅ ]} }} }}.

Lemma next_refresh_bounds_witness :
  let next := @next_refresh_at_for_feed sample_env 3 (sample_feed "up" 2) (Some (-5)) 100 in
  100 + 2 * hour <= next < 100 + 2 * hour + 1800 * second.
Proof.
  apply (proj1 (proj2 (@next_refresh_bounds sample_env 3 (sample_feed "up" 2) (Some (-5))
    (mk_filter_result (mk_policy [] [] [] "" "" true None true 1) 0 0 0 0 0 0 [] [] [] [] []) 100
    ltac:(vm_compute; discriminate)))).
Defined.

(** Losing exactly seven tenths of ninety links is held back, of a hundred not. *)
Lemma drop_protection_bounds_witness :
  let r n := mk_filter_result (mk_policy [] [] [] "" "" true None true 1) n n 0 0 n n [] [] [] [] [] in
  should_block_massive_drop 3 (sample_feed "up" 90) (r 27) false (db sample_shop) = true /\
  should_block_massive_drop 3 (sample_feed "up" 100) (r 30) false (db sample_shop) = false.
Proof.
  intros r. split.
  - rewrite (drop_protection_bounds 3 (sample_feed "up" 90) (r 27) (db sample_shop) ltac:(vm_compute; discriminate)
      ltac:(split; vm_compute; discriminate)). vm_compute. reflexivity.
  - rewrite (drop_protection_bounds 3 (sample_feed "up" 100) (r 30) (db sample_shop) ltac:(vm_compute; discriminate)
      ltac:(split; vm_compute; discriminate)). vm_compute. reflexivity.
Defined.

Definition sample_refresh (url : string) (others : IO unit) :=
  @refresh_external_subscription_feed sample_env (fun _ _ => true) others 3 false false None 0 "mine" 100 200 (feeding_shop url).

(** The panel is down: the cup serves what it did. *)
Definition nobody : IO unit := mret tt.
Definition sample_failure := sample_refresh "down" nobody.

Lemma failed_refresh_keeps_cups_witness :
  render_subscription_cup_raw true 9 (db sample_failure.2) = render_subscription_cup_raw true 9 (db (feeding_shop "down")) /\
  match sample_failure.1 with Ret s => sm_ok s = false /\ sm_status s = DEGRADED | Raise _ => False end.
Proof.
  assert (Hr : match sample_failure.1 with Ret s => sm_ok s = false /\ sm_status s = DEGRADED
               | Raise _ => False end) by (vm_compute; split; reflexivity).
  split; [|exact Hr].
  pose proof (@failed_refresh_keeps_cups sample_env (fun _ _ => true) nobody 3 false false None 0 "mine" 100 200
    (feeding_shop "down") sample_failure.1 sample_failure.2 (respects_ret _ tt)) as Ht.
  refine (proj2 (Ht _ _) true 9).
  - exact (surjective_pairing sample_failure).
  - intros s Hs. left. rewrite Hs in Hr. exact (proj1 Hr).
Defined.

(** Another worker took the feed while the panel was slow. *)
Definition other_worker (w : World) : World :=
  w {{ db ::= set_feed 3 ((sample_feed "up" 2) {{ refresh_token := "theirs"; refresh_lease_until := Some 900 }}) }}.

Lemma other_worker_takes w : taken_over 3 "mine" (other_worker w).
Proof. unfold taken_over, other_worker. eexists. cbn. rewrite lookup_insert_eq. split; [reflexivity|discriminate]. Qed.

Definition sample_overtaken := sample_refresh "up" (fun w => (Ret tt, other_worker w)).

Lemma superseded_refresh_writes_nothing_witness :
  (forall s, sample_overtaken.1 = Ret s -> sm_ok s = false) /\
  match sample_overtaken.1 with Ret s => sm_error_code s = "refresh_superseded" | _ => False end.
Proof.
  split; [|vm_compute; reflexivity].
  pose proof (@superseded_refresh_writes_nothing sample_env (fun _ _ => true) other_worker 3 false None 0 "mine" 100 200
    (feeding_shop "up") sample_overtaken.1 sample_overtaken.2 ltac:(discriminate) other_worker_takes) as Ht.
  refine (proj1 (Ht _)). exact (surjective_pairing sample_overtaken).
Defined.
