(* ===== verification/FeedFill.v ===== *)
(** A refresh that goes through: the feed's part of the cup afterwards is the
    list it selected, in that order, and nothing else in any cup moved. *)

From S2P Require Import Prelude Models World Numbers Submission ClientManagement Inventory Cups FeedFilter Feeds CupsSpec FeedsSpec.
Import ExternalFeed.

#[local] Open Scope string_scope.
#[local] Open Scope Z_scope.

(** ** The loop *)

(** An item of the cup at a place, with its link. *)
Definition item_at (cup : Z) (d : DB) (ipk lpk pos : Z) : Prop :=
  exists i, cup_items d !! ipk = Some i /\ CupItem.cup i = cup /\ CupItem.config_link i = lpk /\
    CupItem.position i = pos /\ CupItem.is_active i = true.
Definition link_of (fpk : Z) (raw : string) (d : DB) (lpk : Z) : Prop :=
  exists c, config_links d !! lpk = Some c /\ ConfigLink.raw_link c = strip raw /\ ConfigLink.is_active c = true /\
    ConfigLink.external_feed c = Some fpk.

Fixpoint filled (fpk cup : Z) (d : DB) (pos : Z) (slots : list (Z * Z)) (selected : list native_config) : Prop :=
  match slots, selected with
  | [], [] => True
  | s :: slots, c :: selected =>
      item_at cup d s.1 s.2 pos /\ link_of fpk (nc_raw_link c) d s.2 /\ filled fpk cup d (pos + 1) slots selected
  | _, _ => False
  end.

(** Everything outside the slots is as it was. *)
Definition same_but (slots : list (Z * Z)) (d d' : DB) : Prop :=
  (forall k, k ∉ slots.*1 -> cup_items d' !! k = cup_items d !! k) /\
  (forall l, l ∉ slots.*2 -> config_links d' !! l = config_links d !! l).

(** The existing items the loop may reuse are where it will look for them. *)
Record reusable_in (cup : Z) (d : DB) (items : list (Z * item_row)) : Prop := {
  ru_items : NoDup items.*1;
  ru_links : NoDup (map (fun ki => CupItem.config_link ki.2) items);
  ru_there : forall k i, (k, i) ∈ items ->
    (exists i', cup_items d !! k = Some i' /\ CupItem.cup i' = cup /\ CupItem.config_link i' = CupItem.config_link i) /\
    is_Some (config_links d !! CupItem.config_link i);
}.

(** A slot is an item reused with its own link, or a new item on a new link. *)
Definition slot_of (d : DB) (items : list (Z * item_row)) (s : Z * Z) : Prop :=
  (exists i, (s.1, i) ∈ items /\ CupItem.config_link i = s.2) \/
  (cup_items d !! s.1 = None /\ config_links d !! s.2 = None).

Lemma take_reusable_perm d raw items ki rest :
  take_reusable d raw items = Some (ki, rest) -> items ≡ₚ ki :: rest.
Proof.
  revert ki rest. induction items as [|x items IH]; intros ki rest; cbn [take_reusable]; [done|].
  case_bool_decide; [by intros [= -> ->]|].
  destruct (take_reusable d raw items) as [[found rest']|]; [|done]. intros [= -> <-].
  rewrite (IH ki rest' eq_refl). apply Permutation_swap.
Qed.

Lemma item_at_frame cup d d' ipk lpk pos :
  cup_items d' !! ipk = cup_items d !! ipk -> item_at cup d ipk lpk pos -> item_at cup d' ipk lpk pos.
Proof. intros E (i & Hi). exists i. by rewrite E. Qed.
Lemma link_of_frame fpk raw d d' lpk :
  config_links d' !! lpk = config_links d !! lpk -> link_of fpk raw d lpk -> link_of fpk raw d' lpk.
Proof. intros E (c & Hc). exists c. by rewrite E. Qed.

Lemma filled_frame fpk cup d d' slots pos l :
  (forall k, k ∈ slots.*1 -> cup_items d' !! k = cup_items d !! k) ->
  (forall k, k ∈ slots.*2 -> config_links d' !! k = config_links d !! k) ->
  filled fpk cup d pos slots l -> filled fpk cup d' pos slots l.
Proof.
  revert pos l. induction slots as [|s slots IH]; intros pos [|c l] Hi Hl; try done. cbn [filled].
  intros (H1 & H2 & H3). split; [|split].
  { eapply item_at_frame; [|exact H1]. apply Hi. rewrite fmap_cons. apply list_elem_of_here. }
  { eapply link_of_frame; [|exact H2]. apply Hl. rewrite fmap_cons. apply list_elem_of_here. }
  apply IH; [..|done]; intros k Hk; [apply Hi|apply Hl]; rewrite fmap_cons; by apply list_elem_of_further.
Qed.

Lemma filled_length fpk cup d pos slots l : filled fpk cup d pos slots l -> length slots = length l.
Proof.
  revert pos l. induction slots as [|s slots IH]; intros pos [|c l]; try done. intros (_ & _ & Hf). cbn. f_equal. by eapply IH.
Qed.

Lemma StronglySorted_filter {A} (R : relation A) (P : A -> Prop) `{forall x, Decision (P x)} l :
  StronglySorted R l -> StronglySorted R (filter P l).
Proof.
  induction 1 as [|x l Hl IH Hx]; [apply SSorted_nil|]. rewrite filter_cons. destruct (decide (P x)); [|done].
  apply SSorted_cons; [done|]. apply Forall_forall. intros y [_ Hy]%list_elem_of_filter. by eapply Forall_forall in Hx.
Qed.

Section Fill.
Context `{Env}.

(** One turn: where a selected link ends up. *)
Record turned (fpk cup pos : Z) (c : native_config) (d : DB) (items : list (Z * item_row)) (s : Z * Z) (d' : DB)
    (items' : list (Z * item_row)) : Prop := {
  tu_item : item_at cup d' s.1 s.2 pos;
  tu_link : link_of fpk (nc_raw_link c) d' s.2;
  tu_same : same_but [s] d d';
  tu_left : (exists i, items ≡ₚ (s.1, i) :: items' /\ CupItem.config_link i = s.2) \/
            (items' = items /\ cup_items d !! s.1 = None /\ config_links d !! s.2 = None);
}.

Lemma feed_link_of fpk f inbound c md row d lpk :
  config_links d !! lpk = Some (feed_link fpk f inbound c md row) -> link_of fpk (nc_raw_link c) d lpk.
Proof.
  intros Hc. exists (feed_link fpk f inbound c md row). split; [done|].
  unfold feed_link, apply_config_link_parse, parse_config_link. by destruct (parse_endpoint _ _) as [[? ?] ?].
Qed.

Definition turn (read : DB) (fpk : Z) (f : feed_row) (position : Z) (reusable : list (Z * item_row)) (c : native_config)
    : IO (Z * list (Z * item_row)) :=
  let md := config_metadata fpk f c position in
  match take_reusable read (nc_raw_link c) reusable with
  | Some (ipk, i, others) =>
      _ ← put_db (fun d => d {{ config_links ::= alter (feed_link fpk f None c md) (CupItem.config_link i) }});
      _ ← put_db (fun d => d {{ cup_items ::= alter (fun i => i {{ CupItem.position := position;
             CupItem.is_active := true; CupItem.added_reason := FEED_REASON;
             CupItem.item_metadata := md }}) ipk }});
      mret (ipk, others)
  | None =>
      d ← get_db;
      let lpk := next_pk (config_links d) in
      _ ← put_db (set_link lpk (feed_link fpk f None c md blank_link));
      ipk ← create_cup_item (cup f) lpk position FEED_REASON md;
      mret (ipk, reusable)
  end.

Lemma reconcile_cons read fpk f pos reusable c rest :
  reconcile_items read fpk f pos reusable (c :: rest)
  = ('(ipk, reusable) ← turn read fpk f pos reusable c;
     ipks ← reconcile_items read fpk f (pos + 1) reusable rest; mret (ipk :: ipks)).
Proof. reflexivity. Qed.

Lemma turn_spec read fpk f pos items c w :
  reusable_in (cup f) (db w) items ->
  exists s items' w', turn read fpk f pos items c w = (Ret (s.1, items'), w') /\
    turned fpk (cup f) pos c (db w) items s (db w') items'.
Proof.
  intros [Hi Hl Ht]. unfold turn. cbv zeta.
  destruct (take_reusable read (nc_raw_link c) items) as [[[ipk i] others]|] eqn:E.
  - apply take_reusable_perm in E.
    destruct (Ht ipk i) as [(i' & Hi' & Hcup & Hlink) [row Hrow]]; [rewrite E; apply list_elem_of_here|].
    exists (ipk, CupItem.config_link i), others. eexists. split; [reflexivity|]. constructor.
    + eexists. cbn. rewrite lookup_alter_eq, Hi'. split; [reflexivity|]. by cbn.
    + apply (feed_link_of fpk f None c (config_metadata fpk f c pos) row). cbn. by rewrite lookup_alter_eq, Hrow.
    + split; intros k Hk; cbn; apply lookup_alter_ne; intros <-; apply Hk, list_elem_of_here.
    + left. by exists i.
  - exists (next_pk (cup_items (db w)), next_pk (config_links (db w))), items. eexists. split; [reflexivity|].
    constructor.
    + eexists. cbn. rewrite lookup_insert_eq. split; [reflexivity|]. by cbn.
    + apply (feed_link_of fpk f None c (config_metadata fpk f c pos) blank_link). cbn. by rewrite lookup_insert_eq.
    + split; intros k Hk; cbn; apply lookup_insert_ne; intros <-; apply Hk, list_elem_of_here.
    + right. split; [done|]. split; apply next_pk_fresh.
Qed.

(** After a turn the items left can still be reused. *)
Lemma turned_reusable fpk cup pos c d items s d' items' :
  reusable_in cup d items -> turned fpk cup pos c d items s d' items' ->
  reusable_in cup d' items' /\ s.1 ∉ items'.*1 /\ s.2 ∉ map (fun ki => CupItem.config_link ki.2) items'.
Proof.
  intros [Hi Hl Ht] [_ _ [Hsi Hsl] Hcase].
  assert (Hout : s.1 ∉ items'.*1 /\ s.2 ∉ map (fun ki => CupItem.config_link ki.2) items' /\
    NoDup items'.*1 /\ NoDup (map (fun ki => CupItem.config_link ki.2) items') /\ forall ki, ki ∈ items' -> ki ∈ items).
  { destruct Hcase as [(i & Hx & Hlink)|(-> & Hn1 & Hn2)].
    - rewrite Hx, fmap_cons in Hi. apply NoDup_cons in Hi as [Hdi Hi]. rewrite Hx in Hl. cbn in Hl. rewrite Hlink in Hl.
      apply NoDup_cons in Hl as [Hdl Hl]. do 4 (split; [done|]). intros ki Hki. rewrite Hx. by apply list_elem_of_further.
    - split; [|split; [|done]]; intros ([k i] & Hk & Hin)%list_elem_of_fmap; cbn in Hk;
        destruct (Ht k i Hin) as [(i' & Hi' & _) [r Hr]]; congruence. }
  destruct Hout as (Ho1 & Ho2 & Hi' & Hl' & Hsub). split; [|done]. constructor; [done..|]. intros k i Hin.
  assert (Hk : k ∈ items'.*1) by (apply list_elem_of_fmap; by exists (k, i)).
  assert (Hli : CupItem.config_link i ∈ map (fun ki => CupItem.config_link ki.2) items') by (apply list_elem_of_fmap; by exists (k, i)).
  rewrite Hsi, Hsl by (intros E%list_elem_of_singleton; cbn in E; (rewrite E in Hk || rewrite E in Hli); done).
  by apply Ht, Hsub.
Qed.

(** What the whole loop leaves. *)
Record loop_done (fpk cup pos : Z) (selected : list native_config) (d : DB) (items : list (Z * item_row))
    (slots : list (Z * Z)) (d' : DB) : Prop := {
  ld_filled : filled fpk cup d' pos slots selected;
  ld_items : NoDup slots.*1;
  ld_links : NoDup slots.*2;
  ld_same : same_but slots d d';
  ld_slots : forall s, s ∈ slots -> slot_of d items s;
}.

Lemma slot_back d items s d' items' s' :
  same_but [s] d d' -> is_Some (cup_items d' !! s.1) -> is_Some (config_links d' !! s.2) ->
  (forall ki, ki ∈ items' -> ki ∈ items) ->
  s.1 ∉ items'.*1 -> s.2 ∉ map (fun ki => CupItem.config_link ki.2) items' ->
  slot_of d' items' s' -> slot_of d items s' /\ s'.1 <> s.1 /\ s'.2 <> s.2.
Proof.
  intros [Hsi Hsl] [i1 H1] [l1 H2] Hsub Hn1 Hn2 [(i & Hin & Hlink)|[Hf1 Hf2]].
  - split; [left; exists i; auto|]. split.
    + intros E. apply Hn1. rewrite <- E. apply list_elem_of_fmap. by exists (s'.1, i).
    + intros E. apply Hn2. rewrite <- E, <- Hlink. apply list_elem_of_fmap. by exists (s'.1, i).
  - assert (Hne : s'.1 <> s.1 /\ s'.2 <> s.2) by (split; congruence). split; [|done]. right.
    rewrite <- Hsi, <- Hsl by (intros E%list_elem_of_singleton; cbn in E; tauto). done.
Qed.

Lemma loop_spec read fpk f selected pos items w :
  reusable_in (cup f) (db w) items ->
  exists slots w', reconcile_items read fpk f pos items selected w = (Ret slots.*1, w') /\
    loop_done fpk (cup f) pos selected (db w) items slots (db w').
Proof.
  revert pos items w. induction selected as [|c selected IH]; intros pos items w Hru.
  - exists [], w. split; [done|]. constructor; [done|apply NoDup_nil_2|apply NoDup_nil_2|done|].
    intros s Hs. by apply not_elem_of_nil in Hs.
  - destruct (turn_spec read fpk f pos items c w Hru) as (s & items' & w1 & E1 & Ht).
    destruct (turned_reusable _ _ _ _ _ _ _ _ _ Hru Ht) as (Hru' & Hn1 & Hn2).
    destruct (IH (pos + 1) items' w1 Hru') as (slots & w2 & E2 & [Hf Hi Hl [Hsi Hsl] Hslots]).
    destruct Ht as [Hitem Hlink Hsame Hleft].
    assert (Hsub : forall ki, ki ∈ items' -> ki ∈ items).
    { destruct Hleft as [(i & Hx & _)|(-> & _)]; [|done]. intros ki Hki. rewrite Hx. by apply list_elem_of_further. }
    assert (Hnew : forall s', s' ∈ slots -> slot_of (db w) items s' /\ s'.1 <> s.1 /\ s'.2 <> s.2).
    { intros s' Hs'. destruct Hitem as (i1 & Hi1 & _), Hlink as (l1 & Hl1 & _).
      eapply slot_back; [done|by eexists|by eexists|done..|by apply Hslots]. }
    assert (Ho1 : s.1 ∉ slots.*1) by (intros (s' & E & (_ & Hx & _)%Hnew)%list_elem_of_fmap; done).
    assert (Ho2 : s.2 ∉ slots.*2) by (intros (s' & E & (_ & _ & Hx)%Hnew)%list_elem_of_fmap; done).
    exists (s :: slots), w2. split.
    { rewrite reconcile_cons. unfold mbind, M_bind. rewrite E1. cbn [fst snd]. by rewrite E2. }
    constructor.
    + split; [|split; [|exact Hf]].
      * by apply (item_at_frame _ (db w1)); [apply Hsi|].
      * by apply (link_of_frame _ _ (db w1)); [apply Hsl|].
    + rewrite fmap_cons. by apply NoDup_cons.
    + rewrite fmap_cons. by apply NoDup_cons.
    + destruct Hsame as [Hs1 Hs2]. split; intros k Hk; rewrite fmap_cons, not_elem_of_cons in Hk; destruct Hk as [Hk1 Hk2].
      * rewrite Hsi, Hs1; [done|by intros E%list_elem_of_singleton|done].
      * rewrite Hsl, Hs2; [done|by intros E%list_elem_of_singleton|done].
    + intros s' [->|Hs']%elem_of_cons; [|by apply Hnew].
      destruct Hleft as [(i & Hx & Hli)|(_ & Hf1)]; [|by right].
      left. exists i. split; [rewrite Hx; apply list_elem_of_here|done].
Qed.

(** ** The transaction *)

(** What a refresh relies on: items point at links, and the feed's items in the
    cup at links of their own. *)
Record sound_cup (fpk cup : Z) (d : DB) : Prop := {
  sc_links : forall k i, cup_items d !! k = Some i -> is_Some (config_links d !! CupItem.config_link i);
  sc_own : NoDup (map (fun ki => CupItem.config_link ki.2) (feed_items fpk cup d));
}.

Lemma elem_of_feed_items fpk cup d k i :
  (k, i) ∈ feed_items fpk cup d <-> cup_items d !! k = Some i /\ CupItem.cup i = cup /\ of_feed fpk d i = true.
Proof.
  unfold feed_items, items_where. rewrite elem_of_order_by, elem_of_rows_where, andb_true_iff, bool_decide_eq_true. tauto.
Qed.

Lemma of_feed_true fpk d i :
  of_feed fpk d i = true <-> exists c, config_links d !! CupItem.config_link i = Some c /\ ConfigLink.external_feed c = Some fpk.
Proof.
  unfold of_feed. destruct (config_links d !! CupItem.config_link i) as [c|].
  - rewrite bool_decide_eq_true. split; [by exists c|by intros (? & [= <-] & ?)].
  - split; [done|by intros (? & ? & _)].
Qed.

Lemma feed_items_reusable fpk cup d : sound_cup fpk cup d -> reusable_in cup d (feed_items fpk cup d).
Proof.
  intros [Hl Ho]. constructor; [apply order_by_NoDup, rows_where_NoDup|done|].
  intros k i (Hk & Hc & _)%elem_of_feed_items. split; [by exists i|by eapply Hl].
Qed.

Lemma same_image {A B} (f : A -> B) (l : list A) x y : NoDup (map f l) -> x ∈ l -> y ∈ l -> f x = f y -> x = y.
Proof.
  induction l as [|z l IH]; [by intros _ ?%not_elem_of_nil|]. cbn. intros [Hz Hn]%NoDup_cons.
  intros [->|Hx]%elem_of_cons [->|Hy]%elem_of_cons E; [done| | |by apply IH]; destruct Hz;
    apply list_elem_of_fmap; [by exists y|by exists x].
Qed.

(** The items no longer listed. *)
Definition stale_items (existing : list (Z * item_row)) (slots : list (Z * Z)) : list (Z * item_row) :=
  filter (fun ki => ki.1 ∉ slots.*1) existing.

Definition retired (fpk : Z) (existing : list (Z * item_row)) (slots : list (Z * Z)) (d1 : DB) : DB :=
  retire fpk (stale_items existing slots).*1 (map (fun ki => CupItem.config_link ki.2) (stale_items existing slots)) d1.

Section Retired.
Context (fpk cup pos : Z) (selected : list native_config) (d d1 : DB) (slots : list (Z * Z)).
Context (Hd : sound_cup fpk cup d).
Context (Hloop : loop_done fpk cup pos selected d (feed_items fpk cup d) slots d1).

#[local] Abbreviation existing := (feed_items fpk cup d).
#[local] Abbreviation d2 := (retired fpk existing slots d1).

Lemma stale_key k : k ∈ (stale_items existing slots).*1 <-> k ∉ slots.*1 /\ exists i, (k, i) ∈ existing.
Proof.
  rewrite list_elem_of_fmap. unfold stale_items. split.
  - intros ([k' i] & -> & [Hn Hin]%list_elem_of_filter). split; [exact Hn|by exists i].
  - intros (Hn & i & Hin). exists (k, i). split; [done|]. by apply list_elem_of_filter.
Qed.

(** A link taken by a slot is not among those retired. *)
Lemma slot_link_kept s : s ∈ slots -> s.2 ∉ map (fun ki => CupItem.config_link ki.2) (stale_items existing slots).
Proof.
  intros Hs ([k i] & E & [Hn Hin]%list_elem_of_filter)%list_elem_of_fmap. cbn in E, Hn.
  destruct (ld_slots _ _ _ _ _ _ _ _ Hloop s Hs) as [(i' & Hin' & E')|[_ Hf]].
  - assert (Heq : (s.1, i') = (k, i)).
    { apply (same_image (fun ki => CupItem.config_link ki.2) existing); [apply Hd|done..|]. cbn. congruence. }
    injection Heq as <- _. apply Hn, list_elem_of_fmap. by exists s.
  - apply elem_of_feed_items in Hin as (Hk & _). destruct (sc_links _ _ _ Hd _ _ Hk) as [c Hc]. congruence.
Qed.

Lemma retired_item k : k ∉ (stale_items existing slots).*1 -> cup_items d2 !! k = cup_items d1 !! k.
Proof.
  intros Hk. unfold retired, retire. cbn. rewrite lookup_update_where. destruct (cup_items d1 !! k); [|done]. cbn.
  by rewrite bool_decide_false.
Qed.

Lemma retired_link l :
  l ∉ map (fun ki => CupItem.config_link ki.2) (stale_items existing slots) -> config_links d2 !! l = config_links d1 !! l.
Proof.
  intros Hl. unfold retired, retire. cbn. rewrite lookup_update_where. destruct (config_links d1 !! l); [|done]. cbn.
  by rewrite bool_decide_false.
Qed.

Lemma retired_feed l c2 : config_links d2 !! l = Some c2 ->
  exists c1, config_links d1 !! l = Some c1 /\ ConfigLink.external_feed c2 = ConfigLink.external_feed c1.
Proof.
  unfold retired, retire. cbn. rewrite lookup_update_where. destruct (config_links d1 !! l) as [c1|]; [|done]. cbn.
  intros [= <-]. exists c1. split; [done|]. by destruct (_ && _).
Qed.

Lemma retired_filled : filled fpk cup d2 pos slots selected.
Proof.
  apply (filled_frame _ _ d1); [..|apply Hloop].
  - intros k Hk. apply retired_item. rewrite stale_key. tauto.
  - intros l (s & -> & Hs)%list_elem_of_fmap. by apply retired_link, slot_link_kept.
Qed.

(** The link of a slot that was there before is the feed's. *)
Lemma old_slot_link s c : s ∈ slots -> config_links d !! s.2 = Some c -> ConfigLink.external_feed c = Some fpk.
Proof.
  intros Hs Hc. destruct (ld_slots _ _ _ _ _ _ _ _ Hloop s Hs) as [(i' & Hin & E)|[_ Hf]]; [|congruence].
  apply elem_of_feed_items in Hin as (_ & _ & (c' & Hc' & Hf)%of_feed_true). congruence.
Qed.

(** Every active item of the feed in the cup is one of the slots. *)
Lemma active_in_slots k i :
  cup_items d2 !! k = Some i -> CupItem.cup i = cup -> CupItem.is_active i = true -> of_feed fpk d2 i = true -> k ∈ slots.*1.
Proof.
  intros Hk Hc Ha (c2 & Hc2 & Hf)%of_feed_true. destruct (decide (k ∈ slots.*1)) as [|Hn]; [done|exfalso].
  destruct (decide (k ∈ (stale_items existing slots).*1)) as [Hs|Hs].
  - unfold retired, retire in Hk. cbn in Hk. rewrite lookup_update_where in Hk.
    destruct (cup_items d1 !! k); [|done]. cbn in Hk. rewrite bool_decide_true in Hk by done. by injection Hk as <-.
  - rewrite retired_item, (proj1 (ld_same _ _ _ _ _ _ _ _ Hloop)) in Hk by done.
    apply Hs, stale_key. split; [done|]. exists i. apply elem_of_feed_items. split; [done|]. split; [done|].
    apply of_feed_true. destruct (sc_links _ _ _ Hd _ _ Hk) as [c Hcl]. exists c. split; [done|].
    destruct (decide (CupItem.config_link i ∈ slots.*2)) as [(s & E & Hin)%list_elem_of_fmap|Hnl].
    + rewrite E in Hcl. by eapply old_slot_link.
    + apply retired_feed in Hc2 as (c1 & Hc1 & E). rewrite (proj2 (ld_same _ _ _ _ _ _ _ _ Hloop)) in Hc1 by done.
      congruence.
Qed.

(** The rows of the slots, in their order. *)
Definition slot_rows (d : DB) (slots : list (Z * Z)) : list (Z * item_row) :=
  omap (fun s => (s.1,.) <$> cup_items d !! s.1) slots.

Lemma elem_of_slot_rows d' l k i : (k, i) ∈ slot_rows d' l <-> k ∈ l.*1 /\ cup_items d' !! k = Some i.
Proof.
  unfold slot_rows. rewrite list_elem_of_omap, list_elem_of_fmap. split.
  - intros (s & Hs & E). destruct (cup_items d' !! s.1) as [j|] eqn:Hj; [|done]. injection E as <- <-. split; [by exists s|done].
  - intros [(s & -> & Hs) Hi]. exists s. by rewrite Hi.
Qed.

Lemma slot_rows_sublist d' l : (slot_rows d' l).*1 `sublist_of` l.*1.
Proof.
  induction l as [|s l IH]; [done|]. unfold slot_rows in *. cbn [omap list_omap].
  destruct (cup_items d' !! s.1) as [i|]; rewrite !fmap_cons; [by apply sublist_skip|by apply sublist_cons].
Qed.

Lemma slot_rows_sorted d' p l sel :
  filled fpk cup d' p l sel ->
  StronglySorted (key_le (fun ki => [CupItem.position ki.2; ki.1])) (slot_rows d' l) /\
  Forall (fun ki => p <= CupItem.position ki.2) (slot_rows d' l) /\
  map (fun ki => CupItem.position ki.2) (slot_rows d' l) = seqZ p (len sel) /\
  raw_links_of d' (slot_rows d' l) = map (fun c => strip (nc_raw_link c)) sel.
Proof.
  revert p sel. induction l as [|s l IH]; intros p [|c sel]; try done.
  { intros _. split; [apply SSorted_nil|]. by split. }
  intros ((i & Hi & _ & Hlink & Hpos & _) & (row & Hrow & Hraw & _) & Hf). destruct (IH _ _ Hf) as (Hs & Hge & Hmap & Hr).
  assert (E : slot_rows d' (s :: l) = (s.1, i) :: slot_rows d' l) by (unfold slot_rows; cbn; by rewrite Hi). rewrite E.
  split; [|split; [|split]].
  - apply SSorted_cons; [done|]. eapply Forall_impl; [exact Hge|]. intros [k j] Hj. cbn in Hj.
    unfold key_le. apply Is_true_true. cbn. rewrite (proj2 (Z.ltb_lt _ _)); [done|lia].
  - apply Forall_cons. split; [cbn; lia|]. eapply Forall_impl; [exact Hge|]. cbn. lia.
  - cbn [map]. rewrite Hmap. unfold len. cbn [length]. rewrite (seqZ_cons p) by lia. cbn. rewrite Hpos. f_equal. f_equal; lia.
  - unfold raw_links_of in *. cbn [omap list_omap map]. cbn. rewrite Hlink, Hrow. cbn. by rewrite Hraw, Hr.
Qed.

(** The feed's active part of the cup. *)
Definition feed_part (d' : DB) : list (Z * item_row) :=
  filter (fun ki => Is_true (of_feed fpk d' ki.2)) (active_cup_items cup d').

Lemma elem_of_feed_part d' k i : (k, i) ∈ feed_part d' <->
  cup_items d' !! k = Some i /\ CupItem.cup i = cup /\ CupItem.is_active i = true /\ link_active d' i = true /\
  of_feed fpk d' i = true.
Proof.
  unfold feed_part, active_cup_items, items_where.
  rewrite list_elem_of_filter, elem_of_order_by, elem_of_rows_where, !andb_true_iff, bool_decide_eq_true, Is_true_true. cbn. tauto.
Qed.

Lemma feed_part_NoDup d' : NoDup (feed_part d').*1.
Proof.
  eapply sublist_NoDup; [|apply fmap_sublist, sublist_filter]. apply order_by_NoDup, rows_where_NoDup.
Qed.

Lemma filled_slot d' p l sel k : filled fpk cup d' p l sel -> k ∈ l.*1 ->
  exists i, cup_items d' !! k = Some i /\ CupItem.cup i = cup /\ CupItem.is_active i = true /\
    link_active d' i = true /\ of_feed fpk d' i = true.
Proof.
  revert p sel. induction l as [|s l IH]; intros p [|c sel]; try done; [by intros _ ?%not_elem_of_nil|].
  intros ((i & Hi & Hc & Hlink & _ & Ha) & (row & Hrow & _ & Hact & Hfeed) & Hf). rewrite fmap_cons.
  intros [->|Hk]%elem_of_cons; [|by eapply IH]. exists i. split; [done|]. split; [done|]. split; [done|].
  unfold link_active. rewrite of_feed_true, Hlink, Hrow. split; [done|]. by exists row.
Qed.

Lemma feed_part_slots : feed_part d2 = slot_rows d2 slots.
Proof.
  pose proof retired_filled as Hf.
  apply (StronglySorted_unique_strong (key_le (fun ki : Z * item_row => [CupItem.position ki.2; ki.1]))).
  - intros [k i] [k' i'] (Hk & _)%elem_of_feed_part (_ & Hk')%elem_of_slot_rows. unfold key_le. rewrite !Is_true_true. cbn.
    destruct (Z.ltb_spec (CupItem.position i) (CupItem.position i')), (Z.eqb_spec (CupItem.position i) (CupItem.position i')),
      (Z.ltb_spec (CupItem.position i') (CupItem.position i)), (Z.eqb_spec (CupItem.position i') (CupItem.position i)); try lia; try done.
    destruct (Z.ltb_spec k k'), (Z.eqb_spec k k'), (Z.ltb_spec k' k), (Z.eqb_spec k' k); try lia; try done. intros _ _. congruence.
  - unfold feed_part. apply StronglySorted_filter, order_by_sorted.
  - by eapply slot_rows_sorted.
  - apply NoDup_Permutation.
    + eapply NoDup_fmap_1, feed_part_NoDup.
    + apply (NoDup_fmap_1 fst). eapply (sublist_NoDup _ slots.*1); [apply Hloop|].
      apply slot_rows_sublist.
    + intros [k i]. rewrite elem_of_feed_part, elem_of_slot_rows. split.
      * intros (Hk & Hc & Ha & _ & Ho). split; [|done]. by eapply active_in_slots.
      * intros [Hk Hi]. destruct (filled_slot _ _ _ _ _ Hf Hk) as (i' & Hi' & Hrest).
        assert (i' = i) as -> by congruence. done.
Qed.

(** Nothing else moved. *)
Lemma other_item_kept k i :
  cup_items d !! k = Some i -> CupItem.cup i <> cup \/ of_feed fpk d i = false -> cup_items d2 !! k = Some i.
Proof.
  intros Hk Ho. assert (Hne : forall i', (k, i') ∈ existing -> False).
  { intros i' (Hk' & Hc & Hf)%elem_of_feed_items. assert (i' = i) as -> by congruence. destruct Ho; congruence. }
  rewrite retired_item by (rewrite stale_key; intros (_ & i' & Hin); by eapply Hne).
  rewrite (proj1 (ld_same _ _ _ _ _ _ _ _ Hloop)); [done|]. intros (s & -> & Hs)%list_elem_of_fmap.
  destruct (ld_slots _ _ _ _ _ _ _ _ Hloop s Hs) as [(i' & Hin & _)|[Hf _]]; [by eapply Hne|congruence].
Qed.

Lemma other_link_kept l c :
  config_links d !! l = Some c -> ConfigLink.external_feed c <> Some fpk -> config_links d2 !! l = Some c.
Proof.
  intros Hl Ho. assert (H1 : config_links d1 !! l = Some c).
  { rewrite (proj2 (ld_same _ _ _ _ _ _ _ _ Hloop)); [done|]. intros (s & -> & Hs)%list_elem_of_fmap.
    apply Ho. by eapply old_slot_link. }
  unfold retired, retire. cbn. rewrite lookup_update_where, H1. cbn. by rewrite (bool_decide_false (_ = Some fpk)), andb_false_r.
Qed.

(** The transaction leaves what the next one relies on. *)
Lemma filled_at d' p l sel x : filled fpk cup d' p l sel -> x ∈ l ->
  exists i, cup_items d' !! x.1 = Some i /\ CupItem.config_link i = x.2 /\ is_Some (config_links d' !! x.2).
Proof.
  revert p sel. induction l as [|s l IH]; intros p [|c sel]; try done; [by intros _ ?%not_elem_of_nil|].
  intros ((i & Hi & _ & Hlink & _) & (row & Hrow & _) & Hf) [->|Hx]%elem_of_cons; [|by eapply IH].
  exists i. split; [done|]. split; [done|]. by exists row.
Qed.

Lemma retired_link_there l : is_Some (config_links d !! l) -> is_Some (config_links d2 !! l).
Proof.
  intros Hl. assert (H1 : is_Some (config_links d1 !! l)).
  { destruct (decide (l ∈ slots.*2)) as [(s & -> & Hs)%list_elem_of_fmap|Hn].
    - by destruct (filled_at _ _ _ _ s (ld_filled _ _ _ _ _ _ _ _ Hloop) Hs) as (_ & _ & _ & ?).
    - by rewrite (proj2 (ld_same _ _ _ _ _ _ _ _ Hloop)). }
  destruct H1 as [c Hc]. unfold retired, retire. cbn. rewrite lookup_update_where, Hc. by eexists.
Qed.

(** An item after the transaction is a slot's, or was there with its link. *)
Lemma item_origin k i : cup_items d2 !! k = Some i ->
  (exists s, s ∈ slots /\ s.1 = k /\ s.2 = CupItem.config_link i) \/
  (k ∉ slots.*1 /\ exists i', cup_items d !! k = Some i' /\ CupItem.config_link i' = CupItem.config_link i /\
     CupItem.cup i' = CupItem.cup i).
Proof.
  intros Hk. destruct (decide (k ∈ slots.*1)) as [(s & -> & Hs)%list_elem_of_fmap|Hn].
  - left. exists s. destruct (filled_at _ _ _ _ s retired_filled Hs) as (i' & Hi' & Hl & _).
    assert (i' = i) as -> by congruence. done.
  - right. split; [done|]. unfold retired, retire in Hk. cbn in Hk. rewrite lookup_update_where in Hk.
    rewrite (proj1 (ld_same _ _ _ _ _ _ _ _ Hloop)) in Hk by done. destruct (cup_items d !! k) as [i'|]; [|done].
    injection Hk as <-. exists i'. by destruct (bool_decide _).
Qed.

Lemma stale_origin k i : (k, i) ∈ feed_items fpk cup d2 -> k ∉ slots.*1 ->
  exists i', (k, i') ∈ stale_items existing slots /\ CupItem.config_link i' = CupItem.config_link i.
Proof.
  intros (Hk & Hc & (c2 & Hc2 & Hf)%of_feed_true)%elem_of_feed_items Hn.
  destruct (item_origin _ _ Hk) as [(s & Hs & <- & _)|(_ & i' & Hk' & Hl & Hcup)].
  { destruct Hn. apply list_elem_of_fmap. by exists s. }
  exists i'. split; [|done]. apply list_elem_of_filter. split; [exact Hn|]. apply elem_of_feed_items.
  split; [done|]. split; [congruence|]. apply of_feed_true. rewrite Hl.
  destruct (sc_links _ _ _ Hd _ _ Hk') as [c Hcl]. rewrite Hl in Hcl. exists c. split; [done|].
  destruct (decide (CupItem.config_link i ∈ slots.*2)) as [(s & E & Hs)%list_elem_of_fmap|Hnl].
  - rewrite E in Hcl. by eapply old_slot_link.
  - apply retired_feed in Hc2 as (c1 & Hc1 & E). rewrite (proj2 (ld_same _ _ _ _ _ _ _ _ Hloop)) in Hc1 by done. congruence.
Qed.

Lemma retired_sound : sound_cup fpk cup d2.
Proof.
  constructor.
  { intros k i Hk. destruct (item_origin _ _ Hk) as [(s & Hs & _ & <-)|(_ & i' & Hk' & <- & _)].
    - by destruct (filled_at _ _ _ _ s retired_filled Hs) as (_ & _ & _ & ?).
    - apply retired_link_there. by eapply Hd. }
  apply NoDup_fmap_2_strong; [|eapply NoDup_fmap_1, order_by_NoDup, rows_where_NoDup].
  assert (Hcase : forall k i, (k, i) ∈ feed_items fpk cup d2 ->
    (exists s, s ∈ slots /\ s.1 = k /\ s.2 = CupItem.config_link i) \/
    (exists i', (k, i') ∈ stale_items existing slots /\ CupItem.config_link i' = CupItem.config_link i)).
  { intros k i Hin. destruct (decide (k ∈ slots.*1)) as [Hk|Hn]; [left|right; by apply stale_origin].
    apply elem_of_feed_items in Hin as (Hi & _).
    by destruct (item_origin _ _ Hi) as [Hs|[? _]]. }
  intros [k i] [k' i'] Hin Hin' E. cbn in E. assert (Hkey : k = k').
  { destruct (Hcase _ _ Hin) as [(s & Hs & <- & Hl)|(j & Hj & Hl)], (Hcase _ _ Hin') as [(s' & Hs' & <- & Hl')|(j' & Hj' & Hl')].
    - f_equal. apply (same_image snd slots); [apply Hloop|done..|congruence].
    - destruct (slot_link_kept s Hs). apply list_elem_of_fmap. exists (k', j'). split; [cbn; congruence|done].
    - destruct (slot_link_kept s' Hs'). apply list_elem_of_fmap. exists (k, j). split; [cbn; congruence|done].
    - assert (Heq : (k, j) = (k', j')); [|by injection Heq].
      apply (same_image (fun ki => CupItem.config_link ki.2) existing); [apply Hd|..|cbn; congruence].
      + by apply list_elem_of_filter in Hj as [_ ?].
      + by apply list_elem_of_filter in Hj' as [_ ?]. }
  subst k'. apply elem_of_feed_items in Hin as (H1 & _), Hin' as (H2 & _). congruence.
Qed.
End Retired.

(** ** Success *)

Context (same_policy : metadata -> metadata -> bool).

Lemma same_source_cup f g : same_source f g = true -> cup f = cup g.
Proof. unfold same_source. rewrite !andb_true_iff, bool_decide_eq_true. tauto. Qed.

Lemma reconcile_inv fpk original r token allow now w s w' :
  sound_cup fpk (cup original) (db w) ->
  reconcile_success same_policy fpk original r token allow now w = (Ret s, w') -> sm_ok s = true ->
  exists pos slots d1,
    loop_done fpk (cup original) pos (selected_configs r) (db w) (feed_items fpk (cup original) (db w)) slots d1 /\
    cup_items (db w') = cup_items (retired fpk (feed_items fpk (cup original) (db w)) slots d1) /\
    config_links (db w') = config_links (retired fpk (feed_items fpk (cup original) (db w)) slots d1) /\
    sm_selected_count s = selected_count r.
Proof.
  intros Hsound E Hok. apply (proj1 (atomic_Ret _ _ _ _)) in E. unfold get_feed in E.
  apply M_bind_Ret in E as (c & w1 & [_ ->]%get_or_raise_Ret & E).
  apply M_bind_Ret in E as (f & w1 & [_ ->]%get_or_raise_Ret & E). apply M_bind_Ret in E as (d & w1 & [= <- <-] & E).
  destruct (superseded token f now); [injection E as <- _; discriminate Hok|].
  destruct (same_source f original) eqn:Hsrc; cbn [negb orb] in E; [|injection E as <- _; discriminate Hok].
  destruct (negb (same_policy _ _)); [injection E as <- _; discriminate Hok|].
  destruct (_ || _); [injection E as <- _; discriminate Hok|]. cbv zeta in E.
  apply same_source_cup in Hsrc. rewrite <- Hsrc in *.
  destruct (loop_spec (db w) fpk f (selected_configs r) (base_position fpk f (feed_items fpk (cup f) (db w)) (db w))
    (feed_items fpk (cup f) (db w)) w (feed_items_reusable _ _ _ Hsound)) as (slots & w1 & El & Hl).
  apply M_bind_Ret in E as (ids & w2 & E1 & E). rewrite El in E1. injection E1 as <- <-.
  apply M_bind_Ret in E as (u & w3 & [= _ <-] & E). apply M_bind_Ret in E as (u' & w4 & [= _ <-] & E).
  apply M_bind_Ret in E as (d' & w5 & [= <- <-] & E). injection E as <- <-.
  eexists _, slots, (db w1). split; [exact Hl|]. by split.
Qed.

(** C9: In a cup whose items' links exist and where no two items of the feed
    share a link, a refresh that goes through makes the feed's part of the cup
    the list it selected.  The active items of the feed in the cup are then one
    for each selected link, in the selected order, at consecutive positions, also
    when the selection repeats a link; links no longer sent by the panel are
    gone; no item of another source or another cup, and no link of another feed,
    has changed; and the cup is again one the next refresh can fill. *)
Theorem refresh_fills_the_cup fpk original r token allow now w s w' :
  sound_cup fpk (cup original) (db w) ->
  reconcile_success same_policy fpk original r token allow now w = (Ret s, w') -> sm_ok s = true ->
  (exists pos, map (fun ki => CupItem.position ki.2) (feed_part fpk (cup original) (db w'))
               = seqZ pos (len (selected_configs r))) /\
  raw_links_of (db w') (feed_part fpk (cup original) (db w')) = map (fun c => strip (nc_raw_link c)) (selected_configs r) /\
  (forall k i, cup_items (db w) !! k = Some i -> CupItem.cup i <> cup original \/ of_feed fpk (db w) i = false ->
    cup_items (db w') !! k = Some i) /\
  (forall l c, config_links (db w) !! l = Some c -> ConfigLink.external_feed c <> Some fpk ->
    config_links (db w') !! l = Some c) /\
  sound_cup fpk (cup original) (db w').
Proof.
  intros Hsound Hrun Hok. destruct (reconcile_inv _ _ _ _ _ _ _ _ _ Hsound Hrun Hok) as (pos & slots & d1 & Hl & Hi & Hc & _).
  set (d2 := retired fpk (feed_items fpk (cup original) (db w)) slots d1) in *.
  assert (Hsame : forall items, raw_links_of (db w') items = raw_links_of d2 items).
  { intros items. unfold raw_links_of. by rewrite Hc. }
  assert (Hpart : feed_part fpk (cup original) (db w') = slot_rows d2 slots).
  { etrans; [|exact (feed_part_slots fpk (cup original) pos (selected_configs r) (db w) d1 slots Hsound Hl)].
    unfold feed_part, active_cup_items, items_where, of_feed, link_active. by rewrite Hi, Hc. }
  destruct (slot_rows_sorted fpk (cup original) d2 pos slots (selected_configs r)) as (_ & _ & Hp & Hr).
  { by apply retired_filled with (d := db w). }
  assert (Hs2 : sound_cup fpk (cup original) d2) by (by eapply retired_sound).
  rewrite Hsame, Hpart, Hi, Hc. split; [by exists pos|]. split; [done|]. split; [|split].
  - intros k i Hk Ho. by eapply other_item_kept.
  - intros l c Hlk Ho. by eapply other_link_kept.
  - destruct Hs2 as [H1 H2]. unfold feed_items, items_where, of_feed in *. constructor; [by rewrite Hi, Hc|].
    unfold feed_items, items_where, of_feed. by rewrite Hi, Hc.
Qed.
End Fill.

Definition sample_selection : filter_result :=
  match @filter_native_configs sample_env ["vless://2.up"; "vless://new"; "vless://2.up"] ∅ with
  | Ret r => r | Raise _ => mk_filter_result (mk_policy [] [] [] "" "" true None true 1) 0 0 0 0 0 0 [] [] [] [] [] end.

Definition sample_fill :=
  @reconcile_success sample_env (fun _ _ => true) 3 (sample_feed "up" 2) sample_selection "" false 200 (feeding_shop "up").

Lemma sample_cup_sound : sound_cup 3 9 (db (feeding_shop "up")).
Proof.
  constructor.
  - intros k i Hk. apply (elem_of_map_to_list (cup_items (db (feeding_shop "up"))) k i) in Hk.
    assert (Ha : forallb (fun ki : Z * item_row => is_set (config_links (db (feeding_shop "up")) !! CupItem.config_link ki.2))
      (map_to_list (cup_items (db (feeding_shop "up")))) = true) by (vm_compute; reflexivity).
    rewrite forallb_forall in Ha. apply list_elem_of_In in Hk. specialize (Ha _ Hk). cbn [snd] in Ha.
    destruct (config_links (db (feeding_shop "up")) !! CupItem.config_link i) as [c|]; [by exists c|discriminate Ha].
  - assert (E : map (fun ki => CupItem.config_link ki.2) (feed_items 3 9 (db (feeding_shop "up"))) = [1; 2]) by (vm_compute; reflexivity).
    rewrite E. apply (bool_decide_unpack _). vm_compute. exact I.
Qed.

Lemma refresh_fills_the_cup_witness :
  raw_links_of (db sample_fill.2) (feed_part 3 9 (db sample_fill.2)) = ["vless://2.up"; "vless://new"] /\
  active_cup_links 9 (db sample_fill.2) = ["vless://2.up"; "vless://new"; "ss://own@h:1"].
Proof.
  assert (E : exists s, sample_fill.1 = Ret s /\ sm_ok s = true) by (eexists; split; vm_compute; reflexivity).
  destruct E as (s & E & Hok). split; [|vm_compute; reflexivity].
  assert (E2 : sample_fill = (Ret s, sample_fill.2)) by (rewrite <- E; apply surjective_pairing).
  destruct (@refresh_fills_the_cup sample_env (fun _ _ => true) 3 (sample_feed "up" 2) sample_selection "" false 200
    (feeding_shop "up") s sample_fill.2 sample_cup_sound E2 Hok) as (_ & Hr & _).
  change (ExternalFeed.cup (sample_feed "up" 2)) with 9 in Hr. rewrite Hr. vm_compute. reflexivity.
Defined.
