(* ===== verification/PlanDelivery.v ===== *)
(** Plan delivery (src/store/plan_delivery_execution.py): the sources of a
    plan's delivery configuration executed one after the other - clients on
    panels, configurations out of pools - with fallbacks, the failure policy,
    and the customer's cup or direct links at the end.

    The order, which the caller has just saved, is read from its row.  A source
    names its inbound's panel ([PlanDeliverySource.clean]).  What a source that
    failed had collected is dropped, since nothing reads it. *)

From S2P Require Import Prelude Models World Numbers OrderStore Inbounds Scope OrderActions Provisioning Submission ClientManagement Inventory Cups FeedFilter Feeds.
Import Order.

#[local] Open Scope string_scope.
#[local] Open Scope Z_scope.

Abbreviation config_row := PlanDelivery.plan_delivery_config.
Abbreviation source_row := PlanDelivery.plan_delivery_source.

Definition MODE_DIRECT_LINKS : string := "DIRECT_LINKS".
Definition MODE_SUBSCRIPTION : string := "SUBSCRIPTION".

(** A source with the rows it refers to, as [select_related] loads them. *)
Record loaded_source := mk_loaded {
  ls_pk : Z;
  ls_row : source_row;
  ls_inbound : option keyed_inbound;
  ls_panel : option (Z * Panel.panel);
}.

Definition keyed_panel (d : DB) (pk : option Z) : option (Z * Panel.panel) :=
  pk ≫= fun k => (k,.) <$> panels d !! k.

(** [source.panel or (inbound.panel if inbound and inbound.panel_id else None)] *)
Definition load_source (d : DB) (ks : Z * source_row) : loaded_source :=
  let i := PlanDelivery.inbound ks.2 ≫= keyed d in
  mk_loaded ks.1 ks.2 i
    (or_opt (keyed_panel d (PlanDelivery.panel ks.2)) (i ≫= fun i => keyed_panel d (Inbound.panel i.2))).

(** [active_delivery_sources] *)
Definition active_delivery_sources (d : DB) (config : Z) : list loaded_source :=
  map (load_source d) (order_by (fun ks => [PlanDelivery.priority ks.2; ks.1])
    (rows_where (fun _ s => bool_decide (PlanDelivery.delivery_config s = config) && PlanDelivery.source_active s)
       (delivery_sources d))).

(** [max(int(source.quantity or 1), 1)] *)
Definition source_quantity (s : loaded_source) : Z := Z.max (PlanDelivery.quantity (ls_row s)) 1.
Definition group_quantity (l : list loaded_source) : Z := foldr Z.max 1 (map source_quantity l).

Definition ls_required (s : loaded_source) : bool := PlanDelivery.required (ls_row s).
Definition ls_fallback (s : loaded_source) : bool := PlanDelivery.is_fallback (ls_row s).

(** [SourceExecutionResult] *)
Record source_result := mk_source_result {
  source_ids : list Z;
  sr_required : bool;
  sr_is_fallback : bool;
  sr_ok : bool;
  sr_raw_links : list string;
  sr_config_links : list Z;
  sr_vpn_clients : list (Z * VPNClient.vpn_client);
  sr_dynamic_feeds : list dynamic_feed_snapshot;
  sr_errors : list string;
  sr_warnings : list string;
}.

(** What a source hands over. *)
Record outputs := mk_outputs {
  out_links : list (Z * string);
  out_clients : list (Z * VPNClient.vpn_client);
  out_feeds : list dynamic_feed_snapshot;
  out_warnings : list string;
}.
Definition no_outputs : outputs := mk_outputs [] [] [] [].
Definition app_outputs (a b : outputs) : outputs :=
  mk_outputs (out_links a ++ out_links b) (out_clients a ++ out_clients b)
    (out_feeds a ++ out_feeds b) (out_warnings a ++ out_warnings b).

Section Execution.
Context `{Env}.

(** [_source_safe_error] *)
Definition source_safe_error (e : exn) : string :=
  match e with
  | ConfigInventoryError m _ => m
  | InsufficientInventoryStock _ _ _ => exn_text e
  | _ => safe_error_text e
  end.

(** [try: ... except Exception as exc: result.errors.append(...)]; a source
    without links is not a success. *)
Definition source_attempt (l : list loaded_source) (m : IO outputs) : IO source_result :=
  let result ok out errors := mk_source_result (map ls_pk l) (existsb ls_required l) (existsb ls_fallback l) ok
    (map snd (out_links out)) (map fst (out_links out)) (out_clients out) (out_feeds out) errors (out_warnings out) in
  catch (out ← m; mret (result (negb (bool_decide (length (out_links out) = 0%nat))) out []))
        (fun e => mret (result false no_outputs [source_safe_error e])).

Definition validate_panel_inbound (i : option keyed_inbound) : IO keyed_inbound :=
  match i with
  | None => raise (XUIError "missing_panel_inbound")
  | Some i =>
      if negb (is_set (Inbound.panel i.2)) then raise (XUIError "missing_panel_inbound")
      else if bool_decide (Inbound.security i.2 = Inbound.REALITY) && negb (text_truthy (Inbound.pbk i.2))
      then raise (XUIError "reality_missing_public_key")
      else mret i
  end.

(** [_panel_config_link] *)
Definition panel_config_link (raw : string) (s : loaded_source) (client : Z) (md : Prelude.metadata) : IO Z :=
  create_config_link_from_raw raw ConfigLink.PANEL_GENERATED (fst <$> ls_panel s) (fst <$> ls_inbound s)
    (Some client) None md.

(** The link of an answer, when it has one. *)
Definition direct_link_output (s : loaded_source) (client : Z) (cr : client_result) (md : Prelude.metadata)
    : IO (list (Z * string)) :=
  let direct := strip (default "" (cr_direct_link cr)) in
  if bool_decide (direct = "") then mret []
  else lpk ← panel_config_link direct s client md; mret [(lpk, direct)].

(** *** One inbound *)

Fixpoint single_source_clients (opk : Z) (o : order) (p : Plan.plan) (s : loaded_source) (i : keyed_inbound)
    (now : Z) (indices : list Z) : IO outputs :=
  match indices with
  | [] => mret no_outputs
  | index :: rest =>
      d ← get_db;
      '(cr, _) ← provision_single i p (order_identity d o i (ls_pk s * 1000 + index));
      '(cpk, c, _) ← upsert_local_client opk o p i cr now;
      links ← direct_link_output s cpk cr
                (<["source" := JStr "plan_delivery_v2_panel"]> (<["plan_delivery_source_id" := JNum (ls_pk s)]> ∅));
      out ← single_source_clients opk o p s i now rest;
      mret (app_outputs (mk_outputs links [(cpk, c)] [] []) out)
  end.

Definition execute_single_panel_source (opk : Z) (o : order) (p : Plan.plan) (s : loaded_source) (now : Z)
    : IO source_result := source_attempt [s] (
  i ← validate_panel_inbound (ls_inbound s);
  single_source_clients opk o p s i now (seqZ 1 (source_quantity s))).

(** *** A group of PasarGuard inbounds *)

Definition pasarguard_link_metadata (l : list loaded_source) (ins : list keyed_inbound) (panel raw_index : Z)
    (dynamic : bool) : Prelude.metadata :=
  <["source" := JStr "plan_delivery_v2_pasarguard_raw"]>
  (<["plan_delivery_source_ids" := JList (map (fun s => JNum (ls_pk s)) l)]>
  (<["panel_id" := JNum panel]>
  (<["pasarguard_group_pks" := JList (map (fun i : keyed_inbound => JNum i.1) ins)]>
  (<["pasarguard_group_ids" := JList (map (fun i : keyed_inbound => JNum (Inbound.inbound_id i.2)) ins)]>
  (<["raw_index" := JNum raw_index]>
  (<["native_raw_delivery" := JBool true]>
  (<["external_subscription_initial" := JBool dynamic]> ∅))))))).

Fixpoint pasarguard_links (first : loaded_source) (client : Z) (md : Z -> Prelude.metadata) (raw_index : Z)
    (raws : list string) : IO (list (Z * string)) :=
  match raws with
  | [] => mret []
  | raw :: rest =>
      lpk ← panel_config_link raw first client (md raw_index);
      links ← pasarguard_links first client md (raw_index + 1) rest;
      mret ((lpk, raw) :: links)
  end.

(** The links a cup starts with: those the source's filter selects. *)
Definition dynamic_selection (first : loaded_source) (raws : list string) : IO filter_result :=
  r ← liftR (preview_external_subscription_filter raws (PlanDelivery.source_metadata (ls_row first)));
  if selected_count r <=? 0 then raise (XUIError "pasarguard_dynamic_subscription_filter_empty") else mret r.

Definition snapshot_metadata (l : list loaded_source) (ins : list keyed_inbound) : Prelude.metadata :=
  <["source" := JStr "plan_delivery_v2_pasarguard_dynamic_subscription"]>
  (<["plan_delivery_source_ids" := JList (map (fun s => JNum (ls_pk s)) l)]>
  (<["pasarguard_group_pks" := JList (map (fun i : keyed_inbound => JNum i.1) ins)]>
  (<["pasarguard_group_ids" := JList (map (fun i : keyed_inbound => JNum (Inbound.inbound_id i.2)) ins)]> ∅))).

Definition snapshot_of (l : list loaded_source) (first : loaded_source) (ins : list keyed_inbound) (panel client : Z)
    (cr : client_result) (raws : list string) (links : list Z) (r : filter_result) : dynamic_feed_snapshot :=
  mk_snapshot "pasarguard" panel (ls_pk first, ls_row first) (Some client) (default "" (cr_sub_link cr)) (cr_email cr)
    raws links r (snapshot_metadata l ins).

(** What one client's raw links become. *)
Definition pasarguard_outputs (l : list loaded_source) (first : loaded_source) (ins : list keyed_inbound) (panel : Z)
    (dynamic : bool) (cpk : Z) (c : VPNClient.vpn_client) (cr : client_result) (raws : list string) : IO outputs :=
  let md := fun k => pasarguard_link_metadata l ins panel k dynamic in
  if dynamic then
    r ← dynamic_selection first raws;
    links ← pasarguard_links first cpk md 1 (map nc_raw_link (selected_configs r));
    mret (mk_outputs links [(cpk, c)] [snapshot_of l first ins panel cpk cr raws (map fst links) r]
            (if invalid_count r =? 0 then []
             else ["pasarguard_dynamic_subscription_invalid_configs=" +:+ pretty (invalid_count r)]))
  else
    links ← pasarguard_links first cpk md 1 raws;
    mret (mk_outputs links [(cpk, c)] [] []).

Fixpoint pasarguard_group_clients (opk : Z) (o : order) (p : Plan.plan) (l : list loaded_source)
    (first : loaded_source) (ins : list keyed_inbound) (i : keyed_inbound) (panel : Z) (dynamic : bool) (now : Z)
    (indices : list Z) : IO outputs :=
  match indices with
  | [] => mret no_outputs
  | index :: rest =>
      let ident := multi_inbound_order_identity o ins index in
      '(cr, raw_links) ← askR (CallCreateBundle ins.*1 (id_uuid ident)) (fun h => pasarguard_create h ins.*1 p ident);
      let raws := answer_links cr raw_links in
      link ← require "pasarguard_raw_subscription_empty" (head raws);
      let cr := cr {{ cr_direct_link := Some link; cr_raw ::= pasarguard_raw ins }} in
      '(cpk, c, created) ← upsert_local_client opk o p i cr now;
      _ ← (if created && (1 <? len ins) then put_db (bump_inbounds (tail ins).*1 now) else mret tt);
      here ← pasarguard_outputs l first ins panel dynamic cpk c cr raws;
      out ← pasarguard_group_clients opk o p l first ins i panel dynamic now rest;
      mret (app_outputs here out)
  end.

Definition execute_pasarguard_panel_group (opk : Z) (o : order) (p : Plan.plan) (l : list loaded_source)
    (first : loaded_source) (dynamic : bool) (now : Z) : IO source_result := source_attempt l (
  let ins := omap ls_inbound l in
  match ls_panel first, head ins with
  | None, _ => raise (XUIError "pasarguard_panel_required")
  | Some (ppk, panel), i =>
      if negb (Panel.is_pasarguard panel) then raise (XUIError "pasarguard_panel_required")
      else
        i ← require "pasarguard_group_required" i;
        if existsb (fun j : keyed_inbound => negb (bool_decide (Inbound.panel j.2 = Some ppk))) ins
        then raise (XUIError "pasarguard_cross_panel_group_selection")
        else
          report ← askR (CallCapabilities ppk) (fun h => get_capability_report h ppk);
          if negb (supports_create_client report)
          then raise (XUIError "pasarguard_panel_does_not_support_create")
          else pasarguard_group_clients opk o p l first ins i ppk dynamic now (seqZ 1 (group_quantity l))
  end).

(** *** A bundle of inbounds of a multi-node panel *)

(** The clients of every inbound, each read back before it is trusted. *)
Definition verified_bundle (l : list keyed_inbound) (p : Plan.plan) (ident : identity)
    : IO (list client_result) :=
  existing ← collect (fun i => lookup_existing i ident) l;
  let found := length (filter (fun x : option client_result => is_set x = true) existing) in
  made ←
    (if negb (bool_decide (found = 0%nat)) && negb (bool_decide (found = length l)) then
       collect (fun '(i, x) => match x with
                               | Some cr => mret cr
                               | None => r ← create_enabled i p ident;
                                         require "remote_multi_inbound_create_failed" r
                               end) (zip l existing)
     else if bool_decide (found = length l) then mret (omap id existing)
     else r ← ask (CallCreateBundle l.*1 (id_uuid ident)) (fun h => create_enabled_bundle h l.*1 p ident);
          require "remote_multi_inbound_create_failed" r);
  if negb (bool_decide (length made = length l)) then raise (XUIError "remote_multi_inbound_verify_failed")
  else collect (fun i => v ← lookup_existing i ident; require "remote_multi_inbound_verify_failed" v) l.

(** [primary_result]: the first answer with all of them in its raw data. *)
Definition primary_result (l : list keyed_inbound) (verified : list client_result) (first : client_result)
    : client_result :=
  first {{ cr_raw ::= fun raw =>
    <["bundle_inbound_pks" := JList (map (fun i : keyed_inbound => JNum i.1) l)]>
    (<["bundle_inbound_results" := JList (map json_safe verified)]> raw) }}.

Definition bundle_links (l : list loaded_source) (client : Z) (ins : list keyed_inbound)
    (verified : list client_result) : IO (list (Z * string)) :=
  links ← collect (fun '(s, (i, cr)) => direct_link_output s client cr
            (<["source" := JStr "plan_delivery_v2_panel_bundle"]>
             (<["plan_delivery_source_id" := JNum (ls_pk s)]>
             (<["source_inbound_pk" := JNum (i : keyed_inbound).1]> ∅)))) (zip l (zip ins verified));
  mret (concat links).

Fixpoint bundle_group_clients (opk : Z) (o : order) (p : Plan.plan) (l : list loaded_source)
    (ins : list keyed_inbound) (now : Z) (indices : list Z) : IO outputs :=
  match indices with
  | [] => mret no_outputs
  | index :: rest =>
      verified ← verified_bundle ins p (multi_inbound_order_identity o ins index);
      first ← require "remote_multi_inbound_verify_failed" (head verified);
      i ← require "missing_panel_inbound" (head ins);
      '(cpk, c, _) ← upsert_local_client opk o p i (primary_result ins verified first) now;
      links ← bundle_links l cpk ins verified;
      out ← bundle_group_clients opk o p l ins now rest;
      mret (app_outputs (mk_outputs links [(cpk, c)] [] []) out)
  end.

Definition execute_multi_panel_group (opk : Z) (o : order) (p : Plan.plan) (l : list loaded_source) (now : Z)
    : IO source_result := source_attempt l (
  ins ← collect (fun s => validate_panel_inbound (ls_inbound s)) l;
  bundle_group_clients opk o p l ins now (seqZ 1 (group_quantity l))).

(** *** Panels, one group each *)

(** [grouped.setdefault(_panel_group_key(source), []).append(source)], in order
    of first occurrence. *)
Fixpoint add_to_group (s : loaded_source) (groups : list (option Z * list loaded_source))
    : list (option Z * list loaded_source) :=
  match groups with
  | [] => [(fst <$> ls_panel s, [s])]
  | (k, l) :: rest => if bool_decide (k = fst <$> ls_panel s) then (k, l ++ [s])%list :: rest
                      else (k, l) :: add_to_group s rest
  end.

Definition panel_groups (sources : list loaded_source) : list (list loaded_source) :=
  map (fun g => order_by (fun s => [PlanDelivery.priority (ls_row s); ls_pk s]) g.2)
    (foldl (fun groups s => add_to_group s groups) [] sources).

Definition execute_panel_group (opk : Z) (o : order) (p : Plan.plan) (dynamic : bool) (now : Z)
    (l : list loaded_source) : IO (list source_result) :=
  match l with
  | [] => mret []
  | first :: rest =>
      let several := negb (bool_decide (length rest = 0%nat)) in
      let singles := collect (fun s => execute_single_panel_source opk o p s now) l in
      match ls_panel first with
      | None => if is_set (ls_inbound first) && negb several then singles else raise (OtherError "AttributeError")
      | Some (_, panel) =>
          if Panel.is_pasarguard panel then r ← execute_pasarguard_panel_group opk o p l first dynamic now; mret [r]
          else if several && bool_decide (Panel.capability_profile panel = Panel.MODERN_MULTI_NODE)
          then r ← execute_multi_panel_group opk o p l now; mret [r]
          else singles
      end
  end.

Definition execute_panel_sources (opk : Z) (o : order) (p : Plan.plan) (dynamic : bool) (now : Z)
    (sources : list loaded_source) : IO (list source_result) :=
  results ← collect (execute_panel_group opk o p dynamic now) (panel_groups sources);
  mret (concat results).

(** *** A pool *)

(** [str(asset.raw_link or "").strip()] of each allocation; blank ones are
    passed over. *)
Definition allocation_raw_link (d : DB) (apk : Z) : string :=
  strip (default "" (config_allocations d !! apk ≫= fun al =>
    InventoryAsset.raw_link <$> inventory_assets d !! Allocation.asset al)).

Definition inventory_output (s : loaded_source) (apk : Z) : IO (list (Z * string)) :=
  d ← get_db;
  let raw := allocation_raw_link d apk in
  if bool_decide (raw = "") then mret []
  else
    lpk ← create_config_link_from_raw raw ConfigLink.IMPORTED_SUBSCRIPTION None None None None
            (<["source" := JStr "plan_delivery_v2_inventory"]>
            (<["plan_delivery_source_id" := JNum (ls_pk s)]>
            (<["inventory_pool_id" := match PlanDelivery.inventory_pool (ls_row s) with
                                      | Some k => JNum k | None => JNull end]>
            (<["allocation_id" := JNum apk]> ∅))));
    mret [(lpk, raw)].

Definition pool_of_source (d : DB) (s : loaded_source) : option (Z * pool_row) :=
  PlanDelivery.inventory_pool (ls_row s) ≫= fun k => (k,.) <$> inventory_pools d !! k.

(** Active allocations made before, and what is missing; a pool is only needed
    for the latter. *)
Definition allocations_for (opk : Z) (s : loaded_source) (now : Z) : IO (list Z) :=
  d ← get_db;
  let quantity := PlanDelivery.quantity (ls_row s) in
  match pool_of_source d s with
  | Some (ppk, pool) => source_allocations opk (ls_pk s) ppk pool quantity now
  | None =>
      let before := made_before (fun al => bool_decide (Allocation.order al = Some opk)
                                           && labelled "plan_delivery_source_id" (ls_pk s) al) d in
      if (if quantity =? 0 then 1 else quantity) <=? len before then mret before
      else raise (OtherError "AttributeError")
  end.

Definition execute_inventory_source (opk : Z) (s : loaded_source) (now : Z) : IO source_result :=
  source_attempt [s] (
    allocations ← allocations_for opk s now;
    links ← collect (inventory_output s) allocations;
    mret (mk_outputs (concat links) [] [] [])).

Definition of_type (t : PlanDelivery.source_type_t) (s : loaded_source) : bool :=
  bool_decide (PlanDelivery.source_type (ls_row s) = t).

Definition execute_sources (opk : Z) (o : order) (p : Plan.plan) (dynamic : bool) (now : Z)
    (sources : list loaded_source) : IO (list source_result) :=
  panel_results ← execute_panel_sources opk o p dynamic now
                    (filter (fun s => Is_true (of_type PlanDelivery.PANEL_INBOUND s)) sources);
  pool_results ← collect (fun s => execute_inventory_source opk s now)
                   (filter (fun s => Is_true (of_type PlanDelivery.INVENTORY_POOL s)) sources);
  mret (panel_results ++ pool_results)%list.

(** ** The customer's cup *)

(** The order's own cup: the oldest without a client. *)
Definition order_cups (d : DB) (opk : Z) : list (Z * cup_row) :=
  order_by (fun kc => [SubscriptionCup.created_at kc.2; kc.1])
    (rows_where (fun _ c => bool_decide (SubscriptionCup.order c = Some opk)
                            && negb (is_set (SubscriptionCup.vpn_client c))) (cups d)).

(** [SubscriptionCup(order=order)] *)
Definition blank_cup (opk cpk now : Z) : cup_row := {|
  SubscriptionCup.customer := None; SubscriptionCup.order := Some opk; SubscriptionCup.plan := None;
  SubscriptionCup.vpn_client := None; SubscriptionCup.token := generate_subscription_cup_token cpk;
  SubscriptionCup.status := SubscriptionCup.ACTIVE; SubscriptionCup.expires_at := None;
  SubscriptionCup.traffic_limit_bytes := 0; SubscriptionCup.device_limit := None;
  SubscriptionCup.cup_metadata := ∅; SubscriptionCup.created_at := now |}.

Definition own_cup (d : DB) (opk now : Z) : Z * cup_row :=
  default (next_pk (cups d), blank_cup opk (next_pk (cups d)) now) (head (order_cups d opk)).

Definition set_cup (pk : Z) (c : cup_row) (d : DB) : DB := d {{ cups ::= insert pk c }}.

Definition built_cup (o : order) (p : Plan.plan) (config now : Z) (c : cup_row) : cup_row :=
  c {{ SubscriptionCup.customer := customer o;
       SubscriptionCup.plan := Some (plan o);
       SubscriptionCup.vpn_client := None;
       SubscriptionCup.status := SubscriptionCup.ACTIVE;
       SubscriptionCup.expires_at := Some (now + Plan.duration_days p * VPNClient.day);
       SubscriptionCup.traffic_limit_bytes := Plan.traffic_limit_bytes p;
       SubscriptionCup.device_limit := Some (Plan.device_limit p);
       SubscriptionCup.cup_metadata ::= fun m =>
         <["source" := JStr "plan_delivery_v2"]> (<["delivery_config_id" := JNum config]>
         (<["last_built_at" := JStr (isoformat now)]> m)) }}.

Fixpoint fill_cup (cpk position : Z) (links : list Z) : IO unit :=
  match links with
  | [] => mret tt
  | lpk :: rest =>
      _ ← create_cup_item cpk lpk position "plan_delivery_v2" {[ "source" := JStr "plan_delivery_v2" ]};
      fill_cup cpk (position + 1) rest
  end.

(** The allocations the links were made from. *)
Definition link_allocations (d : DB) (links : list Z) : list Z :=
  omap (fun lpk => c ← config_links d !! lpk;
                   match ConfigLink.link_metadata c !! "allocation_id" with
                   | Some (JNum k) => if k =? 0 then None else Some k
                   | _ => None end) links.

Definition attach_allocations (cpk opk : Z) (ids : list Z) (d : DB) : DB :=
  set_allocations (update_where (fun k al => bool_decide (k ∈ ids) && bool_decide (Allocation.order al = Some opk))
    (fun al => al {{ Allocation.cup := Some cpk }})) d.

(** Every item of the cup is switched off before the new ones are made. *)
Definition clear_cup (cpk : Z) (d : DB) : DB :=
  d {{ cup_items ::= update_where (fun _ i => bool_decide (CupItem.cup i = cpk))
         (fun i => i {{ CupItem.is_active := false }}) }}.

Definition ensure_subscription_cup (opk : Z) (o : order) (p : Plan.plan) (config : Z) (links : list Z) (now : Z)
    : IO (Z * cup_row) :=
  d ← get_db;
  let '(cpk, c) := own_cup d opk now in
  let c := built_cup o p config now c in
  _ ← put_db (set_cup cpk c);
  _ ← put_db (clear_cup cpk);
  _ ← fill_cup cpk 1 links;
  d ← get_db;
  _ ← put_db (attach_allocations cpk opk (link_allocations d links));
  mret (cpk, c).

(** ** The order *)

(** [_stable_idempotency_key] *)
Definition stable_idempotency_key (o : order) (config : Z) : string :=
  sha256 ("plan-delivery-v2:" +:+ public_id o +:+ ":" +:+ order_tracking_code o +:+ ":" +:+ pretty config).

(** Payment is taken as verified, whatever becomes of the delivery. *)
Definition payment_accepted (o : order) : order :=
  let o := o {{ is_paid := true; verification_status := V_VERIFIED }} in
  if bool_decide (status o = COMPLETED) then o else o {{ status := CONFIRMED }}.

Definition mark_order_provisioning (opk : Z) (o : order) (key : string) (now : Z) : IO order :=
  save_order opk (mark_provisioning_state PROVISIONING "" None key true (payment_accepted o))
    [F_is_paid; F_verification_status; F_status; F_provisioning_status; F_provisioning_attempts;
     F_provisioning_idempotency_key] now.

(** [dict(metadata.get(key) or {})] *)
Definition obj_at (key : string) (m : Prelude.metadata) : list (string * json) :=
  match m !! key with Some (JObj kv) => kv | _ => [] end.

Fixpoint set_assoc (key : string) (v : json) (kv : list (string * json)) : list (string * json) :=
  match kv with
  | [] => [(key, v)]
  | (k, w) :: rest => if bool_decide (k = key) then (k, v) :: rest else (k, w) :: set_assoc key v rest
  end.

Definition finish_failed_order (opk : Z) (o : order) (error key : string) (now : Z) : IO order :=
  let plan_delivery := set_assoc "failed_at" (JStr (isoformat now))
                         (set_assoc "status" (JStr "failed") (obj_at "plan_delivery_v2" (metadata o))) in
  let o := payment_accepted (o {{ metadata ::= insert "plan_delivery_v2" (JObj plan_delivery) }}) in
  save_order opk (mark_provisioning_state FAILED error None key false o)
    [F_is_paid; F_verification_status; F_status; F_metadata; F_provisioning_status;
     F_last_provisioning_error; F_provisioning_idempotency_key] now.

Definition count_results (test : source_result -> bool) (l : list source_result) : Z :=
  len (filter (fun r => Is_true (test r)) l).

(** The record of the delivery on the order. *)
Definition delivery_record (config : Z) (mode : string) (results : list source_result) (links clients : Z)
    (cup_ids feed_ids : list Z) : json := JObj [
  ("status", JStr "provisioned"); ("delivery_config_id", JNum config); ("delivery_mode", JStr mode);
  ("source_result_count", JNum (len results));
  ("successful_source_result_count", JNum (count_results sr_ok results));
  ("failed_source_result_count", JNum (count_results (fun r => negb (sr_ok r)) results));
  ("config_link_count", JNum links); ("vpn_client_count", JNum clients);
  ("subscription_cup_ids", JList (map JNum cup_ids)); ("external_feed_ids", JList (map JNum feed_ids)) ].

Definition V2_FIELDS : list field :=
  [F_uuid; F_sub_link; F_direct_link; F_username; F_is_paid; F_verification_status; F_verified_by;
   F_verified_at; F_status; F_metadata; F_provisioning_status; F_last_provisioning_error; F_provisioned_at].

(** The cup with its feeds and its address, or no cup. *)
Definition deliver_cup (opk : Z) (o : order) (p : Plan.plan) (config : Z) (links : list Z)
    (feeds : list dynamic_feed_snapshot) (now : Z) : IO (Z * list Z * string) :=
  '(cpk, c) ← ensure_subscription_cup opk o p config links now;
  feed_ids ← collect (fun s => register_external_subscription_feed_snapshot cpk s now) feeds;
  d ← get_db;
  url ← liftR (build_subscription_cup_url d c (store o));
  mret (cpk, feed_ids, url).

(** The order's columns after a delivery. *)
Definition delivered_order (o : order) (mode : string) (record : json) (raws : list string)
    (sub direct : string) (first : option VPNClient.vpn_client) (actor : option Z) (now : Z) : order :=
  let o := o {{ sub_link := Some sub; direct_link := Some direct;
                uuid := or_text (first ≫= VPNClient.uuid) (uuid o);
                username := or_str (username o) (match first with Some c => VPNClient.username c | None => "" end) }} in
  let o := mark_payment_verified actor now o in
  let m := <["plan_delivery_v2" := record]> (<["panel_provisioned_at" := JStr (isoformat now)]>
             (<["panel_provisioning_reason" := JStr ""]>
             (<["panel_provisioning_deferred" := JBool false]> (metadata o)))) in
  let m := if bool_decide (mode = MODE_DIRECT_LINKS) then <["direct_delivery_links" := JList (map JStr raws)]> m
           else delete "direct_delivery_links" m in
  mark_provisioning_state PROVISIONED "" (Some now) "" false (o {{ metadata := m }}).

Definition finish_success_order (opk : Z) (o : order) (p : Plan.plan) (config : Z) (mode : string)
    (results : list source_result) (actor : option Z) (now : Z) : IO order :=
  let good := filter (fun r => Is_true (sr_ok r)) results in
  let raws := concat (map sr_raw_links good) in
  let links := concat (map sr_config_links good) in
  let clients := concat (map sr_vpn_clients good) in
  '(cup_ids, feed_ids, sub, direct) ←
    (if bool_decide (mode = MODE_SUBSCRIPTION) then
       '(cpk, feed_ids, url) ← deliver_cup opk o p config links (concat (map sr_dynamic_feeds good)) now;
       mret ([cpk], feed_ids, url, "")
     else mret ([], [], "", default "" (head raws)));
  let record := delivery_record config mode results (len links) (len clients) cup_ids feed_ids in
  save_order opk (delivered_order o mode record raws sub direct (snd <$> head clients) actor now) V2_FIELDS now.

(** ** The engine *)

Definition should_use_fallback (results : list source_result) : bool :=
  bool_decide (length results = 0%nat) || negb (existsb sr_ok results)
  || existsb (fun r => negb (bool_decide (length (sr_errors r) = 0%nat))) results.

(** Links were made, and under the strict policy every required source gave
    its own. *)
Definition delivery_ok (policy : PlanDelivery.failure_policy_t) (results : list source_result) : bool :=
  existsb (fun r => sr_ok r && negb (bool_decide (length (sr_raw_links r) = 0%nat))) results
  && negb (bool_decide (policy = PlanDelivery.STRICT) && existsb (fun r => sr_required r && negb (sr_ok r)) results).

Definition run_sources (opk : Z) (o : order) (p : Plan.plan) (dynamic : bool) (now : Z)
    (sources : list loaded_source) : IO (list source_result) :=
  results ← execute_sources opk o p dynamic now (filter (fun s => Is_true (negb (ls_fallback s))) sources);
  let fallback := filter (fun s => Is_true (ls_fallback s)) sources in
  if negb (bool_decide (length fallback = 0%nat)) && should_use_fallback results
  then more ← execute_sources opk o p dynamic now fallback; mret (results ++ more)%list
  else mret results.

Definition get_delivery_config (pk : Z) : IO config_row := get_or_raise (fun w => delivery_configs (db w) !! pk).

(** [execute_plan_delivery]; whether it succeeded, the errors, the first client. *)
Definition execute_plan_delivery (opk config : Z) (actor : option Z) (now : Z)
    : IO (bool * list string * option (Z * VPNClient.vpn_client)) :=
  o ← get_order opk;
  seen ← get_delivery_config config;
  let mode := PlanDelivery.delivery_mode seen in
  if bool_decide (mode = MODE_GLOBAL_FALLBACK) then mret (false, [], None)
  else if negb (bool_decide (mode ∈ [MODE_DIRECT_LINKS; MODE_SUBSCRIPTION]))
  then mret (false, ["unsupported_delivery_mode"], None)
  else
    let key := stable_idempotency_key o config in
    atomic (
      c ← get_delivery_config config;
      d ← get_db;
      match active_delivery_sources d config with
      | [] =>
          _ ← finish_failed_order opk o "no_active_plan_delivery_sources" key now;
          mret (false, ["no_active_plan_delivery_sources"], None)
      | sources =>
          o ← mark_order_provisioning opk o key now;
          p ← get_plan (plan o);
          let mode := PlanDelivery.delivery_mode c in
          results ← run_sources opk o p (bool_decide (mode = MODE_SUBSCRIPTION)) now sources;
          let errors := concat (map sr_errors results) in
          let first := head (concat (map sr_vpn_clients (filter (fun r => Is_true (sr_ok r)) results))) in
          if negb (delivery_ok (PlanDelivery.failure_policy c) results) then
            _ ← finish_failed_order opk o (or_str (join "; " (take 3 errors)) "plan_delivery_v2_failed") key now;
            mret (false, match errors with [] => ["plan_delivery_v2_failed"] | _ => errors end, first)
          else
            _ ← finish_success_order opk o p config mode results actor now;
            mret (true, [], first)
      end).
End Execution.
