(* ===== verification/CupRecipes.v ===== *)
(** Cup recipes (src/store/cup_fulfillment_services.py): the rules of a plan's
    recipe run in order, each filling the order's cup from a panel or a pool.

    Making a link and its item does not raise, so an exception of a rule comes
    from the panel or the pool, before the links of that turn. *)

From S2P Require Import Prelude Models World Numbers OrderStore Inbounds Scope OrderActions Provisioning Submission ClientManagement Inventory Cups FeedFilter Feeds PlanDelivery.
Import Order.

#[local] Open Scope string_scope.
#[local] Open Scope Z_scope.

Abbreviation recipe_row := CupRecipe.cup_fulfillment_recipe.
Abbreviation rule_row := CupRecipe.cup_filler_rule.

(** [RuleFulfillmentResult] *)
Record rule_result := mk_rule_result {
  rule_id : Z;
  rr_source_type : CupRecipe.source_type_t;
  rr_position : Z;
  rr_required : bool;
  rr_success : bool;
  created_link_count : Z;
  inventory_allocation_count : Z;
  panel_generated_count : Z;
  rr_errors : list string;
  rr_warnings : list string;
  rr_metadata : list (string * json);
}.

(** [RuleFulfillmentResult(rule_id=rule.pk, ...)] *)
Definition rule_outcome (kr : Z * rule_row) (success : bool) (created allocated generated : Z)
    (errors : list string) (md : list (string * json)) : rule_result :=
  mk_rule_result kr.1 (CupRecipe.source_type kr.2) (CupRecipe.position kr.2) (CupRecipe.required kr.2) success
    created allocated generated errors [] md.

Definition source_type_text (t : CupRecipe.source_type_t) : string :=
  match t with
  | CupRecipe.PANEL_INBOUNDS => "panel_inbounds"
  | CupRecipe.INVENTORY_POOL => "inventory_pool"
  | CupRecipe.OTHER_TYPE => ""
  end.

(** [to_safe_dict] *)
Definition rule_dict (r : rule_result) : json := JObj [
  ("rule_id", JNum (rule_id r)); ("source_type", JStr (source_type_text (rr_source_type r)));
  ("position", JNum (rr_position r)); ("required", JBool (rr_required r)); ("success", JBool (rr_success r));
  ("created_link_count", JNum (created_link_count r));
  ("inventory_allocation_count", JNum (inventory_allocation_count r));
  ("panel_generated_count", JNum (panel_generated_count r)); ("errors", JList (map JStr (rr_errors r)));
  ("warnings", JList (map JStr (rr_warnings r))); ("metadata", JObj (rr_metadata r)) ].

Definition mode_text (m : mode_t) : string :=
  match m with
  | InventoryPool.EXCLUSIVE => "exclusive"
  | InventoryPool.SHARED_LIMITED => "shared_limited"
  | InventoryPool.SHARED_UNLIMITED => "shared_unlimited"
  end.

(** ** Names for clients *)

(** [re.sub(r"\s+", "-", s)] and [re.sub(r"[^A-Za-z0-9._-]+", "-", s)]: each run
    of such characters becomes one dash. *)
Fixpoint dash_runs (bad : ascii -> bool) (in_run : bool) (s : string) : string :=
  match s with
  | EmptyString => ""
  | String c s' =>
      if bad c then if in_run then dash_runs bad true s' else String "-" (dash_runs bad true s')
      else String c (dash_runs bad false s')
  end.

Definition name_char (c : ascii) : bool :=
  let n := code_of c in
  ((48 <=? n) && (n <=? 57)) || ((65 <=? n) && (n <=? 90)) || ((97 <=? n) && (n <=? 122))
  || bool_decide (c ∈ ["."; "_"; "-"]%char).

Section Recipes.
Context `{Env}.

Definition safe_email_prefix (opk : Z) (o : order) (position index : Z) : string :=
  let suffix := "-r" +:+ pretty position +:+ "-" +:+ pretty index in
  let base := or_str (username o) (or_str (build_client_display_name o) ("order-" +:+ pretty opk)) in
  let value := dash_runs (fun c => negb (name_char c)) false (dash_runs is_space false (base +:+ suffix)) in
  or_str (take_chars 80 (rstrip_chars ["-"%char] (lstrip_chars ["-"%char] value)))
    ("order-" +:+ pretty opk +:+ suffix).

(** ** The order's cup *)

Definition get_active_recipe_for_plan (d : DB) (plan : Z) : option (Z * recipe_row) :=
  head (order_by (fun kr => [CupRecipe.priority kr.2; kr.1])
    (rows_where (fun _ r => bool_decide (CupRecipe.plan r = plan) && CupRecipe.is_active r) (recipes d))).

(** [_cup_expires_at] *)
Definition cup_expires_at (p : Plan.plan) (now : Z) : option Z :=
  if Plan.duration_days p <=? 0 then None else Some (now + Plan.duration_days p * VPNClient.day).

Definition recipe_cup (o : order) (p : Plan.plan) (kr : Z * recipe_row) (now : Z) (c : cup_row) : cup_row :=
  c {{ SubscriptionCup.cup_metadata ::= fun m =>
         <["last_fulfilled_at" := JStr (isoformat now)]> (<["recipe_title" := JStr (CupRecipe.title kr.2)]>
         (<["recipe_id" := JNum kr.1]> (<["source" := JStr "cup_fulfillment_recipe"]> m)));
       SubscriptionCup.customer := customer o;
       SubscriptionCup.plan := Some (plan o);
       SubscriptionCup.status := SubscriptionCup.ACTIVE;
       SubscriptionCup.traffic_limit_bytes := Plan.traffic_limit_bytes p;
       SubscriptionCup.device_limit := Some (Plan.device_limit p);
       SubscriptionCup.expires_at := or_opt (SubscriptionCup.expires_at c) (cup_expires_at p now) }}.

Definition create_or_reuse_order_cup (opk : Z) (o : order) (p : Plan.plan) (kr : Z * recipe_row) (now : Z) : IO Z :=
  d ← get_db;
  let '(cpk, c) := own_cup d opk now in
  _ ← put_db (set_cup cpk (recipe_cup o p kr now c));
  mret cpk.

(** [CupItem.objects.get_or_create(cup=cup, config_link=link, defaults=...)] *)
Definition get_or_create_item (cup link : Z) (reason : string) (md : Prelude.metadata) : IO unit :=
  d ← get_db;
  if exists_where (fun _ i => bool_decide (CupItem.cup i = cup) && bool_decide (CupItem.config_link i = link)) (cup_items d)
  then mret tt
  else _ ← create_cup_item cup link (next_position cup d) reason md; mret tt.

(** ** A panel rule *)

Definition inbounds_by_pk (test : Z -> Inbound.inbound -> bool) (d : DB) : list keyed_inbound :=
  order_by (fun i : keyed_inbound => [i.1]) (rows_where test (inbounds d)).

(** [_panel_rule_inbounds] *)
Definition panel_rule_inbounds (d : DB) (r : rule_row) : list keyed_inbound :=
  match inbounds_by_pk (fun k _ => bool_decide (k ∈ CupRecipe.inbounds r)) d with
  | [] => match CupRecipe.panel r with
          | Some p => take 1 (inbounds_by_pk (fun _ i => bool_decide (Inbound.panel i = Some p)
                                && Inbound.is_active i && Inbound.available_for_new_orders i) d)
          | None => []
          end
  | l => l
  end.

Definition inbound_missing_reality_pbk (d : DB) (i : keyed_inbound) : bool :=
  match inbound_panel d i.2 with
  | Some p => negb (Panel.is_pasarguard p) && bool_decide (Inbound.security i.2 = Inbound.REALITY)
              && bool_decide (strip (default "" (Inbound.pbk i.2)) = "")
  | None => bool_decide (Inbound.security i.2 = Inbound.REALITY)
            && bool_decide (strip (default "" (Inbound.pbk i.2)) = "")
  end.

(** [_direct_link_entries]: where each link leads, whose it is, and the link. *)
Definition direct_link_entries (r : adapter_result) (ins : list keyed_inbound)
    : list (option keyed_inbound * client_result * string) :=
  let raws := filter (fun s => s <> "") (map strip (ar_raw_links r)) in
  match raws, ins with
  | _ :: _, _ => imap (fun k raw => (or_opt (ins !! k) (head ins), ar_client r, raw)) raws
  | [], ([] | [_]) => [(head ins, ar_client r, strip (default "" (cr_direct_link (ar_client r))))]
  | [], _ => imap (fun k i => match ar_bundle_results r !! k with
                              | Some item => (Some i, item, strip (default "" (cr_direct_link item)))
                              | None => (Some i, ar_client r, "")
                              end) ins
  end.

Definition panel_link_metadata (recipe rule panel : Z) (i : option keyed_inbound) : Prelude.metadata :=
  <["source" := JStr "cup_fulfillment_recipe"]> (<["recipe_id" := JNum recipe]> (<["rule_id" := JNum rule]>
  (<["panel_id" := JNum panel]> (<["inbound_pk" := match i with Some i => JNum i.1 | None => JNull end]> ∅)))).

Fixpoint add_panel_entries (cup recipe rule panel : Z) (entries : list (option keyed_inbound * client_result * string))
    : IO unit :=
  match entries with
  | [] => mret tt
  | (i, cr, direct) :: rest =>
      let md := panel_link_metadata recipe rule panel i in
      lpk ← create_config_link_from_raw direct ConfigLink.PANEL_GENERATED (Some panel) (fst <$> i) None None
              (<["remote_email_saved" := JBool (negb (bool_decide (cr_email cr = "")))]>
              (<["remote_sub_link_saved" := JBool (text_truthy (cr_sub_link cr))]> md));
      _ ← get_or_create_item cup lpk "fulfillment_recipe_panel" md;
      add_panel_entries cup recipe rule panel rest
  end.

Definition PARTIAL_REMOTE_ERROR : string :=
  "ساخت چنداینباندی ناقص است؛ نتیجه پنل باید بررسی شود و ساخت تکراری انجام نشد.".

(** What an earlier attempt left on the panel; asked for only on a retry. *)
Definition existing_remote_clients (o : order) (panel : Panel.panel) (ins : list keyed_inbound) (ident : identity)
    : IO (list (option client_result)) :=
  if (1 <? provisioning_attempts o) && negb (Panel.is_pasarguard panel)
  then collect (fun i => lookup_existing i ident) ins else mret [].

Definition reused_result (ins : list keyed_inbound) (found : list client_result) (first : client_result)
    : adapter_result :=
  {| ar_client := first; ar_raw_links := [];
     ar_bundle_results := if bool_decide (1 < length ins)%nat then found else [] |}.

(** One turn of the loop: the number of links, or an error. *)
Definition panel_rule_turn (opk : Z) (o : order) (p : Plan.plan) (cup : Z) (kr : Z * rule_row)
    (panel : Z * Panel.panel) (ins : list keyed_inbound) (index : Z) : IO (Z + string) :=
  let ident := multi_inbound_order_identity o ins (kr.1 * 1000 + index) in
  existing ← existing_remote_clients o panel.2 ins ident;
  let found := omap id existing in
  let missing := negb (bool_decide (length found = length existing)) in
  if negb (bool_decide (length found = 0%nat)) && missing then mret (inr PARTIAL_REMOTE_ERROR)
  else
    remote ← match found with
             | first :: _ => mret (reused_result ins found first)
             | [] => askR (CallAdapterCreate panel.1 ins.*1 (id_uuid ident))
                       (fun h => adapter_create h panel.1 ins.*1 p ident
                                   (safe_email_prefix opk o (CupRecipe.position kr.2) index))
             end;
    let entries := direct_link_entries remote ins in
    if existsb (fun e => bool_decide (e.2 = "")) entries
    then mret (inr "Panel created a client but did not return all direct links.")
    else
      _ ← add_panel_entries cup (CupRecipe.recipe kr.2) kr.1 panel.1 entries;
      mret (inl (len entries)).

Fixpoint panel_rule_turns (opk : Z) (o : order) (p : Plan.plan) (cup : Z) (kr : Z * rule_row)
    (panel : Z * Panel.panel) (ins : list keyed_inbound) (made : Z) (indices : list Z) : IO (Z * list string) :=
  match indices with
  | [] => mret (made, [])
  | index :: rest =>
      turn ← catch (panel_rule_turn opk o p cup kr panel ins index) (fun e => mret (inr (source_safe_error e)));
      match turn with
      | inl n => panel_rule_turns opk o p cup kr panel ins (made + n) rest
      | inr error => mret (made, [error])
      end
  end.

(** [None] when the panel cannot say what it supports. *)
Definition capabilities (ppk : Z) : IO (option capability_report) :=
  catch (r ← askR (CallCapabilities ppk) (fun h => get_capability_report h ppk); mret (Some r)) (fun _ => mret None).

Definition unsupported (report : option capability_report) (ins : list keyed_inbound) : option string :=
  match report with
  | None => None
  | Some r =>
      if negb (supports_create_client r) then Some "Panel does not currently support create_client."
      else if bool_decide (1 < length ins)%nat && negb (supports_multi_inbound_create r)
      then Some "Panel does not currently support multi-inbound create." else None
  end.

Definition rule_quantity (r : rule_row) : Z := if CupRecipe.quantity r =? 0 then 1 else CupRecipe.quantity r.

Definition json_pk (k : option Z) : json := match k with Some z => JNum z | None => JNull end.

(** [_create_panel_links_for_rule] *)
Definition create_panel_links_for_rule (opk : Z) (o : order) (p : Plan.plan) (cup : Z) (kr : Z * rule_row)
    : IO rule_result :=
  d ← get_db;
  let ins := panel_rule_inbounds d kr.2 in
  let panel := or_opt (keyed_panel d (CupRecipe.panel kr.2))
                 (head ins ≫= fun i : keyed_inbound => keyed_panel d (Inbound.panel i.2)) in
  let md := [("panel_id", json_pk (fst <$> panel)); ("inbound_pks", JList (map (fun i : keyed_inbound => JNum i.1) ins))] in
  let failed error := mret (rule_outcome kr false 0 0 0 [error] md) in
  match panel, ins with
  | None, _ | _, [] => failed "Panel rule requires a panel and at least one inbound."
  | Some panel, _ =>
      if existsb (fun i : keyed_inbound => negb (bool_decide (Inbound.panel i.2 = Some panel.1))) ins
      then failed "Panel rule contains an inbound from a different panel."
      else if existsb (inbound_missing_reality_pbk d) ins
      then failed "Reality inbound is missing public key; source was not provisioned."
      else
        report ← capabilities panel.1;
        match unsupported report ins with
        | Some error => failed error
        | None =>
            '(made, errors) ← panel_rule_turns opk o p cup kr panel ins 0 (seqZ 1 (rule_quantity kr.2));
            mret (rule_outcome kr (bool_decide (length errors = 0%nat)) made 0 made errors md)
        end
  end.

(** ** An inventory rule *)

Fixpoint add_allocation_items (cup : Z) (kr : Z * rule_row) (ppk : Z) (allocations : list Z) : IO unit :=
  match allocations with
  | [] => mret tt
  | apk :: rest =>
      d ← get_db;
      al ← get_or_raise (fun w => config_allocations (db w) !! apk);
      asset ← get_or_raise (fun w => inventory_assets (db w) !! Allocation.asset al);
      lpk ← create_config_link_from_raw (InventoryAsset.raw_link asset) ConfigLink.IMPORTED_SUBSCRIPTION
              None None None None
              (<["source" := JStr "config_inventory_pool"]> (<["pool_id" := JNum ppk]>
              (<["asset_id" := JNum (Allocation.asset al)]> (<["allocation_id" := JNum apk]>
              (<["allocation_mode" := JStr (mode_text (Allocation.allocation_mode al))]> ∅)))));
      _ ← get_or_create_item cup lpk "fulfillment_recipe_inventory"
              (<["source" := JStr "config_inventory_pool"]> (<["recipe_id" := JNum (CupRecipe.recipe kr.2)]>
              (<["rule_id" := JNum kr.1]> (<["pool_id" := JNum ppk]>
              (<["asset_id" := JNum (Allocation.asset al)]> (<["allocation_id" := JNum apk]> ∅))))));
      add_allocation_items cup kr ppk rest
  end.

(** [_create_inventory_links_for_rule] *)
Definition create_inventory_links_for_rule (opk cup : Z) (kr : Z * rule_row) (now : Z) : IO rule_result :=
  d ← get_db;
  let pool := CupRecipe.inventory_pool kr.2 ≫= fun k => (k,.) <$> inventory_pools d !! k in
  let md := [("pool_id", json_pk (fst <$> pool))] in
  match pool with
  | None => mret (rule_outcome kr false 0 0 0 ["Inventory rule requires an inventory pool."] md)
  | Some (ppk, row) =>
      allocations ← catch (l ← rule_allocations opk cup kr.1 ppk row (CupRecipe.quantity kr.2)
                                 (CupRecipe.allocation_mode kr.2) now; mret (inl l))
                      (fun e => mret (inr (source_safe_error e)));
      match allocations with
      | inr error => mret (rule_outcome kr false 0 0 0 [error] md)
      | inl l =>
          _ ← add_allocation_items cup kr ppk l;
          mret (rule_outcome kr true (len l) (len l) 0 [] md)
      end
  end.

(** ** Running the rules *)

Definition num_at (key : string) (kv : list (string * json)) : Z :=
  match assoc key kv with Some (JNum n) => n | _ => 0 end.

(** The success an earlier attempt recorded for a rule. *)
Definition completed_before (m : Prelude.metadata) (rule : Z) : option (list (string * json)) :=
  match md_get2 "cup_fulfillment_recipe" "rule_results" m with
  | Some (JList l) =>
      head (omap (fun j => match j with
        | JObj kv => if bool_decide (num_at "rule_id" kv = rule) && json_truthy (assoc "success" kv) then Some kv else None
        | _ => None end) l)
  | _ => None
  end.

(** [CupItem.objects.filter(cup=cup, is_active=True, metadata__rule_id=rule.pk).exists()] *)
Definition rule_filled (d : DB) (cup rule : Z) : bool :=
  exists_where (fun _ i => bool_decide (CupItem.cup i = cup) && CupItem.is_active i
    && match CupItem.item_metadata i !! "rule_id" with Some (JNum k) => k =? rule | _ => false end) (cup_items d).

Definition run_rule (opk : Z) (o : order) (p : Plan.plan) (cup : Z) (kr : Z * rule_row) (now : Z) : IO rule_result :=
  d ← get_db;
  match (kv ← completed_before (metadata o) kr.1; if rule_filled d cup kr.1 then Some kv else None) with
  | Some kv =>
      mret (rule_outcome kr true (num_at "created_link_count" kv) (num_at "inventory_allocation_count" kv)
              (num_at "panel_generated_count" kv) [] [])
  | None =>
      match CupRecipe.source_type kr.2 with
      | CupRecipe.PANEL_INBOUNDS => create_panel_links_for_rule opk o p cup kr
      | CupRecipe.INVENTORY_POOL => create_inventory_links_for_rule opk cup kr now
      | CupRecipe.OTHER_TYPE => mret (rule_outcome kr false 0 0 0 ["Rule source type is not supported."] [])
      end
  end.

Definition has_errors (r : rule_result) : bool := negb (bool_decide (length (rr_errors r) = 0%nat)).
Definition required_failure (r : rule_result) : bool := rr_required r && has_errors r.

(** The loop: under the strict policy a required rule that failed is the last. *)
Fixpoint run_rules (opk : Z) (o : order) (p : Plan.plan) (cup : Z) (strict : bool) (now : Z)
    (rules : list (Z * rule_row)) : IO (list rule_result) :=
  match rules with
  | [] => mret []
  | kr :: rest =>
      r ← run_rule opk o p cup kr now;
      if required_failure r && strict then mret [r]
      else rs ← run_rules opk o p cup strict now rest; mret (r :: rs)
  end.

Definition active_rules (d : DB) (recipe : Z) : list (Z * rule_row) :=
  order_by (fun kr => [CupRecipe.position kr.2; kr.1])
    (rows_where (fun _ r => bool_decide (CupRecipe.recipe r = recipe) && CupRecipe.rule_active r) (filler_rules d)).

(** [CupFulfillmentResult] *)
Record fulfillment := mk_fulfillment {
  fl_status : string;
  fl_results : list rule_result;
  fl_errors : list string;
  fl_warnings : list string;
}.

Definition total (count : rule_result -> Z) (l : list rule_result) : Z := foldr Z.add 0 (map count l).

(** [result.ok] *)
Definition fl_ok (f : fulfillment) : bool := bool_decide (fl_status f ∈ ["success"; "partial"]).

Definition fulfillment_of (strict : bool) (rules : list (Z * rule_row)) (results : list rule_result) : fulfillment :=
  let failed := existsb required_failure results in
  let errors := (match rules with [] => ["Fulfillment recipe has no active rules."] | _ => [] end
                 ++ concat (map (fun r => if rr_required r then rr_errors r else []) results))%list in
  let warnings := concat (map (fun r => (if rr_required r then [] else rr_errors r) ++ rr_warnings r)%list results) in
  let delivered := negb (total created_link_count results =? 0) && (negb failed || negb strict) in
  mk_fulfillment (if delivered then if failed then "partial" else "success" else "failed") results errors warnings.

(** [_metadata_for_order] *)
Definition fulfillment_record (recipe : Z) (f : fulfillment) : json := JObj [
  ("recipe_id", JNum recipe); ("status", JStr (fl_status f));
  ("created_link_count", JNum (total created_link_count (fl_results f)));
  ("inventory_allocation_count", JNum (total inventory_allocation_count (fl_results f)));
  ("panel_generated_count", JNum (total panel_generated_count (fl_results f)));
  ("errors", JList (map JStr (fl_errors f))); ("warnings", JList (map JStr (fl_warnings f)));
  ("rule_results", JList (map rule_dict (fl_results f))) ].

Definition RECIPE_FIELDS : list field :=
  [F_is_paid; F_verification_status; F_verified_by; F_verified_at; F_status; F_metadata; F_provisioning_status;
   F_last_provisioning_error; F_provisioned_at].

Definition fulfilled_order (o : order) (recipe : Z) (f : fulfillment) (actor : option Z) (now : Z) : order :=
  let o := if fl_ok f
           then (mark_payment_verified actor now o) {{ provisioning_status := PROVISIONED;
                  last_provisioning_error := ""; provisioned_at := Some now }}
           else (payment_accepted o) {{ provisioning_status := FAILED;
                  last_provisioning_error := or_str (join "; " (take 3 (fl_errors f))) "Cup fulfillment recipe failed." }} in
  o {{ metadata ::= fun m =>
         <["panel_provisioning_reason" := JStr (if fl_ok f then "" else "cup_fulfillment_recipe_failed")]>
         (<["panel_provisioning_deferred" := JBool false]>
         (<["cup_fulfillment_recipe" := fulfillment_record recipe f]> m)) }}.

(** [ConfigAllocation.objects.filter(cup=cup, order__isnull=True).update(order=order)] *)
Definition claim_allocations (cup opk : Z) (d : DB) : DB :=
  set_allocations (update_where (fun _ al => bool_decide (Allocation.cup al = Some cup) && negb (is_set (Allocation.order al)))
    (fun al => al {{ Allocation.order := Some opk }})) d.

(** [None] when no recipe takes the order; else whether it succeeded and why
    not. *)
Definition fulfill_order_with_recipe (opk : Z) (actor : option Z) (now : Z) : IO (option (bool * list string)) :=
  o ← get_order opk;
  d ← get_db;
  match get_active_recipe_for_plan d (plan o) with
  | None => mret None
  | Some kr => atomic (
      o ← get_order opk;
      o ← save_order opk (o {{ provisioning_attempts ::= Z.succ }}) [F_provisioning_attempts] now;
      p ← get_plan (plan o);
      cup ← create_or_reuse_order_cup opk o p kr now;
      d ← get_db;
      let rules := active_rules d kr.1 in
      let strict := bool_decide (CupRecipe.failure_policy kr.2 = CupRecipe.STRICT) in
      results ← run_rules opk o p cup strict now rules;
      let f := fulfillment_of strict rules results in
      _ ← save_order opk (fulfilled_order o kr.1 f actor now) RECIPE_FIELDS now;
      _ ← put_db (claim_allocations cup opk);
      mret (Some (fl_ok f, fl_errors f)))
  end.
End Recipes.
