(* ===== verification/DeliveryConfig.v ===== *)
(** How a plan is delivered and whether it is ready to be sold
    (src/store/plan_delivery_services.py, with the checks of
    src/store/plan_route_services.py, src/store/source_sellability.py and
    src/store/plan_fulfillment_services.py it relies on).

    Only what the configuration is asked for is kept: mode, source of truth,
    counts and readiness.  Diagnostics of recipes are kept as severities, their
    wording is not. *)

From S2P Require Import Prelude Models World Numbers Inbounds Scope OrderActions Provisioning Submission ClientManagement Inventory Cups FeedFilter Feeds PlanDelivery CupRecipes.

#[local] Open Scope string_scope.
#[local] Open Scope Z_scope.

Definition MODE_CONFLICT : string := "CONFLICT".
Definition SOURCE_STORE_FALLBACK : string := "store_global_fallback".
Definition SOURCE_PLAN_ROUTES : string := "legacy_plan_inbound_routes".
Definition SOURCE_CUP_RECIPE : string := "legacy_cup_fulfillment_recipe".
Definition SOURCE_CONFLICT : string := "legacy_conflict".
Definition READINESS_READY : string := "ready".
Definition READINESS_WARNING : string := "warning".

(** ** Inbounds fit for sale *)

Definition md_is_false (key : string) (m : metadata) : bool :=
  match m !! key with Some (JBool b) => negb b | _ => false end.

(** [Inbound.requires_sellability_verification] *)
Definition requires_sellability_verification (d : DB) (i : Inbound.inbound) : bool :=
  match inbound_panel d i with
  | Some p => Panel.is_pasarguard p && bool_decide (Inbound.xui_source i = Inbound.PASARGUARD_GROUP)
              && (json_is_str "groups_simple" (Inbound.metadata i !! "remote_source")
                  || md_is_false "disabled_known" (Inbound.metadata i)
                  || md_is_false "inbound_tags_known" (Inbound.metadata i))
  | None => false
  end.

(** [source_sellability_is_stale] *)
Definition source_sellability_is_stale (i : Inbound.inbound) (now : Z) : bool :=
  bool_decide (Inbound.verification_status i = Inbound.VERIFIED_SELLABLE)
  && match Inbound.verified_at i with Some t => t <=? now - 7 * VPNClient.day | None => false end.

Abbreviation issues := (list string * list string)%type.
Definition no_issues : issues := ([], []).
Definition app_issues (a b : issues) : issues := (a.1 ++ b.1, a.2 ++ b.2)%list.
Definition error_if (b : bool) (text : string) : issues := (if b then [text] else [], []).
Definition warn_if (b : bool) (text : string) : issues := ([], if b then [text] else []).
Definition all_issues (l : list issues) : issues := foldr app_issues no_issues l.

Definition source_sellability_issues (d : DB) (i : Inbound.inbound) (now : Z) : issues :=
  if negb (requires_sellability_verification d i) then no_issues
  else match Inbound.verification_status i with
       | Inbound.VERIFIED_SELLABLE =>
           warn_if (source_sellability_is_stale i now) "Sellability verification is older than 7 days."
       | Inbound.VERIFICATION_FAILED => error_if true "PasarGuard source verification failed."
       | Inbound.UNVERIFIED =>
           error_if true "PasarGuard source is unverified; run Verify for Sale before enabling new sales."
       end.

(** The checks that depend on the panel. *)
Definition panel_sale_issues (d : DB) (store : option Z) (i : Inbound.inbound) (now : Z) : issues :=
  match inbound_panel d i with
  | None => error_if true "Inbound has no panel."
  | Some p =>
      if negb (Panel.is_active p) then error_if true "Inbound panel is inactive."
      else if is_set store && is_set (Panel.store p) && negb (bool_decide (Panel.store p = store))
      then error_if true "Inbound belongs to a different store."
      else if Panel.is_pasarguard p
      then app_issues (warn_if true "PasarGuard route uses native raw subscription delivery; local direct link reconstruction is bypassed.")
             (source_sellability_issues d i now)
      else match Panel.capability_profile p with
           | Panel.UNKNOWN_SAFE =>
               error_if true "X-UI compatibility is unknown; run compatibility audit before selling on this inbound."
           | Panel.MODERN_SINGLE_NODE | Panel.MODERN_MULTI_NODE =>
               warn_if true "Modern 3X-UI route uses deferred paid provisioning; no disabled client is created at checkout."
           | _ => no_issues
           end
  end.

Definition sales_inbound_issues (d : DB) (store : option Z) (i : option Inbound.inbound) (now : Z) : issues :=
  match i with
  | None => error_if true "Inbound is required."
  | Some i => all_issues [
      error_if (negb (Inbound.is_active i)) "Inbound is inactive.";
      error_if (negb (Inbound.available_for_new_orders i)) "Inbound is not available for new orders.";
      error_if (negb (bool_decide (strip (Inbound.legacy_note i) = ""))) "Inbound is marked as legacy.";
      panel_sale_issues d store i now;
      error_if (bool_decide (Inbound.xui_source i = Inbound.SYNCHRONIZED_NODE)
                && bool_decide (strip (Inbound.xui_node_id i) = ""))
        "Synchronized node inbound is missing node identity.";
      warn_if (negb (Inbound.health_monitor_enabled i)) "Selected inbound is excluded from the health monitor.";
      warn_if (match Inbound.max_clients i with Some m => m <=? Inbound.current_users i | None => false end)
        "Selected inbound capacity is currently full." ]
  end.

(** [get_valid_sales_inbounds(store)], whose rows are only counted. *)
Definition valid_sales_inbound (d : DB) (store : option Z) (i : Inbound.inbound) : bool :=
  Inbound.is_active i && Inbound.available_for_new_orders i
  && bool_decide (Inbound.legacy_note i = "")
  && match inbound_panel d i with
     | Some p => Panel.is_active p
                 && (negb (is_set store) || negb (is_set (Panel.store p)) || bool_decide (Panel.store p = store))
     | None => false
     end
  && negb (requires_sellability_verification d i
           && negb (bool_decide (Inbound.verification_status i = Inbound.VERIFIED_SELLABLE))).

Definition get_valid_sales_inbounds (d : DB) (store : option Z) : list (Z * Inbound.inbound) :=
  rows_where (fun _ => valid_sales_inbound d store) (inbounds d).

(** [_fallback_state] *)
Definition fallback_available (d : DB) (store : option Z) : bool :=
  match store ≫= fun k => stores d !! k with
  | Some s => Store.allow_global_inbound_fallback s && negb (bool_decide (length (get_valid_sales_inbounds d store) = 0%nat))
  | None => false
  end.

(** ** A plan's own configuration *)

Definition readiness_of (i : issues) : string :=
  match i with
  | (_ :: _, _) => READINESS_INCOMPLETE
  | ([], _ :: _) => READINESS_WARNING
  | ([], []) => READINESS_READY
  end.

Definition quantity_or_one (q : Z) : Z := if q =? 0 then 1 else q.

(** [_source_readiness]: issues and the number of links expected. *)
Definition source_readiness (d : DB) (store : option Z) (s : loaded_source) (now : Z) : issues * Z :=
  let quantity := quantity_or_one (PlanDelivery.quantity (ls_row s)) in
  match PlanDelivery.source_type (ls_row s) with
  | PlanDelivery.PANEL_INBOUND =>
      (sales_inbound_issues d store (snd <$> ls_inbound s) now, Z.b2z (is_set (ls_inbound s)))
  | PlanDelivery.INVENTORY_POOL =>
      match pool_of_source d s with
      | None => (error_if true "Inventory source requires a pool.", 0)
      | Some (ppk, pool) =>
          let short := match available_capacity (get_pool_stock_summary d ppk pool now) with
                       | Some n => n <? quantity | None => false end in
          (app_issues (error_if (negb (InventoryPool.is_active pool)) "Inventory pool is inactive.")
             (error_if short "Inventory pool capacity is lower than requested quantity."), quantity)
      end
  | PlanDelivery.OTHER_TYPE => (error_if true "Unsupported delivery source type.", 0)
  end.

Definition NO_SOURCES_MESSAGE : string := "برای این روش تحویل حداقل یک منبع سرویس لازم است.".

(** [PlanDeliveryConfiguration] with the store's fallback *)
Definition fallback_configuration (d : DB) (store : option Z) (truth : string) (config : option Z)
    : delivery_configuration :=
  let available := fallback_available d store in
  mk_delivery_configuration MODE_GLOBAL_FALLBACK truth config 0 (Z.b2z available)
    (if available then READINESS_READY else READINESS_INCOMPLETE).

(** [_v2_readiness] and the configuration made of it. *)
Definition v2_configuration (d : DB) (store : option Z) (cpk : Z) (c : config_row) (now : Z)
    : delivery_configuration :=
  if bool_decide (PlanDelivery.delivery_mode c = MODE_GLOBAL_FALLBACK)
  then fallback_configuration d store SOURCE_V2_CONFIG (Some cpk)
  else
    let sources := active_delivery_sources d cpk in
    let checked := map (fun s => source_readiness d store s now) sources in
    let found := app_issues (all_issues checked.*1) (error_if (bool_decide (length sources = 0%nat)) NO_SOURCES_MESSAGE) in
    mk_delivery_configuration (PlanDelivery.delivery_mode c) SOURCE_V2_CONFIG (Some cpk) (len sources)
      (foldr Z.add 0 checked.*2) (readiness_of found).

(** [active_delivery_config_for_plan]: a plan has at most one. *)
Definition active_delivery_config_for_plan (d : DB) (plan : Z) : option (Z * config_row) :=
  first_where (fun _ c => (PlanDelivery.plan c =? plan) && PlanDelivery.active c) (delivery_configs d).

(** ** Routes and recipes *)

Definition active_plan_routes (d : DB) (plan : Z) (store : option Z) : list (Z * PlanInboundRoute.plan_inbound_route) :=
  let own (s : option Z) := negb (is_set store) || negb (is_set s) || bool_decide (s = store) in
  rows_where (fun _ r => (PlanInboundRoute.plan r =? plan) && PlanInboundRoute.is_active r
    && own (PlanInboundRoute.store r)
    && match inbounds d !! PlanInboundRoute.inbound r ≫= inbound_panel d with
       | Some p => own (Panel.store p) | None => negb (is_set store) end) (routes d).

(** [_route_readiness] *)
Definition route_readiness (d : DB) (store : option Z) (rs : list (Z * PlanInboundRoute.plan_inbound_route)) (now : Z)
    : string :=
  readiness_of (all_issues (map (fun r => sales_inbound_issues d store (inbounds d !! PlanInboundRoute.inbound r.2) now) rs)).

(** A finding of a rule: an error of an optional rule is a warning. *)
Definition rule_issue (required : bool) (b : bool) (text : string) : issues :=
  if required then error_if b text else warn_if b text.

Definition short_inbound (quantity : Z) (i : keyed_inbound) : bool :=
  match Inbound.max_clients i.2 with Some m => m - Inbound.current_users i.2 <? quantity | None => false end.

Definition no_credentials (p : Panel.panel) : bool :=
  existsb (fun s => bool_decide (strip s = "")) [Panel.url p; Panel.username p; Panel.password p].

Definition inbound_rule_issues (required : bool) (quantity : Z) (i : keyed_inbound) : issues := all_issues [
  rule_issue required (negb (Inbound.is_active i.2)) "inbound_inactive";
  rule_issue required (negb (Inbound.available_for_new_orders i.2)) "inbound_not_for_sale";
  rule_issue required (bool_decide (Inbound.security i.2 = Inbound.REALITY)
    && bool_decide (strip (default "" (Inbound.pbk i.2)) = "")) "reality_key_missing";
  rule_issue required (short_inbound quantity i) "inbound_capacity" ].

(** [_panel_rule_diagnostics] *)
Definition panel_rule_issues (d : DB) (r : rule_row) : issues :=
  let required := CupRecipe.required r in
  let chosen := inbounds_by_pk (fun k _ => bool_decide (k ∈ CupRecipe.inbounds r)) d in
  let ins := panel_rule_inbounds d r in
  match keyed_panel d (CupRecipe.panel r) with
  | None => rule_issue required true "no_panel"
  | Some (ppk, p) =>
      let first := all_issues [
        rule_issue required (negb (Panel.is_active p)) "panel_inactive";
        rule_issue required (no_credentials p) "panel_credentials";
        warn_if (bool_decide (Panel.capability_profile p ∈ [Panel.NO_PROFILE; Panel.UNKNOWN_SAFE])) "panel_profile" ] in
      match ins with
      | [] => app_issues first (rule_issue required true "no_inbound")
      | _ => all_issues (first :: [
          rule_issue required (existsb (fun i : keyed_inbound => negb (bool_decide (Inbound.panel i.2 = Some ppk))) ins)
            "cross_panel";
          rule_issue required (bool_decide (1 < length ins)%nat
            && negb (bool_decide (Panel.capability_profile p = Panel.MODERN_MULTI_NODE))) "multi_node_required";
          warn_if (bool_decide (length chosen = 0%nat)) "default_inbound" ]
          ++ map (inbound_rule_issues required (rule_quantity r)) ins)%list
      end
  end.

(** [_inventory_rule_diagnostics] *)
Definition inventory_rule_issues (d : DB) (r : rule_row) (now : Z) : issues :=
  let required := CupRecipe.required r in
  match CupRecipe.inventory_pool r ≫= fun k => (k,.) <$> inventory_pools d !! k with
  | None => rule_issue required true "no_pool"
  | Some (ppk, pool) =>
      app_issues (rule_issue required (negb (InventoryPool.is_active pool)) "pool_inactive")
        (rule_issue required (match available_capacity (get_pool_stock_summary d ppk pool now) with
           | Some n => n <? rule_quantity r | None => false end) "pool_stock")
  end.

Definition rule_issues (d : DB) (now : Z) (r : rule_row) : issues :=
  match CupRecipe.source_type r with
  | CupRecipe.PANEL_INBOUNDS => panel_rule_issues d r
  | CupRecipe.INVENTORY_POOL => inventory_rule_issues d r now
  | CupRecipe.OTHER_TYPE => rule_issue (CupRecipe.required r) true "unsupported_source"
  end.

(** [expected_config_count] of a rule *)
Definition rule_expected (d : DB) (r : rule_row) : Z :=
  match CupRecipe.source_type r with
  | CupRecipe.PANEL_INBOUNDS =>
      rule_quantity r * Z.max (len (panel_rule_inbounds d r)) (Z.b2z (is_set (CupRecipe.panel r)))
  | CupRecipe.INVENTORY_POOL => rule_quantity r
  | CupRecipe.OTHER_TYPE => 0
  end.

(** [get_recipe_readiness]: readiness, number of rules, links expected. *)
Definition recipe_readiness (d : DB) (kr : Z * recipe_row) (now : Z) : string * Z * Z :=
  let rules := (active_rules d kr.1).*2 in
  let sold := match plans d !! CupRecipe.plan kr.2 with
              | Some p => Plan.is_active p && Plan.is_public p | None => false end in
  let found := all_issues ([ error_if (negb sold) "plan_not_public";
                             error_if (negb (CupRecipe.is_active kr.2)) "recipe_inactive";
                             error_if (bool_decide (length rules = 0%nat)) "no_rules" ]
                           ++ map (rule_issues d now) rules)%list in
  (readiness_of found, len rules, foldr Z.add 0 (map (rule_expected d) rules)).

(** [_resolve_legacy] *)
Definition resolve_legacy (d : DB) (plan : Z) (store : option Z) (now : Z) : delivery_configuration :=
  let rs := active_plan_routes d plan store in
  match get_active_recipe_for_plan d plan, rs with
  | Some kr, [] =>
      let '(ready, rules, expected) := recipe_readiness d kr now in
      mk_delivery_configuration MODE_SUBSCRIPTION SOURCE_CUP_RECIPE None rules expected ready
  | Some kr, _ =>
      mk_delivery_configuration MODE_CONFLICT SOURCE_CONFLICT None (len rs) (recipe_readiness d kr now).2 READINESS_CONFLICT
  | None, [] => fallback_configuration d store SOURCE_STORE_FALLBACK None
  | None, _ =>
      mk_delivery_configuration MODE_DIRECT_LINKS SOURCE_PLAN_ROUTES None (len rs) (len rs) (route_readiness d store rs now)
  end.

(** [resolve_plan_delivery_configuration]; the caller's store, else the plan's. *)
Definition resolve_plan_delivery_configuration (now : Z) (d : DB) (plan : Z) (store : option Z)
    : delivery_configuration :=
  let store := or_opt store (plans d !! plan ≫= Plan.store) in
  match active_delivery_config_for_plan d plan with
  | Some (cpk, c) => v2_configuration d store cpk c now
  | None => resolve_legacy d plan store now
  end.
