(* ===== verification/Assignment.v ===== *)
(** Giving a customer a configuration out of stock by hand
    (src/store/customer_assignment.py, with the part of
    src/store/admin_cup_center/services.py that puts chosen assets into a cup).

    Forms, searches and labels of the admin pages are left out, and so is the
    title of the pool in a link's metadata. *)

From S2P Require Import Prelude Models World Numbers OrderStore Inbounds Scope OrderActions Provisioning Submission Checkout ClientManagement Inventory Cups FeedFilter Feeds PlanDelivery CupRecipes.
Import Order.

#[local] Open Scope string_scope.
#[local] Open Scope Z_scope.

(** ** The assets a plan may be served from *)

(** Some active source of the plan's delivery configuration draws on the pool. *)
Definition feeds_plan (d : DB) (plan ppk : Z) : bool :=
  exists_where (fun _ s => bool_decide (PlanDelivery.inventory_pool s = Some ppk) && PlanDelivery.source_active s
    && match delivery_configs d !! PlanDelivery.delivery_config s with
       | Some c => PlanDelivery.plan c =? plan | None => false end) (delivery_sources d).

(** Some active rule of one of its recipes does. *)
Definition fills_plan (d : DB) (plan ppk : Z) : bool :=
  exists_where (fun _ r => bool_decide (CupRecipe.inventory_pool r = Some ppk) && CupRecipe.rule_active r
    && match recipes d !! CupRecipe.recipe r with Some c => CupRecipe.plan c =? plan | None => false end)
    (filler_rules d).

(** The pool belongs to no plan, source or rule. *)
Definition general_stock (d : DB) (ppk : Z) (p : pool_row) : bool :=
  negb (is_set (InventoryPool.connected_plan p))
  && negb (exists_where (fun _ s => bool_decide (PlanDelivery.inventory_pool s = Some ppk)) (delivery_sources d))
  && negb (exists_where (fun _ r => bool_decide (CupRecipe.inventory_pool r = Some ppk)) (filler_rules d)).

Definition pool_serves_plan (d : DB) (plan ppk : Z) (p : pool_row) : bool :=
  InventoryPool.is_active p
  && (bool_decide (InventoryPool.connected_plan p = Some plan) || feeds_plan d plan ppk || fills_plan d plan ppk
      || general_stock d ppk p).

Definition assignable (d : DB) (plan now : Z) (a : asset_row) : bool :=
  match inventory_pools d !! InventoryAsset.pool a with
  | Some p => pool_serves_plan d plan (InventoryAsset.pool a) p
  | None => false
  end && in_use_or_available a && not_expired now a.

(** [assignment_assets(plan)] *)
Definition assignment_assets (d : DB) (plan now : Z) : list (Z * asset_row) :=
  order_by (fun ka => [ka.1]) (rows_where (fun _ => assignable d plan now) (inventory_assets d)).

Section Assignment.
Context `{Env}.

(** ** Chosen assets into a cup *)

Definition INVENTORY_NO_CUPITEM_ERROR : string :=
  "هیچ کانفیگی از مخزن وارد Cup نشد. انتخاب‌ها یا ظرفیت‌ها را بررسی کنید.".
Definition UNSUPPORTED_PROTOCOL : exn := CupCenterError "لینک خام کانفیگ مخزن قابل شناسایی نیست.".
Definition REALITY_KEY_MISSING : exn := CupCenterError "Reality public key برای لینک مخزن پیدا نشد.".

(** The item's metadata, and its link's. *)
Definition manual_item_metadata (source : string) (ppk asset apk : Z) (mode : mode_t) : Prelude.metadata :=
  <["source" := JStr source]> (<["pool_id" := JNum ppk]> (<["asset_id" := JNum asset]>
  (<["allocation_id" := JNum apk]> (<["allocation_mode" := JStr (mode_text mode)]>
  (<["group_index" := JNull]> ∅))))).

Definition manual_link_metadata (source : string) (cup ppk apk : Z) (ka : Z * asset_row) (mode : mode_t) (now : Z)
    : Prelude.metadata :=
  <["source" := JStr source]> (<["cup_id" := JNum cup]>
  (<["generated_by" := JStr "quick_builder_multi_panel"]> (<["pool_id" := JNum ppk]>
  (<["asset_id" := JNum ka.1]> (<["allocation_id" := JNum apk]>
  (<["allocation_mode" := JStr (mode_text mode)]> (<["asset_hash_suffix" := JStr (asset_hash_suffix ka.2)]>
  (<["created_at" := JStr (isoformat now)]> ∅)))))))).

(** The loop of [_create_cup_items_from_inventory_allocation]; the items made. *)
Fixpoint create_items_for (cup ppk : Z) (mode : mode_t) (reason : string) (position now : Z)
    (pairs : list (Z * Z)) : IO (list Z) :=
  match pairs with
  | [] => mret []
  | (asset, apk) :: rest =>
      a ← get_or_raise (fun w => inventory_assets (db w) !! asset);
      let raw := InventoryAsset.raw_link a in
      if bool_decide (p_protocol (parse_config_link raw) = UNKNOWN) then raise UNSUPPORTED_PROTOCOL
      else if link_has_reality_without_public_key raw then raise REALITY_KEY_MISSING
      else
        lpk ← create_config_link_from_raw raw ConfigLink.IMPORTED_SUBSCRIPTION None None None None
                (manual_link_metadata reason cup ppk apk (asset, a) mode now);
        ipk ← create_cup_item cup lpk position reason (manual_item_metadata reason ppk asset apk mode);
        ipks ← create_items_for cup ppk mode reason (position + 1) now rest;
        mret (ipk :: ipks)
  end.

Definition create_cup_items_from_inventory_allocation (cup ppk : Z) (r : allocation_result) (reason : string)
    (now : Z) : IO (list Z) :=
  d ← get_db;
  if negb (bool_decide (length (al_assets r) = length (al_allocations r)))
  then raise (CupCenterError INVENTORY_NO_CUPITEM_ERROR)
  else
    ipks ← create_items_for cup ppk (al_mode r) reason (next_position cup d) now (zip (al_assets r) (al_allocations r));
    if negb (bool_decide (length (al_allocations r) = length ipks))
    then raise (CupCenterError INVENTORY_NO_CUPITEM_ERROR) else mret ipks.

(** [_inventory_error_message] *)
Definition inventory_error_message (e : exn) : string :=
  match e with
  | ConfigInventoryError m c => let c := strip c in if bool_decide (c = "") then m else c +:+ ": " +:+ m
  | InsufficientInventoryStock _ _ _ => "insufficient_stock: " +:+ exn_text e
  | _ => exn_text e
  end.

(** How many items were added, and the errors. *)
Definition add_inventory_assets_to_cup (cup ppk : Z) (seen : pool_row) (asset_ids : list Z) (now : Z)
    : IO (Z * list string) :=
  match asset_ids with
  | [] => mret (0, [])
  | _ =>
      made ← (fun w =>
        match atomic (r ← allocate_selected_assets_from_pool ppk seen (map IdNumber asset_ids) (Some cup) None "" now;
                      create_cup_items_from_inventory_allocation cup ppk r "cup_center_inventory_manual" now) w with
        | (Raise ((ConfigInventoryError _ _ | InsufficientInventoryStock _ _ _) as e), w') =>
            (Ret (inr (inventory_error_message e)), w')
        | (Raise (CupCenterError m), w') => (Ret (inr (or_str m INVENTORY_NO_CUPITEM_ERROR)), w')
        | (Raise e, w') => (Raise e, w')
        | (Ret ipks, w') => (Ret (inl ipks), w')
        end);
      match made with
      | inr error => mret (0, [error])
      | inl ipks => mret (len ipks, if len ipks =? 0 then [INVENTORY_NO_CUPITEM_ERROR] else [])
      end
  end.

(** ** Completing an assignment *)

Definition ASSIGNED_ALREADY : string := "این سفارش قبلاً تکمیل شده است.".
Definition ASSIGNMENT_CANCELLED : string := "لغو سفارش ثبت شده؛ اختصاص دوباره مجاز نیست.".
Definition ASSIGNMENT_CLOSED : string := "سفارش لغوشده یا ردشده قابل اختصاص نیست.".
Definition ASSET_NOT_FOUND : string := "کانفیگ موجودی این پلن پیدا نشد.".
Definition ASSET_NOT_ADDED : string := "کانفیگ به کاپ اضافه نشد.".
Definition ASSIGNED : string := "کانفیگ موجود به مشتری اختصاص یافت.".
Definition ASSIGNED_UNSENT : string := " پیام مشتری ارسال نشد؛ ارسال مجدد در دسترس است.".

(** Until when: the asset's own end or the duration of pool or plan. *)
Definition assignment_expiry (a : asset_row) (pool : pool_row) (p : Plan.plan) (now : Z) : Z :=
  let days := match InventoryPool.duration_days pool with
              | Some n => if n =? 0 then Plan.duration_days p else n | None => Plan.duration_days p end in
  let own := now + days * VPNClient.day in
  match InventoryAsset.expires_at a with Some t => Z.min t own | None => own end.

(** [SubscriptionCup.objects.get_or_create(order=order, vpn_client=None, ...)] *)
Definition assignment_cup (opk : Z) (o : order) (p : Plan.plan) (a : asset_row) (pool : pool_row) (now : Z)
    : IO (Z * cup_row) :=
  d ← get_db;
  match order_cups d opk with
  | [kc] => mret kc
  | _ :: _ => raise (OtherError "MultipleObjectsReturned")
  | [] =>
      let cpk := next_pk (cups d) in
      let c := (blank_cup opk cpk now) {{
        SubscriptionCup.customer := customer o; SubscriptionCup.plan := Some (plan o);
        SubscriptionCup.expires_at := Some (assignment_expiry a pool p now);
        SubscriptionCup.traffic_limit_bytes := Plan.traffic_limit_bytes p;
        SubscriptionCup.device_limit := Some (Plan.device_limit p) }} in
      _ ← put_db (set_cup cpk c);
      mret (cpk, c)
  end.

(** [order.metadata["plan_delivery_v2"]["status"] = "provisioned"] *)
Definition mark_assigned (m : Prelude.metadata) : result Prelude.metadata :=
  match m !! "plan_delivery_v2" with
  | Some (JObj kv) => Ret (<["plan_delivery_v2" := JObj (set_assoc "status" (JStr "provisioned") kv)]> m)
  | Some _ => Raise (OtherError "TypeError")
  | None => Raise (OtherError "KeyError")
  end.

(** [cup.config_allocations.update(order=order)] *)
Definition own_allocations (cup opk : Z) (d : DB) : DB :=
  set_allocations (update_where (fun _ al => bool_decide (Allocation.cup al = Some cup))
    (fun al => al {{ Allocation.order := Some opk }})) d.

(** The asset goes into the order's cup; the order, or why not. *)
Definition assign_asset (opk : Z) (o : order) (p : Plan.plan) (ka : Z * asset_row) (actor : option Z) (now : Z)
    : IO (order * string) :=
  pool ← get_or_raise (fun w => inventory_pools (db w) !! InventoryAsset.pool ka.2);
  '(cpk, c) ← assignment_cup opk o p ka.2 pool now;
  '(added, errors) ← add_inventory_assets_to_cup cpk (InventoryAsset.pool ka.2) pool [ka.1] now;
  if added =? 0 then mret (o, or_str (join "؛ " errors) ASSET_NOT_ADDED)
  else
    _ ← put_db (own_allocations cpk opk);
    d ← get_db;
    url ← liftR (build_subscription_cup_url d c (store o));
    m ← liftR (mark_assigned (metadata o));
    mret ((mark_payment_verified actor now (o {{ sub_link := Some url }}))
            {{ provisioned_at := Some now; metadata := m }}, "").

Definition assignment_refusal (d : DB) (opk : Z) (o : order) : option provisioning_result :=
  if bool_decide (status o = COMPLETED)
  then Some ((refused ASSIGNED_ALREADY) {{ ok := true; already_provisioned := true }})
  else if cancellation_recorded opk d then Some (refused ASSIGNMENT_CANCELLED)
  else if bool_decide (status o = CANCELLED) || bool_decide (status o = REJECTED)
          || bool_decide (verification_status o = V_REJECTED)
  then Some (refused ASSIGNMENT_CLOSED) else None.

(** The asset the order names, while its plan may still be served from it. *)
Definition named_asset (d : DB) (o : order) (now : Z) : result (option (Z * asset_row)) :=
  match metadata o !! "admin_inventory_asset_id" with
  | None => Raise (OtherError "KeyError")
  | Some j =>
      k ← key_of_json (Some j);
      Ret (head (filter (fun ka => ka.1 = k) (assignment_assets d (plan o) now)))
  end.

Definition settle_assignment (error : string) (o : order) : order :=
  o {{ last_provisioning_error := error;
       provisioning_status := if bool_decide (error = "") then PROVISIONED else FAILED }}.

(** The transaction: a refusal, or the saved order and the error. *)
Definition assignment_locked (opk : Z) (actor : option Z) (now : Z)
    : IO (provisioning_result + order * string) := atomic (
  o ← get_order opk;
  d ← get_db;
  match assignment_refusal d opk o with
  | Some r => mret (inl r)
  | None =>
      asset ← liftR (named_asset d o now);
      p ← get_plan (plan o);
      let o := o {{ provisioning_attempts ::= Z.succ }} in
      '(o, error) ← match asset with
                    | Some ka => assign_asset opk o p ka actor now
                    | None => mret (o, ASSET_NOT_FOUND)
                    end;
      o ← save_order_full opk (settle_assignment error o) now;
      mret (inr (o, error))
  end).

Definition complete_inventory_assignment (opk : Z) (actor : option Z) (notify : bool) (now : Z)
    : IO provisioning_result :=
  outcome ← assignment_locked opk actor now;
  match outcome with
  | inl r => mret r
  | inr (o, error) =>
      if negb (bool_decide (error = "")) then mret (refused error)
      else
        sent ← (if notify then n ← askR (CallNotify opk "approved") (fun h => notify_order_event h opk o "approved");
                               mret (negb (n =? 0)) else mret true);
        mret ((refused (if sent : bool then ASSIGNED else ASSIGNED +:+ ASSIGNED_UNSENT)) {{ ok := true }})
  end.
End Assignment.

(** ** Assigning a service to a customer *)

(** The recipient in a bot. *)
Record assignment_target := mk_target {
  tg_pk : Z;
  tg_user : BotUser.bot_user;
}.

Inductive assignment_mode := New | Existing | OtherMode.
#[global] Instance assignment_mode_eq_dec : EqDecision assignment_mode.
Proof. solve_decision. Defined.

Record assignment_request := mk_assignment {
  as_customer : Z;
  as_plan : Z;
  as_target : option assignment_target;
  as_mode : assignment_mode;
  as_asset : option Z;
  as_included : bool;
  as_amount : option Z;
  as_request_id : string;
  as_actor_key : string;
  as_actor : option Z;
  as_reason : string;
}.

Definition assignment_metadata (target : option assignment_target) (actor_key : string) : Prelude.metadata :=
  let m : Prelude.metadata := {[ "assignment_actor" := JStr actor_key ]} in
  match target with
  | None => m
  | Some t => <["bot" := JObj [("bot_user_id", JNum (tg_pk t)); ("bot_config_id", JNum (BotUser.bot_config (tg_user t)));
                ("provider_user_id", JStr (BotUser.provider_user_id (tg_user t))); ("chat_id", JStr (BotUser.chat_id (tg_user t)))]]> m
  end.

Definition DESTINATION_INVALID : string := "مشتری یا فروشگاه مقصد معتبر نیست.".
Definition PLAN_OR_AMOUNT_INVALID : string := "پلن یا مبلغ معتبر نیست.".
Definition ASSET_NOT_OF_PLAN : string := "کانفیگ انتخاب‌شده به موجودی این پلن تعلق ندارد.".
Definition ALREADY_ASSIGNED_MESSAGE : string := "این عملیات قبلاً ثبت شده؛ از همان سفارش پیگیری کن.".

Section Service.
Context `{Env} `{Delivery}.

(** [bot_store(config)] *)
Definition bot_store (d : DB) (config : Z) : option Z :=
  or_opt (bot_configs d !! config ≫= BotConfiguration.store) (get_current_store d).

Definition target_valid (d : DB) (rq : assignment_request) (p : Plan.plan) : bool :=
  match as_target rq with
  | None => true
  | Some t => bool_decide (BotUser.customer (tg_user t) = Some (as_customer rq))
              && bool_decide (Plan.store p = bot_store d (BotUser.bot_config (tg_user t)))
  end.

Definition same_assignment (rq : assignment_request) (o : order) : bool :=
  bool_decide (customer o = Some (as_customer rq))
  && json_is_str (as_actor_key rq) (metadata o !! "assignment_actor").

Definition plan_sellable (d : DB) (p : Plan.plan) : bool :=
  Plan.is_active p && match Plan.store p ≫= fun k => stores d !! k with Some s => Store.is_active s | None => false end.

Definition inventory_order_metadata (rq : assignment_request) (asset : Z) : Prelude.metadata :=
  <["source" := JStr "admin_inventory"]> (<["free_grant" := JBool true]>
  (<["free_grant_reason" := JStr (as_reason rq)]> (<["suppress_new_order_notification" := JBool true]>
  (<["suppress_admin_order_updates" := JBool true]> (<["admin_inventory_asset_id" := JNum asset]>
  (<["plan_delivery_v2" := JObj [("delivery_mode", JStr "SUBSCRIPTION"); ("status", JStr "pending")]]>
     (assignment_metadata (as_target rq) (as_actor_key rq)))))))).

Definition inventory_order (rq : assignment_request) (p : Plan.plan) (asset : Z) (tracking : string) (now : Z) : order :=
  (blank_order (as_request_id rq) tracking (as_plan rq) now) {{
    store := Plan.store p; customer := Some (as_customer rq); amount := 0;
    original_amount := Plan.price p; discount_amount := Plan.price p; currency := Some (Plan.currency p);
    payment_method := ADMIN_FREE; is_paid := true; payment_submitted_at := Some now;
    provisioning_status := P_PENDING; metadata := inventory_order_metadata rq asset;
    revenue_included := Some (as_included rq);
    revenue_amount := if as_included rq then as_amount rq else None }}.

Definition service_grant (rq : assignment_request) (p : Plan.plan) : grant_request := {|
  gr_store := Plan.store p; gr_customer := as_customer rq; gr_plan := as_plan rq; gr_inbound := None;
  gr_granted_by := as_actor rq; gr_reason := as_reason rq;
  gr_metadata := assignment_metadata (as_target rq) (as_actor_key rq); gr_notify_customer := true;
  gr_revenue_included := as_included rq; gr_revenue_amount := as_amount rq;
  gr_request_id := Some (as_request_id rq) |}.

(** [others] is what happens between the first look for the request and
    [get_or_create]. *)
Definition assign_customer_service (others : IO unit) (rq : assignment_request) (tracking : string) (now : Z)
    : IO checkout_result :=
  d ← get_db;
  p ← get_plan (as_plan rq);
  if negb (target_valid d rq p) then raise (ValidationError DESTINATION_INVALID)
  else match order_by_public_id (as_request_id rq) d with
  | Some (opk, o) =>
      if same_assignment rq o
      then mret (mk_checkout (bool_decide (status o = COMPLETED)) ALREADY_ASSIGNED_MESSAGE (Some (opk, o)) None true)
      else raise (ValidationError CONFIRMATION_INVALID_MESSAGE)
  | None =>
      if negb (plan_sellable d p) || negb (valid_revenue (as_included rq) (as_amount rq))
      then raise (ValidationError PLAN_OR_AMOUNT_INVALID)
      else match as_mode rq with
      | New => grant_free_subscription others (service_grant rq p) (as_request_id rq) tracking now
      | mode =>
          match as_asset rq with
          | Some asset =>
              if bool_decide (mode = Existing)
                 && bool_decide (asset ∈ (assignment_assets d (as_plan rq) now).*1)
              then
                _ ← others;
                d ← get_db;
                match order_by_public_id (as_request_id rq) d with
                | Some (opk, o) =>
                    if same_assignment rq o
                    then mret (mk_checkout false ALREADY_ASSIGNED_MESSAGE (Some (opk, o)) None true)
                    else raise (ValidationError CONFIRMATION_INVALID_MESSAGE)
                | None =>
                    '(opk, _) ← create_order (inventory_order rq p asset tracking now) now;
                    r ← complete_inventory_assignment opk (as_actor rq) true now;
                    o ← get_order opk;
                    mret (mk_checkout (ok r) (pr_message r) (Some (opk, o)) None false)
                end
              else raise (ValidationError ASSET_NOT_OF_PLAN)
          | None => raise (ValidationError ASSET_NOT_OF_PLAN)
          end
      end
  end.
End Service.
