(* ===== verification/DeliveryFrame.v ===== *)
(** The frame of the delivery engines: which parts of the world delivering one
    order can reach.  As in [ApprovalFrame] the walk through the handlers is
    done once, for any relation that saves of this order and writes outside the
    shop's books - clients, inbounds, cups, links, feeds, stock, panel calls -
    respect. *)

From S2P Require Import Prelude Models World Numbers Discounts Referrals ReferralRewards OrderStore Inbounds Scope OrderActions Provisioning ProvisioningSpec ModernSpec ApprovalFrame Submission Checkout ClientManagement Inventory Cups FeedFilter Feeds PlanDelivery CupRecipes DeliveryConfig Assignment.
Import Order.

(** Orders, their automation, shops, the bank's messages. *)
Definition shop_books (w : World) :=
  (orders (db w), automations (db w), stores (db w), payment_sms (db w)).

#[global] Instance keeps_shop_books_undoable : Undoable (keeps shop_books).
Proof. by intros w w' Hw. Qed.

Section DeliveryFrame.
Context `{Env}.
Context (R : relation World) `{!PreOrder R} `{!Undoable R} (opk : Z).
Context (Rbooks : forall w w', shop_books w' = shop_books w -> R w w').
Context (Rsave : forall o fs now, accepts o fs -> respects R (save_order opk o fs now)).

Lemma Rback w w' : back_office w' = back_office w -> R w w'.
Proof. unfold back_office, side_tables. intros [=]. apply Rbooks. unfold shop_books. congruence. Qed.

#[local] Hint Extern 1 (R _ _) => apply Rbooks; reflexivity : frames.
#[local] Hint Resolve Rsave : frames.
#[local] Hint Extern 1 (accepts _ _) => solve_accepts : frames.
#[local] Hint Extern 1 (respects _ (collect _ _)) => apply collect_respects; [apply _|intros ?; walk] : frames.

(** *** What engines share with activation *)

Lemma upsert_client_frame o p i cr now : respects R (upsert_local_client opk o p i cr now).
Proof. apply upsert_frame; [apply _..|exact Rback]. Qed.
Lemma provision_single_kept i p ident : respects R (provision_single i p ident).
Proof. apply provision_single_frame; [apply _..|exact Rback]. Qed.
#[local] Hint Resolve upsert_client_frame provision_single_kept : frames.

(** *** Links, items, stock *)

Lemma create_link_frame text st panel inbound client feed md :
  respects R (create_config_link_from_raw text st panel inbound client feed md).
Proof. unfold create_config_link_from_raw. walk. Qed.
Lemma create_item_frame cup link position reason md : respects R (create_cup_item cup link position reason md).
Proof. unfold create_cup_item. walk. Qed.
Lemma create_allocations_frame row assets : respects R (create_allocations row assets).
Proof. induction assets as [|ka rest IH]; cbn; walk. Qed.
#[local] Hint Resolve create_link_frame create_item_frame create_allocations_frame : frames.

Lemma record_allocations_frame source ppk mode cup order assets quantity now :
  respects R (record_allocations source ppk mode cup order assets quantity now).
Proof. unfold record_allocations, assign_counts. walk. Qed.
#[local] Hint Resolve record_allocations_frame : frames.

Lemma allocate_from_pool_frame ppk seen quantity cup order mode now :
  respects R (allocate_assets_from_pool ppk seen quantity cup order mode now).
Proof. unfold allocate_assets_from_pool, get_pool. walk. Qed.
Lemma allocate_selected_frame ppk seen ids cup order mode now :
  respects R (allocate_selected_assets_from_pool ppk seen ids cup order mode now).
Proof. unfold allocate_selected_assets_from_pool, get_pool. walk. Qed.
#[local] Hint Resolve allocate_from_pool_frame allocate_selected_frame : frames.

Lemma allocate_missing_frame mine label number ppk seen quantity cup order mode now :
  respects R (allocate_missing mine label number ppk seen quantity cup order mode now).
Proof. unfold allocate_missing, label_allocations. walk. Qed.
#[local] Hint Resolve allocate_missing_frame : frames.

(** *** Plan delivery *)

Lemma source_attempt_frame l m : respects R m -> respects R (source_attempt l m).
Proof. unfold source_attempt. walk. Qed.
Lemma validate_inbound_frame i : respects R (validate_panel_inbound i).
Proof. unfold validate_panel_inbound. walk. Qed.
Lemma panel_config_link_frame raw s client md : respects R (panel_config_link raw s client md).
Proof. unfold panel_config_link. walk. Qed.
#[local] Hint Resolve source_attempt_frame validate_inbound_frame panel_config_link_frame : frames.

Lemma direct_link_frame s client cr md : respects R (direct_link_output s client cr md).
Proof. unfold direct_link_output. walk. Qed.
#[local] Hint Resolve direct_link_frame : frames.

Lemma single_clients_frame o p s i now l : respects R (single_source_clients opk o p s i now l).
Proof. induction l as [|x l IH]; cbn [single_source_clients]; walk. Qed.
#[local] Hint Resolve single_clients_frame : frames.

Lemma execute_single_frame o p s now : respects R (execute_single_panel_source opk o p s now).
Proof. unfold execute_single_panel_source. walk. Qed.

Lemma pasarguard_links_frame first client md k raws : respects R (pasarguard_links first client md k raws).
Proof. revert k. induction raws as [|x l IH]; intros k; cbn; walk. Qed.
#[local] Hint Resolve execute_single_frame pasarguard_links_frame : frames.

Lemma pasarguard_outputs_frame l first ins panel dynamic cpk c cr raws :
  respects R (pasarguard_outputs l first ins panel dynamic cpk c cr raws).
Proof. unfold pasarguard_outputs, dynamic_selection. walk. Qed.
#[local] Hint Resolve pasarguard_outputs_frame : frames.

Lemma pasarguard_group_clients_frame o p l first ins i panel dynamic now ks :
  respects R (pasarguard_group_clients opk o p l first ins i panel dynamic now ks).
Proof. induction ks as [|x ks IH]; cbn [pasarguard_group_clients]; unfold require; walk. Qed.
#[local] Hint Resolve pasarguard_group_clients_frame : frames.

Lemma execute_pasarguard_frame o p l first dynamic now :
  respects R (execute_pasarguard_panel_group opk o p l first dynamic now).
Proof. unfold execute_pasarguard_panel_group, require. walk. Qed.

Lemma verified_bundle_frame l p ident : respects R (verified_bundle l p ident).
Proof. unfold verified_bundle, lookup_existing, create_enabled, require. walk. Qed.
Lemma bundle_links_frame l client ins verified : respects R (bundle_links l client ins verified).
Proof. unfold bundle_links. walk. Qed.
#[local] Hint Resolve execute_pasarguard_frame verified_bundle_frame bundle_links_frame : frames.

Lemma bundle_clients_frame o p l ins now ks : respects R (bundle_group_clients opk o p l ins now ks).
Proof. induction ks as [|x ks IH]; cbn [bundle_group_clients]; unfold require; walk. Qed.
#[local] Hint Resolve bundle_clients_frame : frames.

Lemma execute_multi_frame o p l now : respects R (execute_multi_panel_group opk o p l now).
Proof. unfold execute_multi_panel_group. walk. Qed.
#[local] Hint Resolve execute_multi_frame : frames.

Lemma execute_group_frame o p dynamic now l : respects R (execute_panel_group opk o p dynamic now l).
Proof. unfold execute_panel_group. walk. Qed.

Lemma inventory_output_frame s apk : respects R (inventory_output s apk).
Proof. unfold inventory_output. walk. Qed.
#[local] Hint Resolve execute_group_frame inventory_output_frame : frames.

Lemma execute_inventory_frame s now : respects R (execute_inventory_source opk s now).
Proof. unfold execute_inventory_source, allocations_for, source_allocations. walk. Qed.
#[local] Hint Resolve execute_inventory_frame : frames.

Lemma run_sources_frame o p dynamic now l : respects R (run_sources opk o p dynamic now l).
Proof. unfold run_sources, execute_sources, execute_panel_sources. walk. Qed.
#[local] Hint Resolve run_sources_frame : frames.

(** *** Cups and feeds *)

Lemma fill_cup_frame cpk k links : respects R (fill_cup cpk k links).
Proof. revert k. induction links as [|x l IH]; intros k; cbn; walk. Qed.
Lemma adopt_links_frame fpk f s k links : respects R (adopt_links fpk f s k links).
Proof. revert k. induction links as [|x l IH]; intros k; cbn [adopt_links]; walk. Qed.
#[local] Hint Resolve fill_cup_frame adopt_links_frame : frames.

Lemma register_feed_frame cpk s now : respects R (register_external_subscription_feed_snapshot cpk s now).
Proof. unfold register_external_subscription_feed_snapshot. walk. Qed.
#[local] Hint Resolve register_feed_frame : frames.

Lemma deliver_cup_frame o p config links feeds now : respects R (deliver_cup opk o p config links feeds now).
Proof. unfold deliver_cup, ensure_subscription_cup. walk. Qed.
#[local] Hint Resolve deliver_cup_frame : frames.

Lemma payment_accepted_status o : status (payment_accepted o) = CONFIRMED \/ status (payment_accepted o) = COMPLETED.
Proof. unfold payment_accepted. cbn. case_bool_decide as Hs; [right; exact Hs|by left]. Qed.

Lemma delivered_status o mode record raws sub direct first actor now :
  status (delivered_order o mode record raws sub direct first actor now) = COMPLETED.
Proof. unfold delivered_order. cbv zeta. by rewrite mark_keeps_status. Qed.

Lemma finish_failed_frame o error key now : respects R (finish_failed_order opk o error key now).
Proof.
  unfold finish_failed_order. cbv zeta. apply Rsave. intros _. rewrite mark_keeps_status. apply payment_accepted_status.
Qed.
Lemma mark_provisioning_frame o key now : respects R (mark_order_provisioning opk o key now).
Proof. unfold mark_order_provisioning. apply Rsave. intros _. rewrite mark_keeps_status. apply payment_accepted_status. Qed.
Lemma finish_success_frame o p config mode results actor now :
  respects R (finish_success_order opk o p config mode results actor now).
Proof.
  unfold finish_success_order. cbv zeta. apply respects_bind; [apply _|walk|]. intros [[[cups feeds] sub] direct].
  apply Rsave. intros _. right. apply delivered_status.
Qed.
#[local] Hint Resolve finish_failed_frame mark_provisioning_frame finish_success_frame : frames.

Lemma execute_delivery_frame config actor now : respects R (execute_plan_delivery opk config actor now).
Proof. unfold execute_plan_delivery, get_order, get_delivery_config, get_plan. walk. Qed.

(** *** Recipes *)

Lemma get_or_create_item_frame cup link reason md : respects R (get_or_create_item cup link reason md).
Proof. unfold get_or_create_item. walk. Qed.
#[local] Hint Resolve get_or_create_item_frame : frames.

Lemma add_entries_frame cup recipe rule panel l : respects R (add_panel_entries cup recipe rule panel l).
Proof. induction l as [|[[i cr] d] l IH]; cbn; walk. Qed.
#[local] Hint Resolve add_entries_frame : frames.

Lemma panel_turn_frame o p cup kr panel ins k : respects R (panel_rule_turn opk o p cup kr panel ins k).
Proof. unfold panel_rule_turn, existing_remote_clients, lookup_existing. walk. Qed.
#[local] Hint Resolve panel_turn_frame : frames.

Lemma panel_turns_frame o p cup kr panel ins made ks : respects R (panel_rule_turns opk o p cup kr panel ins made ks).
Proof. revert made. induction ks as [|k ks IH]; intros made; cbn; walk. Qed.
#[local] Hint Resolve panel_turns_frame : frames.

Lemma panel_rule_frame o p cup kr : respects R (create_panel_links_for_rule opk o p cup kr).
Proof. unfold create_panel_links_for_rule, capabilities. walk. Qed.

Lemma allocation_items_frame cup kr ppk l : respects R (add_allocation_items cup kr ppk l).
Proof. induction l as [|x l IH]; cbn; walk. Qed.
#[local] Hint Resolve panel_rule_frame allocation_items_frame : frames.

Lemma inventory_rule_frame cup kr now : respects R (create_inventory_links_for_rule opk cup kr now).
Proof. unfold create_inventory_links_for_rule, rule_allocations. walk. Qed.
#[local] Hint Resolve inventory_rule_frame : frames.

Lemma run_rule_frame o p cup kr now : respects R (run_rule opk o p cup kr now).
Proof. unfold run_rule. walk. Qed.
#[local] Hint Resolve run_rule_frame : frames.

Lemma run_rules_frame o p cup strict now l : respects R (run_rules opk o p cup strict now l).
Proof. induction l as [|x l IH]; cbn; walk. Qed.
#[local] Hint Resolve run_rules_frame : frames.

Lemma fulfilled_accepts o recipe f actor now fs : accepts (fulfilled_order o recipe f actor now) fs.
Proof.
  intros _. unfold fulfilled_order. destruct (fl_ok f); [by right|]. cbn. apply payment_accepted_status.
Qed.
#[local] Hint Resolve fulfilled_accepts : frames.

Lemma fulfill_frame actor now : respects R (fulfill_order_with_recipe opk actor now).
Proof. unfold fulfill_order_with_recipe, create_or_reuse_order_cup, get_order, get_plan. walk. Qed.

(** *** Assignment, up to the save of the order *)

Lemma create_items_frame cup ppk mode reason k now l : respects R (create_items_for cup ppk mode reason k now l).
Proof. revert k. induction l as [|[a al] l IH]; intros k; cbn; walk. Qed.
#[local] Hint Resolve create_items_frame : frames.

Lemma add_assets_frame cup ppk seen ids now : respects R (add_inventory_assets_to_cup cup ppk seen ids now).
Proof.
  unfold add_inventory_assets_to_cup. destruct ids as [|k ids]; [walk|].
  apply respects_bind; [apply _| |walk]. intros w r w'.
  destruct (atomic _ w) as [x w1] eqn:E.
  assert (HR : R w w1).
  { eapply respects_atomic; [..|exact E]; [apply _|].
    unfold create_cup_items_from_inventory_allocation. walk. }
  destruct x as [a|e]; [by intros [= _ <-]|]. destruct e; by intros [= _ <-].
Qed.
#[local] Hint Resolve add_assets_frame : frames.

Lemma assign_asset_frame o p ka actor now : respects R (assign_asset opk o p ka actor now).
Proof. unfold assign_asset, assignment_cup. walk. Qed.
End DeliveryFrame.
