(* ===== verification/ManagementSpec.v ===== *)
(** What managing single clients guarantees: no change on a panel without its
    audit entry, and what a deletion or a switch leaves behind. *)

From S2P Require Import Prelude Models World Numbers Discounts Referrals OrderStore ReferralRewards Inbounds Scope OrderActions Submission ClientManagement.
Import ActionLog.

(** ** The audit trail *)

(** The two histories an audit compares: what was logged, what panels were
    made to do. *)
Definition audit_of (w : World) := (action_logs (db w), panel_writes w).

#[global] Instance keeps_audit_undoable : Undoable (keeps audit_of).
Proof. intros w w'. unfold keeps, audit_of. intros [= Hl Hw]. cbn. f_equal. exact Hw. Qed.

(** The client a call addresses: its inbound and identifier. *)
Definition addressed (c : call) : option (Z * string) :=
  match c with
  | CallRemove i ident | CallSetLimits i ident _ _ _ => Some (i, ident)
  | _ => None
  end.

Section Audit.
Context `{Env}.
Context (L : gmap Z action_log) (W : list call).

(** Neither log nor panel touched. *)
Definition untouched (w : World) : Prop := action_logs (db w) = L /\ panel_writes w = W.

(** One new entry, still pending; no call yet. *)
Definition opened (log i : Z) (ident : string) (w : World) : Prop :=
  log = next_pk L /\ panel_writes w = W /\
  exists l, action_logs (db w) = <[log := l]> L /\ inbound l = Some i /\
    xui_identifier_masked l = mask_identifier ident /\ status l = PENDING.

(** ... and the call made. *)
Definition called (log i : Z) (ident : string) (w : World) : Prop :=
  log = next_pk L /\ (exists c, panel_writes w = c :: W /\ addressed c = Some (i, ident)) /\
  exists l, action_logs (db w) = <[log := l]> L /\ inbound l = Some i /\
    xui_identifier_masked l = mask_identifier ident /\ status l = PENDING.

(** One new entry, completed, for the one new call. *)
Definition answered (good : bool) (w : World) : Prop :=
  exists l c i ident, action_logs (db w) = <[next_pk L := l]> L /\ panel_writes w = c :: W /\
    addressed c = Some (i, ident) /\ inbound l = Some i /\
    xui_identifier_masked l = mask_identifier ident /\ is_set (completed_at l) = true /\
    status l = (if good then SUCCESS else FAILED).

Definition refused_or_logged (w : World) : Prop := untouched w \/ answered false w.

Lemma create_log_opened client customer actor actor_id what i ident ot nt oe ne m X :
  triple untouched (create_action_log client customer actor actor_id what i ident ot nt oe ne m)
    (fun log => opened log i.1 ident) X.
Proof.
  intros w r w' [Hl Hw]. unfold create_action_log. run_io. intros [= <- <-].
  unfold opened. cbn. rewrite Hl. split; [done|]. split; [exact Hw|]. eexists. by split.
Qed.

Lemma complete_answered log i ident (st : status_t) error m limits now w (good : bool) :
  st = (if good then SUCCESS else FAILED) -> called log i ident w ->
  answered good (w {{ db -> action_logs ::= alter (completed_log st error m limits now) log }}).
Proof.
  intros Hst (-> & (c & Hw & Hc) & l & Hl & Hi & Hm & _). unfold answered. cbn. rewrite Hl.
  rewrite alter_insert_eq. eexists _, c, i, ident. split; [reflexivity|].
  split; [exact Hw|]. split; [done|]. unfold completed_log. by destruct limits.
Qed.

Lemma complete_success log i ident m limits now X :
  triple (called log i ident) (complete_action_log log SUCCESS "" m limits now)
    (fun _ => answered true) X.
Proof. apply triple_put_db. intros w Hw. by apply (complete_answered _ i ident). Qed.

Lemma complete_failure log i ident error m now X :
  triple (called log i ident) (complete_action_log log FAILED error m None now)
    (fun _ => answered false) X.
Proof. apply triple_put_db. intros w Hw. by apply (complete_answered _ i ident). Qed.

Lemma opened_called log i ident c (w : World) :
  is_panel_write c = true -> addressed c = Some (i, ident) ->
  opened log i ident w -> called log i ident (w {{ calls ::= cons c }}).
Proof.
  intros Hc Ha (-> & Hw & Hl). split; [done|]. split; [|exact Hl].
  exists c. split; [|done]. unfold panel_writes in *.
  change (calls (w {{ calls ::= cons c }})) with (c :: calls w).
  rewrite filter_cons_True; [by rewrite Hw|]. by rewrite Hc.
Qed.

Lemma audited_call_called {A} log i ident c (answer : list call -> result A) msg now :
  is_panel_write c = true -> addressed c = Some (i, ident) ->
  triple (opened log i ident) (audited_call log (askR c answer) msg now)
    (fun _ => called log i ident) (answered false).
Proof.
  intros Hc Ha w r w' Hw. pose proof (opened_called _ _ _ c w Hc Ha Hw) as Hd.
  unfold audited_call, tried, complete_action_log. run_io. cbn in Hd.
  destruct (answer (calls w)) as [a|e]; intros [= <- <-]; [exact Hd|].
  exact (complete_answered log i ident FAILED (exn_text e) ∅ None now _ false eq_refl Hd).
Qed.

(** What happens between the call and its completion leaves the audit alone. *)
Definition quiet {A} (m : IO A) : Prop := respects (keeps audit_of) m.

Lemma called_kept log i ident w w' :
  audit_of w' = audit_of w ->
  called log i ident w -> called log i ident w'.
Proof. unfold audit_of, called. intros [= Ha Hw]. by rewrite Hw, Ha. Qed.

Lemma quiet_called {A} log i ident (m : IO A) X :
  quiet m -> (forall w, called log i ident w -> X w) ->
  triple (called log i ident) m (fun _ => called log i ident) X.
Proof.
  intros Hm HX w r w' Hw E. pose proof (called_kept _ _ _ _ _ (Hm _ _ _ E) Hw). destruct r; auto.
Qed.

Lemma audited_local_called log i ident cpk local now :
  quiet local ->
  triple (called log i ident) (audited_local_delete log cpk local now)
    (fun _ => called log i ident) (answered false).
Proof.
  intros Hq w r w' Hw. unfold audited_local_delete.
  unfold mbind at 1, M_bind at 1, tried. destruct (local w) as [x w1] eqn:E.
  pose proof (called_kept _ _ _ _ _ (Hq _ _ _ E) Hw) as Hc. destruct x as [u|e].
  - by intros [= <- <-].
  - unfold complete_action_log. run_io. intros [= <- <-].
    exact (complete_answered log i ident FAILED (exn_text e) _ None now _ false eq_refl Hc).
Qed.
End Audit.

(** ** The handlers *)

Section Handlers.
Context `{Env}.

#[local] Hint Extern 1 (keeps audit_of _ _) => reflexivity : frames.

Lemma save_order_audit opk o fs now : respects (keeps audit_of) (save_order opk o fs now).
Proof.
  intros w r w' Hrun. apply save_order_frame in Hrun. revert Hrun.
  unfold keeps, all_but_orders, side_tables, audit_of, panel_writes. intros [=]. congruence.
Qed.
#[local] Hint Resolve save_order_audit : frames.

Lemma mark_deleted_quiet cpk customer admin reason remote r now :
  quiet (mark_local_vpn_client_deleted cpk customer admin reason remote r now).
Proof.
  unfold quiet, mark_local_vpn_client_deleted, cleanup_vpn_client_related_records, get_client, get_order.
  walk.
Qed.

Lemma sync_enabled_quiet cpk r enabled now : quiet (sync_local_enabled_state cpk r enabled now).
Proof. unfold quiet, sync_local_enabled_state, get_client. walk. Qed.

Lemma sync_limits_quiet cpk r now : quiet (sync_local_vpn_client_after_remote_update cpk r now).
Proof. unfold quiet, sync_local_vpn_client_after_remote_update, get_client. walk. Qed.

Lemma create_log_clients client customer actor actor_id what i ident ot nt oe ne m :
  respects (keeps clients_of) (create_action_log client customer actor actor_id what i ident ot nt oe ne m).
Proof. unfold create_action_log. walk; done. Qed.

Lemma tried_respects {A} R `{!PreOrder R} (m : IO A) : respects R m -> respects R (tried m).
Proof. intros Hm w r w' Hrun. unfold tried in Hrun. destruct (m w) as [x w1] eqn:E. injection Hrun as _ <-. by eapply Hm. Qed.

Lemma audited_call_clients {A} log c (answer : list call -> result A) msg now :
  respects (keeps clients_of) (audited_call log (askR c answer) msg now).
Proof.
  unfold audited_call, complete_action_log.
  apply respects_bind; [apply _|apply tried_respects; [apply _|]|]; walk; done.
Qed.

(** The shape all actions share: a pending entry, the call, the local rows,
    the entry completed. *)
Lemma bracket_audited {A B} L W C client customer actor actor_id what (i : keyed_inbound) ident ot nt oe ne m c
    (answer : list call -> result A) msg (local : Z -> A -> IO unit) now m2 limits (out : Z -> A -> B) :
  is_panel_write c = true -> addressed c = Some (i.1, ident) ->
  (forall log r, triple (fun w => called L W log i.1 ident w /\ clients_of w = C) (local log r)
     (fun _ => called L W log i.1 ident) (answered L W false)) ->
  triple (fun w => untouched L W w /\ clients_of w = C)
    (log ← create_action_log client customer actor actor_id what i ident ot nt oe ne m;
     r ← audited_call log (askR c answer) msg now;
     _ ← local log r;
     _ ← complete_action_log log SUCCESS "" (m2 r) (limits r) now;
     mret (out log r))
    (fun _ => answered L W true) (refused_or_logged L W).
Proof.
  intros Hc Ha Hl. eapply triple_bind.
  { apply triple_keeps; [apply create_log_clients|]. apply (create_log_opened L W). }
  intros log. cbv beta. apply (triple_conseq _ (fun w => opened L W log i.1 ident w /\ clients_of w = C) _ _
    (fun _ => answered L W true) _ (answered L W false)); [|done..|by right].
  eapply triple_bind.
  { apply triple_keeps; [apply audited_call_clients|]. by apply audited_call_called. }
  intros r. cbv beta. eapply triple_bind; [apply Hl|]. intros ?. cbv beta.
  eapply triple_bind; [apply (complete_success L W log i.1 ident)|]. intros ?. apply triple_ret. done.
Qed.

(** The lookup finds rows of the table. *)
Lemma find_local_row d i ident l id cpk c st :
  find_local_vpn_client_for_lookup d i ident l id = (Some (cpk, c), st) -> clients d !! cpk = Some c.
Proof.
  unfold find_local_vpn_client_for_lookup.
  destruct id as [[|p|p]|].
  2,3: destruct (clients d !! _) eqn:E; [|done]; destruct (_ && _); [|done]; by intros [= <- <- _].
  all: destruct (rows_where _ _) as [|[k c0] [|]] eqn:E; try done; intros [= <- <- _];
    assert (Hin : (k, c0) ∈ [(k, c0)]) by apply list_elem_of_here;
    rewrite <- E in Hin; by apply elem_of_rows_where in Hin as [? _].
Qed.

Lemma sync_enabled_runs cpk r enabled now w c :
  clients (db w) !! cpk = Some c -> exists w', sync_local_enabled_state cpk r enabled now w = (Ret tt, w').
Proof.
  intros Hc. unfold sync_local_enabled_state, get_client. run_io. rewrite Hc.
  destruct (VPNClient.is_deleted c); by eexists.
Qed.

Lemma sync_limits_runs cpk r now w c :
  clients (db w) !! cpk = Some c ->
  exists w', sync_local_vpn_client_after_remote_update cpk r now w = (Ret tt, w').
Proof.
  intros Hc. unfold sync_local_vpn_client_after_remote_update, get_client. run_io. rewrite Hc.
  destruct (VPNClient.is_deleted c); by eexists.
Qed.

(** A quiet step that returns leaves the entry to be completed. *)
Lemma quiet_local_called L W C log i ident X (m : IO unit) :
  quiet m -> (forall w, clients (db w) = C -> exists w', m w = (Ret tt, w')) ->
  triple (fun w => called L W log i ident w /\ clients_of w = C) m (fun _ => called L W log i ident) X.
Proof.
  intros Hq Hr w r w' [Hw HC] E. destruct (Hr w HC) as [w1 E1]. rewrite E1 in E.
  injection E as <- <-. exact (called_kept L W log i ident _ _ (Hq _ _ _ E1) Hw).
Qed.

Lemma start_audit {A} L W (body : DB -> IO A) Q :
  (forall d, triple (fun w => untouched L W w /\ clients_of w = clients d) (body d) Q (refused_or_logged L W)) ->
  triple (untouched L W) (get_db ≫= body) Q (refused_or_logged L W).
Proof.
  intros Hb w r w' Hw. unfold get_db, mbind, M_bind. intros E. exact (Hb (db w) w r w' (conj Hw eq_refl) E).
Qed.

Lemma lift_audit {A B} L W C (x : result A) (body : A -> IO B) Q :
  (forall a, triple (fun w => untouched L W w /\ clients_of w = C) (body a) Q (refused_or_logged L W)) ->
  triple (fun w => untouched L W w /\ clients_of w = C) (liftR x ≫= body) Q (refused_or_logged L W).
Proof.
  intros Hb. destruct x as [a|e]; [exact (Hb a)|].
  intros w r w' [Hw _]. unfold liftR, mbind, M_bind. intros [= <- <-]. by left.
Qed.

Lemma raise_audit {A} L W C e Q :
  triple (A := A) (fun w => untouched L W w /\ clients_of w = C) (raise e) Q (refused_or_logged L W).
Proof. apply triple_raise. intros w [Hw _]. by left. Qed.

Lemma delete_for_user_audited L W cust cpk c reason actor_id now :
  triple (untouched L W) (delete_vpn_client_for_user cust cpk c reason actor_id now)
    (fun _ => answered L W true) (refused_or_logged L W).
Proof.
  unfold delete_vpn_client_for_user. apply start_audit. intros d. apply lift_audit. intros _.
  destruct (_ ≫= _) as [i|]; [|apply raise_audit].
  destruct (negb _); [apply raise_audit|]. destruct (bool_decide _); [apply raise_audit|].
  eapply (bracket_audited L W _ _ _ _ _ _ i _ _ _ _ _ _ _ _ _ _ _ removal_metadata (fun _ => None) (fun log _ => log)).
  - done.
  - done.
  - intros log r. apply (triple_pre _ (called L W log i.1 (client_identifier c))); [by intros ? [? _]|].
    apply audited_local_called, mark_deleted_quiet.
Qed.

Lemma delete_by_admin_audited L W admin l reason now :
  triple (untouched L W) (delete_vpn_client_by_admin_lookup admin l reason now)
    (fun _ => answered L W true) (refused_or_logged L W).
Proof.
  unfold delete_vpn_client_by_admin_lookup. apply start_audit. intros d. apply lift_audit.
  intros [i ident]. destruct (find_local_vpn_client_for_lookup _ _ _ _ _) as [local st].
  eapply (bracket_audited L W _ _ _ _ _ _ i _ _ _ _ _ _ _ _ _
    (fun log r => match local with Some (cpk, _) => audited_local_delete log cpk _ now | None => mret tt end)
    _ (fun r => _) (fun _ => None) (fun log _ => log)).
  - done.
  - done.
  - intros log r. destruct local as [[cpk c]|].
    + apply (triple_pre _ (called L W log i.1 ident)); [by intros ? [? _]|].
      apply audited_local_called, mark_deleted_quiet.
    + apply triple_ret. by intros ? [? _].
Qed.

Lemma set_enabled_audited L W admin l enabled now :
  triple (untouched L W) (set_vpn_client_enabled_by_admin admin l enabled now)
    (fun _ => answered L W true) (refused_or_logged L W).
Proof.
  unfold set_vpn_client_enabled_by_admin. apply start_audit. intros d. apply lift_audit.
  intros [i ident]. destruct (find_local_vpn_client_for_lookup _ _ _ _ _) as [local st] eqn:Hf.
  eapply (bracket_audited L W _ _ _ _ _ _ i _ _ _ _ _ _ _ _ _
    (fun log r => match local with Some (cpk, _) => sync_local_enabled_state cpk r enabled now | None => mret tt end)
    _ (fun r => _) Some (fun _ r => r)).
  - done.
  - done.
  - intros log r. destruct local as [[cpk c]|].
    + apply quiet_local_called; [apply sync_enabled_quiet|]. intros w Hw.
      apply (sync_enabled_runs _ _ _ _ _ c). rewrite Hw. by eapply find_local_row.
    + apply triple_ret. by intros ? [? _].
Qed.

Lemma find_call_audit {A B} L W C pk ident (answer : list call -> result A) (body : A -> IO B) Q :
  (forall a, triple (fun w => untouched L W w /\ clients_of w = C) (body a) Q (refused_or_logged L W)) ->
  triple (fun w => untouched L W w /\ clients_of w = C) (askR (CallFind pk ident) answer ≫= body) Q
    (refused_or_logged L W).
Proof.
  intros Hb. eapply triple_bind; [|exact Hb].
  apply (triple_conseq _ _ _ _ _ _ _ (triple_askR (fun w => untouched L W w /\ clients_of w = C)
    (CallFind pk ident) answer (fun w => untouched L W w /\ clients_of w = C) (fun w Hw => Hw) (fun w Hw => Hw)));
    [done..|]. intros w [Hw _]. by left.
Qed.

Lemma update_limits_audited L W admin l traffic days at_ total mode now :
  triple (untouched L W) (update_vpn_client_limits_by_admin admin l traffic days at_ total mode now)
    (fun _ => answered L W true) (refused_or_logged L W).
Proof.
  unfold update_vpn_client_limits_by_admin. apply start_audit. intros d. apply lift_audit.
  intros [i ident]. apply find_call_audit. intros [live|]; [|apply raise_audit].
  destruct (find_local_vpn_client_for_lookup _ _ _ _ _) as [local st] eqn:Hf.
  apply lift_audit. intros new_total. apply lift_audit. intros new_expiry. apply lift_audit. intros what.
  eapply (bracket_audited L W _ _ _ _ _ _ i _ _ _ _ _ _ _ _ _
    (fun log r => match local with
                  | Some (cpk, _) => sync_local_vpn_client_after_remote_update cpk r now
                  | None => mret tt end)
    _ (fun r => _) Some (fun _ r => r)).
  - done.
  - done.
  - intros log r. destruct local as [[cpk c]|].
    + apply quiet_local_called; [apply sync_limits_quiet|]. intros w Hw.
      apply (sync_limits_runs _ _ _ _ c). rewrite Hw. by eapply find_local_row.
    + apply triple_ret. by intros ? [? _].
Qed.
End Handlers.

(** An administrator's or a customer's action on one client: whether it
    returned, and the worlds before and after. *)
Inductive managed `{Env} : World -> bool -> World -> Prop :=
| managed_user_delete cust cpk c reason actor now w r w' :
    delete_vpn_client_for_user cust cpk c reason actor now w = (r, w') -> managed w (is_ret r) w'
| managed_admin_delete admin l reason now w r w' :
    delete_vpn_client_by_admin_lookup admin l reason now w = (r, w') -> managed w (is_ret r) w'
| managed_enabled admin l enabled now w r w' :
    set_vpn_client_enabled_by_admin admin l enabled now w = (r, w') -> managed w (is_ret r) w'
| managed_limits admin l traffic days at_ total mode now w r w' :
    update_vpn_client_limits_by_admin admin l traffic days at_ total mode now w = (r, w') ->
    managed w (is_ret r) w'.

Section AuditTheorem.
Context `{Env}.

(** What an action did to logs and panels together. *)
Definition audited (w : World) (good : bool) (w' : World) : Prop :=
  (good = false /\ action_logs (db w') = action_logs (db w) /\ panel_writes w' = panel_writes w) \/
  exists l c i ident,
    action_logs (db w') = <[next_pk (action_logs (db w)) := l]> (action_logs (db w)) /\
    panel_writes w' = c :: panel_writes w /\ addressed c = Some (i, ident) /\
    inbound l = Some i /\ xui_identifier_masked l = mask_identifier ident /\
    is_set (completed_at l) = true /\ status l = (if good then SUCCESS else FAILED).

Lemma triple_audited {A} (m : IO A) w r w' :
  (forall L W, triple (untouched L W) m (fun _ => answered L W true) (refused_or_logged L W)) ->
  m w = (r, w') -> audited w (is_ret r) w'.
Proof.
  intros Hm E. specialize (Hm _ _ _ _ _ (conj eq_refl eq_refl) E).
  destruct r; [by right|]. destruct Hm as [[Hl Hw]|Ha]; [by left|by right].
Qed.

(** C36: The four management actions - a customer deletes a client, an
    administrator deletes one, enables or disables one, or changes one's limits -
    do nothing on a panel without an audit entry.  Such an action either raises
    before any panel was asked to change anything, and logs nothing, or makes
    exactly one change request and leaves exactly one new entry - for that
    inbound and identifier, completed, successful exactly when the action
    returned.  Earlier entries are never altered. *)
Theorem panel_changes_are_audited w good w' : managed w good w' -> audited w good w'.
Proof.
  intros [? ? ? ? ? ? ? r ? E|? ? ? ? ? r ? E|? ? ? ? ? r ? E|? ? ? ? ? ? ? ? ? r ? E];
    refine (triple_audited _ _ r _ _ E); intros.
  - apply delete_for_user_audited.
  - apply delete_by_admin_audited.
  - apply set_enabled_audited.
  - apply update_limits_audited.
Qed.
End AuditTheorem.

(** ** What a deletion leaves *)

Section Deletion.
Context `{Env}.

Lemma save_order_clients opk o fs now : respects (keeps clients_of) (save_order opk o fs now).
Proof.
  intros w r w' Hrun. apply save_order_frame in Hrun. revert Hrun.
  unfold keeps, all_but_orders, clients_of. intros [=]. congruence.
Qed.
#[local] Hint Resolve save_order_clients : frames.

Lemma cleanup_clients cpk c od os ou now :
  respects (keeps clients_of) (cleanup_vpn_client_related_records cpk c od os ou now).
Proof. unfold cleanup_vpn_client_related_records, get_order. walk. done. Qed.

Lemma mark_deleted_inv cpk customer admin reason remote rm now w r w' :
  mark_local_vpn_client_deleted cpk customer admin reason remote rm now w = (r, w') ->
  match r with
  | Ret _ => exists c, clients (db w) !! cpk = Some c /\
      clients (db w') = <[cpk := deleted_client customer admin reason remote rm now c]> (clients (db w))
  | Raise _ => db w' = db w
  end.
Proof.
  intros Hrun. destruct r as [u|e]; [|by apply atomic_Raise_db in Hrun].
  unfold mark_local_vpn_client_deleted in Hrun. apply (proj1 (atomic_Ret _ _ _ _)) in Hrun.
  unfold get_client in Hrun. run_io_in Hrun.
  destruct (clients (db w) !! cpk) as [c|] eqn:Hc; [|done].
  apply cleanup_clients in Hrun. exists c. split; [done|]. exact Hrun.
Qed.

(** The row of a client that is gone: marked, dated, its links emptied. *)
Definition gone (customer : option Z) (now : Z) (c : VPNClient.vpn_client) : Prop :=
  VPNClient.status c = VPNClient.DELETED /\ is_set (VPNClient.deleted_at c) = true /\
  VPNClient.remote_deleted_at c = Some now /\ VPNClient.deleted_by_customer c = customer /\
  VPNClient.sub_link c = Some "" /\ VPNClient.direct_link c = Some "".

Lemma deleted_client_gone cust reason rm now c : gone (Some cust) now (deleted_client (Some cust) "" reason (Some now) rm now c).
Proof. unfold gone, deleted_client. cbn. by destruct (VPNClient.deleted_at c). Qed.

Lemma audited_local_inv log cpk local now w r w' :
  audited_local_delete log cpk local now w = (r, w') ->
  exists x w1, local w = (x, w1) /\ clients (db w') = clients (db w1) /\ is_ret r = is_ret x.
Proof.
  unfold audited_local_delete, tried, complete_action_log. run_io.
  destruct (local w) as [[u|e] w1]; intros [= <- <-]; by eexists _, _.
Qed.

(** A customer can only delete a service of their own, that is not deleted
    yet and has no renewal under way, and only if its panel removes it.  When
    the deletion returns the row is marked as deleted by them, dated, with its
    links emptied; when it raises, no client row changed, even if the panel
    had already removed the client. *)
Theorem user_deletion_outcome cust cpk c reason actor_id now w r w' :
  delete_vpn_client_for_user cust cpk c reason actor_id now w = (r, w') ->
  match r with
  | Ret _ =>
      client_customer (db w) cpk c = Some cust /\ VPNClient.is_deleted c = false /\
      pending_renewal_for_client (db w) cust cpk = false /\
      (exists ipk rm, VPNClient.inbound c = Some ipk /\
         delete_client_from_inbound (calls w) ipk (client_identifier c) = Ret rm) /\
      exists row, clients (db w') = <[cpk := row]> (clients (db w)) /\ gone (Some cust) now row
  | Raise _ => clients (db w') = clients (db w)
  end.
Proof.
  unfold delete_vpn_client_for_user, create_action_log, audited_call, tried, complete_action_log. run_io.
  unfold require_user_can_manage. case_bool_decide as Howner; cbn [negb]; [|by intros [= <- <-]].
  destruct (VPNClient.is_deleted c) eqn:Hd; [by intros [= <- <-]|].
  destruct (pending_renewal_for_client _ _ _) eqn:Hp; [by intros [= <- <-]|].
  unfold keyed. destruct (VPNClient.inbound c) as [ipk|]; cbn; [|by intros [= <- <-]].
  destruct (inbounds (db w) !! ipk) as [i|]; cbn; [|by intros [= <- <-]].
  destruct (is_set (Inbound.panel i)); cbn; [|by intros [= <- <-]].
  case_bool_decide; [by intros [= <- <-]|]. run_io.
  destruct (delete_client_from_inbound _ _ _) as [rm|e] eqn:Ha; [|by intros [= <- <-]].
  destruct (audited_local_delete _ _ _ _ _) as [x w1] eqn:E.
  apply audited_local_inv in E as (y & w2 & E & Hc & Hr). apply mark_deleted_inv in E. revert E Hr. cbn.
  destruct x as [u|e'], y as [u'|e'']; try done; intros E _ [= <- <-].
  - destruct E as (row & _ & Hrow). repeat (split; [done|]). split; [by eexists _, _|].
    eexists. split; [cbn; rewrite Hc; exact Hrow|]. apply deleted_client_gone.
  - rewrite Hc, E. done.
Qed.
End Deletion.

(** ** The sample shop: customer 101 deletes client 5 of order 1000 *)

Definition sample_managed : World := sample_shop {{ db -> clients :=
  {[ 5 := sample_vpn_client 1000 10 VPNClient.ACTIVE ]} }}.

Definition sample_user_delete : result Z * World := @delete_vpn_client_for_user sample_env 101 5
  (sample_vpn_client 1000 10 VPNClient.ACTIVE) "" "555" 7 sample_managed.

Lemma panel_changes_are_audited_witness :
  @audited sample_managed true sample_user_delete.2 /\
  panel_writes sample_user_delete.2 = [CallRemove 10 "u1"].
Proof.
  split; [|vm_compute; reflexivity].
  apply (@panel_changes_are_audited sample_env).
  assert (Hr : sample_user_delete.1 = Ret 1) by (vm_compute; reflexivity).
  assert (Hm : @managed sample_env sample_managed (is_ret sample_user_delete.1) sample_user_delete.2).
  { apply (managed_user_delete 101 5 (sample_vpn_client 1000 10 VPNClient.ACTIVE) "" "555" 7 _
      sample_user_delete.1). apply surjective_pairing. }
  rewrite Hr in Hm. exact Hm.
Defined.

Lemma user_deletion_outcome_witness :
  exists row, clients (db sample_user_delete.2) !! 5 = Some row /\ gone (Some 101) 7 row.
Proof.
  assert (Hr : sample_user_delete.1 = Ret 1) by (vm_compute; reflexivity).
  destruct (@user_deletion_outcome sample_env 101 5 (sample_vpn_client 1000 10 VPNClient.ACTIVE) "" "555" 7
    sample_managed (Ret 1) sample_user_delete.2) as (_ & _ & _ & _ & row & Hc & Hg).
  - rewrite <- Hr. apply surjective_pairing.
  - exists row. split; [|exact Hg]. rewrite Hc. apply lookup_insert_eq.
Defined.
