(* ===== verification/Automation.v ===== *)
(** Following up on receipts (src/store/order_automation.py): reminding
    administrators of orders waiting for review, approving an order whose
    receipt nobody reviewed in time, and what happens to such an approval
    afterwards - its confirmation, or its cancellation with every client of the
    order switched off. *)

From S2P Require Import Prelude Models World Numbers Referrals OrderStore ReferralRewards Inbounds Scope OrderActions Provisioning Submission ClientManagement.
Import Order OrderAutomation.

#[local] Open Scope string_scope.
#[local] Open Scope Z_scope.

(** [timedelta(minutes=1)] *)
Definition minute : Z := 60 * 1000000.
Definition AUTO_APPROVE_DELAY : Z := 5 * minute.
Definition REMINDER_MINUTES : list Z := [5; 15; 30].

(** ** Receipts waiting for review *)

(** A JSON value that is neither null nor the empty text. *)
Definition some_text (j : option json) : bool :=
  match j with
  | None | Some JNull => false
  | Some (JStr s) => negb (bool_decide (s = ""))
  | Some _ => true
  end.

(** An image, a tracking code, a text or a file sent to the bot. *)
Definition has_receipt (o : order) : bool :=
  text_truthy (payment_receipt_image o) || text_truthy (bank_tracking_code o)
  || some_text (metadata o !! "receipt_text")
  || some_text (md_get2 "receipt" "file_id" (metadata o)).

Definition store_of (d : DB) (o : order) : option Store.store := store o ≫= fun s => stores d !! s.

Definition pending_receipt (d : DB) (o : order) : bool :=
  is_manual_payment o && is_set (payment_submitted_at o)
  && bool_decide (verification_status o = V_PENDING)
  && bool_decide (status o ∈ [PENDING_PAYMENT; PENDING_VERIFICATION])
  && match store_of d o with Some st => Store.is_active st | None => false end
  && has_receipt o.

(** [pending_receipts(store)], one row of it. *)
Definition pending_receipt_of (d : DB) (spk : Z) (o : order) : bool :=
  pending_receipt d o && bool_decide (store o = Some spk).

Definition set_automation (opk : Z) (a : order_automation) (d : DB) : DB :=
  d {{ automations ::= insert opk a }}.

(** [OrderAutomation.objects.get_or_create(order=order)] *)
Definition get_or_create_automation (opk : Z) : IO order_automation :=
  d ← get_db;
  match automations d !! opk with
  | Some a => mret a
  | None => _ ← put_db (set_automation opk fresh_automation); mret fresh_automation
  end.

Definition get_automation (opk : Z) : IO order_automation :=
  get_or_raise (fun w => automations (db w) !! opk).

(** [OrderAutomation.objects.filter(pk=...).update(last_error=...)] *)
Definition record_last_error (opk : Z) (error : string) : IO unit :=
  put_db (fun d => d {{ automations ::= alter (fun a => a {{ last_error := error }}) opk }}).

Definition suppressed (o : order) : bool := md_truthy "suppress_new_order_notification" (metadata o).

(** ** Timed approval *)

Definition DELIVERY_UNKNOWN : string :=
  "نتیجه تحویل نامشخص است؛ پیش از تلاش مجدد سرویس روی پنل را بررسی کنید.".
Definition DELIVERY_INCOMPLETE : string :=
  "تحویل خودکار کامل نشد؛ نتیجه و خطای تحویل سفارش را بررسی کنید.".

(** When the receipt's review window ends; nothing when the shop does not
    approve automatically. *)
Definition auto_approve_due (st : Store.store) (o : order) : option Z :=
  if Store.order_auto_approve_enabled (Store.payment st) then
    enabled ← Store.order_auto_approve_enabled_at (Store.payment st);
    submitted ← payment_submitted_at o;
    Some (Z.max submitted enabled + AUTO_APPROVE_DELAY)
  else None.

Section Automation.
Context `{Env} `{Delivery}.

(** The first transaction: claim the approval, before any panel is called. *)
Definition claim_auto_approval (opk now : Z) : IO bool := atomic (
  o ← get_order opk;
  st ← get_or_raise (fun w => store_of (db w) o);
  d ← get_db;
  if negb (Store.order_auto_approve_enabled (Store.payment st))
     || negb (is_set (Store.order_auto_approve_enabled_at (Store.payment st))) then mret false
  else if negb (pending_receipt d o) then mret false
  else if match auto_approve_due st o with Some due => now <? due | None => true end || suppressed o
  then mret false
  else
    a ← get_or_create_automation opk;
    if is_set (auto_approved_at a) then mret false
    else
      _ ← put_db (set_automation opk (a {{ auto_approved_at := Some now; review_status := R_PENDING }}));
      mret true).

(** The second one: approve, and tell the customer. *)
Definition deliver_auto_approval (opk now : Z) : IO provisioning_result := atomic (
  o ← get_order opk;
  r ← approve_and_provision_order opk o None "timed_receipt_approval" false now;
  o ← get_order opk;
  _ ← (if ok r && negb (already_provisioned r) then
         _ ← attempt (askR (CallNotify opk "approved") (fun h => notify_order_event h opk o "approved"));
         mret tt
       else mret tt);
  mret r).

Definition auto_approve_order (opk now : Z) : IO bool :=
  claimed ← claim_auto_approval opk now;
  if negb claimed then mret false
  else
    outcome ← tried (deliver_auto_approval opk now);
    _ ← match outcome with
        | Raise _ => record_last_error opk DELIVERY_UNKNOWN
        | Ret r => if ok r then mret tt else record_last_error opk DELIVERY_INCOMPLETE
        end;
    mret true.

(** ** Reminders *)

Definition reminder_due (submitted : Z) (a : order_automation) (now : Z) : bool :=
  match REMINDER_MINUTES !! reminder_stage a with
  | Some m => submitted + m * minute <=? now
  | None => match last_reminded_at a with
            | None => true
            | Some t => t + 60 * minute <=? now
            end
  end.

(** [sum(elapsed >= value for value in REMINDER_MINUTES)] *)
Definition stages_passed (submitted now : Z) : nat :=
  length (filter (fun m => m * minute <= now - submitted) REMINDER_MINUTES).

Definition reminded (submitted now : Z) (a : order_automation) : order_automation :=
  a {{ reminder_stage := Nat.max (reminder_stage a) (stages_passed submitted now);
       last_reminded_at := Some now }}.

(** An automatic approval whose delivery failed and nobody has looked at. *)
Definition failed_auto (d : DB) (spk opk : Z) (o : order) : bool :=
  bool_decide (store o = Some spk) && is_set (payment_submitted_at o)
  && negb (bool_decide (status o ∈ [COMPLETED; REJECTED; CANCELLED]))
  && match automations d !! opk with
     | Some a => bool_decide (review_status a = R_PENDING) && negb (bool_decide (last_error a = ""))
     | None => false
     end.

(** Least recently reminded first, never reminded before all. *)
Definition reminder_queue (d : DB) (spk : Z) : list (Z * order) :=
  take 100 (order_by (fun ko =>
      match automations d !! ko.1 ≫= last_reminded_at with None => [0; 0] | Some t => [1; t] end
      ++ [default 0 (payment_submitted_at ko.2); ko.1])%list
    (rows_where (fun k o => pending_receipt_of d spk o || failed_auto d spk k o) (orders d))).

(** The first ten of the queue that are due, with their automation rows. *)
Fixpoint collect_due (now : Z) (found : nat) (l : list (Z * order)) : IO (list (Z * order * order_automation)) :=
  match l with
  | [] => mret []
  | (opk, o) :: rest =>
      if suppressed o then collect_due now found rest
      else
        a ← get_or_create_automation opk;
        if (negb (is_set (auto_approved_at a)) || negb (bool_decide (last_error a = "")))
           && reminder_due (default 0 (payment_submitted_at o)) a now
        then
          more ← (if (10 <=? S found)%nat then mret [] else collect_due now (S found) rest);
          mret ((opk, o, a) :: more)
        else collect_due now found rest
  end.

(** [html.escape] *)
Fixpoint html_escape (s : string) : string :=
  match s with
  | EmptyString => ""
  | String c s' =>
      (if bool_decide (c = "&"%char) then "&amp;"
       else if bool_decide (c = "<"%char) then "&lt;"
       else if bool_decide (c = ">"%char) then "&gt;"
       else if bool_decide (c = "'"%char) then "&#x27;"
       else if bool_decide (code_of c = 34) then "&quot;"
       else String c "") +:+ html_escape s'
  end.

Definition newline : string := String (ascii_of_nat 10) "".

Definition reminder_text (due : list (Z * order * order_automation)) (now : Z) : string :=
  join newline ("⏳ <b>سفارش‌های منتظر بررسی پرداخت / تحویل</b>"
    :: map (fun '(_, o, _) =>
         "• " +:+ html_escape (order_tracking_code o) +:+ " — "
         +:+ pretty (Z.max 0 ((now - default 0 (payment_submitted_at o)) / minute)) +:+ " دقیقه انتظار") due).

(** [active_bot_configs(store=store).filter(notify_new_orders=True)] *)
Definition reminder_configs (d : DB) (spk : Z) : list Z :=
  (order_by (fun kc => [kc.1]) (rows_where (fun _ c =>
     BotConfiguration.is_active c && negb (bool_decide (BotConfiguration.bot_token c = ""))
     && negb (bool_decide (BotConfiguration.admin_user_id c = ""))
     && match BotConfiguration.store c with Some s => s =? spk | None => true end
     && BotConfiguration.notify_new_orders c) (bot_configs d))).*1.

(** Send to each; how many messages went out. *)
Fixpoint send_to_configs (text : string) (l : list Z) : IO Z :=
  match l with
  | [] => mret 0
  | cfg :: rest =>
      n ← askR (CallSend cfg text) (fun h => send_to_config h cfg text);
      more ← send_to_configs text rest;
      mret (n + more)
  end.

Definition save_reminded (now : Z) (x : Z * order * order_automation) : IO unit :=
  let '(opk, o, a) := x in
  put_db (set_automation opk (reminded (default 0 (payment_submitted_at o)) now a)).

Definition send_receipt_reminders (spk now : Z) : IO Z := atomic (
  st ← get_store spk;
  if negb (Store.is_active st) || negb (Store.order_review_reminders_enabled (Store.payment st)) then mret 0
  else
    d ← get_db;
    due ← collect_due now 0 (reminder_queue d spk);
    if bool_decide (due = []) then mret 0
    else
      sent ← send_to_configs (reminder_text due now) (reminder_configs d spk);
      if sent =? 0 then mret 0
      else _ ← for_each (save_reminded now) due; mret (Z.of_nat (length due))).
End Automation.

(** ** Reconciling an automatic approval *)

Definition NOT_RECONCILABLE : exn := ValidationError "این تأیید خودکار در وضعیت قابل تطبیق نیست.".
Definition REJECTED_OR_CANCELLED : exn := ValidationError "سفارش رد یا لغو شده است.".
Definition REASON_REQUIRED : exn :=
  ValidationError "دلیل لغو را وارد کنید؛ این متن برای مشتری ارسال می‌شود.".
Definition NOT_AUTO_APPROVED : exn := ValidationError "این سفارش تأیید خودکار ندارد.".
Definition RENEWAL_TARGET_MISMATCH : exn :=
  ValidationError "سرویس مقصد تمدید با مشتری و فروشگاه سفارش مطابقت ندارد.".
Definition RENEWED_SINCE : exn :=
  ValidationError "این سرویس بعداً دوباره تمدید شده؛ توقف آن نیازمند بررسی خرید بعدی است.".
Definition NO_VALID_PANEL : exn := ValidationError "سرویس پنل معتبر ندارد.".
Definition CANCEL_INCOMPLETE : string :=
  "ساب متوقف شد، ولی غیرفعال‌سازی همه سرویس‌ها روی پنل کامل نشد. پس از رفع خطا دوباره لغو را بزنید.".

Section Reconciliation.
Context `{Env}.

Definition confirm_auto_payment (opk user : Z) (note : string) (now : Z) : IO unit := atomic (
  o ← get_order opk;
  a ← get_automation opk;
  if negb (is_set (auto_approved_at a)) || negb (bool_decide (review_status a ∈ [R_PENDING; R_VERIFIED]))
  then raise NOT_RECONCILABLE
  else if bool_decide (status o ∈ [REJECTED; CANCELLED]) then raise REJECTED_OR_CANCELLED
  else if bool_decide (review_status a = R_VERIFIED) then mret tt
  else
    _ ← put_db (set_automation opk (a {{ review_status := R_VERIFIED; reviewed_at := Some now;
                                         reviewed_by := Some user; review_note := strip note }}));
    let o := o {{ verification_status := V_VERIFIED; is_paid := true; verified_by := Some user;
                  verified_at := or_opt (verified_at o) (Some now) }} in
    _ ← save_order opk o [F_verification_status; F_is_paid; F_verified_by; F_verified_at] now;
    _ ← create_referral_reward_for_order opk now;
    mret tt).

(** ** Cancelling it *)

(** A later completed renewal of the client by another order. *)
Definition renewed_since (d : DB) (opk cpk approved : Z) : bool :=
  exists_where (fun k o =>
    negb (k =? opk)
    && match metadata o !! "renewal_client_pk" with
       | Some (JNum n) => n =? cpk
       | Some (JStr s) => bool_decide (s = pretty cpk)
       | _ => false end
    && bool_decide (status o = COMPLETED)
    && match verified_at o with Some t => approved <? t | None => false end) (orders d).

(** The client a renewal order is for, if it may be switched off for it. *)
Definition renewal_target (d : DB) (o : order) : result (option (Z * VPNClient.vpn_client)) :=
  match metadata o !! "renewal_client_pk" with
  | Some j =>
      if negb (truthy j) then Ret None
      else match client_by_json d j with
      | None => Raise RENEWAL_TARGET_MISMATCH
      | Some (cpk, c) =>
          if bool_decide (VPNClient.store c = store o)
             && match VPNClient.order c with
                | Some k => bool_decide ((orders d !! k ≫= customer) = customer o)
                | None => false end
          then Ret (Some (cpk, c)) else Raise RENEWAL_TARGET_MISMATCH
      end
  | None => Ret None
  end.

Definition cancellation_clients (d : DB) (opk : Z) (o : order) : result (list (Z * VPNClient.vpn_client)) :=
  let own := order_by (fun kc => [kc.1])
    (rows_where (fun _ c => bool_decide (VPNClient.order c = Some opk)) (clients d)) in
  let approved := default (created_at o)
    (or_opt (automations d !! opk ≫= auto_approved_at) (verified_at o)) in
  target ← renewal_target d o;
  let cs := match target with
            | Some (cpk, c) => if bool_decide (cpk ∈ own.*1) then own else (own ++ [(cpk, c)])%list
            | None => own end in
  if existsb (fun kc => renewed_since d opk kc.1 approved) cs then Raise RENEWED_SINCE else Ret cs.

(** The shop's own subscription addresses of the order and its clients. *)
Definition disable_cups (opk : Z) (cpks : list Z) (d : DB) : DB :=
  d {{ cups ::= update_where (fun _ c =>
         bool_decide (SubscriptionCup.order c = Some opk)
         || match SubscriptionCup.vpn_client c with Some k => bool_decide (k ∈ cpks) | None => false end)
         (fun c => c {{ SubscriptionCup.status := SubscriptionCup.DISABLED }}) }}.

(** What is passed to the client management for one client. *)
Definition revoke_payload (d : DB) (cpk : Z) (c : VPNClient.vpn_client) : result lookup_result :=
  match VPNClient.inbound c ≫= fun k => inbounds d !! k with
  | Some i =>
      match Inbound.panel i with
      | Some ppk =>
          let uuid := default "" (VPNClient.uuid c) in
          let name := or_str (VPNClient.xui_email c) (VPNClient.username c) in
          Ret {| panel_id := Some ppk; lookup_inbound_id := Some (Inbound.inbound_id i);
                 node_id := or_str (VPNClient.xui_node_id c) (Inbound.xui_node_id i);
                 lookup_xui_node_id := "";
                 identifier := if match inbound_panel d i with Some p => Panel.is_pasarguard p | None => false end
                               then name else or_str uuid name;
                 vpn_client_id := Some cpk; lookup_email := ""; remark := ""; lookup_client := ∅;
                 client_stats := ∅; total_bytes := None; total_traffic_bytes := None;
                 expiry_time := None; expiry_at := None |}
      | None => Raise NO_VALID_PANEL
      end
  | None => Raise NO_VALID_PANEL
  end.

Definition admin_name (user : Z) : string := "web-admin:" +:+ pretty user.

(** Switch the clients off one after the other, remembering each; stop at the
    first that fails. *)
Fixpoint revoke_clients (opk user now : Z) (a : order_automation) (l : list (Z * VPNClient.vpn_client))
    : IO (order_automation * bool) :=
  match l with
  | [] => mret (a, true)
  | (cpk, c) :: rest =>
      if bool_decide (cpk ∈ revoked_client_ids a) then revoke_clients opk user now a rest
      else
        done ← tried (d ← get_db;
                      payload ← liftR (revoke_payload d cpk c);
                      set_vpn_client_enabled_by_admin (admin_name user) payload false now);
        match done with
        | Ret _ =>
            let a := a {{ revoked_client_ids ::= fun l => (l ++ [cpk])%list }} in
            _ ← put_db (set_automation opk a);
            revoke_clients opk user now a rest
        | Raise _ =>
            let a := a {{ review_status := R_CANCEL_FAILED; last_error := CANCEL_INCOMPLETE }} in
            _ ← put_db (set_automation opk a);
            mret (a, false)
        end
  end.

Definition withdrawn_order (reason : string) (o : order) : order :=
  o {{ status := CANCELLED; verification_status := V_REJECTED; is_paid := false;
       rejection_reason := strip reason }}.

(** [None]: cancelled just now. *)
Definition cancel_locked (opk user : Z) (reason : string) (now : Z) : IO (option bool) := atomic (
  o ← get_order opk;
  a ← get_automation opk;
  if negb (is_set (auto_approved_at a)) then raise NOT_AUTO_APPROVED
  else if bool_decide (review_status a = R_CANCELLED) then mret (Some true)
  else
    d ← get_db;
    cs ← liftR (cancellation_clients d opk o);
    let a := a {{ review_status := R_CANCELLING; review_note := strip reason; reviewed_by := Some user;
                  reviewed_at := Some now; last_error := "" }} in
    _ ← put_db (set_automation opk a);
    _ ← put_db (disable_cups opk cs.*1);
    '(a, all_off) ← revoke_clients opk user now a cs;
    if negb all_off then mret (Some false)
    else
      _ ← save_order opk (withdrawn_order reason o)
            [F_status; F_verification_status; F_is_paid; F_rejection_reason] now;
      _ ← put_db (set_automation opk (a {{ review_status := R_CANCELLED }}));
      mret None).

(** ** The customer's notice *)

Definition notice_settled (a : order_automation) : bool :=
  bool_decide (cancellation_notification_status a ∈ ["sent"; "no_target"]).

(** Active Telegram chats of the order's customer. *)
Definition notice_targets (d : DB) (o : order) : bool :=
  match customer o with
  | None => false
  | Some cust =>
      exists_where (fun _ u =>
        bool_decide (BotUser.customer u = Some cust) && BotUser.is_active u
        && negb (bool_decide (BotUser.chat_id u = ""))
        && match bot_configs d !! BotUser.bot_config u with
           | Some c => BotConfiguration.is_active c
                       && bool_decide (BotConfiguration.provider c = BotConfiguration.TELEGRAM)
                       && match store o, BotConfiguration.store c with
                          | Some s, Some s' => s =? s'
                          | _, None => true
                          | None, Some _ => true
                          end
           | None => false end) (bot_users d)
  end.

Definition claim_notice (opk now : Z) : IO (option order) := atomic (
  a ← get_automation opk;
  if negb (bool_decide (review_status a = R_CANCELLED)) || notice_settled a then mret None
  else if match cancellation_notification_attempted_at a with
          | Some t => now <? t + 5 * minute | None => false end then mret None
  else
    o ← get_order opk;
    d ← get_db;
    if negb (notice_targets d o) then
      _ ← put_db (set_automation opk (a {{ cancellation_notification_status := "no_target" }}));
      mret None
    else
      _ ← put_db (set_automation opk (a {{ cancellation_notification_attempted_at := Some now }}));
      mret (Some o)).

Definition send_cancellation_notice (opk now : Z) : IO bool :=
  claimed ← claim_notice opk now;
  match claimed with
  | None => mret false
  | Some o =>
      n ← attempt (askR (CallNotify opk "cancelled") (fun h => notify_order_event h opk o "cancelled"));
      let sent := negb (default 0 n =? 0) in
      _ ← put_db (fun d => d {{ automations ::= alter (fun a => a {{
            cancellation_notification_status := if sent then "sent" else "failed";
            cancellation_notified_at := if sent then Some now else None }}) opk }});
      mret sent
  end.

Definition cancel_auto_approved_order (opk user : Z) (reason : string) (now : Z) : IO bool :=
  if bool_decide (strip reason = "") then raise REASON_REQUIRED
  else
    outcome ← cancel_locked opk user reason now;
    match outcome with
    | Some b => mret b
    | None => _ ← send_cancellation_notice opk now; mret true
    end.
End Reconciliation.

(** ** The periodic job *)

Record summary := mk_summary { approved : Z; reminders : Z; notified : Z; failed : Z }.
#[global] Instance eta_summary : Eta summary := fun r => mk_summary (approved r) (reminders r)
  (notified r) (failed r).

Definition empty_summary : summary := mk_summary 0 0 0 0.

(** Receipts automatic approval still has to look at, oldest first. *)
Definition auto_approve_candidates (d : DB) : list Z :=
  (order_by (fun ko => [default 0 (payment_submitted_at ko.2); ko.1])
    (rows_where (fun k o =>
       pending_receipt d o
       && match store_of d o with
          | Some st => Store.order_auto_approve_enabled (Store.payment st) | None => false end
       && negb (is_set (automations d !! k ≫= auto_approved_at))) (orders d))).*1.

(** Cancellations whose notice has not gone out, in the order of their rows. *)
Definition open_notices (d : DB) : list Z :=
  (order_by (fun ka => [ka.1])
    (rows_where (fun _ a => bool_decide (review_status a = R_CANCELLED) && negb (notice_settled a))
       (automations d))).*1.

Section Job.
Context `{Env} `{Delivery}.

(** [try: summary = f(summary) except Exception: summary["failed"] += 1] *)
Definition counted {A} (m : IO A) (ok : A -> summary -> summary) (s : summary) : IO summary :=
  r ← tried m;
  mret match r with Ret x => ok x s | Raise _ => s {{ failed ::= Z.succ }} end.

Fixpoint fold_io {A} (step : A -> summary -> IO summary) (l : list A) (s : summary) : IO summary :=
  match l with
  | [] => mret s
  | x :: rest => s ← step x s; fold_io step rest s
  end.

Definition approve_step (now opk : Z) (s : summary) : IO summary :=
  counted (auto_approve_order opk now) (fun b s => if b : bool then s {{ approved ::= Z.succ }} else s) s.

Definition remind_step (now spk : Z) (s : summary) : IO summary :=
  counted (n ← send_receipt_reminders spk now;
           _ ← put_db (fun d => d {{ stores ::= alter (fun st =>
                 st {{ Store.payment -> Store.order_automation_last_run_at := Some now }}) spk }});
           mret n)
    (fun n s => s {{ reminders ::= Z.add n }}) s.

Definition notice_step (now opk : Z) (s : summary) : IO summary :=
  b ← send_cancellation_notice opk now;
  mret (if b : bool then s {{ notified ::= Z.succ }} else s).

Definition process_order_automation (now : Z) (limit : nat) : IO summary :=
  d ← get_db;
  s ← fold_io (approve_step now) (take limit (auto_approve_candidates d)) empty_summary;
  d ← get_db;
  s ← fold_io (remind_step now) (stores_by_name (fun _ st => Store.is_active st) d).*1 s;
  d ← get_db;
  fold_io (notice_step now) (take limit (open_notices d)) s.
End Job.
