(* ===== verification/AutomationSpec.v ===== *)
(** What the follow-up of receipts guarantees: an order is approved
    automatically only when its review window is over, at most once, and by
    the next run of the job at the latest; reminders keep their pace; a
    cancelled approval switches every client off or says so. *)

From S2P Require Import Prelude Models World Numbers Discounts Referrals ReferralRewards OrderStore Inbounds Scope OrderActions Provisioning ProvisioningSpec ModernSpec ApprovalFrame Submission ClientManagement ManagementSpec Automation.
Import Order OrderAutomation.

(** ** What approving one order leaves alone *)

(** Everybody else's orders, the automation rows, the shops, the bank's
    messages. *)
Definition bystanders (opk : Z) (w : World) :=
  (delete opk (orders (db w)), automations (db w), stores (db w), payment_sms (db w)).

#[global] Instance keeps_bystanders_undoable opk : Undoable (keeps (bystanders opk)).
Proof. by intros w w' Hw. Qed.

(** The delivery engines work on the order they are given. *)
Class DiscreetDelivery `{Delivery} : Prop := {
  execute_bystanders opk config actor now :
    respects (keeps (bystanders opk)) (execute_plan_delivery opk config actor now);
  fulfill_bystanders opk actor now :
    respects (keeps (bystanders opk)) (fulfill_order_with_recipe opk actor now);
  assignment_bystanders opk actor notify now :
    respects (keeps (bystanders opk)) (complete_inventory_assignment opk actor notify now);
}.

#[global] Instance no_delivery_discreet : @DiscreetDelivery no_delivery.
Proof. constructor; intros; apply respects_ret; apply _. Qed.

Lemma save_order_bystanders `{Env} opk o fs now :
  respects (keeps (bystanders opk)) (save_order opk o fs now).
Proof.
  intros w r w' [[-> _]|(p & row & _ & Hrow & Hv & _)]%save_order_any; [done|].
  pose proof (service_view_side _ _ Hv) as Hside. unfold side_tables in Hside. injection Hside as _ _ _ _ _ Hsms.
  apply service_view_inv in Hv as (Hos & _ & _ & _ & Hs & Ha & _). unfold keeps, bystanders.
  rewrite Hos, Hs, Ha, Hsms. cbn. by rewrite delete_insert_eq.
Qed.

Section Auto.
Context `{Env} `{DiscreetDelivery}.

Lemma approve_bystanders opk instance actor source notify now :
  respects (keeps (bystanders opk)) (approve_and_provision_order opk instance actor source notify now).
Proof.
  apply approve_frame; try apply _.
  - unfold back_office, side_tables, keeps, bystanders. intros w w' [=]. congruence.
  - intros. apply save_order_bystanders.
  - apply execute_bystanders.
  - apply fulfill_bystanders.
  - apply assignment_bystanders.
Qed.
#[local] Hint Resolve approve_bystanders : frames.

Lemma deliver_auto_bystanders opk now : respects (keeps (bystanders opk)) (deliver_auto_approval opk now).
Proof. unfold deliver_auto_approval, attempt, get_order. walk. done. Qed.

(** ** The claim *)

(** The order was approved automatically. *)
Definition auto_claimed (opk : Z) (w : World) : Prop :=
  is_set (automations (db w) !! opk ≫= auto_approved_at) = true.

(** Everything the claim asks for: an unreviewed receipt whose window is over. *)
Definition claimable (opk now : Z) (w : World) : Prop :=
  exists o st due, orders (db w) !! opk = Some o /\ store_of (db w) o = Some st /\
    pending_receipt (db w) o = true /\ suppressed o = false /\
    auto_approve_due st o = Some due /\ due <= now.

Lemma claim_inv opk now w r w' :
  claim_auto_approval opk now w = (r, w') ->
  (r = Ret true /\ claimable opk now w /\ ~ auto_claimed opk w /\
   exists a, w' = w {{ db ::= set_automation opk a }} /\ auto_approved_at a = Some now) \/
  (r <> Ret true /\ w' = w /\ (claimable opk now w -> auto_claimed opk w)).
Proof.
  unfold claim_auto_approval, get_order, get_or_create_automation. run_io.
  destruct (orders (db w) !! opk) as [o|] eqn:Ho; cbn.
  2: { intros [= <- <-]. right. split; [done|]. split; [by destruct w|].
       intros (? & ? & ? & ? & _). congruence. }
  destruct (store_of (db w) o) as [st|] eqn:Hs; cbn.
  2: { intros [= <- <-]. right. split; [done|]. split; [by destruct w|].
       intros (o' & ? & ? & Ho' & Hs' & _). congruence. }
  destruct (negb _ || negb _) eqn:Hen.
  { intros [= <- <-]. right. split; [done|]. split; [done|].
    intros (o' & st' & due & Ho' & Hs' & _ & _ & Hdue & _). exfalso.
    rewrite Ho in Ho'. injection Ho' as <-. rewrite Hs in Hs'. injection Hs' as <-.
    revert Hdue Hen. unfold auto_approve_due. destruct (Store.order_auto_approve_enabled _); [|done].
    by destruct (Store.order_auto_approve_enabled_at _). }
  destruct (pending_receipt (db w) o) eqn:Hp; cbn.
  2: { intros [= <- <-]. right. split; [done|]. split; [done|].
       intros (o' & ? & ? & Ho' & _ & Hp' & _). congruence. }
  destruct (_ || suppressed o) eqn:Hdue.
  { intros [= <- <-]. right. split; [done|]. split; [done|].
    intros (o' & st' & due & Ho' & Hs' & _ & Hsup & Hd & Hle). exfalso.
    rewrite Ho in Ho'. injection Ho' as <-. rewrite Hs in Hs'. injection Hs' as <-.
    rewrite Hd, Hsup, orb_false_r in Hdue. lia. }
  apply orb_false_iff in Hdue as [Hdue Hsup].
  destruct (auto_approve_due st o) as [due|] eqn:Hd; [|done].
  assert (Hc : claimable opk now w) by (exists o, st, due; repeat (split; [done|]); lia).
  unfold auto_claimed. destruct (automations (db w) !! opk) as [a|] eqn:Ha; cbn.
  - destruct (auto_approved_at a) eqn:Hat; cbn.
    + intros [= <- <-]. by right.
    + intros [= <- <-]. left. split; [done|]. split; [exact Hc|]. split; [done|]. eexists. split; [reflexivity|done].
  - intros [= <- <-]. left. split; [done|]. split; [exact Hc|]. split; [done|].
    exists (fresh_automation {{ auto_approved_at := Some now; review_status := R_PENDING }}).
    split; [|done]. unfold set_automation. cbn. by rewrite insert_insert_eq.
Qed.

(** What a claimed approval leaves of the rest of the shop. *)
Definition others_kept (opk : Z) (w w' : World) : Prop :=
  (forall k, k <> opk -> orders (db w') !! k = orders (db w) !! k) /\
  (forall k, k <> opk -> automations (db w') !! k = automations (db w) !! k) /\
  stores (db w') = stores (db w).

(** When the order was approved automatically. *)
Definition approved_at (opk now : Z) (w : World) : Prop :=
  automations (db w) !! opk ≫= auto_approved_at = Some now.

Lemma record_last_error_inv opk e w r w' :
  record_last_error opk e w = (r, w') ->
  r = Ret tt /\ orders (db w') = orders (db w) /\ stores (db w') = stores (db w) /\
  (forall k, k <> opk -> automations (db w') !! k = automations (db w) !! k) /\
  automations (db w') !! opk ≫= auto_approved_at = automations (db w) !! opk ≫= auto_approved_at.
Proof.
  unfold record_last_error. run_io. intros [= <- <-]. cbn.
  split; [done|]. split; [done|]. split; [done|]. split.
  - intros k Hk. by apply lookup_alter_ne.
  - rewrite lookup_alter_eq. by destruct (automations (db w) !! opk).
Qed.

Lemma auto_approve_inv opk now w r w' :
  auto_approve_order opk now w = (r, w') ->
  (r = Ret true /\ claimable opk now w /\ ~ auto_claimed opk w /\ approved_at opk now w' /\
   others_kept opk w w') \/
  (r <> Ret true /\ w' = w /\ (claimable opk now w -> auto_claimed opk w)).
Proof.
  unfold auto_approve_order, tried. run_io.
  destruct (claim_auto_approval opk now w) as [x w1] eqn:E.
  apply claim_inv in E as [(-> & Hc & Hn & a & -> & Ha)|(Hx & -> & Hc)]; cbn [negb].
  2: { destruct x as [[|]|e]; [done| |]; intros [= <- <-]; right; by repeat split. }
  set (w1 := w {{ db ::= set_automation opk a }}).
  destruct (deliver_auto_approval opk now w1) as [y w2] eqn:E.
  apply deliver_auto_bystanders in E. unfold keeps, bystanders in E. injection E as Eo Ea Es _.
  assert (H2 : approved_at opk now w2 /\ others_kept opk w w2).
  { unfold approved_at, others_kept. rewrite Ea, Es. cbn. rewrite lookup_insert_eq. split; [exact Ha|].
    split; [|split; [|done]].
    - intros k Hk. rewrite <- (lookup_delete_ne _ opk k), Eo, lookup_delete_ne by done. done.
    - intros k Hk. by apply lookup_insert_ne. }
  clearbody w1. clear Eo Ea Es. destruct H2 as [Hat Hok].
  assert (Hend : forall e x w3, record_last_error opk e w2 = (x, w3) ->
            x = Ret tt /\ approved_at opk now w3 /\ others_kept opk w w3).
  { intros e x w3 (-> & Ho3 & Hs3 & Ha3 & Hat3)%record_last_error_inv. split; [done|].
    destruct Hok as (Hok & Hau & Hst). unfold approved_at, others_kept. rewrite Hat3, Ho3, Hs3.
    split; [done|]. split; [done|]. split; [|done]. intros k Hk. rewrite Ha3; auto. }
  destruct y as [res|e].
  - destruct (ok res); [intros [= <- <-]; left; tauto|].
    destruct (record_last_error _ _ w2) as [z w3] eqn:E3. apply Hend in E3 as (-> & ? & ?).
    intros [= <- <-]. left. tauto.
  - destruct (record_last_error _ _ w2) as [z w3] eqn:E3. apply Hend in E3 as (-> & ? & ?).
    intros [= <- <-]. left. tauto.
Qed.

(** An order is approved automatically only when its shop does so, its
    receipt still waits for review, nothing suppresses it, and five minutes
    have passed both since the receipt and since the feature was switched on;
    the claim is on record afterwards even if delivery failed.  Otherwise the
    attempt changes nothing and calls nobody. *)
Theorem auto_approval_only_when_due opk now w r w' :
  auto_approve_order opk now w = (r, w') ->
  match r with
  | Ret true => exists o st sub en,
      orders (db w) !! opk = Some o /\ store_of (db w) o = Some st /\ pending_receipt (db w) o = true /\
      Store.order_auto_approve_enabled (Store.payment st) = true /\
      payment_submitted_at o = Some sub /\ Store.order_auto_approve_enabled_at (Store.payment st) = Some en /\
      sub + 5 * minute <= now /\ en + 5 * minute <= now /\ suppressed o = false /\
      ~ auto_claimed opk w /\ approved_at opk now w'
  | _ => w' = w
  end.
Proof.
  intros [(-> & (o & st & due & Ho & Hs & Hp & Hsup & Hd & Hle) & Hn & Ha & _)|(Hr & -> & _)]%auto_approve_inv.
  2: { by destruct r as [[]|]. }
  revert Hd. unfold auto_approve_due, AUTO_APPROVE_DELAY.
  destruct (Store.order_auto_approve_enabled _) eqn:He; [|done].
  destruct (Store.order_auto_approve_enabled_at _) as [en|] eqn:Hen; [|done].
  destruct (payment_submitted_at o) as [sub|] eqn:Hsub; [|done]. intros [= <-].
  exists o, st, sub, en. repeat (split; [first [done|lia]|]). done.
Qed.

(** ** Claims are never taken back *)

(** When each order was approved automatically. *)
Definition same_claims (A : Z -> option Z) (w : World) : Prop :=
  forall k, automations (db w) !! k ≫= auto_approved_at = A k.

Definition keeps_claims {B} (m : IO B) : Prop :=
  forall A, triple (same_claims A) m (fun _ => same_claims A) (same_claims A).

Definition automations_of (w : World) := automations (db w).

#[global] Instance keeps_automations_undoable : Undoable (keeps automations_of).
Proof. by intros w w' Hw. Qed.

Lemma keeps_same_claims {B} (m : IO B) : respects (keeps automations_of) m -> keeps_claims m.
Proof.
  intros Hm A. apply (triple_frame (keeps automations_of)); [exact Hm|].
  unfold keeps, automations_of, same_claims. intros w w' Hw ->. exact Hw.
Qed.

Lemma same_claims_set A opk a w :
  auto_approved_at a = A opk -> same_claims A w -> same_claims A (w {{ db ::= set_automation opk a }}).
Proof.
  intros Ha Hw k. unfold set_automation. cbn. destruct (decide (opk = k)) as [->|Hk].
  - rewrite lookup_insert_eq. exact Ha.
  - rewrite lookup_insert_ne by done. apply Hw.
Qed.

Lemma put_automation_claims {B} A opk a (k : unit -> IO B) Q :
  auto_approved_at a = A opk -> triple (same_claims A) (k tt) Q (same_claims A) ->
  triple (same_claims A) (put_db (set_automation opk a) ≫= k) Q (same_claims A).
Proof.
  intros Ha Hk. eapply triple_bind; [apply (triple_put_db _ _ (same_claims A))|by intros []].
  intros w. by apply same_claims_set.
Qed.

Lemma get_automation_claims {B} A opk (k : order_automation -> IO B) Q :
  (forall a, auto_approved_at a = A opk -> triple (same_claims A) (k a) Q (same_claims A)) ->
  triple (same_claims A) (get_automation opk ≫= k) Q (same_claims A).
Proof.
  intros Hk. eapply triple_bind; [by apply triple_get_or_raise|]. intros a. cbv beta.
  intros w r w' [Ha Hw] E. refine (Hk a _ w r w' Hw E). rewrite <- Hw, Ha. done.
Qed.

Lemma get_or_create_claims {B} A opk (k : order_automation -> IO B) Q :
  (forall a, auto_approved_at a = A opk -> triple (same_claims A) (k a) Q (same_claims A)) ->
  triple (same_claims A) (get_or_create_automation opk ≫= k) Q (same_claims A).
Proof.
  intros Hk w r w' Hw. unfold get_or_create_automation. run_io. pose proof (Hw opk) as Ho.
  destruct (automations (db w) !! opk) as [a|] eqn:Ha.
  - intros E. exact (Hk a Ho w r w' Hw E).
  - intros E. refine (Hk fresh_automation Ho _ r w' _ E). by apply same_claims_set.
Qed.

Lemma bind_claims {B C} A (m : IO B) (k : B -> IO C) Q :
  keeps_claims m -> (forall x, triple (same_claims A) (k x) Q (same_claims A)) ->
  triple (same_claims A) (m ≫= k) Q (same_claims A).
Proof. intros Hm Hk. eapply triple_bind; [apply Hm|exact Hk]. Qed.

Lemma atomic_claims {B} A (m : IO B) Q :
  triple (same_claims A) m Q (same_claims A) -> triple (same_claims A) (atomic m) Q (same_claims A).
Proof.
  intros Hm. apply triple_atomic; [by apply triple_any in Hm|]. intros w w' Hw Hd k. rewrite Hd. apply Hw.
Qed.

Lemma ret_claims {B} A (x : B) : triple (same_claims A) (mret x) (fun _ => same_claims A) (same_claims A).
Proof. by apply triple_ret. Qed.

Lemma raise_claims {B} A e (Q : B -> World -> Prop) : triple (same_claims A) (raise e) Q (same_claims A).
Proof. by apply triple_raise. Qed.

#[local] Hint Extern 1 (keeps automations_of _ _) => reflexivity : frames.

Lemma save_order_automations opk o fs now : respects (keeps automations_of) (save_order opk o fs now).
Proof.
  intros w r w' Hrun. apply save_order_frame in Hrun. revert Hrun.
  unfold keeps, all_but_orders, automations_of. intros [=]. congruence.
Qed.
#[local] Hint Resolve save_order_automations : frames.

Lemma reward_automations opk now : respects (keeps automations_of) (create_referral_reward_for_order opk now).
Proof.
  unfold create_referral_reward_for_order, settle_referral, ensure_referral, mark_purchased, get_order. walk.
Qed.
#[local] Hint Resolve reward_automations : frames.

Lemma confirm_claims opk user note now : keeps_claims (confirm_auto_payment opk user note now).
Proof.
  intros A. unfold confirm_auto_payment. apply atomic_claims.
  apply bind_claims; [apply keeps_same_claims; unfold get_order; walk|]. intros o.
  apply get_automation_claims. intros a Ha.
  destruct (_ || _); [apply raise_claims|]. destruct (bool_decide _); [apply raise_claims|].
  destruct (bool_decide _); [apply ret_claims|]. apply put_automation_claims; [exact Ha|].
  apply keeps_same_claims. walk.
Qed.

Lemma collect_due_claims A now l : forall found,
  triple (same_claims A) (collect_due now found l)
    (fun due w => Forall (fun x => auto_approved_at x.2 = A x.1.1) due /\ same_claims A w) (same_claims A).
Proof.
  induction l as [|[opk o] l IH]; intros found; cbn [collect_due].
  - apply triple_ret. by repeat constructor.
  - destruct (suppressed o); [apply IH|]. apply get_or_create_claims. intros a Ha.
    destruct (_ && _); [|apply IH]. eapply triple_bind; [destruct (10 <=? S found)%nat; [|apply IH]|].
    + apply (triple_ret _ _ (fun due w => Forall (fun x : Z * order * order_automation =>
        auto_approved_at x.2 = A x.1.1) due /\ same_claims A w)). by repeat constructor.
    + intros more. cbv beta. apply triple_ret. intros w [Hm Hw]. split; [by constructor|done].
Qed.

Lemma save_reminded_claims A now l :
  Forall (fun x : Z * order * order_automation => auto_approved_at x.2 = A x.1.1) l ->
  triple (same_claims A) (for_each (save_reminded now) l) (fun _ => same_claims A) (same_claims A).
Proof.
  induction 1 as [|[[opk o] a] l Ha Hl IH]; cbn [for_each save_reminded]; [apply ret_claims|].
  by apply put_automation_claims.
Qed.

Lemma send_to_configs_respects R `{!PreOrder R} text l :
  (forall w c, R w (w {{ calls ::= cons c }})) -> respects R (send_to_configs text l).
Proof. intros HR. induction l as [|c l IH]; cbn; walk; apply HR. Qed.

Lemma reminders_claims spk now : keeps_claims (send_receipt_reminders spk now).
Proof.
  intros A. unfold send_receipt_reminders. apply atomic_claims.
  apply bind_claims; [apply keeps_same_claims; unfold get_store; walk|]. intros st.
  destruct (_ || _); [apply ret_claims|].
  apply bind_claims; [apply keeps_same_claims; walk|]. intros d.
  eapply triple_bind; [apply collect_due_claims|]. intros due. cbv beta. apply triple_pure. intros Hdue.
  destruct (bool_decide _); [apply ret_claims|].
  apply bind_claims; [apply keeps_same_claims, send_to_configs_respects; [apply _|done]|]. intros sent.
  destruct (sent =? 0); [apply ret_claims|].
  eapply triple_bind; [by apply save_reminded_claims|]. intros ?. apply ret_claims.
Qed.

Lemma tried_claims {B} (m : IO B) : keeps_claims m -> keeps_claims (tried m).
Proof.
  intros Hm A w r w' Hw. unfold tried. destruct (m w) as [x w1] eqn:E. intros [= <- <-].
  specialize (Hm A _ _ _ Hw E). by destruct x.
Qed.

(** Everything [set_vpn_client_enabled_by_admin] may change. *)
Definition but_clients_and_logs (w : World) :=
  (orders (db w), automations (db w), stores (db w), inbounds (db w), panels (db w), cups (db w)).

#[global] Instance keeps_but_clients_undoable : Undoable (keeps but_clients_and_logs).
Proof. by intros w w' Hw. Qed.

#[local] Hint Extern 1 (keeps but_clients_and_logs _ _) => reflexivity : frames.

Lemma set_enabled_frame admin l enabled now :
  respects (keeps but_clients_and_logs) (set_vpn_client_enabled_by_admin admin l enabled now).
Proof.
  unfold set_vpn_client_enabled_by_admin, create_action_log, audited_call, complete_action_log,
    sync_local_enabled_state, get_client.
  repeat first [progress walk | apply tried_respects; [apply _|]].
Qed.

Lemma set_enabled_automations admin l enabled now :
  respects (keeps automations_of) (set_vpn_client_enabled_by_admin admin l enabled now).
Proof. intros w r w' E%set_enabled_frame. by injection E. Qed.
#[local] Hint Resolve set_enabled_automations : frames.

Lemma revoke_claims A opk user now l : forall a,
  auto_approved_at a = A opk ->
  triple (same_claims A) (revoke_clients opk user now a l)
    (fun x w => auto_approved_at x.1 = A opk /\ same_claims A w) (same_claims A).
Proof.
  induction l as [|[cpk c] l IH]; intros a Ha; cbn [revoke_clients].
  - by apply triple_ret.
  - destruct (bool_decide _); [by apply IH|].
    apply bind_claims; [apply tried_claims, keeps_same_claims; walk|]. intros [res|e].
    + apply put_automation_claims; [exact Ha|]. by apply IH.
    + apply put_automation_claims; [exact Ha|]. by apply triple_ret.
Qed.

Lemma cancel_locked_claims opk user reason now : keeps_claims (cancel_locked opk user reason now).
Proof.
  intros A. unfold cancel_locked. apply atomic_claims.
  apply bind_claims; [apply keeps_same_claims; unfold get_order; walk|]. intros o.
  apply get_automation_claims. intros a Ha.
  destruct (negb _); [apply raise_claims|]. destruct (bool_decide _); [apply ret_claims|].
  apply bind_claims; [apply keeps_same_claims; walk|]. intros d.
  apply bind_claims; [apply keeps_same_claims; walk|]. intros cs.
  apply put_automation_claims; [exact Ha|].
  apply bind_claims; [apply keeps_same_claims; walk|]. intros _.
  eapply triple_bind; [by apply revoke_claims|]. intros [a' off]. cbv beta. cbn [fst]. apply triple_pure. intros Ha'.
  destruct (negb off); [apply ret_claims|].
  apply bind_claims; [apply keeps_same_claims; walk|]. intros o'.
  apply put_automation_claims; [exact Ha'|]. apply ret_claims.
Qed.

Lemma alter_claims A opk f w :
  (forall a, auto_approved_at (f a) = auto_approved_at a) ->
  same_claims A w -> same_claims A (w {{ db -> automations ::= alter f opk }}).
Proof.
  intros Hf Hw k. rewrite <- Hw. cbn. destruct (decide (opk = k)) as [->|Hk].
  - rewrite lookup_alter_eq. destruct (automations (db w) !! k); cbn; auto.
  - by rewrite lookup_alter_ne.
Qed.

Lemma notice_claims opk now : keeps_claims (send_cancellation_notice opk now).
Proof.
  intros A. unfold send_cancellation_notice, claim_notice.
  eapply triple_bind; [apply atomic_claims|].
  - apply get_automation_claims. intros a Ha. destruct (_ || _); [apply ret_claims|].
    destruct (match cancellation_notification_attempted_at a with Some _ => _ | None => _ end); [apply ret_claims|].
    apply bind_claims; [apply keeps_same_claims; unfold get_order; walk|]. intros o.
    apply bind_claims; [apply keeps_same_claims; walk|]. intros d.
    destruct (negb _); apply put_automation_claims; auto using ret_claims.
  - intros [o|]; [|apply ret_claims].
    apply bind_claims; [apply keeps_same_claims; unfold attempt; walk|]. intros n.
    eapply triple_bind; [apply (triple_put_db _ _ (same_claims A))|intros ?; apply ret_claims].
    intros w. by apply alter_claims.
Qed.

Lemma cancel_claims opk user reason now : keeps_claims (cancel_auto_approved_order opk user reason now).
Proof.
  intros A. unfold cancel_auto_approved_order. destruct (bool_decide _); [apply raise_claims|].
  apply bind_claims; [apply cancel_locked_claims|]. intros [b|]; [apply ret_claims|].
  apply bind_claims; [apply notice_claims|]. intros ?. apply ret_claims.
Qed.

Lemma approve_claims opk instance actor source notify now :
  keeps_claims (approve_and_provision_order opk instance actor source notify now).
Proof.
  apply keeps_same_claims. intros w r w' E%approve_bystanders. unfold keeps, bystanders in E.
  injection E as _ E _ _. exact E.
Qed.

(** ** Claims are kept *)

Lemma keeps_claims_approved {B} (m : IO B) w r w' opk t :
  keeps_claims m -> m w = (r, w') -> approved_at opk t w -> approved_at opk t w'.
Proof.
  intros Hm E Ha. specialize (Hm (fun k => automations (db w) !! k ≫= auto_approved_at) w r w' (fun _ => eq_refl) E).
  unfold approved_at in *. rewrite <- Ha. destruct r; apply Hm.
Qed.

Lemma auto_approve_keeps k opk now t w r w' :
  auto_approve_order k now w = (r, w') -> approved_at opk t w -> approved_at opk t w'.
Proof.
  intros [(_ & _ & Hn & _ & _ & Ha & _)|(_ & -> & _)]%auto_approve_inv Hat; [|done].
  unfold approved_at in *. destruct (decide (opk = k)) as [->|Hk].
  - exfalso. apply Hn. unfold auto_claimed. by rewrite Hat.
  - by rewrite Ha.
Qed.

(** ** The job gets everything done *)

(** Due and still unclaimed, or claimed at this run. *)
Definition on_its_way (opk now : Z) (w : World) : Prop :=
  (claimable opk now w /\ ~ auto_claimed opk w) \/ approved_at opk now w.

Lemma claimable_ext opk now w w' :
  orders (db w') !! opk = orders (db w) !! opk -> stores (db w') = stores (db w) ->
  claimable opk now w -> claimable opk now w'.
Proof.
  intros Ho Hs (o & st & due & Ho' & Hst & Hp & Hrest). exists o, st, due. rewrite Ho.
  unfold pending_receipt, store_of in *. by rewrite Hs.
Qed.

Lemma auto_approve_on_way k opk now w x w' :
  auto_approve_order k now w = (x, w') -> on_its_way opk now w ->
  on_its_way opk now w' /\ (k = opk -> approved_at opk now w').
Proof.
  intros E Hw.
  assert (Hkeep : approved_at opk now w -> approved_at opk now w') by (by eapply auto_approve_keeps).
  destruct Hw as [[Hc Hn]|Hat]; [|split; [right|]; auto].
  apply auto_approve_inv in E as [(_ & _ & _ & Ha & Ho & Hau & Hs)|(_ & -> & Hcl)].
  - destruct (decide (k = opk)) as [->|Hne]; [split; [by right|done]|]. split; [|done]. left.
    split; [apply (claimable_ext _ _ w); auto|]. unfold auto_claimed. by rewrite Hau.
  - split; [by left|]. intros ->. exfalso. auto.
Qed.

Lemma approve_step_run k now s w r w' :
  approve_step now k s w = (r, w') -> is_ret r = true /\ exists x, auto_approve_order k now w = (x, w').
Proof.
  unfold approve_step, counted, tried. run_io. destruct (auto_approve_order k now w) as [x w1].
  intros [= <- <-]. by eauto.
Qed.

Lemma approve_all_ret opk now l : forall s w r w',
  fold_io (approve_step now) l s w = (r, w') ->
  is_ret r = true /\ (forall t, approved_at opk t w -> approved_at opk t w') /\
  (on_its_way opk now w -> opk ∈ l -> approved_at opk now w').
Proof.
  induction l as [|k l IH]; intros s w r w'; cbn [fold_io].
  - intros [= <- <-]. split; [done|]. split; [done|]. by intros _ ?%not_elem_of_nil.
  - unfold mbind, M_bind. destruct (approve_step now k s w) as [[s1|e] w1] eqn:E;
      apply approve_step_run in E as (Hr1 & x & E); [|done].
    intros E2. destruct (IH _ _ _ _ E2) as (Hr & Hk & Hin). split; [done|]. split.
    + intros t Ht. apply Hk. by eapply auto_approve_keeps.
    + intros Hw. destruct (auto_approve_on_way _ opk _ _ _ _ E Hw) as [Hw1 Hnow].
      intros [->|Hl]%elem_of_cons; [by apply Hk, Hnow|by apply Hin].
Qed.

Lemma fold_claims {B} (step : B -> summary -> IO summary) l :
  (forall x s, keeps_claims (step x s)) -> forall s, keeps_claims (fold_io step l s).
Proof.
  intros Hs. induction l as [|x l IH]; intros s A; cbn [fold_io]; [apply ret_claims|].
  apply bind_claims; [apply Hs|]. intros s'. apply IH.
Qed.

Lemma remind_step_claims now spk s : keeps_claims (remind_step now spk s).
Proof.
  intros A. unfold remind_step, counted. apply bind_claims; [|intros ?; apply ret_claims].
  apply tried_claims. intros A'. apply bind_claims; [apply reminders_claims|]. intros n.
  apply keeps_same_claims. walk.
Qed.

Lemma notice_step_claims now opk s : keeps_claims (notice_step now opk s).
Proof.
  intros A. unfold notice_step. apply bind_claims; [apply notice_claims|]. intros b. apply ret_claims.
Qed.

(** What comes after the approvals of a run takes no claim back. *)
Definition after_approvals (now : Z) (limit : nat) (s : summary) : IO summary :=
  d ← get_db;
  s ← fold_io (remind_step now) (stores_by_name (fun _ st => Store.is_active st) d).*1 s;
  d ← get_db;
  fold_io (notice_step now) (take limit (open_notices d)) s.

Lemma after_approvals_claims now limit s : keeps_claims (after_approvals now limit s).
Proof.
  intros A. unfold after_approvals. apply bind_claims; [apply keeps_same_claims; walk|]. intros d.
  apply bind_claims; [apply fold_claims; intros; apply remind_step_claims|]. intros s'.
  apply bind_claims; [apply keeps_same_claims; walk|]. intros d'. apply fold_claims.
  intros; apply notice_step_claims.
Qed.

Lemma job_run opk now limit w r w' :
  process_order_automation now limit w = (r, w') ->
  exists w1, (forall t, approved_at opk t w -> approved_at opk t w1) /\
    (on_its_way opk now w -> opk ∈ take limit (auto_approve_candidates (db w)) -> approved_at opk now w1) /\
    forall t, approved_at opk t w1 -> approved_at opk t w'.
Proof.
  unfold process_order_automation. unfold mbind at 1, M_bind at 1, get_db at 1. unfold mbind at 1, M_bind at 1.
  destruct (fold_io (approve_step now) _ _ w) as [x w1] eqn:E. apply (approve_all_ret opk) in E as (Hr & Hk & Hin).
  destruct x as [s|]; [|done]. intros E. exists w1. split; [exact Hk|]. split; [exact Hin|]. intros t.
  exact (keeps_claims_approved (after_approvals now limit s) w1 r w' opk t (after_approvals_claims now limit s) E).
Qed.

(** ** At most once *)

(** Anything that follows a receipt up, by whomever and about any order. *)
Inductive follow_up : World -> World -> Prop :=
| follow_auto opk now w r w' : auto_approve_order opk now w = (r, w') -> follow_up w w'
| follow_approve opk instance actor source notify now w r w' :
    approve_and_provision_order opk instance actor source notify now w = (r, w') -> follow_up w w'
| follow_remind spk now w r w' : send_receipt_reminders spk now w = (r, w') -> follow_up w w'
| follow_confirm opk user note now w r w' : confirm_auto_payment opk user note now w = (r, w') -> follow_up w w'
| follow_cancel opk user reason now w r w' :
    cancel_auto_approved_order opk user reason now w = (r, w') -> follow_up w w'
| follow_notice opk now w r w' : send_cancellation_notice opk now w = (r, w') -> follow_up w w'
| follow_job now limit w r w' : process_order_automation now limit w = (r, w') -> follow_up w w'.

Lemma follow_up_keeps opk t w w' : follow_up w w' -> approved_at opk t w -> approved_at opk t w'.
Proof.
  intros [k now ? ? ? E|? ? ? ? ? ? ? ? ? E|? ? ? ? ? E|? ? ? ? ? ? ? E|? ? ? ? ? ? ? E|? ? ? ? ? E|now limit ? ? ? E].
  - exact (auto_approve_keeps _ _ _ _ _ _ _ E).
  - exact (keeps_claims_approved _ _ _ _ _ _ (approve_claims _ _ _ _ _ _) E).
  - exact (keeps_claims_approved _ _ _ _ _ _ (reminders_claims _ _) E).
  - exact (keeps_claims_approved _ _ _ _ _ _ (confirm_claims _ _ _ _) E).
  - exact (keeps_claims_approved _ _ _ _ _ _ (cancel_claims _ _ _ _) E).
  - exact (keeps_claims_approved _ _ _ _ _ _ (notice_claims _ _) E).
  - destruct (job_run opk _ _ _ _ _ E) as (w1 & Hk1 & _ & Hk2). auto.
Qed.

(** C17: An order is approved automatically at most once: after a timed
    approval, whatever following up comes next, about this order or others -
    timed and manual approvals, reminders, confirmations, cancellations and
    their notices, whole runs of the job - a further automatic attempt does
    nothing at all, even when the first one's delivery failed or crashed
    half-way. *)
Theorem auto_approval_at_most_once opk now w w1 w2 now' r w3 :
  auto_approve_order opk now w = (Ret true, w1) -> rtc follow_up w1 w2 ->
  auto_approve_order opk now' w2 = (r, w3) -> r <> Ret true /\ w3 = w2.
Proof.
  intros [(_ & _ & _ & Ha & _)|(? & _)]%auto_approve_inv Hsteps; [|done].
  assert (Ha2 : approved_at opk now w2).
  { induction Hsteps as [|? ? ? Hstep _ IH]; [done|]. by apply IH, (follow_up_keeps _ _ _ _ Hstep). }
  intros [(_ & _ & Hn & _)|(Hr & -> & _)]%auto_approve_inv; [|done].
  exfalso. apply Hn. unfold auto_claimed, approved_at in *. by rewrite Ha2.
Qed.

(** C18: One run of the job is enough: every receipt it looks at - the oldest
    [limit] candidates - that may be approved (its shop has automation on and is
    active, no administrator has suppressed its automatic approval) and whose
    review window is over is claimed by that very run, whatever panels, messages
    and the other orders of the run do. *)
Theorem job_claims_every_due_receipt now limit w r w' opk :
  process_order_automation now limit w = (r, w') ->
  opk ∈ take limit (auto_approve_candidates (db w)) -> claimable opk now w ->
  approved_at opk now w'.
Proof.
  intros Hrun Hin Hc.
  assert (Hw : on_its_way opk now w).
  { left. split; [done|]. unfold auto_claimed. apply elem_of_take in Hin as (n & Hn & _).
    apply list_elem_of_lookup_2, list_elem_of_fmap in Hn as ([k o] & -> & Hko).
    apply elem_of_order_by, elem_of_rows_where in Hko as [_ Hp].
    apply andb_true_iff in Hp as [_ Hp]. cbn. by destruct (is_set _). }
  destruct (job_run opk _ _ _ _ _ Hrun) as (w1 & _ & Hk1 & Hk2). auto.
Qed.
End Auto.

(** ** The pace of reminders *)

(** An order's automation row along its reminders: how many there were, when
    the last one went out. *)
Inductive reminder_history (submitted : Z) : order_automation -> nat -> Z -> Prop :=
| no_reminder a : reminder_stage a = 0%nat -> last_reminded_at a = None -> reminder_history submitted a 0 submitted
| one_more a n last now :
    reminder_history submitted a n last -> last <= now -> reminder_due submitted a now = true ->
    reminder_history submitted (reminded submitted now a) (S n) now
| row_changed a a' n last :
    reminder_history submitted a n last -> reminder_stage a' = reminder_stage a ->
    last_reminded_at a' = last_reminded_at a -> reminder_history submitted a' n last.

(** Five, fifteen and thirty minutes: the stage a reminder leaves. *)
Lemma stages_passed_spec submitted now :
  let e := now - submitted in
  (e < 5 * minute /\ stages_passed submitted now = 0%nat) \/
  (5 * minute <= e < 15 * minute /\ stages_passed submitted now = 1%nat) \/
  (15 * minute <= e < 30 * minute /\ stages_passed submitted now = 2%nat) \/
  (30 * minute <= e /\ stages_passed submitted now = 3%nat).
Proof.
  unfold stages_passed, REMINDER_MINUTES, minute. cbv zeta.
  rewrite !filter_cons, filter_nil. repeat case_decide; cbn; lia.
Qed.

Lemma reminder_due_stage submitted a now :
  reminder_due submitted a now = true ->
  (reminder_stage a < stages_passed submitted now)%nat \/
  (3 <= reminder_stage a)%nat /\ match last_reminded_at a with None => True | Some t => t + 60 * minute <= now end.
Proof.
  unfold reminder_due, REMINDER_MINUTES. pose proof (stages_passed_spec submitted now) as Hs. cbv zeta in Hs.
  generalize dependent (stages_passed submitted now). intros k Hs.
  destruct (reminder_stage a) as [|[|[|n]]]; cbn -[minute Z.mul Z.leb]; intros Hd; [left; unfold minute in *; lia..|].
  right. split; [lia|]. destruct (last_reminded_at a); [by apply Z.leb_le|done].
Qed.

(** Up to the third stage each reminder passes a stage; after it an hour goes
    by before each. *)
Lemma reminder_history_inv submitted a n last :
  reminder_history submitted a n last ->
  (reminder_stage a <= 3)%nat /\ submitted <= last /\
  (last_reminded_at a = if decide (n = 0%nat) then None else Some last) /\
  ((reminder_stage a < 3 /\ n <= reminder_stage a)%nat \/
   reminder_stage a = 3%nat /\ 60 * minute * (Z.of_nat n - 3) <= last - submitted - 30 * minute /\ (0 < n)%nat).
Proof.
  induction 1 as [a Hs Hl|a n last now Hh IH Hle Hd|a a' n last Hh IH Hs Hl].
  - rewrite Hs, Hl. split; [lia|]. split; [lia|]. split; [done|]. left. lia.
  - destruct IH as (Hmax & Hsub & Hlast & IH).
    pose proof (stages_passed_spec submitted now) as Hp. cbv zeta in Hp.
    apply reminder_due_stage in Hd. rewrite Hlast in Hd. 
    change (reminder_stage (reminded submitted now a)) with (Nat.max (reminder_stage a) (stages_passed submitted now)).
    change (last_reminded_at (reminded submitted now a)) with (Some now).
    split; [lia|]. split; [lia|]. split; [done|].
    destruct IH as [[Hlt Hn]|(Heq & Hb & Hpos)].
    + destruct (decide (stages_passed submitted now = 3)%nat) as [E|E]; [right|left]; [|lia].
      split; [lia|]. split; [unfold minute in *; lia|lia].
    + right. split; [lia|]. rewrite decide_False in Hd by lia. destruct Hd as [?|[_ Hd]]; [lia|].
      split; [unfold minute in *; lia|lia].
  - by rewrite Hs, Hl.
Qed.

(** Administrators are not flooded: however often the job runs, by the
    time an order has waited for [t] it has appeared in at most three reminders
    plus one for every full hour after its first half hour; never two within
    the same stage, never two within an hour once the stages are over. *)
Theorem reminders_bounded submitted a n last :
  reminder_history submitted a n last ->
  Z.of_nat n <= 3 + Z.max 0 ((last - submitted - 30 * minute) / (60 * minute)).
Proof.
  intros (_ & _ & _ & [[Hlt Hn]|(_ & Hb & _)])%reminder_history_inv; [lia|].
  assert (Hm : 0 < 60 * minute) by (unfold minute; lia).
  apply (Z.div_le_lower_bound _ _ (Z.of_nat n - 3)) in Hb; [lia|done].
Qed.

Section Pace.
Context `{Env}.

(** The automation row of an order, fresh until it is needed. *)
Definition row_of (k : Z) (w : World) : order_automation := default fresh_automation (automations (db w) !! k).

Context (k : Z) (o : order) (a0 : order_automation) (now : Z).

(** The order's row as the job found it, or after being reminded. *)
Definition as_found (w : World) : Prop := row_of k w = a0.
Definition paced (w : World) : Prop :=
  row_of k w = a0 \/
  row_of k w = reminded (default 0 (payment_submitted_at o)) now a0 /\
  reminder_due (default 0 (payment_submitted_at o)) a0 now = true.

(** What the job collects about this order is its row, and it is due. *)
Definition collected_right (x : Z * order * order_automation) : Prop :=
  x.1.1 = k -> x.1.2 = o /\ x.2 = a0 /\ reminder_due (default 0 (payment_submitted_at o)) a0 now = true.

Lemma row_of_set opk a w :
  row_of k (w {{ db ::= set_automation opk a }}) = if decide (opk = k) then a else row_of k w.
Proof.
  unfold row_of, set_automation. cbn. destruct (decide (opk = k)) as [->|Hne].
  - by rewrite lookup_insert_eq.
  - by rewrite lookup_insert_ne.
Qed.

Lemma get_or_create_row opk :
  triple as_found (get_or_create_automation opk)
    (fun a w => as_found w /\ (opk = k -> a = a0)) as_found.
Proof.
  intros w r w' Hw. unfold get_or_create_automation. run_io.
  destruct (automations (db w) !! opk) as [a|] eqn:Ha; intros [= <- <-].
  - split; [done|]. intros ->. unfold as_found, row_of in Hw. by rewrite Ha in Hw.
  - unfold as_found in *. change (row_of k (w {{ db ::= set_automation opk fresh_automation }}) = a0 /\ (opk = k -> fresh_automation = a0)).
    rewrite row_of_set. destruct (decide (opk = k)) as [->|Hne]; [|done].
    unfold row_of in Hw. rewrite Ha in Hw. cbn in Hw. by subst.
Qed.

Lemma collect_due_row l : forall found,
  Forall (fun x : Z * order => x.1 = k -> x.2 = o) l ->
  triple as_found (collect_due now found l) (fun due w => as_found w /\ Forall collected_right due) as_found.
Proof.
  induction l as [|[opk o1] l IH]; intros found Hl; cbn [collect_due].
  { apply triple_ret. by repeat constructor. }
  apply Forall_cons in Hl as [Ho Hl]. cbn in Ho.
  destruct (suppressed o1); [by apply IH|].
  eapply triple_bind; [apply get_or_create_row|]. intros a. cbv beta.
  destruct (_ && _) eqn:Hd; [|apply (triple_pre _ as_found); [by intros ? [? _]|]; by apply IH].
  apply andb_true_iff in Hd as [_ Hd].
  apply (triple_pre _ (fun w => (opk = k -> a = a0) /\ as_found w)); [tauto|].
  apply triple_pure. intros Ha.
  eapply triple_bind.
  { destruct (10 <=? S found)%nat; [|by apply IH].
    apply (triple_ret _ _ (fun due w => as_found w /\ Forall collected_right due)). intros w Hw. by split. }
  intros more. cbv beta. apply triple_ret. intros w [Hw Hm]. split; [done|]. constructor; [|done].
  intros E. cbn in E |- *. rewrite (Ho E), (Ha E) in *. done.
Qed.

Lemma save_reminded_row l :
  Forall collected_right l -> triple paced (for_each (save_reminded now) l) (fun _ => paced) paced.
Proof.
  induction 1 as [|[[opk o1] a] l Hx Hl IH]; cbn [for_each save_reminded]; [by apply triple_ret|].
  eapply triple_bind; [apply (triple_put_db _ _ paced)|intros ?; exact IH].
  intros w Hw. unfold paced. rewrite row_of_set. destruct (decide (opk = k)) as [->|Hne]; [|exact Hw].
  destruct (Hx eq_refl) as (E1 & E2 & Hd). cbn in E1, E2. subst. by right.
Qed.

Lemma reminder_queue_orders d spk :
  orders d !! k = Some o -> Forall (fun x : Z * order => x.1 = k -> x.2 = o) (reminder_queue d spk).
Proof.
  intros Ho. unfold reminder_queue. apply Forall_take, Forall_forall. intros [k' o'] Hx <-.
  apply elem_of_order_by, elem_of_rows_where in Hx as [Hx _]. cbn in *. congruence.
Qed.

Lemma send_reminders_paced spk :
  triple (fun w => as_found w /\ orders (db w) !! k = Some o) (send_receipt_reminders spk now)
    (fun _ => paced) paced.
Proof.
  assert (Hret : forall n : Z, triple as_found (mret n) (fun _ => paced) (fun _ => True))
    by (intros n; apply triple_ret; by left).
  unfold send_receipt_reminders. apply triple_atomic.
  2: { intros w w' [Hw _] Hd. left. unfold as_found, row_of in *. by rewrite Hd. }
  eapply triple_bind; [by apply triple_get_or_raise|]. intros st. cbv beta.
  apply (triple_pre _ (fun w => as_found w /\ orders (db w) !! k = Some o)); [tauto|].
  destruct (_ || _); [apply (triple_pre _ as_found); [by intros ? []|apply Hret]|].
  eapply triple_bind; [apply triple_get_db|]. intros d. cbv beta.
  apply (triple_pre _ (fun w => orders d !! k = Some o /\ as_found w)); [by intros w1 (-> & ? & ?)|].
  apply triple_pure. intros Hd.
  eapply triple_bind; [eapply triple_any, collect_due_row; by apply reminder_queue_orders|].
  intros due. cbv beta.
  apply (triple_pre _ (fun w => Forall collected_right due /\ as_found w)); [by intros w1 []|].
  apply triple_pure. intros Hdue. destruct (bool_decide _); [apply Hret|].
  eapply triple_bind.
  { eapply triple_any, (triple_frame (keeps automations_of) as_found);
      [apply send_to_configs_respects; [apply _|done]|].
    unfold keeps, automations_of, as_found, row_of. by intros ? ? ? ->. }
  intros sent. cbv beta. destruct (sent =? 0); [apply Hret|].
  eapply triple_bind; [eapply triple_any, (triple_pre _ paced); [by left|by apply save_reminded_row]|].
  intros ?. by apply triple_ret.
Qed.

Lemma reminders_paced spk w r w' :
  orders (db w) !! k = Some o -> as_found w -> send_receipt_reminders spk now w = (r, w') -> paced w'.
Proof. intros Ho Hw E. pose proof (send_reminders_paced spk _ _ _ (conj Hw Ho) E). by destruct r. Qed.
End Pace.

(** A run of the reminders keeps every order's pace: it adds at most one
    reminder to the history of a receipt's row, and only when one is due. *)
Theorem reminders_keep_pace `{Env} spk now w r w' k o sub n last :
  send_receipt_reminders spk now w = (r, w') -> orders (db w) !! k = Some o ->
  payment_submitted_at o = Some sub -> last <= now -> reminder_history sub (row_of k w) n last ->
  exists n' last', reminder_history sub (row_of k w') n' last' /\ last' <= now /\ (n' <= S n)%nat.
Proof.
  intros E Ho Hs Hle Hh.
  destruct (reminders_paced k o _ now _ _ _ _ Ho eq_refl E) as [Hr|[Hr Hd]]; rewrite Hr.
  - exists n, last. auto.
  - rewrite Hs in Hd |- *. exists (S n), now. split; [by eapply one_more|]. split; [lia|done].
Qed.

(** ** The sample shop, six minutes after the receipt of order 1000 *)

Definition six_minutes : Z := 6 * minute.

Definition sample_auto : result bool * World :=
  @auto_approve_order sample_env no_delivery 1000 six_minutes sample_shop.

Lemma sample_auto_true : sample_auto.1 = Ret true.
Proof. vm_compute. reflexivity. Qed.

Lemma sample_auto_run :
  @auto_approve_order sample_env no_delivery 1000 six_minutes sample_shop = (Ret true, sample_auto.2).
Proof. rewrite <- sample_auto_true. apply surjective_pairing. Qed.

Lemma auto_approval_only_when_due_witness :
  approved_at 1000 six_minutes sample_auto.2 /\
  status <$> orders (db sample_auto.2) !! 1000 = Some COMPLETED.
Proof.
  split; [|vm_compute; reflexivity].
  destruct (@auto_approval_only_when_due sample_env no_delivery no_delivery_discreet 1000 six_minutes
    sample_shop (Ret true) sample_auto.2 sample_auto_run) as (o & st & sub & en & H).
  apply H.
Defined.

Lemma auto_approval_at_most_once_witness :
  (@auto_approve_order sample_env no_delivery 1000 (2 * six_minutes) sample_auto.2).2 = sample_auto.2.
Proof.
  apply (@auto_approval_at_most_once sample_env no_delivery no_delivery_discreet 1000 six_minutes
    sample_shop sample_auto.2 sample_auto.2 (2 * six_minutes)
    (@auto_approve_order sample_env no_delivery 1000 (2 * six_minutes) sample_auto.2).1).
  - exact sample_auto_run.
  - apply rtc_refl.
  - apply surjective_pairing.
Defined.

Lemma sample_claimable : claimable 1000 six_minutes sample_shop.
Proof.
  exists (sample_order 10), sample_store, (5 * minute).
  repeat (split; [vm_compute; reflexivity|]). apply Z.leb_le. reflexivity.
Qed.

Lemma job_claims_every_due_receipt_witness :
  approved_at 1000 six_minutes (@process_order_automation sample_env no_delivery six_minutes 100 sample_shop).2.
Proof.
  apply (@job_claims_every_due_receipt sample_env no_delivery no_delivery_discreet six_minutes 100 sample_shop
    (@process_order_automation sample_env no_delivery six_minutes 100 sample_shop).1).
  - apply surjective_pairing.
  - assert (E : take 100 (auto_approve_candidates (db sample_shop)) = [1000; 1001]) by (vm_compute; reflexivity).
    rewrite E. apply list_elem_of_here.
  - exact sample_claimable.
Defined.

(** Reminded after six minutes, after twenty, and after two hours. *)
Lemma reminders_bounded_witness :
  Z.of_nat 3 <= 3 + Z.max 0 ((120 * minute - 0 - 30 * minute) / (60 * minute)).
Proof.
  refine (reminders_bounded 0 (reminded 0 (120 * minute) (reminded 0 (20 * minute)
    (reminded 0 (6 * minute) fresh_automation))) 3 (120 * minute) _).
  apply (one_more _ _ _ (20 * minute)); [|apply Z.leb_le; reflexivity|vm_compute; reflexivity].
  apply (one_more _ _ _ (6 * minute)); [|apply Z.leb_le; reflexivity|vm_compute; reflexivity].
  apply (one_more _ _ _ 0); [|apply Z.leb_le; reflexivity|vm_compute; reflexivity].
  by apply no_reminder.
Defined.

Definition sample_bot : BotConfiguration.bot_configuration := {|
  BotConfiguration.store := Some 1; BotConfiguration.provider := BotConfiguration.TELEGRAM;
  BotConfiguration.bot_token := "token"; BotConfiguration.admin_user_id := "42";
  BotConfiguration.is_active := true; BotConfiguration.notify_new_orders := true |}.

Definition sample_bots : World := sample_shop {{ db -> bot_configs := {[ 1 := sample_bot ]} }}.

Lemma reminders_keep_pace_witness :
  let run := @send_receipt_reminders sample_env 1 six_minutes sample_bots in
  reminder_stage (row_of 1000 run.2) = 1%nat /\
  exists n last, reminder_history 0 (row_of 1000 run.2) n last /\ last <= six_minutes /\ (n <= 1)%nat.
Proof.
  intros run. split; [vm_compute; reflexivity|].
  apply (@reminders_keep_pace sample_env 1 six_minutes sample_bots run.1 run.2 1000 (sample_order 10) 0 0 0).
  - apply surjective_pairing.
  - vm_compute. reflexivity.
  - reflexivity.
  - apply Z.leb_le. reflexivity.
  - apply no_reminder; vm_compute; reflexivity.
Defined.
