(* ===== verification/ReconcileSpec.v ===== *)
(** What becomes of an automatic approval: its confirmation by a human, or its
    cancellation - complete, with every client switched off on its panel, or
    on record as incomplete and to be resumed. *)

From S2P Require Import Prelude Models World Numbers Discounts Referrals ReferralRewards OrderStore Inbounds Scope OrderActions Provisioning ProvisioningSpec ModernSpec ApprovalFrame Submission ClientManagement ManagementSpec Automation AutomationSpec.
Import Order OrderAutomation.

(** ** Confirmation *)

Section Confirm.
Context `{Env}.

(** A human confirms an automatic approval only while it waits for that,
    and never for a rejected or cancelled order; the order then counts as paid
    and verified in the state it is in, and the approval as verified.
    Confirming twice changes nothing; a refused confirmation neither. *)
Theorem confirm_outcome opk user note now w r w' :
  confirm_auto_payment opk user note now w = (r, w') ->
  match r with
  | Raise _ => db w' = db w
  | Ret _ => exists o a, orders (db w) !! opk = Some o /\ automations (db w) !! opk = Some a /\
      is_set (auto_approved_at a) = true /\ status o <> REJECTED /\ status o <> CANCELLED /\
      (review_status a = R_VERIFIED /\ w' = w \/
       review_status a = R_PENDING /\
       (exists a', automations (db w') = <[opk := a']> (automations (db w)) /\
          review_status a' = R_VERIFIED /\ auto_approved_at a' = auto_approved_at a) /\
       exists row, orders (db w') = <[opk := row]> (orders (db w)) /\
         verification_status row = V_VERIFIED /\ is_paid row = true /\
         (status o <> LEGACY_PENDING -> status row = status o))
  end.
Proof.
  intros E. destruct r as [u|e]; [|by apply atomic_Raise_db in E].
  unfold confirm_auto_payment in E. apply (proj1 (atomic_Ret _ _ _ _)) in E.
  unfold get_order, get_automation in E. run_io_in E.
  destruct (orders (db w) !! opk) as [o|] eqn:Ho; [|done].
  destruct (automations (db w) !! opk) as [a|] eqn:Ha; [|done].
  destruct (negb _ || _) eqn:Hok; [done|]. apply orb_false_iff in Hok as [Hat%negb_false_iff Hrs].
  case_bool_decide as Hst; [done|].
  assert (Hno : status o <> REJECTED /\ status o <> CANCELLED) by (split; intros Hs; apply Hst; rewrite Hs; set_solver).
  exists o, a. do 5 (split; [tauto|]).
  case_bool_decide as Hv; [left; by injection E as _ <-|]. right.
  apply negb_false_iff, bool_decide_eq_true in Hrs.
  split; [set_solver|]. set (o1 := o {{ verification_status := _ }}) in E.
  destruct (save_order _ _ _ _ _) as [[o2|e] w1] eqn:Es; [|done].
  apply save_order_inv in Es as (p & row & Hp & Hrow & -> & Hview).
  destruct (create_referral_reward_for_order _ _ _) as [[x|e] w2] eqn:Er; [|done]. injection E as _ <-.
  pose proof (create_reward_orders _ _ _ _ _ Er) as Hor. pose proof (reward_automations _ _ _ _ _ Er) as Har.
  unfold keeps, automations_of in Hor, Har.
  apply service_view_inv in Hview as (Hos & _ & _ & _ & _ & Has & _). cbn in Hrow, Hos, Has.
  split.
  - rewrite Har, Has. eexists. by split.
  - rewrite Hor, Hos. eexists. split; [reflexivity|].
    rewrite saved_verification_status, saved_is_paid by set_solver. do 2 (split; [done|]).
    intros Hl. rewrite saved_status_kept; [|set_solver|exact Hl]. rewrite Ho in Hrow. by injection Hrow as <-.
Qed.
End Confirm.

(** ** Cancellation *)

Section Cancel.
Context `{Env}.

(** The panel switched the client off, at some point of the history [h]. *)
Definition switched_off (d : DB) (h : list call) (kc : Z * VPNClient.vpn_client) : Prop :=
  exists i ident h0 res,
    (revoke_payload d kc.1 kc.2 ≫= lookup_panel_inbound d) = Ret (i, ident) /\
    update_client_traffic_and_expiry h0 i.1 ident None None false = Ret res /\
    CallSetLimits i.1 ident None None false ∈ h.

Lemma set_enabled_Ret admin l now w res w' :
  set_vpn_client_enabled_by_admin admin l false now w = (Ret res, w') ->
  exists i ident, lookup_panel_inbound (db w) l = Ret (i, ident) /\
    update_client_traffic_and_expiry (calls w) i.1 ident None None false = Ret res /\
    calls w' = CallSetLimits i.1 ident None None false :: calls w.
Proof.
  unfold set_vpn_client_enabled_by_admin, create_action_log, audited_call, tried, complete_action_log. run_io.
  destruct (lookup_panel_inbound (db w) l) as [[i ident]|e]; [|done]. intros E. exists i, ident. revert E.
  destruct (find_local_vpn_client_for_lookup _ _ _ _ _) as [local st]. run_io.
  destruct (update_client_traffic_and_expiry _ _ _ _ _ _) as [x|e]; [|done].
  destruct local as [[cpk c]|].
  - destruct (sync_local_enabled_state _ _ _ _ _) as [[u|e] w1] eqn:Es; [|done].
    assert (Hc : calls w1 = CallSetLimits i.1 ident None None false :: calls w).
    { revert Es. unfold sync_local_enabled_state, get_client. run_io. cbn.
      destruct (clients (db w) !! cpk) as [c1|]; [destruct (VPNClient.is_deleted c1)|];
        intros Es; try done; by apply run_Ret_inj in Es as [_ ->]. }
    intros Er. apply run_Ret_inj in Er as [-> ->]. by rewrite <- Hc.
  - intros Er. by apply run_Ret_inj in Er as [-> ->].
Qed.

(** The history only grows. *)
Definition remembers : relation World := fun w w' => forall c, c ∈ calls w -> c ∈ calls w'.

#[global] Instance remembers_preorder : PreOrder remembers.
Proof. split; [by intros w c|]. intros x y z Hxy Hyz c Hc. by apply Hyz, Hxy. Qed.
#[global] Instance remembers_undoable : Undoable remembers.
Proof. intros w w' Hw. exact Hw. Qed.

#[local] Hint Extern 1 (remembers _ _) => (intros ? ?; by apply elem_of_cons; right) : frames.
#[local] Hint Extern 2 (remembers _ _) => (intros ? ?; assumption) : frames.

Lemma set_enabled_remembers admin l enabled now :
  respects remembers (set_vpn_client_enabled_by_admin admin l enabled now).
Proof.
  unfold set_vpn_client_enabled_by_admin, create_action_log, audited_call, complete_action_log,
    sync_local_enabled_state, get_client.
  repeat first [progress walk | apply tried_respects; [apply _|]].
Qed.

Lemma switched_off_mono d h h' kc : (forall c, c ∈ h -> c ∈ h') -> switched_off d h kc -> switched_off d h' kc.
Proof. intros Hh (i & ident & h0 & res & Hp & Hu & Hc). exists i, ident, h0, res. auto. Qed.

Lemma payload_ext d d' cpk c :
  inbounds d' = inbounds d -> panels d' = panels d ->
  (revoke_payload d' cpk c ≫= lookup_panel_inbound d') = (revoke_payload d cpk c ≫= lookup_panel_inbound d).
Proof.
  intros Hi Hp. unfold revoke_payload, lookup_panel_inbound, matching_inbounds, inbound_panel. by rewrite Hi, Hp.
Qed.

(** One client: either the panel has switched it off, or nothing but clients
    and logs moved. *)
Lemma revoke_one_inv admin cpk c now w x w' :
  (d ← get_db; payload ← liftR (revoke_payload d cpk c); set_vpn_client_enabled_by_admin admin payload false now) w
    = (x, w') ->
  (but_clients_and_logs w' = but_clients_and_logs w) /\ remembers w w' /\
  (is_ret x = true -> switched_off (db w) (calls w') (cpk, c)).
Proof.
  run_io. intros E. destruct (revoke_payload (db w) cpk c) as [payload|e] eqn:Ep.
  2: { injection E as <- <-. done. }
  split; [exact (set_enabled_frame _ _ _ _ _ _ _ E)|]. split; [exact (set_enabled_remembers _ _ _ _ _ _ _ E)|].
  destruct x as [res|]; [|done]. intros _. apply set_enabled_Ret in E as (i & ident & Hl & Hu & Hc).
  exists i, ident, (calls w), res. cbn [fst snd]. rewrite Ep. split; [exact Hl|]. split; [done|].
  rewrite Hc. apply list_elem_of_here.
Qed.

(** What the loop leaves: the books as they were, but for the row of the
    automation, whose list of revoked clients tells the truth. *)
Definition revoked_so_far (opk : Z) (a : order_automation) (l : list (Z * VPNClient.vpn_client)) (w : World)
    (a' : order_automation) (all_off : bool) (w' : World) : Prop :=
  (orders (db w'), stores (db w'), inbounds (db w'), panels (db w'), cups (db w')) =
    (orders (db w), stores (db w), inbounds (db w), panels (db w), cups (db w)) /\
  (automations (db w) !! opk = Some a -> automations (db w') = <[opk := a']> (automations (db w))) /\
  (forall k, k ∈ revoked_client_ids a -> k ∈ revoked_client_ids a') /\
  (forall k, k ∈ revoked_client_ids a' -> k ∈ revoked_client_ids a \/
     exists c, (k, c) ∈ l /\ switched_off (db w) (calls w') (k, c)) /\
  (if all_off then review_status a' = review_status a /\ forall k c, (k, c) ∈ l -> k ∈ revoked_client_ids a'
   else review_status a' = R_CANCEL_FAILED /\ last_error a' = CANCEL_INCOMPLETE) /\
  remembers w w'.

Lemma revoke_clients_inv opk user now l : forall a w r w',
  revoke_clients opk user now a l w = (r, w') ->
  exists a' all_off, r = Ret (a', all_off) /\ revoked_so_far opk a l w a' all_off w'.
Proof.
  induction l as [|[cpk c] l IH]; intros a w r w'; cbn [revoke_clients].
  { intros [= <- <-]. exists a, true. split; [done|]. unfold revoked_so_far.
    split; [done|]. split; [intros Ha; by rewrite insert_id|]. split; [done|]. split; [auto|].
    split; [|done]. split; [done|]. by intros ? ? ?%not_elem_of_nil. }
  case_bool_decide as Hin.
  { intros E. apply IH in E as (a' & b & -> & Hs & Ha & Hm & Hr & Hb & Hc). exists a', b. split; [done|].
    do 3 (split; [done|]). split; [|split; [|done]].
    - intros k Hk. apply Hr in Hk as [?|(c' & ? & ?)]; [auto|]. right. exists c'. by rewrite elem_of_cons; auto.
    - destruct b; [|done]. destruct Hb as [? Hall]. split; [done|].
      intros k c' [[= -> ->]|?]%elem_of_cons; [by apply Hm|eauto]. }
  unfold mbind at 1, M_bind at 1, tried at 1.
  destruct ((d ← get_db; payload ← liftR (revoke_payload d cpk c);
             set_vpn_client_enabled_by_admin (admin_name user) payload false now) w) as [x w1] eqn:E1.
  apply revoke_one_inv in E1 as (Hf & Hmem & Hoff).
  injection Hf as Ho1 Ha1 Hs1 Hi1 Hp1 Hc1. destruct x as [res|e]; run_io.
  2: { intros [= <- <-]. eexists _, false. split; [reflexivity|]. unfold revoked_so_far. cbn.
       rewrite Ho1, Ha1, Hs1, Hi1, Hp1, Hc1. repeat (split; [auto; fail|]). done. }
  set (a1 := a {{ revoked_client_ids ::= _ }}). intros E.
  apply IH in E as (a' & b & -> & Hs & Ha & Hm & Hr & Hb & Hc).
  exists a', b. split; [done|]. cbn in Hs, Ha, Hr, Hc. rewrite Ho1, Hs1, Hi1, Hp1, Hc1 in Hs. 
  split; [exact Hs|]. split; [|split; [|split; [|split]]].
  - intros _. rewrite Ha, Ha1 by apply lookup_insert_eq. by rewrite insert_insert_eq.
  - intros k Hk. apply Hm. cbn. by apply elem_of_app; left.
  - intros k Hk. apply Hr in Hk as [[?|Hk]%elem_of_app|(c' & Hl & Hsw)]; [by left| |].
    + apply list_elem_of_singleton in Hk as ->. right. exists c. split; [apply list_elem_of_here|].
      exact (switched_off_mono _ _ _ _ Hc (Hoff eq_refl)).
    + right. exists c'. split; [by apply elem_of_cons; right|].
      destruct Hsw as (i & ident & h0 & res' & Hp & Hrest). exists i, ident, h0, res'.
      by rewrite (payload_ext (db w)) in Hp.
  - destruct b; [|done]. destruct Hb as [Hst Hall]. split; [done|].
    intros k c' [[= -> ->]|?]%elem_of_cons; [|eauto]. apply Hm. cbn. apply elem_of_app. right. by apply list_elem_of_singleton.
  - intros cl Hcl. by apply Hc, Hmem.
Qed.

(** The notice only notes on the automation row how it went. *)
Definition same_verdict (a a' : order_automation) : Prop :=
  review_status a' = review_status a /\ revoked_client_ids a' = revoked_client_ids a.

Lemma notice_inv opk now w r w' a o :
  send_cancellation_notice opk now w = (r, w') ->
  automations (db w) !! opk = Some a -> orders (db w) !! opk = Some o ->
  is_ret r = true /\ orders (db w') = orders (db w) /\ cups (db w') = cups (db w) /\ remembers w w' /\
  exists a', automations (db w') !! opk = Some a' /\ same_verdict a a'.
Proof.
  unfold send_cancellation_notice, claim_notice, get_automation, get_order, attempt. run_io. intros E Ha Ho.
  rewrite Ha in E. destruct (_ || _).
  { injection E as <- <-. repeat (split; [done|]). by exists a. }
  destruct (match cancellation_notification_attempted_at a with Some _ => _ | None => _ end).
  { injection E as <- <-. repeat (split; [done|]). by exists a. }
  rewrite Ho in E. destruct (negb (notice_targets _ _)).
  { injection E as <- <-. do 3 (split; [done|]). split; [intros ? ?; assumption|]. eexists. split; [apply lookup_insert_eq|done]. }
  cbn in E. destruct (notify_order_event _ _ _ _) as [n|e]; injection E as <- <-; cbn.
  all: split; [done|]; split; [done|]; split; [done|]; split; [intros c Hc; by apply elem_of_cons; right|].
  all: rewrite lookup_alter_eq, lookup_insert_eq; by eexists.
Qed.

(** Every subscription address of the order and its clients is closed. *)
Definition cups_closed (opk : Z) (cpks : list Z) (w w' : World) : Prop :=
  cups (db w') = cups (disable_cups opk cpks (db w)).

(** What a cancellation that got under way leaves. *)
Definition cancelling (opk : Z) (o : order) (a : order_automation) (w : World)
    (cs : list (Z * VPNClient.vpn_client)) (a' : order_automation) (w' : World) : Prop :=
  cancellation_clients (db w) opk o = Ret cs /\ cups_closed opk cs.*1 w w' /\
  automations (db w') !! opk = Some a' /\
  forall k, k ∈ revoked_client_ids a' ->
    k ∈ revoked_client_ids a \/ exists c, (k, c) ∈ cs /\ switched_off (db w) (calls w') (k, c).

Lemma cancel_locked_inv opk user reason now w r w' :
  cancel_locked opk user reason now w = (r, w') ->
  match r with
  | Raise _ => db w' = db w
  | Ret x => exists o a, orders (db w) !! opk = Some o /\ automations (db w) !! opk = Some a /\
      is_set (auto_approved_at a) = true /\
      match x with
      | Some true => review_status a = R_CANCELLED /\ w' = w
      | Some false => exists cs a', cancelling opk o a w cs a' w' /\ orders (db w') = orders (db w) /\
          review_status a' = R_CANCEL_FAILED
      | None => exists cs a' row, cancelling opk o a w cs a' w' /\
          orders (db w') = <[opk := row]> (orders (db w)) /\ review_status a' = R_CANCELLED /\
          (forall k c, (k, c) ∈ cs -> k ∈ revoked_client_ids a') /\
          status row = CANCELLED /\ verification_status row = V_REJECTED /\ is_paid row = false
      end
  end.
Proof.
  intros E. destruct r as [x|e]; [|by apply atomic_Raise_db in E].
  unfold cancel_locked in E. apply (proj1 (atomic_Ret _ _ _ _)) in E.
  unfold get_order, get_automation in E. run_io_in E.
  destruct (orders (db w) !! opk) as [o|] eqn:Ho; [|done].
  destruct (automations (db w) !! opk) as [a|] eqn:Ha; [|done].
  destruct (is_set (auto_approved_at a)) eqn:Hat; [|done]. cbn [negb] in E.
  exists o, a. do 3 (split; [done|]).
  case_bool_decide as Hc. { by apply run_Ret_inj in E as [-> ->]. }
  destruct (cancellation_clients (db w) opk o) as [cs|e] eqn:Hcs; [|done].
  set (a1 := a {{ review_status := R_CANCELLING; review_note := strip reason; reviewed_by := Some user;
                  reviewed_at := Some now; last_error := "" }}) in E.
  destruct (revoke_clients opk user now a1 cs _) as [y w2] eqn:Er.
  apply revoke_clients_inv in Er as (a2 & off & -> & Hs & Hau & _ & Htrue & Hoff & Hmem).
  assert (Ha1 : automations (db w2) = <[opk := a2]> (automations (db w))).
  { rewrite Hau by apply lookup_insert_eq. cbn. by rewrite insert_insert_eq. }
  assert (Htruth : forall h, (forall c, c ∈ calls w2 -> c ∈ h) -> forall k, k ∈ revoked_client_ids a2 ->
    k ∈ revoked_client_ids a \/ exists c, (k, c) ∈ cs /\ switched_off (db w) h (k, c)).
  { intros h Hh k Hk. apply Htrue in Hk as [?|(c & Hin & Hsw)]; [by left|]. right. exists c. split; [done|].
    apply (switched_off_mono _ _ _ _ Hh) in Hsw as (i & ident & h0 & res & Hp & Hrest).
    exists i, ident, h0, res. by rewrite (payload_ext (db w)) in Hp. }
  injection Hs as Hs1 _ _ _ Hs2. cbn in Hs1. cbn [negb] in E. destruct off; cbn [negb] in E.
  2: { apply run_Ret_inj in E as [-> ->]. exists cs, a2. split; [|by destruct Hoff].
       split; [done|]. split; [exact Hs2|]. split; [rewrite Ha1; apply lookup_insert_eq|]. by apply Htruth. }
  destruct (save_order _ _ _ _ _) as [[o2|e] w3] eqn:Es; [|done]. apply run_Ret_inj in E as [-> ->].
  apply save_order_inv in Es as (p & row & Hp & Hrow & _ & Hv). destruct Hoff as [_ Hall].
  pose proof (service_view_side _ _ Hv) as Hside. unfold side_tables in Hside. injection Hside as _ _ Hcup _ _ _.
  apply service_view_inv in Hv as (Hos & _ & _ & _ & _ & _ & _ & _ & _ & _ & Hcalls). cbn in Hos, Hcup, Hcalls.
  exists cs, (a2 {{ review_status := R_CANCELLED }}). eexists. split.
  { split; [done|]. split; [unfold cups_closed; cbn; rewrite Hcup; exact Hs2|].
    split; [apply lookup_insert_eq|]. cbn. apply Htruth. by rewrite Hcalls. }
  split; [cbn; rewrite Hos, Hs1; reflexivity|]. split; [done|]. split; [exact Hall|].
  rewrite saved_status, saved_verification_status, saved_is_paid by (set_solver || done). done.
Qed.

Lemma same_verdict_cancelling opk o a w cs a1 w1 a2 w2 :
  cancelling opk o a w cs a1 w1 -> same_verdict a1 a2 -> automations (db w2) !! opk = Some a2 ->
  cups (db w2) = cups (db w1) -> remembers w1 w2 -> cancelling opk o a w cs a2 w2.
Proof.
  intros (Hcs & Hcup & _ & Htrue) [_ Hr] Ha Hc Hm. unfold cancelling, cups_closed. rewrite Hc.
  split; [done|]. split; [done|]. split; [done|]. intros k Hk. rewrite Hr in Hk.
  apply Htrue in Hk as [?|(c & Hin & Hsw)]; [by left|]. right. exists c. split; [done|].
  by apply (switched_off_mono _ _ _ _ Hm).
Qed.

(** C19: Cancelling an automatic approval is complete or on record as
    incomplete.  If it raises, the database is untouched.  If it answers yes,
    the order is cancelled, its payment refused, and every client concerned -
    those of the order and the one it renewed - has been switched off on its
    panel, now or by an earlier attempt; cancelling again changes nothing.  If
    it answers no, the order itself is as it was, the approval is marked as
    failed to cancel, and the clients remembered as switched off really were.
    Either way the order's subscription addresses are closed and it can no
    longer be approved. *)
Theorem cancel_outcome opk user reason now w r w' :
  cancel_auto_approved_order opk user reason now w = (r, w') ->
  match r with
  | Raise _ => db w' = db w
  | Ret complete => exists o a, orders (db w) !! opk = Some o /\ automations (db w) !! opk = Some a /\
      is_set (auto_approved_at a) = true /\ cancellation_recorded opk (db w') = true /\
      if complete : bool
      then (review_status a = R_CANCELLED /\ w' = w) \/
           exists cs a' row, cancelling opk o a w cs a' w' /\ review_status a' = R_CANCELLED /\
             (forall k c, (k, c) ∈ cs -> k ∈ revoked_client_ids a') /\
             orders (db w') = <[opk := row]> (orders (db w)) /\
             status row = CANCELLED /\ verification_status row = V_REJECTED /\ is_paid row = false
      else exists cs a', cancelling opk o a w cs a' w' /\ review_status a' = R_CANCEL_FAILED /\
             orders (db w') = orders (db w)
  end.
Proof.
  unfold cancel_auto_approved_order. case_bool_decide; [by intros [= <- <-]|].
  unfold mbind at 1, M_bind at 1. destruct (cancel_locked opk user reason now w) as [[x|e] w1] eqn:E;
    apply cancel_locked_inv in E; [|by intros [= <- <-]].
  destruct E as (o & a & Ho & Ha & Hat & E). destruct x as [[|]|].
  - intros [= <- <-]. destruct E as [Hc ->]. exists o, a. do 3 (split; [done|]).
    split; [unfold cancellation_recorded; by rewrite Ha, Hc|by left].
  - intros [= <- <-]. destruct E as (cs & a' & Hcan & Hos & Hr). exists o, a. do 3 (split; [done|]).
    split; [|by exists cs, a']. destruct Hcan as (_ & _ & Ha' & _).
    unfold cancellation_recorded. by rewrite Ha', Hr.
  - destruct E as (cs & a1 & row & Hcan & Hos & Hr & Hall & Hst).
    unfold mbind, M_bind. destruct (send_cancellation_notice opk now w1) as [y w2] eqn:En.
    pose proof Hcan as (_ & _ & Ha1 & _).
    apply (notice_inv _ _ _ _ _ a1 row) in En as (Hret & Ho2 & Hc2 & Hm2 & a2 & Ha2 & Hsv);
      [|done|rewrite Hos; apply lookup_insert_eq].
    destruct y; [|done]. intros [= <- <-]. exists o, a. do 3 (split; [done|]).
    pose proof Hsv as [Hr2 Hrev]. split; [unfold cancellation_recorded; by rewrite Ha2, Hr2, Hr|].
    right. exists cs, a2, row. split; [by apply (same_verdict_cancelling _ _ _ _ _ a1 w1)|].
    rewrite Hr2, Hrev, Ho2. auto.
Qed.
End Cancel.

(** ** The sample shop after the automatic approval of order 1000 *)

Lemma confirm_outcome_witness :
  let run := @confirm_auto_payment sample_env 1000 9 " seen " (2 * six_minutes) sample_auto.2 in
  exists a', automations (db run.2) !! 1000 = Some a' /\ review_status a' = R_VERIFIED.
Proof.
  intros run. assert (Hr : run.1 = Ret tt) by (vm_compute; reflexivity).
  assert (Hp : review_status <$> automations (db sample_auto.2) !! 1000 = Some R_PENDING) by (vm_compute; reflexivity).
  destruct (@confirm_outcome sample_env 1000 9 " seen " (2 * six_minutes) sample_auto.2 (Ret tt) run.2)
    as (o & a & _ & Ha & _ & _ & _ & [[Hv _]|(_ & (a' & Hau & Hv & _) & _)]).
  - rewrite <- Hr. apply surjective_pairing.
  - exfalso. revert Hp. rewrite Ha. cbn. congruence.
  - exists a'. split; [|exact Hv]. rewrite Hau. apply lookup_insert_eq.
Defined.

Lemma cancel_outcome_witness :
  let run := @cancel_auto_approved_order sample_env 1000 9 "not paid" (2 * six_minutes) sample_auto.2 in
  cancellation_recorded 1000 (db run.2) = true /\
  status <$> orders (db run.2) !! 1000 = Some CANCELLED /\
  (length <$> (revoked_client_ids <$> automations (db run.2) !! 1000)) = Some 2%nat.
Proof.
  intros run. assert (Hr : run.1 = Ret true) by (vm_compute; reflexivity).
  split; [|split; vm_compute; reflexivity].
  destruct (@cancel_outcome sample_env 1000 9 "not paid" (2 * six_minutes) sample_auto.2 (Ret true) run.2)
    as (o & a & _ & _ & _ & Hc & _).
  - rewrite <- Hr. apply surjective_pairing.
  - exact Hc.
Defined.
