(* ===== verification/Payments.v ===== *)
(** Deposits announced by the bank (src/payments/payment_matching.py): which
    orders a deposit may be for, and its confirmation by an administrator. *)

From S2P Require Import Prelude Models World Numbers Referrals OrderStore Provisioning ClientManagement.
Import PaymentSMS.

#[local] Open Scope string_scope.
#[local] Open Scope Z_scope.

Definition MATCH_WINDOW_BEFORE : Z := 30 * 60 * 1000000.
Definition MATCH_WINDOW_AFTER : Z := 15 * 60 * 1000000.
Definition PENDING_ORDER_STATUSES : list Order.status_t :=
  [Order.PENDING_PAYMENT; Order.PENDING_VERIFICATION; Order.LEGACY_PENDING].

(** Created at most thirty minutes before the deposit or fifteen after it, for
    the same number. *)
Definition matches (amount sms_datetime : Z) (o : Order.order) : bool :=
  bool_decide (Order.status o ∈ PENDING_ORDER_STATUSES)
  && (sms_datetime - MATCH_WINDOW_BEFORE <=? Order.created_at o)
  && (Order.created_at o <=? sms_datetime + MATCH_WINDOW_AFTER)
  && (Order.amount o =? amount).

Definition find_matching_orders (amount sms_datetime : Z) (d : DB) : list (Z * Order.order) :=
  order_by (fun ko => [Order.created_at ko.2; ko.1])
    (rows_where (fun _ o => matches amount sms_datetime o) (orders d)).

(** Orders linked to a message, as the relation lists them. *)
Definition linked_orders (s : incoming_payment_sms) (d : DB) : list (Z * Order.order) :=
  order_by (fun ko => [Order.created_at ko.2; ko.1])
    (rows_where (fun k _ => bool_decide (k ∈ matched_orders s)) (orders d)).

Definition set_sms (pk : Z) (s : incoming_payment_sms) (d : DB) : DB := d {{ payment_sms ::= insert pk s }}.

Section Payments.
Context `{Env} `{Delivery}.

(** [active_bot_configs()]: of every shop. *)
Definition all_bot_configs (d : DB) : list Z :=
  (order_by (fun kc => [kc.1]) (rows_where (fun _ c =>
     BotConfiguration.is_active c && negb (bool_decide (BotConfiguration.bot_token c = ""))
     && negb (bool_decide (BotConfiguration.admin_user_id c = ""))) (bot_configs d))).*1.

(** [notify_after_commit]: the administrators are told of the match, and of
    each order. *)
Definition notify_match (pk : Z) (orders_found : list Z) : IO unit :=
  s ← get_or_raise (fun w => payment_sms (db w) !! pk);
  d ← get_db;
  let found := order_by (fun ko => [ko.1]) (rows_where (fun k _ => bool_decide (k ∈ orders_found)) (orders d)) in
  let text := payment_match_text pk s found in
  _ ← for_each (fun cfg => n ← askR (CallSend cfg text) (fun h => send_to_config h cfg text); mret tt)
        (all_bot_configs d);
  for_each (fun ko : Z * Order.order =>
    askR (CallNotify ko.1 "needs_review") (fun h => notify_needs_review h ko.1)) found.

(** The status and links a message gets from the orders found for it. *)
Definition rematched (found : list Z) (s : incoming_payment_sms) : incoming_payment_sms :=
  s {{ matched_orders := list_to_set found;
       status := if bool_decide (found = []) then NO_MATCH else MATCHED }}.

Definition process_incoming_payment_sms (pk : Z) (notify : bool) : IO (list Z) :=
  s ← get_or_raise (fun w => payment_sms (db w) !! pk);
  d ← get_db;
  if bool_decide (status s = CONFIRMED) then mret (linked_orders s d).*1
  else
    let found := (find_matching_orders (amount s) (sms_datetime s) d).*1 in
    let unchanged := bool_decide (status s = MATCHED) && bool_decide (matched_orders s = list_to_set found) in
    _ ← put_db (set_sms pk (rematched found s));
    _ ← (if negb (bool_decide (found = [])) && notify && negb unchanged
         then notify_match pk found else mret tt);
    mret found.

Definition NOT_EXACTLY_ONE : exn := ValueError "Choose exactly one matched order to confirm this SMS.".
Definition NOT_LINKED : exn := ValueError "The selected order is not linked to this SMS.".
Definition ORDER_OUT_OF_SERVICE : exn := ValueError "Rejected or cancelled orders cannot be confirmed by SMS.".

(** The order to confirm: the one chosen, or the only one linked. *)
Definition chosen_order (s : incoming_payment_sms) (choice : option Z) (d : DB) : result (Z * Order.order) :=
  match choice with
  | None => match linked_orders s d with [ko] => Ret ko | _ => Raise NOT_EXACTLY_ONE end
  | Some opk =>
      match orders d !! opk with
      | None => Raise DoesNotExist
      | Some o => if bool_decide (opk ∈ matched_orders s) then Ret (opk, o) else Raise NOT_LINKED
      end
  end.

(** The order counted as paid, and the columns that changed. *)
Definition confirmed_by_sms (user : option Z) (now : Z) (o : Order.order) : Order.order * list Order.field :=
  let s := Order.assign (negb (Order.is_paid o)) [Order.F_is_paid]
             (fun o => o {{ Order.is_paid := true }}) (o, []) in
  let s := Order.assign (negb (bool_decide (Order.status s.1 = Order.COMPLETED))) [Order.F_status]
             (fun o => o {{ Order.status := Order.CONFIRMED }}) s in
  let s := Order.assign (negb (bool_decide (Order.verification_status s.1 = Order.V_VERIFIED)))
             [Order.F_verification_status]
             (fun o => o {{ Order.verification_status := Order.V_VERIFIED }}) s in
  let s := Order.assign (is_set user && negb (bool_decide (Order.verified_by s.1 = user))) [Order.F_verified_by]
             (fun o => o {{ Order.verified_by := user }}) s in
  Order.assign (negb (is_set (Order.verified_at s.1))) [Order.F_verified_at]
    (fun o => o {{ Order.verified_at := Some now }}) s.

(** The transaction: the order, and its instance when it was confirmed just
    now. *)
Definition confirm_locked (pk : Z) (choice user : option Z) (now : Z) : IO (Z * option Order.order) := atomic (
  s ← get_or_raise (fun w => payment_sms (db w) !! pk);
  d ← get_db;
  '(opk, o) ← liftR (chosen_order s choice d);
  if bool_decide (status s = CONFIRMED) then mret (opk, None)
  else if bool_decide (Order.status o ∈ [Order.REJECTED; Order.CANCELLED]) then raise ORDER_OUT_OF_SERVICE
  else
    let '(o, changed) := confirmed_by_sms user now o in
    o ← (if bool_decide (changed = []) then mret o else save_order opk o changed now);
    _ ← put_db (set_sms pk (s {{ status := CONFIRMED; matched_orders ::= fun l => {[ opk ]} ∪ l }}));
    mret (opk, Some o)).

Definition confirm_incoming_payment_sms (pk : Z) (choice user : option Z) (now : Z) : IO Z :=
  '(opk, fresh) ← confirm_locked pk choice user now;
  match fresh with
  | None => mret opk
  | Some o =>
      _ ← tried (approve_and_provision_order opk o user "sms_auto_match" true now);
      mret opk
  end.

(** [save(update_fields=["status"])] of an instance read before. *)
Definition dismiss_incoming_payment_sms (pk : Z) : IO unit :=
  put_db (fun d => d {{ payment_sms ::= alter (fun s => s {{ status := DISMISSED }}) pk }}).
End Payments.
