(* ===== verification/PaymentsSpec.v ===== *)
(** What confirming deposits guarantees: only a linked order in service is
    paid, and one deposit pays one order - as long as nobody dismisses a
    message that was confirmed. *)

From S2P Require Import Prelude Models World Numbers Discounts Referrals ReferralRewards OrderStore Inbounds Scope OrderActions Provisioning ProvisioningSpec ModernSpec ApprovalFrame Submission ClientManagement ManagementSpec Automation AutomationSpec Payments.
Import PaymentSMS.

Section Locked.
Context `{Env}.

(** The order as confirmation leaves it. *)
Definition counted_paid (o row : Order.order) : Prop :=
  Order.is_paid row = true /\ Order.verification_status row = Order.V_VERIFIED /\
  Order.status row = (if bool_decide (Order.status o = Order.COMPLETED) then Order.COMPLETED else Order.CONFIRMED).

Lemma linked_orders_spec s d k o :
  (k, o) ∈ linked_orders s d <-> orders d !! k = Some o /\ k ∈ matched_orders s.
Proof. unfold linked_orders. by rewrite elem_of_order_by, elem_of_rows_where, bool_decide_eq_true. Qed.

Lemma chosen_order_inv s choice d k o :
  chosen_order s choice d = Ret (k, o) ->
  orders d !! k = Some o /\ k ∈ matched_orders s /\ match choice with Some c => k = c | None => True end.
Proof.
  unfold chosen_order. destruct choice as [c|].
  - destruct (orders d !! c) as [o1|] eqn:Ho; [|done]. case_bool_decide; [|done]. by intros [= <- <-].
  - destruct (linked_orders s d) as [|ko [|]] eqn:E; [done| |done]. intros [= ->].
    assert (Hin : (k, o) ∈ linked_orders s d) by (rewrite E; apply list_elem_of_here).
    by apply linked_orders_spec in Hin as [].
Qed.

Lemma assign_column (c : bool) f g (s : Order.order * list Order.field) (P : Order.order -> Prop) :
  (c = false -> P s.1) -> (forall o, P (g o)) ->
  P (Order.assign c [f] g s).1 /\ (f ∈ (Order.assign c [f] g s).2 \/ P s.1).
Proof.
  intros Hc Hg. destruct c; cbn; [|auto]. split; [done|]. left. apply elem_of_app. right. by apply list_elem_of_singleton.
Qed.

Lemma assign_more c fs g (s : Order.order * list Order.field) f : f ∈ s.2 -> f ∈ (Order.assign c fs g s).2.
Proof. destruct c; cbn; [|done]. intros Hf. apply elem_of_app. by left. Qed.

Lemma confirmed_fields user now o :
  let x := confirmed_by_sms user now o in
  (Order.is_paid x.1 = true /\ Order.verification_status x.1 = Order.V_VERIFIED /\
   Order.status x.1 = (if bool_decide (Order.status o = Order.COMPLETED) then Order.COMPLETED else Order.CONFIRMED)) /\
  (Order.F_is_paid ∈ x.2 \/ Order.is_paid o = true) /\
  (Order.F_verification_status ∈ x.2 \/ Order.verification_status o = Order.V_VERIFIED) /\
  (Order.F_status ∈ x.2 \/ Order.status o = Order.COMPLETED).
Proof.
  unfold confirmed_by_sms. cbv zeta.
  set (s1 := Order.assign _ [Order.F_is_paid] _ _). set (s2 := Order.assign _ [Order.F_status] _ _).
  set (s3 := Order.assign _ [Order.F_verification_status] _ _). set (s4 := Order.assign _ [Order.F_verified_by] _ _).
  assert (Ka : Order.is_paid s1.1 = true /\ (Order.F_is_paid ∈ s1.2 \/ Order.is_paid o = true)).
  { apply (assign_column _ _ _ (o, []) (fun o => Order.is_paid o = true)); [by intros ?%negb_false_iff|done]. }
  assert (E1 : Order.status s1.1 = Order.status o /\ Order.verification_status s1.1 = Order.verification_status o)
    by (subst s1; split; by rewrite assign_keep).
  assert (Kb : Order.status s2.1 = (if bool_decide (Order.status o = Order.COMPLETED) then Order.COMPLETED else Order.CONFIRMED)
               /\ (Order.F_status ∈ s2.2 \/ Order.status o = Order.COMPLETED)).
  { subst s2. destruct E1 as [-> _]. case_bool_decide as Hc; cbn; [|split; [done|left]].
    - split; [|by right]. subst s1. by rewrite assign_keep.
    - apply elem_of_app. right. by apply list_elem_of_singleton. }
  assert (E2 : Order.verification_status s2.1 = Order.verification_status o).
  { subst s2. rewrite assign_keep by done. apply E1. }
  assert (Kc : Order.verification_status s3.1 = Order.V_VERIFIED /\
               (Order.F_verification_status ∈ s3.2 \/ Order.verification_status s2.1 = Order.V_VERIFIED)).
  { apply (assign_column _ _ _ s2 (fun o => Order.verification_status o = Order.V_VERIFIED));
      [by intros ?%negb_false_iff%bool_decide_eq_true|done]. }
  rewrite E2 in Kc. clear E1 E2. clearbody s1.
  split; [split; [|split]|split; [|split]].
  - rewrite assign_keep by done. subst s4 s3 s2. do 3 (rewrite assign_keep by done). apply Ka.
  - rewrite assign_keep by done. subst s4. rewrite assign_keep by done. apply Kc.
  - rewrite assign_keep by done. subst s4 s3. do 2 (rewrite assign_keep by done). apply Kb.
  - destruct Ka as [_ [?|?]]; [left|by right]. do 4 apply assign_more. done.
  - destruct Kc as [_ [?|?]]; [left|by right]. do 2 apply assign_more. done.
  - destruct Kb as [_ [?|?]]; [left|by right]. do 3 apply assign_more. done.
Qed.

Lemma confirm_locked_inv pk choice user now w k fresh w' :
  confirm_locked pk choice user now w = (Ret (k, fresh), w') ->
  exists s o, payment_sms (db w) !! pk = Some s /\ orders (db w) !! k = Some o /\ k ∈ matched_orders s /\
    match choice with Some c => k = c | None => True end /\
    match fresh with
    | None => status s = CONFIRMED /\ w' = w
    | Some o' => status s <> CONFIRMED /\ Order.status o <> Order.REJECTED /\ Order.status o <> Order.CANCELLED /\
        (exists row, orders (db w') = <[k := row]> (orders (db w)) /\ counted_paid o row) /\
        payment_sms (db w') = <[pk := s {{ status := CONFIRMED; matched_orders ::= fun l => {[ k ]} ∪ l }}]>
                                (payment_sms (db w))
    end.
Proof.
  unfold confirm_locked. intros E. apply (proj1 (atomic_Ret _ _ _ _)) in E. run_io_in E.
  destruct (payment_sms (db w) !! pk) as [s|] eqn:Hs; [|done].
  destruct (chosen_order s choice (db w)) as [[k1 o]|] eqn:Hc; [|done].
  apply chosen_order_inv in Hc as (Ho & Hm & Hch).
  case_bool_decide as Hst. { injection E as <- <- <-. exists s, o. repeat (split; [done|]). done. }
  case_bool_decide as Hos; [done|].
  assert (Hno : Order.status o <> Order.REJECTED /\ Order.status o <> Order.CANCELLED)
    by (split; intros Hx; apply Hos; rewrite Hx; set_solver).
  pose proof (confirmed_fields user now o) as Hf. cbv zeta in Hf.
  destruct (confirmed_by_sms user now o) as [o1 changed]. cbn [fst snd] in Hf.
  destruct Hf as ((Hp & Hv & Hst1) & Fp & Fv & Fs). 
  destruct (bool_decide (changed = [])) eqn:Hch0.
  - apply bool_decide_eq_true in Hch0. injection E as <- <- <-. exists s, o. repeat (split; [tauto|]). split; [|done].
    exists o. split; [cbn; by rewrite insert_id|]. subst changed. unfold counted_paid.
    destruct Fp as [Fp|Fp], Fv as [Fv|Fv], Fs as [Fs|Fs]; try by apply not_elem_of_nil in Fp || apply not_elem_of_nil in Fv || apply not_elem_of_nil in Fs.
    split; [done|]. split; [done|]. by rewrite bool_decide_true.
  - destruct (save_order k1 o1 changed now w) as [[o2|e] w1] eqn:Es; [|done].
    apply save_order_inv in Es as (p & row & _ & Hrow & _ & Hview).
    pose proof (service_view_side _ _ Hview) as Hside. unfold side_tables in Hside. injection Hside as _ _ _ _ _ Hsms.
    apply service_view_inv in Hview as (Hor & _). injection E as <- <- <-. rewrite Ho in Hrow. injection Hrow as <-.
    exists s, o. repeat (split; [tauto|]). cbn in Hor, Hsms. split; [|cbn; by rewrite Hsms].
    eexists. split; [cbn; exact Hor|]. unfold counted_paid.
    assert (Hleg : Order.status o1 <> Order.LEGACY_PENDING) by (rewrite Hst1; by case_bool_decide).
    split; [|split].
    + destruct (decide (Order.F_is_paid ∈ changed)); [by rewrite saved_is_paid|].
      rewrite saved_is_paid_kept by done. by destruct Fp.
    + destruct (decide (Order.F_verification_status ∈ changed)); [by rewrite saved_verification_status|].
      rewrite saved_verification_status_kept by done. by destruct Fv.
    + destruct (decide (Order.F_status ∈ changed)); [by rewrite saved_status|].
      rewrite saved_status_kept by done. destruct Fs as [?|Fs]; [done|]. by rewrite bool_decide_true.
Qed.

End Locked.

Section Confirm.
Context `{Env} `{DiscreetDelivery}.

Lemma approve_keeps_sms opk instance actor source notify now w r w' :
  approve_and_provision_order opk instance actor source notify now w = (r, w') ->
  payment_sms (db w') = payment_sms (db w) /\ delete opk (orders (db w')) = delete opk (orders (db w)).
Proof. intros E%approve_bystanders. unfold keeps, bystanders in E. injection E as Eo _ _ Es. auto. Qed.

Lemma confirm_inv pk choice user now w r w' :
  confirm_incoming_payment_sms pk choice user now w = (r, w') ->
  match r with
  | Raise _ => db w' = db w
  | Ret k => exists s o, payment_sms (db w) !! pk = Some s /\ orders (db w) !! k = Some o /\
      k ∈ matched_orders s /\ match choice with Some c => k = c | None => True end /\
      (status s = CONFIRMED /\ w' = w \/
       status s <> CONFIRMED /\ Order.status o <> Order.REJECTED /\ Order.status o <> Order.CANCELLED /\
       (forall k', k' <> k -> orders (db w') !! k' = orders (db w) !! k') /\
       payment_sms (db w') = <[pk := s {{ status := CONFIRMED; matched_orders ::= fun l => {[ k ]} ∪ l }}]>
                               (payment_sms (db w)) /\
       exists w1 row o1 x, orders (db w1) !! k = Some row /\ counted_paid o row /\
         approve_and_provision_order k o1 user "sms_auto_match" true now w1 = (x, w'))
  end.
Proof.
  unfold confirm_incoming_payment_sms. unfold mbind at 1, M_bind at 1.
  destruct (confirm_locked pk choice user now w) as [[[k fresh]|e] w1] eqn:E.
  2: { intros [= <- <-]. by apply atomic_Raise_db in E. }
  apply confirm_locked_inv in E as (s & o & Hs & Ho & Hm & Hch & Hf). destruct fresh as [o1|].
  2: { intros [= <- <-]. exists s, o. destruct Hf as [? ->]. repeat (split; [done|]). by left. }
  destruct Hf as (Hst & Hr & Hc & (row & Hor & Hpaid) & Hsms). unfold tried. run_io.
  destruct (approve_and_provision_order k o1 user "sms_auto_match" true now w1) as [x w2] eqn:Ea.
  pose proof (approve_keeps_sms _ _ _ _ _ _ _ _ _ Ea) as [Hsms2 Hor2]. intros [= <- <-].
  exists s, o. do 4 (split; [done|]). right. do 3 (split; [done|]). split; [|split].
  - intros k' Hk. rewrite <- (lookup_delete_ne _ k k'), Hor2, lookup_delete_ne, Hor by done.
    by apply lookup_insert_ne.
  - by rewrite Hsms2.
  - exists w1, row, o1, x. split; [rewrite Hor; apply lookup_insert_eq|]. done.
Qed.

(** Confirming a deposit pays one order, the one it was confirmed for: an
    order linked to the message - the one chosen, or the only one - and
    neither rejected nor cancelled.  It counts as paid and verified before
    delivery is attempted, the message is confirmed whatever delivery does, no
    other order changes; a refused confirmation changes nothing, a repeated
    one neither. *)
Theorem deposit_confirmation_outcome pk choice user now w r w' :
  confirm_incoming_payment_sms pk choice user now w = (r, w') ->
  match r with
  | Raise _ => db w' = db w
  | Ret k => exists s o, payment_sms (db w) !! pk = Some s /\ orders (db w) !! k = Some o /\
      k ∈ matched_orders s /\ match choice with Some c => k = c | None => True end /\
      (status s = CONFIRMED /\ w' = w \/
       status s <> CONFIRMED /\ Order.status o <> Order.REJECTED /\ Order.status o <> Order.CANCELLED /\
       (forall k', k' <> k -> orders (db w') !! k' = orders (db w) !! k') /\
       payment_sms (db w') = <[pk := s {{ status := CONFIRMED; matched_orders ::= fun l => {[ k ]} ∪ l }}]>
                               (payment_sms (db w)) /\
       exists w1 row o1 x, orders (db w1) !! k = Some row /\ counted_paid o row /\
         approve_and_provision_order k o1 user "sms_auto_match" true now w1 = (x, w'))
  end.
Proof. apply confirm_inv. Qed.

(** ** One deposit, one order *)

(** What the bank's messages and approvals may do next, short of dismissing. *)
Inductive bank_step : World -> World -> Prop :=
| bank_process pk notify w r w' : process_incoming_payment_sms pk notify w = (r, w') -> bank_step w w'
| bank_confirm pk choice user now w r w' :
    confirm_incoming_payment_sms pk choice user now w = (r, w') -> bank_step w w'
| bank_approve opk instance actor source notify now w r w' :
    approve_and_provision_order opk instance actor source notify now w = (r, w') -> bank_step w w'.

Definition sms_confirmed (pk : Z) (w : World) : Prop :=
  status <$> payment_sms (db w) !! pk = Some CONFIRMED.

Definition sms_of (w : World) := payment_sms (db w).
#[global] Instance keeps_sms_undoable : Undoable (keeps sms_of).
Proof. by intros w w' Hw. Qed.

Lemma notify_match_sms pk l : respects (keeps sms_of) (notify_match pk l).
Proof. unfold notify_match. walk; done. Qed.

Lemma process_inv pk notify w r w' :
  process_incoming_payment_sms pk notify w = (r, w') ->
  payment_sms (db w') = payment_sms (db w) \/
  exists s l, payment_sms (db w) !! pk = Some s /\ status s <> CONFIRMED /\
    payment_sms (db w') = <[pk := rematched l s]> (payment_sms (db w)).
Proof.
  unfold process_incoming_payment_sms. run_io. destruct (payment_sms (db w) !! pk) as [s|] eqn:Hs.
  2: { intros [= <- <-]. by left. }
  case_bool_decide as Hc; [intros [= <- <-]; by left|]. intros E. right.
  exists s, (find_matching_orders (amount s) (sms_datetime s) (db w)).*1.
  do 2 (split; [done|]). revert E. set (l := (find_matching_orders _ _ _).*1).
  destruct (_ && negb _); [|by intros [= <- <-]]. destruct (notify_match pk l _) as [x w2] eqn:En.
  apply notify_match_sms in En. unfold keeps, sms_of in En. destruct x; intros [= <- <-]; exact En.
Qed.

Lemma bank_step_confirmed pk w w' : bank_step w w' -> sms_confirmed pk w -> sms_confirmed pk w'.
Proof.
  unfold sms_confirmed. intros [k notify ? r ? E|k choice user now ? r ? E|? ? ? ? ? ? ? ? ? E] Hw.
  - apply process_inv in E as [->|(s & l & Hs & Hn & ->)]; [done|].
    destruct (decide (k = pk)) as [->|Hne]; [|by rewrite lookup_insert_ne].
    exfalso. rewrite Hs in Hw. apply Hn. by injection Hw.
  - apply confirm_inv in E. destruct r as [k'|e]; [|by rewrite E].
    destruct E as (s & o & Hs & _ & _ & _ & [[_ ->]|(_ & _ & _ & _ & -> & _)]); [done|].
    destruct (decide (k = pk)) as [->|Hne]; [by rewrite lookup_insert_eq|by rewrite lookup_insert_ne].
  - apply approve_keeps_sms in E as [-> _]. done.
Qed.

(** C20: One deposit pays one order: once a message has been confirmed, then,
    whatever is matched, confirmed or approved afterwards, confirming it again
    - for the same order or another - changes nothing. *)
Theorem deposit_pays_one_order pk choice user now w k w1 w2 choice' user' now' r w3 :
  confirm_incoming_payment_sms pk choice user now w = (Ret k, w1) -> rtc bank_step w1 w2 ->
  confirm_incoming_payment_sms pk choice' user' now' w2 = (r, w3) -> db w3 = db w2.
Proof.
  intros E Hsteps E2.
  assert (Hw1 : sms_confirmed pk w1).
  { unfold sms_confirmed. apply confirm_inv in E as (s & o & Hs & _ & _ & _ & [[Hst ->]|(_ & _ & _ & _ & -> & _)]).
    - by rewrite Hs, <- Hst.
    - by rewrite lookup_insert_eq. }
  assert (Hw2 : sms_confirmed pk w2).
  { clear E E2. induction Hsteps as [|? ? ? Hstep _ IH]; [done|]. by apply IH, (bank_step_confirmed _ _ _ Hstep). }
  apply confirm_inv in E2. destruct r as [k'|]; [|done].
  destruct E2 as (s & o & Hs & _ & _ & _ & [[_ ->]|(Hn & _)]); [done|].
  exfalso. unfold sms_confirmed in Hw2. rewrite Hs in Hw2. apply Hn. by injection Hw2.
Qed.
End Confirm.

(** ** The sample shop: a deposit of 200000 matches orders 1000 and 1001 *)

Definition sample_sms : incoming_payment_sms := {|
  raw_text := ""; amount := 200000; balance := 0; sms_datetime := 0; received_at := 0; status := NEW;
  matched_orders := ∅ |}.

Definition sample_bank : World := sample_shop {{ db -> payment_sms := {[ 1 := sample_sms ]} }}.

Definition sample_matched : World := (@process_incoming_payment_sms sample_env 1 true sample_bank).2.

Definition sample_confirm (choice : Z) (w : World) : result Z * World :=
  @confirm_incoming_payment_sms sample_env no_delivery 1 (Some choice) None 5 w.

Lemma sample_confirm_run :
  sample_confirm 1000 sample_matched = (Ret 1000, (sample_confirm 1000 sample_matched).2).
Proof.
  assert (Hr : (sample_confirm 1000 sample_matched).1 = Ret 1000) by (vm_compute; reflexivity).
  rewrite <- Hr. apply surjective_pairing.
Qed.

Lemma deposit_confirmation_outcome_witness :
  sms_confirmed 1 (sample_confirm 1000 sample_matched).2.
Proof.
  assert (Hn : (status <$> payment_sms (db sample_matched) !! 1) = Some MATCHED) by (vm_compute; reflexivity).
  destruct (@deposit_confirmation_outcome sample_env no_delivery no_delivery_discreet 1 (Some 1000) None 5
    sample_matched (Ret 1000) _ sample_confirm_run) as (s & o & Hs & _ & _ & _ & [[Hc _]|H]).
  - exfalso. rewrite Hs in Hn. cbn in Hn. congruence.
  - destruct H as (_ & _ & _ & _ & Hsms & _). unfold sms_confirmed. rewrite Hsms, lookup_insert_eq. reflexivity.
Defined.

Lemma deposit_pays_one_order_witness :
  let w1 := (sample_confirm 1000 sample_matched).2 in
  db (sample_confirm 1001 w1).2 = db w1.
Proof.
  intros w1. apply (@deposit_pays_one_order sample_env no_delivery no_delivery_discreet 1 (Some 1000) None 5
    sample_matched 1000 w1 w1 (Some 1001) None 5 (sample_confirm 1001 w1).1).
  - exact sample_confirm_run.
  - apply rtc_refl.
  - apply surjective_pairing.
Defined.

(** How an order stands. *)
Definition standing (opk : Z) (w : World) : option (bool * Order.verification_status_t) :=
  (fun o => (Order.is_paid o, Order.verification_status o)) <$> orders (db w) !! opk.

(** Dismissing does not look at the status: a message that already paid
    for order 1000, dismissed afterwards, can be confirmed again and then pays
    for order 1001 as well. *)
Theorem dismissed_deposit_pays_twice :
  let w1 := (sample_confirm 1000 sample_matched).2 in
  let w2 := (dismiss_incoming_payment_sms 1 w1).2 in
  let w3 := (sample_confirm 1001 w2).2 in
  standing 1001 w1 = Some (true, Order.V_PENDING) /\
  standing 1000 w3 = Some (true, Order.V_VERIFIED) /\ standing 1001 w3 = Some (true, Order.V_VERIFIED).
Proof. vm_compute. repeat split. Qed.
