(* ===== verification/SmsParser.v ===== *)
(** Messages of the bank: src/payments/sms_parser.py reads amount, balance and
    time out of one, src/payments/views.py receives it from the phone that
    forwards it, src/store/configuration_services.py says with which token and
    in which time zone.  [SmsSpec] proves the theorems.

    A message is read as its code points.  jdatetime, zoneinfo, [check_password]
    and the deployment's settings are functions of [Env]; a request comes with
    its body decoded and, when it is JSON, parsed. *)

From S2P Require Import Prelude Models World Numbers Provisioning Payments Regex.
Import PaymentSMS.

#[local] Open Scope string_scope.
#[local] Open Scope Z_scope.

(** ** Normal form *)

Definition zero_based (zero : Z) : list (Z * text) :=
  map (fun k => (zero + k, [48 + k])) [0; 1; 2; 3; 4; 5; 6; 7; 8; 9].

(** Persian and Arabic digits, two letters, three separators, and the invisible
    characters. *)
Definition DIGIT_TRANSLATION : list (Z * text) :=
  zero_based 1776 ++ zero_based 1632
  ++ [(1610, [1740]); (1603, [1705]); (1644, [44]); (1548, [44]); (8204, [32]); (8206, []); (8207, [])].

Definition translate (c : Z) : text :=
  match head (filter (fun kv : Z * text => kv.1 = c) DIGIT_TRANSLATION) with
  | Some kv => kv.2 | None => [c] end.

Definition normalize_sms_text (s : text) : text := concat (map translate s).

(** [SMSParseError]; it is a [ValueError]. *)
Definition sms_error {A} (message : string) : result A := Raise (ValueError message).

(** [int(digits)]: Python refuses more than 4300 digits. *)
Definition int_of (digits : text) : result Z :=
  if (4300 <? Z.of_nat (length digits)) then Raise (OtherError "ValueError")
  else Ret (fold_left (fun acc c => 10 * acc + default 0 (digit_value c)) digits 0).

Definition normalize_number (value : text) : result Z :=
  let digits := filter (fun c => Is_true (is_digit c)) (normalize_sms_text value) in
  if bool_decide (digits = []) then sms_error "Expected a numeric value." else int_of digits.

(** ** The expressions *)

Definition RIAL : text := [1585; 1740; 1575; 1604].
Definition BALANCE : text := [1605; 1608; 1580; 1608; 1583; 1740].
Definition DEPOSIT_KEYWORDS : list text := [[1608; 1575; 1585; 1740; 1586]; [1606; 1588; 1587; 1578];
  [1576; 1607; 32; 1581; 1587; 1575; 1576]; [1581; 1587; 1575; 1576; 32; 1588; 1605; 1575]].

Definition amount_char (c : Z) : bool := ascii_digit c || (c =? 44) || is_space c.
Definition colon (c : Z) : bool := (c =? 58) || (c =? 65306).
Definition date_separator (c : Z) : bool := (c =? 46) || (c =? 47) || (c =? 45).

Definition amount_token (group : string) : regex :=
  [Run (Some group) ascii_digit 1 (Some 1%nat); Run (Some group) amount_char 0 None].

Definition RIAL_AMOUNT_RE : regex := amount_token "amount" ++ any_number is_space :: literal RIAL.

Definition BALANCE_RE : regex :=
  literal BALANCE ++ any_number is_space :: Run None colon 0 (Some 1%nat) :: any_number is_space
  :: amount_token "balance" ++ any_number is_space :: literal RIAL.

Definition TIME_RE : regex :=
  [NotAfter is_digit; Run (Some "hour") is_digit 1 (Some 2%nat); any_number is_space;
   Run None colon 1 (Some 1%nat); any_number is_space; Run (Some "minute") is_digit 2 (Some 2%nat);
   NotBefore is_digit].

Definition DATE_RE : regex :=
  [NotAfter is_digit; Run (Some "year") is_digit 4 (Some 4%nat); any_number is_space;
   Run None date_separator 1 (Some 1%nat); any_number is_space;
   Run (Some "month") is_digit 1 (Some 2%nat); any_number is_space;
   Run None date_separator 1 (Some 1%nat); any_number is_space;
   Run (Some "day") is_digit 1 (Some 2%nat); NotBefore is_digit].

(** [match.group(name)] *)
Definition group (name : string) (caps : captures) : text := default [] (caps !! name).

Definition extract_balance (s : text) : result Z :=
  match search BALANCE_RE s with
  | Some caps => normalize_number (group "balance" caps)
  | None => sms_error "Could not find SMS balance."
  end.

(** The first amount on a line that speaks of a deposit; else the first of all. *)
Fixpoint deposit_of_lines (fallback : option text) (lines : list text) : result Z :=
  match lines with
  | [] => match fallback with
          | Some v => normalize_number v
          | None => sms_error "Could not find SMS deposit amount."
          end
  | line :: rest =>
      if contains BALANCE line then deposit_of_lines fallback rest
      else match search RIAL_AMOUNT_RE line with
      | None => deposit_of_lines fallback rest
      | Some caps =>
          let fallback := or_opt fallback (Some (group "amount" caps)) in
          if existsb (fun k => contains k line) DEPOSIT_KEYWORDS then normalize_number (group "amount" caps)
          else deposit_of_lines fallback rest
      end
  end.

Definition extract_deposit_amount (s : text) : result Z := deposit_of_lines None (splitlines s).

Section Parser.
Context `{Env}.

(** ** The time zone of bank messages *)

Definition DEFAULT_PAYMENT_SMS_TIME_ZONE : string := "Asia/Tehran".

Definition valid_timezone_name (value : string) : string :=
  let name := strip value in
  if bool_decide (name = "") then "" else if zone_known name then name else "".

Definition first_nonempty (names : list string) : option string := head (filter (fun n => n <> "") names).

Definition get_payment_sms_timezone_name (d : DB) : string :=
  let stores := order_by (fun ks => [if Store.is_active ks.2 then 0 else 1; ks.1])
    (rows_where (fun _ s => negb (bool_decide (Store.payment_sms_time_zone (Store.bank s) = ""))) (stores d)) in
  default DEFAULT_PAYMENT_SMS_TIME_ZONE (first_nonempty
    (map (fun ks => valid_timezone_name (Store.payment_sms_time_zone (Store.bank ks.2))) stores
     ++ [valid_timezone_name (legacy_setting "PAYMENT_SMS_TIME_ZONE")])).

(** ** Parsing *)

Record parsed_payment_sms := mk_parsed {
  parsed_amount : Z;
  parsed_balance : Z;
  parsed_datetime : Z;
}.

(** [int(match.group(name))] of a group of one to four digits. *)
Definition number_at (name : string) (caps : captures) : Z :=
  fold_left (fun acc c => 10 * acc + default 0 (digit_value c)) (group name caps) 0.

Definition extract_sms_datetime (zone : string) (s : text) : result Z :=
  match search TIME_RE s, search DATE_RE s with
  | None, _ => sms_error "Could not find SMS time."
  | Some _, None => sms_error "Could not find SMS Jalali date."
  | Some t, Some dt =>
      match jalali_instant zone (number_at "year" dt) (number_at "month" dt) (number_at "day" dt)
              (number_at "hour" t) (number_at "minute" t) with
      | Some instant => Ret instant
      | None => sms_error "SMS Jalali date/time is invalid."
      end
  end.

Definition parse_payment_sms (d : DB) (raw_text : string) : result parsed_payment_sms :=
  let s := normalize_sms_text (decode_utf8 raw_text) in
  a ← extract_deposit_amount s;
  b ← extract_balance s;
  t ← extract_sms_datetime (get_payment_sms_timezone_name d) s;
  Ret (mk_parsed a b t).

(** ** The token of the webhook *)

(** [_stores_with_smsforwarder_token_hash]: active shops first. *)
Definition token_hashes (d : DB) : list string :=
  map (fun ks => Store.smsforwarder_webhook_token_hash (Store.bank ks.2))
    (order_by (fun ks => [if Store.is_active ks.2 then 0 else 1; ks.1])
       (rows_where (fun _ s => negb (bool_decide (Store.smsforwarder_webhook_token_hash (Store.bank s) = "")))
          (stores d))).

Definition is_smsforwarder_webhook_token_configured (d : DB) : bool :=
  negb (bool_decide (token_hashes d = []))
  || negb (bool_decide (legacy_setting "SMSFORWARDER_WEBHOOK_TOKEN" = "")).

Definition verify_smsforwarder_webhook_token (d : DB) (raw_token : string) : bool :=
  let token := strip raw_token in
  if bool_decide (token = "") then false
  else existsb (check_password token) (token_hashes d)
       || (let legacy := legacy_setting "SMSFORWARDER_WEBHOOK_TOKEN" in
           negb (bool_decide (legacy = "")) && bool_decide (token = legacy)).

(** ** The request *)

(** [rq_body] is stripped; [rq_json] is what [json.loads] makes of it, [None]
    when it raises. *)
Record sms_request := mk_sms_request {
  rq_content_type : string;
  rq_header_token : string;
  rq_get_token : string;
  rq_post : list (string * string);
  rq_body : string;
  rq_json : option json;
}.

(** ["application/json" in content_type] *)
Definition is_json_request (rq : sms_request) : bool :=
  is_set (String.index 0 "application/json" (rq_content_type rq)).

Definition TEXT_KEYS : list string := ["raw_text"; "text"; "message"; "body"; "sms"; "content"].
Definition NESTED_KEYS : list string := ["data"; "payload"; "sms"].

(** The text under one of the keys, and else in one of the nested objects. *)
Fixpoint extract_text_from_payload (payload : json) : string :=
  match payload with
  | JStr s => strip s
  | JObj kv =>
      let direct := omap (fun key => match assoc key kv with Some (JStr s) => Some (strip s) | _ => None end) TEXT_KEYS in
      let nested := (fix nested (l : list (string * json)) : list (string * string) :=
        match l with [] => [] | (k, v) :: l' => (k, extract_text_from_payload v) :: nested l' end) kv in
      default "" (first_nonempty (direct ++ omap (fun key =>
        snd <$> head (filter (fun kt : string * string => kt.1 = key) nested)) NESTED_KEYS))
  | _ => ""
  end.

Definition extract_sms_text (rq : sms_request) : string :=
  if is_json_request rq && negb (bool_decide (rq_body rq = "")) then
    match rq_json rq with Some payload => extract_text_from_payload payload | None => "" end
  else if negb (bool_decide (rq_post rq = []))
  then extract_text_from_payload (JObj (map (fun kv => (kv.1, JStr kv.2)) (rq_post rq)))
  else rq_body rq.

Definition post_token (rq : sms_request) : string :=
  match assoc "token" (map (fun kv => (kv.1, JStr kv.2)) (rq_post rq)) with Some (JStr s) => s | _ => "" end.

Definition extract_webhook_token (rq : sms_request) : string :=
  let token := or_str (rq_header_token rq) (or_str (rq_get_token rq) (post_token rq)) in
  if negb (bool_decide (token = "")) then token
  else if negb (is_json_request rq) || bool_decide (rq_body rq = "") then ""
  else match rq_json rq with
       | Some (JObj kv) => match assoc "token" kv with Some (JStr s) => strip s | _ => "" end
       | _ => ""
       end.

(** ** The webhook *)

Inductive sms_response :=
| SmsRefused (code : Z) (error : string)
| SmsStored (sms_id : Z) (sms_status : status_t) (matched_order_ids : list Z).

(** The largest number a [PositiveBigIntegerField] holds; the database refuses
    a larger one. *)
Definition MAX_BIG_INTEGER : Z := 2 ^ 63 - 1.

Definition new_sms (raw_text : string) (p : parsed_payment_sms) (now : Z) : incoming_payment_sms := {|
  raw_text := raw_text; amount := parsed_amount p; balance := parsed_balance p;
  sms_datetime := parsed_datetime p; received_at := now; status := NEW; matched_orders := ∅ |}.

(** [IncomingPaymentSMS.objects.create(...)] *)
Definition create_payment_sms (raw_text : string) (p : parsed_payment_sms) (now : Z) : IO Z :=
  if (MAX_BIG_INTEGER <? parsed_amount p) || (MAX_BIG_INTEGER <? parsed_balance p)
  then raise (OtherError "DataError")
  else
    d ← get_db;
    let pk := next_pk (payment_sms d) in
    _ ← put_db (set_sms pk (new_sms raw_text p now));
    mret pk.

Definition smsforwarder_webhook (rq : sms_request) (now : Z) : IO sms_response :=
  d ← get_db;
  if negb (is_smsforwarder_webhook_token_configured d)
  then mret (SmsRefused 503 "SMS webhook token is not configured.")
  else if negb (verify_smsforwarder_webhook_token d (extract_webhook_token rq))
  then mret (SmsRefused 403 "Invalid webhook token.")
  else
    let raw_text := extract_sms_text rq in
    if bool_decide (raw_text = "") then mret (SmsRefused 400 "SMS text was not provided.")
    else match parse_payment_sms d raw_text with
    | Raise (ValueError message) => mret (SmsRefused 400 message)
    | Raise e => raise e
    | Ret p =>
        pk ← create_payment_sms raw_text p now;
        found ← process_incoming_payment_sms pk true;
        s ← get_or_raise (fun w => payment_sms (db w) !! pk);
        mret (SmsStored pk (status s) found)
    end.
End Parser.
