(* ===== verification/SmsSpec.v ===== *)
(** Bank messages are read right: whatever a bank writes around them, amount,
    balance and time of a deposit message are the ones it states, and the webhook
    stores exactly what was read. *)

From S2P Require Import Prelude Models World Numbers Provisioning Payments Regex SmsParser.
Import PaymentSMS.

#[local] Open Scope string_scope.
#[local] Open Scope list_scope.
#[local] Open Scope Z_scope.

(** ** A deposit message, in normal form *)

(** The pieces of a message: lines before the deposit, what surrounds the
    amount on its line, and the figures as written. *)
Record deposit_sms := mk_deposit {
  greeting : list text;
  before : text;
  written_amount : text;
  after : text;
  balance_mark : text;
  written_balance : text;
  hour : text;
  gap : text;
  time_colon : Z;
  minute : text;
  year : text;
  month : text;
  day : text;
  separator : Z;
}.

Definition deposit_line (m : deposit_sms) : text := before m ++ written_amount m ++ 32 :: RIAL ++ after m.
Definition balance_line (m : deposit_sms) : text := BALANCE ++ balance_mark m ++ [32] ++ written_balance m ++ 32 :: RIAL.
Definition time_line (m : deposit_sms) : text := hour m ++ gap m ++ time_colon m :: gap m ++ minute m.
Definition date_line (m : deposit_sms) : text := year m ++ separator m :: month m ++ separator m :: day m.

Definition join_lines (lines : list text) : text := concat (map (fun l => l ++ [10]) lines).

Definition message_text (m : deposit_sms) : text :=
  join_lines (greeting m) ++ deposit_line m ++ 10 :: balance_line m ++ 10 :: time_line m ++ 10 :: date_line m.

(** The number the digits of a text are. *)
Definition value (s : text) : Z :=
  fold_left (fun acc c => 10 * acc + default 0 (digit_value c)) (filter (fun c => Is_true (is_digit c)) s) 0.

(** Digits, with commas and spaces after the first. *)
Definition figure (s : text) : Prop :=
  (exists c s', s = c :: s' /\ ascii_digit c = true /\
     Forall (fun c => ascii_digit c = true \/ c = 44 \/ c = 32) s') /\ (Z.of_nat (length s) <= 4300).

Definition digits (least most : nat) (s : text) : Prop :=
  (least <= length s <= most)%nat /\ Forall (fun c => ascii_digit c = true) s.

(** No digit, no end of a line. *)
Definition words (s : text) : Prop := Forall (fun c => is_digit c = false /\ is_line_break c = false) s.

Record well_written (m : deposit_sms) : Prop := {
  ww_greeting : Forall (fun l => words l /\ contains BALANCE l = false) (greeting m);
  ww_before : words (before m);
  ww_after : words (after m);
  ww_deposit : contains BALANCE (deposit_line m) = false;
  ww_amount : figure (written_amount m);
  ww_balance : figure (written_balance m);
  ww_mark : balance_mark m = [] \/ exists c, balance_mark m = [c] /\ colon c = true;
  ww_gap : Forall (fun c => c = 32) (gap m);
  ww_colon : colon (time_colon m) = true;
  ww_hour : digits 1 2 (hour m);
  ww_minute : digits 2 2 (minute m);
  ww_year : digits 4 4 (year m);
  ww_month : digits 1 2 (month m);
  ww_day : digits 1 2 (day m);
  ww_separator : date_separator (separator m) = true;
}.

(** ** Characters *)

Lemma colon_spec c : colon c = true -> c = 58 \/ c = 65306.
Proof. unfold colon. rewrite orb_true_iff, !Z.eqb_eq. done. Qed.

Lemma colon_char c : colon c = true ->
  is_digit c = false /\ is_space c = false /\ is_line_break c = false /\ date_separator c = false /\ c <> 1585.
Proof. by intros [-> | ->]%colon_spec. Qed.

Lemma mark_chars m c : well_written m -> c ∈ balance_mark m -> is_digit c = false /\ is_line_break c = false.
Proof.
  intros Hm. destruct (ww_mark m Hm) as [->|(x & -> & (? & _ & ? & _)%colon_char)]; [by intros ?%not_elem_of_nil|].
  by intros ->%list_elem_of_singleton.
Qed.

Lemma ascii_digit_spec c : ascii_digit c = true -> digit_value c = Some (c - 48) /\ is_space c = false /\
  is_line_break c = false /\ colon c = false /\ date_separator c = false /\ c < 128.
Proof.
  intros H. assert (Hc : c ∈ [48; 49; 50; 51; 52; 53; 54; 55; 56; 57]).
  { unfold ascii_digit in H. apply andb_true_iff in H as [?%Z.leb_le ?%Z.leb_le]. rewrite !elem_of_cons. lia. }
  clear H. repeat (apply elem_of_cons in Hc as [->|Hc]; [vm_compute; done|]). by apply not_elem_of_nil in Hc.
Qed.

Lemma ascii_digit_digit c : ascii_digit c = true -> is_digit c = true.
Proof. intros H. unfold is_digit. by rewrite (proj1 (ascii_digit_spec c H)). Qed.

Lemma not_digit_ascii c : is_digit c = false -> ascii_digit c = false.
Proof. intros H. destruct (ascii_digit c) eqn:E; [|done]. apply ascii_digit_digit in E. congruence. Qed.

Lemma translate_ascii c : c < 128 -> translate c = [c].
Proof.
  intros Hc. unfold translate. assert (H : Forall (fun kv : Z * text => 128 <= kv.1) DIGIT_TRANSLATION).
  { apply (bool_decide_unpack _). vm_compute. done. }
  induction H as [|[k v] l Hk _ IH]; [done|]. rewrite filter_cons_False; [done|]. cbn in *. lia.
Qed.

Lemma normalize_ascii s : Forall (fun c => c < 128) s -> normalize_sms_text s = s.
Proof. induction 1 as [|c s Hc _ IH]; [done|]. unfold normalize_sms_text in *. cbn. by rewrite translate_ascii, IH. Qed.

(** ** Figures *)

Lemma figure_chars s : figure s -> Forall (fun c => ascii_digit c = true \/ c = 44 \/ c = 32) s.
Proof. intros [(c & s' & -> & Hc & Hs) _]. constructor; auto. Qed.

Lemma amount_char_spec c : (ascii_digit c = true \/ c = 44 \/ c = 32) ->
  amount_char c = true /\ is_line_break c = false /\ colon c = false /\ date_separator c = false /\ c < 128.
Proof.
  intros [H|[->|H]]; [|done|subst; done]. destruct (ascii_digit_spec c H) as (_ & _ & ? & ? & ? & ?).
  unfold amount_char. by rewrite H.
Qed.

Lemma normalize_figure s :
  figure s -> normalize_number (s ++ [32]) = Ret (value s).
Proof.
  intros Hf. unfold normalize_number. rewrite normalize_ascii.
  2: { apply Forall_app. split; [|by constructor]. eapply Forall_impl; [by apply figure_chars|].
       intros c Hc. by apply amount_char_spec. }
  rewrite filter_app, (filter_cons_False _ 32), filter_nil, app_nil_r
    by (replace (is_digit 32) with false by (vm_compute; reflexivity); exact id).
  assert (Hl : (length (filter (fun c => Is_true (is_digit c)) s) <= length s)%nat) by apply length_filter.
  destruct Hf as [(c & s' & -> & Hc & _) H]. rewrite bool_decide_false.
  - unfold int_of, value. rewrite (proj2 (Z.ltb_ge 4300 _)) by lia. reflexivity.
  - rewrite filter_cons_True; [done|]. by rewrite (ascii_digit_digit _ Hc).
Qed.

Lemma value_digits s : Forall (fun c => ascii_digit c = true) s -> filter (fun c => Is_true (is_digit c)) s = s.
Proof.
  induction 1 as [|c s Hc _ IH]; [done|]. rewrite filter_cons_True, IH; [done|]. by rewrite (ascii_digit_digit _ Hc).
Qed.

(** ** Where nothing matches *)

(** An expression for digits, spaces and a separator: nothing matches where the
    first character that is neither digit nor space is no separator. *)
Lemma no_separator_ahead sep g a b more prev u c v :
  Forall (fun x => sep x = false) u -> is_digit c = false -> is_space c = false -> sep c = false ->
  match_here (NotAfter is_digit :: Run g is_digit a b :: any_number is_space :: Run None sep 1 (Some 1%nat) :: more)
    prev (u ++ c :: v) = None.
Proof.
  intros Hu Hd Hs Hc. apply no_match. intros caps H. inversion H as [|? ? ? ? ? _ H1| |]; subst. clear H.
  inversion H1 as [| | |? ? ? ? ? ? r1 ? ? Hr1 _ H2 Hg Hp E]; subst. clear H1.
  inversion H2 as [| | |? ? ? ? ? ? r2 ? ? Hr2 _ H3]; subst. clear H2.
  inversion H3 as [| | |? ? ? ? ? ? r3 w ? Hr3 [Hl _] _]; subst. clear H3.
  destruct r3 as [|x r3]; [cbn in Hl; lia|]. apply Forall_cons in Hr3 as [Hx _]. unfold sat in Hx.
  rewrite app_assoc in E. assert (Hr : Forall (fun y => is_digit y = true \/ is_space y = true) (r1 ++ r2)).
  { apply Forall_app. split; eapply Forall_impl; [exact Hr1|by left|exact Hr2|by right]. }
  revert E. generalize (r1 ++ r2) Hr. intros r. clear -Hu Hd Hs Hc Hx. intros Hr. revert u Hu.
  induction Hr as [|y r Hy _ IH]; intros u Hu E.
  - destruct u as [|z u]; cbn in E; injection E as -> _; [by rewrite Hc in Hx|].
    apply Forall_cons in Hu as [Hz _]. by rewrite Hz in Hx.
  - destruct u as [|z u]; cbn in E; injection E as -> E.
    + destruct Hy; congruence.
    + apply Forall_cons in Hu as [_ Hu]. by apply (IH u).
Qed.

Lemma starts_with_digit g a b more prev c s :
  is_digit c = false -> (0 < a)%nat -> match_here (NotAfter is_digit :: Run g is_digit a b :: more) prev (c :: s) = None.
Proof.
  intros Hc Ha. apply no_match. intros caps H. inversion H as [|? ? ? ? ? _ H1| |]; subst. clear H.
  inversion H1 as [| | |? ? ? ? ? ? r ? ? Hr [Hl _] _ Hg Hp E]; subst. destruct r as [|x r]; [cbn in *; lia|].
  apply Forall_cons in Hr as [Hx _]. unfold sat in Hx. injection E as -> _. by rewrite Hc in Hx.
Qed.

Section Skipping.
Context (sep : Z -> bool) (g : option string) (a : nat) (b : option nat) (more : regex).
Hypothesis at_least_one : (0 < a)%nat.
Let items := NotAfter is_digit :: Run g is_digit a b :: any_number is_space :: Run None sep 1 (Some 1%nat) :: more.

Lemma skips_wordless s rest : Forall (fun c => is_digit c = false) s -> skips items s rest.
Proof. intros Hs. apply (skips_outside _ is_digit); [|done]. intros. by apply starts_with_digit. Qed.

(** A figure is passed over, whatever follows it is not a separator. *)
Lemma skips_figure s c rest :
  Forall (fun x => sep x = false) s -> is_digit c = false -> is_space c = false -> sep c = false ->
  skips items s (c :: rest).
Proof.
  intros Hs Hd Hsp Hc r (x & r' & -> & Hx & Hr)%suffixes_head prev. apply (no_separator_ahead sep); try done.
  apply Forall_forall. intros y Hy. rewrite Forall_forall in Hs. apply Hs. apply elem_of_cons in Hy as [->|Hy]; auto.
Qed.

(** A line of words with a figure in rials. *)
Lemma skips_rials s rest :
  figure s -> sep 1585 = false -> sep 32 = false -> Forall (fun x => sep x = false) s ->
  skips items (s ++ 32 :: RIAL) rest.
Proof.
  intros Hf Hr H32 Hs. change (s ++ 32 :: RIAL) with (s ++ [32] ++ RIAL). rewrite app_assoc. apply skips_app.
  - apply (skips_figure (s ++ [32]) 1585); [|vm_compute; reflexivity|reflexivity|done].
    apply Forall_app. split; [done|by constructor].
  - apply skips_wordless. repeat constructor.
Qed.
End Skipping.

Lemma words_wordless s : words s -> Forall (fun c => is_digit c = false) s.
Proof. intros H. eapply Forall_impl; [exact H|]. by intros c [? _]. Qed.

Lemma figure_outside sep s : figure s -> (forall c, ascii_digit c = true -> sep c = false) -> sep 44 = false -> sep 32 = false ->
  Forall (fun x => sep x = false) s.
Proof.
  intros Hf Hd H44 H32. eapply Forall_impl; [by apply figure_chars|]. intros c [H|[->| ->]]; auto.
Qed.

(** Everything before the line of the time. *)
Definition head_text (m : deposit_sms) : text :=
  join_lines (greeting m) ++ deposit_line m ++ 10 :: balance_line m ++ [10].

Lemma message_split m : message_text m = head_text m ++ time_line m ++ 10 :: date_line m.
Proof. unfold message_text, head_text. by rewrite <- !app_assoc, <- !app_comm_cons, <- !app_assoc. Qed.

Lemma join_wordless lines : Forall (fun l => words l /\ contains BALANCE l = false) lines ->
  Forall (fun c => is_digit c = false) (join_lines lines).
Proof.
  induction 1 as [|l lines [Hl _] _ IH]; [done|]. unfold join_lines in *. cbn [map concat]. rewrite !Forall_app.
  split; [split; [by apply words_wordless|repeat constructor]|done].
Qed.

Lemma head_skipped sep g a b more m rest : well_written m -> (0 < a)%nat ->
  (forall c, ascii_digit c = true -> sep c = false) -> sep 44 = false -> sep 32 = false -> sep 1585 = false ->
  skips (NotAfter is_digit :: Run g is_digit a b :: any_number is_space :: Run None sep 1 (Some 1%nat) :: more)
    (head_text m) rest.
Proof.
  intros Hm Ha Hd H44 H32 Hr. unfold head_text, deposit_line, balance_line.
  assert (Hf : forall s rest, figure s -> skips (NotAfter is_digit :: Run g is_digit a b :: any_number is_space
    :: Run None sep 1 (Some 1%nat) :: more) (s ++ 32 :: RIAL) rest).
  { intros s r Hs. apply skips_rials; try done. by apply figure_outside. }
  apply skips_app; [apply skips_wordless; [done|]; by apply join_wordless, ww_greeting|].
  rewrite <- app_assoc. apply skips_app; [apply skips_wordless; [done|]; by apply words_wordless, ww_before|].
  change (32 :: RIAL ++ after m) with ((32 :: RIAL) ++ after m). rewrite (app_assoc (written_amount m)), <- app_assoc.
  apply skips_app; [by apply Hf, ww_amount|].
  apply skips_app; [apply skips_wordless; [done|]; by apply words_wordless, ww_after|].
  change (10 :: (BALANCE ++ balance_mark m ++ [32] ++ ?x) ++ [10]) with ((10 :: BALANCE) ++ (balance_mark m ++ [32] ++ x) ++ [10]).
  rewrite <- !app_assoc. apply skips_app; [apply skips_wordless; [done|]; repeat constructor|].
  apply skips_app; [apply skips_wordless; [done|]; apply Forall_forall; intros c Hc; by destruct (mark_chars m c Hm Hc)|].
  apply skips_app; [apply skips_wordless; [done|]; by repeat constructor|]. rewrite (app_assoc (written_balance m)).
  apply skips_app; [by apply Hf, ww_balance|]. apply skips_wordless; [done|]. repeat constructor.
Qed.

(** ** Matching what is there *)

Lemma last_of_snoc prev s c : last_of prev (s ++ [c]) = Some c.
Proof. unfold last_of. by rewrite last_snoc. Qed.

Lemma match_literal w more prev s caps :
  match_here more (last_of prev w) s = Some caps -> match_here (literal w ++ more) prev (w ++ s) = Some caps.
Proof.
  revert prev. induction w as [|c w IH]; intros prev E; [exact E|].
  change (literal (c :: w) ++ more) with (Run None (Z.eqb c) 1 (Some 1%nat) :: (literal w ++ more)).
  apply (match_run_longest None _ _ _ _ _ [c]); [by constructor; [apply Z.eqb_refl|]|by split|by left|].
  apply IH. rewrite <- E. f_equal. unfold last_of. destruct w as [|y w]; [done|].
  change (last (c :: y :: w)) with (last (y :: w)). destruct (last (y :: w)) eqn:El; [done|]. by apply last_None in El.
Qed.

(** A run of characters that ends where its class ends. *)
Lemma match_class g t least most more prev r s caps :
  Forall (fun c => t c = true) r -> (least <= length r)%nat ->
  match most with Some m => (length r <= m)%nat | None => True end ->
  match s with c :: _ => t c | [] => false end = false ->
  match_here more (last_of prev r) s = Some caps ->
  match_here (Run g t least most :: more) prev (r ++ s) = Some (capture g r caps).
Proof. intros Hr Hl Hm He E. apply match_run_longest; [done|by split|by right|done]. Qed.

(** A run that reaches its bound. *)
Lemma match_bounded g t least m more prev r s caps :
  Forall (fun c => t c = true) r -> (least <= m)%nat -> length r = m ->
  match_here more (last_of prev r) s = Some caps ->
  match_here (Run g t least (Some m) :: more) prev (r ++ s) = Some (capture g r caps).
Proof. intros Hr Hl Hm E. apply match_run_longest; [done|split; lia|left; by rewrite Hm|done]. Qed.

Lemma match_one g t more prev c s caps :
  t c = true -> match_here more (Some c) s = Some caps ->
  match_here (Run g t 1 (Some 1%nat) :: more) prev (c :: s) = Some (capture g [c] caps).
Proof. intros Hc E. apply (match_bounded _ _ 1 1 _ _ [c]); [by repeat constructor|done|done|exact E]. Qed.

Lemma match_not_after t more prev s caps : match prev with Some c => t c | None => false end = false ->
  match_here more prev s = Some caps -> match_here (NotAfter t :: more) prev s = Some caps.
Proof. intros Hp E. cbn. by rewrite Hp. Qed.

Lemma match_not_before t more prev s caps : match s with c :: _ => t c | [] => false end = false ->
  match_here more prev s = Some caps -> match_here (NotBefore t :: more) prev s = Some caps.
Proof. intros Hs E. cbn. by rewrite Hs. Qed.

Lemma digits_run least most s : digits least most s -> Forall (fun c => is_digit c = true) s.
Proof. intros [_ H]. eapply Forall_impl; [exact H|]. apply ascii_digit_digit. Qed.

Lemma digits_head least most s c s' : digits least most s -> s = c :: s' -> is_space c = false.
Proof. intros [_ H] ->. apply Forall_cons in H as [H _]. by destruct (ascii_digit_spec _ H) as (_ & ? & _). Qed.

(** An amount in rials is captured with the space before the unit. *)
Lemma match_amount name s prev rest :
  figure s ->
  exists caps, match_here (amount_token name ++ any_number is_space :: literal RIAL) prev (s ++ 32 :: RIAL ++ rest) = Some caps
    /\ group name caps = s ++ [32].
Proof.
  intros [(c & s' & -> & Hc & Hs) _]. unfold amount_token. cbn [app].
  exists (capture (Some name) [c] (capture (Some name) (s' ++ [32]) (capture None [] ∅))). split.
  - apply match_one; [done|]. change (s' ++ 32 :: RIAL ++ rest) with (s' ++ [32] ++ (RIAL ++ rest)).
    rewrite app_assoc. apply match_class; [|cbn; lia|done|reflexivity|].
    + apply Forall_app. split; [|by constructor]. eapply Forall_impl; [exact Hs|]. intros x Hx. by apply amount_char_spec.
    + apply (match_class None is_space 0 None _ _ []); [constructor|cbn; lia|done|reflexivity|].
      rewrite <- (app_nil_r (literal RIAL)). by apply (match_literal RIAL [] _ rest).
  - unfold group, capture. by rewrite !lookup_insert_eq, lookup_empty, app_nil_r.
Qed.

(** ** The time of the deposit *)

Lemma head_ends m : exists s, head_text m = s ++ [10].
Proof. eexists. unfold head_text. rewrite !app_comm_cons, !app_assoc. reflexivity. Qed.

Definition time_caps (m : deposit_sms) : captures := capture (Some "hour") (hour m) (capture (Some "minute") (minute m) ∅).

Lemma match_time m prev rest : well_written m -> match prev with Some c => is_digit c | None => false end = false ->
  match_here TIME_RE prev (time_line m ++ 10 :: rest) = Some (time_caps m).
Proof.
  intros Hm Hp. pose proof (ww_hour m Hm) as Hh. pose proof (ww_minute m Hm) as Hmi. pose proof (ww_gap m Hm) as Hg.
  assert (Hsp : Forall (fun c => is_space c = true) (gap m)) by (eapply Forall_impl; [exact Hg|]; by intros c ->).
  unfold time_line, TIME_RE, time_caps. rewrite <- app_assoc, <- app_assoc, <- app_comm_cons, <- app_assoc.
  apply match_not_after; [done|]. apply match_class; [by eapply digits_run|apply Hh|apply Hh| |].
  { destruct Hg as [|c l -> _]; [by destruct (colon_char _ (ww_colon m Hm)) as (? & _)|vm_compute; reflexivity]. }
  change (capture (Some "minute") (minute m) ∅) with
    (capture None (gap m) (capture None [time_colon m] (capture None (gap m) (capture (Some "minute") (minute m) ∅)))).
  apply match_class; [done|lia|done|by destruct (colon_char _ (ww_colon m Hm)) as (_ & ? & _)|].
  apply match_one; [apply Hm|]. apply match_class; [done|lia|done| |].
  { destruct Hmi as [Hl Hd]. destruct Hd as [|c l Hc _]; [cbn in Hl; lia|]. by destruct (ascii_digit_spec _ Hc) as (_ & ? & _). }
  apply match_bounded; [by eapply digits_run|lia|destruct Hmi; lia|]. by apply match_not_before.
Qed.

Lemma search_time m : well_written m -> search TIME_RE (message_text m) = Some (time_caps m).
Proof.
  intros Hm. unfold search. rewrite message_split, search_skips.
  - destruct (head_ends m) as [s ->]. rewrite last_of_snoc. by apply search_here, match_time.
  - apply head_skipped; [done|lia| |done|done|done]. intros c Hc. by destruct (ascii_digit_spec c Hc) as (_ & _ & _ & ? & _).
Qed.

(** Fewer digits than wanted. *)
Lemma too_few_digits g a b more prev u c v :
  is_digit c = false -> (length u < a)%nat ->
  match_here (NotAfter is_digit :: Run g is_digit a b :: more) prev (u ++ c :: v) = None.
Proof.
  intros Hc Hu. apply no_match. intros caps H. inversion H as [|? ? ? ? ? _ H1| |]; subst. clear H.
  inversion H1 as [| | |? ? ? ? ? ? r ? ? Hr [Hl _] _ Hg Hp E]; subst. clear H1.
  assert (Hi : (r ++ s) !! length u = Some c) by (rewrite E; by apply list_lookup_middle).
  rewrite lookup_app_l in Hi by lia. rewrite Forall_lookup in Hr. specialize (Hr _ _ Hi). unfold sat in Hr.
  by rewrite Hc in Hr.
Qed.

Lemma suffixes_length s r : r ∈ suffixes s -> (length r <= length s)%nat.
Proof.
  induction s as [|c s IH]; cbn; [by intros ?%not_elem_of_nil|]. intros [->|Hr%IH]%elem_of_cons; cbn; lia.
Qed.

Definition date_caps (m : deposit_sms) : captures :=
  capture (Some "year") (year m) (capture (Some "month") (month m) (capture (Some "day") (day m) ∅)).

Lemma match_empty_class t more prev s caps :
  match s with c :: _ => t c | [] => false end = false ->
  match_here more (last_of prev []) s = Some caps -> match_here (any_number t :: more) prev s = Some caps.
Proof. intros Hs E. by apply (match_class None t 0 None more prev [] s caps). Qed.

Lemma digits_next least most s rest : digits least most s -> (0 < least)%nat ->
  match s ++ rest with c :: _ => is_space c | [] => false end = false.
Proof.
  intros [Hl Hd] H0. destruct Hd as [|c s Hc _]; [cbn in Hl; lia|]. by destruct (ascii_digit_spec _ Hc) as (_ & ? & _).
Qed.

Lemma match_date m prev : well_written m -> match prev with Some c => is_digit c | None => false end = false ->
  match_here DATE_RE prev (date_line m) = Some (date_caps m).
Proof.
  intros Hm Hp. pose proof (ww_year m Hm) as Hy. pose proof (ww_month m Hm) as Hmo. pose proof (ww_day m Hm) as Hd.
  pose proof (ww_separator m Hm) as Hs.
  assert (Hns : is_space (separator m) = false /\ is_digit (separator m) = false).
  { unfold date_separator in Hs. rewrite !orb_true_iff, !Z.eqb_eq in Hs. destruct Hs as [[->| ->]| ->]; done. }
  unfold date_line, DATE_RE, date_caps. apply match_not_after; [done|].
  apply match_bounded; [by eapply digits_run|lia|destruct Hy; lia|].
  apply match_empty_class; [apply Hns|].
  change (capture (Some "month") (month m) (capture (Some "day") (day m) ∅)) with
    (capture None [separator m] (capture (Some "month") (month m) (capture None [separator m] (capture (Some "day") (day m) ∅)))).
  apply match_one; [done|]. apply match_empty_class; [eapply digits_next; [done|lia]|].
  apply match_class; [by eapply digits_run|apply Hmo|apply Hmo|apply Hns|].
  apply match_empty_class; [apply Hns|]. apply match_one; [done|].
  apply match_empty_class; [rewrite <- (app_nil_r (day m)); eapply digits_next; [done|lia]|].
  rewrite <- (app_nil_r (day m)) at 1. apply match_class; [by eapply digits_run|apply Hd|apply Hd|done|].
  by apply match_not_before.
Qed.

Lemma search_date m : well_written m -> search DATE_RE (message_text m) = Some (date_caps m).
Proof.
  intros Hm. pose proof (ww_minute m Hm) as [Hmi _]. pose proof (ww_hour m Hm) as [_ Hh]. pose proof (ww_gap m Hm) as Hg.
  unfold search. rewrite message_split, search_skips.
  2: { apply head_skipped; [done|lia| |done|done|done]. intros c Hc. by destruct (ascii_digit_spec c Hc) as (_ & _ & _ & _ & ? & _). }
  change (time_line m ++ 10 :: date_line m) with (time_line m ++ [10] ++ date_line m). rewrite app_assoc, search_skips.
  - rewrite last_of_snoc. by apply search_here, match_date.
  - unfold time_line. rewrite app_assoc, <- app_assoc. apply skips_app.
    + destruct (colon_char _ (ww_colon m Hm)) as (? & ? & _ & ? & _). apply (skips_figure date_separator); [|done..].
      apply Forall_app. split; eapply Forall_impl; [exact Hh| |exact Hg|by intros c ->].
      intros c Hc. by destruct (ascii_digit_spec c Hc) as (_ & _ & _ & _ & ? & _).
    + rewrite app_comm_cons, <- app_assoc. apply skips_app; [|apply skips_app].
      * apply skips_wordless; [lia|]. constructor; [by destruct (colon_char _ (ww_colon m Hm)) as (? & _)|].
        eapply Forall_impl; [exact Hg|by intros c ->].
      * intros r Hr prev. apply suffixes_length in Hr. apply too_few_digits; [done|lia].
      * apply skips_wordless; [lia|]. by constructor.
Qed.

(** ** The balance *)

Lemma match_literal_starts w more prev s caps : Matches (literal w ++ more) prev s caps -> starts_with w s = true.
Proof.
  revert prev s caps. induction w as [|c w IH]; intros prev s caps H; [done|].
  inversion H as [| | |? ? ? ? ? ? r s' ? Hr [Hl Hm] H1]; subst. destruct r as [|x [|]]; [cbn in Hl; lia| |cbn in Hm; lia].
  apply Forall_cons in Hr as [Hx _]. unfold sat in Hx. cbn. rewrite Hx. by eapply IH.
Qed.

Lemma starts_before_break w s rest : 10 ∉ w -> starts_with w (s ++ 10 :: rest) = true -> starts_with w s = true.
Proof.
  revert s. induction w as [|c w IH]; intros s Hw H; [done|]. apply not_elem_of_cons in Hw as [Hc Hw].
  destruct s as [|x s]; cbn in *.
  - apply andb_true_iff in H as [H%Z.eqb_eq _]. congruence.
  - apply andb_true_iff in H as [-> H]. by apply IH.
Qed.

Lemma starts_contains w s r : r ∈ suffixes s -> starts_with w r = true -> contains w s = true.
Proof.
  intros Hr Hw. induction s as [|c s IH]; cbn [suffixes contains] in *; [by apply not_elem_of_nil in Hr|].
  apply elem_of_cons in Hr as [->|Hr]; [by rewrite Hw|]. rewrite IH by done. apply orb_true_r.
Qed.

Lemma skips_line l rest : contains BALANCE l = false -> skips BALANCE_RE (l ++ [10]) rest.
Proof.
  intros Hl r Hr prev. apply no_match. intros caps H%match_literal_starts.
  apply suffixes_app in Hr as [(r1 & Hr & ->)|Hr].
  - rewrite <- app_assoc in H. apply starts_before_break in H; [|unfold BALANCE; rewrite !elem_of_cons, elem_of_nil; lia].
    by rewrite (starts_contains _ _ _ Hr H) in Hl.
  - cbn in Hr. apply elem_of_cons in Hr as [->|Hr]; [done|by apply not_elem_of_nil in Hr].
Qed.

Lemma search_balance m : well_written m -> exists caps, search BALANCE_RE (message_text m) = Some caps /\
  group "balance" caps = written_balance m ++ [32].
Proof.
  intros Hm. unfold search, message_text. rewrite search_skips.
  2: { pose proof (ww_greeting m Hm) as Hg. unfold join_lines. induction Hg as [|l ls [_ Hl] _ IH]; [by intros ? ?%not_elem_of_nil|].
       cbn [map concat]. apply skips_app; [by apply skips_line|exact IH]. }
  change (deposit_line m ++ 10 :: ?x) with (deposit_line m ++ [10] ++ x). rewrite app_assoc.
  rewrite search_skips by apply skips_line, Hm. unfold balance_line. rewrite <- !app_assoc.
  destruct (match_amount "balance" (written_balance m) (Some 32) (10 :: time_line m ++ 10 :: date_line m) (ww_balance m Hm))
    as (caps & E & Hg).
  assert (Hfig : match written_balance m ++ 32 :: RIAL ++ 10 :: time_line m ++ 10 :: date_line m with
    c :: _ => is_space c | [] => false end = false).
  { destruct (ww_balance m Hm) as [(c & s' & -> & Hc & _) _]. by destruct (ascii_digit_spec c Hc) as (_ & ? & _). }
  exists (match balance_mark m with
    | [] => capture None [32] (capture None [] (capture None [] caps))
    | mark => capture None [] (capture None mark (capture None [32] caps)) end).
  split.
  2: { rewrite <- Hg. by destruct (balance_mark m). }
  apply search_here, (match_literal BALANCE). destruct (ww_mark m Hm) as [-> | (c & -> & Hc)].
  - apply (match_class None is_space 0 None _ _ [32]); [by constructor|cbn; lia|done|exact Hfig|].
    apply (match_class None colon 0 (Some 1%nat) _ _ []); [constructor|lia|cbn; lia| |].
    { destruct (ww_balance m Hm) as [(c & s' & -> & Hc & _) _]. by destruct (ascii_digit_spec c Hc) as (_ & _ & _ & ? & _). }
    apply (match_class None is_space 0 None _ _ []); [constructor|lia|done|exact Hfig|exact E].
  - destruct (colon_char c Hc) as (_ & Hs & _).
    apply (match_class None is_space 0 None _ _ [] ([c; 32] ++ _)); [constructor|lia|done|exact Hs|].
    apply (match_bounded None colon 0 1 _ _ [c] ([32] ++ _)); [by constructor|lia|done|].
    apply (match_class None is_space 0 None _ _ [32]); [by constructor|cbn; lia|done|exact Hfig|exact E].
Qed.

(** ** The amount *)

Definition unbroken (s : text) : Prop := Forall (fun c => is_line_break c = false) s.

Lemma splitlines_line acc l rest : unbroken l -> splitlines_onto acc (l ++ 10 :: rest) = (acc ++ l) :: splitlines_onto [] rest.
Proof.
  intros Hl. revert acc. induction Hl as [|c l Hc _ IH]; intros acc; cbn.
  - rewrite app_nil_r. f_equal. destruct rest as [|x rest]; [done|]. by repeat case_match.
  - rewrite Hc, IH. by rewrite <- app_assoc.
Qed.

Lemma splitlines_last acc l : unbroken l -> acc ++ l <> [] -> splitlines_onto acc l = [acc ++ l].
Proof.
  intros Hl. revert acc. induction Hl as [|c l Hc _ IH]; intros acc Hn; cbn.
  - rewrite app_nil_r in *. by destruct acc.
  - rewrite Hc, IH; rewrite <- app_assoc; done.
Qed.

Lemma words_unbroken s : words s -> unbroken s.
Proof. intros H. eapply Forall_impl; [exact H|]. by intros c [_ ?]. Qed.

Lemma figure_unbroken s : figure s -> unbroken s.
Proof. intros H. eapply Forall_impl; [by apply figure_chars|]. intros c Hc. by apply amount_char_spec. Qed.

Lemma digits_unbroken least most s : digits least most s -> unbroken s.
Proof. intros [_ H]. eapply Forall_impl; [exact H|]. intros c Hc. by destruct (ascii_digit_spec c Hc) as (_ & _ & ? & _). Qed.

Lemma unbroken_app s1 s2 : unbroken s1 -> unbroken s2 -> unbroken (s1 ++ s2).
Proof. intros H1 H2. apply Forall_app. by split. Qed.

Lemma unbroken_rial rest : unbroken rest -> unbroken (32 :: RIAL ++ rest).
Proof. intros H. apply (unbroken_app (32 :: RIAL)); [by repeat constructor|done]. Qed.

Lemma lines_of_message m : well_written m ->
  splitlines (message_text m) = greeting m ++ [deposit_line m; balance_line m; time_line m; date_line m].
Proof.
  intros Hm. assert (Hgap : unbroken (gap m)) by (eapply Forall_impl; [apply Hm|]; by intros c ->).
  assert (Hsep : is_line_break (separator m) = false).
  { pose proof (ww_separator m Hm) as Hs. unfold date_separator in Hs. rewrite !orb_true_iff, !Z.eqb_eq in Hs.
    destruct Hs as [[->| ->]| ->]; done. }
  unfold splitlines, message_text, join_lines. pose proof (ww_greeting m Hm) as Hg.
  induction Hg as [|l ls [Hl _] _ IH]; cbn [map concat app].
  - rewrite (splitlines_line [] (deposit_line m)).
    2: { apply unbroken_app; [by apply words_unbroken, Hm|]. apply unbroken_app; [by apply figure_unbroken, Hm|].
         apply unbroken_rial, words_unbroken, Hm. }
    rewrite (splitlines_line [] (balance_line m)).
    2: { unfold balance_line. apply unbroken_app; [by repeat constructor|].
         apply unbroken_app; [apply Forall_forall; intros c Hc; by destruct (mark_chars m c Hm Hc)|].
         apply unbroken_app; [by repeat constructor|].
         apply unbroken_app; [by apply figure_unbroken, Hm|]. rewrite <- (app_nil_r RIAL). apply unbroken_rial. constructor. }
    rewrite (splitlines_line [] (time_line m)).
    2: { apply unbroken_app; [by eapply digits_unbroken, Hm|]. apply unbroken_app; [done|].
         constructor; [by destruct (colon_char _ (ww_colon m Hm)) as (_ & _ & ? & _)|].
         apply unbroken_app; [done|]. by eapply digits_unbroken, Hm. }
    rewrite splitlines_last; [done| |].
    + apply unbroken_app; [by eapply digits_unbroken, Hm|]. constructor; [done|].
      apply unbroken_app; [by eapply digits_unbroken, Hm|]. constructor; [done|]. by eapply digits_unbroken, Hm.
    + unfold date_line. by destruct (year m).
  - rewrite <- (app_assoc l), <- app_assoc. cbn [app]. rewrite splitlines_line by (by apply words_unbroken). by rewrite IH.
Qed.

Lemma search_nothing items s : skips items s [] -> (forall prev, match_here items prev [] = None) -> search items s = None.
Proof.
  intros Hs Hn. unfold search. rewrite <- (app_nil_r s), search_skips by done. cbn. by rewrite Hn.
Qed.

(** Without digits, or without the unit, there is no amount. *)
Lemma no_amount_in_words s : Forall (fun c => is_digit c = false) s -> search RIAL_AMOUNT_RE s = None.
Proof.
  intros Hs. apply search_nothing; [|done]. apply (skips_outside _ ascii_digit).
  - intros prev c s' Hc. unfold RIAL_AMOUNT_RE, amount_token. cbn. by rewrite Hc.
  - eapply Forall_impl; [exact Hs|]. intros c. apply not_digit_ascii.
Qed.

Lemma no_amount_without_unit s : 1585 ∉ s -> search RIAL_AMOUNT_RE s = None.
Proof.
  intros Hs. assert (Hn : forall r prev, 1585 ∉ r -> match_here RIAL_AMOUNT_RE prev r = None).
  { intros r prev Hr. apply no_match. intros caps H. apply Hr. clear -H.
    inversion H as [| | |? ? ? ? ? ? r1 s1 ? _ _ H1]; subst. inversion H1 as [| | |? ? ? ? ? ? r2 s2 ? _ _ H2]; subst.
    inversion H2 as [| | |? ? ? ? ? ? r3 s3 ? _ _ H3]; subst. apply (match_literal_starts RIAL []) in H3.
    destruct s3 as [|c s3]; [done|]. unfold RIAL in H3. cbn [starts_with] in H3. apply andb_true_iff in H3 as [<-%Z.eqb_eq _].
    rewrite !elem_of_app. right. right. right. by left. }
  apply search_nothing; [|done]. intros r Hr prev. rewrite app_nil_r. apply Hn. intros Hin. apply Hs.
  apply suffixes_head in Hr as (c & r' & -> & Hc & Hr). apply elem_of_cons in Hin as [<-|Hin]; auto.
Qed.

Lemma search_deposit m : well_written m -> exists caps, search RIAL_AMOUNT_RE (deposit_line m) = Some caps /\
  group "amount" caps = written_amount m ++ [32].
Proof.
  intros Hm. unfold search, deposit_line. rewrite search_skips.
  2: { apply (skips_outside _ ascii_digit).
       - intros prev c s' Hc. unfold RIAL_AMOUNT_RE, amount_token. cbn. by rewrite Hc.
       - eapply Forall_impl; [apply (ww_before m Hm)|]. intros c [Hc _]. by apply not_digit_ascii. }
  destruct (match_amount "amount" (written_amount m) (last_of None (before m)) (after m) (ww_amount m Hm)) as (caps & E & Hg).
  exists caps. split; [by apply search_here|done].
Qed.

Lemma line_without_amount fallback s rest : search RIAL_AMOUNT_RE s = None ->
  deposit_of_lines fallback (s :: rest) = deposit_of_lines fallback rest.
Proof. intros E. cbn [deposit_of_lines]. rewrite E. by destruct (contains BALANCE s). Qed.

Lemma line_of_balance fallback s rest : contains BALANCE s = true ->
  deposit_of_lines fallback (s :: rest) = deposit_of_lines fallback rest.
Proof. intros E. cbn [deposit_of_lines]. by rewrite E. Qed.

Lemma line_with_amount s rest caps : contains BALANCE s = false -> search RIAL_AMOUNT_RE s = Some caps ->
  deposit_of_lines None (s :: rest) = if existsb (fun k => contains k s) DEPOSIT_KEYWORDS
    then normalize_number (group "amount" caps) else deposit_of_lines (Some (group "amount" caps)) rest.
Proof. intros Hb E. cbn [deposit_of_lines]. by rewrite Hb, E. Qed.

Lemma digits_no_unit least most s : digits least most s -> 1585 ∉ s.
Proof. intros [_ Hd] Hin. rewrite Forall_forall in Hd. by specialize (Hd _ Hin). Qed.

(** The lines of the time and of the date do not speak of rials. *)
Lemma no_unit_after m : well_written m -> 1585 ∉ time_line m /\ 1585 ∉ date_line m.
Proof.
  intros Hm. assert (Hgap : 1585 ∉ gap m).
  { intros Hin. pose proof (ww_gap m Hm) as Hgap. rewrite Forall_forall in Hgap. by specialize (Hgap _ Hin). }
  assert (Hcol : 1585 <> time_colon m) by (by destruct (colon_char _ (ww_colon m Hm)) as (_ & _ & _ & _ & ?); congruence).
  assert (Hs : 1585 <> separator m) by (intros Hs; pose proof (ww_separator m Hm) as H; by rewrite <- Hs in H).
  pose proof (digits_no_unit _ _ _ (ww_hour m Hm)). pose proof (digits_no_unit _ _ _ (ww_minute m Hm)).
  pose proof (digits_no_unit _ _ _ (ww_year m Hm)). pose proof (digits_no_unit _ _ _ (ww_month m Hm)).
  pose proof (digits_no_unit _ _ _ (ww_day m Hm)).
  unfold time_line, date_line. by repeat (rewrite elem_of_app || rewrite elem_of_cons); naive_solver lia.
Qed.

Lemma deposit_amount m : well_written m -> extract_deposit_amount (message_text m) = Ret (value (written_amount m)).
Proof.
  intros Hm. unfold extract_deposit_amount. rewrite lines_of_message by done.
  pose proof (ww_greeting m Hm) as Hg. induction Hg as [|l ls [Hl _] _ IH]; cbn [app].
  2: { rewrite line_without_amount; [exact IH|]. by apply no_amount_in_words, words_wordless. }
  destruct (search_deposit m Hm) as (caps & E & Hcaps).
  rewrite (line_with_amount _ _ _ (ww_deposit m Hm) E), Hcaps.
  destruct (existsb _ DEPOSIT_KEYWORDS); [by apply normalize_figure, Hm|].
  destruct (no_unit_after m Hm) as [Ht Hd].
  rewrite line_of_balance by (vm_compute; reflexivity).
  rewrite !line_without_amount by (by apply no_amount_without_unit).
  apply normalize_figure, Hm.
Qed.

(** ** The theorems *)

Section Reading.
Context `{Env}.

Lemma number_of_group name least most s caps :
  digits least most s -> group name caps = s -> number_at name caps = value s.
Proof. intros [_ Hs] Hg. unfold number_at, value. by rewrite Hg, value_digits. Qed.

Lemma groups_of_message m :
  group "hour" (time_caps m) = hour m /\ group "minute" (time_caps m) = minute m /\
  group "year" (date_caps m) = year m /\ group "month" (date_caps m) = month m /\ group "day" (date_caps m) = day m.
Proof.
  unfold group, time_caps, date_caps, capture.
  repeat split; repeat (rewrite lookup_insert_eq || rewrite lookup_insert_ne by done || rewrite lookup_empty);
    apply app_nil_r.
Qed.

(** C21: A bank's message is read for what it says.  Whatever lines of words come
    first and whatever words surround the amount on its line - words have no
    digits, and none of these lines speaks of a balance - whichever digits (Latin,
    Persian, Arabic), separators and colons (ASCII, full-width, or none after the
    word for the balance) are used, amount and balance come out as the numbers
    written and the time as the instant that date and time of day are in the
    shop's time zone; only a date or time that does not exist is refused. *)
Theorem bank_message_read d raw m :
  normalize_sms_text (decode_utf8 raw) = message_text m -> well_written m ->
  parse_payment_sms d raw =
    match jalali_instant (get_payment_sms_timezone_name d) (value (year m)) (value (month m)) (value (day m))
            (value (hour m)) (value (minute m)) with
    | Some instant => Ret (mk_parsed (value (written_amount m)) (value (written_balance m)) instant)
    | None => Raise (ValueError "SMS Jalali date/time is invalid.")
    end.
Proof.
  intros Hraw Hm. unfold parse_payment_sms. rewrite Hraw, deposit_amount by done. cbn [mbind result_bind].
  destruct (search_balance m Hm) as (caps & E & Hcaps). unfold extract_balance.
  rewrite E, Hcaps, normalize_figure by apply Hm. cbn [mbind result_bind].
  unfold extract_sms_datetime. rewrite search_time, search_date by done.
  destruct (groups_of_message m) as (Hh & Hmi & Hy & Hmo & Hd).
  rewrite (number_of_group "year" _ _ _ _ (ww_year m Hm) Hy), (number_of_group "month" _ _ _ _ (ww_month m Hm) Hmo),
    (number_of_group "day" _ _ _ _ (ww_day m Hm) Hd), (number_of_group "hour" _ _ _ _ (ww_hour m Hm) Hh),
    (number_of_group "minute" _ _ _ _ (ww_minute m Hm) Hmi).
  by destruct (jalali_instant _ _ _ _ _ _).
Qed.

(** ** What the webhook stores *)

Lemma digit_of_zeros zeros c v :
  head (omap (fun z => if (z <=? c) && (c <=? z + 9) then Some (c - z) else None) zeros) = Some v -> 0 <= v.
Proof.
  induction zeros as [|z zeros IH]; cbn; [done|]. destruct ((z <=? c) && (c <=? z + 9)) eqn:E; [|exact IH].
  intros [= <-]. apply andb_true_iff in E as [?%Z.leb_le _]. lia.
Qed.

Lemma digit_value_nonneg c : 0 <= default 0 (digit_value c).
Proof.
  unfold digit_value. generalize digit_zeros. intros zeros.
  destruct (head _) as [v|] eqn:E; [exact (digit_of_zeros _ _ _ E)|done].
Qed.

Lemma horner_nonneg s acc : 0 <= acc -> 0 <= fold_left (fun acc c => 10 * acc + default 0 (digit_value c)) s acc.
Proof. revert acc. induction s as [|c s IH]; intros acc Ha; cbn; [done|]. apply IH. pose proof (digit_value_nonneg c). lia. Qed.

Lemma normalize_number_nonneg s n : normalize_number s = Ret n -> 0 <= n.
Proof.
  unfold normalize_number. case_match; [done|]. unfold int_of. case_match; [done|]. intros [= <-]. by apply horner_nonneg.
Qed.

Lemma deposit_nonneg lines fallback n : deposit_of_lines fallback lines = Ret n -> 0 <= n.
Proof.
  revert fallback. induction lines as [|l ls IH]; intros f; cbn [deposit_of_lines].
  - destruct f; [apply normalize_number_nonneg|done].
  - destruct (contains BALANCE l); [apply IH|]. destruct (search RIAL_AMOUNT_RE l); [|apply IH].
    destruct (existsb _ _); [apply normalize_number_nonneg|apply IH].
Qed.

Lemma parsed_nonneg d raw p : parse_payment_sms d raw = Ret p -> 0 <= parsed_amount p /\ 0 <= parsed_balance p.
Proof.
  unfold parse_payment_sms. intros (a & Ha & (b & Hb & (t & _ & [= <-])%result_bind_Ret)%result_bind_Ret)%result_bind_Ret.
  split; [by eapply deposit_nonneg|]. unfold extract_balance in Hb. case_match; [|done]. by eapply normalize_number_nonneg.
Qed.

(** Telling the administrators changes nothing in the database. *)
Lemma notify_match_db pk found : respects (keeps db) (notify_match pk found).
Proof. unfold notify_match. walk; done. Qed.
End Reading.

Section Webhook.
Context `{Env}.

(** A stored message: the row the webhook adds, from what was read. *)
Definition stored_sms (raw : string) (p : parsed_payment_sms) (now : Z) (found : list Z) : incoming_payment_sms :=
  rematched found (new_sms raw p now).

Lemma process_new_sms pk s w w' found :
  payment_sms (db w) !! pk = Some s -> status s = NEW ->
  process_incoming_payment_sms pk true w = (Ret found, w') ->
  found = (find_matching_orders (amount s) (sms_datetime s) (db w)).*1 /\
  db w' = set_sms pk (rematched found s) (db w).
Proof.
  intros Hs Hn E. unfold process_incoming_payment_sms in E.
  apply M_bind_Ret in E as (s' & w1 & [Hs' ->]%get_or_raise_Ret & E). rewrite Hs in Hs'. injection Hs' as <-.
  apply M_bind_Ret in E as (d & w2 & [= <- <-] & E). rewrite Hn in E. cbn [bool_decide] in E.
  rewrite bool_decide_false in E by done. cbv zeta in E.
  apply M_bind_Ret in E as (u & w3 & [= _ <-] & E). apply M_bind_Ret in E as (u' & w4 & Ew & [= <- <-]).
  split; [done|]. destruct (_ && negb _) in Ew; [|by injection Ew as _ <-].
  apply notify_match_db in Ew. exact Ew.
Qed.

(** C22: The webhook stores what was read and nothing else.  A request that is
    refused - no token configured, a wrong one, no text, a text that cannot be
    read - changes nothing.  A request that is answered carried a valid token
    and a readable text; one message is added, with that text and the amount,
    the balance and the time read from it, both amounts within the column's
    range, linked to the pending orders its amount and time match; no order
    changes. *)
Theorem webhook_outcome rq now w resp w' :
  smsforwarder_webhook rq now w = (Ret resp, w') ->
  match resp with
  | SmsRefused code _ => w' = w /\ code ∈ [503; 403; 400]
  | SmsStored pk st found =>
      verify_smsforwarder_webhook_token (db w) (extract_webhook_token rq) = true /\
      exists p, parse_payment_sms (db w) (extract_sms_text rq) = Ret p /\
        0 <= parsed_amount p <= MAX_BIG_INTEGER /\ 0 <= parsed_balance p <= MAX_BIG_INTEGER /\
        pk = next_pk (payment_sms (db w)) /\
        found = (find_matching_orders (parsed_amount p) (parsed_datetime p) (db w)).*1 /\
        st = (if bool_decide (found = []) then NO_MATCH else MATCHED) /\
        db w' = set_sms pk (stored_sms (extract_sms_text rq) p now found) (db w)
  end.
Proof.
  intros E. unfold smsforwarder_webhook in E. apply M_bind_Ret in E as (d & w1 & [= <- <-] & E).
  destruct (negb (is_smsforwarder_webhook_token_configured _)).
  { injection E as <- <-. split; [done|]. by left. }
  destruct (verify_smsforwarder_webhook_token _ _) eqn:Hv; cbn [negb] in E.
  2: { injection E as <- <-. split; [done|]. right. by left. }
  destruct (bool_decide _); [injection E as <- <-; split; [done|]; right; right; by left|].
  destruct (parse_payment_sms _ _) as [p|e] eqn:Hp.
  2: { destruct e; try done. injection E as <- <-. split; [done|]. right. right. by left. }
  apply M_bind_Ret in E as (pk & w2 & Ec & E). unfold create_payment_sms in Ec.
  destruct ((MAX_BIG_INTEGER <? _) || _) eqn:Hmax; [done|]. apply orb_false_iff in Hmax as [Ha%Z.ltb_ge Hb%Z.ltb_ge].
  apply M_bind_Ret in Ec as (d & w3 & [= <- <-] & Ec). apply M_bind_Ret in Ec as (u & w4 & [= _ <-] & [= <- <-]).
  apply M_bind_Ret in E as (found & w5 & Ep & E). apply M_bind_Ret in E as (s & w6 & [Hs ->]%get_or_raise_Ret & [= <- <-]).
  eapply process_new_sms in Ep as [Hf Hd]; [|by apply lookup_insert_eq|done].
  destruct (parsed_nonneg _ _ _ Hp). split; [done|]. exists p.
  split; [done|]. split; [lia|]. split; [lia|]. split; [done|]. split; [exact Hf|].
  rewrite Hd in Hs. unfold set_sms in Hs. cbn in Hs. rewrite lookup_insert_eq in Hs. injection Hs as <-. split; [done|].
  rewrite Hd. unfold set_sms, stored_sms. rewrite <- DB_eta. f_equal. cbn. by rewrite insert_insert_eq.
Qed.
End Webhook.

(** ** Examples *)

(** The message of src/payments/tests.py. *)
Definition sample_sms : string := "بلو
واریز پول
مشتری عزیز، 4,830,000 ریال به حساب شما نشست.
موجودی: 109,609,358 ریال
۱۸:۵۶
۱۴۰۵.۰۲.۱۴".

Definition sample_deposit : deposit_sms := {|
  greeting := map decode_utf8 ["بلو"; "واریز پول"]%string;
  before := normalize_sms_text (decode_utf8 "مشتری عزیز، "); written_amount := decode_utf8 "4,830,000";
  after := decode_utf8 " به حساب شما نشست."; balance_mark := [58]; written_balance := decode_utf8 "109,609,358";
  hour := decode_utf8 "18"; gap := []; time_colon := 58; minute := decode_utf8 "56";
  year := decode_utf8 "1405"; month := decode_utf8 "02"; day := decode_utf8 "14"; separator := 46 |}.

Lemma sample_well_written : well_written sample_deposit.
Proof.
  assert (Hw : forall s, forallb (fun c => negb (is_digit c) && negb (is_line_break c)) s = true -> words s).
  { intros s Hs. apply Forall_forall. intros c Hc. rewrite forallb_forall in Hs.
    specialize (Hs c (proj1 (list_elem_of_In _ _) Hc)). by apply andb_true_iff in Hs as [?%negb_true_iff ?%negb_true_iff]. }
  assert (Hd : forall a b s, (a <=? length s)%nat && (length s <=? b)%nat && forallb ascii_digit s = true -> digits a b s).
  { intros a b s [[H1%Nat.leb_le H2%Nat.leb_le]%andb_true_iff Hs]%andb_true_iff. split; [lia|].
    apply Forall_forall. intros c Hc. rewrite forallb_forall in Hs. by apply Hs, list_elem_of_In. }
  split; try (apply Hw; vm_compute; reflexivity); try (right; eexists; split; reflexivity); try (apply Hd; vm_compute; reflexivity); try reflexivity.
  - repeat constructor; apply Hw; vm_compute; reflexivity.
  - split; [|vm_compute; discriminate]. eexists _, _. split; [reflexivity|]. split; [reflexivity|].
    repeat constructor; try (left; reflexivity); right; left; reflexivity.
  - split; [|vm_compute; discriminate]. eexists _, _. split; [reflexivity|]. split; [reflexivity|].
    repeat constructor; try (left; reflexivity); right; left; reflexivity.
  - constructor.
Qed.

Definition sample_instant : Z := 3956160000000.

Lemma bank_message_read_witness :
  @parse_payment_sms sample_env (db sample_shop) sample_sms = Ret (mk_parsed 4830000 109609358 sample_instant).
Proof.
  pose proof (@bank_message_read sample_env (db sample_shop) sample_sms sample_deposit) as Ht.
  refine (eq_trans (Ht _ sample_well_written) _); vm_compute; reflexivity.
Defined.

(** An order of that amount, placed five minutes before. *)
Definition awaiting_shop : World := sample_shop {{ db ::= fun d => d {{
  orders ::= alter (fun o => o {{ Order.amount := 4830000; Order.created_at := sample_instant - 300000000 }}) 1000 }} }}.

Definition sample_sms_request : sms_request := {|
  rq_content_type := "application/x-www-form-urlencoded"; rq_header_token := "token"; rq_get_token := "";
  rq_post := [("from", "bank"); ("text", sample_sms)]%string; rq_body := ""; rq_json := None |}.

Definition sample_webhook_run := @smsforwarder_webhook sample_env sample_sms_request sample_instant awaiting_shop.

Lemma sample_webhook_answer : fst sample_webhook_run = Ret (SmsStored 1 MATCHED [1000]).
Proof. vm_compute. reflexivity. Qed.

Lemma webhook_outcome_witness :
  exists p, @parse_payment_sms sample_env (db awaiting_shop) (extract_sms_text sample_sms_request) = Ret p /\
    0 <= parsed_amount p <= MAX_BIG_INTEGER /\
    db (snd sample_webhook_run) =
      set_sms 1 (stored_sms (extract_sms_text sample_sms_request) p sample_instant [1000]) (db awaiting_shop).
Proof.
  pose proof (@webhook_outcome sample_env sample_sms_request sample_instant awaiting_shop
    (SmsStored 1 MATCHED [1000]) (snd sample_webhook_run)) as Ht.
  rewrite <- sample_webhook_answer in Ht. destruct (Ht (surjective_pairing sample_webhook_run)) as (_ & p & Hp & Ha & _ & _ & _ & _ & Hd).
  exists p. split; [exact Hp|]. split; [exact Ha|exact Hd].
Defined.
