(* ===== verification/Reminders.v ===== *)
(** Renewal reminders (src/store/renewal_reminder_services.py): which customers
    are told that their service ends or runs out of traffic, and when, with the
    choice of the chat that is written to (src/store/bot_targets.py) and the
    refresh of a client's traffic (sync_vpn_client_stats of
    src/store/xui_api.py).  [RemindersSpec] proves the theorems.

    What the panel says of a client, and the sending of a message, are functions
    of [Env].  Customer has none of the three chat columns bot_targets.py looks
    for, so a customer is reached through the bots' users. *)

From S2P Require Import Prelude Models World Numbers Referrals OrderActions Provisioning ClientManagement.
Import ReminderLog.

#[local] Open Scope string_scope.
#[local] Open Scope Z_scope.

Abbreviation log_row := ReminderLog.reminder_log.

(** ** Settings *)

Record reminder_settings := mk_settings {
  rs_store : option Z;
  rs_expiry_enabled : bool;
  rs_days_before : list Z;
  rs_days_after : list Z;
  rs_low_traffic_enabled : bool;
  rs_percent_threshold : Z;
  rs_gb_threshold : Z;
  rs_cooldown_hours : Z;
  rs_max_per_day : Z;
  rs_start_at : option Z;
}.

(** [int(text)]: surrounding space, a sign, digits (not the underscores between
    digits that Python also reads). *)
Definition int_of_text (s : string) : option Z :=
  let '(neg, r) := take_sign (strip s) in
  let '(v, n, rest) := take_digits r 0 0 in
  if (n =? 0) || negb (bool_decide (rest = "")) then None else Some (if neg then - v else v).

(** [int(item)], where booleans are refused first. *)
Definition day_of_json (item : json) : option Z :=
  match item with JNum n => Some n | JStr s => int_of_text s | _ => None end.

Definition DAYS_NOT_A_LIST : exn := ValueError "Reminder days must be a list of integers.".
Definition DAYS_NOT_INTEGERS : exn := ValueError "Reminder days must be integers.".
Definition DAYS_NEGATIVE : exn := ValueError "Reminder days cannot be negative.".

Fixpoint collect_days (days : list Z) (items : list json) : result (list Z) :=
  match items with
  | [] => Ret days
  | item :: rest =>
      match day_of_json item with
      | None => Raise DAYS_NOT_INTEGERS
      | Some day =>
          if day <? 0 then Raise DAYS_NEGATIVE
          else collect_days (if bool_decide (day ∈ days) then days else (days ++ [day])%list) rest
      end
  end.

(** [sorted(days, reverse=True)] *)
Definition sorted_down (days : list Z) : list Z := merge_sort Z.ge days.

(** Brackets dropped, the Persian comma (U+060C) and semicolons as commas. *)
Fixpoint day_items (item : string) (s : string) : list string :=
  match s with
  | EmptyString => [item]
  | String c s' =>
      if bool_decide (c = "["%char) || bool_decide (c = "]"%char) then day_items item s'
      else if bool_decide (c = ","%char) || bool_decide (c = ";"%char) then item :: day_items "" s'
      else match s' with
           | String d s'' => if (code_of c =? 216) && (code_of d =? 140) then item :: day_items "" s''
                             else day_items (item +:+ String c "") s'
           | EmptyString => day_items (item +:+ String c "") s'
           end
  end.

Definition split_days (s : string) : list json :=
  map JStr (filter (fun t => t <> "") (map strip (day_items "" s))).

Definition normalize_reminder_days (value : json) (default_days : list Z) : result (list Z) :=
  items ← match value with
          | JNull | JStr EmptyString => Ret (map JNum default_days)
          | JStr s => Ret (split_days s)
          | JList l => Ret l
          | _ => Raise DAYS_NOT_A_LIST
          end;
  days ← collect_days [] items;
  Ret (sorted_down days).

Definition positive_or (value default : Z) : Z := if 0 <? value then value else default.

(** The attributes of a shop that is not there are read with their defaults. *)
Definition days_or (value : json) (defaults : list Z) : list Z :=
  match normalize_reminder_days value defaults with Ret days => days | Raise _ => defaults end.

Definition default_store (d : DB) : option Z :=
  or_opt (fst <$> head (order_by (fun ks => [ks.1]) (rows_where (fun _ s => Store.is_active s) (stores d))))
    (fst <$> head (order_by (fun ks => [ks.1]) (rows_where (fun _ _ => true) (stores d)))).

Definition get_reminder_settings (d : DB) (store : option Z) : reminder_settings :=
  let k := or_opt store (default_store d) in
  match Store.reminders <$> (k ≫= fun s => stores d !! s) with
  | None => mk_settings None true [3; 1; 0] [3; 1] true 20 2000 24 1 None
  | Some c => {|
      rs_store := k;
      rs_expiry_enabled := Store.renewal_reminders_enabled c;
      rs_days_before := days_or (Store.reminder_days_before_expiry c) [3; 1; 0];
      rs_days_after := days_or (Store.reminder_days_after_expiry c) [1; 3];
      rs_low_traffic_enabled := Store.low_traffic_reminders_enabled c;
      rs_percent_threshold := Z.max (Z.min (positive_or (Store.low_traffic_percent_threshold c) 20) 100) 1;
      rs_gb_threshold := positive_or (Store.low_traffic_gb_threshold c) 2000;
      rs_cooldown_hours := positive_or (Store.reminder_cooldown_hours c) 24;
      rs_max_per_day := positive_or (Store.reminder_max_per_client_per_day c) 1;
      rs_start_at := Store.renewal_reminders_start_at c |}
  end.

(** ** Which clients *)

Definition trial_customers (d : DB) (cpk : Z) : list Z :=
  omap (fun kt => FreeTrial.customer kt.2)
    (rows_where (fun _ t => bool_decide (FreeTrial.vpn_client t = Some cpk)) (free_trials d)).

Definition order_of_client (d : DB) (c : VPNClient.vpn_client) : option Order.order :=
  VPNClient.order c ≫= fun k => orders d !! k.

Definition reachable_inbound (d : DB) (c : VPNClient.vpn_client) : bool :=
  match VPNClient.inbound c ≫= fun k => inbounds d !! k with
  | Some i => Inbound.is_active i
              && match Inbound.panel i ≫= fun k => panels d !! k with Some p => Panel.is_active p | None => false end
  | None => false
  end.

Definition reminded (d : DB) (cpk : Z) (c : VPNClient.vpn_client) : bool :=
  (is_set (order_of_client d c ≫= Order.customer) || negb (bool_decide (trial_customers d cpk = [])))
  && reachable_inbound d c
  && negb (is_set (VPNClient.deleted_at c))
  && bool_decide (VPNClient.status c ∈ [VPNClient.CREATED; VPNClient.INACTIVE; VPNClient.ACTIVE; VPNClient.EXPIRED])
  && match order_of_client d c with
     | Some o => negb (bool_decide (Order.status o ∈ [Order.CANCELLED; Order.REJECTED]))
     | None => true end.

Definition of_customer (d : DB) (customer cpk : Z) (c : VPNClient.vpn_client) : bool :=
  bool_decide ((order_of_client d c ≫= Order.customer) = Some customer)
  || bool_decide (customer ∈ trial_customers d cpk).

(** Ordered by expiry, clients without one last, as PostgreSQL does. *)
Definition get_active_clients_for_reminders (d : DB) (customer client : option Z) : list (Z * VPNClient.vpn_client) :=
  order_by (fun kc => [if is_set (VPNClient.expires_at kc.2) then 0 else 1; default 0 (VPNClient.expires_at kc.2); kc.1])
    (rows_where (fun k c => reminded d k c
        && match customer with Some cu => of_customer d cu k c | None => true end
        && match client with Some cl => k =? cl | None => true end) (clients d)).

(** ** Traffic *)

Record live_usage := mk_live {
  lu_total : Z;
  lu_used : Z;
  lu_remaining : option Z;
  lu_expiry_at : option Z;
  lu_known : bool;
  lu_error : string;
}.

Definition truthy_num (n : option Z) : bool := match n with Some z => negb (z =? 0) | None => false end.

Definition usage_from_stats (c : VPNClient.vpn_client) (s : usage_stats) : live_usage := {|
  lu_total := default 0 (us_total s);
  lu_used := default 0 (us_used s);
  lu_remaining := us_remaining s;
  lu_expiry_at := or_opt (us_expiry_at s) (VPNClient.expires_at c);
  lu_known := us_panel_available s && us_known s && truthy_num (us_total s) && is_set (us_remaining s) && is_set (us_used s);
  lu_error := us_error s |}.

Definition local_usage (c : VPNClient.vpn_client) (error : string) : live_usage :=
  let known := negb (VPNClient.traffic_limit_bytes c =? 0)
               && (is_set (VPNClient.last_synced_at c) || negb (VPNClient.used_traffic_bytes c =? 0)) in {|
  lu_total := VPNClient.traffic_limit_bytes c;
  lu_used := VPNClient.used_traffic_bytes c;
  lu_remaining := if known then Some (VPNClient.remaining_traffic_bytes c) else None;
  lu_expiry_at := VPNClient.expires_at c;
  lu_known := known;
  lu_error := error |}.

Definition unavailable (error : string) : usage_stats := {|
  us_panel_available := false; us_known := false; us_total := Some 0; us_used_upload := 0; us_used_download := 0;
  us_used := Some 0; us_remaining := Some 0; us_expiry_at := None; us_is_enabled := None; us_is_expired := false;
  us_raw := ∅; us_error := error |}.

(** The columns a panel's answer sets, and the status it implies. *)
Definition synced (s : usage_stats) (now : Z) (c : VPNClient.vpn_client) : VPNClient.vpn_client :=
  let c := c {{
    VPNClient.used_upload_bytes := us_used_upload s;
    VPNClient.used_download_bytes := us_used_download s;
    VPNClient.used_traffic_bytes := default 0 (us_used s);
    VPNClient.traffic_limit_bytes := (if truthy_num (us_total s) then default 0 (us_total s) else VPNClient.traffic_limit_bytes c);
    VPNClient.expires_at := or_opt (us_expiry_at s) (VPNClient.expires_at c);
    VPNClient.last_synced_at := Some now;
    VPNClient.xui_raw := us_raw s }} in
  if us_is_expired s then c {{ VPNClient.status := VPNClient.EXPIRED }}
  else if default false (us_is_enabled s) then c {{ VPNClient.status := VPNClient.ACTIVE }}
  else if bool_decide (VPNClient.status c = VPNClient.ACTIVE) then c {{ VPNClient.status := VPNClient.INACTIVE }}
  else c.

Section Reminders.
Context `{Env}.

(** The instance in memory is updated with the row; reminders take no snapshot
    of the usage ([create_snapshot=False]). *)
Definition sync_vpn_client_stats (cpk : Z) (c : VPNClient.vpn_client) (now : Z)
    : IO (usage_stats * VPNClient.vpn_client) :=
  d ← get_db;
  if VPNClient.is_deleted c then mret (unavailable "VPN client has been deleted locally.", c)
  else if negb (is_set (VPNClient.inbound c ≫= fun k => inbounds d !! k ≫= Inbound.panel))
  then mret (unavailable "VPN client is not linked to an active inbound.", c)
  else
    s ← askR (CallSyncStats cpk) (fun h => get_client_stats h cpk c);
    if us_panel_available s then
      _ ← put_db (set_client cpk (synced s now c));
      mret (s, synced s now c)
    else mret (s, c).

Definition get_live_client_usage (cpk : Z) (c : VPNClient.vpn_client) (now : Z) : IO (live_usage * VPNClient.vpn_client) :=
  let local := local_usage c "" in
  r ← tried (sync_vpn_client_stats cpk c now);
  match r with
  | Raise e => mret (local_usage c (exn_text e), c)
  | Ret (s, c') =>
      let live := usage_from_stats c' s in
      if lu_known live then mret (live, c')
      else if lu_known local
      then mret (mk_live (lu_total local) (lu_used local) (lu_remaining local) (lu_expiry_at local) true (lu_error live), c')
      else mret (live, c')
  end.

(** ** What is due *)

Record decision := mk_decision { dc_type : reminder_type_t; dc_key : string }.

Definition expiry_of (c : VPNClient.vpn_client) (u : live_usage) : option Z :=
  or_opt (lu_expiry_at u) (VPNClient.expires_at c).

Definition days_until (expiry now : Z) : Z := localdate_tehran expiry - localdate_tehran now.

Definition should_send_expiry_reminder (c : VPNClient.vpn_client) (rs : reminder_settings) (now : Z) (u : live_usage)
    : list decision :=
  if negb (rs_expiry_enabled rs) then []
  else match expiry_of c u with
  | None => []
  | Some expiry =>
      let days := days_until expiry now in
      if (0 <? days) && bool_decide (days ∈ rs_days_before rs)
      then [mk_decision EXPIRY_BEFORE ("before_" +:+ pretty days +:+ "d")]
      else if (days =? 0) && bool_decide (0 ∈ rs_days_before rs) then [mk_decision EXPIRY_TODAY "today"]
      else if (days <? 0) && bool_decide (- days ∈ rs_days_after rs)
      then [mk_decision EXPIRY_AFTER ("after_" +:+ pretty (- days) +:+ "d")]
      else []
  end.

(** Thousandths without trailing zeros. *)
Definition decimal_label (thousandths : Z) : string :=
  let whole := thousandths / 1000 in let part := thousandths mod 1000 in
  pretty whole +:+
  (if part =? 0 then "" else if part mod 100 =? 0 then "." +:+ pretty (part / 100)
   else if part mod 10 =? 0 then "." +:+ (if part <? 100 then "0" else "") +:+ pretty (part / 10)
   else "." +:+ (if part <? 10 then "00" else if part <? 100 then "0" else "") +:+ pretty part).

(** [remaining * 100 / total <= threshold], and the threshold in bytes. *)
Definition should_send_low_traffic_reminder (c : VPNClient.vpn_client) (rs : reminder_settings) (u : live_usage) (now : Z)
    : option decision :=
  if negb (rs_low_traffic_enabled rs) then None
  else if match expiry_of c u with Some t => t <=? now | None => false end then None
  else if negb (lu_known u) || (lu_total u <=? 0) then None
  else match lu_remaining u with
  | None => None
  | Some remaining =>
      let remaining := Z.max remaining 0 in
      if remaining * 100 <=? rs_percent_threshold rs * lu_total u
      then Some (mk_decision LOW_TRAFFIC ("low_traffic_" +:+ pretty (rs_percent_threshold rs) +:+ "pct"))
      else if remaining <=? Z.quot (rs_gb_threshold rs * 1024 ^ 3) 1000
      then Some (mk_decision LOW_TRAFFIC ("low_traffic_" +:+ decimal_label (rs_gb_threshold rs) +:+ "gb"))
      else None
  end.

Definition calculate_client_reminder_status (c : VPNClient.vpn_client) (u : live_usage) (rs : reminder_settings) (now : Z)
    : list decision :=
  (should_send_expiry_reminder c rs now u ++ option_list (should_send_low_traffic_reminder c rs u now))%list.

(** ** Whom to write to *)

Record telegram_target := mk_target {
  tt_chat : string;
  tt_user : string;
  tt_config : Z;
  tt_source : string;
}.

(** [_append_unique], over all the candidates. *)
Fixpoint unique_targets (seen : list (string * Z * string)) (l : list telegram_target) : list telegram_target :=
  match l with
  | [] => []
  | t :: rest =>
      let key := (tt_chat t, tt_config t, tt_source t) in
      if bool_decide (tt_chat t = "") || bool_decide (key ∈ seen) then unique_targets seen rest
      else t :: unique_targets (key :: seen) rest
  end.

(** The users of active Telegram bots, of one shop or of none, seen last first. *)
Definition reachable_bot_users (d : DB) (store : option Z) (mine : BotUser.bot_user -> bool) : list (Z * BotUser.bot_user) :=
  order_by (fun ku => [- BotUser.last_seen_at ku.2; - BotUser.updated_at ku.2; ku.1])
    (rows_where (fun _ u => mine u && BotUser.is_active u && negb (bool_decide (BotUser.chat_id u = ""))
       && match bot_configs d !! BotUser.bot_config u with
          | Some c => BotConfiguration.is_active c && negb (bool_decide (BotConfiguration.bot_token c = ""))
                      && bool_decide (BotConfiguration.provider c = BotConfiguration.TELEGRAM)
                      && match store with
                         | Some s => match BotConfiguration.store c with Some s' => s =? s' | None => true end
                         | None => true end
          | None => false end) (bot_users d)).

Definition bot_user_target (source : string) (ku : Z * BotUser.bot_user) : telegram_target := {|
  tt_chat := strip (BotUser.chat_id ku.2); tt_user := strip (BotUser.provider_user_id ku.2);
  tt_config := BotUser.bot_config ku.2; tt_source := source |}.

Definition get_customer_telegram_targets (d : DB) (customer store : option Z) : list telegram_target :=
  match customer with
  | None => []
  | Some cu => unique_targets [] (map (bot_user_target "bot_user")
      (reachable_bot_users d store (fun u => bool_decide (BotUser.customer u = Some cu))))
  end.

Definition free_trial_request_for_client (d : DB) (cpk : Z) : option (Z * FreeTrial.free_trial_request) :=
  head (order_by (fun kt => [- FreeTrial.created_at kt.2; - kt.1])
    (rows_where (fun _ t => bool_decide (FreeTrial.vpn_client t = Some cpk)) (free_trials d))).

Definition customer_for_vpn_client (d : DB) (cpk : Z) (c : VPNClient.vpn_client) : option Z :=
  or_opt (order_of_client d c ≫= Order.customer)
    (free_trial_request_for_client d cpk ≫= fun kt => FreeTrial.customer kt.2).

Definition trial_request_telegram_targets (d : DB) (cpk : Z) (store : option Z) : list telegram_target :=
  match strip <$> ((fun kt => FreeTrial.telegram_user_id kt.2) <$> free_trial_request_for_client d cpk) with
  | None | Some EmptyString => []
  | Some user => map (bot_user_target "free_trial_request.bot_user")
      (reachable_bot_users d store (fun u => bool_decide (BotUser.provider_user_id u = user)))
  end.

Definition get_vpn_client_telegram_targets (d : DB) (cpk : Z) (c : VPNClient.vpn_client) (store : option Z)
    : list telegram_target :=
  match get_customer_telegram_targets d (customer_for_vpn_client d cpk c) store with
  | [] => trial_request_telegram_targets d cpk store
  | targets => targets
  end.

(** The customer a log names: of the order, else of the latest trial that has
    one. *)
Definition customer_for_client (d : DB) (cpk : Z) (c : VPNClient.vpn_client) : option Z :=
  or_opt (order_of_client d c ≫= Order.customer)
    (head (order_by (fun kt => [- FreeTrial.created_at kt.2; - kt.1])
       (rows_where (fun _ t => bool_decide (FreeTrial.vpn_client t = Some cpk) && is_set (FreeTrial.customer t))
          (free_trials d))) ≫= fun kt => FreeTrial.customer kt.2).

Definition client_store (d : DB) (c : VPNClient.vpn_client) (rs : option reminder_settings) : option Z :=
  or_opt (rs ≫= rs_store)
    (or_opt (VPNClient.store c)
       (or_opt (order_of_client d c ≫= Order.store)
          (VPNClient.plan c ≫= fun k => plans d !! k ≫= Plan.store))).

Definition client_is_before_reminder_start (c : VPNClient.vpn_client) (rs : reminder_settings) : bool :=
  match rs_start_at rs with Some start => VPNClient.created_at c <? start | None => false end.

(** ** The message *)

(** [persian_digits]: U+06F0.. in UTF-8. *)
Fixpoint persian_digits (s : string) : string :=
  match s with
  | EmptyString => ""
  | String c s' =>
      match digit_of c with
      | Some k => String (ascii_of_nat 219) (String (ascii_of_nat (Z.to_nat (176 + k))) (persian_digits s'))
      | None => String c (persian_digits s')
      end
  end.

(** One decimal place, rounded half up. *)
Definition format_gb_from_bytes (value : option Z) : string :=
  match value with
  | None => "نامشخص"
  | Some bytes => persian_digits (decimal_label (100 * ((Z.max bytes 0 * 20 + 1024 ^ 3) / (2 * 1024 ^ 3))))
  end.

Definition service_name (cpk : Z) (c : VPNClient.vpn_client) : string :=
  or_str (VPNClient.xui_email c) (or_str (VPNClient.username c) ("#" +:+ pretty cpk)).

Definition remaining_time_label (c : VPNClient.vpn_client) (u : live_usage) (now : Z) : string :=
  match expiry_of c u with
  | None => "نامحدود"
  | Some expiry =>
      let days := days_until expiry now in
      if days <? 0 then persian_digits (pretty (- days)) +:+ " روز گذشته"
      else if days =? 0 then "امروز" else persian_digits (pretty days) +:+ " روز"
  end.

Definition newline : string := String (ascii_of_nat 10) "".

Definition build_reminder_message (cpk : Z) (c : VPNClient.vpn_client) (kind : reminder_type_t) (u : live_usage) (now : Z)
    : string :=
  let name := service_name cpk c in
  let remaining := if lu_known u then lu_remaining u else None in
  String.concat newline match kind with
  | LOW_TRAFFIC => [
      "⚠️ حجم سرویس شما رو به پایان است"; ""; "نام سرویس: " +:+ name;
      "حجم کل: " +:+ format_gb_from_bytes (Some (lu_total u)) +:+ " گیگ";
      "مصرف‌شده: " +:+ format_gb_from_bytes (Some (lu_used u)) +:+ " گیگ";
      "باقی‌مانده: " +:+ format_gb_from_bytes remaining +:+ " گیگ"; "";
      "برای ادامه استفاده، سرویس را تمدید کنید."]
  | EXPIRY_AFTER => [
      "❌ سرویس شما منقضی شده است"; ""; "نام سرویس: " +:+ name;
      "زمان انقضا: " +:+ match expiry_of c u with Some t => format_jalali_datetime t | None => "نامشخص" end; "";
      "برای فعال‌سازی دوباره می‌توانید تمدید کنید."]
  | _ => ([
      if bool_decide (kind = EXPIRY_TODAY) then "⏰ سرویس شما امروز منقضی می‌شود" else "⏰ سرویس شما در حال اتمام است";
      ""; "نام سرویس: " +:+ name; "زمان باقی‌مانده: " +:+ remaining_time_label c u now]
      ++ match remaining with
         | Some r => ["حجم باقی‌مانده: " +:+ format_gb_from_bytes (Some r) +:+ " گیگ"] | None => [] end
      ++ [""; "برای جلوگیری از قطع شدن، می‌توانید همین حالا تمدید کنید."])%list
  end.

(** ** The log *)

Definition same_reminder (cpk : Z) (kind : reminder_type_t) (key : string) (l : log_row) : bool :=
  (vpn_client l =? cpk) && bool_decide (reminder_type l = kind) && bool_decide (trigger_key l = key).

Definition sent_duplicate_exists (d : DB) (cpk : Z) (kind : reminder_type_t) (key : string) (today : Z) : bool :=
  exists_where (fun _ l => same_reminder cpk kind key l && bool_decide (status l = SENT)
    && (negb (bool_decide (kind = LOW_TRAFFIC)) || (trigger_date l =? today))) (reminder_logs d).

Definition latest_attempt (d : DB) (cpk : Z) (kind : reminder_type_t) (key : string) : option (Z * log_row) :=
  head (order_by (fun kl => [- updated_at kl.2; - created_at kl.2; kl.1])
    (rows_where (fun _ l =>
       if bool_decide (kind = LOW_TRAFFIC) then (vpn_client l =? cpk) && bool_decide (reminder_type l = LOW_TRAFFIC)
       else same_reminder cpk kind key l) (reminder_logs d))).

Definition hour : Z := 3600 * 1000000.

Definition cooldown_active (d : DB) (cpk : Z) (kind : reminder_type_t) (key : string) (rs : reminder_settings) (now : Z) : bool :=
  match latest_attempt d cpk kind key with
  | None => false
  | Some (_, l) =>
      if bool_decide (status l = SENT) && negb (bool_decide (kind = LOW_TRAFFIC)) then false
      else now - rs_cooldown_hours rs * hour <? default (updated_at l) (sent_at l)
  end.

Definition daily_sent_count (d : DB) (cpk today : Z) : Z :=
  count_where (fun _ l => (vpn_client l =? cpk) && (trigger_date l =? today) && bool_decide (status l = SENT)) (reminder_logs d).

Definition set_log (pk : Z) (l : log_row) (d : DB) : DB := d {{ reminder_logs ::= insert pk l }}.

Definition blank_log (customer : option Z) (cpk : Z) (kind : reminder_type_t) (key : string) (today : Z) (st : status_t)
    (now : Z) : log_row := {|
  customer := customer; vpn_client := cpk; reminder_type := kind; trigger_key := key; trigger_date := today;
  sent_to_telegram_id := ""; status := st; message_text := ""; error_message := ""; sent_at := None;
  created_at := now; updated_at := now |}.

(** The row of this client, kind, key and day. *)
Definition find_log (d : DB) (cpk : Z) (kind : reminder_type_t) (key : string) (today : Z) : option (Z * log_row) :=
  first_where (fun _ l => same_reminder cpk kind key l && (trigger_date l =? today)) (reminder_logs d).

Definition filled_log (customer : option Z) (st : status_t) (text chat error : string) (sent : option Z) (now : Z)
    (l : log_row) : log_row :=
  l {{ ReminderLog.customer := customer; status := st; message_text := or_str text (message_text l);
       sent_to_telegram_id := or_str chat (sent_to_telegram_id l); error_message := error;
       sent_at := or_opt sent (sent_at l); updated_at := now }}.

Definition record_reminder_log (customer : option Z) (cpk : Z) (dc : decision) (today : Z) (st : status_t)
    (text chat error : string) (sent : option Z) (now : Z) : IO Z :=
  d ← get_db;
  let '(pk, l) := default (next_pk (reminder_logs d), blank_log customer cpk (dc_type dc) (dc_key dc) today st now)
                    (find_log d cpk (dc_type dc) (dc_key dc) today) in
  _ ← put_db (set_log pk (filled_log customer st text chat error sent now l));
  mret pk.

(** ** Sending *)

Inductive send_status := R_SENT | R_SKIPPED | R_FAILED | R_WOULD_SEND.
#[global] Instance send_status_eq_dec : EqDecision send_status.
Proof. solve_decision. Defined.

Record send_result := mk_send {
  sr_status : send_status;
  sr_decision : decision;
  sr_client : Z;
  sr_customer : option Z;
  sr_telegram : string;
  sr_message : string;
  sr_error : string;
  sr_log : option Z;
}.

Definition ALREADY_SENT : string := "Reminder was already sent for this trigger.".
Definition COOLDOWN_ACTIVE : string := "Reminder cooldown is active.".
Definition DAILY_LIMIT : string := "Daily reminder limit reached for this VPN client.".
Definition NO_TARGET : string := "No active Telegram target was found for this VPN client.".

Definition skipped (cpk : Z) (cu : option Z) (dc : decision) (message : string) (log : option Z) : send_result :=
  mk_send R_SKIPPED dc cpk cu "" message "" log.

(** [_skip_result]: the skip is logged. *)
Definition skip_result (cpk : Z) (c : VPNClient.vpn_client) (cu : option Z) (dc : decision) (reason : string)
    (u : live_usage) (now : Z) : IO send_result :=
  pk ← record_reminder_log cu cpk dc (localdate_tehran now) SKIPPED
         (build_reminder_message cpk c (dc_type dc) u now) "" reason None now;
  mret (skipped cpk cu dc reason (Some pk)).

(** The log is written before the message is sent, and again after. *)
Definition deliver_reminder (cpk : Z) (cu : option Z) (dc : decision) (t : telegram_target) (text : string) (now : Z)
    : IO send_result :=
  let record st error sent := record_reminder_log cu cpk dc (localdate_tehran now) st text (tt_chat t) error sent now in
  r ← tried (_ ← atomic (record SKIPPED "" None);
             askR (CallRemind cpk (tt_config t) (tt_chat t)) (fun h => send_reminder h cpk (tt_config t) (tt_chat t) text));
  match r with
  | Ret _ =>
      pk ← record SENT "" (Some now);
      mret (mk_send R_SENT dc cpk cu (tt_chat t) text "" (Some pk))
  | Raise e =>
      pk ← record FAILED (exn_text e) None;
      mret (mk_send R_FAILED dc cpk cu (tt_chat t) "" (exn_text e) (Some pk))
  end.

Definition send_reminder_to_customer (cpk : Z) (c : VPNClient.vpn_client) (dc : decision) (u : live_usage)
    (rs : reminder_settings) (dry_run : bool) (now : Z) : IO send_result :=
  d ← get_db;
  let cu := customer_for_client d cpk c in
  let today := localdate_tehran now in
  if sent_duplicate_exists d cpk (dc_type dc) (dc_key dc) today then mret (skipped cpk cu dc ALREADY_SENT None)
  else if cooldown_active d cpk (dc_type dc) (dc_key dc) rs now then mret (skipped cpk cu dc COOLDOWN_ACTIVE None)
  else if rs_max_per_day rs <=? daily_sent_count d cpk today then skip_result cpk c cu dc DAILY_LIMIT u now
  else
    let text := build_reminder_message cpk c (dc_type dc) u now in
    match get_vpn_client_telegram_targets d cpk c (client_store d c (Some rs)) with
    | [] => if dry_run then mret (skipped cpk cu dc NO_TARGET None) else skip_result cpk c cu dc NO_TARGET u now
    | t :: _ =>
        if dry_run then mret (mk_send R_WOULD_SEND dc cpk cu (tt_chat t) text "" None)
        else deliver_reminder cpk cu dc t text now
    end.

(** ** The periodic job *)

Inductive reminder_filter := All | Expiry | Traffic | OtherFilter.

Definition decision_matches (f : reminder_filter) (dc : decision) : bool :=
  match f with
  | All => true
  | Expiry => negb (bool_decide (dc_type dc = LOW_TRAFFIC))
  | Traffic => bool_decide (dc_type dc = LOW_TRAFFIC)
  | OtherFilter => false
  end.

Record reminder_summary := mk_summary {
  total_clients_seen : Z;
  ignored_before_start_at : Z;
  candidates : Z;
  due : Z;
  results : list send_result;
}.
#[global] Instance eta_reminder_summary : Eta reminder_summary := fun r => mk_summary (total_clients_seen r)
  (ignored_before_start_at r) (candidates r) (due r) (results r).

(** [summary["sent"]], ["failed"], ["would_send"], ["skipped"] *)
Definition count_status (st : send_status) (sm : reminder_summary) : Z :=
  Z.of_nat (length (filter (fun r => sr_status r = st) (results sm))).

Fixpoint send_decisions (cpk : Z) (c : VPNClient.vpn_client) (u : live_usage) (rs : reminder_settings) (dry_run : bool)
    (now : Z) (l : list decision) : IO (list send_result) :=
  match l with
  | [] => mret []
  | dc :: rest =>
      r ← send_reminder_to_customer cpk c dc u rs dry_run now;
      more ← send_decisions cpk c u rs dry_run now rest;
      mret (r :: more)
  end.

Fixpoint remind_clients (dry_run : bool) (limit : Z) (f : reminder_filter) (now : Z)
    (l : list (Z * VPNClient.vpn_client)) (sm : reminder_summary) : IO reminder_summary :=
  match l with
  | [] => mret sm
  | (cpk, c) :: rest =>
      d ← get_db;
      let rs := get_reminder_settings d (client_store d c None) in
      if client_is_before_reminder_start c rs
      then remind_clients dry_run limit f now rest (sm {{ total_clients_seen ::= Z.succ; ignored_before_start_at ::= Z.succ }})
      else if negb (limit =? 0) && (limit <=? candidates sm) then mret sm
      else
        '(u, c) ← get_live_client_usage cpk c now;
        let l := filter (fun dc => Is_true (decision_matches f dc)) (calculate_client_reminder_status c u rs now) in
        r ← send_decisions cpk c u rs dry_run now l;
        remind_clients dry_run limit f now rest (sm {{ total_clients_seen ::= Z.succ; candidates ::= Z.succ;
          due ::= Z.add (Z.of_nat (length l)); results ::= fun old => (old ++ r)%list }})
  end.

Definition run_renewal_reminders (dry_run : bool) (limit : Z) (customer client : option Z) (f : reminder_filter) (now : Z)
    : IO reminder_summary :=
  d ← get_db;
  remind_clients dry_run (positive_or limit 0) f now (get_active_clients_for_reminders d customer client)
    (mk_summary 0 0 0 0 []).
End Reminders.
