(* ===== verification/RemindersSpec.v ===== *)
(** Reminders go to the right people and not too often: what one reminder does,
    and how many of them a run of the periodic job can send. *)

From S2P Require Import Prelude Models World Numbers Referrals OrderActions Provisioning ClientManagement ManagementSpec Reminders AutomationSpec ReferralRewards.
Import ReminderLog.

#[local] Open Scope string_scope.
#[local] Open Scope Z_scope.

(** ** One entry of the log *)

(** The log of one day got an entry, or its entry of that reminder changed. *)
Definition logged (cpk : Z) (dc : decision) (today : Z) (st : status_t) (d d' : DB) : Prop :=
  exists pk l, d' = set_log pk l d /\ status l = st /\
    same_reminder cpk (dc_type dc) (dc_key dc) l = true /\ trigger_date l = today /\
    forall old, reminder_logs d !! pk = Some old ->
      same_reminder cpk (dc_type dc) (dc_key dc) old = true /\ trigger_date old = today.

Section Entries.
Context `{Env}.

Definition slot (d : DB) (cu : option Z) (cpk : Z) (dc : decision) (today : Z) (st : status_t) (now : Z) : Z * log_row :=
  default (next_pk (reminder_logs d), blank_log cu cpk (dc_type dc) (dc_key dc) today st now)
    (find_log d cpk (dc_type dc) (dc_key dc) today).

Lemma record_run cu cpk dc today st text chat error sent now w :
  record_reminder_log cu cpk dc today st text chat error sent now w =
    (Ret (slot (db w) cu cpk dc today st now).1,
     mk_world (set_log (slot (db w) cu cpk dc today st now).1
                 (filled_log cu st text chat error sent now (slot (db w) cu cpk dc today st now).2) (db w))
       (locks w) (calls w)).
Proof.
  unfold record_reminder_log, slot. unfold mbind at 1, M_bind at 1, get_db.
  by destruct (default _ (find_log _ _ _ _ _)) as [pk l].
Qed.

Lemma slot_spec d cu cpk dc today st now :
  let s := slot d cu cpk dc today st now in
  same_reminder cpk (dc_type dc) (dc_key dc) s.2 = true /\ trigger_date s.2 = today /\
  (forall old, reminder_logs d !! s.1 = Some old -> old = s.2).
Proof.
  cbv zeta. unfold slot, find_log. destruct (first_where _ _) as [[pk l]|] eqn:E; cbn [default fst snd].
  - apply first_where_Some in E as (Hk & [Hs Hd%Z.eqb_eq]%andb_true_iff & _). split; [done|]. split; [done|].
    intros old Ho. cbn in Ho. rewrite Hk in Ho. by injection Ho.
  - split; [|split; [done|by intros old; rewrite next_pk_fresh]].
    unfold same_reminder, blank_log. cbn. by rewrite Z.eqb_refl, !bool_decide_true.
Qed.

Lemma filled_same cpk kind key cu st text chat error sent now l :
  same_reminder cpk kind key (filled_log cu st text chat error sent now l) = same_reminder cpk kind key l.
Proof. reflexivity. Qed.

Lemma slot_logged d cu cpk dc today st text chat error sent now st0 now0 :
  logged cpk dc today st d
    (set_log (slot d cu cpk dc today st0 now0).1 (filled_log cu st text chat error sent now (slot d cu cpk dc today st0 now0).2) d).
Proof.
  destruct (slot_spec d cu cpk dc today st0 now0) as (Hs & Hd & Ho). eexists _, _. split; [reflexivity|]. split; [done|].
  split; [by rewrite filled_same|]. split; [done|]. intros old Hold. apply Ho in Hold as ->. by split.
Qed.

(** Writing the entry again finds it. *)
Lemma slot_again d cu cpk dc today st now text chat error sent st' :
  let s := slot d cu cpk dc today st now in
  slot (set_log s.1 (filled_log cu st text chat error sent now s.2) d) cu cpk dc today st' now
  = (s.1, filled_log cu st text chat error sent now s.2).
Proof.
  cbv zeta. pose proof (slot_spec d cu cpk dc today st now) as (Hs & Hd & _).
  set (s := slot d cu cpk dc today st now) in *. set (l := filled_log _ _ _ _ _ _ _ _).
  assert (Hl : (fun (_ : Z) l => same_reminder cpk (dc_type dc) (dc_key dc) l && (trigger_date l =? today)) s.1 l = true).
  { cbv beta. subst l. rewrite filled_same, Hs. exact (proj2 (Z.eqb_eq _ _) Hd). }
  unfold slot at 1, find_log. change (reminder_logs (set_log s.1 l d)) with (<[s.1 := l]> (reminder_logs d)).
  assert (E : first_where (fun (_ : Z) l => same_reminder cpk (dc_type dc) (dc_key dc) l && (trigger_date l =? today))
                (<[s.1 := l]> (reminder_logs d)) = Some (s.1, l)); [|by rewrite E].
  subst s. unfold slot, find_log in *. destruct (first_where _ (reminder_logs d)) as [[pk old]|] eqn:E; cbn [default fst snd] in *.
  - eapply first_where_insert_same; [exact E|exact Hl].
  - apply first_where_insert_fresh; [exact E|exact Hl].
Qed.

Lemma set_log_twice pk l l' d : set_log pk l' (set_log pk l d) = set_log pk l' d.
Proof. unfold set_log. destruct d. cbn. by rewrite insert_insert_eq. Qed.

(** ** One reminder *)

Definition attempted (cpk : Z) (t : telegram_target) (w w' : World) : Prop :=
  calls w' = CallRemind cpk (tt_config t) (tt_chat t) :: calls w.

Lemma deliver_run cpk cu dc t text now w :
  exists r w', deliver_reminder cpk cu dc t text now w = (Ret r, w') /\ attempted cpk t w w' /\
    if bool_decide (sr_status r = R_SENT) then logged cpk dc (localdate_tehran now) SENT (db w) (db w')
    else sr_status r = R_FAILED /\ logged cpk dc (localdate_tehran now) FAILED (db w) (db w').
Proof.
  unfold deliver_reminder, tried, atomic, askR, mbind, M_bind. rewrite record_run. cbn [calls].
  change ((mk_world ?d ?l ?c) {{ calls ::= ?f }}) with (mk_world d l (f c)).
  destruct (send_reminder _ _ _ _ _) as [u|e]; rewrite record_run; cbn [db calls]; rewrite slot_again; cbn [fst snd];
    eexists _, _; (split; [reflexivity|]); (split; [reflexivity|]); cbn [sr_status].
  - rewrite bool_decide_true by done. cbn [db]. rewrite set_log_twice.
    eexists _, _. split; [reflexivity|].
    destruct (slot_spec (db w) cu cpk dc (localdate_tehran now) SKIPPED now) as (Hs & Hd & Ho).
    split; [done|]. split; [by rewrite !filled_same|]. split; [done|]. intros old Hold. apply Ho in Hold as ->. by split.
  - rewrite bool_decide_false by done. cbn [db]. rewrite set_log_twice. split; [done|].
    eexists _, _. split; [reflexivity|].
    destruct (slot_spec (db w) cu cpk dc (localdate_tehran now) SKIPPED now) as (Hs & Hd & Ho).
    split; [done|]. split; [by rewrite !filled_same|]. split; [done|]. intros old Hold. apply Ho in Hold as ->. by split.
Qed.

Lemma skip_run cpk c cu dc reason u now w :
  exists r w', skip_result cpk c cu dc reason u now w = (Ret r, w') /\ sr_status r = R_SKIPPED /\ calls w' = calls w /\
    logged cpk dc (localdate_tehran now) SKIPPED (db w) (db w').
Proof.
  unfold skip_result, mbind, M_bind. rewrite record_run. eexists _, _. split; [reflexivity|]. split; [done|].
  split; [done|]. apply slot_logged.
Qed.

(** What has to be the case for a message to go out. *)
Record allowed (cpk : Z) (dc : decision) (rs : reminder_settings) (now : Z) (d : DB) : Prop := {
  al_new : sent_duplicate_exists d cpk (dc_type dc) (dc_key dc) (localdate_tehran now) = false;
  al_cool : cooldown_active d cpk (dc_type dc) (dc_key dc) rs now = false;
  al_limit : daily_sent_count d cpk (localdate_tehran now) < rs_max_per_day rs;
}.

Definition one_reminder (cpk : Z) (c : VPNClient.vpn_client) (dc : decision) (rs : reminder_settings) (dry_run : bool)
    (now : Z) (w : World) (r : send_result) (w' : World) : Prop :=
  match sr_status r with
  | R_SKIPPED => calls w' = calls w /\ (db w' = db w \/
      (sent_duplicate_exists (db w) cpk (dc_type dc) (dc_key dc) (localdate_tehran now) = false /\
       logged cpk dc (localdate_tehran now) SKIPPED (db w) (db w')))
  | R_WOULD_SEND => dry_run = true /\ w' = w /\ allowed cpk dc rs now (db w)
  | sent_or_failed => dry_run = false /\ allowed cpk dc rs now (db w) /\
      (exists t rest, get_vpn_client_telegram_targets (db w) cpk c (client_store (db w) c (Some rs)) = t :: rest /\
         attempted cpk t w w') /\
      logged cpk dc (localdate_tehran now) (if bool_decide (sent_or_failed = R_SENT) then SENT else FAILED) (db w) (db w')
  end.

Lemma reminder_cases cpk c dc u rs dry_run now w :
  exists r w', send_reminder_to_customer cpk c dc u rs dry_run now w = (Ret r, w') /\
    one_reminder cpk c dc rs dry_run now w r w'.
Proof.
  unfold one_reminder, send_reminder_to_customer. unfold mbind at 1, M_bind at 1, get_db.
  destruct (sent_duplicate_exists _ _ _ _ _) eqn:Hnew; [eexists _, _; split; [reflexivity|]; by split; [|left]|].
  destruct (cooldown_active _ _ _ _ _ _) eqn:Hcool; [eexists _, _; split; [reflexivity|]; by split; [|left]|].
  destruct (rs_max_per_day rs <=? _) eqn:Hlimit.
  { destruct (skip_run cpk c (customer_for_client (db w) cpk c) dc DAILY_LIMIT u now w) as (r & w' & E & Hr & Hc & Hl).
    exists r, w'. split; [exact E|]. rewrite Hr. split; [done|]. by right. }
  apply Z.leb_gt in Hlimit. assert (Hal : allowed cpk dc rs now (db w)) by done.
  destruct (get_vpn_client_telegram_targets _ _ _ _) as [|t rest] eqn:Ht.
  { destruct dry_run; [eexists _, _; split; [reflexivity|]; by split; [|left]|].
    destruct (skip_run cpk c (customer_for_client (db w) cpk c) dc NO_TARGET u now w) as (r & w' & E & Hr & Hc & Hl).
    exists r, w'. split; [exact E|]. rewrite Hr. split; [done|]. by right. }
  destruct dry_run; [eexists _, _; by split; [reflexivity|]|].
  destruct (deliver_run cpk (customer_for_client (db w) cpk c) dc t
    (build_reminder_message cpk c (dc_type dc) u now) now w) as (r & w' & E & Ha & Hr).
  exists r, w'. split; [exact E|].
  assert (Hx : exists t0 rest0, t :: rest = t0 :: rest0 /\ attempted cpk t0 w w') by (by exists t, rest).
  case_bool_decide as Hs; [rewrite Hs; by rewrite bool_decide_true|]. destruct Hr as [-> Hr]. done.
Qed.

(** What one reminder does.  It always comes to an end.  Reported as sent, a
    message was handed to the first chat of the customer, no message of that
    reminder had been sent, no cooldown was running, the day's limit was not
    reached, and the log says it was sent; reported as failed, the same but for
    the log, which says so.  Reported as skipped, nothing was handed over and the
    log has at most a note of it; in a dry run nothing is ever handed over. *)
Theorem reminder_outcome cpk c dc u rs dry_run now w :
  exists r w', send_reminder_to_customer cpk c dc u rs dry_run now w = (Ret r, w') /\
  match sr_status r with
  | R_SKIPPED => calls w' = calls w /\ (db w' = db w \/
      (sent_duplicate_exists (db w) cpk (dc_type dc) (dc_key dc) (localdate_tehran now) = false /\
       logged cpk dc (localdate_tehran now) SKIPPED (db w) (db w')))
  | R_WOULD_SEND => dry_run = true /\ w' = w /\ allowed cpk dc rs now (db w)
  | sent_or_failed => dry_run = false /\ allowed cpk dc rs now (db w) /\
      (exists t rest, get_vpn_client_telegram_targets (db w) cpk c (client_store (db w) c (Some rs)) = t :: rest /\
         attempted cpk t w w') /\
      logged cpk dc (localdate_tehran now) (if bool_decide (sent_or_failed = R_SENT) then SENT else FAILED) (db w) (db w')
  end.
Proof. exact (reminder_cases cpk c dc u rs dry_run now w). Qed.
End Entries.

(** ** How many *)

(** A message of that reminder was sent: on that day, for low traffic; ever, for
    the rest. *)
Definition repeats (l1 l2 : log_row) : Prop :=
  status l1 = SENT /\ status l2 = SENT /\ vpn_client l1 = vpn_client l2 /\ reminder_type l1 = reminder_type l2 /\
  trigger_key l1 = trigger_key l2 /\ (reminder_type l1 = LOW_TRAFFIC -> trigger_date l1 = trigger_date l2).

(** No reminder was sent twice. *)
Definition sent_once (d : DB) : Prop :=
  forall k1 k2 l1 l2, reminder_logs d !! k1 = Some l1 -> reminder_logs d !! k2 = Some l2 -> repeats l1 l2 -> k1 = k2.

(** Messages a client got in a day stay within a limit, unless there were more
    before; what was sent stays on record; nothing is sent twice. *)
Record within_limits (limit : Z -> Z) (d d' : DB) : Prop := {
  wl_count : forall cpk day, daily_sent_count d' cpk day <= Z.max (daily_sent_count d cpk day) (limit cpk);
  wl_kept : forall pk l, reminder_logs d !! pk = Some l -> status l = SENT -> reminder_logs d' !! pk = Some l;
  wl_once : sent_once d -> sent_once d';
}.

#[global] Instance within_limits_preorder limit : PreOrder (within_limits limit).
Proof.
  split.
  - intros d. split; [intros; lia|done|done].
  - intros d1 d2 d3 [H1 K1 O1] [H2 K2 O2]. split; [|by auto|by auto].
    intros cpk day. specialize (H1 cpk day). specialize (H2 cpk day). lia.
Qed.

Lemma within_limits_same limit d d' : reminder_logs d' = reminder_logs d -> within_limits limit d d'.
Proof.
  intros E. split; unfold daily_sent_count, sent_once; rewrite E; [intros; lia|done|done].
Qed.

Lemma same_reminder_spec cpk kind key l :
  same_reminder cpk kind key l = true <-> vpn_client l = cpk /\ reminder_type l = kind /\ trigger_key l = key.
Proof. unfold same_reminder. rewrite !andb_true_iff, Z.eqb_eq, !bool_decide_eq_true. tauto. Qed.

Lemma no_duplicate_spec d cpk kind key today pk l :
  sent_duplicate_exists d cpk kind key today = false -> reminder_logs d !! pk = Some l ->
  same_reminder cpk kind key l = true -> status l = SENT -> (kind = LOW_TRAFFIC -> trigger_date l = today) -> False.
Proof.
  intros Hd Hl Hs Hst Hday. unfold sent_duplicate_exists in Hd. rewrite exists_where_false in Hd. specialize (Hd _ _ Hl).
  cbn in Hd. rewrite Hs, bool_decide_true in Hd by done. cbn in Hd. apply orb_false_iff in Hd as [H1 H2].
  apply negb_false_iff, bool_decide_eq_true in H1. apply Z.eqb_neq in H2. by apply H2, Hday.
Qed.

(** An entry written where nothing was sent keeps the limits. *)
Lemma logged_within limit cpk dc today st d d' :
  sent_duplicate_exists d cpk (dc_type dc) (dc_key dc) today = false ->
  (st = SENT -> daily_sent_count d cpk today < limit cpk) ->
  logged cpk dc today st d d' -> within_limits limit d d'.
Proof.
  intros Hnew Hlimit (pk & l & -> & Hst & Hs & Hday & Hold).
  assert (Hunsent : forall old, reminder_logs d !! pk = Some old -> status old <> SENT).
  { intros old Ho Hso. destruct (Hold _ Ho) as [? ?]. by eapply no_duplicate_spec. }
  apply same_reminder_spec in Hs as (Hc & Hk & Hkey). split.
  - intros c day. unfold daily_sent_count, set_log. cbn.
    set (p := fun (_ : Z) l => (vpn_client l =? c) && (trigger_date l =? day) && bool_decide (status l = SENT)).
    assert (E : count_where p (<[pk := l]> (reminder_logs d)) = count_where p (reminder_logs d) + Z.b2z (p pk l)).
    { destruct (reminder_logs d !! pk) as [old|] eqn:Ho; [|by apply count_where_insert_fresh].
      rewrite (count_where_insert p _ _ _ _ Ho). assert (p pk old = false) as ->; [|cbn; lia].
      subst p. cbn. rewrite (bool_decide_false (status old = SENT)) by (by apply Hunsent). apply andb_false_r. }
    change (count_where p (<[pk := l]> (reminder_logs d)) <= Z.max (count_where p (reminder_logs d)) (limit c)).
    rewrite E. destruct (p pk l) eqn:Ep; cbn; [|lia]. subst p. cbn in Ep.
    apply andb_true_iff in Ep as [[<-%Z.eqb_eq <-%Z.eqb_eq]%andb_true_iff Hsent%bool_decide_eq_true].
    rewrite Hst in Hsent. specialize (Hlimit Hsent). unfold daily_sent_count in Hlimit. rewrite Hc, Hday. lia.
  - intros k old Ho Hso. unfold set_log. cbn. rewrite lookup_insert_ne; [done|]. intros <-. by apply (Hunsent old).
  - intros Honce k1 k2 l1 l2. unfold set_log. cbn. intros H1 H2 Hr. destruct Hr as (S1 & S2 & Ec & Et & Ek & Ed).
    destruct (decide (k1 = pk)) as [->|N1], (decide (k2 = pk)) as [->|N2]; [done| | |].
    + rewrite lookup_insert_eq in H1. injection H1 as <-. rewrite lookup_insert_ne in H2 by done. exfalso.
      eapply (no_duplicate_spec d); [exact Hnew|exact H2| |done|].
      * apply same_reminder_spec. by rewrite <- Ec, <- Et, <- Ek.
      * intros Hl. rewrite <- Ed; congruence.
    + rewrite lookup_insert_eq in H2. injection H2 as <-. rewrite lookup_insert_ne in H1 by done. exfalso.
      eapply (no_duplicate_spec d); [exact Hnew|exact H1| |done|].
      * apply same_reminder_spec. by rewrite Ec, Et, Ek.
      * intros Hl. rewrite Ed; congruence.
    + rewrite lookup_insert_ne in H1, H2 by done. by eapply Honce.
Qed.

(** ** A run of the job *)

Section Runs.
Context `{Env}.
Implicit Types (w : World) (c : VPNClient.vpn_client).

(** Messages handed over. *)
Definition attempts w : Z :=
  Z.of_nat (length (filter (fun k => Is_true (match k with CallRemind _ _ _ => true | _ => false end)) (calls w))).

(** What decides the settings of a client. *)
Definition settings_tables (d : DB) := (stores d, orders d, plans d).

Definition limits_of (d : DB) c : Z := rs_max_per_day (get_reminder_settings d (client_store d c None)).

Definition limit_of (d : DB) (cpk : Z) : Z := from_option (limits_of d) 0 (clients d !! cpk).

Lemma limits_of_same d d' c : settings_tables d' = settings_tables d -> limits_of d' c = limits_of d c.
Proof.
  intros [= Hs Ho Hp]. unfold limits_of, get_reminder_settings, default_store, client_store, order_of_client.
  by rewrite Hs, Ho, Hp.
Qed.

Definition but_logs w := (settings_tables (db w), attempts w).

Definition but_clients w := (reminder_logs (db w), but_logs w).

Lemma usage_frame cpk c now : respects (keeps but_clients) (get_live_client_usage cpk c now).
Proof.
  unfold get_live_client_usage, sync_vpn_client_stats.
  apply respects_bind; [apply _|apply tried_respects; [apply _|]|]; walk; done.
Qed.

Lemma usage_runs cpk c now w : exists r w', get_live_client_usage cpk c now w = (Ret r, w').
Proof.
  unfold get_live_client_usage, tried, mbind, M_bind. destruct (sync_vpn_client_stats cpk c now w) as [[[s c']|e] w'].
  - destruct (lu_known _); [by eexists _, _|]. by destruct (lu_known (local_usage c "")); eexists _, _.
  - by eexists _, _.
Qed.

(** What one step of the run keeps to. *)
Record step_ok (limit : Z -> Z) (dry_run : bool) w w' : Prop := {
  so_limits : within_limits limit (db w) (db w');
  so_tables : settings_tables (db w') = settings_tables (db w);
  so_dry : dry_run = true -> attempts w' = attempts w;
}.

#[local] Instance step_ok_preorder limit dry_run : PreOrder (step_ok limit dry_run).
Proof.
  split; [by intros w; split; [reflexivity|..]|].
  intros w1 w2 w3 [A1 T1 D1] [A2 T2 D2]. split; [by transitivity (db w2)|congruence|].
  intros Hd. by rewrite (D2 Hd), (D1 Hd).
Qed.

Lemma step_usage limit dry_run cpk c now w r w' :
  get_live_client_usage cpk c now w = (r, w') -> step_ok limit dry_run w w'.
Proof.
  intros Hrun. pose proof (usage_frame cpk c now w _ _ Hrun) as [= Hl Hs Ha Ht Hn].
  split; [by apply within_limits_same| |done]. unfold settings_tables. congruence.
Qed.

Lemma logged_tables cpk dc today st d d' : logged cpk dc today st d d' -> settings_tables d' = settings_tables d.
Proof. by intros (pk & l & -> & _). Qed.

Lemma step_reminder limit dry_run cpk c dc u rs now w :
  rs_max_per_day rs <= limit cpk ->
  exists r w', send_reminder_to_customer cpk c dc u rs dry_run now w = (Ret r, w') /\ step_ok limit dry_run w w'.
Proof.
  intros Hlimit. destruct (reminder_cases cpk c dc u rs dry_run now w) as (r & w' & E & Hr). exists r, w'. split; [done|].
  assert (Hdone : forall st, dry_run = false -> allowed cpk dc rs now (db w) ->
    logged cpk dc (localdate_tehran now) st (db w) (db w') -> step_ok limit dry_run w w').
  { intros st -> [Hnew _ Hday] Hl. split; [|by eapply logged_tables|done].
    eapply logged_within; [exact Hnew|intros _; lia|exact Hl]. }
  unfold one_reminder in Hr. destruct (sr_status r).
  - destruct Hr as (Hd & Ha & _ & Hl). by eapply Hdone.
  - destruct Hr as [Hc Hl]. split; [destruct Hl as [->|[Hnew Hl]]; [reflexivity|eapply logged_within; eauto; done]| |].
    + destruct Hl as [->|[_ Hl]]; [done|by eapply logged_tables].
    + intros _. unfold attempts. by rewrite Hc.
  - destruct Hr as (Hd & Ha & _ & Hl). by eapply Hdone.
  - by destruct Hr as (_ & -> & _).
Qed.

Lemma step_decisions limit dry_run cpk c u rs now l w :
  rs_max_per_day rs <= limit cpk ->
  exists r w', send_decisions cpk c u rs dry_run now l w = (Ret r, w') /\ step_ok limit dry_run w w'.
Proof.
  intros Hlimit. revert w. induction l as [|dc l IH]; intros w; cbn [send_decisions]; [by eexists _, w|].
  destruct (step_reminder limit dry_run cpk c dc u rs now w Hlimit) as (r & w1 & E1 & S1).
  destruct (IH w1) as (rs' & w2 & E2 & S2). eexists _, w2. unfold mbind, M_bind. rewrite E1, E2.
  split; [reflexivity|]. by transitivity w1.
Qed.

Lemma step_clients limit dry_run n f now l sm w :
  (forall cpk c, (cpk, c) ∈ l -> limits_of (db w) c <= limit cpk) ->
  exists sm' w', remind_clients dry_run n f now l sm w = (Ret sm', w') /\ step_ok limit dry_run w w'.
Proof.
  revert sm w. induction l as [|[cpk c] l IH]; intros sm w Hl; cbn [remind_clients]; [by eexists _, w|].
  unfold mbind at 1, M_bind at 1, get_db.
  assert (Hrest : forall w', settings_tables (db w') = settings_tables (db w) ->
    forall k x, (k, x) ∈ l -> limits_of (db w') x <= limit k).
  { intros w' Hs k x Hx. rewrite (limits_of_same _ _ _ Hs). apply Hl. by apply list_elem_of_further. }
  destruct (client_is_before_reminder_start _ _); [by apply IH, Hrest|].
  destruct (negb (n =? 0) && _); [by eexists _, w|].
  destruct (usage_runs cpk c now w) as ([u c'] & w1 & E1). pose proof (step_usage limit dry_run _ _ _ _ _ _ E1) as S1.
  unfold mbind at 1, M_bind at 1. rewrite E1.
  set (rs := get_reminder_settings _ _). set (ds := filter _ _).
  destruct (step_decisions limit dry_run cpk c' u rs now ds w1) as (r & w2 & E2 & S2).
  { apply Hl. by apply list_elem_of_here. }
  unfold mbind, M_bind. rewrite E2. cbv zeta.
  edestruct IH as (sm' & w3 & E3 & S3); [|eexists sm', w3; split; [exact E3|by transitivity w1; [|transitivity w2]]].
  apply Hrest. by rewrite (so_tables _ _ _ _ S2), (so_tables _ _ _ _ S1).
Qed.

(** C29: A run of the periodic job comes to an end whatever the panels and the
    bots answer.  On every day a client has been sent no more reminders than the
    limit of its shop, unless it had before; a reminder on record as sent stays as
    it was; if no reminder had been sent twice - twice in a day, for the one about
    traffic - none has after the run; and a dry run hands no message over. *)
Theorem reminders_within_limits dry_run limit customer client f now w :
  exists sm w', run_renewal_reminders dry_run limit customer client f now w = (Ret sm, w') /\
    within_limits (limit_of (db w)) (db w) (db w') /\ (dry_run = true -> attempts w' = attempts w).
Proof.
  unfold run_renewal_reminders. unfold mbind, M_bind, get_db.
  edestruct (step_clients (limit_of (db w)) dry_run (positive_or limit 0) f now
    (get_active_clients_for_reminders (db w) customer client) (mk_summary 0 0 0 0 []) w) as (sm & w' & E & [Hl _ Hd]);
    [|by exists sm, w'].
  intros cpk c [Hc _]%elem_of_order_by%elem_of_rows_where. unfold limit_of. rewrite Hc. cbn. lia.
Qed.
End Runs.

(** ** The sample shop: the service of customer 101 ends the next day *)

#[local] Existing Instance sample_env.

Definition one_day : Z := 86400 * 1000000.

Definition sample_user : BotUser.bot_user := {|
  BotUser.bot_config := 1; BotUser.customer := Some 101; BotUser.provider_user_id := "7"; BotUser.chat_id := "77";
  BotUser.is_active := true; BotUser.last_seen_at := 0; BotUser.updated_at := 0 |}.

Definition sample_ending : World := sample_shop {{ db ::= fun d => d {{
  bot_configs := {[ 1 := sample_bot ]}; bot_users := {[ 1 := sample_user ]};
  clients := {[ 5 := (sample_vpn_client 1000 10 VPNClient.ACTIVE) {{ VPNClient.expires_at := Some (2 * one_day) }} ]} }} }}.

Definition sample_run (dry_run : bool) (now : Z) (w : World) := run_renewal_reminders dry_run 0 None None All now w.

Definition counted (run : result reminder_summary * World) : option (Z * Z * Z) * Z :=
  (match run.1 with
   | Ret sm => Some (count_status R_SENT sm, count_status R_SKIPPED sm, count_status R_WOULD_SEND sm)
   | Raise _ => None end, attempts run.2).

(** The first run writes to the customer, the next does not. *)
Example sample_reminded_once :
  let first := sample_run false one_day sample_ending in
  counted first = (Some (1, 0, 0), 1) /\ counted (sample_run false (one_day + hour) first.2) = (Some (0, 1, 0), 1).
Proof. vm_compute. by split. Qed.

Definition sent_today : log_row :=
  (blank_log (Some 101) 5 LOW_TRAFFIC "low_traffic_20pct" (localdate_tehran one_day) SENT one_day)
    {{ sent_at := Some one_day }}.

(** Where the day's limit is reached, a dry run writes to the log. *)
Example dry_run_writes_a_log :
  let w := sample_ending {{ db -> reminder_logs := {[ 1 := sent_today ]} }} in
  let w' := (sample_run true one_day w).2 in
  status <$> reminder_logs (db w) !! 2 = None /\ status <$> reminder_logs (db w') !! 2 = Some SKIPPED.
Proof. vm_compute. by split. Qed.
