(* ===== verification/Attribution.v ===== *)
(** Which account on a panel serves which purchase
    (src/customer_activity/mapping.py): the sources of every purchase, through
    its clients and the links of its cups, and the rows of the panels that can
    be counted for one purchase only.  [ConsumptionSpec] proves the theorems.

    [credential_from_link] is a function of [Env].  Sets of hashes stand for the
    sorted tuples of the code; a set that the code iterates over in no fixed
    order is a list here, in order of insertion. *)

From S2P Require Import Prelude Models World Numbers Reminders.

#[local] Open Scope string_scope.
#[local] Open Scope Z_scope.

Definition FULFILLED : list Order.status_t := [Order.CONFIRMED; Order.COMPLETED].

(** ** Sources *)

Record source := mk_source {
  panel_id : option Z;
  inbound_id : option Z;
  node : string;
  hashes : gset string;
  required_hash : string;
}.
#[global] Instance source_eq_dec : EqDecision source.
Proof. solve_decision. Defined.

Record purchase_map := mk_purchase_map {
  pm_order : Z;
  pm_row : Order.order;
  pm_sources : list source;
  pm_cups : list SubscriptionCup.subscription_cup;
  pm_issues : list string;
  pm_superseded : bool;
}.
#[global] Instance eta_purchase_map : Eta purchase_map := fun r => mk_purchase_map (pm_order r) (pm_row r)
  (pm_sources r) (pm_cups r) (pm_issues r) (pm_superseded r).


(** [set.add] *)
Definition set_add {A} `{EqDecision A} (x : A) (l : list A) : list A :=
  if bool_decide (x ∈ l) then l else (l ++ [x])%list.

Definition set_update {A} `{EqDecision A} (xs l : list A) : list A := fold_left (fun l x => set_add x l) xs l.

Section Sources.
Context `{Env}.

Definition hash_xui_identifier (value : string) : string :=
  if bool_decide (strip value = "") then "" else identifier_digest (strip value).

Definition hash_set (values : list string) : gset string :=
  list_to_set (map hash_xui_identifier (filter (fun v => v <> "") values)).

Definition panel_family (d : DB) (panel : option Z) : option Panel.family_t :=
  panel ≫= fun k => Panel.family <$> panels d !! k.

Definition text_of_json (j : option json) : string :=
  match j with Some (JStr s) => s | Some (JNum z) => if z =? 0 then "" else pretty z | Some (JBool true) => "True" | _ => "" end.

Definition source_for_client (d : DB) (c : VPNClient.vpn_client) : source :=
  let i := VPNClient.inbound c ≫= fun k => inbounds d !! k in
  let panel := i ≫= Inbound.panel in
  if bool_decide (panel_family d panel = Some Panel.PASARGUARD) then
    let username := strip (or_str (text_of_json (VPNClient.xui_raw c !! "username"))
                             (or_str (VPNClient.xui_email c) (VPNClient.username c))) in
    mk_source panel (VPNClient.inbound c) "pasarguard" (hash_set [username]) ""
  else
    mk_source panel (VPNClient.inbound c)
      (or_str (VPNClient.xui_node_id c) (match i with Some i => Inbound.xui_node_id i | None => "" end))
      (hash_set [default "" (VPNClient.uuid c); VPNClient.xui_email c; VPNClient.username c; VPNClient.sub_id c]) "".

Definition nowhere (hashes : gset string) : source := mk_source None None "" hashes "".

Definition digest_set (digest : string) : gset string := if bool_decide (digest = "") then ∅ else {[ digest ]}.

Definition source_for_link (d : DB) (l : ConfigLink.config_link) : source :=
  let identifier := credential_from_link (ConfigLink.raw_link l) in
  let digest := hash_xui_identifier identifier in
  match ConfigLink.vpn_client l ≫= fun k => clients d !! k with
  | Some c =>
      let s := source_for_client d c in
      if bool_decide (node s = "pasarguard")
      then mk_source (panel_id s) (inbound_id s) (node s) (digest_set digest) (default "" (head (elements (hashes s))))
      else if negb (bool_decide (digest = "")) && bool_decide (digest ∈ hashes s) then s
      else nowhere (hashes s ∪ digest_set digest)
  | None =>
      let i := ConfigLink.source_inbound l ≫= fun k => inbounds d !! k in
      let panel := or_opt (ConfigLink.source_panel l) (i ≫= Inbound.panel) in
      let hashes := if bool_decide (identifier = "") then ∅ else {[ digest ]} in
      match i with
      | Some i0 => if negb (bool_decide (Inbound.panel i0 = panel)) then nowhere ∅
                   else mk_source panel (ConfigLink.source_inbound l)
                     (if bool_decide (panel_family d panel = Some Panel.PASARGUARD) then "pasarguard" else Inbound.xui_node_id i0)
                     hashes ""
      | None => mk_source panel (ConfigLink.source_inbound l)
                  (if bool_decide (panel_family d panel = Some Panel.PASARGUARD) then "pasarguard" else "") hashes ""
      end
  end.

(** ** Purchases *)

(** [int(value)] of a JSON value. *)
Definition json_int (j : option json) : option Z :=
  match j with
  | Some (JNum n) => Some n
  | Some (JBool b) => Some (Z.b2z b)
  | Some (JStr s) => int_of_text s
  | _ => None
  end.

(** A renewal order that is fulfilled names the client it renewed. *)
Definition renewal_target (d : DB) (o : Order.order) : option (Z * VPNClient.vpn_client) :=
  cpk ← json_int (Order.metadata o !! "renewal_client_pk");
  c ← clients d !! cpk;
  if bool_decide (Order.status o ∈ FULFILLED) && bool_decide (Order.verification_status o = Order.V_VERIFIED)
  then Some (cpk, c) else None.

(** The renewal belongs to the customer and the shop of the client. *)
Definition same_owner (d : DB) (o : Order.order) (c : VPNClient.vpn_client) : bool :=
  match VPNClient.order c ≫= fun k => orders d !! k with
  | Some first => bool_decide (Order.customer first = Order.customer o)
                  && bool_decide (VPNClient.store c = Order.store o)
  | None => false
  end.

(** By the time they were verified. *)
Definition orders_by_verification (d : DB) : list (Z * Order.order) :=
  order_by (fun ko => [default (Order.created_at ko.2) (Order.verified_at ko.2); ko.1]) (map_to_list (orders d)).

(** [owner], [renewals] and the purchases in conflict. *)
Record ownership := mk_ownership {
  owner : gmap Z (option Z);
  renewals : gmap Z (list Z);
  conflicts : list Z;
}.
#[global] Instance eta_ownership : Eta ownership := fun r => mk_ownership (owner r) (renewals r) (conflicts r).

Definition take_renewal (d : DB) (own : ownership) (ko : Z * Order.order) : ownership :=
  match renewal_target d ko.2 with
  | None => own
  | Some (cpk, c) =>
      if same_owner d ko.2 c
      then own {{ owner ::= insert cpk (Some ko.1);
                  renewals ::= fun r => <[cpk := (default [] (r !! cpk) ++ [ko.1])%list]> r }}
      else own {{ conflicts ::= cons ko.1 }}
  end.

Definition ownership_of (d : DB) : ownership :=
  fold_left (take_renewal d) (orders_by_verification d) (mk_ownership (VPNClient.order <$> clients d) ∅ []).

Definition owner_of (own : ownership) (cpk : Z) : option Z := mjoin (owner own !! cpk).

(** The order exists. *)
Definition known_order (d : DB) (k : option Z) : option Z := k ≫= fun o => if is_set (orders d !! o) then Some o else None.

(** Purchases a later renewal took the service of: all but the last renewal of a
    client, the order of a client another owns. *)
Definition transferred_by_renewal (d : DB) (own : ownership) : list Z :=
  (flat_map (fun '(cpk, l) => filter (fun o => Some o <> owner_of own cpk) l) (map_to_list (renewals own))
   ++ omap (fun '(cpk, c) => match known_order d (VPNClient.order c) with
                             | Some o => if bool_decide (owner_of own cpk = Some o) then None else Some o
                             | None => None end) (map_to_list (clients d)))%list.

Definition client_sources (d : DB) (own : ownership) (opk : Z) : list source :=
  set_update (omap (fun '(cpk, c) => if bool_decide (owner_of own cpk = Some opk)
                                     then Some (source_for_client d c) else None) (map_to_list (clients d))) [].

(** [add] of one cup: a source of a client that another purchase renewed away is
    not the cup's any more. *)
Definition moved_on (d : DB) (own : ownership) (opk : option Z) (client : option Z) : bool :=
  match known_order d opk, client ≫= fun k => pair k <$> clients d !! k with
  | Some o, Some (cpk, original) =>
      negb (bool_decide (owner_of own cpk = Some o))
      && negb (bool_decide (owner_of own cpk = VPNClient.order original))
      && (bool_decide (VPNClient.order original = Some o) || bool_decide (o ∈ default [] (renewals own !! cpk)))
  | _, _ => false
  end.

(** What a cup hands out, with the client each source is tied to. *)
Definition cup_claims (d : DB) (cup : Z) (u : SubscriptionCup.subscription_cup) : list (source * option Z) :=
  (match SubscriptionCup.vpn_client u ≫= fun k => pair k <$> clients d !! k with
   | Some (cpk, c) => [(source_for_client d c, Some cpk)] | None => [] end
   ++ omap (fun '(_, it) =>
        match config_links d !! CupItem.config_link it with
        | Some l => if CupItem.is_active it && ConfigLink.is_active l
                    then Some (source_for_link d l, ConfigLink.vpn_client l) else None
        | None => None end)
      (rows_where (fun _ it => CupItem.cup it =? cup) (cup_items d)))%list.

Definition cup_sources (d : DB) (own : ownership) (cup : Z) (u : SubscriptionCup.subscription_cup) : list source :=
  set_update (omap (fun '(s, c) => if moved_on d own (SubscriptionCup.order u) c then None else Some s) (cup_claims d cup u)) [].

Definition cup_moved (d : DB) (own : ownership) (cup : Z) (u : SubscriptionCup.subscription_cup) : list Z :=
  match SubscriptionCup.order u with
  | Some o => if existsb (fun sc => moved_on d own (Some o) sc.2) (cup_claims d cup u) then [o] else []
  | None => []
  end.

Definition order_cups (d : DB) (opk : Z) : list (Z * SubscriptionCup.subscription_cup) :=
  rows_where (fun _ u => bool_decide (SubscriptionCup.order u = Some opk)) (cups d).

Definition CONFLICT_ISSUE : string := "ownership_conflict".

Definition map_of (d : DB) (own : ownership) (opk : Z) (o : Order.order) : purchase_map :=
  let us := order_cups d opk in
  let sources := set_update (flat_map (fun ku => cup_sources d own ku.1 ku.2) us) (client_sources d own opk) in
  let stranger u := is_set (SubscriptionCup.customer u)
                    && negb (bool_decide (SubscriptionCup.customer u = Order.customer o)) in
  {| pm_order := opk; pm_row := o; pm_sources := sources; pm_cups := us.*2;
     pm_issues := if bool_decide (opk ∈ conflicts own) || existsb stranger us.*2 then [CONFLICT_ISSUE] else [];
     pm_superseded := negb (nonempty sources)
       && (bool_decide (opk ∈ transferred_by_renewal d own)
           || existsb (fun ku => bool_decide (opk ∈ cup_moved d own ku.1 ku.2)) us) |}.

(** Sources no purchase owns: of clients without an order, of cups without one. *)
Definition orphan_sources (d : DB) (own : ownership) : list source :=
  (omap (fun '(cpk, c) => if is_set (known_order d (owner_of own cpk)) then None else Some (source_for_client d c))
     (map_to_list (clients d))
   ++ flat_map (fun '(k, u) => if is_set (known_order d (SubscriptionCup.order u)) then [] else cup_sources d own k u)
        (map_to_list (cups d)))%list.

Definition load_purchase_maps (d : DB) : list purchase_map * list source :=
  let own := ownership_of d in
  let l := order_by (fun ko => [Order.created_at ko.2; ko.1]) (map_to_list (orders d)) in
  (filter (fun m => Is_true (nonempty (pm_sources m) || nonempty (pm_cups m)
             || bool_decide (Order.status (pm_row m) ∈ FULFILLED)))
     (map (fun ko => map_of d own ko.1 ko.2) l),
   orphan_sources d own).

(** ** Rows *)

(** The SHA-256 of the tuple's text (for texts without quotes). *)
Definition row_key (r : usage_row) : string :=
  sha256 ("(" +:+ pretty (ur_panel r) +:+ ", '" +:+ ur_node r +:+ "', " +:+ ur_remote_inbound r +:+ ", '" +:+ ur_hash r +:+ "')").

Definition shares_alias (s : source) (r : usage_row) : bool := existsb (fun a => bool_decide (a ∈ hashes s)) (ur_aliases r).

Definition is_candidate (s : source) (r : usage_row) : bool :=
  bool_decide (panel_id s = Some (ur_panel r))
  && (bool_decide (required_hash s = "") || bool_decide (required_hash s ∈ ur_aliases r))
  && shares_alias s r.

Definition in_scope (s : source) (r : usage_row) : bool :=
  (bool_decide (node s = "pasarguard") || bool_decide (ur_inbound r = inbound_id s)) && bool_decide (ur_node r = node s).

Definition resolve (rows : list usage_row) (s : source) : option usage_row :=
  if negb (is_set (panel_id s)) || (negb (is_set (inbound_id s)) && negb (bool_decide (node s = "pasarguard")))
     || bool_decide (hashes s = ∅)
  then None
  else match filter (fun r => Is_true (is_candidate s r && in_scope s r)) rows with [r] => Some r | _ => None end.

(** An unresolved source may be any of the rows with one of its hashes. *)
Definition could_be (s : source) (r : usage_row) : bool :=
  match panel_id s with Some p => p =? ur_panel r | None => true end && shares_alias s r.

Definition claim (key : string) (by_ : option Z) (claims : gmap string (gset (option Z))) : gmap string (gset (option Z)) :=
  <[key := {[ by_ ]} ∪ default ∅ (claims !! key)]> claims.

Definition claims_of (rows : list usage_row) (by_ : option Z) (s : source) : list (string * option Z) :=
  match resolve rows s with
  | Some r => [(row_key r, by_)]
  | None => map (fun r => (row_key r, by_)) (filter (fun r => Is_true (could_be s r)) rows)
  end.

(** An orphan is a claim of nobody's, whether or not it resolves. *)
Definition orphan_claims (rows : list usage_row) (s : source) : list (string * option Z) :=
  map (fun r => (row_key r, None)) (filter (fun r => Is_true (could_be s r)) rows).

Definition all_claims (maps : list purchase_map) (orphans : list source) (rows : list usage_row) : list (string * option Z) :=
  (flat_map (fun m => flat_map (claims_of rows (Some (pm_order m))) (pm_sources m)) maps
   ++ flat_map (orphan_claims rows) orphans)%list.

Definition claims (l : list (string * option Z)) : gmap string (gset (option Z)) :=
  fold_left (fun c kv => claim kv.1 kv.2 c) l ∅.

Definition claimants (c : gmap string (gset (option Z))) (key : string) : gset (option Z) := default ∅ (c !! key).

Definition by_key (l : list usage_row) : gmap string usage_row := list_to_map (map (fun r => (row_key r, r)) (reverse l)).

Definition SHARED : string := "shared_identity".
Definition UNMAPPED : string := "unmapped_source".
Definition MISSING : string := "missing_counters".
Definition PARTIAL : string := "partial_coverage".

Definition resolve_map (c : gmap string (gset (option Z))) (rows : list usage_row) (m : purchase_map)
    : gmap string usage_row * string :=
  let matched := map (resolve rows) (pm_sources m) in
  let known := by_key (omap id matched) in
  let alone key := (size (claimants c key) <=? 1)%nat in
  match pm_issues m with
  | issue :: _ => (known, issue)
  | [] =>
      let reason :=
        if negb (forallb alone (map_to_list known).*1) then SHARED
        else if negb (nonempty matched) || negb (forallb is_set matched) then UNMAPPED
        else if negb (forallb ur_available (map_to_list known).*2) then MISSING else "" in
      let exclusive := filter (fun kr => size (claimants c kr.1) = 1%nat /\ ur_available kr.2 = true) known in
      if negb (bool_decide (reason = "")) && nonempty (map_to_list exclusive) then (exclusive, PARTIAL)
      else (known, reason)
  end.

Definition resolve_maps (maps : list purchase_map) (orphans : list source) (rows : list usage_row) (m : purchase_map)
    : gmap string usage_row * string :=
  resolve_map (claims (all_claims maps orphans rows)) rows m.
End Sources.
