(* ===== verification/Consumption.v ===== *)
(** Measured use of a purchase (src/customer_activity/services.py): what two
    readings of its counters say, how long it has been watched without a break,
    and the collector that takes the readings under a lease.
    [ConsumptionSpec] proves the theorems.

    Instants are microseconds.  The panels are read through [read_panel] of
    [Env], and the counters kept in the row are those of the last reading. *)

From S2P Require Import Prelude Models World Attribution.
Import Activity.

#[local] Open Scope string_scope.
#[local] Open Scope Z_scope.

Definition minute : Z := 60 * 1000000.
Definition WINDOW : Z := 48 * 60 * minute.
Definition MAX_GAP : Z := 45 * minute.
Definition LEASE : Z := 10 * minute.

(** ** What the readings say of the service *)

(** [used >= total] of a count that was not read. *)
Definition TYPE_ERROR : exn := OtherError "TypeError".

(** The state of one source, and when it ended if that is known. *)
Definition row_state (now : Z) (r : usage_row) : result (entitlement_t * option Z) :=
  let enabled := match ur_enabled r with
                 | Some false => DISABLED
                 | Some true => if is_set (ur_total r) then VALID else UNKNOWN
                 | None => UNKNOWN end in
  if bool_decide (ur_status r = "expired") || match ur_expiry r with Some t => t <=? now | None => false end
  then Ret (EXPIRED, ur_expiry r)
  else if bool_decide (ur_status r = "limited") then Ret (EXHAUSTED, None)
  else match ur_total r with
  | Some total =>
      if 0 <? total then
        match ur_used r with
        | None => Raise TYPE_ERROR
        | Some used => Ret (if total <=? used then EXHAUSTED else enabled, None)
        end
      else Ret (enabled, None)
  | None => Ret (enabled, None)
  end.

Fixpoint row_states (now : Z) (rows : list usage_row) : result (list (entitlement_t * option Z)) :=
  match rows with
  | [] => Ret []
  | r :: rest => s ← row_state now r; l ← row_states now rest; Ret (s :: l)
  end.

Definition zmax (l : list Z) : option Z := match l with [] => None | x :: l => Some (fold_left Z.max l x) end.
Definition zmin (l : list Z) : option Z := match l with [] => None | x :: l => Some (fold_left Z.min l x) end.

Definition cup_closed (now : Z) (u : SubscriptionCup.subscription_cup) : bool :=
  negb (bool_decide (SubscriptionCup.status u = SubscriptionCup.ACTIVE)) || SubscriptionCup.is_expired now u.

(** [entitlement]: the state, the reason it stands in the way of measuring, and
    when the service ended. *)
Definition entitlement_of (m : purchase_map) (rows : list usage_row) (now : Z)
    : result (entitlement_t * string * option Z) :=
  if pm_superseded m then Ret (SUPERSEDED, "superseded", None)
  else
    let o := pm_row m in
    l ← row_states now rows;
    let states := l.*1 in
    let ends := omap snd l in
    let usable := bool_decide (VALID ∈ states) in
    if bool_decide (Order.status o ∈ [Order.CANCELLED; Order.REJECTED])
    then Ret (if usable then (CONFLICT, "closed_order_active", None) else (CLOSED, "", None))
    else if negb (bool_decide (Order.status o ∈ FULFILLED)) || negb (bool_decide (Order.verification_status o = Order.V_VERIFIED))
    then Ret (CONFLICT, "unverified_service", None)
    else match states with
    | [] => Ret (UNKNOWN, "", None)
    | first :: _ =>
        if nonempty (pm_cups m) && forallb (cup_closed now) (pm_cups m)
        then Ret (if usable then (CONFLICT, "closed_cup_active", None) else (DISABLED, "", None))
        else if forallb (fun s => bool_decide (s = VALID)) states then Ret (VALID, "", None)
        else if usable || bool_decide (UNKNOWN ∈ states) then Ret (UNKNOWN, "", None)
        else Ret (if forallb (fun s => bool_decide (s = first)) states then first else ENDED, "",
                  if (length ends =? length states)%nat then zmax ends else None)
    end.

(** ** Two readings *)

Definition reading (r : usage_row) : option counter :=
  match ur_used r, ur_upload r, ur_download r with
  | Some used, Some up, Some down =>
      if (0 <=? used) && (0 <=? up) && (0 <=? down)
      then Some (mk_counter used up down (ur_captured_at r) (ur_total r) (ur_expiry r)) else None
  | _, _, _ => None
  end.

Definition readings (rows : gmap string usage_row) : gmap string counter := omap reading rows.

Definition all_read (rows : gmap string usage_row) : bool := forallb (fun r => is_set (reading r)) (map_to_list rows).*2.

Definition times_of (c : gmap string counter) : list Z := map sampled_at (map_to_list c).*2.

(** Each source of the new reading with its old one. *)
Definition pairs (old new : gmap string counter) : list (counter * counter) :=
  omap (fun kc => (fun c => (c, kc.2)) <$> old !! kc.1) (map_to_list new).

Definition same_keys (old new : gmap string counter) : bool :=
  bool_decide (dom old =@{gset string} dom new).

Definition steady (oc : counter * counter) : bool :=
  let gap := sampled_at oc.2 - sampled_at oc.1 in (0 <? gap) && (gap <=? MAX_GAP).

Definition same_limits (oc : counter * counter) : bool :=
  bool_decide (quota oc.1 = quota oc.2) && bool_decide (expiry oc.1 = expiry oc.2).

Definition not_less (oc : counter * counter) : bool :=
  (used oc.1 <=? used oc.2) && (up oc.1 <=? up oc.2) && (down oc.1 <=? down oc.2).

Definition growth (l : list (counter * counter)) : Z := fold_right (fun oc s => used oc.2 - used oc.1 + s) 0 l.

Definition PARTIAL_PREFIX : string := "partial_".
Definition is_partial (reason : string) : bool := String.prefix PARTIAL_PREFIX reason.
(** [removeprefix("partial_")] *)
Definition without_partial (reason : string) : string :=
  if is_partial reason then String.substring 8 (String.length reason - 8) reason else reason.

(** The quality of a complete reading. *)
Definition compare_readings (a : purchase_activity) (current : gmap string counter) (partial : bool) (now : Z) : string :=
  let times := times_of current in
  if negb (nonempty times) || existsb (fun t => (now <? t) || (MAX_GAP <? now - t)) times then "stale"
  else if negb (nonempty (map_to_list (counters a))) || (negb partial && is_partial (reason a)) then "baseline"
  else if negb (same_keys (counters a) current) then "mapping_changed"
  else match observed_at a with
  | None => "gap"
  | Some seen =>
      if MAX_GAP <? now - seen then "gap"
      else
        let l := pairs (counters a) current in
        if negb (forallb steady l) then "gap"
        else if negb (forallb same_limits l) then "cycle_changed"
        else if negb (forallb not_less l) then "counter_reset"
        else "ok"
  end.

Definition fresh_activity : purchase_activity := {|
  observed_at := None; entitlement := UNKNOWN; reason := "not_observed"; counters := ∅; continuous_since := None;
  last_activity_start := None; last_activity_at := None; source_count := 0; cycle := 1; ended_at := None |}.

Section Consumption.
Context `{Env}.

(** [minimum_bytes] *)
Definition minimum_bytes : Z := Z.max 1 activity_min_bytes.

(** What one reading says: the quality, the counters, the evidence of use. *)
Record sample := mk_sample {
  sm_quality : string;
  sm_counters : gmap string counter;
  sm_continuous : option Z;
  sm_start : option Z;
  sm_at : option Z;
  sm_delta : option Z;
  sm_from : option Z;
}.

(** A reading that cannot be used: nothing is known any more. *)
Definition unusable (quality : string) : sample := mk_sample quality ∅ None None None None None.

(** A reading that the one before cannot be compared with. *)
Definition restart (quality : string) (current : gmap string counter) : sample :=
  mk_sample quality current (zmax (times_of current)) None None None None.

Definition compared (a : purchase_activity) (current : gmap string counter) : sample :=
  let delta := growth (pairs (counters a) current) in
  let start := zmin (times_of (counters a)) in
  if minimum_bytes <=? delta
  then mk_sample "ok" current (continuous_since a) start (zmax (times_of current)) (Some delta) start
  else mk_sample "ok" current (continuous_since a) (last_activity_start a) (last_activity_at a) (Some delta) start.

(** Counters that do not allow a verdict on the whole purchase. *)
Definition of_part (s : sample) : sample :=
  mk_sample (PARTIAL_PREFIX +:+ sm_quality s) (sm_counters s) None (sm_start s) (sm_at s) (sm_delta s) (sm_from s).

Definition take_sample (a : purchase_activity) (rows : gmap string usage_row) (partial : bool) (now : Z) : sample :=
  if negb (all_read rows) then unusable "missing_counters"
  else
    let current := readings rows in
    let q := compare_readings a current partial now in
    if bool_decide (q = "stale") then unusable "stale"
    else
      let s := if bool_decide (q = "ok") then compared a current else restart q current in
      if partial then of_part s else s.

Definition RESTARTS : list string := ["counter_reset"; "mapping_changed"; "cycle_changed"].

(** [record_purchase] on the row: the new row and the observation. *)
Definition updated_activity (a : purchase_activity) (m : purchase_map) (rows : gmap string usage_row) (why : string) (now : Z) : result (purchase_activity * activity_observation) :=
  '(state, state_reason, ended) ← entitlement_of m (map_to_list rows).*2 now;
  let why := or_str state_reason why in
  let settled := [CLOSED; CONFLICT] in
  let state := if negb (bool_decide (why = "")) && negb (bool_decide (why = "superseded"))
                  && negb (bool_decide (state ∈ settled)) then UNKNOWN else state in
  let partial := bool_decide (why = PARTIAL) in
  let s := if negb (bool_decide (why = "")) && negb partial then unusable why else take_sample a rows partial now in
  let state := if bool_decide (sm_quality s ∈ ["stale"; "missing_counters"])
                  && negb (bool_decide (state ∈ SUPERSEDED :: settled)) then UNKNOWN else state in
  let over := bool_decide (state ∈ [EXPIRED; EXHAUSTED; DISABLED; ENDED]) in
  Ret (a {{ observed_at := Some now; entitlement := state; reason := sm_quality s; counters := sm_counters s;
            continuous_since := sm_continuous s; last_activity_start := sm_start s; last_activity_at := sm_at s;
            source_count := Z.of_nat (size rows);
            cycle ::= (fun c => if bool_decide (without_partial (sm_quality s) ∈ RESTARTS) then c + 1 else c);
            ended_at := (if over then or_opt ended (or_opt (ended_at a) (Some now)) else None) }},
       mk_observation (pm_order m) now (sm_from s) (sm_delta s) (sm_quality s)).

Definition set_activity (opk : Z) (a : purchase_activity) (d : DB) : DB := d {{ activities ::= insert opk a }}.

Definition record_purchase (m : purchase_map) (rows : gmap string usage_row) (why : string) (now : Z)
    : IO purchase_activity := atomic (
  d ← get_db;
  let a := default fresh_activity (activities d !! pm_order m) in
  _ ← put_db (set_activity (pm_order m) a);
  if match observed_at a with Some seen => now <=? seen | None => false end then mret a
  else
    '(a, ob) ← liftR (updated_activity a m rows why now);
    _ ← put_db (fun d => (set_activity (pm_order m) a d) {{ observations ::= insert (next_pk (observations d)) ob }});
    mret a).

(** ** The verdict *)

Definition KNOWN_QUALITY : list string := ["ok"; "baseline"; "gap"; "counter_reset"; "mapping_changed"; "cycle_changed"].

Definition text_of_entitlement (e : entitlement_t) : string :=
  match e with
  | UNKNOWN => "unknown" | VALID => "valid" | EXPIRED => "expired" | EXHAUSTED => "exhausted" | DISABLED => "disabled"
  | ENDED => "ended" | CONFLICT => "conflict" | CLOSED => "closed" | SUPERSEDED => "superseded"
  end.

Definition activity_status (activity : option purchase_activity) (now : Z) : string * string :=
  match activity with
  | None => ("unknown", "not_observed")
  | Some a =>
      match observed_at a with
      | None => ("unknown", "not_observed")
      | Some seen =>
          if MAX_GAP <? now - seen then ("unknown", "stale")
          else if bool_decide (entitlement a ∈ [CONFLICT; SUPERSEDED; CLOSED])
          then (text_of_entitlement (entitlement a), reason a)
          else if negb (bool_decide (without_partial (reason a) ∈ KNOWN_QUALITY)) then ("unknown", reason a)
          else
            let cutoff := now - WINDOW in
            if match last_activity_start a with Some t => cutoff <=? t | None => false end then ("active", reason a)
            else if is_partial (reason a) then ("unknown", reason a)
            else if match continuous_since a with Some t => t <=? cutoff | None => false end
                    && match last_activity_at a with Some t => t <=? cutoff | None => true end
            then ("inactive", reason a)
            else ("collecting", reason a)
      end
  end.

(** ** The collector *)

Definition LEASE_LOST : exn := OtherError "Activity collector lease lost".

Definition blank_collector : activity_collector := mk_collector "" None None None None.

Definition the_collector (d : DB) : activity_collector := default blank_collector (collector d).

Definition free (c : activity_collector) (now : Z) : bool :=
  match lease_until c with Some t => t <=? now | None => true end.

(** [_claim]; [token] is the fresh uuid. *)
Definition claim_lease (token : string) (now : Z) : IO bool :=
  d ← get_db;
  let c := the_collector d in
  if free c now
  then _ ← put_db (fun d => d {{ collector := Some (c {{ Activity.token := token; lease_until := Some (now + LEASE);
                                                         heartbeat_at := Some now }}) }});
       mret true
  else _ ← put_db (fun d => d {{ collector := Some c }}); mret false.

Definition holds_lease (token : string) (now : Z) (c : activity_collector) : bool :=
  bool_decide (Activity.token c = token) && match lease_until c with Some t => now <? t | None => false end.

(** [_heartbeat] *)
Definition heartbeat (token : string) (now : Z) : IO unit :=
  d ← get_db;
  match collector d with
  | Some c =>
      if holds_lease token now c
      then put_db (fun d => d {{ collector := Some (c {{ heartbeat_at := Some now; lease_until := Some (now + LEASE) }}) }})
      else raise LEASE_LOST
  | None => raise LEASE_LOST
  end.

(** A purchase is written in the transaction that finds the lease still held. *)
Definition record_fenced (token : string) (m : purchase_map) (rows : gmap string usage_row) (why : string) (now : Z)
    : IO purchase_activity := atomic (
  c ← get_or_raise (fun w => collector (db w));
  if holds_lease token now c then record_purchase m rows why now else raise LEASE_LOST).

(** [ActivityCollector.objects.filter(pk=1, token=token).update(...)] *)
Definition with_token (token : string) (f : activity_collector -> activity_collector) (w : World) : World :=
  w {{ db ::= fun d => d {{ collector ::= fmap (fun c => if bool_decide (Activity.token c = token) then f c else c) }} }}.

(** The clock, which other work may move on at every call of a panel, and what
    other workers do meanwhile. *)
Context (clock : list call -> Z) (meanwhile : World -> World).

Definition now_io : IO Z := gets (fun w => clock (calls w)).

Definition heartbeat_now (token : string) : IO unit := now ← now_io; heartbeat token now.

Fixpoint read_panels (token : string) (panels : list Z) (rows : list usage_row) (statuses : list (Z * string))
    : IO (list usage_row * list (Z * string)) :=
  match panels with
  | [] => mret (rows, statuses)
  | p :: rest =>
      _ ← heartbeat_now token;
      '(samples, status) ← ask (CallReadPanel p) (fun h => read_panel h p);
      _ ← modify meanwhile;
      read_panels token rest (rows ++ samples)%list (statuses ++ [(p, status)])%list
  end.

(** Why a source of a purchase was not found, if its panel could not be read. *)
Definition why_unmapped (statuses : list (Z * string)) (m : purchase_map) (why : string) : string :=
  if negb (bool_decide (why = UNMAPPED)) then why
  else default why (head (omap (fun s =>
    p ← panel_id s; st ← list_find (fun ps => ps.1 = p) statuses;
    if bool_decide (st.2.2 = "ok") then None else Some st.2.2) (pm_sources m))).

Fixpoint record_all (token : string) (resolved : purchase_map -> gmap string usage_row * string)
    (statuses : list (Z * string)) (maps : list purchase_map) : IO unit :=
  match maps with
  | [] => mret tt
  | m :: rest =>
      let '(rows, why) := resolved m in
      now ← now_io;
      _ ← record_fenced token m rows (why_unmapped statuses m why) now;
      _ ← heartbeat_now token;
      record_all token resolved statuses rest
  end.

Definition collect (token : string) : IO unit :=
  d ← get_db;
  let '(maps, orphans) := load_purchase_maps d in
  let panel_ids := set_update (flat_map (fun m => omap panel_id (pm_sources m)) maps) [] in
  '(rows, statuses) ← read_panels token (order_by (fun p => [p]) (filter (fun p => is_Some (panels d !! p)) panel_ids)) [] [];
  _ ← heartbeat_now token;
  _ ← record_all token (resolve_maps maps orphans rows) statuses maps;
  now ← now_io;
  modify (with_token token (fun c => c {{ completed_at := Some now; collector_error := None }})).

Definition error_name (e : exn) : string :=
  match e with OtherError "TypeError" => "TypeError" | DoesNotExist => "DoesNotExist" | _ => "RuntimeError" end.

(** False: another collector is at work. *)
Definition collect_activity (token : string) : IO bool :=
  now ← now_io;
  claimed ← claim_lease token now;
  if negb claimed then mret false
  else
    _ ← finally
          (catch (collect token)
             (fun e => _ ← modify (with_token token (fun c => c {{ collector_error := Some (error_name e) }})); raise e))
          (with_token token (fun c => c {{ lease_until := None }}));
    mret true.

(** [collector_healthy] *)
Definition collector_healthy (c : option activity_collector) (now : Z) : bool :=
  match c with
  | None => false
  | Some c =>
      match heartbeat_at c with Some t => now - t <=? MAX_GAP | None => false end
      && negb (is_set (collector_error c))
      && (is_set (completed_at c) || match lease_until c with Some t => now <? t | None => false end)
  end.
End Consumption.
