(* ===== verification/ConsumptionSpec.v ===== *)
(** A customer is called inactive only on evidence: what the verdicts of
    [Consumption] rest on, whose traffic a purchase is measured by, and who may
    write the measurements. *)

From S2P Require Import Prelude Models World ReferralRewards Attribution Consumption.
Import Activity.

#[local] Open Scope string_scope.
#[local] Open Scope Z_scope.

(** ** Largest and smallest *)

Lemma fold_max_spec l x : x <= fold_left Z.max l x /\ (forall y, y ∈ l -> y <= fold_left Z.max l x) /\
  (fold_left Z.max l x = x \/ fold_left Z.max l x ∈ l).
Proof.
  revert x. induction l as [|z l IH]; intros x; cbn [fold_left].
  { split; [lia|]. split; [by intros y ?%elem_of_nil|by left]. }
  destruct (IH (Z.max x z)) as (H1 & H2 & H3). split; [lia|]. split.
  - intros y [->|Hy]%elem_of_cons; [lia|by apply H2].
  - destruct H3 as [H3|H3]; [|by right; apply list_elem_of_further].
    rewrite H3. destruct (Z.max_spec x z) as [[_ ->]|[_ ->]]; [right; apply list_elem_of_here|by left].
Qed.

Lemma zmax_spec l m : zmax l = Some m -> m ∈ l /\ forall x, x ∈ l -> x <= m.
Proof.
  destruct l as [|x l]; [done|]. cbn. intros [= <-]. destruct (fold_max_spec l x) as (H1 & H2 & H3). split.
  - destruct H3 as [->|H3]; [apply list_elem_of_here|by apply list_elem_of_further].
  - intros y [->|Hy]%elem_of_cons; [done|by apply H2].
Qed.

Lemma zmax_is_some l : zmax l = None -> l = [].
Proof. by destruct l. Qed.

Lemma elem_of_times t c : t ∈ times_of c <-> exists k x, c !! k = Some x /\ sampled_at x = t.
Proof.
  unfold times_of. rewrite list_elem_of_fmap. split.
  - intros (x & -> & ([k y] & -> & Hk%elem_of_map_to_list)%list_elem_of_fmap). by exists k, y.
  - intros (k & x & Hk & <-). exists x. split; [done|]. apply list_elem_of_fmap. exists (k, x).
    by rewrite elem_of_map_to_list.
Qed.

(** ** One reading *)

Section Evidence.
Context `{Env}.
Implicit Types (a : purchase_activity) (s : sample) (now : Z).

(** The readings a verdict can rest on. *)
Inductive sound_sample a now : sample -> Prop :=
| sound_unusable q : sound_sample a now (unusable q)
| sound_restart q cur c :
    zmax (times_of cur) = Some c -> c <= now <= c + MAX_GAP -> sound_sample a now (restart q cur)
| sound_compared cur c seen :
    zmax (times_of cur) = Some c -> c <= now <= c + MAX_GAP ->
    observed_at a = Some seen -> now - seen <= MAX_GAP ->
    (forall k x, counters a !! k = Some x -> exists y, cur !! k = Some y /\ sampled_at x < sampled_at y) ->
    sound_sample a now (compared a cur)
| sound_part s : sound_sample a now s -> sound_sample a now (of_part s).

Lemma fresh_times cur now :
  negb (nonempty (times_of cur)) || existsb (fun t => (now <? t) || (MAX_GAP <? now - t)) (times_of cur) = false ->
  exists c, zmax (times_of cur) = Some c /\ c <= now <= c + MAX_GAP.
Proof.
  intros [Hn He]%orb_false_iff. destruct (zmax (times_of cur)) as [c|] eqn:E.
  - exists c. split; [done|]. destruct (zmax_spec _ _ E) as [Hin _].
    destruct ((now <? c) || (MAX_GAP <? now - c)) eqn:Hc.
    + rewrite (proj2 (existsb_exists _ _)) in He; [done|]. exists c. split; [by apply list_elem_of_In|done].
    + apply orb_false_iff in Hc as [?%Z.ltb_ge ?%Z.ltb_ge]. lia.
  - apply zmax_is_some in E. by rewrite E in Hn.
Qed.

Lemma pairs_steady old new :
  same_keys old new = true -> forallb steady (pairs old new) = true ->
  forall k x, old !! k = Some x -> exists y, new !! k = Some y /\ sampled_at x < sampled_at y.
Proof.
  intros Hk%bool_decide_eq_true Hs k x Hx.
  assert (is_Some (new !! k)) as [y Hy] by (apply elem_of_dom; rewrite <- Hk; by apply elem_of_dom_2 in Hx).
  exists y. split; [done|]. rewrite forallb_forall in Hs. specialize (Hs (x, y)). cbn in Hs.
  enough (In (x, y) (pairs old new)) as Hin by (apply Hs in Hin; apply andb_true_iff in Hin as [?%Z.ltb_lt _]; cbn in *; lia).
  apply list_elem_of_In. unfold pairs. apply list_elem_of_omap. exists (k, y). rewrite elem_of_map_to_list. cbn. by rewrite Hx.
Qed.

Lemma sample_sound a rows partial now : sound_sample a now (take_sample a rows partial now).
Proof.
  unfold take_sample. destruct (negb (all_read rows)); [apply sound_unusable|]. set (cur := readings rows). cbv zeta.
  destruct (bool_decide (_ = "stale")) eqn:Hs; [apply sound_unusable|]. apply bool_decide_eq_false in Hs.
  set (q := compare_readings a cur partial now) in *.
  assert (sound_sample a now (if bool_decide (q = "ok") then compared a cur else restart q cur)) as Hd.
  { destruct (negb (nonempty (times_of cur)) || existsb (fun t => (now <? t) || (MAX_GAP <? now - t)) (times_of cur)) eqn:Ht.
    { subst q. unfold compare_readings in Hs. cbv zeta in Hs. by rewrite Ht in Hs. }
    destruct (fresh_times _ _ Ht) as (c & Hc & Hb). case_bool_decide as Hq; [|by eapply sound_restart].
    subst q. unfold compare_readings in Hq. cbv zeta in Hq. rewrite Ht in Hq.
    destruct (_ || _) in Hq; [done|]. destruct (same_keys _ _) eqn:Hk in Hq; [|done].
    destruct (observed_at a) as [seen|] eqn:Ho; [|done]. destruct (MAX_GAP <? now - seen) eqn:Hg in Hq; [done|].
    destruct (forallb steady _) eqn:Hp in Hq; [|done]. apply Z.ltb_ge in Hg.
    eapply sound_compared; [exact Hc|exact Hb|exact Ho|exact Hg|]. by apply pairs_steady. }
  destruct partial; [by apply sound_part|exact Hd].
Qed.

(** ** What the row of a purchase rests on, given its observations *)

(** Since [c], every observation is of quality "ok" and they leave no gap; those
    with use are not later than 45 minutes after the last use on record. *)
Definition watched_since a (obs : activity_observation -> Prop) (c : Z) : Prop :=
  exists b seen, observed_at a = Some seen /\ b <= seen /\ c <= b <= c + MAX_GAP /\
    (forall ob, obs ob -> b < sample_at ob -> quality ob = "ok" /\ exists delta, delta_bytes ob = Some delta /\
       (minimum_bytes <= delta -> exists la, last_activity_at a = Some la /\ sample_at ob <= la + MAX_GAP)) /\
    (forall t, b <= t < seen -> exists ob, obs ob /\ t < sample_at ob <= t + MAX_GAP).

Record evidence a (obs : activity_observation -> Prop) : Prop := {
  ev_past : forall ob, obs ob -> exists seen, observed_at a = Some seen /\ sample_at ob <= seen;
  ev_watched : forall c, continuous_since a = Some c -> watched_since a obs c;
  ev_latest : forall la, last_activity_at a = Some la -> exists k x, counters a !! k = Some x /\ la <= sampled_at x;
  ev_start : forall st, last_activity_start a = Some st ->
    exists ob delta, obs ob /\ interval_start ob = Some st /\ delta_bytes ob = Some delta /\ minimum_bytes <= delta;
}.

Definition with_ob (obs : activity_observation -> Prop) (ob : activity_observation) (x : activity_observation) : Prop :=
  obs x \/ x = ob.

(** The row carries the sample. *)
Definition carries a s now : Prop :=
  observed_at a = Some now /\ counters a = sm_counters s /\ continuous_since a = sm_continuous s /\
  last_activity_start a = sm_start s /\ last_activity_at a = sm_at s.

Lemma latest_kept a obs s now :
  evidence a obs -> sound_sample a now s -> forall la, sm_at s = Some la ->
  exists k x, sm_counters s !! k = Some x /\ la <= sampled_at x.
Proof.
  intros He Hs. induction Hs as [q|q cur c Hc Hb|cur c seen Hc Hb Ho Hg Hk|s Hs IH]; try done; try exact IH.
  intros la. unfold compared. destruct (_ <=? _); cbn.
  - intros Hm. destruct (zmax_spec _ _ Hm) as [(k & x & Hx & <-)%elem_of_times _]. by exists k, x.
  - intros Hl. destruct (ev_latest _ _ He _ Hl) as (k & x & Hx & Hle). destruct (Hk _ _ Hx) as (y & Hy & Hlt).
    exists k, y. split; [done|lia].
Qed.

Lemma start_kept a obs s now p q :
  evidence a obs -> sound_sample a now s -> forall st, sm_start s = Some st ->
  exists ob delta, with_ob obs (mk_observation p now (sm_from s) (sm_delta s) q) ob /\ interval_start ob = Some st /\
    delta_bytes ob = Some delta /\ minimum_bytes <= delta.
Proof.
  intros He Hs. induction Hs as [q0|q0 cur c Hc Hb|cur c seen Hc Hb Ho Hg Hk|s Hs IH]; try done; try exact IH.
  intros st. unfold compared. destruct (_ <=? _) eqn:Hd; cbn.
  - intros Hst. eexists _, _. split; [by right|]. cbn. apply Z.leb_le in Hd. done.
  - intros Hst. destruct (ev_start _ _ He _ Hst) as (ob & delta & Hob & Hrest). exists ob, delta. split; [by left|done].
Qed.

(** A further reading keeps the watch or starts it again. *)
Lemma watch_kept a obs s now p a' :
  evidence a obs -> sound_sample a now s -> (forall seen, observed_at a = Some seen -> seen < now) -> carries a' s now ->
  forall c, sm_continuous s = Some c -> watched_since a' (with_ob obs (mk_observation p now (sm_from s) (sm_delta s) (sm_quality s))) c.
Proof.
  intros He Hs Hlate (Ho' & Hcn & _ & _ & Hat). destruct Hs as [q|q cur c Hc Hb|cur c seen Hc Hb Ho Hg Hk|s Hs]; try done.
  - cbn. intros c0 [= Hm]. rewrite Hm in Hc. injection Hc as ->. exists now, now. split; [done|]. split; [done|]. split; [lia|]. split.
    + intros ob [Hob| ->] Hl; [|cbn in Hl; lia].
      destruct (ev_past _ _ He _ Hob) as (seen & Hseen & Hle). specialize (Hlate _ Hseen). lia.
    + intros t Ht. lia.
  - intros c0 Hc0. assert (Hc0' : continuous_since a = Some c0) by (unfold compared in Hc0; by destruct (_ <=? _) in Hc0).
    destruct (ev_watched _ _ He _ Hc0') as (s0 & seen0 & Hseen & Hle & Hs0 & Hall & Hcover).
    rewrite Ho in Hseen. injection Hseen as <-. specialize (Hlate _ Ho).
    exists s0, now. split; [done|]. split; [lia|]. split; [done|]. split.
    + intros ob [Hob| ->] Hl.
      * destruct (Hall _ Hob Hl) as (Hq & delta & Hd & Huse). split; [done|]. exists delta. split; [done|].
        intros Hmin. destruct (Huse Hmin) as (la & Hla & Hbound).
        rewrite Hat. unfold compared. destruct (_ <=? _); cbn; [|by exists la].
        exists c. split; [done|]. destruct (ev_latest _ _ He _ Hla) as (k & x & Hx & Hxl).
        destruct (Hk _ _ Hx) as (y & Hy & Hlt). destruct (zmax_spec _ _ Hc) as [_ Hmax].
        specialize (Hmax (sampled_at y)). enough (sampled_at y <= c) by lia. apply Hmax, elem_of_times. by exists k, y.
      * rewrite Hat. unfold compared. destruct (_ <=? _) eqn:Hd; cbn; (split; [done|]); eexists; (split; [reflexivity|]).
        -- intros _. exists c. split; [done|lia].
        -- apply Z.leb_gt in Hd. lia.
    + intros t Ht. destruct (decide (t < seen)) as [Hlt|Hge].
      * destruct (Hcover t) as (ob & Hob & Hr); [lia|]. exists ob. split; [by left|done].
      * eexists. split; [by right|]. cbn. lia.
Qed.

Lemma reading_evidence a obs m rows why now a' ob :
  evidence a obs -> (forall seen, observed_at a = Some seen -> seen < now) ->
  updated_activity a m rows why now = Ret (a', ob) ->
  evidence a' (with_ob obs ob) /\ purchase ob = pm_order m.
Proof.
  intros He Hlate. unfold updated_activity.
  destruct (entitlement_of m (map_to_list rows).*2 now) as [[[st sr] en]|e]; [|done].
  unfold mbind, result_bind. cbv zeta. set (w := or_str sr why). set (part := bool_decide (w = PARTIAL)).
  set (s := if negb (bool_decide (w = "")) && negb part then unusable w else take_sample a rows part now).
  assert (Hs : sound_sample a now s) by (subst s; destruct (_ && _); [apply sound_unusable|apply sample_sound]).
  clearbody s. intros [= <- <-]. split; [|done]. split; cbn.
  - intros x [Hx| ->]; (exists now; split; [done|]); [|done].
    destruct (ev_past _ _ He _ Hx) as (seen & Hseen & Hle). specialize (Hlate _ Hseen). lia.
  - eapply watch_kept; [exact He|exact Hs|exact Hlate|done].
  - eapply latest_kept; [exact He|exact Hs].
  - eapply start_kept; [exact He|exact Hs].
Qed.

(** ** All that the collector writes *)

Definition seen_of (d : DB) (opk : Z) (ob : activity_observation) : Prop :=
  exists k, observations d !! k = Some ob /\ purchase ob = opk.

Inductive recorded : DB -> Prop :=
| recorded_none d : activities d = ∅ -> observations d = ∅ -> recorded d
| recorded_reading d m rows why now l h r w' :
    recorded d -> record_purchase m rows why now (mk_world d l h) = (r, w') -> recorded (db w')
| recorded_other d d' :
    recorded d -> activities d' = activities d -> observations d' = observations d -> recorded d'.

Lemma evidence_fresh : evidence fresh_activity (fun _ => False).
Proof. by split. Qed.

Lemma evidence_iff a obs obs' : (forall x, obs x <-> obs' x) -> evidence a obs -> evidence a obs'.
Proof.
  intros E [H1 H2 H3 H4]. split.
  - intros ob Hob. by apply H1, E.
  - intros c Hc. destruct (H2 c Hc) as (s & seen & Hs & Hle & Hb & Hall & Hcover). exists s, seen.
    split; [done|]. split; [done|]. split; [done|]. split; [intros ob Hob; by apply Hall, E|].
    intros t Ht. destruct (Hcover t Ht) as (ob & Hob & Hr). exists ob. by rewrite <- E.
  - exact H3.
  - intros st Hst. destruct (H4 st Hst) as (ob & delta & Hob & Hr). exists ob, delta. by rewrite <- E.
Qed.

Definition well_measured (d : DB) : Prop :=
  forall opk, evidence (default fresh_activity (activities d !! opk)) (seen_of d opk).

Lemma seen_of_added d opk ob a :
  let d' := (set_activity opk a d) {{ observations ::= insert (next_pk (observations d)) ob }} in
  forall k x, seen_of d' k x <-> with_ob (seen_of d k) ob x /\ (x = ob -> purchase ob = k) \/ seen_of d k x.
Proof.
  cbv zeta. intros k x. unfold seen_of, with_ob, set_activity. cbn. split.
  - intros (pk & Hpk & <-). destruct (decide (pk = next_pk (observations d))) as [->|Hne].
    + rewrite lookup_insert_eq in Hpk. injection Hpk as <-. left. split; [by right|done].
    + rewrite lookup_insert_ne in Hpk by done. right. by exists pk.
  - assert (Hold : forall pk y, observations d !! pk = Some y -> pk <> next_pk (observations d)).
    { intros pk y Hy ->. by rewrite next_pk_fresh in Hy. }
    intros [[[(pk & Hpk & <-)| ->] Hp]|(pk & Hpk & <-)].
    + exists pk. rewrite lookup_insert_ne; [done|]. apply not_eq_sym. by eapply Hold.
    + exists (next_pk (observations d)). by rewrite lookup_insert_eq, Hp.
    + exists pk. rewrite lookup_insert_ne; [done|]. apply not_eq_sym. by eapply Hold.
Qed.

Lemma recorded_well_measured d : recorded d -> well_measured d.
Proof.
  induction 1 as [d Ha Ho|d m rows why now l h r w' _ IH Hrun|d d' _ IH Ea Eo].
  - intros opk. rewrite Ha, lookup_empty. cbn. eapply evidence_iff; [|apply evidence_fresh].
    intros x. unfold seen_of. rewrite Ho. split; [done|intros (k & Hk & _); by rewrite lookup_empty in Hk].
  - revert Hrun. unfold record_purchase, liftR. run_io. set (a := default fresh_activity _).
    destruct (match observed_at a with Some _ => _ | None => _ end) eqn:Hold.
    + intros [= <- <-]. intros opk. cbn. unfold set_activity, seen_of. cbn. destruct (decide (opk = pm_order m)) as [->|Hne].
      * rewrite lookup_insert_eq. cbn. apply IH.
      * rewrite lookup_insert_ne by done. apply IH.
    + destruct (updated_activity a m rows why now) as [[a' ob]|e] eqn:Hup; intros [= <- <-]; [|exact IH].
      destruct (reading_evidence a (seen_of d (pm_order m)) m rows why now a' ob) as [He Hp]; [apply IH| |exact Hup|].
      { intros seen Hseen. rewrite Hseen in Hold. by apply Z.leb_gt in Hold. }
      intros opk. cbn. destruct (decide (opk = pm_order m)) as [->|Hne].
      * rewrite lookup_insert_eq. cbn. eapply evidence_iff; [|exact He].
        intros x. rewrite (seen_of_added (set_activity (pm_order m) a d) (pm_order m) ob a' (pm_order m) x). unfold with_ob. tauto.
      * rewrite !lookup_insert_ne by done. eapply evidence_iff; [|apply (IH opk)].
        intros x. rewrite (seen_of_added (set_activity (pm_order m) a d) (pm_order m) ob a' opk x). unfold with_ob.
        split; [by right|]. intros [[[Hx|Hx] Hk]|Hx]; [exact Hx| |exact Hx]. exfalso. apply Hne. rewrite <- Hp. symmetry. by apply Hk.
  - intros opk. rewrite Ea. eapply evidence_iff; [|apply (IH opk)]. intros x. unfold seen_of. by rewrite Eo.
Qed.

Lemma verdict_inactive a now r :
  activity_status (Some a) now = ("inactive", r) ->
  exists seen c, observed_at a = Some seen /\ now - seen <= MAX_GAP /\ continuous_since a = Some c /\ c <= now - WINDOW /\
    forall la, last_activity_at a = Some la -> la <= now - WINDOW.
Proof.
  unfold activity_status. destruct (observed_at a) as [seen|]; [|done].
  destruct (MAX_GAP <? now - seen) eqn:Hg; [done|]. apply Z.ltb_ge in Hg.
  destruct (bool_decide (entitlement a ∈ _)); [by destruct (entitlement a)|].
  destruct (negb _); [done|]. cbv zeta. destruct (match last_activity_start a with Some _ => _ | None => _ end); [done|].
  destruct (is_partial _); [done|]. destruct (continuous_since a) as [c|]; [|done]. cbn [andb].
  destruct (c <=? now - WINDOW) eqn:Hc; [|done]. apply Z.leb_le in Hc. cbn [andb].
  destruct (last_activity_at a) as [la|].
  - destruct (la <=? now - WINDOW) eqn:Hl; [|done]. apply Z.leb_le in Hl. intros _. exists seen, c.
    repeat (split; [done|]). by intros la' [= <-].
  - intros _. exists seen, c. by repeat (split; [done|]).
Qed.

Lemma verdict_active a now r :
  activity_status (Some a) now = ("active", r) -> exists st, last_activity_start a = Some st /\ now - WINDOW <= st.
Proof.
  unfold activity_status. destruct (observed_at a) as [seen|]; [|done]. destruct (MAX_GAP <? now - seen); [done|].
  destruct (bool_decide (entitlement a ∈ _)); [by destruct (entitlement a)|].
  destruct (negb _); [done|]. cbv zeta. destruct (last_activity_start a) as [st|].
  - destruct (now - WINDOW <=? st) eqn:E; [|destruct (is_partial _); [done|destruct (_ && _); done]].
    intros _. exists st. split; [done|by apply Z.leb_le].
  - destruct (is_partial _); [done|]. by destruct (_ && _).
Qed.

(** C30: The verdict on a purchase is measured.  It is called inactive only if the
    panels were read, without a break of more than 45 minutes, from 48 hours ago -
    give or take one such break - until now, every reading could be compared with
    the one before, and none shows the least traffic that counts; it is called
    active only if two readings in the last 48 hours differ by as much.  This
    holds whatever was read, and in whatever order the purchases came. *)
Theorem verdicts_are_measured d opk a now verdict r :
  recorded d -> activities d !! opk = Some a -> activity_status (Some a) now = (verdict, r) ->
  (verdict = "inactive" ->
    (forall ob, seen_of d opk ob -> now - WINDOW + MAX_GAP < sample_at ob ->
       quality ob = "ok" /\ exists delta, delta_bytes ob = Some delta /\ delta < minimum_bytes) /\
    (forall t, now - WINDOW + MAX_GAP <= t < now - MAX_GAP ->
       exists ob, seen_of d opk ob /\ t < sample_at ob <= t + MAX_GAP)) /\
  (verdict = "active" ->
    exists ob st delta, seen_of d opk ob /\ interval_start ob = Some st /\ now - WINDOW <= st /\
      delta_bytes ob = Some delta /\ minimum_bytes <= delta).
Proof.
  intros Hrec Ha Hv. pose proof (recorded_well_measured d Hrec opk) as He. rewrite Ha in He. cbn in He. split.
  - intros ->. destruct (verdict_inactive _ _ _ Hv) as (seen & c & Hseen & Hnow & Hc & Hcut & Hla).
    destruct (ev_watched _ _ He _ Hc) as (b & seen' & Hs & Hb & Hbc & Hall & Hcover). rewrite Hseen in Hs. injection Hs as <-. split.
    + intros ob Hob Hl. destruct (Hall _ Hob) as (Hq & delta & Hd & Huse); [lia|]. split; [done|]. exists delta. split; [done|].
      destruct (decide (delta < minimum_bytes)) as [?|Hge]; [done|]. destruct Huse as (la & E & Hbound); [lia|].
      specialize (Hla _ E). lia.
    + intros t Ht. apply Hcover. lia.
  - intros ->. destruct (verdict_active _ _ _ Hv) as (st & Hst & Hcut).
    destruct (ev_start _ _ He _ Hst) as (ob & delta & Hob & Hi & Hd & Hm). by exists ob, st, delta.
Qed.
End Evidence.

(** ** Whose traffic it is *)

Section Exclusive.
Context `{Env}.

Lemma claim_lookup key who c k : claimants (claim key who c) k = if bool_decide (k = key) then {[ who ]} ∪ claimants c key else claimants c k.
Proof.
  unfold claimants, claim. case_bool_decide as E; [subst k; by rewrite lookup_insert_eq|by rewrite lookup_insert_ne].
Qed.

Lemma elem_of_claims l key who : who ∈ claimants (claims l) key <-> (key, who) ∈ l.
Proof.
  unfold claims. assert (G : forall c, who ∈ claimants (fold_left (fun c kv => claim kv.1 kv.2 c) l c) key <->
    (key, who) ∈ l \/ who ∈ claimants c key).
  { induction l as [|[k x] l IH]; intros c; cbn [fold_left fst snd]; [set_solver|].
    rewrite IH, elem_of_cons, claim_lookup. case_bool_decide as E; [subst k|]; set_solver. }
  rewrite G. unfold claimants at 1. rewrite lookup_empty. set_solver.
Qed.

Lemma resolve_could_be rows s r : resolve rows s = Some r -> r ∈ rows /\ is_candidate s r = true /\ in_scope s r = true.
Proof.
  unfold resolve. destruct (_ || _); [done|]. destruct (filter _ rows) as [|x [|y l]] eqn:E; [done| |done]. intros [= ->].
  assert (Hin : r ∈ [r]) by apply list_elem_of_here. rewrite <- E in Hin.
  apply list_elem_of_filter in Hin as [Hp Hr]. apply Is_true_true, andb_true_iff in Hp as [? ?]. done.
Qed.

Lemma by_key_lookup l key r : by_key l !! key = Some r -> r ∈ l /\ row_key r = key.
Proof.
  unfold by_key. intros Hk%elem_of_list_to_map_2. apply list_elem_of_fmap in Hk as (x & [= -> ->] & Hx).
  split; [by apply elem_of_reverse|done].
Qed.

Lemma by_key_covers l r : r ∈ l -> exists r', by_key l !! row_key r = Some r'.
Proof.
  intros Hr. destruct (by_key l !! row_key r) as [r'|] eqn:E; [by exists r'|]. exfalso.
  unfold by_key in E. apply not_elem_of_list_to_map in E. apply E, list_elem_of_fmap. exists (row_key r, r). split; [done|].
  apply list_elem_of_fmap. exists r. split; [done|by apply elem_of_reverse].
Qed.

Lemma size_one_others (c : gset (option Z)) x y : (size c <= 1)%nat -> x ∈ c -> y ∈ c -> x = y.
Proof.
  intros Hs Hx Hy. destruct (decide (x = y)) as [?|Hne]; [done|]. exfalso.
  assert (Hsub : {[ x; y ]} ⊆ c) by set_solver. apply subseteq_size in Hsub.
  rewrite size_union, !size_singleton in Hsub by set_solver. lia.
Qed.

(** Nobody else can be using the account: no source of another purchase is it,
    or could be, and none of an orphan could be. *)
Definition exclusive_to (maps : list purchase_map) (orphans : list source) (rows : list usage_row) (m : purchase_map)
    (key : string) : Prop :=
  (forall m' s' r', m' ∈ maps -> pm_order m' <> pm_order m -> s' ∈ pm_sources m' -> r' ∈ rows -> row_key r' = key ->
     resolve rows s' <> Some r' /\ (resolve rows s' = None -> could_be s' r' = false)) /\
  (forall s' r', s' ∈ orphans -> r' ∈ rows -> row_key r' = key -> could_be s' r' = false).

Section Claims.
Context (maps : list purchase_map) (orphans : list source) (rows : list usage_row).
Let c := claims (all_claims maps orphans rows).

Lemma claimed_by m s r : m ∈ maps -> s ∈ pm_sources m -> resolve rows s = Some r -> Some (pm_order m) ∈ claimants c (row_key r).
Proof.
  intros Hm Hs Hr. apply elem_of_claims, elem_of_app. left. apply list_elem_of_In, in_flat_map. exists m.
  split; [by apply list_elem_of_In|]. apply in_flat_map. exists s. split; [by apply list_elem_of_In|].
  unfold claims_of. rewrite Hr. by left.
Qed.

Lemma claim_could m s r : m ∈ maps -> s ∈ pm_sources m -> r ∈ rows -> resolve rows s = None -> could_be s r = true ->
  Some (pm_order m) ∈ claimants c (row_key r).
Proof.
  intros Hm Hs Hr Hres Hcould. apply elem_of_claims, elem_of_app. left. apply list_elem_of_In, in_flat_map. exists m.
  split; [by apply list_elem_of_In|]. apply in_flat_map. exists s. split; [by apply list_elem_of_In|].
  unfold claims_of. rewrite Hres. apply in_map_iff. exists r. split; [done|]. apply list_elem_of_In, list_elem_of_filter.
  split; [by apply Is_true_true|done].
Qed.

Lemma claim_orphan s r : s ∈ orphans -> r ∈ rows -> could_be s r = true -> None ∈ claimants c (row_key r).
Proof.
  intros Hs Hr Hcould. apply elem_of_claims, elem_of_app. right. apply list_elem_of_In, in_flat_map. exists s.
  split; [by apply list_elem_of_In|]. apply in_map_iff. exists r. split; [done|]. apply list_elem_of_In, list_elem_of_filter.
  split; [by apply Is_true_true|done].
Qed.

Lemma alone_exclusive m s r : m ∈ maps -> s ∈ pm_sources m -> resolve rows s = Some r ->
  (size (claimants c (row_key r)) <= 1)%nat -> exclusive_to maps orphans rows m (row_key r).
Proof.
  intros Hm Hs Hr Hsize. pose proof (claimed_by m s r Hm Hs Hr) as Hmine. split.
  - intros m' s' r' Hm' Hne Hs' Hr' Hkey. split.
    + intros Hres. apply Hne. pose proof (claimed_by m' s' r' Hm' Hs' Hres) as Ho. rewrite Hkey in Ho.
      by injection (size_one_others _ _ _ Hsize Ho Hmine).
    + intros Hres. destruct (could_be s' r') eqn:E; [|done]. exfalso. apply Hne.
      pose proof (claim_could m' s' r' Hm' Hs' Hr' Hres E) as Ho. rewrite Hkey in Ho.
      by injection (size_one_others _ _ _ Hsize Ho Hmine).
  - intros s' r' Hs' Hr' Hkey. destruct (could_be s' r') eqn:E; [|done]. exfalso.
    pose proof (claim_orphan s' r' Hs' Hr' E) as Ho. rewrite Hkey in Ho.
    by pose proof (size_one_others _ _ _ Hsize Ho Hmine).
Qed.
End Claims.

Lemma issues_of_maps d m : m ∈ (load_purchase_maps d).1 -> pm_issues m = [] \/ pm_issues m = [CONFLICT_ISSUE].
Proof.
  cbn. intros [_ (ko & -> & _)%list_elem_of_fmap]%list_elem_of_filter. cbn. destruct (_ || _); [by right|by left].
Qed.

(** What can be counted for a purchase. *)
Record countable (maps : list purchase_map) (orphans : list source) (rows : list usage_row) (m : purchase_map)
    (key : string) (r : usage_row) : Prop := {
  ct_key : row_key r = key;
  ct_row : r ∈ rows;
  ct_available : ur_available r = true;
  ct_source : exists s, s ∈ pm_sources m /\ resolve rows s = Some r;
  ct_exclusive : exclusive_to maps orphans rows m key;
}.

Lemma known_countable maps orphans rows m key r :
  m ∈ maps -> by_key (omap id (map (resolve rows) (pm_sources m))) !! key = Some r -> ur_available r = true ->
  (size (claimants (claims (all_claims maps orphans rows)) key) <= 1)%nat -> countable maps orphans rows m key r.
Proof.
  intros Hm Hk Ha Hsize. apply by_key_lookup in Hk as [Hin <-].
  apply list_elem_of_omap in Hin as (o & (s & -> & Hs)%list_elem_of_fmap & Ho). cbn in Ho.
  destruct (resolve_could_be _ _ _ Ho) as [Hrow _]. split; [done|done|done|by exists s|]. by eapply alone_exclusive.
Qed.

(** C31: A purchase is measured by its own traffic only.  Each account counted for
    it is one its sources were found at, with counters, and no source of another
    purchase is that account or could be, nor that of a service nobody bought;
    when the coverage is not called partial, every source of the purchase was
    found and is counted. *)
Theorem traffic_is_exclusive d rows m known why :
  m ∈ (load_purchase_maps d).1 ->
  resolve_maps (load_purchase_maps d).1 (load_purchase_maps d).2 rows m = (known, why) ->
  (why = "" \/ why = PARTIAL) ->
  (forall key r, known !! key = Some r -> countable (load_purchase_maps d).1 (load_purchase_maps d).2 rows m key r) /\
  (why = "" -> pm_sources m <> [] /\
     forall s, s ∈ pm_sources m -> exists r r', resolve rows s = Some r /\ known !! row_key r = Some r').
Proof.
  intros Hm. unfold resolve_maps, resolve_map. destruct (load_purchase_maps d) as [maps orphans] eqn:El. cbn [fst snd] in *.
  set (c := claims _). set (matched := map (resolve rows) (pm_sources m)). set (all := by_key _).
  destruct (issues_of_maps d m) as [Ei|Ei]; [by rewrite El| |]; rewrite Ei; [|by intros [= <- <-] [?|?]].
  destruct (negb (forallb _ (map_to_list all).*1)) eqn:Hshared.
  { destruct (nonempty _) eqn:Hx; intros [= <- <-] [?|?]; try done. split; [|done].
    intros key r [Hk [Hsize Ha]]%map_lookup_filter_Some. eapply known_countable; [done|exact Hk|done|cbn in Hsize; subst c; lia]. }
  apply negb_false_iff in Hshared. rewrite forallb_forall in Hshared.
  assert (Halone : forall key r, all !! key = Some r -> (size (claimants c key) <= 1)%nat).
  { intros key r Hk. apply Nat.leb_le, Hshared, list_elem_of_In, list_elem_of_fmap. exists (key, r).
    split; [done|by apply elem_of_map_to_list]. }
  assert (Hpart : forall key r, filter (fun kr => size (claimants c kr.1) = 1%nat /\ ur_available kr.2 = true) all !! key = Some r ->
    countable maps orphans rows m key r).
  { intros key r [Hk [Hsize Ha]]%map_lookup_filter_Some. eapply known_countable; [done|exact Hk|done|by eapply Halone]. }
  destruct (negb (nonempty matched) || negb (forallb is_set matched)) eqn:Hun.
  { destruct (nonempty (map_to_list _)); intros [= <- <-] [?|?]; done. }
  apply orb_false_iff in Hun as [Hne%negb_false_iff Hset%negb_false_iff].
  destruct (negb (forallb ur_available _)) eqn:Hav.
  { destruct (nonempty (map_to_list _)); intros [= <- <-] [?|?]; done. }
  apply negb_false_iff in Hav. rewrite forallb_forall in Hav. intros [= <- <-] _. split.
  - intros key r Hk. eapply known_countable; [done|exact Hk| |by eapply Halone].
    apply Hav, list_elem_of_In, list_elem_of_fmap. exists (key, r). split; [done|by apply elem_of_map_to_list].
  - intros _. split; [by intros E; subst matched; rewrite E in Hne|]. intros s Hs. rewrite forallb_forall in Hset.
    assert (Hin : resolve rows s ∈ matched) by (apply list_elem_of_fmap; by exists s).
    destruct (resolve rows s) as [r|] eqn:Hr; [|by specialize (Hset None (proj1 (list_elem_of_In _ _) Hin))].
    destruct (by_key_covers (omap id matched) r) as [r' Hr']; [by apply list_elem_of_omap; exists (Some r)|].
    by exists r, r'.
Qed.
End Exclusive.

(** ** Who may write *)

Section Fence.
Context `{Env} (clock : list call -> Z) (meanwhile : World -> World) (token : string).

Definition measurements (w : World) := (activities (db w), observations (db w)).

(** Another collector took the lease. *)
Definition taken_over (w : World) : Prop := exists c, collector (db w) = Some c /\ Activity.token c <> token.

Lemma lost_heartbeat now w : taken_over w -> heartbeat token now w = (Raise LEASE_LOST, w).
Proof.
  intros (c & Hc & Hne). unfold heartbeat. run_io. rewrite Hc. unfold holds_lease.
  by rewrite (bool_decide_false (Activity.token c = token)).
Qed.

Lemma lost_record m rows why now w : taken_over w -> record_fenced token m rows why now w = (Raise LEASE_LOST, w).
Proof.
  intros (c & Hc & Hne). unfold record_fenced. run_io. rewrite Hc. unfold holds_lease.
  rewrite (bool_decide_false (Activity.token c = token)) by done. by destruct w.
Qed.

Lemma lost_with_token f w : taken_over w -> with_token token f w = w.
Proof.
  intros (c & Hc & Hne). unfold with_token. destruct w as [d l h]. cbn in *. destruct d. cbn in *. rewrite Hc. cbn.
  by rewrite (bool_decide_false (Activity.token c = token)).
Qed.

(** What the other workers did to the measurements during the reads. *)
Definition others_wrote := rtc (fun m m' => exists v, m = measurements v /\ m' = measurements (meanwhile v)).

Lemma heartbeat_measures now w r w' : heartbeat token now w = (r, w') -> measurements w' = measurements w.
Proof. unfold heartbeat. run_io. destruct (collector (db w)) as [c|]; [destruct (holds_lease _ _ _)|]; by intros [= <- <-]. Qed.

Lemma reading_writes_nothing ps : forall rows st w x w',
  read_panels clock meanwhile token ps rows st w = (x, w') -> others_wrote (measurements w) (measurements w').
Proof.
  induction ps as [|p ps IH]; intros rows st w x w'; cbn [read_panels]; [intros [= <- <-]; constructor|].
  unfold heartbeat_now, now_io. unfold mbind, M_bind, gets.
  destruct (heartbeat token (clock (calls w)) w) as [[[]|e] w1] eqn:E; apply heartbeat_measures in E.
  2: { intros [= <- <-]. rewrite E. constructor. }
  unfold ask. destruct (read_panel _ p) as [samples status]. unfold modify.
  set (w2 := w1 {{ calls ::= _ }}). intros Hrun%IH. eapply rtc_l; [|exact Hrun]. exists w2. split; [|done].
  rewrite <- E. reflexivity.
Qed.

Lemma read_panels_app ps qs : forall rows st w acc v,
  read_panels clock meanwhile token ps rows st w = (Ret acc, v) ->
  read_panels clock meanwhile token (ps ++ qs) rows st w = read_panels clock meanwhile token qs acc.1 acc.2 v.
Proof.
  induction ps as [|p ps IH]; intros rows st w acc v; cbn [read_panels app]; [by intros [= <- <-]|].
  unfold heartbeat_now, now_io. unfold mbind, M_bind, gets.
  destruct (heartbeat token (clock (calls w)) w) as [[[]|e] w1]; [|done].
  unfold ask. destruct (read_panel _ p) as [samples status]. unfold modify. apply IH.
Qed.

(** With the lease lost, no further panel is read. *)
Lemma lost_reading p ps rows st w : taken_over w ->
  read_panels clock meanwhile token (p :: ps) rows st w = (Raise LEASE_LOST, w).
Proof.
  intros Ht. cbn [read_panels]. unfold heartbeat_now, now_io. unfold mbind, M_bind, gets. by rewrite lost_heartbeat.
Qed.

(** The panels of the sources, in the order they are read in. *)
Definition read_order (d : DB) : list Z :=
  order_by (fun p => [p]) (filter (fun p => is_Some (panels d !! p))
    (set_update (flat_map (fun m => omap panel_id (pm_sources m)) (load_purchase_maps d).1) [])).

Lemma overtaken_collect w seen rest acc v :
  read_order (db w) = (seen ++ rest)%list -> read_panels clock meanwhile token seen [] [] w = (Ret acc, v) -> taken_over v ->
  collect clock meanwhile token w = (Raise LEASE_LOST, v).
Proof.
  intros Hp Hread Ht. unfold collect. unfold mbind at 1, M_bind at 1, get_db. unfold read_order in Hp.
  destruct (load_purchase_maps (db w)) as [maps orphans]. cbn [fst] in Hp. cbv zeta. rewrite Hp.
  unfold mbind at 1, M_bind at 1. rewrite (read_panels_app _ _ _ _ _ _ _ Hread).
  destruct rest as [|p rest]; [|by rewrite lost_reading]. destruct acc as [rows st]. cbn [read_panels]. unfold mret, M_ret.
  unfold heartbeat_now, now_io. unfold mbind, M_bind, gets. by rewrite lost_heartbeat.
Qed.

(** The world in which a run that got the lease starts. *)
Definition claimed (w : World) : World := (claim_lease token (clock (calls w)) w).2.

(** C32: A collector that was overtaken writes nothing.  If another one holds the
    lease, a run ends at once.  And if another one has the lease after any of the
    reads of the panels - because the reading took longer than the lease lasts -
    the run ends with an error right then, leaving everything as the others left
    it: no further panel is read, no purchase has a new reading but from the
    others, and the lease stays the other's. *)
Theorem overtaken_collector_writes_nothing w r w' :
  collect_activity clock meanwhile token w = (r, w') ->
  if free (the_collector (db w)) (clock (calls w))
  then forall seen rest acc v, read_order (db w) = (seen ++ rest)%list ->
    read_panels clock meanwhile token seen [] [] (claimed w) = (Ret acc, v) -> taken_over v ->
    r = Raise LEASE_LOST /\ w' = v /\ others_wrote (measurements w) (measurements w')
  else r = Ret false /\ the_collector (db w') = the_collector (db w) /\ measurements w' = measurements w /\
    calls w' = calls w.
Proof.
  unfold collect_activity, now_io. unfold mbind at 1, M_bind at 1, gets. destruct (free _ _) eqn:Hf.
  - intros Hrun seen rest acc v Hp Hread Ht. revert Hrun. unfold mbind at 1, M_bind at 1.
    assert (Hc : claim_lease token (clock (calls w)) w = (Ret true, claimed w)).
    { unfold claimed, claim_lease. unfold mbind, M_bind, get_db. by rewrite Hf. }
    assert (Hkeep : db (claimed w) = (db w) {{ collector := collector (db (claimed w)) }}).
    { unfold claimed, claim_lease. unfold mbind, M_bind, get_db. rewrite Hf. by destruct w as [[] ? ?]. }
    rewrite Hc. cbn [negb]. unfold mbind, M_bind, finally, catch.
    rewrite (overtaken_collect (claimed w) seen rest acc v) by (done || by rewrite Hkeep).
    unfold modify, raise. rewrite !(lost_with_token _ v) by done. intros [= <- <-]. split; [done|]. split; [done|].
    apply reading_writes_nothing in Hread. unfold measurements at 1 in Hread. by rewrite Hkeep in Hread.
  - unfold claim_lease. unfold mbind, M_bind, get_db, put_db, modify. rewrite Hf. cbn. by intros [= <- <-].
Qed.
End Fence.

(** ** The sample shop: order 1000 has client 5 on inbound 10 *)

#[local] Existing Instance sample_env.

Definition sample_account (used captured : Z) : usage_row := {|
  ur_panel := 1; ur_inbound := Some 10; ur_remote_inbound := "3"; ur_node := ""; ur_hash := "u1"; ur_aliases := ["u1"; "c"];
  ur_used := Some used; ur_upload := Some 0; ur_download := Some used; ur_total := Some 1000; ur_expiry := None;
  ur_status := ""; ur_enabled := Some true; ur_available := true; ur_captured_at := captured |}.

Definition sample_map : purchase_map := {|
  pm_order := 1000; pm_row := (sample_order 10) {{ Order.status := Order.CONFIRMED; Order.verification_status := Order.V_VERIFIED }};
  pm_sources := []; pm_cups := []; pm_issues := []; pm_superseded := false |}.

(** One reading every 45 minutes; nothing is used after the second. *)
Definition read_at (n : nat) : Z := Z.of_nat (S n) * MAX_GAP.

Fixpoint watch (n : nat) : World :=
  match n with
  | O => sample_shop
  | S k => (record_purchase sample_map {[ "u1" := sample_account (if (k =? 0)%nat then 5 else 9) (read_at k) ]} "" (read_at k) (watch k)).2
  end.

Lemma watch_recorded n : recorded (db (watch n)).
Proof.
  induction n as [|n IH]; [by apply recorded_none|]. cbn [watch].
  set (run := record_purchase _ _ _ _ _). apply (recorded_reading (db (watch n)) sample_map
    {[ "u1" := sample_account (if (n =? 0)%nat then 5 else 9) (read_at n) ]} "" (read_at n) (locks (watch n)) (calls (watch n))
    run.1 run.2 IH). subst run. destruct (watch n). apply surjective_pairing.
Qed.

Lemma watched_verdict : exists a, activities (db (watch 70)) !! 1000 = Some a /\ activity_status (Some a) (read_at 69) = ("inactive", "ok").
Proof.
  assert (E : (fun a => activity_status (Some a) (read_at 69)) <$> activities (db (watch 70)) !! 1000 = Some ("inactive", "ok")) by (vm_compute; reflexivity).
  destruct (activities (db (watch 70)) !! 1000) as [a|]; [|done]. exists a. split; [reflexivity|]. injection E as E. exact E.
Qed.

Lemma verdicts_are_measured_witness :
  exists a, activities (db (watch 70)) !! 1000 = Some a /\ activity_status (Some a) (read_at 69) = ("inactive", "ok") /\
    forall ob, seen_of (db (watch 70)) 1000 ob -> read_at 69 - WINDOW + MAX_GAP < sample_at ob -> quality ob = "ok".
Proof.
  destruct watched_verdict as (a & Ha & Hv). exists a. split; [exact Ha|]. split; [exact Hv|]. intros ob Hob Hl.
  destruct (proj1 (verdicts_are_measured (db (watch 70)) 1000 a (read_at 69) "inactive" "ok" (watch_recorded 70) Ha Hv) eq_refl)
    as [Hq _]. exact (proj1 (Hq ob Hob Hl)).
Defined.

Definition sample_measured : World := sample_shop {{ db -> clients := {[ 5 := ReferralRewards.sample_vpn_client 1000 10 VPNClient.ACTIVE ]} }}.

Definition sample_rows : list usage_row := [sample_account 5 100].

Definition sample_purchase : option purchase_map :=
  head (filter (fun m => pm_order m = 1000) (load_purchase_maps (db sample_measured)).1).

Lemma sample_purchase_found :
  exists m, sample_purchase = Some m /\ resolve_maps (load_purchase_maps (db sample_measured)).1
    (load_purchase_maps (db sample_measured)).2 sample_rows m = ({[ row_key (sample_account 5 100) := sample_account 5 100 ]}, "").
Proof.
  assert (E : (fun m => resolve_maps (load_purchase_maps (db sample_measured)).1 (load_purchase_maps (db sample_measured)).2 sample_rows m)
    <$> sample_purchase = Some ({[ row_key (sample_account 5 100) := sample_account 5 100 ]}, "")) by (vm_compute; reflexivity).
  destruct sample_purchase as [m|]; [|done]. exists m. split; [done|]. by injection E.
Qed.

Lemma traffic_is_exclusive_witness :
  exists m, sample_purchase = Some m /\
    countable (load_purchase_maps (db sample_measured)).1 (load_purchase_maps (db sample_measured)).2 sample_rows m
      (row_key (sample_account 5 100)) (sample_account 5 100).
Proof.
  destruct sample_purchase_found as (m & Hm & Hr). exists m. split; [exact Hm|].
  assert (Hin : m ∈ (load_purchase_maps (db sample_measured)).1).
  { unfold sample_purchase in Hm. destruct (filter _ _) as [|x l] eqn:E; [done|]. injection Hm as ->.
    assert (Hx : m ∈ m :: l) by apply list_elem_of_here. rewrite <- E in Hx. by apply list_elem_of_filter in Hx as [_ ?]. }
  apply (proj1 (traffic_is_exclusive (db sample_measured) sample_rows m _ "" Hin Hr (or_introl eq_refl))).
  apply lookup_singleton_eq.
Defined.

(** Another collector takes the lease while the second panel is read. *)
Definition two_panels : World := sample_measured {{ db ::= fun d => d {{
  panels ::= fun l => default l ((fun p => <[2 := p]> l) <$> l !! 1);
  inbounds ::= insert 11 (sample_inbound 2 3 50);
  orders ::= insert 1500 ((sample_order 10) {{ Order.status := Order.CONFIRMED; Order.verification_status := Order.V_VERIFIED }});
  clients ::= insert 6 (ReferralRewards.sample_vpn_client 1500 11 VPNClient.ACTIVE) }} }}.

Definition other_collector (w : World) : World :=
  if (2 <=? Z.of_nat (length (calls w)))
  then w {{ db ::= fun d => d {{ collector := Some (mk_collector "other" (Some 999) None None None) }} }} else w.

Definition overtaken_run := collect_activity (fun _ => 7) other_collector "mine" two_panels.

Lemma overtaken_collector_writes_nothing_witness :
  read_order (db two_panels) = [1; 2] /\ overtaken_run.1 = Raise LEASE_LOST /\ collector (db overtaken_run.2) <> None.
Proof.
  assert (Hp : read_order (db two_panels) = [1; 2]) by (vm_compute; reflexivity). split; [exact Hp|].
  set (reading := read_panels (fun _ => 7) other_collector "mine" [1; 2] [] [] (claimed (fun _ => 7) "mine" two_panels)).
  assert (Hr : match reading.1 with Ret _ => True | Raise _ => False end) by (vm_compute; exact I).
  assert (Ht : collector (db reading.2) = Some (mk_collector "other" (Some 999) None None None)) by (vm_compute; reflexivity).
  destruct reading as [[acc|e] v] eqn:E; [|destruct Hr]. cbn [snd] in Ht.
  destruct (overtaken_collector_writes_nothing (fun _ => 7) other_collector "mine" two_panels _ _ (surjective_pairing overtaken_run)
    [1; 2] [] acc v Hp E) as (Hrun & -> & _).
  - eexists. split; [exact Ht|discriminate].
  - split; [exact Hrun|]. rewrite Ht. discriminate.
Defined.

(** A count that a panel leaves out, where the account has a limit, ends the pass
    of the collector for every purchase. *)
Example missing_count_ends_the_pass :
  let row := mk_usage_row 1 (Some 10) "3" "" "u1" ["u1"] None (Some 0) None (Some 1000) None "active" (Some true) false 7 in
  updated_activity fresh_activity sample_map {[ "u1" := row ]} "missing_counters" 7 = Raise TYPE_ERROR.
Proof. vm_compute. reflexivity. Qed.
