(* ===== verification/Outreach.v ===== *)
(** Messages about a purchase (src/customer_activity/outreach.py): which of them
    is due, what stands in the way, and how one is reserved before it is handed
    to Telegram so that it is never handed over twice.  [OutreachSpec] proves
    the theorems.

    A run reads the clock again and again; [dispatch] is handed every reading,
    numbered in the order they are taken, and a run a clock for each of its
    dispatches, so that a send may take as long as it likes.  The stamps Django
    sets itself when an event is made or saved are those of the reading in hand.
    The text of a message (its [body]) is not modelled.  Shares of a quota are
    compared exactly, as the floating point numbers of the code do for quotas
    under 2^53 bytes. *)

From S2P Require Import Prelude Models World Numbers Attribution Consumption.
Import Outreach.

#[local] Open Scope string_scope.
#[local] Open Scope Z_scope.

Definition PRIORITY : list (string * Z) :=
  [("inactive_48h", 100); ("ended", 90); ("expiry_24h", 80); ("volume_5", 70); ("expiry_72h", 40); ("volume_20", 30)].
Definition PENDING : list status_t := [PREVIEW; READY; CANCELLED].
Definition RESERVED : list status_t := [SENDING; SENT; UNCERTAIN].

Definition hours (n : Z) : Z := n * 60 * minute.

(** ** The purchase *)

(** [str.isdigit()] of ASCII text, with its value. *)
Definition digits_value (s : string) : option Z :=
  let '(v, n, rest) := take_digits s 0 0 in
  if bool_decide (rest = "") && (0 <? n) then Some v else None.

Definition renewal_pk (o : Order.order) : option Z :=
  match Order.metadata o !! "renewal_client_pk" with
  | Some (JNum n) => if 0 <? n then Some n else None
  | Some (JStr s) => digits_value s
  | _ => None
  end.

Definition purchase_clients (d : DB) (opk : Z) (o : Order.order) : list (Z * VPNClient.vpn_client) :=
  order_by (fun kc => [kc.1]) (rows_where (fun k c =>
    bool_decide (VPNClient.store c = Order.store o)
    && (bool_decide (VPNClient.order c = Some opk)
        || bool_decide (renewal_pk o = Some k)
           && bool_decide ((VPNClient.order c ≫= fun p => orders d !! p ≫= Order.customer) = Order.customer o))) (clients d)).

(** Orders that renew a client of the purchase. *)
Definition renews (o : Order.order) (opk cpk k : Z) (r : Order.order) : bool :=
  match Order.metadata r !! "renewal_client_pk" with
  | Some (JNum n) => n =? cpk
  | Some (JStr s) => bool_decide (s = pretty cpk)
  | _ => false
  end
  && bool_decide (Order.store r = Order.store o) && bool_decide (Order.customer r = Order.customer o) && negb (k =? opk).

Inductive renewal_t := NotRenewed | Renewed (order : Z) | RenewalPending.

Fixpoint renewal_of (d : DB) (opk : Z) (o : Order.order) (now : Z) (l : list (Z * VPNClient.vpn_client)) : renewal_t :=
  match l with
  | [] => NotRenewed
  | (cpk, _) :: rest =>
      match head (order_by (fun kr => [- Order.created_at kr.2; kr.1])
               (rows_where (fun k r => renews o opk cpk k r && bool_decide (Order.status r ∈ FULFILLED)
                  && bool_decide (Order.verification_status r = Order.V_VERIFIED)
                  && (Order.created_at o <? Order.created_at r)) (orders d))) with
      | Some (k, _) => Renewed k
      | None =>
          if exists_where (fun k r => renews o opk cpk k r && bool_decide (Order.status r = Order.PENDING_VERIFICATION)
               && match Order.payment_submitted_at r with Some t => now - 7 * hours 24 <=? t | None => false end) (orders d)
          then RenewalPending
          else renewal_of d opk o now rest
      end
  end.

Definition renewal_state (d : DB) (opk : Z) (o : Order.order) (now : Z) : renewal_t :=
  renewal_of d opk o now (purchase_clients d opk o).

(** A cup of the purchase was closed, or changed since it was measured. *)
Definition later_than (table : gmap Z Z) (k seen : Z) : bool :=
  match table !! k with Some t => seen <? t | None => false end.

Definition cup_changed (d : DB) (opk now seen : Z) : bool :=
  exists_where (fun cpk u => bool_decide (SubscriptionCup.order u = Some opk)
    && (bool_decide (SubscriptionCup.status u = SubscriptionCup.DISABLED)
        || match SubscriptionCup.expires_at u with Some t => t <=? now | None => false end
        || later_than (cup_updated_at (touched d)) cpk seen
        || exists_where (fun ipk it => (CupItem.cup it =? cpk)
             && (later_than (cup_item_updated_at (touched d)) ipk seen
                 || later_than (config_link_updated_at (touched d)) (CupItem.config_link it) seen)) (cup_items d))) (cups d).

Definition client_changed (d : DB) (opk seen : Z) : bool :=
  exists_where (fun k c => bool_decide (VPNClient.order c = Some opk) && later_than (client_updated_at (touched d)) k seen)
    (clients d).

(** ** What is due *)

Definition DAY : Z := hours 24.

(** Time left and share left of the sources, where they are known. *)
Definition times_left (now : Z) (l : list Activity.counter) : list Z :=
  omap (fun c => match Activity.expiry c with Some t => if now <? t then Some (t - now) else None | None => None end) l.

Definition shares_left (l : list Activity.counter) : list (Z * Z) :=
  omap (fun c => match Activity.quota c with
                 | Some q => if 0 <? q then Some (Z.max 0 (q - Activity.used c), q) else None | None => None end) l.

Definition ends_within (t : Z) (l : list Z) : bool := existsb (fun x => x <=? t) l.
Definition share_at_most (percent : Z) (l : list (Z * Z)) : bool := existsb (fun s => 100 * s.1 <=? percent * s.2) l.

Definition renewal_kind (a : Activity.purchase_activity) (now : Z) : string :=
  if bool_decide (Activity.entitlement a ∈ [Activity.EXPIRED; Activity.EXHAUSTED; Activity.ENDED])
  then match Activity.ended_at a with
       | Some t => if (now - 2 * DAY <=? t) && (t <=? now) then "ended" else ""
       | None => "" end
  else
    let l := (map_to_list (Activity.counters a)).*2 in
    if negb (bool_decide (Activity.entitlement a = Activity.VALID)) || negb (nonempty l)
       || existsb (fun c => (now <? Activity.sampled_at c) || (MAX_GAP <? now - Activity.sampled_at c)) l then ""
    else if ends_within DAY (times_left now l) then "expiry_24h"
    else if share_at_most 5 (shares_left l) then "volume_5"
    else if ends_within (3 * DAY) (times_left now l) then "expiry_72h"
    else if share_at_most 20 (shares_left l) then "volume_20"
    else "".

Definition candidate_kind (d : DB) (opk : Z) (a : Activity.purchase_activity) (cf : outreach_settings) (now : Z) : string :=
  match orders d !! opk, Activity.observed_at a with
  | Some o, Some seen =>
      if negb (is_set (Order.customer o))
         || negb match Order.store o ≫= fun s => stores d !! s with Some s => Store.is_active s | None => false end
         || negb (bool_decide (Order.status o ∈ FULFILLED))
         || negb (bool_decide (Order.verification_status o = Order.V_VERIFIED))
         || negb (bool_decide (Activity.reason a = "ok"))
         || (MAX_GAP <? now - seen) || (now <? seen) then ""
      else if (seen <? Order.updated_at o) || cup_changed d opk now seen || client_changed d opk seen then ""
      else match renewal_state d opk o now with
      | Renewed _ | RenewalPending => ""
      | NotRenewed =>
          if inactivity_enabled cf && bool_decide (Activity.entitlement a = Activity.VALID)
             && bool_decide ((activity_status (Some a) now).1 = "inactive")
          then "inactive_48h"
          else if negb (renewal_enabled cf) then ""
          else renewal_kind a now
      end
  | _, _ => ""
  end.

(** ** Whom to write to, and whether *)

Definition personal_target (d : DB) (o : Order.order) : option (Z * BotUser.bot_user) :=
  head (filter (fun ku => Is_true (match digits_value (BotUser.chat_id ku.2) with Some n => 0 <? n | None => false end
                                   && bool_decide (BotUser.chat_id ku.2 = BotUser.provider_user_id ku.2)))
    (order_by (fun ku => [- BotUser.last_seen_at ku.2; ku.1])
      (rows_where (fun _ u => bool_decide (BotUser.customer u = Order.customer o) && BotUser.is_active u
         && match bot_configs d !! BotUser.bot_config u with
            | Some c => bool_decide (BotConfiguration.store c = Order.store o) && BotConfiguration.is_active c
                        && bool_decide (BotConfiguration.provider c = BotConfiguration.TELEGRAM)
                        && negb (bool_decide (BotConfiguration.bot_token c = ""))
            | None => false end) (bot_users d)))).

Definition is_reserved (e : outreach_event) : bool := bool_decide (status e ∈ RESERVED).

(** Claimed at or after an instant. *)
Definition claimed_from (t : Z) (e : outreach_event) : bool :=
  match claimed_at e with Some c => t <=? c | None => false end.

Definition event_customer (d : DB) (e : outreach_event) : option Z := orders d !! order e ≫= Order.customer.
Definition event_store (d : DB) (e : outreach_event) : option Z := orders d !! order e ≫= Order.store.

Definition sent_offer (l : OfferLog.revenue_offer_log) : bool :=
  bool_decide (OfferLog.status l ∈ [OfferLog.SENT; OfferLog.CONVERTED]).

Definition older_campaign (l : OfferLog.revenue_offer_log) : bool :=
  negb (bool_decide (OfferLog.event_type l = "purchase_journey")).

(** Reserved messages to the customer but for this one, since an instant. *)
Definition personal_since (d : DB) (customer : option Z) (epk t : Z) : Z :=
  count_where (fun k e => is_reserved e && negb (k =? epk) && bool_decide (event_customer d e = customer)
                          && claimed_from t e) (outreach_events d).

Definition store_since (d : DB) (store : option Z) (epk t : Z) : Z :=
  count_where (fun k e => is_reserved e && negb (k =? epk) && bool_decide (event_store d e = store)
                          && claimed_from t e) (outreach_events d).

Definition WEEKLY : Z := 3.

Definition customer_capped (d : DB) (customer : option Z) (epk now : Z) : bool :=
  let legacy t p := count_where (fun _ l => bool_decide (OfferLog.customer l = customer) && sent_offer l
                                             && (t <=? OfferLog.created_at l) && p l) (offer_logs d) in
  (0 <? personal_since d customer epk (now - DAY))
  || (0 <? legacy (now - DAY) (fun _ => true))
  || (WEEKLY <=? personal_since d customer epk (now - 7 * DAY) + legacy (now - 7 * DAY) older_campaign).

Definition store_capped (d : DB) (store : option Z) (limit epk now : Z) : bool :=
  limit <=? store_since d store epk (now - DAY)
    + count_where (fun _ l => bool_decide (OfferLog.store l = store) && sent_offer l
                              && (now - DAY <=? OfferLog.created_at l) && older_campaign l) (offer_logs d).

Section Outreach.
Context `{Env}.

(** The reason not to write, blank where there is none. *)
Definition suppression (d : DB) (o : Order.order) (cf : outreach_settings) (epk now : Z) : string :=
  if bool_decide (mode cf = OFF) then "disabled"
  else if negb ((start_hour cf <=? hour_tehran now) && (hour_tehran now <? end_hour cf)) then "quiet_hours"
  else if exists_where (fun _ p => bool_decide (Some (pref_store p) = Order.store o)
            && bool_decide (Some (pref_customer p) = Order.customer o) && muted p) (outreach_preferences d) then "muted"
  else if exists_where (fun _ s => bool_decide (Support.store s = Order.store o)
            && bool_decide (Support.customer s = Order.customer o)
            && bool_decide (Support.status s ∈ [Support.OPEN; Support.WAITING_ADMIN])) (support_conversations d)
  then "open_support"
  else if customer_capped d (Order.customer o) epk now then "customer_cap"
  else if store_capped d (Order.store o) (daily_limit cf) epk now then "store_cap"
  else if negb (is_set (personal_target d o)) then "no_target"
  else "".

(** ** Preparing the events of a shop *)

Definition set_event (k : Z) (e : outreach_event) (d : DB) : DB := d {{ outreach_events ::= insert k e }}.
Definition update_events (p : Z -> outreach_event -> bool) (f : outreach_event -> outreach_event) (d : DB) : DB :=
  d {{ outreach_events ::= update_where p f }}.

Definition new_event (opk cyc : Z) (kd : string) (now : Z) : outreach_event := {|
  order := opk; cycle := cyc; kind := kd; status := PREVIEW; reason := ""; bot_user := None; created_at := now;
  updated_at := now; claimed_at := None; sent_at := None; message_id := ""; converted_order := None |}.

Definition find_event (d : DB) (opk cyc : Z) (kd : string) : option (Z * outreach_event) :=
  first_where (fun _ e => (order e =? opk) && (cycle e =? cyc) && bool_decide (kind e = kd)) (outreach_events d).

Definition is_pending (e : outreach_event) : bool := bool_decide (status e ∈ PENDING).

(** One purchase; the event it has, if one is due. *)
Definition prepare_purchase (cf : outreach_settings) (now : Z) (opk : Z) (a : Activity.purchase_activity) (d : DB)
    : DB * option Z :=
  match orders d !! opk with
  | None => (d, None)
  | Some o =>
      let d := match renewal_state d opk o now with
               | Renewed k => update_events (fun _ e => (order e =? opk) && negb (is_set (converted_order e)))
                                (fun e => e {{ converted_order := Some k }}) d
               | _ => d end in
      let kd := candidate_kind d opk a cf now in
      if bool_decide (kd = "") then (d, None)
      else
        let '(epk, e) := default (next_pk (outreach_events d), new_event opk (Activity.cycle a) kd now)
                           (find_event d opk (Activity.cycle a) kd) in
        let d := set_event epk e d in
        if is_pending e
        then (set_event epk (e {{ status := if bool_decide (mode cf = LIVE) then READY else PREVIEW;
                                  reason := suppression d o cf epk now; updated_at := now }}) d, Some epk)
        else (d, Some epk)
  end.

Fixpoint prepare_purchases (cf : outreach_settings) (now : Z) (l : list (Z * Activity.purchase_activity)) (d : DB)
    (active : list Z) : DB * list Z :=
  match l with
  | [] => (d, active)
  | (opk, a) :: rest =>
      let '(d, e) := prepare_purchase cf now opk a d in
      prepare_purchases cf now rest d (match e with Some k => set_add k active | None => active end)
  end.

Definition prepare_store (store : Z) (cf : outreach_settings) (now : Z) (d : DB) : DB * list Z :=
  let l := order_by (fun ka => [ka.1]) (rows_where (fun opk _ =>
             bool_decide ((orders d !! opk ≫= Order.store) = Some store)) (activities d)) in
  let '(d, active) := prepare_purchases cf now l d [] in
  (update_events (fun k e => bool_decide (event_store d e = Some store) && is_pending e && negb (bool_decide (k ∈ active)))
     (fun e => e {{ status := CANCELLED; reason := "not_eligible"; updated_at := now }}) d, active).

(** ** One message *)

Definition settings_of (d : DB) (o : Order.order) : option outreach_settings :=
  Order.store o ≫= fun s => World.outreach_settings d !! s.

(** [reserve]: under the locks of the settings, the customer and the event. *)
Definition reserve (epk now : Z) : IO (option outreach_event) := atomic (
  snapshot ← get_or_raise (fun w => outreach_events (db w) !! epk);
  o ← get_order (order snapshot);
  match Order.customer o with
  | None =>
      _ ← put_db (update_events (fun k e => (k =? epk) && bool_decide (status e = READY))
                    (fun e => e {{ status := CANCELLED; reason := "not_eligible" }}));
      mret None
  | Some cust =>
      cf ← get_or_raise (fun w => settings_of (db w) o);
      _ ← get_or_raise (fun w => customers (db w) !! cust);
      e ← get_or_raise (fun w => outreach_events (db w) !! epk);
      if negb (bool_decide (mode cf = LIVE)) || negb (bool_decide (status e = READY)) then mret None
      else
        a ← get_or_raise (fun w => activities (db w) !! order e);
        d ← get_db;
        if negb (Activity.cycle a =? cycle e) || negb (bool_decide (candidate_kind d (order e) a cf now = kind e))
        then _ ← put_db (set_event epk (e {{ status := CANCELLED; reason := "not_eligible"; updated_at := now }})); mret None
        else
          let why := suppression d o cf epk now in
          if negb (bool_decide (why = ""))
          then _ ← put_db (set_event epk (e {{ reason := why; updated_at := now }})); mret None
          else
            let e := e {{ bot_user := fst <$> personal_target d o; claimed_at := Some now; status := SENDING;
                          reason := ""; updated_at := now }} in
            _ ← put_db (set_event epk e);
            mret (Some e)
  end).

Definition where_sending (epk : Z) (f : outreach_event -> outreach_event) : DB -> DB :=
  update_events (fun k e => (k =? epk) && bool_decide (status e = SENDING)) f.

(** Checked again after the reservation is committed: the chat to write to, or
    the reservation is given up.  The clock is read for the kind of the message
    and again for what stands in its way. *)
Definition revalidate (epk : Z) (e : outreach_event) (now later : Z) : IO (option (Z * BotUser.bot_user)) :=
  o ← get_order (order e);
  cf ← get_or_raise (fun w => settings_of (db w) o);
  a ← get_or_raise (fun w => activities (db w) !! order e);
  d ← get_db;
  match personal_target d o with
  | Some t =>
      if bool_decide (mode cf = LIVE) && (Activity.cycle a =? cycle e)
         && bool_decide (candidate_kind d (order e) a cf now = kind e)
         && bool_decide (suppression d o cf epk later = "") && bool_decide (Some t.1 = bot_user e)
      then mret (Some t)
      else _ ← put_db (where_sending epk (fun e => e {{ status := CANCELLED; reason := "not_eligible" }})); mret None
  | None => _ ← put_db (where_sending epk (fun e => e {{ status := CANCELLED; reason := "not_eligible" }})); mret None
  end.

Definition REJECTIONS : list Z := [400; 401; 403; 404; 429].

Definition transport (epk : Z) (t : Z * BotUser.bot_user) : IO journey_answer :=
  ask (CallJourney epk (BotUser.bot_config t.2) (BotUser.chat_id t.2))
    (fun h => send_journey h epk (BotUser.bot_config t.2) (BotUser.chat_id t.2)).

(** An answer without a number counts as no answer.  [clock n] is the [n]-th
    reading of the dispatch; those before the third were taken before the message
    was sent. *)
Definition record_answer (epk : Z) (e : outreach_event) (t : Z * BotUser.bot_user) (answer : journey_answer)
    (clock : nat -> Z) : IO bool :=
  match answer with
  | JourneySent (Some id) =>
      if bool_decide (id = "")
      then _ ← put_db (where_sending epk (fun e => e {{ status := UNCERTAIN; reason := "transport_unknown"; updated_at := clock 3%nat }}));
           mret false
      else
        _ ← atomic (
          _ ← put_db (where_sending epk (fun e => e {{ status := SENT; sent_at := Some (clock 3%nat); message_id := id;
                                                updated_at := clock 4%nat }}));
          put_db (fun d => d {{ offer_logs ::= insert (next_pk (offer_logs d)) {|
            OfferLog.store := event_store d e; OfferLog.customer := event_customer d e; OfferLog.bot_user := Some t.1;
            OfferLog.engine_type := if bool_decide (kind e = "inactive_48h") then "silent_active" else "renewal";
            OfferLog.event_type := "purchase_journey"; OfferLog.offer_type := kind e; OfferLog.status := OfferLog.SENT;
            OfferLog.sent_at := Some (clock 5%nat);
            OfferLog.offer_metadata := <["purchase_id" := JNum (order e)]> (<["journey_event_id" := JNum epk]> ∅);
            OfferLog.created_at := clock 6%nat |} }}));
        mret true
  | JourneySent None =>
      _ ← put_db (where_sending epk (fun e => e {{ status := UNCERTAIN; reason := "transport_unknown"; updated_at := clock 3%nat }}));
      mret false
  | JourneyFailed code =>
      let rejected := match code with Some c => bool_decide (c ∈ REJECTIONS) | None => false end in
      _ ← put_db (where_sending epk (fun e => e {{ status := if rejected then FAILED else UNCERTAIN;
             reason := if rejected then "telegram_rejected" else "transport_unknown"; updated_at := clock 3%nat }}));
      mret false
  end.

(** What other workers do before the [i]-th reservation of a run has its locks,
    between it and its check, and while Telegram is asked; and what the clock says
    then. *)
Context (before between during : nat -> World -> World) (clock : nat -> nat -> Z).

Definition dispatch (i : nat) (epk : Z) : IO bool :=
  _ ← modify (before i);
  r ← reserve epk (clock i 0);
  match r with
  | None => mret false
  | Some e =>
      _ ← modify (between i);
      t ← revalidate epk e (clock i 1) (clock i 2);
      match t with
      | None => mret false
      | Some t =>
          answer ← transport epk t;
          _ ← modify (during i);
          record_answer epk e t answer (clock i)
      end
  end.

(** ** A run over the shops *)

Definition priority (kd : string) : Z :=
  match list_find (fun p => p.1 = kd) PRIORITY with Some (_, (_, n)) => n | None => 0 end.

(** How many were sent, and the number of the next dispatch. *)
Fixpoint dispatch_all (i : nat) (l : list Z) (sent : Z) : IO (Z * nat) :=
  match l with
  | [] => mret (sent, i)
  | epk :: rest => b ← dispatch i epk; dispatch_all (S i) rest (sent + Z.b2z b)
  end.

Definition default_settings : outreach_settings := {|
  mode := PREVIEW_MODE; inactivity_enabled := true; renewal_enabled := true; daily_limit := 50; start_hour := 9;
  end_hour := 21; last_run_at := None |}.

(** The end of a shop is timed like a dispatch of its own. *)
Definition outreach_store (store now : Z) (i : nat) : IO (Z * nat) :=
  d ← get_db;
  let cf := default default_settings (World.outreach_settings d !! store) in
  _ ← put_db (fun d => d {{ World.outreach_settings ::= insert store cf }});
  d ← get_db;
  let '(d', active) := prepare_store store cf now d in
  _ ← put_db (fun _ => d');
  let ready := order_by (fun ke => [- priority (kind ke.2); created_at ke.2; ke.1])
                 (rows_where (fun k e => bool_decide (k ∈ active) && bool_decide (status e = READY)) (outreach_events d')) in
  '(sent, i) ← dispatch_all i ready.*1 0;
  _ ← put_db (fun d => d {{ World.outreach_settings ::= alter (fun c => c {{ last_run_at := Some (clock i 0) }}) store }});
  mret (sent, S i).

Fixpoint outreach_stores (now : Z) (l : list Z) (i : nat) : IO (list (Z * Z) * nat) :=
  match l with
  | [] => mret ([], i)
  | s :: rest =>
      '(n, i) ← outreach_store s now i;
      '(more, i) ← outreach_stores now rest i;
      mret ((s, n) :: more, i)
  end.

(** A send that was cut off is not tried again. *)
Definition mark_interrupted (now : Z) : DB -> DB :=
  update_events (fun _ e => bool_decide (status e = SENDING)
                   && match claimed_at e with Some c => c <? now - 10 * minute | None => false end)
    (fun e => e {{ status := UNCERTAIN; reason := "worker_interrupted"; updated_at := now }}).

Definition run_outreach (store : option Z) (now : Z) : IO (list (Z * Z)) :=
  _ ← put_db (mark_interrupted now);
  d ← get_db;
  '(results, _) ← outreach_stores now (stores_by_name (fun k s => Store.is_active s
    && match store with Some s => k =? s | None => true end) d).*1 0;
  mret results.
End Outreach.
