(* ===== verification/OutreachSpec.v ===== *)
(** A message about a purchase is sent at most once, and a customer is not
    written to too often: however many workers run, and wherever they are
    stopped. *)

From S2P Require Import Prelude Models World AutomationSpec Attribution Consumption Outreach.
Import Outreach.

#[local] Open Scope string_scope.
#[local] Open Scope Z_scope.

(** ** What the periodic work may do to the events *)

(** Waiting events stay waiting; of the others only the note of a renewal
    changes; new events wait. *)
Record gentle (d d' : DB) : Prop := {
  ge_orders : orders d' = orders d;
  ge_kept : forall k e, outreach_events d !! k = Some e -> exists e', outreach_events d' !! k = Some e' /\
    order e' = order e /\ is_pending e' = is_pending e /\
    (is_pending e = false -> status e' = status e /\ claimed_at e' = claimed_at e);
  ge_new : forall k e', outreach_events d' !! k = Some e' -> outreach_events d !! k = None -> is_pending e' = true;
}.

#[global] Instance gentle_preorder : PreOrder gentle.
Proof.
  split.
  - intros d. split; [done| |by intros k e -> ?]. intros k e He. by exists e.
  - intros d1 d2 d3 [O1 K1 N1] [O2 K2 N2]. split; [congruence| |].
    + intros k e He. destruct (K1 k e He) as (e2 & E2 & Ho & Hp & Hs). destruct (K2 k e2 E2) as (e3 & E3 & Ho' & Hp' & Hs').
      exists e3. split; [done|]. split; [congruence|]. split; [congruence|]. intros Hn. destruct (Hs Hn) as [S1 C1].
      destruct Hs' as [S2 C2]; [congruence|]. split; congruence.
    + intros k e3 E3 Hnone. destruct (outreach_events d2 !! k) as [e2|] eqn:E2; [|by apply (N2 k)].
      destruct (K2 k e2 E2) as (e3' & E3' & _ & Hp & _). rewrite E3' in E3. injection E3 as ->. rewrite Hp. by apply (N1 k).
Qed.

Lemma update_events_gentle p f d :
  (forall k e, p k e = true -> order (f e) = order e /\ is_pending (f e) = is_pending e /\
     (is_pending e = false -> status (f e) = status e /\ claimed_at (f e) = claimed_at e)) ->
  gentle d (update_events p f d).
Proof.
  intros Hf. split; [done| |].
  - intros k e He. unfold update_events. cbn. unfold update_where. rewrite map_lookup_imap, He. cbn.
    eexists. split; [reflexivity|]. destruct (p k e) eqn:Hp; [by apply Hf with k|done].
  - intros k e'. unfold update_events. cbn. unfold update_where. rewrite map_lookup_imap. intros H1 H2. by rewrite H2 in H1.
Qed.

Lemma set_event_gentle k e d :
  is_pending e = true ->
  (forall old, outreach_events d !! k = Some old -> order e = order old /\ is_pending old = true) ->
  gentle d (set_event k e d).
Proof.
  intros Hp Hold. split; [done| |]; unfold set_event; cbn.
  - intros j x Hx. destruct (decide (j = k)) as [->|Hne].
    + rewrite lookup_insert_eq. destruct (Hold _ Hx) as [Ho Hpx]. exists e. rewrite Hp, Hpx. done.
    + rewrite lookup_insert_ne by done. by exists x.
  - intros j x Hx Hn. destruct (decide (j = k)) as [->|Hne].
    + rewrite lookup_insert_eq in Hx. by injection Hx as <-.
    + rewrite lookup_insert_ne in Hx by done. congruence.
Qed.

Lemma set_same_event_gentle k e d : outreach_events d !! k = Some e -> gentle d (set_event k e d).
Proof.
  intros He. assert (E : set_event k e d = d); [|by rewrite E]. unfold set_event. destruct d. cbn in *. by rewrite insert_id.
Qed.

Section Prepare.
Context `{Env}.

Lemma slot_event d opk cyc kd now :
  let s := default (next_pk (outreach_events d), new_event opk cyc kd now) (find_event d opk cyc kd) in
  outreach_events d !! s.1 = Some s.2 \/ (outreach_events d !! s.1 = None /\ is_pending s.2 = true).
Proof.
  cbv zeta. unfold find_event. destruct (first_where _ _) as [[k e]|] eqn:E; cbn [default fst snd].
  - left. by apply first_where_Some in E as (Hk & _).
  - right. split; [apply next_pk_fresh|done].
Qed.

Lemma prepare_purchase_gentle cf now opk a d : gentle d (prepare_purchase cf now opk a d).1.
Proof.
  unfold prepare_purchase. destruct (orders d !! opk) as [o|]; [|reflexivity]. cbv zeta.
  set (d1 := match renewal_state d opk o now with Renewed _ => _ | _ => d end).
  assert (G1 : gentle d d1) by (subst d1; destruct (renewal_state _ _ _ _); [reflexivity|by apply update_events_gentle|reflexivity]).
  destruct (bool_decide _); [exact G1|]. transitivity d1; [exact G1|].
  pose proof (slot_event d1 opk (Activity.cycle a) (candidate_kind d1 opk a cf now) now) as Hs. cbv zeta in Hs.
  destruct (default _ _) as [epk e]. cbn [fst snd] in Hs.
  assert (G2 : gentle d1 (set_event epk e d1)).
  { destruct Hs as [He|[Hn Hp]]; [by apply set_same_event_gentle|]. apply set_event_gentle; [done|].
    intros old Ho. by rewrite Ho in Hn. }
  destruct (is_pending e) eqn:Hp; cbn [fst]; [|exact G2]. transitivity (set_event epk e d1); [exact G2|].
  apply set_event_gentle; [cbn; by destruct (bool_decide _)|]. intros old Ho. unfold set_event in Ho. cbn in Ho.
  rewrite lookup_insert_eq in Ho. by injection Ho as <-.
Qed.

Lemma prepare_purchases_gentle cf now l d active : gentle d (prepare_purchases cf now l d active).1.
Proof.
  revert d active. induction l as [|[opk a] l IH]; intros d active; cbn [prepare_purchases]; [reflexivity|].
  pose proof (prepare_purchase_gentle cf now opk a d) as G. destruct (prepare_purchase _ _ _ _ _) as [d1 e].
  transitivity d1; [exact G|apply IH].
Qed.

Lemma prepare_store_gentle store cf now d : gentle d (prepare_store store cf now d).1.
Proof.
  unfold prepare_store. cbv zeta. set (l := order_by _ _). pose proof (prepare_purchases_gentle cf now l d []) as G.
  destruct (prepare_purchases cf now l d []) as [d1 active]. cbn [fst] in *. transitivity d1; [exact G|].
  apply update_events_gentle. intros k e [[_ Hp]%andb_true_iff _]%andb_true_iff. cbn. split; [done|]. split; [by rewrite Hp|].
  intros Hn. by rewrite Hn in Hp.
Qed.

(** ** A reservation *)

Definition reserved_row (d : DB) (o : Order.order) (now : Z) (e : outreach_event) : outreach_event :=
  e {{ bot_user := fst <$> personal_target d o; claimed_at := Some now; status := SENDING; reason := ""; updated_at := now }}.

Lemma reserve_inv epk now w r w' :
  reserve epk now w = (r, w') ->
  (exists e o cf a, outreach_events (db w) !! epk = Some e /\ status e = READY /\ orders (db w) !! order e = Some o /\
     activities (db w) !! order e = Some a /\ mode cf = LIVE /\ Activity.cycle a = cycle e /\
     candidate_kind (db w) (order e) a cf now = kind e /\ suppression (db w) o cf epk now = "" /\
     r = Ret (Some (reserved_row (db w) o now e)) /\ w' = w {{ db ::= set_event epk (reserved_row (db w) o now e) }}) \/
  ((forall e, r <> Ret (Some e)) /\ calls w' = calls w /\ gentle (db w) (db w')).
Proof.
  unfold reserve, get_order. run_io.
  assert (Hsame : forall e : exn, (forall x : outreach_event, Raise e <> Ret (Some x)) /\ calls w = calls w /\ gentle (db w) (db w)) by done.
  destruct (outreach_events (db w) !! epk) as [e|] eqn:He; [|intros [= <- <-]; right; by destruct w].
  destruct (orders (db w) !! order e) as [o|] eqn:Ho; [|intros [= <- <-]; right; by destruct w].
  destruct (Order.customer o) as [cust|] eqn:Hcust.
  2: { intros [= <- <-]. right. split; [done|]. split; [done|]. apply update_events_gentle.
       intros k x [_ Hr%bool_decide_eq_true]%andb_true_iff. cbn. unfold is_pending. rewrite Hr. cbn.
       split; [done|]. by split. }
  destruct (settings_of (db w) o) as [cf|] eqn:Hcf; [|intros [= <- <-]; right; by destruct w].
  destruct (customers (db w) !! cust) as [c|]; [|intros [= <- <-]; right; by destruct w].
  run_io. rewrite He.
  destruct (bool_decide (mode cf = LIVE)) eqn:Hlive; cbn [negb orb]; [|intros [= <- <-]; by right].
  destruct (bool_decide (status e = READY)) eqn:Hready; cbn [negb orb]; [|intros [= <- <-]; by right].
  apply bool_decide_eq_true in Hlive, Hready. cbn [negb orb].
  destruct (activities (db w) !! order e) as [a|] eqn:Ha; [|intros [= <- <-]; right; by destruct w].
  assert (Hwait : forall x, order x = order e -> is_pending x = true -> gentle (db w) (set_event epk x (db w))).
  { intros x Hox Hpx. apply set_event_gentle; [done|]. intros old Hold. rewrite He in Hold. injection Hold as <-.
    split; [done|]. unfold is_pending. by rewrite Hready. }
  destruct (Activity.cycle a =? cycle e) eqn:Hcy; cbn [negb orb]; [|intros [= <- <-]; right; split; [done|]; split; [done|]; by apply Hwait].
  destruct (bool_decide (candidate_kind _ _ _ _ _ = _)) eqn:Hk; cbn [negb orb];
    [|intros [= <- <-]; right; split; [done|]; split; [done|]; by apply Hwait].
  apply Z.eqb_eq in Hcy. apply bool_decide_eq_true in Hk.
  destruct (bool_decide (suppression _ _ _ _ _ = "")) eqn:Hs; cbn [negb].
  - intros [= <- <-]. left. apply bool_decide_eq_true in Hs. by exists e, o, cf, a.
  - intros [= <- <-]. right. split; [done|]. split; [done|]. apply Hwait; [done|]. unfold is_pending. cbn. by rewrite Hready.
Qed.
End Prepare.

(** ** Workers, interleaved *)

(** A world, the events a worker has reserved and not yet sent or given up, and
    the time. *)
Record sys := mk_sys { sy_world : World; sy_flight : list Z; sy_now : Z }.

Definition is_message (epk : Z) (c : call) : bool := match c with CallJourney k _ _ => k =? epk | _ => false end.

(** Messages handed to Telegram for an event. *)
Definition messages (epk : Z) (w : World) : nat := length (filter (fun c => Is_true (is_message epk c)) (calls w)).

Definition without (epk : Z) (fl : list Z) : list Z := filter (fun k => k <> epk) fl.

Definition dropped (e : outreach_event) : outreach_event := e {{ status := CANCELLED; reason := "not_eligible" }}.

Section Workers.
Context `{Env}.

(** What may happen next, in any order: a worker prepares a shop, marks what was
    interrupted, reserves an event, gives a reservation up, hands a message over,
    stops, writes down an answer; and anything else that leaves the events and
    the customers of orders alone.  A worker may act on a time it read earlier. *)
Inductive worker_step : sys -> sys -> Prop :=
| step_time w fl t t' : t <= t' -> worker_step (mk_sys w fl t) (mk_sys w fl t')
| step_prepare w fl t store cf now :
    now <= t -> worker_step (mk_sys w fl t) (mk_sys (w {{ db := (prepare_store store cf now (db w)).1 }}) fl t)
| step_interrupted w fl t now : now <= t -> worker_step (mk_sys w fl t) (mk_sys (w {{ db ::= mark_interrupted now }}) fl t)
| step_reserve w fl t epk now r w' :
    now <= t -> reserve epk now w = (r, w') ->
    worker_step (mk_sys w fl t) (mk_sys w' (match r with Ret (Some _) => epk :: fl | _ => fl end) t)
| step_give_up w fl t epk :
    epk ∈ fl -> worker_step (mk_sys w fl t) (mk_sys (w {{ db ::= where_sending epk dropped }}) (without epk fl) t)
| step_stop w fl t epk : worker_step (mk_sys w fl t) (mk_sys w (without epk fl) t)
| step_send w fl t epk tg r w' :
    epk ∈ fl -> transport epk tg w = (r, w') -> worker_step (mk_sys w fl t) (mk_sys w' (without epk fl) t)
| step_answer w fl t epk e tg answer clock r w' :
    (0 < messages epk w)%nat -> record_answer epk e tg answer clock w = (r, w') -> worker_step (mk_sys w fl t) (mk_sys w' fl t)
| step_other w w' fl t :
    outreach_events (db w') = outreach_events (db w) ->
    (forall e, event_customer (db w') e = event_customer (db w) e) ->
    (forall epk, messages epk w' = messages epk w) ->
    worker_step (mk_sys w fl t) (mk_sys w' fl t).

(** Reserved messages to the customer of an event in the week up to its claim. *)
Definition in_week (d : DB) (cust : option Z) (c : Z) (e : outreach_event) : bool :=
  is_reserved e && bool_decide (event_customer d e = cust) && claimed_from (c - 7 * DAY) e
  && match claimed_at e with Some c' => c' <=? c | None => false end.

Definition week_count (d : DB) (cust : option Z) (c : Z) : Z :=
  count_where (fun _ e => in_week d cust c e) (outreach_events d).

(** Events reserved for a customer are a day apart, and three at most in a week. *)
Record spaced (d : DB) (t : Z) : Prop := {
  sp_claimed : forall k e, outreach_events d !! k = Some e -> is_reserved e = true -> exists c, claimed_at e = Some c /\ c <= t;
  sp_apart : forall k1 k2 e1 e2 c1 c2, outreach_events d !! k1 = Some e1 -> outreach_events d !! k2 = Some e2 -> k1 <> k2 ->
    is_reserved e1 = true -> is_reserved e2 = true -> event_customer d e1 = event_customer d e2 ->
    claimed_at e1 = Some c1 -> claimed_at e2 = Some c2 -> DAY < Z.abs (c1 - c2);
  sp_week : forall k e c, outreach_events d !! k = Some e -> is_reserved e = true -> claimed_at e = Some c ->
    week_count d (event_customer d e) c <= WEEKLY;
}.

Lemma count_where_le {V} (p p' : Z -> V -> bool) (t t' : gmap Z V) :
  (forall k v', t' !! k = Some v' -> p' k v' = true -> exists v, t !! k = Some v /\ p k v = true) ->
  count_where p' t' <= count_where p t.
Proof.
  intros Hp. unfold count_where. apply inj_le. rewrite <- (length_fmap fst (rows_where p' t')), <- (length_fmap fst (rows_where p t)).
  apply submseteq_length, NoDup_submseteq; [apply rows_where_NoDup|].
  intros k ([k' v'] & -> & [Hk Hv]%elem_of_rows_where)%list_elem_of_fmap. cbn.
  destruct (Hp _ _ Hk Hv) as (v & Ht & Hpv). apply list_elem_of_fmap. exists (k', v). by rewrite elem_of_rows_where.
Qed.

(** No event becomes reserved. *)
Definition none_reserved (d d' : DB) : Prop :=
  (forall e, event_customer d' e = event_customer d e) /\
  forall k e', outreach_events d' !! k = Some e' -> is_reserved e' = true ->
    exists e, outreach_events d !! k = Some e /\ is_reserved e = true /\ claimed_at e' = claimed_at e /\ order e' = order e.

Lemma same_order_customer d e e' : order e' = order e -> event_customer d e' = event_customer d e.
Proof. intros E. unfold event_customer. by rewrite E. Qed.

Lemma spaced_kept d d' t : none_reserved d d' -> spaced d t -> spaced d' t.
Proof.
  intros [Hc Hn] [H1 H2 H3].
  assert (Hcust : forall e e', order e' = order e -> event_customer d' e' = event_customer d e).
  { intros e e' E. rewrite Hc. by apply same_order_customer. }
  split.
  - intros k e' He Hr. destruct (Hn k e' He Hr) as (e & E & Hre & Hcl & _). rewrite Hcl. by eapply H1.
  - intros k1 k2 e1 e2 c1 c2 E1 E2 Hne R1 R2 Hsame C1 C2.
    destruct (Hn k1 e1 E1 R1) as (x1 & X1 & XR1 & XC1 & XO1). destruct (Hn k2 e2 E2 R2) as (x2 & X2 & XR2 & XC2 & XO2).
    apply (H2 k1 k2 x1 x2); [done|done|done|done|done| |congruence|congruence].
    by rewrite <- (Hcust x1 e1 XO1), <- (Hcust x2 e2 XO2).
  - intros k e' c He Hr Hcl. destruct (Hn k e' He Hr) as (e & E & Hre & Hcl' & Ho).
    rewrite (Hcust e e' Ho). etransitivity; [|apply (H3 k e c); [done|done|congruence]].
    apply count_where_le. intros j x Hx Hp. unfold in_week in Hp.
    apply andb_true_iff in Hp as [[[Hxr Hxc]%andb_true_iff Hxf]%andb_true_iff Hxl].
    destruct (Hn j x Hx Hxr) as (y & Hy & Hyr & Hyc & Hyo). exists y. split; [done|].
    unfold in_week. rewrite Hyr. rewrite (Hcust y x Hyo) in Hxc. rewrite Hxc. unfold claimed_from in *. rewrite <- Hyc, Hxf. exact Hxl.
Qed.

Lemma suppression_blank d o cf epk now :
  suppression d o cf epk now = "" -> customer_capped d (Order.customer o) epk now = false.
Proof.
  unfold suppression. destruct (bool_decide _); [done|]. destruct (negb _); [done|]. destruct (exists_where _ _); [done|].
  destruct (exists_where _ _); [done|]. by destruct (customer_capped _ _ _ _).
Qed.

(** A customer who may be written to was not, for a day, and twice at most in the
    week. *)
Lemma uncapped d cust epk now :
  customer_capped d cust epk now = false ->
  personal_since d cust epk (now - 7 * DAY) < WEEKLY /\
  forall k e c, outreach_events d !! k = Some e -> k <> epk -> is_reserved e = true -> event_customer d e = cust ->
    claimed_at e = Some c -> c < now - DAY.
Proof.
  unfold customer_capped. intros [[Hday _]%orb_false_iff Hweek]%orb_false_iff. split.
  - apply Z.leb_gt in Hweek. pose proof (count_where_nonneg (fun _ l => bool_decide (OfferLog.customer l = cust) && sent_offer l
      && (now - 7 * DAY <=? OfferLog.created_at l) && older_campaign l) (offer_logs d)). lia.
  - intros k e c He Hne Hr Hcust Hc. destruct (Z.lt_ge_cases c (now - DAY)) as [?|Hge]; [done|]. exfalso.
    apply Z.ltb_ge in Hday. unfold personal_since in Hday. enough (0 < count_where (fun k0 e0 => is_reserved e0 && negb (k0 =? epk)
      && bool_decide (event_customer d e0 = cust) && claimed_from (now - DAY) e0) (outreach_events d)) by lia.
    apply count_where_pos, exists_where_true. exists k, e. split; [done|]. rewrite Hr, bool_decide_true by done.
    unfold claimed_from. rewrite Hc. apply Z.eqb_neq in Hne. rewrite Hne. cbn. by apply Z.leb_le.
Qed.

Lemma spaced_reserved d t now epk e o cf :
  now <= t -> spaced d t -> outreach_events d !! epk = Some e -> status e = READY -> orders d !! order e = Some o ->
  suppression d o cf epk now = "" ->
  spaced (set_event epk (reserved_row d o now e) d) t.
Proof.
  intros Hnow [H1 H2 H3] He Hready Ho Hs. set (n := reserved_row d o now e).
  destruct (uncapped _ _ _ _ (suppression_blank _ _ _ _ _ Hs)) as [Hweek Hday].
  assert (Hcust : event_customer d n = Order.customer o) by (unfold event_customer; cbn; by rewrite Ho).
  assert (Hnot : is_reserved e = false) by (unfold is_reserved; by rewrite Hready).
  assert (Hold : forall k x c, k <> epk -> outreach_events d !! k = Some x -> is_reserved x = true ->
    event_customer d x = event_customer d n -> claimed_at x = Some c -> c < now - DAY).
  { intros k x c Hne Hx Hr Hc. rewrite Hcust in Hc. by eapply Hday. }
  assert (Hpos : 0 < DAY) by done.
  set (d' := set_event epk n d). assert (Hev : outreach_events d' = <[epk := n]> (outreach_events d)) by done.
  assert (Hor : orders d' = orders d) by done.
  assert (Hec : forall x, event_customer d' x = event_customer d x) by done. clearbody d'. split.
  - rewrite Hev. intros k x Hx Hr. destruct (decide (k = epk)) as [->|Hne].
    + rewrite lookup_insert_eq in Hx. injection Hx as <-. by exists now.
    + rewrite lookup_insert_ne in Hx by done. by eapply H1.
  - rewrite Hev. intros k1 k2 e1 e2 c1 c2 E1 E2 Hne R1 R2 Hsame C1 C2. rewrite !Hec in Hsame.
    destruct (decide (k1 = epk)) as [->|N1], (decide (k2 = epk)) as [->|N2]; [done| | |].
    + rewrite lookup_insert_eq in E1. injection E1 as <-. rewrite lookup_insert_ne in E2 by done.
      injection C1 as <-. pose proof (Hold k2 e2 c2 N2 E2 R2 (eq_sym Hsame) C2). lia.
    + rewrite lookup_insert_eq in E2. injection E2 as <-. rewrite lookup_insert_ne in E1 by done.
      injection C2 as <-. pose proof (Hold k1 e1 c1 N1 E1 R1 Hsame C1). lia.
    + rewrite lookup_insert_ne in E1, E2 by done. by apply (H2 k1 k2 e1 e2).
  - intros k x c Hx Hr Hc. rewrite Hev in Hx. unfold week_count. rewrite Hev, Hec.
    set (p := fun (_ : Z) y => in_week d (event_customer d x) c y).
    assert ((fun (_ : Z) y => in_week d' (event_customer d x) c y) = p) as -> by (subst p; unfold in_week, event_customer; by rewrite Hor). rewrite (count_where_insert p _ _ _ n He).
    assert (p epk e = false) as -> by (subst p; unfold in_week; by rewrite Hnot). cbn [Z.b2z].
    destruct (decide (k = epk)) as [->|Hne].
    + rewrite lookup_insert_eq in Hx. injection Hx as <-. injection Hc as <-.
      enough (count_where p (outreach_events d) <= personal_since d (Order.customer o) epk (now - 7 * DAY)).
      { destruct (p epk n); cbn [Z.b2z]; lia. }
      apply count_where_le. intros j y Hy Hp. exists y. split; [done|]. subst p. unfold in_week in Hp.
      apply andb_true_iff in Hp as [[[Hyr Hyc]%andb_true_iff Hyf]%andb_true_iff _]. rewrite Hyr, Hyf, <- Hcust, Hyc.
      destruct (decide (j = epk)) as [->|Hj]; [|by apply Z.eqb_neq in Hj as ->].
      rewrite He in Hy. injection Hy as <-. by rewrite Hnot in Hyr.
    + rewrite lookup_insert_ne in Hx by done. assert (p epk n = false) as ->.
      { subst p. unfold in_week. destruct (bool_decide (event_customer d n = _)) eqn:E; [|by rewrite andb_false_r].
        apply bool_decide_eq_true in E. pose proof (Hold k x c Hne Hx Hr (eq_sym E) Hc).
        assert ((now <=? c) = false) as Ht by (apply Z.leb_gt; lia). cbn. rewrite Ht. by rewrite !andb_false_r. }
      cbn [Z.b2z]. specialize (H3 k x c Hx Hr Hc). unfold week_count in H3. subst p. lia.
Qed.

(** ** Sent once *)

Definition HELD : list status_t := [SENDING; UNCERTAIN].
Definition HANDED : list status_t := [SENDING; SENT; UNCERTAIN; FAILED].

Definition has_status (w : World) (k : Z) (l : list status_t) : Prop :=
  exists e, outreach_events (db w) !! k = Some e /\ status e ∈ l.

(** What was reserved is not sent yet; what was sent was sent once, and is not
    waiting. *)
Record once (s : sys) : Prop := {
  on_flight : forall k, k ∈ sy_flight s -> messages k (sy_world s) = 0%nat /\ has_status (sy_world s) k HELD;
  on_sent : forall k, (messages k (sy_world s) <= 1)%nat /\
    ((0 < messages k (sy_world s))%nat -> has_status (sy_world s) k HANDED);
}.

(** No event that is not waiting moves, but that a send becomes uncertain. *)
Definition at_rest (d d' : DB) : Prop :=
  forall k e, outreach_events d !! k = Some e -> is_pending e = false ->
    exists e', outreach_events d' !! k = Some e' /\ (status e' = status e \/ status e = SENDING /\ status e' = UNCERTAIN).

Lemma held_not_pending e l : l = HELD \/ l = HANDED -> status e ∈ l -> is_pending e = false.
Proof.
  intros Hl Hs. apply (bool_decide_eq_true_2 _) in Hs. unfold is_pending.
  destruct Hl as [-> | ->]; destruct (status e); vm_compute in Hs |- *; congruence.
Qed.

Lemma at_rest_status w w' k l :
  at_rest (db w) (db w') -> l = HELD \/ l = HANDED -> has_status w k l -> has_status w' k l.
Proof.
  intros Hr Hl (e & He & Hs). destruct (Hr k e He) as (e' & He' & Hs'); [by eapply held_not_pending|].
  exists e'. split; [done|]. destruct Hs' as [-> |[_ ->]]; [done|]. unfold HELD, HANDED in *. destruct Hl as [-> | ->]; set_solver.
Qed.

Lemma once_at_rest w w' fl fl' t t' :
  at_rest (db w) (db w') -> (forall k, messages k w' = messages k w) -> (forall k, k ∈ fl' -> k ∈ fl) ->
  once (mk_sys w fl t) -> once (mk_sys w' fl' t').
Proof.
  intros Hr Hm Hfl [Hf Hs]. split; cbn in *.
  - intros k Hk. destruct (Hf k (Hfl k Hk)) as [H0 H1]. rewrite Hm. split; [done|]. by eapply at_rest_status; [|left|].
  - intros k. rewrite Hm. destruct (Hs k) as [H0 H1]. split; [done|]. intros Hp. eapply at_rest_status; [done|by right|by apply H1].
Qed.

Lemma gentle_at_rest d d' : gentle d d' -> at_rest d d'.
Proof.
  intros [_ K _] k e He Hp. destruct (K k e He) as (e' & He' & _ & _ & Hs). exists e'. split; [done|]. left. by apply Hs.
Qed.

Lemma gentle_none_reserved d d' : gentle d d' -> none_reserved d d'.
Proof.
  intros [Ho K N]. split; [intros e; unfold event_customer; by rewrite Ho|].
  assert (Hrp : forall e, is_reserved e = true -> is_pending e = false).
  { intros e. unfold is_reserved, is_pending. by destruct (status e). }
  intros k e' He' Hr. destruct (outreach_events d !! k) as [e|] eqn:He.
  - destruct (K k e He) as (e2 & E2 & Hor & Hp & Hs). rewrite He' in E2. injection E2 as <-.
    exists e. split; [done|]. destruct Hs as [Hst Hc]; [rewrite <- Hp; by apply Hrp|]. unfold is_reserved in *. by rewrite <- Hst.
  - pose proof (N k e' He' He) as Hn. by rewrite (Hrp _ Hr) in Hn.
Qed.

Lemma lookup_update_events p f d k :
  outreach_events (update_events p f d) !! k = (fun e => if p k e then f e else e) <$> outreach_events d !! k.
Proof. unfold update_events. cbn. apply lookup_update_where. Qed.

Lemma interrupted_at_rest t d : at_rest d (mark_interrupted t d) /\ none_reserved d (mark_interrupted t d).
Proof.
  split.
  - intros k e He _. unfold mark_interrupted. rewrite lookup_update_events, He. eexists. split; [reflexivity|].
    destruct (_ && _) eqn:E; [|by left]. right. apply andb_true_iff in E as [->%bool_decide_eq_true _]. done.
  - split; [done|]. intros k e'. unfold mark_interrupted. rewrite lookup_update_events.
    destruct (outreach_events d !! k) as [e|]; [|done]. intros [= <-] Hr. exists e. split; [done|].
    destruct (_ && _) eqn:E; [|done]. apply andb_true_iff in E as [E%bool_decide_eq_true _]. unfold is_reserved. by rewrite E.
Qed.

(** An update of one event that is being sent. *)
Definition same_claim (f : outreach_event -> outreach_event) (l : list status_t) : Prop :=
  forall e, order (f e) = order e /\ claimed_at (f e) = claimed_at e /\ status (f e) ∈ l.

Lemma where_sending_none_reserved epk f l d d' :
  same_claim f l -> orders d' = orders d -> outreach_events d' = outreach_events (where_sending epk f d) -> none_reserved d d'.
Proof.
  intros Hf Ho He. split; [intros e; unfold event_customer; by rewrite Ho|]. intros k e'. rewrite He.
  unfold where_sending. rewrite lookup_update_events. destruct (outreach_events d !! k) as [e|]; [|done]. intros [= <-] Hr.
  exists e. split; [done|]. destruct (_ && _) eqn:E; [|done]. apply andb_true_iff in E as [_ E%bool_decide_eq_true].
  destruct (Hf e) as (H1 & H2 & _). unfold is_reserved. by rewrite E.
Qed.

Lemma where_sending_other epk f w w' k l :
  outreach_events (db w') = outreach_events (where_sending epk f (db w)) -> k <> epk -> has_status w k l -> has_status w' k l.
Proof.
  intros He Hne (e & Hk & Hs). exists e. rewrite He. unfold where_sending. rewrite lookup_update_events, Hk. cbn.
  apply Z.eqb_neq in Hne. by rewrite Hne.
Qed.

Lemma record_answer_run epk e tg answer clock w r w' :
  record_answer epk e tg answer clock w = (r, w') ->
  calls w' = calls w /\ orders (db w') = orders (db w) /\
  exists f, same_claim f [SENT; UNCERTAIN; FAILED] /\ outreach_events (db w') = outreach_events (where_sending epk f (db w)).
Proof.
  unfold record_answer. destruct answer as [[id|]|code].
  - destruct (bool_decide (id = "")); run_io; intros [= <- <-]; (split; [done|]); (split; [done|]); eexists; (split; [|reflexivity]);
      intros x; cbn; (split; [done|]); (split; [done|]); set_solver.
  - run_io. intros [= <- <-]. split; [done|]. split; [done|]. eexists. split; [|reflexivity]. intros x. cbn.
    split; [done|]. split; [done|]. set_solver.
  - run_io. intros [= <- <-]. split; [done|]. split; [done|]. eexists. split; [|reflexivity]. intros x. cbn.
    split; [done|]. split; [done|]. destruct (match code with Some _ => _ | None => _ end); set_solver.
Qed.

Lemma reserve_once epk now t w r w' fl :
  reserve epk now w = (r, w') -> once (mk_sys w fl t) ->
  once (mk_sys w' (match r with Ret (Some _) => epk :: fl | _ => fl end) t).
Proof.
  intros [(e & o & cf & a & He & Hready & _ & _ & _ & _ & _ & _ & -> & ->)|(Hr & Hc & G)]%reserve_inv Ho.
  - destruct Ho as [Hf Hs]. cbn in *.
    assert (Hnot : forall l, l = HELD \/ l = HANDED -> ~ has_status w epk l).
    { intros l Hl (x & Hx & Hst). rewrite He in Hx. injection Hx as <-. pose proof (held_not_pending e l Hl Hst) as Hp.
      unfold is_pending in Hp. by rewrite Hready in Hp. }
    assert (Hother : forall k l, k <> epk -> has_status w k l -> has_status (w {{ db ::= set_event epk (reserved_row (db w) o now e) }}) k l).
    { intros k l Hne (x & Hx & Hst). exists x. unfold set_event. cbn. by rewrite lookup_insert_ne. }
    assert (H0 : messages epk w = 0%nat).
    { destruct (Hs epk) as [_ Hx]. destruct (messages epk w); [done|]. exfalso. apply (Hnot HANDED); [by right|]. apply Hx. lia. }
    split; cbn.
    + intros k Hk. destruct (decide (k = epk)) as [->|Hne].
      * split; [exact H0|]. eexists. unfold set_event. cbn. rewrite lookup_insert_eq. split; [reflexivity|]. cbn. unfold HELD. set_solver.
      * apply elem_of_cons in Hk as [?|Hk]; [done|]. destruct (Hf k Hk) as [H1 H2]. split; [exact H1|]. by apply Hother.
    + intros k. destruct (Hs k) as [H1 H2]. split; [exact H1|]. intros Hp.
      destruct (decide (k = epk)) as [->|Hne]; [|apply Hother; [done|by apply H2]].
      change (0 < messages epk w)%nat in Hp. lia.
  - assert (Ho' : once (mk_sys w' fl t)).
    { eapply once_at_rest; [by apply gentle_at_rest| |done|exact Ho]. intros k. unfold messages. by rewrite Hc. }
    destruct r as [[e|]|e]; [by specialize (Hr e)|exact Ho'|exact Ho'].
Qed.

Lemma elem_of_without k epk fl : k ∈ without epk fl <-> k <> epk /\ k ∈ fl.
Proof. unfold without. by rewrite list_elem_of_filter. Qed.

Lemma give_up_claim : same_claim dropped [CANCELLED].
Proof. intros e. cbn. split; [done|]. split; [done|]. set_solver. Qed.

Lemma give_up_once epk w fl t :
  epk ∈ fl -> once (mk_sys w fl t) -> once (mk_sys (w {{ db ::= where_sending epk dropped }}) (without epk fl) t).
Proof.
  intros Hin [Hf Hs]. cbn in *. destruct (Hf epk Hin) as [H0 _]. split; cbn.
  - intros k [Hne Hk]%elem_of_without. destruct (Hf k Hk) as [H1 H2]. split; [exact H1|].
    by eapply (where_sending_other epk dropped w).
  - intros k. destruct (Hs k) as [H1 H2]. split; [exact H1|]. intros Hp.
    assert (k <> epk) as Hne by (intros ->; change (0 < messages epk w)%nat in Hp; lia).
    eapply (where_sending_other epk dropped w); [reflexivity|exact Hne|by apply H2].
Qed.

Lemma transport_run epk tg w r w' :
  transport epk tg w = (r, w') -> db w' = db w /\ forall k, messages k w' = (messages k w + if (epk =? k)%Z then 1 else 0)%nat.
Proof.
  unfold transport. run_io. intros [= _ Hw].
  assert (Hc : calls w' = CallJourney epk (BotUser.bot_config tg.2) (BotUser.chat_id tg.2) :: calls w) by (by rewrite <- Hw).
  split; [by rewrite <- Hw|]. intros k. unfold messages. rewrite Hc, filter_cons. cbn [is_message].
  destruct (epk =? k); case_decide as Hd; cbn [length]; [lia|by destruct Hd|done|lia].
Qed.

Lemma send_once epk tg w r w' fl t :
  epk ∈ fl -> transport epk tg w = (r, w') -> once (mk_sys w fl t) -> once (mk_sys w' (without epk fl) t).
Proof.
  intros Hin Hrun [Hf Hs]. destruct (transport_run _ _ _ _ _ Hrun) as [Hdb Hm]. cbn [sy_flight sy_world] in *.
  destruct (Hf epk Hin) as [H0 (e & He & Hst)].
  assert (Hsame : forall k l, has_status w k l -> has_status w' k l) by (intros k l; unfold has_status; by rewrite Hdb).
  split; cbn.
  - intros k [Hne Hk]%elem_of_without. destruct (Hf k Hk) as [H1 H2]. rewrite Hm, H1.
    apply not_eq_sym, Z.eqb_neq in Hne. rewrite Hne. split; [done|by apply Hsame].
  - intros k. rewrite Hm. destruct (Z.eqb_spec epk k) as [<-|Hne].
    + rewrite H0. split; [lia|]. intros _. apply Hsame. exists e. split; [exact He|]. unfold HELD, HANDED in *. set_solver.
    + destruct (Hs k) as [H1 H2]. split; [lia|]. intros Hp. apply Hsame, H2. lia.
Qed.

Lemma answer_once epk e tg answer clock w r w' fl t :
  (0 < messages epk w)%nat -> record_answer epk e tg answer clock w = (r, w') -> once (mk_sys w fl t) -> once (mk_sys w' fl t).
Proof.
  intros Hp Hrun [Hf Hs]. destruct (record_answer_run _ _ _ _ _ _ _ _ Hrun) as (Hc & _ & f & Hclaim & He). cbn in *.
  assert (Hm : forall k, messages k w' = messages k w) by (intros k; unfold messages; by rewrite Hc).
  split; cbn.
  - intros k Hk. destruct (Hf k Hk) as [H1 H2]. rewrite Hm. split; [exact H1|].
    eapply (where_sending_other epk f w); [exact He|intros ->; lia|exact H2].
  - intros k. rewrite Hm. destruct (Hs k) as [H1 H2]. split; [exact H1|]. intros Hk.
    destruct (decide (k = epk)) as [->|Hne]; [|eapply (where_sending_other epk f w); [exact He|exact Hne|by apply H2]].
    destruct (H2 Hk) as (x & Hx & Hst). eexists. rewrite He, lookup_update_where, Hx.
    split; [reflexivity|]. destruct (_ && _); [|exact Hst]. destruct (Hclaim x) as (_ & _ & Hl). unfold HANDED. set_solver.
Qed.

(** What the workers keep, whatever happens in whatever order. *)
Lemma step_keeps s s' :
  worker_step s s' -> once s /\ spaced (db (sy_world s)) (sy_now s) -> once s' /\ spaced (db (sy_world s')) (sy_now s').
Proof.
  intros Hstep [Ho Hsp]. destruct Hstep as [w fl t t' Ht|w fl t store cf now Hnow|w fl t now Hnow|w fl t epk now r w' Hnow Hr|w fl t epk Hin
    |w fl t epk|w fl t epk tg r w' Hin Hr|w fl t epk e tg answer clock r w' Hp Hr|w w' fl t He Hc Hm]; cbn [sy_world sy_now] in *.
  - split; [by destruct Ho|]. destruct Hsp as [H1 H2 H3]. split; [|exact H2|exact H3].
    intros k e He Hr. destruct (H1 k e He Hr) as (c & Hc & Hle). exists c. split; [done|lia].
  - pose proof (prepare_store_gentle store cf now (db w)) as G. split.
    + eapply once_at_rest; [by apply gentle_at_rest|done|done|exact Ho].
    + eapply spaced_kept; [by apply gentle_none_reserved|exact Hsp].
  - destruct (interrupted_at_rest now (db w)) as [G1 G2]. split; [by eapply once_at_rest|by eapply spaced_kept].
  - split; [by eapply reserve_once|].
    destruct (reserve_inv _ _ _ _ _ Hr) as [(e & o & cf & a & He & Hready & Hor & _ & _ & _ & _ & Hs & _ & ->)|(_ & _ & G)].
    + by eapply (spaced_reserved (db w) t now epk e o cf).
    + eapply spaced_kept; [by apply gentle_none_reserved|exact Hsp].
  - split; [by apply give_up_once|]. eapply spaced_kept; [|exact Hsp].
    by eapply (where_sending_none_reserved epk dropped [CANCELLED]); [apply give_up_claim|..].
  - split; [|exact Hsp]. eapply once_at_rest; [| |intros k [_ Hk]%elem_of_without; exact Hk|exact Ho]; [|done].
    intros k e He _. exists e. split; [done|by left].
  - split; [by eapply send_once|]. by destruct (transport_run _ _ _ _ _ Hr) as [-> _].
  - split; [by eapply answer_once|]. destruct (record_answer_run _ _ _ _ _ _ _ _ Hr) as (_ & Hor & f & Hclaim & He).
    eapply spaced_kept; [by eapply where_sending_none_reserved|exact Hsp].
  - split.
    + eapply once_at_rest; [|exact Hm|done|exact Ho]. intros k e Hk _. exists e. rewrite He. split; [done|by left].
    + eapply spaced_kept; [|exact Hsp]. split; [exact Hc|]. intros k e Hk Hr. exists e. by rewrite <- He.
Qed.

(** Before anything was sent. *)
Definition nothing_sent (s : sys) : Prop :=
  sy_flight s = [] /\ (forall k, messages k (sy_world s) = 0%nat) /\
  forall k e, outreach_events (db (sy_world s)) !! k = Some e -> is_pending e = true.

Lemma nothing_sent_kept s : nothing_sent s -> once s /\ spaced (db (sy_world s)) (sy_now s).
Proof.
  intros (Hfl & Hm & Hp).
  assert (Hr : forall k e, outreach_events (db (sy_world s)) !! k = Some e -> is_reserved e = true -> False).
  { intros k e He Hr. specialize (Hp k e He). unfold is_pending, is_reserved in *. by destruct (status e). }
  split.
  - split; [rewrite Hfl; by intros k ?%elem_of_nil|]. intros k. rewrite Hm. split; lia.
  - split; [by intros k e He Hx; destruct (Hr k e He Hx)|by intros k1 k2 e1 e2 c1 c2 E1 _ _ R1; destruct (Hr k1 e1 E1 R1)|].
    by intros k e c He Hx; destruct (Hr k e He Hx).
Qed.

Lemma steps_keep s s' : rtc worker_step s s' ->
  once s /\ spaced (db (sy_world s)) (sy_now s) -> once s' /\ spaced (db (sy_world s')) (sy_now s').
Proof. induction 1 as [|s1 s2 s3 H1 _ IH]; [done|]. intros Hk. by apply IH, (step_keeps s1). Qed.

(** C33: However the workers are interleaved, stopped or slow, Telegram is asked
    at most once to deliver a message about one stage of a purchase, and an event
    for which it was asked is not put in line again. *)
Theorem message_sent_at_most_once s s' k :
  nothing_sent s -> rtc worker_step s s' ->
  (messages k (sy_world s') <= 1)%nat /\ ((0 < messages k (sy_world s'))%nat -> has_status (sy_world s') k HANDED).
Proof. intros Hs Hr. destruct (steps_keep _ _ Hr (nothing_sent_kept _ Hs)) as [[_ H1] _]. apply H1. Qed.

(** C34: However the workers are interleaved, the messages reserved for a customer
    are more than a day apart, and in no week are there more than three. *)
Theorem messages_are_spaced s s' :
  nothing_sent s -> rtc worker_step s s' -> spaced (db (sy_world s')) (sy_now s').
Proof. intros Hs Hr. by destruct (steps_keep _ _ Hr (nothing_sent_kept _ Hs)) as [_ H2]. Qed.

(** ** A run of the code is such a sequence of steps *)

Lemma messages_of_calls w w' k : calls w' = calls w -> messages k w' = messages k w.
Proof. unfold messages. by intros ->. Qed.

Lemma step_messages s s' k : worker_step s s' -> (messages k (sy_world s) <= messages k (sy_world s'))%nat.
Proof.
  intros [w fl t t' Ht|w fl t store cf now Hnow|w fl t now Hnow|w fl t epk now r w' Hnow Hr|w fl t epk Hin
    |w fl t epk|w fl t epk tg r w' Hin Hr|w fl t epk e tg answer clock r w' Hp Hr|w w' fl t He Hc Hm]; cbn [sy_world]; try done.
  - destruct (reserve_inv _ _ _ _ _ Hr) as [(e & o & cf & a & _ & _ & _ & _ & _ & _ & _ & _ & _ & ->)|(_ & Hc & _)]; [done|].
    by rewrite (messages_of_calls w w').
  - destruct (transport_run _ _ _ _ _ Hr) as [_ Hm]. rewrite Hm. lia.
  - destruct (record_answer_run _ _ _ _ _ _ _ _ Hr) as (Hc & _). by rewrite (messages_of_calls w w').
  - by rewrite Hm.
Qed.

Lemma steps_messages s s' k : rtc worker_step s s' -> (messages k (sy_world s) <= messages k (sy_world s'))%nat.
Proof. induction 1 as [|s1 s2 s3 H1 _ IH]; [done|]. pose proof (step_messages _ _ k H1). lia. Qed.

Lemma step_clock s s' : worker_step s s' -> sy_now s <= sy_now s'.
Proof. by intros []. Qed.

Lemma steps_clock s s' : rtc worker_step s s' -> sy_now s <= sy_now s'.
Proof. induction 1 as [|s1 s2 s3 H1 _ IH]; [done|]. apply step_clock in H1. lia. Qed.

Lemma revalidate_run epk e now later w r w' :
  revalidate epk e now later w = (r, w') ->
  (w' = w /\ r <> Ret None) \/ (r = Ret None /\ w' = w {{ db ::= where_sending epk dropped }}).
Proof.
  unfold revalidate, get_order. run_io. destruct (orders (db w) !! order e) as [o|]; [|intros [= <- <-]; by left].
  destruct (settings_of (db w) o) as [cf|]; [|intros [= <- <-]; by left].
  destruct (activities (db w) !! order e) as [a|]; [|intros [= <- <-]; by left].
  destruct (personal_target (db w) o) as [tg|].
  - destruct (_ && _); intros [= <- <-]; [by left|by right].
  - intros [= <- <-]. by right.
Qed.

Section Run.
Context (before between during : nat -> World -> World) (clock : nat -> nat -> Z) (reserved_at : nat -> Z) (now : Z).

(** When the [i]-th dispatch of the run can begin. *)
Definition previous (i : nat) : Z := match i with O => now | S j => clock j 6%nat end.

(** The other workers make steps of their own, in the time there is between the
    readings of the clock; and the clock never goes back. *)
Record others_work : Prop := {
  ow_before i w fl : rtc worker_step (mk_sys w fl (previous i)) (mk_sys (before i w) fl (reserved_at i));
  ow_reserved i : previous i <= clock i 0 <= reserved_at i;
  ow_between i w fl : rtc worker_step (mk_sys w fl (reserved_at i)) (mk_sys (between i w) fl (clock i 1));
  ow_checked i : clock i 1 <= clock i 2;
  ow_during i w fl : rtc worker_step (mk_sys w fl (clock i 2)) (mk_sys (during i w) fl (clock i 3));
  ow_answered i : clock i 3 <= clock i 6;
}.
Context (others : others_work).

Lemma slot_order i : reserved_at i <= clock i 1 /\ clock i 1 <= clock i 2 /\ clock i 2 <= clock i 3 /\ clock i 3 <= previous (S i).
Proof.
  destruct others as [_ _ Hb Hc Hd Ha]. pose proof (steps_clock _ _ (Hb i sample_shop [])) as H1.
  pose proof (steps_clock _ _ (Hd i sample_shop [])) as H2. cbn in *. auto.
Qed.

(** [m] is a sequence of steps of a worker that begins when the [i]-th dispatch
    can, ends with no more in hand and, if it returns, when the next can begin. *)
Definition as_steps {A} (i : nat) (next : A -> nat) (m : IO A) : Prop := forall w fl r w', m w = (r, w') ->
  exists fl' t', (forall k, k ∈ fl' -> k ∈ fl) /\ rtc worker_step (mk_sys w fl (previous i)) (mk_sys w' fl' t') /\
    match r with Ret x => t' = previous (next x) | Raise _ => True end.

Lemma as_steps_ret {A} i (next : A -> nat) (x : A) : next x = i -> as_steps i next (mret x).
Proof. intros Hi w fl r w' [= <- <-]. exists fl, (previous i). by rewrite Hi. Qed.

Lemma as_steps_bind {A B} i (n1 : A -> nat) (n2 : B -> nat) (m : IO A) (f : A -> IO B) :
  as_steps i n1 m -> (forall x, as_steps (n1 x) n2 (f x)) -> as_steps i n2 (x ← m; f x).
Proof.
  intros Hm Hf w fl r w'. unfold mbind, M_bind. destruct (m w) as [[x|e] w1] eqn:E; intros Hrun;
    destruct (Hm w fl _ _ E) as (fl1 & t1 & Hs1 & R1 & Ht1).
  - subst t1. destruct (Hf x w1 fl1 _ _ Hrun) as (fl2 & t2 & Hs2 & R2 & Ht2).
    exists fl2, t2. split; [auto|]. split; [by etransitivity|exact Ht2].
  - injection Hrun as <- <-. by exists fl1, t1.
Qed.

Lemma as_steps_db i : as_steps i (fun _ => i) get_db.
Proof. intros w fl r w' [= <- <-]. by exists fl, (previous i). Qed.

(** Writes to other tables. *)
Lemma as_steps_put i f :
  (forall d, outreach_events (f d) = outreach_events d /\ orders (f d) = orders d) -> as_steps i (fun _ => i) (put_db f).
Proof.
  intros Hf w fl r w' [= <- <-]. exists fl, (previous i). split; [done|]. split; [|done]. apply rtc_once. destruct (Hf (db w)) as [He Ho].
  apply step_other; [exact He| |done]. intros e. unfold event_customer. cbn. by rewrite Ho.
Qed.

Lemma without_head epk fl k : k ∈ without epk (epk :: fl) -> k ∈ fl.
Proof. intros [Hne Hk]%elem_of_without. by apply elem_of_cons in Hk as [?|?]. Qed.

(** The steps of one dispatch, to the time it ends at. *)
Definition dispatched (i : nat) (w : World) (fl : list Z) (w' : World) : Prop :=
  exists fl' t', (forall k, k ∈ fl' -> k ∈ fl) /\ t' <= previous (S i) /\
    rtc worker_step (mk_sys w fl (previous i)) (mk_sys w' fl' t').

(** After the check: the message is handed over and the answer written down. *)
Lemma send_as_steps i epk e tg w fl r w' :
  epk ∈ fl ->
  (answer ← transport epk tg; _ ← modify (during i); record_answer epk e tg answer (clock i)) w = (r, w') ->
  rtc worker_step (mk_sys w fl (clock i 1)) (mk_sys w' (without epk fl) (clock i 3)).
Proof.
  intros Hin. unfold mbind at 1, M_bind at 1. destruct (transport epk tg w) as [an w1] eqn:E.
  pose proof (step_send w fl (clock i 2) epk tg an w1 Hin E) as S1. destruct (slot_order i) as (_ & Ht & Ht' & _).
  destruct an as [an|ex].
  2: { intros [= _ <-]. eapply rtc_l; [by apply step_time|]. eapply rtc_l; [exact S1|]. by apply rtc_once, step_time. }
  unfold mbind at 1, M_bind at 1, modify. pose proof (ow_during others i w1 (without epk fl)) as S2. intros Ea.
  assert (Hm : (0 < messages epk (during i w1))%nat).
  { apply Nat.lt_le_trans with (messages epk w1); [|exact (steps_messages _ _ epk S2)].
    destruct (transport_run _ _ _ _ _ E) as [_ Hm]. rewrite Hm, Z.eqb_refl. lia. }
  eapply rtc_l; [by apply step_time|]. eapply rtc_l; [exact S1|]. etransitivity; [exact S2|].
  by eapply rtc_once, step_answer.
Qed.

Lemma dispatch_dispatched i epk w fl r w' :
  dispatch before between during clock i epk w = (r, w') -> dispatched i w fl w'.
Proof.
  unfold dispatch, dispatched. unfold mbind at 1, M_bind at 1, modify. destruct (slot_order i) as (Ho1 & Ho2 & Ho3 & Ho4).
  destruct (ow_reserved others i) as [_ Hr]. pose proof (ow_before others i w fl) as S0. set (w0 := before i w) in *.
  unfold mbind at 1, M_bind at 1. destruct (reserve epk (clock i 0) w0) as [x w1] eqn:E1.
  pose proof (step_reserve w0 fl (reserved_at i) epk (clock i 0) x w1 Hr E1) as S1. destruct x as [[e|]|e].
  2,3: intros [= _ <-]; exists fl, (reserved_at i); split; [done|]; split; [lia|]; etransitivity; [exact S0|by apply rtc_once].
  unfold mbind at 1, M_bind at 1, modify. unfold mbind at 1, M_bind at 1.
  pose proof (ow_between others i w1 (epk :: fl)) as S2. set (w2 := between i w1) in *.
  assert (Hin : epk ∈ epk :: fl) by apply list_elem_of_here.
  assert (Sr : rtc worker_step (mk_sys w fl (previous i)) (mk_sys w2 (epk :: fl) (clock i 1))).
  { etransitivity; [exact S0|]. by eapply rtc_l. }
  destruct (revalidate epk e _ _ w2) as [y w3] eqn:E3. destruct (revalidate_run _ _ _ _ _ _ _ E3) as [[-> Hy]|[-> ->]].
  2: { intros [= _ <-]. exists (without epk (epk :: fl)), (clock i 1). split; [apply without_head|]. split; [lia|].
       etransitivity; [exact Sr|]. by apply rtc_once, step_give_up. }
  destruct y as [[tg|]|ex]; [|done|].
  2: { intros [= _ <-]. exists (without epk (epk :: fl)), (clock i 1). split; [apply without_head|]. split; [lia|].
       etransitivity; [exact Sr|]. apply rtc_once, step_stop. }
  intros Hrun. exists (without epk (epk :: fl)), (clock i 3). split; [apply without_head|]. split; [lia|].
  etransitivity; [exact Sr|]. by eapply send_as_steps.
Qed.

Lemma dispatch_as_steps i epk : as_steps i (fun _ => S i) (dispatch before between during clock i epk).
Proof.
  intros w fl r w' (fl' & t' & Hfl & Ht & R)%(dispatch_dispatched i epk w fl). exists fl', (previous (S i)).
  split; [done|]. split; [|by destruct r]. etransitivity; [exact R|]. by apply rtc_once, step_time.
Qed.

Lemma dispatch_all_as_steps l : forall i n, as_steps i snd (dispatch_all before between during clock i l n).
Proof.
  induction l as [|epk l IH]; intros i n; cbn [dispatch_all]; [by apply as_steps_ret|].
  eapply as_steps_bind; [apply dispatch_as_steps|intros b; apply IH].
Qed.

(** The end of a shop. *)
Lemma as_steps_put_next i f :
  (forall d, outreach_events (f d) = outreach_events d /\ orders (f d) = orders d) -> as_steps i (fun _ => S i) (put_db f).
Proof.
  intros Hf w fl r w' Hrun. destruct (as_steps_put i f Hf w fl r w' Hrun) as (fl' & t' & Hfl & R & Ht).
  destruct r as [x|e]; [|by exists fl', t']. subst t'. exists fl', (previous (S i)). split; [done|]. split; [|done].
  etransitivity; [exact R|]. apply rtc_once, step_time. destruct (slot_order i), (ow_reserved others i). cbn [previous] in *. lia.
Qed.

(** A run looks at the clock before everything else, and a shop is prepared by
    what it saw. *)
Lemma started i : now <= previous i.
Proof.
  induction i as [|i IH]; [done|]. destruct (slot_order i), (ow_reserved others i). lia.
Qed.

Lemma outreach_store_as_steps store i : as_steps i snd (outreach_store before between during clock store now i).
Proof.
  unfold outreach_store. eapply as_steps_bind; [apply as_steps_db|]. intros d. cbv beta zeta. set (cf := default _ _).
  eapply as_steps_bind; [by apply as_steps_put|]. intros ?. cbv beta.
  intros w fl r w'. unfold mbind at 1, M_bind at 1, get_db. pose proof (step_prepare w fl _ store cf now (started i)) as S1.
  destruct (prepare_store store cf now (db w)) as [d' active]. cbn [fst] in S1.
  unfold mbind at 1, M_bind at 1, put_db, modify. intros Hrun. 
  match type of Hrun with ?m _ = _ => set (m0 := m) in * end.
  enough (Hrest : as_steps i snd m0).
  { destruct (Hrest _ fl _ _ Hrun) as (fl' & t' & Hs & R & Ht). exists fl', t'. split; [exact Hs|]. split; [by eapply rtc_l|exact Ht]. }
  subst m0. eapply as_steps_bind; [apply dispatch_all_as_steps|]. intros [sent j]. cbn [snd].
  eapply as_steps_bind; [by apply as_steps_put_next|]. intros ?. by apply as_steps_ret.
Qed.

Lemma run_as_steps store w fl r w' :
  run_outreach before between during clock store now w = (r, w') ->
  exists fl' t', (forall k, k ∈ fl' -> k ∈ fl) /\ rtc worker_step (mk_sys w fl now) (mk_sys w' fl' t') /\
    (is_ret r = true -> exists i, t' = previous i).
Proof.
  unfold run_outreach. unfold mbind at 1, M_bind at 1, put_db, modify.
  assert (Hstores : forall l i, as_steps i snd (outreach_stores before between during clock now l i)).
  { induction l as [|s l IH]; intros i; cbn [outreach_stores]; [by apply as_steps_ret|].
    eapply as_steps_bind; [apply outreach_store_as_steps|]. intros [n j]. cbn [snd].
    eapply as_steps_bind; [apply IH|]. intros [more j2]. by apply as_steps_ret. }
  unfold mbind at 1, M_bind at 1, get_db. unfold mbind at 1, M_bind at 1.
  set (w0 := w {{ db ::= mark_interrupted now }}). destruct (outreach_stores _ _ _ _ _ _ 0 w0) as [x w1] eqn:E.
  destruct (Hstores _ 0%nat _ fl _ _ E) as (fl' & t' & Hs & R & Ht). intros Hrun. exists fl', t'. split; [exact Hs|].
  assert (w' = w1) as -> by (destruct x as [[results j]|e]; by injection Hrun). split.
  - eapply rtc_l; [|exact R]. by apply (step_interrupted w fl now now).
  - destruct x as [x|e]; [by exists x.2|]. injection Hrun as <-. done.
Qed.

(** C35: A run of the periodic job - marking what was interrupted, preparing every
    shop and sending what is ready - is a sequence of the worker's steps (marking
    interrupted sends, preparing a shop's events, reserving an event, checking it
    again, asking Telegram, recording the answer), however much time passes and whatever steps other workers make before a reservation has
    its locks, between it and its check, and while Telegram is asked; and the
    worker ends with nothing in hand that it did not have.  So what holds of all
    sequences of steps holds of the runs of the code. *)
Theorem outreach_runs_are_worker_steps store w fl r w' :
  run_outreach before between during clock store now w = (r, w') ->
  exists fl' t', (forall k, k ∈ fl' -> k ∈ fl) /\ rtc worker_step (mk_sys w fl now) (mk_sys w' fl' t').
Proof. intros (fl' & t' & Hs & R & _)%(run_as_steps store w fl). by exists fl', t'. Qed.
End Run.
End Workers.

(** ** The sample shop: the purchase of customer 101 was not used for three days *)

#[local] Existing Instance sample_env.

Definition noon : Z := 10 * DAY + hours 12.

Definition unused : Activity.purchase_activity := {|
  Activity.observed_at := Some noon; Activity.entitlement := Activity.VALID; Activity.reason := "ok";
  Activity.counters := {[ "k" := Activity.mk_counter 5 0 5 noon (Some 1000) None ]};
  Activity.continuous_since := Some (noon - 3 * DAY); Activity.last_activity_start := None;
  Activity.last_activity_at := None; Activity.source_count := 1; Activity.cycle := 1; Activity.ended_at := None |}.

Definition live : outreach_settings := default_settings {{ mode := LIVE }}.

Definition private_chat : BotUser.bot_user := {|
  BotUser.bot_config := 1; BotUser.customer := Some 101; BotUser.provider_user_id := "7"; BotUser.chat_id := "7";
  BotUser.is_active := true; BotUser.last_seen_at := 0; BotUser.updated_at := 0 |}.

Definition live_shop : World := sample_shop {{ db ::= fun d => d {{
  orders ::= alter (fun o => o {{ Order.status := Order.CONFIRMED; Order.verification_status := Order.V_VERIFIED;
                                  Order.updated_at := 0 }}) 1000;
  bot_configs := {[ 1 := sample_bot ]}; bot_users := {[ 1 := private_chat ]};
  activities := {[ 1000 := unused ]}; World.outreach_settings := {[ 1 := live ]} }} }}.

(** A worker alone, for whom no time passes. *)
Definition alone (_ : nat) (w : World) : World := w.
Definition still (_ _ : nat) : Z := noon.

Lemma alone_works : others_work alone alone alone still (fun _ => noon) noon.
Proof.
  assert (Hp : forall i, previous still noon i = noon) by (by intros []).
  split; [intros i w fl; rewrite Hp; apply rtc_refl|intros i; rewrite Hp; done|intros; apply rtc_refl|done|intros; apply rtc_refl|done].
Qed.

Definition first_run := run_outreach alone alone alone still None noon live_shop.
Definition second_run := run_outreach alone alone alone still None noon first_run.2.

Lemma runs_messages : messages 1 first_run.2 = 1%nat /\ messages 1 second_run.2 = 1%nat.
Proof. split; vm_compute; reflexivity. Qed.

Lemma live_shop_fresh : nothing_sent (mk_sys live_shop [] noon).
Proof.
  split; [done|]. split; [done|]. cbn. intros k e He. by rewrite lookup_empty in He.
Qed.

Lemma two_runs : exists fl, rtc worker_step (mk_sys live_shop [] noon) (mk_sys second_run.2 fl noon).
Proof.
  assert (Hp : forall i, previous still noon i = noon) by (by intros []).
  destruct (run_as_steps alone alone alone still _ noon alone_works None live_shop [] _ _ (surjective_pairing first_run))
    as (fl1 & t1 & _ & R1 & H1).
  destruct (run_as_steps alone alone alone still _ noon alone_works None first_run.2 fl1 _ _ (surjective_pairing second_run))
    as (fl2 & t2 & _ & R2 & H2).
  destruct H1 as [i ->]; [vm_compute; reflexivity|]. destruct H2 as [j ->]; [vm_compute; reflexivity|]. rewrite !Hp in *.
  exists fl2. by etransitivity.
Qed.

Lemma message_sent_at_most_once_witness : messages 1 second_run.2 = 1%nat /\ has_status second_run.2 1 HANDED.
Proof.
  destruct two_runs as (fl & R). split; [exact (proj2 runs_messages)|].
  apply (proj2 (message_sent_at_most_once _ _ 1 live_shop_fresh R)). cbn. rewrite (proj2 runs_messages). lia.
Defined.

Lemma messages_are_spaced_witness : spaced (db second_run.2) noon.
Proof. destruct two_runs as (fl & R). exact (messages_are_spaced _ _ live_shop_fresh R). Defined.

(** Telegram takes twenty minutes over each message; meanwhile another worker
    marks the send as interrupted. *)
Definition slow (i n : nat) : Z := noon + Z.of_nat i * (40 * minute) + (if (n <=? 2)%nat then 0 else 20 * minute).

Definition impatient (i : nat) (w : World) : World := w {{ db ::= mark_interrupted (slow i 3) }}.

Lemma impatient_works : others_work alone alone impatient slow (fun i => slow i 0) noon.
Proof.
  assert (Hm : 0 < minute) by done.
  assert (Hp : forall i, previous slow noon i <= slow i 0) by (intros [|i]; unfold previous, slow; cbn -[minute Z.mul Z.of_nat]; lia).
  split; unfold alone.
  - intros i w fl. by apply rtc_once, step_time.
  - intros i. by split; [apply Hp|].
  - intros i w fl. apply rtc_refl.
  - done.
  - intros i w fl. eapply rtc_l; [apply (step_time _ _ _ (slow i 3)); unfold slow; cbn -[minute Z.mul]; lia|].
    by apply rtc_once, step_interrupted.
  - done.
Qed.

Definition slow_run := run_outreach alone alone impatient slow None noon live_shop.

Lemma outreach_runs_are_worker_steps_witness :
  (exists fl t, (forall k, k ∈ fl -> k ∈ []) /\ rtc worker_step (mk_sys live_shop [] noon) (mk_sys slow_run.2 fl t)) /\
  messages 1 slow_run.2 = 1%nat /\ status <$> outreach_events (db slow_run.2) !! 1 = Some UNCERTAIN.
Proof.
  split; [|split; vm_compute; reflexivity].
  exact (outreach_runs_are_worker_steps alone alone impatient slow _ noon impatient_works None live_shop [] _ _
    (surjective_pairing slow_run)).
Defined.
