(* ===== verification/RemoteCheck.v ===== *)
(** Comparing the shop's clients with its panels, and deleting the rows of those
    that are gone (src/store/vpn_client_reconciliation_services.py).
    [RemoteCheckSpec] proves the theorems.

    Panels are read through [get_inbound] of [Env].  Times of a delayed start are
    read in the default zone, Asia/Tehran, whose clock is three and a half hours
    ahead of UTC; fractions in a panel's numbers are not modelled. *)

From S2P Require Import Prelude Models World Numbers Compat Scope ClientManagement Inventory Cups FeedFilter.
Import VPNClient.

#[local] Open Scope string_scope.
#[local] Open Scope Z_scope.

Definition FRESH_RESULT_TTL : Z := 30 * 60 * 1000000.

Definition status_text (s : remote_status_t) : string :=
  match s with
  | NOT_CHECKED => "not_checked" | REMOTE_ACTIVE => "remote_active" | REMOTE_DISABLED => "remote_disabled"
  | REMOTE_MISSING => "remote_missing" | PANEL_UNREACHABLE => "panel_unreachable" | INBOUND_MISSING => "inbound_missing"
  | AMBIGUOUS => "ambiguous" | REMOTE_UNKNOWN => "unknown"
  end.

(** ** Where a client is *)

(** The client's inbound and panel, where both are there. *)
Definition place (d : DB) (c : vpn_client) : option (Z * Inbound.inbound * (Z * Panel.panel)) :=
  ipk ← inbound c; i ← inbounds d !! ipk; ppk ← Inbound.panel i; p ← panels d !! ppk; Some (ipk, i, (ppk, p)).

Definition node_of (c : vpn_client) (i : Inbound.inbound) : string := strip (or_str (xui_node_id c) (Inbound.xui_node_id i)).

Definition safe_remote_scope (d : DB) (c : vpn_client) : option remote_scope :=
  '(ipk, i, (ppk, _)) ← place d c;
  Some (mk_scope ppk ipk (Inbound.inbound_id i) (node_of c i) (inbound_remote_key i)).

Definition remote_status_is_fresh (c : vpn_client) (now : Z) : bool :=
  match last_remote_check_at (remote_check c) with Some t => now - FRESH_RESULT_TTL <=? t | None => false end.

Definition remote_scope_matches_latest_check (d : DB) (c : vpn_client) : bool :=
  is_set (safe_remote_scope d c) && bool_decide (last_remote_check_scope (remote_check c) = safe_remote_scope d c).

Definition remote_status_is_cleanup_eligible (d : DB) (c : vpn_client) (now : Z) : bool :=
  bool_decide (last_remote_check_status (remote_check c) = REMOTE_MISSING)
  && remote_status_is_fresh c now && remote_scope_matches_latest_check d c.

(** [ScopeKey] *)
Record scope_key := mk_scope_key { key_panel : Z; key_node : string; key_inbound_id : Z; key_inbound_pk : Z }.
#[global] Instance scope_key_eq_dec : EqDecision scope_key.
Proof. solve_decision. Defined.

Definition scope_key_for_client (d : DB) (c : vpn_client) : option scope_key :=
  '(ipk, i, (ppk, _)) ← place d c;
  if Inbound.inbound_id i =? 0 then None else Some (mk_scope_key ppk (node_of c i) (Inbound.inbound_id i) ipk).

(** Clients asked about together, in the order they were found. *)
Abbreviation group := (scope_key * list (Z * vpn_client))%type.

(** ** What a panel says of an inbound *)

(** One client as a panel lists it: its row in the answer, the values it can be
    known by, the keys built from them, and whether it is switched on (blank
    when the panel does not say). *)
Record remote_client := mk_remote_client {
  rc_index : string;
  rc_values_lower : list string;
  rc_remote_keys : list string;
  rc_enabled : option bool;
}.

(** [ScopeFetchResult] *)
Record scope_result := mk_scope_result {
  sr_status : remote_status_t;
  sr_clients : list remote_client;
  sr_error : string;
  sr_complete : bool;
}.

Abbreviation dict := (list (string * json)).

Definition ATTRIBUTE_ERROR : exn := OtherError "AttributeError".
Definition YEAR_ERROR : exn := OtherError "ValueError".

Definition CLIENT_IDENTIFIER_FIELDS : list string :=
  ["id"; "email"; "password"; "subId"; "sub_id"; "remark"; "name"; "tgId"].
Definition STATS_FIELDS : list string := ["clientStats"; "client_stats"; "clientTraffics"; "client_traffics"].

Definition dicts (l : list json) : list dict := omap (fun j => match j with JObj kv => Some kv | _ => None end) l.

(** [_first]: neither null nor blank. *)
Definition first_value (l : list (option json)) : option json :=
  head (omap (fun o => match o with None | Some JNull => None | Some (JStr s) => if bool_decide (s = "") then None else o
                       | Some _ => o end) l).

(** The instants [datetime] can hold in the zone, in seconds. *)
Definition FIRST_SECOND : Z := -62135596800.
Definition LAST_SECOND : Z := 253402300800 - 12600.

(** [_datetime_from_epoch]: whether it raises. *)
Definition datetime_from_epoch (v : option json) : result unit :=
  match v ≫= int_of_json with
  | None => Ret tt
  | Some t =>
      if t =? 0 then Ret tt
      else if 10000000000 <? t then (if t <? 1000 * LAST_SECOND then Ret tt else Raise YEAR_ERROR)
      else if FIRST_SECOND <=? t then Ret tt else Raise YEAR_ERROR
  end.

Section RemoteCheck.
Context `{Env}.
Context (cached : Z -> option compatibility_profile).

Definition parse_xui_json_object (v : option json) : dict :=
  match v with
  | Some (JObj kv) => kv
  | Some (JStr s) => if bool_decide (s = "") then [] else match json_loads s with Some (JObj kv) => kv | _ => [] end
  | _ => []
  end.

Definition parse_xui_json_list_or_single (v : option json) : list json :=
  match v with
  | Some (JList l) => l
  | Some (JObj kv) => [JObj kv]
  | Some (JStr s) => if bool_decide (s = "") then []
                     else match json_loads s with Some (JList l) => l | Some (JObj kv) => [JObj kv] | _ => [] end
  | _ => []
  end.

Definition stats_of (data : dict) : list dict :=
  flat_map (fun key => dicts (parse_xui_json_list_or_single (assoc key data))) STATS_FIELDS.

Definition parse_xui_client_stats (data : dict) : list dict :=
  (stats_of data ++ match assoc "obj" data with Some (JObj obj) => stats_of obj | _ => [] end)%list.

Definition present (l : list string) : list string := filter (fun s => s <> "") l.

Definition lookup_values (data : dict) : list string :=
  flat_map (fun field => match assoc field data with
    | None | Some JNull => []
    | Some (JList l) => present (map (fun j => strip (str_of j)) l)
    | Some j => present [strip (str_of j)]
    end) CLIENT_IDENTIFIER_FIELDS.

(** [related_client_stats]: the first statistics with a value of the client's,
    and where they are. *)
Definition related_client_stats (stats : list dict) (client : dict) : option (nat * dict) :=
  let related := map lower_text (lookup_values client) in
  (fun x => (x.1, x.2)) <$>
    list_find (fun st => Is_true (existsb (fun v => bool_decide (lower_text v ∈ related)) (lookup_values st))) stats.

(** [_remote_values_from_sources] of one source. *)
Definition values_of_source (data : dict) : list string :=
  (lookup_values data ++ present (map (fun key => strip (str_or_empty (assoc key data))) ["remark"; "name"]))%list.

Definition bool_or_none (v : option json) : option bool :=
  match v with
  | None | Some JNull => None
  | Some (JBool b) => Some b
  | Some (JNum z) => Some (negb (z =? 0))
  | Some (JStr s) => if bool_decide (s = "") then None
      else Some (bool_decide (lower_text (strip s) ∈ ["1"; "true"; "yes"; "on"; "enabled"; "online"]))
  | Some j => Some (bool_decide (lower_text (strip (json_text j)) ∈ ["1"; "true"; "yes"; "on"; "enabled"; "online"]))
  end.

(** [normalize_client]: the identity and whether it is switched on.  What it
    reads besides only matters when it raises. *)
Definition normalize_client (payload : dict) : result (string * option bool) :=
  let remote_client_id := strip (str_or_empty (first_value (map (fun k => assoc k payload) ["uuid"; "id"; "password"; "email"]))) in
  _ ← match assoc "traffic" payload with
      | Some (JObj _) | None => Ret tt
      | Some j => if truthy j then Raise ATTRIBUTE_ERROR else Ret tt
      end;
  _ ← datetime_from_epoch (assoc "expiryTime" payload);
  Ret (remote_client_id, bool_or_none (assoc "enable" payload)).

Definition remote_row (i : Inbound.inbound) (index : string) (sources : list dict) (payload : dict) : result remote_client :=
  '(id, enabled) ← normalize_client payload;
  let values := (flat_map values_of_source sources ++ present [id])%list in
  Ret (mk_remote_client index (map lower_text values) (map (build_remote_client_key i) values) enabled).

(** The clients of the settings, each with its statistics, and which of those
    were used. *)
Fixpoint client_rows (i : Inbound.inbound) (stats : list dict) (n : nat) (l : list json) : result (list remote_client * list nat) :=
  match l with
  | [] => Ret ([], [])
  | JObj client :: rest =>
      let found := related_client_stats stats client in
      r ← remote_row i ("client:" +:+ pretty n) (client :: match found with Some (_, st) => [st] | None => [] end) client;
      '(rows, used) ← client_rows i stats (S n) rest;
      Ret (r :: rows, match found with Some (k, _) => k :: used | None => used end)
  | _ :: rest => client_rows i stats (S n) rest
  end.

(** Statistics without a client of the settings. *)
Fixpoint stats_rows (i : Inbound.inbound) (used : list nat) (n : nat) (l : list dict) : result (list remote_client) :=
  match l with
  | [] => Ret []
  | st :: rest =>
      if bool_decide (n ∈ used) then stats_rows i used (S n) rest
      else r ← remote_row i ("stats:" +:+ pretty n) [st] st; rows ← stats_rows i used (S n) rest; Ret (r :: rows)
  end.

(** [_normalize_remote_clients]; blank for an answer without a complete list.
    [parse_xui_json_object] always gives a dictionary, so its first test never
    fails. *)
Definition normalize_remote_clients (i : Inbound.inbound) (obj : json) : result (option (list remote_client)) :=
  match (if truthy obj then obj else JObj []) with
  | JObj data =>
      let settings := parse_xui_json_object (assoc "settings" data) in
      match (match assoc "clients" settings with Some j => if truthy j then j else JList [] | None => JList [] end) with
      | JList clients =>
          let stats := parse_xui_client_stats data in
          '(rows, used) ← client_rows i stats 0 clients;
          more ← stats_rows i used 0 stats;
          Ret (Some (rows ++ more)%list)
      | _ => Ret None
      end
  | _ => Raise ATTRIBUTE_ERROR
  end.

(** ** The answer of a scope *)

Definition has_part (text part : string) : bool := is_set (String.index 0 part text).

Definition status_from_exception (ppk : Z) (fault : scope_fault) (text : string) : remote_status_t * string :=
  match fault with
  | AmbiguousScope => (AMBIGUOUS, sanitize_operational ppk text)
  | UnknownSafeMode => (REMOTE_UNKNOWN, sanitize_operational ppk text)
  | NetworkFault => (PANEL_UNREACHABLE, "Panel/network connection failed.")
  | OtherFault =>
      let lowered := lower_text text in
      if existsb (has_part lowered) ["not found"; "record not found"; "404"]
      then (INBOUND_MISSING, sanitize_operational ppk text)
      else if existsb (has_part lowered) ["timeout"; "connection"; "proxy"; "login"; "auth"]
      then (PANEL_UNREACHABLE, sanitize_operational ppk text)
      else (REMOTE_UNKNOWN, sanitize_operational ppk text)
  end.

Definition failed_scope (ppk : Z) (refusal : scope_fault * string) : scope_result :=
  let '(s, e) := status_from_exception ppk refusal.1 refusal.2 in mk_scope_result s [] e false.

Definition fetch_remote_scope_clients (ppk : Z) (p : Panel.panel) (ipk : Z) (i : Inbound.inbound) : IO scope_result :=
  d ← get_db;
  match assert_precise_client_scope cached d ppk p ipk i "" READ false with
  | Some refusal => mret (failed_scope ppk refusal)
  | None =>
      answer ← ask (CallGetInbound ipk) (fun h => get_inbound h ipk i);
      match answer with
      | InboundRaised fault text => mret (failed_scope ppk (fault, text))
      | InboundData obj =>
          rows ← liftR (normalize_remote_clients i obj);
          mret match rows with
               | None => mk_scope_result REMOTE_UNKNOWN [] "Panel response did not include a complete client list." false
               | Some l => mk_scope_result REMOTE_ACTIVE l "" true
               end
      end
  end.

(** ** Matching *)

Definition local_identity_values (c : vpn_client) : list string :=
  present (map strip [default "" (uuid c); xui_email c; username c; sub_id c]).

Definition matches (c : vpn_client) (r : remote_client) : bool :=
  let remote_key := strip (remote_client_key c) in
  (negb (bool_decide (remote_key = "")) && bool_decide (remote_key ∈ rc_remote_keys r))
  || existsb (fun v => bool_decide (lower_text v ∈ rc_values_lower r)) (local_identity_values c).

Definition match_local_client_to_remote (c : vpn_client) (remote : list remote_client) : remote_status_t * string :=
  if negb (nonempty (local_identity_values c)) && bool_decide (strip (remote_client_key c) = "")
  then (REMOTE_UNKNOWN, "Local client has no safe remote identity.")
  else
    let found := filter (fun r => Is_true (matches c r)) remote in
    if (1 <? length (remove_dups (map rc_index found)))%nat
    then (AMBIGUOUS, "Multiple remote clients matched the same local identity.")
    else match last found with
    | None => (REMOTE_MISSING, "")
    | Some r => (match rc_enabled r with Some false => REMOTE_DISABLED | _ => REMOTE_ACTIVE end, "")
    end.

(** ** A pass over clients *)

(** [ReconciliationResult] *)
Record reconciliation := mk_reconciliation {
  checked : Z;
  updated : Z;
  api_calls : Z;
  scopes : Z;
  statuses : gmap string Z;
  errors : list string;
}.
#[global] Instance eta_reconciliation : Eta reconciliation := fun r => mk_reconciliation (checked r) (updated r)
  (api_calls r) (scopes r) (statuses r) (errors r).

Definition counted (s : remote_status_t) (r : reconciliation) : reconciliation :=
  r {{ checked ::= Z.succ; updated ::= Z.succ;
       statuses ::= fun m => <[status_text s := default 0 (m !! status_text s) + 1]> m }}.

(** Blanks come last, as the database has it. *)
Definition nulls_last (o : option Z) : list Z := match o with Some z => [0; z] | None => [1; 0] end.

Definition candidate_key (d : DB) (kc : Z * vpn_client) : list Z :=
  let i := inbound kc.2 ≫= fun ipk => inbounds d !! ipk in
  (nulls_last (i ≫= Inbound.panel) ++ nulls_last ((fun i => collation_rank (Inbound.xui_node_id i)) <$> i)
    ++ nulls_last (Inbound.inbound_id <$> i) ++ [kc.1])%list.

Definition build_reconciliation_candidates (d : DB) (queryset : Z -> vpn_client -> bool) : list (Z * vpn_client) :=
  order_by (candidate_key d) (rows_where (fun k c => queryset k c && negb (is_deleted c)) (clients d)).

(** [grouped.setdefault(key, []).append(client)] *)
Fixpoint add_to_group (key : scope_key) (kc : Z * vpn_client) (l : list group) : list group :=
  match l with
  | [] => [(key, [kc])]
  | (k, members) :: rest =>
      if bool_decide (k = key) then (k, members ++ [kc])%list :: rest else (k, members) :: add_to_group key kc rest
  end.

Definition group_clients_by_remote_scope (d : DB) (l : list (Z * vpn_client)) : list group * list (Z * vpn_client) :=
  fold_left (fun acc kc => match scope_key_for_client d kc.2 with
    | None => (acc.1, acc.2 ++ [kc])%list
    | Some key => (add_to_group key kc acc.1, acc.2)
    end) l ([], []).

(** [_persist_check_result]; the scope is that of the row as it was read. *)
Definition checked_client (d : DB) (s : remote_status_t) (batch : string) (checked_at : Z) (error : string)
    (old c : vpn_client) : vpn_client :=
  c {{ remote_check := mk_remote_check s (Some checked_at) (take_chars 300 error) (safe_remote_scope d old) batch }}.

Definition persist_check_result (d : DB) (kc : Z * vpn_client) (s : remote_status_t) (batch : string) (checked_at : Z)
    (error : string) : IO unit :=
  put_db (fun e => e {{ clients ::= alter (checked_client d s batch checked_at error kc.2) kc.1;
                        touched ::= fun t => mk_touched (<[kc.1 := checked_at]> (client_updated_at t))
                                     (cup_updated_at t) (cup_item_updated_at t) (config_link_updated_at t) }}).

(** Every client of a list is given a status and an error. *)
Fixpoint check_all (d : DB) (persist : bool) (batch : string) (checked_at : Z)
    (verdict : vpn_client -> remote_status_t * string) (l : list (Z * vpn_client)) (res : reconciliation) : IO reconciliation :=
  match l with
  | [] => mret res
  | kc :: rest =>
      let '(s, error) := verdict kc.2 in
      _ ← (if persist then persist_check_result d kc s batch checked_at error else mret tt);
      check_all d persist batch checked_at verdict rest (counted s res)
  end.

Definition answered_whole (sr : scope_result) : bool :=
  bool_decide (sr_status sr = REMOTE_ACTIVE) && sr_complete sr.

Fixpoint check_groups (d : DB) (persist : bool) (batch : string) (checked_at : Z) (l : list group) (res : reconciliation)
    : IO reconciliation :=
  match l with
  | [] => mret res
  | (_, members) :: rest =>
      match head (omap (fun kc => place d kc.2) members) with
      | None => check_groups d persist batch checked_at rest res
      | Some (ipk, i, (ppk, p)) =>
          sr ← fetch_remote_scope_clients ppk p ipk i;
          let res := res {{ scopes ::= Z.succ; api_calls ::= Z.succ }} in
          res ← check_all d persist batch checked_at
                  (fun c => if answered_whole sr then match_local_client_to_remote c (sr_clients sr)
                            else (sr_status sr, sr_error sr)) members res;
          check_groups d persist batch checked_at rest
            (if answered_whole sr || bool_decide (sr_error sr = "") then res
             else res {{ errors ::= fun es => (es ++ [sr_error sr])%list }})
      end
  end.

Definition MISSING_SCOPE : string := "Local client is missing exact panel/inbound scope.".

Definition reconcile_vpn_clients (queryset : Z -> vpn_client -> bool) (persist : bool) (batch : string) (checked_at : Z)
    : IO reconciliation :=
  d ← get_db;
  let '(grouped, missing_scope) := group_clients_by_remote_scope d (build_reconciliation_candidates d queryset) in
  res ← check_all d persist batch checked_at (fun _ => (REMOTE_UNKNOWN, MISSING_SCOPE)) missing_scope
          (mk_reconciliation 0 0 0 0 ∅ []);
  check_groups d persist batch checked_at grouped res.

Definition revalidate_missing_clients (client_ids : list Z) (batch : string) (checked_at : Z) : IO reconciliation :=
  reconcile_vpn_clients (fun k _ => bool_decide (k ∈ client_ids)) true batch checked_at.

(** ** Deleting what is gone *)

(** Who asks: nobody, a name, an account of the administration. *)
Inductive actor := NoActor | Named (label : string) | WebAdmin (pk : Z).

Definition actor_label (a : actor) : string :=
  match a with
  | NoActor => ""
  | Named s => take_chars 80 s
  | WebAdmin pk => "web-admin:" +:+ pretty pk
  end.

Definition scope_json (s : option remote_scope) : json :=
  JObj match s with
       | None => []
       | Some s => [("panel_id", JNum (scope_panel_id s)); ("inbound_pk", JNum (scope_inbound_pk s));
                    ("inbound_id", JNum (scope_inbound_id s)); ("node_id", JStr (scope_node_id s));
                    ("remote_scope_key", JStr (remote_scope_key s))]
       end.

Definition create_soft_delete_log (cpk : Z) (c : vpn_client) (a : actor) : IO Z :=
  d ← get_db;
  let pk := next_pk (action_logs d) in
  let i := inbound c ≫= fun ipk => inbounds d !! ipk in
  let log := {|
    ActionLog.vpn_client := Some cpk; ActionLog.customer := client_customer d cpk c;
    ActionLog.actor_type := match a with WebAdmin _ => ActionLog.ADMIN | _ => ActionLog.SYSTEM end;
    ActionLog.actor_telegram_id := actor_label a; ActionLog.action := ActionLog.ADMIN_SOFT_DELETE_REMOTE_MISSING;
    ActionLog.panel := i ≫= Inbound.panel; ActionLog.inbound := inbound c;
    ActionLog.xui_identifier_masked := mask_identifier (client_identifier c);
    ActionLog.old_total_bytes := Some (traffic_limit_bytes c); ActionLog.new_total_bytes := None;
    ActionLog.old_expiry_time := expires_at c; ActionLog.new_expiry_time := None;
    ActionLog.status := ActionLog.PENDING; ActionLog.error_message := "";
    ActionLog.log_metadata := sanitize_audit_metadata
      (<["source" := JStr "service_reconciliation"]>
      (<["last_remote_check_status" := JStr (status_text (last_remote_check_status (remote_check c)))]>
      (<["last_remote_check_batch_id" := JStr (last_remote_check_batch_id (remote_check c))]>
      (<["scope" := scope_json (safe_remote_scope d c)]> ∅))));
    ActionLog.completed_at := None |} in
  _ ← put_db (fun d => d {{ action_logs ::= insert pk log }});
  mret pk.

(** [_complete_log] *)
Definition complete_log (log : Z) (st : ActionLog.status_t) (error : string) (m : Prelude.metadata) (now : Z) : IO unit :=
  put_db (fun d => d {{ action_logs ::= alter (fun l =>
    l {{ ActionLog.status := st; ActionLog.error_message := take_chars 300 error; ActionLog.completed_at := Some now;
         ActionLog.log_metadata ::= fun old => sanitize_audit_metadata m ∪ old }}) log }}).

Record cleanup := mk_cleanup {
  requested : Z;
  cleaned : Z;
  blocked : Z;
  revalidated : option reconciliation;
  cleanup_errors : list string;
}.
#[global] Instance eta_cleanup : Eta cleanup := fun r => mk_cleanup (requested r) (cleaned r) (blocked r) (revalidated r)
  (cleanup_errors r).

(** Live clients among some, newest first. *)
Definition live_among (d : DB) (ids : list Z) : list (Z * vpn_client) :=
  order_by (fun kc => [- created_at kc.2; kc.1])
    (rows_where (fun k c => bool_decide (k ∈ ids) && negb (is_deleted c)) (clients d)).

Definition soft_delete (cpk : Z) (c : vpn_client) (ppk : Z) (a : actor) (now : Z) (res : cleanup) : IO cleanup :=
  log ← create_soft_delete_log cpk c a;
  r ← tried (atomic (mark_local_vpn_client_deleted cpk None (actor_label a) "remote_client_missing_confirmed" (Some now)
        (mk_remove false false "reconciliation_zero_exact_match") now));
  match r with
  | Ret _ => _ ← complete_log log ActionLog.SUCCESS "" (<["local_soft_deleted" := JBool true]> ∅) now;
             mret (res {{ cleaned ::= Z.succ }})
  | Raise e =>
      let safe_error := sanitize_operational ppk (exn_text e) in
      _ ← complete_log log ActionLog.FAILED safe_error ∅ now;
      mret (res {{ blocked ::= Z.succ; cleanup_errors ::= fun es => (es ++ [safe_error])%list }})
  end.

(** The rows are those read before the first of them is deleted. *)
Fixpoint soft_delete_each (d : DB) (l : list (Z * vpn_client)) (a : actor) (now : Z) (res : cleanup) : IO cleanup :=
  match l with
  | [] => mret res
  | (cpk, c) :: rest =>
      if negb (remote_status_is_cleanup_eligible d c now)
      then soft_delete_each d rest a now (res {{ blocked ::= Z.succ }})
      else
        res ← soft_delete cpk c (default 0 (scope_panel_id <$> safe_remote_scope d c)) a now res;
        soft_delete_each d rest a now res
  end.

Definition soft_delete_remote_missing_clients (client_ids : list Z) (a : actor) (batch : string) (now checked_at later : Z)
    : IO cleanup :=
  let size l := Z.of_nat (length l) in
  if negb (nonempty client_ids) then mret (mk_cleanup 0 0 0 None [])
  else
    d ← get_db;
    let eligible := map fst (filter (fun kc => Is_true (remote_status_is_cleanup_eligible d kc.2 now)) (live_among d client_ids)) in
    let initially_blocked := size client_ids - size eligible in
    if negb (nonempty eligible) then mret (mk_cleanup (size client_ids) 0 initially_blocked None [])
    else
      revalidated ← revalidate_missing_clients eligible batch checked_at;
      d ← get_db;
      soft_delete_each d (live_among d eligible) a later
        (mk_cleanup (size client_ids) 0 initially_blocked (Some revalidated) []).

(** ** The summary of the administration *)

Definition get_reconciliation_summary (d : DB) (queryset : Z -> vpn_client -> bool) (now : Z)
    : gmap string Z * list Z :=
  let base := rows_where (fun k c => queryset k c && negb (is_deleted c)) (clients d) in
  let was_checked (kc : Z * vpn_client) :=
    negb (bool_decide (last_remote_check_status (remote_check kc.2) = NOT_CHECKED))
    && is_set (last_remote_check_at (remote_check kc.2)) in
  (fold_left (fun m kc => let key := status_text (last_remote_check_status (remote_check kc.2)) in
                          <[key := default 0 (m !! key) + 1]> m) base ∅,
   map fst (filter (fun kc => Is_true (was_checked kc && remote_status_is_cleanup_eligible d kc.2 now)) base)).
End RemoteCheck.
