(* ===== verification/RemoteCheckSpec.v ===== *)
(** What comparing clients with their panels guarantees: a row is deleted only
    after its panel, asked twice within half an hour, listed the inbound without
    it, and every row asked for is accounted for. *)

From S2P Require Import Prelude Models World Numbers Compat OrderStore ReferralRewards Scope ClientManagement ManagementSpec RemoteCheck.
Import VPNClient.

#[local] Open Scope string_scope.
#[local] Open Scope Z_scope.

(** ** Scopes *)

Section Scopes.
Context `{Env}.

Lemma group_add_inv key kc l k members : (k, members) ∈ add_to_group key kc l ->
  (exists old, (k, old) ∈ l /\ (members = old \/ (k = key /\ members = (old ++ [kc])%list))) \/ (k = key /\ members = [kc]).
Proof.
  induction l as [|[k1 m1] l IH]; cbn.
  - intros [[= -> ->]|[]%elem_of_nil]%elem_of_cons. by right.
  - case_bool_decide as E.
    + intros [[= -> ->]|Hin]%elem_of_cons; left.
      * exists m1. split; [by left|]. by right.
      * exists members. split; [by right|]. by left.
    + intros [[= -> ->]|Hin]%elem_of_cons.
      * left. exists m1. split; [by left|by left].
      * destruct (IH Hin) as [(old & Hold & Hm)|?]; [|by right]. left. exists old. split; [by right|done].
Qed.

Lemma group_add_in key kc l : exists members, (key, members) ∈ add_to_group key kc l /\ kc ∈ members.
Proof.
  induction l as [|[k1 m1] l IH]; cbn.
  - exists [kc]. split; by left.
  - case_bool_decide as E.
    + subst. exists (m1 ++ [kc])%list. split; [by left|]. apply elem_of_app. right. by left.
    + destruct IH as (m & Hm & Hk). exists m. split; [by right|done].
Qed.

Lemma group_add_old key kc l k members : (k, members) ∈ l ->
  exists members', (k, members') ∈ add_to_group key kc l /\ forall x, x ∈ members -> x ∈ members'.
Proof.
  induction l as [|[k1 m1] l IH]; cbn; [by intros ?%elem_of_nil|]. case_bool_decide as E.
  - intros [[= -> ->]|Hin]%elem_of_cons.
    + exists (m1 ++ [kc])%list. split; [by left|]. intros x Hx. apply elem_of_app. by left.
    + exists members. split; [by right|done].
  - intros [[= -> ->]|Hin]%elem_of_cons.
    + exists m1. split; [by left|done].
    + destruct (IH Hin) as (m & Hm & Hsub). exists m. split; [by right|done].
Qed.

(** Groups and clients without a scope, as far as the list was read. *)
Record grouping (d : DB) (l : list (Z * vpn_client)) (acc : list group * list (Z * vpn_client)) : Prop := {
  gr_key : forall k members kc, (k, members) ∈ acc.1 -> kc ∈ members -> kc ∈ l /\ scope_key_for_client d kc.2 = Some k;
  gr_all : forall kc, kc ∈ l -> kc ∈ acc.2 \/ exists k members, (k, members) ∈ acc.1 /\ kc ∈ members;
  gr_missing : forall kc, kc ∈ acc.2 -> kc ∈ l;
}.

Lemma grouping_step d l acc kc :
  grouping d l acc ->
  grouping d (l ++ [kc]) (match scope_key_for_client d kc.2 with
    | None => (acc.1, acc.2 ++ [kc])%list
    | Some key => (add_to_group key kc acc.1, acc.2) end).
Proof.
  intros [Hk Ha Hm]. destruct (scope_key_for_client d kc.2) as [key|] eqn:E; split; cbn.
  - intros k members x Hin Hx. destruct (group_add_inv _ _ _ _ _ Hin) as [(old & Hold & [->|[-> ->]])|[-> ->]].
    + destruct (Hk _ _ _ Hold Hx). split; [apply elem_of_app; by left|done].
    + apply elem_of_app in Hx as [Hx|Hx].
      * destruct (Hk _ _ _ Hold Hx). split; [apply elem_of_app; by left|done].
      * apply elem_of_cons in Hx as [->|[]%elem_of_nil]. split; [apply elem_of_app; right; by left|done].
    + apply elem_of_cons in Hx as [->|[]%elem_of_nil]. split; [apply elem_of_app; right; by left|done].
  - intros x [Hx|[->|[]%elem_of_nil]%elem_of_cons]%elem_of_app.
    + destruct (Ha x Hx) as [?|(k & m & Hin & Hxm)]; [by left|]. right.
      destruct (group_add_old key kc _ _ _ Hin) as (m' & Hm' & Hsub). exists k, m'. auto.
    + right. destruct (group_add_in key kc acc.1) as (m & ? & ?). by exists key, m.
  - intros x Hx. apply elem_of_app. left. auto.
  - intros k members x Hin Hx. destruct (Hk _ _ _ Hin Hx). split; [apply elem_of_app; by left|done].
  - intros x [Hx|Hx]%elem_of_app.
    + destruct (Ha x Hx) as [?|?]; [left; apply elem_of_app; by left|by right].
    + left. apply elem_of_app. by right.
  - intros x [Hx|Hx]%elem_of_app; apply elem_of_app; auto.
Qed.

Lemma grouping_run d l : grouping d l (group_clients_by_remote_scope d l).
Proof.
  unfold group_clients_by_remote_scope.
  enough (Hgen : forall l2 l1 acc, grouping d l1 acc -> grouping d (l1 ++ l2) (fold_left (fun acc kc =>
    match scope_key_for_client d kc.2 with
    | None => (acc.1, acc.2 ++ [kc])%list | Some key => (add_to_group key kc acc.1, acc.2) end) l2 acc)).
  { apply (Hgen l []). split; cbn; [by intros ??? ?%elem_of_nil|by intros ? ?%elem_of_nil|by intros ? ?%elem_of_nil]. }
  induction l2 as [|kc l2 IH]; intros l1 acc Hacc; cbn.
  - by rewrite app_nil_r.
  - rewrite cons_middle, app_assoc. apply IH. by apply grouping_step.
Qed.

(** Members of one group are in one place. *)
Lemma scope_key_place d c1 c2 k : scope_key_for_client d c1 = Some k -> scope_key_for_client d c2 = Some k ->
  place d c1 = place d c2.
Proof.
  unfold scope_key_for_client, place.
  destruct (inbound c1) as [i1|]; cbn; [|done]. destruct (inbounds d !! i1) as [r1|] eqn:E1; cbn; [|done].
  destruct (Inbound.panel r1) as [p1|] eqn:F1; cbn; [|done]. destruct (panels d !! p1) as [q1|] eqn:G1; cbn; [|done].
  destruct (inbound c2) as [i2|]; cbn; [|by intros _]. destruct (inbounds d !! i2) as [r2|] eqn:E2; cbn; [|by intros _].
  destruct (Inbound.panel r2) as [p2|] eqn:F2; cbn; [|by intros _]. destruct (panels d !! p2) as [q2|] eqn:G2; cbn; [|by intros _].
  destruct (Inbound.inbound_id r1 =? 0); [done|]. destruct (Inbound.inbound_id r2 =? 0); [done|].
  intros [= <-] [= Hp _ _ Hi]. subst i2 p2. rewrite E1 in E2. injection E2 as <-. congruence.
Qed.

Lemma scope_key_placed d c k : scope_key_for_client d c = Some k -> is_Some (place d c).
Proof. unfold scope_key_for_client. destruct (place d c); [by eexists|done]. Qed.
End Scopes.

(** ** The pass *)

Section Pass.
Context `{Env}.
Context (cached : Z -> option compatibility_profile) (batch : string) (checked_at : Z).

(** Between two states of the world the client's panel was asked for its
    inbound, in a scope found exact, and what it answered - a list taken for
    complete - has no client that matches. *)
Definition confirmed_missing (w0 w : World) (c : vpn_client) : Prop :=
  exists ipk i ppk p h obj rows,
    place (db w0) c = Some (ipk, i, (ppk, p)) /\
    assert_precise_client_scope cached (db w0) ppk p ipk i "" READ false = None /\
    CallGetInbound ipk :: h `suffix_of` calls w /\ calls w0 `suffix_of` h /\
    get_inbound h ipk i = InboundData obj /\ normalize_remote_clients i obj = Ret (Some rows) /\
    (match_local_client_to_remote c rows).1 = REMOTE_MISSING.

Definition verdict_on (w0 w : World) (c : vpn_client) (rc : remote_check_t) : Prop :=
  exists s error, rc = mk_remote_check s (Some checked_at) error (safe_remote_scope (db w0) c) batch /\
    (s = REMOTE_MISSING -> confirmed_missing w0 w c).

(** A pass under way: only verdicts were written, and those of [done] were. *)
Record passed (w0 w : World) (done : list Z) : Prop := {
  ps_inbounds : inbounds (db w) = inbounds (db w0);
  ps_panels : panels (db w) = panels (db w0);
  ps_calls : calls w0 `suffix_of` calls w;
  ps_writes : panel_writes w = panel_writes w0;
  ps_none : forall k, clients (db w0) !! k = None -> clients (db w) !! k = None;
  ps_row : forall k c, clients (db w0) !! k = Some c ->
    exists rc, clients (db w) !! k = Some (c {{ remote_check := rc }}) /\
      (verdict_on w0 w c rc \/ (rc = remote_check c /\ k ∉ done));
}.

Lemma confirmed_later w0 w w' c : calls w `suffix_of` calls w' -> confirmed_missing w0 w c -> confirmed_missing w0 w' c.
Proof.
  intros Hs (ipk & i & ppk & p & h & obj & rows & Hp & Hg & Hh & Hrest). exists ipk, i, ppk, p, h, obj, rows.
  split; [done|]. split; [done|]. split; [by etransitivity|done].
Qed.

Lemma verdict_later w0 w w' c rc : calls w `suffix_of` calls w' -> verdict_on w0 w c rc -> verdict_on w0 w' c rc.
Proof. intros Hs (s & e & Hrc & Hm). exists s, e. split; [done|]. intros E. by eapply confirmed_later, Hm. Qed.

Lemma passed_start w : passed w w [].
Proof.
  split; try done. intros k c Hc. exists (remote_check c). split; [by rewrite Hc; destruct c|]. right. split; [done|].
  apply not_elem_of_nil.
Qed.

Lemma passed_asked w0 w done ipk : passed w0 w done -> passed w0 (w {{ calls ::= cons (CallGetInbound ipk) }}) done.
Proof.
  intros [Hi Hp Hc Hw Hn Hr]. assert (Hs : calls w `suffix_of` calls (w {{ calls ::= cons (CallGetInbound ipk) }})) by (by exists [CallGetInbound ipk]).
  split; try done.
  - by etransitivity.
  - intros k c Hk. destruct (Hr k c Hk) as (rc & Hrow & [Hv|Ho]); exists rc; (split; [done|]); [left|by right].
    by eapply verdict_later.
Qed.

Lemma persist_passed w0 w done k c s error r w' :
  passed w0 w done -> clients (db w0) !! k = Some c -> (s = REMOTE_MISSING -> confirmed_missing w0 w c) ->
  persist_check_result (db w0) (k, c) s batch checked_at error w = (r, w') ->
  r = Ret tt /\ calls w' = calls w /\ passed w0 w' (k :: done).
Proof.
  intros [Hi Hp Hc Hw Hn Hr] Hk Hs. unfold persist_check_result. run_io. intros [= <- <-].
  split; [done|]. split; [done|]. split; try done; cbn.
  - intros k' Hk'. destruct (decide (k' = k)) as [->|Hne]; [by rewrite Hk in Hk'|]. rewrite lookup_alter_ne by done. auto.
  - intros k' c' Hk'. destruct (Hr k' c' Hk') as (rc & Hrow & Hv). destruct (decide (k' = k)) as [->|Hne].
    + rewrite Hk in Hk'. injection Hk' as <-. rewrite lookup_alter_eq, Hrow. cbn.
      eexists. split; [reflexivity|]. left. by eexists _, _.
    + rewrite lookup_alter_ne by done. exists rc. split; [done|]. destruct Hv as [Hv|[Hv Hnd]]; [by left|]. right.
      split; [done|]. by intros [?|?]%elem_of_cons.
Qed.

Lemma check_all_passed w0 verdict l : forall w done res r w',
  passed w0 w done -> (forall kc, kc ∈ l -> clients (db w0) !! kc.1 = Some kc.2) ->
  (forall kc, kc ∈ l -> (verdict kc.2).1 = REMOTE_MISSING -> confirmed_missing w0 w kc.2) ->
  check_all (db w0) true batch checked_at verdict l res w = (r, w') ->
  is_ret r = true /\ passed w0 w' (l.*1 ++ done).
Proof.
  induction l as [|[k c] l IH]; intros w done res r w' Hp Hl Hv; cbn [check_all].
  - by intros [= <- <-].
  - destruct (verdict c) as [s error] eqn:E. unfold mbind, M_bind. cbn beta iota zeta delta [snd]. rewrite E. cbn beta iota.
    destruct (persist_check_result _ _ _ _ _ _ w) as [x w1] eqn:Ep. cbn [snd].
    apply (persist_passed w0 w done) in Ep as (-> & Hcalls & Hp1); [|done|apply (Hl (k, c)); by left|].
    2: { intros ->. apply (Hv (k, c)); [by left|by cbn; rewrite E]. }
    intros Hrun. apply (IH w1 (k :: done)) in Hrun as [Hret Hend]; [|done|by intros kc ?; apply Hl; right|].
    2: { intros kc Hin Hm. eapply (confirmed_later _ w); [by rewrite Hcalls|]. apply Hv; [by right|done]. }
    split; [done|]. destruct Hend as [Hi Hpn Hc Hw Hn Hr]. split; try done. intros k' c' Hk'.
    destruct (Hr k' c' Hk') as (rc & Hrow & [?|[? Hnd]]); exists rc; (split; [done|]); [by left|right].
    split; [done|]. intros Hin. apply Hnd. revert Hin. cbn. rewrite !elem_of_app, !elem_of_cons, !elem_of_app. tauto.
Qed.

Lemma guard_inbounds d d' ppk p ipk i op allow : inbounds d' = inbounds d ->
  assert_precise_client_scope cached d' ppk p ipk i "" op allow = assert_precise_client_scope cached d ppk p ipk i "" op allow.
Proof. intros E. unfold assert_precise_client_scope, local_scope_conflicts, local_client_matches. by rewrite E. Qed.

Lemma failed_scope_status ppk refusal :
  sr_status (failed_scope ppk refusal) <> REMOTE_MISSING /\ answered_whole (failed_scope ppk refusal) = false.
Proof.
  unfold failed_scope, status_from_exception, answered_whole. destruct refusal as [[] text]; cbn; try (by split; [|apply andb_false_r]).
  repeat case_match; simplify_eq; by split; [|apply andb_false_r].
Qed.

(** The answer of a scope: where it is whole, a client it lacks is confirmed
    missing. *)
Definition answer_ok (w0 w : World) (pl : Z * Inbound.inbound * (Z * Panel.panel)) (sr : scope_result) : Prop :=
  if answered_whole sr
  then forall c, place (db w0) c = Some pl ->
       (match_local_client_to_remote c (sr_clients sr)).1 = REMOTE_MISSING -> confirmed_missing w0 w c
  else sr_status sr <> REMOTE_MISSING.

Lemma fetch_passed w0 w done ppk p ipk i r w' :
  passed w0 w done -> fetch_remote_scope_clients cached ppk p ipk i w = (r, w') ->
  passed w0 w' done /\ forall sr, r = Ret sr -> answer_ok w0 w' (ipk, i, (ppk, p)) sr.
Proof.
  intros Hp. unfold fetch_remote_scope_clients. run_io. rewrite (guard_inbounds (db w0)) by apply Hp.
  destruct (assert_precise_client_scope _ _ _ _ _ _ _ _ _) as [refusal|] eqn:Hg.
  { intros [= <- <-]. split; [done|]. intros sr [= <-]. unfold answer_ok. destruct (failed_scope_status ppk refusal) as [? ->]. done. }
  destruct (get_inbound (calls w) ipk i) as [obj|fault text] eqn:Ha; cbn.
  - pose proof (passed_asked _ _ _ ipk Hp) as Hp'.
    destruct (normalize_remote_clients i obj) as [rows|e] eqn:En; intros [= <- <-]; (split; [exact Hp'|]); intros sr [= <-].
    destruct rows as [rows|]; unfold answer_ok; cbn; [|done]. intros c Hc Hm.
    exists ipk, i, ppk, p, (calls w), obj, rows. repeat (split; [done|]). split; [by apply Hp|]. done.
  - intros [= <- <-]. split; [by apply passed_asked|]. intros sr [= <-]. unfold answer_ok.
    destruct (failed_scope_status ppk (fault, text)) as [? ->]. done.
Qed.

Lemma check_groups_passed w0 l : forall w done res r w',
  passed w0 w done ->
  (forall k members kc, (k, members) ∈ l -> kc ∈ members ->
     clients (db w0) !! kc.1 = Some kc.2 /\ scope_key_for_client (db w0) kc.2 = Some k) ->
  check_groups cached (db w0) true batch checked_at l res w = (r, w') ->
  exists done', passed w0 w' done' /\
    (is_ret r = true -> forall k, (k ∈ done \/ exists key members kc, (key, members) ∈ l /\ kc ∈ members /\ kc.1 = k) -> k ∈ done').
Proof.
  induction l as [|[key members] l IH]; intros w done res r w' Hp Hl; cbn [check_groups].
  - intros [= <- <-]. exists done. split; [done|]. intros _ k [?|(? & ? & ? & []%elem_of_nil & _)]; done.
  - destruct members as [|kc0 members].
    + cbn. intros Hrun. apply (IH _ done) in Hrun as (done' & Hp' & Hall); [|done|by intros; eapply Hl; [right|]].
      exists done'. split; [done|]. intros Hr k [?|(k1 & m & kc & [[= -> ->]|Hin]%elem_of_cons & Hkc & Hk)]; [by apply Hall; auto|by apply elem_of_nil in Hkc|].
      apply Hall; [done|]. right. by exists k1, m, kc.
    + destruct (Hl key (kc0 :: members) kc0) as [_ Hk0]; [by left|by left|].
      destruct (scope_key_placed _ _ _ Hk0) as [[[ipk i] [ppk p]] Hpl]. cbn [omap list_omap]. rewrite Hpl. cbn [head].
      unfold mbind at 1, M_bind at 1. destruct (fetch_remote_scope_clients _ _ _ _ _ w) as [[sr|e] w1] eqn:Ef.
      2: { apply (fetch_passed w0 w done) in Ef as [Hp1 _]; [|done]. intros [= <- <-]. by exists done. }
      apply (fetch_passed w0 w done) in Ef as [Hp1 Hans]; [|done]. specialize (Hans _ eq_refl).
      unfold mbind at 1, M_bind at 1. destruct (check_all _ _ _ _ _ _ _ w1) as [x w2] eqn:Ec.
      apply (check_all_passed w0 _ (kc0 :: members) w1 done) in Ec as [Hx Hp2]; [|done|by intros kc Hkc; eapply Hl; [left|]|].
      2: { intros kc Hkc. unfold answer_ok in Hans. destruct (answered_whole sr); [|done]. apply Hans.
           destruct (Hl key (kc0 :: members) kc) as [_ Hk]; [by left|done|]. by rewrite (scope_key_place _ _ _ _ Hk Hk0). }
      destruct x as [res'|]; [|done]. intros Hrun.
      apply (IH _ ((kc0 :: members).*1 ++ done)%list) in Hrun as (done' & Hp' & Hall); [|done|by intros; eapply Hl; [right|]].
      exists done'. split; [done|]. intros Hr k [?|(k1 & m & kc & [[= -> ->]|Hin]%elem_of_cons & Hkc & Hk)]; apply Hall; auto.
      * left. apply elem_of_app. by right.
      * left. apply elem_of_app. left. apply list_elem_of_fmap. by exists kc.
      * right. by exists k1, m, kc.
Qed.

Lemma reconcile_passed queryset w r w' :
  reconcile_vpn_clients cached queryset true batch checked_at w = (r, w') ->
  exists done, passed w w' done /\
    (is_ret r = true -> forall k c, clients (db w) !! k = Some c -> queryset k c = true -> is_deleted c = false -> k ∈ done).
Proof.
  unfold reconcile_vpn_clients. unfold mbind at 1, M_bind at 1, get_db, gets.
  set (l := build_reconciliation_candidates (db w) queryset).
  pose proof (grouping_run (db w) l) as [Hkey Hall Hmiss].
  assert (Hl : forall kc, kc ∈ l -> clients (db w) !! kc.1 = Some kc.2).
  { intros [k c]. unfold l, build_reconciliation_candidates. rewrite elem_of_order_by, elem_of_rows_where. by intros [? _]. }
  destruct (group_clients_by_remote_scope (db w) l) as [grouped missing] eqn:Eg. cbn in Hkey, Hall, Hmiss.
  unfold mbind at 1, M_bind at 1. destruct (check_all _ _ _ _ _ _ _ w) as [x w1] eqn:Ec.
  apply (check_all_passed w _ missing w []) in Ec as [Hx Hp1]; [|apply passed_start|by intros; apply Hl, Hmiss|done].
  destruct x as [res|]; [|done]. intros Hrun.
  apply (check_groups_passed w grouped w1 (missing.*1 ++ [])%list) in Hrun as (ks & Hp & Hdone); [|done|].
  2: { intros k members kc Hin Hkc. destruct (Hkey _ _ _ Hin Hkc). split; [by apply Hl|done]. }
  exists ks. split; [done|]. intros Hr k c Hc Hq Hlive. apply Hdone; [done|].
  assert (Hin : (k, c) ∈ l).
  { unfold l, build_reconciliation_candidates. rewrite elem_of_order_by, elem_of_rows_where, Hq, Hlive. done. }
  destruct (Hall _ Hin) as [Hm|(key & members & Hg & Hm)].
  - left. rewrite app_nil_r. apply list_elem_of_fmap. by exists (k, c).
  - right. by exists key, members, (k, c).
Qed.
End Pass.

(** ** The deletions *)

Section Sweep.
Context `{Env}.

Definition removal_view (w : World) := (action_logs (db w), inbounds (db w), panels (db w), calls w).

#[local] Instance keeps_removal_undoable : Undoable (keeps removal_view).
Proof. intros w w'. unfold keeps, removal_view. cbn. congruence. Qed.

Lemma save_order_removal opk o fs now : respects (keeps removal_view) (save_order opk o fs now).
Proof.
  intros w r w' Hrun. apply save_order_frame in Hrun. revert Hrun.
  unfold keeps, all_but_orders, side_tables, removal_view. intros [=]. congruence.
Qed.
#[local] Hint Resolve save_order_removal : frames.

Lemma mark_deleted_removal cpk customer admin reason remote rm now :
  respects (keeps removal_view) (mark_local_vpn_client_deleted cpk customer admin reason remote rm now).
Proof.
  unfold mark_local_vpn_client_deleted, cleanup_vpn_client_related_records, get_client, get_order. walk; done.
Qed.

(** The administration can see that the row was deleted, and why. *)
Definition removal_logged (k later : Z) (d : DB) : Prop :=
  exists n log, action_logs d !! n = Some log /\ ActionLog.vpn_client log = Some k /\
    ActionLog.action log = ActionLog.ADMIN_SOFT_DELETE_REMOTE_MISSING /\ ActionLog.status log = ActionLog.SUCCESS /\
    ActionLog.completed_at log = Some later.

(** Deletions under way: only the rows of [gone] changed. *)
Record swept (later : Z) (w1 w : World) (gone : list Z) : Prop := {
  sw_inbounds : inbounds (db w) = inbounds (db w1);
  sw_panels : panels (db w) = panels (db w1);
  sw_calls : calls w = calls w1;
  sw_kept : forall k, k ∉ gone -> clients (db w) !! k = clients (db w1) !! k;
  sw_gone : forall k, k ∈ gone -> (exists row, clients (db w) !! k = Some row /\ is_deleted row = true) /\
    removal_logged k later (db w);
}.

Lemma swept_start later w : swept later w w [].
Proof. split; try done. by intros k ?%elem_of_nil. Qed.

Lemma soft_delete_swept later w1 w gone cpk c ppk a res r w' :
  swept later w1 w gone -> soft_delete cpk c ppk a later res w = (r, w') ->
  exists res', r = Ret res' /\ requested res' = requested res /\
    ((swept later w1 w' (cpk :: gone) /\ cleaned res' = cleaned res + 1 /\ blocked res' = blocked res) \/
     (swept later w1 w' gone /\ cleaned res' = cleaned res /\ blocked res' = blocked res + 1)).
Proof.
  intros [Hi Hp Hc Hk Hg]. unfold soft_delete, create_soft_delete_log, complete_log, tried.
  run_io. set (n := next_pk (action_logs (db w))).
  match goal with |- context [insert n ?l] => set (log := l) end.
  match goal with |- context [mark_local_vpn_client_deleted _ _ _ _ _ _ _ ?x] => set (w2 := x) end.
  destruct (mark_local_vpn_client_deleted _ _ _ _ _ _ _ w2) as [x w3] eqn:E.
  pose proof (mark_deleted_removal _ _ _ _ _ _ _ _ _ _ E) as Hv. pose proof (mark_deleted_inv _ _ _ _ _ _ _ _ _ _ E) as Hm.
  unfold keeps, removal_view in Hv. injection Hv as Hl3 Hi3 Hp3 Hc3.
  assert (Hlogged : forall f d k, action_logs d = alter f n (<[n:=log]> (action_logs (db w))) ->
    removal_logged k later (db w) -> removal_logged k later d).
  { intros f d k Hd (m & l & Hm' & Hrest). exists m, l. split; [|done].
    assert (m <> n) by (intros ->; unfold n in Hm'; by rewrite next_pk_fresh in Hm').
    by rewrite Hd, lookup_alter_ne, lookup_insert_ne. }
  destruct x as [u|e]; cbn [db] in *; intros [= <- <-]; eexists; (split; [reflexivity|]); (split; [done|]).
  - left. destruct Hm as (row & Hrow & Hcl). split; [|done]. split; cbn; try congruence.
    + intros k Hnk. rewrite Hcl, lookup_insert_ne by (intros ->; apply Hnk; by left). cbn. apply Hk. intros ?. apply Hnk. by right.
    + intros k Hin. destruct (decide (k = cpk)) as [->|Hne].
      * split; [rewrite Hcl, lookup_insert_eq; by eexists|].
        exists n. rewrite Hl3. cbn. rewrite lookup_alter_eq, lookup_insert_eq. by eexists.
      * apply elem_of_cons in Hin as [?|Hin]; [done|]. destruct (Hg k Hin) as [(row' & Hrow' & Hdel) Hlog].
        split; [|by eapply Hlogged; [cbn; by rewrite Hl3|]]. exists row'. split; [|done]. rewrite Hcl, lookup_insert_ne by done. exact Hrow'.
  - right. split; [|done]. split; cbn; try congruence; [exact Hk|].
    intros k Hin. destruct (Hg k Hin) as [Hrow Hlog]. split; [exact Hrow|by eapply Hlogged].
Qed.

Lemma soft_delete_each_swept later w1 d a l : forall w res gone r w',
  swept later w1 w gone -> soft_delete_each d l a later res w = (r, w') ->
  exists res' gone', r = Ret res' /\ swept later w1 w' (gone' ++ gone) /\ sublist gone' (rev l.*1) /\
    (forall k, k ∈ gone' -> exists c, (k, c) ∈ l /\ remote_status_is_cleanup_eligible d c later = true) /\
    requested res' = requested res /\ cleaned res' = cleaned res + Z.of_nat (length gone') /\
    blocked res' = blocked res + Z.of_nat (length l) - Z.of_nat (length gone').
Proof.
  induction l as [|[cpk c] l IH]; intros w res gone r w' Hs; cbn [soft_delete_each].
  { intros [= <- <-]. exists res, []. cbn. repeat (split; [done|]). split; [by intros k ?%elem_of_nil|]. lia. }
  destruct (remote_status_is_cleanup_eligible d c later) eqn:Eel; cbn [negb].
  - unfold mbind at 1, M_bind at 1. destruct (soft_delete _ _ _ _ _ _ w) as [x w2] eqn:E.
    apply (soft_delete_swept later w1 w gone) in E as (res2 & -> & Hreq & Hcase); [|done]. intros Hrun.
    destruct Hcase as [(Hs2 & Hcl & Hbl)|(Hs2 & Hcl & Hbl)];
      apply (IH _ _ _ _ _ Hs2) in Hrun as (res' & gone' & -> & Hsw & Hsub & Hel & Hr & Hc & Hb).
    + exists res', (gone' ++ [cpk])%list. rewrite <- app_assoc. cbn [app]. split; [done|]. split; [done|].
      split; [cbn; by apply sublist_app|]. split.
      { intros k [Hk|[->|[]%elem_of_nil]%elem_of_cons]%elem_of_app; [|by exists c; split; [left|]].
        destruct (Hel k Hk) as (c' & ? & ?). exists c'. split; [by right|done]. }
      rewrite length_app. cbn [length]. lia.
    + exists res', gone'. split; [done|]. split; [done|]. split; [cbn; by apply sublist_inserts_r|]. split.
      { intros k Hk. destruct (Hel k Hk) as (c' & ? & ?). exists c'. split; [by right|done]. }
      cbn [length]. lia.
  - intros Hrun. apply (IH _ _ _ _ _ Hs) in Hrun as (res' & gone' & -> & Hsw & Hsub & Hel & Hr & Hc & Hb).
    exists res', gone'. split; [done|]. split; [done|]. split; [cbn; by apply sublist_inserts_r|]. split.
    { intros k Hk. destruct (Hel k Hk) as (c' & ? & ?). exists c'. split; [by right|done]. }
    cbn in Hr, Hc, Hb. cbn [length]. lia.
Qed.
End Sweep.

(** ** The whole cleanup *)

Section Cleanup.
Context `{Env}.
Context (cached : Z -> option compatibility_profile).

Lemma elem_of_live_among d ids k c :
  (k, c) ∈ live_among d ids <-> clients d !! k = Some c /\ k ∈ ids /\ is_deleted c = false.
Proof.
  unfold live_among. rewrite elem_of_order_by, elem_of_rows_where, andb_true_iff, bool_decide_eq_true, negb_true_iff. done.
Qed.

Lemma live_among_NoDup d ids : NoDup (live_among d ids).*1.
Proof. apply order_by_NoDup, rows_where_NoDup. Qed.

(** The rows the first look at the database lets through. *)
Definition eligible_ids (d : DB) (ids : list Z) (now : Z) : list Z :=
  map fst (filter (fun kc => Is_true (remote_status_is_cleanup_eligible d kc.2 now)) (live_among d ids)).

Lemma elem_of_eligible d ids now k : k ∈ eligible_ids d ids now <->
  exists c, clients d !! k = Some c /\ k ∈ ids /\ is_deleted c = false /\ remote_status_is_cleanup_eligible d c now = true.
Proof.
  unfold eligible_ids. change (map fst) with (fmap (M:=list) (@fst Z vpn_client)). rewrite list_elem_of_fmap. split.
  - intros ([k' c] & -> & Hin). apply list_elem_of_filter in Hin as [He Hin]. apply Is_true_true in He.
    apply elem_of_live_among in Hin as (? & ? & ?). by exists c.
  - intros (c & ? & ? & ? & ?). exists (k, c). split; [done|]. apply list_elem_of_filter. split; [by apply Is_true_true|].
    by apply elem_of_live_among.
Qed.

Lemma eligible_NoDup d ids now : NoDup (eligible_ids d ids now).
Proof.
  eapply sublist_NoDup; [apply (live_among_NoDup d ids)|]. apply (fmap_sublist (@fst Z vpn_client)), sublist_filter.
Qed.

Lemma passed_live batch checked_at w w1 done k c1 : passed cached batch checked_at w w1 done ->
  clients (db w1) !! k = Some c1 ->
  exists c rc, clients (db w) !! k = Some c /\ c1 = c {{ remote_check := rc }} /\
    (verdict_on cached batch checked_at w w1 c rc \/ (rc = remote_check c /\ k ∉ done)).
Proof.
  intros Hp Hc1. destruct (clients (db w) !! k) as [c|] eqn:Hc.
  - destruct (ps_row _ _ _ _ _ _ Hp k c Hc) as (rc & Hrow & Hv). exists c, rc. split; [done|]. split; [congruence|done].
  - rewrite (ps_none _ _ _ _ _ _ Hp k Hc) in Hc1. done.
Qed.

Lemma live_again batch checked_at w w1 done ids now : passed cached batch checked_at w w1 done ->
  length (live_among (db w1) (eligible_ids (db w) ids now)) = length (eligible_ids (db w) ids now).
Proof.
  intros Hp. rewrite <- (length_fmap fst). apply Permutation_length, NoDup_Permutation;
    [apply live_among_NoDup|apply eligible_NoDup|]. intros k. rewrite list_elem_of_fmap. split.
  - intros ([k' c] & -> & Hin). by apply elem_of_live_among in Hin as (_ & ? & _).
  - intros Hk. destruct (proj1 (elem_of_eligible _ _ _ _) Hk) as (c & Hc & _ & Hlive & _).
    destruct (ps_row _ _ _ _ _ _ Hp k c Hc) as (rc & Hrow & _). exists (k, c {{ remote_check := rc }}). split; [done|].
    apply elem_of_live_among. done.
Qed.

(** What a cleanup may do with the rows. *)
Record cleaned_up (ids : list Z) (now checked_at later : Z) (w w' : World) (deleted : list Z) : Prop := {
  cu_writes : panel_writes w' = panel_writes w;
  cu_deleted : forall k c row, clients (db w) !! k = Some c -> is_deleted c = false ->
    clients (db w') !! k = Some row -> is_deleted row = true ->
    k ∈ deleted /\ k ∈ ids /\ remote_status_is_cleanup_eligible (db w) c now = true /\
    later - FRESH_RESULT_TTL <= checked_at /\ confirmed_missing cached w w' c /\ removal_logged k later (db w');
  cu_listed : forall k, k ∈ deleted -> exists c row, clients (db w) !! k = Some c /\ is_deleted c = false /\
    clients (db w') !! k = Some row /\ is_deleted row = true;
  cu_kept : forall k c, clients (db w) !! k = Some c -> k ∉ deleted ->
    exists rc, clients (db w') !! k = Some (c {{ remote_check := rc }});
}.

Lemma passed_cleaned batch checked_at ids now later w w1 done :
  passed cached batch checked_at w w1 done -> cleaned_up ids now checked_at later w w1 [].
Proof.
  intros Hp. split; [by apply Hp|..|by intros k ?%elem_of_nil|].
  - intros k c row Hc Hlive Hrow Hdel. destruct (ps_row _ _ _ _ _ _ Hp k c Hc) as (rc & Hrow' & _).
    rewrite Hrow in Hrow'. injection Hrow' as ->. unfold is_deleted in *. cbn in Hdel. congruence.
  - intros k c Hc _. destruct (ps_row _ _ _ _ _ _ Hp k c Hc) as (rc & Hrow' & _). by exists rc.
Qed.

Lemma swept_cleaned batch checked_at ids now later w w1 w' ks deleted :
  passed cached batch checked_at w w1 ks ->
  (forall k c, clients (db w) !! k = Some c -> k ∈ eligible_ids (db w) ids now -> is_deleted c = false -> k ∈ ks) ->
  swept later w1 w' deleted ->
  (forall k, k ∈ deleted -> exists c, (k, c) ∈ live_among (db w1) (eligible_ids (db w) ids now) /\
     remote_status_is_cleanup_eligible (db w1) c later = true) ->
  cleaned_up ids now checked_at later w w' deleted.
Proof.
  intros Hp Hks Hs Hel.
  assert (Hkept : forall k c, clients (db w) !! k = Some c -> k ∉ deleted -> exists rc, clients (db w') !! k = Some (c {{ remote_check := rc }})).
  { intros k c Hc Hk. destruct (ps_row _ _ _ _ _ _ Hp k c Hc) as (rc & Hrow & _). exists rc. by rewrite (sw_kept _ _ _ _ Hs). }
  split; [|..|exact Hkept].
  - rewrite <- (ps_writes _ _ _ _ _ _ Hp). unfold panel_writes. by rewrite (sw_calls _ _ _ _ Hs).
  - intros k c row Hc Hlive Hrow Hdel. destruct (decide (k ∈ deleted)) as [Hin|Hout].
    2: { destruct (Hkept k c Hc Hout) as (rc & Hrow'). rewrite Hrow in Hrow'. injection Hrow' as ->.
         unfold is_deleted in *. cbn in Hdel. congruence. }
    destruct (Hel k Hin) as (c1 & Hlive1 & He). apply elem_of_live_among in Hlive1 as (Hc1 & Hids & _).
    destruct (passed_live _ _ _ _ _ _ _ Hp Hc1) as (c' & rc & Hc' & -> & Hv). rewrite Hc in Hc'. injection Hc' as <-.
    destruct (proj1 (elem_of_eligible _ _ _ _) Hids) as (c' & Hc' & Hk & _ & Helig). rewrite Hc in Hc'. injection Hc' as <-.
    destruct Hv as [(s & e & -> & Hm)|[_ Hnot]]; [|destruct Hnot; by eapply Hks].
    unfold remote_status_is_cleanup_eligible, remote_status_is_fresh in He. cbn in He.
    rewrite !andb_true_iff, bool_decide_eq_true, Z.leb_le in He. destruct He as [[-> Hfresh] _].
    split; [done|]. split; [done|]. split; [done|]. split; [done|]. split; [|by apply (sw_gone _ _ _ _ Hs)].
    eapply confirmed_later, Hm; [|done]. by rewrite (sw_calls _ _ _ _ Hs).
  - intros k Hin. destruct (Hel k Hin) as (c1 & Hlive1 & _). apply elem_of_live_among in Hlive1 as (Hc1 & _ & Hd1).
    destruct (passed_live _ _ _ _ _ _ _ Hp Hc1) as (c & rc & Hc & -> & _).
    destruct (sw_gone _ _ _ _ Hs k Hin) as [(row & Hrow & Hdel) _]. by exists c, row.
Qed.

Lemma cleanup_run ids a batch now checked_at later w r w' :
  soft_delete_remote_missing_clients cached ids a batch now checked_at later w = (r, w') ->
  exists deleted, NoDup deleted /\ cleaned_up ids now checked_at later w w' deleted /\
    match r with
    | Ret res => requested res = Z.of_nat (length ids) /\ cleaned res = Z.of_nat (length deleted) /\
                 cleaned res + blocked res = requested res
    | Raise _ => deleted = []
    end.
Proof.
  unfold soft_delete_remote_missing_clients. fold (eligible_ids (db w) ids now).
  assert (Hnone : cleaned_up ids now checked_at later w w []) by (by eapply passed_cleaned, (passed_start cached batch)).
  destruct ids as [|id0 ids0] eqn:Eids; cbn [nonempty negb].
  { intros [= <- <-]. exists []. split; [constructor|]. by split. }
  rewrite <- Eids in *. clear Eids id0 ids0. unfold mbind at 1, M_bind at 1, get_db, gets.
  fold (eligible_ids (db w) ids now). destruct (nonempty (eligible_ids (db w) ids now)) eqn:Ene; cbn [negb].
  2: { intros [= <- <-]. exists []. split; [constructor|]. split; [done|]. cbn.
       destruct (eligible_ids _ _ _); [cbn; lia|done]. }
  unfold mbind at 1, M_bind at 1, revalidate_missing_clients. destruct (reconcile_vpn_clients _ _ _ _ _ w) as [x w1] eqn:E.
  apply reconcile_passed in E as (ks & Hp & Hks). destruct x as [rec|e].
  2: { intros [= <- <-]. exists []. split; [constructor|]. split; [by eapply passed_cleaned|done]. }
  unfold mbind at 1, M_bind at 1. intros Hrun.
  apply (soft_delete_each_swept later w1 _ _ _ _ _ []) in Hrun as (res & deleted & -> & Hs & Hsub & Hel & Hreq & Hcl & Hbl);
    [|apply swept_start]. rewrite app_nil_r in Hs. cbn in Hreq, Hcl, Hbl.
  exists deleted. split; [|split; [|rewrite (live_again batch checked_at w w1 ks) in Hbl by done; lia]].
  - eapply sublist_NoDup; [|exact Hsub]. rewrite <- Permutation_rev. apply live_among_NoDup.
  - eapply swept_cleaned; [done| |done|done]. intros k c Hc Hk Hlive. eapply Hks; [done|done| |done]. by apply bool_decide_eq_true.
Qed.

(** C37: Cleaning up after the panels.  A row is deleted only if it was asked for;
    the last check had found it missing, at most half an hour before and where it
    still is; and in this run, at most half an hour before the deletion, its
    panel was asked for the inbound, in a scope found exact, and sent an object
    that reads, by the program's own normalisation, as a list no client of which
    matches (settings that are no JSON object read as the empty list); the
    deletion is in the log.  Nothing is written to a panel, every other row keeps
    all but the mark of the check; the number of rows deleted is reported, and
    with the number held back makes the number of ids given, repeated ones
    included; a run that raises deletes none. *)
Theorem only_confirmed_clients_deleted ids a batch now checked_at later w r w' :
  soft_delete_remote_missing_clients cached ids a batch now checked_at later w = (r, w') ->
  exists deleted, NoDup deleted /\ cleaned_up ids now checked_at later w w' deleted /\
    match r with
    | Ret res => requested res = Z.of_nat (length ids) /\ cleaned res = Z.of_nat (length deleted) /\
                 cleaned res + blocked res = requested res
    | Raise _ => deleted = []
    end.
Proof. apply cleanup_run. Qed.
End Cleanup.

(** ** The sample shop: client 5 of inbound 10 was found missing *)

Definition not_cached (ppk : Z) : option compatibility_profile := None.

Definition sample_missing : vpn_client :=
  let c := sample_vpn_client 1000 10 ACTIVE in
  c {{ remote_check := mk_remote_check REMOTE_MISSING (Some 0) "" (safe_remote_scope (db sample_shop) c) "b0" }}.

Definition sample_cleanup : result cleanup * World :=
  @soft_delete_remote_missing_clients sample_env not_cached [5; 6] (WebAdmin 1) "b1" 1000 2000 3000
    (sample_shop {{ db -> clients := {[ 5 := sample_missing ]} }}).

(** Its panel, asked again, lists no clients: the row is deleted; there is no
    client 6. *)
Example sample_cleanup_counts :
  match sample_cleanup.1 with Ret res => (requested res, cleaned res, blocked res) | Raise _ => (0, 0, 0) end = (2, 1, 1).
Proof. vm_compute. reflexivity. Qed.

Lemma only_confirmed_clients_deleted_witness :
  exists deleted, length deleted = 1%nat /\
    @cleaned_up sample_env not_cached [5; 6] 1000 2000 3000 (sample_shop {{ db -> clients := {[ 5 := sample_missing ]} }})
      sample_cleanup.2 deleted.
Proof.
  destruct (@only_confirmed_clients_deleted sample_env not_cached [5; 6] (WebAdmin 1) "b1" 1000 2000 3000
    (sample_shop {{ db -> clients := {[ 5 := sample_missing ]} }}) sample_cleanup.1 sample_cleanup.2) as (deleted & _ & Hc & Hr).
  { apply surjective_pairing. }
  exists deleted. split; [|exact Hc]. pose proof sample_cleanup_counts as Hn. revert Hr Hn.
  destruct sample_cleanup.1 as [res|e]; [|done]. intros (_ & Hcl & _) [= _ Hone _]. rewrite Hone in Hcl. lia.
Defined.

(** An answer whose settings cannot be read, or that has none, is taken for a
    complete list without clients: every client of the inbound counts as
    missing. *)
Example unreadable_settings_look_empty :
  @normalize_remote_clients sample_env (sample_inbound 1 3 5) (JObj [("settings", JStr "{clients: [")]) = Ret (Some []).
Proof. reflexivity. Qed.

(** A client whose start is put off by 720 days, which the panel writes as a
    negative time in milliseconds, makes the whole pass raise. *)
Example long_delayed_start_ends_the_pass :
  @normalize_remote_clients sample_env (sample_inbound 1 3 5)
    (JObj [("settings", JObj [("clients", JList [JObj [("id", JStr "u"); ("expiryTime", JNum (-720 * 86400000))]])])])
  = Raise YEAR_ERROR.
Proof. vm_compute. reflexivity. Qed.
