(* ===== verification/CupEditing.v ===== *)
(** Editing a cup by hand (src/store/admin_cup_center/services.py): making one,
    adding links to it, and switching, renaming, moving, replacing and removing
    its items.  [CupEditingSpec] proves the theorems.

    Adding assets of an inventory pool is in [Assignment]; rebuilding a cup from
    its clients and the quick builder are not modelled. *)

From S2P Require Import Prelude Models World Numbers Inventory Cups ClientManagement.
From S2P Require Regex.

#[local] Open Scope string_scope.
#[local] Open Scope Z_scope.

(** [AddLinksResult] without its texts. *)
Record add_links_result := mk_add_links {
  requested_count : Z;
  found_count : Z;
  created_count : Z;
  added_count : Z;
  duplicate_count : Z;
  skipped_empty_count : Z;
  skipped_invalid_count : Z;
}.
#[global] Instance eta_add_links_result : Eta add_links_result := fun r => mk_add_links (requested_count r)
  (found_count r) (created_count r) (added_count r) (duplicate_count r) (skipped_empty_count r)
  (skipped_invalid_count r).

Definition nothing_added (requested : Z) : add_links_result := mk_add_links requested 0 0 0 0 0 0.

(** The hashes of the links a cup has; blank ones are left out. *)
Definition cup_hashes (cup : Z) (d : DB) : list string :=
  filter (fun h => h <> "") (omap (fun ki => ConfigLink.normalized_hash <$> config_links d !! CupItem.config_link ki.2)
                               (cup_items_of cup d)).

Section Editing.
Context `{Env}.

(** [create_manual_cup] *)
Definition create_manual_cup (customer order plan : option Z) (status : SubscriptionCup.status_t) (expires_at : option Z)
    (md : metadata) (now : Z) : IO Z :=
  d ← get_db;
  let o := order ≫= fun k => orders d !! k in
  let customer := or_opt customer (o ≫= Order.customer) in
  let plan := or_opt plan (Order.plan <$> o) in
  let p := plan ≫= fun k => plans d !! k in
  let pk := next_pk (cups d) in
  _ ← put_db (fun d => d {{ cups ::= insert pk {|
        SubscriptionCup.customer := customer; SubscriptionCup.order := order; SubscriptionCup.plan := plan;
        SubscriptionCup.vpn_client := None; SubscriptionCup.token := generate_subscription_cup_token pk;
        SubscriptionCup.status := status; SubscriptionCup.expires_at := expires_at;
        SubscriptionCup.traffic_limit_bytes := match p with Some p => Plan.traffic_limit_bytes p | None => 0 end;
        SubscriptionCup.device_limit := Plan.device_limit <$> p; SubscriptionCup.cup_metadata := md;
        SubscriptionCup.created_at := now |} }});
  mret pk.

(** ** Adding links *)

Definition EXISTING_METADATA : metadata := {[ "source" := JStr "cup_center_existing_link" ]}.
Definition MANUAL_METADATA : metadata := {[ "source" := JStr "cup_center_manual" ]}.

Definition is_duplicate (hash : string) (known : list string) : Z := Z.b2z (bool_decide (hash ∈ known)).

Fixpoint add_each_existing (cup : Z) (l : list (Z * ConfigLink.config_link)) (known : list string) (position : Z)
    (res : add_links_result) : IO add_links_result :=
  match l with
  | [] => mret res
  | (lpk, c) :: rest =>
      let hash := ConfigLink.normalized_hash c in
      let again := if bool_decide (hash = "") then 0 else is_duplicate hash known in
      _ ← create_cup_item cup lpk position "admin_existing" EXISTING_METADATA;
      add_each_existing cup rest (hash :: known) (position + 1)
        (res {{ duplicate_count ::= Z.add again; added_count ::= Z.succ }})
  end.

Definition add_existing_links_to_cup (cup : Z) (ids : list Z) : IO add_links_result :=
  let requested := Z.of_nat (length ids) in
  match ids with
  | [] => mret (nothing_added 0)
  | _ =>
      d ← get_db;
      let found := order_by (fun kc => [kc.1]) (rows_where (fun k _ => bool_decide (k ∈ ids)) (config_links d)) in
      atomic (add_each_existing cup found (cup_hashes cup d) (next_position cup d)
                ((nothing_added requested) {{ found_count := Z.of_nat (length found) }}))
  end.

(** [str.splitlines] *)
Definition lines_of (raw_text : string) : list string :=
  map Regex.encode_utf8 (Regex.splitlines (Regex.decode_utf8 raw_text)).

Fixpoint add_each_manual (cup : Z) (lines : list string) (known : list string) (position : Z) (res : add_links_result)
    : IO add_links_result :=
  match lines with
  | [] => mret res
  | line :: rest =>
      let raw := strip line in
      let parsed := parse_config_link raw in
      if bool_decide (raw = "") then add_each_manual cup rest known position (res {{ skipped_empty_count ::= Z.succ }})
      else if bool_decide (p_protocol parsed = UNKNOWN)
      then add_each_manual cup rest known position (res {{ skipped_invalid_count ::= Z.succ }})
      else
        let hash := p_normalized_hash parsed in
        lpk ← create_config_link_from_raw raw ConfigLink.MANUAL None None None None MANUAL_METADATA;
        _ ← create_cup_item cup lpk position "admin_manual" MANUAL_METADATA;
        add_each_manual cup rest (hash :: known) (position + 1)
          (res {{ duplicate_count ::= Z.add (is_duplicate hash known); created_count ::= Z.succ; added_count ::= Z.succ }})
  end.

Definition add_manual_links_to_cup (cup : Z) (raw_text : string) : IO add_links_result :=
  let lines := lines_of raw_text in
  d ← get_db;
  atomic (add_each_manual cup lines (cup_hashes cup d) (next_position cup d) (nothing_added (Z.of_nat (length lines)))).

(** ** One item *)

(** [CupItem.objects.get(cup=cup, pk=item_id)] *)
Definition get_cup_item (cup ipk : Z) : IO CupItem.cup_item :=
  get_or_raise (fun w => it ← cup_items (db w) !! ipk; if CupItem.cup it =? cup then Some it else None).

Definition set_cup_status (cup : Z) (status : SubscriptionCup.status_t) : IO unit :=
  c ← get_or_raise (fun w => cups (db w) !! cup);
  put_db (fun d => d {{ cups ::= insert cup (c {{ SubscriptionCup.status := status }}) }}).

Definition set_cup_item_active (cup ipk : Z) (active : bool) : IO unit :=
  it ← get_cup_item cup ipk;
  put_db (set_item ipk (it {{ CupItem.is_active := active }})).

Definition update_cup_item_display_name (cup ipk : Z) (display_name : string) : IO unit :=
  it ← get_cup_item cup ipk;
  c ← get_or_raise (fun w => config_links (db w) !! CupItem.config_link it);
  put_db (set_link (CupItem.config_link it) (c {{ ConfigLink.remark := take_chars 255 (strip display_name) }})).

(** The allocation behind an item, given back. *)
Definition release_item (cup : Z) (it : CupItem.cup_item) (now : Z) : IO Z :=
  d ← get_db;
  release_inventory_allocation_for_cup_item cup (CupItem.item_metadata it)
    (ConfigLink.link_metadata <$> config_links d !! CupItem.config_link it) now.

Definition remove_cup_item (cup ipk now : Z) : IO unit :=
  it ← get_cup_item cup ipk;
  _ ← release_item cup it now;
  put_db (fun d => d {{ cup_items ::= delete ipk }}).

Definition replaced_item (lpk now : Z) (it : CupItem.cup_item) : CupItem.cup_item :=
  it {{ CupItem.config_link := lpk;
        CupItem.item_metadata ::= fun m => <["replacement_config_link_id" := JNum lpk]> (<["replaced_at" := JStr (isoformat now)]>
                                             (<["source" := JStr "cup_center_replace_config_link"]> m)) }}.

(** The replacement's key is text where it comes from a form. *)
Definition replace_cup_item_config_link (cup ipk : Z) (config_link_id : asset_id_input) (now : Z) : IO unit :=
  it ← get_cup_item cup ipk;
  lpk ← match match config_link_id with IdNumber z => Some z | IdText s => int_of_text s end with
        | Some k => mret k
        | None => raise (CupCenterError "شناسه ConfigLink جایگزین معتبر نیست.")
        end;
  _ ← get_or_raise (fun w => config_links (db w) !! lpk);
  _ ← release_item cup it now;
  put_db (set_item ipk (replaced_item lpk now it)).

Inductive direction := UP | DOWN.

(** The place before or after. *)
Definition swap_index (dir : direction) (index : nat) (l : list (Z * CupItem.cup_item)) : option (Z * CupItem.cup_item) :=
  match dir with
  | UP => match index with O => None | S n => l !! n end
  | DOWN => l !! S index
  end.

Definition move_cup_item (cup ipk : Z) (dir : direction) : IO unit :=
  d ← get_db;
  let items := cup_items_of cup d in
  match list_find (fun ki => ki.1 = ipk) items with
  | None => raise DoesNotExist
  | Some (index, (_, it)) =>
      match swap_index dir index items with
      | None => mret tt
      | Some (opk, other) =>
          _ ← put_db (set_item ipk (it {{ CupItem.position := CupItem.position other }}));
          put_db (set_item opk (other {{ CupItem.position := CupItem.position it }}))
      end
  end.

(** Whatever an administrator does to a cup and its items. *)
Inductive cup_edit (cup : Z) : World -> World -> Prop :=
| edit_create customer order plan status expires_at md now w :
    cup_edit cup w (create_manual_cup customer order plan status expires_at md now w).2
| edit_existing ids w : cup_edit cup w (add_existing_links_to_cup cup ids w).2
| edit_manual raw_text w : cup_edit cup w (add_manual_links_to_cup cup raw_text w).2
| edit_status status w : cup_edit cup w (set_cup_status cup status w).2
| edit_active ipk active w : cup_edit cup w (set_cup_item_active cup ipk active w).2
| edit_name ipk display_name w : cup_edit cup w (update_cup_item_display_name cup ipk display_name w).2
| edit_remove ipk now w : cup_edit cup w (remove_cup_item cup ipk now w).2
| edit_replace ipk link now w : cup_edit cup w (replace_cup_item_config_link cup ipk link now w).2
| edit_move ipk dir w : cup_edit cup w (move_cup_item cup ipk dir w).2.
End Editing.
