(* ===== verification/InventoryPicks.v ===== *)
(** Lemmas about the inventory of ready-made configurations: what assigning
    picks does to the assets, what recording them does to the allocations, and
    what each selection picks. *)

From S2P Require Import Prelude Models World Numbers Inventory.

#[local] Open Scope string_scope.
#[local] Open Scope Z_scope.

Import InventoryPool InventoryAsset.

(** ** How often an asset was picked *)

Definition occurrences (k : Z) (ids : list Z) : Z := len (filter (fun x => x = k) ids).

Lemma occurrences_cons k x ids :
  occurrences k (x :: ids) = Z.b2z (bool_decide (x = k)) + occurrences k ids.
Proof. unfold occurrences, len. rewrite filter_cons. case_decide; case_bool_decide; simpl; try done; lia. Qed.

Lemma occurrences_app k l l' : occurrences k (l ++ l')%list = occurrences k l + occurrences k l'.
Proof. unfold occurrences, len. rewrite filter_app, length_app. lia. Qed.

Lemma occurrences_pos k ids : k ∈ ids <-> 0 < occurrences k ids.
Proof.
  induction ids as [|x ids IH].
  - split; [by intros ?%not_elem_of_nil|done].
  - rewrite elem_of_cons, occurrences_cons, IH. pose proof (Nat2Z.is_nonneg
      (length (filter (fun x => x = k) ids))) as Hn. fold (occurrences k ids) in Hn.
    destruct (bool_decide_reflect (x = k)) as [->|Hne]; simpl.
    + split; [unfold occurrences, len in *; lia|by left].
    + split; [intros [->|?]; [done|lia]|intros; right; lia].
Qed.

Lemma occurrences_nonneg k ids : 0 <= occurrences k ids.
Proof. unfold occurrences, len. lia. Qed.

Lemma occurrences_NoDup k ids : NoDup ids -> occurrences k ids <= 1.
Proof.
  induction 1 as [|x ids Hx _ IH]; [done|]. rewrite occurrences_cons.
  case_bool_decide as E; simpl; [|lia]. subst.
  pose proof (occurrences_nonneg k ids). destruct (decide (0 < occurrences k ids)) as [H'|]; [|lia].
  by apply occurrences_pos in H'.
Qed.

(** The total a list of counts gives a key. *)
Definition total (k : Z) (counts : list (Z * Z)) : Z :=
  fold_right (fun kn acc => (if bool_decide (kn.1 = k) then kn.2 else 0) + acc) 0 counts.

Lemma total_count_one k x acc : total k (count_one x acc) = total k acc + Z.b2z (bool_decide (x = k)).
Proof.
  induction acc as [|[y n] acc IH]; simpl.
  - case_bool_decide; simpl; lia.
  - destruct (bool_decide_reflect (y = x)) as [->|]; simpl; [|rewrite IH; lia].
    case_bool_decide; simpl; lia.
Qed.

Lemma count_one_keys k x acc : k ∈ (count_one x acc).*1 <-> k ∈ acc.*1 \/ k = x.
Proof.
  induction acc as [|[y n] acc IH]; simpl.
  - rewrite list_elem_of_singleton. rewrite elem_of_nil. tauto.
  - case_bool_decide; simpl; rewrite !elem_of_cons; [|rewrite IH; tauto].
    subst. tauto.
Qed.

Lemma counter_keys k ids : k ∈ (counter ids).*1 <-> k ∈ ids.
Proof.
  induction ids as [|x ids IH] using rev_ind; [done|].
  unfold counter in *. rewrite fold_left_app. simpl. rewrite count_one_keys, IH, elem_of_app.
  rewrite list_elem_of_singleton. tauto.
Qed.

Lemma counter_total k ids : total k (counter ids) = occurrences k ids.
Proof.
  induction ids as [|x ids IH] using rev_ind; [done|].
  unfold counter in *. rewrite fold_left_app. simpl.
  rewrite total_count_one, IH, occurrences_app, occurrences_cons. unfold occurrences, len. simpl. lia.
Qed.

Lemma count_one_NoDup x acc : NoDup acc.*1 -> NoDup (count_one x acc).*1.
Proof.
  induction acc as [|[y n] acc IH]; simpl; [intros; apply NoDup_singleton|].
  intros [Hy Hd]%NoDup_cons. case_bool_decide; simpl; apply NoDup_cons; [done|].
  split; [|auto]. rewrite count_one_keys. intros [?|?]; [done|congruence].
Qed.

Lemma counter_NoDup ids : NoDup (counter ids).*1.
Proof.
  induction ids as [|x ids IH] using rev_ind; [constructor|].
  unfold counter in *. rewrite fold_left_app. by apply count_one_NoDup.
Qed.

Lemma total_absent k counts : k ∉ counts.*1 -> total k counts = 0.
Proof.
  induction counts as [|[y m] l IH]; [done|]. simpl. rewrite not_elem_of_cons. intros [? ?].
  rewrite bool_decide_false by (simpl; congruence). by rewrite IH.
Qed.

Lemma total_elem k n counts : NoDup counts.*1 -> (k, n) ∈ counts -> total k counts = n.
Proof.
  induction counts as [|[y m] counts IH]; simpl; [by intros _ ?%not_elem_of_nil|].
  intros [Hy Hd]%NoDup_cons [[= <- <-]|Hin]%elem_of_cons.
  - rewrite bool_decide_true, total_absent by done. lia.
  - rewrite bool_decide_false, IH; [done..|]. intros ->. apply Hy. by apply (list_elem_of_fmap_2 fst) in Hin.
Qed.

(** ** What assigning does to the assets *)

Definition assign_table (ids : list Z) : gmap Z asset_row -> gmap Z asset_row :=
  map_imap (fun k a => Some (if bool_decide (k ∈ ids) then assigned (occurrences k ids) a else a)).

Lemma lookup_assign_table ids t k :
  assign_table ids t !! k =
  (fun a => if bool_decide (k ∈ ids) then assigned (occurrences k ids) a else a) <$> t !! k.
Proof. unfold assign_table. rewrite map_lookup_imap. by destruct (t !! k). Qed.

Definition assign_steps (counts : list (Z * Z)) (t : gmap Z asset_row) : gmap Z asset_row :=
  fold_left (fun t kn => alter (assigned kn.2) kn.1 t) counts t.

Lemma lookup_assign_steps counts t k :
  NoDup counts.*1 ->
  assign_steps counts t !! k =
  (fun a => if bool_decide (k ∈ counts.*1) then assigned (total k counts) a else a) <$> t !! k.
Proof.
  revert t. induction counts as [|[y n] counts IH]; intros t; simpl.
  - intros _. by destruct (t !! k).
  - intros [Hy Hd]%NoDup_cons. rewrite IH by done. destruct (decide (y = k)) as [->|Hne].
    + rewrite lookup_alter_eq, (bool_decide_false (k ∈ counts.*1)) by done.
      rewrite !bool_decide_true, total_absent by (try done; left).
      destruct (t !! k) as [a|]; simpl; [|done]. do 2 f_equal. lia.
    + rewrite lookup_alter_ne, (bool_decide_false (y = k)) by done.
      destruct (t !! k); simpl; [|done]. f_equal.
      destruct (bool_decide_reflect (k ∈ counts.*1)) as [Hin|Hin].
      * rewrite bool_decide_true by (by right). f_equal.
      * rewrite bool_decide_false; [done|]. by rewrite not_elem_of_cons.
Qed.

Lemma assign_steps_counter ids t : assign_steps (counter ids) t = assign_table ids t.
Proof.
  apply map_eq. intros k. rewrite lookup_assign_steps, lookup_assign_table by apply counter_NoDup.
  rewrite counter_total. by rewrite (bool_decide_ext (k ∈ (counter ids).*1) (k ∈ ids) (counter_keys k ids)).
Qed.

Lemma assign_counts_run ids w :
  assign_counts ids w = (Ret tt, w {{ db ::= set_assets (assign_table ids) }}).
Proof.
  unfold assign_counts.
  assert (Hrun : forall counts w, for_each (fun kn : Z * Z => put_db (set_assets (alter (assigned kn.2) kn.1)))
      counts w = (Ret tt, w {{ db ::= set_assets (assign_steps counts) }})).
  { induction counts as [|kn counts IH]; intros w1; [by destruct w1 as [[]]|].
    simpl. unfold mbind, M_bind. simpl. rewrite IH. reflexivity. }
  rewrite Hrun. cbn. unfold set_assets. cbn. by rewrite assign_steps_counter.
Qed.

(** ** What recording does to the allocations *)

Section Fill.
Context {P V : Type} (row : P -> V).

(** One new row per pick, each under the next free key. *)
Fixpoint fill (ps : list P) (t : gmap Z V) : list Z * gmap Z V :=
  match ps with
  | [] => ([], t)
  | p :: rest => let '(pks, t') := fill rest (<[next_pk t := row p]> t) in (next_pk t :: pks, t')
  end.

Lemma fill_old ps t k v : t !! k = Some v -> (fill ps t).2 !! k = Some v.
Proof.
  revert t. induction ps as [|p ps IH]; intros t Hk; simpl; [done|].
  specialize (IH (<[next_pk t := row p]> t)). destruct (fill ps _) as [pks t']. simpl in *.
  apply IH. rewrite lookup_insert_ne; [done|]. pose proof (next_pk_bound t k v Hk). lia.
Qed.

Lemma fill_fresh ps t k : k ∈ (fill ps t).1 -> t !! k = None.
Proof.
  revert t. induction ps as [|p ps IH]; intros t; simpl; [by intros ?%not_elem_of_nil|].
  specialize (IH (<[next_pk t := row p]> t)). destruct (fill ps _) as [pks t']. simpl in *.
  intros [->|Hk]%elem_of_cons; [apply next_pk_fresh|].
  specialize (IH Hk). by apply lookup_insert_None in IH as [? _].
Qed.

Lemma fill_rows ps t : Forall2 (fun k p => (fill ps t).2 !! k = Some (row p)) (fill ps t).1 ps.
Proof.
  revert t. induction ps as [|p ps IH]; intros t; simpl; [constructor|].
  specialize (IH (<[next_pk t := row p]> t)).
  pose proof (fill_old ps (<[next_pk t := row p]> t) (next_pk t) (row p)) as Ho.
  destruct (fill ps _) as [pks t']. simpl in *. constructor; [|done].
  apply Ho, lookup_insert_eq.
Qed.

Lemma fill_NoDup ps t : NoDup (fill ps t).1.
Proof.
  revert t. induction ps as [|p ps IH]; intros t; simpl; [constructor|].
  specialize (IH (<[next_pk t := row p]> t)).
  pose proof (fill_fresh ps (<[next_pk t := row p]> t) (next_pk t)) as Hf.
  destruct (fill ps _) as [pks t']. simpl in *. constructor; [|done].
  intros Hin. specialize (Hf Hin). by rewrite lookup_insert_eq in Hf.
Qed.

Lemma fill_inv ps t k v :
  (fill ps t).2 !! k = Some v -> t !! k = Some v \/ k ∈ (fill ps t).1 /\ exists p, p ∈ ps /\ v = row p.
Proof.
  revert t. induction ps as [|p ps IH]; intros t; simpl; [by left|].
  specialize (IH (<[next_pk t := row p]> t)). destruct (fill ps _) as [pks t']. simpl in *.
  intros Hk. destruct (IH Hk) as [Hi|(Hin & q & Hq & ->)].
  - apply lookup_insert_Some in Hi as [[<- <-]|[_ Hi]]; [right|by left].
    split; [left|]. exists p. split; [left|done].
  - right. split; [by right|]. exists q. split; [by right|done].
Qed.

Lemma fill_count test ps t :
  count_where (fun _ => test) (fill ps t).2 = count_where (fun _ => test) t + len (filter (fun p => Is_true (test (row p))) ps).
Proof.
  revert t. induction ps as [|p ps IH]; intros t; simpl; [unfold len; simpl; lia|].
  specialize (IH (<[next_pk t := row p]> t)). destruct (fill ps _) as [pks t']. simpl in *.
  rewrite IH, count_where_insert_fresh by apply next_pk_fresh. rewrite filter_cons. unfold len.
  case_decide as D; rewrite Is_true_true in D; [rewrite D|apply not_true_is_false in D; rewrite D]; simpl; lia.
Qed.
End Fill.

Lemma create_allocations_run row ps w :
  create_allocations row ps w =
  (Ret (fill row ps (config_allocations (db w))).1,
   w {{ db ::= set_allocations (fun t => (fill row ps t).2) }}).
Proof.
  revert w. induction ps as [|p ps IH]; intros w; simpl.
  - by destruct w as [[]].
  - unfold mbind, M_bind. simpl. rewrite IH. cbn. by destruct (fill row ps _).
Qed.

(** The database after recording picks. *)
Definition recorded (row : Z * asset_row -> allocation_row) (ps : picks) (d : DB) : DB :=
  set_allocations (fun t => (fill row ps t).2) (set_assets (assign_table ps.*1) d).

Lemma record_allocations_run source ppk mode cup order ps q now w :
  let row := new_allocation source ppk mode cup order now in
  record_allocations source ppk mode cup order ps q now w =
  (Ret (mk_allocation_result mode q ps.*1 (fill row ps (config_allocations (db w))).1),
   w {{ db ::= recorded row ps }}).
Proof.
  intros row. unfold record_allocations, mbind, M_bind. rewrite assign_counts_run, create_allocations_run.
  reflexivity.
Qed.

(** ** What the selections pick *)

Lemma len_app {A} (l l' : list A) : len (l ++ l')%list = len l + len l'.
Proof. unfold len. rewrite length_app. lia. Qed.

Lemma len_replicate {A} n (x : A) : len (replicate n x) = Z.of_nat n.
Proof. unfold len. by rewrite length_replicate. Qed.

Lemma snoc_replicate {A} n (x : A) l : ((l ++ replicate n x) ++ [x] = l ++ replicate (S n) x)%list.
Proof. by rewrite <- app_assoc, <- replicate_cons_app. Qed.

Lemma append_until_spec fuel quantity ka selected :
  (Z.to_nat (quantity - len selected) <= fuel)%nat ->
  append_until fuel quantity ka selected
  = Some (selected ++ replicate (Z.to_nat (quantity - len selected)) ka)%list.
Proof.
  intros Hf. unfold append_until.
  destruct (while_stops (fun l => len l <? quantity) (fun l => l ++ [ka])%list
    (fun l => Z.to_nat (quantity - len l))
    (fun l => exists n, l = (selected ++ replicate n ka)%list /\ Z.of_nat n <= Z.max 0 (quantity - len selected)))
    with (fuel := fuel) (s := selected) as (l & -> & (n & -> & Hn) & Hc); [..|].
  - intros l Hl. rewrite len_app. apply Z.ltb_lt in Hl. change (len [ka]) with 1. lia.
  - intros l Hl (n & -> & Hn). apply Z.ltb_lt in Hl. rewrite len_app, len_replicate in Hl.
    exists (S n). split; [apply snoc_replicate|lia].
  - done.
  - exists 0%nat. split; [by rewrite app_nil_r|lia].
  - apply Z.ltb_ge in Hc. rewrite len_app, len_replicate in Hc. do 3 f_equal. lia.
Qed.

Lemma append_slots_spec fuel quantity ka slots selected :
  0 <= slots -> (Z.to_nat (quantity - len selected) <= fuel)%nat ->
  append_slots fuel quantity ka slots selected
  = Some (selected ++ replicate (Z.to_nat (Z.min slots (quantity - len selected))) ka)%list.
Proof.
  intros Hs Hf. unfold append_slots.
  destruct (while_stops (fun '(sl, l) => (0 <? sl) && (len l <? quantity))
    (fun '(sl, l) => (sl - 1, (l ++ [ka])%list)) (fun sl => Z.to_nat (quantity - len sl.2))
    (fun sl => exists n, sl = (slots - Z.of_nat n, (selected ++ replicate n ka)%list)
                         /\ Z.of_nat n <= Z.max 0 (Z.min slots (quantity - len selected))))
    with (fuel := fuel) (s := (slots, selected)) as (sl & -> & (n & -> & Hn) & Hc); [..|].
  - intros [sl l] [Hl%Z.ltb_lt Hl'%Z.ltb_lt]%andb_true_iff. simpl. rewrite len_app.
    change (len [ka]) with 1. lia.
  - intros ? Hl (n & -> & Hn). apply andb_true_iff in Hl as [Hl%Z.ltb_lt Hl'%Z.ltb_lt].
    rewrite len_app, len_replicate in Hl'. exists (S n). rewrite snoc_replicate. split; [f_equal|]; lia.
  - done.
  - exists 0%nat. rewrite app_nil_r. split; [f_equal|]; lia.
  - simpl. apply andb_false_iff in Hc as [Hc%Z.ltb_ge|Hc%Z.ltb_ge]; do 3 f_equal; [lia|].
    rewrite len_app, len_replicate in Hc. lia.
Qed.

(** What a selection may hand out: only candidates, and of one with a limit
    no more than it has left. *)
Definition picked_within (p : pool_row) (candidates extra : picks) : Prop :=
  (forall ka, ka ∈ extra -> ka ∈ candidates) /\
  (forall ka n, ka ∈ candidates -> asset_allocation_limit ka.2 p = Some n ->
     occurrences ka.1 extra.*1 <= remaining_slots n ka.2).

Lemma occurrences_replicate k n (ka : Z * asset_row) :
  occurrences k (replicate n ka).*1 = if bool_decide (ka.1 = k) then Z.of_nat n else 0.
Proof.
  induction n as [|n IH]; [by case_bool_decide|]. cbn [replicate].
  rewrite fmap_cons, occurrences_cons, IH. case_bool_decide; simpl; lia.
Qed.

Lemma occurrences_absent (extra candidates : picks) k :
  (forall ka, ka ∈ extra -> ka ∈ candidates) -> k ∉ candidates.*1 -> occurrences k extra.*1 = 0.
Proof.
  intros Hsub Hk. pose proof (occurrences_nonneg k extra.*1).
  destruct (decide (0 < occurrences k extra.*1)) as [H'|]; [|lia].
  apply occurrences_pos, list_elem_of_fmap in H' as (ka & -> & Hin).
  exfalso. apply Hk, list_elem_of_fmap. eauto.
Qed.

Lemma remaining_slots_nonneg n a : 0 <= remaining_slots n a.
Proof. unfold remaining_slots. lia. Qed.

Lemma limited_capacity_nonneg p l c : limited_capacity p l = Some c -> 0 <= c.
Proof.
  revert c. induction l as [|a l IH]; simpl; [intros c [= <-]; lia|]. intros c.
  destruct (limited_capacity p l) as [n|]; simpl; [|done].
  destruct (asset_allocation_limit a p) as [m|]; simpl; [|done]. intros [= <-].
  pose proof (IH n eq_refl). pose proof (remaining_slots_nonneg m a). lia.
Qed.

(** The picks taken from the head, a limited asset, before the rest. *)
Lemma picked_within_cons p ka cands taken extra limit :
  NoDup (ka :: cands).*1 -> asset_allocation_limit ka.2 p = Some limit ->
  Z.of_nat taken <= remaining_slots limit ka.2 -> picked_within p cands extra ->
  picked_within p (ka :: cands) (replicate taken ka ++ extra).
Proof.
  intros [Hka Hd]%NoDup_cons Hlim Ht [Hsub Hocc]. split.
  - intros kb [Hin|Hin]%elem_of_app; [|right; auto].
    apply elem_of_replicate_inv in Hin as ->. left.
  - intros kb n Hin Hn. rewrite fmap_app, occurrences_app, occurrences_replicate.
    apply elem_of_cons in Hin as [->|Hin].
    + rewrite bool_decide_true, (occurrences_absent extra cands) by done.
      rewrite Hlim in Hn. injection Hn as <-. lia.
    + rewrite bool_decide_false; [by rewrite Z.add_0_l; auto|].
      intros Heq. apply Hka. rewrite Heq. by apply list_elem_of_fmap_2.
Qed.

Lemma limited_capacity_cons p a l :
  limited_capacity p (a :: l) =
  match asset_allocation_limit a p, limited_capacity p l with
  | Some limit, Some n => Some (n + remaining_slots limit a)
  | _, _ => None
  end.
Proof.
  unfold limited_capacity at 1. cbn [fold_right]. fold (limited_capacity p l).
  by destruct (limited_capacity p l), (asset_allocation_limit a p).
Qed.

Lemma picked_within_unlimited p ka cands n :
  NoDup (ka :: cands).*1 -> asset_allocation_limit ka.2 p = None ->
  picked_within p (ka :: cands) (replicate n ka).
Proof.
  intros [Hka Hd]%NoDup_cons Hlim. split.
  - intros kb Hin. apply elem_of_replicate_inv in Hin as ->. left.
  - intros kb m [->|Hin]%elem_of_cons Hm; [congruence|].
    rewrite occurrences_replicate, bool_decide_false; [apply remaining_slots_nonneg|].
    intros Heq. apply Hka. rewrite Heq. by apply list_elem_of_fmap_2.
Qed.

(** The loop fails exactly when the candidates have too little left, and
    reports how much that is. *)
Lemma limited_loop_spec fuel p quantity cands selected available :
  NoDup cands.*1 -> len selected < quantity -> (Z.to_nat (quantity - len selected) <= fuel)%nat ->
  let room := limited_capacity p cands.*2 in
  if match room with None => false | Some c => c <? quantity - len selected end
  then limited_loop fuel p quantity cands selected available
       = Some (insufficient p quantity (available + default 0 room))
  else exists extra, limited_loop fuel p quantity cands selected available = Some (Ret (selected ++ extra)%list)
       /\ len (selected ++ extra)%list = quantity /\ picked_within p cands extra.
Proof.
  revert selected available. induction cands as [|ka cands IH]; intros selected available Hd Hlt Hf.
  - simpl. rewrite (proj2 (Z.ltb_lt _ _)) by lia. by rewrite Z.add_0_r.
  - cbn zeta. rewrite fmap_cons, limited_capacity_cons. cbn [limited_loop].
    pose proof Hd as [Hka Hd']%NoDup_cons.
    destruct (asset_allocation_limit ka.2 p) as [limit|] eqn:El.
    2:{ rewrite append_until_spec by done. cbn [fmap option_fmap option_map].
        eexists. split; [done|]. rewrite len_app, len_replicate.
        split; [lia|by apply picked_within_unlimited]. }
    pose proof (remaining_slots_nonneg limit ka.2) as Hs.
    rewrite append_slots_spec by done. cbn [mbind option_bind].
    set (taken := Z.to_nat (Z.min (remaining_slots limit ka.2) (quantity - len selected))).
    assert (Ht : Z.of_nat taken <= remaining_slots limit ka.2) by lia.
    rewrite len_app, len_replicate.
    destruct (Z.leb_spec quantity (len selected + Z.of_nat taken)) as [Hge|Hlt'].
    + assert (Hw : picked_within p (ka :: cands) (replicate taken ka ++ [])).
      { eapply picked_within_cons; [done..|]. split; [by intros ? ?%not_elem_of_nil|].
        intros. apply remaining_slots_nonneg. }
      rewrite app_nil_r in Hw.
      destruct (limited_capacity p cands.*2) as [c|] eqn:Ec.
      * apply limited_capacity_nonneg in Ec. rewrite (proj2 (Z.ltb_ge _ _)) by lia.
        eexists. split; [done|]. rewrite len_app, len_replicate. split; [lia|done].
      * eexists. split; [done|]. rewrite len_app, len_replicate. split; [lia|done].
    + specialize (IH (selected ++ replicate taken ka)%list (available + remaining_slots limit ka.2) Hd').
      cbn zeta in IH. rewrite len_app, len_replicate in IH.
      specialize (IH ltac:(lia) ltac:(lia)).
      assert (Heq : Z.of_nat taken = remaining_slots limit ka.2) by lia. rewrite Heq in IH.
      assert (Hrest : forall extra, picked_within p cands extra ->
        picked_within p (ka :: cands) (replicate taken ka ++ extra)) by (intros; by eapply picked_within_cons).
      destruct (limited_capacity p cands.*2) as [c|]; cbn [default] in IH |- *.
      * replace (c + remaining_slots limit ka.2 <? quantity - len selected)
          with (c <? quantity - (len selected + remaining_slots limit ka.2))
          by (destruct (Z.ltb_spec c (quantity - (len selected + remaining_slots limit ka.2))); symmetry;
              [apply Z.ltb_lt|apply Z.ltb_ge]; lia).
        destruct (c <? _).
        -- rewrite IH. unfold insufficient. do 3 f_equal. cbn. lia.
        -- destruct IH as (extra & -> & Hq & Hw). exists (replicate taken ka ++ extra)%list.
           rewrite app_assoc. auto.
      * destruct IH as (extra & -> & Hq & Hw). exists (replicate taken ka ++ extra)%list.
        rewrite app_assoc. auto.
Qed.

(** ** The three selections *)

Lemma candidates_NoDup (key : Z * asset_row -> list Z) test d :
  NoDup (order_by key (rows_where test (inventory_assets d))).*1.
Proof. apply order_by_NoDup, rows_where_NoDup. Qed.

(** What every pick of a mode fulfils. *)
Definition pick_allowed (d : DB) (ppk : Z) (p : pool_row) (mode : mode_t) (now : Z) (ids : list Z)
    (ka : Z * asset_row) : Prop :=
  inventory_assets d !! ka.1 = Some ka.2 /\ InventoryAsset.pool ka.2 = ppk /\
  in_use_or_available ka.2 = true /\ not_expired now ka.2 = true /\
  match mode with
  | EXCLUSIVE => InventoryAsset.status ka.2 = AVAILABLE /\ occurrences ka.1 ids = 1
  | SHARED_LIMITED => forall n, asset_allocation_limit ka.2 p = Some n ->
                        occurrences ka.1 ids <= remaining_slots n ka.2
  | SHARED_UNLIMITED => True
  end.

Definition picks_allowed (d : DB) (ppk : Z) (p : pool_row) (mode : mode_t) (quantity now : Z) (l : picks) : Prop :=
  len l = quantity /\ forall ka, ka ∈ l -> pick_allowed d ppk p mode now l.*1 ka.

Lemma shared_candidates_elem d ppk now ka :
  ka ∈ shared_candidates d ppk now <->
  inventory_assets d !! ka.1 = Some ka.2 /\ InventoryAsset.pool ka.2 = ppk /\
  in_use_or_available ka.2 = true /\ not_expired now ka.2 = true.
Proof.
  unfold shared_candidates. destruct ka as [k a]. rewrite elem_of_order_by, elem_of_rows_where. simpl.
  rewrite !andb_true_iff, bool_decide_eq_true. tauto.
Qed.

Lemma exclusive_candidates_elem d ppk now ka :
  ka ∈ exclusive_candidates d ppk now <->
  inventory_assets d !! ka.1 = Some ka.2 /\ InventoryAsset.pool ka.2 = ppk /\
  InventoryAsset.status ka.2 = AVAILABLE /\ not_expired now ka.2 = true.
Proof.
  unfold exclusive_candidates. destruct ka as [k a]. rewrite elem_of_order_by, elem_of_rows_where. simpl.
  rewrite !andb_true_iff, !bool_decide_eq_true. tauto.
Qed.

(** What a pool can give in a mode; [None] is no bound. *)
Definition capacity (d : DB) (ppk : Z) (p : pool_row) (mode : mode_t) (now : Z) : option Z :=
  match mode with
  | EXCLUSIVE => Some (len (exclusive_candidates d ppk now))
  | SHARED_LIMITED => limited_capacity p (shared_candidates d ppk now).*2
  | SHARED_UNLIMITED => if bool_decide (shared_candidates d ppk now = []) then Some 0 else None
  end.

Definition short_of (room : option Z) (quantity : Z) : bool :=
  match room with None => false | Some c => c <? quantity end.

Lemma select_exclusive_spec d ppk p quantity now :
  1 <= quantity ->
  let room := len (exclusive_candidates d ppk now) in
  if room <? quantity then select_exclusive_assets d ppk p quantity now = insufficient p quantity room
  else exists l, select_exclusive_assets d ppk p quantity now = Ret l /\
                 picks_allowed d ppk p EXCLUSIVE quantity now l.
Proof.
  intros Hq. cbn zeta. unfold select_exclusive_assets.
  destruct (Z.ltb_spec (len (exclusive_candidates d ppk now)) quantity) as [Hlt|Hge].
  - rewrite take_ge by (unfold len in *; lia). by rewrite (proj2 (Z.ltb_lt _ _)) by lia.
  - set (l := take _ _). assert (Hl : len l = quantity).
    { unfold l, len in *. rewrite length_take. lia. }
    rewrite Hl, Z.ltb_irrefl. exists l. split; [done|]. split; [done|].
    assert (Hd : NoDup l.*1).
    { unfold l. rewrite fmap_take. eapply sublist_NoDup; [apply candidates_NoDup|apply sublist_take]. }
    intros ka Hka. assert (Hin : ka ∈ exclusive_candidates d ppk now).
    { apply elem_of_take in Hka as (? & ? & _). by eapply list_elem_of_lookup_2. }
    apply exclusive_candidates_elem in Hin as (? & ? & Hs & ?).
    repeat split; try done; [by unfold in_use_or_available; rewrite Hs|].
    pose proof (occurrences_NoDup ka.1 l.*1 Hd).
    assert (0 < occurrences ka.1 l.*1) by (apply occurrences_pos; by apply list_elem_of_fmap_2). lia.
Qed.

(** Enough fuel is given, and a selection fails only for lack of stock. *)
Lemma select_assets_spec d ppk p mode quantity now fuel :
  1 <= quantity -> (Z.to_nat quantity <= fuel)%nat ->
  if short_of (capacity d ppk p mode now) quantity
  then select_assets fuel d ppk p mode quantity now
       = Some (insufficient p quantity (default 0 (capacity d ppk p mode now)))
  else exists l, select_assets fuel d ppk p mode quantity now = Some (Ret l) /\
                 picks_allowed d ppk p mode quantity now l.
Proof.
  intros Hq Hf. destruct mode; cbn [select_assets capacity short_of default].
  - pose proof (select_exclusive_spec d ppk p quantity now Hq) as H. cbn zeta in H.
    destruct (_ <? _); [by rewrite H|]. destruct H as (l & -> & Hl). by exists l.
  - pose proof (limited_loop_spec fuel p quantity (shared_candidates d ppk now) [] 0
      (candidates_NoDup _ _ d)) as H.
    change (len []) with 0 in H. rewrite Z.sub_0_r in H. specialize (H ltac:(lia) Hf). cbn zeta in H.
    unfold select_shared_limited_assets. destruct (limited_capacity _ _) as [c|]; cbn in H |- *.
    + destruct (c <? quantity); [by rewrite H|]. destruct H as (l & -> & Hlen & Hsub & Hocc).
      exists l. split; [done|]. split; [done|]. intros ka Hka. specialize (Hsub ka Hka).
      pose proof Hsub as Hin. apply shared_candidates_elem in Hin as (? & ? & ? & ?).
      repeat split; eauto.
    + destruct H as (l & -> & Hlen & Hsub & Hocc). exists l. split; [done|]. split; [done|].
      intros ka Hka. specialize (Hsub ka Hka). pose proof Hsub as Hin.
      apply shared_candidates_elem in Hin as (? & ? & ? & ?). repeat split; eauto.
  - unfold select_shared_unlimited_assets.
    destruct (shared_candidates d ppk now) as [|ka rest] eqn:E; cbn.
    + rewrite (proj2 (Z.ltb_lt _ _)) by lia. done.
    + eexists. split; [done|]. split; [rewrite len_replicate; lia|].
      intros kb Hin. apply elem_of_replicate_inv in Hin as ->.
      assert (Hka : ka ∈ shared_candidates d ppk now) by (rewrite E; left).
      apply shared_candidates_elem in Hka as (? & ? & ? & ?). repeat split; done.
Qed.
