(* ===== verification/InventoryLedger.v ===== *)
(** Runs of the inventory's operations (src/store/config_inventory_services.py
    and its callers) and the invariants they preserve: what an allocation, a
    selection by hand, a delivery picked up again and a release leave. *)

From S2P Require Import Prelude Models World Numbers Inventory InventoryPicks.

#[local] Open Scope string_scope.
#[local] Open Scope Z_scope.

Import InventoryPool InventoryAsset.

(** ** Runs of an allocation *)

Lemma recorded_world row ps w :
  w {{ db ::= recorded row ps }} = w {{ db := recorded row ps (db w) }}.
Proof. reflexivity. Qed.

Section Allocate.
Context (ppk : Z) (seen : pool_row) (cup order : option Z) (text : string) (now : Z).

(** A request that passes the checks is decided by the stock alone. *)
Lemma allocate_run quantity w p mode :
  1 <= quantity -> requested_mode seen text = Ret mode -> InventoryPool.is_active seen = true ->
  inventory_pools (db w) !! ppk = Some p ->
  let row := new_allocation "inventory_pool" ppk mode cup order now in
  let room := capacity (db w) ppk p mode now in
  if short_of room quantity
  then allocate_assets_from_pool ppk seen quantity cup order text now w
       = (Raise (InsufficientInventoryStock (title p) quantity (default 0 room)), w)
  else exists l, allocate_assets_from_pool ppk seen quantity cup order text now w
         = (Ret (mk_allocation_result mode quantity l.*1 (fill row l (config_allocations (db w))).1),
            w {{ db ::= recorded row l }})
       /\ picks_allowed (db w) ppk p mode quantity now l.
Proof.
  intros Hq Hm Ha Hp row room. unfold allocate_assets_from_pool.
  rewrite Z.max_l, (proj2 (Z.ltb_ge _ _)), Hm, Ha by lia.
  unfold atomic, get_pool, get_or_raise, get_db, liftR, mbind, M_bind. cbn -[select_assets record_allocations]. rewrite Hp.
  pose proof (select_assets_spec (db w) ppk p mode quantity now (selection_fuel quantity) Hq
    (le_n _)) as H. fold room in H.
  destruct (short_of room quantity).
  - rewrite H. by destruct w.
  - destruct H as (l & -> & Hl). exists l. split; [|done]. cbn -[record_allocations].
    rewrite record_allocations_run. reflexivity.
Qed.

(** Whatever the request, nothing is changed unless it succeeds. *)
Lemma allocate_inv quantity w r w' :
  allocate_assets_from_pool ppk seen quantity cup order text now w = (r, w') ->
  (exists e, r = Raise e /\ w' = w) \/
  exists p mode l, inventory_pools (db w) !! ppk = Some p /\ requested_mode seen text = Ret mode /\
    1 <= quantity /\ picks_allowed (db w) ppk p mode quantity now l /\
    let row := new_allocation "inventory_pool" ppk mode cup order now in
    r = Ret (mk_allocation_result mode quantity l.*1 (fill row l (config_allocations (db w))).1) /\
    w' = w {{ db ::= recorded row l }}.
Proof.
  intros E. destruct (Z.ltb_spec quantity 1) as [Hlt|Hq].
  { left. unfold allocate_assets_from_pool in E. rewrite (proj2 (Z.ltb_lt _ 1)) in E by lia.
    injection E as <- <-. eauto. }
  assert (Hguard : (Z.max quantity 0 <? 1) = false) by (apply Z.ltb_ge; lia).
  destruct (requested_mode seen text) as [mode|e] eqn:Hm.
  2:{ left. unfold allocate_assets_from_pool, mbind, M_bind in E. rewrite Hguard, Hm in E.
      injection E as <- <-. eauto. }
  destruct (InventoryPool.is_active seen) eqn:Ha.
  2:{ left. unfold allocate_assets_from_pool, mbind, M_bind in E. rewrite Hguard, Hm, Ha in E.
      injection E as <- <-. eauto. }
  destruct (inventory_pools (db w) !! ppk) as [p|] eqn:Hp.
  2:{ left. unfold allocate_assets_from_pool, mbind, M_bind, atomic, get_pool, get_or_raise in E.
      rewrite Hguard, Hm, Ha in E. simpl in E. rewrite Hp in E. injection E as <- <-.
      eexists. split; [done|]. by destruct w. }
  pose proof (allocate_run quantity w p mode Hq Hm Ha Hp) as H. cbn zeta in H.
  destruct (short_of _ _).
  - left. rewrite H in E. injection E as <- <-. eauto.
  - right. destruct H as (l & H & Hl). rewrite H in E. injection E as <- <-. by exists p, mode, l.
Qed.
End Allocate.

(** The picks of a selection by hand are those the validation accepted. *)
Lemma rows_of_ids d ids :
  (forall k, k ∈ ids -> is_Some (inventory_assets d !! k)) -> (rows_of d ids).*1 = ids.
Proof.
  induction ids as [|k ids IH]; intros H; [done|]. unfold rows_of. simpl.
  destruct (H k) as [a ->]; [left|]. simpl. f_equal. apply IH. intros. apply H. by right.
Qed.

Lemma rows_of_elem d ids ka : ka ∈ rows_of d ids -> ka.1 ∈ ids /\ inventory_assets d !! ka.1 = Some ka.2.
Proof.
  unfold rows_of. intros (k & Hk & E)%list_elem_of_omap.
  destruct (inventory_assets d !! k) as [a|] eqn:Ea; [|done]. simpl in E. injection E as <-. auto.
Qed.

Lemma all_found_spec d ids :
  all_found d (counter ids) = true <-> forall k, k ∈ ids -> is_Some (inventory_assets d !! k).
Proof.
  unfold all_found. rewrite forallb_forall. split.
  - intros H k Hk. apply counter_keys, list_elem_of_fmap in Hk as ([k' n] & -> & Hin).
    apply list_elem_of_In, H in Hin. simpl in *. by destruct (inventory_assets d !! k').
  - intros H [k n] Hin%list_elem_of_In. simpl.
    destruct (H k) as [a ->]; [|done]. apply counter_keys. by apply (list_elem_of_fmap_2 fst) in Hin.
Qed.

Lemma validate_selected_all ppk p mode now l u :
  validate_selected ppk p mode now l = Ret u ->
  forall a n, (a, n) ∈ l -> validate_selected_asset ppk p mode n now a = Ret tt.
Proof.
  induction l as [|[a n] l IH]; simpl; [by intros _ ? ? ?%not_elem_of_nil|].
  intros ([] & Ha & Hl)%result_bind_Ret b m [[= -> ->]|Hin]%elem_of_cons; [done|eauto].
Qed.

Lemma validate_selected_asset_ok d ppk p mode n now k a ids :
  inventory_assets d !! k = Some a -> n = occurrences k ids ->
  validate_selected_asset ppk p mode n now a = Ret tt ->
  pick_allowed d ppk p mode now ids (k, a).
Proof.
  intros Hk -> E. unfold validate_selected_asset, refuse in E.
  destruct (bool_decide_reflect (pool a = ppk)) as [Hpool|]; [|done]. simpl in E.
  destruct (bool_decide (status a ∈ unusable_statuses)) eqn:Hs; [done|].
  destruct (not_expired now a) eqn:He; [|done]. simpl in E.
  assert (Hin : in_use_or_available a = true).
  { apply bool_decide_eq_false in Hs. unfold in_use_or_available. apply bool_decide_eq_true.
    unfold unusable_statuses in Hs. rewrite !not_elem_of_cons in Hs.
    destruct (status a); try (by left); try (by right; left); tauto. }
  repeat split; try done. simpl. destruct mode; simpl in E; [|..|done].
  - destruct (Z.eqb_spec (occurrences k ids) 1); [|done].
    destruct (bool_decide_reflect (status a = AVAILABLE)); [done|done].
  - rewrite Hin in E. simpl in E. intros m Hm. rewrite Hm in E.
    by destruct (Z.ltb_spec (remaining_slots m a) (occurrences k ids)).
Qed.

Section AllocateSelected.
Context (ppk : Z) (seen : pool_row) (cup order : option Z) (text : string) (now : Z).

Lemma allocate_selected_inv ids w r w' :
  allocate_selected_assets_from_pool ppk seen ids cup order text now w = (r, w') ->
  (exists e, r = Raise e /\ w' = w) \/
  exists p mode keys, inventory_pools (db w) !! ppk = Some p /\ requested_mode seen text = Ret mode /\
    coerce_asset_ids ids = Ret keys /\ keys <> [] /\
    let l := rows_of (db w) keys in
    picks_allowed (db w) ppk p mode (len keys) now l /\ l.*1 = keys /\
    let row := new_allocation "inventory_pool_manual_selection" ppk mode cup order now in
    r = Ret (mk_allocation_result mode (len l) keys (fill row l (config_allocations (db w))).1) /\
    w' = w {{ db ::= recorded row l }}.
Proof.
  unfold allocate_selected_assets_from_pool, mbind, M_bind at 1, liftR at 1. intros E.
  destruct (coerce_asset_ids ids) as [keys|e] eqn:Hk; [|injection E as <- <-; eauto].
  destruct (bool_decide_reflect (keys = [])) as [|Hne]; [injection E as <- <-; eauto|].
  unfold M_bind at 1, liftR at 1 in E.
  destruct (requested_mode seen text) as [mode|e] eqn:Hm; [|injection E as <- <-; eauto].
  destruct (InventoryPool.is_active seen) eqn:Ha; cbn [negb] in E; [|injection E as <- <-; eauto].
  unfold atomic, get_pool, get_or_raise, get_db, liftR, M_bind in E.
  destruct (inventory_pools (db w) !! ppk) as [p|] eqn:Hp.
  2:{ injection E as <- <-. left. eexists. split; [done|]. by destruct w. }
  destruct (all_found (db w) (counter keys)) eqn:Hf; cbn [negb] in E.
  2:{ injection E as <- <-. left. eexists. split; [done|]. by destruct w. }
  destruct (validate_selected _ _ _ _ _) as [u|e] eqn:Hv.
  2:{ injection E as <- <-. left. eexists. split; [done|]. by destruct w. }
  pose proof (proj1 (all_found_spec (db w) keys) Hf) as Hfound.
  pose proof (rows_of_ids (db w) keys Hfound) as Hids.
  rewrite record_allocations_run in E. injection E as <- <-. right.
  exists p, mode, keys. rewrite Hids. do 4 (split; [done|]). cbn zeta. split; [|done].
  split.
  - unfold len. by rewrite <- Hids at 2; rewrite length_fmap.
  - intros ka Hka. destruct ka as [k a]. apply rows_of_elem in Hka as [Hin Hka]. simpl in *.
    rewrite Hids. eapply validate_selected_asset_ok; [done|reflexivity|].
    eapply validate_selected_all; [exact Hv|]. unfold counted_assets.
    apply list_elem_of_omap. apply counter_keys, list_elem_of_fmap in Hin as ([k' n] & -> & Hin). simpl in *.
    exists (k', n). split; [done|]. cbn. rewrite Hka. cbn. do 2 f_equal.
    rewrite <- counter_total. symmetry. by apply total_elem; [apply counter_NoDup|].
Qed.
End AllocateSelected.

(** ** Giving back *)

Definition give_back (now j : Z) (al : allocation_row) (a : asset_row) (d : DB) : DB :=
  let d1 := set_allocations (alter (released now) j) d in
  set_assets (insert (Allocation.asset al)
    (given_back (exists_where (fun _ => active_use (Allocation.asset al)) (config_allocations d1)) a)) d1.

Lemma release_one_run now j al a w :
  inventory_assets (db w) !! Allocation.asset al = Some a ->
  release_one now (j, al) w = (Ret tt, w {{ db ::= give_back now j al a }}).
Proof.
  intros Ha. unfold release_one, get_or_raise, get_db, put_db, modify, mbind, M_bind. simpl.
  rewrite Ha. reflexivity.
Qed.

Lemma release_one_Ret now j al w u w' :
  release_one now (j, al) w = (Ret u, w') ->
  exists a, inventory_assets (db w) !! Allocation.asset al = Some a /\
            w' = w {{ db ::= give_back now j al a }}.
Proof.
  intros E. destruct (inventory_assets (db w) !! Allocation.asset al) as [a|] eqn:Ha.
  - rewrite (release_one_run now j al a w Ha) in E. injection E as <- <-. by exists a.
  - unfold release_one, get_or_raise, put_db, modify, mbind, M_bind in E. simpl in E.
    by rewrite Ha in E.
Qed.

(** What holds after any one active allocation is given back holds after all. *)
Lemma release_all (P : DB -> Prop) now :
  (forall d j al a, P d -> config_allocations d !! j = Some al -> Allocation.status al = Allocation.ACTIVE ->
     inventory_assets d !! Allocation.asset al = Some a -> P (give_back now j al a d)) ->
  forall rows w u w', NoDup rows.*1 ->
  (forall jal, jal ∈ rows -> config_allocations (db w) !! jal.1 = Some jal.2 /\
                             Allocation.status jal.2 = Allocation.ACTIVE) ->
  P (db w) -> for_each (release_one now) rows w = (Ret u, w') -> P (db w').
Proof.
  intros HP rows. induction rows as [|[j al] rows IH]; intros w u w' Hd Hrows Hw E.
  - by injection E as _ <-.
  - apply M_bind_Ret in E as ([] & w1 & E1 & E). apply release_one_Ret in E1 as (a & Ha & ->).
    destruct (Hrows (j, al)) as [Hj Hs]; [left|]. rewrite fmap_cons in Hd.
    apply NoDup_cons in Hd as [Hj' Hd].
    apply (IH (w {{ db ::= give_back now j al a }}) u w' Hd); [|by apply HP|exact E]. intros [j2 al2] Hin.
    destruct (Hrows (j2, al2)) as [Hj2 Hs2]; [by right|]. split; [|done].
    cbn. rewrite lookup_alter_ne; [done|]. intros ->. apply Hj'.
    by apply (list_elem_of_fmap_2 fst) in Hin.
Qed.

Lemma release_inv cup md lmd now w r w' :
  release_inventory_allocation_for_cup_item cup md lmd now w = (r, w') ->
  db w' = db w \/
  exists test w1 u, for_each (release_one now) (allocations_where (fun pk al => test pk al) (db w)) w = (Ret u, w1) /\
    (forall pk al, test pk al = true -> Allocation.cup al = Some cup /\ Allocation.status al = Allocation.ACTIVE) /\
    r = Ret (len (allocations_where (fun pk al => test pk al) (db w))) /\ w' = w1.
Proof.
  unfold release_inventory_allocation_for_cup_item. intros E.
  destruct (item_inventory_identity _) as [aid asid].
  destruct (negb (json_truthy aid) && negb (json_truthy asid)); [injection E as _ <-; by left|].
  unfold mbind at 1, M_bind at 1, liftR at 1 in E.
  match type of E with context [match ?x with Ret _ => _ | Raise _ => _ end] =>
    destruct x as [named|e] end; [|injection E as _ <-; by left].
  unfold atomic, get_db, mbind, M_bind in E.
  set (test := fun pk al => bool_decide (Allocation.cup al = Some cup)
        && bool_decide (Allocation.status al = Allocation.ACTIVE) && named pk al) in *.
  destruct (for_each (release_one now) (allocations_where test (db w)) w) as [[u|e] w1] eqn:E1;
    injection E as <- <-; [|by left].
  right. exists test, w1, u. repeat split; try done;
    unfold test in *; apply andb_true_iff in H as [H _]; apply andb_true_iff in H as [H1 H2];
    by apply bool_decide_eq_true in H1, H2.
Qed.

Lemma allocations_where_elem test d j al :
  (j, al) ∈ allocations_where test d <-> config_allocations d !! j = Some al /\ test j al = true.
Proof. unfold allocations_where. by rewrite elem_of_order_by, elem_of_rows_where. Qed.

(** What giving back preserves, releasing an item preserves. *)
Lemma release_preserves (P : DB -> Prop) cup md lmd now :
  (forall d j al a, P d -> config_allocations d !! j = Some al -> Allocation.status al = Allocation.ACTIVE ->
     inventory_assets d !! Allocation.asset al = Some a -> P (give_back now j al a d)) ->
  forall w r w', release_inventory_allocation_for_cup_item cup md lmd now w = (r, w') ->
  P (db w) -> P (db w').
Proof.
  intros HP w r w' E Hw. apply release_inv in E as [->|(test & w1 & u & E & Ht & _ & ->)]; [done|].
  eapply (release_all P now HP); [| |exact Hw|exact E].
  - apply order_by_NoDup, rows_where_NoDup.
  - intros [j al] (Hj & Hs)%allocations_where_elem. apply Ht in Hs as [_ Hs]. done.
Qed.

(** ** What is always true of the inventory *)

(** The number of active allocations of an asset. *)
Definition uses (d : DB) (k : Z) : Z := count_where (fun _ => active_use k) (config_allocations d).

(** Counters and statuses agree with the allocations. *)
Record ledger_balanced (d : DB) : Prop := {
  counted : forall k a, inventory_assets d !! k = Some a -> current_allocations a = uses d k;
  free_unused : forall k a, inventory_assets d !! k = Some a -> status a = AVAILABLE -> current_allocations a = 0;
  assigned_used : forall k a, inventory_assets d !! k = Some a -> status a = ASSIGNED -> 0 < current_allocations a;
}.

(** Rows are of the shape their columns promise. *)
Record rows_typed (d : DB) : Prop := {
  asset_known : forall j al, config_allocations d !! j = Some al -> is_Some (inventory_assets d !! Allocation.asset al);
  pool_known : forall k a, inventory_assets d !! k = Some a -> is_Some (inventory_pools d !! pool a);
  counter_positive : forall k a, inventory_assets d !! k = Some a -> 0 <= current_allocations a;
  release_dated : forall j al, config_allocations d !! j = Some al ->
    Allocation.status al = Allocation.RELEASED <-> is_Some (Allocation.released_at al);
}.

Section Recorded.
Context (source : string) (ppk : Z) (mode : mode_t) (cup order : option Z) (now : Z).

Lemma recorded_uses d l k :
  uses (recorded (new_allocation source ppk mode cup order now) l d) k = uses d k + occurrences k l.*1.
Proof.
  unfold uses, recorded, set_allocations, set_assets. cbn. rewrite fill_count. f_equal.
  induction l as [|ka l IH]; [done|].
  rewrite fmap_cons, occurrences_cons, <- IH, filter_cons. unfold len.
  assert (Hu : active_use k (new_allocation source ppk mode cup order now ka) = bool_decide (ka.1 = k)).
  { unfold active_use, new_allocation. cbn. by rewrite andb_true_r. }
  rewrite Hu. case_decide as D;
    simpl; lia.
Qed.

Lemma recorded_assets d l k :
  inventory_assets (recorded (new_allocation source ppk mode cup order now) l d) !! k =
  (fun a => if bool_decide (k ∈ l.*1) then assigned (occurrences k l.*1) a else a) <$> inventory_assets d !! k.
Proof. unfold recorded, set_allocations, set_assets. cbn. apply lookup_assign_table. Qed.

Lemma recorded_balanced d l :
  ledger_balanced d -> ledger_balanced (recorded (new_allocation source ppk mode cup order now) l d).
Proof.
  intros [Hc Hf Ha].
  split; intros k a; rewrite recorded_assets; intros (b & Hb & ->)%fmap_Some_1;
    rewrite ?recorded_uses; case_bool_decide as Hin; cbn.
  - by rewrite (Hc k b).
  - assert (occurrences k l.*1 = 0) as ->.
    { pose proof (occurrences_nonneg k l.*1). apply Z.le_antisymm; [|done].
      apply Z.nlt_ge. by rewrite <- occurrences_pos. }
    rewrite (Hc k b) by done. lia.
  - done.
  - by apply (Hf k).
  - intros _. apply occurrences_pos in Hin. rewrite (Hc k b) by done.
    unfold uses. pose proof (count_where_nonneg (fun _ => active_use k) (config_allocations d)). lia.
  - by apply (Ha k).
Qed.

Lemma recorded_typed d l :
  (forall ka, ka ∈ l -> is_Some (inventory_assets d !! ka.1)) ->
  rows_typed d -> rows_typed (recorded (new_allocation source ppk mode cup order now) l d).
Proof.
  intros Hl [Hk Hp Hc Hr].
  assert (Hsome : forall k, is_Some (inventory_assets d !! k) ->
    is_Some (inventory_assets (recorded (new_allocation source ppk mode cup order now) l d) !! k)).
  { intros k H. rewrite recorded_assets. by apply fmap_is_Some. }
  split.
  - intros j al H. apply Hsome. unfold recorded, set_allocations, set_assets in H. cbn in H.
    apply fill_inv in H as [H|(_ & ka & Hin & ->)]; [by eapply Hk|by apply Hl].
  - intros k a. rewrite recorded_assets. intros (b & Hb & ->)%fmap_Some_1.
    case_bool_decide; by eapply (Hp k b).
  - intros k a. rewrite recorded_assets. intros (b & Hb & ->)%fmap_Some_1. pose proof (Hc k b Hb).
    case_bool_decide; cbn; [|done]. pose proof (occurrences_nonneg k l.*1). lia.
  - intros j al H. unfold recorded, set_allocations, set_assets in H. cbn in H.
    apply fill_inv in H as [H|(_ & ka & _ & ->)]; [by eapply Hr|]. cbn. split; [done|by intros []].
Qed.
End Recorded.

Lemma picks_known d ppk p mode quantity now l :
  picks_allowed d ppk p mode quantity now l -> forall ka, ka ∈ l -> is_Some (inventory_assets d !! ka.1).
Proof. intros [_ H] ka Hka. destruct (H ka Hka) as [-> _]. done. Qed.

Lemma active_use_true k al :
  active_use k al = true <-> Allocation.asset al = k /\ Allocation.status al = Allocation.ACTIVE.
Proof. unfold active_use. by rewrite andb_true_iff, !bool_decide_eq_true. Qed.

Lemma give_back_uses now j al a d k :
  config_allocations d !! j = Some al -> Allocation.status al = Allocation.ACTIVE ->
  uses (give_back now j al a d) k = uses d k - Z.b2z (bool_decide (Allocation.asset al = k)).
Proof.
  intros Hj Hs. unfold uses, give_back, set_assets, set_allocations. cbn.
  rewrite (alter_as_insert _ _ _ _ Hj), (count_where_insert _ _ _ _ _ Hj).
  unfold active_use. cbn. rewrite Hs. rewrite (bool_decide_false (Allocation.RELEASED = _)) by done.
  rewrite (bool_decide_true (Allocation.ACTIVE = _)) by done. rewrite andb_true_r, andb_false_r. simpl. lia.
Qed.

Lemma give_back_assets now j al a d :
  inventory_assets (give_back now j al a d)
  = <[Allocation.asset al := given_back (0 <? uses (give_back now j al a d) (Allocation.asset al)) a]>
      (inventory_assets d).
Proof.
  unfold give_back at 1. rewrite exists_where_count. reflexivity.
Qed.

Lemma give_back_balanced now j al a d :
  ledger_balanced d -> config_allocations d !! j = Some al -> Allocation.status al = Allocation.ACTIVE ->
  inventory_assets d !! Allocation.asset al = Some a -> ledger_balanced (give_back now j al a d).
Proof.
  intros [Hc Hf Hu] Hj Hs Ha. pose proof (give_back_uses now j al a d) as Huse.
  specialize (fun k => Huse k Hj Hs).
  assert (Hpos : 0 < uses d (Allocation.asset al)).
  { apply count_where_pos, exists_where_true. exists j, al. split; [done|]. by apply active_use_true. }
  pose proof (Hc _ _ Ha) as Hca.
  assert (Hself : uses (give_back now j al a d) (Allocation.asset al) = current_allocations a - 1).
  { rewrite Huse, bool_decide_true by done. simpl. lia. }
  split; intros k b; rewrite give_back_assets;
    (intros [[<- <-]|[Hne Hb]]%lookup_insert_Some;
      [|rewrite ?Huse, ?bool_decide_false by done; simpl; rewrite ?Z.sub_0_r; eauto]);
    rewrite Hself; cbn.
  - lia.
  - destruct (Z.ltb_spec 0 (current_allocations a - 1)); cbn; [|lia].
    intros Hst. pose proof (Hf _ _ Ha Hst). lia.
  - destruct (Z.ltb_spec 0 (current_allocations a - 1)); cbn; [lia|].
    case_bool_decide; done.
Qed.

Lemma give_back_typed now j al a d :
  rows_typed d -> config_allocations d !! j = Some al -> inventory_assets d !! Allocation.asset al = Some a ->
  rows_typed (give_back now j al a d).
Proof.
  intros [Hk Hp Hc Hr] Hj Ha. unfold give_back, set_assets, set_allocations. split; cbn.
  - intros i bl [(E & bl' & Hi & ->)|[_ Hi]]%lookup_alter_Some; apply lookup_insert_is_Some';
      right; exact (Hk _ _ Hi).
  - intros k b [[<- <-]|[_ Hb]]%lookup_insert_Some; [exact (Hp _ _ Ha)|by eapply Hp].
  - intros k b [[<- <-]|[_ Hb]]%lookup_insert_Some; [cbn; lia|by eapply Hc].
  - intros i bl [(E & bl' & Hi & ->)|[_ Hi]]%lookup_alter_Some; [|by eapply Hr]. by cbn.
Qed.

(** ** Labels, and picking up a delivery where it stopped *)

Definition relabelled (label : string) (number : Z) (pks : list Z) (t : gmap Z allocation_row)
    : gmap Z allocation_row :=
  fold_left (fun t k => alter (add_label label number) k t) pks t.

Lemma add_label_idem label number al : add_label label number (add_label label number al) = add_label label number al.
Proof. unfold add_label. cbn. by rewrite insert_insert_eq. Qed.

Lemma lookup_relabelled label number pks t k :
  relabelled label number pks t !! k =
  (fun al => if bool_decide (k ∈ pks) then add_label label number al else al) <$> t !! k.
Proof.
  revert t. induction pks as [|j pks IH]; intros t; simpl; [by destruct (t !! k)|].
  rewrite IH. destruct (decide (j = k)) as [->|Hne].
  - rewrite lookup_alter_eq, (bool_decide_true (k ∈ k :: pks)) by left. destruct (t !! k); simpl; [|done].
    case_bool_decide; by rewrite ?add_label_idem.
  - rewrite lookup_alter_ne by done. destruct (t !! k); simpl; [|done]. f_equal.
    rewrite (bool_decide_ext (k ∈ j :: pks) (k ∈ pks)); [done|]. rewrite elem_of_cons. naive_solver.
Qed.

Lemma label_run label number pks w :
  label_allocations label number pks w = (Ret tt, w {{ db ::= set_allocations (relabelled label number pks) }}).
Proof.
  unfold label_allocations. revert w. induction pks as [|k pks IH]; intros w; [by destruct w as [[]]|].
  cbn [for_each]. unfold mbind, M_bind. cbn [put_db modify]. rewrite IH. reflexivity.
Qed.

Lemma count_where_relabelled label number (test : allocation_row -> bool) pks t :
  (forall al, test (add_label label number al) = test al) ->
  count_where (fun _ => test) (relabelled label number pks t) = count_where (fun _ => test) t.
Proof.
  intros Ht. revert t. induction pks as [|k pks IH]; intros t; [done|]. simpl. rewrite IH.
  destruct (t !! k) as [al|] eqn:E; [|by rewrite alter_id'].
  rewrite (alter_as_insert _ _ _ _ E), (count_where_insert _ _ _ _ _ E), Ht. lia.
Qed.

Section Missing.
Context (mine : allocation_row -> bool) (label : string) (number ppk : Z) (seen : pool_row)
  (quantity : Z) (cup order : option Z) (text : string) (now : Z).

Lemma allocate_missing_inv w r w' :
  allocate_missing mine label number ppk seen quantity cup order text now w = (r, w') ->
  let wanted := if quantity =? 0 then 1 else quantity in
  let before := made_before mine (db w) in
  w' = w /\ (forall pks, r = Ret pks -> pks = before /\ wanted <= len before) \/
  exists p mode l, inventory_pools (db w) !! ppk = Some p /\
    picks_allowed (db w) ppk p mode (wanted - len before) now l /\
    let row := new_allocation "inventory_pool" ppk mode cup order now in
    let new := (fill row l (config_allocations (db w))).1 in
    r = Ret (before ++ new)%list /\
    w' = w {{ db ::= fun d => set_allocations (relabelled label number new) (recorded row l d) }}.
Proof.
  cbn zeta. unfold allocate_missing, get_db. unfold mbind at 1, M_bind at 1.
  set (wanted := if quantity =? 0 then 1 else quantity). set (before := made_before mine (db w)).
  destruct (Z.eqb_spec (Z.max (wanted - len before) 0) 0) as [Hz|Hz].
  - intros [= <- <-]. left. split; [done|]. intros pks [= <-]. split; [done|lia].
  - unfold mbind, M_bind.
    destruct (allocate_assets_from_pool _ _ _ _ _ _ _ w) as [r1 w1] eqn:E.
    apply allocate_inv in E as [(e & -> & ->)|(p & mode & l & Hp & _ & _ & Hl & -> & ->)].
    + intros [= <- <-]. left. by split.
    + rewrite label_run. intros [= <- <-]. right. exists p, mode, l.
      rewrite Z.max_l in Hl by lia. split; [done|]. split; [done|]. by split.
Qed.

Lemma made_before_elem d j :
  j ∈ made_before mine d <->
  exists al, config_allocations d !! j = Some al /\ mine al = true /\ Allocation.status al = Allocation.ACTIVE.
Proof.
  unfold made_before. rewrite list_elem_of_fmap. split.
  - intros ([k al] & -> & Hin). apply elem_of_order_by, elem_of_rows_where in Hin as [Hk Ht]. simpl in *.
    apply andb_true_iff in Ht as [Hm Hs]. apply bool_decide_eq_true in Hs. by exists al.
  - intros (al & Hk & Hm & Hs). exists (j, al). split; [done|].
    apply elem_of_order_by, elem_of_rows_where. split; [done|]. rewrite Hm. by apply bool_decide_eq_true.
Qed.

Lemma made_before_NoDup d : NoDup (made_before mine d).
Proof. apply order_by_NoDup, rows_where_NoDup. Qed.

(** All that was wanted is found again. *)
Lemma allocate_missing_found w pks w' :
  (forall source mode ka, mine (add_label label number (new_allocation source ppk mode cup order now ka)) = true) ->
  allocate_missing mine label number ppk seen quantity cup order text now w = (Ret pks, w') ->
  made_before mine (db w') ≡ₚ pks /\ (if quantity =? 0 then 1 else quantity) <= len pks.
Proof.
  intros Hmine E. apply allocate_missing_inv in E as [[-> H]|(p & mode & l & Hp & [Hlen Hl] & Hr & ->)].
  - destruct (H pks eq_refl) as [-> ?]. done.
  - set (row := new_allocation _ _ _ _ _ _) in *. set (t := config_allocations (db w)) in *.
    injection Hr as ->. pose proof (fill_rows row l t) as Hrows.
    assert (Hnew : forall j, j ∈ (fill row l t).1 -> exists ka, (fill row l t).2 !! j = Some (row ka)).
    { intros j (i & Hi)%list_elem_of_lookup. destruct (Forall2_lookup_l _ _ _ _ _ Hrows Hi) as (ka & _ & H). eauto. }
    split.
    + apply NoDup_Permutation; [apply made_before_NoDup| |].
      { apply NoDup_app. split; [apply made_before_NoDup|]. split; [|apply fill_NoDup].
        intros j (al & Hj & _)%made_before_elem Hin%fill_fresh. fold t in Hj. congruence. }
      intros j. rewrite elem_of_app, !made_before_elem. unfold recorded, set_allocations, set_assets. cbn.
      fold t. setoid_rewrite lookup_relabelled. split.
      * intros (al & Hj & Hm & Hs). case_bool_decide as Hin; [by right|left].
        apply fmap_Some_1 in Hj as (bl & Hj & ->).
        apply fill_inv in Hj as [Hj|[? _]]; [by exists bl|done].
      * intros [(al & Hj & Hm & Hs)|Hin].
        -- exists al. rewrite (fill_old row l t j al Hj), bool_decide_false; [done|].
           intros Hin%fill_fresh. congruence.
        -- destruct (Hnew j Hin) as [ka ->]. rewrite bool_decide_true by done. simpl.
           eexists. split; [done|]. split; [apply Hmine|done].
    + apply Forall2_length in Hrows. revert Hlen. unfold len. rewrite length_app, Hrows. lia.
Qed.

Lemma allocate_missing_done w :
  (if quantity =? 0 then 1 else quantity) <= len (made_before mine (db w)) ->
  allocate_missing mine label number ppk seen quantity cup order text now w
  = (Ret (made_before mine (db w)), w).
Proof.
  intros H. unfold allocate_missing, get_db. unfold mbind at 1, M_bind at 1.
  by rewrite (proj2 (Z.eqb_eq _ 0)) by lia.
Qed.
End Missing.

Lemma source_label_mine order source ppk now s mode ka :
  let al := add_label "plan_delivery_source_id" source (new_allocation s ppk mode None (Some order) now ka) in
  bool_decide (Allocation.order al = Some order) && labelled "plan_delivery_source_id" source al = true.
Proof.
  unfold labelled. cbn. rewrite lookup_insert_eq, Z.eqb_refl, bool_decide_true by done. done.
Qed.

Lemma rule_label_mine order cup rule ppk now s mode ka :
  let al := add_label "recipe_rule_id" rule (new_allocation s ppk mode (Some cup) (Some order) now ka) in
  bool_decide (Allocation.order al = Some order) && bool_decide (Allocation.cup al = Some cup)
  && labelled "recipe_rule_id" rule al = true.
Proof.
  unfold labelled. cbn. rewrite lookup_insert_eq, Z.eqb_refl, !bool_decide_true by done. done.
Qed.

(** ** Every operation *)

(** One operation of the inventory, whatever it answers. *)
Inductive inventory_step (w : World) : World -> Prop :=
| step_allocate ppk seen quantity cup order text now r w' :
    allocate_assets_from_pool ppk seen quantity cup order text now w = (r, w') -> inventory_step w w'
| step_allocate_selected ppk seen ids cup order text now r w' :
    allocate_selected_assets_from_pool ppk seen ids cup order text now w = (r, w') -> inventory_step w w'
| step_source order source ppk seen quantity now r w' :
    source_allocations order source ppk seen quantity now w = (r, w') -> inventory_step w w'
| step_rule order cup rule ppk seen quantity text now r w' :
    rule_allocations order cup rule ppk seen quantity text now w = (r, w') -> inventory_step w w'
| step_release cup item_metadata link_metadata now r w' :
    release_inventory_allocation_for_cup_item cup item_metadata link_metadata now w = (r, w') ->
    inventory_step w w'.

(** A property of the inventory that recording, labelling and giving back
    preserve holds wherever operations lead. *)
Lemma inventory_invariant (P : DB -> Prop) :
  (forall source ppk mode cup order now l d,
     (forall ka, ka ∈ l -> is_Some (inventory_assets d !! ka.1)) ->
     P d -> P (recorded (new_allocation source ppk mode cup order now) l d)) ->
  (forall label number pks d, P d -> P (set_allocations (relabelled label number pks) d)) ->
  (forall now j al a d, P d -> config_allocations d !! j = Some al ->
     Allocation.status al = Allocation.ACTIVE -> inventory_assets d !! Allocation.asset al = Some a ->
     P (give_back now j al a d)) ->
  forall w w', P (db w) -> rtc inventory_step w w' -> P (db w').
Proof.
  intros Hrec Hlab Hrel w w' Hw Hsteps.
  induction Hsteps as [|w w1 w' Hstep _ IH]; [done|]. apply IH. clear IH w'.
  assert (Hmissing : forall mine label number ppk seen quantity cup order text now r w1,
    allocate_missing mine label number ppk seen quantity cup order text now w = (r, w1) -> P (db w1)).
  { intros * [[-> _]|(p & mode & l & _ & Hl & _ & ->)]%allocate_missing_inv; [done|].
    apply Hlab, Hrec; [by eapply picks_known|done]. }
  destruct Hstep as [* E|* E|* E|* E|* E].
  - apply allocate_inv in E as [(e & _ & ->)|(p & mode & l & _ & _ & _ & Hl & _ & ->)]; [done|].
    apply Hrec; [by eapply picks_known|done].
  - apply allocate_selected_inv in E as [(e & _ & ->)|(p & mode & keys & _ & _ & _ & _ & Hl & _ & _ & ->)]; [done|].
    apply Hrec; [by eapply picks_known|done].
  - by eapply Hmissing.
  - by eapply Hmissing.
  - eapply (release_preserves P); [|exact E|done]. intros. by apply Hrel.
Qed.
