(* ===== verification/CupEditingSpec.v ===== *)
(** What editing a cup by hand guarantees: no two items of a cup share a place,
    moving an item exchanges it with its neighbour, and nothing outside the cup
    changes but links' names and the inventory, whose books stay balanced. *)

From S2P Require Import Prelude Models World Numbers Inventory InventoryPicks InventoryLedger Cups ClientManagement CupEditing.

#[local] Open Scope string_scope.
#[local] Open Scope Z_scope.

(** The books an administrator's edits keep. *)
Record cup_book (d : DB) : Prop := {
  cb_places : forall k1 k2 i1 i2, cup_items d !! k1 = Some i1 -> cup_items d !! k2 = Some i2 ->
    CupItem.cup i1 = CupItem.cup i2 -> CupItem.position i1 = CupItem.position i2 -> k1 = k2;
  cb_positive : forall k i, cup_items d !! k = Some i -> 0 <= CupItem.position i;
  cb_links : forall k i, cup_items d !! k = Some i -> is_Some (config_links d !! CupItem.config_link i);
  cb_ledger : ledger_balanced d;
}.

(** What an edit of one cup may do. *)
Definition edited (cup : Z) (d d' : DB) : Prop :=
  (cup_book d -> cup_book d') /\
  forall k i, cup_items d !! k = Some i -> CupItem.cup i <> cup -> cup_items d' !! k = Some i.

#[global] Instance edited_preorder cup : PreOrder (edited cup).
Proof.
  split; [by split|]. intros d1 d2 d3 [B1 K1] [B2 K2]. split; [auto|]. intros k i Hk Hc. auto.
Qed.

Lemma ledger_same d d' : inventory_assets d' = inventory_assets d -> config_allocations d' = config_allocations d ->
  ledger_balanced d -> ledger_balanced d'.
Proof. intros Ha Hc [H1 H2 H3]. split; unfold uses in *; rewrite ?Ha, ?Hc; done. Qed.

(** A list with its entries [n] and [n + 1] exchanged. *)
Definition swapped {A} (n : nat) (l : list A) : list A :=
  match l !! n, l !! S n with Some x, Some y => <[S n := x]> (<[n := y]> l) | _, _ => l end.

(** An item but for its place. *)
Definition unplaced (it : item_row) : item_row := it {{ CupItem.position := 0 }}.

Section Steps.
Context (cup : Z).

Lemma kept_item_edited d ipk it it' :
  cup_items d !! ipk = Some it -> CupItem.cup it = cup -> CupItem.cup it' = cup -> CupItem.position it' = CupItem.position it ->
  is_Some (config_links d !! CupItem.config_link it') -> edited cup d (set_item ipk it' d).
Proof.
  intros Hit Hc Hc' Hp Hl. split.
  - intros [P N L B].
    assert (Hpos : forall k i, <[ipk := it']> (cup_items d) !! k = Some i ->
      exists i0, cup_items d !! k = Some i0 /\ CupItem.cup i0 = CupItem.cup i /\ CupItem.position i0 = CupItem.position i).
    { intros k i [[<- <-]|[Hne Hk]]%lookup_insert_Some; [exists it; split; [done|]; split; congruence|by exists i]. }
    split; cbn.
    + intros k1 k2 i1 i2 (j1 & H1 & C1 & E1)%Hpos (j2 & H2 & C2 & E2)%Hpos Hcup Hposn. apply (P k1 k2 j1 j2); congruence.
    + intros k i (j & Hj & _ & <-)%Hpos. by eapply N.
    + intros k i [[<- <-]|[Hne Hk]]%lookup_insert_Some; [done|by eapply L].
    + by apply (ledger_same d).
  - intros k i Hk Hne. cbn. rewrite lookup_insert_ne; [done|]. intros <-. congruence.
Qed.

Lemma set_link_edited d lpk c : edited cup d (set_link lpk c d).
Proof.
  split; [|done]. intros [P N L B]. split; [exact P|exact N| |by apply (ledger_same d)].
  intros k i Hk. cbn. destruct (decide (CupItem.config_link i = lpk)) as [->|Hne].
  - rewrite lookup_insert_eq. by eexists.
  - rewrite lookup_insert_ne by done. by eapply L.
Qed.

Lemma delete_item_edited d ipk it : cup_items d !! ipk = Some it -> CupItem.cup it = cup ->
  edited cup d (d {{ cup_items ::= delete ipk }}).
Proof.
  intros Hit Hc. split.
  - intros [P N L B]. split; cbn.
    + intros k1 k2 i1 i2 [_ H1]%lookup_delete_Some [_ H2]%lookup_delete_Some. by apply P.
    + intros k i [_ Hk]%lookup_delete_Some. by eapply N.
    + intros k i [_ Hk]%lookup_delete_Some. by eapply L.
    + by apply (ledger_same d).
  - intros k i Hk Hne. cbn. rewrite lookup_delete_ne; [done|]. intros <-. congruence.
Qed.

(** Every item of the cup comes before a place. *)
Definition below (pos : Z) (d : DB) : Prop :=
  0 <= pos /\ forall k i, cup_items d !! k = Some i -> CupItem.cup i = cup -> CupItem.position i < pos.

Lemma next_position_below d : below (next_position cup d) d.
Proof.
  assert (Hmax : forall l : list Z, 0 <= foldr Z.max 0 l /\ forall x, x ∈ l -> x <= foldr Z.max 0 l).
  { induction l as [|y l [IH0 IH]]; cbn; [split; [lia|by intros x ?%elem_of_nil]|]. split; [lia|].
    intros x [->|Hx]%elem_of_cons; [lia|]. specialize (IH x Hx). lia. }
  unfold below, next_position. destruct (Hmax (map (fun ki => CupItem.position ki.2) (cup_items_of cup d))) as [H0 H1].
  split; [lia|]. intros k i Hk Hc. enough (CupItem.position i <= foldr Z.max 0 (map (fun ki => CupItem.position ki.2) (cup_items_of cup d))) by lia.
  apply H1. apply (list_elem_of_fmap (fun ki : Z * item_row => CupItem.position ki.2)). exists (k, i). split; [done|].
  unfold cup_items_of, items_where. rewrite elem_of_order_by, elem_of_rows_where. split; [done|by apply bool_decide_eq_true].
Qed.

Lemma create_item_edited pos lpk reason md w r w' :
  below pos (db w) -> is_Some (config_links (db w) !! lpk) -> create_cup_item cup lpk pos reason md w = (r, w') ->
  is_ret r = true /\ edited cup (db w) (db w') /\ below (pos + 1) (db w') /\ config_links (db w') = config_links (db w).
Proof.
  intros [H0 Hb] Hl. unfold create_cup_item. run_io. intros [= <- <-]. set (k0 := next_pk (cup_items (db w))).
  assert (Hfresh : cup_items (db w) !! k0 = None) by apply next_pk_fresh.
  split; [done|]. split; [|split; [|done]].
  - split.
    + intros [P N L B]. split; cbn.
      * intros k1 k2 i1 i2 [[<- <-]|[N1 H1]]%lookup_insert_Some [[<- <-]|[N2 H2]]%lookup_insert_Some; cbn; try done.
        -- intros Hc Hp. specialize (Hb k2 i2 H2 (eq_sym Hc)). lia.
        -- intros Hc Hp. specialize (Hb k1 i1 H1 Hc). lia.
        -- by apply P.
      * intros k i [[<- <-]|[_ Hk]]%lookup_insert_Some; [done|by eapply N].
      * intros k i [[<- <-]|[_ Hk]]%lookup_insert_Some; [done|by eapply L].
      * by apply (ledger_same (db w)).
    + intros k i Hk _. cbn. rewrite lookup_insert_ne; [done|]. intros <-. congruence.
  - split; [lia|]. cbn. intros k i [[<- <-]|[_ Hk]]%lookup_insert_Some Hc; cbn; [lia|]. specialize (Hb k i Hk Hc). lia.
Qed.
End Steps.

(** ** Every edit *)

Section Edits.
Context `{Env}.
Context (cup : Z).

Lemma release_item_edited it now w r w' : release_item cup it now w = (r, w') ->
  edited cup (db w) (db w') /\ cup_items (db w') = cup_items (db w) /\ config_links (db w') = config_links (db w).
Proof.
  unfold release_item. unfold mbind at 1, M_bind at 1, get_db, gets. intros E.
  refine (release_preserves (fun d => edited cup (db w) d /\ cup_items d = cup_items (db w) /\ config_links d = config_links (db w))
    _ _ _ _ _ _ _ _ E _); [|by split].
  intros d j al a (He & Hi & Hl) Hj Hs Ha. split; [|by split]. transitivity d; [exact He|]. split; [|done].
  intros [P N L B]. split; [exact P|exact N|exact L|by apply give_back_balanced].
Qed.

Lemma add_each_existing_edited l : forall known pos res w r w',
  (forall kc, kc ∈ l -> is_Some (config_links (db w) !! kc.1)) -> below cup pos (db w) ->
  add_each_existing cup l known pos res w = (r, w') -> edited cup (db w) (db w').
Proof.
  induction l as [|[lpk c] l IH]; intros known pos res w r w' Hl Hb; cbn [add_each_existing].
  - by intros [= <- <-].
  - unfold mbind, M_bind. destruct (create_cup_item _ _ _ _ _ w) as [x w1] eqn:E.
    apply create_item_edited in E as (Hx & He & Hb1 & Hlinks); [|done|by apply (Hl (lpk, c)); left].
    destruct x as [k|]; [|done]. intros Hrun. apply IH in Hrun; [by etransitivity| |done].
    intros kc Hkc. rewrite Hlinks. apply Hl. by right.
Qed.

Lemma add_each_manual_edited lines : forall known pos res w r w',
  below cup pos (db w) -> add_each_manual cup lines known pos res w = (r, w') -> edited cup (db w) (db w').
Proof.
  induction lines as [|line lines IH]; intros known pos res w r w' Hb; cbn [add_each_manual].
  - by intros [= <- <-].
  - cbv zeta. case_bool_decide; [by apply IH|]. case_bool_decide; [by apply IH|].
    unfold mbind, M_bind. unfold create_config_link_from_raw at 1. run_io.
    match goal with |- context [create_cup_item _ _ _ _ _ ?x] => set (w1 := x) end.
    assert (He1 : edited cup (db w) (db w1)) by apply set_link_edited.
    destruct (create_cup_item _ _ _ _ _ w1) as [x w2] eqn:E.
    apply create_item_edited in E as (Hx & He2 & Hb2 & _); [|exact Hb|unfold w1; cbn; rewrite lookup_insert_eq; by eexists].
    destruct x as [k|]; [|done]. intros Hrun. apply IH in Hrun; [|done]. etransitivity; [exact He1|]. by etransitivity.
Qed.

Lemma atomic_edited {A} (m : IO A) w : (forall r w', m w = (r, w') -> edited cup (db w) (db w')) ->
  forall r w', atomic m w = (r, w') -> edited cup (db w) (db w').
Proof.
  intros Hm r w' E. destruct r as [x|e]; [apply (proj1 (atomic_Ret _ _ _ _)) in E; by eapply Hm|].
  apply atomic_Raise_db in E. by rewrite E.
Qed.

Lemma get_cup_item_inv ipk w r w' : get_cup_item cup ipk w = (r, w') ->
  w' = w /\ match r with Ret it => cup_items (db w) !! ipk = Some it /\ CupItem.cup it = cup | Raise e => e = DoesNotExist end.
Proof.
  unfold get_cup_item, get_or_raise. destruct (cup_items (db w) !! ipk) as [it|] eqn:E; cbn; [|by intros [= <- <-]].
  destruct (Z.eqb_spec (CupItem.cup it) cup); by intros [= <- <-].
Qed.

Lemma elem_of_cup_items d k i : (k, i) ∈ cup_items_of cup d <-> cup_items d !! k = Some i /\ CupItem.cup i = cup.
Proof. unfold cup_items_of, items_where. by rewrite elem_of_order_by, elem_of_rows_where, bool_decide_eq_true. Qed.

(** Two items of the cup exchange their places. *)
Definition exchanged (k1 k2 : Z) (i1 i2 : item_row) (d : DB) : DB :=
  set_item k2 (i2 {{ CupItem.position := CupItem.position i1 }}) (set_item k1 (i1 {{ CupItem.position := CupItem.position i2 }}) d).

Lemma exchanged_edited k1 k2 i1 i2 d : k1 <> k2 -> (k1, i1) ∈ cup_items_of cup d -> (k2, i2) ∈ cup_items_of cup d ->
  edited cup d (exchanged k1 k2 i1 i2 d).
Proof.
  intros Hne [H1 C1]%elem_of_cup_items [H2 C2]%elem_of_cup_items. split.
  - intros [P N L B].
    assert (Hrow : forall k i, cup_items (exchanged k1 k2 i1 i2 d) !! k = Some i ->
      exists k0 i0, cup_items d !! k0 = Some i0 /\ CupItem.cup i0 = CupItem.cup i /\ CupItem.position i0 = CupItem.position i /\
        k0 = (if decide (k = k1) then k2 else if decide (k = k2) then k1 else k) /\
        is_Some (config_links d !! CupItem.config_link i)).
    { intros k i. cbn. intros [[<- <-]|[N2 [[<- <-]|[N1 Hk]]%lookup_insert_Some]]%lookup_insert_Some; cbn.
      - exists k1, i1. rewrite decide_False, decide_True by done. repeat split; [done|congruence|by eapply L].
      - exists k2, i2. rewrite decide_True by done. repeat split; [done|congruence|by eapply L].
      - exists k, i. rewrite !decide_False by done. repeat split; [done|by eapply L]. }
    split.
    + intros ka kb ia ib (k & i & K & Kc & Kp & -> & _)%Hrow (k' & i' & K' & Kc' & Kp' & -> & _)%Hrow Hc Hp.
      assert (E : (if decide (ka = k1) then k2 else if decide (ka = k2) then k1 else ka) =
                  (if decide (kb = k1) then k2 else if decide (kb = k2) then k1 else kb)) by (apply (P _ _ i i'); congruence).
      repeat case_decide; congruence.
    + intros k i (k0 & i0 & K & _ & <- & _)%Hrow. by eapply N.
    + intros k i (_ & _ & _ & _ & _ & _ & Hl)%Hrow. exact Hl.
    + by apply (ledger_same d).
  - intros k i Hk Hc. unfold exchanged. cbn. rewrite !lookup_insert_ne; [done|congruence|congruence].
Qed.

Lemma cup_items_NoDup d : NoDup (cup_items_of cup d).*1.
Proof. apply order_by_NoDup, rows_where_NoDup. Qed.

(** Where a move leads. *)
Lemma move_inv ipk dir w r w' : move_cup_item cup ipk dir w = (r, w') ->
  (r = Raise DoesNotExist /\ w' = w /\ ipk ∉ (cup_items_of cup (db w)).*1) \/
  exists n it, cup_items_of cup (db w) !! n = Some (ipk, it) /\ r = Ret tt /\
    match swap_index dir n (cup_items_of cup (db w)) with
    | None => w' = w
    | Some (opk, other) => opk <> ipk /\ (opk, other) ∈ cup_items_of cup (db w) /\ db w' = exchanged ipk opk it other (db w)
    end.
Proof.
  unfold move_cup_item. run_io. destruct (list_find _ _) as [[n [k it]]|] eqn:E.
  - apply list_find_Some in E as (Hn & Hk & _). cbn in Hk. subst k. intros Hrun. right. exists n, it. split; [done|].
    destruct (swap_index dir n (cup_items_of cup (db w))) as [[opk other]|] eqn:Es; injection Hrun as <- <-; (split; [done|]); [|done].
    assert (Ho : exists m, m <> n /\ cup_items_of cup (db w) !! m = Some (opk, other)).
    { destruct dir, n as [|n]; cbn in Es; try done; eexists; (split; [|exact Es]); lia. }
    destruct Ho as (m & Hmn & Hm). split; [|split; [by eapply list_elem_of_lookup_2|done]].
    intros ->. apply Hmn. apply (NoDup_lookup (cup_items_of cup (db w)).*1 m n ipk); [apply cup_items_NoDup|by rewrite list_lookup_fmap, Hm|by rewrite list_lookup_fmap, Hn].
  - intros [= <- <-]. left. split; [done|]. split; [done|]. apply list_find_None in E.
    intros ([k it] & -> & Hin)%list_elem_of_fmap. by apply (proj1 (Forall_forall _ _) E) in Hin.
Qed.

Lemma cup_edit_edited w w' : cup_edit cup w w' -> edited cup (db w) (db w').
Proof.
  intros [customer order plan st exp md now v|ids v|raw v|st v|ipk b v|ipk name v|ipk now v|ipk link now v|ipk dir v].
  - unfold create_manual_cup. run_io. split; [|done].
    intros [P N L B]. split; [exact P|exact N|exact L|by apply (ledger_same (db v))].
  - unfold add_existing_links_to_cup. destruct ids as [|id ids]; [done|]. unfold mbind, M_bind, get_db, gets.
    destruct (atomic _ v) as [r w''] eqn:E. revert E. apply atomic_edited. intros r1 w1. apply add_each_existing_edited; [|apply next_position_below].
    intros [k c]. rewrite elem_of_order_by, elem_of_rows_where. intros [Hk _]. by eexists.
  - unfold add_manual_links_to_cup. unfold mbind, M_bind, get_db, gets.
    destruct (atomic _ v) as [r w''] eqn:E. revert E. apply atomic_edited. intros r1 w1. apply add_each_manual_edited, next_position_below.
  - unfold set_cup_status. run_io. destruct (cups (db v) !! cup); [|done]. split; [|done].
    intros [P N L B]. split; [exact P|exact N|exact L|by apply (ledger_same (db v))].
  - unfold set_cup_item_active, mbind, M_bind. destruct (get_cup_item cup ipk v) as [r1 w1] eqn:E.
    apply get_cup_item_inv in E as [-> Hit]. destruct r1 as [it|e]; [|done]. destruct Hit as [Hit Hc]. split.
    + intros HB. apply (kept_item_edited cup (db v) ipk it); try done. exact (cb_links _ HB _ _ Hit).
    + intros k i Hk Hne. cbn. rewrite lookup_insert_ne; [done|congruence].
  - unfold update_cup_item_display_name, mbind, M_bind. destruct (get_cup_item cup ipk v) as [r1 w1] eqn:E.
    apply get_cup_item_inv in E as [-> Hit]. destruct r1 as [it|e]; [|done]. run_io.
    destruct (config_links (db v) !! CupItem.config_link it); [|done]. apply set_link_edited.
  - unfold remove_cup_item, mbind, M_bind. destruct (get_cup_item cup ipk v) as [r1 w1] eqn:E.
    apply get_cup_item_inv in E as [-> Hit]. destruct r1 as [it|e]; [|done]. destruct Hit as [Hit Hc].
    destruct (release_item cup it now v) as [r2 w2] eqn:E2. apply release_item_edited in E2 as (He & Hi & _).
    destruct r2; [|done]. etransitivity; [exact He|]. apply (delete_item_edited cup _ ipk it); [by rewrite Hi|done].
  - unfold replace_cup_item_config_link, mbind, M_bind. destruct (get_cup_item cup ipk v) as [r1 w1] eqn:E.
    apply get_cup_item_inv in E as [-> Hit]. destruct r1 as [it|e]; [|done]. destruct Hit as [Hit Hc].
    destruct (match link with IdNumber z => Some z | IdText s => int_of_text s end) as [lpk|]; [|done]. unfold mret, M_ret.
    unfold get_or_raise. destruct (config_links (db v) !! lpk) as [c|] eqn:El; [|done].
    destruct (release_item cup it now v) as [r2 w2] eqn:E2. apply release_item_edited in E2 as (He & Hi & Hl).
    destruct r2; [|done]. etransitivity; [exact He|].
    apply (kept_item_edited cup _ ipk it); [by rewrite Hi|done|done|done|]. rewrite Hl. cbn. rewrite El. by eexists.
  - destruct (move_cup_item cup ipk dir v) as [r w''] eqn:E. cbn. apply move_inv in E as [(_ & -> & _)|(n & it & Hn & _ & Hs)]; [done|].
    destruct (swap_index _ _ _) as [[opk other]|]; [|by rewrite Hs]. destruct Hs as (Hne & Hin & ->).
    apply exchanged_edited; [done|by eapply list_elem_of_lookup_2|done].
Qed.
End Edits.

(** ** The order of a cup *)

Section Moves.
Context `{Env}.
Context (cup : Z).

Abbreviation pos_of := (fun ki : Z * item_row => CupItem.position ki.2).
Abbreviation item_le := (key_le (fun ki : Z * item_row => [CupItem.position ki.2; ki.1])).

Lemma item_le_pos x y : item_le x y <-> pos_of x < pos_of y \/ (pos_of x = pos_of y /\ x.1 <= y.1).
Proof.
  unfold key_le. rewrite Is_true_true. cbn.
  destruct (Z.ltb_spec (CupItem.position x.2) (CupItem.position y.2)), (Z.eqb_spec (CupItem.position x.2) (CupItem.position y.2));
    destruct (Z.ltb_spec x.1 y.1), (Z.eqb_spec x.1 y.1); cbn; intuition (try done; try lia).
Qed.

(** A list whose places ascend is the sorted one. *)
Lemma ascending_sorted l : StronglySorted Z.lt (map pos_of l) -> StronglySorted item_le l.
Proof.
  induction l as [|x l IH]; cbn; [constructor|]. intros [Hs Hall]%StronglySorted_inv. constructor; [auto|].
  apply Forall_forall. intros y Hy. apply item_le_pos. left. apply (proj1 (Forall_forall _ _) Hall).
  apply (list_elem_of_fmap pos_of). by exists y.
Qed.

Lemma sorted_ascending l : StronglySorted item_le l -> NoDup (map pos_of l) -> StronglySorted Z.lt (map pos_of l).
Proof.
  induction l as [|x l IH]; cbn; [constructor|]. intros [Hs Hall]%StronglySorted_inv [Hx Hnd]%NoDup_cons.
  constructor; [auto|]. apply Forall_forall. intros p Hp. apply (list_elem_of_fmap pos_of) in Hp as (y & -> & Hy).
  pose proof (proj1 (Forall_forall _ _) Hall y Hy) as Hle. apply item_le_pos in Hle as [?|[Heq _]]; [done|].
  destruct Hx. rewrite Heq. apply (list_elem_of_fmap pos_of). by exists y.
Qed.

(** The places of the cup's items, in the order they are listed. *)
Definition places_of (d : DB) : list Z := map pos_of (cup_items_of cup d).

Lemma book_places d : cup_book d -> NoDup (places_of d).
Proof.
  intros HB. apply (NoDup_fmap_2_strong pos_of); [|apply (NoDup_fmap_1 fst), cup_items_NoDup].
  intros [k1 i1] [k2 i2] [H1 C1]%elem_of_cup_items [H2 C2]%elem_of_cup_items Hp. cbn in Hp.
  assert (k1 = k2) as -> by (apply (cb_places _ HB k1 k2 i1 i2); congruence). congruence.
Qed.

Lemma sorted_items_unique d l : StronglySorted Z.lt (map pos_of l) -> NoDup l.*1 ->
  (forall k i, (k, i) ∈ l <-> cup_items d !! k = Some i /\ CupItem.cup i = cup) -> cup_items_of cup d = l.
Proof.
  intros Hs Hnd Hel. apply (StronglySorted_unique_strong item_le); [|apply order_by_sorted|by apply ascending_sorted|].
  - intros [k i] [k' i'] [Hk _]%elem_of_cup_items [Hk' _]%Hel. rewrite !item_le_pos. cbn. intros H1 H2.
    assert (k = k') as -> by lia. congruence.
  - apply NoDup_Permutation; [apply (NoDup_fmap_1 fst), cup_items_NoDup|by apply (NoDup_fmap_1 fst)|].
    intros [k i]. by rewrite Hel, elem_of_cup_items.
Qed.

(** The neighbours of a list exchange their places and nothing else. *)
Lemma exchanged_neighbours d l1 l2 k1 k2 i1 i2 :
  NoDup (places_of d) -> cup_items_of cup d = (l1 ++ (k1, i1) :: (k2, i2) :: l2)%list ->
  cup_items_of cup (exchanged k1 k2 i1 i2 d) =
    (l1 ++ (k2, i2 {{ CupItem.position := CupItem.position i1 }}) :: (k1, i1 {{ CupItem.position := CupItem.position i2 }}) :: l2)%list.
Proof.
  intros Hpos Hd. pose proof (cup_items_NoDup cup d) as Hnd. unfold places_of in Hpos. rewrite Hd in Hnd, Hpos.
  pose proof (order_by_sorted (fun ki : Z * item_row => [CupItem.position ki.2; ki.1]) (rows_where (fun _ i => bool_decide (CupItem.cup i = cup)) (cup_items d))) as Hs.
  fold (items_where (fun _ i => bool_decide (CupItem.cup i = cup)) d) in Hs. fold (cup_items_of cup d) in Hs. rewrite Hd in Hs.
  assert (Hin : forall k i, (k, i) ∈ (l1 ++ (k1, i1) :: (k2, i2) :: l2)%list <-> cup_items d !! k = Some i /\ CupItem.cup i = cup)
    by (intros k i; by rewrite <- Hd, elem_of_cup_items).
  rewrite fmap_app in Hnd. cbn in Hnd. apply NoDup_app in Hnd as (N1 & N12 & N2). apply NoDup_cons in N2 as [M1 N2]. apply NoDup_cons in N2 as [M2 N2].
  assert (Hne : k1 <> k2) by (intros ->; apply M1; by left).
  apply sorted_items_unique.
  - apply sorted_ascending in Hs; [|done]. rewrite map_app in *. exact Hs.
  - rewrite fmap_app. cbn. apply NoDup_app. split; [done|]. split.
    + intros k Hk Hk'. apply (N12 k Hk). revert Hk'. rewrite !elem_of_cons. tauto.
    + apply NoDup_cons. split; [by intros [?|?]%elem_of_cons|]. apply NoDup_cons. split; [|done]. intros Hk. apply M1. by right.
  - assert (Hout : forall k i, (k, i) ∈ (l1 ++ l2)%list -> k <> k1 /\ k <> k2).
    { intros k i [Hk|Hk]%elem_of_app; apply (list_elem_of_fmap_2 fst) in Hk; cbn in Hk.
      - split; intros ->; apply (N12 _ Hk); [by left|right; by left].
      - split; intros ->; [apply M1; by right|done]. }
    destruct (proj1 (Hin k1 i1)) as [I1 C1]; [apply elem_of_app; right; by left|].
    destruct (proj1 (Hin k2 i2)) as [I2 C2]; [apply elem_of_app; right; right; by left|].
    intros k i. unfold exchanged, set_item. cbn. rewrite elem_of_app, !elem_of_cons. split.
    + intros [Hk|[[= -> ->]|[[= -> ->]|Hk]]].
      * destruct (Hout k i) as [??]; [apply elem_of_app; by left|]. rewrite !lookup_insert_ne by done. apply Hin, elem_of_app. by left.
      * by rewrite lookup_insert_eq.
      * by rewrite lookup_insert_ne, lookup_insert_eq.
      * destruct (Hout k i) as [??]; [apply elem_of_app; by right|]. rewrite !lookup_insert_ne by done. apply Hin, elem_of_app. right. by do 2 right.
    + intros [[[<- <-]|[Na [[<- <-]|[Nb Hk]]%lookup_insert_Some]]%lookup_insert_Some Hc]; [by auto..|].
      assert (Hk' : (k, i) ∈ (l1 ++ (k1, i1) :: (k2, i2) :: l2)%list) by by apply Hin.
      apply elem_of_app in Hk' as [?|[[= -> ->]|[[= -> ->]|?]%elem_of_cons]%elem_of_cons]; auto; done.
Qed.

Lemma exchanged_comm k1 k2 i1 i2 d : k1 <> k2 -> exchanged k1 k2 i1 i2 d = exchanged k2 k1 i2 i1 d.
Proof. intros Hne. unfold exchanged, set_item. cbn. by rewrite insert_insert_ne by congruence. Qed.

Lemma swapped_at {A B} (f : A -> B) l1 l2 x y : swapped (length l1) (map f (l1 ++ x :: y :: l2)) = map f (l1 ++ y :: x :: l2).
Proof.
  unfold swapped. rewrite !map_app. cbn.
  assert (Hlen : length (map f l1) = length l1) by apply length_map.
  rewrite !lookup_app_r, Hlen, Nat.sub_diag by (rewrite Hlen; lia).
  replace (S (length l1) - length l1)%nat with 1%nat by lia. cbn.
  rewrite !insert_app_r_alt by (rewrite ?Hlen; lia). rewrite Hlen, Nat.sub_diag.
  by replace (S (length l1) - length l1)%nat with 1%nat by lia.
Qed.

Lemma split_at {A} (l : list A) n x y : l !! n = Some x -> l !! S n = Some y ->
  exists l1 l2, length l1 = n /\ l = (l1 ++ x :: y :: l2)%list.
Proof.
  revert n. induction l as [|z l IH]; [done|]. intros [|n]; cbn.
  - intros [= ->]. destruct l as [|z' l]; [done|]. intros [= ->]. by exists [], l.
  - intros Hx Hy. destruct (IH n Hx Hy) as (l1 & l2 & <- & ->). by exists (z :: l1), l2.
Qed.

Lemma exchanged_listing d n k1 k2 i1 i2 : NoDup (places_of d) ->
  cup_items_of cup d !! n = Some (k1, i1) -> cup_items_of cup d !! S n = Some (k2, i2) ->
  (cup_items_of cup (exchanged k1 k2 i1 i2 d)).*1 = swapped n (cup_items_of cup d).*1 /\
  places_of (exchanged k1 k2 i1 i2 d) = places_of d.
Proof.
  intros HB H1 H2. destruct (split_at _ _ _ _ H1 H2) as (l1 & l2 & <- & E). unfold places_of.
  rewrite (exchanged_neighbours d l1 l2 k1 k2 i1 i2 HB E), E, (swapped_at fst). split; [by rewrite fmap_app, map_app|].
  by rewrite !map_app.
Qed.

Lemma exchanged_rows d k1 k2 i1 i2 k : cup_items d !! k1 = Some i1 -> cup_items d !! k2 = Some i2 -> 
  unplaced <$> cup_items (exchanged k1 k2 i1 i2 d) !! k = unplaced <$> cup_items d !! k.
Proof.
  intros H1 H2. unfold exchanged, set_item. cbn. destruct (decide (k = k2)) as [->|N2]; [by rewrite lookup_insert_eq, H2|].
  rewrite lookup_insert_ne by done. destruct (decide (k = k1)) as [->|N1]; [by rewrite lookup_insert_eq, H1|].
  by rewrite lookup_insert_ne.
Qed.

(** C26: In a cup where no two items share a place, an
    administrator who moves an item up or down exchanges it with the item listed
    before or after it: the cup lists the same items in the same order but for
    that pair, its places stay what they were, an item at the edge stays where it
    is, and no row changes but for its place.  Moving what is not an item of the
    cup is refused and changes nothing. *)
Theorem moved_item_swaps_neighbours ipk dir w r w' :
  NoDup (places_of (db w)) -> move_cup_item cup ipk dir w = (r, w') ->
  (r = Raise DoesNotExist /\ w' = w /\ ipk ∉ (cup_items_of cup (db w)).*1) \/
  exists n, (cup_items_of cup (db w)).*1 !! n = Some ipk /\ r = Ret tt /\
    (cup_items_of cup (db w')).*1 =
      match dir, n with
      | UP, O => (cup_items_of cup (db w)).*1
      | UP, S m => swapped m (cup_items_of cup (db w)).*1
      | DOWN, _ => swapped n (cup_items_of cup (db w)).*1
      end /\
    places_of (db w') = places_of (db w) /\
    forall k, unplaced <$> cup_items (db w') !! k = unplaced <$> cup_items (db w) !! k.
Proof.
  intros HB Hrun. apply move_inv in Hrun as [?|(n & it & Hn & -> & Hs)]; [by left|right]. exists n.
  rewrite list_lookup_fmap, Hn. split; [done|]. split; [done|].
  destruct (swap_index _ _ _) as [[opk other]|] eqn:Es.
  - destruct Hs as (Hne & Hin & ->). pose proof (list_elem_of_lookup_2 _ _ _ Hn) as [H1 _]%elem_of_cup_items.
    apply elem_of_cup_items in Hin as [H2 _]. apply and_assoc. split; [|intros k; by apply exchanged_rows].
    destruct dir, n as [|m]; cbn in Es; [done| |by apply exchanged_listing|by apply exchanged_listing].
    rewrite exchanged_comm by done. by apply exchanged_listing.
  - subst w'. split; [|done]. destruct dir, n as [|m]; cbn in Es; try done.
    + apply (lookup_lt_Some) in Hn. destruct (lookup_lt_is_Some_2 (cup_items_of cup (db w)) m) as [? E]; [lia|congruence].
    + unfold swapped. rewrite !list_lookup_fmap, Hn, Es. done.
    + unfold swapped. rewrite !list_lookup_fmap, Hn, Es. done.
Qed.
End Moves.

(** ** Any number of edits *)

Section Runs.
Context `{Env}.

(** C25: Whatever an administrator does to the cups of a set - making cups, adding
    links that exist or pasting new ones, switching, renaming, moving, replacing and removing
    items, setting the cup's status - in any order and however often, also when
    some of it is refused: no two items of a cup share a place, no place is
    negative, every item has its link, the inventory's books stay balanced, and the
    items of every other cup are as they were. *)
Theorem cup_edits_keep_order (L : list Z) w w' :
  rtc (fun v v' => exists cup, cup ∈ L /\ cup_edit cup v v') w w' -> cup_book (db w) ->
  cup_book (db w') /\
  forall k i, cup_items (db w) !! k = Some i -> CupItem.cup i ∉ L -> cup_items (db w') !! k = Some i.
Proof.
  induction 1 as [w|w v w' (cup & Hcup & [HB Hk]%cup_edit_edited) _ IH]; intros HBw; [done|].
  destruct (IH (HB HBw)) as [HBw' Hkeep]. split; [done|]. intros k i Hi Hout. apply Hkeep; [|done].
  apply Hk; [done|]. intros Heq. apply Hout. by rewrite Heq.
Qed.
End Runs.

(** ** On a shop with two cups *)

#[local] Existing Instance sample_env.

Definition shelf_link (name : string) (md : metadata) : link_row :=
  (apply_config_link_parse ("trojan://a@h:1#" +:+ name) ConfigLink.MANUAL None None None None None blank_link)
    {{ ConfigLink.link_metadata := md }}.

Definition shelf_item (cup link position : Z) : item_row := CupItem.mk_cup_item cup link position true "" ∅.

(** Link 5 was delivered from the inventory: asset 11, by allocation 51. *)
Definition sample_shelf : World := sample_shop {{ db ::= fun d => d {{
  config_links := {[ 5 := shelf_link "one" {[ "allocation_id" := JNum 51 ]}; 6 := shelf_link "two" ∅; 7 := shelf_link "three" ∅ ]};
  cup_items := {[ 1 := shelf_item 7 5 1; 2 := shelf_item 7 6 2; 3 := shelf_item 7 7 4; 4 := shelf_item 8 7 1 ]};
  inventory_assets := {[ 11 := InventoryAsset.mk_asset 1 "trojan://a@h:1#one" "0123" InventoryAsset.ASSIGNED None None 1 1 ]};
  config_allocations := {[ 51 := Allocation.mk_allocation 11 (Some 7) None InventoryPool.EXCLUSIVE Allocation.ACTIVE 5 None ∅ ]} }} }}.

Definition orderly (d : DB) : bool :=
  let rows := map_to_list (cup_items d) in
  forallb (fun k1 => forallb (fun k2 => implb (bool_decide (CupItem.cup k1.2 = CupItem.cup k2.2)
                                               && bool_decide (CupItem.position k1.2 = CupItem.position k2.2))
                                              (bool_decide (k1.1 = k2.1))) rows) rows &&
  forallb (fun ki => bool_decide (0 <= CupItem.position ki.2) && is_set (config_links d !! CupItem.config_link ki.2)) rows.

Lemma orderly_book d : orderly d = true -> ledger_balanced d -> cup_book d.
Proof.
  unfold orderly. rewrite andb_true_iff, !forallb_forall. intros [Hp Hr] Hl.
  assert (Hin : forall k i, cup_items d !! k = Some i -> In (k, i) (map_to_list (cup_items d)))
    by (intros k i Hk; by apply list_elem_of_In, elem_of_map_to_list).
  split; [|..|done].
  - intros k1 k2 i1 i2 H1%Hin H2%Hin Hc Hpos. specialize (Hp _ H1). rewrite forallb_forall in Hp. specialize (Hp _ H2).
    cbn in Hp. rewrite !(bool_decide_true (_ = _)) in Hp by done. by apply bool_decide_eq_true in Hp.
  - intros k i [Hpos _]%Hin%Hr%andb_true_iff. by apply bool_decide_eq_true in Hpos.
  - intros k i [_ Hlink]%Hin%Hr%andb_true_iff. cbn in Hlink. by destruct (config_links d !! _); [eexists|].
Qed.

Lemma shelf_assets k a : inventory_assets (db sample_shelf) !! k = Some a ->
  k = 11 /\ InventoryAsset.status a = InventoryAsset.ASSIGNED /\ InventoryAsset.current_allocations a = 1.
Proof. intros Hk. cbn in Hk. by apply lookup_singleton_Some in Hk as [<- <-]. Qed.

Lemma sample_shelf_book : cup_book (db sample_shelf).
Proof.
  apply orderly_book; [vm_compute; reflexivity|].
  split; intros k a (-> & Hs & Hu)%shelf_assets; rewrite ?Hs, Hu; [vm_compute; reflexivity|done|done].
Qed.

Lemma moved_item_swaps_neighbours_witness :
  let moved dir := move_cup_item 7 2 dir sample_shelf in
  (cup_items_of 7 (db sample_shelf)).*1 = [1; 2; 3] /\
  (cup_items_of 7 (db (moved UP).2)).*1 = [2; 1; 3] /\ (cup_items_of 7 (db (moved DOWN).2)).*1 = [1; 3; 2].
Proof.
  cbv zeta. split; [vm_compute; reflexivity|].
  split.
  - destruct (moved_item_swaps_neighbours 7 2 UP sample_shelf _ _ (book_places 7 _ sample_shelf_book) (surjective_pairing _))
      as [(_ & _ & Hout)|(n & Hn & _ & -> & _)]; [destruct Hout; vm_compute; right; left|].
    assert (E : (cup_items_of 7 (db sample_shelf)).*1 = [1; 2; 3]) by (vm_compute; reflexivity). rewrite E in *.
    by destruct n as [|[|[|n]]].
  - vm_compute. reflexivity.
Defined.

Lemma cup_edits_keep_order_witness :
  let w1 := (add_existing_links_to_cup 7 [5] sample_shelf).2 in
  let w2 := (remove_cup_item 7 2 20 w1).2 in
  let w3 := (move_cup_item 7 5 UP w2).2 in
  (cup_items_of 7 (db w3)).*1 = [1; 5; 3] /\ cup_book (db w3) /\
  cup_items (db w3) !! 4 = Some (shelf_item 8 7 1).
Proof.
  intros w1 w2 w3. split; [vm_compute; reflexivity|].
  destruct (cup_edits_keep_order [7] sample_shelf w3) as [HB Hk].
  - apply (rtc_l _ _ w1); [exists 7; split; [left|exact (edit_existing 7 [5] sample_shelf)]|].
    apply (rtc_l _ _ w2); [exists 7; split; [left|exact (edit_remove 7 2 20 w1)]|].
    apply (rtc_l _ _ w3); [exists 7; split; [left|exact (edit_move 7 5 UP w2)]|apply rtc_refl].
  - apply sample_shelf_book.
  - split; [done|]. apply Hk; [reflexivity|]. apply not_elem_of_cons. split; [discriminate|apply not_elem_of_nil].
Defined.

(** In a cup where two items do share a place, moving one past the other moves
    nothing. *)
Example equal_places_stay :
  let w := sample_shelf {{ db -> cup_items := {[ 1 := shelf_item 7 5 1; 2 := shelf_item 7 6 1 ]} }} in
  (cup_items_of 7 (db w)).*1 = [1; 2] /\
  (cup_items_of 7 (db (move_cup_item 7 1 DOWN w).2)).*1 = [1; 2] /\
  cup_items (db (move_cup_item 7 1 DOWN w).2) = cup_items (db w).
Proof. vm_compute. done. Qed.

(** The cup holds the delivered link twice once it is added again; removing the
    second item gives the asset back though the first still delivers it. *)
Example duplicate_removed_frees_asset :
  let w1 := (add_existing_links_to_cup 7 [5] sample_shelf).2 in
  let w2 := (remove_cup_item 7 5 20 w1).2 in
  active_cup_links 7 (db w2) = active_cup_links 7 (db sample_shelf) /\
  head (active_cup_links 7 (db w2)) = Some "trojan://a@h:1#one" /\
  InventoryAsset.status <$> inventory_assets (db w2) !! 11 = Some InventoryAsset.AVAILABLE.
Proof. vm_compute. done. Qed.
