(* ===== verification/Lifecycle.v ===== *)
(** The life of an order, from above: a small specification of who may move
    which order where, and the proof that the shop's operations - checkout,
    renewal, approval, rejection, cancellation, the periodic job, bank
    deposits - refine it. *)

From S2P Require Import Prelude Models World Numbers Discounts Referrals ReferralRewards OrderStore Inbounds Scope OrderActions Provisioning ProvisioningSpec ModernSpec ApprovalFrame Submission Checkout CheckoutSpec ClientManagement ManagementSpec Automation AutomationSpec Payments PaymentsSpec.
Import Order.

(** ** The specification *)

(** What the shop still owes for an order. *)
Inductive phase := Waiting | Accepted | Delivered | Closed.
#[global] Instance phase_eq_dec : EqDecision phase.
Proof. solve_decision. Defined.

(** The order book: the phase of every order there is. *)
Abbreviation book := (gmap Z phase).

Inductive event :=
| Placed (k : Z)
| Paid (k : Z)
| Worked_on (k : Z)
| Refused (k : Z)
| Withdrawn (k : Z).

(** What one event does to the book.  Nothing leaves [Closed] but to be closed
    again, a delivered order cannot be refused, and work takes an open order from
    one open phase to another. *)
Inductive happens : event -> relation book :=
| place k b : b !! k = None -> happens (Placed k) b (<[k := Waiting]> b)
| pay k b p : b !! k = Some p -> p <> Closed ->
    happens (Paid k) b (<[k := if bool_decide (p = Delivered) then Delivered else Accepted]> b)
| work k b p q : b !! k = Some p -> p <> Closed -> q <> Closed -> happens (Worked_on k) b (<[k := q]> b)
| refuse k b p : b !! k = Some p -> p <> Delivered -> happens (Refused k) b (<[k := Closed]> b)
| withdraw k b p : b !! k = Some p -> happens (Withdrawn k) b (<[k := Closed]> b).

(** One event, or none. *)
Definition may_happen (e : event) : relation book := fun b b' => b' = b \/ happens e b b'.

(** Any number of the events a permission allows. *)
Definition allowed (may : event -> Prop) : relation book :=
  rtc (fun b b' => exists e, may e /\ happens e b b').

(** ** Its relation to the program *)

Definition phase_of (s : status_t) : phase :=
  match s with
  | PENDING_PAYMENT | PENDING_VERIFICATION | LEGACY_PENDING => Waiting
  | CONFIRMED => Accepted
  | COMPLETED => Delivered
  | REJECTED | CANCELLED => Closed
  end.

Definition book_of (w : World) : book := (fun o => phase_of (status o)) <$> orders (db w).

(** A run that does to the book only what is allowed. *)
Definition refines (may : event -> Prop) : relation World := fun w w' => allowed may (book_of w) (book_of w').

#[global] Instance refines_preorder may : PreOrder (refines may).
Proof. split; unfold refines, allowed; [intros w; apply rtc_refl|intros x y z; apply (transitivity (R := rtc _))]. Qed.
#[global] Instance refines_undoable may : Undoable (refines may).
Proof. intros w w' _. apply rtc_refl. Qed.

Lemma refines_same may w w' : orders (db w') = orders (db w) -> refines may w w'.
Proof. intros Ho. unfold refines, book_of. rewrite Ho. apply rtc_refl. Qed.

Lemma refines_keeps {A} may (m : IO A) : respects (keeps orders_of) m -> respects (refines may) m.
Proof. intros Hm w r w' E. apply refines_same. exact (Hm _ _ _ E). Qed.

Lemma refines_one (may : event -> Prop) e w w' : may e -> happens e (book_of w) (book_of w') -> refines may w w'.
Proof. intros He Hh. apply rtc_once. by exists e. Qed.

Lemma refines_weaken (may may' : event -> Prop) w w' :
  (forall e, may e -> may' e) -> refines may w w' -> refines may' w w'.
Proof. intros He. apply rtc_subrel. intros b b' (e & ? & ?). exists e. auto. Qed.

Lemma book_insert w w' k o : orders (db w') = <[k := o]> (orders (db w)) ->
  book_of w' = <[k := phase_of (status o)]> (book_of w).
Proof. intros Ho. unfold book_of. by rewrite Ho, fmap_insert. Qed.

Lemma book_lookup w k o : orders (db w) !! k = Some o -> book_of w !! k = Some (phase_of (status o)).
Proof. intros Ho. unfold book_of. by rewrite lookup_fmap, Ho. Qed.

Lemma book_lookup_inv w k p : book_of w !! k = Some p ->
  exists o, orders (db w) !! k = Some o /\ phase_of (status o) = p.
Proof. unfold book_of. rewrite lookup_fmap. destruct (_ !! k) as [o|]; [|done]. intros [= <-]. by exists o. Qed.

Section Lifecycle.
Context `{Env}.

(** A save shows the instance's phase, or does not touch it. *)
Lemma save_order_book opk o fs now w r w' :
  save_order opk o fs now w = (r, w') ->
  book_of w' = book_of w \/
  exists row, orders (db w) !! opk = Some row /\ (F_status ∈ fs \/ status o = LEGACY_PENDING) /\
    book_of w' = <[opk := phase_of (status o)]> (book_of w).
Proof.
  intros [[-> _]|(p & row & _ & Hrow & Hv & _)]%save_order_any; [by left|].
  apply service_view_inv in Hv as (Hos & _). cbn in Hos. apply book_insert in Hos. rewrite Hos.
  destruct (decide (status o = LEGACY_PENDING)) as [Hl|Hl].
  - right. exists row. split; [done|]. split; [by right|]. f_equal.
    unfold saved_row. rewrite write_status, prepare_save_status, (bool_decide_true (status o = LEGACY_PENDING)), Hl by done.
    enough (F_status ∈ (fs ++ (prepare_save p now (localdate_tehran now) o).2)%list) as Hin
      by (by rewrite (bool_decide_true (F_status ∈ _))).
    apply elem_of_app. right. unfold prepare_save. cbv zeta. do 6 apply assign_more.
    rewrite bool_decide_true by done. apply list_elem_of_here.
  - destruct (decide (F_status ∈ fs)) as [Hf|Hf].
    + right. exists row. split; [done|]. split; [by left|]. by rewrite saved_status.
    + left. rewrite saved_status_kept by done. by apply insert_id, book_lookup.
Qed.

(** A save of an instance in the row's own phase. *)
Lemma save_order_steady may opk o fs now :
  status o <> LEGACY_PENDING -> F_status ∉ fs -> respects (refines may) (save_order opk o fs now).
Proof.
  intros Hl Hf w r w' [E|(row & _ & [?|?] & _)]%save_order_book; [|done..].
  unfold refines. rewrite E. apply rtc_refl.
Qed.

Lemma save_order_same_phase opk o row fs now w r w' :
  orders (db w) !! opk = Some row -> status o = status row ->
  save_order opk o fs now w = (r, w') -> book_of w' = book_of w.
Proof.
  intros Hrow Hs [E|(_ & _ & _ & E)]%save_order_book; [done|]. rewrite E, Hs. by apply insert_id, book_lookup.
Qed.

(** A withdrawal may be saved at any time. *)
Lemma save_order_withdrawn (may : event -> Prop) opk o fs now :
  may (Withdrawn opk) -> phase_of (status o) = Closed -> respects (refines may) (save_order opk o fs now).
Proof.
  intros Hm Hc w r w' [E|(row & Hrow & _ & E)]%save_order_book; unfold refines; rewrite E; [apply rtc_refl|].
  rewrite Hc. eapply rtc_once. exists (Withdrawn opk). split; [done|]. eapply withdraw. by apply book_lookup.
Qed.
End Lifecycle.

(** ** Approval *)

(** Work on one order. *)
Definition works_on (opk : Z) (e : event) : Prop := e = Worked_on opk.

Definition closed_in (opk : Z) (w : World) : Prop := book_of w !! opk = Some Closed.

(** What the steps of an approval do to the book: they put this one order in an
    open phase, or leave it. *)
Definition pushes (opk : Z) : relation World := fun w w' =>
  book_of w' = book_of w \/
  exists p q, book_of w !! opk = Some p /\ q <> Closed /\ book_of w' = <[opk := q]> (book_of w).

#[global] Instance pushes_preorder opk : PreOrder (pushes opk).
Proof.
  split; [by left|]. unfold pushes. intros w1 w2 w3 [->|(p & q & Hp & Hq & E)]; [done|].
  intros [->|(p' & q' & _ & Hq' & E')]; right; [by exists p, q|]. exists p, q'.
  by rewrite E', E, insert_insert_eq.
Qed.
#[global] Instance pushes_undoable opk : Undoable (pushes opk).
Proof. intros w w' _. by left. Qed.

Lemma pushes_same opk w w' : orders (db w') = orders (db w) -> pushes opk w w'.
Proof. intros Ho. left. unfold book_of. by rewrite Ho. Qed.

(** Several pieces of work on one order are one. *)
Lemma collapse_work opk b b' : allowed (works_on opk) b b' -> may_happen (Worked_on opk) b b'.
Proof.
  intros Hs. induction Hs as [|b b1 b2 (e & -> & Hh) _ IH]; [by left|].
  right. inversion Hh as [| |k ? p q Hp Hop Hq| |]; subst. destruct IH as [->|Hh2]; [done|].
  inversion Hh2 as [| |k2 ? p2 q2 _ _ Hq2| |]; subst. rewrite insert_insert_eq. by econstructor.
Qed.

Lemma collapse_closing e b b' : (exists k, e = Refused k \/ e = Withdrawn k) -> allowed (eq e) b b' -> may_happen e b b'.
Proof.
  intros (k & He) Hs. induction Hs as [|b b1 b2 (e' & <- & Hh) _ IH]; [by left|].
  right. destruct He as [-> | ->]; inversion Hh as [| | |k' ? p Hp Hd|k' ? p Hp]; subst;
    (destruct IH as [->|Hh2]; [done|]); inversion Hh2; subst; rewrite insert_insert_eq; by econstructor.
Qed.

Lemma pushes_open opk w w' : pushes opk w w' -> book_of w !! opk <> Some Closed -> refines (works_on opk) w w'.
Proof.
  intros [E|(p & q & Hp & Hq & E)] Ho; unfold refines; rewrite E; [apply rtc_refl|].
  apply rtc_once. exists (Worked_on opk). split; [done|]. econstructor; [done|congruence|done].
Qed.

Lemma works_pushes opk w w' : refines (works_on opk) w w' -> pushes opk w w'.
Proof.
  intros [E|Hh]%collapse_work; [by left|right]. inversion Hh as [| |k ? p q Hp Ho Hq E E'| |]; subst. by exists p, q.
Qed.

Lemma save_order_pushes `{Env} opk o fs now : accepts o fs -> respects (pushes opk) (save_order opk o fs now).
Proof.
  intros Ha w r w' [E|(row & Hrow & Hf & E)]%save_order_book; [by left|].
  destruct Hf as [Hf|Hl].
  - right. exists (phase_of (status row)), (phase_of (status o)). split; [by apply book_lookup|]. split; [|done].
    by destruct (Ha Hf) as [-> | ->].
  - right. exists (phase_of (status row)), (phase_of (status o)). split; [by apply book_lookup|].
    split; [by rewrite Hl|exact E].
Qed.

(** What this development relies on from the delivery engines here: whatever
    order they are handed, a closed one included, it is the only one they move,
    and they close none; an assignment leaves a closed one alone. *)
Class SteadyDelivery `{Delivery} : Prop := {
  execute_pushes opk config actor now : respects (pushes opk) (execute_plan_delivery opk config actor now);
  fulfill_pushes opk actor now : respects (pushes opk) (fulfill_order_with_recipe opk actor now);
  assignment_works opk actor notify now :
    respects (refines (works_on opk)) (complete_inventory_assignment opk actor notify now);
}.

#[global] Instance no_delivery_steady : @SteadyDelivery no_delivery.
Proof. constructor; intros; apply respects_ret; apply _. Qed.

Lemma phase_closed o : phase_of (status o) = Closed -> out_of_service o.
Proof. unfold out_of_service. destruct (status o); [done..|auto|auto]. Qed.

Section Approval.
Context `{Env} `{SteadyDelivery}.

Lemma approve_pushes opk instance actor source notify now :
  respects (pushes opk) (approve_and_provision_order opk instance actor source notify now).
Proof.
  apply approve_frame; try apply _.
  - unfold back_office. intros w w' [=]. by apply pushes_same.
  - apply save_order_pushes.
  - apply execute_pushes.
  - apply fulfill_pushes.
  - intros actor' notify' now' w r w' E%assignment_works. by apply works_pushes.
Qed.

(** Approval works on its order; a closed one it leaves alone. *)
Lemma approve_refines opk instance actor source notify now :
  respects (refines (works_on opk)) (approve_and_provision_order opk instance actor source notify now).
Proof.
  intros w r w' E. destruct (decide (book_of w !! opk = Some Closed)) as [Hc|Hopen].
  2: { apply approve_pushes in E. by apply pushes_open in E. }
  apply book_lookup_inv in Hc as (o & Ho & Hc%phase_closed).
  destruct (md_truthy "admin_inventory_asset_id" (metadata instance)) eqn:Hi.
  { unfold approve_and_provision_order in E. rewrite Hi in E. by apply assignment_works in E. }
  destruct (out_of_service_refusal opk o source (db w) Hc) as (x & Hr & _).
  rewrite (approval_no_op _ _ _ _ _ _ _ _ _ Hi Ho (or_introl Hc) Hr) in E. by injection E as _ <-.
Qed.
End Approval.

(** ** The other operations *)

#[local] Hint Extern 1 (refines _ _ _) => apply refines_same; reflexivity : frames.
#[local] Hint Extern 1 (keeps orders_of _ _) => reflexivity : frames.

(** Read the row first: what follows knows it. *)
Lemma refines_get_order {A} may opk (f : order -> IO A) :
  (forall o w, orders (db w) !! opk = Some o -> forall r w', f o w = (r, w') -> refines may w w') ->
  respects (refines may) (o ← get_order opk; f o).
Proof.
  intros Hf w r w'. unfold get_order. run_io. destruct (orders (db w) !! opk) as [o|] eqn:Ho.
  - intros E. by eapply Hf.
  - intros [= <- <-]. reflexivity.
Qed.

Section Operations.
Context `{Env}.
#[local] Hint Extern 1 (respects _ (save_order _ _ _ _)) => apply save_order_withdrawn; done : frames.

Lemma delete_targets_orders l : respects (keeps orders_of) (delete_targets l).
Proof.
  intros w r w' E. destruct (delete_targets_inv l w) as (b & w1 & E1 & Hd & _). rewrite E1 in E.
  injection E as _ <-. unfold keeps, orders_of. by rewrite Hd.
Qed.

#[local] Hint Extern 1 (respects _ (delete_targets _)) => apply refines_keeps, delete_targets_orders : frames.

Lemma commit_removal_book opk o fs targets key v now w r w' :
  commit_removal opk o fs targets key v now w = (r, w') ->
  book_of w' = book_of w \/
  exists row, orders (db w) !! opk = Some row /\ book_of w' = <[opk := phase_of (status o)]> (book_of w).
Proof.
  unfold commit_removal. run_io. destruct (save_order opk o fs now w) as [x w1] eqn:E.
  apply save_order_book in E. intros E1. assert (Hb : book_of w' = book_of w1) by (by destruct x; injection E1 as _ <-).
  rewrite Hb. destruct E as [|(row & ? & _ & ?)]; [by left|]. right. by exists row.
Qed.

Lemma reject_refines opk reason user notify now :
  respects (refines (eq (Refused opk))) (reject_order opk reason user notify now).
Proof.
  unfold reject_order. apply respects_bind; [apply _| |walk]. apply respects_atomic; [apply _|].
  apply refines_get_order. intros o w Ho r w'. case_bool_decide as Hc; [by intros [= _ <-]|]. run_io.
  destruct (delete_targets_inv (deletion_targets_for_order opk o (db w)) w) as (b & w1 & E & Hd & _). rewrite E.
  assert (Hb1 : book_of w1 = book_of w) by (unfold book_of; by rewrite Hd).
  destruct b; cbn [negb]. 2: { intros [= _ <-]. apply refines_same. by rewrite Hd. }
  destruct (commit_removal _ _ _ _ _ _ _ w1) as [x w2] eqn:E2. apply commit_removal_book in E2. intros E3.
  assert (w' = w2) as -> by (by destruct x; injection E3 as _ <-). clear E3.
  unfold refines. rewrite <- Hb1. destruct E2 as [->|(row & Hrow & ->)]; [apply rtc_refl|].
  apply rtc_once. eexists. split; [reflexivity|]. eapply refuse; [by apply book_lookup|].
  rewrite Hd, Ho in Hrow. injection Hrow as <-. by destruct (status o).
Qed.

Lemma cancel_refines opk hide now : respects (refines (eq (Withdrawn opk))) (cancel_order opk hide now).
Proof.
  unfold cancel_order. apply respects_atomic; [apply _|]. unfold get_order, commit_removal. walk.
Qed.

Lemma confirm_auto_refines may opk user note now :
  respects (refines may) (confirm_auto_payment opk user note now).
Proof.
  unfold confirm_auto_payment. apply respects_atomic; [apply _|]. apply refines_get_order. intros o w Ho.
  unfold get_automation. run_io. destruct (automations (db w) !! opk) as [a|]; [|by intros r w' [= _ <-]].
  destruct (_ || _); [by intros r w' [= _ <-]|]. case_bool_decide; [by intros r w' [= _ <-]|].
  case_bool_decide; [by intros r w' [= _ <-]|]. intros r w'.
  destruct (save_order _ _ _ _ _) as [x w2] eqn:E. eapply save_order_same_phase in E; [|exact Ho|done].
  change (book_of w2 = book_of w) in E.
  destruct x as [o'|e]; [|intros [= _ <-]; unfold refines; rewrite E; apply rtc_refl].
  destruct (create_referral_reward_for_order opk now w2) as [y w3] eqn:E3. apply create_reward_orders in E3.
  intros E4. assert (w' = w3) as -> by (by destruct y; injection E4 as _ <-).
  unfold refines, book_of in *. unfold keeps in E3. rewrite E3, E. apply rtc_refl.
Qed.

Lemma set_enabled_refines may admin l enabled now :
  respects (refines may) (set_vpn_client_enabled_by_admin admin l enabled now).
Proof. intros w r w' E%set_enabled_frame. unfold keeps, but_clients_and_logs in E. injection E as Eo _ _ _ _ _. by apply refines_same. Qed.
#[local] Hint Resolve set_enabled_refines : frames.

Lemma revoke_clients_refines may opk user now l a : respects (refines may) (revoke_clients opk user now a l).
Proof.
  revert a. induction l as [|[k c] l IH]; intros a; cbn [revoke_clients]; [walk|].
  repeat first [progress walk | apply tried_respects; [apply _|]]; auto.
Qed.
#[local] Hint Resolve revoke_clients_refines : frames.

Lemma notice_refines may opk now : respects (refines may) (send_cancellation_notice opk now).
Proof. unfold send_cancellation_notice, claim_notice, get_automation, get_order, attempt. walk. Qed.
#[local] Hint Resolve notice_refines : frames.

Lemma cancel_auto_refines opk user reason now :
  respects (refines (eq (Withdrawn opk))) (cancel_auto_approved_order opk user reason now).
Proof.
  unfold cancel_auto_approved_order, cancel_locked, get_automation, get_order. walk.
Qed.
End Operations.

(** ** Placing *)

(** A run that records one order, or none. *)
Definition once_placed : relation World := fun w w' =>
  book_of w' = book_of w \/ exists k, happens (Placed k) (book_of w) (book_of w').

(** A run that leaves the book alone. *)
Abbreviation quiet := (respects (refines (fun _ => False))).

Lemma quiet_book {A} (m : IO A) w r w' : quiet m -> m w = (r, w') -> book_of w' = book_of w.
Proof. intros Hm E%Hm. unfold refines, allowed in E. by inversion E as [|? ? ? (e & [] & _)]. Qed.

Lemma once_quiet {A} (m : IO A) : quiet m -> respects once_placed m.
Proof. intros Hm w r w' E. left. by eapply quiet_book. Qed.

Lemma once_from {A} (m : IO A) w w1 r w' : book_of w1 = book_of w -> respects once_placed m -> m w1 = (r, w') -> once_placed w w'.
Proof. intros Hb Hm E%Hm. unfold once_placed in *. by rewrite Hb in E. Qed.

Lemma once_then {A B} (m : IO A) (f : A -> IO B) : quiet m -> (forall x, respects once_placed (f x)) -> respects once_placed (m ≫= f).
Proof.
  intros Hm Hf w r w'. unfold mbind, M_bind. destruct (m w) as [[x|e] w1] eqn:E; apply (quiet_book _ _ _ _ Hm) in E.
  - by apply once_from.
  - intros [= _ <-]. by left.
Qed.

Lemma once_last {A B} (m : IO A) (f : A -> IO B) : respects once_placed m -> (forall x, quiet (f x)) -> respects once_placed (m ≫= f).
Proof.
  intros Hm Hf w r w'. unfold mbind, M_bind. destruct (m w) as [[x|e] w1] eqn:E; apply Hm in E.
  - intros E2%quiet_book; [|done]. unfold once_placed. by rewrite E2.
  - by intros [= _ <-].
Qed.

Lemma once_on_validation {A B} (m : IO A) h (k : A -> IO B) :
  quiet m -> (forall text, respects once_placed (h text)) -> (forall x, respects once_placed (k x)) ->
  respects once_placed (on_validation m h k).
Proof.
  intros Hm Hh Hk w r w'. unfold on_validation. destruct (m w) as [[x|e] w1] eqn:E; apply (quiet_book _ _ _ _ Hm) in E.
  - by apply once_from.
  - destruct e; first [by apply once_from|intros [= _ <-]; by left].
Qed.

Lemma once_finally {A} (m : IO A) k : respects once_placed m -> (forall w, book_of (k w) = book_of w) -> respects once_placed (finally m k).
Proof.
  intros Hm Hk w r w'. unfold finally. destruct (m w) as [x w1] eqn:E. intros [= <- <-]. apply Hm in E.
  unfold once_placed in *. by rewrite Hk.
Qed.

(** An exception that recorded nothing is handled by what records nothing. *)
Lemma once_or_handled {A} (m : IO A) h :
  (forall w r w', m w = (r, w') -> match r with Ret _ => once_placed w w' | Raise _ => book_of w' = book_of w end) ->
  (forall e, quiet (h e)) -> respects once_placed (catch m h).
Proof.
  intros Hm Hh w r w'. unfold catch. destruct (m w) as [[x|e] w1] eqn:E; apply Hm in E.
  - by intros [= <- <-].
  - intros E2%quiet_book; [|done]. left. congruence.
Qed.

Section Placing.
Context `{Env} `{Delivery}.

Lemma prepared_waiting p now today o :
  phase_of (status o) = Waiting -> phase_of (status (prepare_save p now today o).1) = Waiting.
Proof. rewrite prepare_save_status. by case_bool_decide. Qed.

Lemma save_full_book pk o now w r w' :
  phase_of (status o) = Waiting -> save_order_full pk o now w = (r, w') ->
  (w' = w /\ is_ret r = false) \/ book_of w' = <[pk := Waiting]> (book_of w).
Proof.
  intros Ho. unfold save_order_full, get_plan. run_io.
  destruct (plans (db w) !! plan o) as [p|]; [|intros [= <- <-]; by left]. cbn [fst snd].
  assert (Hs := prepared_waiting p now (localdate_tehran now) o Ho).
  set (o' := (prepare_save _ _ _ o).1 {{ updated_at := now }}).
  destruct (process_referral_purchase _ _ _ _) as [x w1] eqn:E.
  apply process_referral_orders, service_view_inv in E as (Hos & _). cbn in Hos.
  intros E2. right. assert (w' = w1) as -> by (by destruct x; injection E2 as _ <-).
  apply book_insert in Hos. rewrite Hos. f_equal. exact Hs.
Qed.

(** What recording an order leaves: one more order waiting. *)
Definition one_more (b : book) (opk : Z) (w : World) : Prop :=
  b !! opk = None /\ book_of w = <[opk := Waiting]> b.

Lemma create_order_more b o now :
  phase_of (status o) = Waiting ->
  triple (fun w => book_of w = b) (create_order o now) (fun x => one_more b x.1) (fun _ => True).
Proof.
  intros Ho w r w' <-. unfold create_order. run_io.
  destruct (save_order_full _ o now w) as [x w1] eqn:E.
  apply save_full_book in E as [[-> Hx]|E]; [| |done].
  - destruct x; [done|]. by intros [= <- <-].
  - destruct x as [o'|e]; intros [= <- <-]; [|done]. split; [|exact E].
    unfold book_of. rewrite lookup_fmap. cbn. by rewrite next_pk_fresh.
Qed.

Lemma triple_book {A} b opk (m : IO A) :
  respects (keeps orders_of) m -> triple (one_more b opk) m (fun _ => one_more b opk) (fun _ => True).
Proof.
  intros Hm. eapply triple_any, triple_frame; [exact Hm|]. intros w w' [Hb Hw] E. split; [done|].
  rewrite <- Hw. unfold book_of, keeps, orders_of in *. by rewrite E.
Qed.

Lemma save_full_more b opk o now :
  phase_of (status o) = Waiting ->
  triple (one_more b opk) (save_order_full opk o now) (fun _ => one_more b opk) (fun _ => True).
Proof.
  intros Ho w r w' [Hb Hw] E. destruct r; [|done]. split; [done|].
  apply save_full_book in E as [[-> ?]|E]; [done| |done]. by rewrite E, Hw, insert_insert_eq.
Qed.

(** A triple that adds at most one order, run in one transaction. *)
Lemma atomic_places {A} (m : IO A) :
  (forall b, triple (fun w => book_of w = b) m (fun _ w => exists opk, one_more b opk w) (fun _ => True)) ->
  forall w r w', atomic m w = (r, w') ->
    match r with Ret _ => once_placed w w' | Raise _ => book_of w' = book_of w end.
Proof.
  intros Hm w r w' E. destruct r as [x|e].
  - apply (proj1 (atomic_Ret _ _ _ _)) in E. destruct (Hm _ _ _ _ eq_refl E) as (opk & Hb & Hw).
    right. exists opk. rewrite Hw. by constructor.
  - apply atomic_Raise_db in E. unfold book_of. by rewrite E.
Qed.

Lemma record_checkout_places rq pr o k cd now w r w' :
  status o = PENDING_PAYMENT -> record_checkout rq pr o k cd now w = (r, w') ->
  match r with Ret _ => once_placed w w' | Raise _ => book_of w' = book_of w end.
Proof.
  intros Ho. unfold record_checkout. apply atomic_places. intros b.
  eapply triple_bind; [by apply create_order_more; rewrite Ho|]. intros [opk o1]. cbv beta. cbn [fst].
  eapply triple_bind.
  { apply triple_book. intros v x v' E%record_client_quiet. unfold keeps, orders_and_plans in E. by injection E as E _. }
  intros c. cbv beta. eapply triple_bind; [by apply triple_liftR|]. intros o2. cbv beta. apply triple_pure. intros Hs.
  eapply triple_bind; [by apply triple_liftR|]. intros ?. cbv beta. apply triple_pure. intros _.
  eapply triple_bind; [apply save_full_more|].
  { apply submit_fields in Hs as (? & _ & _ & _ & _ & _ & _ & _ & _ & [Hst _] & _).
    change (phase_of (status o2) = Waiting). by rewrite Hst. }
  intros o3. eapply triple_bind; [apply triple_book; walk|]. { unfold mark_customer_reward_used, keeps, orders_of. cbn. by repeat case_match. }
  intros ?. apply triple_ret. intros v Hw. by exists opk.
Qed.

Lemma reserve_refines may plan p code customer q now :
  respects (refines may) (reserve_for_checkout plan p code customer q now).
Proof. unfold reserve_for_checkout, reserve_discount_usage. walk. Qed.

Lemma release_refines may disc now : respects (refines may) (release_discount_usage disc now).
Proof. unfold release_discount_usage. walk. Qed.
#[local] Hint Resolve reserve_refines release_refines checkout_order_status : frames.

Lemma hand_back_quiet cd now text : respects (refines (fun _ => False)) (hand_back cd now text).
Proof. unfold hand_back. walk. Qed.
#[local] Hint Resolve hand_back_quiet : frames.

Lemma record_or_release_once rq pr o k cd now :
  status o = PENDING_PAYMENT -> respects once_placed (record_or_release rq pr o k cd now).
Proof.
  intros Ho. unfold record_or_release. apply once_or_handled.
  - intros w r w'. unfold mbind, M_bind. destruct (record_checkout _ _ _ _ _ _ w) as [[x|e] w1] eqn:E;
      apply record_checkout_places in E; try done; by intros [= <- <-].
  - intros e. destruct e; walk.
Qed.

Lemma place_order_once rq pr pid tracking now :
  respects once_placed (place_order rq pr pid tracking now).
Proof.
  unfold place_order. cbv zeta. apply once_on_validation; [walk|intros; apply once_quiet; walk|]. intros cd.
  apply once_then; [walk|]. intros d.
  apply once_on_validation; [walk|intros; apply once_quiet; walk|]. intros selected.
  destruct (head selected) as [[i|]|].
  2,3: destruct (is_set _); [apply record_or_release_once, checkout_order_status|apply once_quiet; walk].
  apply once_on_validation; [walk|intros; apply once_quiet; walk|]. intros i'.
  apply once_then; [unfold prepare_panel; walk|]. intros k. apply record_or_release_once, checkout_order_status.
Qed.

Lemma answer_duplicate_refines may l d opk o source reason now t :
  find_similar_pending_order l t d = Some (opk, o) ->
  respects (refines may) (answer_duplicate opk o source reason now).
Proof.
  intros Hf. unfold answer_duplicate, mark_duplicate_attempt.
  apply respects_bind; [apply _| |walk]. apply save_order_steady; [|by rewrite list_elem_of_singleton].
  unfold find_similar_pending_order in Hf.
  apply head_elem, elem_of_order_by, elem_of_rows_where in Hf as [_ Hs]. unfold similar_order in Hs.
  rewrite !andb_true_iff, orb_true_iff, !bool_decide_eq_true in Hs. cbn.
  destruct Hs as ((((([[_ _] [-> | ->]] & _) & _) & _) & _) & _); done.
Qed.

Lemma checkout_places rq pid tracking now :
  respects once_placed (create_manual_payment_order (mret tt) rq pid tracking now).
Proof.
  unfold create_manual_payment_order.
  apply once_then; [walk|]. intros d. destruct (_ && _); [apply once_quiet; walk|].
  apply once_then; [walk|]. intros q.
  apply once_on_validation; [apply refines_keeps, prepare_checkout_orders|intros; apply once_quiet; walk|]. intros pr. cbv zeta.
  apply once_then; [walk|]. intros d'.
  destruct (find_similar_pending_order _ now d') as [[opk o]|] eqn:E; [by eapply once_quiet, answer_duplicate_refines|].
  apply once_then; [walk|]. intros ?. apply once_then; [walk|]. intros [|].
  - apply once_then; [walk|]. intros d2.
    destruct (find_similar_pending_order _ now d2) as [[opk o]|] eqn:E2; [by eapply once_quiet, answer_duplicate_refines|apply once_quiet; walk].
  - apply once_then; [walk|]. intros ?. apply once_finally; [apply place_order_once|done].
Qed.

Lemma renewal_order_waiting customer c ppk p source store cd pid tracking m now :
  phase_of (status (renewal_order customer c ppk p source store cd pid tracking m now)) = Waiting.
Proof. unfold renewal_order. cbv zeta. destruct (cd_reserved cd) as [[]|]; [|case_bool_decide]; done. Qed.

Lemma record_renewal_places o cd now :
  phase_of (status o) = Waiting -> respects once_placed (record_renewal o cd now).
Proof.
  intros Ho. unfold record_renewal. apply once_or_handled; [|intros; walk].
  apply atomic_places. intros b.
  eapply triple_bind; [by apply create_order_more|]. intros [opk o1]. cbv beta. cbn [fst].
  eapply triple_bind; [apply triple_book; walk|].
  { unfold mark_customer_reward_used, keeps, orders_of. cbn. by repeat case_match. }
  intros ?. apply triple_ret. intros w Hw. by exists opk.
Qed.

Lemma renewal_places customer cpk c pid extra code public_id tracking now :
  respects once_placed (create_renewal_payment_order customer cpk c pid extra code public_id tracking now).
Proof.
  unfold create_renewal_payment_order, get_plan, get_order. destruct (VPNClient.is_deleted c); [apply once_quiet; walk|].
  destruct (VPNClient.plan c) as [ppk|]; [|apply once_quiet; walk].
  destruct (VPNClient.order c) as [opk|]; [|apply once_quiet; walk].
  apply once_then; [walk|]. intros p. apply once_then; [walk|]. intros so. destruct (_ && _); [apply once_quiet; walk|].
  apply once_then; [walk|]. intros d. cbv zeta.
  apply once_on_validation; [walk|intros; apply once_quiet; walk|]. intros cd.
  apply once_last; [apply record_renewal_places, renewal_order_waiting|intros; walk].
Qed.
End Placing.

(** ** Deposits and the periodic job *)

Definition works_some (e : event) : Prop := exists k, e = Worked_on k.

Section Follow.
Context `{Env} `{SteadyDelivery}.

Lemma approve_within (may : event -> Prop) opk instance actor source notify now :
  may (Worked_on opk) ->
  respects (refines may) (approve_and_provision_order opk instance actor source notify now).
Proof.
  intros Hm w r w' E%approve_refines. eapply refines_weaken; [|exact E]. by intros e ->.
Qed.
#[local] Hint Extern 1 (respects _ (approve_and_provision_order _ _ _ _ _ _)) =>
  apply approve_within; by eexists : frames.

Lemma auto_approve_refines opk now : respects (refines works_some) (auto_approve_order opk now).
Proof.
  unfold auto_approve_order, claim_auto_approval, get_or_create_automation, deliver_auto_approval, attempt,
    record_last_error, get_order.
  repeat first [progress walk | apply tried_respects; [apply _|]].
Qed.

Lemma collect_due_refines may now found l : respects (refines may) (collect_due now found l).
Proof.
  revert found. induction l as [|[opk o] l IH]; intros found; cbn [collect_due]; [walk|].
  unfold get_or_create_automation. walk.
Qed.
Lemma send_to_configs_refines may text l : respects (refines may) (send_to_configs text l).
Proof. induction l; cbn [send_to_configs]; walk. Qed.
#[local] Hint Resolve collect_due_refines send_to_configs_refines : frames.

Lemma reminders_refines may spk now : respects (refines may) (send_receipt_reminders spk now).
Proof. unfold send_receipt_reminders, save_reminded, get_store. walk. Qed.
#[local] Hint Resolve auto_approve_refines reminders_refines : frames.

Lemma fold_io_refines {A} may (step : A -> summary -> IO summary) l s :
  (forall x s, respects (refines may) (step x s)) -> respects (refines may) (fold_io step l s).
Proof.
  intros Hstep. revert s. induction l as [|x l IH]; intros s; cbn [fold_io]; [walk|].
  apply respects_bind; [apply _|apply Hstep|apply IH].
Qed.

Lemma counted_refines {A} may (m : IO A) ok s : respects (refines may) m -> respects (refines may) (counted m ok s).
Proof. intros Hm. unfold counted. apply respects_bind; [apply _|apply tried_respects; [apply _|done]|walk]. Qed.

Lemma job_refines now limit : respects (refines works_some) (process_order_automation now limit).
Proof.
  unfold process_order_automation. apply respects_bind; [apply _|walk|]. intros d.
  apply respects_bind; [apply _| |intros s; apply respects_bind; [apply _|walk|intros d2]].
  { apply fold_io_refines. intros opk s. unfold approve_step. apply counted_refines. walk. }
  apply respects_bind; [apply _| |intros s2; apply respects_bind; [apply _|walk|intros d3]].
  { apply fold_io_refines. intros spk s2. unfold remind_step. apply counted_refines. walk. }
  apply fold_io_refines. intros opk s3. unfold notice_step. apply respects_bind; [apply _|apply notice_refines|walk].
Qed.

Lemma confirm_locked_pays pk choice user now w r w' :
  confirm_locked pk choice user now w = (r, w') ->
  match r with
  | Ret (k, Some _) => happens (Paid k) (book_of w) (book_of w')
  | _ => book_of w' = book_of w
  end.
Proof.
  intros E. destruct r as [[k fresh]|e].
  2: { apply atomic_Raise_db in E. unfold book_of. by rewrite E. }
  apply confirm_locked_inv in E as (s & o & _ & Ho & _ & _ & Hf). destruct fresh as [o'|].
  2: { by destruct Hf as [_ ->]. }
  destruct Hf as (_ & Hr & Hc & (row & Hw & _ & _ & Hs) & _). apply book_insert in Hw. rewrite Hw, Hs.
  replace (phase_of _) with (if bool_decide (phase_of (status o) = Delivered) then Delivered else Accepted).
  - constructor; [by apply book_lookup|]. by destruct (status o).
  - by destruct (status o).
Qed.

Lemma confirm_deposit_pays pk choice user now w r w' :
  confirm_incoming_payment_sms pk choice user now w = (r, w') ->
  exists k b, may_happen (Paid k) (book_of w) b /\ may_happen (Worked_on k) b (book_of w').
Proof.
  unfold confirm_incoming_payment_sms. unfold mbind at 1, M_bind at 1.
  destruct (confirm_locked pk choice user now w) as [x w1] eqn:E. apply confirm_locked_pays in E.
  destruct x as [[k [o|]]|e]; [|by intros [= _ <-]; exists k, (book_of w); rewrite E; split; left|
                               by intros [= _ <-]; exists 0, (book_of w); rewrite E; split; left].
  unfold tried, mbind, M_bind. destruct (approve_and_provision_order _ _ _ _ _ _ w1) as [y w2] eqn:E2.
  intros [= _ <-]. apply approve_refines, collapse_work in E2. exists k, (book_of w1). split; [by right|done].
Qed.

Lemma match_deposit_refines may pk notify : respects (refines may) (process_incoming_payment_sms pk notify).
Proof. unfold process_incoming_payment_sms, notify_match. walk. Qed.

(** ** The shop as a machine *)

(** A request to the shop, with its arguments. *)
Inductive command :=
| Checkout_ (rq : checkout_request) (public_id tracking : string)
| Renew_ (customer : option Z) (cpk : Z) (c : VPNClient.vpn_client) (client_public_id : string)
    (extra : Prelude.metadata) (code public_id tracking : string)
| Approve_ (opk : Z) (instance : order) (actor : option Z) (source : string) (notify : bool)
| Reject_ (opk : Z) (reason : string) (user : option Z) (notify : bool)
| Cancel_ (opk : Z) (hide : bool)
| ConfirmAuto_ (opk user : Z) (note : string)
| CancelAuto_ (opk user : Z) (reason : string)
| Job_ (limit : nat)
| MatchDeposit_ (pk : Z) (notify : bool)
| ConfirmDeposit_ (pk : Z) (choice user : option Z)
| DismissDeposit_ (pk : Z).

(** What the shop is after serving it, however it ended. *)
Definition serve (c : command) (now : Z) (w : World) : World :=
  match c with
  | Checkout_ rq pid tracking => (create_manual_payment_order (mret tt) rq pid tracking now w).2
  | Renew_ customer cpk c cid extra code pid tracking =>
      (create_renewal_payment_order customer cpk c cid extra code pid tracking now w).2
  | Approve_ opk instance actor source notify =>
      (approve_and_provision_order opk instance actor source notify now w).2
  | Reject_ opk reason user notify => (reject_order opk reason user notify now w).2
  | Cancel_ opk hide => (cancel_order opk hide now w).2
  | ConfirmAuto_ opk user note => (confirm_auto_payment opk user note now w).2
  | CancelAuto_ opk user reason => (cancel_auto_approved_order opk user reason now w).2
  | Job_ limit => (process_order_automation now limit w).2
  | MatchDeposit_ pk notify => (process_incoming_payment_sms pk notify w).2
  | ConfirmDeposit_ pk choice user => (confirm_incoming_payment_sms pk choice user now w).2
  | DismissDeposit_ pk => (dismiss_incoming_payment_sms pk w).2
  end.

(** What each request may do to the book: at most one order placed, at most
    one event of its own order - and for the job, work on any number of them. *)
Definition effect (c : command) : relation book := fun b b' =>
  match c with
  | Checkout_ _ _ _ | Renew_ _ _ _ _ _ _ _ _ => exists k, may_happen (Placed k) b b'
  | Approve_ opk _ _ _ _ => may_happen (Worked_on opk) b b'
  | Reject_ opk _ _ _ => may_happen (Refused opk) b b'
  | Cancel_ opk _ | CancelAuto_ opk _ _ => may_happen (Withdrawn opk) b b'
  | Job_ _ => allowed works_some b b'
  | ConfirmDeposit_ _ _ _ => exists k b1, may_happen (Paid k) b b1 /\ may_happen (Worked_on k) b1 b'
  | ConfirmAuto_ _ _ _ | MatchDeposit_ _ _ | DismissDeposit_ _ => b' = b
  end.

Lemma served {A} R (m : IO A) w : respects R m -> R w (m w).2.
Proof. intros Hm. eapply Hm. apply surjective_pairing. Qed.

Lemma served_once (m : IO checkout_result) w : respects once_placed m -> exists k, may_happen (Placed k) (book_of w) (book_of (m w).2).
Proof. intros Hm. destruct (served _ _ w Hm) as [E|(k & Hk)]; [exists 0; by left|exists k; by right]. Qed.

Lemma served_quiet {A} (m : IO A) w : quiet m -> book_of (m w).2 = book_of w.
Proof. intros Hm. eapply quiet_book; [done|]. apply surjective_pairing. Qed.

Lemma serve_effect c now w : effect c (book_of w) (book_of (serve c now w)).
Proof.
  destruct c; cbn [serve effect].
  - apply served_once, checkout_places.
  - apply served_once, renewal_places.
  - apply collapse_work, (served (refines _)), approve_refines.
  - apply (collapse_closing (Refused opk)); [exists opk; by left|]. apply (served (refines _)), reject_refines.
  - apply (collapse_closing (Withdrawn opk)); [exists opk; by right|]. apply (served (refines _)), cancel_refines.
  - apply served_quiet, confirm_auto_refines.
  - apply (collapse_closing (Withdrawn opk)); [exists opk; by right|]. apply (served (refines _)), cancel_auto_refines.
  - apply (served (refines _)), job_refines.
  - apply served_quiet, match_deposit_refines.
  - eapply confirm_deposit_pays. apply surjective_pairing.
  - apply served_quiet. unfold dismiss_incoming_payment_sms. walk.
Qed.

(** C1: The shop implements its specification: whatever request it serves and
    however the request ends, the order book changes as that request may change
    it.  A checkout or a renewal records at most one order, which waits; an
    approval moves no order but its own, and only while it is open, from one open
    phase to another; a rejection closes its own order, and never a delivered
    one; a cancellation, also of an automatic approval, closes its own order; the
    periodic job moves open orders only, and only between open phases; confirming
    a deposit accepts at most one order, an open one, and works on no other;
    confirming an automatic approval, matching a deposit and dismissing one leave
    every order's phase alone. *)
Theorem requests_refine_the_order_book c now w : effect c (book_of w) (book_of (serve c now w)).
Proof. apply serve_effect. Qed.

(** Serving a queue of requests. *)
Definition serve_all (l : list (command * Z)) (w : World) : World :=
  foldl (fun w ct => serve ct.1 ct.2 w) w l.

Lemma happens_closed e k b b' : happens e b b' -> b !! k = Some Closed -> b' !! k = Some Closed.
Proof.
  intros Hh Hk. inversion Hh as [k' ? Hn|k' ? p Hp Ho|k' ? p q Hp Ho|k' ? p Hp|k' ? p Hp]; subst;
    (destruct (decide (k' = k)) as [->|Hne]; [|by rewrite lookup_insert_ne]);
    rewrite ?lookup_insert_eq; congruence.
Qed.

Lemma may_happen_closed e k b b' : may_happen e b b' -> b !! k = Some Closed -> b' !! k = Some Closed.
Proof. intros [->|Hh]; [done|by apply (happens_closed _ _ _ _ Hh)]. Qed.

Lemma effect_closed c k b b' : effect c b b' -> b !! k = Some Closed -> b' !! k = Some Closed.
Proof.
  destruct c; cbn [effect]; try apply may_happen_closed; try (by intros ->).
  - intros (k' & Hh). by apply (may_happen_closed _ _ _ _ Hh).
  - intros (k' & Hh). by apply (may_happen_closed _ _ _ _ Hh).
  - induction 1 as [|b b1 b2 (e & _ & Hh) _ IH]; [done|]. intros Hb. by apply IH, (happens_closed _ _ _ _ Hh).
  - intros (k' & b1 & Hp & Hw) Hb. eapply may_happen_closed; [done|]. by eapply may_happen_closed.
Qed.

(** Rejection and cancellation are final: once an order is closed, no
    queue of requests of any length - approvals, retries by the periodic job,
    deposits that match it, other checkouts - ever opens it again. *)
Theorem closed_orders_stay_closed k l w :
  book_of w !! k = Some Closed -> book_of (serve_all l w) !! k = Some Closed.
Proof.
  revert w. induction l as [|[c t] l IH]; intros w Hw; [done|]. apply (IH (serve c t w)).
  by apply (effect_closed c k (book_of w)); [apply serve_effect|].
Qed.
End Follow.

(** ** The sample shop *)

Lemma requests_refine_the_order_book_witness :
  let c := Reject_ 1000 "no receipt" None true in
  effect c (book_of sample_shop) (book_of (@serve sample_env no_delivery c 5 sample_shop)).
Proof. intros c. apply (@requests_refine_the_order_book sample_env no_delivery no_delivery_steady). Defined.

(** A cancelled order, then everything that might revive it. *)
Definition revival : list (command * Z) :=
  [ (Approve_ 1000 (sample_order 10) None "manual_retry" true, 6);
    (ConfirmDeposit_ 1 (Some 1000) None, 7); (Job_ 10, 8); (Reject_ 1000 "late" None false, 9) ].

Lemma closed_orders_stay_closed_witness :
  let w := (@cancel_order sample_env 1000 true 5 sample_matched).2 in
  book_of (@serve_all sample_env no_delivery revival w) !! 1000 = Some Closed.
Proof.
  intros w. apply (@closed_orders_stay_closed sample_env no_delivery no_delivery_steady).
  vm_compute. reflexivity.
Defined.
