(* ===== verification/DeliverySpec.v ===== *)
(** What the delivery engines guarantee: together they are the shop's
    [Provisioning.Delivery], and keep every law the theorems about approval,
    automation, grants and the order book rely on. *)

From S2P Require Import Prelude Models World Numbers Discounts Referrals ReferralRewards OrderStore Inbounds Scope OrderActions Provisioning ProvisioningSpec ModernSpec ApprovalFrame GrantSpec Submission Checkout ClientManagement AutomationSpec Lifecycle Inventory Cups FeedFilter Feeds PlanDelivery CupRecipes DeliveryConfig Assignment DeliveryFrame.
Import Order.

(** Readiness is judged at [clock]; everything else an engine does at the time
    it is called. *)
#[global] Instance shop_delivery `{Env} (clock : Z) : Delivery := {|
  Provisioning.resolve_plan_delivery_configuration := DeliveryConfig.resolve_plan_delivery_configuration clock;
  Provisioning.execute_plan_delivery := PlanDelivery.execute_plan_delivery;
  Provisioning.fulfill_order_with_recipe := CupRecipes.fulfill_order_with_recipe;
  Provisioning.complete_inventory_assignment := Assignment.complete_inventory_assignment |}.

Section Laws.
Context `{Env}.

(** ** Assignment *)

(** The order an assignment saves: its row, or its row settled. *)
Definition settled_from (row o : order) (error : string) : Prop :=
  purchase_of o = purchase_of row /\
  ((error = "" /\ status o = COMPLETED /\ verification_status o = V_VERIFIED /\ text_truthy (sub_link o) = true)
   \/ (error <> "" /\ status o = status row)).

Lemma join_errors_truthy errors : or_str (join "؛ " errors) ASSET_NOT_ADDED <> "".
Proof. unfold or_str. case_bool_decide; done. Qed.

Lemma cup_url_truthy d c st url : build_subscription_cup_url d c st = Ret url -> text_truthy (Some url) = true.
Proof.
  unfold build_subscription_cup_url, build_subscription_cup_path. intros (base & _ & E)%result_bind_Ret.
  injection E as <-. cbn. apply negb_true_iff, bool_decide_eq_false. by destruct base.
Qed.

Lemma assign_asset_order opk o p ka actor now w o' error w' :
  assign_asset opk o p ka actor now w = (Ret (o', error), w') -> settled_from o o' error.
Proof.
  unfold assign_asset. intros (pool & w1 & _ & E)%M_bind_Ret. apply M_bind_Ret in E as ([cpk c] & w2 & _ & E).
  apply M_bind_Ret in E as ([added errors] & w3 & _ & E). destruct (added =? 0).
  { injection E as <- <- _. split; [done|]. right. split; [apply join_errors_truthy|done]. }
  apply M_bind_Ret in E as (u & w4 & _ & E). apply M_bind_Ret in E as (d & w5 & _ & E).
  apply M_bind_Ret in E as (url & w6 & [Hurl _]%liftR_Ret & E). apply M_bind_Ret in E as (m & w7 & _ & E).
  injection E as <- <- _. split; [done|]. left. split; [done|]. split; [done|]. split; [done|].
  by apply cup_url_truthy in Hurl.
Qed.

(** A run of the transaction that saved the order. *)
Record assignment_saved (opk : Z) (now : Z) (w w' : World) (row o : order) (p : Plan.plan) (error : string) : Prop := {
  as_row : orders (db w) !! opk = Some row;
  as_open : assignment_refusal (db w) opk row = None;
  as_settled : settled_from row o error;
  as_provisioning : provisioning_status o = if bool_decide (error = "") then PROVISIONED else FAILED;
  as_orders : orders (db w') = <[opk := saved_instance o p now]> (orders (db w));
  as_others : (automations (db w'), stores (db w'), payment_sms (db w'))
              = (automations (db w), stores (db w), payment_sms (db w));
}.

Lemma settle_from row o error : settled_from row o error -> settled_from row (settle_assignment error o) error.
Proof. intros H0. exact H0. Qed.

Lemma assignment_save opk row o error p now w0 w r w' :
  orders (db w0) !! opk = Some row -> assignment_refusal (db w0) opk row = None ->
  shop_books w = shop_books w0 -> settled_from row o error ->
  provisioning_status o = (if bool_decide (error = "") then PROVISIONED else FAILED) ->
  save_order_full opk o now w = (Ret r, w') -> plans (db w) !! plan o = Some p ->
  assignment_saved opk now w0 w' row o p error /\ r = saved_instance o p now.
Proof.
  intros Hrow Hopen Hb Hs Hps E Hp. apply save_order_full_inv in E as (p' & Hp' & -> & Hv).
  assert (p' = p) as -> by congruence. split; [|done].
  pose proof (service_view_side _ _ Hv) as Hside. unfold side_tables in Hside. injection Hside as _ _ _ _ _ Hsms.
  apply service_view_inv in Hv as (Hos & _ & _ & _ & Hst & Ha & _). cbn in Hos, Hst, Ha, Hsms.
  unfold shop_books in Hb. injection Hb as Hb1 Hb2 Hb3 Hb4.
  constructor; [done..| |]; [rewrite Hos, Hb1; reflexivity|congruence].
Qed.

Lemma assignment_asset_step opk row o p asset actor now w o' error w' :
  settled_from row o ASSET_NOT_FOUND ->
  (match asset with
   | Some ka => assign_asset opk o p ka actor now
   | None => mret (o, ASSET_NOT_FOUND)
   end) w = (Ret (o', error), w') ->
  settled_from row o' error /\ shop_books w' = shop_books w /\ plan o' = plan row.
Proof.
  intros Ho E. assert (Hb : shop_books w' = shop_books w).
  { destruct asset as [ka|]; [|by injection E as _ _ <-].
    refine (assign_asset_frame (keeps shop_books) opk _ o p ka actor now w _ w' E). by intros w1 w2 Hw. }
  assert (Hs : settled_from row o' error).
  { destruct asset as [ka|]; [|injection E as <- <- _; exact Ho].
    apply assign_asset_order in E as [Hp Hc]. destruct Ho as [Hp0 Hc0]. split; [congruence|].
    destruct Hc as [Hc|[He Hst]]; [by left|]. right. split; [done|].
    destruct Hc0 as [(Hne & _)|[_ Hst0]]; [done|]. congruence. }
  split; [done|]. split; [done|]. destruct Hs as [Hp _]. by injection Hp.
Qed.

(** How a transaction can end: refused, rolled back, or with the order saved. *)
Definition locked_outcome (opk now : Z) (w w' : World) (r : result (provisioning_result + order * string)) : Prop :=
  (shop_books w' = shop_books w /\
   match r with
   | Ret (inl x) => exists row, orders (db w) !! opk = Some row /\ assignment_refusal (db w) opk row = Some x
   | Ret (inr _) => False
   | Raise _ => True
   end) \/
  (exists row o p error, r = Ret (inr (saved_instance o p now, error)) /\ assignment_saved opk now w w' row o p error).

Lemma assignment_locked_inv opk actor now w r w' :
  assignment_locked opk actor now w = (r, w') -> locked_outcome opk now w w' r.
Proof.
  unfold assignment_locked. intros E. destruct r as [x|e].
  2: { left. split; [|done]. unfold shop_books. by rewrite (atomic_Raise_db _ _ _ _ E). }
  apply (proj1 (atomic_Ret _ _ _ _)) in E. unfold get_order, get_plan in E.
  apply M_bind_Ret in E as (row & w0 & [Hrow ->]%get_or_raise_Ret & E).
  apply M_bind_Ret in E as (d & w0 & [= <- <-] & E). destruct (assignment_refusal (db w) opk row) as [s|] eqn:Hr.
  { injection E as <- <-. left. split; [done|]. by exists row. }
  apply M_bind_Ret in E as (asset & w0 & [_ ->]%liftR_Ret & E).
  apply M_bind_Ret in E as (p & w0 & [Hp ->]%get_or_raise_Ret & E).
  apply M_bind_Ret in E as ([o error] & w2 & Ea & E).
  apply (assignment_asset_step opk row) in Ea as (Hs & Hb & Hpl).
  2: { split; [done|]. right. by split. }
  apply M_bind_Ret in E as (o' & w3 & Es & E). injection E as <- <-.
  assert (exists q, plans (db w2) !! plan (settle_assignment error o) = Some q) as [q Hq].
  { apply save_order_full_inv in Es as (q & Hq & _). by exists q. }
  destruct (assignment_save opk row _ error q now w w2 o' w3 Hrow Hr Hb (settle_from _ _ _ Hs) eq_refl Es Hq) as [Hsv ->].
  right. by exists row, (settle_assignment error o), q, error.
Qed.

(** How the whole assignment ends. *)
Definition assignment_ended (opk now : Z) (w w' : World) (r : result provisioning_result) : Prop :=
  (shop_books w' = shop_books w /\
   forall x, r = Ret x -> exists row, orders (db w) !! opk = Some row /\ assignment_refusal (db w) opk row = Some x) \/
  (exists row o p error, assignment_saved opk now w w' row o p error /\
   forall x, r = Ret x -> ok x = bool_decide (error = "")).

Lemma complete_assignment_inv opk actor notify now w r w' :
  complete_inventory_assignment opk actor notify now w = (r, w') -> assignment_ended opk now w w' r.
Proof.
  unfold complete_inventory_assignment. intros E.
  destruct (assignment_locked opk actor now w) as [x w1] eqn:El.
  assert (Hd : db w' = db w1 /\ match x with
    | Ret (inl s) => r = Ret s
    | Ret (inr (_, error)) => forall y, r = Ret y -> ok y = bool_decide (error = "")
    | Raise e => r = Raise e end).
  { revert E. unfold mbind, M_bind. rewrite El. destruct x as [[s|[o error]]|e]; try by intros [= <- <-].
    destruct (bool_decide (error = "")) eqn:He; cbn [negb]; [|by intros [= <- <-]; split; [|intros y [= <-]]].
    destruct notify; [|by intros [= <- <-]; split; [|intros y [= <-]]]. unfold askR, mbind, M_bind.
    destruct (notify_order_event _ _ _ _); intros [= <- <-]; (split; [done|]); by intros y [= <-]. }
  destruct Hd as [Hd Hr]. apply assignment_locked_inv in El as [[Hb Hx]|(row & o & p & error & -> & Hs)].
  - left. unfold shop_books in *. rewrite Hd. split; [done|].
    destruct x as [[s|[? ?]]|e]; [subst r; intros y [= <-]; exact Hx|done|by subst r].
  - right. exists row, o, p, error. split; [|done]. destruct Hs. constructor; by rewrite ?Hd.
Qed.

Lemma saved_purchase o p now : purchase_of (saved_instance o p now) = purchase_of o.
Proof.
  unfold saved_instance. assert (E := prepare_save_keeps purchase_of p now (localdate_tehran now) o).
  revert E. generalize (prepare_save p now (localdate_tehran now) o).1. intros x E. rewrite <- E; done.
Qed.

(** ** The laws *)

#[global] Instance shop_tidy clock : @TidyDelivery (shop_delivery clock).
Proof.
  constructor; intros.
  - apply execute_delivery_frame; [apply _..| |intros; apply save_order_purchases].
    unfold shop_books, keeps, purchases. intros w w' [=]. congruence.
  - apply fulfill_frame; [apply _..| |intros; apply save_order_purchases].
    unfold shop_books, keeps, purchases. intros w w' [=]. congruence.
  - intros w r w' [[Hb _]|(row & o & p & error & [Hrow _ [Hp _] _ Ho _] & _)]%complete_assignment_inv; unfold keeps, purchases.
    + unfold shop_books in Hb. injection Hb as -> _ _ _. done.
    + rewrite Ho, fmap_insert, saved_purchase, Hp. apply insert_id. by rewrite lookup_fmap, Hrow.
Qed.

#[global] Instance shop_discreet clock : @DiscreetDelivery (shop_delivery clock).
Proof.
  constructor; intros.
  - apply execute_delivery_frame; [apply _..| |intros; apply save_order_bystanders].
    unfold shop_books, keeps, bystanders. intros w w' [=]. congruence.
  - apply fulfill_frame; [apply _..| |intros; apply save_order_bystanders].
    unfold shop_books, keeps, bystanders. intros w w' [=]. congruence.
  - intros w r w' [[Hb _]|(row & o & p & error & [Hrow _ _ _ Ho Hrest] & _)]%complete_assignment_inv; unfold keeps, bystanders.
    + unfold shop_books in Hb. by injection Hb as -> -> -> ->.
    + injection Hrest as -> -> ->. by rewrite Ho, delete_insert_eq.
Qed.

(** What an assignment does to the order book: its order was open and stays
    so. *)
Lemma saved_phase row o p now error :
  settled_from row o error -> phase_of (status row) <> Closed -> phase_of (status (saved_instance o p now)) <> Closed.
Proof.
  intros [_ Hs] Hopen. rewrite saved_instance_status. case_bool_decide; [done|].
  destruct Hs as [(_ & -> & _)|[_ ->]]; done.
Qed.

Lemma refusal_open d opk row : assignment_refusal d opk row = None -> phase_of (status row) <> Closed.
Proof.
  unfold assignment_refusal. case_bool_decide; [done|]. destruct (cancellation_recorded opk d); [done|].
  destruct (status row); done.
Qed.

#[global] Instance shop_steady clock : @SteadyDelivery (shop_delivery clock).
Proof.
  constructor; intros.
  - apply execute_delivery_frame; [apply _..| |intros; by apply save_order_pushes].
    unfold shop_books. intros w w' [=]. by apply pushes_same.
  - apply fulfill_frame; [apply _..| |intros; by apply save_order_pushes].
    unfold shop_books. intros w w' [=]. by apply pushes_same.
  - intros w r w' [[Hb _]|(row & o & p & error & [Hrow Hopen Hs _ Ho _] & _)]%complete_assignment_inv.
    + unfold shop_books in Hb. injection Hb as Hb _ _ _. by apply refines_same.
    + apply (refines_one _ (Worked_on opk)); [done|]. rewrite (book_insert _ _ _ _ Ho).
      apply refusal_open in Hopen. eapply work; [by apply book_lookup|done|by eapply saved_phase].
Qed.

Lemma assignment_settles_order opk actor notify now w x w' :
  complete_inventory_assignment opk actor notify now w = (Ret x, w') -> ok x = true ->
  settled opk w' \/ exists row, orders (db w) !! opk = Some row /\ status row = COMPLETED /\ orders (db w') = orders (db w).
Proof.
  intros [[Hb Hx]|(row & o & p & error & [Hrow _ [_ Hs] _ Ho _] & Hx)]%complete_assignment_inv Hok.
  - right. destruct (Hx x eq_refl) as (row & Hrow & Hr). exists row. split; [done|].
    unfold shop_books in Hb. injection Hb as Hb _ _ _. split; [|done].
    unfold assignment_refusal in Hr. destruct (bool_decide_reflect (status row = COMPLETED)); [done|].
    revert Hr. repeat case_match; intros [= <-]; done.
  - left. rewrite (Hx x eq_refl) in Hok. apply bool_decide_eq_true in Hok as ->. destruct Hs as [(_ & Hs & Hv & _)|[? _]]; [|done].
    exists (saved_instance o p now). rewrite Ho, lookup_insert_eq, saved_instance_status, saved_instance_verification, Hs, Hv. done.
Qed.

Lemma finish_success_settles opk o p config mode results actor now :
  triple (fun _ => True) (finish_success_order opk o p config mode results actor now)
    (fun _ => settled opk) (fun _ => True).
Proof.
  unfold finish_success_order. cbv zeta. eapply triple_bind; [apply triple_true|].
  intros [[[cups feeds] sub] direct]. cbv beta iota.
  apply save_settles; [unfold V2_FIELDS; set_solver..|apply delivered_status|].
  unfold delivered_order, mark_provisioning_state. repeat case_match; done.
Qed.

#[global] Instance shop_lawful clock : @LawfulDelivery (shop_delivery clock).
Proof.
  constructor; intros; cbn.
  - unfold execute_plan_delivery. eapply triple_bind; [apply triple_true|]. intros o. cbv beta.
    eapply triple_bind; [apply triple_true|]. intros c. cbv beta zeta.
    case_bool_decide; [by apply triple_ret|]. destruct (negb _); [by apply triple_ret|].
    apply triple_atomic; [|done]. do 2 (eapply triple_bind; [apply triple_true|]; intros ?; cbv beta).
    destruct (active_delivery_sources _ _) as [|x l].
    { eapply triple_bind; [apply triple_true|]. intros ?. by apply triple_ret. }
    do 3 (eapply triple_bind; [apply triple_true|]; intros ?; cbv beta zeta).
    destruct (negb _); (eapply triple_bind; [|intros ?; apply triple_ret]).
    + apply triple_true.
    + done.
    + eapply triple_conseq; [apply finish_success_settles|done| |done]. intros ? w' Hs. exact Hs.
    + done.
  - unfold fulfill_order_with_recipe. do 2 (eapply triple_bind; [apply triple_true|]; intros ?; cbv beta).
    destruct (get_active_recipe_for_plan _ _) as [kr|]; [|by apply triple_ret].
    apply triple_atomic; [|done].
    do 6 (eapply triple_bind; [apply triple_true|]; intros ?; cbv beta zeta).
    match goal with |- context [fulfillment_of ?s ?r ?l] => set (f := fulfillment_of s r l) end. clearbody f.
    destruct (fl_ok f) eqn:Hf.
    2: { do 2 (eapply triple_bind; [apply triple_true|]; intros ?; cbv beta). by apply triple_ret. }
    eapply triple_bind; [eapply triple_any, save_settles; [unfold RECIPE_FIELDS; set_solver..| |]|];
      [unfold fulfilled_order; by rewrite Hf..|].
    intros ?. cbv beta. eapply (triple_bind _ _ _ (fun _ => settled opk)).
    + apply triple_put_db. intros w' Hs. exact Hs.
    + intros ?. by apply triple_ret.
  - match goal with Hr : _ = (Ret _, _), Hok : ok _ = true |- _ => exact (assignment_settles_order _ _ _ _ _ _ _ Hr Hok) end.
Qed.

(** ** The outcome of a delivery *)

(** What the delivery recorded about itself on the order. *)
Definition delivery_state (o : order) : option json := md_get2 "plan_delivery_v2" "status" (metadata o).

(** The columns a delivery leaves: payment is accepted either way. *)
Record delivery_left (st : status_t) (ps : provisioning_status_t) (state error : string) (o : order) : Prop := {
  left_paid : is_paid o = true;
  left_verified : verification_status o = V_VERIFIED;
  left_status : status o = st;
  left_provisioning : provisioning_status o = ps;
  left_state : delivery_state o = Some (JStr state);
  left_error : last_provisioning_error o = error;
}.

Definition row_left (opk : Z) (st : status_t) (ps : provisioning_status_t) (state error : string) (w : World) : Prop :=
  exists row, orders (db w) !! opk = Some row /\ delivery_left st ps state error row.

Lemma saved_last_error o fs p now row :
  F_last_provisioning_error ∈ fs -> last_provisioning_error (saved_row o fs p now row) = last_provisioning_error o.
Proof.
  intros Hf. unfold saved_row. rewrite write_last_error, bool_decide_true by (apply elem_of_app; auto).
  by apply prepare_save_keeps.
Qed.

Lemma save_leaves opk o fs now st ps state error :
  F_is_paid ∈ fs -> F_verification_status ∈ fs -> F_status ∈ fs -> F_provisioning_status ∈ fs -> F_metadata ∈ fs ->
  F_last_provisioning_error ∈ fs -> st <> LEGACY_PENDING -> delivery_left st ps state error o ->
  triple (fun _ => True) (save_order opk o fs now) (fun _ => row_left opk st ps state error) (fun _ => True).
Proof.
  intros H1 H2 H3 H4 H5 H6 Hl [] w r w' _. destruct r as [o'|e]; [|done].
  intros (p & row & _ & _ & _ & Hview)%save_order_inv. apply service_view_inv in Hview as (Hos & _). cbn in Hos.
  exists (saved_row o fs p now row). rewrite Hos. split; [apply lookup_insert_eq|].
  constructor; unfold delivery_state in *;
    rewrite ?saved_is_paid, ?saved_verification_status, ?saved_status, ?saved_provisioning_status, ?saved_metadata,
      ?saved_last_error by congruence; done.
Qed.

Lemma set_assoc_eq k v kv : assoc k (set_assoc k v kv) = Some v.
Proof.
  induction kv as [|[k' v'] kv IH]; cbn; [by rewrite bool_decide_true|].
  case_bool_decide; cbn; [by rewrite bool_decide_true|by rewrite bool_decide_false].
Qed.
Lemma set_assoc_ne k k' v kv : k <> k' -> assoc k (set_assoc k' v kv) = assoc k kv.
Proof.
  intros Hk. induction kv as [|[k1 v1] kv IH]; cbn; [by rewrite bool_decide_false|].
  destruct (decide (k1 = k')) as [->|]; [rewrite bool_decide_true by done|rewrite bool_decide_false by done]; cbn.
  - by rewrite !bool_decide_false.
  - by case_bool_decide.
Qed.

Definition kept_or_confirmed (st : status_t) : status_t := if bool_decide (st = COMPLETED) then COMPLETED else CONFIRMED.

Lemma payment_accepted_kept o : status (payment_accepted o) = kept_or_confirmed (status o).
Proof. unfold payment_accepted, kept_or_confirmed. cbn. by case_bool_decide. Qed.

Lemma marked_left st ps e t key inc state o :
  is_paid o = true -> verification_status o = V_VERIFIED -> status o = st ->
  delivery_state o = Some (JStr state) -> e <> "" \/ ps <> FAILED ->
  delivery_left st ps state e (mark_provisioning_state ps e t key inc o).
Proof.
  intros ? ? ? ? He. unfold mark_provisioning_state.
  assert (Hw : negb (bool_decide (e = "")) || negb (bool_decide (ps = FAILED)) = true)
    by (destruct He; [rewrite bool_decide_false by done|rewrite (bool_decide_false (ps = FAILED)), orb_true_r by done]; done).
  rewrite Hw. constructor; repeat case_match; done.
Qed.

Lemma finish_failed_leaves opk o error key now :
  error <> "" ->
  triple (fun _ => True) (finish_failed_order opk o error key now)
    (fun _ => row_left opk (kept_or_confirmed (status o)) FAILED "failed" error) (fun _ => True).
Proof.
  intros He. unfold finish_failed_order. cbv zeta.
  apply save_leaves; [set_solver..|unfold kept_or_confirmed; by case_bool_decide|].
  match goal with |- context [payment_accepted ?x] => set (o1 := x) end.
  assert (Hst : delivery_state o1 = Some (JStr "failed")).
  { unfold delivery_state, md_get2, o1. cbn. rewrite lookup_insert_eq, set_assoc_ne by done. apply set_assoc_eq. }
  apply marked_left; [by unfold payment_accepted; case_match..| |by unfold payment_accepted; case_match|by left].
  rewrite payment_accepted_kept. reflexivity.
Qed.

Lemma mark_order_status opk o key now :
  triple (fun _ => True) (mark_order_provisioning opk o key now)
    (fun o' _ => status o' = kept_or_confirmed (status o)) (fun _ => True).
Proof.
  intros w r w' _. destruct r as [o'|e]; [|done]. unfold mark_order_provisioning.
  intros (p & row & _ & _ & -> & _)%save_order_inv.
  rewrite saved_instance_status, mark_keeps_status, payment_accepted_kept. unfold kept_or_confirmed.
  repeat case_bool_decide; done.
Qed.

Lemma kept_twice st : kept_or_confirmed (kept_or_confirmed st) = kept_or_confirmed st.
Proof. unfold kept_or_confirmed. by destruct (bool_decide (st = COMPLETED)). Qed.

Lemma finish_success_leaves opk o p config mode results actor now :
  triple (fun _ => True) (finish_success_order opk o p config mode results actor now)
    (fun _ => row_left opk COMPLETED PROVISIONED "provisioned" "") (fun _ => True).
Proof.
  unfold finish_success_order. cbv zeta. eapply triple_bind; [apply triple_true|].
  intros [[[cups feeds] sub] direct]. cbv beta iota.
  apply save_leaves; [unfold V2_FIELDS; set_solver..|done|].
  apply marked_left; [reflexivity|reflexivity|reflexivity| |by right]. unfold delivery_record.
  unfold delivery_state, md_get2. cbn. destruct (bool_decide (mode = MODE_DIRECT_LINKS));
    by rewrite ?lookup_delete_ne, ?lookup_insert_ne, lookup_insert_eq by done.
Qed.

(** What a failed delivery writes down of its errors. *)
Definition error_note (errors : list string) : string := or_str (join "; " (take 3 errors)) "plan_delivery_v2_failed".

Lemma error_note_set errors : error_note errors <> "".
Proof. unfold error_note, or_str. by case_bool_decide. Qed.

(** C7: A plan delivery always settles what it owes.  Whenever the engine returns
    for a supported mode, payment has been accepted on the order.  A success
    leaves it completed and provisioned, with the delivery recorded as
    provisioned and no error reported or recorded.  A failure names at least one
    error, records up to three of those it names as the order's last provisioning
    error, marks provisioning as failed and leaves the order confirmed, to be
    tried again - unless it was completed before, which no failed delivery
    undoes. *)
Theorem delivery_outcome opk config actor now w good errors first w' o c :
  execute_plan_delivery opk config actor now w = (Ret (good, errors, first), w') ->
  orders (db w) !! opk = Some o -> delivery_configs (db w) !! config = Some c ->
  PlanDelivery.delivery_mode c ∈ [MODE_DIRECT_LINKS; MODE_SUBSCRIPTION] ->
  if good : bool then errors = [] /\ row_left opk COMPLETED PROVISIONED "provisioned" "" w'
  else errors <> [] /\ error_note errors <> "" /\
    row_left opk (kept_or_confirmed (status o)) FAILED "failed" (error_note errors) w'.
Proof.
  intros Hrun Ho Hc Hmode.
  assert (Ht : triple (fun w1 => orders (db w1) !! opk = Some o /\ delivery_configs (db w1) !! config = Some c)
    (execute_plan_delivery opk config actor now)
    (fun x w1 => if x.1.1 : bool then x.1.2 = [] /\ row_left opk COMPLETED PROVISIONED "provisioned" "" w1
       else x.1.2 <> [] /\ row_left opk (kept_or_confirmed (status o)) FAILED "failed" (error_note x.1.2) w1) (fun _ => True)).
  2: { pose proof (Ht w _ w' (conj Ho Hc) Hrun) as Hx. cbn in Hx. pose proof (error_note_set errors). destruct good; tauto. }
  clear Hrun Ho Hc w w' good errors first. unfold execute_plan_delivery.
  eapply triple_bind; [by apply triple_get_or_raise|]. intros o0. cbv beta.
  eapply triple_bind; [by apply triple_get_or_raise|]. intros c0. cbv beta zeta.
  eapply (triple_pre _ (fun w1 => (o0 = o /\ c0 = c) /\ True)); [intros ? (? & ? & ? & ?); split; [split; congruence|done]|].
  apply triple_pure. intros [-> ->]. rewrite bool_decide_false by (intros E; rewrite E in Hmode; set_solver).
  rewrite bool_decide_true by done. cbn [negb]. apply triple_atomic; [|done].
  do 2 (eapply triple_bind; [apply triple_true|]; intros ?; cbv beta).
  destruct (active_delivery_sources _ _) as [|x l].
  { eapply triple_bind; [by apply finish_failed_leaves|]. intros ?. by apply triple_ret. }
  eapply triple_bind; [apply mark_order_status|]. intros o1. cbv beta zeta.
  apply (triple_pre _ (fun w1 => status o1 = kept_or_confirmed (status o) /\ True)); [done|].
  apply triple_pure. intros Hs1.
  eapply triple_bind; [apply triple_true|]. intros p. cbv beta zeta.
  eapply triple_bind; [apply triple_true|]. intros results. cbv beta zeta.
  set (errors := concat (map sr_errors results)). destruct (negb _).
  - eapply triple_bind; [by apply finish_failed_leaves, error_note_set|]. intros ?. apply triple_ret. cbn. intros w1 Hw.
    rewrite Hs1, kept_twice in Hw. destruct errors; [split; [done|exact Hw]|by split].
  - eapply triple_bind; [apply finish_success_leaves|]. intros ?. by apply triple_ret.
Qed.

(** C2: The delivery engines of this program discharge every contract the rest
    of the development puts to a delivery: they change no purchase, touch no
    order but the one they are handed, nor an automation row, a shop or a bank
    message; they close no order, and an assignment leaves a closed order's phase
    alone (a plan delivery or a recipe would move one, if it were handed one); and
    the success they report is a completed order with verified payment, but that
    an assignment also reports one for an order it finds completed, which it
    leaves as it is.  So the theorems about approval, automation, grants and the
    order book hold of the program as it is. *)
Theorem shop_engines_keep_the_laws clock :
  @TidyDelivery (shop_delivery clock) /\ @DiscreetDelivery (shop_delivery clock) /\
  @SteadyDelivery (shop_delivery clock) /\ @LawfulDelivery (shop_delivery clock).
Proof. split; [|split; [|split]]; apply _. Qed.

(** C8: Handing a customer a configuration from stock ends in one of three ways.
    Refused - the order is completed already, cancelled or rejected - it
    changes no order.  Otherwise the order's row is saved with the same
    purchase: on success completed, with payment verified, provisioned, and
    with a link the customer can open; on failure marked failed and otherwise in
    the status it had. *)
Theorem assignment_outcome opk actor notify now w x w' :
  complete_inventory_assignment opk actor notify now w = (Ret x, w') ->
  exists row, orders (db w) !! opk = Some row /\
  ((assignment_refusal (db w) opk row = Some x /\ orders (db w') = orders (db w)) \/
   (assignment_refusal (db w) opk row = None /\
    exists row', orders (db w') = <[opk := row']> (orders (db w)) /\ purchase_of row' = purchase_of row /\
      if ok x then status row' = COMPLETED /\ verification_status row' = V_VERIFIED /\
                   provisioning_status row' = PROVISIONED /\ text_truthy (sub_link row') = true
      else provisioning_status row' = FAILED /\ (status row <> LEGACY_PENDING -> status row' = status row))).
Proof.
  intros [[Hb Hx]|(row & o & p & error & [Hrow Hopen [Hp Hs] Hps Ho _] & Hx)]%complete_assignment_inv.
  - destruct (Hx x eq_refl) as (row & Hrow & Hr). exists row. split; [done|]. left. split; [done|].
    unfold shop_books in Hb. by injection Hb.
  - exists row. split; [done|]. right. split; [done|]. exists (saved_instance o p now).
    split; [done|]. split; [by rewrite saved_purchase|]. rewrite (Hx x eq_refl).
    rewrite saved_instance_status, saved_instance_verification, saved_instance_provisioning, saved_instance_sub_link.
    destruct Hs as [(-> & -> & -> & ->)|[He ->]].
    + by rewrite Hps.
    + rewrite Hps, bool_decide_false by done. split; [done|]. intros Hl. by rewrite bool_decide_false.
Qed.
End Laws.

(** ** A shop that delivers *)

(** Plan 1 is delivered as a subscription from pool 5; order 1002 waits for
    asset 50 of that pool. *)
Definition delivering_shop : World := sample_shop {{ db ::= fun d => d {{
  inventory_pools := {[ 5 := InventoryPool.mk_pool "links" (Some 1) None InventoryPool.EXCLUSIVE None true ]};
  inventory_assets := {[
    50 := InventoryAsset.mk_asset 5 "vless://id@example.com:443#one" "h1" InventoryAsset.AVAILABLE None None 0 1;
    51 := InventoryAsset.mk_asset 5 "vless://id@example.com:444#two" "h2" InventoryAsset.AVAILABLE None None 0 2 ]};
  delivery_configs := {[ 7 := PlanDelivery.mk_delivery_config 1 MODE_SUBSCRIPTION PlanDelivery.STRICT true ]};
  delivery_sources := {[ 70 := PlanDelivery.mk_delivery_source 7 PlanDelivery.INVENTORY_POOL None None (Some 5) 2 true 1
                                 false true ∅ ]};
  orders ::= insert 1002 ((sample_order 20) {{ status := CONFIRMED; metadata :=
    <["admin_inventory_asset_id" := JNum 50]> (<["plan_delivery_v2" := JObj [("status", JStr "pending")]]> ∅) }}) }} }}.

Definition sample_delivery := @execute_plan_delivery sample_env 1000 7 (Some 1) 20 delivering_shop.

Lemma delivery_outcome_witness :
  row_left 1000 COMPLETED PROVISIONED "provisioned" "" sample_delivery.2 /\
  length (active_cup_links 1 (db sample_delivery.2)) = 2%nat.
Proof.
  assert (E : sample_delivery = (Ret (true, [], None), sample_delivery.2)) by (vm_compute; reflexivity).
  split; [|vm_compute; reflexivity].
  exact (proj2 (@delivery_outcome sample_env 1000 7 (Some 1) 20 delivering_shop true [] None sample_delivery.2
    (sample_order 10) (PlanDelivery.mk_delivery_config 1 MODE_SUBSCRIPTION PlanDelivery.STRICT true)
    E eq_refl eq_refl ltac:(right; left))).
Defined.

Definition sample_assignment := @complete_inventory_assignment sample_env 1002 (Some 1) false 20 delivering_shop.

Lemma assignment_outcome_witness :
  exists row', orders (db sample_assignment.2) !! 1002 = Some row' /\ status row' = COMPLETED /\
    provisioning_status row' = PROVISIONED /\ text_truthy (sub_link row') = true.
Proof.
  assert (E : exists x, sample_assignment.1 = Ret x /\ ok x = true) by (eexists; split; vm_compute; reflexivity).
  destruct E as (x & E & Hok).
  assert (E2 : sample_assignment = (Ret x, sample_assignment.2)) by (rewrite <- E; apply surjective_pairing).
  destruct (@assignment_outcome sample_env 1002 (Some 1) false 20 delivering_shop x sample_assignment.2 E2)
    as (row & Hrow & [[Hr _]|(Hr & row' & Ho & _ & Hx)]).
  - assert (Hd : assignment_refusal (db delivering_shop) 1002 row = None) by (injection Hrow as <-; vm_compute; reflexivity).
    rewrite Hd in Hr. discriminate Hr.
  - exists row'. rewrite Hok in Hx. destruct Hx as (H1 & _ & H3 & H4). rewrite Ho, lookup_insert_eq. split; [reflexivity|].
    split; [exact H1|]. split; [exact H3|exact H4].
Defined.
