(* ===== verification/Revenue.v ===== *)
(** What an order counts for in the shop's revenue (src/store/order_revenue.py):
    the rule in Python, the same rule as a database expression, and the
    administrator's setting of it. *)

From S2P Require Import Prelude Models World Numbers Submission Checkout.
Import Order.

#[local] Open Scope string_scope.
#[local] Open Scope Z_scope.

(** ** The rule *)

Definition is_admin_direct_order (o : order) : bool :=
  md_truthy "admin_direct_purchase" (metadata o)
  || json_is_str "admin_direct_purchase" (metadata o !! "source").

Definition order_counts_in_revenue (o : order) : bool :=
  negb (is_admin_direct_order o) && negb (bool_decide (revenue_included o = Some false)).

Definition order_revenue_amount (o : order) : Z :=
  if negb (order_counts_in_revenue o) || negb (bool_decide (status o = COMPLETED)) || negb (is_paid o) then 0
  else if bool_decide (revenue_included o = Some true) then default 0 (revenue_amount o) else amount o.

(** ** The rule, evaluated by the database

    A condition on a null column is not true; a result may be null. *)

Definition completed_paid_order_q (o : order) : bool := bool_decide (status o = COMPLETED) && is_paid o.

(** [Case(When(c1, then=v1), ..., default=v)] *)
Fixpoint sql_case {A} (whens : list (bool * A)) (otherwise : A) : A :=
  match whens with
  | [] => otherwise
  | (c, v) :: rest => if c then v else sql_case rest otherwise
  end.

(** [metadata__key=True] *)
Definition json_is_true (j : option json) : bool := match j with Some (JBool b) => b | _ => false end.

Definition revenue_amount_expression (o : order) : option Z :=
  sql_case
    [ (json_is_true (metadata o !! "admin_direct_purchase"), Some 0);
      (json_is_str "admin_direct_purchase" (metadata o !! "source"), Some 0);
      (bool_decide (revenue_included o = Some false), Some 0);
      (completed_paid_order_q o,
        sql_case [(bool_decide (revenue_included o = Some true), revenue_amount o)] (Some (amount o))) ]
    (Some 0).

(** [Sum]: nulls are skipped; null when nothing is left. *)
Definition sql_sum (l : list (option Z)) : option Z :=
  match omap id l with [] => None | l' => Some (foldr Z.add 0 l') end.

(** [queryset.aggregate(total=Sum(...))["total"] or 0] *)
Definition reported_revenue (os : gmap Z order) : Z :=
  default 0 (sql_sum (map (fun ko => revenue_amount_expression ko.2) (map_to_list os))).

(** ** Setting it *)

(** [.replace("٬", "")]: U+066C is D9 AC. *)
Fixpoint remove_arabic_comma (s : string) : string :=
  match s with
  | String c1 ((String c2 s2) as s1) =>
      if (code_of c1 =? 217) && (code_of c2 =? 172) then remove_arabic_comma s2
      else String c1 (remove_arabic_comma s1)
  | _ => s
  end.

Definition typed_amount (text : string) : string :=
  remove_arabic_comma (remove_char "," (strip (normalize_payment_digits text))).

(** [raw.isdigit()] of ASCII text, with its value. *)
Definition plain_number (raw : string) : option Z :=
  let '(v, n, rest) := take_digits raw 0 0 in
  if bool_decide (rest = "") && (0 <? n) && (n <=? 10) then Some v else None.

(** [RevenueSettingsForm]: the two values of a valid form. *)
Definition clean_revenue_settings (choice text : string) : option (bool * option Z) :=
  if bool_decide (choice = "yes") then
    match plain_number (typed_amount text) with
    | Some v => if (0 <? v) && (v <=? 2147483647) then Some (true, Some v) else None
    | None => None
    end
  else if bool_decide (choice = "no") then Some (false, None) else None.

Definition ADMIN_DIRECT_MESSAGE : string := "خرید مستقیم ادمین در درآمد حساب نمی‌شود.".

(** The three columns [QuerySet.update] writes; no [save], no signal. *)
Definition with_revenue (included : bool) (amount : option Z) (now : Z) (o : order) : order :=
  o {{ revenue_included := Some included;
       revenue_amount := if included then amount else None;
       updated_at := now }}.

Definition update_order_revenue (opk : Z) (o : order) (included : bool) (amount : option Z) (now : Z)
    : IO order :=
  if is_admin_direct_order o && included then raise (ValidationError ADMIN_DIRECT_MESSAGE)
  else if negb (valid_revenue included amount) then raise (ValidationError REVENUE_INVALID_MESSAGE)
  else
    _ ← put_db (fun d => d {{ orders ::= alter (with_revenue included amount now) opk }});
    get_order opk.

(** ** The two rules agree *)

(** The flag, when there is one, is a boolean: what the code stores. *)
Definition boolean_flag (o : order) : Prop :=
  match metadata o !! "admin_direct_purchase" with
  | None | Some (JBool _) | Some JNull => True
  | _ => False
  end.

Lemma flag_truthy o :
  boolean_flag o ->
  md_truthy "admin_direct_purchase" (metadata o) = json_is_true (metadata o !! "admin_direct_purchase").
Proof. unfold boolean_flag, md_truthy. destruct (metadata o !! _) as [[]|]; done. Qed.

Lemma expression_agrees o : boolean_flag o -> default 0 (revenue_amount_expression o) = order_revenue_amount o.
Proof.
  intros Hf. unfold order_revenue_amount, order_counts_in_revenue, is_admin_direct_order.
  rewrite (flag_truthy o Hf). unfold revenue_amount_expression, completed_paid_order_q. cbn [sql_case].
  destruct (json_is_true _); [done|]. destruct (json_is_str _ _); [done|].
  destruct (bool_decide (revenue_included o = Some false)); [done|].
  destruct (bool_decide (status o = COMPLETED)), (is_paid o); try done. cbn.
  by destruct (bool_decide (revenue_included o = Some true)).
Qed.

Lemma sql_sum_default l : default 0 (sql_sum l) = foldr (fun x acc => default 0 x + acc) 0 l.
Proof.
  assert (Hs : foldr Z.add 0 (omap id l) = foldr (fun x acc => default 0 x + acc) 0 l).
  { induction l as [|[x|] l IH]; cbn; [done| |]; unfold id in *; cbn; lia. }
  rewrite <- Hs. unfold sql_sum. by destruct (omap id l).
Qed.

(** Revenue, order by order, as the pages show it. *)
Definition recognized_revenue (os : gmap Z order) : Z :=
  foldr (fun ko acc => order_revenue_amount ko.2 + acc) 0 (map_to_list os).

(** Reports and pages agree: the revenue the database adds up over any set
    of orders is the sum of what the Python rule recognises for each - admin
    purchases and excluded orders at zero, unpaid or unfinished ones at zero,
    an adjusted amount in place of the charged one - provided the flag of an
    admin purchase is stored as a boolean; nulls make no difference. *)
Theorem reports_agree_with_pages os :
  (forall k o, os !! k = Some o -> boolean_flag o) -> reported_revenue os = recognized_revenue os.
Proof.
  intros Hf. unfold reported_revenue, recognized_revenue. rewrite sql_sum_default.
  assert (Hl : Forall (fun ko => boolean_flag ko.2) (map_to_list os)).
  { apply Forall_forall. intros [k o] Hin%elem_of_map_to_list. by apply (Hf k). }
  induction Hl as [|[k o] l Ho _ IH]; [done|].
  cbn [map foldr fst snd] in *. rewrite IH. by rewrite expression_agrees.
Qed.

(** ** Setting and reading back *)

Lemma clean_revenue_inv choice text inc a :
  clean_revenue_settings choice text = Some (inc, a) ->
  valid_revenue inc a = true /\ (inc = false -> a = None).
Proof.
  unfold clean_revenue_settings, valid_revenue. case_bool_decide.
  - destruct (plain_number _) as [v|]; [|done]. destruct (_ && _) eqn:Hv; [|done].
    intros [= <- <-]. split; [exact Hv|done].
  - case_bool_decide; [|done]. by intros [= <- <-].
Qed.

(** What an administrator may type is what counts: settings the form
    accepts are never refused by the service for an order that is not an admin
    purchase; they change the order's two revenue columns and nothing else -
    no signal runs - and a completed, paid order then counts for exactly the
    amount typed, or for nothing when excluded. *)
Theorem revenue_setting_roundtrip choice text inc a opk o now w :
  clean_revenue_settings choice text = Some (inc, a) ->
  orders (db w) !! opk = Some o -> is_admin_direct_order o = false ->
  exists row, update_order_revenue opk o inc a now w =
      (Ret row, w {{ db -> orders ::= insert opk row }}) /\
    row = (o {{ revenue_included := Some inc; revenue_amount := a; updated_at := now }}) /\
    (status o = COMPLETED -> is_paid o = true -> order_revenue_amount row = default 0 a).
Proof.
  intros [Hv Hn]%clean_revenue_inv Ho Hd. exists (with_revenue inc a now o).
  split; [|split].
  - assert (He : alter (with_revenue inc a now) opk (orders (db w)) =
                 <[opk := with_revenue inc a now o]> (orders (db w))).
    { apply map_eq. intros k. destruct (decide (opk = k)) as [<-|Hne].
      - by rewrite lookup_alter_eq, lookup_insert_eq, Ho.
      - by rewrite lookup_alter_ne, lookup_insert_ne. }
    unfold update_order_revenue, get_order. run_io. rewrite Hd, Hv. cbn. by rewrite He, lookup_insert_eq.
  - unfold with_revenue. destruct inc; [done|]. by rewrite Hn.
  - intros Hs Hp. unfold order_revenue_amount, order_counts_in_revenue.
    change (is_admin_direct_order (with_revenue inc a now o)) with (is_admin_direct_order o). rewrite Hd. cbn.
    rewrite Hs, Hp. destruct inc; cbn; [done|by rewrite Hn].
Qed.

(** ** Samples *)

Lemma reports_agree_with_pages_witness :
  let os := orders (db sample_shop) in reported_revenue os = recognized_revenue os.
Proof.
  intros os. apply reports_agree_with_pages. subst os. cbn. intros k o.
  rewrite lookup_insert_Some, lookup_singleton_Some. intros [[_ <-]|[_ [_ <-]]]; exact I.
Defined.

Lemma revenue_setting_roundtrip_witness :
  let o := (sample_order 10) {{ status := COMPLETED }} in
  let w := sample_shop {{ db -> orders ::= insert 1000 o }} in
  exists row, (update_order_revenue 1000 o true (Some 150000) 9 w).1 = Ret row /\ order_revenue_amount row = 150000.
Proof.
  intros o w.
  destruct (revenue_setting_roundtrip "yes" " ۱۵۰,000 " true (Some 150000) 1000 o 9 w) as (row & E & _ & Hr);
    [vm_compute; reflexivity|apply lookup_insert_eq|reflexivity|].
  exists row. rewrite E. split; [reflexivity|]. rewrite Hr by reflexivity. reflexivity.
Defined.

(** Without the boolean flag the two rules part: a text counts as true in
    Python and is not the JSON value true. *)
Example text_flag_disagrees :
  let o := (sample_order 10) {{ status := COMPLETED;
             metadata := {[ "admin_direct_purchase" := JStr "yes" ]} }} in
  revenue_amount_expression o = Some 200000 /\ order_revenue_amount o = 0.
Proof. split; vm_compute; reflexivity. Qed.
