(* ===== verification/CustomerAnalytics.v ===== *)
(** What the shop knows of its customers as buyers
    (src/store/customer_analytics.py): the figures of each, as the database
    computes them, and the groups they are sorted into.
    [CustomerAnalyticsSpec] proves the theorems.

    Neither the calendar periods of the reports are modelled, only the window of
    thirty days, nor settings of a shop handed in: those of the first active shop
    count.  [now] is one reading of the clock.  A list of customers is the list of their primary keys; names
    are ordered by [collation_rank]. *)

From S2P Require Import Prelude Models World Numbers Revenue.
Import Order.

#[local] Open Scope string_scope.
#[local] Open Scope Z_scope.

Record customer_stats := mk_stats {
  total_paid_amount : Z;
  successful_orders_count : Z;
  renewal_orders_count : Z;
  first_purchase_at : option Z;
  last_purchase_at : option Z;
  active_configs_count : Z;
  total_purchased_gb : Z;
  total_referrals_count : Z;
  successful_referrals_count : Z;
  successful_referral_amount : Z;
  available_referral_gb : Z;
  redeemed_referral_gb : Z;
}.

Inductive segment :=
| SEGMENT_ALL | SEGMENT_ACTIVE_CUSTOMERS | SEGMENT_ACTIVE_CONFIG | SEGMENT_CUSTOMERS_WITHOUT_ORDER | SEGMENT_LOYAL
| SEGMENT_GOOD | SEGMENT_NEW_CUSTOMER | SEGMENT_TOP_BUYER | SEGMENT_TOP_REFERRER | SEGMENT_INACTIVE | SEGMENT_NO_ORDER.
#[global] Instance segment_eq_dec : EqDecision segment.
Proof. solve_decision. Defined.

Definition days (n : Z) : Z := n * VPNClient.day.

(** ** The shop's bounds *)

(** [Store.objects.filter(is_active=True).order_by("id").first() or
    Store.objects.order_by("id").first()] *)
Definition first_store (d : DB) : option (Z * Store.store) :=
  match first_where (fun _ s => Store.is_active s) (stores d) with
  | Some ks => Some ks
  | None => first_where (fun _ _ => true) (stores d)
  end.

Definition setting_value (column : Store.campaign_columns -> Z) (otherwise : Z) (d : DB) : Z :=
  match first_store d with Some (_, s) => column (Store.campaigns s) | None => otherwise end.

Definition good_customer_min_total_amount : DB -> Z := setting_value Store.good_customer_min_total_amount 500000.
Definition loyal_customer_min_orders_30d : DB -> Z := setting_value Store.loyal_customer_min_orders_30d 2.
Definition top_customers_limit (d : DB) : Z := Z.max (setting_value Store.top_customers_limit 10 d) 1.
Definition inactive_customer_days (d : DB) : Z := Z.max (setting_value Store.inactive_customer_days 30 d) 1.

Definition recent_30_day_range (now : Z) : option Z * option Z := (Some (now - days 30), Some now).

(** ** Orders that count *)

Definition purchase_at_range_q (date_from date_to : option Z) (o : order) : bool :=
  match date_from with
  | None => true
  | Some t => match verified_at o with Some v => t <=? v | None => t <=? created_at o end
  end
  && match date_to with
     | None => true
     | Some t => match verified_at o with Some v => v <? t | None => created_at o <? t end
     end.

Definition successful_order_q (date_from date_to : option Z) (o : order) : bool :=
  completed_paid_order_q o && purchase_at_range_q date_from date_to o.

Definition renewal_order_q (o : order) : bool :=
  json_is_true (metadata o !! "renewal") || is_set (metadata o !! "renewal_client_pk").

Definition success_at (o : order) : Z := default (created_at o) (verified_at o).

Section Figures.
Context (d : DB) (now : Z) (date_from date_to : option Z).

Definition successful_orders (cpk : Z) : list (Z * order) :=
  rows_where (fun _ o => bool_decide (customer o = Some cpk) && successful_order_q date_from date_to o) (orders d).

Definition referrer_of (cpk : Z) : option Z := customers d !! cpk ≫= Customer.referred_by.

Definition successful_referral_orders (cpk : Z) : list (Z * order) :=
  rows_where (fun _ o => bool_decide (customer o ≫= referrer_of = Some cpk) && successful_order_q date_from date_to o)
    (orders d).

Definition purchased_gb (o : order) : option Z := (fun p => Plan.volume_gb p * quantity o) <$> plans d !! plan o.

(** A client that works, of an order of the customer. *)
Definition active_config (cpk : Z) (c : VPNClient.vpn_client) : bool :=
  bool_decide ((VPNClient.order c ≫= fun o => orders d !! o ≫= customer) = Some cpk)
  && bool_decide (VPNClient.status c = VPNClient.ACTIVE)
  && match VPNClient.expires_at c with None => true | Some t => now <? t end.

Definition invited_in_range (cpk : Z) (c : Customer.customer) : bool :=
  bool_decide (Customer.referred_by c = Some cpk)
  && match date_from with None => true | Some t => t <=? Customer.created_at c end
  && match date_to with None => true | Some t => Customer.created_at c <? t end.

Definition ledger_gb (status : Ledger.status_t) (cpk : Z) : Z :=
  default 0 (sql_sum (map (fun kl => Some (Ledger.reward_gb kl.2))
    (rows_where (fun _ l => bool_decide (Ledger.inviter l = cpk) && bool_decide (Ledger.status l = status)) (ledgers d)))).

Definition amounts (l : list (Z * order)) : Z := default 0 (sql_sum (map (fun ko => revenue_amount_expression ko.2) l)).

(** The annotations of one customer's row. *)
Definition annotate_customer (cpk : Z) : customer_stats :=
  let won := successful_orders cpk in
  let invited := successful_referral_orders cpk in
  {| total_paid_amount := amounts won;
     successful_orders_count := Z.of_nat (length won);
     renewal_orders_count := Z.of_nat (length (filter (fun ko => Is_true (renewal_order_q ko.2)) won));
     first_purchase_at := (fun ko => success_at ko.2) <$> head (order_by (fun ko => [success_at ko.2; ko.1]) won);
     last_purchase_at := (fun ko => success_at ko.2) <$> head (order_by (fun ko => [- success_at ko.2; - ko.1]) won);
     active_configs_count := count_where (fun _ => active_config cpk) (clients d);
     total_purchased_gb := default 0 (sql_sum (map (fun ko => purchased_gb ko.2) won));
     total_referrals_count := count_where (fun _ => invited_in_range cpk) (customers d);
     successful_referrals_count := Z.of_nat (length (remove_dups (omap (fun ko => customer ko.2) invited)));
     successful_referral_amount := amounts invited;
     available_referral_gb := ledger_gb Ledger.AVAILABLE cpk;
     redeemed_referral_gb := ledger_gb Ledger.REDEEMED cpk |}.

Context `{Env}.

(** Active customers whose figures pass a test, in an order of their figures,
    their names and their keys. *)
Definition customers_by (key : customer_stats -> list Z) (test : customer_stats -> bool) : list Z :=
  (order_by (fun kc => (key (annotate_customer kc.1) ++ [collation_rank (Customer.display_name kc.2); kc.1])%list)
     (rows_where (fun k c => Customer.is_active c && test (annotate_customer k)) (customers d))).*1.
End Figures.

(** [queryset[:limit]] *)
Definition apply_limit (limit : option Z) (l : list Z) : list Z :=
  match limit with None => l | Some n => if n <=? 0 then [] else take (Z.to_nat n) l end.

Section Groups.
Context `{Env}.
Context (d : DB) (now : Z).

Inductive metric := AMOUNT | COUNT | RENEWALS | VOLUME.

Definition metric_field (m : metric) (s : customer_stats) : Z :=
  match m with
  | AMOUNT => total_paid_amount s
  | COUNT => successful_orders_count s
  | RENEWALS => renewal_orders_count s
  | VOLUME => total_purchased_gb s
  end.

Definition get_top_customers (m : metric) (date_from date_to limit : option Z) : list Z :=
  apply_limit (Some (default (top_customers_limit d) limit))
    (customers_by d now date_from date_to (fun s => [- metric_field m s; - total_paid_amount s])
       (fun s => 0 <? successful_orders_count s)).

Definition get_loyal_customers (date_from date_to limit : option Z) : list Z :=
  let '(date_from, date_to) :=
    match date_from, date_to with None, None => recent_30_day_range now | _, _ => (date_from, date_to) end in
  apply_limit limit
    (customers_by d now date_from date_to (fun s => [- successful_orders_count s; - renewal_orders_count s])
       (fun s => (loyal_customer_min_orders_30d d <=? successful_orders_count s) || (1 <=? renewal_orders_count s))).

Definition get_good_customers (date_from date_to limit : option Z) : list Z :=
  apply_limit limit
    (customers_by d now date_from date_to (fun s => [- total_paid_amount s])
       (fun s => good_customer_min_total_amount d <=? total_paid_amount s)).

Definition get_top_referrers (date_from date_to limit : option Z) : list Z :=
  apply_limit (Some (default (top_customers_limit d) limit))
    (customers_by d now date_from date_to (fun s => [- successful_referral_amount s; - successful_referrals_count s])
       (fun s => 0 <? successful_referrals_count s)).

(** Newest customers first, whatever their names. *)
Definition get_customers_without_order : list Z :=
  (order_by (fun kc => [- Customer.created_at kc.2; kc.1])
     (rows_where (fun k c => Customer.is_active c
        && (successful_orders_count (annotate_customer d now None None k) =? 0)) (customers d))).*1.

Definition get_customers_by_segment (seg : segment) (date_from date_to limit : option Z) : list Z :=
  match seg with
  | SEGMENT_TOP_BUYER => get_top_customers AMOUNT date_from date_to limit
  | SEGMENT_TOP_REFERRER => get_top_referrers date_from date_to limit
  | SEGMENT_LOYAL => get_loyal_customers date_from date_to limit
  | SEGMENT_GOOD => get_good_customers date_from date_to limit
  | SEGMENT_NO_ORDER | SEGMENT_CUSTOMERS_WITHOUT_ORDER => apply_limit limit get_customers_without_order
  | SEGMENT_NEW_CUSTOMER =>
      let cutoff := default (now - days 30) date_from in
      apply_limit limit
        (customers_by d now None None (fun s => [- default 0 (first_purchase_at s)])
           (fun s => match first_purchase_at s with Some t => cutoff <=? t | None => false end))
  | SEGMENT_INACTIVE =>
      let cutoff := now - days (inactive_customer_days d) in
      apply_limit limit
        (customers_by d now None None (fun s => [default 0 (last_purchase_at s)])
           (fun s => (0 <? successful_orders_count s)
                     && match last_purchase_at s with Some t => t <? cutoff | None => false end))
  | SEGMENT_ACTIVE_CUSTOMERS =>
      apply_limit limit (customers_by d now date_from date_to (fun s => [- total_paid_amount s])
                           (fun s => 0 <? successful_orders_count s))
  | SEGMENT_ACTIVE_CONFIG =>
      apply_limit limit (customers_by d now date_from date_to (fun s => [- total_paid_amount s])
                           (fun s => 0 <? active_configs_count s))
  | SEGMENT_ALL =>
      apply_limit limit (customers_by d now date_from date_to (fun s => [- total_paid_amount s]) (fun _ => true))
  end.

(** The one group a customer is shown in. *)
Definition get_customer_segment (cpk : Z) : segment :=
  if bool_decide (cpk ∈ get_top_customers AMOUNT None None (Some (top_customers_limit d))) then SEGMENT_TOP_BUYER
  else if bool_decide (cpk ∈ get_top_referrers None None (Some (top_customers_limit d))) then SEGMENT_TOP_REFERRER
  else
    let stats := annotate_customer d now None None cpk in
    let '(recent_from, recent_to) := recent_30_day_range now in
    let recent := annotate_customer d now recent_from recent_to cpk in
    if (loyal_customer_min_orders_30d d <=? successful_orders_count recent) || (1 <=? renewal_orders_count stats)
    then SEGMENT_LOYAL
    else if good_customer_min_total_amount d <=? total_paid_amount stats then SEGMENT_GOOD
    else if match first_purchase_at stats with Some t => now - days 30 <=? t | None => false end then SEGMENT_NEW_CUSTOMER
    else if successful_orders_count stats <=? 0 then SEGMENT_NO_ORDER
    else if match last_purchase_at stats with Some t => t <? now - days (inactive_customer_days d) | None => false end
    then SEGMENT_INACTIVE
    else SEGMENT_ACTIVE_CUSTOMERS.
End Groups.
