(* ===== verification/CustomerAnalyticsSpec.v ===== *)
(** What the groups of customers promise: who buys and who does not is told
    apart, the top customers are the top ones, and what the customers paid adds
    up to what the shop reports. *)

From S2P Require Import Prelude Models World Numbers Revenue CustomerAnalytics.
Import Order.

#[local] Open Scope string_scope.
#[local] Open Scope Z_scope.

(** ** Membership *)

Section Groups.
Context `{Env}.
Context (d : DB) (now : Z).

Definition active_customer (cpk : Z) : Prop := exists c, customers d !! cpk = Some c /\ Customer.is_active c = true.

Lemma elem_of_customers_by f t key test cpk :
  cpk ∈ customers_by d now f t key test <-> active_customer cpk /\ test (annotate_customer d now f t cpk) = true.
Proof.
  unfold customers_by, active_customer. rewrite list_elem_of_fmap. split.
  - intros ([k c] & -> & Hin). rewrite elem_of_order_by, elem_of_rows_where in Hin. destruct Hin as [Hc Hp].
    apply andb_true_iff in Hp as [Ha Ht]. cbn. split; [by exists c|done].
  - intros [(c & Hc & Ha) Ht]. exists (cpk, c). split; [done|]. rewrite elem_of_order_by, elem_of_rows_where. by rewrite Ha, Ht.
Qed.

Lemma customers_by_NoDup f t key test : NoDup (customers_by d now f t key test).
Proof. apply order_by_NoDup, rows_where_NoDup. Qed.

Lemma elem_of_without_order cpk :
  cpk ∈ get_customers_without_order d now <->
  active_customer cpk /\ successful_orders_count (annotate_customer d now None None cpk) = 0.
Proof.
  unfold get_customers_without_order, active_customer. rewrite list_elem_of_fmap. split.
  - intros ([k c] & -> & Hin). rewrite elem_of_order_by, elem_of_rows_where in Hin. destruct Hin as [Hc Hp].
    apply andb_true_iff in Hp as [Ha Ht%Z.eqb_eq]. cbn. split; [by exists c|done].
  - intros [(c & Hc & Ha) Ht]. exists (cpk, c). split; [done|]. rewrite elem_of_order_by, elem_of_rows_where. by rewrite Ha, Ht.
Qed.

Lemma apply_limit_elem limit l x : x ∈ apply_limit limit l -> x ∈ l.
Proof.
  unfold apply_limit. destruct limit as [n|]; [|done]. destruct (n <=? 0); [by intros ?%elem_of_nil|].
  intros Hx. rewrite <- (take_drop (Z.to_nat n) l). apply elem_of_app. by left.
Qed.

Lemma apply_limit_NoDup limit l : NoDup l -> NoDup (apply_limit limit l).
Proof.
  intros Hl. unfold apply_limit. destruct limit as [n|]; [|done]. destruct (n <=? 0); [constructor|].
  rewrite <- (take_drop (Z.to_nat n) l) in Hl. by apply NoDup_app in Hl as [? _].
Qed.

Lemma apply_limit_length n l : 0 <= n -> Z.of_nat (length (apply_limit (Some n) l)) <= n.
Proof. intros Hn. unfold apply_limit. destruct (Z.leb_spec n 0); cbn; [lia|]. rewrite length_take. lia. Qed.

Lemma segment_NoDup seg f t limit : NoDup (get_customers_by_segment d now seg f t limit).
Proof.
  destruct seg; unfold get_customers_by_segment, get_top_customers, get_top_referrers, get_good_customers, get_loyal_customers;
    try (destruct f, t); apply apply_limit_NoDup; try apply customers_by_NoDup; apply order_by_NoDup, rows_where_NoDup.
Qed.

(** Who was left out of a limited list comes after everybody in it. *)
Lemma split_sorted {A} (R : A -> A -> Prop) n (l : list A) x y :
  StronglySorted R l -> x ∈ take n l -> y ∈ drop n l -> R x y.
Proof.
  revert n. induction l as [|a l IH]; intros n Hs; [rewrite take_nil; by intros ?%elem_of_nil|].
  apply StronglySorted_inv in Hs as [Hs Ha]. destruct n as [|n]; cbn; [by intros ?%elem_of_nil|].
  intros [->|Hx]%elem_of_cons Hy.
  - apply (proj1 (Forall_forall _ _) Ha). rewrite <- (take_drop n l). apply elem_of_app. by right.
  - by apply (IH n).
Qed.

Lemma top_customers_paid_most f t n x y :
  let ranked := customers_by d now f t (fun s => [- total_paid_amount s; - total_paid_amount s])
                  (fun s => 0 <? successful_orders_count s) in
  x ∈ apply_limit (Some n) ranked -> y ∈ ranked -> y ∉ apply_limit (Some n) ranked ->
  total_paid_amount (annotate_customer d now f t y) <= total_paid_amount (annotate_customer d now f t x).
Proof.
  cbv zeta. unfold customers_by. unfold apply_limit. destruct (n <=? 0); [by intros ?%elem_of_nil|].
  set (l := order_by _ _). rewrite <- fmap_take. intros ([kx cx] & -> & Hx)%list_elem_of_fmap ([ky cy] & -> & Hy)%list_elem_of_fmap Hout.
  rewrite <- (take_drop (Z.to_nat n) l) in Hy. apply elem_of_app in Hy as [Hy|Hy];
    [exfalso; apply Hout, list_elem_of_fmap; by exists (ky, cy)|].
  pose proof (split_sorted _ _ _ _ _ (order_by_sorted _ _) Hx Hy) as Hle. cbn [fst].
  unfold key_le in Hle. cbn [app lex_le fst] in Hle. apply Is_true_true in Hle. revert Hle.
  generalize (total_paid_amount (annotate_customer d now f t kx)) (total_paid_amount (annotate_customer d now f t ky)).
  intros px py. destruct (Z.ltb_spec (- px) (- py)), (Z.eqb_spec (- px) (- py)); cbn; try lia.
Qed.

Lemma group_active seg cpk : cpk ∈ get_customers_by_segment d now seg None None None -> active_customer cpk.
Proof.
  intros Hin. destruct seg; cbn [get_customers_by_segment] in Hin;
    unfold get_top_customers, get_top_referrers, get_good_customers, get_loyal_customers in Hin; cbv beta iota delta [recent_30_day_range] in Hin;
    apply apply_limit_elem in Hin;
    first [apply elem_of_customers_by in Hin as [Ha _]|apply elem_of_without_order in Hin as [Ha _]]; exact Ha.
Qed.

Lemma first_purchase_bought cpk t : first_purchase_at (annotate_customer d now None None cpk) = Some t ->
  0 < successful_orders_count (annotate_customer d now None None cpk).
Proof.
  cbn. rewrite <- (order_by_length (fun ko : Z * order => [success_at ko.2; ko.1])).
  destruct (order_by _ _); cbn; [done|lia].
Qed.

Lemma buyers_only seg cpk : seg ∈ [SEGMENT_TOP_BUYER; SEGMENT_NEW_CUSTOMER; SEGMENT_INACTIVE] ->
  cpk ∈ get_customers_by_segment d now seg None None None ->
  active_customer cpk /\ 0 < successful_orders_count (annotate_customer d now None None cpk).
Proof.
  intros Hseg Hin. repeat (apply elem_of_cons in Hseg as [->|Hseg]); [..|by apply elem_of_nil in Hseg];
    cbn [get_customers_by_segment] in Hin; unfold get_top_customers in Hin;
    apply apply_limit_elem, elem_of_customers_by in Hin as [Ha Ht]; (split; [exact Ha|]).
  - by apply Z.ltb_lt.
  - destruct (first_purchase_at _) as [t|] eqn:E; [by eapply first_purchase_bought|done].
  - apply andb_true_iff in Ht as [Ht _]. by apply Z.ltb_lt.
Qed.

Lemma count_pos cpk : 0 <= successful_orders_count (annotate_customer d now None None cpk).
Proof. cbn. lia. Qed.
End Groups.

(** The groups of customers tell buyers from the rest.  Every active customer
    is either in the group of those who bought or in the group of those who did
    not, never in both; top buyers, new and inactive customers are among those
    who bought; no group lists a customer twice or anybody who is not active; the
    top buyers are at most as many as the shop asks for, and whoever bought and is
    not among them has paid no more than any of them. *)
Theorem groups_of_customers `{Env} d now :
  let group seg := get_customers_by_segment d now seg None None None in
  let paid cpk := total_paid_amount (annotate_customer d now None None cpk) in
  (forall cpk, active_customer d cpk <-> cpk ∈ group SEGMENT_ACTIVE_CUSTOMERS \/ cpk ∈ group SEGMENT_NO_ORDER) /\
  (forall cpk, cpk ∈ group SEGMENT_ACTIVE_CUSTOMERS -> cpk ∉ group SEGMENT_NO_ORDER) /\
  (forall seg cpk, seg ∈ [SEGMENT_TOP_BUYER; SEGMENT_NEW_CUSTOMER; SEGMENT_INACTIVE] -> cpk ∈ group seg ->
    cpk ∈ group SEGMENT_ACTIVE_CUSTOMERS) /\
  (forall seg cpk, cpk ∈ group seg -> active_customer d cpk) /\ (forall seg, NoDup (group seg)) /\
  Z.of_nat (length (group SEGMENT_TOP_BUYER)) <= top_customers_limit d /\
  (forall x y, x ∈ group SEGMENT_TOP_BUYER -> y ∈ group SEGMENT_ACTIVE_CUSTOMERS -> y ∉ group SEGMENT_TOP_BUYER ->
    paid y <= paid x).
Proof.
  intros group paid.
  assert (Hbuys : forall cpk, cpk ∈ group SEGMENT_ACTIVE_CUSTOMERS <->
    active_customer d cpk /\ 0 < successful_orders_count (annotate_customer d now None None cpk))
    by (intros cpk; unfold group; cbn [get_customers_by_segment apply_limit]; by rewrite elem_of_customers_by, Z.ltb_lt).
  assert (Hnot : forall cpk, cpk ∈ group SEGMENT_NO_ORDER <->
    active_customer d cpk /\ successful_orders_count (annotate_customer d now None None cpk) = 0)
    by (intros cpk; apply elem_of_without_order).
  split; [|split; [|split; [|split; [|split; [|split]]]]].
  - intros cpk. rewrite Hbuys, Hnot. pose proof (count_pos d now cpk). split; [|tauto].
    intros Ha. destruct (Z.eq_dec (successful_orders_count (annotate_customer d now None None cpk)) 0); [by right|left; split; [done|lia]].
  - intros cpk [_ Hc]%Hbuys [_ Hz]%Hnot. lia.
  - intros seg cpk Hseg Hin. apply Hbuys. by apply (buyers_only d now seg).
  - intros seg cpk Hin. by apply (group_active d now seg).
  - intros seg. apply segment_NoDup.
  - apply apply_limit_length. unfold top_customers_limit. lia.
  - intros x y Hx Hy Hout. apply (top_customers_paid_most d now None None (top_customers_limit d) x y); [done| |done].
    apply elem_of_customers_by. apply Hbuys in Hy as [? ?]. split; [done|by apply Z.ltb_lt].
Qed.

(** ** Sums *)

Definition sum_of {A} (f : A -> Z) (l : list A) : Z := foldr (fun x acc => f x + acc) 0 l.

Lemma sum_of_ext {A} (f g : A -> Z) l : (forall x, f x = g x) -> sum_of f l = sum_of g l.
Proof. intros Hfg. induction l as [|x l IH]; cbn; [done|]. unfold sum_of in *. by rewrite Hfg, IH. Qed.

Lemma sum_of_add {A} (f g : A -> Z) l : sum_of (fun x => f x + g x) l = sum_of f l + sum_of g l.
Proof. induction l as [|x l IH]; cbn; [done|]. unfold sum_of in *. lia. Qed.

Lemma sum_of_swap {A B} (f : A -> B -> Z) la lb :
  sum_of (fun a => sum_of (f a) lb) la = sum_of (fun b => sum_of (fun a => f a b) la) lb.
Proof.
  induction la as [|a la IH]; cbn.
  - induction lb as [|b lb IHb]; [done|]. cbn. unfold sum_of in *. cbn in *. lia.
  - fold (sum_of (fun a => sum_of (f a) lb) la). rewrite IH, <- sum_of_add. done.
Qed.

Definition revenue_of (o : order) : Z := default 0 (revenue_amount_expression o).

Lemma amounts_rows p (t : gmap Z order) :
  amounts (rows_where p t) = sum_of (fun ko => if p ko.1 ko.2 then revenue_of ko.2 else 0) (map_to_list t).
Proof.
  unfold amounts, rows_where. rewrite sql_sum_default. induction (map_to_list t) as [|[k o] l IH]; [done|].
  rewrite filter_cons. cbn [fst snd]. unfold sum_of in *. cbn [foldr fst snd]. rewrite <- IH.
  case_decide as Hp; rewrite Is_true_true in Hp.
  - by rewrite Hp.
  - apply not_true_is_false in Hp. by rewrite Hp.
Qed.

Lemma unpaid_counts_nothing o : completed_paid_order_q o = false -> revenue_of o = 0.
Proof. intros Hq. unfold revenue_of, revenue_amount_expression. cbn [sql_case]. rewrite Hq. by repeat case_match. Qed.

Lemma sum_of_single {V} (l : list (Z * V)) (k : Z) (v : Z) : NoDup l.*1 ->
  sum_of (fun kc => if bool_decide (Some k = Some kc.1) then v else 0) l = if bool_decide (k ∈ l.*1) then v else 0.
Proof.
  induction l as [|[k' c] l IH]; cbn; intros Hnd.
  - by rewrite bool_decide_false by (by intros ?%elem_of_nil).
  - apply NoDup_cons in Hnd as [Hk' Hnd]. fold (sum_of (fun kc : Z * V => if bool_decide (Some k = Some kc.1) then v else 0) l).
    rewrite IH by done. destruct (decide (k = k')) as [->|Hne].
    + rewrite (bool_decide_true (Some k' = Some k')), (bool_decide_false (k' ∈ l.*1)), (bool_decide_true (k' ∈ _ :: _)); [lia|by left|done|done].
    + rewrite (bool_decide_false (Some k = Some k')) by congruence. rewrite Z.add_0_l.
      by rewrite (bool_decide_ext (k ∈ k' :: l.*1) (k ∈ l.*1)) by (rewrite elem_of_cons; intuition).
Qed.

Lemma sum_of_zero {A} (f : A -> Z) l : (forall x, f x = 0) -> sum_of f l = 0.
Proof. intros Hf. induction l as [|x l IH]; [done|]. cbn. by rewrite Hf. Qed.

Definition known_customer (d : DB) (o : order) : bool := is_set (customer o ≫= fun c => customers d !! c).

Lemma reported_sum os : reported_revenue os = sum_of (fun ko => revenue_of ko.2) (map_to_list os).
Proof.
  unfold reported_revenue. rewrite sql_sum_default. induction (map_to_list os) as [|[k o] l IH]; [done|].
  cbn [map foldr sum_of]. by rewrite IH.
Qed.

(** The customers' figures add up to the shop's: what all customers paid, as
    the analytics count it for each of them, and what orders without a known
    customer count for, is exactly the revenue the reports state for all orders -
    nothing is counted twice or left out. *)
Theorem customers_revenue_adds_up d now :
  sum_of (fun kc => total_paid_amount (annotate_customer d now None None kc.1)) (map_to_list (customers d))
    + amounts (rows_where (fun _ o => negb (known_customer d o)) (orders d))
  = reported_revenue (orders d).
Proof.
  rewrite amounts_rows.
  rewrite (sum_of_ext _ (fun kc => sum_of (fun ko => if bool_decide (customer ko.2 = Some kc.1) then revenue_of ko.2 else 0) (map_to_list (orders d)))).
  2:{ intros [k c]. cbn [total_paid_amount annotate_customer fst]. unfold successful_orders. rewrite amounts_rows. apply sum_of_ext.
      intros [ko o]. cbn [fst snd]. case_bool_decide; [|done]. unfold successful_order_q, purchase_at_range_q. rewrite !andb_true_r, andb_true_l.
      destruct (completed_paid_order_q o) eqn:Eq; [done|]. by rewrite unpaid_counts_nothing. }
  rewrite sum_of_swap, <- sum_of_add, reported_sum. apply sum_of_ext.
  intros [k o]. cbn [fst snd]. unfold known_customer. destruct (customer o) as [c|]; [|by rewrite sum_of_zero].
  rewrite (sum_of_single (map_to_list (customers d))) by apply NoDup_fst_map_to_list. cbn.
  destruct (customers d !! c) as [row|] eqn:Ec; cbn.
  - rewrite bool_decide_true; [lia|]. apply list_elem_of_fmap. exists (c, row). split; [done|by apply elem_of_map_to_list].
  - rewrite bool_decide_false; [done|]. intros ([c' row] & -> & Hin%elem_of_map_to_list)%list_elem_of_fmap. cbn in Ec. congruence.
Qed.

(** ** On a shop with two buyers *)

#[local] Existing Instance sample_env.

Definition bought (customer_pk price verified : Z) (md : Prelude.metadata) : order :=
  (sample_order 10) {{ customer := Some customer_pk; status := COMPLETED; amount := price; verified_at := Some verified;
                       metadata := md }}.

(** One top customer; customer 101 renewed sixty days ago. *)
Definition sample_buyers : DB := (db sample_shop) {{
  stores ::= alter (fun s => s {{ Store.campaigns := (Store.campaigns s) {{ Store.top_customers_limit := 1 }} }}) 1;
  orders := {[ 1 := bought 100 900000 (days 1) ∅; 2 := bought 101 100000 (days 1) {[ "renewal" := JBool true ]} ]} }}.

(** The page of a customer looks at all renewals, the list at those of the last
    thirty days: it calls customer 101 loyal, whom the list of loyal customers -
    and a campaign to them - leaves out (src/store/broadcast_services.py sends to the list). *)
Example loyal_on_the_page_only :
  get_customer_segment sample_buyers (days 61) 101 = SEGMENT_LOYAL /\
  get_customers_by_segment sample_buyers (days 61) SEGMENT_LOYAL None None None = [] /\
  get_customers_by_segment sample_buyers (days 61) SEGMENT_TOP_BUYER None None None = [100].
Proof. vm_compute. done. Qed.
