(* ===== verification/FreeTrials.v ===== *)
(** Free trials (src/store/free_trial_services.py): who may have one, and the
    making of its client with the cooldown, the lock and the clean-up after a
    failure.

    The links of a trial's subscription - ConfigLink and CupItem rows and the
    PasarGuard feed - are kept by src/store/subscription_cups.py and
    src/store/external_subscription_sources.py in tables of their own; they
    are the functions of [TrialLinks], which may raise.  Which sales source a
    PasarGuard filter policy is read from is part of them. *)

From S2P Require Import Prelude Models World Numbers Referrals OrderActions Provisioning ClientManagement.
Import FreeTrial.

#[local] Open Scope string_scope.
#[local] Open Scope Z_scope.

(** ** Settings *)

Record trial_config := mk_trial_config {
  tc_store : option Z;
  tc_enabled : bool;
  tc_panel : option Z;
  tc_inbound : option Z;
  tc_traffic_gb : Z;
  tc_duration_hours : Z;
  tc_cooldown_days : Z;
}.

Definition no_store_config : trial_config := mk_trial_config None false None None 0 0 30.

Definition TRIALS_DISABLED : string := "در حال حاضر تست رایگان فعال نیست.".
Definition NO_TRIAL_PANEL : string := "پنل تست رایگان تنظیم نشده است.".
Definition TRIAL_PANEL_INACTIVE : string := "پنل تست رایگان غیرفعال است.".
Definition TRIAL_PANEL_FOREIGN : string := "پنل تست رایگان به این فروشگاه تعلق ندارد.".
Definition NO_TRIAL_INBOUND : string := "اینباند تست رایگان تنظیم نشده است.".
Definition TRIAL_INBOUND_INACTIVE : string := "اینباند تست رایگان غیرفعال است.".
Definition TRIAL_INBOUND_CLOSED : string := "اینباند تست رایگان برای ساخت کانفیگ جدید مجاز نیست.".
Definition TRIAL_INBOUND_FOREIGN : string := "اینباند تست رایگان باید متعلق به پنل انتخاب‌شده باشد.".
Definition TRIAL_VOLUME_INVALID : string := "حجم تست رایگان باید مثبت باشد.".
Definition TRIAL_DURATION_INVALID : string := "مدت تست رایگان باید مثبت باشد.".
Definition TRIAL_COOLDOWN_INVALID : string := "فاصله مجاز دریافت تست رایگان باید مثبت باشد.".

Section Settings.
Context `{Env}.

(** [store or bot_config.store or get_current_store()] *)
Definition get_free_trial_settings (d : DB) (store bot_store : option Z) : trial_config :=
  match or_opt store (or_opt bot_store (get_current_store d)) ≫= fun k => (k,.) <$> stores d !! k with
  | None => no_store_config
  | Some (k, st) =>
      let t := Store.trial st in
      mk_trial_config (Some k) (Store.free_trial_enabled t) (Store.free_trial_panel t)
        (Store.free_trial_inbound t) (Store.free_trial_traffic_gb t) (Store.free_trial_duration_hours t)
        (if Store.free_trial_cooldown_days t =? 0 then 30 else Store.free_trial_cooldown_days t)
  end.

Definition panel_errors (d : DB) (c : trial_config) : list string :=
  match tc_panel c ≫= fun p => panels d !! p with
  | None => [NO_TRIAL_PANEL]
  | Some p =>
      if negb (Panel.is_active p) then [TRIAL_PANEL_INACTIVE]
      else if is_set (Panel.store p) && negb (bool_decide (Panel.store p = tc_store c))
      then [TRIAL_PANEL_FOREIGN] else []
  end.

Definition inbound_errors (d : DB) (c : trial_config) : list string :=
  match tc_inbound c ≫= fun i => inbounds d !! i with
  | None => [NO_TRIAL_INBOUND]
  | Some i =>
      if negb (Inbound.is_active i) then [TRIAL_INBOUND_INACTIVE]
      else if negb (Inbound.available_for_new_orders i) then [TRIAL_INBOUND_CLOSED]
      else if is_set (tc_panel c) && negb (bool_decide (Inbound.panel i = tc_panel c))
      then [TRIAL_INBOUND_FOREIGN] else []
  end.

Definition trial_errors (d : DB) (c : trial_config) : list string :=
  (panel_errors d c ++ inbound_errors d c
   ++ (if tc_traffic_gb c <=? 0 then [TRIAL_VOLUME_INVALID] else [])
   ++ (if tc_duration_hours c <=? 0 then [TRIAL_DURATION_INVALID] else [])
   ++ (if tc_cooldown_days c <=? 0 then [TRIAL_COOLDOWN_INVALID] else []))%list.

(** The first error is the message callers show. *)
Definition validate_free_trial_settings (d : DB) (store bot_store : option Z) : result trial_config :=
  let c := get_free_trial_settings d store bot_store in
  if negb (is_set (tc_store c)) || negb (tc_enabled c) then Raise (ValidationError TRIALS_DISABLED)
  else match trial_errors d c with
       | e :: _ => Raise (ValidationError e)
       | [] => Ret c
       end.
End Settings.

(** ** The cooldown *)

Definition FREE_TRIAL_COOLDOWN_STATUSES : list status_t := [CREATED; DELIVERED].

(** [_trial_identity_filter]: the customer's requests, or the chat user's. *)
Definition same_identity (customer : option Z) (telegram : string) (t : free_trial_request) : bool :=
  (is_set customer && bool_decide (FreeTrial.customer t = customer))
  || (negb (bool_decide (telegram = "")) && bool_decide (telegram_user_id t = telegram)).

Definition latest_counting_request (d : DB) (customer : option Z) (telegram : string)
    : option free_trial_request :=
  snd <$> head (order_by (fun kt => [- created_at kt.2; - kt.1])
    (rows_where (fun _ t => same_identity customer telegram t
                            && bool_decide (status t ∈ FREE_TRIAL_COOLDOWN_STATUSES)) (free_trials d))).

Definition get_next_free_trial_available_at (d : DB) (customer : option Z) (telegram : string)
    (c : trial_config) (now : Z) : option Z :=
  t ← latest_counting_request d customer telegram;
  let available_at := created_at t + tc_cooldown_days c * VPNClient.day in
  if now <? available_at then Some available_at else None.

Definition trial_lock_key (customer : option Z) (telegram : string) : string :=
  if negb (bool_decide (telegram = "")) then "free-trial:create:telegram:" +:+ telegram
  else match customer with Some k => "free-trial:create:customer:" +:+ pretty k | None => "" end.

(** ** Making the trial *)

Record trial_result := mk_trial_result {
  tr_success : bool;
  tr_message : string;
  tr_request : option Z;
  tr_client : option Z;
  tr_cup : option Z;
  tr_next_available_at : option Z;
}.

Definition no_trial (message : string) (request : option Z) : trial_result :=
  mk_trial_result false message request None None None.

Definition NO_ACCOUNT : string := "حساب کاربری برای دریافت تست رایگان پیدا نشد.".
Definition TRIAL_IN_PROGRESS : string :=
  "در حال ساخت تست رایگان قبلی هستیم. چند لحظه بعد دوباره امتحان کنید.".
Definition TRIAL_PANEL_FAILED : string := "ساخت تست رایگان روی پنل انجام نشد. کمی بعد دوباره تلاش کنید.".
Definition TRIAL_NOT_RECORDED : string :=
  "ساخت تست رایگان انجام شد اما ثبت محلی آن ناموفق بود. موضوع برای پشتیبانی ثبت شد.".
Definition TRIAL_READY : string := "تست رایگان شما آماده شد.".
Definition TRIAL_FAILED : string := "ساخت تست رایگان انجام نشد. لطفاً کمی بعد دوباره تلاش کنید.".
Definition NO_TRIAL_LINKS : exn := ValidationError "هیچ لینک معتبری برای کاپ تست رایگان ساخته نشد.".
Definition FILTERED_EMPTY : exn := ValidationError "خروجی PasarGuard پس از فیلتر پروتکل‌ها خالی بود.".
Definition NO_UPSTREAM_URL : exn := OtherError "external_feed_subscription_url_missing".

(** What the modules of links do for a trial. *)
Class TrialLinks := {
  filter_native_configs : list string -> list string;
  (** one ConfigLink and its CupItem: cup, client, position, link *)
  register_config_link : DB -> Z -> Z -> Z -> string -> result unit;
  register_feed : DB -> Z -> Z -> list string -> result unit;
  build_subscription_cup_url : Z -> string;
}.

Section Making.
Context `{Env} `{TrialLinks}.

Definition too_soon (available_at : Z) : trial_result :=
  mk_trial_result false
    ("شما قبلاً تست رایگان دریافت کرده‌اید. امکان دریافت بعدی از تاریخ "
     +:+ format_jalali_datetime available_at +:+ " وجود دارد.") None None None (Some available_at).

Definition fail_request (rpk : Z) (message : string) : IO unit :=
  put_db (fun d => d {{ free_trials ::= alter (fun t => t {{ status := FAILED; error_message := message }}) rpk }}).

Definition safe_trial_error (e : exn) : string := sanitize_free_trial_log_value (exn_text e).

(** The first transaction: look again under the customer's row lock, and
    record the request. *)
Definition claim_trial (c : trial_config) (customer : option Z) (telegram : string) (now : Z)
    : IO (trial_result + Z) := atomic (
  d ← get_db;
  match get_next_free_trial_available_at d customer telegram c now with
  | Some t => mret (inl (too_soon t))
  | None =>
      let pk := next_pk (free_trials d) in
      let t := {| customer := customer; panel := tc_panel c; inbound := tc_inbound c; vpn_client := None;
        telegram_user_id := telegram; status := CREATED; traffic_gb := tc_traffic_gb c;
        duration_hours := tc_duration_hours c; config_link := ""; error_message := ""; delivered_at := None;
        expires_at := Some (now + tc_duration_hours c * 3600 * 1000000); created_at := now |} in
      _ ← put_db (fun d => d {{ free_trials ::= insert pk t }});
      mret (inr pk)
  end).

(** [_client_result_raw_links] *)
Definition client_result_raw_links (cr : client_result) (raw_links : list string) : list string :=
  let links := filter (fun l => l <> "") (map strip raw_links) in
  let direct := strip (default "" (cr_direct_link cr)) in
  if negb (bool_decide (direct = "")) && negb (bool_decide (direct ∈ links)) then direct :: links else links.

Definition trial_panel_is_pasarguard (d : DB) (c : trial_config) : bool :=
  match tc_panel c ≫= fun p => panels d !! p with Some p => Panel.is_pasarguard p | None => false end.

Fixpoint register_links (cup client position : Z) (links : list string) : IO unit :=
  match links with
  | [] => mret tt
  | l :: rest =>
      d ← get_db;
      _ ← liftR (register_config_link d cup client position l);
      register_links cup client (position + 1) rest
  end.

(** [_create_free_trial_subscription_cup]; returns the cup's key. *)
Definition create_free_trial_subscription_cup (rpk cpk : Z) (client : VPNClient.vpn_client) (cr : client_result)
    (raw : list string) (request_expires_at : option Z) (c : trial_config) (customer : option Z)
    (telegram : string) (now : Z) : IO Z :=
  d ← get_db;
  let raw_links := client_result_raw_links cr raw in
  if bool_decide (raw_links = []) then raise NO_TRIAL_LINKS
  else
    let pasarguard := trial_panel_is_pasarguard d c in
    let selected := if pasarguard then filter_native_configs raw_links else raw_links in
    if pasarguard && bool_decide (selected = []) then raise FILTERED_EMPTY
    else
      let cup_pk := next_pk (cups d) in
      let m : metadata := <["source" := JStr "free_trial"]> (<["is_free_trial" := JBool true]>
        (<["free_trial_request_id" := JNum rpk]> (<["telegram_user_id" := JStr telegram]>
        (<["raw_link_count" := JNum (Z.of_nat (length raw_links))]>
        (<["selected_link_count" := JNum (Z.of_nat (length selected))]>
        (<["created_from" := JStr "free_trial_request"]>
        (<["last_fulfilled_at" := JStr (isoformat now)]> ∅))))))) in
      let cup := {| SubscriptionCup.customer := customer; SubscriptionCup.order := None;
        SubscriptionCup.plan := None; SubscriptionCup.vpn_client := Some cpk;
        SubscriptionCup.token := generate_subscription_cup_token cup_pk;
        SubscriptionCup.status := SubscriptionCup.ACTIVE; SubscriptionCup.expires_at := request_expires_at;
        SubscriptionCup.traffic_limit_bytes := Z.quot (tc_traffic_gb c * 1024 ^ 3) 1000;
        SubscriptionCup.device_limit := Some (VPNClient.device_limit client);
        SubscriptionCup.cup_metadata := m; SubscriptionCup.created_at := now |} in
      _ ← put_db (fun d => d {{ cups ::= insert cup_pk cup }});
      _ ← register_links cup_pk cpk 1 selected;
      let upstream := strip (default "" (cr_sub_link cr)) in
      d ← get_db;
      _ ← liftR (if pasarguard then
                   if bool_decide (upstream = "") then Raise NO_UPSTREAM_URL
                   else register_feed d cup_pk cpk raw_links
                 else Ret tt);
      let raw_json := <["free_trial_cup_id" := JNum cup_pk]> (<["free_trial_request_id" := JNum rpk]>
        (<["qasedak_subscription_url_saved" := JBool true]>
        (<["external_panel_subscription_link_saved" := JBool (negb (bool_decide (upstream = "")))]>
          (VPNClient.xui_raw client)))) in
      _ ← put_db (set_client cpk (client {{
            VPNClient.sub_link := Some (build_subscription_cup_url cup_pk); VPNClient.xui_raw := raw_json }}));
      mret cup_pk.

Definition trial_client (c : trial_config) (i : option Inbound.inbound) (cr : client_result)
    (expires : option Z) (now : Z) : VPNClient.vpn_client := {|
  VPNClient.store := tc_store c; VPNClient.order := None; VPNClient.plan := None;
  VPNClient.inbound := tc_inbound c; VPNClient.username := cr_email cr; VPNClient.xui_email := cr_email cr;
  VPNClient.uuid := Some (cr_uuid cr); VPNClient.sub_id := cr_sub_id cr;
  VPNClient.sub_link := Some (default "" (cr_sub_link cr));
  VPNClient.direct_link := Some (default "" (cr_direct_link cr)); VPNClient.status := VPNClient.ACTIVE;
  VPNClient.traffic_limit_bytes := Z.quot (tc_traffic_gb c * 1024 ^ 3) 1000;
  VPNClient.used_upload_bytes := 0; VPNClient.used_download_bytes := 0; VPNClient.used_traffic_bytes := 0;
  VPNClient.duration_days := 0; VPNClient.device_limit := 1; VPNClient.activated_at := Some now;
  VPNClient.expires_at := expires; VPNClient.disabled_at := None; VPNClient.deleted_at := None;
  VPNClient.deleted_by_customer := None; VPNClient.deleted_by_admin_telegram_id := "";
  VPNClient.delete_reason := ""; VPNClient.remote_deleted_at := None; VPNClient.last_synced_at := None;
  VPNClient.xui_node_id := or_str (cr_xui_node_id cr)
    (match i with Some i => Inbound.xui_node_id i | None => "" end);
  VPNClient.remote_client_key := cr_remote_client_key cr; VPNClient.xui_raw := cr_raw cr; VPNClient.remote_check := VPNClient.never_checked;
  VPNClient.created_at := now |}.

Definition delivered_request (cpk : Z) (link : string) (expires : option Z) (now : Z) (t : free_trial_request)
    : free_trial_request :=
  t {{ vpn_client := Some cpk; status := DELIVERED; config_link := link; delivered_at := Some now;
       expires_at := expires }}.

(** The second transaction: client, cup, request and the inbound's counter. *)
Definition record_trial (c : trial_config) (customer : option Z) (telegram : string) (rpk : Z)
    (cr : client_result) (raw : list string) (now : Z) : IO (Z * Z) := atomic (
  d ← get_db;
  let request_expires := free_trials d !! rpk ≫= expires_at in
  let expires := or_opt (cr_expires_at cr) request_expires in
  if uuid_taken (Some (cr_uuid cr)) d then raise integrity_error
  else
    let cpk := next_pk (clients d) in
    let client := trial_client c (tc_inbound c ≫= fun i => inbounds d !! i) cr expires now in
    _ ← put_db (set_client cpk client);
    cup ← create_free_trial_subscription_cup rpk cpk client cr raw request_expires c customer telegram now;
    let link := default "" (or_text (cr_direct_link cr) (cr_sub_link cr)) in
    _ ← put_db (fun d => d {{ free_trials ::= alter (delivered_request cpk link expires now) rpk }});
    _ ← put_db (bump_inbounds (match tc_inbound c with Some i => [i] | None => [] end) now);
    mret (cpk, cup)).

(** A local service already uses the panel client. *)
Definition identity_owned (d : DB) (cr : client_result) (i : Inbound.inbound) : bool :=
  exists_where (fun _ v =>
    bool_decide (VPNClient.uuid v = Some (cr_uuid cr))
    || (negb (bool_decide (cr_email cr = ""))
        && bool_decide (VPNClient.xui_email v = cr_email cr)
        && match VPNClient.inbound v ≫= fun k => inbounds d !! k with
           | Some vi => is_set (Inbound.panel i) && bool_decide (Inbound.panel vi = Inbound.panel i)
           | None => false end)) (clients d).

(** [cleanup_panel_trial_client]: the panel client of a trial that could not
    be recorded is deleted, unless a local service owns it. *)
Definition cleanup_panel_trial_client (c : trial_config) (cr : client_result) (now : Z) : IO bool :=
  d ← get_db;
  match tc_inbound c ≫= fun i => inbounds d !! i with
  | None => mret false
  | Some i =>
      if bool_decide (cr_uuid cr = "") || identity_owned d cr i then mret false
      else delete_panel_client (TargetClient 0 (trial_client c (Some i) cr None now))
  end.

Definition make_trial (c : trial_config) (customer : option Z) (telegram : string) (rpk now : Z)
    : IO trial_result :=
  let ipk := default 0 (tc_inbound c) in
  let name := build_trial_client_name customer telegram in
  answer ← askR (CallCreateTrial rpk ipk name) (fun h => create_trial_client_details h rpk ipk name);
  match answer with
  | None =>
      _ ← fail_request rpk TRIAL_PANEL_FAILED;
      mret (no_trial TRIAL_PANEL_FAILED (Some rpk))
  | Some (cr, raw) =>
      recorded ← tried (record_trial c customer telegram rpk cr raw now);
      match recorded with
      | Ret (cpk, cup) =>
          mret (mk_trial_result true TRIAL_READY (Some rpk) (Some cpk) (Some cup) None)
      | Raise e =>
          _ ← cleanup_panel_trial_client c cr now;
          _ ← fail_request rpk (safe_trial_error e);
          mret (no_trial TRIAL_NOT_RECORDED (Some rpk))
      end
  end.

(** What happens while the lock is held. *)
Definition build_trial (c : trial_config) (customer : option Z) (telegram : string) (now : Z)
    : IO trial_result :=
  claimed ← tried (claim_trial c customer telegram now);
  match claimed with
  | Raise _ => mret (no_trial TRIAL_FAILED None)
  | Ret (inl r) => mret r
  | Ret (inr rpk) =>
      made ← tried (make_trial c customer telegram rpk now);
      match made with
      | Ret r => mret r
      | Raise e =>
          _ ← fail_request rpk (safe_trial_error e);
          mret (no_trial TRIAL_FAILED (Some rpk))
      end
  end.

(** [others] is what other requests do between this one's look at the cooldown
    and its attempt to take the lock. *)
Definition create_free_trial_for_customer (others : IO unit) (customer : option Z) (telegram_user_id : string)
    (store bot_store : option Z) (now : Z) : IO trial_result :=
  let telegram := strip telegram_user_id in
  if negb (is_set customer) && bool_decide (telegram = "") then mret (no_trial NO_ACCOUNT None)
  else
    d ← get_db;
    on_validation (liftR (validate_free_trial_settings d store bot_store))
      (fun message => mret (no_trial message None))
      (fun c =>
         match get_next_free_trial_available_at d customer telegram c now with
         | Some t => mret (too_soon t)
         | None =>
             _ ← others;
             let key := trial_lock_key customer telegram in
             held ← gets (fun w => bool_decide (key ∈ locks w));
             if held : bool then mret (no_trial TRIAL_IN_PROGRESS None)
             else
               _ ← modify (fun w => w {{ locks ::= union {[ key ]} }});
               finally (build_trial c customer telegram now)
                 (fun w => w {{ locks ::= fun held => held ∖ {[ key ]} }})
         end).
End Making.
