(* ===== verification/FreeTrialsSpec.v ===== *)
(** What free trials guarantee: one per person and cooldown however requests
    interleave, nothing half-made after a failure, and what a success
    delivers. *)

From S2P Require Import Prelude Models World Numbers Referrals OrderStore OrderActions Provisioning ProvisioningSpec ClientManagement ManagementSpec FreeTrials.
Import FreeTrial.

#[local] Open Scope string_scope.
#[local] Open Scope Z_scope.

Definition trials_of (w : World) := free_trials (db w).
Definition services_of (w : World) := (clients (db w), cups (db w), inbounds (db w)).

#[global] Instance keeps_trials_undoable : Undoable (keeps trials_of).
Proof. by intros w w' Hw. Qed.
#[global] Instance keeps_services_undoable : Undoable (keeps services_of).
Proof. by intros w w' Hw. Qed.

(** Every request but one. *)
Definition other_trials (rpk : Z) (w : World) := delete rpk (free_trials (db w)).
#[global] Instance keeps_other_trials_undoable rpk : Undoable (keeps (other_trials rpk)).
Proof. by intros w w' Hw. Qed.

#[local] Hint Extern 1 (keeps trials_of _ _) => reflexivity : frames.
#[local] Hint Extern 1 (keeps services_of _ _) => reflexivity : frames.
#[local] Hint Extern 1 (keeps (other_trials _) _ _) => reflexivity : frames.

(** ** One attempt *)

Section Attempt.
Context `{Env} `{TrialLinks}.

Lemma register_links_trials cup cpk n links : respects (keeps trials_of) (register_links cup cpk n links).
Proof. revert n. induction links as [|l links IH]; intros n; cbn; walk. Qed.
#[local] Hint Resolve register_links_trials : frames.

Lemma create_cup_trials rpk cpk client cr raw exp c customer telegram now :
  respects (keeps trials_of)
    (create_free_trial_subscription_cup rpk cpk client cr raw exp c customer telegram now).
Proof. unfold create_free_trial_subscription_cup. walk. Qed.

Lemma keeps_others_of_trials {A} rpk (m : IO A) :
  respects (keeps trials_of) m -> respects (keeps (other_trials rpk)) m.
Proof. intros Hm w r w' E%Hm. unfold keeps, trials_of, other_trials in *. by rewrite E. Qed.
#[local] Hint Extern 1 (respects _ (create_free_trial_subscription_cup _ _ _ _ _ _ _ _ _ _)) =>
  apply keeps_others_of_trials, create_cup_trials : frames.

Lemma alter_others rpk f w :
  keeps (other_trials rpk) w (w {{ db ::= fun d => d {{ free_trials ::= alter f rpk }} }}).
Proof. unfold keeps, other_trials. cbn. by rewrite delete_alter_eq. Qed.
#[local] Hint Resolve alter_others : frames.

Lemma record_trial_others c customer telegram rpk cr raw now :
  respects (keeps (other_trials rpk)) (record_trial c customer telegram rpk cr raw now).
Proof. unfold record_trial. walk. Qed.
#[local] Hint Resolve record_trial_others : frames.

Lemma delete_panel_client_db t : respects (keeps db) (delete_panel_client t).
Proof.
  intros w r w' E. destruct (delete_panel_client_inv t w) as (b & w1 & E1 & Hd & _). rewrite E1 in E.
  injection E as _ <-. exact Hd.
Qed.

Lemma record_trial_calls c customer telegram rpk cr raw now :
  respects (keeps calls) (record_trial c customer telegram rpk cr raw now).
Proof.
  assert (Undoable (keeps calls)) by (by intros w w' Hw).
  assert (Hl : forall cup cpk links n, respects (keeps calls) (register_links cup cpk n links)).
  { intros cup cpk links. induction links as [|l links IH]; intros n; cbn; walk. }
  unfold record_trial, create_free_trial_subscription_cup. walk; done.
Qed.

Lemma cleanup_db c cr now : respects (keeps db) (cleanup_panel_trial_client c cr now).
Proof.
  unfold cleanup_panel_trial_client. apply respects_bind; [apply _|apply respects_get_db; apply _|]. intros d.
  destruct (_ ≫= _); [|apply respects_ret; apply _]. destruct (_ || _); [apply respects_ret; apply _|].
  apply delete_panel_client_db.
Qed.

Lemma make_trial_others c customer telegram rpk now :
  respects (keeps (other_trials rpk)) (make_trial c customer telegram rpk now).
Proof.
  unfold make_trial, fail_request.
  repeat first [ progress walk | apply tried_respects; [apply _|] ].
Qed.

(** What claiming does. *)
Lemma claim_trial_eq c customer telegram now w :
  claim_trial c customer telegram now w =
  match get_next_free_trial_available_at (db w) customer telegram c now with
  | Some t => (Ret (inl (too_soon t)), w)
  | None => (Ret (inr (next_pk (free_trials (db w)))),
      w {{ db ::= fun d => d {{ free_trials ::= insert (next_pk (free_trials (db w)))
        {| customer := customer; panel := tc_panel c; inbound := tc_inbound c; vpn_client := None;
           telegram_user_id := telegram; status := CREATED; traffic_gb := tc_traffic_gb c;
           duration_hours := tc_duration_hours c; config_link := ""; error_message := ""; delivered_at := None;
           expires_at := Some (now + tc_duration_hours c * 3600 * 1000000); created_at := now |} }} }})
  end.
Proof.
  unfold claim_trial. run_io. by destruct (get_next_free_trial_available_at _ _ _ _ _).
Qed.

(** A recorded trial: its request is delivered. *)
Lemma record_trial_request c customer telegram rpk cr raw now w x w' t :
  record_trial c customer telegram rpk cr raw now w = (Ret x, w') -> free_trials (db w) !! rpk = Some t ->
  exists link exp, free_trials (db w') !! rpk = Some (delivered_request x.1 link exp now t).
Proof.
  unfold record_trial. intros E Ht. apply (proj1 (atomic_Ret _ _ _ _)) in E. run_io_in E.
  destruct (uuid_taken _ _); [done|]. 
  destruct (create_free_trial_subscription_cup _ _ _ _ _ _ _ _ _ _ _) as [[cup|e] w1] eqn:E1; [|done].
  apply create_cup_trials in E1. unfold keeps, trials_of in E1. cbn in E1. injection E as <- <-. cbn.
  rewrite lookup_alter_eq, E1, Ht. cbn. by do 2 eexists.
Qed.

(** The request of the same person at the same time. *)
Definition same_request (t t' : free_trial_request) : Prop :=
  FreeTrial.customer t' = FreeTrial.customer t /\ telegram_user_id t' = telegram_user_id t /\
  created_at t' = created_at t.

Definition request_is (rpk : Z) (t : free_trial_request) (st : status_t) (w : World) : Prop :=
  exists t', free_trials (db w) !! rpk = Some t' /\ same_request t t' /\ status t' = st.

Lemma fail_request_is rpk message t w w' r :
  (exists t', free_trials (db w) !! rpk = Some t' /\ same_request t t') ->
  fail_request rpk message w = (r, w') -> request_is rpk t FAILED w'.
Proof.
  intros (t' & Ht & Hs) [= <- <-]. eexists. cbn. rewrite lookup_alter_eq, Ht. split; [reflexivity|]. by split.
Qed.

Lemma make_trial_inv c customer telegram rpk now w r w' t :
  free_trials (db w) !! rpk = Some t -> make_trial c customer telegram rpk now w = (r, w') ->
  match r with
  | Ret x => tr_request x = Some rpk /\ request_is rpk t (if tr_success x then DELIVERED else FAILED) w'
  | Raise _ => db w' = db w
  end.
Proof.
  intros Ht. unfold make_trial, tried. run_io.
  set (w1 := w {{ calls ::= cons _ }}). assert (Ht1 : free_trials (db w1) !! rpk = Some t) by exact Ht.
  destruct (create_trial_client_details _ _ _ _) as [[[cr raw]|]|e]; [| |by intros [= <- <-]].
  2: { destruct (fail_request _ _ w1) as [y w2] eqn:E. assert (y = Ret tt) as -> by (by injection E).
       apply (fail_request_is rpk _ t) in E; [|by exists t]. intros [= <- <-]. by split. }
  destruct (record_trial _ _ _ _ _ _ _ w1) as [[[cpk cup]|e] w2] eqn:E.
  - intros [= <- <-]. split; [done|].
    eapply record_trial_request in E as (link & exp & E); [|exact Ht1]. eexists. by split; [exact E|].
  - apply atomic_Raise_db in E. destruct (cleanup_panel_trial_client c cr now w2) as [[b|e'] w3] eqn:E3;
      apply cleanup_db in E3; unfold keeps in E3.
    + destruct (fail_request _ _ w3) as [y w4] eqn:E4. assert (y = Ret tt) as -> by (by injection E4).
      apply (fail_request_is rpk _ t) in E4; [|exists t; by rewrite E3, E]. intros [= <- <-]. by split.
    + intros [= <- <-]. rewrite E3, E. done.
Qed.

(** How an attempt ends: always with an answer.  Unless it was too soon it has
    recorded one request, delivered or failed; the others are as before. *)
Lemma build_trial_inv c customer telegram now w r w' :
  build_trial c customer telegram now w = (r, w') ->
  exists x, r = Ret x /\
  match get_next_free_trial_available_at (db w) customer telegram c now with
  | Some t => x = too_soon t /\ w' = w
  | None => let rpk := next_pk (free_trials (db w)) in
      tr_request x = Some rpk /\ keeps (other_trials rpk) w w' /\
      exists t, free_trials (db w') !! rpk = Some t /\ FreeTrial.customer t = customer /\
        telegram_user_id t = telegram /\ created_at t = now /\
        status t = (if tr_success x then DELIVERED else FAILED)
  end.
Proof.
  unfold build_trial, tried. run_io. rewrite claim_trial_eq.
  destruct (get_next_free_trial_available_at _ _ _ _ _) as [t|]; [intros [= <- <-]; by eexists|].
  set (rpk := next_pk _). set (t := {| customer := customer |}). set (w1 := w {{ db ::= _ }}).
  assert (Ht : free_trials (db w1) !! rpk = Some t) by (cbn; apply lookup_insert_eq).
  assert (Ho : keeps (other_trials rpk) w w1)
    by (unfold keeps, other_trials; cbn; apply delete_insert_eq).
  clearbody w1. destruct (make_trial _ _ _ _ _ w1) as [x w2] eqn:E.
  assert (Ho2 : keeps (other_trials rpk) w w2) by (etrans; [exact Ho|]; by eapply make_trial_others).
  apply (make_trial_inv _ _ _ _ _ _ _ _ t Ht) in E. destruct x as [x|e].
  - intros [= <- <-]. destruct E as (Hr & t' & Ht' & (? & ? & ?) & ?). exists x. split; [done|].
    split; [done|]. split; [done|]. by exists t'.
  - destruct (fail_request _ _ w2) as [y w3] eqn:E3. assert (y = Ret tt) as -> by (by injection E3).
    assert (Ho3 : keeps (other_trials rpk) w w3).
    { etrans; [exact Ho2|]. injection E3 as <-. apply alter_others. }
    apply (fail_request_is rpk _ t) in E3 as (t' & Ht' & (? & ? & ?) & ?); [|exists t; by rewrite E].
    intros [= <- <-]. eexists. split; [done|]. split; [done|]. split; [done|]. by exists t'.
Qed.
End Attempt.

(** ** The cooldown *)

(** Delivered trials are not forgotten. *)
Definition remembers_trials : relation World := fun w w' =>
  forall k t, free_trials (db w) !! k = Some t -> status t = DELIVERED ->
  exists t', free_trials (db w') !! k = Some t' /\ same_request t t' /\ status t' = DELIVERED.

#[global] Instance remembers_trials_preorder : PreOrder remembers_trials.
Proof.
  split; [by intros w k t Hk Hs; exists t|]. intros w1 w2 w3 H12 H23 k t Hk Hs.
  destruct (H12 k t Hk Hs) as (t2 & Hk2 & (? & ? & ?) & Hs2).
  destruct (H23 k t2 Hk2 Hs2) as (t3 & Hk3 & (? & ? & ?) & Hs3).
  exists t3. split; [done|]. split; [|done]. unfold same_request. split; [congruence|]. split; congruence.
Qed.
#[global] Instance remembers_trials_undoable : Undoable remembers_trials.
Proof. intros w w' _ k t Hk Hs. by exists t. Qed.

Lemma remembers_same w w' : free_trials (db w') = free_trials (db w) -> remembers_trials w w'.
Proof. intros E k t Hk Hs. exists t. by rewrite E. Qed.

(** Rows that keep their person, time and status. *)
Lemma remembers_update (p : Z -> free_trial_request -> bool) f w w' :
  free_trials (db w') = update_where p f (free_trials (db w)) ->
  (forall t, same_request t (f t) /\ status (f t) = status t) -> remembers_trials w w'.
Proof.
  intros E Hf k t Hk Hs. rewrite E, lookup_update_where, Hk. cbn. destruct (Hf t) as [? ?].
  destruct (p k t); eexists; (split; [reflexivity|]); [|done]. split; [done|congruence].
Qed.

#[local] Hint Extern 1 (remembers_trials _ _) => apply remembers_same; reflexivity : frames.

Section Cooldown.
Context `{Env} `{TrialLinks}.

Lemma build_trial_remembers c customer telegram now :
  respects remembers_trials (build_trial c customer telegram now).
Proof.
  intros w r w' (x & _ & E)%build_trial_inv.
  destruct (get_next_free_trial_available_at _ _ _ _ _) as [t|].
  - destruct E as [_ ->]. reflexivity.
  - destruct E as (_ & Ho & _). intros k t Hk Hs. exists t. split; [|done].
    destruct (decide (next_pk (free_trials (db w)) = k)) as [<-|Hne]; [by rewrite next_pk_fresh in Hk|].
    unfold keeps, other_trials in Ho. apply (f_equal (fun m => m !! k)) in Ho.
    rewrite !lookup_delete_ne in Ho by done. by rewrite Ho.
Qed.
#[local] Hint Resolve build_trial_remembers : frames.

Lemma create_free_trial_remembers others customer tid st bot now :
  respects remembers_trials others ->
  respects remembers_trials (create_free_trial_for_customer others customer tid st bot now).
Proof. intros Ho. unfold create_free_trial_for_customer. walk. Qed.

Lemma save_order_remembers opk o fs now : respects remembers_trials (save_order opk o fs now).
Proof.
  intros w r w' [[-> _]|(p & row & _ & _ & Hv & _)]%save_order_any; [reflexivity|].
  apply service_view_side in Hv. unfold side_tables in Hv. cbn in Hv. injection Hv as _ Hv _ _ _ _.
  by apply remembers_same.
Qed.
#[local] Hint Resolve save_order_remembers : frames.

Lemma cleanup_records_remembers cpk c direct sub uuid now :
  respects remembers_trials (cleanup_vpn_client_related_records cpk c direct sub uuid now).
Proof.
  unfold cleanup_vpn_client_related_records. apply respects_bind; [apply _| |intros ?; unfold get_order; walk].
  apply respects_put_db. intros w. eapply remembers_update; [reflexivity|]. by intros t.
Qed.
#[local] Hint Resolve cleanup_records_remembers : frames.

(** Deleting the trial's client in the meantime does not forget the trial. *)
Lemma delete_for_user_remembers cust cpk c reason actor now :
  respects remembers_trials (delete_vpn_client_for_user cust cpk c reason actor now).
Proof.
  unfold delete_vpn_client_for_user, create_action_log, audited_call, audited_local_delete, complete_action_log,
    mark_local_vpn_client_deleted, require_user_can_manage, get_client.
  repeat first [progress walk | apply tried_respects; [apply _|]].
Qed.

(** What happens between two attempts: attempts by anybody, and customers
    deleting their clients. *)
Inductive trial_life : relation World :=
| life_attempt others customer tid st bot now w r w' :
    respects remembers_trials others ->
    create_free_trial_for_customer others customer tid st bot now w = (r, w') -> trial_life w w'
| life_delete cust cpk c reason actor now w r w' :
    delete_vpn_client_for_user cust cpk c reason actor now w = (r, w') -> trial_life w w'.

Lemma trial_life_remembers w w' : trial_life w w' -> remembers_trials w w'.
Proof.
  intros [? ? ? ? ? ? ? ? ? Ho E|? ? ? ? ? ? ? ? ? E].
  - exact (create_free_trial_remembers _ _ _ _ _ _ Ho _ _ _ E).
  - exact (delete_for_user_remembers _ _ _ _ _ _ _ _ _ E).
Qed.

(** A counting request in the cooldown stops the next one. *)
Lemma counting_stops d customer telegram c now k t :
  free_trials d !! k = Some t -> same_identity customer telegram t = true -> status t = DELIVERED ->
  now < created_at t + tc_cooldown_days c * VPNClient.day ->
  exists at_, get_next_free_trial_available_at d customer telegram c now = Some at_ /\ now < at_.
Proof.
  intros Ht Hi Hs Hnow. unfold get_next_free_trial_available_at, latest_counting_request.
  set (key := fun kt : Z * free_trial_request => [- created_at kt.2; - kt.1]).
  set (l := rows_where _ _).
  assert (Hin : (k, t) ∈ order_by key l).
  { apply elem_of_order_by, elem_of_rows_where. split; [done|]. rewrite Hi, Hs. done. }
  pose proof (order_by_sorted key l) as Hsort. destruct (order_by key l) as [|x rest]; [by apply not_elem_of_nil in Hin|].
  cbn. assert (Hle : created_at t <= created_at x.2).
  { apply StronglySorted_head with (y := (k, t)) in Hsort; [|apply _|done].
    unfold key_le, key in Hsort. cbn in Hsort.
    destruct (Z.ltb_spec (- created_at x.2) (- created_at t)); [lia|].
    destruct (Z.eqb_spec (- created_at x.2) (- created_at t)); [lia|done]. }
  rewrite (proj2 (Z.ltb_lt _ _)) by lia. eexists. split; [reflexivity|lia].
Qed.

(** A successful trial leaves its delivered request. *)
Lemma success_leaves_request others customer tid st bot now w x w' :
  create_free_trial_for_customer others customer tid st bot now w = (Ret x, w') -> tr_success x = true ->
  exists k t, free_trials (db w') !! k = Some t /\ FreeTrial.customer t = customer /\
    telegram_user_id t = strip tid /\ created_at t = now /\ status t = DELIVERED.
Proof.
  unfold create_free_trial_for_customer. destruct (_ && _); [by intros [= <- <-]|].
  unfold on_validation. run_io. destruct (validate_free_trial_settings _ _ _) as [c|[]]; try done;
    [|by intros [= <- <-]].
  destruct (get_next_free_trial_available_at _ _ _ _ _); [by intros [= <- <-]|].
  destruct (others w) as [[u|e] w1]; [|done]. destruct (bool_decide _); [by intros [= <- <-]|].
  destruct (build_trial _ _ _ _ _) as [y w2] eqn:E. intros [= -> <-] Hx.
  apply build_trial_inv in E as (x' & [= <-] & E).
  destruct (get_next_free_trial_available_at _ _ _ _ _); [destruct E as [-> _]; done|].
  destruct E as (_ & _ & t & Ht & Hc & Hg & Hn & Hs). rewrite Hx in Hs. cbn.
  exists (next_pk (free_trials (db w1))), t. done.
Qed.

(** C28: One free trial per person and cooldown: after a delivered trial, a
    further request for the same customer or the same chat user - through
    whichever channel, after any number of other attempts, and even if the
    trial's client was deleted meanwhile - is refused until the cooldown in
    force is over: it says when, and touches nothing, no panel included. *)
Theorem one_trial_per_cooldown others customer tid st bot now w x w1 w2
    others' customer' tid' st' bot' now' c r w3 :
  create_free_trial_for_customer others customer tid st bot now w = (Ret x, w1) -> tr_success x = true ->
  rtc trial_life w1 w2 ->
  (is_set customer' = true /\ customer' = customer) \/ (strip tid' <> "" /\ strip tid' = strip tid) ->
  validate_free_trial_settings (db w2) st' bot' = Ret c ->
  now' < now + tc_cooldown_days c * VPNClient.day ->
  create_free_trial_for_customer others' customer' tid' st' bot' now' w2 = (r, w3) ->
  exists at_, r = Ret (too_soon at_) /\ now' < at_ /\ w3 = w2.
Proof.
  intros E Hx Hlife Hsame Hv Hnow E2.
  apply success_leaves_request in E as (k & t & Ht & Hc & Hg & Hn & Hs); [|done].
  assert (Hr : remembers_trials w1 w2).
  { clear -Hlife. induction Hlife as [|? ? ? Hstep _ IH]; [reflexivity|].
    etrans; [by apply trial_life_remembers|exact IH]. }
  destruct (Hr k t Ht Hs) as (t2 & Ht2 & (Hc2 & Hg2 & Hn2) & Hs2).
  assert (Hi : same_identity customer' (strip tid') t2 = true).
  { unfold same_identity. rewrite Hc2, Hg2, Hc, Hg.
    apply orb_true_iff. destruct Hsame as [[-> ->]|[Hne He]]; [left; by rewrite bool_decide_true|right].
    rewrite He in Hne |- *. by rewrite bool_decide_false, bool_decide_true. }
  destruct (counting_stops (db w2) customer' (strip tid') c now' k t2 Ht2 Hi Hs2) as (at_ & Hat & Hlt); [lia|].
  revert E2. unfold create_free_trial_for_customer.
  destruct (negb (is_set customer') && bool_decide (strip tid' = "")) eqn:Hacc.
  { exfalso. apply andb_true_iff in Hacc as [Ha Hb%bool_decide_eq_true].
    destruct Hsame as [[Hs' _]|[? _]]; [by rewrite Hs' in Ha|done]. }
  unfold on_validation. run_io. rewrite Hv, Hat. intros [= <- <-]. by exists at_.
Qed.
End Cooldown.

(** ** Failures *)

Section Failure.
Context `{Env} `{TrialLinks}.

Lemma fail_request_services rpk message : respects (keeps services_of) (fail_request rpk message).
Proof. unfold fail_request. walk. Qed.

Lemma make_trial_failed c customer telegram rpk now w r w' :
  make_trial c customer telegram rpk now w = (r, w') ->
  match r with Ret x => tr_success x = false -> services_of w' = services_of w | Raise _ => db w' = db w end.
Proof.
  unfold make_trial, tried. run_io. set (w1 := w {{ calls ::= cons _ }}).
  destruct (create_trial_client_details _ _ _ _) as [[[cr raw]|]|e]; [| |by intros [= <- <-]].
  2: { destruct (fail_request _ _ w1) as [y w2] eqn:E. pose proof (fail_request_services _ _ _ _ _ E) as Hk.
       injection E as <- _. intros [= <- <-] _. exact Hk. }
  destruct (record_trial _ _ _ _ _ _ _ w1) as [[[cpk cup]|e] w2] eqn:E; [by intros [= <- <-]|].
  apply atomic_Raise_db in E. destruct (cleanup_panel_trial_client c cr now w2) as [[b|e'] w3] eqn:E3;
    apply cleanup_db in E3; unfold keeps in E3.
  - destruct (fail_request _ _ w3) as [y w4] eqn:E4. pose proof (fail_request_services _ _ _ _ _ E4) as Hk.
    injection E4 as <- _. intros [= <- <-] _. unfold keeps, services_of in *. by rewrite Hk, E3, E.
  - intros [= <- <-]. by rewrite E3, E.
Qed.

Lemma build_trial_services c customer telegram now w x w' :
  build_trial c customer telegram now w = (Ret x, w') -> tr_success x = false -> services_of w' = services_of w.
Proof.
  unfold build_trial, tried. run_io. rewrite claim_trial_eq.
  destruct (get_next_free_trial_available_at _ _ _ _ _) as [t|]; [by intros [= <- <-]|].
  set (w1 := w {{ db ::= _ }}). assert (H1 : services_of w1 = services_of w) by done. clearbody w1.
  destruct (make_trial _ _ _ _ _ w1) as [y w2] eqn:E. apply make_trial_failed in E. destruct y as [y|e].
  - intros [= <- <-] Hx. by rewrite E.
  - destruct (fail_request _ _ w2) as [z w3] eqn:E3. pose proof (fail_request_services _ _ _ _ _ E3) as Hk.
    injection E3 as <- _. intros [= <- <-] _. unfold keeps in Hk. rewrite Hk, <- H1. unfold services_of. by rewrite E.
Qed.

(** A trial that fails - too soon, refused by the panel, not recordable,
    or stopped by any exception - is answered, never raised, and leaves no
    client, no subscription and no counted place on the server; all that stays
    is, at most, one new request marked failed, which no cooldown counts. *)
Theorem failed_trial_leaves_nothing c customer telegram now w r w' :
  build_trial c customer telegram now w = (r, w') ->
  exists x, r = Ret x /\
    (tr_success x = false -> services_of w' = services_of w /\
      (w' = w \/ exists rpk t, tr_request x = Some rpk /\ free_trials (db w) !! rpk = None /\
                   free_trials (db w') = <[rpk := t]> (free_trials (db w)) /\
                   bool_decide (status t ∈ FREE_TRIAL_COOLDOWN_STATUSES) = false)).
Proof.
  intros E. pose proof (build_trial_inv _ _ _ _ _ _ _ E) as (x & -> & Hx). exists x. split; [done|]. intros Hf.
  split; [by eapply build_trial_services|].
  destruct (get_next_free_trial_available_at _ _ _ _ _) as [t|]; [left; by destruct Hx|right].
  destruct Hx as (Hr & Ho & t & Ht & _ & _ & _ & Hs). rewrite Hf in Hs.
  exists (next_pk (free_trials (db w))), t. split; [done|]. split; [apply next_pk_fresh|]. split.
  - unfold keeps, other_trials in Ho. apply map_eq. intros j. apply (f_equal (fun m => m !! j)) in Ho.
    destruct (decide (next_pk (free_trials (db w)) = j)) as [<-|Hj]; [by rewrite lookup_insert_eq|].
    rewrite !lookup_delete_ne in Ho by done. by rewrite lookup_insert_ne.
  - by rewrite Hs.
Qed.

(** ** The panel client of a trial that could not be recorded *)

Lemma delete_panel_client_xui t w :
  match target_panel (db w) t with Some p => Panel.is_pasarguard p | None => false end = false ->
  exists b, delete_panel_client t w = (Ret b, w {{ calls ::= cons (CallDelete (target_inbound t) (target_uuid t)) }}).
Proof. intros Hp. unfold delete_panel_client. run_io. rewrite Hp. by eexists. Qed.

Definition trial_call (c : trial_config) (customer : option Z) (telegram : string) (rpk : Z) : call :=
  CallCreateTrial rpk (default 0 (tc_inbound c)) (build_trial_client_name customer telegram).

(** No orphan is left on a panel: when the panel made the trial's client
    but the shop could not record it, the client is asked to be deleted again
    straight away - unless a service of the shop already uses that identity,
    which is then left alone. *)
Theorem unrecorded_trial_client_removed c customer telegram rpk now w cr raw x w' ipk i p :
  make_trial c customer telegram rpk now w = (Ret x, w') -> tr_success x = false ->
  create_trial_client_details (calls w) rpk (default 0 (tc_inbound c)) (build_trial_client_name customer telegram)
    = Ret (Some (cr, raw)) ->
  tc_inbound c = Some ipk -> inbounds (db w) !! ipk = Some i -> inbound_panel (db w) i = Some p ->
  Panel.is_pasarguard p = false -> cr_uuid cr <> "" ->
  identity_owned (db w) cr i = true \/
  exists h, calls w' = CallDelete (Some ipk) (cr_uuid cr) :: h /\ trial_call c customer telegram rpk ∈ h.
Proof.
  intros E Hx Ha Hc Hi Hp Hpg Hu. destruct (identity_owned (db w) cr i) eqn:Hown; [by left|right].
  revert E. unfold make_trial, tried. run_io. fold (trial_call c customer telegram rpk).
  set (w1 := w {{ calls ::= cons _ }}). rewrite Ha.
  assert (Hcalls : trial_call c customer telegram rpk ∈ calls w1) by apply list_elem_of_here.
  assert (Hd1 : db w1 = db w) by done. clearbody w1.
  destruct (record_trial _ _ _ _ _ _ _ w1) as [[[cpk cup]|e] w2] eqn:E; [by intros [= <- <-]|].
  assert (Hd2 : db w2 = db w) by (apply atomic_Raise_db in E; congruence).
  assert (Hcalls2 : trial_call c customer telegram rpk ∈ calls w2).
  { apply record_trial_calls in E. unfold keeps in E. by rewrite E. }
  unfold cleanup_panel_trial_client. run_io. rewrite Hd2, Hc. cbn. rewrite Hi, Hown, bool_decide_false by done.
  cbn [orb]. set (tg := TargetClient 0 _).
  destruct (delete_panel_client_xui tg w2) as [b Hb].
  { unfold target_panel, target_inbound. subst tg. cbn. rewrite Hd2, Hc. cbn. by rewrite Hi; cbn; rewrite Hp. }
  rewrite Hb. intros [= <- <-]. cbn. rewrite Hc. by eexists.
Qed.
End Failure.

(** ** Successes *)

Section Success.
Context `{Env} `{TrialLinks}.

Lemma register_links_pure cup cpk links : forall n w r w', register_links cup cpk n links w = (r, w') -> w' = w.
Proof.
  induction links as [|l links IH]; intros n w r w'; cbn; [by intros [= _ <-]|]. run_io.
  destruct (register_config_link _ _ _ _ _); [apply IH|by intros [= _ <-]].
Qed.

Lemma create_cup_Ret rpk cpk client cr raw exp c customer telegram now w cup w' :
  create_free_trial_subscription_cup rpk cpk client cr raw exp c customer telegram now w = (Ret cup, w') ->
  cups (db w) !! cup = None /\ inbounds (db w') = inbounds (db w) /\ calls w' = calls w /\
  (exists s, cups (db w') = <[cup := s]> (cups (db w)) /\ SubscriptionCup.status s = SubscriptionCup.ACTIVE /\
     SubscriptionCup.vpn_client s = Some cpk /\ SubscriptionCup.expires_at s = exp) /\
  exists js, clients (db w') = <[cpk := client {{ VPNClient.sub_link := Some (build_subscription_cup_url cup);
                                          VPNClient.xui_raw := js }}]> (clients (db w)).
Proof.
  unfold create_free_trial_subscription_cup. run_io. case_bool_decide; [done|].
  destruct (_ && bool_decide _); [done|]. set (w1 := w {{ db ::= _ }}).
  destruct (register_links _ _ _ _ w1) as [[u|e] w2] eqn:E; [|done]. apply register_links_pure in E as ->.
  match goal with |- context [match ?x with Ret _ => _ | Raise _ => _ end] => destruct x end; [|discriminate].
  intros [= <- <-]. cbn.
  split; [apply next_pk_fresh|]. split; [done|]. split; [done|]. split; [|by eexists].
  eexists. split; [reflexivity|]. by repeat split.
Qed.

(** The counter of users of the trial's server. *)
Definition users_of (c : trial_config) (d : DB) : option Z :=
  tc_inbound c ≫= fun k => Inbound.current_users <$> inbounds d !! k.

(** What a successful trial delivers: exactly one new client - active, on
    the server of the trial settings, with the volume offered and no order -
    and one new subscription of the shop that serves it, with the request
    delivered and linked to the client, the server's user counter one higher,
    and a single call to the panel. *)
Theorem successful_trial_delivers c customer telegram rpk now w x w' t :
  free_trials (db w) !! rpk = Some t ->
  make_trial c customer telegram rpk now w = (Ret x, w') -> tr_success x = true ->
  exists cpk cup v s, tr_client x = Some cpk /\ tr_cup x = Some cup /\
    (clients (db w) !! cpk = None /\ clients (db w') = <[cpk := v]> (clients (db w)) /\
     VPNClient.status v = VPNClient.ACTIVE /\ VPNClient.order v = None /\ VPNClient.inbound v = tc_inbound c /\
     VPNClient.traffic_limit_bytes v = Z.quot (tc_traffic_gb c * 1024 ^ 3) 1000 /\
     VPNClient.sub_link v = Some (build_subscription_cup_url cup)) /\
    (cups (db w) !! cup = None /\ cups (db w') = <[cup := s]> (cups (db w)) /\
     SubscriptionCup.status s = SubscriptionCup.ACTIVE /\ SubscriptionCup.vpn_client s = Some cpk) /\
    (exists t', free_trials (db w') !! rpk = Some t' /\ status t' = DELIVERED /\ vpn_client t' = Some cpk) /\
    users_of c (db w') = Z.succ <$> users_of c (db w) /\
    calls w' = trial_call c customer telegram rpk :: calls w.
Proof.
  intros Ht. unfold make_trial, tried. run_io. fold (trial_call c customer telegram rpk).
  set (w1 := w {{ calls ::= cons _ }}). assert (Hd : db w1 = db w) by done.
  assert (Hc : calls w1 = trial_call c customer telegram rpk :: calls w) by done. clearbody w1.
  destruct (create_trial_client_details _ _ _ _) as [[[cr raw]|]|e]; [| |done].
  2: { destruct (fail_request _ _ w1) as [[|] ?]; [|done]. by intros [= <- <-]. }
  destruct (record_trial _ _ _ _ _ _ _ w1) as [[[cpk cup]|e] w2] eqn:E.
  2: { destruct (cleanup_panel_trial_client _ _ _ w2) as [[|] w3]; [|done].
       destruct (fail_request _ _ w3) as [[|] ?]; [|done]. by intros [= <- <-]. }
  intros [= <- <-] _. unfold record_trial in E. apply (proj1 (atomic_Ret _ _ _ _)) in E. run_io_in E.
  destruct (uuid_taken _ _); [done|]. set (client := trial_client _ _ _ _ _) in E.
  set (pk := next_pk _) in E.
  assert (Hpk : clients (db w) !! pk = None) by (subst pk; rewrite Hd; apply next_pk_fresh). set (w3 := w1 {{ db ::= _ }}) in E.
  destruct (create_free_trial_subscription_cup _ _ _ _ _ _ _ _ _ _ w3) as [[cup'|e] w4] eqn:E1; [|done].
  pose proof (create_cup_trials _ _ _ _ _ _ _ _ _ _ _ _ _ E1) as Htr.
  apply create_cup_Ret in E1 as (Hf & Hi & Hcalls & (s & Hs & Hst & Hsc & _) & js & Hv).
  injection E as <- <- <-. exists pk, cup'. do 2 eexists. cbn. split; [done|]. split; [done|].
  unfold keeps, trials_of in Htr. cbn in Htr, Hf, Hi, Hcalls, Hs, Hv. rewrite Hd in *.
  split; [|split; [|split; [|split]]].
  - split; [exact Hpk|]. rewrite Hv, insert_insert_eq. split; [reflexivity|]. by repeat split.
  - split; [exact Hf|]. split; [exact Hs|]. by split.
  - rewrite lookup_alter_eq, Htr, Ht. cbn. eexists. by split.
  - unfold users_of. destruct (tc_inbound c) as [k|]; [|done]. cbn.
    rewrite map_lookup_imap, Hi. destruct (inbounds (db w) !! k) as [i|]; [|done]. cbn.
    by rewrite bool_decide_true by (by apply list_elem_of_singleton).
  - by rewrite Hcalls.
Qed.
End Success.

(** ** The sample shop *)

Definition sample_links : TrialLinks := {|
  filter_native_configs := fun l => l; register_config_link := fun _ _ _ _ _ => Ret tt;
  register_feed := fun _ _ _ _ => Ret tt; build_subscription_cup_url := fun k => "cup:" +:+ pretty k |}.

(** The same, with a link store that fails. *)
Definition broken_links : TrialLinks := {|
  filter_native_configs := fun l => l; register_config_link := fun _ _ _ _ _ => Raise (OtherError "down");
  register_feed := fun _ _ _ _ => Ret tt; build_subscription_cup_url := fun k => "cup:" +:+ pretty k |}.

Definition sample_config : trial_config := mk_trial_config (Some 1) true (Some 1) (Some 10) 500 24 30.

Definition trial_shop : World :=
  (@create_free_trial_for_customer sample_env sample_links (mret tt) (Some 101) "77" (Some 1) None 5 sample_shop).2.

Definition first_trial : trial_result := mk_trial_result true TRIAL_READY (Some 1) (Some 1) (Some 1) None.

Lemma sample_trial_run :
  @create_free_trial_for_customer sample_env sample_links (mret tt) (Some 101) "77" (Some 1) None 5 sample_shop
  = (Ret first_trial, trial_shop).
Proof.
  assert (Hr : (@create_free_trial_for_customer sample_env sample_links (mret tt) (Some 101) "77" (Some 1) None 5
                  sample_shop).1 = Ret first_trial) by (vm_compute; reflexivity).
  rewrite <- Hr. unfold trial_shop. apply surjective_pairing.
Qed.

(** The same chat user again, without an account, ten days early. *)
Definition second_trial : result trial_result * World :=
  @create_free_trial_for_customer sample_env sample_links (mret tt) None " 77 " None None
    (20 * VPNClient.day) trial_shop.

Lemma one_trial_per_cooldown_witness :
  exists at_, second_trial.1 = Ret (@too_soon sample_env at_) /\ 20 * VPNClient.day < at_.
Proof.
  assert (Hs : strip " 77 " <> "" /\ strip " 77 " = strip "77") by (split; [intros Hx; discriminate Hx|reflexivity]).
  assert (Hv : @validate_free_trial_settings sample_env (db trial_shop) None None = Ret sample_config)
    by (vm_compute; reflexivity).
  assert (Hn : 20 * VPNClient.day < 5 + tc_cooldown_days sample_config * VPNClient.day) by (vm_compute; reflexivity).
  assert (E2 : @create_free_trial_for_customer sample_env sample_links (mret tt) None " 77 " None None
    (20 * VPNClient.day) trial_shop = (second_trial.1, second_trial.2)) by (unfold second_trial; apply surjective_pairing).
  destruct (@one_trial_per_cooldown sample_env sample_links (mret tt) (Some 101) "77" (Some 1) None 5 sample_shop
    first_trial trial_shop trial_shop (mret tt) None " 77 " None None (20 * VPNClient.day) sample_config
    second_trial.1 second_trial.2 sample_trial_run eq_refl (rtc_refl _ _) (or_intror Hs) Hv Hn E2)
    as (at_ & E & Hat & _).
  exists at_. split; [exact E|exact Hat].
Defined.

Lemma failed_trial_leaves_nothing_witness :
  let run := @build_trial sample_env broken_links sample_config (Some 101) "77" 5 sample_shop in
  services_of run.2 = services_of sample_shop.
Proof.
  intros run. destruct (@failed_trial_leaves_nothing sample_env broken_links sample_config (Some 101) "77" 5 sample_shop
    run.1 run.2 (surjective_pairing _)) as (x & Hx & Hs).
  assert (Hf : run.1 = Ret (no_trial TRIAL_NOT_RECORDED (Some 1))) by (vm_compute; reflexivity).
  rewrite Hf in Hx. injection Hx as <-. exact (proj1 (Hs eq_refl)).
Defined.

Lemma unrecorded_trial_client_removed_witness :
  let run := @make_trial sample_env broken_links sample_config (Some 101) "77" 1 5 sample_shop in
  exists h, calls run.2 = CallDelete (Some 10) "u-trial77" :: h.
Proof.
  intros run. assert (Hf : run.1 = Ret (no_trial TRIAL_NOT_RECORDED (Some 1))) by (vm_compute; reflexivity).
  destruct (@unrecorded_trial_client_removed sample_env broken_links sample_config (Some 101) "77" 1 5 sample_shop
    (sample_result "trial77") [] (no_trial TRIAL_NOT_RECORDED (Some 1)) run.2 10 (sample_inbound 1 3 5)
    (sample_panel Panel.LEGACY_SINGLE_NODE)) as [Ho|(h & Hh & _)].
  - rewrite <- Hf. apply surjective_pairing.
  - reflexivity.
  - reflexivity.
  - reflexivity.
  - reflexivity.
  - reflexivity.
  - reflexivity.
  - discriminate.
  - exfalso. vm_compute in Ho. discriminate Ho.
  - exists h. exact Hh.
Defined.

Lemma successful_trial_delivers_witness :
  let w := (@claim_trial sample_env sample_config (Some 101) "77" 5 sample_shop).2 in
  let run := @make_trial sample_env sample_links sample_config (Some 101) "77" 1 5 w in
  users_of sample_config (db run.2) = Some 6.
Proof.
  intros w run.
  assert (Hr : run.1 = Ret (mk_trial_result true TRIAL_READY (Some 1) (Some 1) (Some 1) None))
    by (vm_compute; reflexivity).
  destruct (free_trials (db w) !! 1) as [t|] eqn:Ht; [|vm_compute in Ht; discriminate Ht].
  destruct (@successful_trial_delivers sample_env sample_links sample_config (Some 101) "77" 1 5 w
    (mk_trial_result true TRIAL_READY (Some 1) (Some 1) (Some 1) None) run.2 t Ht)
    as (cpk & cup & v & s & _ & _ & _ & _ & _ & Hu & _).
  - rewrite <- Hr. apply surjective_pairing.
  - reflexivity.
  - rewrite Hu. vm_compute. reflexivity.
Defined.
