(* ===== verification/InventorySpec.v ===== *)
(** What the inventory of ready-made configurations guarantees: the loops that
    choose assets stop, a summary tells exactly what can be allocated, every
    counter agrees with the allocations that are active, a retried delivery
    allocates only what is missing, and what is allocated can be given back. *)

From S2P Require Import Prelude Models World Numbers Inventory InventoryPicks InventoryLedger.

#[local] Open Scope string_scope.
#[local] Open Scope Z_scope.

Import InventoryPool InventoryAsset.

(** ** A small inventory, for examples *)

Definition sample_pool (mode : mode_t) (limit : option Z) : pool_row := {|
  title := "pool"; connected_plan := Some 1; duration_days := None; allocation_mode := mode;
  max_allocations_per_asset := limit; InventoryPool.is_active := true |}.

Definition sample_asset (pool used created : Z) (s : status_t) : asset_row := {|
  InventoryAsset.pool := pool; raw_link := "vless://" +:+ pretty created; normalized_hash := "0123456789abcdef";
  status := s; expires_at := Some 1000; max_allocations := None; current_allocations := used;
  created_at := created |}.

Definition sample_use (asset : Z) : allocation_row := {|
  Allocation.asset := asset; Allocation.cup := Some 7; Allocation.order := None;
  Allocation.allocation_mode := SHARED_LIMITED; Allocation.status := Allocation.ACTIVE;
  Allocation.allocated_at := 5; Allocation.released_at := None; Allocation.allocation_metadata := ∅ |}.

(** Pool 1 gives each asset once; pool 2 gives each three times, and its asset
    23 has been given once. *)
Definition sample_inventory : World := sample_shop {{ db ::= fun d => d {{
  inventory_pools := {[ 1 := sample_pool EXCLUSIVE None; 2 := sample_pool SHARED_LIMITED (Some 3) ]};
  inventory_assets := {[ 11 := sample_asset 1 0 1 AVAILABLE; 12 := sample_asset 1 0 2 AVAILABLE;
    13 := sample_asset 1 0 3 DISABLED; 22 := sample_asset 2 0 4 AVAILABLE; 23 := sample_asset 2 1 5 ASSIGNED ]};
  config_allocations := {[ 50 := sample_use 23 ]} }} }}.

Definition first_allocation :=
  allocate_assets_from_pool 2 (sample_pool SHARED_LIMITED (Some 3)) 4 (Some 7) None "" 10 sample_inventory.

(** ** Allocation *)

(** An allocation that returns has picked as many assets as were asked
    for, each of them of the pool, usable and not expired - in exclusive mode
    never given before and picked once, in limited mode within what its limit
    leaves; each picked asset is assigned and its counter raised by the number
    of its picks, every other asset is untouched, and each pick has a new
    active allocation beside those there were.  An allocation that raises has
    changed nothing. *)
Theorem allocation_outcome ppk seen quantity cup order text now w r w' :
  allocate_assets_from_pool ppk seen quantity cup order text now w = (r, w') ->
  match r with
  | Raise _ => w' = w
  | Ret res =>
      let d := db w in let d' := db w' in
      (exists p, inventory_pools d !! ppk = Some p /\ requested_mode seen text = Ret (al_mode res) /\
         forall k, k ∈ al_assets res ->
           exists a, pick_allowed d ppk p (al_mode res) now (al_assets res) (k, a)) /\
      len (al_assets res) = quantity /\
      (forall k, inventory_assets d' !! k =
         (fun a => if bool_decide (k ∈ al_assets res) then assigned (occurrences k (al_assets res)) a else a)
           <$> inventory_assets d !! k) /\
      Forall2 (fun j k => config_allocations d !! j = None /\
        exists al, config_allocations d' !! j = Some al /\ Allocation.asset al = k /\ Allocation.cup al = cup /\
          Allocation.order al = order /\ Allocation.status al = Allocation.ACTIVE /\
          Allocation.allocation_mode al = al_mode res) (al_allocations res) (al_assets res) /\
      (forall j al, config_allocations d !! j = Some al -> config_allocations d' !! j = Some al)
  end.
Proof.
  intros [(e & -> & ->)|(p & mode & l & Hp & Hm & Hq & [Hlen Hl] & -> & ->)]%allocate_inv; [done|].
  cbn zeta. cbn [al_mode al_assets al_allocations]. repeat split.
  - exists p. split; [done|]. split; [done|]. intros k ([k' a] & -> & Hin)%list_elem_of_fmap.
    exists a. exact (Hl _ Hin).
  - unfold len. by rewrite length_fmap.
  - intros k. apply recorded_assets.
  - set (row := new_allocation _ _ _ _ _ _). pose proof (fill_rows row l (config_allocations (db w))) as Hrows.
    apply Forall2_fmap_r, Forall2_same_length_lookup. apply Forall2_same_length_lookup in Hrows as [Hs Hrows].
    split; [done|]. intros i j ka Hj Hka. split.
    + eapply fill_fresh, list_elem_of_lookup_2, Hj.
    + exists (row ka). split; [exact (Hrows i j ka Hj Hka)|]. by repeat split.
  - intros j al. apply fill_old.
Qed.

Lemma allocation_outcome_witness :
  exists res, first_allocation.1 = Ret res /\ len (al_assets res) = 4.
Proof.
  pose proof (allocation_outcome 2 (sample_pool SHARED_LIMITED (Some 3)) 4 (Some 7) None "" 10
    sample_inventory first_allocation.1 first_allocation.2) as H.
  destruct first_allocation.1 as [res|e] eqn:E.
  - exists res. split; [done|]. apply H. rewrite <- E. apply surjective_pairing.
  - vm_compute in E. discriminate E.
Defined.

(** C39: The loops that choose assets stop: with fuel for one turn per asset
    asked for, or more, every selection ends - with exactly the assets asked
    for, or refusing for lack of stock. *)
Theorem selection_terminates fuel d ppk p mode quantity now :
  1 <= quantity -> (selection_fuel quantity <= fuel)%nat ->
  exists r, select_assets fuel d ppk p mode quantity now = Some r /\
    match r with
    | Ret l => len l = quantity
    | Raise e => exists available, e = InsufficientInventoryStock (title p) quantity available /\ available < quantity
    end.
Proof.
  intros Hq Hf. pose proof (select_assets_spec d ppk p mode quantity now fuel Hq Hf) as H.
  destruct (capacity d ppk p mode now) as [c|]; cbn in H.
  - destruct (Z.ltb_spec c quantity) as [Hc|].
    + rewrite H. eexists. split; [done|]. by exists c.
    + destruct H as (l & -> & Hl & _). by exists (Ret l).
  - destruct H as (l & -> & Hl & _). by exists (Ret l).
Qed.

Lemma selection_terminates_witness :
  exists r, select_assets 4 (db sample_inventory) 2 (sample_pool SHARED_LIMITED (Some 3)) SHARED_LIMITED 4 10 = Some r
    /\ match r with
       | Ret l => len l = 4
       | Raise e => exists available, e = InsufficientInventoryStock "pool" 4 available /\ available < 4
       end.
Proof.
  apply (selection_terminates 4 (db sample_inventory) 2 (sample_pool SHARED_LIMITED (Some 3)) SHARED_LIMITED 4 10);
    [lia|reflexivity].
Defined.

(** ** The summary *)

Lemma rows_snd {V} (q : V -> bool) (t : gmap Z V) :
  (rows_where (fun _ => q) t).*2 = filter (fun v => Is_true (q v)) (map_to_list t).*2.
Proof.
  unfold rows_where. induction (map_to_list t) as [|[k v] l IH]; [done|].
  rewrite fmap_cons, !filter_cons. cbn. case_decide; [by rewrite fmap_cons, IH|exact IH].
Qed.

Lemma filter_bools {V} (q1 q2 : V -> bool) (l : list V) :
  filter (fun v => Is_true (q2 v)) (filter (fun v => Is_true (q1 v)) l)
  = filter (fun v => Is_true (q1 v && q2 v)) l.
Proof. rewrite list_filter_filter. apply list_filter_iff. intros v. rewrite !Is_true_true, andb_true_iff. tauto. Qed.

Lemma filter_bool_ext {V} (q1 q2 : V -> bool) (l : list V) :
  (forall v, q1 v = q2 v) -> filter (fun v => Is_true (q1 v)) l = filter (fun v => Is_true (q2 v)) l.
Proof. intros H. apply list_filter_iff. intros v. by rewrite H. Qed.

Definition usable_assets (d : DB) (ppk now : Z) : list asset_row :=
  filter (fun a => Is_true (in_use_or_available a && not_expired now a)) (pool_assets d ppk).

Lemma shared_candidates_usable d ppk now : (shared_candidates d ppk now).*2 ≡ₚ usable_assets d ppk now.
Proof.
  unfold shared_candidates, order_by, usable_assets, pool_assets.
  rewrite (merge_sort_Permutation (key_le _)), !rows_snd, filter_bools.
  apply Permutation_refl', filter_bool_ext. intros a. by rewrite andb_assoc.
Qed.

Lemma exclusive_candidates_usable d ppk now :
  len (exclusive_candidates d ppk now) = len (filter (fun a => status a = AVAILABLE) (usable_assets d ppk now)).
Proof.
  unfold len. f_equal.
  transitivity (length (exclusive_candidates d ppk now).*2); [by rewrite length_fmap|].
  apply Permutation_length. unfold exclusive_candidates, order_by, usable_assets, pool_assets.
  rewrite (merge_sort_Permutation (key_le _)), !rows_snd, filter_bools.
  transitivity (filter (fun a => Is_true (bool_decide (status a = AVAILABLE)))
    (filter (fun a => Is_true (bool_decide (pool a = ppk) && (in_use_or_available a && not_expired now a)))
      (map_to_list (inventory_assets d)).*2)).
  - rewrite filter_bools. apply Permutation_refl', filter_bool_ext. intros a.
    unfold in_use_or_available. destruct (bool_decide_reflect (status a = AVAILABLE)) as [->|]; cbn.
    + by rewrite !andb_true_r.
    + by rewrite !andb_false_r.
  - apply Permutation_refl', list_filter_iff. intros a. by rewrite Is_true_true, bool_decide_eq_true.
Qed.

#[local] Instance limited_capacity_Permutation p : Proper ((≡ₚ) ==> eq) (limited_capacity p).
Proof.
  intros l l' Hl. induction Hl as [|a l l' _ IH|a b l|l1 l2 l3 _ IH1 _ IH2].
  - done.
  - by rewrite !limited_capacity_cons, IH.
  - rewrite !limited_capacity_cons.
    destruct (asset_allocation_limit a p), (asset_allocation_limit b p), (limited_capacity p l); try done.
    f_equal. lia.
  - by rewrite IH1.
Qed.

Lemma summary_capacity d ppk p now :
  available_capacity (get_pool_stock_summary d ppk p now) = capacity d ppk p (allocation_mode p) now.
Proof.
  unfold get_pool_stock_summary, available_of. cbn. fold (usable_assets d ppk now).
  destruct (allocation_mode p); cbn.
  - by rewrite exclusive_candidates_usable.
  - by rewrite shared_candidates_usable.
  - rewrite (bool_decide_ext (shared_candidates d ppk now = []) (usable_assets d ppk now = [])); [done|].
    pose proof (shared_candidates_usable d ppk now) as Hperm. split.
    + intros E. rewrite E in Hperm. by apply Permutation_nil in Hperm.
    + intros E. rewrite E in Hperm. by apply Permutation_nil_r, fmap_nil_inv in Hperm.
Qed.

(** C23: The stock summary tells exactly what can be allocated: a request on an
    active pool in its own mode succeeds if and only if the summary's capacity
    is unbounded or at least the quantity asked for; otherwise it is refused
    with precisely that capacity. *)
Theorem stock_summary_exact ppk p quantity cup order now w :
  inventory_pools (db w) !! ppk = Some p -> InventoryPool.is_active p = true -> 1 <= quantity ->
  let summary := get_pool_stock_summary (db w) ppk p now in
  let answer := (allocate_assets_from_pool ppk p quantity cup order "" now w).1 in
  match available_capacity summary with
  | Some c => if c <? quantity then answer = Raise (InsufficientInventoryStock (title p) quantity c)
              else is_ret answer = true
  | None => is_ret answer = true
  end.
Proof.
  intros Hp Ha Hq. cbn zeta. rewrite summary_capacity.
  pose proof (allocate_run ppk p cup order "" now quantity w p (allocation_mode p) Hq eq_refl Ha Hp) as H.
  cbn zeta in H. destruct (capacity _ _ _ _ _) as [c|]; cbn [short_of default] in H.
  - destruct (c <? quantity); [by rewrite H|]. by destruct H as (l & -> & _).
  - by destruct H as (l & -> & _).
Qed.

Lemma stock_summary_exact_witness :
  available_capacity (get_pool_stock_summary (db sample_inventory) 2 (sample_pool SHARED_LIMITED (Some 3)) 10) = Some 5 /\
  (allocate_assets_from_pool 2 (sample_pool SHARED_LIMITED (Some 3)) 6 None (Some 1000) "" 10 sample_inventory).1
  = Raise (InsufficientInventoryStock "pool" 6 5).
Proof.
  assert (Hc : available_capacity (get_pool_stock_summary (db sample_inventory) 2
    (sample_pool SHARED_LIMITED (Some 3)) 10) = Some 5) by (vm_compute; reflexivity).
  split; [done|].
  pose proof (stock_summary_exact 2 (sample_pool SHARED_LIMITED (Some 3)) 6 None (Some 1000) 10
    sample_inventory eq_refl eq_refl ltac:(lia)) as H.
  cbn zeta in H. rewrite Hc in H. exact H.
Defined.

(** ** Invariants of every operation *)

(** C24: Wherever allocations, selections by hand, deliveries and releases
    lead, an asset's counter is the number of its active allocations, an
    available asset has none and an assigned one has some. *)
Theorem inventory_stays_balanced w w' :
  ledger_balanced (db w) -> rtc inventory_step w w' -> ledger_balanced (db w').
Proof.
  apply inventory_invariant.
  - intros. by apply recorded_balanced.
  - intros label number pks d [Hc Hf Hu]. split; cbn; intros k a Hk; [|by eapply Hf|by eapply Hu].
    rewrite (Hc k a Hk). symmetry. by apply count_where_relabelled.
  - intros. by apply give_back_balanced.
Qed.

(** C40: The rows stay well typed: every allocation is of a known asset, every
    asset in a known pool, counters (positive integer columns) never go below
    zero, and an allocation bears the time of its release exactly when it is
    released. *)
Theorem inventory_stays_typed w w' :
  rows_typed (db w) -> rtc inventory_step w w' -> rows_typed (db w').
Proof.
  apply inventory_invariant.
  - intros. by apply recorded_typed.
  - intros label number pks d [Hk Hp Hc Hr]. split; cbn; [|done|done|];
      intros j al; rewrite lookup_relabelled; intros (bl & Hj & ->)%fmap_Some_1;
      case_bool_decide; cbn; first [exact (Hk _ _ Hj)|exact (Hr _ _ Hj)].
  - intros. by apply give_back_typed.
Qed.

Lemma sample_balanced : ledger_balanced (db sample_inventory).
Proof.
  split; intros k a Hk; cbn in Hk; repeat rewrite lookup_insert_Some in Hk; rewrite ?lookup_singleton_Some in Hk;
    destruct Hk as [[<- <-]|(_ & [[<- <-]|(_ & [[<- <-]|(_ & [[<- <-]|(_ & [<- <-])])])])]; done.
Qed.

Lemma inventory_stays_balanced_witness : ledger_balanced (db first_allocation.2).
Proof.
  apply (inventory_stays_balanced sample_inventory); [exact sample_balanced|].
  apply rtc_once, (step_allocate _ 2 (sample_pool SHARED_LIMITED (Some 3)) 4 (Some 7) None "" 10 first_allocation.1).
  exact (surjective_pairing first_allocation).
Defined.

Lemma sample_typed : rows_typed (db sample_inventory).
Proof.
  split.
  - intros j al Hk. cbn in Hk. apply lookup_singleton_Some in Hk as [<- <-]. by eexists.
  - intros k a Hk; cbn in Hk; repeat rewrite lookup_insert_Some in Hk; rewrite ?lookup_singleton_Some in Hk;
      destruct Hk as [[<- <-]|(_ & [[<- <-]|(_ & [[<- <-]|(_ & [[<- <-]|(_ & [<- <-])])])])]; by eexists.
  - intros k a Hk; cbn in Hk; repeat rewrite lookup_insert_Some in Hk; rewrite ?lookup_singleton_Some in Hk;
      destruct Hk as [[<- <-]|(_ & [[<- <-]|(_ & [[<- <-]|(_ & [[<- <-]|(_ & [<- <-])])])])]; done.
  - intros j al Hk. cbn in Hk. apply lookup_singleton_Some in Hk as [<- <-]. cbn. split; [done|by intros []].
Qed.

Definition source_run :=
  source_allocations 1000 5 2 (sample_pool SHARED_LIMITED (Some 3)) 3 20 sample_inventory.

Lemma inventory_stays_typed_witness : rows_typed (db source_run.2).
Proof.
  apply (inventory_stays_typed sample_inventory); [exact sample_typed|].
  apply rtc_once, (step_source _ 1000 5 2 (sample_pool SHARED_LIMITED (Some 3)) 3 20 source_run.1).
  exact (surjective_pairing source_run).
Defined.

(** ** Deliveries picked up again *)

(** A delivery from a pool that is run again - after a failure elsewhere,
    from another copy of the pool, at another time - allocates nothing more:
    it finds the allocations of the first run, as many as were wanted, and
    changes nothing.  This holds for the sources of a plan's delivery and for
    the rules of a cup's recipe. *)
Theorem retried_delivery_allocates_nothing order number ppk seen seen' quantity now now' w w' pks :
  (source_allocations order number ppk seen quantity now w = (Ret pks, w') ->
   exists again, source_allocations order number ppk seen' quantity now' w' = (Ret again, w') /\
     again ≡ₚ pks /\ quantity <= len pks) /\
  (forall cup text, rule_allocations order cup number ppk seen quantity text now w = (Ret pks, w') ->
   exists again, rule_allocations order cup number ppk seen' quantity text now' w' = (Ret again, w') /\
     again ≡ₚ pks /\ quantity <= len pks).
Proof.
  assert (Hlen : forall l : list Z, (if quantity =? 0 then 1 else quantity) <= len l -> quantity <= len l)
    by (intros l; destruct (Z.eqb_spec quantity 0); lia).
  split; [|intros cup text]; intros E; unfold source_allocations, rule_allocations in E |- *;
    (apply allocate_missing_found in E as [Hperm Hq];
      [|intros; first [apply source_label_mine|apply rule_label_mine]]);
    (eexists; rewrite allocate_missing_done; [split; [done|]; auto|]);
    by rewrite (Permutation_length Hperm : len _ = len _) || (unfold len in *; by rewrite Hperm).
Qed.

Lemma retried_delivery_allocates_nothing_witness :
  exists pks again, source_run.1 = Ret pks /\
    source_allocations 1000 5 2 (sample_pool SHARED_LIMITED (Some 3)) 3 30 source_run.2 = (Ret again, source_run.2) /\
    again ≡ₚ pks.
Proof.
  destruct source_run.1 as [pks|e] eqn:E; [|vm_compute in E; discriminate E].
  destruct (proj1 (retried_delivery_allocates_nothing 1000 5 2 (sample_pool SHARED_LIMITED (Some 3))
    (sample_pool SHARED_LIMITED (Some 3)) 3 20 30 sample_inventory source_run.2 pks)) as (again & H & Hp & _).
  - rewrite <- E. apply surjective_pairing.
  - by exists pks, again.
Defined.

(** ** Giving back *)

Lemma next_pk_pos {V} (t : gmap Z V) : 1 <= next_pk t.
Proof.
  unfold next_pk. induction t as [|i x m Hi Hf IH] using map_first_key_ind; [done|].
  rewrite map_fold_insert_first_key by done. lia.
Qed.

(** An asset assigned once more and given back once is as it was. *)
Lemma given_back_assigned a :
  0 <= current_allocations a -> in_use_or_available a = true ->
  (status a = AVAILABLE -> current_allocations a = 0) -> (status a = ASSIGNED -> 0 < current_allocations a) ->
  given_back (0 <? current_allocations a) (assigned 1 a) = a.
Proof.
  unfold in_use_or_available. intros Hn [Hs|[Hs|[]%not_elem_of_nil]%elem_of_cons]%bool_decide_eq_true%elem_of_cons Hf Hu;
    destruct a; cbn in *; subst; unfold given_back, assigned; cbn.
  - rewrite Hf by done. done.
  - specialize (Hu eq_refl). rewrite (proj2 (Z.ltb_lt 0 _)) by done. cbn. f_equal. lia.
Qed.

(** An item that names one active allocation of its cup gives that one back. *)
Lemma release_named_run cup md lmd now w j al a :
  md !! "allocation_id" = Some (JNum j) -> j <> 0 ->
  config_allocations (db w) !! j = Some al -> Allocation.cup al = Some cup ->
  Allocation.status al = Allocation.ACTIVE -> inventory_assets (db w) !! Allocation.asset al = Some a ->
  release_inventory_allocation_for_cup_item cup md lmd now w
  = (Ret 1, w {{ db ::= give_back now j al a }}).
Proof.
  intros Hmd Hj Hal Hcup Hs Ha. unfold release_inventory_allocation_for_cup_item.
  assert (Ht : truthy (JNum j) = true) by (cbn; by rewrite (proj2 (Z.eqb_neq j 0))).
  cbn [item_inventory_identity]. unfold md_truthy at 1. rewrite Hmd, Ht. cbn [orb json_truthy]. rewrite Ht.
  cbn [negb andb key_of_json mbind result_bind].
  unfold atomic, get_db, mbind, M_bind, liftR.
  set (test := fun pk al => bool_decide (Allocation.cup al = Some cup)
        && bool_decide (Allocation.status al = Allocation.ACTIVE) && bool_decide (pk = j)).
  assert (Hrows : allocations_where test (db w) = [(j, al)]).
  { apply Permutation_singleton_r, NoDup_Permutation.
    - eapply (NoDup_fmap_1 fst), order_by_NoDup, rows_where_NoDup.
    - apply NoDup_singleton.
    - intros [i bl]. rewrite allocations_where_elem, list_elem_of_singleton. unfold test.
      rewrite !andb_true_iff, !bool_decide_eq_true. split; [intros (Hi & _ & ->); congruence|].
      intros [= -> ->]. done. }
  rewrite Hrows. cbn [for_each]. unfold mbind, M_bind. rewrite (release_one_run now j al a w Ha). reflexivity.
Qed.

(** C27: What is allocated can be given back: after allocating one asset to a
    cup, in any mode, releasing the item that names the allocation releases
    exactly that one, dated, and leaves every asset - status and counter - as
    it was before the allocation. *)
Theorem allocate_release_roundtrip ppk seen cup order text now now' w res w1 j md lmd :
  ledger_balanced (db w) ->
  allocate_assets_from_pool ppk seen 1 (Some cup) order text now w = (Ret res, w1) ->
  al_allocations res = [j] -> md !! "allocation_id" = Some (JNum j) ->
  let run := release_inventory_allocation_for_cup_item cup md lmd now' w1 in
  run.1 = Ret 1 /\ inventory_assets (db run.2) = inventory_assets (db w) /\
  config_allocations (db run.2) = alter (released now') j (config_allocations (db w1)).
Proof.
  intros [Hc Hf Hu] [(e & [=] & _)|(p & mode & l & _ & _ & _ & [Hlen Hl] & Hres & ->)]%allocate_inv Hj Hmd.
  cbn zeta. injection Hres as ->. cbn [al_allocations] in Hj.
  set (row := new_allocation _ _ _ _ _ _) in *. set (t := config_allocations (db w)) in *.
  destruct l as [|[k a] [|? ?]]; [done| |unfold len in Hlen; cbn in Hlen; lia].
  destruct (Hl (k, a)) as (Hk & _ & Hin & _); [left|]. cbn in Hk, Hin, Hj. injection Hj as <-.
  assert (Hone : occurrences k [(k, a)].*1 = 1) by (cbn; by rewrite occurrences_cons, bool_decide_true).
  assert (Hafter : forall i, inventory_assets (recorded row [(k, a)] (db w)) !! i
    = if bool_decide (i = k) then Some (assigned 1 a) else inventory_assets (db w) !! i).
  { intros i. unfold row. rewrite recorded_assets. case_bool_decide as Hi.
    - apply list_elem_of_singleton in Hi. cbn in Hi. subst i. by rewrite Hone, Hk, bool_decide_true.
    - rewrite bool_decide_false; [by destruct (inventory_assets (db w) !! i)|]. intros ->. apply Hi. left. }
  rewrite (release_named_run cup md lmd now' _ (next_pk t) (row (k, a)) (assigned 1 a)); [|done|..].
  - split; [done|]. split; [|reflexivity].
    change (inventory_assets (give_back now' (next_pk t) (row (k, a)) (assigned 1 a) (recorded row [(k, a)] (db w)))
            = inventory_assets (db w)).
    rewrite give_back_assets, give_back_uses; [|apply lookup_insert_eq|done].
    rewrite (recorded_uses "inventory_pool" ppk mode (Some cup) order now). change (Allocation.asset (row (k, a))) with k.
    rewrite Hone, bool_decide_true by done. cbn [Z.b2z]. rewrite Z.add_simpl_r, <- (Hc k a Hk).
    rewrite given_back_assigned; [|rewrite (Hc k a Hk); apply count_where_nonneg|done|by apply (Hf k)|by apply (Hu k)].
    apply map_eq. intros i. rewrite lookup_insert. case_decide as Hi; [by subst i|].
    rewrite Hafter, bool_decide_false; [done|congruence].
  - pose proof (next_pk_pos t). lia.
  - apply lookup_insert_eq.
  - done.
  - done.
  - change (inventory_assets (recorded row [(k, a)] (db w)) !! k = Some (assigned 1 a)).
    by rewrite Hafter, bool_decide_true.
Qed.

Definition cup_allocation :=
  allocate_assets_from_pool 1 (sample_pool EXCLUSIVE None) 1 (Some 7) None "" 10 sample_inventory.

Lemma allocate_release_roundtrip_witness :
  inventory_assets (db (release_inventory_allocation_for_cup_item 7 {[ "allocation_id" := JNum 51 ]} None 20
    cup_allocation.2).2) = inventory_assets (db sample_inventory).
Proof.
  destruct cup_allocation.1 as [res|e] eqn:E; [|vm_compute in E; discriminate E].
  apply (allocate_release_roundtrip 1 (sample_pool EXCLUSIVE None) 7 None "" 10 20 sample_inventory res
    cup_allocation.2 51 {[ "allocation_id" := JNum 51 ]} None sample_balanced).
  - rewrite <- E. apply surjective_pairing.
  - vm_compute in E. injection E as <-. reflexivity.
  - reflexivity.
Defined.
